(* ===== verification/_CoqProject ===== *)
-Q . S2P
Prelude.v
ClkFramework.v
ClkCounts.v
ClkEnable.v
ClkClients.v
ClkRates.v
CrmRegs.v
Mx27ClockTable.v
Mx27Clock.v
Mx27ClockLaws.v
Mx27Rates.v
Mx27Tree.v
Mx27Boot.v
Mx27Init.v
Mx27SetRate.v
Mx27Witness.v
IrqGpio.v
GpioPins.v
GpioIrq.v
GpioInit.v
GpioFlows.v
BoardCalls.v
Board.v
BoardMain.v
BoardWitness.v
DmaTable.v
Dma.v
DmaRing.v
DmaSteps.v
DmaChannel.v
DmaSetup.v
DmaInv.v
DmaOps.v
DmaQueue.v
DmaTransfer.v
DmaClient.v
DmaRequest.v
DmaSystem.v
DmaMain.v
DmaRuns.v
DmaClock.v
DmaWitness.v
Opl.v
OplCopy.v
OplRotate.v
OplMirror.v
OplImage.v
OplMain.v
OplWitness.v
Otg.v
OtgFsm.v
OtgStep.v
OtgInv.v
OtgTimers.v
OtgSettle.v
OtgRegs.v
OtgMain.v
OtgWitness.v
Rtc.v
RtcCalendar.v
RtcClock.v
RtcAlarm.v
RtcMain.v
RtcWitness.v
I2c.v
I2cTrace.v
I2cBus.v
I2cTurn.v
I2cLive.v
I2cClock.v
I2cMain.v
I2cWitness.v
I2cSmbus.v
I2cPec.v
I2cRequest.v
I2cSmbusMain.v
I2cSmbusWitness.v
HwEvent.v
HwEventList.v
HwEventMain.v
