(* ===== verification/Prelude.v ===== *)
(** * Verification of the i.MX27 platform code: root of the development

    The program is the Linux port for the Freescale i.MX27 (and its MDK27V0 board).
    Modelled are the platform's own cores, in [arch/arm/plat-mxc],
    [arch/arm/mach-mx27], the interrupt code they plug into, the pins of the board,
    the image rotation library of the video drivers, the USB On-The-Go driver, the
    real time clock, the I2C bus driver and the hardware event queue.  Everything is executable: a C function
    is a function in the state and error monad [M] of this file, pointers are
    indices or identifiers into an explicit store, registers are a map from
    addresses to 32-bit values, machine integers are [Z] with their wrap-around
    ([u32], [s32]) written where the code can reach it, and a NULL dereference, a
    [BUG()], a division by zero, a bad memory access or an endless busy-wait is an
    explicit fault.

    ** Parts and files

    - [Prelude]: the monad, its weakest preconditions [wp] and [wlp], 32-bit
      arithmetic and bit lemmas, list lemmas, hints and tactics.

    - The clock framework, [plat-mxc/clock.c].  [ClkFramework] has every function
      of the clock API over a class of machines ([ClkSig]: clock objects and
      hardware; [ClkMethods]: what the method pointers of [struct clk] do).
      [ClkCounts] states the accounting invariant of the use counts, [ClkEnable]
      proves that enabling and disabling keep it, [ClkClients] lifts that to runs
      of clients (C1, C3 to C5), [ClkRates] treats [propagate_rate].  The theorems
      assume of the machine only the classes [EnableLaws] and [RecalcLaws].

    - The i.MX27 clock tree, [mach-mx27/clock.c], [crm_regs.h] and [cpu.c].
      [CrmRegs] is the register map, [Mx27ClockTable] the clock objects with their
      static initialisers, [Mx27Clock] the methods and the initialisation.
      [Mx27ClockLaws] discharges the framework's classes, [Mx27Tree] is the
      invariant of the tree's shape, [Mx27Boot] and [Mx27Init] prove the bring-up
      (C6), [Mx27Rates] treats rates and dividers (C7, C10), [Mx27SetRate] the
      calls that change a rate or a parent on the running board (C34, C35),
      [Mx27Witness] instantiates the theorems on a booted board and on a two-clock
      machine with a method that fails.

    - Interrupts and GPIO: [plat-mxc/irq.c], [plat-mxc/gpio.c],
      [mach-mx27/gpio_mux.c] and the flow handlers of [kernel/irq/chip.c].
      [IrqGpio] has the code.  [GpioPins] has one abstract record per pin and the
      refinement theorem (C14), with the pin names that are not valid, [GpioIrq] the
      cascade and the level flow (C15, C16), [GpioInit] the bring-up (C17),
      [GpioFlows] connects the kernel's flow handlers to the cascade theorem.

    - The pins of the board, [mach-mx27/mx27mdk27v0_gpio.c].  [BoardCalls] has each
      function as the sequence of pin operations it performs, for every
      configuration of the board ([config]), over the code of [IrqGpio]; [Board]
      refines a sequence to what it does to each pin, through the abstract pins of
      [GpioPins]; [BoardMain]: devices that share no pin can be set up together (C40),
      and what is left when a device is given back (C13); [BoardWitness].

    - The DMA driver, [plat-mxc/dma_mx2.c] and [mach-mx27/dma.c].  [DmaTable] has
      the parameter blocks, [Dma] the driver, written against the class
      [ClkProvider].  [DmaRing]: the ring is a queue.  [DmaSteps], [DmaChannel],
      [DmaSetup]: one channel and its registers.  [DmaInv], [DmaOps], [DmaQueue],
      [DmaTransfer], [DmaClient], [DmaRequest]: each operation acts on the abstract
      channel as specified.  [DmaSystem], [DmaMain], [DmaRuns]: the driver's
      invariant over whole runs and the theorems (C20 to C25, C28).  [DmaClock] shows that
      the clock framework on the i.MX27 tree satisfies [ClkLaws], the driver's
      assumptions about clocks; [DmaWitness] runs the driver on the booted board.

    - The rotation library, [drivers/media/video/mxc/opl].  [Opl] has the seven
      entry points with their loops and inline assembly over a byte memory.
      [OplCopy], [OplRotate], [OplMirror]: the loops copy pixels to their places.
      [OplImage], [OplMain]: equivalence with the reference placement, errors,
      round trips and composition (C30 to C33); [OplWitness]: concrete images.

    - USB On-The-Go, [drivers/usb/otg/otg_fsm.c] and [fsl_otg.c].  [Otg] has the role
      state machine, the transceiver operations, the software timers, registration
      and the ID interrupt; the host and gadget drivers it calls through pointers are
      a parameter ([ext]), of which the theorems assume that their methods succeed.
      [OtgFsm] and [OtgStep] reduce a call of the machine to a pure transition
      function, up to an equivalence that ignores the registers; [OtgInv] has the
      outputs of each state, [OtgTimers] the walk over the timer list,
      [OtgSettle] repeated calls with the inputs held.  [OtgRegs] then follows the two
      register bits behind the outputs, the port power bit and the pull-up bit, through
      every operation, for drivers whose methods leave them alone ([leaves_bits]; the
      methods of the host driver under [drivers/usb/host] save and restore the port's
      register, and what a reset of the controller does to the registers is not modelled).
      [OtgMain] has the theorems (C37 to C39), [OtgWitness] their instances.

    - The real time clock, [drivers/char/mxc_rtc.c], with the calendar of
      [drivers/rtc/rtc-lib.c] and [kernel/time.c] and the interface of
      [arch/arm/common/rtctime.c].  [Rtc] has the code and the counters, which run on
      while the driver accesses them; the external clock chip is a parameter.
      [RtcCalendar]: the conversions against the definition of the calendar (C11).
      [RtcClock]: reading and setting counters that move (C12).  [RtcAlarm]: the alarm
      (C18).  [RtcMain] has the theorems, [RtcWitness] their instances.

    - The I2C bus driver, [drivers/i2c/busses/mxc_i2c.c], with the transfer calls of
      [drivers/i2c/i2c-core.c].  [I2c] has the code over a controller that is a class
      ([I2cHw]: an arbitrary state machine with registers, time and interrupts) and
      records every access.  [I2cTrace]: what holds on any controller.  [I2cBus]: the
      accesses read as events on the bus, followed through a transfer, on a controller
      that keeps its control register ([ControlKept]).  [I2cTurn]: a write after a read.
      [I2cLive]: transfers on a bus that answers ([Answers]).  [I2cClock]: the driver's
      clock calls run on the clock framework of [ClkClients] and [Mx27Init].  [I2cMain]
      has the theorems (C2, C8, C9, C19, C26, C36), [I2cWitness] a controller that
      satisfies the classes, with their instances.  [I2cSmbus] has the SMBus emulation of
      the core on top of the driver and its client calls, [I2cPec] the packet error code
      against polynomial division, [I2cRequest] what the protocol asks of the bus and the
      messages prepared for it, [I2cSmbusMain] the theorem (C29), [I2cSmbusWitness] its instance.

    - The hardware event queue, [drivers/mxc/hw_event/mxc_hw_event.c], over the linked
      lists of [include/linux/list.h].  [HwEvent] has the code pointer by pointer,
      [HwEventList] the lists, [HwEventMain] the invariant of every interleaving of
      senders and thread (C27).

    ** What the groups of theorems show

    Clock counts are exact, independent of the history, and rolled back on errors
    (C1, C3 to C5), as long as clients stay within what a count of eight bits can hold; beyond
    that the count wraps (C1).  Bring-up returns from any register contents and establishes the
    invariants the later theorems start from (C6, C17, [dma_bring_up]).  A rate that is set is
    what the divider then says, where the code is right; where it is not, the
    theorem states what happens instead (C7, C10, and the lemmas
    [perclkx_round_then_set], [vpu_set_rate_correct], [perclkx_round_loses_rate],
    [cpu_set_rate_misses_cscr] and [clko_recalc_ignores_divider]); a rate change keeps every clock of the running
    board in step with its parent (C34, C35, for the clocks whose methods are right: not the
    CPU clock, the output pin and, on the first silicon, the VPU clock), a change of parent does not move the
    use counts ([clk_set_parent_moves_no_count]).  Pins and DMA channels refine abstract
    machines in which they are independent (C14, C20), so that whole devices are (C13, C40).  Interrupt handlers
    serve exactly what is pending (C15, C16, C23, C25).  Safety of the DMA driver in
    every reachable state and its clock references (C21, C22), and the two defects of its
    disabling and error paths ([dma_disable_leaks_clock], [dma_error_drops_queue]).
    The OTG machine's outputs follow its state, and the registers follow them while the ID pin is held (C37), it comes to rest but for the loops the theorem names (C38), and
    the ID interrupt switches the role, in the record and in the registers (C39).  Dates and seconds are converted exactly
    (C11), the running clock is read and set without torn values, up to the end of 32-bit seconds in 2106 (C12), and an alarm
    is programmed for the next time at its hour, minute and second (C18).  An I2C transfer
    of writes and at most one read, to seven bit addresses and of one byte or more where it is
    a read, was on the bus as its messages say if it is reported complete (C2), and is complete
    when the bus answers (C9); a read of no bytes and a ten bit address are not what they
    seem (the examples of [I2cWitness]); on any hardware it accesses registers only with its clock
    enabled and gives the clock back (C8) and keeps its messages well-formed (C19); a write
    after a read never succeeds (C26); the divider of the bus clock is the best of the
    table (C36).  An SMBus request is the transaction of the protocol, packet error code
    included, and returns what was received (C29).  The event queue loses neither nodes nor events (C27).

    ** Interleaving, fuel and bounds

    Client calls, interrupts and hardware events are steps of runs and may come in
    any order; one call or handler is one step (the code disables interrupts or is
    itself the handler), so an interrupt inside a queueing call is not considered.  In the
    I2C driver, which waits for interrupts in the middle of a transfer, they come in at
    every access and every wait; the thread of the event queue is cut into steps at the
    places where it does not hold the lock.

    Recursion along the clock tree takes the number of clock objects plus one as
    fuel ([tree_fuel]); the theorems show that it suffices, since links lead to
    clocks of lower rank ([Mx27Tree]), and [OutOfFuel] is never the result.  The
    wait for the serial PLL polls a bounded number of times and is [Hang]
    otherwise; the bring-up theorem assumes that the PLL locks.  The loop of
    [handle_edge_irq] takes its fuel as a parameter.  The walk over the OTG timers
    has fuel for 32 steps; C37 shows that it is enough (there are ten timers and each
    is put back at most once).  The reset of the USB controller is a parameter, [Hang]
    when it does not end; the theorems assume that it ends.  The loops of the real time
    clock against roll-over have one round per access at which the clock may move, and
    one more; C12 shows that they end within these.  The I2C driver's polling loops have
    the code's own limits, so that transfers end on any hardware (C19); its wait in suspend
    has none, and takes its fuel as a parameter.  All other loops are structural.
    Use counts are bounded by hypotheses where the code's [__s8]-sized counter could wrap: the
    steps of [client_step] take a further hold only within the limit that C1 states, those of
    [board_step] only up to 27 holds of a clock.

    ** Not modelled

    Code that only prints ([/proc] files, the register dump of the DMA driver) and code
    compiled out in this configuration (DMA power management, the EDIO functions of the
    interrupt controller); locks, which have no effect on a step; the QCIF assembly
    routines of the rotation library, which are not in the tree and enter as parameters.
    Of the DMA controller: the flag [RPT] that the hardware clears by itself ([armed]
    speaks of the registers as last written) and the self-clearing reset bit.  Of the
    board: delays, the SDIO interrupt chip, the write-protect switch and the power rails.
    Of the OTG driver: probing, removal and the character device; the ID interrupt is treated by
    itself (C39), not as a step of the runs of C37.  Of the real time clock:
    the blocking read, suspend and resume.  Of the I2C driver: an interrupt inside an
    interrupt handler; of the I2C core: the registration of adapters, drivers and clients,
    and detection.  Of the event queue: signals, and the end of the module.  The other
    drivers of the port (timer, power management, the USB transceiver set-up, watchdog,
    serial ports, storage, display, sound, security) and the vendored upstream kernel are
    listed with the reasons in the manifest. *)

From stdpp Require Import base gmap list strings.
From Stdlib Require Import ZArith Lia.

#[global] Open Scope Z_scope.

(** ** Outcomes of a C computation

    A C function either returns (a value and the new state) or goes wrong in one
    of the ways kernel code can: an access through a NULL pointer or to memory
    that is not mapped or not aligned, a division by zero, an explicit [BUG()] or
    [panic()], or a busy-wait loop that never ends.
    [OutOfFuel] marks a recursion that was cut off by the model's fuel. *)

Inductive fault : Type :=
| NullDeref
| BadAccess
| DivByZero
| Bug
| Panic
| Hang
| OutOfFuel.

Inductive outcome (A : Type) : Type :=
| Ret (a : A)
| Crash (f : fault).

Arguments Ret {A} a.
Arguments Crash {A} f.

(** State passing with faults: the monad every component is written in. *)
Definition M (S A : Type) : Type := S -> outcome (A * S).

#[global] Instance M_ret {S} : MRet (M S) := fun A a s => Ret (a, s).
#[global] Instance M_bind {S} : MBind (M S) :=
  fun A B k m s =>
    match m s with
    | Ret (a, s1) => k a s1
    | Crash f => Crash f
    end.

Definition crash {S A} (f : fault) : M S A := fun _ => Crash f.
Definition get {S} : M S S := fun s => Ret (s, s).
Definition gets {S A} (f : S -> A) : M S A := fun s => Ret (f s, s).
Definition modify {S} (f : S -> S) : M S unit := fun s => Ret (tt, f s).

(** [*p] for a pointer that may be NULL. *)
Definition deref {S A} (p : option A) : M S A :=
  match p with
  | Some a => mret a
  | None => crash NullDeref
  end.

(** [a / b] on unsigned operands. *)
Definition udiv {S} (a b : Z) : M S Z :=
  if b =? 0 then crash DivByZero else mret (a / b).

(** [a % b] on unsigned operands. *)
Definition umod {S} (a b : Z) : M S Z :=
  if b =? 0 then crash DivByZero else mret (a mod b).

(** ** Weakest preconditions

    [wp m Q s]: run from [s], [m] returns and its result satisfies [Q];
    [wlp m Q s]: if [m] returns then its result satisfies [Q]. *)

Definition wp {S A} (m : M S A) (Q : A -> S -> Prop) (s : S) : Prop :=
  match m s with
  | Ret (a, s1) => Q a s1
  | Crash _ => False
  end.

Definition wlp {S A} (m : M S A) (Q : A -> S -> Prop) (s : S) : Prop :=
  match m s with
  | Ret (a, s1) => Q a s1
  | Crash _ => True
  end.

Section wp_rules.
Context {S : Type}.

Lemma wp_ret {A} (a : A) (Q : A -> S -> Prop) s : Q a s -> wp (mret a) Q s.
Proof. done. Qed.

Lemma wp_modify (f : S -> S) (Q : unit -> S -> Prop) s : Q tt (f s) -> wp (modify f) Q s.
Proof. done. Qed.

Lemma wp_gets {A} (f : S -> A) (Q : A -> S -> Prop) s : Q (f s) s -> wp (gets f) Q s.
Proof. done. Qed.

Lemma wp_deref {A} (o : option A) (a : A) (Q : A -> S -> Prop) s : o = Some a -> Q a s -> wp (deref o) Q s.
Proof. by intros -> H. Qed.

Lemma wp_bind {A B} (m : M S A) (k : A -> M S B) (Q : B -> S -> Prop) s :
  wp m (fun a => wp (k a) Q) s -> wp (m ≫= k) Q s.
Proof. unfold wp, mbind, M_bind. by destruct (m s) as [[a s1]|f]. Qed.

Lemma wp_mono {A} (m : M S A) (P Q : A -> S -> Prop) s :
  wp m P s -> (forall a s1, P a s1 -> Q a s1) -> wp m Q s.
Proof. unfold wp. destruct (m s) as [[a s1]|f]; auto. Qed.

Lemma wp_run {A} (m : M S A) (Q : A -> S -> Prop) s :
  wp m Q s <-> exists a s1, m s = Ret (a, s1) /\ Q a s1.
Proof.
  unfold wp. destruct (m s) as [[a s1]|f]; split.
  - intros H. by exists a, s1.
  - by intros (a' & s1' & [= -> ->] & H).
  - done.
  - by intros (a' & s1' & H & _).
Qed.

Lemma wlp_bind {A B} (m : M S A) (k : A -> M S B) (Q : B -> S -> Prop) s :
  wlp m (fun a => wlp (k a) Q) s -> wlp (m ≫= k) Q s.
Proof. unfold wlp, mbind, M_bind. by destruct (m s) as [[a s1]|f]. Qed.

Lemma wlp_mono {A} (m : M S A) (P Q : A -> S -> Prop) s :
  wlp m P s -> (forall a s1, P a s1 -> Q a s1) -> wlp m Q s.
Proof. unfold wlp. destruct (m s) as [[a s1]|f]; auto. Qed.

Lemma bind_ret {A B} (m : M S A) (k : A -> M S B) s b s2 :
  (m ≫= k) s = Ret (b, s2) <->
  exists a s1, m s = Ret (a, s1) /\ k a s1 = Ret (b, s2).
Proof.
  unfold mbind, M_bind. destruct (m s) as [[a s1]|f]; split.
  - intros H. by exists a, s1.
  - by intros (a' & s1' & [= -> ->] & H).
  - done.
  - by intros (a' & s1' & H & _).
Qed.

Lemma run_bind {A B} (m : M S A) (k : A -> M S B) s a s1 :
  m s = Ret (a, s1) -> (m ≫= k) s = k a s1.
Proof. intros H. unfold mbind, M_bind. by rewrite H. Qed.

End wp_rules.

(** Decomposes a hypothesis [(m ≫= k) s = Ret (a, s')] into its steps. *)
Ltac run_inv :=
  repeat match goal with
  | H : (_ ≫= _) _ = Ret _ |- _ =>
      let a := fresh "a" in let s := fresh "s" in let H1 := fresh "Hrun" in
      apply bind_ret in H as (a & s & H1 & H)
  | H : mret _ _ = Ret _ |- _ => injection H as ??; subst
  | H : modify _ _ = Ret _ |- _ => injection H as ??; subst
  | H : gets _ _ = Ret _ |- _ => injection H as ??; subst
  | H : get _ = Ret _ |- _ => injection H as ??; subst
  | H : crash _ _ = Ret _ |- _ => discriminate H
  | H : Ret _ = Ret _ |- _ => injection H as ??; subst
  | H : Crash _ = Ret _ |- _ => discriminate H
  end.

(** ** Machine integers *)

(** Reduction to 32 bits: [u32] and [unsigned long] on this platform. *)
Definition u32 (x : Z) : Z := x mod 2 ^ 32.

(** Reduction to a signed 8-bit value: assignment to an [__s8]. *)
Definition s8 (x : Z) : Z := (x + 128) mod 256 - 128.

(** Reduction to a signed 32-bit value: assignment to an [int]. *)
Definition s32 (x : Z) : Z := (x + 2 ^ 31) mod 2 ^ 32 - 2 ^ 31.

(** [1 << n] as an unsigned 32-bit value. *)
Definition bit (n : Z) : Z := Z.shiftl 1 n.

(** [x & ~m]. *)
Definition clear (x m : Z) : Z := Z.land x (Z.lnot m).

(** [x |= m]. *)
Definition setb (x m : Z) : Z := Z.lor x m.

Lemma u32_range x : 0 <= u32 x < 2 ^ 32.
Proof. unfold u32. apply Z.mod_pos_bound. lia. Qed.

Lemma u32_small x : 0 <= x < 2 ^ 32 -> u32 x = x.
Proof. apply Z.mod_small. Qed.

Lemma s8_small x : -128 <= x < 128 -> s8 x = x.
Proof. intros. unfold s8. rewrite Z.mod_small; lia. Qed.

Lemma testbit_above p n i : 0 <= n < 2 ^ p -> 0 <= p -> p <= i -> Z.testbit n i = false.
Proof.
  intros Hn Hp Hi. rewrite <- (Z.mod_small n (2 ^ p)) by done.
  by apply Z.mod_pow2_bits_high.
Qed.

Lemma testbit_u32 x i : 0 <= i -> Z.testbit (u32 x) i = (i <? 32) && Z.testbit x i.
Proof.
  intros Hi. unfold u32. destruct (Z.ltb_spec i 32).
  - by rewrite Z.mod_pow2_bits_low.
  - rewrite Z.mod_pow2_bits_high by lia. done.
Qed.

Lemma testbit_bit n i : 0 <= n -> Z.testbit (bit n) i = (i =? n).
Proof.
  intros Hn. unfold bit. destruct (Z.eqb_spec i n) as [->|Hne].
  - rewrite Z.shiftl_spec by lia. by replace (n - n) with 0 by lia.
  - destruct (Z.ltb_spec i 0); [by apply Z.testbit_neg_r|].
    rewrite Z.shiftl_spec by lia.
    destruct (Z.ltb_spec i n); [apply Z.testbit_neg_r; lia|].
    apply (testbit_above 1); lia.
Qed.

Lemma testbit_clear x m i : 0 <= i -> Z.testbit (clear x m) i = Z.testbit x i && negb (Z.testbit m i).
Proof. intros Hi. unfold clear. by rewrite Z.land_spec, Z.lnot_spec. Qed.

Lemma testbit_setb x m i : Z.testbit (setb x m) i = Z.testbit x i || Z.testbit m i.
Proof. unfold setb. apply Z.lor_spec. Qed.

(** [x & (1 << n)] is non-zero exactly when bit [n] is set. *)
Lemma land_bit x n : 0 <= n -> (Z.land x (bit n) =? 0) = negb (Z.testbit x n).
Proof.
  intros Hn. destruct (Z.testbit x n) eqn:E; simpl.
  - apply Z.eqb_neq. intros H0.
    assert (Z.testbit (Z.land x (bit n)) n = false) as H1 by by rewrite H0, Z.bits_0.
    rewrite Z.land_spec, testbit_bit, Z.eqb_refl, E in H1 by done. done.
  - apply Z.eqb_eq, Z.bits_inj'. intros i Hi.
    rewrite Z.land_spec, testbit_bit, Z.bits_0 by done.
    destruct (Z.eqb_spec i n) as [->|]; [by rewrite E|]. apply andb_false_r.
Qed.

(** Values that fit in [w] bits are those with no bit at or above [w]. *)
Lemma bits_bounded w x :
  0 <= w -> 0 <= x -> (forall i, w <= i -> Z.testbit x i = false) -> x < 2 ^ w.
Proof.
  intros Hw Hx Hb. destruct (Z.ltb_spec x (2 ^ w)) as [|Hge]; [done|].
  destruct (decide (x = 0)) as [->|Hne]; [pose proof (Z.pow_pos_nonneg 2 w); lia|].
  assert (w <= Z.log2 x) as Hl by (apply Z.log2_le_pow2; lia).
  specialize (Hb _ Hl). rewrite Z.bit_log2 in Hb by lia. done.
Qed.

Lemma clear_range w x m : 0 <= w -> 0 <= x < 2 ^ w -> 0 <= clear x m < 2 ^ w.
Proof.
  intros Hw Hx. unfold clear. split.
  - apply Z.land_nonneg. lia.
  - apply bits_bounded; [done|apply Z.land_nonneg; lia|].
    intros i Hi. by rewrite Z.land_spec, (testbit_above w x).
Qed.

Lemma setb_range w x m : 0 <= w -> 0 <= x < 2 ^ w -> 0 <= m < 2 ^ w -> 0 <= setb x m < 2 ^ w.
Proof.
  intros Hw Hx Hm. unfold setb. split.
  - apply Z.lor_nonneg. lia.
  - apply bits_bounded; [done|apply Z.lor_nonneg; lia|].
    intros i Hi. by rewrite Z.lor_spec, (testbit_above w x), (testbit_above w m).
Qed.

Lemma bit_range n w : 0 <= n < w -> 0 <= bit n < 2 ^ w.
Proof.
  intros Hn. unfold bit. rewrite Z.shiftl_1_l. split; [apply Z.pow_nonneg; lia|].
  apply Z.pow_lt_mono_r; lia.
Qed.

Create HintDb mx27 discriminated.
#[export] Hint Resolve u32_range clear_range setb_range bit_range : mx27.
#[export] Hint Extern 1 (_ <= _ < _) => lia : mx27.
#[export] Hint Extern 1 (_ <= _) => lia : mx27.

(** ** Bit fields

    [field x off w]: the [w] bits of [x] at offset [off], the value the C code
    writes as [(x & MASK) >> OFFSET] for [MASK = (2^w - 1) << OFFSET]. *)

Definition field (x off w : Z) : Z := Z.shiftr (Z.land x (Z.shiftl (Z.ones w) off)) off.

(** [(x & ~MASK) | (v << OFFSET)]. *)
Definition set_field (x off w v : Z) : Z :=
  setb (clear x (Z.shiftl (Z.ones w) off)) (Z.shiftl v off).

Lemma testbit_field x off w i :
  0 <= off -> 0 <= w -> 0 <= i ->
  Z.testbit (field x off w) i = (i <? w) && Z.testbit x (i + off).
Proof.
  intros. unfold field. rewrite Z.shiftr_spec, Z.land_spec, Z.shiftl_spec by lia.
  replace (i + off - off) with i by lia.
  rewrite Z.testbit_ones_nonneg by lia. apply andb_comm.
Qed.

Lemma testbit_set_field x off w v i :
  0 <= off -> 0 <= w -> 0 <= i -> 0 <= v < 2 ^ w ->
  Z.testbit (set_field x off w v) i =
  if (off <=? i) && (i <? off + w) then Z.testbit v (i - off) else Z.testbit x i.
Proof.
  intros Hoff Hw Hi Hv. unfold set_field.
  rewrite testbit_setb, testbit_clear, !Z.shiftl_spec by lia.
  destruct (Z.leb_spec off i); simpl.
  - rewrite Z.testbit_ones_nonneg by lia.
    destruct (Z.ltb_spec (i - off) w), (Z.ltb_spec i (off + w)); try lia; simpl.
    + by rewrite andb_false_r.
    + rewrite (testbit_above w v) by lia. by rewrite andb_true_r, orb_false_r.
  - rewrite (Z.testbit_neg_r _ (i - off)), (Z.testbit_neg_r v) by lia. simpl.
    by rewrite andb_true_r, orb_false_r.
Qed.

Lemma field_range x off w : 0 <= off -> 0 <= w -> 0 <= field x off w < 2 ^ w.
Proof.
  intros Hoff Hw.
  assert (0 <= field x off w) as H0.
  { unfold field. apply Z.shiftr_nonneg, Z.land_nonneg. right.
    apply Z.shiftl_nonneg. rewrite Z.ones_equiv. pose proof (Z.pow_pos_nonneg 2 w). lia. }
  split; [done|]. apply bits_bounded; [done..|].
  intros i Hi. rewrite testbit_field by lia. destruct (Z.ltb_spec i w); [lia|done].
Qed.

(** Reading back the field just written. *)
Lemma field_set_field x off w v :
  0 <= off -> 0 <= w -> 0 <= v < 2 ^ w -> field (set_field x off w v) off w = v.
Proof.
  intros Hoff Hw Hv. apply Z.bits_inj'. intros i Hi.
  rewrite testbit_field, testbit_set_field by lia.
  destruct (Z.ltb_spec i w); simpl.
  - destruct (Z.leb_spec off (i + off)), (Z.ltb_spec (i + off) (off + w)); try lia.
    simpl. f_equal. lia.
  - by rewrite (testbit_above w v).
Qed.

(** Writing one field leaves a disjoint field unchanged. *)
Lemma field_set_field_ne x off w v off' w' :
  0 <= off -> 0 <= w -> 0 <= v < 2 ^ w -> 0 <= off' -> 0 <= w' ->
  off + w <= off' \/ off' + w' <= off ->
  field (set_field x off w v) off' w' = field x off' w'.
Proof.
  intros. apply Z.bits_inj'. intros i Hi.
  rewrite !testbit_field, testbit_set_field by lia.
  destruct (Z.ltb_spec i w'); [|done]. simpl.
  destruct (Z.leb_spec off (i + off')), (Z.ltb_spec (i + off') (off + w)); try done; lia.
Qed.

Lemma set_field_range x off w v n :
  0 <= off -> 0 <= w -> 0 <= v < 2 ^ w -> off + w <= n -> 0 <= x < 2 ^ n ->
  0 <= set_field x off w v < 2 ^ n.
Proof.
  intros. unfold set_field. apply setb_range; [lia|apply clear_range; lia|].
  rewrite Z.shiftl_mul_pow2 by lia. split.
  - apply Z.mul_nonneg_nonneg; [lia|apply Z.pow_nonneg; lia].
  - apply Z.lt_le_trans with (2 ^ w * 2 ^ off).
    + apply Z.mul_lt_mono_pos_r; [apply Z.pow_pos_nonneg; lia|lia].
    + rewrite <- Z.pow_add_r by lia. apply Z.pow_le_mono_r; lia.
Qed.

(** ** Memory-mapped registers

    The register file maps an address to the word stored there; a register never
    written reads as zero, and a read yields a 32-bit value. *)

Abbreviation regfile := (gmap Z Z).

Definition readl (r : regfile) (a : Z) : Z := u32 (default 0 (r !! a)).
Definition writel (v a : Z) (r : regfile) : regfile := <[a := u32 v]> r.

Lemma u32_u32 x : u32 (u32 x) = u32 x.
Proof. apply u32_small, u32_range. Qed.

Lemma readl_writel_eq v a r : readl (writel v a r) a = u32 v.
Proof. unfold readl, writel. rewrite lookup_insert_eq. apply u32_u32. Qed.

Lemma readl_writel_ne v a b r : a <> b -> readl (writel v a r) b = readl r b.
Proof. intros. unfold readl, writel. by rewrite lookup_insert_ne. Qed.

Lemma readl_writel v a b r :
  readl (writel v a r) b = if decide (a = b) then u32 v else readl r b.
Proof. case_decide; subst; [apply readl_writel_eq|by apply readl_writel_ne]. Qed.

Lemma readl_range r a : 0 <= readl r a < 2 ^ 32.
Proof. apply u32_range. Qed.

#[export] Hint Resolve readl_range : mx27.

(** Read back after [reg |= m] and [reg &= ~m]. *)
Lemma readl_setb r a m :
  0 <= m < 2 ^ 32 -> readl (writel (setb (readl r a) m) a r) a = setb (readl r a) m.
Proof. intros. rewrite readl_writel_eq. apply u32_small, setb_range; [lia|apply readl_range|done]. Qed.

Lemma readl_clear r a m : readl (writel (clear (readl r a) m) a r) a = clear (readl r a) m.
Proof. rewrite readl_writel_eq. apply u32_small, clear_range; [lia|apply readl_range]. Qed.

(** Register files that read the same everywhere. *)
Definition regs_eqv (r r' : regfile) : Prop := forall a, readl r a = readl r' a.

#[global] Instance regs_eqv_equiv : Equivalence regs_eqv.
Proof.
  split.
  - by intros r a.
  - intros r r' H a. by rewrite H.
  - intros r1 r2 r3 H1 H2 a. by rewrite H1, H2.
Qed.

#[global] Instance readl_proper : Proper (regs_eqv ==> eq ==> eq) readl.
Proof. intros r r' H a a' ->. apply H. Qed.

Lemma writel_same r a : regs_eqv r (writel (readl r a) a r).
Proof.
  intros b. rewrite readl_writel. case_decide; [|done]. subst. symmetry. apply u32_u32.
Qed.

(** ** Error numbers used by the platform code *)

Definition ENOENT : Z := 2.
Definition EBUSY : Z := 16.
Definition ENODEV : Z := 19.
Definition EINVAL : Z := 22.

(** What an interrupt handler returns. *)
Definition IRQ_HANDLED : Z := 1.
