(* ===== verification/ClkFramework.v ===== *)
(** * The clock framework: [arch/arm/plat-mxc/clock.c]

    The generic clock API: lookup by name, reference-counted enable and disable
    along the clock tree, rate setting and propagation, reparenting and
    registration.  Everything that is specific to a machine (the set of clock
    objects, the functions its method pointers name, the hardware state) is a
    class [ClkSig]; what the method pointers do is a class [ClkMethods].  The
    machine file instantiates both. *)

From stdpp Require Import base gmap list strings.
From Stdlib Require Import ZArith Lia.
From S2P Require Import Prelude.

(** The types a machine supplies.  A [clkp] is the address of a [struct clk];
    each kind of method pointer has its own type, as the C prototypes do. *)
Class ClkSig : Type := {
  clkp : Type;
  clkp_eq :: EqDecision clkp;
  clkp_countable :: Countable clkp;
  recalc_fn : Type;
  set_rate_fn : Type;
  round_rate_fn : Type;
  enable_fn : Type;
  disable_fn : Type;
  set_parent_fn : Type;
  hwst : Type;
}.

Section Framework.
Context {Sig : ClkSig}.

(** ** Data: [struct clk] and the state the framework works on *)

Record clk : Type := mkClk {
  owner : option nat;
  name : string;
  id : Z;
  parent : option clkp;
  secondary : option clkp;
  rate : Z;
  usecount : Z;
  enable_shift : Z;
  enable_reg : Z;
  recalc : option recalc_fn;
  set_rate : option set_rate_fn;
  round_rate : option round_rate_fn;
  enable : option enable_fn;
  disable : option disable_fn;
  set_parent : option set_parent_fn;
}.

(** A module that owns clocks: whether it is live, and its reference count. *)
Record module : Type := mkModule { live : bool; refs : Z }.

(** [clk_mem] holds the clock objects, [clocks] is the kernel list of the
    registered ones (most recently added first), [hw] the machine's state. *)
Record clkst : Type := mkClkst {
  clk_mem : gmap clkp clk;
  clocks : list clkp;
  modules : gmap nat module;
  hw : hwst;
}.

(** A [struct clk *] as a client passes it: NULL, an error pointer or a clock. *)
Inductive cptr : Type :=
| CNull
| CErr (e : Z)
| CPtr (c : clkp).

(** What the method pointers of a clock do when they are called. *)
Class ClkMethods : Type := {
  call_recalc : recalc_fn -> clkp -> M clkst unit;
  call_set_rate : set_rate_fn -> clkp -> Z -> M clkst Z;
  call_round_rate : round_rate_fn -> clkp -> Z -> M clkst Z;
  call_enable : enable_fn -> clkp -> M clkst Z;
  call_disable : disable_fn -> clkp -> M clkst unit;
  call_set_parent : set_parent_fn -> clkp -> clkp -> M clkst Z;
}.

(** ** Access to the clock objects *)

Definition with_mem (f : gmap clkp clk -> gmap clkp clk) (s : clkst) : clkst :=
  mkClkst (f (clk_mem s)) (clocks s) (modules s) (hw s).

Definition with_clocks (l : list clkp) (s : clkst) : clkst :=
  mkClkst (clk_mem s) l (modules s) (hw s).

Definition with_modules (m : gmap nat module) (s : clkst) : clkst :=
  mkClkst (clk_mem s) (clocks s) m (hw s).

Definition with_hw (h : hwst) (s : clkst) : clkst :=
  mkClkst (clk_mem s) (clocks s) (modules s) h.

(** The object at an address. *)
Definition look (m : gmap clkp clk) (c : clkp) : option clk := m !! c.

(** [*c]: a pointer to no clock object faults. *)
Definition clk_at (c : clkp) : M clkst clk :=
  s ← get; deref (clk_mem s !! c).

Definition upd_usecount (n : Z) (k : clk) : clk :=
  mkClk (owner k) (name k) (id k) (parent k) (secondary k) (rate k) n (enable_shift k)
    (enable_reg k) (recalc k) (set_rate k) (round_rate k) (enable k) (disable k) (set_parent k).

Definition upd_rate (r : Z) (k : clk) : clk :=
  mkClk (owner k) (name k) (id k) (parent k) (secondary k) r (usecount k) (enable_shift k)
    (enable_reg k) (recalc k) (set_rate k) (round_rate k) (enable k) (disable k) (set_parent k).

Definition upd_parent (p : option clkp) (k : clk) : clk :=
  mkClk (owner k) (name k) (id k) p (secondary k) (rate k) (usecount k) (enable_shift k)
    (enable_reg k) (recalc k) (set_rate k) (round_rate k) (enable k) (disable k) (set_parent k).

(** [c->usecount = n], [c->rate = r], [c->parent = p]. *)
Definition store_usecount (c : clkp) (n : Z) : M clkst unit :=
  modify (with_mem (alter (upd_usecount n) c)).
Definition store_rate (c : clkp) (r : Z) : M clkst unit :=
  modify (with_mem (alter (upd_rate r) c)).
Definition store_parent (c : clkp) (p : option clkp) : M clkst unit :=
  modify (with_mem (alter (upd_parent p) c)).

(** ** Modules ([try_module_get], [module_put]) *)

Definition try_module_get (o : option nat) : M clkst bool :=
  match o with
  | None => mret true
  | Some m =>
      s ← get;
      md ← deref (modules s !! m);
      if live md then
        modify (with_modules (<[m := mkModule true (refs md + 1)]> (modules s)));; mret true
      else mret false
  end.

Definition module_put (o : option nat) : M clkst unit :=
  match o with
  | None => mret tt
  | Some m =>
      s ← get;
      md ← deref (modules s !! m);
      modify (with_modules (<[m := mkModule (live md) (refs md - 1)]> (modules s)))
  end.

(** ** [clk_get] *)

(** The device a client passes: whether it sits on the platform bus, and its id. *)
Record device : Type := mkDevice { on_platform_bus : bool; pdev_id : Z }.

(** [strrchr(s, '.')]: the text before and after the last dot. *)
Fixpoint strrchr_dot (s : string) : option (string * string) :=
  match s with
  | EmptyString => None
  | String a r =>
      match strrchr_dot r with
      | Some (b, e) => Some (String a b, e)
      | None => if bool_decide (String a EmptyString = ".") then Some (EmptyString, r) else None
      end
  end.

(** [list_for_each_entry(p, &clocks, node) if (test p && try_module_get(p->owner)) return p]. *)
Fixpoint scan_clocks (test : clk -> bool) (l : list clkp) : M clkst (option clkp) :=
  match l with
  | [] => mret None
  | p :: l' =>
      k ← clk_at p;
      if test k then
        got ← try_module_get (owner k);
        if got : bool then mret (Some p) else scan_clocks test l'
      else scan_clocks test l'
  end.

(** [simple_strtol(str, NULL, 10)] is a library routine outside this repository. *)
Context (simple_strtol : string -> Z).

(** The result is the clock found and the text the caller's [id] buffer holds
    afterwards: the second pass cuts the string at its last dot, in place. *)
Definition clk_get (dev : option device) (nm : option string) : M clkst (cptr * option string) :=
  match nm with
  | None => mret (CErr (- ENOENT), None)
  | Some id0 =>
      let idno :=
        match dev with
        | Some d => if on_platform_bus d then pdev_id d else -1
        | None => -1
        end in
      l ← gets clocks;
      r1 ← scan_clocks (fun k => (id k =? idno) && bool_decide (id0 = name k)) l;
      match r1 with
      | Some p => mret (CPtr p, Some id0)
      | None =>
          match strrchr_dot id0 with
          | Some (base, suffix) =>
              let idno2 := simple_strtol suffix in
              r2 ← scan_clocks (fun k => (id k =? idno2) && bool_decide (base = name k)) l;
              match r2 with
              | Some p => mret (CPtr p, Some base)
              | None =>
                  r3 ← scan_clocks (fun k => bool_decide (base = name k)) l;
                  mret (from_option CPtr (CErr (- ENOENT)) r3, Some base)
              end
          | None =>
              r3 ← scan_clocks (fun k => bool_decide (id0 = name k)) l;
              mret (from_option CPtr (CErr (- ENOENT)) r3, Some id0)
          end
      end
  end.

Definition clk_put (c : cptr) : M clkst unit :=
  match c with
  | CPtr p => k ← clk_at p; module_put (owner k)
  | _ => mret tt
  end.

(** ** Enable and disable along the tree *)

Context {Meth : ClkMethods}.

Definition when_some {A} (o : option A) (f : A -> M clkst unit) : M clkst unit :=
  match o with
  | Some a => f a
  | None => mret tt
  end.

Fixpoint __clk_disable (fuel : nat) (c : clkp) : M clkst unit :=
  match fuel with
  | O => crash OutOfFuel
  | S n =>
      k ← clk_at c;
      if 0 <? usecount k then
        store_usecount c (s8 (usecount k - 1));;
        if s8 (usecount k - 1) =? 0 then
          when_some (disable k) (fun f => call_disable f c);;
          k1 ← clk_at c;
          when_some (parent k1) (__clk_disable n);;
          k2 ← clk_at c;
          when_some (secondary k2) (__clk_disable n)
        else mret tt
      else mret tt
  end.

(** The labels [err1], [err2] and [err3] of [__clk_enable], which fall through
    from the last to the first. *)
Definition enable_err1 (c : clkp) (ret : Z) : M clkst Z :=
  k ← clk_at c; store_usecount c (s8 (usecount k - 1));; mret ret.

Definition enable_err2 (n : nat) (c : clkp) (ret : Z) : M clkst Z :=
  k ← clk_at c; when_some (parent k) (__clk_disable n);; enable_err1 c ret.

Definition enable_err3 (n : nat) (c : clkp) (ret : Z) : M clkst Z :=
  k ← clk_at c; when_some (secondary k) (__clk_disable n);; enable_err2 n c ret.

Definition enable_some {A} (o : option A) (f : A -> M clkst Z) : M clkst Z :=
  match o with
  | Some a => f a
  | None => mret 0
  end.

Fixpoint __clk_enable (fuel : nat) (c : clkp) : M clkst Z :=
  match fuel with
  | O => crash OutOfFuel
  | S n =>
      k ← clk_at c;
      store_usecount c (s8 (usecount k + 1));;
      if usecount k =? 0 then
        k1 ← clk_at c;
        ret1 ← enable_some (parent k1) (__clk_enable n);
        if negb (ret1 =? 0) then enable_err1 c ret1
        else
          k2 ← clk_at c;
          ret2 ← enable_some (secondary k2) (__clk_enable n);
          if negb (ret2 =? 0) then enable_err2 n c ret2
          else
            k3 ← clk_at c;
            ret3 ← enable_some (enable k3) (fun f => call_enable f c);
            if negb (ret3 =? 0) then enable_err3 n c ret3 else mret 0
      else mret 0
  end.

(** Recursion depth granted to the tree walks: one more than the number of
    clock objects, which no acyclic tree can exceed. *)
Definition tree_fuel (s : clkst) : nat := S (size (clk_mem s)).

Definition clk_enable (c : cptr) : M clkst Z :=
  match c with
  | CPtr p => s ← get; __clk_enable (tree_fuel s) p
  | _ => mret (- EINVAL)
  end.

Definition clk_disable (c : cptr) : M clkst unit :=
  match c with
  | CPtr p => s ← get; __clk_disable (tree_fuel s) p
  | _ => mret tt
  end.

Definition clk_get_usecount (c : cptr) : M clkst Z :=
  match c with
  | CPtr p => k ← clk_at p; mret (usecount k)
  | _ => mret 0
  end.

(** ** Rates *)

Definition clk_get_rate (c : cptr) : M clkst Z :=
  match c with
  | CPtr p => k ← clk_at p; mret (rate k)
  | _ => mret 0
  end.

Definition clk_round_rate (c : cptr) (r : Z) : M clkst Z :=
  match c with
  | CPtr p =>
      k ← clk_at p;
      match round_rate k with
      | Some f => v ← call_round_rate f p r; mret (s32 v)
      | None => mret 0
      end
  | _ => mret 0
  end.

(** The body of the loop of [propagate_rate]: [rec] is the recursive call. *)
Fixpoint propagate_list (rec : clkp -> M clkst unit) (t : clkp) (l : list clkp) : M clkst unit :=
  match l with
  | [] => mret tt
  | p :: l' =>
      k ← clk_at p;
      if decide (parent k = Some t) then
        (match recalc k with
         | Some f => call_recalc f p
         | None => tk ← clk_at t; store_rate p (rate tk)
         end);;
        rec p;;
        propagate_list rec t l'
      else propagate_list rec t l'
  end.

Fixpoint propagate (fuel : nat) (t : clkp) : M clkst unit :=
  match fuel with
  | O => crash OutOfFuel
  | S n => l ← gets clocks; propagate_list (propagate n) t l
  end.

Definition propagate_rate (c : cptr) : M clkst unit :=
  match c with
  | CPtr t => s ← get; propagate (tree_fuel s) t
  | _ => mret tt
  end.

Definition clk_set_rate (c : cptr) (r : Z) : M clkst Z :=
  match c with
  | CPtr p =>
      k ← clk_at p;
      match set_rate k with
      | Some f =>
          if r =? 0 then mret (- EINVAL)
          else
            ret ← call_set_rate f p r;
            (if ret =? 0 then propagate_rate (CPtr p) else mret tt);;
            mret ret
      | None => mret (- EINVAL)
      end
  | _ => mret (- EINVAL)
  end.

(** ** The tree *)

Definition clk_set_parent (c p : cptr) : M clkst Z :=
  match c, p with
  | CPtr c0, CPtr p0 =>
      k ← clk_at c0;
      match set_parent k with
      | Some f =>
          ret ← call_set_parent f c0 p0;
          (if ret =? 0 then
             store_parent c0 (Some p0);;
             k1 ← clk_at c0;
             (match recalc k1 with
              | Some g => call_recalc g c0
              | None => pk ← clk_at p0; store_rate c0 (rate pk)
              end);;
             propagate_rate (CPtr c0)
           else mret tt);;
          mret ret
      | None => mret (- EINVAL)
      end
  | _, _ => mret (- EINVAL)
  end.

Definition clk_get_parent (c : cptr) : M clkst cptr :=
  match c with
  | CPtr p => k ← clk_at p; mret (from_option CPtr CNull (parent k))
  | _ => mret CNull
  end.

(** [list_add] of a node that is already linked and [list_del] of one that is
    not are outside what the kernel list supports; they fault. *)
Definition clk_register (c : cptr) : M clkst Z :=
  match c with
  | CPtr p =>
      l ← gets clocks;
      if decide (p ∈ l) then crash Bug
      else modify (with_clocks (p :: l));; mret 0
  | _ => mret (- EINVAL)
  end.

Definition clk_unregister (c : cptr) : M clkst unit :=
  match c with
  | CPtr p =>
      l ← gets clocks;
      if decide (p ∈ l) then modify (with_clocks (list_difference l [p]))
      else crash Bug
  | _ => mret tt
  end.

End Framework.

Arguments CNull {Sig}.
Arguments CErr {Sig} e.
