(* ===== verification/ClkCounts.v ===== *)
(** * Reference counts of the clock tree

    The accounting invariant of [__clk_enable] and [__clk_disable] of
    [plat-mxc/clock.c]: the use count of a clock is the number of clients that
    hold it enabled plus one for every running clock that has it as parent or as
    secondary clock.  The invariant is proved for every machine whose enable and
    disable methods leave the clock objects alone ([EnableLaws]). *)

From stdpp Require Import base gmap list strings.
From Stdlib Require Import ZArith Lia.
From S2P Require Import Prelude ClkFramework.

Section Counts.
Context {Sig : ClkSig}.

Implicit Types (m : gmap clkp clk) (u : clkp -> Z) (X : gset clkp) (c d p q x : clkp) (k : clk).

(** ** What a running clock demands of its parent and secondary clock *)

Definition ind (o : option clkp) (c : clkp) : Z := if decide (o = Some c) then 1 else 0.

(** Links from [k] to [c]. *)
Definition links (k : clk) (c : clkp) : Z := ind (parent k) c + ind (secondary k) c.

(** Links that count: those of a clock whose use count is positive. *)
Definition pulls (k : clk) (c : clkp) : Z := if 0 <? usecount k then links k c else 0.

(** Sum of a per-clock quantity over all clocks outside [X]. *)
Definition msum (X : gset clkp) (f : clk -> Z) (m : gmap clkp clk) : Z :=
  map_fold (fun d k acc => (if decide (d ∈ X) then 0 else f k) + acc) 0 m.

Definition pulled (X : gset clkp) (m : gmap clkp clk) (c : clkp) : Z := msum X (fun k => pulls k c) m.
Definition degree (X : gset clkp) (m : gmap clkp clk) (c : clkp) : Z := msum X (fun k => links k c) m.

(** [counted u X m]: the counts of [m] are those of a system in which clients
    hold [u c] enables of clock [c], the links of the clocks in [X] (those whose
    enabling is under way) not being charged yet. *)
Definition counted (u : clkp -> Z) (X : gset clkp) (m : gmap clkp clk) : Prop :=
  forall c k, m !! c = Some k -> usecount k = u c + pulled X m c.

(** Every count is in the non-negative range of its [__s8] field. *)
Definition in_range (m : gmap clkp clk) : Prop :=
  forall c k, m !! c = Some k -> 0 <= usecount k <= 127.

(** The holds on a clock and the clocks that have it as parent or secondary clock are
    together at most 127, the largest value of the [__s8] field. *)
Definition fits (u : clkp -> Z) (X : gset clkp) (m : gmap clkp clk) : Prop :=
  forall c, u c + degree X m c <= 127.

(** One more enable of [c]. *)
Definition plus (u : clkp -> Z) (c : clkp) (n : Z) (x : clkp) : Z :=
  if decide (x = c) then u x + n else u x.

(** ** The tree: links are ranked, so that the recursion is well-founded *)

Definition ranked (r : clkp -> nat) (m : gmap clkp clk) : Prop :=
  forall c k, m !! c = Some k ->
    (r c <= size m)%nat /\
    (forall p, parent k = Some p -> is_Some (m !! p) /\ (r p < r c)%nat) /\
    (forall p, secondary k = Some p -> is_Some (m !! p) /\ (r p < r c)%nat).

(** Two memories that differ in use counts only. *)
Definition only_counts (m m' : gmap clkp clk) : Prop :=
  forall c, upd_usecount 0 <$> m !! c = upd_usecount 0 <$> m' !! c.

#[global] Instance only_counts_equiv : Equivalence only_counts.
Proof.
  split.
  - by intros m c.
  - intros m m' H c. by rewrite H.
  - intros m1 m2 m3 H1 H2 c. by rewrite H1, H2.
Qed.

(** ** Sums *)

Lemma msum_fresh X f m d k :
  m !! d = None -> msum X f (<[d := k]> m) = (if decide (d ∈ X) then 0 else f k) + msum X f m.
Proof. intros Hd. unfold msum. by rewrite map_fold_insert_L by (done || (intros; lia)). Qed.

Lemma msum_delete X f m d k0 :
  m !! d = Some k0 ->
  msum X f m = (if decide (d ∈ X) then 0 else f k0) + msum X f (delete d m).
Proof.
  intros Hd. rewrite <- (insert_delete_id m d k0) at 1 by done.
  apply msum_fresh, lookup_delete_eq.
Qed.

Lemma msum_insert X f m d k0 k :
  m !! d = Some k0 ->
  msum X f (<[d := k]> m) = msum X f m + (if decide (d ∈ X) then 0 else f k - f k0).
Proof.
  intros Hd. rewrite <- (insert_delete_eq m d k), msum_fresh by apply lookup_delete_eq.
  rewrite (msum_delete X f m d k0) by done. case_decide; lia.
Qed.

Lemma msum_ext X Y f g m :
  (forall d k, m !! d = Some k ->
     (if decide (d ∈ X) then 0 else f k) = (if decide (d ∈ Y) then 0 else g k)) ->
  msum X f m = msum Y g m.
Proof.
  induction m as [|d k m Hd IH] using map_ind; intros H; [done|].
  rewrite !msum_fresh by done.
  rewrite (H d k) by apply lookup_insert_eq. f_equal. apply IH.
  intros d' k' Hd'. apply H. rewrite lookup_insert_ne; [done|congruence].
Qed.

Lemma msum_le X Y f g m :
  (forall d k, m !! d = Some k ->
     (if decide (d ∈ X) then 0 else f k) <= (if decide (d ∈ Y) then 0 else g k)) ->
  msum X f m <= msum Y g m.
Proof.
  induction m as [|d k m Hd IH] using map_ind; intros H; [done|].
  rewrite !msum_fresh by done.
  assert (H1 := H d k ltac:(apply lookup_insert_eq)).
  enough (msum X f m <= msum Y g m) by lia.
  apply IH. intros d' k' Hd'. apply H. rewrite lookup_insert_ne; [done|congruence].
Qed.

(** Leaving one clock out of the sum. *)
Lemma msum_exclude X f m d k0 :
  m !! d = Some k0 -> d ∉ X -> msum ({[d]} ∪ X) f m = msum X f m - f k0.
Proof.
  intros Hd HX. rewrite (msum_delete ({[d]} ∪ X) _ _ _ _ Hd), (msum_delete X _ _ _ _ Hd).
  rewrite decide_True by set_solver. rewrite decide_False by done.
  rewrite (msum_ext ({[d]} ∪ X) X f f (delete d m)); [lia|].
  intros d' k' Hd'. apply lookup_delete_Some in Hd' as [Hne _].
  destruct (decide (d' ∈ X)).
  - by rewrite decide_True by set_solver.
  - by rewrite decide_False by set_solver.
Qed.

Lemma ind_range (o : option clkp) c : 0 <= ind o c <= 1.
Proof. unfold ind. case_decide; lia. Qed.

Lemma links_nonneg k c : 0 <= links k c.
Proof. unfold links. pose proof (ind_range (parent k) c). pose proof (ind_range (secondary k) c). lia. Qed.

Lemma pulls_le_links k c : 0 <= pulls k c <= links k c.
Proof. unfold pulls. pose proof (links_nonneg k c). case_match; lia. Qed.

Lemma pulled_le_degree X m c : pulled X m c <= degree X m c.
Proof. apply msum_le. intros d k _. pose proof (pulls_le_links k c). case_decide; lia. Qed.

Lemma pulled_nonneg X m c : 0 <= pulled X m c.
Proof.
  transitivity (msum X (fun _ => 0) m).
  - apply Z.eq_le_incl.
    induction m as [|d k m Hd IH] using map_ind; [done|].
    rewrite msum_fresh by done. case_decide; lia.
  - apply msum_le. intros d k _. pose proof (pulls_le_links k c). case_decide; lia.
Qed.

(** ** Memories that differ in counts only *)

Lemma only_counts_lookup m m' c k :
  only_counts m m' -> m !! c = Some k ->
  exists k', m' !! c = Some k' /\ k' = upd_usecount (usecount k') k.
Proof.
  intros H Hc. specialize (H c). rewrite Hc in H. simpl in H.
  destruct (m' !! c) as [k'|] eqn:E; [|done]. simpl in H. injection H as H.
  exists k'. split; [done|]. destruct k, k'. simplify_eq/=. done.
Qed.

Lemma only_counts_insert m c k n :
  m !! c = Some k -> only_counts m (<[c := upd_usecount n k]> m).
Proof.
  intros Hc d. destruct (decide (c = d)) as [->|Hne].
  - by rewrite lookup_insert_eq, Hc.
  - by rewrite lookup_insert_ne.
Qed.

Lemma only_counts_dom m m' : only_counts m m' -> dom m = dom m'.
Proof.
  intros H. apply set_eq. intros c. rewrite !elem_of_dom. specialize (H c).
  destruct (m !! c), (m' !! c); try done; by split.
Qed.

Lemma only_counts_size m m' : only_counts m m' -> size m = size m'.
Proof. intros H. rewrite <- !size_dom. by rewrite (only_counts_dom _ _ H). Qed.

Lemma ranked_only_counts r m m' : only_counts m m' -> ranked r m -> ranked r m'.
Proof.
  intros H Hr c k' Hc. symmetry in H.
  destruct (only_counts_lookup _ _ _ _ H Hc) as (k & Hk & Hkk).
  destruct (Hr _ _ Hk) as (H1 & H2 & H3). rewrite Hkk in H2, H3. simpl in H2, H3.
  rewrite (only_counts_size _ _ H). split_and!; [done|..].
  - intros p Hp. destruct (H2 p Hp) as [H4 ?]. split; [|done].
    destruct H4 as [kp Hkp]. symmetry in H.
    destruct (only_counts_lookup _ _ _ _ H Hkp) as (? & ? & _). eauto.
  - intros p Hp. destruct (H3 p Hp) as [H4 ?]. split; [|done].
    destruct H4 as [kp Hkp]. symmetry in H.
    destruct (only_counts_lookup _ _ _ _ H Hkp) as (? & ? & _). eauto.
Qed.

(** Memories with the same links. *)
Definition links_of (k : clk) : option clkp * option clkp := (parent k, secondary k).
Definition same_links (m m' : gmap clkp clk) : Prop :=
  forall c, links_of <$> m !! c = links_of <$> m' !! c.

#[global] Instance same_links_equiv : Equivalence same_links.
Proof.
  split.
  - by intros m c.
  - intros m m' H c. by rewrite H.
  - intros m1 m2 m3 H1 H2 c. by rewrite H1, H2.
Qed.

Lemma only_counts_links m m' : only_counts m m' -> same_links m m'.
Proof.
  intros H c. specialize (H c). apply (f_equal (fmap links_of)) in H.
  rewrite <- !option_fmap_compose in H. exact H.
Qed.

(** Memories with the same [set_rate] methods. *)
Definition same_methods (m m' : gmap clkp clk) : Prop := forall c, set_rate <$> m !! c = set_rate <$> m' !! c.

Lemma methods_only_counts m m' : only_counts m m' -> same_methods m m'.
Proof.
  intros H c. specialize (H c). apply (f_equal (fmap set_rate)) in H. rewrite <- !option_fmap_compose in H. exact H.
Qed.

(** A sum of a quantity that depends on [g] only is the same over memories that
    agree on [g]. *)
Lemma msum_same {A} (g : clk -> A) f X m m' :
  (forall k k', g k = g k' -> f k = f k') -> (forall c, g <$> m !! c = g <$> m' !! c) -> msum X f m = msum X f m'.
Proof.
  intros Hf. revert m'. induction m as [|d k m Hd IH] using map_ind; intros m' H.
  - assert (m' = ∅) as ->; [|done]. apply map_eq. intros d. specialize (H d).
    rewrite lookup_empty in *. by destruct (m' !! d).
  - pose proof (H d) as Hk. rewrite lookup_insert_eq in Hk. symmetry in Hk.
    apply fmap_Some in Hk as (k' & Hk' & Hkk).
    rewrite (msum_delete _ _ (<[d:=k]> m) d k) by apply lookup_insert_eq.
    rewrite (msum_delete _ _ m' d k') by done.
    rewrite delete_insert_id by done. rewrite (Hf k k') by done. f_equal.
    apply IH. intros x. specialize (H x). destruct (decide (d = x)) as [->|Hne].
    + by rewrite lookup_delete_eq, Hd.
    + rewrite lookup_delete_ne by done. by rewrite lookup_insert_ne in H.
Qed.

Lemma degree_same_links X m m' c : same_links m m' -> degree X m c = degree X m' c.
Proof. apply (msum_same links_of). intros k k' [= E1 E2]. unfold links. by rewrite E1, E2. Qed.

(** Memories with the same links and counts. *)
Definition counts_of (k : clk) : Z * (option clkp * option clkp) := (usecount k, links_of k).

Lemma pulled_same X m m' c : (forall x, counts_of <$> m !! x = counts_of <$> m' !! x) -> pulled X m c = pulled X m' c.
Proof. apply (msum_same counts_of). intros k k' [= E1 E2 E3]. unfold pulls, links. by rewrite E1, E2, E3. Qed.

Lemma fits_same_links u X m m' : same_links m m' -> fits u X m -> fits u X m'.
Proof. intros H Hf c. rewrite <- (degree_same_links X m m' c H). apply Hf. Qed.

(** A link sum over a memory none of whose clocks leads to [c] is zero. *)
Lemma degree_none X m c : (forall d k, m !! d = Some k -> links k c = 0) -> degree X m c = 0.
Proof.
  unfold degree. induction m as [|d k m Hd IH] using map_ind; intros H; [done|].
  rewrite msum_fresh by done. rewrite (H d k) by apply lookup_insert_eq. rewrite IH.
  - case_decide; lia.
  - intros d' k' Hd'. apply (H d'). rewrite lookup_insert_ne; [done|congruence].
Qed.

(** With nothing running there is nothing to account for. *)
Lemma counted_idle X m :
  (forall c k, m !! c = Some k -> usecount k = 0) -> counted (fun _ => 0) X m.
Proof.
  intros H c k Hc. rewrite (H _ _ Hc). symmetry. unfold pulled.
  assert (forall d k, m !! d = Some k -> pulls k c = 0) as Hp.
  { intros d kd Hd. unfold pulls. by rewrite (H _ _ Hd). }
  clear Hc H. induction m as [|d kd m Hd IH] using map_ind; [done|].
  rewrite msum_fresh by done. rewrite (Hp d kd) by apply lookup_insert_eq.
  case_decide; apply IH; intros d' k' Hd'; apply (Hp d'); rewrite lookup_insert_ne; [done|congruence|done|congruence].
Qed.

Lemma fits_only_counts u X m m' : only_counts m m' -> fits u X m -> fits u X m'.
Proof. intros H. by apply fits_same_links, only_counts_links. Qed.

(** ** How one update of a count moves the accounting *)

(** What a clock with count [n] contributes to the demand on [x]. *)
Definition contrib (X : gset clkp) (c : clkp) (n : Z) (k : clk) (x : clkp) : Z :=
  if decide (c ∈ X) then 0 else if 0 <? n then links k x else 0.

Lemma contrib_in X c n k x : c ∈ X -> contrib X c n k x = 0.
Proof. intros. unfold contrib. by rewrite decide_True. Qed.

Lemma contrib_on X c n k x : c ∉ X -> 0 < n -> contrib X c n k x = links k x.
Proof.
  intros ? Hn. unfold contrib. rewrite decide_False by done.
  by rewrite (proj2 (Z.ltb_lt 0 n) Hn).
Qed.

Lemma contrib_off X c n k x : n <= 0 -> contrib X c n k x = 0.
Proof. intros. unfold contrib. case_decide; [done|]. destruct (Z.ltb_spec 0 n); [lia|done]. Qed.

Lemma pulled_split X m c k x :
  m !! c = Some k -> pulled X m x = pulled ({[c]} ∪ X) m x + contrib X c (usecount k) k x.
Proof.
  intros Hc. unfold pulled, contrib. destruct (decide (c ∈ X)) as [HX|HX].
  - assert ({[c]} ∪ X = X) as -> by set_solver. lia.
  - rewrite (msum_exclude X _ m c k) by done. unfold pulls. lia.
Qed.

Lemma pulled_upd X m c k n x :
  m !! c = Some k ->
  pulled X (<[c := upd_usecount n k]> m) x = pulled ({[c]} ∪ X) m x + contrib X c n k x.
Proof.
  intros Hc. rewrite (pulled_split X (<[c := upd_usecount n k]> m) c (upd_usecount n k)) by apply lookup_insert_eq.
  unfold pulled at 1. rewrite (msum_insert _ _ m c k) by done.
  rewrite decide_True by set_solver. unfold contrib, links; simpl. unfold pulled. lia.
Qed.

Lemma counted_upd u X u' X' m c k n :
  m !! c = Some k -> {[c]} ∪ X = {[c]} ∪ X' -> counted u X m ->
  (forall x, u' x + contrib X' c n k x =
             u x + contrib X c (usecount k) k x + (if decide (x = c) then n - usecount k else 0)) ->
  counted u' X' (<[c := upd_usecount n k]> m).
Proof.
  intros Hc HX Hm Hu x kx Hx. rewrite pulled_upd by done. rewrite <- HX.
  specialize (Hu x). rewrite lookup_insert in Hx. case_decide; subst.
  - injection Hx as <-. simpl. rewrite decide_True in Hu by done.
    specialize (Hm _ _ Hc). rewrite (pulled_split X m _ k) in Hm by done. lia.
  - rewrite decide_False in Hu by done.
    specialize (Hm _ _ Hx). rewrite (pulled_split X m c k) in Hm by done. lia.
Qed.

Lemma counted_ext u u' X m : (forall x, u x = u' x) -> counted u X m -> counted u' X m.
Proof. intros H Hm x k Hx. rewrite <- H. by apply Hm. Qed.

Lemma counted_at_least u X m c k d kd :
  counted u X m -> (forall x, 0 <= u x) -> m !! c = Some k -> m !! d = Some kd ->
  d ∉ X -> 0 < usecount kd -> 0 < links kd c -> 0 < usecount k.
Proof.
  intros Hm Hu Hc Hd HX Hpos Hl. rewrite (Hm _ _ Hc), (pulled_split X m d kd) by done.
  unfold contrib. rewrite decide_False by done.
  pose proof (pulled_nonneg ({[d]} ∪ X) m c). specialize (Hu c). case_match; lia.
Qed.

(** Charging the links of a clock whose enabling is complete. *)
Lemma counted_commit u X m c k :
  m !! c = Some k -> c ∉ X -> 0 < usecount k ->
  counted (fun x => u x + links k x) ({[c]} ∪ X) m -> counted u X m.
Proof.
  intros Hc HX Hpos Hm x kx Hx. rewrite (Hm _ _ Hx), (pulled_split X m c k) by done.
  rewrite contrib_on by done. lia.
Qed.

Lemma fits_exclude u X m c k :
  m !! c = Some k -> c ∉ X -> fits u X m -> fits (fun x => u x + links k x) ({[c]} ∪ X) m.
Proof.
  intros Hc HX Hf x. unfold degree. rewrite (msum_exclude X _ m c k) by done.
  specialize (Hf x). unfold degree in Hf. lia.
Qed.

Lemma fits_le u u' X m : (forall x, u' x <= u x) -> fits u X m -> fits u' X m.
Proof. intros H Hf x. specialize (H x). specialize (Hf x). lia. Qed.

Lemma in_range_insert m c k n :
  in_range m -> 0 <= n <= 127 -> in_range (<[c := upd_usecount n k]> m).
Proof.
  intros Hm Hn x kx. rewrite lookup_insert. case_decide; [by intros [= <-]|apply Hm].
Qed.

End Counts.
