(* ===== verification/ClkEnable.v ===== *)
(** * Enabling and disabling clocks keeps the accounts

    The theorems about [__clk_enable] and [__clk_disable] of [plat-mxc/clock.c]
    over an arbitrary ranked clock tree: they return, they keep the accounting
    invariant of [ClkCounts], a failed enable leaves no trace in the counts, and
    the counts are a function of the clients' holdings alone. *)

From stdpp Require Import base gmap list strings.
From Stdlib Require Import ZArith Lia.
From S2P Require Import Prelude ClkFramework ClkCounts.

(** What the framework expects of a machine's enable and disable methods: from
    a state that is [st_ok] the methods of its clocks return, they change nothing
    but the hardware state, and the state stays [st_ok]; use counts do not matter
    to it. *)
Class EnableLaws (Sig : ClkSig) (Meth : ClkMethods) : Type := {
  st_ok : gmap clkp clk -> hwst -> Prop;
  st_ok_counts : forall m m' h, only_counts m m' -> st_ok m h -> st_ok m' h;
  enable_law : forall f c k s, st_ok (clk_mem s) (hw s) -> clk_mem s !! c = Some k -> enable k = Some f ->
    wp (call_enable f c) (fun _ s' => exists h, s' = with_hw h s /\ st_ok (clk_mem s) h) s;
  disable_law : forall f c k s, st_ok (clk_mem s) (hw s) -> clk_mem s !! c = Some k -> disable k = Some f ->
    wp (call_disable f c) (fun _ s' => exists h, s' = with_hw h s /\ st_ok (clk_mem s) h) s;
}.

Section Enable.
Context {Sig : ClkSig} {Meth : ClkMethods} {Laws : EnableLaws Sig Meth}.
Context (r : clkp -> nat).

Implicit Types (m : gmap clkp clk) (u : clkp -> Z) (X : gset clkp) (c d p q x : clkp)
  (k : clk) (s : clkst).

(** ** Single steps *)

Lemma alter_lookup m c k f : m !! c = Some k -> alter f c m = <[c := f k]> m.
Proof.
  intros Hc. apply map_eq. intros x. rewrite lookup_alter, lookup_insert.
  case_decide; subst; [by rewrite Hc|done].
Qed.

Lemma wp_clk_at c k s (Q : clk -> clkst -> Prop) :
  clk_mem s !! c = Some k -> Q k s -> wp (clk_at c) Q s.
Proof. intros Hc HQ. unfold wp, clk_at, get, mbind, M_bind. simpl. by rewrite Hc. Qed.

Lemma wp_store_usecount c k n s (Q : unit -> clkst -> Prop) :
  clk_mem s !! c = Some k ->
  Q tt (with_mem (fun m => <[c := upd_usecount n k]> m) s) ->
  wp (store_usecount c n) Q s.
Proof.
  intros Hc HQ. unfold wp, store_usecount, modify, with_mem in *. simpl.
  by rewrite (alter_lookup _ _ k).
Qed.

(** ** The frame of a walk up the tree *)

(** [walk P s s']: from [s] to [s'] only use counts of clocks satisfying [P] and
    the hardware state changed. *)
Definition walk (P : clkp -> Prop) (s s' : clkst) : Prop :=
  only_counts (clk_mem s) (clk_mem s') /\ in_range (clk_mem s') /\
  (forall x, ~ P x -> clk_mem s' !! x = clk_mem s !! x) /\
  clocks s' = clocks s /\ modules s' = modules s /\ st_ok (clk_mem s') (hw s').

Definition below (n : nat) (x : clkp) : Prop := (r x < n)%nat.
Definition upto (c x : clkp) : Prop := x = c \/ (r x < r c)%nat.

Lemma below_upto c x : below (r c) x -> upto c x.
Proof. unfold below, upto. tauto. Qed.

Lemma walk_trans (P : clkp -> Prop) s1 s2 s3 : walk P s1 s2 -> walk P s2 s3 -> walk P s1 s3.
Proof.
  intros (A1 & B1 & C1 & D1 & E1 & F1) (A2 & B2 & C2 & D2 & E2 & F2).
  split_and!; [by etrans|done| |congruence|congruence|done].
  intros x Hx. by rewrite C2, C1.
Qed.

Lemma walk_mono (P P' : clkp -> Prop) s s' :
  (forall x, P x -> P' x) -> walk P s s' -> walk P' s s'.
Proof. intros HP (A & B & C & D & E & F). split_and!; try done. intros x Hx. apply C. auto. Qed.

Lemma walk_refl (P : clkp -> Prop) s : in_range (clk_mem s) -> st_ok (clk_mem s) (hw s) -> walk P s s.
Proof. intros. by split_and!. Qed.

Lemma walk_hw (P : clkp -> Prop) s h : in_range (clk_mem s) -> st_ok (clk_mem s) h -> walk P s (with_hw h s).
Proof. intros. by split_and!. Qed.

Lemma walk_store (P : clkp -> Prop) s c k n :
  clk_mem s !! c = Some k -> P c -> 0 <= n <= 127 -> in_range (clk_mem s) -> st_ok (clk_mem s) (hw s) ->
  walk P s (with_mem (fun m => <[c := upd_usecount n k]> m) s).
Proof.
  intros Hc HP Hn Hr Hh. split_and!; try done; simpl.
  - by apply only_counts_insert.
  - by apply in_range_insert.
  - intros x Hx. rewrite lookup_insert_ne; [done|congruence].
  - eapply st_ok_counts; [by apply only_counts_insert|done].
Qed.

(** ** Disable *)

(** The state a walk starts from. *)
Definition ready (u : clkp -> Z) (X : gset clkp) (s : clkst) : Prop :=
  ranked r (clk_mem s) /\ counted u X (clk_mem s) /\ in_range (clk_mem s) /\
  (forall x, 0 <= u x) /\ st_ok (clk_mem s) (hw s).

Lemma ready_walk (P : clkp -> Prop) u X u' X' s s' :
  ready u X s -> walk P s s' -> counted u' X' (clk_mem s') -> (forall x, 0 <= u' x) ->
  ready u' X' s'.
Proof.
  intros (A & B & C & D & E) (F & G & _ & _ & _ & H) Hc Hu.
  split_and!; try done. by eapply ranked_only_counts.
Qed.

Lemma ready_ext u u' X s : (forall x, u x = u' x) -> ready u X s -> ready u' X s.
Proof.
  intros H (A & B & C & D & E). split_and!; try done.
  - by eapply counted_ext.
  - intros x. rewrite <- H. apply D.
Qed.

(** The clocks of [X] lie strictly above rank [n]. *)
Definition above (n : nat) (X : gset clkp) : Prop := forall x, x ∈ X -> (n < r x)%nat.

Definition disable_ok (n : nat) : Prop :=
  forall c u X s, ready u X s -> above (r c) X -> is_Some (clk_mem s !! c) ->
    1 <= u c -> (r c < n)%nat ->
    wp (__clk_disable n c)
      (fun _ s' => walk (upto c) s s' /\ counted (plus u c (-1)) X (clk_mem s')) s.

(** Disabling the clock an optional link points to. *)
Lemma disable_link n c (o : option clkp) u X s :
  disable_ok n -> ready u X s -> above (r c) X -> (r c <= n)%nat ->
  (forall p, o = Some p -> is_Some (clk_mem s !! p) /\ (r p < r c)%nat) ->
  (forall x, 0 <= u x - ind o x) ->
  wp (when_some o (__clk_disable n))
    (fun _ s' => walk (below (r c)) s s' /\ counted (fun x => u x - ind o x) X (clk_mem s')) s.
Proof.
  intros IH Hs HX Hn Ho Hu. pose proof Hs as (_ & Hc & Hr & _ & Hh).
  destruct o as [p|]; simpl.
  - destruct (Ho p eq_refl) as [Hp Hrp]. eapply wp_mono.
    + apply (IH p u X s); [done| |done| |lia].
      * intros x Hx. specialize (HX x Hx). lia.
      * specialize (Hu p). unfold ind in Hu. rewrite decide_True in Hu by done. lia.
    + intros _ s' [Hw Hc']. split.
      * eapply walk_mono; [|exact Hw]. unfold below, upto. intros x [->|?]; lia.
      * eapply counted_ext; [|exact Hc']. intros x. unfold plus, ind.
        repeat case_decide; simplify_eq; lia.
  - apply wp_ret. split; [by apply walk_refl|].
    eapply counted_ext; [|exact Hc]. intros x. unfold ind. case_decide; [done|lia].
Qed.

Lemma above_notin c X : above (r c) X -> c ∉ X.
Proof. intros H Hc. specialize (H c Hc). lia. Qed.

(** The link targets of [k], a clock of rank [r c], exist and lie below it. *)
Definition targets (c : clkp) (k : clk) (s : clkst) : Prop :=
  (forall p, parent k = Some p -> is_Some (clk_mem s !! p) /\ (r p < r c)%nat) /\
  (forall p, secondary k = Some p -> is_Some (clk_mem s !! p) /\ (r p < r c)%nat).

Lemma targets_walk (P : clkp -> Prop) c k s s' : targets c k s -> walk P s s' -> targets c k s'.
Proof.
  intros [Hp Hq] (Ho & _).
  split; intros p Hl; [destruct (Hp p Hl) as [[kp Hkp] ?]|destruct (Hq p Hl) as [[kp Hkp] ?]];
    (split; [|done]); destruct (only_counts_lookup _ _ _ _ Ho Hkp) as (k' & ? & _); eauto.
Qed.

Lemma targets_ranked c k s : ranked r (clk_mem s) -> clk_mem s !! c = Some k -> targets c k s.
Proof. intros Hr Hk. destruct (Hr _ _ Hk) as (_ & ? & ?). by split. Qed.

Lemma walk_lookup c s s' : walk (below (r c)) s s' -> clk_mem s' !! c = clk_mem s !! c.
Proof. intros (_ & _ & Hf & _). apply Hf. unfold below. lia. Qed.

(** The tail of [__clk_disable] once the count of [c] is zero: method, parent,
    secondary. *)
Lemma release_links n c k u X s :
  disable_ok n -> ready (fun x => u x + links k x) X s -> (forall x, 0 <= u x) ->
  above (r c) X -> (r c <= n)%nat -> targets c k s -> clk_mem s !! c = Some (upd_usecount 0 k) ->
  wp (when_some (disable k) (fun f => call_disable f c);;
      k1 ← clk_at c;
      when_some (parent k1) (__clk_disable n);;
      k2 ← clk_at c;
      when_some (secondary k2) (__clk_disable n))
    (fun _ s' => walk (upto c) s s' /\ counted u X (clk_mem s')) s.
Proof.
  intros IH R1 Hu HX Hn HT Hc.
  assert (wp (when_some (disable k) (fun f => call_disable f c))
            (fun _ s' => exists h, s' = with_hw h s /\ st_ok (clk_mem s) h) s) as Hdis.
  { destruct (disable k) as [f|] eqn:Ef; simpl.
    - by apply (disable_law f c (upd_usecount 0 k)); [apply R1|..].
    - apply wp_ret. exists (hw s). split; [by destruct s|apply R1]. }
  apply wp_bind. eapply wp_mono; [exact Hdis|]. intros _ s1 (h & -> & Hh).
  assert (walk (below (r c)) s (with_hw h s)) as W1 by (apply walk_hw; [by apply R1|done]).
  assert (R2 : ready (fun x => u x + links k x) X (with_hw h s)).
  { eapply ready_walk; [exact R1|exact W1|apply R1|apply R1]. }
  apply wp_bind, (wp_clk_at _ (upd_usecount 0 k)); [done|].
  apply wp_bind. eapply wp_mono.
  { apply (disable_link n c (parent k) (fun x => u x + links k x) X); [done..|by apply HT|].
    intros x. unfold links. pose proof (ind_range (secondary k) x). specialize (Hu x). lia. }
  intros _ s3 [W3 C3].
  assert (R3 : ready (fun x => u x + links k x - ind (parent k) x) X s3).
  { eapply ready_walk; [exact R2|exact W3|exact C3|]. intros x. unfold links.
    pose proof (ind_range (secondary k) x). specialize (Hu x). lia. }
  apply wp_bind, (wp_clk_at _ (upd_usecount 0 k)); [by rewrite (walk_lookup _ _ _ W3)|].
  eapply wp_mono.
  { apply (disable_link n c (secondary k) (fun x => u x + links k x - ind (parent k) x) X); [done..| |].
    - by apply (targets_walk _ _ _ _ _ HT (walk_trans _ _ _ _ W1 W3)).
    - intros x. unfold links. specialize (Hu x). lia. }
  intros _ s4 [W4 C4]. split.
  - apply (walk_mono (below (r c))); [apply below_upto|]. eapply walk_trans; [exact W1|]. by eapply walk_trans.
  - eapply counted_ext; [|exact C4]. intros x. unfold links. lia.
Qed.

Lemma disable_spec n : disable_ok n.
Proof.
  induction n as [|n IH]; intros c u X s Hs HX [k Hk] Hu Hn; [lia|].
  pose proof Hs as (Hrk & Hcn & Hr & Hu0 & Hh). pose proof (above_notin _ _ HX) as HcX.
  pose proof (Hr _ _ Hk) as Hrange.
  assert (0 < usecount k) as Hpos.
  { rewrite (Hcn _ _ Hk). pose proof (pulled_nonneg X (clk_mem s) c). lia. }
  simpl. apply wp_bind, (wp_clk_at _ k); [done|].
  rewrite (proj2 (Z.ltb_lt _ _) Hpos), s8_small by lia.
  apply wp_bind, (wp_store_usecount _ k); [done|].
  set (s1 := with_mem _ s).
  assert (walk (upto c) s s1) as W1 by (apply walk_store; [done|by left|lia|done|done]).
  assert (forall x, 0 <= plus u c (-1) x) as Hu1.
  { intros x. unfold plus. specialize (Hu0 x). case_decide; subst; lia. }
  destruct (Z.eqb_spec (usecount k - 1) 0) as [H0|H0].
  - eapply wp_mono; [apply (release_links n c k (plus u c (-1)) X); [done| |done|done|lia| |]|].
    + eapply ready_walk; [exact Hs|exact W1| |].
      * eapply counted_upd; [exact Hk|done|exact Hcn|]. intros x. unfold plus.
        rewrite contrib_off, contrib_on by (done || lia). case_decide; lia.
      * intros x. pose proof (links_nonneg k x). specialize (Hu1 x). lia.
    + eapply targets_walk; [by apply targets_ranked|exact W1].
    + simpl. rewrite H0. apply lookup_insert_eq.
    + intros _ s2 [W2 C2]. split; [by eapply walk_trans|done].
  - apply wp_ret. split; [exact W1|].
    eapply counted_upd; [exact Hk|done|exact Hcn|]. intros x. unfold plus.
    rewrite !contrib_on by (done || lia). case_decide; lia.
Qed.

(** ** Enable *)

(** The counts after an attempt that returned [ret]. *)
Definition settled (u u' : clkp -> Z) (X : gset clkp) (ret : Z) (m : gmap clkp clk) : Prop :=
  counted (if ret =? 0 then u' else u) X m.

Definition enable_ok (n : nat) : Prop :=
  forall c u X s, ready u X s -> above (r c) X -> is_Some (clk_mem s !! c) ->
    fits (plus u c 1) X (clk_mem s) -> (r c < n)%nat ->
    wp (__clk_enable n c)
      (fun ret s' => walk (upto c) s s' /\ settled u (plus u c 1) X ret (clk_mem s')) s.

(** Enabling the clock an optional link points to; the pending clocks may
    include one of rank [r c]. *)
Lemma enable_link n c (o : option clkp) u X s :
  enable_ok n -> ready u X s -> (forall x, x ∈ X -> (r c <= r x)%nat) -> (r c <= n)%nat ->
  (forall p, o = Some p -> is_Some (clk_mem s !! p) /\ (r p < r c)%nat) ->
  fits (fun x => u x + ind o x) X (clk_mem s) ->
  wp (enable_some o (__clk_enable n))
    (fun ret s' => walk (below (r c)) s s' /\
       settled u (fun x => u x + ind o x) X ret (clk_mem s')) s.
Proof.
  intros IH Hs HX Hn Ho Hf. pose proof Hs as (_ & Hc & Hr & _ & Hh).
  assert (forall p x, o = Some p -> plus u p 1 x = u x + ind o x) as Hplus.
  { intros p x ->. unfold plus, ind. repeat case_decide; simplify_eq; lia. }
  destruct o as [p|]; simpl.
  - destruct (Ho p eq_refl) as [Hp Hrp]. eapply wp_mono.
    + apply (IH p u X s); [done| |done| |lia].
      * intros x Hx. specialize (HX x Hx). lia.
      * eapply fits_le; [|exact Hf]. intros x. by rewrite (Hplus p x).
    + intros ret s' [Hw Hc']. split.
      * eapply walk_mono; [|exact Hw]. unfold below, upto. intros x [->|?]; lia.
      * unfold settled in *. destruct (ret =? 0); [|done].
        eapply counted_ext; [|exact Hc']. intros x. by apply Hplus.
  - apply wp_ret. split; [by apply walk_refl|]. unfold settled. simpl.
    eapply counted_ext; [|exact Hc]. intros x. unfold ind. case_decide; [done|lia].
Qed.

Section Attempt.

(** One attempt to enable [c], a clock [k] whose count was zero, on behalf of
    the holdings [u]; [X] is what was pending before. *)
Context (n : nat) (c : clkp) (k : clk) (u : clkp -> Z) (X : gset clkp).
Context (HX : above (r c) X) (Hn : (r c <= n)%nat).

(** The attempt is under way: the count of [c] is one, its links are not charged,
    and the clocks its code enabled so far hold [v] extra enables. *)
Definition attempt (v : clkp -> Z) (s : clkst) : Prop :=
  ready (fun x => plus u c 1 x + v x) ({[c]} ∪ X) s /\ targets c k s /\
  clk_mem s !! c = Some (upd_usecount 1 k).

Definition failed (ret0 : Z) (s : clkst) (ret : Z) (s' : clkst) : Prop :=
  ret = ret0 /\ walk (upto c) s s' /\ counted u X (clk_mem s').

Lemma attempt_walk v v' s s' :
  attempt v s -> walk (below (r c)) s s' ->
  counted (fun x => plus u c 1 x + v' x) ({[c]} ∪ X) (clk_mem s') ->
  (forall x, 0 <= plus u c 1 x + v' x) -> attempt v' s'.
Proof.
  intros (R & T & L) W C H. split_and!.
  - by eapply ready_walk.
  - by eapply targets_walk.
  - by rewrite (walk_lookup _ _ _ W).
Qed.

Lemma pending_above : forall x, x ∈ {[c]} ∪ X -> (r c <= r x)%nat.
Proof. intros x [->%elem_of_singleton|H]%elem_of_union; [done|]. specialize (HX x H). lia. Qed.

Lemma err1_spec ret s :
  attempt (fun _ => 0) s -> wp (enable_err1 c ret) (failed ret s) s.
Proof.
  intros (R & T & L). unfold enable_err1.
  apply wp_bind, (wp_clk_at _ _ _ _ L). change (s8 _) with 0.
  apply wp_bind, (wp_store_usecount _ _ _ _ _ L). apply wp_ret.
  pose proof R as (_ & C & Hr & _ & Hh). split_and!; [done| |].
  - apply walk_store; [done|by left|lia|done|done].
  - eapply (counted_upd _ ({[c]} ∪ X)); [exact L|set_solver|exact C|]. intros x.
    rewrite (contrib_in ({[c]} ∪ X)) by set_solver. rewrite contrib_off by done.
    unfold plus. case_decide; simpl; lia.
Qed.

Lemma disable_pending (o : option clkp) v s :
  attempt (fun x => v x + ind o x) s -> (forall x, 0 <= plus u c 1 x + v x) ->
  (forall p, o = Some p -> is_Some (clk_mem s !! p) /\ (r p < r c)%nat) ->
  wp (when_some o (__clk_disable n))
    (fun _ s' => walk (below (r c)) s s' /\ attempt v s') s.
Proof.
  intros A Hv Ho. pose proof A as (R & T & L).
  pose proof R as (_ & C & Hr & _ & Hh).
  assert (forall w s', walk (below (r c)) s s' ->
    (forall x, w x = plus u c 1 x + v x) -> counted w ({[c]} ∪ X) (clk_mem s') -> attempt v s') as K.
  { intros w s' W Hw Hc. eapply attempt_walk; [exact A|exact W| |done].
    eapply counted_ext; [|exact Hc]. exact Hw. }
  destruct o as [p|]; simpl.
  - destruct (Ho p eq_refl) as [Hp Hrp]. eapply wp_mono.
    + eapply (disable_spec n p); [exact R| |done| |lia].
      * intros x Hx%pending_above. lia.
      * specialize (Hv p). unfold ind. rewrite decide_True by done. lia.
    + intros _ s' [W C']. assert (walk (below (r c)) s s') as W'.
      { eapply walk_mono; [|exact W]. unfold below, upto. intros x [->|?]; lia. }
      split; [done|]. eapply K; [exact W'| |exact C']. intros x. unfold plus at 1, ind.
      repeat case_decide; simplify_eq; lia.
  - apply wp_ret. assert (walk (below (r c)) s s) as W by by apply walk_refl.
    split; [done|]. eapply K; [exact W| |exact C]. intros x. unfold ind.
    rewrite decide_False by done. lia.
Qed.

Lemma failed_walk ret s1 s2 ret' s3 :
  walk (below (r c)) s1 s2 -> failed ret s2 ret' s3 -> failed ret s1 ret' s3.
Proof.
  intros W (-> & W2 & C). split_and!; [done| |done].
  eapply walk_trans; [|exact W2]. eapply walk_mono; [|exact W]. apply below_upto.
Qed.

Lemma err2_spec ret s :
  (forall x, 0 <= u x) -> attempt (ind (parent k)) s -> wp (enable_err2 n c ret) (failed ret s) s.
Proof.
  intros Hu A. pose proof A as (R & T & L). unfold enable_err2.
  apply wp_bind, (wp_clk_at _ _ _ _ L). simpl. apply wp_bind. eapply wp_mono.
  - apply (disable_pending (parent k) (fun _ => 0)); [exact A| |by apply T].
    intros x. unfold plus. specialize (Hu x). case_decide; lia.
  - intros _ s' [W A']. eapply wp_mono; [by apply err1_spec|].
    intros a s'' F. by eapply failed_walk.
Qed.

Lemma err3_spec ret s :
  (forall x, 0 <= u x) -> attempt (links k) s -> wp (enable_err3 n c ret) (failed ret s) s.
Proof.
  intros Hu A. pose proof A as (R & T & L). unfold enable_err3.
  apply wp_bind, (wp_clk_at _ _ _ _ L). simpl. apply wp_bind. eapply wp_mono.
  - apply (disable_pending (secondary k) (ind (parent k))); [exact A| |by apply T].
    intros x. unfold plus. specialize (Hu x). pose proof (ind_range (parent k) x). case_decide; lia.
  - intros _ s' [W A']. eapply wp_mono; [by apply err2_spec|].
    intros a s'' F. by eapply failed_walk.
Qed.

Lemma failed_settled ret0 s1 s2 ret s3 :
  ret0 <> 0 -> walk (upto c) s1 s2 -> failed ret0 s2 ret s3 ->
  walk (upto c) s1 s3 /\ settled u (plus u c 1) X ret (clk_mem s3).
Proof.
  intros Hne W (-> & W2 & C). split; [by eapply walk_trans|].
  unfold settled. by rewrite (proj2 (Z.eqb_neq ret0 0) Hne).
Qed.

(** Enabling one link of [c]: either [ret] is zero and the link is charged to
    the attempt, or the attempt is as it was. *)
Lemma attempt_link (o : option clkp) v s :
  enable_ok n -> attempt v s -> (forall x, 0 <= v x) ->
  (forall p, o = Some p -> is_Some (clk_mem s !! p) /\ (r p < r c)%nat) ->
  fits (fun x => plus u c 1 x + v x + ind o x) ({[c]} ∪ X) (clk_mem s) ->
  (forall x, 0 <= u x) ->
  wp (enable_some o (__clk_enable n))
    (fun ret s' => walk (below (r c)) s s' /\
       attempt (fun x => v x + (if ret =? 0 then ind o x else 0)) s') s.
Proof.
  intros IH A Hv Ho Hf Hu. pose proof A as (R & T & L). eapply wp_mono.
  - by apply (enable_link n c o _ _ _ IH R pending_above).
  - intros ret s' [W S]. split; [done|]. eapply attempt_walk; [exact A|exact W| |].
    + unfold settled in S. destruct (ret =? 0); (eapply counted_ext; [|exact S]); intros x; simpl; lia.
    + intros x. unfold plus. specialize (Hu x). specialize (Hv x). pose proof (ind_range o x).
      case_decide; case_match; lia.
Qed.

Lemma attempt_spec s :
  enable_ok n -> attempt (fun _ => 0) s -> (forall x, 0 <= u x) ->
  fits (plus u c 1) X (clk_mem s) ->
  wp (k1 ← clk_at c;
      ret1 ← enable_some (parent k1) (__clk_enable n);
      if negb (ret1 =? 0) then enable_err1 c ret1
      else
        k2 ← clk_at c;
        ret2 ← enable_some (secondary k2) (__clk_enable n);
        if negb (ret2 =? 0) then enable_err2 n c ret2
        else
          k3 ← clk_at c;
          ret3 ← enable_some (enable k3) (fun f => call_enable f c);
          if negb (ret3 =? 0) then enable_err3 n c ret3 else mret 0)
    (fun ret s' => walk (upto c) s s' /\ settled u (plus u c 1) X ret (clk_mem s')) s.
Proof.
  intros IH A Hu Hf. pose proof A as (R & T & L). pose proof (above_notin _ _ HX) as HcX.
  assert (F : fits (fun x => plus u c 1 x + links k x) ({[c]} ∪ X) (clk_mem s)).
  { by apply (fits_exclude _ X _ c (upd_usecount 1 k)). }
  assert (wu : forall s1, walk (below (r c)) s s1 -> walk (upto c) s s1).
  { intros s1. apply walk_mono, below_upto. }
  apply wp_bind, (wp_clk_at _ _ _ _ L). apply wp_bind. eapply wp_mono.
  { apply (attempt_link (parent k) _ _ IH A); [done|by apply T| |done].
    eapply fits_le; [|exact F]. intros x. unfold links. pose proof (ind_range (secondary k) x). lia. }
  intros ret1 s1 [W1 A1]. destruct (Z.eqb_spec ret1 0) as [E1|E1]; simpl.
  2: { eapply wp_mono; [by apply err1_spec|]. intros ret s2. apply failed_settled; auto. }
  pose proof A1 as (R1 & T1 & L1). apply wp_bind, (wp_clk_at _ _ _ _ L1). apply wp_bind. eapply wp_mono.
  { apply (attempt_link (secondary k) _ _ IH A1); [|by apply T1| |done].
    - intros x. pose proof (ind_range (parent k) x). lia.
    - eapply fits_only_counts; [apply W1|]. eapply fits_le; [|exact F]. intros x. unfold links. lia. }
  intros ret2 s2 [W2 A2]. assert (W12 := walk_trans _ _ _ _ W1 W2).
  destruct (Z.eqb_spec ret2 0) as [E2|E2]; simpl.
  2: { eapply wp_mono; [apply err2_spec; [done|]|intros ret s3; apply failed_settled; auto].
       destruct A2 as (R2 & T2 & L2). split_and!; [|done..].
       eapply ready_ext; [|exact R2]. intros x. simpl. lia. }
  pose proof A2 as (R2 & T2 & L2). apply wp_bind, (wp_clk_at _ _ _ _ L2). apply wp_bind.
  eapply (wp_mono _ (fun _ s3 => exists h, s3 = with_hw h s2 /\ st_ok (clk_mem s2) h)).
  { simpl. destruct (enable k) as [f|] eqn:Ef; simpl.
    - by apply (enable_law f c (upd_usecount 1 k)); [apply R2|..].
    - apply wp_ret. exists (hw s2). split; [by destruct s2|apply R2]. }
  intros ret3 s3 (h & -> & Hh).
  assert (W3 : walk (below (r c)) s2 (with_hw h s2)) by (apply walk_hw; [apply R2|done]).
  assert (A3 : attempt (links k) (with_hw h s2)).
  { eapply attempt_walk; [exact A2|exact W3| |].
    - eapply counted_ext; [|apply R2]. intros x. unfold links. lia.
    - intros x. unfold plus. pose proof (links_nonneg k x). specialize (Hu x). case_decide; lia. }
  destruct (Z.eqb_spec ret3 0) as [E3|E3]; simpl.
  - apply wp_ret. split; [apply wu; by eapply walk_trans|]. unfold settled. simpl.
    eapply (counted_commit _ X _ c (upd_usecount 1 k)); [apply L2|done|done|]. apply A3.
  - eapply wp_mono; [by apply err3_spec|]. intros ret s4.
    apply failed_settled; [done|]. apply wu. by eapply walk_trans.
Qed.

End Attempt.

Lemma enable_spec n : enable_ok n.
Proof.
  induction n as [|n IH]; intros c u X s Hs HX [k Hk] Hf Hn; [lia|].
  pose proof Hs as (Hrk & Hcn & Hr & Hu0 & Hh). pose proof (above_notin _ _ HX) as HcX.
  assert (0 <= usecount k <= 126) as Hrange.
  { split; [by apply (Hr _ _ Hk)|]. rewrite (Hcn _ _ Hk).
    pose proof (pulled_le_degree X (clk_mem s) c). specialize (Hf c). unfold plus in Hf.
    rewrite decide_True in Hf by done. lia. }
  simpl. apply wp_bind, (wp_clk_at _ k); [done|]. rewrite s8_small by lia.
  apply wp_bind, (wp_store_usecount _ k); [done|]. set (s1 := with_mem _ s).
  assert (walk (upto c) s s1) as W1 by (apply walk_store; [done|by left|lia|done|done]).
  destruct (Z.eqb_spec (usecount k) 0) as [H0|H0].
  - assert (Hu1 : forall x, 0 <= plus u c 1 x).
    { intros x. unfold plus. specialize (Hu0 x). case_decide; lia. }
    eapply wp_mono; [apply (attempt_spec n c k u X HX ltac:(lia) s1 IH); [split_and!|done|]|].
    + eapply ready_walk; [exact Hs|exact W1| |intros x; specialize (Hu1 x); lia].
      eapply (counted_upd _ X); [exact Hk|set_solver|exact Hcn|]. intros x.
      rewrite (contrib_in ({[c]} ∪ X)) by set_solver. rewrite contrib_off by lia.
      unfold plus. case_decide; lia.
    + eapply targets_walk; [by apply targets_ranked|exact W1].
    + simpl. rewrite H0. apply lookup_insert_eq.
    + eapply fits_only_counts; [apply W1|done].
    + intros ret s2 [W2 C2]. split; [by eapply walk_trans|done].
  - apply wp_ret. split; [exact W1|]. unfold settled. simpl.
    eapply counted_upd; [exact Hk|done|exact Hcn|]. intros x. unfold plus.
    rewrite !contrib_on by (done || lia). case_decide; lia.
Qed.

End Enable.
