(* ===== verification/ClkClients.v ===== *)
(** * The clock API as its clients see it

    [clk_enable] and [clk_disable] of [plat-mxc/clock.c] over any machine that
    satisfies [EnableLaws]: the accounts hold in every state clients can reach,
    a failed enable is undone exactly, enable followed by disable restores every
    count, and the counts depend on what the clients hold, never on the order in
    which they asked for it. *)

From stdpp Require Import base gmap list strings relations.
From Stdlib Require Import ZArith Lia.
From S2P Require Import Prelude ClkFramework ClkCounts ClkEnable.

Section Clients.
Context {Sig : ClkSig} {Meth : ClkMethods} {Laws : EnableLaws Sig Meth}.
Context (r : clkp -> nat).

Implicit Types (m : gmap clkp clk) (u : clkp -> Z) (c d p x : clkp) (k : clk) (s : clkst).

(** ** The counts are determined by the holdings *)

Lemma pulled_agree m m' c :
  only_counts m m' ->
  (forall d k, m !! d = Some k -> links k c <> 0 -> m' !! d = Some k) ->
  pulled ∅ m c = pulled ∅ m' c.
Proof.
  revert m'. unfold pulled. induction m as [|d k m Hd IH] using map_ind; intros m' H Hag.
  - assert (m' = ∅) as ->; [|done]. apply map_eq. intros d. specialize (H d).
    rewrite lookup_empty in *. by destruct (m' !! d).
  - destruct (only_counts_lookup _ _ d k H (lookup_insert_eq _ _ _)) as (k' & Hk' & Hkk).
    rewrite (msum_delete _ _ (<[d:=k]> m) d k) by apply lookup_insert_eq.
    rewrite (msum_delete _ _ m' d k') by done. rewrite delete_insert_id by done.
    rewrite !decide_False by set_solver. f_equal.
    + destruct (decide (links k c = 0)) as [E|E].
      * pose proof (pulls_le_links k c). pose proof (pulls_le_links k' c).
        assert (links k' c = links k c) by (by rewrite Hkk). lia.
      * specialize (Hag d k (lookup_insert_eq _ _ _) E). simplify_eq. congruence.
    + apply IH.
      * intros x. specialize (H x). destruct (decide (d = x)) as [->|Hne].
        -- by rewrite lookup_delete_eq, Hd.
        -- rewrite lookup_delete_ne by done. by rewrite lookup_insert_ne in H.
      * intros x kx Hx Hl. assert (d <> x) by congruence. rewrite lookup_delete_ne by done.
        apply Hag; [|done]. by rewrite lookup_insert_ne.
Qed.

Lemma links_ranked m d kd c : ranked r m -> m !! d = Some kd -> links kd c <> 0 -> (r c < r d)%nat.
Proof.
  intros Hr Hd Hl. destruct (Hr _ _ Hd) as (_ & Hp & Hq). unfold links, ind in Hl.
  destruct (decide (parent kd = Some c)) as [E|E]; [by apply Hp|].
  destruct (decide (secondary kd = Some c)) as [E'|E']; [by apply Hq|]. lia.
Qed.

Lemma counts_unique u m m' :
  ranked r m -> only_counts m m' -> counted u ∅ m -> counted u ∅ m' -> m = m'.
Proof.
  intros Hr Ho Hm Hm'.
  assert (forall n c, (size m <= n + r c)%nat -> m' !! c = m !! c) as Hall.
  2: { apply map_eq. intros c. symmetry. apply (Hall (size m)). lia. }
  induction n as [n IH] using lt_wf_ind. intros c Hc.
  destruct (m !! c) as [k|] eqn:E.
  - destruct (only_counts_lookup _ _ _ _ Ho E) as (k' & Hk' & Hkk).
    assert (usecount k' = usecount k) as Hu.
    { rewrite (Hm _ _ E), (Hm' _ _ Hk'), (pulled_agree m m'); [done..|].
      intros d kd Hd Hl. pose proof (links_ranked _ _ _ _ Hr Hd Hl) as Hlt.
      destruct (Hr _ _ Hd) as [Hsz _].
      rewrite (IH (size m - r d)%nat) by lia. done. }
    rewrite Hk', Hkk, Hu. by destruct k.
  - specialize (Ho c). rewrite E in Ho. by destruct (m' !! c).
Qed.

(** ** Calls *)

(** Clients hold [u] and the tree is in order. *)
Definition holding (u : clkp -> Z) (s : clkst) : Prop := ready r u ∅ s.

Lemma above_empty n : above r n ∅.
Proof. by intros x Hx%elem_of_empty. Qed.

Lemma rank_fuel u s c : holding u s -> is_Some (clk_mem s !! c) -> (r c < tree_fuel s)%nat.
Proof. intros (Hr & _) [k Hk]. destruct (Hr _ _ Hk) as [? _]. unfold tree_fuel. lia. Qed.

Lemma clk_enable_spec c u s :
  holding u s -> is_Some (clk_mem s !! c) -> fits (plus u c 1) ∅ (clk_mem s) ->
  wp (clk_enable (CPtr c))
    (fun ret s' => walk (upto r c) s s' /\
       settled u (plus u c 1) ∅ ret (clk_mem s')) s.
Proof.
  intros Hs Hc Hf. change (wp (__clk_enable (tree_fuel s) c) (fun ret s' => walk (upto r c) s s' /\
    settled u (plus u c 1) ∅ ret (clk_mem s')) s).
  apply (enable_spec r (tree_fuel s) c u ∅ s); [done|apply above_empty|done|done|by eapply rank_fuel].
Qed.

Lemma clk_disable_spec c u s :
  holding u s -> is_Some (clk_mem s !! c) -> 1 <= u c ->
  wp (clk_disable (CPtr c))
    (fun _ s' => walk (upto r c) s s' /\ counted (plus u c (-1)) ∅ (clk_mem s')) s.
Proof.
  intros Hs Hc Hu. change (wp (__clk_disable (tree_fuel s) c) (fun _ s' => walk (upto r c) s s' /\
    counted (plus u c (-1)) ∅ (clk_mem s')) s).
  apply (disable_spec r (tree_fuel s) c u ∅ s); [done|apply above_empty|done|done|by eapply rank_fuel].
Qed.

Lemma plus_nonneg u c x : (forall y, 0 <= u y) -> 0 <= plus u c 1 x.
Proof. intros H. unfold plus. specialize (H x). case_decide; lia. Qed.

Lemma minus_nonneg u c x : (forall y, 0 <= u y) -> 1 <= u c -> 0 <= plus u c (-1) x.
Proof. intros H Hc. unfold plus. specialize (H x). case_decide; subst; lia. Qed.

(** ** Reachability *)

(** One client call, with the holdings before and after it: an enable that
    succeeds adds a hold, one that fails adds none, a disable gives one back.  Clients
    stay within the limit of [fits]: a further hold is taken only while, for every clock, the
    holds on it and the clocks that have it as parent or secondary clock are together
    at most 127. *)
Inductive client_step : (clkp -> Z) * clkst -> (clkp -> Z) * clkst -> Prop :=
| step_enable u s c s' :
    is_Some (clk_mem s !! c) -> fits (plus u c 1) ∅ (clk_mem s) ->
    clk_enable (CPtr c) s = Ret (0, s') -> client_step (u, s) (plus u c 1, s')
| step_enable_fails u s c ret s' :
    is_Some (clk_mem s !! c) -> fits (plus u c 1) ∅ (clk_mem s) -> ret <> 0 ->
    clk_enable (CPtr c) s = Ret (ret, s') -> client_step (u, s) (u, s')
| step_disable u s c s' :
    is_Some (clk_mem s !! c) -> 1 <= u c ->
    clk_disable (CPtr c) s = Ret (tt, s') -> client_step (u, s) (plus u c (-1), s').

Lemma client_step_inv u s u' s' :
  client_step (u, s) (u', s') -> holding u s ->
  holding u' s' /\ only_counts (clk_mem s) (clk_mem s').
Proof.
  intros H Hs. pose proof Hs as (_ & _ & _ & Hu & _). inversion H; subst.
  - assert (W := clk_enable_spec _ _ _ Hs ltac:(eassumption) ltac:(eassumption)).
    apply wp_run in W as (a & s1 & E & W & C).
    assert (Ret (0, s') = Ret (a, s1)) as [= <- <-] by congruence. split; [|apply W].
    eapply ready_walk; [exact Hs|exact W|exact C|]. intros x. by apply plus_nonneg.
  - assert (W := clk_enable_spec _ _ _ Hs ltac:(eassumption) ltac:(eassumption)).
    apply wp_run in W as (a & s1 & E & W & C).
    assert (Ret (ret, s') = Ret (a, s1)) as [= <- <-] by congruence. split; [|apply W].
    unfold settled in C. rewrite (proj2 (Z.eqb_neq ret 0)) in C by done.
    eapply ready_walk; [exact Hs|exact W|exact C|done].
  - assert (W := clk_disable_spec _ _ _ Hs ltac:(eassumption) ltac:(eassumption)).
    apply wp_run in W as (a & s1 & E & W & C).
    assert (Ret (tt, s') = Ret (a, s1)) as [= <- <-] by congruence. split; [|apply W].
    eapply ready_walk; [exact Hs|exact W|exact C|]. intros x. by apply minus_nonneg.
Qed.

Lemma client_rtc_inv u s u' s' :
  rtc client_step (u, s) (u', s') -> holding u s ->
  holding u' s' /\ only_counts (clk_mem s) (clk_mem s').
Proof.
  remember (u, s) as a eqn:Ea. remember (u', s') as b eqn:Eb. intros H. revert u s Ea u' s' Eb.
  induction H as [|a [u1 s1] b Hstep Hrtc IH]; intros u s Ea u' s' Eb Hs; subst.
  - simplify_eq. by split.
  - destruct (client_step_inv _ _ _ _ Hstep Hs) as [H1 O1].
    destruct (IH u1 s1 eq_refl u' s' eq_refl H1) as [H2 O2]. split; [done|]. by etrans.
Qed.

(** An enable and the disable that takes it back. *)
Lemma enable_disable_run u s c :
  holding u s -> is_Some (clk_mem s !! c) -> fits (plus u c 1) ∅ (clk_mem s) ->
  exists ret s1, clk_enable (CPtr c) s = Ret (ret, s1) /\
    (ret = 0 -> exists s2, clk_disable (CPtr c) s1 = Ret (tt, s2) /\ clk_mem s2 = clk_mem s).
Proof.
  intros Hs Hc Hf. assert (W := clk_enable_spec _ _ _ Hs Hc Hf).
  apply wp_run in W as (ret & s1 & E & W & C). exists ret, s1. split; [done|]. intros ->.
  destruct (client_step_inv u s (plus u c 1) s1 (step_enable u s c s1 Hc Hf E) Hs) as [H1 O1].
  assert (is_Some (clk_mem s1 !! c)) as Hc1.
  { destruct Hc as [k Hk]. destruct (only_counts_lookup _ _ _ _ O1 Hk) as (? & ? & _). eauto. }
  assert (1 <= plus u c 1 c) as Hge.
  { unfold plus. rewrite decide_True by done. destruct Hs as (_ & _ & _ & Hu & _). specialize (Hu c). lia. }
  assert (W2 := clk_disable_spec _ _ _ H1 Hc1 Hge).
  apply wp_run in W2 as ([] & s2 & E2 & W2 & C2). exists s2. split; [done|].
  symmetry. eapply counts_unique; [apply Hs| |apply Hs|].
  - etrans; [exact O1|apply W2].
  - eapply counted_ext; [|exact C2]. intros x. unfold plus. repeat case_decide; lia.
Qed.

(** ** Properties *)

(** An enable of a running clock only counts, in a signed byte. *)
Lemma enable_running s c k :
  clk_mem s !! c = Some k -> usecount k <> 0 ->
  exists s', clk_enable (CPtr c) s = Ret (0, s') /\ (usecount <$> clk_mem s' !! c) = Some (s8 (usecount k + 1)).
Proof.
  intros Hc Hu. unfold clk_enable, tree_fuel, mbind, M_bind, get. cbn [__clk_enable]. unfold mbind, M_bind, clk_at, mbind, M_bind, get.
  rewrite Hc. cbn. rewrite (proj2 (Z.eqb_neq _ _) Hu). eexists. split; [reflexivity|]. cbn.
  rewrite lookup_alter_eq, Hc. done.
Qed.

(** C1: Reference counting.  From a state with exact counts, clients enable and disable
    clocks in any order, some enables failing; they disable only what they hold, and take
    a further hold only while, for every clock, the holds on it and the clocks that have it
    as parent or secondary clock are together at most 127 (the count is a signed
    byte).  Then in every state they reach, the use count of each clock is the number of
    enables that clients hold on it plus one for each running clock that has it as parent
    or secondary clock, and within this limit no count is negative or has wrapped.  The
    limit is needed: one more enable of a clock whose count is 127 succeeds and makes it
    -128. *)
Theorem usecount_accounts u s u' s' c k :
  holding u s -> rtc client_step (u, s) (u', s') -> clk_mem s' !! c = Some k ->
  usecount k = u' c + pulled ∅ (clk_mem s') c /\ 0 <= usecount k <= 127 /\
  (usecount k = 127 -> exists s2, clk_enable (CPtr c) s' = Ret (0, s2) /\ (usecount <$> clk_mem s2 !! c) = Some (-128)).
Proof.
  intros Hs Hr Hc. destruct (client_rtc_inv _ _ _ _ Hr Hs) as [(_ & Hcn & Hrg & _) _].
  split_and!; [by apply Hcn|by eapply Hrg..|].
  intros E. destruct (enable_running s' c k Hc ltac:(lia)) as (s2 & E2 & U). exists s2. split; [done|]. by rewrite E in U.
Qed.

(** A clock that runs has its parent and its secondary clock running, in
    every reachable state. *)
Theorem running_links_run u s u' s' c k p kp :
  holding u s -> rtc client_step (u, s) (u', s') ->
  clk_mem s' !! c = Some k -> 0 < usecount k ->
  parent k = Some p \/ secondary k = Some p -> clk_mem s' !! p = Some kp -> 0 < usecount kp.
Proof.
  intros Hs Hr Hc Hpos Hl Hp. destruct (client_rtc_inv _ _ _ _ Hr Hs) as [(_ & Hcn & _ & Hu & _) _].
  apply (counted_at_least _ _ _ _ _ c k Hcn Hu Hp Hc); [set_solver|done|].
  unfold links, ind. pose proof (ind_range (parent k) p). pose proof (ind_range (secondary k) p).
  unfold ind in *. destruct Hl as [-> | ->]; repeat case_decide; simplify_eq; lia.
Qed.

(** C3: A failed [clk_enable], within the limit of holds of C1, is rolled back exactly: when it returns an error,
    every clock object, use counts included, is what it was before the call. *)
Theorem clk_enable_failure_restores u s c ret s' :
  holding u s -> is_Some (clk_mem s !! c) -> fits (plus u c 1) ∅ (clk_mem s) ->
  clk_enable (CPtr c) s = Ret (ret, s') -> ret <> 0 -> clk_mem s' = clk_mem s.
Proof.
  intros Hs Hc Hf Hrun Hne.
  destruct (client_step_inv u s u s' (step_enable_fails u s c ret s' Hc Hf Hne Hrun) Hs) as [H' Ho].
  symmetry. eapply counts_unique; [apply Hs|done|apply Hs|apply H'].
Qed.

(** C4: [clk_enable] and [clk_disable] always return on a tree whose links are
    ranked, with the hardware in a state its methods accept and within the limit of C1; a successful
    [clk_enable] followed by [clk_disable] of the same clock restores every
    clock object. *)
Theorem clk_enable_disable_restores u s c :
  holding u s -> is_Some (clk_mem s !! c) -> fits (plus u c 1) ∅ (clk_mem s) ->
  exists ret s1, clk_enable (CPtr c) s = Ret (ret, s1) /\
    (ret = 0 -> exists s2, clk_disable (CPtr c) s1 = Ret (tt, s2) /\ clk_mem s2 = clk_mem s).
Proof. apply enable_disable_run. Qed.

(** C5: The use counts depend on what the clients hold, not on the history: two
    runs from the same state that end with the same holdings end with the same
    clock objects, whatever calls (within the limit of C1) they made and in whatever order. *)
Theorem usecounts_history_free u s u1 s1 u2 s2 :
  holding u s -> rtc client_step (u, s) (u1, s1) -> rtc client_step (u, s) (u2, s2) ->
  (forall c, u1 c = u2 c) -> clk_mem s1 = clk_mem s2.
Proof.
  intros Hs R1 R2 Hu.
  destruct (client_rtc_inv _ _ _ _ R1 Hs) as [H1 O1].
  destruct (client_rtc_inv _ _ _ _ R2 Hs) as [H2 O2].
  eapply counts_unique; [apply H1| |apply H1|].
  - etrans; [symmetry; exact O1|exact O2].
  - eapply counted_ext; [|apply H2]. intros x. by rewrite Hu.
Qed.

End Clients.
