(* ===== verification/ClkRates.v ===== *)
(** * Rate propagation

    [propagate_rate] of [plat-mxc/clock.c]: after it runs from a clock, every
    registered descendant of that clock has the rate its recalc method derives
    from its parent's rate and the hardware, and no other clock has changed.
    Proved for every machine whose recalc methods compute a rate from those
    inputs ([RecalcLaws]). *)

From stdpp Require Import base gmap list strings relations.
From Stdlib Require Import ZArith Lia.
From S2P Require Import Prelude ClkFramework ClkCounts ClkEnable.

(** A recalc method stores [recalc_val] in the clock's rate.  It may touch the
    hardware, but only in ways the rates do not depend on: [hw_eqv].
    [recalc_dom] is the clocks the method is meant for. *)
Class RecalcLaws (Sig : ClkSig) (Meth : ClkMethods) : Type := {
  hw_eqv : relation hwst;
  hw_eqv_equiv :: Equivalence hw_eqv;
  recalc_dom : recalc_fn -> clkp -> clk -> Prop;
  recalc_val : recalc_fn -> clkp -> clk -> Z -> hwst -> Z;
  recalc_val_proper f c k v :: Proper (hw_eqv ==> eq) (recalc_val f c k v);
  recalc_dom_rate f c k v : recalc_dom f c k -> recalc_dom f c (upd_rate v k);
  recalc_val_rate f c k v w h : recalc_val f c (upd_rate v k) w h = recalc_val f c k w h;
  recalc_law : forall f c s k p kp,
    clk_mem s !! c = Some k -> parent k = Some p -> clk_mem s !! p = Some kp ->
    recalc_dom f c k ->
    wp (call_recalc f c) (fun _ s' => exists h, hw_eqv (hw s) h /\
      s' = with_hw h (with_mem (fun m => <[c := upd_rate (recalc_val f c k (rate kp) (hw s)) k]> m) s)) s;
}.

Section Rates.
Context {Sig : ClkSig} {Meth : ClkMethods} {Laws : RecalcLaws Sig Meth}.

Implicit Types (m : gmap clkp clk) (c d p t x : clkp) (k : clk) (s : clkst).

(** The rate clock [c] has to have when its parent runs at [pr]. *)
Definition expected_rate (c : clkp) (k : clk) (pr : Z) (h : hwst) : Z :=
  match recalc k with
  | Some f => recalc_val f c k pr h
  | None => pr
  end.

(** The rate of [c] is the one its parent and the hardware imply. *)
Definition coherent (s : clkst) (c : clkp) : Prop :=
  forall k p kp, clk_mem s !! c = Some k -> parent k = Some p -> clk_mem s !! p = Some kp ->
    rate k = expected_rate c k (rate kp) (hw s).

(** [child m l p c]: [c] is in the list [l] and its parent is [p]. *)
Definition child (m : gmap clkp clk) (l : list clkp) (p c : clkp) : Prop :=
  c ∈ l /\ exists k, m !! c = Some k /\ parent k = Some p.

(** Two memories that differ in rates only. *)
Definition only_rates (m m' : gmap clkp clk) : Prop :=
  forall c, upd_rate 0 <$> m !! c = upd_rate 0 <$> m' !! c.

#[global] Instance only_rates_equiv : Equivalence only_rates.
Proof.
  split.
  - by intros m c.
  - intros m m' H c. by rewrite H.
  - intros m1 m2 m3 H1 H2 c. by rewrite H1, H2.
Qed.

Lemma only_rates_lookup m m' c k :
  only_rates m m' -> m !! c = Some k ->
  exists k', m' !! c = Some k' /\ k' = upd_rate (rate k') k.
Proof.
  intros H Hc. specialize (H c). rewrite Hc in H. simpl in H.
  destruct (m' !! c) as [k'|] eqn:E; [|done]. simpl in H. injection H as H.
  exists k'. split; [done|]. destruct k, k'. simplify_eq/=. done.
Qed.

Lemma methods_only_rates m m' : only_rates m m' -> same_methods m m'.
Proof.
  intros H c. specialize (H c). apply (f_equal (fmap set_rate)) in H. rewrite <- !option_fmap_compose in H. exact H.
Qed.

Lemma counts_only_rates m m' : only_rates m m' -> forall c, counts_of <$> m !! c = counts_of <$> m' !! c.
Proof.
  intros H c. specialize (H c). apply (f_equal (fmap counts_of)) in H. rewrite <- !option_fmap_compose in H. exact H.
Qed.

Lemma only_rates_back m m' c k' : only_rates m m' -> m' !! c = Some k' ->
  exists k, m !! c = Some k /\ k' = upd_rate (rate k') k.
Proof.
  intros H Hc. symmetry in H. destruct (only_rates_lookup _ _ _ _ H Hc) as (k & Hk & E). exists k.
  split; [done|]. rewrite E. by destruct k'.
Qed.

Lemma only_rates_insert m c k v :
  m !! c = Some k -> only_rates m (<[c := upd_rate v k]> m).
Proof.
  intros Hc d. destruct (decide (c = d)) as [->|Hne].
  - by rewrite lookup_insert_eq, Hc.
  - by rewrite lookup_insert_ne.
Qed.

Lemma expected_rate_upd c k v pr h : expected_rate c (upd_rate v k) pr h = expected_rate c k pr h.
Proof. unfold expected_rate. simpl. destruct (recalc k); [apply recalc_val_rate|done]. Qed.

Lemma expected_rate_eqv c k pr h h' : hw_eqv h h' -> expected_rate c k pr h = expected_rate c k pr h'.
Proof. intros H. unfold expected_rate. destruct (recalc k); [by rewrite H|done]. Qed.

(** ** One propagation, against the rates it is to establish *)

(** The last step to a descendant. *)
Lemma tc_last m l t c :
  tc (child m l) t c -> exists y, rtc (child m l) t y /\ child m l y c.
Proof.
  induction 1 as [t c H|t y c H _ (z & Hz & Hc)].
  - exists t. split; [apply rtc_refl|done].
  - exists z. split; [by eapply rtc_l|done].
Qed.

Section Walk.

(** [m0], [h0] and [l]: the clocks, the hardware and the list when the
    propagation starts.  [rk] ranks the tree, [N] bounds the ranks. *)
Context (m0 : gmap clkp clk) (h0 : hwst) (l : list clkp) (rk : clkp -> nat) (N : nat).
Context (HN : forall c, (rk c <= N)%nat).
Context (Hl : forall c, c ∈ l -> is_Some (m0 !! c)).
Context (Hrk : forall c k p, m0 !! c = Some k -> parent k = Some p ->
  is_Some (m0 !! p) /\ (rk p < rk c)%nat).
Context (Hdom : forall c k f, m0 !! c = Some k -> is_Some (parent k) -> recalc k = Some f -> recalc_dom f c k).

(** [spec] are rates consistent with the tree below [t0]. *)
Context (t0 : clkp) (spec : clkp -> Z).
Context (Hspec : forall c k p, tc (child m0 l) t0 c -> m0 !! c = Some k -> parent k = Some p ->
  spec c = expected_rate c k (spec p) h0).

(** States the propagation goes through. *)
Definition midway (s : clkst) : Prop :=
  only_rates m0 (clk_mem s) /\ hw_eqv h0 (hw s) /\ clocks s = l.

Definition has_spec (s : clkst) (c : clkp) : Prop :=
  exists k, clk_mem s !! c = Some k /\ rate k = spec c.

(** What processing the subtree of [t] does: [P] is the set of clocks written. *)
Definition progress (P : clkp -> Prop) (s s' : clkst) : Prop :=
  midway s' /\ modules s' = modules s /\
  (forall c, has_spec s c -> has_spec s' c) /\
  (forall c, P c -> has_spec s' c) /\
  (forall c, ~ P c -> clk_mem s' !! c = clk_mem s !! c).

(** [t] is the start or one of its descendants. *)
Definition reached (t : clkp) : Prop := rtc (child m0 l) t0 t.

Lemma reached_child t c : reached t -> child m0 l t c -> tc (child m0 l) t0 c.
Proof. intros H1 H2. eapply tc_rtc_l; [exact H1|by apply tc_once]. Qed.

(** Recomputing one child. *)
Lemma recalc_child t c k s :
  reached t -> child m0 l t c -> midway s -> has_spec s t -> clk_mem s !! c = Some k ->
  wp (match recalc k with
      | Some f => call_recalc f c
      | None => tk ← clk_at t; store_rate c (rate tk)
      end) (fun _ s' => progress (fun x => x = c) s s') s.
Proof.
  intros Ht Hch (Ho & Hh & Hls) (kt & Hkt & Hrt) Hc.
  destruct Hch as (Hcl & k0 & Hk0 & Hp0).
  destruct (only_rates_lookup _ _ _ _ Ho Hk0) as (k' & Hk' & Hkk). simplify_eq.
  assert (parent k = Some t) as Hp by (rewrite Hkk; done).
  assert (spec c = expected_rate c k (rate kt) (hw s)) as Hsp.
  { rewrite (Hspec c k0 t); [|by apply (reached_child t c Ht); split; eauto|done|done].
    rewrite Hkk, expected_rate_upd, Hrt. by apply expected_rate_eqv. }
  assert (Hgo : forall h, hw_eqv (hw s) h -> progress (fun x => x = c) s
    (with_hw h (with_mem (fun m => <[c := upd_rate (spec c) k]> m) s))).
  { intros h Hhe. split_and!; simpl.
    - split_and!; simpl; [|by etrans|done]. etrans; [exact Ho|by apply only_rates_insert].
    - done.
    - intros x (kx & Hx & Hrx). unfold has_spec; simpl. destruct (decide (c = x)) as [->|Hne].
      + rewrite lookup_insert_eq. by eexists.
      + rewrite lookup_insert_ne by done. eauto.
    - intros x ->. eexists. split; [apply lookup_insert_eq|done].
    - intros x Hx. rewrite lookup_insert_ne; [done|congruence]. }
  unfold expected_rate in Hsp. destruct (recalc k) as [f|] eqn:Ef.
  - eapply wp_mono.
    + eapply recalc_law; [done|done|done|]. rewrite Hkk. apply recalc_dom_rate.
      apply Hdom; [done|eauto|]. rewrite Hkk in Ef. exact Ef.
    + intros _ s' (h & Hhe & ->). rewrite <- Hsp. by apply Hgo.
  - apply wp_bind, (wp_clk_at _ kt); [done|]. rewrite <- Hsp.
    unfold wp, store_rate, modify.
    assert (with_mem (alter (upd_rate (spec c)) c) s =
      with_hw (hw s) (with_mem (fun m => <[c := upd_rate (spec c) k]> m) s)) as ->.
    { unfold with_mem, with_hw. simpl. by rewrite (alter_lookup _ _ k). }
    by apply Hgo.
Qed.

Lemma progress_keeps P s s' c : progress P s s' -> has_spec s c -> has_spec s' c.
Proof. intros (_ & _ & H & _). apply H. Qed.

Lemma progress_writes (P : clkp -> Prop) s s' c : progress P s s' -> P c -> has_spec s' c.
Proof. intros (_ & _ & _ & H & _). apply H. Qed.

Lemma progress_refl s : midway s -> progress (fun _ => False) s s.
Proof. intros. by split_and!. Qed.

Lemma progress_trans (P Q R : clkp -> Prop) s1 s2 s3 :
  (forall x, R x <-> P x \/ Q x) -> progress P s1 s2 -> progress Q s2 s3 -> progress R s1 s3.
Proof.
  intros HR (A1 & B1 & C1 & D1 & E1) (A2 & B2 & C2 & D2 & E2). split_and!; [done|congruence|auto|..].
  - intros c [Hc|Hc]%HR; auto.
  - intros c Hc. rewrite HR in Hc. rewrite E2, E1; tauto.
Qed.

Lemma progress_iff (P Q : clkp -> Prop) s s' :
  (forall x, P x <-> Q x) -> progress P s s' -> progress Q s s'.
Proof.
  intros H (A & B & C & D & E). split_and!; [done..| |]; intros c Hc; [apply D|apply E]; by rewrite H.
Qed.

Definition propagate_ok (n : nat) : Prop :=
  forall t s, reached t -> midway s -> has_spec s t -> (N < n + rk t)%nat ->
    wp (propagate n t) (fun _ s' => progress (tc (child m0 l) t) s s') s.

Lemma child_lookup t c s :
  midway s -> c ∈ l ->
  exists k, clk_mem s !! c = Some k /\ (parent k = Some t <-> child m0 l t c).
Proof.
  intros (Ho & _) Hc. destruct (Hl c Hc) as [k0 Hk0].
  destruct (only_rates_lookup _ _ _ _ Ho Hk0) as (k & Hk & Hkk). exists k. split; [done|].
  rewrite Hkk. simpl. split.
  - intros Hp. split; [done|]. eauto.
  - intros (_ & k1 & Hk1 & Hp). congruence.
Qed.

Lemma tc_child t x : tc (child m0 l) t x <-> exists c, child m0 l t c /\ rtc (child m0 l) c x.
Proof.
  split.
  - intros H. inversion H; subst; eauto using tc_rtc, rtc_refl.
  - intros (c & H1 & H2). eapply tc_rtc_r; [by apply tc_once|done].
Qed.

Lemma rtc_tc_eq c x : rtc (child m0 l) c x <-> x = c \/ tc (child m0 l) c x.
Proof. rewrite rtc_tc. split; intros [H|H]; auto. Qed.

Lemma propagate_list_spec n t ls s :
  propagate_ok n -> reached t -> (forall c, c ∈ ls -> c ∈ l) -> midway s -> has_spec s t ->
  (N < S n + rk t)%nat ->
  wp (propagate_list (propagate n) t ls)
    (fun _ s' => progress (fun x => exists c, c ∈ ls /\ child m0 l t c /\ rtc (child m0 l) c x) s s') s.
Proof.
  intros IH Ht. revert s. induction ls as [|c ls IHls]; intros s Hin Hm Hst Hn; simpl.
  { apply wp_ret. eapply progress_iff; [|by apply progress_refl]. intros x. split; [done|].
    intros (c & H%elem_of_nil & _). done. }
  assert (forall d, d ∈ ls -> d ∈ l) as Hin' by (intros; apply Hin; by right).
  destruct (child_lookup t c s Hm (Hin c ltac:(left))) as (k & Hk & Hpc).
  apply wp_bind, (wp_clk_at _ k); [done|]. case_decide as Hp.
  - assert (Hch : child m0 l t c) by (by apply Hpc). apply wp_bind.
    eapply wp_mono; [by eapply recalc_child|]. intros [] s1 P1. apply wp_bind. eapply wp_mono.
    { apply IH; [by eapply rtc_r|apply P1|by eapply progress_writes|].
      destruct Hch as (_ & k0 & Hk0 & Hp0). destruct (Hrk _ _ _ Hk0 Hp0) as [_ ?]. lia. }
    intros [] s2 P2.
    assert (P12 : progress (rtc (child m0 l) c) s s2).
    { eapply progress_trans; [|exact P1|exact P2]. apply rtc_tc_eq. }
    eapply wp_mono; [apply IHls; [done|apply P12|by eapply progress_keeps|done]|].
    intros [] s3 P3. eapply progress_trans; [|exact P12|exact P3]. intros x. split.
    + intros (d & [->|Hd]%elem_of_cons & H1 & H2); [by left|]. right. eauto.
    + intros [H1|(d & Hd & H1 & H2)]; [exists c|exists d]; (split; [|done]); [left|by right].
  - eapply wp_mono; [by apply IHls|]. intros [] s3 P3. eapply progress_iff; [|exact P3].
    intros x. split.
    + intros (d & Hd & H1 & H2). exists d. split; [by right|done].
    + intros (d & [->|Hd]%elem_of_cons & H1 & H2); [|eauto]. by rewrite <- Hpc in H1.
Qed.

Lemma propagate_spec n : propagate_ok n.
Proof.
  induction n as [|n IH]; intros t s Ht Hm Hst Hn.
  - exfalso. specialize (HN t). lia.
  - simpl. apply wp_bind. unfold wp at 1, gets. simpl. rewrite (proj2 (proj2 Hm)).
    eapply wp_mono; [by apply propagate_list_spec|]. intros [] s' P. eapply progress_iff; [|exact P].
    intros x. rewrite tc_child. split.
    + intros (c & _ & H). eauto.
    + intros (c & H1 & H2). exists c. split; [apply H1|done].
Qed.

End Walk.

(** ** The rates a propagation establishes *)

Section Spec.
Context (m0 : gmap clkp clk) (h0 : hwst) (l : list clkp) (rk : clkp -> nat) (t0 : clkp).
Context (Hrk : forall c k p, m0 !! c = Some k -> parent k = Some p ->
  is_Some (m0 !! p) /\ (rk p < rk c)%nat).

(** Rates derived from that of [t0] by following parents. *)
Fixpoint spec_rate (n : nat) (c : clkp) : Z :=
  match m0 !! c with
  | None => 0
  | Some k =>
      if decide (c = t0) then rate k
      else
        match n, parent k with
        | S n', Some p => expected_rate c k (spec_rate n' p) h0
        | _, _ => 0
        end
  end.

Lemma spec_rate_stable n n' c :
  (rk c < n)%nat -> (rk c < n')%nat -> spec_rate n c = spec_rate n' c.
Proof.
  revert n' c. induction n as [|n IH]; intros [|n'] c H H'; try lia. simpl.
  destruct (m0 !! c) as [k|] eqn:E; [|done]. case_decide; [done|].
  destruct (parent k) as [p|] eqn:Ep; [|done].
  destruct (Hrk _ _ _ E Ep) as [_ Hlt]. f_equal. apply IH; lia.
Qed.

Lemma tc_child_rank t c : tc (child m0 l) t c -> (rk t < rk c)%nat.
Proof.
  induction 1 as [t c (_ & k & Hk & Hp)|t y c (_ & k & Hk & Hp) _ IH];
    destruct (Hrk _ _ _ Hk Hp); lia.
Qed.

Lemma spec_rate_child c k p :
  tc (child m0 l) t0 c -> m0 !! c = Some k -> parent k = Some p ->
  spec_rate (S (rk c)) c = expected_rate c k (spec_rate (S (rk p)) p) h0.
Proof.
  intros Ht Hc Hp. destruct (Hrk _ _ _ Hc Hp) as [_ Hlt].
  simpl. rewrite Hc, Hp. rewrite decide_False.
  2: { intros ->. pose proof (tc_child_rank _ _ Ht). lia. }
  f_equal. apply (spec_rate_stable (rk c) (S (rk p)) p); lia.
Qed.

End Spec.

(** The clocks and the list are in order for a propagation: parents exist and
    are ranked, registered clocks exist, recalc methods are on their clocks. *)
Definition tree_ok (rk : clkp -> nat) (s : clkst) : Prop :=
  (forall c, (rk c <= size (clk_mem s))%nat) /\
  (forall c, c ∈ clocks s -> is_Some (clk_mem s !! c)) /\
  (forall c k p, clk_mem s !! c = Some k -> parent k = Some p ->
     is_Some (clk_mem s !! p) /\ (rk p < rk c)%nat) /\
  (forall c k f, clk_mem s !! c = Some k -> is_Some (parent k) -> recalc k = Some f -> recalc_dom f c k).

(** What a propagation from [t] does. *)
Definition propagated (t : clkp) (s s' : clkst) : Prop :=
  (forall c, tc (child (clk_mem s) (clocks s)) t c -> coherent s' c) /\
  (forall c, ~ tc (child (clk_mem s) (clocks s)) t c -> clk_mem s' !! c = clk_mem s !! c) /\
  only_rates (clk_mem s) (clk_mem s') /\ hw_eqv (hw s) (hw s') /\
  clocks s' = clocks s /\ modules s' = modules s.

Lemma propagate_rate_spec rk t s :
  tree_ok rk s -> is_Some (clk_mem s !! t) ->
  wp (propagate_rate (CPtr t)) (fun _ s' => propagated t s s') s.
Proof.
  intros (HN & Hl & Hr & Hd) [kt Hkt].
  set (spec := fun c => spec_rate (clk_mem s) (hw s) t (S (rk c)) c).
  assert (Hst : has_spec spec s t).
  { exists kt. split; [done|]. unfold spec. simpl. rewrite Hkt. by rewrite decide_True. }
  change (wp (propagate (tree_fuel s) t) (fun _ s' => propagated t s s') s).
  eapply wp_mono.
  { eapply (propagate_spec (clk_mem s) (hw s) (clocks s) rk (size (clk_mem s)) HN Hl Hr Hd t spec);
      [|apply rtc_refl|by split_and!|done|unfold tree_fuel; lia].
    intros c k p. by apply spec_rate_child. }
  intros [] s' ((Ho & Hh & Hls) & Hmod & Hkeep & Hwr & Hfr). split_and!; try done.
  intros c Hc k p kp Hk Hp Hkp.
  destruct (Hwr c Hc) as (k' & Hk' & Hrk'). simplify_eq.
  assert (exists k0, clk_mem s !! c = Some k0 /\ k = upd_rate (rate k) k0) as (k0 & Hk0 & Hkk).
  { symmetry in Ho. destruct (only_rates_lookup _ _ _ _ Ho Hk) as (k0 & ? & E). exists k0.
    split; [done|]. rewrite E. by destruct k. }
  assert (parent k0 = Some p) as Hp0 by (by rewrite Hkk in Hp).
  assert (has_spec spec s' p) as (kp' & Hkp' & Hrp).
  { destruct (tc_last _ _ _ _ Hc) as (y & Hy & (_ & k1 & ? & ?)). simplify_eq.
    apply rtc_tc in Hy as [<-|Hy]; [by apply Hkeep|by apply Hwr]. }
  simplify_eq. rewrite Hrk', Hrp. unfold spec.
  rewrite (spec_rate_child (clk_mem s) (hw s) (clocks s) rk t Hr c k0 p) by done.
  rewrite Hkk, expected_rate_upd. by apply expected_rate_eqv.
Qed.

End Rates.
