(* ===== verification/CrmRegs.v ===== *)
(** * Register map of the clock controller: [arch/arm/mach-mx27/crm_regs.h]

    Addresses, masks and offsets, with the address translation of
    [asm-arm/arch-mxc/mx27.h]. *)

From stdpp Require Import base.
From Stdlib Require Import ZArith.
From S2P Require Import Prelude.

(** ** Address translation ([mx27.h]) *)

Definition AIPI_BASE_ADDR : Z := 0x10000000.
Definition AIPI_BASE_ADDR_VIRT : Z := 0xD4000000.
Definition SAHB1_BASE_ADDR : Z := 0x80000000.
Definition SAHB1_BASE_ADDR_VIRT : Z := 0xD4100000.
Definition X_MEMC_BASE_ADDR : Z := 0xD8000000.
Definition X_MEMC_BASE_ADDR_VIRT : Z := 0xD4200000.
Definition CS4_BASE_ADDR : Z := 0xD4000000.
Definition CS4_BASE_ADDR_VIRT : Z := 0xEB000000.
Definition CS5_BASE_ADDR : Z := 0xD6000000.
Definition CS5_BASE_ADDR_VIRT : Z := 0xEC000000.
Definition SZ_1M : Z := 0x100000.

Definition IO_ADDRESS (x : Z) : Z :=
  if (AIPI_BASE_ADDR <=? x) && (x <? AIPI_BASE_ADDR + SZ_1M)
  then x - AIPI_BASE_ADDR + AIPI_BASE_ADDR_VIRT
  else if (SAHB1_BASE_ADDR <=? x) && (x <? SAHB1_BASE_ADDR + SZ_1M)
  then x - SAHB1_BASE_ADDR + SAHB1_BASE_ADDR_VIRT
  else if (CS4_BASE_ADDR <=? x) && (x <? CS4_BASE_ADDR + SZ_1M)
  then x - CS4_BASE_ADDR + CS4_BASE_ADDR_VIRT
  else if (CS5_BASE_ADDR <=? x) && (x <? CS5_BASE_ADDR + SZ_1M)
  then x - CS5_BASE_ADDR + CS5_BASE_ADDR_VIRT
  else if (X_MEMC_BASE_ADDR <=? x) && (x <? X_MEMC_BASE_ADDR + SZ_1M)
  then x - X_MEMC_BASE_ADDR + X_MEMC_BASE_ADDR_VIRT
  else 0xDEADBEEF.

Definition CCM_BASE_ADDR : Z := AIPI_BASE_ADDR + 0x27000.
Definition SYSCTRL_BASE_ADDR : Z := AIPI_BASE_ADDR + 0x27800.

Definition CHIP_REV_1_0 : Z := 0x10.
Definition CHIP_REV_2_0 : Z := 0x20.

(** ** Registers, masks and offsets *)

Definition CCM_CSCR : Z := IO_ADDRESS CCM_BASE_ADDR + 0x0.
Definition CCM_MPCTL0 : Z := IO_ADDRESS CCM_BASE_ADDR + 0x4.
Definition CCM_SPCTL0 : Z := IO_ADDRESS CCM_BASE_ADDR + 0xC.
Definition CCM_SPCTL1 : Z := IO_ADDRESS CCM_BASE_ADDR + 0x10.
Definition CCM_PCDR0 : Z := IO_ADDRESS CCM_BASE_ADDR + 0x18.
Definition CCM_PCDR1 : Z := IO_ADDRESS CCM_BASE_ADDR + 0x1c.
Definition CCM_PCCR0 : Z := IO_ADDRESS CCM_BASE_ADDR + 0x20.
Definition CCM_PCCR1 : Z := IO_ADDRESS CCM_BASE_ADDR + 0x24.
Definition CCM_CCSR : Z := IO_ADDRESS CCM_BASE_ADDR + 0x28.
Definition CCM_CSCR_USB_OFFSET : Z := 28.
Definition CCM_CSCR_USB_MASK : Z := Z.shiftl 0x7 28.
Definition CCM_CSCR_SP : Z := Z.shiftl 1 17.
Definition CCM_CSCR_MCU : Z := Z.shiftl 1 16.
Definition CCM_CSCR_ARM_SRC : Z := Z.shiftl 1 15.
Definition CCM_CSCR_ARM_OFFSET : Z := 12.
Definition CCM_CSCR_ARM_MASK : Z := Z.shiftl 0x3 12.
Definition CCM_CSCR_PRESC_OFFSET : Z := 13.
Definition CCM_CSCR_PRESC_MASK : Z := Z.shiftl 0x7 13.
Definition CCM_CSCR_BCLK_OFFSET : Z := 9.
Definition CCM_CSCR_BCLK_MASK : Z := Z.shiftl 0xf 9.
Definition CCM_CSCR_IPDIV_OFFSET : Z := 8.
Definition CCM_CSCR_IPDIV : Z := Z.shiftl 1 8.
Definition CCM_CSCR_AHB_OFFSET : Z := 8.
Definition CCM_CSCR_AHB_MASK : Z := Z.shiftl 0x3 8.
Definition CCM_CSCR_SPEN : Z := Z.shiftl 1 1.
Definition CCM_MPCTL0_PD_OFFSET : Z := 26.
Definition CCM_MPCTL0_PD_MASK : Z := Z.shiftl 0xf 26.
Definition CCM_MPCTL0_MFD_OFFSET : Z := 16.
Definition CCM_MPCTL0_MFD_MASK : Z := Z.shiftl 0x3ff 16.
Definition CCM_MPCTL0_MFI_OFFSET : Z := 10.
Definition CCM_MPCTL0_MFI_MASK : Z := Z.shiftl 0xf 10.
Definition CCM_MPCTL0_MFN_OFFSET : Z := 0.
Definition CCM_MPCTL0_MFN_MASK : Z := 0x3ff.
Definition CCM_SPCTL0_PD_OFFSET : Z := 26.
Definition CCM_SPCTL0_PD_MASK : Z := Z.shiftl 0xf 26.
Definition CCM_SPCTL0_MFD_OFFSET : Z := 16.
Definition CCM_SPCTL0_MFD_MASK : Z := Z.shiftl 0x3ff 16.
Definition CCM_SPCTL0_MFI_OFFSET : Z := 10.
Definition CCM_SPCTL0_MFI_MASK : Z := Z.shiftl 0xf 10.
Definition CCM_SPCTL0_MFN_OFFSET : Z := 0.
Definition CCM_SPCTL0_MFN_MASK : Z := 0x3ff.
Definition CCM_SPCTL1_LF : Z := Z.shiftl 1 15.
Definition CCM_PCDR0_SSI2BAUDDIV_OFFSET : Z := 26.
Definition CCM_PCDR0_SSI2BAUDDIV_MASK : Z := Z.shiftl 0x3f 26.
Definition CCM_PCDR0_CLKO_EN : Z := 25.
Definition CCM_PCDR0_CLKODIV_OFFSET : Z := 22.
Definition CCM_PCDR0_CLKODIV_MASK : Z := Z.shiftl 0x7 22.
Definition CCM_PCDR0_SSI1BAUDDIV_OFFSET : Z := 16.
Definition CCM_PCDR0_SSI1BAUDDIV_MASK : Z := Z.shiftl 0x3f 16.
Definition CCM_PCDR0_VPUDIV2_OFFSET : Z := 10.
Definition CCM_PCDR0_VPUDIV2_MASK : Z := Z.shiftl 0x3f 10.
Definition CCM_PCDR0_NFCDIV2_OFFSET : Z := 6.
Definition CCM_PCDR0_NFCDIV2_MASK : Z := Z.shiftl 0xf 6.
Definition CCM_PCDR0_NFCDIV_OFFSET : Z := 12.
Definition CCM_PCDR0_NFCDIV_MASK : Z := Z.shiftl 0xf 12.
Definition CCM_PCDR0_VPUDIV_OFFSET : Z := 8.
Definition CCM_PCDR0_VPUDIV_MASK : Z := Z.shiftl 0xf 8.
Definition CCM_PCDR1_PERDIV1_MASK : Z := 0x3f.
Definition CCM_PCCR0_CSPI1_OFFSET : Z := 31.
Definition CCM_PCCR0_CSPI2_OFFSET : Z := 30.
Definition CCM_PCCR0_CSPI3_OFFSET : Z := 29.
Definition CCM_PCCR0_DMA_MASK : Z := Z.shiftl 1 28.
Definition CCM_PCCR0_EMMA_MASK : Z := Z.shiftl 1 27.
Definition CCM_PCCR0_FEC_MASK : Z := Z.shiftl 1 26.
Definition CCM_PCCR0_GPIO_OFFSET : Z := 25.
Definition CCM_PCCR0_GPT1_OFFSET : Z := 24.
Definition CCM_PCCR0_GPT1_MASK : Z := Z.shiftl 1 24.
Definition CCM_PCCR0_GPT2_OFFSET : Z := 23.
Definition CCM_PCCR0_GPT3_OFFSET : Z := 22.
Definition CCM_PCCR0_GPT4_OFFSET : Z := 21.
Definition CCM_PCCR0_GPT5_OFFSET : Z := 20.
Definition CCM_PCCR0_GPT6_OFFSET : Z := 19.
Definition CCM_PCCR0_I2C1_OFFSET : Z := 18.
Definition CCM_PCCR0_I2C2_OFFSET : Z := 17.
Definition CCM_PCCR0_IIM_OFFSET : Z := 16.
Definition CCM_PCCR0_KPP_OFFSET : Z := 15.
Definition CCM_PCCR0_LCDC_OFFSET : Z := 14.
Definition CCM_PCCR0_MSHC_MASK : Z := Z.shiftl 1 13.
Definition CCM_PCCR0_OWIRE_OFFSET : Z := 12.
Definition CCM_PCCR0_PWM_OFFSET : Z := 11.
Definition CCM_PCCR0_RTC_OFFSET : Z := 9.
Definition CCM_PCCR0_RTIC_MASK : Z := Z.shiftl 1 8.
Definition CCM_PCCR0_SAHARA_MASK : Z := Z.shiftl 1 7.
Definition CCM_PCCR0_SCC_OFFSET : Z := 6.
Definition CCM_PCCR0_SDHC1_OFFSET : Z := 5.
Definition CCM_PCCR0_SDHC2_OFFSET : Z := 4.
Definition CCM_PCCR0_SDHC3_OFFSET : Z := 3.
Definition CCM_PCCR0_SLCDC_MASK : Z := Z.shiftl 1 2.
Definition CCM_PCCR0_SSI1_IPG_OFFSET : Z := 1.
Definition CCM_PCCR0_SSI2_IPG_OFFSET : Z := 0.
Definition CCM_PCCR1_UART1_OFFSET : Z := 31.
Definition CCM_PCCR1_UART2_OFFSET : Z := 30.
Definition CCM_PCCR1_UART3_OFFSET : Z := 29.
Definition CCM_PCCR1_UART4_OFFSET : Z := 28.
Definition CCM_PCCR1_UART5_OFFSET : Z := 27.
Definition CCM_PCCR1_UART6_OFFSET : Z := 26.
Definition CCM_PCCR1_USBOTG_OFFSET : Z := 25.
Definition CCM_PCCR1_WDT_OFFSET : Z := 24.
Definition CCM_PCCR1_HCLK_ATA_OFFSET : Z := 23.
Definition CCM_PCCR1_HCLK_BROM_OFFSET : Z := 22.
Definition CCM_PCCR1_HCLK_CSI_OFFSET : Z := 21.
Definition CCM_PCCR1_HCLK_DMA_MASK : Z := Z.shiftl 1 20.
Definition CCM_PCCR1_HCLK_EMI_OFFSET : Z := 19.
Definition CCM_PCCR1_HCLK_EMI_MASK : Z := Z.shiftl 1 19.
Definition CCM_PCCR1_HCLK_EMMA_MASK : Z := Z.shiftl 1 18.
Definition CCM_PCCR1_HCLK_FEC_MASK : Z := Z.shiftl 1 17.
Definition CCM_PCCR1_HCLK_VPU_MASK : Z := Z.shiftl 1 16.
Definition CCM_PCCR1_HCLK_LCDC_OFFSET : Z := 15.
Definition CCM_PCCR1_HCLK_RTIC_MASK : Z := Z.shiftl 1 14.
Definition CCM_PCCR1_HCLK_SAHARA_MASK : Z := Z.shiftl 1 13.
Definition CCM_PCCR1_HCLK_SLCDC_MASK : Z := Z.shiftl 1 12.
Definition CCM_PCCR1_HCLK_USBOTG_OFFSET : Z := 11.
Definition CCM_PCCR1_PERCLK1_OFFSET : Z := 10.
Definition CCM_PCCR1_PERCLK1_MASK : Z := Z.shiftl 1 10.
Definition CCM_PCCR1_PERCLK2_OFFSET : Z := 9.
Definition CCM_PCCR1_PERCLK3_OFFSET : Z := 8.
Definition CCM_PCCR1_PERCLK4_OFFSET : Z := 7.
Definition CCM_PCCR1_VPU_BAUD_MASK : Z := Z.shiftl 1 6.
Definition CCM_PCCR1_SSI1_BAUD_OFFSET : Z := 5.
Definition CCM_PCCR1_SSI2_BAUD_OFFSET : Z := 4.
Definition CCM_PCCR1_NFC_BAUD_OFFSET : Z := 3.
Definition CCM_PCCR1_MSHC_BAUD_MASK : Z := Z.shiftl 1 2.
Definition CCM_CCSR_CLKOSEL_OFFSET : Z := 0.
Definition CCM_CCSR_CLKOSEL_MASK : Z := 0x1f.
Definition SYS_CHIP_ID : Z := 0x00.
