(* ===== verification/Mx27ClockTable.v ===== *)
(** * The clocks of the i.MX27: the data of [arch/arm/mach-mx27/clock.c]

    The clock objects the machine defines, the functions their method pointers
    name, the hardware state, and the contents of every [struct clk] as its
    static initialiser gives it.  [mx27_sig] makes them the machine of the clock
    framework. *)

From stdpp Require Import base gmap list strings.
From Stdlib Require Import ZArith Lia.
From S2P Require Import Prelude ClkFramework CrmRegs.

(** ** The clock objects: [clkid] names [&ckih_clk], [&per_clk[i]], ... *)

Inductive clkid : Type :=
| ckih_clk
| ckil_clk
| mpll_clk
| mpll_main_clk (i : nat)
| spll_clk
| cpu_clk
| ahb_clk
| ipg_clk
| per_clk (i : nat)
| uart1_clk (i : nat)
| uart2_clk (i : nat)
| uart3_clk (i : nat)
| uart4_clk (i : nat)
| uart5_clk (i : nat)
| uart6_clk (i : nat)
| gpt1_clk (i : nat)
| gpt2_clk (i : nat)
| gpt3_clk (i : nat)
| gpt4_clk (i : nat)
| gpt5_clk (i : nat)
| gpt6_clk (i : nat)
| pwm_clk (i : nat)
| sdhc1_clk (i : nat)
| sdhc2_clk (i : nat)
| sdhc3_clk (i : nat)
| cspi1_clk (i : nat)
| cspi2_clk (i : nat)
| cspi3_clk (i : nat)
| lcdc_clk (i : nat)
| csi_clk (i : nat)
| usb_clk (i : nat)
| ssi1_clk (i : nat)
| ssi2_clk (i : nat)
| nfc_clk
| vpu_clk
| dma_clk
| rtic_clk
| brom_clk
| emma_clk
| slcdc_clk
| fec_clk
| emi_clk
| sahara2_clk
| ata_clk
| mstick1_clk
| wdog_clk
| gpio_clk
| i2c_clk (i : nat)
| iim_clk
| kpp_clk
| owire_clk
| rtc_clk
| scc_clk
| clko_clk.

(** Code of a clock object: its declaration and its index. *)
Definition clkid_code (c : clkid) : nat * nat :=
  match c with
  | ckih_clk => (0, 0)%nat
  | ckil_clk => (1, 0)%nat
  | mpll_clk => (2, 0)%nat
  | mpll_main_clk i => (3, i)%nat
  | spll_clk => (4, 0)%nat
  | cpu_clk => (5, 0)%nat
  | ahb_clk => (6, 0)%nat
  | ipg_clk => (7, 0)%nat
  | per_clk i => (8, i)%nat
  | uart1_clk i => (9, i)%nat
  | uart2_clk i => (10, i)%nat
  | uart3_clk i => (11, i)%nat
  | uart4_clk i => (12, i)%nat
  | uart5_clk i => (13, i)%nat
  | uart6_clk i => (14, i)%nat
  | gpt1_clk i => (15, i)%nat
  | gpt2_clk i => (16, i)%nat
  | gpt3_clk i => (17, i)%nat
  | gpt4_clk i => (18, i)%nat
  | gpt5_clk i => (19, i)%nat
  | gpt6_clk i => (20, i)%nat
  | pwm_clk i => (21, i)%nat
  | sdhc1_clk i => (22, i)%nat
  | sdhc2_clk i => (23, i)%nat
  | sdhc3_clk i => (24, i)%nat
  | cspi1_clk i => (25, i)%nat
  | cspi2_clk i => (26, i)%nat
  | cspi3_clk i => (27, i)%nat
  | lcdc_clk i => (28, i)%nat
  | csi_clk i => (29, i)%nat
  | usb_clk i => (30, i)%nat
  | ssi1_clk i => (31, i)%nat
  | ssi2_clk i => (32, i)%nat
  | nfc_clk => (33, 0)%nat
  | vpu_clk => (34, 0)%nat
  | dma_clk => (35, 0)%nat
  | rtic_clk => (36, 0)%nat
  | brom_clk => (37, 0)%nat
  | emma_clk => (38, 0)%nat
  | slcdc_clk => (39, 0)%nat
  | fec_clk => (40, 0)%nat
  | emi_clk => (41, 0)%nat
  | sahara2_clk => (42, 0)%nat
  | ata_clk => (43, 0)%nat
  | mstick1_clk => (44, 0)%nat
  | wdog_clk => (45, 0)%nat
  | gpio_clk => (46, 0)%nat
  | i2c_clk i => (47, i)%nat
  | iim_clk => (48, 0)%nat
  | kpp_clk => (49, 0)%nat
  | owire_clk => (50, 0)%nat
  | rtc_clk => (51, 0)%nat
  | scc_clk => (52, 0)%nat
  | clko_clk => (53, 0)%nat
  end.

Definition clkid_decode (x : nat * nat) : clkid :=
  match fst x with
  | 0%nat => ckih_clk
  | 1%nat => ckil_clk
  | 2%nat => mpll_clk
  | 3%nat => mpll_main_clk (snd x)
  | 4%nat => spll_clk
  | 5%nat => cpu_clk
  | 6%nat => ahb_clk
  | 7%nat => ipg_clk
  | 8%nat => per_clk (snd x)
  | 9%nat => uart1_clk (snd x)
  | 10%nat => uart2_clk (snd x)
  | 11%nat => uart3_clk (snd x)
  | 12%nat => uart4_clk (snd x)
  | 13%nat => uart5_clk (snd x)
  | 14%nat => uart6_clk (snd x)
  | 15%nat => gpt1_clk (snd x)
  | 16%nat => gpt2_clk (snd x)
  | 17%nat => gpt3_clk (snd x)
  | 18%nat => gpt4_clk (snd x)
  | 19%nat => gpt5_clk (snd x)
  | 20%nat => gpt6_clk (snd x)
  | 21%nat => pwm_clk (snd x)
  | 22%nat => sdhc1_clk (snd x)
  | 23%nat => sdhc2_clk (snd x)
  | 24%nat => sdhc3_clk (snd x)
  | 25%nat => cspi1_clk (snd x)
  | 26%nat => cspi2_clk (snd x)
  | 27%nat => cspi3_clk (snd x)
  | 28%nat => lcdc_clk (snd x)
  | 29%nat => csi_clk (snd x)
  | 30%nat => usb_clk (snd x)
  | 31%nat => ssi1_clk (snd x)
  | 32%nat => ssi2_clk (snd x)
  | 33%nat => nfc_clk
  | 34%nat => vpu_clk
  | 35%nat => dma_clk
  | 36%nat => rtic_clk
  | 37%nat => brom_clk
  | 38%nat => emma_clk
  | 39%nat => slcdc_clk
  | 40%nat => fec_clk
  | 41%nat => emi_clk
  | 42%nat => sahara2_clk
  | 43%nat => ata_clk
  | 44%nat => mstick1_clk
  | 45%nat => wdog_clk
  | 46%nat => gpio_clk
  | 47%nat => i2c_clk (snd x)
  | 48%nat => iim_clk
  | 49%nat => kpp_clk
  | 50%nat => owire_clk
  | 51%nat => rtc_clk
  | 52%nat => scc_clk
  | _ => clko_clk
  end.

Lemma clkid_decode_code c : clkid_decode (clkid_code c) = c.
Proof. by destruct c. Qed.

#[global] Instance clkid_code_inj : Inj (=) (=) clkid_code.
Proof. intros c d H. by rewrite <- (clkid_decode_code c), H, clkid_decode_code. Qed.

#[global] Instance clkid_eq : EqDecision clkid.
Proof.
  refine (fun c d => cast_if (decide (clkid_code c = clkid_code d))); [by apply (inj clkid_code)|congruence].
Defined.

#[global] Instance clkid_countable : Countable clkid :=
  inj_countable' clkid_code clkid_decode clkid_decode_code.

(** ** Method pointers *)

Inductive recalc_ptr : Type :=
| p_clk_pll_recalc
| p_clk_mpll_main_recalc
| p_clk_cpu_recalc
| p_clk_ahb_recalc
| p_clk_ipg_recalc
| p_clk_perclkx_recalc
| p_clk_usb_recalc
| p_clk_ssi1_recalc
| p_clk_ssi2_recalc
| p_clk_nfc_recalc
| p_clk_vpu_recalc
| p_clk_clko_recalc.

Inductive set_rate_ptr : Type :=
| p_clk_cpu_set_rate
| p_clk_perclkx_set_rate
| p_clk_parent_set_rate
| p_clk_vpu_set_rate
| p_clk_clko_set_rate.

Inductive round_rate_ptr : Type :=
| p_clk_cpu_round_rate
| p_clk_perclkx_round_rate
| p_clk_parent_round_rate
| p_clk_vpu_round_rate
| p_clk_clko_round_rate.

Inductive enable_ptr : Type :=
| p_clk_spll_enable
| p_clk_enable
| p_clk_vpu_enable
| p_clk_dma_enable
| p_clk_rtic_enable
| p_clk_emma_enable
| p_clk_slcdc_enable
| p_clk_fec_enable
| p_clk_sahara2_enable
| p_clk_mstick1_enable
| p_clk_clko_enable.

Inductive disable_ptr : Type :=
| p_clk_spll_disable
| p_clk_disable
| p_clk_vpu_disable
| p_clk_dma_disable
| p_clk_rtic_disable
| p_clk_emma_disable
| p_clk_slcdc_disable
| p_clk_fec_disable
| p_clk_sahara2_disable
| p_clk_mstick1_disable
| p_clk_clko_disable.

Inductive set_parent_ptr : Type :=
| p_clk_cpu_set_parent
| p_clk_clko_set_parent.

#[global] Instance recalc_ptr_eq : EqDecision recalc_ptr.
Proof. solve_decision. Defined.

(** ** Hardware state

    [regs] is the register file; [system_rev] and [system_rev_updated] are the
    variables of [cpu.c]; [spll_lock] is how many polls of [CCM_SPCTL1] it takes
    the serial PLL to report lock after it was switched on, [None] when it never
    does. *)
Record mx27hw : Type := mkHw {
  regs : regfile;
  system_rev : Z;
  system_rev_updated : bool;
  spll_lock : option nat;
}.

#[global] Instance mx27_sig : ClkSig := {|
  clkp := clkid;
  recalc_fn := recalc_ptr;
  set_rate_fn := set_rate_ptr;
  round_rate_fn := round_rate_ptr;
  enable_fn := enable_ptr;
  disable_fn := disable_ptr;
  set_parent_fn := set_parent_ptr;
  hwst := mx27hw;
|}.

(** ** Static initialisers

    A list of designators stands for a C initialiser; fields not named are zero. *)

Inductive designator : Type :=
| Name (s : string)
| Id (i : Z)
| Parent (c : clkid)
| Secondary (c : clkid)
| Rate (r : Z)
| Enable_shift (n : Z)
| Enable_reg (a : Z)
| Recalc (f : recalc_ptr)
| Set_rate (f : set_rate_ptr)
| Round_rate (f : round_rate_ptr)
| Enable (f : enable_ptr)
| Disable (f : disable_ptr)
| Set_parent (f : set_parent_ptr).

Definition clk_zero : clk :=
  mkClk None EmptyString 0 None None 0 0 0 0 None None None None None None.

Definition designate (k : clk) (d : designator) : clk :=
  match d, k with
  | Name s, mkClk o n i p q r u es er f1 f2 f3 f4 f5 f6 => mkClk o s i p q r u es er f1 f2 f3 f4 f5 f6
  | Id j, mkClk o n i p q r u es er f1 f2 f3 f4 f5 f6 => mkClk o n j p q r u es er f1 f2 f3 f4 f5 f6
  | Parent c, mkClk o n i p q r u es er f1 f2 f3 f4 f5 f6 =>
      mkClk o n i (Some c) q r u es er f1 f2 f3 f4 f5 f6
  | Secondary c, mkClk o n i p q r u es er f1 f2 f3 f4 f5 f6 =>
      mkClk o n i p (Some c) r u es er f1 f2 f3 f4 f5 f6
  | Rate r', mkClk o n i p q r u es er f1 f2 f3 f4 f5 f6 => mkClk o n i p q r' u es er f1 f2 f3 f4 f5 f6
  | Enable_shift z, mkClk o n i p q r u es er f1 f2 f3 f4 f5 f6 => mkClk o n i p q r u z er f1 f2 f3 f4 f5 f6
  | Enable_reg z, mkClk o n i p q r u es er f1 f2 f3 f4 f5 f6 => mkClk o n i p q r u es z f1 f2 f3 f4 f5 f6
  | Recalc f, mkClk o n i p q r u es er f1 f2 f3 f4 f5 f6 =>
      mkClk o n i p q r u es er (Some f) f2 f3 f4 f5 f6
  | Set_rate f, mkClk o n i p q r u es er f1 f2 f3 f4 f5 f6 =>
      mkClk o n i p q r u es er f1 (Some f) f3 f4 f5 f6
  | Round_rate f, mkClk o n i p q r u es er f1 f2 f3 f4 f5 f6 =>
      mkClk o n i p q r u es er f1 f2 (Some f) f4 f5 f6
  | Enable f, mkClk o n i p q r u es er f1 f2 f3 f4 f5 f6 =>
      mkClk o n i p q r u es er f1 f2 f3 (Some f) f5 f6
  | Disable f, mkClk o n i p q r u es er f1 f2 f3 f4 f5 f6 =>
      mkClk o n i p q r u es er f1 f2 f3 f4 (Some f) f6
  | Set_parent f, mkClk o n i p q r u es er f1 f2 f3 f4 f5 f6 =>
      mkClk o n i p q r u es er f1 f2 f3 f4 f5 (Some f)
  end.

Definition clk_init (l : list designator) : clk := fold_left designate l clk_zero.

Definition CKIH_CLK_FREQ : Z := 26000000.
Definition CKIH_CLK_FREQ_27MHZ : Z := 27000000.
Definition CKIL_CLK_FREQ : Z := 32768.

Definition ckih_clk_init : clk :=
  clk_init [Name "ckih"; Rate 0].

Definition ckil_clk_init : clk :=
  clk_init [Name "ckil"; Rate CKIL_CLK_FREQ].

Definition mpll_clk_init : clk :=
  clk_init [Name "mpll"; Parent ckih_clk; Recalc p_clk_pll_recalc].

Definition mpll_main_clk_init : list clk :=
  [ clk_init [Name "mpll_main"; Id 0; Parent mpll_clk; Recalc p_clk_mpll_main_recalc];
    clk_init [Name "mpll_main"; Id 1; Parent mpll_clk; Recalc p_clk_mpll_main_recalc] ].

Definition spll_clk_init : clk :=
  clk_init [Name "spll"; Parent ckih_clk; Recalc p_clk_pll_recalc;
            Enable p_clk_spll_enable; Disable p_clk_spll_disable].

Definition cpu_clk_init : clk :=
  clk_init [Name "cpu_clk"; Parent (mpll_main_clk 1); Set_parent p_clk_cpu_set_parent;
            Round_rate p_clk_cpu_round_rate; Set_rate p_clk_cpu_set_rate;
            Recalc p_clk_cpu_recalc].

Definition ahb_clk_init : clk :=
  clk_init [Name "ahb_clk"; Parent (mpll_main_clk 1); Recalc p_clk_ahb_recalc].

Definition ipg_clk_init : clk :=
  clk_init [Name "ipg_clk"; Parent ahb_clk; Recalc p_clk_ipg_recalc].

Definition per_clk_init : list clk :=
  [ clk_init [Name "per_clk"; Id 0; Parent (mpll_main_clk 1);
              Recalc p_clk_perclkx_recalc; Enable p_clk_enable; Enable_reg CCM_PCCR1;
              Enable_shift CCM_PCCR1_PERCLK1_OFFSET; Disable p_clk_disable];
    clk_init [Name "per_clk"; Id 1; Parent (mpll_main_clk 1);
              Recalc p_clk_perclkx_recalc; Enable p_clk_enable; Enable_reg CCM_PCCR1;
              Enable_shift CCM_PCCR1_PERCLK2_OFFSET; Disable p_clk_disable];
    clk_init [Name "per_clk"; Id 2; Parent (mpll_main_clk 1);
              Round_rate p_clk_perclkx_round_rate; Set_rate p_clk_perclkx_set_rate;
              Recalc p_clk_perclkx_recalc; Enable p_clk_enable; Enable_reg CCM_PCCR1;
              Enable_shift CCM_PCCR1_PERCLK3_OFFSET; Disable p_clk_disable];
    clk_init [Name "per_clk"; Id 3; Parent (mpll_main_clk 1);
              Round_rate p_clk_perclkx_round_rate; Set_rate p_clk_perclkx_set_rate;
              Recalc p_clk_perclkx_recalc; Enable p_clk_enable; Enable_reg CCM_PCCR1;
              Enable_shift CCM_PCCR1_PERCLK4_OFFSET; Disable p_clk_disable] ].

Definition uart1_clk_init : list clk :=
  [ clk_init [Name "uart_clk"; Id 0; Parent (per_clk 0); Secondary (uart1_clk 1)];
    clk_init [Name "uart_ipg_clk"; Id 0; Parent ipg_clk; Enable p_clk_enable;
              Enable_reg CCM_PCCR1; Enable_shift CCM_PCCR1_UART1_OFFSET;
              Disable p_clk_disable] ].

Definition uart2_clk_init : list clk :=
  [ clk_init [Name "uart_clk"; Id 1; Parent (per_clk 0); Secondary (uart2_clk 1)];
    clk_init [Name "uart_ipg_clk"; Id 1; Parent ipg_clk; Enable p_clk_enable;
              Enable_reg CCM_PCCR1; Enable_shift CCM_PCCR1_UART2_OFFSET;
              Disable p_clk_disable] ].

Definition uart3_clk_init : list clk :=
  [ clk_init [Name "uart_clk"; Id 2; Parent (per_clk 0); Secondary (uart3_clk 1)];
    clk_init [Name "uart_ipg_clk"; Id 2; Parent ipg_clk; Enable p_clk_enable;
              Enable_reg CCM_PCCR1; Enable_shift CCM_PCCR1_UART3_OFFSET;
              Disable p_clk_disable] ].

Definition uart4_clk_init : list clk :=
  [ clk_init [Name "uart_clk"; Id 3; Parent (per_clk 0); Secondary (uart4_clk 1)];
    clk_init [Name "uart_ipg_clk"; Id 3; Parent ipg_clk; Enable p_clk_enable;
              Enable_reg CCM_PCCR1; Enable_shift CCM_PCCR1_UART4_OFFSET;
              Disable p_clk_disable] ].

Definition uart5_clk_init : list clk :=
  [ clk_init [Name "uart_clk"; Id 4; Parent (per_clk 0); Secondary (uart5_clk 1)];
    clk_init [Name "uart_ipg_clk"; Id 4; Parent ipg_clk; Enable p_clk_enable;
              Enable_reg CCM_PCCR1; Enable_shift CCM_PCCR1_UART5_OFFSET;
              Disable p_clk_disable] ].

Definition uart6_clk_init : list clk :=
  [ clk_init [Name "uart_clk"; Id 5; Parent (per_clk 0); Secondary (uart6_clk 1)];
    clk_init [Name "uart_ipg_clk"; Id 5; Parent ipg_clk; Enable p_clk_enable;
              Enable_reg CCM_PCCR1; Enable_shift CCM_PCCR1_UART6_OFFSET;
              Disable p_clk_disable] ].

Definition gpt1_clk_init : list clk :=
  [ clk_init [Name "gpt_clk"; Id 0; Parent (per_clk 0); Secondary (gpt1_clk 1)];
    clk_init [Name "gpt_ipg_clk"; Id 0; Parent ipg_clk; Enable p_clk_enable;
              Enable_reg CCM_PCCR0; Enable_shift CCM_PCCR0_GPT1_OFFSET;
              Disable p_clk_disable] ].

Definition gpt2_clk_init : list clk :=
  [ clk_init [Name "gpt_clk"; Id 1; Parent (per_clk 0); Secondary (gpt2_clk 1)];
    clk_init [Name "gpt_ipg_clk"; Id 1; Parent ipg_clk; Enable p_clk_enable;
              Enable_reg CCM_PCCR0; Enable_shift CCM_PCCR0_GPT2_OFFSET;
              Disable p_clk_disable] ].

Definition gpt3_clk_init : list clk :=
  [ clk_init [Name "gpt_clk"; Id 2; Parent (per_clk 0); Secondary (gpt3_clk 1)];
    clk_init [Name "gpt_ipg_clk"; Id 2; Parent ipg_clk; Enable p_clk_enable;
              Enable_reg CCM_PCCR0; Enable_shift CCM_PCCR0_GPT3_OFFSET;
              Disable p_clk_disable] ].

Definition gpt4_clk_init : list clk :=
  [ clk_init [Name "gpt_clk"; Id 3; Parent (per_clk 0); Secondary (gpt4_clk 1)];
    clk_init [Name "gpt_ipg_clk"; Id 3; Parent ipg_clk; Enable p_clk_enable;
              Enable_reg CCM_PCCR0; Enable_shift CCM_PCCR0_GPT4_OFFSET;
              Disable p_clk_disable] ].

Definition gpt5_clk_init : list clk :=
  [ clk_init [Name "gpt_clk"; Id 4; Parent (per_clk 0); Secondary (gpt5_clk 1)];
    clk_init [Name "gpt_ipg_clk"; Id 4; Parent ipg_clk; Enable p_clk_enable;
              Enable_reg CCM_PCCR0; Enable_shift CCM_PCCR0_GPT5_OFFSET;
              Disable p_clk_disable] ].

Definition gpt6_clk_init : list clk :=
  [ clk_init [Name "gpt_clk"; Id 5; Parent (per_clk 0); Secondary (gpt6_clk 1)];
    clk_init [Name "gpt_ipg_clk"; Id 5; Parent ipg_clk; Enable p_clk_enable;
              Enable_reg CCM_PCCR0; Enable_shift CCM_PCCR0_GPT6_OFFSET;
              Disable p_clk_disable] ].

Definition pwm_clk_init : list clk :=
  [ clk_init [Name "pwm_clk"; Parent (per_clk 0); Secondary (pwm_clk 1)];
    clk_init [Name "pwm_clk"; Parent ipg_clk; Enable p_clk_enable; Enable_reg CCM_PCCR0;
              Enable_shift CCM_PCCR0_PWM_OFFSET; Disable p_clk_disable] ].

Definition sdhc1_clk_init : list clk :=
  [ clk_init [Name "sdhc_clk"; Id 0; Parent (per_clk 1); Secondary (sdhc1_clk 1)];
    clk_init [Name "sdhc_ipg_clk"; Id 0; Parent ipg_clk; Enable p_clk_enable;
              Enable_reg CCM_PCCR0; Enable_shift CCM_PCCR0_SDHC1_OFFSET;
              Disable p_clk_disable] ].

Definition sdhc2_clk_init : list clk :=
  [ clk_init [Name "sdhc_clk"; Id 1; Parent (per_clk 1); Secondary (sdhc2_clk 1)];
    clk_init [Name "sdhc_ipg_clk"; Id 1; Parent ipg_clk; Enable p_clk_enable;
              Enable_reg CCM_PCCR0; Enable_shift CCM_PCCR0_SDHC2_OFFSET;
              Disable p_clk_disable] ].

Definition sdhc3_clk_init : list clk :=
  [ clk_init [Name "sdhc_clk"; Id 2; Parent (per_clk 1); Secondary (sdhc3_clk 1)];
    clk_init [Name "sdhc_ipg_clk"; Id 2; Parent ipg_clk; Enable p_clk_enable;
              Enable_reg CCM_PCCR0; Enable_shift CCM_PCCR0_SDHC3_OFFSET;
              Disable p_clk_disable] ].

Definition cspi1_clk_init : list clk :=
  [ clk_init [Name "cspi_clk"; Id 0; Parent (per_clk 1); Secondary (cspi1_clk 1)];
    clk_init [Name "cspi_ipg_clk"; Id 0; Parent ipg_clk; Enable p_clk_enable;
              Enable_reg CCM_PCCR0; Enable_shift CCM_PCCR0_CSPI1_OFFSET;
              Disable p_clk_disable] ].

Definition cspi2_clk_init : list clk :=
  [ clk_init [Name "cspi_clk"; Id 1; Parent (per_clk 1); Secondary (cspi2_clk 1)];
    clk_init [Name "cspi_ipg_clk"; Id 1; Parent ipg_clk; Enable p_clk_enable;
              Enable_reg CCM_PCCR0; Enable_shift CCM_PCCR0_CSPI2_OFFSET;
              Disable p_clk_disable] ].

Definition cspi3_clk_init : list clk :=
  [ clk_init [Name "cspi_clk"; Id 2; Parent (per_clk 1); Secondary (cspi3_clk 1)];
    clk_init [Name "cspi_ipg_clk"; Id 2; Parent ipg_clk; Enable p_clk_enable;
              Enable_reg CCM_PCCR0; Enable_shift CCM_PCCR0_CSPI3_OFFSET;
              Disable p_clk_disable] ].

Definition lcdc_clk_init : list clk :=
  [ clk_init [Name "lcdc_clk"; Parent (per_clk 2); Secondary (lcdc_clk 1);
              Round_rate p_clk_parent_round_rate; Set_rate p_clk_parent_set_rate];
    clk_init [Name "lcdc_ipg_clk"; Parent ipg_clk; Secondary (lcdc_clk 2);
              Enable p_clk_enable; Enable_reg CCM_PCCR0;
              Enable_shift CCM_PCCR0_LCDC_OFFSET; Disable p_clk_disable];
    clk_init [Name "lcdc_ahb_clk"; Parent ahb_clk; Enable p_clk_enable;
              Enable_reg CCM_PCCR1; Enable_shift CCM_PCCR1_HCLK_LCDC_OFFSET;
              Disable p_clk_disable] ].

Definition csi_clk_init : list clk :=
  [ clk_init [Name "csi_perclk"; Parent (per_clk 3); Secondary (csi_clk 1);
              Round_rate p_clk_parent_round_rate; Set_rate p_clk_parent_set_rate];
    clk_init [Name "csi_ahb_clk"; Parent ahb_clk; Enable p_clk_enable;
              Enable_reg CCM_PCCR1; Enable_shift CCM_PCCR1_HCLK_CSI_OFFSET;
              Disable p_clk_disable] ].

Definition usb_clk_init : list clk :=
  [ clk_init [Name "usb_clk"; Parent spll_clk; Recalc p_clk_usb_recalc;
              Enable p_clk_enable; Enable_reg CCM_PCCR1;
              Enable_shift CCM_PCCR1_USBOTG_OFFSET; Disable p_clk_disable];
    clk_init [Name "usb_ahb_clk"; Parent ahb_clk; Enable p_clk_enable;
              Enable_reg CCM_PCCR1; Enable_shift CCM_PCCR1_HCLK_USBOTG_OFFSET;
              Disable p_clk_disable] ].

Definition ssi1_clk_init : list clk :=
  [ clk_init [Name "ssi_clk"; Id 0; Parent (mpll_main_clk 1); Secondary (ssi1_clk 1);
              Recalc p_clk_ssi1_recalc; Enable p_clk_enable; Enable_reg CCM_PCCR1;
              Enable_shift CCM_PCCR1_SSI1_BAUD_OFFSET; Disable p_clk_disable];
    clk_init [Name "ssi_ipg_clk"; Id 0; Parent ipg_clk; Enable p_clk_enable;
              Enable_reg CCM_PCCR0; Enable_shift CCM_PCCR0_SSI1_IPG_OFFSET;
              Disable p_clk_disable] ].

Definition ssi2_clk_init : list clk :=
  [ clk_init [Name "ssi_clk"; Id 1; Parent (mpll_main_clk 1); Secondary (ssi2_clk 1);
              Recalc p_clk_ssi2_recalc; Enable p_clk_enable; Enable_reg CCM_PCCR1;
              Enable_shift CCM_PCCR1_SSI2_BAUD_OFFSET; Disable p_clk_disable];
    clk_init [Name "ssi_ipg_clk"; Id 1; Parent ipg_clk; Enable p_clk_enable;
              Enable_reg CCM_PCCR0; Enable_shift CCM_PCCR0_SSI2_IPG_OFFSET;
              Disable p_clk_disable] ].

Definition nfc_clk_init : clk :=
  clk_init [Name "nfc_clk"; Parent cpu_clk; Recalc p_clk_nfc_recalc;
            Enable p_clk_enable; Enable_reg CCM_PCCR1;
            Enable_shift CCM_PCCR1_NFC_BAUD_OFFSET; Disable p_clk_disable].

Definition vpu_clk_init : clk :=
  clk_init [Name "vpu_clk"; Parent (mpll_main_clk 1); Round_rate p_clk_vpu_round_rate;
            Set_rate p_clk_vpu_set_rate; Recalc p_clk_vpu_recalc;
            Enable p_clk_vpu_enable; Disable p_clk_vpu_disable].

Definition dma_clk_init : clk :=
  clk_init [Name "dma_clk"; Parent ahb_clk; Enable p_clk_dma_enable;
            Disable p_clk_dma_disable].

Definition rtic_clk_init : clk :=
  clk_init [Name "rtic_clk"; Parent ahb_clk; Enable p_clk_rtic_enable;
            Disable p_clk_rtic_disable].

Definition brom_clk_init : clk :=
  clk_init [Name "brom_clk"; Parent ahb_clk; Enable p_clk_enable; Enable_reg CCM_PCCR1;
            Enable_shift CCM_PCCR1_HCLK_BROM_OFFSET; Disable p_clk_disable].

Definition emma_clk_init : clk :=
  clk_init [Name "emma_clk"; Parent ahb_clk; Enable p_clk_emma_enable;
            Disable p_clk_emma_disable].

Definition slcdc_clk_init : clk :=
  clk_init [Name "slcdc_clk"; Parent ahb_clk; Enable p_clk_slcdc_enable;
            Disable p_clk_slcdc_disable].

Definition fec_clk_init : clk :=
  clk_init [Name "fec_clk"; Parent ahb_clk; Enable p_clk_fec_enable;
            Disable p_clk_fec_disable].

Definition emi_clk_init : clk :=
  clk_init [Name "emi_clk"; Parent ahb_clk; Enable p_clk_enable; Enable_reg CCM_PCCR1;
            Enable_shift CCM_PCCR1_HCLK_EMI_OFFSET; Disable p_clk_disable].

Definition sahara2_clk_init : clk :=
  clk_init [Name "sahara_clk"; Parent ahb_clk; Enable p_clk_sahara2_enable;
            Disable p_clk_sahara2_disable].

Definition ata_clk_init : clk :=
  clk_init [Name "ata_clk"; Parent ahb_clk; Enable p_clk_enable; Enable_reg CCM_PCCR1;
            Enable_shift CCM_PCCR1_HCLK_ATA_OFFSET; Disable p_clk_disable].

Definition mstick1_clk_init : clk :=
  clk_init [Name "mstick1_clk"; Parent ipg_clk; Enable p_clk_mstick1_enable;
            Disable p_clk_mstick1_disable].

Definition wdog_clk_init : clk :=
  clk_init [Name "wdog_clk"; Parent ipg_clk; Enable p_clk_enable; Enable_reg CCM_PCCR1;
            Enable_shift CCM_PCCR1_WDT_OFFSET; Disable p_clk_disable].

Definition gpio_clk_init : clk :=
  clk_init [Name "gpio_clk"; Parent ipg_clk; Enable p_clk_enable; Enable_reg CCM_PCCR1;
            Enable_shift CCM_PCCR0_GPIO_OFFSET; Disable p_clk_disable].

Definition i2c_clk_init : list clk :=
  [ clk_init [Name "i2c_clk"; Id 0; Parent ipg_clk; Enable p_clk_enable;
              Enable_reg CCM_PCCR0; Enable_shift CCM_PCCR0_I2C1_OFFSET;
              Disable p_clk_disable];
    clk_init [Name "i2c_clk"; Id 1; Parent ipg_clk; Enable p_clk_enable;
              Enable_reg CCM_PCCR0; Enable_shift CCM_PCCR0_I2C2_OFFSET;
              Disable p_clk_disable] ].

Definition iim_clk_init : clk :=
  clk_init [Name "iim_clk"; Parent ipg_clk; Enable p_clk_enable; Enable_reg CCM_PCCR0;
            Enable_shift CCM_PCCR0_IIM_OFFSET; Disable p_clk_disable].

Definition kpp_clk_init : clk :=
  clk_init [Name "kpp_clk"; Parent ipg_clk; Enable p_clk_enable; Enable_reg CCM_PCCR0;
            Enable_shift CCM_PCCR0_KPP_OFFSET; Disable p_clk_disable].

Definition owire_clk_init : clk :=
  clk_init [Name "owire_clk"; Parent ipg_clk; Enable p_clk_enable; Enable_reg CCM_PCCR0;
            Enable_shift CCM_PCCR0_OWIRE_OFFSET; Disable p_clk_disable].

Definition rtc_clk_init : clk :=
  clk_init [Name "rtc_clk"; Parent ipg_clk; Enable p_clk_enable; Enable_reg CCM_PCCR0;
            Enable_shift CCM_PCCR0_RTC_OFFSET; Disable p_clk_disable].

Definition scc_clk_init : clk :=
  clk_init [Name "scc_clk"; Parent ipg_clk; Enable p_clk_enable; Enable_reg CCM_PCCR0;
            Enable_shift CCM_PCCR0_SCC_OFFSET; Disable p_clk_disable].

Definition clko_clk_init : clk :=
  clk_init [Name "clko_clk"; Recalc p_clk_clko_recalc; Set_rate p_clk_clko_set_rate;
            Round_rate p_clk_clko_round_rate; Set_parent p_clk_clko_set_parent;
            Enable p_clk_clko_enable; Disable p_clk_clko_disable].

(** An array of clock objects as address-contents pairs. *)
Definition clk_array (at_ : nat -> clkid) (l : list clk) : list (clkid * clk) :=
  imap (fun i k => (at_ i, k)) l.

(** All clock objects of the machine, as the image holds them before any code runs. *)
Definition clk_objects : list (clkid * clk) :=
  [(ckih_clk, ckih_clk_init)] ++
  [(ckil_clk, ckil_clk_init)] ++
  [(mpll_clk, mpll_clk_init)] ++
  clk_array mpll_main_clk mpll_main_clk_init ++
  [(spll_clk, spll_clk_init)] ++
  [(cpu_clk, cpu_clk_init)] ++
  [(ahb_clk, ahb_clk_init)] ++
  [(ipg_clk, ipg_clk_init)] ++
  clk_array per_clk per_clk_init ++
  clk_array uart1_clk uart1_clk_init ++
  clk_array uart2_clk uart2_clk_init ++
  clk_array uart3_clk uart3_clk_init ++
  clk_array uart4_clk uart4_clk_init ++
  clk_array uart5_clk uart5_clk_init ++
  clk_array uart6_clk uart6_clk_init ++
  clk_array gpt1_clk gpt1_clk_init ++
  clk_array gpt2_clk gpt2_clk_init ++
  clk_array gpt3_clk gpt3_clk_init ++
  clk_array gpt4_clk gpt4_clk_init ++
  clk_array gpt5_clk gpt5_clk_init ++
  clk_array gpt6_clk gpt6_clk_init ++
  clk_array pwm_clk pwm_clk_init ++
  clk_array sdhc1_clk sdhc1_clk_init ++
  clk_array sdhc2_clk sdhc2_clk_init ++
  clk_array sdhc3_clk sdhc3_clk_init ++
  clk_array cspi1_clk cspi1_clk_init ++
  clk_array cspi2_clk cspi2_clk_init ++
  clk_array cspi3_clk cspi3_clk_init ++
  clk_array lcdc_clk lcdc_clk_init ++
  clk_array csi_clk csi_clk_init ++
  clk_array usb_clk usb_clk_init ++
  clk_array ssi1_clk ssi1_clk_init ++
  clk_array ssi2_clk ssi2_clk_init ++
  [(nfc_clk, nfc_clk_init)] ++
  [(vpu_clk, vpu_clk_init)] ++
  [(dma_clk, dma_clk_init)] ++
  [(rtic_clk, rtic_clk_init)] ++
  [(brom_clk, brom_clk_init)] ++
  [(emma_clk, emma_clk_init)] ++
  [(slcdc_clk, slcdc_clk_init)] ++
  [(fec_clk, fec_clk_init)] ++
  [(emi_clk, emi_clk_init)] ++
  [(sahara2_clk, sahara2_clk_init)] ++
  [(ata_clk, ata_clk_init)] ++
  [(mstick1_clk, mstick1_clk_init)] ++
  [(wdog_clk, wdog_clk_init)] ++
  [(gpio_clk, gpio_clk_init)] ++
  clk_array i2c_clk i2c_clk_init ++
  [(iim_clk, iim_clk_init)] ++
  [(kpp_clk, kpp_clk_init)] ++
  [(owire_clk, owire_clk_init)] ++
  [(rtc_clk, rtc_clk_init)] ++
  [(scc_clk, scc_clk_init)] ++
  [(clko_clk, clko_clk_init)].

Definition clk_mem0 : gmap clkid clk := list_to_map clk_objects.

(** The clocks [mxc_clocks_init] registers, in order. *)
Definition mxc_clks : list clkid :=
  [ckih_clk; ckil_clk; mpll_clk; mpll_main_clk 0; mpll_main_clk 1; spll_clk; cpu_clk;
   ahb_clk; ipg_clk; per_clk 0; per_clk 1; per_clk 2; per_clk 3; clko_clk; uart1_clk 0;
   uart1_clk 1; uart2_clk 0; uart2_clk 1; uart3_clk 0; uart3_clk 1; uart4_clk 0;
   uart4_clk 1; uart5_clk 0; uart5_clk 1; uart6_clk 0; uart6_clk 1; gpt1_clk 0;
   gpt1_clk 1; gpt2_clk 0; gpt2_clk 1; gpt3_clk 0; gpt3_clk 1; gpt4_clk 0; gpt4_clk 1;
   gpt5_clk 0; gpt5_clk 1; gpt6_clk 0; gpt6_clk 1; pwm_clk 0; pwm_clk 1; sdhc1_clk 0;
   sdhc1_clk 1; sdhc2_clk 0; sdhc2_clk 1; sdhc3_clk 0; sdhc3_clk 1; cspi1_clk 0;
   cspi1_clk 1; cspi2_clk 0; cspi2_clk 1; cspi3_clk 0; cspi3_clk 1; lcdc_clk 0;
   lcdc_clk 1; lcdc_clk 2; csi_clk 0; csi_clk 1; usb_clk 0; usb_clk 1; ssi1_clk 0;
   ssi1_clk 1; ssi2_clk 0; ssi2_clk 1; nfc_clk; vpu_clk; dma_clk; rtic_clk; brom_clk;
   emma_clk; slcdc_clk; fec_clk; emi_clk; sahara2_clk; ata_clk; mstick1_clk; wdog_clk;
   gpio_clk; i2c_clk 0; i2c_clk 1; iim_clk; kpp_clk; owire_clk; rtc_clk; scc_clk].
