(* ===== verification/Mx27Clock.v ===== *)
(** * The clock methods of the i.MX27: the code of [arch/arm/mach-mx27/clock.c]

    One definition per function of the file, with [mx27_methods] connecting them
    to the method pointers of the clock objects, and the chip revision code of
    [arch/arm/mach-mx27/cpu.c] they depend on. *)

From stdpp Require Import base gmap list strings.
From Stdlib Require Import ZArith Lia.
From S2P Require Import Prelude ClkFramework CrmRegs Mx27ClockTable.

(** ** Registers *)

Definition with_regs (f : regfile -> regfile) (h : mx27hw) : mx27hw :=
  mkHw (f (regs h)) (system_rev h) (system_rev_updated h) (spll_lock h).

(** [__raw_readl(a)] and [__raw_writel(v, a)]. *)
Definition rd (a : Z) : M clkst Z := gets (fun s => readl (regs (hw s)) a).
Definition wr (v a : Z) : M clkst unit :=
  modify (fun s => with_hw (with_regs (writel v a) (hw s)) s).

(** ** Chip revision ([cpu.c] and [hardware.h]) *)

(** [_is_rev]: 1 when the revision matches, -1 when it is older, 2 when newer;
    [cpu_is_mx27()] is 1 in this configuration. *)
Definition is_rev (sysrev rev : Z) : Z :=
  if sysrev =? rev then 1 else if sysrev <? rev then -1 else 2.

Definition cpu_is_mx27_rev (rev : Z) : M clkst Z :=
  gets (fun s => is_rev (system_rev (hw s)) rev).

Definition SYS_CHIP_VERSION_OFFSET : Z := 28.
Definition SYS_CHIP_VERSION_MASK : Z := Z.shiftl 0xF 28.
Definition system_rev_tbl : list (Z * Z) := [(0x00, CHIP_REV_1_0); (0x01, CHIP_REV_2_0)].

(** The table is searched for the version field; an unknown version is taken to
    be the last one of the table. *)
Definition read_system_rev : M clkst Z :=
  v ← rd (IO_ADDRESS SYSCTRL_BASE_ADDR + SYS_CHIP_ID);
  let val := Z.shiftr (Z.land v SYS_CHIP_VERSION_MASK) SYS_CHIP_VERSION_OFFSET in
  match list_find (fun e => fst e = val) system_rev_tbl with
  | Some (_, e) => mret (snd e)
  | None => mret (from_option snd 0 (last system_rev_tbl))
  end.

Definition store_system_rev (v : Z) : M clkst unit :=
  modify (fun s => with_hw (mkHw (regs (hw s)) v (system_rev_updated (hw s)) (spll_lock (hw s))) s).

Definition system_rev_update : M clkst unit :=
  h ← gets hw;
  if system_rev_updated h then
    if existsb (fun e => system_rev h =? snd e) system_rev_tbl then mret tt else crash Panic
  else v ← read_system_rev; store_system_rev v.

Definition mxc_cpu_common_init : M clkst unit := system_rev_update.

(** ** Gates *)

Definition _clk_enable (c : clkid) : M clkst Z :=
  k ← clk_at c;
  reg ← rd (enable_reg k);
  wr (setb reg (bit (enable_shift k))) (enable_reg k);;
  mret 0.

Definition _clk_disable (c : clkid) : M clkst unit :=
  k ← clk_at c;
  reg ← rd (enable_reg k);
  wr (clear reg (bit (enable_shift k))) (enable_reg k).

(** What the [i]-th poll of [CCM_SPCTL1] reads while the PLL takes [lat] polls to
    lock: its lock flag is clear before and set from then on. *)
Definition poll_spctl1 (lat i : nat) (r : regfile) : Z :=
  if (lat <=? i)%nat then setb (readl r CCM_SPCTL1) CCM_SPCTL1_LF
  else clear (readl r CCM_SPCTL1) CCM_SPCTL1_LF.

(** [while ((__raw_readl(CCM_SPCTL1) & CCM_SPCTL1_LF) == 0) ;] *)
Fixpoint spll_wait (lat fuel i : nat) : M clkst unit :=
  match fuel with
  | O => crash Hang
  | S n =>
      v ← gets (fun s => poll_spctl1 lat i (regs (hw s)));
      if Z.land v CCM_SPCTL1_LF =? 0 then spll_wait lat n (S i) else mret tt
  end.

Definition _clk_spll_enable (c : clkid) : M clkst Z :=
  reg ← rd CCM_CSCR;
  wr (setb reg CCM_CSCR_SPEN) CCM_CSCR;;
  h ← gets hw;
  (match spll_lock h with
   | Some lat => spll_wait lat (S lat) 0
   | None => crash Hang
   end);;
  mret 0.

Definition _clk_spll_disable (c : clkid) : M clkst unit :=
  reg ← rd CCM_CSCR;
  wr (clear reg CCM_CSCR_SPEN) CCM_CSCR.

Definition _clk_pccr01_enable (mask0 mask1 : Z) : M clkst unit :=
  reg ← rd CCM_PCCR0;
  wr (setb reg mask0) CCM_PCCR0;;
  reg ← rd CCM_PCCR1;
  wr (setb reg mask1) CCM_PCCR1.

Definition _clk_pccr01_disable (mask0 mask1 : Z) : M clkst unit :=
  reg ← rd CCM_PCCR0;
  wr (clear reg mask0) CCM_PCCR0;;
  reg ← rd CCM_PCCR1;
  wr (clear reg mask1) CCM_PCCR1.

Definition _clk_pccr10_enable (mask1 mask0 : Z) : M clkst unit :=
  reg ← rd CCM_PCCR1;
  wr (setb reg mask1) CCM_PCCR1;;
  reg ← rd CCM_PCCR0;
  wr (setb reg mask0) CCM_PCCR0.

Definition _clk_pccr10_disable (mask1 mask0 : Z) : M clkst unit :=
  reg ← rd CCM_PCCR1;
  wr (clear reg mask1) CCM_PCCR1;;
  reg ← rd CCM_PCCR0;
  wr (clear reg mask0) CCM_PCCR0.

Definition _clk_dma_enable (c : clkid) : M clkst Z :=
  _clk_pccr01_enable CCM_PCCR0_DMA_MASK CCM_PCCR1_HCLK_DMA_MASK;; mret 0.
Definition _clk_dma_disable (c : clkid) : M clkst unit :=
  _clk_pccr01_disable CCM_PCCR0_DMA_MASK CCM_PCCR1_HCLK_DMA_MASK.

Definition _clk_rtic_enable (c : clkid) : M clkst Z :=
  _clk_pccr01_enable CCM_PCCR0_RTIC_MASK CCM_PCCR1_HCLK_RTIC_MASK;; mret 0.
Definition _clk_rtic_disable (c : clkid) : M clkst unit :=
  _clk_pccr01_disable CCM_PCCR0_RTIC_MASK CCM_PCCR1_HCLK_RTIC_MASK.

Definition _clk_emma_enable (c : clkid) : M clkst Z :=
  _clk_pccr01_enable CCM_PCCR0_EMMA_MASK CCM_PCCR1_HCLK_EMMA_MASK;; mret 0.
Definition _clk_emma_disable (c : clkid) : M clkst unit :=
  _clk_pccr01_disable CCM_PCCR0_EMMA_MASK CCM_PCCR1_HCLK_EMMA_MASK.

Definition _clk_slcdc_enable (c : clkid) : M clkst Z :=
  _clk_pccr01_enable CCM_PCCR0_SLCDC_MASK CCM_PCCR1_HCLK_SLCDC_MASK;; mret 0.
Definition _clk_slcdc_disable (c : clkid) : M clkst unit :=
  _clk_pccr01_disable CCM_PCCR0_SLCDC_MASK CCM_PCCR1_HCLK_SLCDC_MASK.

Definition _clk_fec_enable (c : clkid) : M clkst Z :=
  _clk_pccr01_enable CCM_PCCR0_FEC_MASK CCM_PCCR1_HCLK_FEC_MASK;; mret 0.
Definition _clk_fec_disable (c : clkid) : M clkst unit :=
  _clk_pccr01_disable CCM_PCCR0_FEC_MASK CCM_PCCR1_HCLK_FEC_MASK.

Definition _clk_vpu_enable (c : clkid) : M clkst Z :=
  reg ← rd CCM_PCCR1;
  wr (setb reg (setb CCM_PCCR1_VPU_BAUD_MASK CCM_PCCR1_HCLK_VPU_MASK)) CCM_PCCR1;;
  mret 0.
Definition _clk_vpu_disable (c : clkid) : M clkst unit :=
  reg ← rd CCM_PCCR1;
  wr (clear reg (setb CCM_PCCR1_VPU_BAUD_MASK CCM_PCCR1_HCLK_VPU_MASK)) CCM_PCCR1.

Definition _clk_sahara2_enable (c : clkid) : M clkst Z :=
  _clk_pccr01_enable CCM_PCCR0_SAHARA_MASK CCM_PCCR1_HCLK_SAHARA_MASK;; mret 0.
Definition _clk_sahara2_disable (c : clkid) : M clkst unit :=
  _clk_pccr01_disable CCM_PCCR0_SAHARA_MASK CCM_PCCR1_HCLK_SAHARA_MASK.

Definition _clk_mstick1_enable (c : clkid) : M clkst Z :=
  _clk_pccr10_enable CCM_PCCR1_MSHC_BAUD_MASK CCM_PCCR0_MSHC_MASK;; mret 0.
Definition _clk_mstick1_disable (c : clkid) : M clkst unit :=
  _clk_pccr10_disable CCM_PCCR1_MSHC_BAUD_MASK CCM_PCCR0_MSHC_MASK.

Definition _clk_clko_enable (c : clkid) : M clkst Z :=
  reg ← rd CCM_PCDR0;
  wr (setb reg CCM_PCDR0_CLKO_EN) CCM_PCDR0;;
  mret 0.
Definition _clk_clko_disable (c : clkid) : M clkst unit :=
  reg ← rd CCM_PCDR0;
  wr (clear reg CCM_PCDR0_CLKO_EN) CCM_PCDR0.

(** ** Rates read back from the divider registers *)

(** [clk->parent->rate]. *)
Definition parent_rate (k : clk) : M clkst Z :=
  p ← deref (parent k);
  kp ← clk_at p;
  mret (rate kp).

(** The PLL formula of [_clk_pll_recalc], on the fields of a control register;
    [temp] is a 64-bit value that [do_div] divides, and the rate is 32 bits wide. *)
Definition pll_rate (ref_clk reg : Z) : Z :=
  let pdf := Z.shiftr (Z.land reg CCM_MPCTL0_PD_MASK) CCM_MPCTL0_PD_OFFSET in
  let mfd := Z.shiftr (Z.land reg CCM_MPCTL0_MFD_MASK) CCM_MPCTL0_MFD_OFFSET in
  let mfi := Z.shiftr (Z.land reg CCM_MPCTL0_MFI_MASK) CCM_MPCTL0_MFI_OFFSET in
  let mfn := Z.shiftr (Z.land reg CCM_MPCTL0_MFN_MASK) CCM_MPCTL0_MFN_OFFSET in
  let mfi := if mfi <=? 5 then 5 else mfi in
  let temp := 2 * ref_clk * mfn mod 2 ^ 64 / (mfd + 1) in
  let temp := (2 * ref_clk * mfi + temp) mod 2 ^ 64 / (pdf + 1) in
  u32 temp.

(** The masks of the two PLL control registers are the same numbers. *)
Definition _clk_pll_recalc (c : clkid) : M clkst unit :=
  k ← clk_at c;
  ref0 ← parent_rate k;
  let ref_clk := if decide (parent k = Some ckil_clk) then u32 (ref0 * 1024) else ref0 in
  if decide (c = mpll_clk) then
    reg ← rd CCM_MPCTL0;
    store_rate c (pll_rate ref_clk reg)
  else if decide (c = spll_clk) then
    reg ← rd CCM_SPCTL0;
    rev ← cpu_is_mx27_rev CHIP_REV_2_0;
    (if rev =? 1 then wr reg CCM_SPCTL0 else mret tt);;
    store_rate c (pll_rate ref_clk reg)
  else crash Bug.

Definition _clk_mpll_main_recalc (c : clkid) : M clkst unit :=
  k ← clk_at c;
  if id k =? 0 then pr ← parent_rate k; store_rate c pr
  else if id k =? 1 then pr ← parent_rate k; store_rate c (u32 (2 * pr) / 3)
  else mret tt.

Definition _clk_cpu_recalc (c : clkid) : M clkst unit :=
  rev ← cpu_is_mx27_rev CHIP_REV_2_0;
  cscr ← rd CCM_CSCR;
  let div :=
    if 0 <? rev then Z.shiftr (Z.land cscr CCM_CSCR_ARM_MASK) CCM_CSCR_ARM_OFFSET
    else Z.shiftr (Z.land cscr CCM_CSCR_PRESC_MASK) CCM_CSCR_PRESC_OFFSET in
  k ← clk_at c;
  pr ← parent_rate k;
  v ← udiv pr (div + 1);
  store_rate c v.

Definition _clk_ahb_recalc (c : clkid) : M clkst unit :=
  rev ← cpu_is_mx27_rev CHIP_REV_2_0;
  cscr ← rd CCM_CSCR;
  let bclk_pdf :=
    if 0 <? rev then Z.shiftr (Z.land cscr CCM_CSCR_AHB_MASK) CCM_CSCR_AHB_OFFSET
    else Z.shiftr (Z.land cscr CCM_CSCR_BCLK_MASK) CCM_CSCR_BCLK_OFFSET in
  k ← clk_at c;
  pr ← parent_rate k;
  v ← udiv pr (bclk_pdf + 1);
  store_rate c v.

Definition _clk_perclkx_recalc (c : clkid) : M clkst unit :=
  k ← clk_at c;
  if (id k <? 0) || (3 <? id k) then mret tt
  else
    pcdr1 ← rd CCM_PCDR1;
    let perclk_pdf := Z.land (Z.shiftr pcdr1 (Z.shiftl (id k) 3)) CCM_PCDR1_PERDIV1_MASK in
    pr ← parent_rate k;
    v ← udiv pr (perclk_pdf + 1);
    store_rate c v.

Definition _clk_usb_recalc (c : clkid) : M clkst unit :=
  cscr ← rd CCM_CSCR;
  let usb_pdf := Z.shiftr (Z.land cscr CCM_CSCR_USB_MASK) CCM_CSCR_USB_OFFSET in
  k ← clk_at c;
  pr ← parent_rate k;
  v ← udiv pr (usb_pdf + 1);
  store_rate c v.

(** The divider of an SSI clock: the field plus 4 on a TO2 part, the field with
    0 and 1 standing for 124 before. *)
Definition ssi_pdf (rev f : Z) : Z :=
  if 0 <? rev then f + 4 else if f <? 2 then 124 else f.

Definition _clk_ssi1_recalc (c : clkid) : M clkst unit :=
  pcdr0 ← rd CCM_PCDR0;
  let f := Z.shiftr (Z.land pcdr0 CCM_PCDR0_SSI1BAUDDIV_MASK) CCM_PCDR0_SSI1BAUDDIV_OFFSET in
  rev ← cpu_is_mx27_rev CHIP_REV_2_0;
  k ← clk_at c;
  pr ← parent_rate k;
  v ← udiv (u32 (2 * pr)) (ssi_pdf rev f);
  store_rate c v.

Definition _clk_ssi2_recalc (c : clkid) : M clkst unit :=
  pcdr0 ← rd CCM_PCDR0;
  let f := Z.shiftr (Z.land pcdr0 CCM_PCDR0_SSI2BAUDDIV_MASK) CCM_PCDR0_SSI2BAUDDIV_OFFSET in
  rev ← cpu_is_mx27_rev CHIP_REV_2_0;
  k ← clk_at c;
  pr ← parent_rate k;
  v ← udiv (u32 (2 * pr)) (ssi_pdf rev f);
  store_rate c v.

Definition _clk_nfc_recalc (c : clkid) : M clkst unit :=
  rev ← cpu_is_mx27_rev CHIP_REV_2_0;
  pcdr0 ← rd CCM_PCDR0;
  let nfc_pdf :=
    if 0 <? rev then Z.shiftr (Z.land pcdr0 CCM_PCDR0_NFCDIV2_MASK) CCM_PCDR0_NFCDIV2_OFFSET
    else Z.shiftr (Z.land pcdr0 CCM_PCDR0_NFCDIV_MASK) CCM_PCDR0_NFCDIV_OFFSET in
  k ← clk_at c;
  pr ← parent_rate k;
  v ← udiv pr (nfc_pdf + 1);
  store_rate c v.

Definition _clk_vpu_recalc (c : clkid) : M clkst unit :=
  rev ← cpu_is_mx27_rev CHIP_REV_2_0;
  pcdr0 ← rd CCM_PCDR0;
  let vpu_pdf :=
    if 0 <? rev then
      Z.shiftr (Z.land pcdr0 CCM_PCDR0_VPUDIV2_MASK) CCM_PCDR0_VPUDIV2_OFFSET + 4
    else
      let f := Z.shiftr (Z.land pcdr0 CCM_PCDR0_VPUDIV_MASK) CCM_PCDR0_VPUDIV_OFFSET in
      if f <? 2 then 124 else f in
  k ← clk_at c;
  pr ← parent_rate k;
  v ← udiv (u32 (2 * pr)) vpu_pdf;
  store_rate c v.

Definition _clk_ipg_recalc (c : clkid) : M clkst unit :=
  rev ← cpu_is_mx27_rev CHIP_REV_2_0;
  cscr ← rd CCM_CSCR;
  let ipg_pdf :=
    if 0 <? rev then 1 else Z.shiftr (Z.land cscr CCM_CSCR_IPDIV) CCM_CSCR_IPDIV_OFFSET in
  k ← clk_at c;
  pr ← parent_rate k;
  v ← udiv pr (ipg_pdf + 1);
  store_rate c v.

(** [PCDR0 & MASK >> OFFSET]: in C the shift binds tighter than the [&]. *)
Definition _clk_clko_recalc (c : clkid) : M clkst unit :=
  pcdr0 ← rd CCM_PCDR0;
  let div := Z.land pcdr0 (Z.shiftr CCM_PCDR0_CLKODIV_MASK CCM_PCDR0_CLKODIV_OFFSET) + 1 in
  k ← clk_at c;
  pr ← parent_rate k;
  v ← udiv pr div;
  store_rate c v.

(** ** Requested rates *)

(** The rounding of [_clk_perclkx_round_rate] and [_clk_clko_round_rate]: the
    divider is rounded up and limited to [maxdiv]. *)
Definition round_div (pr r maxdiv : Z) : M clkst Z :=
  q ← udiv pr r;
  rem ← umod pr r;
  let div := if rem =? 0 then q else u32 (q + 1) in
  let div := if maxdiv <? div then maxdiv else div in
  udiv pr div.

Definition _clk_cpu_round_rate (c : clkid) (r : Z) : M clkst Z :=
  k ← clk_at c;
  pr ← parent_rate k;
  q ← udiv pr r;
  rem ← umod pr r;
  let div := s32 q in
  let div := if rem =? 0 then div else s32 (div + 1) in
  let div := if 4 <? div then 4 else div in
  udiv pr (u32 div).

(** The last two arguments of [__raw_writel] are in the order the source has:
    the register's address is stored at the address that the new contents spell. *)
Definition _clk_cpu_set_rate (c : clkid) (r : Z) : M clkst Z :=
  k ← clk_at c;
  pr ← parent_rate k;
  q ← udiv pr r;
  let div := s32 q in
  if (4 <? div) || (div <? 1) then mret (- EINVAL)
  else
    v ← udiv pr div;
    if negb (v =? r) then mret (- EINVAL)
    else
      cscr ← rd CCM_CSCR;
      let reg := setb (clear cscr CCM_CSCR_ARM_MASK) (Z.shiftl (div - 1) CCM_CSCR_ARM_OFFSET) in
      wr CCM_CSCR reg;;
      store_rate c r;;
      mret 0.

Definition _clk_perclkx_round_rate (c : clkid) (r : Z) : M clkst Z :=
  k ← clk_at c;
  pr ← parent_rate k;
  round_div pr r 64.

Definition _clk_perclkx_set_rate (c : clkid) (r : Z) : M clkst Z :=
  k ← clk_at c;
  if (id k <? 0) || (3 <? id k) then mret (- EINVAL)
  else
    pr ← parent_rate k;
    div ← udiv pr r;
    if (64 <? div) || (div <? 1) then mret (- EINVAL)
    else
      v ← udiv pr div;
      if negb (v =? r) then mret (- EINVAL)
      else
        pcdr1 ← rd CCM_PCDR1;
        let sh := Z.shiftl (id k) 3 in
        let reg := setb (clear pcdr1 (Z.shiftl CCM_PCDR1_PERDIV1_MASK sh)) (Z.shiftl (div - 1) sh) in
        wr reg CCM_PCDR1;;
        store_rate c r;;
        mret 0.

Definition _clk_vpu_round_rate (c : clkid) (r : Z) : M clkst Z :=
  k ← clk_at c;
  pr ← parent_rate k;
  let pr2 := u32 (pr * 2) in
  q ← udiv pr2 r;
  rem ← umod pr2 r;
  let div := if rem =? 0 then q else u32 (q + 1) in
  let div := if div <? 4 then 4 else div in
  let div := if 67 <? div then 67 else div in
  udiv pr2 div.

Definition _clk_vpu_set_rate (c : clkid) (r : Z) : M clkst Z :=
  k ← clk_at c;
  pr ← parent_rate k;
  let pr2 := u32 (pr * 2) in
  div ← udiv pr2 r;
  if (67 <? div) || (div <? 4) then mret (- EINVAL)
  else
    v ← udiv pr2 div;
    if negb (v =? r) then mret (- EINVAL)
    else
      pcdr0 ← rd CCM_PCDR0;
      wr (setb (clear pcdr0 0x0000FC00) (Z.shiftl (div - 4) 10)) CCM_PCDR0;;
      store_rate c r;;
      mret 0.

Definition _clk_clko_round_rate (c : clkid) (r : Z) : M clkst Z :=
  k ← clk_at c;
  pr ← parent_rate k;
  round_div pr r 8.

Definition _clk_clko_set_rate (c : clkid) (r : Z) : M clkst Z :=
  k ← clk_at c;
  pr ← parent_rate k;
  div ← udiv pr r;
  if (8 <? div) || (div <? 1) then mret (- EINVAL)
  else
    v ← udiv pr div;
    if negb (v =? r) then mret (- EINVAL)
    else
      pcdr0 ← rd CCM_PCDR0;
      let reg := setb (clear pcdr0 CCM_PCDR0_CLKODIV_MASK) (Z.shiftl (div - 1) CCM_PCDR0_CLKODIV_OFFSET) in
      wr reg CCM_PCDR0;;
      store_rate c r;;
      mret 0.

(** The two functions that forward to the parent; [call] is the call through the
    parent's method pointer. *)
Definition _clk_parent_round_rate (call : round_rate_ptr -> clkid -> Z -> M clkst Z)
    (c : clkid) (r : Z) : M clkst Z :=
  k ← clk_at c;
  p ← deref (parent k);
  kp ← clk_at p;
  f ← deref (round_rate kp);
  call f p r.

Definition _clk_parent_set_rate (call : set_rate_ptr -> clkid -> Z -> M clkst Z)
    (c : clkid) (r : Z) : M clkst Z :=
  k ← clk_at c;
  p ← deref (parent k);
  kp ← clk_at p;
  f ← deref (set_rate kp);
  ret ← call f p r;
  (if ret =? 0 then store_rate c r else mret tt);;
  mret ret.

(** ** Parents *)

Definition _clk_cpu_set_parent (c p : clkid) : M clkst Z :=
  cscr ← rd CCM_CSCR;
  k ← clk_at c;
  if decide (parent k = Some p) then mret 0
  else
    rev ← cpu_is_mx27_rev CHIP_REV_2_0;
    if 0 <? rev then
      if decide (p = mpll_main_clk 0) then
        wr CCM_CSCR (setb cscr CCM_CSCR_ARM_SRC);;
        store_parent c (Some p);;
        mret 0
      else if decide (p = mpll_main_clk 1) then
        wr CCM_CSCR (clear cscr CCM_CSCR_ARM_SRC);;
        store_parent c (Some p);;
        mret 0
      else mret (- EINVAL)
    else mret (- ENODEV).

(** The selector value of [_clk_clko_set_parent] for a parent, the parents of the
    two PLLs being [mp] and [sp]. *)
Definition clko_sel (mp sp : option clkid) (p : clkid) : option Z :=
  if decide (p = ckil_clk) then Some 0
  else if decide (p = ckih_clk) then Some 2
  else if decide (Some p = mp) then Some 3
  else if decide (Some p = sp) then Some 4
  else if decide (p = mpll_clk) then Some 5
  else if decide (p = spll_clk) then Some 6
  else if decide (p = cpu_clk) then Some 7
  else if decide (p = ahb_clk) then Some 8
  else if decide (p = ipg_clk) then Some 9
  else if decide (p = per_clk 0) then Some 0xA
  else if decide (p = per_clk 1) then Some 0xB
  else if decide (p = per_clk 2) then Some 0xC
  else if decide (p = per_clk 3) then Some 0xD
  else if decide (p = ssi1_clk 0) then Some 0xE
  else if decide (p = ssi2_clk 0) then Some 0xF
  else if decide (p = nfc_clk) then Some 0x10
  else if decide (p = mstick1_clk) then Some 0x11
  else if decide (p = vpu_clk) then Some 0x12
  else if decide (p = usb_clk 0) then Some 0x15
  else None.

Definition _clk_clko_set_parent (c p : clkid) : M clkst Z :=
  ccsr ← rd CCM_CCSR;
  let reg := clear ccsr CCM_CCSR_CLKOSEL_MASK in
  km ← clk_at mpll_clk;
  ks ← clk_at spll_clk;
  match clko_sel (parent km) (parent ks) p with
  | Some v => wr (setb reg (Z.shiftl v CCM_CCSR_CLKOSEL_OFFSET)) CCM_CCSR;; mret 0
  | None => mret (- EINVAL)
  end.

(** ** Calls through the method pointers *)

Definition mx27_recalc (f : recalc_ptr) (c : clkid) : M clkst unit :=
  match f with
  | p_clk_pll_recalc => _clk_pll_recalc c
  | p_clk_mpll_main_recalc => _clk_mpll_main_recalc c
  | p_clk_cpu_recalc => _clk_cpu_recalc c
  | p_clk_ahb_recalc => _clk_ahb_recalc c
  | p_clk_ipg_recalc => _clk_ipg_recalc c
  | p_clk_perclkx_recalc => _clk_perclkx_recalc c
  | p_clk_usb_recalc => _clk_usb_recalc c
  | p_clk_ssi1_recalc => _clk_ssi1_recalc c
  | p_clk_ssi2_recalc => _clk_ssi2_recalc c
  | p_clk_nfc_recalc => _clk_nfc_recalc c
  | p_clk_vpu_recalc => _clk_vpu_recalc c
  | p_clk_clko_recalc => _clk_clko_recalc c
  end.

Fixpoint mx27_set_rate (fuel : nat) (f : set_rate_ptr) (c : clkid) (r : Z) : M clkst Z :=
  match f with
  | p_clk_cpu_set_rate => _clk_cpu_set_rate c r
  | p_clk_perclkx_set_rate => _clk_perclkx_set_rate c r
  | p_clk_vpu_set_rate => _clk_vpu_set_rate c r
  | p_clk_clko_set_rate => _clk_clko_set_rate c r
  | p_clk_parent_set_rate =>
      match fuel with
      | O => crash OutOfFuel
      | S n => _clk_parent_set_rate (mx27_set_rate n) c r
      end
  end.

Fixpoint mx27_round_rate (fuel : nat) (f : round_rate_ptr) (c : clkid) (r : Z) : M clkst Z :=
  match f with
  | p_clk_cpu_round_rate => _clk_cpu_round_rate c r
  | p_clk_perclkx_round_rate => _clk_perclkx_round_rate c r
  | p_clk_vpu_round_rate => _clk_vpu_round_rate c r
  | p_clk_clko_round_rate => _clk_clko_round_rate c r
  | p_clk_parent_round_rate =>
      match fuel with
      | O => crash OutOfFuel
      | S n => _clk_parent_round_rate (mx27_round_rate n) c r
      end
  end.

Definition mx27_enable (f : enable_ptr) (c : clkid) : M clkst Z :=
  match f with
  | p_clk_enable => _clk_enable c
  | p_clk_spll_enable => _clk_spll_enable c
  | p_clk_vpu_enable => _clk_vpu_enable c
  | p_clk_dma_enable => _clk_dma_enable c
  | p_clk_rtic_enable => _clk_rtic_enable c
  | p_clk_emma_enable => _clk_emma_enable c
  | p_clk_slcdc_enable => _clk_slcdc_enable c
  | p_clk_fec_enable => _clk_fec_enable c
  | p_clk_sahara2_enable => _clk_sahara2_enable c
  | p_clk_mstick1_enable => _clk_mstick1_enable c
  | p_clk_clko_enable => _clk_clko_enable c
  end.

Definition mx27_disable (f : disable_ptr) (c : clkid) : M clkst unit :=
  match f with
  | p_clk_disable => _clk_disable c
  | p_clk_spll_disable => _clk_spll_disable c
  | p_clk_vpu_disable => _clk_vpu_disable c
  | p_clk_dma_disable => _clk_dma_disable c
  | p_clk_rtic_disable => _clk_rtic_disable c
  | p_clk_emma_disable => _clk_emma_disable c
  | p_clk_slcdc_disable => _clk_slcdc_disable c
  | p_clk_fec_disable => _clk_fec_disable c
  | p_clk_sahara2_disable => _clk_sahara2_disable c
  | p_clk_mstick1_disable => _clk_mstick1_disable c
  | p_clk_clko_disable => _clk_clko_disable c
  end.

Definition mx27_set_parent (f : set_parent_ptr) (c p : clkid) : M clkst Z :=
  match f with
  | p_clk_cpu_set_parent => _clk_cpu_set_parent c p
  | p_clk_clko_set_parent => _clk_clko_set_parent c p
  end.

#[global] Instance mx27_methods : @ClkMethods mx27_sig := {|
  call_recalc := mx27_recalc;
  call_set_rate := fun f c r => s ← get; mx27_set_rate (tree_fuel s) f c r;
  call_round_rate := fun f c r => s ← get; mx27_round_rate (tree_fuel s) f c r;
  call_enable := mx27_enable;
  call_disable := mx27_disable;
  call_set_parent := mx27_set_parent;
|}.

(** ** Start-up *)

(** Which input the high-frequency oscillator pin carries: this board's header
    defines [MXC_CKIH_SOURCE()] as 0. *)
Definition MXC_CKIH_SOURCE : Z := 0.

Definition upd_cpu_fixed (k : clk) : clk :=
  mkClk (owner k) (name k) (id k) (parent k) (secondary k) (rate k) (usecount k) (enable_shift k)
    (enable_reg k) (recalc k) None None (enable k) (disable k) None.

Definition probe_mxc_clocks : M clkst unit :=
  rev ← cpu_is_mx27_rev CHIP_REV_2_0;
  if 0 <? rev then
    cscr ← rd CCM_CSCR;
    (if Z.land cscr 0x8000 =? 0 then mret tt else store_parent cpu_clk (Some (mpll_main_clk 0)));;
    (if Z.land cscr 0x00800000 =? 0 then store_parent (ssi2_clk 0) (Some spll_clk) else mret tt);;
    (if Z.land cscr 0x00400000 =? 0 then store_parent (ssi1_clk 0) (Some spll_clk) else mret tt);;
    (if Z.land cscr 0x00200000 =? 0 then store_parent vpu_clk (Some spll_clk) else mret tt)
  else
    store_parent cpu_clk (Some mpll_clk);;
    modify (with_mem (alter upd_cpu_fixed cpu_clk));;
    store_parent ahb_clk (Some mpll_clk);;
    store_parent (per_clk 0) (Some mpll_clk);;
    store_parent (per_clk 1) (Some mpll_clk);;
    store_parent (per_clk 2) (Some mpll_clk);;
    store_parent (per_clk 3) (Some mpll_clk);;
    store_parent (ssi1_clk 0) (Some mpll_clk);;
    store_parent (ssi2_clk 0) (Some mpll_clk);;
    store_parent vpu_clk (Some mpll_clk).

(** [c->recalc(c)] and [c->enable(c)]. *)
Definition do_recalc (c : clkid) : M clkst unit :=
  k ← clk_at c; f ← deref (recalc k); mx27_recalc f c.
Definition do_enable (c : clkid) : M clkst Z :=
  k ← clk_at c; f ← deref (enable k); mx27_enable f c.
Definition do_disable (c : clkid) : M clkst unit :=
  k ← clk_at c; f ← deref (disable k); mx27_disable f c.

Definition clk_early_get_timer_rate : M clkst Z :=
  mxc_cpu_common_init;;
  cscr ← rd CCM_CSCR;
  store_parent mpll_clk (Some (if Z.land cscr CCM_CSCR_MCU =? 0 then ckil_clk else ckih_clk));;
  store_rate ckih_clk (if MXC_CKIH_SOURCE =? 0 then CKIH_CLK_FREQ else CKIH_CLK_FREQ_27MHZ);;
  probe_mxc_clocks;;
  do_recalc mpll_clk;;
  rev ← cpu_is_mx27_rev CHIP_REV_2_0;
  (if 0 <? rev then do_recalc (mpll_main_clk 0);; do_recalc (mpll_main_clk 1) else mret tt);;
  do_recalc (per_clk 0);;
  do_enable (per_clk 0);;
  do_enable (gpt1_clk 1);;
  k ← clk_at (per_clk 0);
  mret (rate k).

(** The registration loop. *)
Fixpoint register_clks (l : list clkid) : M clkst unit :=
  match l with
  | [] => mret tt
  | c :: l' =>
      rev ← cpu_is_mx27_rev CHIP_REV_1_0;
      (if decide (c = mpll_main_clk 0 \/ c = mpll_main_clk 1) then
         if rev =? 1 then mret tt else clk_register (CPtr (c : clkp));; mret tt
       else clk_register (CPtr (c : clkp));; mret tt);;
      register_clks l'
  end.

Definition mxc_clocks_init : M clkst Z :=
  register_clks mxc_clks;;
  wr CCM_PCCR0_GPT1_MASK CCM_PCCR0;;
  wr (setb CCM_PCCR1_PERCLK1_MASK CCM_PCCR1_HCLK_EMI_MASK) CCM_PCCR1;;
  do_disable spll_clk;;
  cscr ← rd CCM_CSCR;
  store_parent mpll_clk (Some (if Z.land cscr CCM_CSCR_MCU =? 0 then ckil_clk else ckih_clk));;
  store_parent spll_clk (Some (if Z.land cscr CCM_CSCR_SP =? 0 then ckil_clk else ckih_clk));;
  store_rate ckih_clk (if MXC_CKIH_SOURCE =? 0 then CKIH_CLK_FREQ else CKIH_CLK_FREQ_27MHZ);;
  propagate_rate (CPtr (ckih_clk : clkp));;
  propagate_rate (CPtr (ckil_clk : clkp));;
  ClkFramework.clk_enable (CPtr (emi_clk : clkp));;
  ClkFramework.clk_enable (CPtr (gpio_clk : clkp));;
  ClkFramework.clk_enable (CPtr (iim_clk : clkp));;
  ClkFramework.clk_enable (CPtr (gpt1_clk 0 : clkp));;
  mret 0.

(** The machine as the image starts: no clock registered, nothing counted. *)
Definition boot (h : mx27hw) : clkst := mkClkst clk_mem0 [] ∅ h.
