(* ===== verification/Mx27ClockLaws.v ===== *)
(** * The i.MX27 is a machine of the clock framework

    The methods of [mach-mx27/clock.c] satisfy what the framework expects of a
    machine: [mx27_enable_laws] (gating touches the hardware only, and returns
    when the serial PLL locks) and [mx27_recalc_laws] (a recalc method stores the
    rate that [mx27_recalc_val] derives from the parent's rate and the divider
    fields). *)

From stdpp Require Import base gmap list strings.
From Stdlib Require Import ZArith Lia.
From S2P Require Import Prelude ClkFramework ClkCounts ClkEnable ClkRates CrmRegs.
From S2P Require Import Mx27ClockTable Mx27Clock.

(** ** Gating *)

(** The serial PLL locks some number of polls after it is switched on. *)
Definition spll_locks (h : mx27hw) : Prop := is_Some (spll_lock h).

Lemma poll_spctl1_flag lat i r :
  (Z.land (poll_spctl1 lat i r) CCM_SPCTL1_LF =? 0) = negb (lat <=? i)%nat.
Proof.
  change CCM_SPCTL1_LF with (bit 15). rewrite land_bit by lia. f_equal. unfold poll_spctl1.
  change CCM_SPCTL1_LF with (bit 15). destruct (lat <=? i)%nat.
  - rewrite testbit_setb, testbit_bit by lia. apply orb_true_r.
  - rewrite testbit_clear, testbit_bit by lia. apply andb_false_r.
Qed.

Lemma spll_wait_returns lat fuel i s :
  (i <= lat < i + fuel)%nat -> spll_wait lat fuel i s = Ret (tt, s).
Proof.
  revert i. induction fuel as [|n IH]; intros i H; [lia|].
  cbn [spll_wait]. unfold gets, mbind, M_bind. rewrite poll_spctl1_flag.
  destruct (Nat.leb_spec lat i); simpl; [done|]. apply IH. lia.
Qed.

(** The register bits a gating method drives: pairs of an address and a mask. *)
Definition gate : Type := list (Z * Z).

Definition open_gate (g : gate) (r : regfile) : regfile :=
  fold_left (fun r '(a, m) => writel (setb (readl r a) m) a r) g r.
Definition close_gate (g : gate) (r : regfile) : regfile :=
  fold_left (fun r '(a, m) => writel (clear (readl r a) m) a r) g r.

Definition enable_gate (f : enable_ptr) (k : clk) : gate :=
  match f with
  | p_clk_enable => [(enable_reg k, bit (enable_shift k))]
  | p_clk_spll_enable => [(CCM_CSCR, CCM_CSCR_SPEN)]
  | p_clk_vpu_enable => [(CCM_PCCR1, setb CCM_PCCR1_VPU_BAUD_MASK CCM_PCCR1_HCLK_VPU_MASK)]
  | p_clk_dma_enable => [(CCM_PCCR0, CCM_PCCR0_DMA_MASK); (CCM_PCCR1, CCM_PCCR1_HCLK_DMA_MASK)]
  | p_clk_rtic_enable => [(CCM_PCCR0, CCM_PCCR0_RTIC_MASK); (CCM_PCCR1, CCM_PCCR1_HCLK_RTIC_MASK)]
  | p_clk_emma_enable => [(CCM_PCCR0, CCM_PCCR0_EMMA_MASK); (CCM_PCCR1, CCM_PCCR1_HCLK_EMMA_MASK)]
  | p_clk_slcdc_enable => [(CCM_PCCR0, CCM_PCCR0_SLCDC_MASK); (CCM_PCCR1, CCM_PCCR1_HCLK_SLCDC_MASK)]
  | p_clk_fec_enable => [(CCM_PCCR0, CCM_PCCR0_FEC_MASK); (CCM_PCCR1, CCM_PCCR1_HCLK_FEC_MASK)]
  | p_clk_sahara2_enable => [(CCM_PCCR0, CCM_PCCR0_SAHARA_MASK); (CCM_PCCR1, CCM_PCCR1_HCLK_SAHARA_MASK)]
  | p_clk_mstick1_enable => [(CCM_PCCR1, CCM_PCCR1_MSHC_BAUD_MASK); (CCM_PCCR0, CCM_PCCR0_MSHC_MASK)]
  | p_clk_clko_enable => [(CCM_PCDR0, CCM_PCDR0_CLKO_EN)]
  end.

(** The enable method that goes with a disable method. *)
Definition disable_pair (f : disable_ptr) : enable_ptr :=
  match f with
  | p_clk_disable => p_clk_enable
  | p_clk_spll_disable => p_clk_spll_enable
  | p_clk_vpu_disable => p_clk_vpu_enable
  | p_clk_dma_disable => p_clk_dma_enable
  | p_clk_rtic_disable => p_clk_rtic_enable
  | p_clk_emma_disable => p_clk_emma_enable
  | p_clk_slcdc_disable => p_clk_slcdc_enable
  | p_clk_fec_disable => p_clk_fec_enable
  | p_clk_sahara2_disable => p_clk_sahara2_enable
  | p_clk_mstick1_disable => p_clk_mstick1_enable
  | p_clk_clko_disable => p_clk_clko_enable
  end.

Lemma clk_at_run (c : clkp) (k : clk) (s : clkst) :
  clk_mem s !! c = Some k -> clk_at c s = Ret (k, s).
Proof. intros H. unfold clk_at, get, mbind, M_bind. cbv beta iota. by rewrite H. Qed.

(** An enable method returns 0 and sets exactly the bits of its gate. *)
Lemma mx27_enable_run f (c : clkp) (k : clk) (s : clkst) :
  clk_mem s !! c = Some k -> spll_locks (hw s) ->
  mx27_enable f c s = Ret (0, with_hw (with_regs (open_gate (enable_gate f k)) (hw s)) s).
Proof.
  intros Hc [lat Hl]. destruct f; try reflexivity.
  - unfold mx27_enable, _clk_spll_enable, rd, wr, modify, gets, mbind, M_bind.
    cbn [hw with_hw spll_lock with_regs]. rewrite Hl. by rewrite spll_wait_returns by lia.
  - cbn. unfold _clk_enable. by rewrite (run_bind _ _ _ _ _ (clk_at_run c k s Hc)).
Qed.

(** A disable method clears exactly the bits of the gate. *)
Lemma mx27_disable_run f (c : clkp) (k : clk) (s : clkst) :
  clk_mem s !! c = Some k ->
  mx27_disable f c s = Ret (tt, with_hw (with_regs (close_gate (enable_gate (disable_pair f) k)) (hw s)) s).
Proof.
  intros Hc. destruct f; try reflexivity.
  cbn. unfold _clk_disable. by rewrite (run_bind _ _ _ _ _ (clk_at_run c k s Hc)).
Qed.

#[global] Instance mx27_enable_laws : EnableLaws mx27_sig mx27_methods.
Proof.
  refine {| st_ok := fun _ (h : @hwst mx27_sig) => spll_locks h |}; [done|..].
  - intros f c k s Hh Hk _. apply wp_run. do 2 eexists. split; [by apply (mx27_enable_run f c k)|].
    eexists. by split.
  - intros f c k s Hh Hk _. apply wp_run. do 2 eexists. split; [by apply (mx27_disable_run f c k)|].
    eexists. by split.
Defined.

(** ** Rates *)

(** Part revision TO2 or later. *)
Definition to2 (h : mx27hw) : bool := 0 <? is_rev (system_rev h) CHIP_REV_2_0.

(** The reference rates: what each recalc method derives from the rate [pr] of
    the parent and the divider fields, as bit fields of the registers. *)
Definition mx27_recalc_val (f : recalc_ptr) (c : clkid) (k : clk) (pr : Z) (h : mx27hw) : Z :=
  let r := regs h in
  match f with
  | p_clk_pll_recalc =>
      pll_rate (if decide (parent k = Some ckil_clk) then u32 (pr * 1024) else pr)
        (readl r (if decide (c = mpll_clk) then CCM_MPCTL0 else CCM_SPCTL0))
  | p_clk_mpll_main_recalc => if id k =? 0 then pr else u32 (2 * pr) / 3
  | p_clk_cpu_recalc =>
      pr / ((if to2 h then field (readl r CCM_CSCR) 12 2 else field (readl r CCM_CSCR) 13 3) + 1)
  | p_clk_ahb_recalc =>
      pr / ((if to2 h then field (readl r CCM_CSCR) 8 2 else field (readl r CCM_CSCR) 9 4) + 1)
  | p_clk_ipg_recalc => pr / ((if to2 h then 1 else field (readl r CCM_CSCR) 8 1) + 1)
  | p_clk_perclkx_recalc => pr / (field (readl r CCM_PCDR1) (8 * id k) 6 + 1)
  | p_clk_usb_recalc => pr / (field (readl r CCM_CSCR) 28 3 + 1)
  | p_clk_ssi1_recalc =>
      u32 (2 * pr) / ssi_pdf (is_rev (system_rev h) CHIP_REV_2_0) (field (readl r CCM_PCDR0) 16 6)
  | p_clk_ssi2_recalc =>
      u32 (2 * pr) / ssi_pdf (is_rev (system_rev h) CHIP_REV_2_0) (field (readl r CCM_PCDR0) 26 6)
  | p_clk_nfc_recalc =>
      pr / ((if to2 h then field (readl r CCM_PCDR0) 6 4 else field (readl r CCM_PCDR0) 12 4) + 1)
  | p_clk_vpu_recalc =>
      u32 (2 * pr) /
        (if to2 h then field (readl r CCM_PCDR0) 10 6 + 4
         else let v := field (readl r CCM_PCDR0) 8 4 in if v <? 2 then 124 else v)
  | p_clk_clko_recalc => pr / (field (readl r CCM_PCDR0) 0 3 + 1)
  end.

(** The clocks a recalc method is written for. *)
Definition mx27_recalc_dom (f : recalc_ptr) (c : clkid) (k : clk) : Prop :=
  match f with
  | p_clk_pll_recalc => c = mpll_clk \/ c = spll_clk
  | p_clk_mpll_main_recalc => id k = 0 \/ id k = 1
  | p_clk_perclkx_recalc => 0 <= id k <= 3
  | _ => True
  end.

(** Hardware states with the same register contents and revision. *)
Definition mx27_eqv (h h' : mx27hw) : Prop :=
  regs_eqv (regs h) (regs h') /\ system_rev h = system_rev h' /\
  system_rev_updated h = system_rev_updated h' /\ spll_lock h = spll_lock h'.

#[global] Instance mx27_eqv_equiv : Equivalence mx27_eqv.
Proof.
  split.
  - by intros h.
  - intros h h' (A & B & C & D). by split_and!.
  - intros h1 h2 h3 (A & B & C & D) (A' & B' & C' & D'). split_and!; [by etrans|congruence..].
Qed.

#[global] Instance mx27_recalc_val_proper f c k v : Proper (mx27_eqv ==> eq) (mx27_recalc_val f c k v).
Proof.
  intros h h' (A & B & _). unfold mx27_recalc_val, to2. rewrite B.
  destruct f; by rewrite ?(A CCM_CSCR), ?(A CCM_PCDR0), ?(A CCM_PCDR1), ?(A _).
Qed.

Lemma field_pos x off w : 0 <= off -> 0 <= w -> 0 <= field x off w.
Proof. intros. by apply field_range. Qed.

Lemma udiv_run {S} (a b : Z) (s : S) : 0 < b -> udiv a b s = Ret (a / b, s).
Proof. intros H. unfold udiv. by rewrite (proj2 (Z.eqb_neq b 0)) by lia. Qed.

Lemma parent_rate_run (k : clk) (p : clkp) (kp : clk) (s : clkst) :
  parent k = Some p -> clk_mem s !! p = Some kp -> parent_rate k s = Ret (rate kp, s).
Proof.
  intros Hp Hkp. unfold parent_rate. rewrite Hp. cbn [deref].
  unfold mret, M_ret, mbind, M_bind. by rewrite (clk_at_run p kp).
Qed.

Lemma store_rate_run (c : clkp) (k : clk) v (s : clkst) :
  clk_mem s !! c = Some k ->
  store_rate c v s = Ret (tt, with_mem (fun m => <[c := upd_rate v k]> m) s).
Proof.
  intros Hc. unfold store_rate, modify, with_mem. by rewrite (alter_lookup _ _ k).
Qed.

Lemma perclk_field x i : 0 <= i -> Z.land (Z.shiftr x (Z.shiftl i 3)) CCM_PCDR1_PERDIV1_MASK = field x (8 * i) 6.
Proof.
  intros Hi. rewrite (Z.shiftl_mul_pow2 i 3) by lia. change (2 ^ 3) with 8. rewrite (Z.mul_comm i 8).
  apply Z.bits_inj'. intros n Hn. rewrite testbit_field by lia.
  rewrite Z.land_spec, Z.shiftr_spec by lia. change CCM_PCDR1_PERDIV1_MASK with (Z.ones 6).
  rewrite Z.testbit_ones_nonneg by lia. apply andb_comm.
Qed.

(** The masks and offsets of [crm_regs.h] as bit fields. *)
Create Rewrite HintDb ccm_fields.

Lemma field_arm x : Z.shiftr (Z.land x CCM_CSCR_ARM_MASK) CCM_CSCR_ARM_OFFSET = field x 12 2.
Proof. reflexivity. Qed.
Lemma field_presc x : Z.shiftr (Z.land x CCM_CSCR_PRESC_MASK) CCM_CSCR_PRESC_OFFSET = field x 13 3.
Proof. reflexivity. Qed.
Lemma field_ahb x : Z.shiftr (Z.land x CCM_CSCR_AHB_MASK) CCM_CSCR_AHB_OFFSET = field x 8 2.
Proof. reflexivity. Qed.
Lemma field_bclk x : Z.shiftr (Z.land x CCM_CSCR_BCLK_MASK) CCM_CSCR_BCLK_OFFSET = field x 9 4.
Proof. reflexivity. Qed.
Lemma field_usb x : Z.shiftr (Z.land x CCM_CSCR_USB_MASK) CCM_CSCR_USB_OFFSET = field x 28 3.
Proof. reflexivity. Qed.
Lemma field_ssi1 x : Z.shiftr (Z.land x CCM_PCDR0_SSI1BAUDDIV_MASK) CCM_PCDR0_SSI1BAUDDIV_OFFSET = field x 16 6.
Proof. reflexivity. Qed.
Lemma field_ssi2 x : Z.shiftr (Z.land x CCM_PCDR0_SSI2BAUDDIV_MASK) CCM_PCDR0_SSI2BAUDDIV_OFFSET = field x 26 6.
Proof. reflexivity. Qed.
Lemma field_nfc2 x : Z.shiftr (Z.land x CCM_PCDR0_NFCDIV2_MASK) CCM_PCDR0_NFCDIV2_OFFSET = field x 6 4.
Proof. reflexivity. Qed.
Lemma field_nfc x : Z.shiftr (Z.land x CCM_PCDR0_NFCDIV_MASK) CCM_PCDR0_NFCDIV_OFFSET = field x 12 4.
Proof. reflexivity. Qed.
Lemma field_vpu2 x : Z.shiftr (Z.land x CCM_PCDR0_VPUDIV2_MASK) CCM_PCDR0_VPUDIV2_OFFSET = field x 10 6.
Proof. reflexivity. Qed.
Lemma field_vpu x : Z.shiftr (Z.land x CCM_PCDR0_VPUDIV_MASK) CCM_PCDR0_VPUDIV_OFFSET = field x 8 4.
Proof. reflexivity. Qed.
Lemma field_ipdiv x : Z.shiftr (Z.land x CCM_CSCR_IPDIV) CCM_CSCR_IPDIV_OFFSET = field x 8 1.
Proof. reflexivity. Qed.
Lemma field_clkodiv_read x :
  Z.land x (Z.shiftr CCM_PCDR0_CLKODIV_MASK CCM_PCDR0_CLKODIV_OFFSET) = field x 0 3.
Proof. unfold field. rewrite Z.shiftr_0_r. reflexivity. Qed.

#[export] Hint Rewrite field_arm field_presc field_ahb field_bclk field_usb field_ssi1 field_ssi2 field_nfc2 field_nfc field_vpu2 field_vpu
  field_ipdiv field_clkodiv_read : ccm_fields.

Lemma rd_bind {A} a (k : Z -> M clkst A) (s : clkst) : (rd a ≫= k) s = k (readl (regs (hw s)) a) s.
Proof. reflexivity. Qed.

Lemma rev_bind {A} v (k : Z -> M clkst A) (s : clkst) :
  (cpu_is_mx27_rev v ≫= k) s = k (is_rev (system_rev (hw s)) v) s.
Proof. reflexivity. Qed.

Lemma ssi_pdf_pos rev f : 0 <= f -> 0 < ssi_pdf rev f.
Proof. intros. unfold ssi_pdf. destruct (0 <? rev); [lia|]. destruct (Z.ltb_spec f 2); lia. Qed.

Lemma vpu_pdf_pos x : 0 <= x -> 0 < (if x <? 2 then 124 else x).
Proof. intros. destruct (Z.ltb_spec x 2); lia. Qed.

Lemma succ_pos x : 0 <= x -> 0 < x + 1.
Proof. lia. Qed.

Lemma plus4_pos x : 0 <= x -> 0 < x + 4.
Proof. lia. Qed.

Create HintDb divisors discriminated.
#[export] Hint Resolve field_pos ssi_pdf_pos vpu_pdf_pos succ_pos plus4_pos : divisors.
#[export] Hint Extern 1 (_ <= _) => lia : divisors.

(** Symbolic execution of a method on a clock [c] with contents [k] whose parent
    has contents [kp]. *)
Ltac run_method Hc Hp Hkp :=
  repeat first
    [ rewrite rd_bind | rewrite rev_bind
    | rewrite (run_bind _ _ _ _ _ (clk_at_run _ _ _ Hc))
    | rewrite (run_bind _ _ _ _ _ (parent_rate_run _ _ _ _ Hp Hkp))
    | progress autorewrite with ccm_fields
    | match goal with
      | |- context [udiv ?a ?b ≫= ?k] =>
          let H := fresh in
          assert (H : 0 < b) by auto with divisors;
          rewrite (run_bind (udiv a b) k _ _ _ (udiv_run a b _ H)); clear H
      end
    | rewrite (store_rate_run _ _ _ _ Hc) ].

(** Every recalc method but that of the serial PLL only stores the rate. *)
Lemma mx27_recalc_run f (c : clkp) (k : clk) (p : clkp) (kp : clk) (s : clkst) :
  clk_mem s !! c = Some k -> parent k = Some p -> clk_mem s !! p = Some kp ->
  mx27_recalc_dom f c k -> (f = p_clk_pll_recalc -> c <> spll_clk) ->
  mx27_recalc f c s =
  Ret (tt, with_mem (fun m => <[c := upd_rate (mx27_recalc_val f c k (rate kp) (hw s)) k]> m) s).
Proof.
  intros Hc Hp Hkp Hd Hns. unfold mx27_recalc_val, to2.
  destruct f; unfold mx27_recalc.
  - unfold _clk_pll_recalc. run_method Hc Hp Hkp. destruct Hd as [-> | ->]; [|by destruct Hns].
    rewrite !decide_True by done. run_method Hc Hp Hkp. reflexivity.
  - unfold _clk_mpll_main_recalc. run_method Hc Hp Hkp.
    destruct Hd as [E|E]; rewrite E; cbn [Z.eqb Pos.eqb]; run_method Hc Hp Hkp; reflexivity.
  - unfold _clk_cpu_recalc. run_method Hc Hp Hkp.
    destruct (0 <? _); run_method Hc Hp Hkp; reflexivity.
  - unfold _clk_ahb_recalc. run_method Hc Hp Hkp.
    destruct (0 <? _); run_method Hc Hp Hkp; reflexivity.
  - unfold _clk_ipg_recalc. run_method Hc Hp Hkp.
    destruct (0 <? _); run_method Hc Hp Hkp; reflexivity.
  - unfold _clk_perclkx_recalc. run_method Hc Hp Hkp. cbn in Hd.
    destruct (Z.ltb_spec (id k) 0), (Z.ltb_spec 3 (id k)); try lia. cbn [orb].
    run_method Hc Hp Hkp. rewrite perclk_field by lia. run_method Hc Hp Hkp. reflexivity.
  - unfold _clk_usb_recalc. run_method Hc Hp Hkp. reflexivity.
  - unfold _clk_ssi1_recalc. run_method Hc Hp Hkp. reflexivity.
  - unfold _clk_ssi2_recalc. run_method Hc Hp Hkp. reflexivity.
  - unfold _clk_nfc_recalc. run_method Hc Hp Hkp.
    destruct (0 <? _); run_method Hc Hp Hkp; reflexivity.
  - unfold _clk_vpu_recalc. run_method Hc Hp Hkp.
    destruct (0 <? _); run_method Hc Hp Hkp; reflexivity.
  - unfold _clk_clko_recalc. run_method Hc Hp Hkp. reflexivity.
Qed.
(** The serial PLL's recalc writes the control register back on a TO2 part. *)
Lemma mx27_spll_recalc_run (k : clk) (p : clkp) (kp : clk) (s : clkst) :
  clk_mem s !! (spll_clk : clkp) = Some k -> parent k = Some p -> clk_mem s !! p = Some kp ->
  exists h, mx27_eqv (hw s) h /\
    mx27_recalc p_clk_pll_recalc spll_clk s =
    Ret (tt, with_hw h (with_mem (fun m => <[(spll_clk : clkp) :=
      upd_rate (mx27_recalc_val p_clk_pll_recalc spll_clk k (rate kp) (hw s)) k]> m) s)).
Proof.
  intros Hc Hp Hkp. unfold mx27_recalc, _clk_pll_recalc, mx27_recalc_val.
  run_method Hc Hp Hkp. rewrite !(decide_False (P := spll_clk = mpll_clk)) by done.
  rewrite (decide_True (P := spll_clk = spll_clk)) by done. run_method Hc Hp Hkp.
  destruct (is_rev _ _ =? 1).
  - exists (with_regs (writel (readl (regs (hw s)) CCM_SPCTL0) CCM_SPCTL0) (hw s)). split.
    + split_and!; try done. apply writel_same.
    + unfold wr, modify, mbind, M_bind. unfold store_rate, modify, with_mem. cbn [with_hw clk_mem].
      by rewrite (alter_lookup _ _ k).
  - exists (hw s). split; [done|]. unfold mret, M_ret, mbind, M_bind.
    rewrite (store_rate_run _ _ _ _ Hc). done.
Qed.

#[global] Instance mx27_recalc_laws : RecalcLaws mx27_sig mx27_methods.
Proof.
  refine {|
    hw_eqv := (mx27_eqv : relation (@hwst mx27_sig));
    recalc_dom := (mx27_recalc_dom : @recalc_fn mx27_sig -> @clkp mx27_sig -> clk -> Prop);
    recalc_val := (mx27_recalc_val : @recalc_fn mx27_sig -> @clkp mx27_sig -> clk -> Z -> @hwst mx27_sig -> Z);
    hw_eqv_equiv := mx27_eqv_equiv;
    recalc_val_proper := mx27_recalc_val_proper |}.
  - by intros [] c k v.
  - by intros [] c k v w h.
  - intros f c s k p kp Hc Hp Hkp Hd.
    destruct (decide ((f : recalc_ptr) = p_clk_pll_recalc /\ (c : clkid) = spll_clk)) as [[-> ->]|Hne].
    + destruct (mx27_spll_recalc_run k p kp s Hc Hp Hkp) as (h & He & Hr).
      apply wp_run. do 2 eexists. split; [exact Hr|]. by exists h.
    + apply wp_run. do 2 eexists. split; [apply (mx27_recalc_run f c k p kp s); [done..|]|].
      * intros -> ->. by apply Hne.
      * exists (hw s). by split.
Defined.
