(* ===== verification/Mx27Rates.v ===== *)
(** * Setting and rounding rates on the i.MX27

    Theorems about the rate methods of [mach-mx27/clock.c]: what a successful
    [set_rate] leaves in the divider registers and in the clock, when a rounded
    rate can be set, the PLL formula and its range; and the places where the code
    programs something other than what it means to. *)

From stdpp Require Import base gmap list strings.
From Stdlib Require Import ZArith Lia.
From S2P Require Import Prelude ClkFramework ClkCounts ClkEnable ClkRates CrmRegs.
From S2P Require Import Mx27ClockTable Mx27Clock Mx27ClockLaws.

(** ** Dividing down *)

(** The divider that [set_rate] derives from a rate that is itself a quotient. *)
Lemma div_div_back pr n :
  0 < n -> n * n <= pr -> pr / (pr / n) = n.
Proof.
  intros Hn Hpr.
  assert (n <= pr / n) as Hq by (apply Z.div_le_lower_bound; lia).
  pose proof (Z.div_mod pr n ltac:(lia)) as E. pose proof (Z.mod_pos_bound pr n ltac:(lia)).
  symmetry. apply (Z.div_unique _ _ _ (pr mod n)); lia.
Qed.

(** Rounding the divider up makes the rate at most the requested one. *)
Lemma div_ceil_le pr r :
  0 < r -> 0 < pr -> pr / (if pr mod r =? 0 then pr / r else pr / r + 1) <= r.
Proof.
  intros Hr Hpr. pose proof (Z.div_mod pr r ltac:(lia)) as E.
  pose proof (Z.mod_pos_bound pr r ltac:(lia)).
  destruct (Z.eqb_spec (pr mod r) 0) as [H0|H0].
  - assert (0 < pr / r) by nia. apply Z.div_le_upper_bound; nia.
  - pose proof (Z.div_pos pr r). apply Z.div_le_upper_bound; nia.
Qed.

(** ** The peripheral clocks *)

(** A mask shifted into place, as the [set_rate] methods write it. *)
Lemma perclk_reg x i d :
  0 <= i -> setb (clear x (Z.shiftl CCM_PCDR1_PERDIV1_MASK (Z.shiftl i 3))) (Z.shiftl d (Z.shiftl i 3)) =
  set_field x (8 * i) 6 d.
Proof.
  intros Hi. rewrite (Z.shiftl_mul_pow2 i 3) by lia. change (2 ^ 3) with 8. rewrite (Z.mul_comm i 8).
  reflexivity.
Qed.

(** The state after a rate method stored [v] in register [a] and [r] in the clock. *)
Definition set_reg_rate (c : clkid) (k : clk) (v a r : Z) (s : clkst) : clkst :=
  with_mem (fun m => <[(c : clkp) := upd_rate r k]> m)
    (with_hw (with_regs (writel v a) (hw s)) s).

Lemma wr_store_rate_run (c : clkp) (k : clk) v a r (s : clkst) :
  clk_mem s !! c = Some k ->
  (wr v a ≫= fun _ => store_rate c r ≫= fun _ => mret 0) s = Ret (0, set_reg_rate c k v a r s).
Proof.
  intros Hc. unfold wr, modify, mbind, M_bind, store_rate, modify, set_reg_rate, with_mem.
  cbn [with_hw clk_mem]. by rewrite (alter_lookup _ _ k).
Qed.

Lemma perclkx_set_rate_run (c : clkp) (k : clk) (p : clkp) (kp : clk) r (s : clkst) :
  clk_mem s !! c = Some k -> parent k = Some p -> clk_mem s !! p = Some kp ->
  0 <= id k <= 3 -> 0 < r ->
  let d := rate kp / r in
  _clk_perclkx_set_rate c r s =
  if bool_decide (1 <= d <= 64 /\ rate kp / d = r)
  then Ret (0, set_reg_rate c k (set_field (readl (regs (hw s)) CCM_PCDR1) (8 * id k) 6 (d - 1)) CCM_PCDR1 r s)
  else Ret (- EINVAL, s).
Proof.
  intros Hc Hp Hkp Hid Hr d. unfold _clk_perclkx_set_rate. run_method Hc Hp Hkp.
  destruct (Z.ltb_spec (id k) 0), (Z.ltb_spec 3 (id k)); try lia. cbn [orb].
  run_method Hc Hp Hkp. fold d.
  destruct (Z.ltb_spec 64 d), (Z.ltb_spec d 1); cbn [orb];
    try (rewrite bool_decide_eq_false_2 by lia; done).
  rewrite (run_bind (udiv (rate kp) d) _ _ _ _ (udiv_run _ d _ ltac:(lia))).
  destruct (Z.eqb_spec (rate kp / d) r) as [E|E]; cbn [negb].
  - rewrite bool_decide_eq_true_2 by lia. rewrite rd_bind, perclk_reg by lia.
    by rewrite (wr_store_rate_run _ k).
  - by rewrite bool_decide_eq_false_2 by lia.
Qed.

(** C7: Setting the rate of a peripheral clock.  [_clk_perclkx_set_rate] accepts
    exactly the rates that some divider from 1 to 64 yields with its own
    quotient; it then programs that divider in the clock's field of [PCDR1],
    leaves the dividers of the other peripheral clocks alone, and the rate it
    stores is the one [_clk_perclkx_recalc] reads back.  Otherwise it returns
    -EINVAL and changes nothing. *)
Theorem perclkx_set_rate_correct (c : clkp) (k : clk) (p : clkp) (kp : clk) r (s : clkst) :
  clk_mem s !! c = Some k -> parent k = Some p -> clk_mem s !! p = Some kp ->
  0 <= id k <= 3 -> 0 < r ->
  let d := rate kp / r in
  (1 <= d <= 64 /\ rate kp / d = r ->
     exists s', _clk_perclkx_set_rate c r s = Ret (0, s') /\
       clk_mem s' !! c = Some (upd_rate r k) /\
       field (readl (regs (hw s')) CCM_PCDR1) (8 * id k) 6 = d - 1 /\
       (forall i, 0 <= i <= 3 -> i <> id k ->
          field (readl (regs (hw s')) CCM_PCDR1) (8 * i) 6 = field (readl (regs (hw s)) CCM_PCDR1) (8 * i) 6) /\
       mx27_recalc_val p_clk_perclkx_recalc c (upd_rate r k) (rate kp) (hw s') = r) /\
  (~ (1 <= d <= 64 /\ rate kp / d = r) -> _clk_perclkx_set_rate c r s = Ret (- EINVAL, s)).
Proof.
  intros Hc Hp Hkp Hid Hr d. rewrite (perclkx_set_rate_run c k p kp r s Hc Hp Hkp Hid Hr). fold d.
  assert (HR := readl_range (regs (hw s)) CCM_PCDR1).
  split; intros Hd; [rewrite bool_decide_eq_true_2 by done|by rewrite bool_decide_eq_false_2].
  destruct Hd as [Hd1 Hd2]. eexists. split; [reflexivity|].
  assert (E : readl (regs (hw (set_reg_rate c k (set_field (readl (regs (hw s)) CCM_PCDR1) (8 * id k) 6 (d - 1))
    CCM_PCDR1 r s))) CCM_PCDR1 = set_field (readl (regs (hw s)) CCM_PCDR1) (8 * id k) 6 (d - 1)).
  { cbn. rewrite readl_writel_eq. apply u32_small. apply set_field_range; lia. }
  split_and!.
  - apply lookup_insert_eq.
  - rewrite E. apply field_set_field; lia.
  - intros i Hi Hne. rewrite E. apply field_set_field_ne; lia.
  - unfold mx27_recalc_val. rewrite E. cbn [id upd_rate]. rewrite field_set_field by lia.
    by replace (d - 1 + 1) with d by lia.
Qed.

(** ** Rounding *)

(** The divider [round_div] uses. *)
Definition ceil_div (pr r maxdiv : Z) : Z :=
  Z.min maxdiv (if pr mod r =? 0 then pr / r else pr / r + 1).

Lemma ceil_div_pos pr r maxdiv : 0 < r -> 0 < pr -> 1 <= maxdiv -> 1 <= ceil_div pr r maxdiv.
Proof.
  intros Hr Hpr Hm. unfold ceil_div. pose proof (Z.div_mod pr r ltac:(lia)).
  pose proof (Z.div_pos pr r). destruct (Z.eqb_spec (pr mod r) 0) as [Hm0|Hm0]; nia.
Qed.

Lemma round_div_run pr r maxdiv (s : clkst) :
  0 < r -> 0 < pr < 2 ^ 32 -> 1 <= maxdiv ->
  round_div pr r maxdiv s = Ret (pr / ceil_div pr r maxdiv, s).
Proof.
  intros Hr Hpr Hm. unfold round_div.
  rewrite (run_bind (udiv pr r) _ _ _ _ (udiv_run _ _ _ Hr)).
  assert (umod pr r s = Ret (pr mod r, s)) as Hmod.
  { unfold umod. by rewrite (proj2 (Z.eqb_neq r 0)) by lia. }
  rewrite (run_bind (umod pr r) _ _ _ _ Hmod).
  pose proof (ceil_div_pos pr r maxdiv Hr ltac:(lia) Hm) as Hpos.
  assert (E : (if maxdiv <? (if pr mod r =? 0 then pr / r else u32 (pr / r + 1)) then maxdiv
               else (if pr mod r =? 0 then pr / r else u32 (pr / r + 1))) = ceil_div pr r maxdiv).
  { unfold ceil_div. pose proof (Z.div_mod pr r ltac:(lia)). pose proof (Z.mod_pos_bound pr r ltac:(lia)).
    pose proof (Z.div_pos pr r). destruct (Z.eqb_spec (pr mod r) 0) as [Hm0|Hm0].
    - destruct (Z.ltb_spec maxdiv (pr / r)); lia.
    - rewrite u32_small by nia. destruct (Z.ltb_spec maxdiv (pr / r + 1)); lia. }
  rewrite E. apply udiv_run. lia.
Qed.

(** Rounding agrees with setting.  For a peripheral clock whose parent runs at
    4096 Hz or more, [_clk_perclkx_round_rate] returns a positive rate that does
    not exceed the request whenever the largest divider reaches it, and
    [_clk_perclkx_set_rate] accepts the rate so rounded. *)
Theorem perclkx_round_then_set (c : clkp) (k : clk) (p : clkp) (kp : clk) r (s : clkst) :
  clk_mem s !! c = Some k -> parent k = Some p -> clk_mem s !! p = Some kp ->
  0 <= id k <= 3 -> 0 < r -> 64 * 64 <= rate kp < 2 ^ 32 ->
  exists v s', _clk_perclkx_round_rate c r s = Ret (v, s) /\
    0 < v /\ (rate kp <= 64 * r -> v <= r) /\
    _clk_perclkx_set_rate c v s = Ret (0, s') /\ clk_mem s' !! c = Some (upd_rate v k).
Proof.
  intros Hc Hp Hkp Hid Hr Hrate.
  set (n := ceil_div (rate kp) r 64). set (v := rate kp / n).
  assert (Hn : 1 <= n <= 64).
  { split; [apply ceil_div_pos; lia|]. unfold n, ceil_div. lia. }
  assert (Hv : 0 < v) by (unfold v; apply Z.div_str_pos; lia).
  assert (Hback : rate kp / v = n) by (apply div_div_back; nia).
  eexists v, _. split_and!.
  - unfold _clk_perclkx_round_rate. run_method Hc Hp Hkp. by apply round_div_run; lia.
  - done.
  - intros Hreach. unfold v, n, ceil_div. rewrite Z.min_r.
    + apply div_ceil_le; lia.
    + pose proof (Z.div_mod (rate kp) r ltac:(lia)). pose proof (Z.mod_pos_bound (rate kp) r ltac:(lia)).
      destruct (Z.eqb_spec (rate kp mod r) 0); nia.
  - rewrite (perclkx_set_rate_run c k p kp v s Hc Hp Hkp Hid Hv), Hback.
    by rewrite bool_decide_eq_true_2 by done.
  - apply lookup_insert_eq.
Qed.

(** ** The video clock *)

Lemma vpu_reg x d : setb (clear x 0x0000FC00) (Z.shiftl d 10) = set_field x 10 6 d.
Proof. reflexivity. Qed.

Lemma vpu_set_rate_run (c : clkp) (k : clk) (p : clkp) (kp : clk) r (s : clkst) :
  clk_mem s !! c = Some k -> parent k = Some p -> clk_mem s !! p = Some kp -> 0 < r ->
  let d := u32 (rate kp * 2) / r in
  _clk_vpu_set_rate c r s =
  if bool_decide (4 <= d <= 67 /\ u32 (rate kp * 2) / d = r)
  then Ret (0, set_reg_rate c k (set_field (readl (regs (hw s)) CCM_PCDR0) 10 6 (d - 4)) CCM_PCDR0 r s)
  else Ret (- EINVAL, s).
Proof.
  intros Hc Hp Hkp Hr d. unfold _clk_vpu_set_rate. run_method Hc Hp Hkp. fold d.
  destruct (Z.ltb_spec 67 d), (Z.ltb_spec d 4); cbn [orb];
    try (rewrite bool_decide_eq_false_2 by lia; done).
  rewrite (run_bind (udiv _ d) _ _ _ _ (udiv_run _ d _ ltac:(lia))).
  destruct (Z.eqb_spec (u32 (rate kp * 2) / d) r) as [E|E]; cbn [negb].
  - rewrite bool_decide_eq_true_2 by lia. rewrite rd_bind, vpu_reg. by rewrite (wr_store_rate_run _ k).
  - by rewrite bool_decide_eq_false_2 by lia.
Qed.

(** Setting the rate of the video clock on a TO2 part.  A successful
    [_clk_vpu_set_rate] programs a divider from 4 to 67, keeps every other field
    of [PCDR0], and stores the rate that [_clk_vpu_recalc] reads back. *)
Theorem vpu_set_rate_correct (c : clkp) (k : clk) (p : clkp) (kp : clk) r (s s' : clkst) :
  clk_mem s !! c = Some k -> parent k = Some p -> clk_mem s !! p = Some kp -> 0 < r ->
  to2 (hw s) = true -> _clk_vpu_set_rate c r s = Ret (0, s') ->
  clk_mem s' !! c = Some (upd_rate r k) /\
  field (readl (regs (hw s')) CCM_PCDR0) 10 6 = u32 (rate kp * 2) / r - 4 /\
  field (readl (regs (hw s')) CCM_PCDR0) 0 10 = field (readl (regs (hw s)) CCM_PCDR0) 0 10 /\
  field (readl (regs (hw s')) CCM_PCDR0) 16 16 = field (readl (regs (hw s)) CCM_PCDR0) 16 16 /\
  mx27_recalc_val p_clk_vpu_recalc c (upd_rate r k) (rate kp) (hw s') = r.
Proof.
  intros Hc Hp Hkp Hr H2. rewrite (vpu_set_rate_run c k p kp r s Hc Hp Hkp Hr).
  set (d := u32 (rate kp * 2) / r). case_bool_decide as Hd; [|done]. destruct Hd as [Hd1 Hd2].
  intros [= <-]. assert (HR := readl_range (regs (hw s)) CCM_PCDR0).
  assert (E : readl (regs (hw (set_reg_rate c k (set_field (readl (regs (hw s)) CCM_PCDR0) 10 6 (d - 4))
    CCM_PCDR0 r s))) CCM_PCDR0 = set_field (readl (regs (hw s)) CCM_PCDR0) 10 6 (d - 4)).
  { cbn. rewrite readl_writel_eq. apply u32_small, set_field_range; lia. }
  split_and!.
  - apply lookup_insert_eq.
  - rewrite E. apply field_set_field; lia.
  - rewrite E. apply field_set_field_ne; lia.
  - rewrite E. apply field_set_field_ne; lia.
  - unfold mx27_recalc_val. rewrite E. unfold to2 in *. cbn. cbn in H2. rewrite H2.
    rewrite field_set_field by lia. replace (d - 4 + 4) with d by lia.
    by rewrite (Z.mul_comm 2).
Qed.

(** ** The PLLs *)

(** The PLL output by the data sheet formula, in exact integer arithmetic. *)
Definition pll_exact (ref_clk mfi mfn mfd pdf : Z) : Z :=
  (2 * ref_clk * mfi + 2 * ref_clk * mfn / (mfd + 1)) / (pdf + 1).

(** C10: The PLL rate.  For a reference of at most 33.6 MHz (which covers the 26
    and 27 MHz oscillators and 1024 times 32768 Hz) and a numerator not above
    the denominator, [_clk_pll_recalc]'s arithmetic does not overflow: the rate is
    the formula's exact value, with the multiplication factor raised to 5 when it
    is below, and lies between the outputs for that factor and the next one. *)
Theorem pll_rate_exact ref_clk reg :
  let pdf := field reg 26 4 in let mfd := field reg 16 10 in
  let mfi := Z.max 5 (field reg 10 4) in let mfn := field reg 0 10 in
  0 <= ref_clk <= 33600000 -> mfn <= mfd ->
  pll_rate ref_clk reg = pll_exact ref_clk mfi mfn mfd pdf /\
  2 * ref_clk * mfi / (pdf + 1) <= pll_rate ref_clk reg <= 2 * ref_clk * (mfi + 1) / (pdf + 1).
Proof.
  intros pdf mfd mfi mfn Href Hle.
  assert (0 <= pdf < 2 ^ 4) as Hpdf by (apply field_range; lia).
  assert (0 <= mfd < 2 ^ 10) as Hmfd by (apply field_range; lia).
  assert (0 <= field reg 10 4 < 2 ^ 4) as Hmfi by (apply field_range; lia).
  assert (0 <= mfn < 2 ^ 10) as Hmfn by (apply field_range; lia).
  assert (E : pll_rate ref_clk reg =
    u32 ((2 * ref_clk * mfi + 2 * ref_clk * mfn mod 2 ^ 64 / (mfd + 1)) mod 2 ^ 64 / (pdf + 1))).
  { unfold pll_rate. change (Z.shiftr (Z.land reg CCM_MPCTL0_PD_MASK) CCM_MPCTL0_PD_OFFSET) with pdf.
    change (Z.shiftr (Z.land reg CCM_MPCTL0_MFD_MASK) CCM_MPCTL0_MFD_OFFSET) with mfd.
    change (Z.shiftr (Z.land reg CCM_MPCTL0_MFI_MASK) CCM_MPCTL0_MFI_OFFSET) with (field reg 10 4).
    change (Z.shiftr (Z.land reg CCM_MPCTL0_MFN_MASK) CCM_MPCTL0_MFN_OFFSET) with mfn.
    replace (if field reg 10 4 <=? 5 then 5 else field reg 10 4) with mfi; [done|].
    unfold mfi. destruct (Z.leb_spec (field reg 10 4) 5); lia. }
  assert (Hfrac : 0 <= 2 * ref_clk * mfn / (mfd + 1) <= 2 * ref_clk).
  { split; [apply Z.div_pos; nia|]. apply Z.div_le_upper_bound; nia. }
  assert (5 <= mfi <= 15) by (unfold mfi; lia).
  rewrite (Z.mod_small (2 * ref_clk * mfn)) in E by nia.
  rewrite (Z.mod_small (_ + _)) in E by nia.
  assert (Hlt : 0 <= pll_exact ref_clk mfi mfn mfd pdf < 2 ^ 32).
  { unfold pll_exact. split; [apply Z.div_pos; nia|].
    apply Z.le_lt_trans with (2 * ref_clk * mfi + 2 * ref_clk * mfn / (mfd + 1)); [|nia].
    apply Z.div_le_upper_bound; nia. }
  rewrite E. change (u32 _) with (u32 (pll_exact ref_clk mfi mfn mfd pdf)).
  rewrite u32_small by done. split; [done|]. unfold pll_exact.
  split; apply Z.div_le_mono; lia.
Qed.

(** ** Where the code programs something else *)

(** Setting the CPU rate does not reach the divider.  A successful
    [_clk_cpu_set_rate] records the requested rate, but because the arguments of
    its [__raw_writel] are exchanged, the register [CSCR] keeps its contents (the
    address of [CSCR] is stored at the address the new contents spell), so the
    rate the hardware runs at, which [_clk_cpu_recalc] reads back, is the one from
    before the call. *)
Theorem cpu_set_rate_misses_cscr (c : clkp) (k : clk) (p : clkp) (kp : clk) r (s s' : clkst) :
  clk_mem s !! c = Some k -> parent k = Some p -> clk_mem s !! p = Some kp ->
  0 < r -> rate kp < 2 ^ 31 -> _clk_cpu_set_rate c r s = Ret (0, s') ->
  let written := set_field (readl (regs (hw s)) CCM_CSCR) 12 2 (rate kp / r - 1) in
  written <> CCM_CSCR ->
  clk_mem s' !! c = Some (upd_rate r k) /\
  readl (regs (hw s')) written = CCM_CSCR /\
  readl (regs (hw s')) CCM_CSCR = readl (regs (hw s)) CCM_CSCR /\
  mx27_recalc_val p_clk_cpu_recalc c (upd_rate r k) (rate kp) (hw s') =
    mx27_recalc_val p_clk_cpu_recalc c k (rate kp) (hw s).
Proof.
  intros Hc Hp Hkp Hr Hrate Hrun written Hne. unfold _clk_cpu_set_rate in Hrun.
  revert Hrun. run_method Hc Hp Hkp.
  destruct (Z.ltb_spec 4 (s32 (rate kp / r))), (Z.ltb_spec (s32 (rate kp / r)) 1); cbn [orb]; try done.
  rewrite (run_bind (udiv _ _) _ _ _ _ (udiv_run _ (s32 (rate kp / r)) _ ltac:(lia))).
  destruct (Z.eqb_spec (rate kp / s32 (rate kp / r)) r) as [E|E]; cbn [negb]; [|done].
  rewrite rd_bind, (wr_store_rate_run _ k) by done. intros [= <-].
  assert (Hs : s32 (rate kp / r) = rate kp / r).
  { unfold s32. rewrite Z.mod_small; [lia|]. split.
    - destruct (Z.ltb_spec (rate kp) 0) as [Hneg|Hpos].
      + exfalso. assert (rate kp / s32 (rate kp / r) < 0) by (apply Z.div_lt_upper_bound; lia). lia.
      + pose proof (Z.div_pos (rate kp) r). lia.
    - destruct (Z.ltb_spec (rate kp / r) (2 ^ 31)) as [|Hge]; [lia|].
      exfalso. assert (rate kp / r <= Z.max 0 (rate kp)); [|lia].
      destruct (Z.ltb_spec (rate kp) 0).
      + assert (rate kp / r < 0) by (apply Z.div_lt_upper_bound; lia). lia.
      + apply Z.div_le_upper_bound; nia. }
  rewrite Hs. fold (set_field (readl (regs (hw s)) CCM_CSCR) 12 2 (rate kp / r - 1)).
  change (setb _ _) with written.
  assert (Hcscr : readl (regs (hw (set_reg_rate c k CCM_CSCR written r s))) CCM_CSCR =
    readl (regs (hw s)) CCM_CSCR) by (cbn; by apply readl_writel_ne).
  split_and!.
  - apply lookup_insert_eq.
  - cbn. by rewrite readl_writel_eq.
  - done.
  - unfold mx27_recalc_val. by rewrite Hcscr.
Qed.

(** The register [_clk_clko_set_rate] writes. *)
Lemma clko_reg x d :
  setb (clear x CCM_PCDR0_CLKODIV_MASK) (Z.shiftl d CCM_PCDR0_CLKODIV_OFFSET) = set_field x 22 3 d.
Proof. reflexivity. Qed.

(** The output clock's recalc reads the wrong field.  [_clk_clko_set_rate]
    programs the divider in bits 22 to 24 of [PCDR0], but [_clk_clko_recalc]
    applies the shift to the mask and reads bits 0 to 2 instead: setting the rate
    never changes what the recalc derives. *)
Theorem clko_recalc_ignores_divider (c : clkp) (k : clk) (p : clkp) (kp : clk) r (s s' : clkst) :
  clk_mem s !! c = Some k -> parent k = Some p -> clk_mem s !! p = Some kp -> 0 < r ->
  _clk_clko_set_rate c r s = Ret (0, s') ->
  field (readl (regs (hw s')) CCM_PCDR0) 22 3 = rate kp / r - 1 /\
  mx27_recalc_val p_clk_clko_recalc c (upd_rate r k) (rate kp) (hw s') =
    mx27_recalc_val p_clk_clko_recalc c k (rate kp) (hw s).
Proof.
  intros Hc Hp Hkp Hr. unfold _clk_clko_set_rate. run_method Hc Hp Hkp. set (d := rate kp / r).
  destruct (Z.ltb_spec 8 d), (Z.ltb_spec d 1); cbn [orb]; try done.
  rewrite (run_bind (udiv _ _) _ _ _ _ (udiv_run _ d _ ltac:(lia))).
  destruct (Z.eqb_spec (rate kp / d) r) as [E|E]; cbn [negb]; [|done].
  rewrite rd_bind, clko_reg, (wr_store_rate_run _ k) by done. intros [= <-].
  assert (HR := readl_range (regs (hw s)) CCM_PCDR0).
  assert (E2 : readl (regs (hw (set_reg_rate c k (set_field (readl (regs (hw s)) CCM_PCDR0) 22 3 (d - 1))
    CCM_PCDR0 r s))) CCM_PCDR0 = set_field (readl (regs (hw s)) CCM_PCDR0) 22 3 (d - 1)).
  { cbn. rewrite readl_writel_eq. apply u32_small, set_field_range; lia. }
  split.
  - rewrite E2. apply field_set_field; lia.
  - unfold mx27_recalc_val. rewrite E2. by rewrite field_set_field_ne by lia.
Qed.

(** Rounding a rate that is already supported can lower it.  When the parent
    rate is not a multiple of the divider [d], the rate [pr / d] that divider
    gives, although [_clk_perclkx_set_rate] accepts it, is rounded by
    [_clk_perclkx_round_rate] to the rate of the next divider. *)
Theorem perclkx_round_loses_rate (c : clkp) (k : clk) (p : clkp) (kp : clk) d (s : clkst) :
  clk_mem s !! c = Some k -> parent k = Some p -> clk_mem s !! p = Some kp ->
  0 <= id k <= 3 -> 64 * 64 <= rate kp < 2 ^ 32 -> 1 <= d < 64 -> rate kp mod d <> 0 ->
  let r := rate kp / d in
  _clk_perclkx_round_rate c r s = Ret (rate kp / (d + 1), s) /\ rate kp / (d + 1) < r /\
  exists s', _clk_perclkx_set_rate c r s = Ret (0, s').
Proof.
  intros Hc Hp Hkp Hid Hrate Hd Hmod r.
  assert (Hr : 64 <= r) by (apply Z.div_le_lower_bound; lia).
  assert (Hback : rate kp / r = d) by (apply div_div_back; nia).
  assert (Hrem : rate kp mod r = rate kp mod d).
  { rewrite (Z.mod_eq (rate kp) r), (Z.mod_eq (rate kp) d), Hback by lia. unfold r. lia. }
  assert (Hceil : ceil_div (rate kp) r 64 = d + 1).
  { unfold ceil_div. rewrite Hrem, Hback. rewrite (proj2 (Z.eqb_neq _ 0)) by done. lia. }
  split_and!.
  - unfold _clk_perclkx_round_rate. run_method Hc Hp Hkp.
    rewrite round_div_run by lia. by rewrite Hceil.
  - apply Z.div_lt_upper_bound; [lia|]. pose proof (Z.div_mod (rate kp) d ltac:(lia)) as E.
    pose proof (Z.mod_pos_bound (rate kp) d ltac:(lia)). unfold r in *. nia.
  - eexists. rewrite (perclkx_set_rate_run c k p kp r s Hc Hp Hkp Hid ltac:(lia)), Hback.
    by rewrite bool_decide_eq_true_2 by (split; [lia|done]).
Qed.
