(* ===== verification/Mx27Tree.v ===== *)
(** * The shape of the i.MX27 clock tree

    The tree invariant every state of the machine satisfies: the clock objects
    are those of [mach-mx27/clock.c] with their static fields, and every link
    leads to an existing clock of lower rank.  From it follow the hypotheses of
    the framework's theorems. *)

From stdpp Require Import base gmap list strings.
From Stdlib Require Import ZArith Lia.
From S2P Require Import Prelude ClkFramework ClkCounts ClkEnable ClkRates CrmRegs.
From S2P Require Import Mx27ClockTable Mx27Clock Mx27ClockLaws.

(** Distance from the oscillators along the longest chain of links. *)
Definition mx27_rank (c : clkid) : nat :=
  match c with
  | ckih_clk | ckil_clk => 0
  | mpll_clk | spll_clk => 1
  | mpll_main_clk _ => 2
  | cpu_clk | ahb_clk | per_clk _ | vpu_clk => 3
  | ipg_clk | nfc_clk => 4
  | ssi1_clk 0 | ssi2_clk 0 | lcdc_clk 1 => 6
  | lcdc_clk 0 => 7
  | lcdc_clk _ | ssi1_clk _ | ssi2_clk _ => 5
  | csi_clk 0 => 6
  | uart1_clk 0 | uart2_clk 0 | uart3_clk 0 | uart4_clk 0 | uart5_clk 0 | uart6_clk 0 => 6
  | gpt1_clk 0 | gpt2_clk 0 | gpt3_clk 0 | gpt4_clk 0 | gpt5_clk 0 | gpt6_clk 0 => 6
  | pwm_clk 0 | sdhc1_clk 0 | sdhc2_clk 0 | sdhc3_clk 0 => 6
  | cspi1_clk 0 | cspi2_clk 0 | cspi3_clk 0 => 6
  | clko_clk => 8
  | _ => 5
  end.

Lemma mx27_rank_le c : (mx27_rank c <= 8)%nat.
Proof. unfold mx27_rank. repeat case_match; lia. Qed.

(** The fields no code of the machine changes. *)
Definition static_of (k : clk) :=
  (owner k, name k, id k, secondary k, (enable_shift k, enable_reg k), recalc k, enable k, disable k).

Lemma static_of_fields k k0 :
  static_of k = static_of k0 ->
  secondary k = secondary k0 /\ enable_shift k = enable_shift k0 /\ enable_reg k = enable_reg k0 /\
  recalc k = recalc k0 /\ enable k = enable k0 /\ disable k = disable k0 /\ id k = id k0.
Proof. intros H. by injection H. Qed.

(** A link target exists and has lower rank. *)
Definition link_ok (c : clkid) (o : option clkid) : bool :=
  match o with
  | Some p => bool_decide (is_Some (clk_mem0 !! p)) && (mx27_rank p <? mx27_rank c)%nat
  | None => true
  end.

(** Only the oscillators and the output pin may lack a parent. *)
Definition parent_ok (c : clkid) (o : option clkid) : bool :=
  link_ok c o && (bool_decide (is_Some o) || bool_decide (c ∈ [ckih_clk; ckil_clk; clko_clk])).

Definition tree_inv (m : gmap clkp clk) : Prop :=
  (forall c, static_of <$> m !! c = static_of <$> (clk_mem0 : gmap clkp clk) !! c) /\
  (forall c k, m !! c = Some k -> parent_ok c (parent k) = true).

(** ** Checking a property of all clock objects *)

Lemma mem0_forall (P : clkid -> clk -> bool) :
  forallb (fun x => P (fst x) (snd x)) clk_objects = true ->
  forall c k, (clk_mem0 : gmap clkp clk) !! c = Some k -> P c k = true.
Proof.
  intros H c k Hc. apply elem_of_list_to_map_2 in Hc.
  rewrite forallb_forall in H. apply (H (c, k)). by apply list_elem_of_In.
Qed.

Lemma mem0_in c k : (clk_mem0 : gmap clkp clk) !! c = Some k -> In c (map fst clk_objects).
Proof. intros Hc. apply elem_of_list_to_map_2, list_elem_of_In in Hc. by apply (in_map fst) in Hc. Qed.

(** The clocks whose recalc method constrains them. *)
Definition recalc_domb (c : clkid) (k : clk) : bool :=
  match recalc k with
  | Some p_clk_pll_recalc => bool_decide (c = mpll_clk \/ c = spll_clk)
  | Some p_clk_mpll_main_recalc => (id k =? 0) || (id k =? 1)
  | Some p_clk_perclkx_recalc => (0 <=? id k) && (id k <=? 3)
  | _ => true
  end.

(** Gates are bits of the two peripheral clock control registers, but for those
    of the serial PLL and of the output pin. *)
Definition gate_regb (k : clk) : bool :=
  match enable k, disable k with
  | Some p_clk_enable, _ | _, Some p_clk_disable =>
      ((enable_reg k =? CCM_PCCR0) || (enable_reg k =? CCM_PCCR1)) &&
      (0 <=? enable_shift k) && (enable_shift k <? 32)
  | _, _ => true
  end.

Definition object_okb (c : clkid) (k : clk) : bool :=
  parent_ok c (parent k) && link_ok c (secondary k) && recalc_domb c k && gate_regb k.

Lemma mem0_objects c k : (clk_mem0 : gmap clkp clk) !! c = Some k -> object_okb c k = true.
Proof. apply mem0_forall. vm_compute. reflexivity. Qed.

Lemma mem0_size : size (clk_mem0 : gmap clkp clk) = 84%nat.
Proof. vm_compute. reflexivity. Qed.

#[global] Opaque clk_mem0 clk_objects.

(** ** Consequences of the invariant *)

Lemma tree_inv0 : tree_inv clk_mem0.
Proof.
  split; [done|]. intros c k Hc. apply mem0_objects in Hc. unfold object_okb in Hc.
  rewrite !andb_true_iff in Hc. tauto.
Qed.

Lemma tree_lookup m c k :
  tree_inv m -> m !! c = Some k ->
  exists k0, (clk_mem0 : gmap clkp clk) !! c = Some k0 /\ static_of k = static_of k0.
Proof.
  intros [H _] Hc. specialize (H c). rewrite Hc in H. symmetry in H.
  apply fmap_Some in H as (k0 & Hk0 & E). eauto.
Qed.

Lemma tree_static_eq m c k k0 :
  tree_inv m -> m !! c = Some k -> (clk_mem0 : gmap clkp clk) !! c = Some k0 -> static_of k = static_of k0.
Proof.
  intros Hm Hc H0. destruct (tree_lookup _ _ _ Hm Hc) as (k1 & H1 & E).
  pose proof (eq_trans (eq_sym H0) H1) as H. by injection H as ->.
Qed.

Lemma tree_dom m c : tree_inv m -> is_Some (clk_mem0 !! c) -> is_Some (m !! c).
Proof.
  intros [H _] Hc. specialize (H c). eapply (fmap_is_Some static_of).
  eapply eq_ind_r with (P := is_Some); [|exact H]. by apply fmap_is_Some.
Qed.

Lemma tree_size m : tree_inv m -> size m = 84%nat.
Proof.
  intros [H _]. rewrite <- mem0_size, <- !size_dom. f_equal.
  apply set_eq. intros c. rewrite !elem_of_dom. specialize (H c).
  etransitivity; [symmetry; apply (fmap_is_Some static_of)|].
  etransitivity; [|apply (fmap_is_Some static_of)]. exact (eq_rect _ (fun o => _ <-> is_Some o) (iff_refl _) _ H).
Qed.

Lemma link_ok_spec m c p :
  tree_inv m -> link_ok c (Some p) = true -> is_Some (m !! p) /\ (mx27_rank p < mx27_rank c)%nat.
Proof.
  intros Hm [H1 H2]%andb_true_iff. apply bool_decide_eq_true in H1. apply Nat.ltb_lt in H2.
  split; [by apply tree_dom|done].
Qed.

Lemma tree_parent m c k p :
  tree_inv m -> m !! c = Some k -> parent k = Some p ->
  is_Some (m !! p) /\ (mx27_rank p < mx27_rank c)%nat.
Proof.
  intros Hm Hc Hp. apply (link_ok_spec m c p Hm).
  apply (proj2 Hm) in Hc as [H _]%andb_true_iff. by rewrite Hp in H.
Qed.

(** What holds of the static fields holds of the clock. *)
Lemma tree_static m c k :
  tree_inv m -> m !! c = Some k ->
  link_ok c (secondary k) = true /\ recalc_domb c k = true /\ gate_regb k = true.
Proof.
  intros Hm Hc. destruct (tree_lookup _ _ _ Hm Hc) as (k0 & H0 & Hst).
  apply mem0_objects in H0. unfold object_okb in H0. rewrite !andb_true_iff in H0.
  destruct k, k0. unfold static_of in Hst. simplify_eq/=. tauto.
Qed.

Lemma tree_ranked m : tree_inv m -> ranked mx27_rank m.
Proof.
  intros Hm c k Hc. split_and!.
  - rewrite tree_size by done. pose proof (mx27_rank_le c). lia.
  - intros p Hp. by eapply tree_parent.
  - intros p Hp. destruct (tree_static _ _ _ Hm Hc) as (H & _). rewrite Hp in H. by apply link_ok_spec.
Qed.

Lemma tree_recalc_dom m c k f :
  tree_inv m -> m !! c = Some k -> recalc k = Some f -> mx27_recalc_dom f c k.
Proof.
  intros Hm Hc Hf. destruct (tree_static _ _ _ Hm Hc) as (_ & H & _).
  unfold recalc_domb in H. rewrite Hf in H. destruct f; simpl; try done.
  - by apply bool_decide_eq_true in H.
  - apply orb_true_iff in H as [H|H]; apply Z.eqb_eq in H; auto.
  - apply andb_true_iff in H as [H1 H2]. lia.
Qed.

Lemma tree_tree_ok (s : clkst) :
  tree_inv (clk_mem s) -> (forall c, c ∈ clocks s -> is_Some (clk_mem0 !! c)) ->
  tree_ok mx27_rank s.
Proof.
  intros Hm Hl. split_and!.
  - intros c. rewrite tree_size by done. pose proof (mx27_rank_le c). lia.
  - intros c Hc. by apply tree_dom, Hl.
  - intros c k p Hc Hp. by eapply tree_parent.
  - intros c k f Hc _ Hf. by eapply tree_recalc_dom.
Qed.

(** ** What keeps the invariant *)

Lemma tree_alter g c m :
  (forall k, static_of (g k) = static_of k) ->
  (forall k, m !! c = Some k -> parent_ok c (parent (g k)) = true) ->
  tree_inv m -> tree_inv (alter g c m).
Proof.
  intros Hs Hp [H1 H2]. split.
  - intros d. rewrite lookup_alter. case_decide; [subst|done]. rewrite <- H1.
    destruct (m !! d); simpl; [by rewrite Hs|done].
  - intros d k. rewrite lookup_alter. case_decide; [subst|by apply H2].
    destruct (m !! d) as [k'|]; simpl; [|done]. intros [= <-]. by apply Hp.
Qed.

Lemma tree_only_rates m m' : only_rates m m' -> tree_inv m -> tree_inv m'.
Proof.
  intros Ho [H1 H2]. split.
  - intros d. rewrite <- H1. specialize (Ho d). apply (f_equal (fmap static_of)) in Ho.
    rewrite <- !option_fmap_compose in Ho. symmetry. exact Ho.
  - intros d k Hd. symmetry in Ho. destruct (only_rates_lookup _ _ _ _ Ho Hd) as (k' & Hk' & E).
    rewrite E in Hk'. apply (H2 _ _ Hk').
Qed.

Lemma tree_only_counts m m' : only_counts m m' -> tree_inv m -> tree_inv m'.
Proof.
  intros Ho [H1 H2]. split.
  - intros d. rewrite <- H1. specialize (Ho d). apply (f_equal (fmap static_of)) in Ho.
    rewrite <- !option_fmap_compose in Ho. symmetry. exact Ho.
  - intros d k Hd. symmetry in Ho. destruct (only_counts_lookup _ _ _ _ Ho Hd) as (k' & Hk' & E).
    rewrite E in Hk'. apply (H2 _ _ Hk').
Qed.

Lemma tree_set_parent m c p :
  parent_ok c (Some p) = true -> tree_inv m -> tree_inv (alter (upd_parent (Some p)) c m).
Proof. intros H. apply tree_alter; [done|]. by intros. Qed.
