(* ===== verification/Mx27Boot.v ===== *)
(** * Bringing up the i.MX27 clocks

    [clk_early_get_timer_rate] and [mxc_clocks_init] of [mach-mx27/clock.c] on a
    machine with any register contents: they return, register the clocks, link
    every clock to the source its multiplexer selects, leave every registered
    clock at the rate its parent and its divider imply, and hold the four clocks
    the kernel cannot run without. *)

From stdpp Require Import base gmap list strings relations.
From Stdlib Require Import ZArith Lia.
From S2P Require Import Prelude ClkFramework ClkCounts ClkEnable ClkClients ClkRates CrmRegs.
From S2P Require Import Mx27ClockTable Mx27Clock Mx27ClockLaws Mx27Tree.

(** ** The sources the multiplexers select *)

Record muxes : Type := mkMuxes {
  mx_to2 : bool;  (* part revision TO2 or later *)
  mx_mcu : bool;  (* the MCU PLL runs from the high-frequency oscillator *)
  mx_sp : bool;   (* the serial PLL runs from the high-frequency oscillator *)
  mx_arm : bool;  (* the core runs from MPLL * 2/2 *)
  mx_ssi2 : bool;
  mx_ssi1 : bool;
  mx_vpu : bool;
}.

Definition selects (cscr mask : Z) : bool := negb (Z.land cscr mask =? 0).

Definition muxes_of (h : mx27hw) : muxes :=
  let cscr := readl (regs h) CCM_CSCR in
  mkMuxes (to2 h) (selects cscr CCM_CSCR_MCU) (selects cscr CCM_CSCR_SP) (selects cscr 0x8000)
    (selects cscr 0x00800000) (selects cscr 0x00400000) (selects cscr 0x00200000).

Definition osc (high : bool) : clkid := if high then ckih_clk else ckil_clk.

Lemma land_clear_other x m n : Z.land m n = 0 -> Z.land (clear x m) n = Z.land x n.
Proof.
  intros H. apply Z.bits_inj'. intros i Hi. rewrite !Z.land_spec, testbit_clear by done.
  pose proof (f_equal (fun z => Z.testbit z i) H) as E. simpl in E. rewrite Z.land_spec, Z.bits_0 in E.
  destruct (Z.testbit x i), (Z.testbit m i), (Z.testbit n i); done.
Qed.

Lemma land_setb_other x m n : Z.land m n = 0 -> Z.land (setb x m) n = Z.land x n.
Proof.
  intros H. unfold setb. rewrite Z.land_lor_distr_l, H. apply Z.lor_0_r.
Qed.

(** ** Gating does not change rates *)

(** Hardware states that give every clock but the output pin the same rate. *)
Definition rate_same (h h' : mx27hw) : Prop :=
  system_rev h = system_rev h' /\ muxes_of h = muxes_of h' /\
  forall f c k v, f <> p_clk_clko_recalc -> mx27_recalc_val f c k v h = mx27_recalc_val f c k v h'.

#[global] Instance rate_same_equiv : Equivalence rate_same.
Proof.
  split.
  - by intros h.
  - intros h h' (A & B & C). split_and!; [done..|]. intros. symmetry. auto.
  - intros h1 h2 h3 (A & B & C) (A' & B' & C'). split_and!; [congruence..|]. intros. by rewrite C, C'.
Qed.

Lemma muxes_eqv h h' : mx27_eqv h h' -> muxes_of h' = muxes_of h.
Proof. intros (A & B & _). unfold muxes_of, to2. by rewrite (A CCM_CSCR), B. Qed.

Lemma muxes_other a v h : a <> CCM_CSCR -> muxes_of (with_regs (writel v a) h) = muxes_of h.
Proof. intros H. unfold muxes_of. cbn [with_regs regs]. by rewrite readl_writel_ne. Qed.

(** Registers and masks of gates: no divider field is touched. *)
Definition quiet (g : Z * Z) : Prop :=
  (fst g = CCM_PCCR0 \/ fst g = CCM_PCCR1) \/ g = (CCM_CSCR, CCM_CSCR_SPEN) \/ g = (CCM_PCDR0, CCM_PCDR0_CLKO_EN).

Lemma testbit_field_zero m off w i :
  0 <= off -> 0 <= i < w -> field m off w = 0 -> Z.testbit m (i + off) = false.
Proof.
  intros Ho Hi Hm. pose proof (testbit_field m off w i Ho ltac:(lia) ltac:(lia)) as H.
  rewrite Hm, Z.bits_0 in H. rewrite (proj2 (Z.ltb_lt i w)) in H by lia. by rewrite H.
Qed.

Lemma field_setb_other x m off w :
  0 <= off -> 0 <= w -> field m off w = 0 -> field (setb x m) off w = field x off w.
Proof.
  intros Ho Hw Hm. apply Z.bits_inj'. intros i Hi. rewrite !testbit_field, testbit_setb by lia.
  destruct (Z.ltb_spec i w); [|done]. by rewrite (testbit_field_zero m off w), orb_false_r.
Qed.

Lemma field_clear_other x m off w :
  0 <= off -> 0 <= w -> field m off w = 0 -> field (clear x m) off w = field x off w.
Proof.
  intros Ho Hw Hm. apply Z.bits_inj'. intros i Hi. rewrite !testbit_field, testbit_clear by lia.
  destruct (Z.ltb_spec i w); [|done]. by rewrite (testbit_field_zero m off w), andb_true_r.
Qed.

Lemma muxes_setb a m h :
  quiet (a, m) -> muxes_of (with_regs (writel (setb (readl (regs h) a) m) a) h) = muxes_of h.
Proof.
  intros Hq. destruct Hq as [[E|E]|[[= -> ->]|[= -> ->]]]; simpl in *; subst; try by apply muxes_other.
  unfold muxes_of, selects. cbn [with_regs regs]. rewrite readl_setb by done.
  by rewrite !(land_setb_other _ CCM_CSCR_SPEN) by reflexivity.
Qed.

Lemma rate_same_setb a m h :
  quiet (a, m) -> rate_same h (with_regs (writel (setb (readl (regs h) a) m) a) h).
Proof.
  intros Hq. split_and!; [done|symmetry; by apply muxes_setb|]. intros f c k v Hf. unfold mx27_recalc_val, to2.
  cbn [with_regs regs system_rev]. destruct Hq as [[E|E]|[[= -> ->]|[= -> ->]]]; simpl in *; subst;
    destruct f; try done; repeat case_decide; rewrite ?readl_writel_ne by done; try done;
    rewrite readl_setb by done;
    by rewrite !field_setb_other by done.
Qed.

Lemma muxes_clear a m h :
  quiet (a, m) -> muxes_of (with_regs (writel (clear (readl (regs h) a) m) a) h) = muxes_of h.
Proof.
  intros Hq. destruct Hq as [[E|E]|[[= -> ->]|[= -> ->]]]; simpl in *; subst; try by apply muxes_other.
  unfold muxes_of, selects. cbn [with_regs regs]. rewrite readl_clear.
  by rewrite !(land_clear_other _ CCM_CSCR_SPEN) by reflexivity.
Qed.

Lemma rate_same_clear a m h :
  quiet (a, m) -> rate_same h (with_regs (writel (clear (readl (regs h) a) m) a) h).
Proof.
  intros Hq. split_and!; [done|symmetry; by apply muxes_clear|]. intros f c k v Hf. unfold mx27_recalc_val, to2.
  cbn [with_regs regs system_rev]. destruct Hq as [[E|E]|[[= -> ->]|[= -> ->]]]; simpl in *; subst;
    destruct f; try done; repeat case_decide; rewrite ?readl_writel_ne by done; try done;
    rewrite readl_clear;
    by rewrite !field_clear_other by done.
Qed.

Lemma rate_same_open g h : Forall quiet g -> rate_same h (with_regs (open_gate g) h).
Proof.
  intros Hg. revert h. induction Hg as [|[a m] g Hq _ IH]; intros h; [by destruct h|].
  etrans; [by apply (rate_same_setb a m)|]. apply (IH (with_regs _ h)).
Qed.

Lemma rate_same_close g h : Forall quiet g -> rate_same h (with_regs (close_gate g) h).
Proof.
  intros Hg. revert h. induction Hg as [|[a m] g Hq _ IH]; intros h; [by destruct h|].
  etrans; [by apply (rate_same_clear a m)|]. apply (IH (with_regs _ h)).
Qed.

Lemma gate_quiet f k :
  (f = p_clk_enable -> enable_reg k = CCM_PCCR0 \/ enable_reg k = CCM_PCCR1) ->
  Forall quiet (enable_gate f k).
Proof.
  intros H. destruct f; cbn [enable_gate]; repeat (apply Forall_cons_2; [unfold quiet; simpl; auto|]);
    apply Forall_nil_2.
Qed.

Lemma tree_gate_reg m c k :
  tree_inv m -> m !! c = Some k -> enable k = Some p_clk_enable \/ disable k = Some p_clk_disable ->
  enable_reg k = CCM_PCCR0 \/ enable_reg k = CCM_PCCR1.
Proof.
  intros Hm Hc Hf. destruct (tree_static _ _ _ Hm Hc) as (_ & _ & H). unfold gate_regb in H.
  assert (((enable_reg k =? CCM_PCCR0) || (enable_reg k =? CCM_PCCR1)) = true) as E.
  { destruct Hf as [E|E]; rewrite E in H; repeat case_match; rewrite !andb_true_iff in H; naive_solver. }
  apply orb_true_iff in E as [E|E]; apply Z.eqb_eq in E; auto.
Qed.

(** Gating from [h0] on: the machine keeps its shape and its rates. *)
Definition mx27_rate_laws (h0 : mx27hw) : EnableLaws mx27_sig mx27_methods.
Proof.
  refine {| st_ok := fun (m : gmap (@clkp mx27_sig) clk) (h : @hwst mx27_sig) =>
    spll_locks h /\ tree_inv m /\ rate_same h0 h |}.
  - intros m m' h Ho (A & B & C). split_and!; [done|by eapply tree_only_counts|done].
  - intros f c k s (A & B & C) Hk Hf. apply wp_run. do 2 eexists. split; [by apply (mx27_enable_run f c k)|].
    eexists. split; [done|]. split_and!; [done..|]. etrans; [exact C|]. apply rate_same_open, gate_quiet.
    intros ->. eapply tree_gate_reg; eauto.
  - intros f c k s (A & B & C) Hk Hf. apply wp_run. do 2 eexists. split; [by apply (mx27_disable_run f c k)|].
    eexists. split; [done|]. split_and!; [done..|]. etrans; [exact C|]. apply rate_same_close, gate_quiet.
    intros E. eapply tree_gate_reg; eauto. right. destruct f; simplify_eq/=. done.
Defined.

(** ** Enabling cannot fail on this machine *)

Lemma mx27_enable_zero f c s ret s' : mx27_enable f c s = Ret (ret, s') -> ret = 0.
Proof.
  unfold mx27_enable. destruct f; intros H;
    unfold _clk_enable, _clk_spll_enable, _clk_vpu_enable, _clk_dma_enable, _clk_rtic_enable, _clk_emma_enable,
      _clk_slcdc_enable, _clk_fec_enable, _clk_sahara2_enable, _clk_mstick1_enable, _clk_clko_enable in H;
    run_inv; congruence.
Qed.

Lemma enable_some_zero {A} (o : option A) (f : A -> M clkst Z) s ret s' :
  (forall a s ret s', f a s = Ret (ret, s') -> ret = 0) ->
  enable_some o f s = Ret (ret, s') -> ret = 0.
Proof. intros H. destruct o as [a|]; simpl; [apply H|]. by intros [= <- _]. Qed.

Lemma __clk_enable_zero n (c : clkp) (s : clkst) ret s' : __clk_enable n c s = Ret (ret, s') -> ret = 0.
Proof.
  revert c s ret s'. induction n as [|n IH]; intros c s ret s' H; simpl in H; [done|].
  apply bind_ret in H as (k & s1 & _ & H). apply bind_ret in H as ([] & s2 & _ & H).
  destruct (usecount k =? 0); [|run_inv; congruence].
  apply bind_ret in H as (k1 & s3 & _ & H). apply bind_ret in H as (r1 & s4 & E1 & H).
  apply enable_some_zero in E1 as ->; [|exact IH]. simpl in H.
  apply bind_ret in H as (k2 & s5 & _ & H). apply bind_ret in H as (r2 & s6 & E2 & H).
  apply enable_some_zero in E2 as ->; [|exact IH]. simpl in H.
  apply bind_ret in H as (k3 & s7 & _ & H). apply bind_ret in H as (r3 & s8 & E3 & H).
  apply enable_some_zero in E3 as ->; [|intros f; apply mx27_enable_zero]. simpl in H.
  by injection H.
Qed.

Lemma clk_enable_zero (c : clkp) (s : clkst) ret s' : ClkFramework.clk_enable (CPtr c) s = Ret (ret, s') -> ret = 0.
Proof. apply (__clk_enable_zero (tree_fuel s) c s ret s'). Qed.

(** ** The tree the multiplexers select *)

Definition reparent (c p : clkid) : gmap clkp clk -> gmap clkp clk := alter (upd_parent (Some p)) (c : clkp).

(** The clock objects after [probe_mxc_clocks]. *)
Definition probed_mem (x : muxes) (m : gmap clkp clk) : gmap clkp clk :=
  if mx_to2 x then
    let m1 := if mx_arm x then reparent cpu_clk (mpll_main_clk 0) m else m in
    let m2 := if mx_ssi2 x then m1 else reparent (ssi2_clk 0) spll_clk m1 in
    let m3 := if mx_ssi1 x then m2 else reparent (ssi1_clk 0) spll_clk m2 in
    if mx_vpu x then m3 else reparent vpu_clk spll_clk m3
  else
    let m1 := alter upd_cpu_fixed (cpu_clk : clkp) (reparent cpu_clk mpll_clk m) in
    foldl (fun m c => reparent c mpll_clk m) m1
      [ahb_clk; per_clk 0; per_clk 1; per_clk 2; per_clk 3; ssi1_clk 0; ssi2_clk 0; vpu_clk].

Definition early_mem (x : muxes) : gmap clkp clk :=
  probed_mem x (reparent mpll_clk (osc (mx_mcu x)) clk_mem0).

(** The clock objects after [mxc_clocks_init], rates and use counts apart. *)
Definition boot_mem (x : muxes) : gmap clkp clk :=
  reparent spll_clk (osc (mx_sp x)) (reparent mpll_clk (osc (mx_mcu x)) (early_mem x)).

(** ** Steps that change rates only *)

(** Between [s] and [s'] rates and gates may have changed. *)
Definition calm (s s' : clkst) : Prop :=
  only_rates (clk_mem s) (clk_mem s') /\ clocks s' = clocks s /\ modules s' = modules s /\
  muxes_of (hw s') = muxes_of (hw s) /\ system_rev (hw s') = system_rev (hw s) /\
  spll_lock (hw s') = spll_lock (hw s).

Lemma calm_trans s1 s2 s3 : calm s1 s2 -> calm s2 s3 -> calm s1 s3.
Proof.
  intros (A1 & B1 & C1 & D1 & E1 & F1) (A2 & B2 & C2 & D2 & E2 & F2).
  split_and!; [by etrans|congruence..].
Qed.

Lemma calm_hw h s :
  muxes_of h = muxes_of (hw s) -> system_rev h = system_rev (hw s) -> spll_lock h = spll_lock (hw s) ->
  calm s (with_hw h s).
Proof. intros. by split_and!. Qed.

Lemma only_rates_alter g (c : clkp) m m' :
  (forall k v, upd_rate 0 (g (upd_rate v k)) = upd_rate 0 (g k)) ->
  only_rates m m' -> only_rates (alter g c m) (alter g c m').
Proof.
  intros Hg Ho d. rewrite !lookup_alter. case_decide; [subst|apply Ho]. specialize (Ho d).
  destruct (m !! d) as [k|] eqn:E, (m' !! d) as [k'|] eqn:E'; try done.
  cbn [fmap option_fmap option_map] in *. f_equal. rewrite <- (Hg k 0), <- (Hg k' 0).
  by rewrite (inj Some _ _ Ho).
Qed.

Lemma only_rates_rate (c : clkp) m m' v : only_rates m m' -> only_rates m (alter (upd_rate v) c m').
Proof.
  intros Ho. etrans; [exact Ho|]. intros d. rewrite lookup_alter. case_decide; [subst|done].
  rewrite <- option_fmap_compose. reflexivity.
Qed.

Lemma only_rates_reparent c p m m' : only_rates m m' -> only_rates (reparent c p m) (reparent c p m').
Proof. by apply only_rates_alter. Qed.

Lemma wp_do_recalc (c : clkid) (s : clkst) (Q : unit -> clkst -> Prop) k f :
  tree_inv (clk_mem s) -> clk_mem s !! (c : clkp) = Some k -> recalc k = Some f ->
  c ∉ [ckih_clk; ckil_clk; clko_clk] -> (forall s', calm s s' -> Q tt s') -> wp (do_recalc c) Q s.
Proof.
  intros Hm Hc Hf Hn HQ. unfold do_recalc. apply wp_bind, (wp_clk_at _ k); [done|].
  rewrite Hf. cbn [deref]. apply wp_bind, wp_ret.
  pose proof (proj2 Hm _ _ Hc) as Hp. apply andb_true_iff in Hp as [_ Hp].
  rewrite (bool_decide_eq_false_2 _ Hn), orb_false_r, bool_decide_eq_true in Hp. destruct Hp as [p Hp].
  destruct (tree_parent _ _ _ _ Hm Hc Hp) as [[kp Hkp] _].
  eapply wp_mono.
  { apply (recalc_law (RecalcLaws := mx27_recalc_laws) f c s k p kp Hc Hp Hkp). by eapply tree_recalc_dom. }
  intros [] s' (h & He & ->). apply HQ. split_and!; try done.
  - apply (only_rates_insert (clk_mem s) c k _ Hc).
  - by apply muxes_eqv.
  - symmetry. apply He.
  - symmetry. apply He.
Qed.

Lemma tree_reparent c p m : parent_ok c (Some p) = true -> tree_inv m -> tree_inv (reparent c p m).
Proof. apply tree_set_parent. Qed.

Lemma tree_probed x m : tree_inv m -> tree_inv (probed_mem x m).
Proof.
  intros Hm. unfold probed_mem. destruct (mx_to2 x).
  - destruct (mx_arm x), (mx_ssi2 x), (mx_ssi1 x), (mx_vpu x);
      repeat (apply tree_reparent; [vm_compute; reflexivity|]); exact Hm.
  - cbn [foldl]. repeat (apply tree_reparent; [vm_compute; reflexivity|]).
    apply tree_alter; [done| |].
    + intros k Hk. eapply (proj2 (tree_reparent cpu_clk mpll_clk m ltac:(vm_compute; reflexivity) Hm) _ _ Hk).
    + apply tree_reparent; [vm_compute; reflexivity|done].
Qed.

Lemma tree_early x : tree_inv (early_mem x).
Proof. apply tree_probed, tree_reparent; [destruct (mx_mcu x); vm_compute; reflexivity|apply tree_inv0]. Qed.

Lemma tree_boot x : tree_inv (boot_mem x).
Proof.
  apply tree_reparent; [destruct (mx_sp x); vm_compute; reflexivity|].
  apply tree_reparent; [destruct (mx_mcu x); vm_compute; reflexivity|]. apply tree_early.
Qed.

(** The fields a clock object is declared with. *)
Lemma tree_object {A} m (c : clkid) (g : clk -> A) a :
  tree_inv m -> g <$> (clk_mem0 : gmap clkp clk) !! (c : clkp) = Some a ->
  exists k k0, m !! (c : clkp) = Some k /\ g k0 = a /\ static_of k = static_of k0.
Proof.
  intros Hm (k0 & H0 & Hf)%fmap_Some. destruct (tree_dom m c Hm ltac:(eauto)) as [k Hk].
  exists k, k0. split_and!; [done..|]. by eapply tree_static_eq.
Qed.

(** ** [clk_early_get_timer_rate] *)

Lemma probe_run (s : clkst) :
  probe_mxc_clocks s = Ret (tt, with_mem (probed_mem (muxes_of (hw s))) s).
Proof.
  unfold probe_mxc_clocks. rewrite rev_bind. unfold probed_mem, muxes_of, to2, selects.
  cbn [mx_to2 mx_arm mx_ssi2 mx_ssi1 mx_vpu]. destruct (0 <? _).
  - rewrite rd_bind. destruct s. repeat (destruct (Z.land _ _ =? 0)); reflexivity.
  - reflexivity.
Qed.

(** The revision code can be trusted: it has not been set, or to a known part. *)
Definition rev_known (h : mx27hw) : Prop :=
  system_rev_updated h = true -> existsb (fun e => system_rev h =? snd e) system_rev_tbl = true.

(** The machine at a point of the bring-up: shape [m] up to rates, nothing
    registered, muxes set as [x]. *)
Definition at_point (m : muxes -> gmap clkp clk) (l : list clkp) (s : clkst) : Prop :=
  only_rates (m (muxes_of (hw s))) (clk_mem s) /\ clocks s = l /\ spll_locks (hw s).

Lemma at_point_calm m l s s' : at_point m l s -> calm s s' -> at_point m l s'.
Proof.
  intros (A & B & C) (D & E & F & G & H & I). split_and!.
  - rewrite G. by etrans.
  - congruence.
  - unfold spll_locks. by rewrite I.
Qed.

Lemma wp_store_parent (c p : clkid) (s : clkst) (Q : unit -> clkst -> Prop) :
  Q tt (with_mem (reparent c p) s) -> wp (store_parent (c : clkp) (Some (p : clkp))) Q s.
Proof. done. Qed.

Lemma wp_rd a (s : clkst) (Q : Z -> clkst -> Prop) : Q (readl (regs (hw s)) a) s -> wp (rd a) Q s.
Proof. done. Qed.

Lemma wp_wr v a (s : clkst) (Q : unit -> clkst -> Prop) :
  Q tt (with_hw (with_regs (writel v a) (hw s)) s) -> wp (wr v a) Q s.
Proof. done. Qed.

(** The part is one of the table. *)
Definition rev_ok (h : mx27hw) : Prop := system_rev h = CHIP_REV_1_0 \/ system_rev h = CHIP_REV_2_0.

Lemma cpu_common_init_spec (s : clkst) (Q : unit -> clkst -> Prop) :
  rev_known (hw s) ->
  (forall v, let h := mkHw (regs (hw s)) v (system_rev_updated (hw s)) (spll_lock (hw s)) in
     rev_ok h -> Q tt (with_hw h s)) ->
  wp mxc_cpu_common_init Q s.
Proof.
  intros Hr HQ. unfold mxc_cpu_common_init, system_rev_update. apply wp_bind.
  change (wp (if system_rev_updated (hw s) then
    if existsb (fun e => system_rev (hw s) =? snd e) system_rev_tbl then mret tt else crash Panic
  else v ← read_system_rev; store_system_rev v) Q s).
  unfold rev_known in Hr. destruct (system_rev_updated (hw s)) eqn:E.
  - specialize (Hr eq_refl). rewrite Hr. apply wp_ret.
    specialize (HQ (system_rev (hw s))). rewrite <- E in HQ.
    assert (with_hw (mkHw (regs (hw s)) (system_rev (hw s)) (system_rev_updated (hw s)) (spll_lock (hw s))) s = s)
      as Heq by (destruct s as [? ? ? []]; reflexivity).
    cbv zeta in HQ. rewrite Heq in HQ. apply HQ. unfold rev_ok. cbn [system_rev system_rev_tbl existsb snd] in *.
    rewrite orb_false_r, orb_true_iff, !Z.eqb_eq in Hr. exact Hr.
  - unfold read_system_rev. apply wp_bind, wp_bind.
    apply wp_rd. cbv beta. set (val := Z.shiftr _ _). unfold system_rev_tbl.     rewrite <- E in HQ.
    cbn [list_find]. repeat case_decide; apply wp_ret, HQ; unfold rev_ok; cbn; auto.
Qed.

Lemma wp_do_enable (c : clkid) (s : clkst) (Q : Z -> clkst -> Prop) sh reg :
  tree_inv (clk_mem s) -> spll_locks (hw s) ->
  (fun k => (enable k, enable_shift k, enable_reg k)) <$> (clk_mem0 : gmap clkp clk) !! (c : clkp)
    = Some (Some p_clk_enable, sh, reg) ->
  reg <> CCM_CSCR -> (forall s', calm s s' -> Q 0 s') -> wp (do_enable c) Q s.
Proof.
  intros Hm Hl Hc Hreg HQ. destruct (tree_object _ c _ _ Hm Hc) as (k & k0 & Hk & [= E1 _ E3] & E).
  apply static_of_fields in E as (_ & _ & Hr & _ & Hf & _). rewrite E1 in Hf. rewrite E3 in Hr. clear Hc.
  unfold do_enable. apply wp_bind, (wp_clk_at _ k); [done|]. rewrite Hf. cbn [deref].
  apply wp_bind, wp_ret. apply wp_run. do 2 eexists.
  split; [by apply (mx27_enable_run p_clk_enable c k)|]. apply HQ, calm_hw; try done.
  cbn [enable_gate open_gate fold_left]. rewrite Hr. by apply muxes_other.
Qed.

Lemma at_point_tree m l s : (forall x, tree_inv (m x)) -> at_point m l s -> tree_inv (clk_mem s).
Proof. intros Hm (H & _). by eapply tree_only_rates. Qed.

Lemma only_rates_probed x m m' : only_rates m m' -> only_rates (probed_mem x m) (probed_mem x m').
Proof.
  intros H. unfold probed_mem. destruct (mx_to2 x).
  - destruct (mx_arm x), (mx_ssi2 x), (mx_ssi1 x), (mx_vpu x); repeat apply only_rates_reparent; exact H.
  - cbn [foldl]. repeat apply only_rates_reparent. apply only_rates_alter; [done|]. by apply only_rates_reparent.
Qed.

Lemma osc_if cscr mask : (if Z.land cscr mask =? 0 then ckil_clk else ckih_clk) = osc (selects cscr mask).
Proof. unfold selects. by destruct (_ =? 0). Qed.

(** Up to the probing of the multiplexers. *)
Lemma early_probed (s : clkst) {A} (K : unit -> M clkst A) (Q : A -> clkst -> Prop) :
  clk_mem s = clk_mem0 -> clocks s = [] -> spll_locks (hw s) ->
  (forall s', at_point early_mem [] s' -> hw s' = hw s -> wp (K tt) Q s') ->
  wp (cscr ← rd CCM_CSCR;
      store_parent (mpll_clk : clkp) (Some (if Z.land cscr CCM_CSCR_MCU =? 0 then ckil_clk else ckih_clk));;
      store_rate (ckih_clk : clkp) (if MXC_CKIH_SOURCE =? 0 then CKIH_CLK_FREQ else CKIH_CLK_FREQ_27MHZ);;
      probe_mxc_clocks ≫= K) Q s.
Proof.
  intros Hm Hc Hl HK. apply wp_bind, wp_rd, wp_bind. rewrite osc_if. apply wp_store_parent, wp_bind.
  unfold wp at 1, store_rate, modify. cbv beta iota. apply wp_bind, wp_run. do 2 eexists. split; [apply probe_run|].
  apply HK; [|done]. split_and!; [|done..].
  apply only_rates_probed, only_rates_rate. cbn [clk_mem with_mem]. rewrite Hm. reflexivity.
Qed.

(** The state [clk_early_get_timer_rate] works on after probing. *)
Definition early_inv (s : clkst) : Prop := at_point early_mem [] s /\ rev_ok (hw s).

Lemma early_calm s s' : early_inv s -> calm s s' -> early_inv s'.
Proof.
  intros [A B] C. split; [by eapply at_point_calm|]. unfold rev_ok.
  destruct C as (_ & _ & _ & _ & -> & _). exact B.
Qed.

Lemma early_recalc (c : clkid) f (s : clkst) (Q : unit -> clkst -> Prop) :
  early_inv s -> c ∉ [ckih_clk; ckil_clk; clko_clk] ->
  recalc <$> (clk_mem0 : gmap clkp clk) !! (c : clkp) = Some (Some f) ->
  (forall s', early_inv s' -> Q tt s') -> wp (do_recalc c) Q s.
Proof.
  intros Hs Hn Hc HQ. pose proof (at_point_tree _ _ _ tree_early (proj1 Hs)) as Ht.
  destruct (tree_object _ c _ _ Ht Hc) as (k & k0 & Hk & E1 & (_ & _ & _ & E & _)%static_of_fields).
  eapply (wp_do_recalc c s Q k f); [done|done|congruence|done|]. intros s' C. apply HQ. by eapply early_calm.
Qed.

Lemma early_enable (c : clkid) sh reg (s : clkst) (Q : Z -> clkst -> Prop) :
  early_inv s ->
  (fun k => (enable k, enable_shift k, enable_reg k)) <$> (clk_mem0 : gmap clkp clk) !! (c : clkp)
    = Some (Some p_clk_enable, sh, reg) ->
  reg <> CCM_CSCR -> (forall s', early_inv s' -> Q 0 s') -> wp (do_enable c) Q s.
Proof.
  intros Hs Hc Hr HQ.
  eapply wp_do_enable; [by apply (at_point_tree _ _ _ tree_early (proj1 Hs))|apply Hs|exact Hc|done|].
  intros s' C. apply HQ. by eapply early_calm.
Qed.

Lemma early_spec h :
  spll_locks h -> rev_known h ->
  wp clk_early_get_timer_rate (fun _ => early_inv) (boot h).
Proof.
  intros Hl Hr. unfold clk_early_get_timer_rate. apply wp_bind, cpu_common_init_spec; [done|].
  intros v h1 Hv. apply early_probed; [done..|]. intros s0 Hs Hh.
  assert (Hi : early_inv s0) by (split; [exact Hs|by rewrite Hh]). clear Hs Hh Hv.
  apply wp_bind. eapply early_recalc; [exact Hi|set_solver|vm_compute; reflexivity|]. intros s1 Hi1.
  apply wp_bind. apply wp_run. do 2 eexists. split; [reflexivity|]. apply wp_bind.
  apply (wp_mono _ (fun _ => early_inv)).
  { destruct (0 <? _); [|by apply wp_ret]. apply wp_bind.
    eapply early_recalc; [exact Hi1|set_solver|vm_compute; reflexivity|]. intros s2 Hi2.
    eapply early_recalc; [exact Hi2|set_solver|vm_compute; reflexivity|]. done. }
  intros [] s2 Hi2. apply wp_bind.
  eapply early_recalc; [exact Hi2|set_solver|vm_compute; reflexivity|]. intros s3 Hi3. apply wp_bind.
  eapply early_enable; [exact Hi3|vm_compute; reflexivity|done|]. intros s4 Hi4. apply wp_bind.
  eapply early_enable; [exact Hi4|vm_compute; reflexivity|done|]. intros s5 Hi5. apply wp_bind.
  destruct (tree_dom _ (per_clk 0) (at_point_tree _ _ _ tree_early (proj1 Hi5))) as [k Hk].
  { apply (bool_decide_eq_true_1 (is_Some (clk_mem0 !! per_clk 0))). vm_compute. reflexivity. }
  apply (wp_clk_at _ k); [done|]. by apply wp_ret.
Qed.

(** ** [mxc_clocks_init] *)

(** The clocks the registration loop takes: the two outputs of the MCU PLL exist
    from TO2 on. *)
Definition registers (rev : Z) (c : clkid) : bool :=
  negb (bool_decide (c = mpll_main_clk 0 \/ c = mpll_main_clk 1) && (is_rev rev CHIP_REV_1_0 =? 1)).

Definition registered (rev : Z) : list clkid := rev_append (List.filter (registers rev) mxc_clks) [].

Lemma clk_register_run (c : clkp) (s : clkst) :
  c ∉ clocks s -> (clk_register (CPtr c);; mret tt) s = Ret (tt, with_clocks (c :: clocks s) s).
Proof.
  intros H. unfold clk_register, gets, mbind, M_bind. cbv beta iota.
  by rewrite decide_False by done.
Qed.

Lemma register_clks_run (l : list clkid) (s : clkst) :
  NoDup l -> (forall c : clkid, c ∈ l -> (c : clkp) ∉ clocks s) ->
  register_clks l s =
  Ret (tt, with_clocks (rev_append (List.filter (registers (system_rev (hw s))) l) (clocks s)) s).
Proof.
  intros Hl. revert s. induction Hl as [|c l Hcl Hl IH]; intros s Hs; [by destruct s|].
  assert (Hsk : forall d : clkid, d ∈ l -> (d : clkp) ∉ clocks s) by (intros; apply Hs; by right).
  assert (Hgo : ((clk_register (CPtr (c : clkp));; mret tt);; register_clks l) s =
    Ret (tt, with_clocks (rev_append (List.filter (registers (system_rev (hw s))) l) ((c : clkp) :: clocks s)) s)).
  { rewrite (run_bind _ _ _ _ _ (clk_register_run c s (Hs c ltac:(left)))). rewrite IH; [done|].
    intros d Hd [->|Hin]%elem_of_cons; [done|]. by apply (Hsk d). }
  cbn [register_clks]. rewrite rev_bind. cbn [List.filter]. unfold registers at 1.
  case_decide as Hc; [rewrite bool_decide_eq_true_2 by done|rewrite bool_decide_eq_false_2 by done];
    cbn [andb negb]; [|exact Hgo].
  destruct (_ =? 1); cbn [negb]; [|exact Hgo].
  rewrite (run_bind _ _ _ tt s) by reflexivity. by apply IH.
Qed.

(** In the booted tree every registered clock but the roots has a registered
    parent. *)
Definition registered_parent (rev : Z) (c : clkid) (o : option clk) : bool :=
  match o with
  | Some k => match parent k with
              | Some p => bool_decide (p ∈ registered rev)
              | None => bool_decide (c ∈ [ckih_clk; ckil_clk; clko_clk])
              end
  | None => false
  end.

Lemma boot_registered_parent h c :
  rev_ok h -> c ∈ registered (system_rev h) ->
  registered_parent (system_rev h) c (look (boot_mem (muxes_of h)) c) = true.
Proof.
  intros Hrev Hc%list_elem_of_In. revert c Hc.
  apply (proj1 (forallb_forall
    (fun c => registered_parent (system_rev h) c (look (boot_mem (muxes_of h)) c)) (registered (system_rev h)))).
  destruct Hrev as [E|E]; unfold muxes_of, to2; rewrite E; generalize (readl (regs h) CCM_CSCR); intros cscr;
    generalize (selects cscr); intros b;
    generalize (b CCM_CSCR_MCU) (b CCM_CSCR_SP) (b 0x8000) (b 0x00800000) (b 0x00400000) (b 0x00200000);
    intros [] [] [] [] [] []; vm_compute; reflexivity.
Qed.

Lemma boot_fits x : forallb (fun c => degree ∅ (boot_mem x) c <=? 100) (map fst clk_objects) = true.
Proof.
  destruct x as [[] [] [] [] [] [] []]; vm_compute; reflexivity.
Qed.
