(* ===== verification/Mx27Init.v ===== *)
(** * The booted i.MX27 clock tree

    [mxc_clocks_init] of [mach-mx27/clock.c] after [clk_early_get_timer_rate]:
    the state it leaves behind, for any register contents. *)

From stdpp Require Import base gmap list strings relations.
From Stdlib Require Import ZArith Lia.
From S2P Require Import Prelude ClkFramework ClkCounts ClkEnable ClkClients ClkRates CrmRegs.
From S2P Require Import Mx27ClockTable Mx27Clock Mx27ClockLaws Mx27Tree Mx27Boot.

(** ** Rates after the two propagations *)

Definition is_root (c : clkid) : Prop := c = ckih_clk \/ c = ckil_clk.

(** The machine after registration and reparenting. *)
Definition linked (s : clkst) : Prop :=
  at_point boot_mem (registered (system_rev (hw s))) s /\ rev_ok (hw s).

Lemma linked_calm s s' : linked s -> calm s s' -> linked s'.
Proof.
  intros [A B] C. pose proof C as (_ & _ & _ & _ & E & _). split.
  - rewrite E. by eapply at_point_calm.
  - unfold rev_ok. by rewrite E.
Qed.

Lemma linked_tree s : linked s -> tree_inv (clk_mem s).
Proof. intros [A _]. eapply at_point_tree; [apply tree_boot|exact A]. Qed.

Lemma mxc_clks_objects : forallb (fun c => bool_decide (is_Some (clk_mem0 !! c))) mxc_clks = true.
Proof. vm_compute. reflexivity. Qed.

Lemma registered_object rev c : c ∈ registered rev -> is_Some (clk_mem0 !! c).
Proof.
  unfold registered. rewrite rev_append_rev, app_nil_r, list_elem_of_In, <- in_rev, filter_In.
  intros [H _]. pose proof (proj1 (forallb_forall _ _) mxc_clks_objects _ H) as E.
  by apply bool_decide_eq_true in E.
Qed.

Lemma linked_tree_ok s : linked s -> tree_ok mx27_rank s.
Proof.
  intros H. apply tree_tree_ok; [by apply linked_tree|]. destruct H as [(_ & -> & _) _].
  apply registered_object.
Qed.

Lemma registered_parent_inv rev c k :
  registered_parent rev c (Some k) = true -> ~ is_root c -> c <> clko_clk ->
  exists p, parent k = Some p /\ p ∈ registered rev.
Proof.
  unfold registered_parent, is_root. destruct (parent k) as [p|]; intros H Hr Ho.
  - exists p. split; [reflexivity|]. by apply bool_decide_eq_true in H.
  - apply bool_decide_eq_true in H. exfalso. rewrite !elem_of_cons, elem_of_nil in H. tauto.
Qed.

(** Registered clocks other than the roots and the output pin have a registered
    parent. *)
Lemma linked_parent s (c : clkp) k :
  linked s -> c ∈ clocks s -> clk_mem s !! c = Some k -> ~ is_root c -> c <> clko_clk ->
  exists p, parent k = Some p /\ p ∈ clocks s /\ (mx27_rank p < mx27_rank c)%nat.
Proof.
  intros Hs Hc Hk Hr Ho. pose proof (linked_tree _ Hs) as Ht. destruct Hs as [(A & B & _) Hrev].
  rewrite B in Hc |- *. pose proof (boot_registered_parent _ c Hrev Hc) as H. unfold look in H.
  symmetry in A. destruct (only_rates_lookup _ _ _ _ A Hk) as (k0 & Hk0 & E0).
  rewrite Hk0 in H. apply registered_parent_inv in H as (p & Hp & Hl); [|done..].
  rewrite E0 in Hp. exists p. split; [exact Hp|]. split; [exact Hl|]. apply (tree_parent _ _ _ _ Ht Hk Hp).
Qed.

Lemma root_parent s (c : clkp) k : linked s -> is_root c -> clk_mem s !! c = Some k -> parent k = None.
Proof.
  intros Hs Hr Hk. destruct (parent k) as [p|] eqn:E; [|done].
  destruct (tree_parent _ _ _ _ (linked_tree _ Hs) Hk E) as [_ H].
  exfalso. destruct Hr as [-> | ->]; cbn in H; lia.
Qed.

Lemma child_parent m l (x y c : clkp) : child m l x c -> child m l y c -> x = y.
Proof. intros (_ & k & ? & ?) (_ & k' & ? & ?). by simplify_eq. Qed.

(** A root is no one's descendant. *)
Lemma tc_root s t (c : clkp) : linked s -> is_root c -> ~ tc (child (clk_mem s) (clocks s)) t c.
Proof.
  intros Hs Hr H. destruct (tc_last _ _ _ _ H) as (y & _ & _ & k & Hk & Hp).
  by rewrite (root_parent s c k) in Hp.
Qed.

(** Every registered clock descends from exactly one of the oscillators. *)
Lemma descends s (c : clkp) :
  linked s -> c ∈ clocks s -> ~ is_root c -> c <> clko_clk ->
  (tc (child (clk_mem s) (clocks s)) ckih_clk c /\ ~ tc (child (clk_mem s) (clocks s)) ckil_clk c) \/
  tc (child (clk_mem s) (clocks s)) ckil_clk c.
Proof.
  intros Hs. remember (mx27_rank c) as n eqn:En. revert c En.
  induction n as [n IH] using lt_wf_ind. intros c -> Hc Hr Ho.
  destruct (tree_dom _ c (linked_tree _ Hs)) as [k Hk].
  { destruct Hs as [(_ & B & _) _]. rewrite B in Hc. by apply registered_object in Hc. }
  destruct (linked_parent _ _ _ Hs Hc Hk Hr Ho) as (p & Hp & Hpl & Hlt).
  assert (Hch : child (clk_mem s) (clocks s) p c) by (split; eauto).
  assert (Hup : forall t, is_root t -> tc (child (clk_mem s) (clocks s)) t c ->
    t = p \/ tc (child (clk_mem s) (clocks s)) t p).
  { intros t _ H. destruct (tc_last _ _ _ _ H) as (y & Hy & Hyc).
    rewrite (child_parent _ _ _ _ _ Hyc Hch) in Hy. by apply rtc_tc in Hy. }
  destruct (decide (p = ckil_clk)) as [->|Hn1]; [right; by apply tc_once|].
  destruct (decide (p = ckih_clk)) as [->|Hn2].
  { left. split; [by apply tc_once|]. intros [H|H]%Hup; [done| |by right].
    by apply (tc_root s _ _ Hs) in H; [|left]. }
  destruct (IH _ Hlt p eq_refl Hpl) as [[H1 H2]|H1].
  - by intros [?|?].
  - pose proof (mx27_rank_le c). intros ->. cbn in Hlt. lia.
  - left. split; [by eapply tc_r|]. intros [H|H]%Hup; [done|done|by right].
  - right. by eapply tc_r.
Qed.

Lemma child_only_rates m m' l (x c : clkp) : only_rates m m' -> child m l x c -> child m' l x c.
Proof.
  intros Ho (Hc & k & Hk & Hp). split; [done|].
  destruct (only_rates_lookup _ _ _ _ Ho Hk) as (k' & Hk' & E). exists k'. split; [done|]. by rewrite E.
Qed.

Lemma tc_only_rates m m' l (x c : clkp) : only_rates m m' -> tc (child m l) x c -> tc (child m' l) x c.
Proof.
  intros Ho. induction 1 as [x c H|x y c H _ IH].
  - apply tc_once. by eapply child_only_rates.
  - eapply tc_l; [by eapply child_only_rates|exact IH].
Qed.

Lemma propagated_calm (t : clkp) s s' : propagated t s s' -> calm s s'.
Proof.
  intros (_ & _ & A & B & C & D). split_and!; try done.
  - by apply muxes_eqv.
  - symmetry. apply B.
  - symmetry. apply B.
Qed.

(** A clock outside the subtree of [t], with its parent, keeps its coherence. *)
Lemma coherent_frame (t c : clkp) s s' :
  propagated t s s' -> coherent s c ->
  ~ tc (child (clk_mem s) (clocks s)) t c -> (forall k p, clk_mem s !! c = Some k -> parent k = Some p ->
     ~ tc (child (clk_mem s) (clocks s)) t p) -> coherent s' c.
Proof.
  intros (_ & Hf & _ & He & _) Hco Hc Hp k p kp Hk Hpar Hkp. rewrite Hf in Hk by done.
  rewrite Hf in Hkp by (by eapply Hp). rewrite (Hco k p kp) by done. by apply expected_rate_eqv.
Qed.

Lemma settle_spec {A} (K : unit -> M clkst A) (Q : A -> clkst -> Prop) s :
  linked s ->
  (forall s', linked s' -> (forall c, c ∈ clocks s' -> c <> clko_clk -> coherent s' c) -> wp (K tt) Q s') ->
  wp (propagate_rate (CPtr (ckih_clk : clkp));; (propagate_rate (CPtr (ckil_clk : clkp)) ≫= K)) Q s.
Proof.
  intros Hs HK. apply wp_bind.
  assert (Hroot : forall s (c : clkp), linked s -> is_root c -> is_Some (clk_mem s !! c)).
  { intros s0 c H0 Hr. apply (tree_dom _ c (linked_tree _ H0)).
    destruct Hr as [-> | ->]; [apply (bool_decide_eq_true_1 (is_Some (clk_mem0 !! ckih_clk)))|
      apply (bool_decide_eq_true_1 (is_Some (clk_mem0 !! ckil_clk)))]; vm_compute; reflexivity. }
  eapply wp_mono.
  { apply (propagate_rate_spec (Sig := mx27_sig) (Laws := mx27_recalc_laws) mx27_rank ckih_clk s); [by apply linked_tree_ok|]. apply Hroot; [done|by left]. }
  intros [] s1 P1. pose proof (propagated_calm _ _ _ P1) as C1. pose proof (linked_calm _ _ Hs C1) as Hs1.
  apply wp_bind. eapply wp_mono.
  { apply (propagate_rate_spec (Sig := mx27_sig) (Laws := mx27_recalc_laws) mx27_rank ckil_clk s1); [by apply linked_tree_ok|]. apply Hroot; [done|by right]. }
  intros [] s2 P2. pose proof (propagated_calm _ _ _ P2) as C2.
  apply HK; [by eapply linked_calm|]. intros c Hc Ho.
  assert (Hcl : clocks s2 = clocks s1) by apply C2. rewrite Hcl in Hc.
  destruct (decide (c = ckih_clk \/ c = ckil_clk)) as [Hr|Hr].
  { intros k p kp Hk Hp. rewrite (root_parent s2 c k) in Hp; [done|by eapply linked_calm|done|done]. }
  destruct (descends s1 c Hs1 Hc Hr Ho) as [[D1 D2]|D]; [|by apply P2].
  apply (coherent_frame ckil_clk c s1 s2 P2); [|done|].
  - apply P1. destruct C1 as (E1 & E2 & _). rewrite E2 in D1. symmetry in E1. by eapply tc_only_rates.
  - intros k p Hk Hp Htc. apply D2. eapply tc_r; [exact Htc|]. split; eauto.
Qed.

(** ** The four clocks the kernel holds *)

Definition idle (m : gmap clkp clk) : Prop := forall c k, m !! c = Some k -> usecount k = 0.

Lemma idle_alter g (c : clkp) m : (forall k, usecount (g k) = usecount k) -> idle m -> idle (alter g c m).
Proof.
  intros Hg Hm d k. rewrite lookup_alter. case_decide; [subst|by apply Hm].
  destruct (m !! d) as [k0|] eqn:E; [|done]. intros [= <-]. rewrite Hg. by eapply Hm.
Qed.

Lemma mem0_idle : idle clk_mem0.
Proof.
  intros c k H. apply (mem0_forall (fun _ k => usecount k =? 0)) in H; [by apply Z.eqb_eq in H|].
  vm_compute. reflexivity.
Qed.

Lemma boot_idle x : idle (boot_mem x).
Proof.
  unfold boot_mem, reparent. do 2 (apply idle_alter; [done|]).
  unfold early_mem, probed_mem, reparent. destruct (mx_to2 x).
  - destruct (mx_arm x), (mx_ssi2 x), (mx_ssi1 x), (mx_vpu x); repeat (apply idle_alter; [done|]); apply mem0_idle.
  - cbn [foldl]. repeat (apply idle_alter; [done|]); apply mem0_idle.
Qed.

Lemma only_rates_idle m m' : only_rates m m' -> idle m -> idle m'.
Proof.
  intros Ho Hm c k Hk. symmetry in Ho. destruct (only_rates_lookup _ _ _ _ Ho Hk) as (k0 & Hk0 & E).
  specialize (Hm _ _ Hk0). by rewrite E in Hm.
Qed.

Lemma only_rates_links m m' : only_rates m m' -> same_links m m'.
Proof.
  intros H c. specialize (H c). apply (f_equal (fmap links_of)) in H.
  rewrite <- !option_fmap_compose in H. exact H.
Qed.

(** The tree has at most a hundred links to a clock, so that holdings of up to
    27 enables a clock fit the counters. *)
Lemma links_fits x u m : same_links (boot_mem x) m -> (forall c, u c <= 27) -> fits u ∅ m.
Proof.
  intros A Hu c. specialize (Hu c). enough (degree ∅ m c <= 100) by lia.
  rewrite <- (degree_same_links ∅ _ _ c A). destruct (clk_mem0 !! c) as [k|] eqn:E.
  - apply mem0_in in E. pose proof (proj1 (forallb_forall _ _) (boot_fits x) c E) as H.
    by apply Z.leb_le in H.
  - rewrite degree_none; [lia|]. intros d kd Hd. unfold links, ind.
    destruct (tree_ranked _ (tree_boot _) _ _ Hd) as (_ & H1 & H2).
    assert (Hn : ~ is_Some (boot_mem x !! c)).
    { intros [kc Hkc]. destruct (tree_lookup _ _ _ (tree_boot _) Hkc) as (k0 & H0 & _).
      pose proof (eq_trans (eq_sym E) H0). done. }
    rewrite !decide_False; [done|intros Hl; by apply Hn, H2|intros Hl; by apply Hn, H1].
Qed.

Lemma linked_fits u s : linked s -> (forall c, u c <= 27) -> fits u ∅ (clk_mem s).
Proof. intros [(A & _) _]. by apply (links_fits (muxes_of (hw s))), only_rates_links. Qed.

(** The booted machine accounts for nothing yet. *)
Lemma linked_holding s :
  linked s -> holding (Laws := mx27_rate_laws (hw s)) mx27_rank (fun _ => 0) s.
Proof.
  intros Hs. pose proof (linked_tree _ Hs) as Ht. pose proof Hs as [(A & _ & L) _].
  pose proof (only_rates_idle _ _ A (boot_idle _)) as Hi. split_and!.
  - by apply tree_ranked.
  - by apply counted_idle.
  - intros c k Hk. rewrite (Hi _ _ Hk). lia.
  - done.
  - split_and!; [done..|reflexivity].
Qed.

(** From [s0] on, clients took the holdings [u], at most [n] of any clock. *)
Definition held (s0 : clkst) (n : Z) (u : clkp -> Z) (s : clkst) : Prop :=
  holding (Laws := mx27_rate_laws (hw s0)) mx27_rank u s /\ only_counts (clk_mem s0) (clk_mem s) /\
  clocks s = clocks s0 /\ forall c, u c <= n.

(** Enabling one more clock: the call succeeds, one hold is added, and no rate
    changes. *)
Lemma enable_step s0 n u s (c : clkp) {A} (K : Z -> M clkst A) (Q : A -> clkst -> Prop) :
  linked s0 -> held s0 n u s -> n < 27 -> bool_decide (is_Some (clk_mem0 !! c)) = true ->
  (forall s', held s0 (n + 1) (plus u c 1) s' -> wp (K 0) Q s') ->
  wp (ClkFramework.clk_enable (CPtr c) ≫= K) Q s.
Proof.
  intros H0 (Hs & Ho & Hcl & Hn) Hlt Hc%bool_decide_eq_true HK.
  assert (Hc' : is_Some (clk_mem s !! c)) by (apply tree_dom; [apply Hs|done]).
  assert (Hle : forall x, plus u c 1 x <= n + 1).
  { intros x. unfold plus. specialize (Hn x). case_decide; lia. }
  assert (Hf : fits (plus u c 1) ∅ (clk_mem s)).
  { eapply fits_only_counts; [exact Ho|]. apply linked_fits; [done|]. intros x. specialize (Hle x). lia. }
  pose proof (clk_enable_spec (Laws := mx27_rate_laws (hw s0)) mx27_rank c u s Hs Hc' Hf) as W.
  apply wp_run in W as (ret & s1 & E & W & C). pose proof (clk_enable_zero _ _ _ _ E) as ->.
  apply wp_bind, wp_run. exists 0, s1. split; [exact E|]. apply HK. split_and!.
  - eapply (ready_walk (Laws := mx27_rate_laws (hw s0))); [exact Hs|exact W|exact C|].
    intros x. apply plus_nonneg. apply Hs.
  - etrans; [exact Ho|apply W].
  - etrans; [apply W|exact Hcl].
  - exact Hle.
Qed.

(** Only the output pin has the output pin's recalc method. *)
Lemma clko_recalc_only m (c : clkp) k :
  tree_inv m -> m !! c = Some k -> recalc k = Some p_clk_clko_recalc -> c = clko_clk.
Proof.
  intros Hm Hk Hr. destruct (tree_lookup _ _ _ Hm Hk) as (k0 & H0 & (_ & _ & _ & E & _)%static_of_fields).
  apply (mem0_forall (fun c k => bool_decide (recalc k = Some p_clk_clko_recalc -> c = clko_clk))) in H0;
    [|vm_compute; reflexivity].
  apply bool_decide_eq_true in H0. apply H0. congruence.
Qed.

Lemma coherent_gated s s' (c : clkp) :
  tree_inv (clk_mem s) -> c <> clko_clk -> coherent s c -> only_counts (clk_mem s) (clk_mem s') ->
  rate_same (hw s) (hw s') -> coherent s' c.
Proof.
  intros Ht Hc Hco Ho Hr k p kp Hk Hp Hkp. symmetry in Ho.
  destruct (only_counts_lookup _ _ _ _ Ho Hk) as (k0 & Hk0 & E0).
  destruct (only_counts_lookup _ _ _ _ Ho Hkp) as (kp0 & Hkp0 & Ep0).
  assert (rate k = rate k0 /\ parent k0 = Some p /\ rate kp = rate kp0) as (E1 & E2 & E3).
  { rewrite E0, Ep0. split_and!; [reflexivity|exact Hp|reflexivity]. }
  rewrite E1, E3, (Hco k0 p kp0) by done. unfold expected_rate.
  assert (recalc k = recalc k0) as -> by (by rewrite E0).
  destruct (recalc k0) as [f|] eqn:Ef; [|done].
  transitivity (mx27_recalc_val f c k0 (rate kp0) (hw s')).
  - apply Hr. intros ->. apply Hc. by eapply clko_recalc_only.
  - rewrite E0. by destruct f.
Qed.

(** What the kernel itself keeps enabled. *)
Definition kernel_holds (c : clkid) : Z :=
  if decide (c ∈ [emi_clk; gpio_clk; iim_clk; gpt1_clk 0]) then 1 else 0.

(** A machine in operation, with the clients holding [u]: the clocks of the table
    are registered, linked as the multiplexers say, at the rates their parents and
    dividers imply, and the use counts account for the holdings. *)
Definition operational (u : clkp -> Z) (s : clkst) : Prop :=
  clocks s = registered (system_rev (hw s)) /\
  same_links (boot_mem (muxes_of (hw s))) (clk_mem s) /\
  (forall c, c ∈ clocks s -> c <> clko_clk -> coherent s c) /\
  holding mx27_rank u s /\ tree_inv (clk_mem s) /\ rev_ok (hw s) /\
  same_methods (boot_mem (muxes_of (hw s))) (clk_mem s).

(** The state [mxc_clocks_init] leaves behind. *)
Definition booted (s : clkst) : Prop := operational kernel_holds s.

Lemma held_booted s u s' :
  linked s -> (forall c, c ∈ clocks s -> c <> clko_clk -> coherent s c) ->
  held s 4 u s' -> (forall c, u c = kernel_holds c) -> booted s'.
Proof.
  intros Hs Hco ((R & N & I & P & SL & T & RS) & Ho & Hcl & _) Hu. pose proof RS as (RS1 & RS2 & _).
  pose proof Hs as [(A & B & _) _]. split_and!.
  - rewrite Hcl, B. unfold hw in *. by rewrite RS1.
  - intros c. rewrite <- RS2. etrans; [apply (only_rates_links _ _ A c)|]. by apply only_counts_links.
  - intros c Hc Hn. rewrite Hcl in Hc. eapply coherent_gated; [by apply linked_tree|done|by apply Hco|done|done].
  - apply (ready_ext (Laws := mx27_enable_laws) mx27_rank u kernel_holds ∅ s' Hu). by split_and!.
  - done.
  - unfold rev_ok. rewrite <- RS1. apply Hs.
  - intros c. rewrite <- RS2. etrans; [apply (methods_only_rates _ _ A c)|]. by apply methods_only_counts.
Qed.

Lemma enables_spec s :
  linked s -> (forall c, c ∈ clocks s -> c <> clko_clk -> coherent s c) ->
  wp (ClkFramework.clk_enable (CPtr (emi_clk : clkp));;
      ClkFramework.clk_enable (CPtr (gpio_clk : clkp));;
      ClkFramework.clk_enable (CPtr (iim_clk : clkp));;
      ClkFramework.clk_enable (CPtr (gpt1_clk 0 : clkp));;
      mret 0) (fun ret s' => ret = 0 /\ booted s') s.
Proof.
  intros Hs Hco.
  assert (H0 : held s 0 (fun _ => 0) s) by (split_and!; [by apply linked_holding|done..]).
  eapply enable_step; [exact Hs|exact H0|lia|vm_compute; reflexivity|]. intros s1 H1.
  eapply enable_step; [exact Hs|exact H1|lia|vm_compute; reflexivity|]. intros s2 H2.
  eapply enable_step; [exact Hs|exact H2|lia|vm_compute; reflexivity|]. intros s3 H3.
  eapply enable_step; [exact Hs|exact H3|lia|vm_compute; reflexivity|]. intros s4 H4.
  apply wp_ret. split; [done|]. eapply held_booted; [exact Hs|exact Hco|exact H4|].
  intros c. unfold kernel_holds, plus.
  repeat case_decide; subst; try done; rewrite !elem_of_cons, elem_of_nil in *; naive_solver.
Qed.

Lemma register_all_run (s : clkst) :
  clocks s = [] -> register_clks mxc_clks s = Ret (tt, with_clocks (registered (system_rev (hw s))) s).
Proof.
  intros B. rewrite register_clks_run.
  - rewrite B. unfold registered. exact eq_refl.
  - apply (bool_decide_eq_true_1 (NoDup mxc_clks)). vm_compute. reflexivity.
  - intros c _. rewrite B. apply not_elem_of_nil.
Qed.

Lemma boot_mem_rates h m :
  only_rates (early_mem (muxes_of h)) m ->
  only_rates (boot_mem (muxes_of h))
    (reparent spll_clk (osc (selects (readl (regs h) CCM_CSCR) CCM_CSCR_SP))
      (reparent mpll_clk (osc (selects (readl (regs h) CCM_CSCR) CCM_CSCR_MCU)) m)).
Proof. intros H. unfold boot_mem. apply only_rates_reparent, only_rates_reparent, H. Qed.

#[local] Opaque registered early_mem boot_mem.

Lemma wp_wr_calm v a s (Q : unit -> clkst -> Prop) :
  a <> CCM_CSCR -> (forall s', calm s s' -> Q tt s') -> wp (wr v a) Q s.
Proof. intros Ha HQ. apply wp_wr, HQ, calm_hw; [by apply muxes_other|done..]. Qed.

Lemma wp_spll_off s (Q : unit -> clkst -> Prop) :
  tree_inv (clk_mem s) -> (forall s', calm s s' -> Q tt s') -> wp (do_disable spll_clk) Q s.
Proof.
  intros Hm HQ.
  destruct (tree_object _ spll_clk disable (Some p_clk_spll_disable) Hm) as (k & k0 & Hk & E1 & E);
    [vm_compute; reflexivity|]. apply static_of_fields in E as (_ & _ & _ & _ & _ & E & _). rewrite E1 in E.
  unfold do_disable. apply wp_bind, (wp_clk_at _ k); [done|]. rewrite E. apply wp_bind, wp_ret, wp_run.
  do 2 eexists. split; [by apply (mx27_disable_run p_clk_spll_disable spll_clk k)|].
  apply HQ, calm_hw; [|done..]. apply muxes_clear. right. by left.
Qed.

(** [mxc_clocks_init] from the state of the early code. *)
Lemma init_spec s : early_inv s -> wp mxc_clocks_init (fun ret s' => ret = 0 /\ booted s') s.
Proof.
  intros [Hp Hrev]. pose proof Hp as (A & B & L). unfold mxc_clocks_init. apply wp_bind, wp_run. do 2 eexists.
  split; [by apply register_all_run|]. set (s1 := with_clocks _ s).
  assert (H1 : at_point early_mem (registered (system_rev (hw s))) s1) by (split_and!; [exact A|reflexivity|exact L]).
  apply wp_bind, wp_wr_calm; [done|]. intros s2 C2. apply wp_bind, wp_wr_calm; [done|]. intros s3 C3.
  assert (C13 := calm_trans _ _ _ C2 C3). pose proof (at_point_calm _ _ _ _ H1 C13) as H3.
  apply wp_bind, wp_spll_off; [by eapply at_point_tree; [apply tree_early|]|]. intros s4 C4.
  assert (C14 := calm_trans _ _ _ C13 C4). pose proof (at_point_calm _ _ _ _ H1 C14) as (A4 & B4 & L4).
  assert (system_rev (hw s4) = system_rev (hw s)) as E4 by apply C14.
  apply wp_bind, wp_rd, wp_bind. rewrite osc_if. apply wp_store_parent, wp_bind. rewrite osc_if.
  apply wp_store_parent, wp_bind. unfold wp at 1, store_rate, modify. cbv beta iota.
  apply settle_spec; [|apply enables_spec].
  split; [split_and!|].
  - apply only_rates_rate. exact (boot_mem_rates (hw s4) _ A4).
  - change (clocks s4 = registered (system_rev (hw s4))). by rewrite E4.
  - exact L4.
  - unfold rev_ok. change (system_rev (hw s4) = CHIP_REV_1_0 \/ system_rev (hw s4) = CHIP_REV_2_0). by rewrite E4.
Qed.

(** C6: Bring-up.  From reset, with any contents of the clock registers, the
    early timer code and [mxc_clocks_init] return (the serial PLL locks, the chip
    revision is one the code knows): every clock of the table is registered, but on
    revision 1.0 for the first two of the main PLL clocks, which that revision lacks; each clock
    has the source its multiplexer bit selects, each registered clock other than
    the output pin runs at the rate its recalc method derives from its parent's
    rate and the divider fields, and exactly the four clocks the kernel needs are
    held. *)
Theorem mxc_clocks_boot h :
  spll_locks h -> rev_known h ->
  exists timer_rate s1 s2,
    clk_early_get_timer_rate (boot h) = Ret (timer_rate, s1) /\ mxc_clocks_init s1 = Ret (0, s2) /\ booted s2.
Proof.
  intros Hl Hr. pose proof (early_spec h Hl Hr) as W. apply wp_run in W as (r & s1 & E1 & H1).
  pose proof (init_spec s1 H1) as W. apply wp_run in W as (ret & s2 & E2 & -> & H2).
  exists r, s1, s2. done.
Qed.
