(* ===== verification/Mx27SetRate.v ===== *)
(** * Rates in operation

    [clk_set_rate] on the i.MX27: after bring-up, whatever clients enable, disable
    and set, every registered clock but the output pin keeps the rate that its
    parent and its divider imply, and the use counts stay exact.  Three clocks are
    excepted, for which the code sets something else than it records (the CPU
    clock, the output pin, and the video clock before TO2). *)

From stdpp Require Import base gmap list strings relations.
From Stdlib Require Import ZArith Lia.
From S2P Require Import Prelude ClkFramework ClkCounts ClkEnable ClkClients ClkRates CrmRegs.
From S2P Require Import Mx27ClockTable Mx27Clock Mx27ClockLaws Mx27Rates Mx27Tree Mx27Boot Mx27Init.

Notation clk_set_rate := (ClkFramework.clk_set_rate (Meth := mx27_methods)).

(** ** Changing rates only *)

(** The accounts do not depend on rates. *)
Lemma holding_rates u (s s' : clkst) :
  holding mx27_rank u s -> only_rates (clk_mem s) (clk_mem s') -> tree_inv (clk_mem s') ->
  spll_locks (hw s') -> holding mx27_rank u s'.
Proof.
  intros (_ & Hc & Hr & Hu & _) Ho Ht Hl. split_and!; [by apply tree_ranked| | |done|done].
  - intros c k' Hk'. destruct (only_rates_back _ _ _ _ Ho Hk') as (k & Hk & ->). cbn [upd_rate usecount].
    rewrite (Hc _ _ Hk). f_equal. apply pulled_same. by apply counts_only_rates.
  - intros c k' Hk'. destruct (only_rates_back _ _ _ _ Ho Hk') as (k & Hk & ->). exact (Hr _ _ Hk).
Qed.

(** A step that changed rates, and registers other than the multiplexers. *)
Lemma operational_calm u s s' :
  operational u s -> calm s s' -> (forall c, c ∈ clocks s' -> c <> clko_clk -> coherent s' c) -> operational u s'.
Proof.
  intros (A & B & _ & D & E & F & G) (C1 & C2 & C3 & C4 & C5 & C6) Hco.
  assert (tree_inv (clk_mem s')) as Ht by (by eapply tree_only_rates).
  split_and!.
  - by rewrite C2, C5.
  - rewrite C4. etrans; [exact B|by apply only_rates_links].
  - done.
  - eapply holding_rates; [exact D|done|done|]. unfold spll_locks. rewrite C6. apply D.
  - done.
  - unfold rev_ok. by rewrite C5.
  - rewrite C4. intros c. rewrite (G c). by apply methods_only_rates.
Qed.

Lemma operational_tree_ok u s : operational u s -> tree_ok mx27_rank s.
Proof. intros (A & _ & _ & _ & E & _). apply tree_tree_ok; [done|]. rewrite A. apply registered_object. Qed.

Lemma calm_tree_ok s s' : calm s s' -> tree_ok mx27_rank s -> tree_inv (clk_mem s) -> tree_ok mx27_rank s'.
Proof.
  intros (A & B & _) (_ & H & _) Ht. assert (tree_inv (clk_mem s')) as Ht' by (by eapply tree_only_rates).
  apply tree_tree_ok; [done|]. intros c Hc. rewrite B in Hc. destruct (H c Hc) as [k Hk].
  destruct (tree_lookup _ _ _ Ht Hk) as (k0 & E & _). exists k0. exact E.
Qed.

(** ** Propagation restores coherence *)

(** Whether a clock descends from another can be decided along its parents. *)
Lemma descends_dec m l (t x : clkp) : tree_inv m -> tc (child m l) t x \/ ~ tc (child m l) t x.
Proof.
  intros Ht. remember (mx27_rank x) as n eqn:En. revert x En.
  induction n as [n IH] using lt_wf_ind. intros x ->.
  assert (forall y, child m l y x -> (y = t \/ tc (child m l) t y) \/ ~ (y = t \/ tc (child m l) t y)) as Hdec.
  { intros y (_ & k & Hk & Hp). destruct (tree_parent _ _ _ _ Ht Hk Hp) as [_ Hlt].
    destruct (decide (y = t)) as [->|Hne]; [by left; left|]. destruct (IH _ Hlt y eq_refl) as [H|H]; [by left; right|].
    right. by intros [?|?]. }
  assert ((exists y, child m l y x) \/ ~ exists y, child m l y x) as [[y Hy]|Hno].
  { destruct (decide (x ∈ l)) as [Hl|Hl]; [|right; by intros (y & H & _)].
    destruct (look m x) as [k|] eqn:E; [|right; intros (y & _ & k & Hk & _); unfold look in E; congruence].
    destruct (parent k) as [p|] eqn:Ep; [left; exists p; split; eauto|].
    right. intros (y & _ & k' & Hk' & Hp'). unfold look in E. congruence. }
  - destruct (Hdec y Hy) as [[->|H]|H]; [left; by apply tc_once|left; by eapply tc_r|].
    right. intros Htc. destruct (tc_last _ _ _ _ Htc) as (z & Hz & Hzx).
    rewrite (child_parent _ _ _ _ _ Hzx Hy) in Hz. apply H. apply rtc_tc in Hz as [->|?]; auto.
  - right. intros Htc. destruct (tc_last _ _ _ _ Htc) as (z & _ & Hzx). eauto.
Qed.

Lemma not_own_descendant m l (c : clkp) : tree_inv m -> ~ tc (child m l) c c.
Proof.
  intros Ht Htc. pose proof (tc_child_rank m l mx27_rank ltac:(intros; by eapply tree_parent) _ _ Htc). lia.
Qed.

(** When only the children of [t] are out of step, propagating from [t] brings
    every clock back. *)
Lemma propagate_restores u s s1 t :
  operational u s -> calm s s1 -> is_Some (clk_mem s1 !! t) ->
  (forall x, x ∈ clocks s1 -> x <> clko_clk -> ~ child (clk_mem s1) (clocks s1) t x -> coherent s1 x) ->
  wp (propagate_rate (CPtr t)) (fun _ s' => operational u s' /\ propagated t s1 s') s1.
Proof.
  intros Hop C1 Ht Hco.
  assert (tree_ok mx27_rank s1) as Hok.
  { eapply calm_tree_ok; [exact C1|by eapply operational_tree_ok|apply Hop]. }
  eapply wp_mono; [by apply (propagate_rate_spec (Sig := mx27_sig) (Laws := mx27_recalc_laws) mx27_rank t s1)|].
  intros [] s2 P. split; [|done]. pose proof (propagated_calm _ _ _ P) as C2.
  eapply operational_calm; [exact Hop|by eapply calm_trans|]. intros x Hx Hn.
  assert (clocks s2 = clocks s1) as Ecl by apply C2. rewrite Ecl in Hx.
  destruct (descends_dec (clk_mem s1) (clocks s1) t x) as [D|D]; [eapply tree_only_rates; [apply C1|apply Hop]|..].
  - by apply P.
  - eapply (coherent_frame t x s1 s2 P); [|done|].
    + apply Hco; [done|done|]. intros H. by apply D, tc_once.
    + intros k p Hk Hp Htc. apply D. eapply tc_r; [exact Htc|]. split; eauto.
Qed.

(** ** The divider fields *)

Lemma readl_set_field r a off w v :
  0 <= off -> 0 <= w -> 0 <= v < 2 ^ w -> off + w <= 32 ->
  readl (writel (set_field (readl r a) off w v) a r) a = set_field (readl r a) off w v.
Proof.
  intros. rewrite readl_writel_eq. apply u32_small, set_field_range; try lia. apply readl_range.
Qed.

(** The divider of peripheral clock [i] matters to that clock only. *)
Lemma perdiv_same h i d f x k w :
  0 <= i <= 3 -> 0 <= d < 64 -> (f = p_clk_perclkx_recalc -> 0 <= id k <= 3 /\ id k <> i) ->
  mx27_recalc_val f x k w (with_regs (writel (set_field (readl (regs h) CCM_PCDR1) (8 * i) 6 d) CCM_PCDR1) h) =
  mx27_recalc_val f x k w h.
Proof.
  intros Hi Hd Hf. unfold mx27_recalc_val, to2. cbn [with_regs regs system_rev].
  destruct f; repeat case_decide; rewrite ?readl_writel_ne by done; try done.
  destruct (Hf eq_refl) as [Hk Hne]. rewrite readl_set_field by lia. by rewrite field_set_field_ne by lia.
Qed.

(** On a TO2 part the divider of the video clock matters to that clock only. *)
Lemma vpudiv_same h d f x k w :
  to2 h = true -> 0 <= d < 64 -> f <> p_clk_vpu_recalc ->
  mx27_recalc_val f x k w (with_regs (writel (set_field (readl (regs h) CCM_PCDR0) 10 6 d) CCM_PCDR0) h) =
  mx27_recalc_val f x k w h.
Proof.
  intros H2 Hd Hf. unfold mx27_recalc_val, to2 in *. cbn [with_regs regs system_rev].
  destruct f; repeat case_decide; rewrite ?readl_writel_ne by done; try done; rewrite ?H2;
    rewrite readl_set_field by lia; by rewrite field_set_field_ne by lia.
Qed.

(** ** The table of [set_rate] methods *)

(** The clocks with a method, and what the method relies on. *)
Definition set_rate_okb (x : muxes) (c : clkid) : bool :=
  match look (boot_mem x) c with
  | Some k =>
      match set_rate k with
      | None => true
      | Some p_clk_cpu_set_rate => bool_decide (c = cpu_clk)
      | Some p_clk_clko_set_rate => bool_decide (c = clko_clk)
      | Some p_clk_vpu_set_rate => bool_decide (c = vpu_clk) && bool_decide (recalc k = Some p_clk_vpu_recalc)
      | Some p_clk_perclkx_set_rate =>
          (0 <=? id k) && (id k <=? 3) && bool_decide (c = per_clk (Z.to_nat (id k)))
          && bool_decide (recalc k = Some p_clk_perclkx_recalc)
      | Some p_clk_parent_set_rate =>
          match parent k with
          | Some p =>
              bool_decide (recalc k = None)
              && match look (boot_mem x) p with
                 | Some kp =>
                     match set_rate kp with Some p_clk_perclkx_set_rate => true | _ => false end
                     && forallb (fun y =>
                          match look (boot_mem x) y with
                          | Some ky => negb (bool_decide (parent ky = Some p)) || bool_decide (y = c)
                          | None => true
                          end) (map fst clk_objects)
                 | None => false
                 end
          | None => false
          end
      end
  | None => true
  end.

Lemma set_rate_table x : forallb (set_rate_okb x) (map fst clk_objects) = true.
Proof. destruct x as [[] [] [] [] [] [] []]; vm_compute; reflexivity. Qed.

(** Only the peripheral clocks use [PCDR1], only the video clock its divider. *)
Lemma divider_owner m (c : clkp) k :
  tree_inv m -> m !! c = Some k ->
  (recalc k = Some p_clk_perclkx_recalc -> 0 <= id k <= 3 /\ c = per_clk (Z.to_nat (id k))) /\
  (recalc k = Some p_clk_vpu_recalc -> c = vpu_clk).
Proof.
  intros Hm Hk. destruct (tree_lookup _ _ _ Hm Hk) as (k0 & H0 & (_ & _ & _ & E & _ & _ & Ei)%static_of_fields).
  apply (mem0_forall (fun c k => bool_decide
    ((recalc k = Some p_clk_perclkx_recalc -> 0 <= id k <= 3 /\ c = per_clk (Z.to_nat (id k))) /\
     (recalc k = Some p_clk_vpu_recalc -> c = vpu_clk)))) in H0; [|vm_compute; reflexivity].
  apply bool_decide_eq_true in H0. rewrite E, Ei. exact H0.
Qed.

(** A clock in operation has the methods and links of the booted tree. *)
Lemma operational_like u s (c : clkp) k :
  operational u s -> clk_mem s !! c = Some k ->
  exists kb, look (boot_mem (muxes_of (hw s))) c = Some kb /\ In (c : clkid) (map fst clk_objects) /\
    set_rate k = set_rate kb /\ parent k = parent kb /\ id k = id kb /\ recalc k = recalc kb.
Proof.
  intros (_ & B & _ & _ & E & _ & G) Hk. specialize (B c). specialize (G c).
  destruct (tree_lookup _ _ _ E Hk) as (k0 & H0 & (_ & _ & _ & E4 & _ & _ & E7)%static_of_fields).
  set (m := boot_mem (muxes_of (hw s))) in *.
  assert (tree_inv m) as Tm by apply tree_boot. clearbody m.
  rewrite Hk in B, G. apply fmap_Some in B as (kb & Hkb & EB). rewrite Hkb in G. injection G as G. injection EB as E1 E2.
  pose proof (tree_static_eq _ _ _ _ Tm Hkb H0) as (_ & _ & _ & F4 & _ & _ & F7)%static_of_fields.
  exists kb. split; [exact Hkb|]. split; [by apply (mem0_in c k0)|]. split_and!; congruence.
Qed.

(** [s1] is [s] with the rate [r] set in clock [c] and its divider programmed. *)
Record rate_set (c : clkp) (r : Z) (s s1 : clkst) : Prop := mkRateSet {
  rs_calm : calm s s1;
  rs_rate : exists k, clk_mem s1 !! c = Some k /\ rate k = r;
  rs_frame : forall x, x <> c -> clk_mem s1 !! x = clk_mem s !! x;
  rs_own : coherent s1 c;
  rs_dividers : forall x k f w, x <> c -> clk_mem s !! x = Some k -> recalc k = Some f ->
    mx27_recalc_val f x k w (hw s1) = mx27_recalc_val f x k w (hw s);
}.

(** A clock whose record, parent and divider are as before. *)
Lemma coherent_others s s1 (x : clkp) :
  clk_mem s1 !! x = clk_mem s !! x ->
  (forall k p, clk_mem s !! x = Some k -> parent k = Some p -> clk_mem s1 !! p = clk_mem s !! p) ->
  (forall k f w, clk_mem s !! x = Some k -> recalc k = Some f ->
     mx27_recalc_val f x k w (hw s1) = mx27_recalc_val f x k w (hw s)) ->
  coherent s x -> coherent s1 x.
Proof.
  intros Hx Hp Hd Hco k p kp Hk Hpk Hkp. rewrite Hx in Hk. rewrite (Hp k p Hk Hpk) in Hkp.
  rewrite (Hco k p kp Hk Hpk Hkp). unfold expected_rate. destruct (recalc k) as [f|] eqn:Ef; [|done].
  symmetry. by apply Hd.
Qed.

Lemma rate_set_intro u s (c : clkp) k v a r :
  operational u s -> clk_mem s !! c = Some k -> a <> CCM_CSCR ->
  (forall f p kp, recalc k = Some f -> parent k = Some p -> clk_mem s !! p = Some kp ->
     mx27_recalc_val f c (upd_rate r k) (rate kp) (with_regs (writel v a) (hw s)) = r) ->
  is_Some (recalc k) ->
  (forall x kx f w, x <> c -> clk_mem s !! x = Some kx -> recalc kx = Some f ->
     mx27_recalc_val f x kx w (with_regs (writel v a) (hw s)) = mx27_recalc_val f x kx w (hw s)) ->
  rate_set c r s (set_reg_rate c k v a r s).
Proof.
  intros Hop Hk Ha Hown [f Hf] Hd. assert (tree_inv (clk_mem s)) as Ht by apply Hop. unfold set_reg_rate. split.
  - split_and!; try done; cbn [clk_mem with_mem with_hw hw]; [by apply only_rates_insert|by apply muxes_other].
  - eexists. split; [apply lookup_insert_eq|done].
  - intros x Hx. cbn [clk_mem with_mem with_hw]. by rewrite lookup_insert_ne by done.
  - intros k' p kp. cbn [clk_mem with_mem with_hw hw]. rewrite lookup_insert_eq. intros [= <-] Hp.
    cbn [parent upd_rate] in Hp. destruct (tree_parent _ _ _ _ Ht Hk Hp) as [_ Hlt].
    rewrite lookup_insert_ne by (intros ->; lia). intros Hkp. unfold expected_rate. cbn [recalc upd_rate rate].
    rewrite Hf. symmetry. by apply (Hown f p kp).
  - exact Hd.
Qed.

(** [_clk_perclkx_set_rate] and [_clk_vpu_set_rate] set a rate or refuse it. *)
Definition sets (c : clkp) (r : Z) (s : clkst) (m : M clkst Z) : Prop :=
  m s = Ret (- EINVAL, s) \/ exists s1, m s = Ret (0, s1) /\ rate_set c r s s1.

Lemma operational_parent u s (c : clkp) k :
  operational u s -> clk_mem s !! c = Some k -> c ∉ [ckih_clk; ckil_clk; clko_clk] ->
  exists p kp, parent k = Some p /\ clk_mem s !! p = Some kp.
Proof.
  intros Hop Hk Hc. assert (tree_inv (clk_mem s)) as Ht by apply Hop.
  pose proof (proj2 Ht c k Hk) as H. unfold parent_ok in H. apply andb_true_iff in H as [_ H].
  apply orb_true_iff in H as [H|H]; [|by apply bool_decide_eq_true in H].
  apply bool_decide_eq_true in H as [p Hp]. destruct (tree_parent _ _ _ _ Ht Hk Hp) as [[kp Hkp] _]. eauto.
Qed.

Lemma per_sets u s (c : clkp) k r :
  operational u s -> clk_mem s !! c = Some k -> recalc k = Some p_clk_perclkx_recalc -> 0 < r ->
  sets c r s (_clk_perclkx_set_rate c r).
Proof.
  intros Hop Hk Hf Hr. assert (tree_inv (clk_mem s)) as Ht by apply Hop.
  destruct (proj1 (divider_owner _ _ _ Ht Hk) Hf) as [Hid Hc].
  destruct (operational_parent u s c k Hop Hk) as (p & kp & Hp & Hkp).
  { rewrite Hc, !elem_of_cons, elem_of_nil. naive_solver. }
  unfold sets. rewrite (perclkx_set_rate_run c k p kp r s Hk Hp Hkp Hid Hr). case_bool_decide as Hd; [|by left].
  right. eexists. split; [reflexivity|]. eapply rate_set_intro; [exact Hop|done|done| |by rewrite Hf|].
  - intros f p' kp' Hf' Hp' Hkp'. simplify_eq. unfold mx27_recalc_val. cbn [with_regs regs id upd_rate].
    rewrite readl_set_field, field_set_field by lia. replace (rate kp / r - 1 + 1) with (rate kp / r) by lia. apply Hd.
  - intros x kx f w Hne Hkx Hfx. apply perdiv_same; [done|lia|]. intros ->.
    destruct (proj1 (divider_owner _ _ _ Ht Hkx) Hfx) as [Hidx Hx]. split; [done|]. intros E. apply Hne. by rewrite Hc, Hx, E.
Qed.

Lemma vpu_sets u s (c : clkp) k r :
  operational u s -> clk_mem s !! c = Some k -> recalc k = Some p_clk_vpu_recalc -> 0 < r -> to2 (hw s) = true ->
  sets c r s (_clk_vpu_set_rate c r).
Proof.
  intros Hop Hk Hf Hr H2. assert (tree_inv (clk_mem s)) as Ht by apply Hop.
  pose proof (proj2 (divider_owner _ _ _ Ht Hk) Hf) as Hc.
  destruct (operational_parent u s c k Hop Hk) as (p & kp & Hp & Hkp).
  { rewrite Hc, !elem_of_cons, elem_of_nil. naive_solver. }
  unfold sets. rewrite (vpu_set_rate_run c k p kp r s Hk Hp Hkp Hr). case_bool_decide as Hd; [|by left].
  right. eexists. split; [reflexivity|]. eapply rate_set_intro; [exact Hop|done|done| |by rewrite Hf|].
  - intros f p' kp' Hf' Hp' Hkp'. simplify_eq. unfold mx27_recalc_val, to2 in *. cbn [with_regs regs system_rev].
    rewrite H2, readl_set_field, field_set_field, (Z.mul_comm 2) by lia.
    replace (u32 (rate kp * 2) / r - 4 + 4) with (u32 (rate kp * 2) / r) by lia. apply Hd.
  - intros x kx f w Hne Hkx Hfx. apply vpudiv_same; [done|lia|]. intros ->.
    apply Hne. by rewrite Hc, (proj2 (divider_owner _ _ _ Ht Hkx) Hfx).
Qed.

(** ** Setting a rate through the framework *)

(** The clocks whose rate can be set and is then in step with the hardware. *)
Definition settable (h : mx27hw) (c : clkid) : Prop :=
  c <> cpu_clk /\ c <> clko_clk /\ (c = vpu_clk -> to2 h = true).

(** What a call of [clk_set_rate] did. *)
Definition set_done (u : clkp -> Z) (c : clkp) (r : Z) (s : clkst) (ret : Z) (s' : clkst) : Prop :=
  operational u s' /\ (ret = 0 -> exists k, clk_mem s' !! c = Some k /\ rate k = r) /\
  (ret <> 0 -> ret = - EINVAL /\ s' = s).

Lemma refused u c r s : operational u s -> set_done u c r s (- EINVAL) s.
Proof. intros H. split; [done|]. by split. Qed.

(** A method that sets its own clock, with the propagation that follows. *)
Lemma direct_set u s (c : clkp) r m :
  operational u s -> sets c r s m -> c <> clko_clk ->
  wp (ret ← m; (if ret =? 0 then propagate_rate (CPtr c) else mret tt);; mret ret) (set_done u c r s) s.
Proof.
  intros Hop Hm Hc. destruct Hm as [E|(s1 & E & [C1 Hr Hf Ho Hd])]; apply wp_bind, wp_run; do 2 eexists; (split; [exact E|]).
  - apply wp_bind, wp_ret, wp_ret. by apply refused.
  - apply wp_bind. assert (is_Some (clk_mem s1 !! c)) as Hs by (destruct Hr as (k & Hk & _); eauto).
    eapply wp_mono; [apply (propagate_restores u s s1 c); [done|done|done|]|].
    + intros x Hx Hn Hch. destruct (decide (x = c)) as [->|Hne]; [done|].
      assert (x ∈ clocks s) as Hx' by (destruct C1 as (_ & E2 & _); by rewrite <- E2).
      apply (coherent_others s s1 x); [by apply Hf| |by intros; apply Hd|by apply Hop].
      intros k p Hk Hp. apply Hf. intros ->. apply Hch. split; [done|]. exists k. split; [by rewrite Hf|done].
    + intros [] s2 [Hop2 (_ & Hfr & _)]. apply wp_ret. split; [done|]. split; [|by intros []].
      intros _. destruct Hr as (k & Hk & Hrk). exists k. split; [|done]. rewrite Hfr; [done|].
      eapply not_own_descendant, tree_only_rates; [apply C1|apply Hop].
Qed.

(** The rate [r] set in the parent [p] of a clock [c] without a divider, and then
    in [c]: only the children of [c] can be out of step, when [p] has no other
    child. *)
Lemma parent_set_coherent u s s1 (c p : clkp) k r :
  operational u s -> rate_set p r s s1 -> clk_mem s !! c = Some k -> recalc k = None -> parent k = Some p -> c <> p ->
  (forall y ky, clk_mem s !! y = Some ky -> parent ky = Some p -> y = c) ->
  let s2 := with_mem (fun m => <[c := upd_rate r k]> m) s1 in
  calm s s2 /\
  forall x, x ∈ clocks s2 -> x <> clko_clk -> ~ child (clk_mem s2) (clocks s2) c x -> coherent s2 x.
Proof.
  intros Hop [C1 (kp1 & Hkp1 & Hr1) Hf Ho Hd] Hk Hrc Hp Hcp Honly s2.
  assert (clk_mem s1 !! c = Some k) as Hk1 by (by rewrite Hf).
  assert (forall x, x <> c -> clk_mem s2 !! x = clk_mem s1 !! x) as Hf2.
  { intros x Hx. cbn [s2 clk_mem with_mem]. by rewrite lookup_insert_ne by done. }
  assert (clk_mem s2 !! c = Some (upd_rate r k)) as Hk2 by apply lookup_insert_eq.
  assert (calm s s2) as C2.
  { eapply calm_trans; [exact C1|]. split_and!; try done. cbn [s2 clk_mem with_mem]. by apply only_rates_insert. }
  split; [done|]. intros x Hx Hnx Hch.
  assert (x ∈ clocks s) as Hx' by (destruct C2 as (_ & E2 & _); by rewrite <- E2).
  destruct (decide (x = c)) as [->|Hne].
  { intros k' p' kp' Hk' Hp' Hkp'. rewrite Hk2 in Hk'. injection Hk' as <-. cbn [parent upd_rate] in Hp'.
    rewrite Hp in Hp'. injection Hp' as <-. rewrite Hf2, Hkp1 in Hkp' by done. injection Hkp' as <-.
    unfold expected_rate. cbn [recalc upd_rate rate]. by rewrite Hrc, Hr1. }
  assert (forall kx, clk_mem s !! x = Some kx -> parent kx <> Some c) as Hnc.
  { intros kx Hkx Hpx. apply Hch. split; [done|].
    destruct C2 as (O2 & _). destruct (only_rates_lookup _ _ _ _ O2 Hkx) as (kx' & Hkx' & Ex).
    exists kx'. split; [done|]. by rewrite Ex. }
  destruct (decide (x = p)) as [->|Hnp].
  - apply (coherent_others s1 s2 p); [by apply Hf2| |done|done].
    intros k' p' Hk' Hp'. apply Hf2. intros ->. rewrite Hkp1 in Hk'. injection Hk' as <-.
    destruct C1 as (O1 & _). destruct (only_rates_back _ _ _ _ O1 Hkp1) as (kp0 & Hkp0 & Ep).
    apply (Hnc kp0 Hkp0). by rewrite Ep in Hp'.
  - apply (coherent_others s s2 x); [by rewrite Hf2, Hf| |intros k' f w Hk' Hf'; exact (Hd x k' f w Hnp Hk' Hf')|by apply Hop].
    intros k' p' Hk' Hp'. rewrite Hf2 by (intros ->; by eapply Hnc). apply Hf. intros ->. apply Hne. by eapply Honly.
Qed.

(** [_clk_parent_set_rate]: the divider is the parent's, and no other clock
    depends on it. *)
Lemma parent_set u s (c p : clkp) k kp r n :
  operational u s -> clk_mem s !! c = Some k -> recalc k = None -> parent k = Some p -> c <> clko_clk ->
  clk_mem s !! p = Some kp -> set_rate kp = Some p_clk_perclkx_set_rate -> sets p r s (_clk_perclkx_set_rate p r) ->
  (forall y ky, clk_mem s !! y = Some ky -> parent ky = Some p -> y = c) ->
  wp (ret ← _clk_parent_set_rate (mx27_set_rate n) c r; (if ret =? 0 then propagate_rate (CPtr c) else mret tt);; mret ret)
    (set_done u c r s) s.
Proof.
  intros Hop Hk Hrc Hp Hn Hkp Hset Hm Honly. assert (tree_inv (clk_mem s)) as Ht by apply Hop.
  destruct (tree_parent _ _ _ _ Ht Hk Hp) as [_ Hlt]. assert (c <> p) as Hcp by (intros ->; lia).
  assert (_clk_parent_set_rate (mx27_set_rate n) c r s =
    (ret ← _clk_perclkx_set_rate p r; (if ret =? 0 then store_rate c r else mret tt);; mret ret) s) as E.
  { unfold _clk_parent_set_rate. rewrite (run_bind _ _ _ _ _ (clk_at_run c k s Hk)), Hp. cbn [deref].
    rewrite (run_bind _ _ _ p s) by reflexivity. rewrite (run_bind _ _ _ _ _ (clk_at_run p kp s Hkp)), Hset. cbn [deref].
    rewrite (run_bind _ _ _ p_clk_perclkx_set_rate s) by reflexivity. by destruct n. }
  apply wp_bind. unfold wp at 1. rewrite E. clear E. fold (wp (A := Z) (S := clkst)).
  destruct Hm as [E|(s1 & E & Hset1)].
  - rewrite (run_bind _ _ _ _ _ E). change (wp (mret tt;; mret (- EINVAL)) (set_done u c r s) s).
    apply wp_bind, wp_ret, wp_ret. by apply refused.
  - rewrite (run_bind _ _ _ _ _ E). cbn [Z.eqb].
    assert (clk_mem s1 !! c = Some k) as Hk1 by (by rewrite (rs_frame _ _ _ _ Hset1)).
    rewrite (run_bind _ _ _ _ _ (store_rate_run c k r s1 Hk1)).
    destruct (parent_set_coherent u s s1 c p k r Hop Hset1 Hk Hrc Hp Hcp Honly) as [C2 Hco].
    set (s2 := with_mem (fun m => <[c := upd_rate r k]> m) s1) in *.
    change (wp (propagate_rate (CPtr c);; mret 0) (set_done u c r s) s2).
    assert (clk_mem s2 !! c = Some (upd_rate r k)) as Hk2 by apply lookup_insert_eq.
    apply wp_bind. eapply wp_mono; [by apply (propagate_restores u s s2 c); [..|rewrite Hk2|]|].
    intros [] s3 [Hop3 (_ & Hfr & _)]. apply wp_ret. split; [done|]. split; [|by intros []].
    intros _. exists (upd_rate r k). split; [|done]. rewrite Hfr; [done|].
    eapply not_own_descendant, tree_only_rates; [apply C2|apply Hop].
Qed.

(** The entry of the table for a clock in operation. *)
Lemma operational_table u s (c : clkp) k :
  operational u s -> clk_mem s !! c = Some k ->
  match set_rate k with
  | None => True
  | Some p_clk_cpu_set_rate => c = cpu_clk
  | Some p_clk_clko_set_rate => c = clko_clk
  | Some p_clk_vpu_set_rate => c = vpu_clk /\ recalc k = Some p_clk_vpu_recalc
  | Some p_clk_perclkx_set_rate => recalc k = Some p_clk_perclkx_recalc
  | Some p_clk_parent_set_rate =>
      recalc k = None /\
      exists p kp, parent k = Some p /\ clk_mem s !! p = Some kp /\ set_rate kp = Some p_clk_perclkx_set_rate /\
        forall y ky, clk_mem s !! y = Some ky -> parent ky = Some p -> y = c
  end.
Proof.
  intros Hop Hk. destruct (operational_like u s c k Hop Hk) as (kb & Hkb & Hin & E1 & E2 & E3 & E4).
  pose proof (proj1 (forallb_forall _ _) (set_rate_table (muxes_of (hw s))) c Hin) as H.
  unfold set_rate_okb in H. rewrite Hkb in H. rewrite E1. destruct (set_rate kb) as [[]|] eqn:Es; try done.
  - by apply bool_decide_eq_true in H.
  - rewrite !andb_true_iff in H. destruct H as [_ H]. apply bool_decide_eq_true in H. congruence.
  - destruct (parent kb) as [p|] eqn:Ep; [|done]. apply andb_true_iff in H as [H1 H2]. apply bool_decide_eq_true in H1.
    split; [congruence|]. destruct (tree_parent _ _ _ _ (proj1 (proj2 (proj2 (proj2 (proj2 Hop))))) Hk E2) as [[kp Hkp] _].
    destruct (operational_like u s p kp Hop Hkp) as (kpb & Hkpb & _ & F1 & _). rewrite Hkpb in H2.
    apply andb_true_iff in H2 as [H2 H3]. exists p, kp. split; [done|]. split; [done|]. split.
    + rewrite F1. by destruct (set_rate kpb) as [[]|].
    + intros y ky Hy Hyp. destruct (operational_like u s y ky Hop Hy) as (kyb & Hkyb & Hiny & _ & G2 & _).
      rewrite forallb_forall in H3. specialize (H3 y Hiny). cbv beta in H3. rewrite Hkyb in H3.
      apply orb_true_iff in H3 as [H3|H3]; [|by apply bool_decide_eq_true in H3].
      apply negb_true_iff, bool_decide_eq_false in H3. congruence.
  - apply andb_true_iff in H as [H1 H2]. apply bool_decide_eq_true in H1, H2. split; [done|congruence].
  - by apply bool_decide_eq_true in H.
Qed.

Lemma clk_set_rate_done u s (c : clkp) r :
  operational u s -> is_Some (clk_mem s !! c) -> settable (hw s) c -> 0 <= r ->
  wp (clk_set_rate (CPtr c) r) (set_done u c r s) s.
Proof.
  intros Hop [k Hk] (Hc1 & Hc2 & Hc3) Hr. pose proof (operational_table u s c k Hop Hk) as Htab.
  cbn [ClkFramework.clk_set_rate]. apply wp_bind, (wp_clk_at _ k); [done|].
  destruct (set_rate k) as [f|] eqn:Ef; [|apply wp_ret; by apply refused].
  destruct (Z.eqb_spec r 0) as [->|Hr0]; [apply wp_ret; by apply refused|].
  unfold call_set_rate, mx27_methods.
  destruct f; cbn [mx27_set_rate]; try done.
  - apply (direct_set u s c r (s ← get; _clk_perclkx_set_rate c r)); [done| |done].
    exact (per_sets u s c k r Hop Hk Htab ltac:(lia)).
  - destruct Htab as (Hrc & p & kp & Hp & Hkp & Hset & Honly). pose proof (operational_table u s p kp Hop Hkp) as Htab.
    rewrite Hset in Htab.
    apply (parent_set u s c p k kp r (size (clk_mem s))); try done.
    exact (per_sets u s p kp r Hop Hkp Htab ltac:(lia)).
  - destruct Htab as [Hc Hrc]. apply (direct_set u s c r (s ← get; _clk_vpu_set_rate c r)); [done| |done].
    exact (vpu_sets u s c k r Hop Hk Hrc ltac:(lia) (Hc3 Hc)).
Qed.

(** C34: Setting rates.  On a machine in operation, [clk_set_rate] on any clock but
    the CPU clock, the output pin and, on the first silicon, the VPU clock returns.  Either it succeeds, and then the clock runs
    at the requested rate and the machine is again in operation (every registered
    clock but the output pin has the rate its parent and its divider imply, the
    use counts are exact, links and methods are untouched); or it returns -EINVAL
    and nothing has changed. *)
Theorem clk_set_rate_keeps_operation u s (c : clkp) r :
  operational u s -> is_Some (clk_mem s !! c) -> settable (hw s) c -> 0 <= r ->
  exists ret s', clk_set_rate (CPtr c) r s = Ret (ret, s') /\ set_done u c r s ret s'.
Proof. intros H1 H2 H3 H4. apply wp_run. by apply clk_set_rate_done. Qed.

(** ** Runs *)

(** A walk of enables or disables keeps the machine in operation. *)
Lemma operational_walk u u' s s' (P : clkp -> Prop) :
  operational u s -> walk (Laws := mx27_rate_laws (hw s)) P s s' -> counted u' ∅ (clk_mem s') ->
  (forall x, 0 <= u' x) -> operational u' s'.
Proof.
  intros (A & B & C & D & E & F & G) (Ho & Hr & _ & Hcl & _ & (Hl & Ht & RS)) Hc Hu.
  pose proof RS as (RS1 & RS2 & _). split_and!.
  - rewrite Hcl, A. unfold hw in *. by rewrite RS1.
  - rewrite <- RS2. etrans; [exact B|by apply only_counts_links].
  - intros c Hin Hn. rewrite Hcl in Hin. by eapply coherent_gated; [| |apply C| |].
  - split_and!; [by apply tree_ranked|done|done|done|done].
  - done.
  - unfold rev_ok. by rewrite <- RS1.
  - rewrite <- RS2. intros c. rewrite (G c). by apply methods_only_counts.
Qed.

Lemma operational_holding u s : operational u s -> holding (Laws := mx27_rate_laws (hw s)) mx27_rank u s.
Proof.
  intros (_ & _ & _ & (A & B & C & D & L) & E & _). split_and!; [done..|]. split_and!; [exact L|done|reflexivity].
Qed.

(** A call of a client, with the holdings before and after it; holdings are
    limited to 27 of a clock, so that the counters do not wrap. *)
Inductive board_step : (clkp -> Z) * clkst -> (clkp -> Z) * clkst -> Prop :=
| board_enable u s c s' :
    is_Some (clk_mem s !! c) -> (forall x, plus u c 1 x <= 27) ->
    ClkFramework.clk_enable (CPtr c) s = Ret (0, s') -> board_step (u, s) (plus u c 1, s')
| board_disable u s c s' :
    is_Some (clk_mem s !! c) -> 1 <= u c ->
    ClkFramework.clk_disable (CPtr c) s = Ret (tt, s') -> board_step (u, s) (plus u c (-1), s')
| board_set_rate u s c r ret s' :
    is_Some (clk_mem s !! c) -> settable (hw s) c -> 0 <= r ->
    clk_set_rate (CPtr c) r s = Ret (ret, s') -> board_step (u, s) (u, s').

Lemma board_step_operational u s u' s' : board_step (u, s) (u', s') -> operational u s -> operational u' s'.
Proof.
  intros H Hop. pose proof (operational_holding u s Hop) as Hh. inversion H; subst.
  - assert (fits (plus u c 1) ∅ (clk_mem s)) as Hf by (eapply links_fits; [apply Hop|done]).
    assert (W := clk_enable_spec (Laws := mx27_rate_laws (hw s)) mx27_rank c u s Hh ltac:(eassumption) Hf).
    apply wp_run in W as (a & s1 & E & W & C).
    assert (Ret (0, s') = Ret (a, s1)) as [= <- <-] by (etrans; [symmetry; eassumption|exact E]).
    eapply operational_walk; [exact Hop|exact W|exact C|]. intros x. apply plus_nonneg. apply Hh.
  - assert (W := clk_disable_spec (Laws := mx27_rate_laws (hw s)) mx27_rank c u s Hh ltac:(eassumption) ltac:(eassumption)).
    apply wp_run in W as (a & s1 & E & W & C).
    assert (Ret (tt, s') = Ret (a, s1)) as [= <- <-] by (etrans; [symmetry; eassumption|exact E]).
    eapply operational_walk; [exact Hop|exact W|exact C|]. intros x. apply minus_nonneg; [apply Hh|done].
  - assert (W := clk_set_rate_done u' s c r Hop ltac:(eassumption) ltac:(eassumption) ltac:(eassumption)).
    apply wp_run in W as (a & s1 & E & W & _).
    assert (Ret (ret, s') = Ret (a, s1)) as [= <- <-] by (etrans; [symmetry; eassumption|exact E]). exact W.
Qed.

Lemma board_run_operational u s u' s' : rtc board_step (u, s) (u', s') -> operational u s -> operational u' s'.
Proof.
  remember (u, s) as a eqn:Ea. remember (u', s') as b eqn:Eb. intros H. revert u s Ea u' s' Eb.
  induction H as [|a [u1 s1] b Hstep Hrtc IH]; intros u s -> u' s' Eb Hs; [by simplify_eq|subst].
  eapply IH; [done|done|]. by eapply board_step_operational.
Qed.

(** C35: Rates in every reachable state.  From the state bring-up leaves, clients enable
    clocks (at most 27 holds on each, so that no count wraps), disable clocks they hold, and
    set the rate of any clock but those whose methods are wrong (the CPU clock, the output pin
    and, on the first silicon, the VPU clock), in any order: then every registered clock
    but the output pin has the rate that its recalc method derives from its
    parent's rate and the divider registers, the use counts account exactly for
    what the kernel and the clients hold, and the tree is the one the multiplexers
    select. *)
Theorem board_rates_in_step s u' s' :
  booted s -> rtc board_step (kernel_holds, s) (u', s') -> operational u' s'.
Proof. intros Hb Hr. by eapply board_run_operational. Qed.

(** ** Changing the source of a running clock *)

Notation clk_set_parent := (ClkFramework.clk_set_parent (Meth := mx27_methods)).

(** The demand on [x] when the running clock [c] has its parent changed. *)
Lemma pulled_reparent m (c x : clkp) k p p' :
  m !! c = Some k -> parent k = Some p -> 0 < usecount k ->
  pulled ∅ (<[c := upd_parent (Some p') k]> m) x = pulled ∅ m x + ind (Some p') x - ind (Some p) x.
Proof.
  intros Hk Hp Hu. unfold pulled. rewrite (msum_insert ∅ _ m c k) by done. rewrite decide_False by set_solver.
  unfold pulls, links. cbn [usecount upd_parent parent secondary]. rewrite Hp, (proj2 (Z.ltb_lt 0 (usecount k)) Hu). lia.
Qed.

Lemma store_parent_run (c : clkp) (k : clk) q (s : clkst) :
  clk_mem s !! c = Some k -> store_parent c q s = Ret (tt, with_mem (fun m => <[c := upd_parent q k]> m) s).
Proof. intros Hc. unfold store_parent, modify, with_mem. by rewrite (alter_lookup _ _ k). Qed.

Lemma cpu_set_parent_run (c : clkp) (s : clkst) k (p p' : clkp) :
  clk_mem s !! c = Some k -> parent k = Some p -> p <> p' -> to2 (hw s) = true ->
  p' = mpll_main_clk 0 \/ p' = mpll_main_clk 1 ->
  exists s1, _clk_cpu_set_parent c p' s = Ret (0, s1) /\ clocks s1 = clocks s /\
    clk_mem s1 = <[c := upd_parent (Some p') k]> (clk_mem s).
Proof.
  intros Hk Hp Hne H2 Hp'. unfold to2 in H2.
  assert (forall v a, exists s1, (wr v a;; store_parent c (Some p');; mret 0) s = Ret (0, s1) /\ clocks s1 = clocks s /\
    clk_mem s1 = <[c := upd_parent (Some p') k]> (clk_mem s)) as E.
  { intros v a. set (s1 := with_hw (Sig := mx27_sig) (with_regs (writel v a) (hw s)) s). eexists.
    rewrite (run_bind _ _ _ tt s1) by reflexivity.
    rewrite (run_bind _ _ _ _ _ (store_parent_run c k (Some p') s1 Hk)). done. }
  unfold _clk_cpu_set_parent. rewrite rd_bind, (run_bind _ _ _ _ _ (clk_at_run c k s Hk)), Hp.
  rewrite decide_False by congruence. rewrite rev_bind, H2. repeat case_decide; try apply E.
  exfalso. by destruct Hp'.
Qed.

(** The new rate of the clock and of its descendants. *)
Lemma recalc_tree (c p : clkp) (s : clkst) k kp :
  tree_inv (clk_mem s) -> (forall x, x ∈ clocks s -> is_Some (clk_mem0 !! x)) ->
  clk_mem s !! c = Some k -> parent k = Some p -> clk_mem s !! p = Some kp ->
  wp ((match recalc k with Some g => call_recalc g c | None => pk ← clk_at p; store_rate c (rate pk) end);;
      propagate_rate (CPtr c)) (fun _ s' => only_rates (clk_mem s) (clk_mem s')) s.
Proof.
  intros Ht Hreg Hk Hp Hkp. apply wp_bind. eapply wp_mono with (P := fun _ s1 =>
    only_rates (clk_mem s) (clk_mem s1) /\ clocks s1 = clocks s /\ is_Some (clk_mem s1 !! c)).
  - destruct (recalc k) as [f|] eqn:Ef.
    + eapply wp_mono; [eapply (recalc_law (RecalcLaws := mx27_recalc_laws)); [done|done|done|by eapply tree_recalc_dom]|].
      intros [] s1 (h & _ & ->). split; [by apply only_rates_insert|]. split; [done|].
      cbn [clk_mem with_hw with_mem]. by rewrite lookup_insert_eq.
    + apply wp_bind, (wp_clk_at _ kp); [done|]. unfold wp. rewrite (store_rate_run c k (rate kp) s Hk).
      split; [by apply only_rates_insert|]. split; [done|]. cbn [clk_mem with_mem]. by rewrite lookup_insert_eq.
  - intros [] s1 (O1 & C1 & Hc). assert (tree_inv (clk_mem s1)) as Ht1 by (by eapply tree_only_rates).
    eapply wp_mono; [apply (propagate_rate_spec (Sig := mx27_sig) (Laws := mx27_recalc_laws) mx27_rank c s1); [|done]|].
    + apply tree_tree_ok; [done|]. intros x. rewrite C1. apply Hreg.
    + intros [] s2 (_ & _ & O2 & _). by etrans.
Qed.

(** [clk_set_parent] once the method of clock [c] has stored the new parent. *)
Lemma reparent_run (c p' : clkp) f (s s1 : clkst) k kp' :
  tree_inv (clk_mem s) -> (forall x, x ∈ clocks s -> is_Some (clk_mem0 !! x)) ->
  clk_mem s !! c = Some k -> set_parent k = Some f -> c <> p' -> clk_mem s !! p' = Some kp' ->
  parent_ok c (Some p') = true -> mx27_set_parent f c p' s = Ret (0, s1) -> clocks s1 = clocks s ->
  clk_mem s1 = <[c := upd_parent (Some p') k]> (clk_mem s) ->
  exists s', clk_set_parent (CPtr c) (CPtr p') s = Ret (0, s') /\
    only_rates (<[c := upd_parent (Some p') k]> (clk_mem s)) (clk_mem s').
Proof.
  intros Ht Hreg Hk Hsp Hcp Hkp' Hpo E1 C1 M1.
  assert (clk_mem s1 !! c = Some (upd_parent (Some p') k)) as Hk1 by (rewrite M1; apply lookup_insert_eq).
  set (s2 := with_mem (fun m => <[c := upd_parent (Some p') (upd_parent (Some p') k)]> m) s1).
  assert (clk_mem s2 = <[c := upd_parent (Some p') k]> (clk_mem s)) as M2
    by (cbn [s2 clk_mem with_mem]; rewrite M1; apply insert_insert_eq).
  assert (clk_mem s2 !! c = Some (upd_parent (Some p') k)) as Hk2 by (rewrite M2; apply lookup_insert_eq).
  assert (tree_inv (clk_mem s2)) as Ht2 by (rewrite M2, <- (alter_lookup _ _ k) by done; by apply tree_set_parent).
  assert (wp (clk_set_parent (CPtr c) (CPtr p')) (fun ret s' => ret = 0 /\ only_rates (clk_mem s2) (clk_mem s')) s) as W.
  { cbn [ClkFramework.clk_set_parent]. apply wp_bind, (wp_clk_at _ k); [done|]. rewrite Hsp. apply wp_bind. unfold wp at 1.
    cbn [call_set_parent mx27_methods]. rewrite E1. cbn [Z.eqb].
    apply wp_bind, wp_bind. unfold wp at 1. rewrite (store_parent_run c _ (Some p') s1 Hk1). fold s2.
    apply wp_bind, (wp_clk_at c (upd_parent (Some p') k) s2); [exact Hk2|]. eapply wp_mono.
    - apply (recalc_tree c p' s2 _ kp' Ht2); [|exact Hk2|done|rewrite M2; by rewrite lookup_insert_ne].
      intros x Hx. change (clocks s2) with (clocks s1) in Hx. rewrite C1 in Hx. by apply Hreg.
    - intros [] s3 O3. by apply wp_ret. }
  apply wp_run in W as (ret & s' & E & -> & O). exists s'. rewrite M2 in O. done.
Qed.

(** The accounts after the parent of a running clock was replaced. *)
Lemma reparent_miscounts u m m' (c p p' : clkp) k kp kp' :
  counted u ∅ m -> m !! c = Some k -> parent k = Some p -> 0 < usecount k -> p <> p' ->
  m !! p = Some kp -> m !! p' = Some kp' -> only_rates (<[c := upd_parent (Some p') k]> m) m' ->
  parent <$> m' !! c = Some (Some p') /\
  (forall x, usecount <$> m' !! x = usecount <$> m !! x) /\
  usecount kp = u p + pulled ∅ m' p + 1 /\ usecount kp' = u p' + pulled ∅ m' p' - 1.
Proof.
  intros Hcnt Hk Hp Hu Hne Hkp Hkp' O.
  assert (forall x, pulled ∅ m' x = pulled ∅ m x + ind (Some p') x - ind (Some p) x) as Hpull.
  { intros x. rewrite <- (pulled_same ∅ _ _ x (counts_only_rates _ _ O)). by apply pulled_reparent. }
  split_and!.
  - destruct (only_rates_lookup _ _ c (upd_parent (Some p') k) O) as (k' & Hk' & Ek); [apply lookup_insert_eq|].
    rewrite Hk', Ek. done.
  - intros x. pose proof (counts_only_rates _ _ O x) as H. apply (f_equal (fmap fst)) in H.
    rewrite <- !option_fmap_compose in H. etrans; [symmetry; exact H|].
    destruct (decide (x = c)) as [->|Hx]; [by rewrite lookup_insert_eq, Hk|by rewrite lookup_insert_ne].
  - rewrite Hpull, (Hcnt _ _ Hkp). unfold ind. rewrite (decide_True (P := Some p = Some p)), decide_False by congruence. lia.
  - rewrite Hpull, (Hcnt _ _ Hkp'). unfold ind. rewrite (decide_True (P := Some p' = Some p')), decide_False by congruence. lia.
Qed.

(** Changing the source of a running clock.  [clk_set_parent] of the CPU clock
    to the other output of the MCU PLL, while the CPU clock is in use, succeeds
    and changes the link, but moves no use count: the old parent is left with one
    reference too many and the new parent with one too few, so that the accounts
    of the other theorems no longer hold (and a later disable releases a clock
    that was never enabled). *)
Theorem clk_set_parent_moves_no_count u s k (p p' : clkp) kp kp' :
  operational u s -> to2 (hw s) = true ->
  clk_mem s !! (cpu_clk : clkp) = Some k -> set_parent k = Some p_clk_cpu_set_parent -> 0 < usecount k ->
  parent k = Some p -> p <> p' -> p' = mpll_main_clk 0 \/ p' = mpll_main_clk 1 ->
  clk_mem s !! p = Some kp -> clk_mem s !! p' = Some kp' ->
  exists s', clk_set_parent (CPtr (cpu_clk : clkp)) (CPtr p') s = Ret (0, s') /\
    parent <$> clk_mem s' !! (cpu_clk : clkp) = Some (Some p') /\
    (forall c, usecount <$> clk_mem s' !! c = usecount <$> clk_mem s !! c) /\
    usecount kp = u p + pulled ∅ (clk_mem s') p + 1 /\
    usecount kp' = u p' + pulled ∅ (clk_mem s') p' - 1.
Proof.
  intros Hop H2 Hk Hsp Hu Hp Hne Hp' Hkp Hkp'. pose proof Hop as (Hcl & _ & _ & (_ & Hcnt & _) & Ht & _).
  destruct (cpu_set_parent_run cpu_clk s k p p' Hk Hp Hne H2 Hp') as (s1 & E1 & C1 & M1).
  destruct (reparent_run cpu_clk p' p_clk_cpu_set_parent s s1 k kp') as (s' & E & O); try done.
  - intros x. rewrite Hcl. apply registered_object.
  - by destruct Hp' as [-> | ->].
  - destruct Hp' as [-> | ->]; vm_compute; reflexivity.
  - exists s'. split; [exact E|]. by apply (reparent_miscounts u (clk_mem s) (clk_mem s') cpu_clk p p' k kp kp').
Qed.
