(* ===== verification/Mx27Witness.v ===== *)
(** * A board

    The theorems applied to one machine: an i.MX27 TO2 as its boot loader leaves
    it (399 MHz MCU PLL, 240 MHz serial PLL), brought up by the code.  Also a
    two-clock machine with a method that fails, for the error path no i.MX27
    clock can take. *)

From stdpp Require Import base gmap list strings relations.
From Stdlib Require Import ZArith Lia.
From S2P Require Import Prelude ClkFramework ClkCounts ClkEnable ClkClients ClkRates CrmRegs.
From S2P Require Import Mx27ClockTable Mx27Clock Mx27ClockLaws Mx27Rates Mx27Tree Mx27Boot Mx27Init.
From S2P Require Import Mx27SetRate.

(** The registers the clock code reads; the serial PLL locks after three polls. *)
Definition board : mx27hw := mkHw (list_to_map [
  (CCM_CSCR, 0x33F30307); (CCM_MPCTL0, 0x00331C23); (CCM_SPCTL0, 0x040C2403);
  (CCM_PCDR0, 0x130410C3); (CCM_PCDR1, 0x09030208); (IO_ADDRESS SYSCTRL_BASE_ADDR, 0x10000000)])
  0 false (Some 3%nat).

Definition run_state {S A} (m : M S A) (s : S) : S :=
  match m s with Ret (_, s') => s' | Crash _ => s end.

Lemma run_state_ret {S A} (m : M S A) (s : S) (a : A) :
  match m s with Ret (b, _) => b = a | Crash _ => False end -> m s = Ret (a, run_state m s).
Proof. unfold run_state. destruct (m s) as [[b s1]|]; [by intros ->|done]. Qed.

(** The board after bring-up, and after a UART was opened and an SSI was opened
    and closed again. *)
Definition board_early : clkst := run_state clk_early_get_timer_rate (boot board).
Definition board_up : clkst := run_state mxc_clocks_init board_early.
Definition board_uart : clkst := run_state (ClkFramework.clk_enable (CPtr (uart1_clk 0 : clkp))) board_up.
Definition board_ssi : clkst := run_state (ClkFramework.clk_enable (CPtr (ssi1_clk 0 : clkp))) board_uart.
Definition board_ssi_off : clkst := run_state (ClkFramework.clk_disable (CPtr (ssi1_clk 0 : clkp))) board_ssi.

(** A clock object of a state; the second argument only serves addresses that
    hold none. *)
Definition no_clk : clk := mkClk None EmptyString 0 None None 0 0 0 0 None None None None None None.
Definition obj (s : clkst) (c : clkp) : clk := default no_clk (look (clk_mem s) c).

Lemma obj_look (s : clkst) (c : clkp) : bool_decide (is_Some (look (clk_mem s) c)) = true -> clk_mem s !! c = Some (obj s c).
Proof. intros [k Hk]%bool_decide_eq_true. unfold obj. rewrite Hk. exact Hk. Qed.

Lemma board_locks : spll_locks board.
Proof. by exists 3%nat. Qed.

Lemma board_rev : rev_known board.
Proof. done. Qed.

Lemma board_booted : booted board_up.
Proof.
  destruct (proj1 (wp_run _ _ _) (early_spec board board_locks board_rev)) as (r & s1 & E1 & H1).
  destruct (proj1 (wp_run _ _ _) (init_spec s1 H1)) as (ret & s2 & E2 & _ & H2).
  unfold board_up, board_early, run_state. rewrite E1, E2. exact H2.
Qed.

(** ** Client calls on the board *)

Lemma kernel_holds_le c : kernel_holds c <= 1.
Proof. unfold kernel_holds. case_decide; lia. Qed.

Lemma plus_le u c n b x : (forall y, u y <= b) -> 0 <= n -> plus u c n x <= b + n.
Proof. intros H Hn. unfold plus. specialize (H x). case_decide; lia. Qed.

Definition uart_holds : clkp -> Z := plus kernel_holds (uart1_clk 0) 1.
Definition ssi_holds : clkp -> Z := plus uart_holds (ssi1_clk 0) 1.

Lemma uart_run : ClkFramework.clk_enable (CPtr (uart1_clk 0 : clkp)) board_up = Ret (0, board_uart).
Proof. unfold board_uart. apply run_state_ret. vm_compute. reflexivity. Qed.
Lemma ssi_run : ClkFramework.clk_enable (CPtr (ssi1_clk 0 : clkp)) board_uart = Ret (0, board_ssi).
Proof. unfold board_ssi. apply run_state_ret. vm_compute. reflexivity. Qed.
Lemma ssi_off_run : ClkFramework.clk_disable (CPtr (ssi1_clk 0 : clkp)) board_ssi = Ret (tt, board_ssi_off).
Proof. unfold board_ssi_off. apply run_state_ret. vm_compute. reflexivity. Qed.

Lemma board_fits : fits uart_holds ∅ (clk_mem board_up).
Proof.
  eapply links_fits; [apply board_booted|]. intros c.
  pose proof (plus_le kernel_holds (uart1_clk 0) 1 1 c kernel_holds_le ltac:(lia)). unfold uart_holds. lia.
Qed.

Lemma uart_step : client_step (kernel_holds, board_up) (uart_holds, board_uart).
Proof.
  apply (step_enable (Sig := mx27_sig) kernel_holds board_up (uart1_clk 0) board_uart); [|apply board_fits|apply uart_run].
  eexists. apply obj_look. vm_compute. reflexivity.
Qed.

Lemma board_holding : holding mx27_rank kernel_holds board_up.
Proof. apply board_booted. Qed.

Lemma ssi_steps : rtc client_step (kernel_holds, board_up) (plus ssi_holds (ssi1_clk 0) (-1), board_ssi_off).
Proof.
  eapply rtc_l; [apply uart_step|]. eapply rtc_l; [apply (step_enable (Sig := mx27_sig) uart_holds board_uart (ssi1_clk 0) board_ssi); [| |apply ssi_run]|].
  - eexists. apply obj_look. vm_compute. reflexivity.
  - eapply (links_fits (muxes_of (hw board_up))).
    + etrans; [apply board_booted|]. apply only_counts_links.
      apply (client_step_inv (Sig := mx27_sig) mx27_rank _ _ _ _ uart_step board_holding).
    + intros c. pose proof (plus_le kernel_holds (uart1_clk 0) 1 1 c kernel_holds_le ltac:(lia)) as H1.
      unfold plus at 1. fold uart_holds in H1. case_decide; lia.
  - apply rtc_once, (step_disable (Sig := mx27_sig) ssi_holds board_ssi (ssi1_clk 0) board_ssi_off); [| |apply ssi_off_run].
    + eexists. apply obj_look. vm_compute. reflexivity.
    + vm_compute. done.
Qed.

(** ** Witnesses *)

Lemma board_clk (s : clkst) (c : clkp) :
  bool_decide (is_Some (look (clk_mem s) c)) = true -> is_Some (clk_mem s !! c).
Proof. intros H. eexists. by apply obj_look. Qed.

Lemma usecount_accounts_witness :
  clk_mem board_ssi_off !! (ipg_clk : clkp) = Some (obj board_ssi_off ipg_clk) /\
  usecount (obj board_ssi_off ipg_clk) =
    plus ssi_holds (ssi1_clk 0) (-1) ipg_clk + pulled ∅ (clk_mem board_ssi_off) ipg_clk /\
  0 <= usecount (obj board_ssi_off ipg_clk) <= 127 /\
  (usecount (obj board_ssi_off ipg_clk) = 127 -> exists s2, ClkFramework.clk_enable (CPtr (ipg_clk : clkp)) board_ssi_off = Ret (0, s2) /\
     (usecount <$> clk_mem s2 !! (ipg_clk : clkp)) = Some (-128)).
Proof.
  assert (H : clk_mem board_ssi_off !! (ipg_clk : clkp) = Some (obj board_ssi_off ipg_clk)).
  { apply obj_look. vm_compute. reflexivity. }
  split; [exact H|].
  exact (usecount_accounts (Sig := mx27_sig) mx27_rank kernel_holds board_up _ board_ssi_off ipg_clk _ board_holding ssi_steps H).
Defined.

Lemma running_links_run_witness : 0 < usecount (obj board_ssi_off (uart1_clk 1)).
Proof.
  apply (running_links_run (Sig := mx27_sig) mx27_rank kernel_holds board_up (plus ssi_holds (ssi1_clk 0) (-1)) board_ssi_off (uart1_clk 0)
    (obj board_ssi_off (uart1_clk 0)) (uart1_clk 1)); [apply board_holding|apply ssi_steps|..].
  - apply obj_look. vm_compute. reflexivity.
  - vm_compute. reflexivity.
  - right. vm_compute. reflexivity.
  - apply obj_look. vm_compute. reflexivity.
Defined.

Lemma clk_enable_disable_restores_witness :
  exists ret s1, ClkFramework.clk_enable (CPtr (uart1_clk 0 : clkp)) board_up = Ret (ret, s1) /\
    (ret = 0 -> exists s2, ClkFramework.clk_disable (CPtr (uart1_clk 0 : clkp)) s1 = Ret (tt, s2) /\
       clk_mem s2 = clk_mem board_up).
Proof.
  apply (clk_enable_disable_restores (Sig := mx27_sig) mx27_rank kernel_holds board_up (uart1_clk 0)).
  - apply board_holding.
  - apply board_clk. vm_compute. reflexivity.
  - apply board_fits.
Defined.

Lemma usecounts_history_free_witness : clk_mem board_uart = clk_mem board_ssi_off.
Proof.
  apply (usecounts_history_free (Sig := mx27_sig) mx27_rank kernel_holds board_up uart_holds board_uart
    (plus ssi_holds (ssi1_clk 0) (-1)) board_ssi_off).
  - apply board_holding.
  - apply rtc_once, uart_step.
  - apply ssi_steps.
  - intros c. unfold ssi_holds, plus. repeat case_decide; lia.
Defined.

Lemma mxc_clocks_boot_witness :
  exists timer_rate s1 s2,
    clk_early_get_timer_rate (boot board) = Ret (timer_rate, s1) /\ mxc_clocks_init s1 = Ret (0, s2) /\ booted s2.
Proof. apply (mxc_clocks_boot board); [apply board_locks|apply board_rev]. Defined.

Lemma perclkx_set_rate_correct_witness :
  exists s', _clk_perclkx_set_rate (per_clk 1) 26600000 board_up = Ret (0, s') /\
    field (readl (regs (hw s')) CCM_PCDR1) 8 6 = 9.
Proof.
  destruct (perclkx_set_rate_correct (per_clk 1) (obj board_up (per_clk 1)) (mpll_main_clk 1)
    (obj board_up (mpll_main_clk 1)) 26600000 board_up) as [H _].
  - apply obj_look. vm_compute. reflexivity.
  - vm_compute. reflexivity.
  - apply obj_look. vm_compute. reflexivity.
  - vm_compute. split; discriminate.
  - lia.
  - destruct H as (s' & E & _ & F & _); [vm_compute; repeat split; discriminate|].
    exists s'. split; [exact E|]. exact F.
Defined.

Lemma perclkx_round_then_set_witness :
  exists v s', _clk_perclkx_round_rate (per_clk 1) 48000000 board_up = Ret (v, board_up) /\
    0 < v /\ (266000000 <= 64 * 48000000 -> v <= 48000000) /\
    _clk_perclkx_set_rate (per_clk 1) v board_up = Ret (0, s').
Proof.
  destruct (perclkx_round_then_set (per_clk 1) (obj board_up (per_clk 1)) (mpll_main_clk 1)
    (obj board_up (mpll_main_clk 1)) 48000000 board_up) as (v & s' & A & B & C & D & _).
  - apply obj_look. vm_compute. reflexivity.
  - vm_compute. reflexivity.
  - apply obj_look. vm_compute. reflexivity.
  - vm_compute. split; discriminate.
  - lia.
  - vm_compute. split; [discriminate|reflexivity].
  - exists v, s'. split; [exact A|]. split; [exact B|]. split; [|exact D]. intros _. apply C.
    vm_compute. discriminate.
Defined.

Definition board_vpu : clkst := run_state (_clk_vpu_set_rate vpu_clk 133000000) board_up.

Lemma vpu_set_rate_correct_witness :
  clk_mem board_vpu !! (vpu_clk : clkp) = Some (upd_rate 133000000 (obj board_up vpu_clk)) /\
  field (readl (regs (hw board_vpu)) CCM_PCDR0) 10 6 = 0.
Proof.
  destruct (vpu_set_rate_correct vpu_clk (obj board_up vpu_clk) (mpll_main_clk 1)
    (obj board_up (mpll_main_clk 1)) 133000000 board_up board_vpu) as (A & B & _).
  - apply obj_look. vm_compute. reflexivity.
  - vm_compute. reflexivity.
  - apply obj_look. vm_compute. reflexivity.
  - lia.
  - vm_compute. reflexivity.
  - unfold board_vpu. apply run_state_ret. vm_compute. reflexivity.
  - split; [exact A|]. rewrite B. vm_compute. reflexivity.
Defined.

Lemma pll_rate_exact_witness : pll_rate 26000000 0x00331C23 = pll_exact 26000000 7 35 51 0.
Proof.
  apply (pll_rate_exact 26000000 0x00331C23).
  - vm_compute. split; discriminate.
  - vm_compute. discriminate.
Defined.

Definition board_cpu : clkst := run_state (_clk_cpu_set_rate cpu_clk 133000000) board_up.

Lemma cpu_set_rate_misses_cscr_witness :
  readl (regs (hw board_cpu)) CCM_CSCR = readl (regs (hw board_up)) CCM_CSCR /\
  rate (obj board_cpu cpu_clk) = 133000000.
Proof.
  destruct (cpu_set_rate_misses_cscr cpu_clk (obj board_up cpu_clk) (mpll_main_clk 1)
    (obj board_up (mpll_main_clk 1)) 133000000 board_up board_cpu) as (A & _ & B & _).
  - apply obj_look. vm_compute. reflexivity.
  - vm_compute. reflexivity.
  - apply obj_look. vm_compute. reflexivity.
  - lia.
  - vm_compute. reflexivity.
  - unfold board_cpu. apply run_state_ret. vm_compute. reflexivity.
  - vm_compute. discriminate.
  - split; [exact B|]. vm_compute. reflexivity.
Defined.

(** The output pin carries the peripheral bus clock, at a quarter of its rate. *)
Definition board_pin : clkst :=
  run_state (ClkFramework.clk_set_parent (CPtr (clko_clk : clkp)) (CPtr (ipg_clk : clkp))) board_up.
Definition board_pin4 : clkst := run_state (_clk_clko_set_rate clko_clk 8312500) board_pin.

Lemma clko_recalc_ignores_divider_witness :
  field (readl (regs (hw board_pin4)) CCM_PCDR0) 22 3 = 3 /\
  mx27_recalc_val p_clk_clko_recalc clko_clk (upd_rate 8312500 (obj board_pin clko_clk)) 33250000 (hw board_pin4) =
  mx27_recalc_val p_clk_clko_recalc clko_clk (obj board_pin clko_clk) 33250000 (hw board_pin).
Proof.
  destruct (clko_recalc_ignores_divider clko_clk (obj board_pin clko_clk) ipg_clk
    (obj board_pin ipg_clk) 8312500 board_pin board_pin4) as (A & B).
  - apply obj_look. vm_compute. reflexivity.
  - vm_compute. reflexivity.
  - apply obj_look. vm_compute. reflexivity.
  - lia.
  - unfold board_pin4. apply run_state_ret. vm_compute. reflexivity.
  - split; [rewrite A; vm_compute; reflexivity|].
    assert (E : rate (obj board_pin ipg_clk) = 33250000) by (vm_compute; reflexivity).
    rewrite E in B. exact B.
Defined.

Lemma perclkx_round_loses_rate_witness :
  _clk_perclkx_round_rate (per_clk 1) 29555555 board_up = Ret (26600000, board_up).
Proof.
  destruct (perclkx_round_loses_rate (per_clk 1) (obj board_up (per_clk 1)) (mpll_main_clk 1)
    (obj board_up (mpll_main_clk 1)) 9 board_up) as (A & _).
  - apply obj_look. vm_compute. reflexivity.
  - vm_compute. reflexivity.
  - apply obj_look. vm_compute. reflexivity.
  - vm_compute. split; discriminate.
  - vm_compute. split; [discriminate|reflexivity].
  - lia.
  - vm_compute. discriminate.
  - assert (E : rate (obj board_up (mpll_main_clk 1)) = 266000000) by (vm_compute; reflexivity).
    rewrite E in A. exact A.
Defined.

(** ** A machine whose second clock refuses to start *)

Definition toy_sig : ClkSig := {|
  clkp := nat;
  recalc_fn := unit; set_rate_fn := unit; round_rate_fn := unit;
  enable_fn := Z; disable_fn := unit; set_parent_fn := unit;
  hwst := unit;
|}.

(** An enable method is the value it returns. *)
Definition toy_ret (f : @enable_fn toy_sig) : Z := f.
Definition toy_methods : @ClkMethods toy_sig := {|
  call_recalc := fun _ _ => mret tt;
  call_set_rate := fun _ _ _ => mret 0;
  call_round_rate := fun _ _ _ => mret 0;
  call_enable := fun f _ s => Ret (toy_ret f, s);
  call_disable := fun _ _ => mret tt;
  call_set_parent := fun _ _ _ => mret 0;
|}.

Definition toy_laws : EnableLaws toy_sig toy_methods.
Proof.
  refine {| st_ok := fun _ _ => True |}; [done|..].
  - intros f c k s _ _ _. apply wp_ret. exists tt. split; [by destruct s as [? ? ? []]|done].
  - intros f c k s _ _ _. apply wp_ret. exists tt. split; [by destruct s as [? ? ? []]|done].
Defined.

Definition toy_clk (p : option nat) (ret : Z) : @clk toy_sig :=
  @mkClk toy_sig None EmptyString 0 p None 0 0 0 0 None None None (Some ret) (Some tt) None.

Definition toy_tree : @clkst toy_sig :=
  @mkClkst toy_sig ({[ 0%nat := toy_clk None 0; 1%nat := toy_clk (Some 0%nat) (- EBUSY) ]} : gmap nat (@clk toy_sig))
    [1%nat; 0%nat] ∅ tt.

Definition toy_failed : @clkst toy_sig :=
  run_state (@ClkFramework.clk_enable toy_sig toy_methods (@CPtr toy_sig 1%nat)) toy_tree.

Lemma toy_lookup (c : nat) k :
  @clk_mem toy_sig toy_tree !! c = Some k ->
  (c = 0%nat /\ k = toy_clk None 0) \/ (c = 1%nat /\ k = toy_clk (Some 0%nat) (- EBUSY)).
Proof.
  cbn. rewrite lookup_insert. case_decide; [intros [= <-]; by left|].
  intros [-> <-]%lookup_singleton_Some. by right.
Qed.

Lemma toy_holding : @holding toy_sig toy_methods toy_laws (fun c => c) (fun _ => 0) toy_tree.
Proof.
  split_and!.
  - intros c k [[-> ->]|[-> ->]]%toy_lookup; split_and!; try (by intros p).
    + cbn. lia.
    + vm_compute. lia.
    + intros p [= <-]. split; [eexists; reflexivity|lia].
  - apply counted_idle. by intros c k [[-> ->]|[-> ->]]%toy_lookup.
  - intros c k [[-> ->]|[-> ->]]%toy_lookup; cbn; lia.
  - done.
  - done.
Qed.

Lemma clk_enable_failure_restores_witness : clk_mem toy_failed = clk_mem toy_tree.
Proof.
  apply (@clk_enable_failure_restores toy_sig toy_methods toy_laws (fun c => c) (fun _ => 0) toy_tree 1%nat (- EBUSY)).
  - apply toy_holding.
  - eexists. reflexivity.
  - intros c. unfold plus, degree, msum. cbn.
    change (map_fold _ 0 _) with (links (toy_clk None 0) c + (links (toy_clk (Some 0%nat) (- EBUSY)) c + 0)).
    unfold links, ind. repeat case_decide; lia.
  - unfold toy_failed. apply run_state_ret. vm_compute. reflexivity.
  - done.
Defined.

(** ** Rates set in operation *)

(** The display clock set while a UART is open. *)
Definition board_lcdc : clkst := run_state (clk_set_rate (CPtr (lcdc_clk 0 : clkp)) 26600000) board_uart.

Lemma lcdc_run : clk_set_rate (CPtr (lcdc_clk 0 : clkp)) 26600000 board_uart = Ret (0, board_lcdc).
Proof. unfold board_lcdc. apply run_state_ret. vm_compute. reflexivity. Qed.

Lemma lcdc_settable (h : mx27hw) : settable h (lcdc_clk 0).
Proof. by split. Qed.

Lemma clk_set_rate_keeps_operation_witness :
  exists ret s', clk_set_rate (CPtr (lcdc_clk 0 : clkp)) 26600000 board_up = Ret (ret, s') /\
    set_done kernel_holds (lcdc_clk 0) 26600000 board_up ret s'.
Proof.
  apply (clk_set_rate_keeps_operation kernel_holds board_up (lcdc_clk 0) 26600000 board_booted); [|apply lcdc_settable|lia].
  apply board_clk. vm_compute. reflexivity.
Defined.

Lemma lcdc_steps : rtc board_step (kernel_holds, board_up) (uart_holds, board_lcdc).
Proof.
  eapply rtc_l; [apply (board_enable kernel_holds board_up (uart1_clk 0) board_uart); [| |apply uart_run]|].
  - apply board_clk. vm_compute. reflexivity.
  - intros c. pose proof (plus_le kernel_holds (uart1_clk 0) 1 1 c kernel_holds_le ltac:(lia)). lia.
  - apply rtc_once, (board_set_rate uart_holds board_uart (lcdc_clk 0) 26600000 0 board_lcdc);
      [|apply lcdc_settable|lia|apply lcdc_run]. apply board_clk. vm_compute. reflexivity.
Qed.

Lemma board_rates_in_step_witness : operational uart_holds board_lcdc.
Proof. apply (board_rates_in_step board_up uart_holds board_lcdc board_booted lcdc_steps). Defined.

(** The CPU clock held by a client, and moved to the other output of the PLL. *)
Definition board_held : clkst := run_state (ClkFramework.clk_enable (CPtr (cpu_clk : clkp))) board_up.
Definition cpu_holds : clkp -> Z := plus kernel_holds cpu_clk 1.

Lemma board_held_operational : operational cpu_holds board_held.
Proof.
  apply (board_step_operational kernel_holds board_up cpu_holds board_held); [|apply board_booted].
  apply (board_enable kernel_holds board_up cpu_clk board_held).
  - apply board_clk. vm_compute. reflexivity.
  - intros c. pose proof (plus_le kernel_holds cpu_clk 1 1 c kernel_holds_le ltac:(lia)). lia.
  - unfold board_held. apply run_state_ret. vm_compute. reflexivity.
Qed.

Lemma clk_set_parent_moves_no_count_witness :
  exists p p' : clkp, p <> p' /\
  exists s', clk_set_parent (CPtr (cpu_clk : clkp)) (CPtr p') board_held = Ret (0, s') /\
    usecount (obj board_held p) = cpu_holds p + pulled ∅ (clk_mem s') p + 1 /\
    usecount (obj board_held p') = cpu_holds p' + pulled ∅ (clk_mem s') p' - 1.
Proof.
  exists (mpll_main_clk 1), (mpll_main_clk 0). split; [done|].
  destruct (clk_set_parent_moves_no_count cpu_holds board_held (obj board_held cpu_clk) (mpll_main_clk 1) (mpll_main_clk 0)
    (obj board_held (mpll_main_clk 1)) (obj board_held (mpll_main_clk 0))) as (s' & H1 & _ & _ & H2 & H3);
    [apply board_held_operational|vm_compute; reflexivity|apply obj_look; vm_compute; reflexivity|vm_compute; reflexivity
    |vm_compute; reflexivity|vm_compute; reflexivity|done|by left|apply obj_look; vm_compute; reflexivity
    |apply obj_look; vm_compute; reflexivity|].
  exists s'. split; [exact H1|]. split; [exact H2|exact H3].
Defined.
