(* ===== verification/IrqGpio.v ===== *)
(** * Interrupts and GPIO

    [plat-mxc/irq.c] (the interrupt controller), [plat-mxc/gpio.c] (the six GPIO
    ports, their pin reservations and their cascaded interrupts) and
    [mach-mx27/gpio_mux.c] (pin functions), with the parts of [kernel/irq/chip.c]
    and [arch/arm/kernel/irq.c] they are plugged into: the descriptor table and
    the flow handlers for edge and level interrupts.  A driver's action chain is
    a parameter of the flow handlers. *)

From stdpp Require Import base gmap list.
From Stdlib Require Import ZArith Lia.
From S2P Require Import Prelude CrmRegs.

(** ** Constants of the headers *)

Definition GPIO_DR : Z := 0x1C.
Definition GPIO_GDIR : Z := 0x00.
Definition GPIO_PSR : Z := 0x24.
Definition GPIO_ICR1 : Z := 0x28.
Definition GPIO_ICR2 : Z := 0x2C.
Definition GPIO_IMR : Z := 0x30.
Definition GPIO_ISR : Z := 0x34.

Definition GPIO_GIUS : Z := 0x20.
Definition GPIO_GPR : Z := 0x38.
Definition GPIO_PUEN : Z := 0x40.
Definition GPIO_OCR1 : Z := 0x04.
Definition GPIO_OCR2 : Z := 0x08.
Definition GPIO_ICONFA1 : Z := 0x0C.
Definition GPIO_ICONFA2 : Z := 0x10.
Definition GPIO_ICONFB1 : Z := 0x14.
Definition GPIO_ICONFB2 : Z := 0x18.

Definition GPIO_PORT_NUM : Z := 6.
Definition GPIO_NUM_PIN : Z := 32.
Definition MXC_MAX_GPIO_LINES : Z := GPIO_NUM_PIN * GPIO_PORT_NUM.
Definition MXC_MAX_INT_LINES : Z := 64.
Definition MXC_GPIO_BASE : Z := MXC_MAX_INT_LINES.
Definition MXC_MAX_VIRTUAL_INTS : Z := 16.
Definition MXC_MAX_EXP_IO_LINES : Z := 16.
Definition NR_IRQS : Z := MXC_MAX_INT_LINES + MXC_MAX_GPIO_LINES + MXC_MAX_EXP_IO_LINES + MXC_MAX_VIRTUAL_INTS.
Definition INT_GPIO : Z := 8.
Definition GPIO_BASE_ADDR : Z := AIPI_BASE_ADDR + 0x15000.

Definition AVIC_BASE : Z := IO_ADDRESS 0x10040000.
Definition AVIC_INTCNTL : Z := AVIC_BASE + 0x00.
Definition AVIC_NIMASK : Z := AVIC_BASE + 0x04.
Definition AVIC_INTENNUM : Z := AVIC_BASE + 0x08.
Definition AVIC_INTDISNUM : Z := AVIC_BASE + 0x0C.
Definition AVIC_INTENABLEH : Z := AVIC_BASE + 0x10.
Definition AVIC_INTENABLEL : Z := AVIC_BASE + 0x14.
Definition AVIC_INTTYPEH : Z := AVIC_BASE + 0x18.
Definition AVIC_INTTYPEL : Z := AVIC_BASE + 0x1C.
Definition AVIC_NIPRIORITY6 : Z := AVIC_BASE + 0x24.

Definition GPIO_INT_LOW_LEV : Z := 3.
Definition GPIO_INT_HIGH_LEV : Z := 2.
Definition GPIO_INT_RISE_EDGE : Z := 0.
Definition GPIO_INT_FALL_EDGE : Z := 1.

Definition IRQT_RISING : Z := 1.
Definition IRQT_FALLING : Z := 2.
Definition IRQT_BOTHEDGE : Z := 3.
Definition IRQT_HIGH : Z := 4.
Definition IRQT_LOW : Z := 8.

Definition IRQ_INPROGRESS : Z := 0x00010000.
Definition IRQ_DISABLED : Z := 0x00020000.
Definition IRQ_PENDING : Z := 0x00040000.
Definition IRQ_REPLAY : Z := 0x00080000.
Definition IRQ_WAITING : Z := 0x00200000.
Definition IRQ_MASKED : Z := 0x00800000.
Definition IRQ_NOPROBE : Z := 0x02000000.
Definition IRQ_NOREQUEST : Z := 0x04000000.
Definition IRQ_NOAUTOEN : Z := 0x08000000.
Definition IRQ_DELAYED_DISABLE : Z := 0x10000000.

Definition IRQF_VALID : Z := 1.
Definition IRQF_PROBE : Z := 2.
Definition IRQF_NOAUTOEN : Z := 4.

(** [IOMUX_TO_GPIO], [GPIO_TO_PORT], [GPIO_TO_INDEX], [MXC_IRQ_TO_GPIO]. *)
Definition MUX_IO_P : Z := 29.
Definition MUX_IO_I : Z := 24.
Definition IOMUX_TO_GPIO (pin : Z) : Z :=
  Z.shiftr (u32 pin) MUX_IO_P * GPIO_NUM_PIN +
  Z.land (Z.shiftr pin MUX_IO_I) (bit (MUX_IO_P - MUX_IO_I) - 1).
Definition GPIO_TO_PORT (n : Z) : Z := n / GPIO_NUM_PIN.
Definition GPIO_TO_INDEX (n : Z) : Z := n mod GPIO_NUM_PIN.
Definition MXC_IRQ_TO_GPIO (irq : Z) : Z := u32 (irq - MXC_GPIO_BASE).
Definition MX27_BUILD_PIN (gp gi : Z) : Z := setb (Z.shiftl gp MUX_IO_P) (Z.shiftl gi MUX_IO_I).

(** ** Data *)

(** [struct mxc_gpio_port] and the board's table of them. *)
Record mxc_gpio_port : Type := mkMxcPort {
  mp_num : Z;
  mp_base : Z;
  mp_irq : Z;
  mp_virtual_irq_start : Z;
}.

Definition mxc_gpio_ports : list mxc_gpio_port := [
  mkMxcPort 0 (IO_ADDRESS GPIO_BASE_ADDR) INT_GPIO MXC_GPIO_BASE;
  mkMxcPort 1 (IO_ADDRESS GPIO_BASE_ADDR + 0x100) INT_GPIO (MXC_GPIO_BASE + GPIO_NUM_PIN);
  mkMxcPort 2 (IO_ADDRESS GPIO_BASE_ADDR + 0x200) INT_GPIO (MXC_GPIO_BASE + GPIO_NUM_PIN * 2);
  mkMxcPort 3 (IO_ADDRESS GPIO_BASE_ADDR + 0x300) INT_GPIO (MXC_GPIO_BASE + GPIO_NUM_PIN * 3);
  mkMxcPort 4 (IO_ADDRESS GPIO_BASE_ADDR + 0x400) INT_GPIO (MXC_GPIO_BASE + GPIO_NUM_PIN * 4);
  mkMxcPort 5 (IO_ADDRESS GPIO_BASE_ADDR + 0x500) INT_GPIO (MXC_GPIO_BASE + GPIO_NUM_PIN * 5) ].

(** [struct gpio_port]; the lock serialises the operations below, which the
    model runs one at a time. *)
Record gpio_port : Type := mkPort {
  num : Z;
  base : Z;
  port_irq : Z;
  virtual_irq_start : Z;
  reserved_map : Z;
  irq_is_level_map : Z;
}.

(** Interrupt chips and flow handlers a descriptor can point to. *)
Inductive irq_chip : Type :=
| no_irq_chip
| dummy_irq_chip
| mxc_avic_chip
| gpio_irq_chip.

Inductive irq_flow : Type :=
| p_handle_bad_irq
| p_handle_edge_irq
| p_handle_level_irq
| p_mxc_gpio_mux_irq_handler.

#[global] Instance irq_chip_eq : EqDecision irq_chip.
Proof. solve_decision. Defined.
#[global] Instance irq_flow_eq : EqDecision irq_flow.
Proof. solve_decision. Defined.

(** [struct irq_desc].  [handler_data] points into [gpio_port[]]; [action] tells
    whether a driver has installed an action. *)
Record irq_desc : Type := mkDesc {
  chip : irq_chip;
  handle_irq : option irq_flow;
  status : Z;
  depth : Z;
  action : bool;
  handler_data : option Z;
}.

Record irqst : Type := mkIrqst {
  iregs : regfile;
  gports : list gpio_port;
  descs : gmap Z irq_desc;
  initialized : bool;
}.

Definition with_iregs (f : regfile -> regfile) (s : irqst) : irqst :=
  mkIrqst (f (iregs s)) (gports s) (descs s) (initialized s).
Definition with_gports (f : list gpio_port -> list gpio_port) (s : irqst) : irqst :=
  mkIrqst (iregs s) (f (gports s)) (descs s) (initialized s).
Definition with_descs (f : gmap Z irq_desc -> gmap Z irq_desc) (s : irqst) : irqst :=
  mkIrqst (iregs s) (gports s) (f (descs s)) (initialized s).

(** ** The hardware behind a register write

    A GPIO interrupt status register clears the bits that are written as one; a
    number written to the interrupt controller's enable or disable register sets
    or clears that bit of the 64-bit enable mask; other registers hold what is
    written. *)

Definition isr_regs : list Z := map (fun p => mp_base p + GPIO_ISR) mxc_gpio_ports.

Definition avic_mask (f : Z -> Z -> Z) (n : Z) (r : regfile) : regfile :=
  let n := Z.land n 0x3f in
  if n <? 32 then writel (f (readl r AVIC_INTENABLEL) (bit n)) AVIC_INTENABLEL r
  else writel (f (readl r AVIC_INTENABLEH) (bit (n - 32))) AVIC_INTENABLEH r.

Definition io_write (v a : Z) (r : regfile) : regfile :=
  if decide (a ∈ isr_regs) then writel (clear (readl r a) v) a r
  else if a =? AVIC_INTENNUM then avic_mask setb v r
  else if a =? AVIC_INTDISNUM then avic_mask clear v r
  else writel v a r.

Definition ird (a : Z) : M irqst Z := gets (fun s => readl (iregs s) a).
Definition iwr (v a : Z) : M irqst unit := modify (with_iregs (io_write v a)).

(** ** Descriptors *)

(** [irq_desc + irq]: an access past the table faults. *)
Definition desc_at (irq : Z) : M irqst irq_desc := s ← get; deref (descs s !! irq).
Definition store_desc (irq : Z) (d : irq_desc) : M irqst unit := modify (with_descs <[irq := d]>).

Definition upd_chip (c : irq_chip) (d : irq_desc) : irq_desc :=
  mkDesc c (handle_irq d) (status d) (depth d) (action d) (handler_data d).
Definition upd_handle (h : option irq_flow) (d : irq_desc) : irq_desc :=
  mkDesc (chip d) h (status d) (depth d) (action d) (handler_data d).
Definition upd_status (v : Z) (d : irq_desc) : irq_desc :=
  mkDesc (chip d) (handle_irq d) v (depth d) (action d) (handler_data d).
Definition upd_depth (v : Z) (d : irq_desc) : irq_desc :=
  mkDesc (chip d) (handle_irq d) (status d) v (action d) (handler_data d).
Definition upd_data (v : option Z) (d : irq_desc) : irq_desc :=
  mkDesc (chip d) (handle_irq d) (status d) (depth d) (action d) v.

Definition or_status (irq m : Z) : M irqst unit :=
  d ← desc_at irq; store_desc irq (upd_status (setb (status d) m) d).
Definition clear_status (irq m : Z) : M irqst unit :=
  d ← desc_at irq; store_desc irq (upd_status (clear (status d) m) d).

(** An element of [irq_desc[]] when [init_IRQ] calls the platform: its static initialiser,
    with the flags that [init_IRQ] has set in all of them. *)
Definition desc0 : irq_desc :=
  mkDesc no_irq_chip (Some p_handle_bad_irq)
    (setb IRQ_DISABLED (setb (setb IRQ_NOREQUEST IRQ_DELAYED_DISABLE) IRQ_NOPROBE)) 1 false None.
Definition irq_desc_table : gmap Z irq_desc :=
  list_to_map (map (fun i => (Z.of_nat i, desc0)) (seq 0 (Z.to_nat NR_IRQS))).

(** ** GPIO pins ([plat-mxc/gpio.c]) *)

(** [&gpio_port[i]]. *)
Definition port_at (i : Z) : M irqst gpio_port :=
  s ← get; if i <? 0 then crash NullDeref else deref (gports s !! Z.to_nat i).
Definition store_port (i : Z) (p : gpio_port) : M irqst unit :=
  modify (with_gports <[Z.to_nat i := p]>).

Definition get_gpio_port (gpio : Z) : Z := GPIO_TO_PORT gpio.

Definition check_gpio (gpio : Z) : Z := if MXC_MAX_GPIO_LINES <=? gpio then -1 else 0.

Definition _set_gpio_direction (port : gpio_port) (index : Z) (is_input : bool) : M irqst unit :=
  let reg := base port + GPIO_GDIR in
  l ← ird reg;
  iwr (if is_input then clear l (bit index) else setb l (bit index)) reg.

Definition mxc_set_gpio_direction (pin : Z) (is_input : bool) : M irqst unit :=
  let gpio := IOMUX_TO_GPIO pin in
  if check_gpio gpio <? 0 then mret tt
  else port ← port_at (get_gpio_port gpio); _set_gpio_direction port (GPIO_TO_INDEX gpio) is_input.

Definition _set_gpio_dataout (port : gpio_port) (index data : Z) : M irqst unit :=
  let reg := base port + GPIO_DR in
  l ← ird reg;
  iwr (setb (clear l (bit index)) (Z.shiftl data index)) reg.

Definition mxc_set_gpio_dataout (pin data : Z) : M irqst unit :=
  let gpio := IOMUX_TO_GPIO pin in
  if check_gpio gpio <? 0 then mret tt
  else port ← port_at (get_gpio_port gpio);
       _set_gpio_dataout port (GPIO_TO_INDEX gpio) (if data =? 0 then 0 else 1).

Definition mxc_get_gpio_datain (pin : Z) : M irqst Z :=
  let gpio := IOMUX_TO_GPIO pin in
  if check_gpio gpio <? 0 then mret (-1)
  else port ← port_at (get_gpio_port gpio);
       l ← ird (base port + GPIO_DR);
       mret (Z.land (Z.shiftr l (GPIO_TO_INDEX gpio)) 1).

Definition mxc_get_gpio_ssr (pin : Z) : M irqst Z :=
  let gpio := IOMUX_TO_GPIO pin in
  if check_gpio gpio <? 0 then mret (-1)
  else port ← port_at (get_gpio_port gpio);
       l ← ird (base port + GPIO_PSR);
       mret (Z.land (Z.shiftr l (GPIO_TO_INDEX gpio)) 1).

Definition _clear_gpio_irqstatus (port : gpio_port) (index : Z) : M irqst unit :=
  iwr (bit index) (base port + GPIO_ISR).

Definition _set_gpio_edge_ctrl (port : gpio_port) (index edge : Z) : M irqst unit :=
  let reg := base port + (if index <=? 15 then GPIO_ICR1 else GPIO_ICR2) in
  let sig := if index <=? 15 then index else index - 16 in
  l ← ird reg;
  iwr (setb (clear l (Z.shiftl 3 (sig * 2))) (Z.shiftl edge (sig * 2))) reg;;
  _clear_gpio_irqstatus port index.

Definition _set_gpio_irqenable (port : gpio_port) (index : Z) (enable : bool) : M irqst unit :=
  let reg := base port + GPIO_IMR in
  let mask := if enable then 1 else 0 in
  l ← ird reg;
  iwr (setb (clear l (bit index)) (Z.shiftl mask index)) reg.

Definition upd_maps (reserved level : Z) (p : gpio_port) : gpio_port :=
  mkPort (num p) (base p) (port_irq p) (virtual_irq_start p) reserved level.

Definition _request_gpio (i index : Z) : M irqst Z :=
  port ← port_at i;
  if negb (Z.land (reserved_map port) (bit index) =? 0) then mret (-1)
  else
    store_port i (upd_maps (setb (reserved_map port) (bit index)) (irq_is_level_map port) port);;
    mret 0.

Definition mxc_request_gpio (pin : Z) : M irqst Z :=
  let gpio := IOMUX_TO_GPIO pin in
  if check_gpio gpio <? 0 then mret (- EINVAL)
  else _request_gpio (get_gpio_port gpio) (GPIO_TO_INDEX gpio).

Definition mxc_free_gpio (pin : Z) : M irqst unit :=
  let gpio := IOMUX_TO_GPIO pin in
  if check_gpio gpio <? 0 then mret tt
  else
    let i := get_gpio_port gpio in
    let index := GPIO_TO_INDEX gpio in
    port ← port_at i;
    if Z.land (reserved_map port) (bit index) =? 0 then mret tt
    else
      let port' := upd_maps (clear (reserved_map port) (bit index)) (clear (irq_is_level_map port) (bit index)) port in
      store_port i port';;
      _set_gpio_direction port' index true;;
      _set_gpio_irqenable port' index false;;
      _clear_gpio_irqstatus port' index.

(** ** Interrupt chips *)

(** [mxc_mask_irq] and [mxc_unmask_irq] of [plat-mxc/irq.c]. *)
Definition mxc_mask_irq (irq : Z) : M irqst unit := iwr irq AVIC_INTDISNUM.
Definition mxc_unmask_irq (irq : Z) : M irqst unit := iwr irq AVIC_INTENNUM.

Definition gpio_mask_irq (irq : Z) : M irqst unit :=
  let gpio := MXC_IRQ_TO_GPIO irq in
  port ← port_at (get_gpio_port gpio); _set_gpio_irqenable port (GPIO_TO_INDEX gpio) false.

Definition gpio_ack_irq (irq : Z) : M irqst unit :=
  let gpio := MXC_IRQ_TO_GPIO irq in
  let index := GPIO_TO_INDEX gpio in
  port ← port_at (get_gpio_port gpio);
  _clear_gpio_irqstatus port (GPIO_TO_INDEX gpio);;
  if negb (Z.land (irq_is_level_map port) (bit index) =? 0) then gpio_mask_irq irq else mret tt.

Definition gpio_unmask_irq (irq : Z) : M irqst unit :=
  let gpio := MXC_IRQ_TO_GPIO irq in
  port ← port_at (get_gpio_port gpio); _set_gpio_irqenable port (GPIO_TO_INDEX gpio) true.

(** [desc->chip->mask], [->ack] and [->unmask]: the dummy chip does nothing, and
    [no_irq_chip] has neither a mask nor an unmask method. *)
Definition chip_mask (c : irq_chip) (irq : Z) : M irqst unit :=
  match c with
  | mxc_avic_chip => mxc_mask_irq irq
  | gpio_irq_chip => gpio_mask_irq irq
  | dummy_irq_chip => mret tt
  | no_irq_chip => crash NullDeref
  end.
Definition chip_ack (c : irq_chip) (irq : Z) : M irqst unit :=
  match c with
  | mxc_avic_chip => mxc_mask_irq irq
  | gpio_irq_chip => gpio_ack_irq irq
  | _ => mret tt
  end.
Definition chip_unmask (c : irq_chip) (irq : Z) : M irqst unit :=
  match c with
  | mxc_avic_chip => mxc_unmask_irq irq
  | gpio_irq_chip => gpio_unmask_irq irq
  | dummy_irq_chip => mret tt
  | no_irq_chip => crash NullDeref
  end.

(** ** Setting up descriptors ([kernel/irq/chip.c], [arch/arm/kernel/irq.c]) *)

Definition set_irq_chip (irq : Z) (c : irq_chip) : M irqst unit :=
  if NR_IRQS <=? irq then mret tt
  else d ← desc_at irq; store_desc irq (upd_chip c d).

Definition set_irq_data (irq : Z) (data : option Z) : M irqst unit :=
  if NR_IRQS <=? irq then mret tt
  else d ← desc_at irq; store_desc irq (upd_data data d).

Definition set_irq_flags (irq iflags : Z) : M irqst unit :=
  if NR_IRQS <=? irq then mret tt
  else
    or_status irq (setb IRQ_NOREQUEST (setb IRQ_NOPROBE IRQ_NOAUTOEN));;
    (if negb (Z.land iflags IRQF_VALID =? 0) then clear_status irq IRQ_NOREQUEST else mret tt);;
    (if negb (Z.land iflags IRQF_PROBE =? 0) then clear_status irq IRQ_NOPROBE else mret tt);;
    (if Z.land iflags IRQF_NOAUTOEN =? 0 then clear_status irq IRQ_NOAUTOEN else mret tt).

Definition __set_irq_handler (irq : Z) (handle : option irq_flow) (is_chained : bool) : M irqst unit :=
  if NR_IRQS <=? irq then mret tt
  else
    let handle := default p_handle_bad_irq handle in
    d ← desc_at irq;
    (if decide (chip d = no_irq_chip) then store_desc irq (upd_chip dummy_irq_chip d) else mret tt);;
    (if decide (handle = p_handle_bad_irq) then
       d1 ← desc_at irq;
       (if decide (chip d1 = no_irq_chip) then mret tt
        else chip_mask (chip d1) irq;; chip_ack (chip d1) irq);;
       d2 ← desc_at irq;
       store_desc irq (upd_depth 1 (upd_status (setb (status d2) IRQ_DISABLED) d2))
     else mret tt);;
    d3 ← desc_at irq;
    store_desc irq (upd_handle (Some handle) d3);;
    if negb (bool_decide (handle = p_handle_bad_irq)) && is_chained then
      d4 ← desc_at irq;
      store_desc irq (upd_depth 0
        (upd_status (setb (clear (status d4) IRQ_DISABLED) (setb IRQ_NOREQUEST IRQ_NOPROBE)) d4));;
      d5 ← desc_at irq;
      chip_unmask (chip d5) irq
    else mret tt.

Definition set_irq_handler (irq : Z) (handle : irq_flow) : M irqst unit :=
  __set_irq_handler irq (Some handle) false.
Definition set_irq_chained_handler (irq : Z) (handle : irq_flow) : M irqst unit :=
  __set_irq_handler irq (Some handle) true.

(** Sets or clears a pin's bit of [irq_is_level_map]. *)
Definition store_level (i index : Z) (level : bool) : M irqst unit :=
  port ← port_at i;
  store_port i (upd_maps (reserved_map port)
    (if level then setb (irq_is_level_map port) (bit index) else clear (irq_is_level_map port) (bit index)) port).

Definition gpio_set_irq_type (irq type : Z) : M irqst Z :=
  let gpio := MXC_IRQ_TO_GPIO irq in
  let i := get_gpio_port gpio in
  let index := GPIO_TO_INDEX gpio in
  port ← port_at i;
  if type =? IRQT_RISING then
    _set_gpio_edge_ctrl port index GPIO_INT_RISE_EDGE;;
    set_irq_handler irq p_handle_edge_irq;; store_level i index false;; mret 0
  else if type =? IRQT_FALLING then
    _set_gpio_edge_ctrl port index GPIO_INT_FALL_EDGE;;
    set_irq_handler irq p_handle_edge_irq;; store_level i index false;; mret 0
  else if type =? IRQT_LOW then
    _set_gpio_edge_ctrl port index GPIO_INT_LOW_LEV;;
    set_irq_handler irq p_handle_level_irq;; store_level i index true;; mret 0
  else if type =? IRQT_HIGH then
    _set_gpio_edge_ctrl port index GPIO_INT_HIGH_LEV;;
    set_irq_handler irq p_handle_level_irq;; store_level i index true;; mret 0
  else mret (- EINVAL).

(** ** Initialisation *)

(** [for (j = n; j < n + count; j++)] over descriptors. *)
Fixpoint init_lines (c : irq_chip) (handle : irq_flow) (n : Z) (count : nat) : M irqst unit :=
  match count with
  | O => mret tt
  | S count' =>
      set_irq_chip n c;; set_irq_handler n handle;; set_irq_flags n IRQF_VALID;;
      init_lines c handle (n + 1) count'
  end.

Definition init_port (i : Z) (mp : mxc_gpio_port) : M irqst unit :=
  port ← port_at i;
  store_port i (mkPort (mp_num mp) (mp_base mp) (mp_irq mp) (mp_virtual_irq_start mp) 0 (irq_is_level_map port));;
  iwr 0 (mp_base mp + GPIO_IMR);;
  iwr 0xFFFFFFFF (mp_base mp + GPIO_ISR);;
  init_lines gpio_irq_chip p_handle_edge_irq (mp_virtual_irq_start mp) (Z.to_nat GPIO_NUM_PIN).

Fixpoint init_ports (i : Z) (l : list mxc_gpio_port) : M irqst unit :=
  match l with
  | [] => mret tt
  | mp :: l' => init_port i mp;; init_ports (i + 1) l'
  end.

(** The six ports share one interrupt line: the cascade handler is installed on
    the last port's line with the port array as its data. *)
Definition _mxc_gpio_init : M irqst Z :=
  modify (fun s => mkIrqst (iregs s) (gports s) (descs s) true);;
  init_ports 0 mxc_gpio_ports;;
  mp ← deref (last mxc_gpio_ports);
  set_irq_chained_handler (mp_irq mp) p_mxc_gpio_mux_irq_handler;;
  mp0 ← deref (head mxc_gpio_ports);
  set_irq_data (mp_irq mp0) (Some 0);;
  mret 0.

Definition mxc_gpio_init : M irqst Z :=
  i ← gets initialized;
  if i : bool then mret 0 else _mxc_gpio_init.

Definition mxc_init_irq : M irqst unit :=
  iwr 0 AVIC_INTCNTL;;
  iwr 0x1f AVIC_NIMASK;;
  iwr 0 AVIC_INTENABLEH;;
  iwr 0 AVIC_INTENABLEL;;
  iwr 0 AVIC_INTTYPEH;;
  iwr 0 AVIC_INTTYPEL;;
  init_lines mxc_avic_chip p_handle_level_irq 0 (Z.to_nat MXC_MAX_INT_LINES);;
  reg ← ird AVIC_NIPRIORITY6;
  iwr (setb reg (Z.shiftl 0xF 28)) AVIC_NIPRIORITY6.

(** The static state: zeroed ports, the initial descriptor table. *)
Definition irq_boot (r : regfile) : irqst :=
  mkIrqst r (replicate (Z.to_nat GPIO_PORT_NUM) (mkPort 0 0 0 0 0 0)) irq_desc_table false.

(** ** Interrupt flow *)

Section Flow.

(** A driver's action chain ([handle_IRQ_event]). *)
Context (run_action : Z -> M irqst unit).

Definition mask_ack_irq (irq : Z) : M irqst unit :=
  d ← desc_at irq; chip_mask (chip d) irq;; chip_ack (chip d) irq.

Definition handle_level_irq (irq : Z) : M irqst unit :=
  mask_ack_irq irq;;
  d ← desc_at irq;
  if negb (Z.land (status d) IRQ_INPROGRESS =? 0) then mret tt
  else
    clear_status irq (setb IRQ_REPLAY IRQ_WAITING);;
    d1 ← desc_at irq;
    if negb (action d1) || negb (Z.land (status d1) IRQ_DISABLED =? 0) then or_status irq IRQ_PENDING
    else
      or_status irq IRQ_INPROGRESS;;
      clear_status irq IRQ_PENDING;;
      run_action irq;;
      clear_status irq IRQ_INPROGRESS;;
      d2 ← desc_at irq;
      if Z.land (status d2) IRQ_DISABLED =? 0 then chip_unmask (chip d2) irq else mret tt.

(** The loop over events that arrive while the action runs. *)
Fixpoint edge_loop (fuel : nat) (irq : Z) : M irqst unit :=
  match fuel with
  | O => crash OutOfFuel
  | S n =>
      d ← desc_at irq;
      if negb (action d) then chip_mask (chip d) irq
      else
        (if Z.land (status d) (setb IRQ_PENDING (setb IRQ_MASKED IRQ_DISABLED)) =? setb IRQ_PENDING IRQ_MASKED
         then chip_unmask (chip d) irq;; clear_status irq IRQ_MASKED
         else mret tt);;
        clear_status irq IRQ_PENDING;;
        run_action irq;;
        d1 ← desc_at irq;
        if Z.land (status d1) (setb IRQ_PENDING IRQ_DISABLED) =? IRQ_PENDING then edge_loop n irq
        else clear_status irq IRQ_INPROGRESS
  end.

Definition handle_edge_irq (fuel : nat) (irq : Z) : M irqst unit :=
  clear_status irq (setb IRQ_REPLAY IRQ_WAITING);;
  d ← desc_at irq;
  if negb (Z.land (status d) (setb IRQ_INPROGRESS IRQ_DISABLED) =? 0) || negb (action d) then
    or_status irq (setb IRQ_PENDING IRQ_MASKED);; mask_ack_irq irq
  else
    chip_ack (chip d) irq;;
    or_status irq IRQ_INPROGRESS;;
    edge_loop fuel irq.

Section Dispatch.

(** [d->handle_irq(irq, d)]. *)
Context (call : irq_flow -> Z -> M irqst unit).

(** [for (; int_valid != 0; int_valid >>= 1, gpio_irq++)]: thirty-two rounds
    exhaust a 32-bit value. *)
Fixpoint dispatch_bits (fuel : nat) (int_valid gpio_irq : Z) : M irqst unit :=
  match fuel with
  | O => if int_valid =? 0 then mret tt else crash OutOfFuel
  | S n =>
      if int_valid =? 0 then mret tt
      else
        (if Z.land int_valid 1 =? 0 then mret tt
         else
           d ← desc_at gpio_irq;
           match handle_irq d with
           | None => crash Bug
           | Some h => call h gpio_irq
           end);;
        dispatch_bits n (Z.shiftr int_valid 1) (gpio_irq + 1)
  end.

Definition mxc_gpio_irq_handler (irq : Z) : M irqst unit :=
  d ← desc_at irq;
  i ← deref (handler_data d);
  port ← port_at i;
  imr_val ← ird (base port + GPIO_IMR);
  isr_val ← ird (base port + GPIO_ISR);
  let int_valid := Z.land isr_val imr_val in
  if int_valid =? 0 then crash Bug
  else dispatch_bits 32 int_valid (virtual_irq_start port).

Fixpoint mux_ports (irq i : Z) (n : nat) : M irqst unit :=
  match n with
  | O => mret tt
  | S n' =>
      port ← port_at i;
      imr_val ← ird (base port + GPIO_IMR);
      isr_val ← ird (base port + GPIO_ISR);
      (if Z.land isr_val imr_val =? 0 then mret tt
       else set_irq_data irq (Some i);; mxc_gpio_irq_handler irq);;
      mux_ports irq (i + 1) n'
  end.

Definition mxc_gpio_mux_irq_handler (irq : Z) : M irqst unit :=
  mux_ports irq 0 (Z.to_nat GPIO_PORT_NUM).

End Dispatch.

(** A flow handler; [n] bounds the nesting of cascades, [fuel] the events one
    edge interrupt handles. *)
Fixpoint call_flow (n fuel : nat) (h : irq_flow) (irq : Z) : M irqst unit :=
  match h with
  | p_handle_bad_irq => mret tt
  | p_handle_edge_irq => handle_edge_irq fuel irq
  | p_handle_level_irq => handle_level_irq irq
  | p_mxc_gpio_mux_irq_handler =>
      match n with
      | O => crash OutOfFuel
      | S n' => mxc_gpio_mux_irq_handler (call_flow n' fuel) irq
      end
  end.

End Flow.

(** ** Pin functions ([mach-mx27/gpio_mux.c]) *)

Definition GPIO_INPUT_GPIO : Z := 0.
Definition GPIO_OUTPUT_A : Z := 0.
Definition GPIO_OUTPUT_B : Z := 1.
Definition GPIO_OUTPUT_C : Z := 2.
Definition GPIO_OUTPUT_DR : Z := 3.

Definition GPIO_MUX_PRIMARY : Z := 0.
Definition GPIO_MUX_ALT : Z := 1.
Definition GPIO_MUX_GPIO : Z := 2.
Definition GPIO_MUX_INPUT1 : Z := 3.
Definition GPIO_MUX_INPUT2 : Z := 4.
Definition GPIO_MUX_OUTPUT1 : Z := 5.
Definition GPIO_MUX_OUTPUT2 : Z := 6.
Definition GPIO_MUX_OUTPUT3 : Z := 7.

(** [&mxc_gpio_ports[i]]: an index past the table faults. *)
Definition mxc_port_at (i : Z) : M irqst mxc_gpio_port :=
  if i <? 0 then crash NullDeref else deref (mxc_gpio_ports !! Z.to_nat i).

Definition _gpio_set_puen (port : mxc_gpio_port) (index : Z) (en : bool) : M irqst unit :=
  reg ← ird (mp_base port + GPIO_PUEN);
  iwr (if en then setb reg (bit index) else clear reg (bit index)) (mp_base port + GPIO_PUEN).

Definition _gpio_set_iconfa (port : mxc_gpio_port) (index config : Z) : M irqst unit :=
  let mask := Z.shiftl 3 (Z.shiftl (index mod 16) 1) in
  let reg := mp_base port + (if 16 <=? index then GPIO_ICONFA2 else GPIO_ICONFA1) in
  let val := if 16 <=? index then Z.shiftl config ((index - 16) * 2) else Z.shiftl config (index * 2) in
  l ← ird reg;
  iwr (setb val (clear l mask)) reg.

Definition _gpio_set_iconfb (port : mxc_gpio_port) (index config : Z) : M irqst unit :=
  let mask := Z.shiftl 3 (Z.shiftl (index mod 16) 1) in
  let reg := mp_base port + (if 16 <=? index then GPIO_ICONFB2 else GPIO_ICONFB1) in
  let val := if 16 <=? index then Z.shiftl config ((index - 16) * 2) else Z.shiftl config (index * 2) in
  l ← ird reg;
  iwr (setb val (clear l mask)) reg.

Definition _gpio_set_ocr (port : mxc_gpio_port) (index config : Z) : M irqst unit :=
  let mask := Z.shiftl 3 (Z.shiftl (index mod 16) 1) in
  let reg := mp_base port + (if 16 <=? index then GPIO_OCR2 else GPIO_OCR1) in
  let val := if 16 <=? index then Z.shiftl config ((index - 16) * 2) else Z.shiftl config (index * 2) in
  l ← ird reg;
  iwr (setb val (clear l mask)) reg.

Definition gpio_config_mux (pin mode : Z) : M irqst Z :=
  let gpio := IOMUX_TO_GPIO pin in
  port ← mxc_port_at (GPIO_TO_PORT gpio);
  let index := GPIO_TO_INDEX gpio in
  gius_reg ← ird (mp_base port + GPIO_GIUS);
  gpr_reg ← ird (mp_base port + GPIO_GPR);
  let finish gius gpr :=
    iwr gius (mp_base port + GPIO_GIUS);; iwr gpr (mp_base port + GPIO_GPR);; mret 0 in
  if mode =? GPIO_MUX_PRIMARY then finish (clear gius_reg (bit index)) (clear gpr_reg (bit index))
  else if mode =? GPIO_MUX_ALT then finish (clear gius_reg (bit index)) (setb gpr_reg (bit index))
  else if mode =? GPIO_MUX_GPIO then
    _gpio_set_ocr port index GPIO_OUTPUT_DR;; finish (setb gius_reg (bit index)) gpr_reg
  else if mode =? GPIO_MUX_INPUT1 then
    _gpio_set_iconfa port index GPIO_INPUT_GPIO;; finish (setb gius_reg (bit index)) gpr_reg
  else if mode =? GPIO_MUX_INPUT2 then
    _gpio_set_iconfb port index GPIO_INPUT_GPIO;; finish (setb gius_reg (bit index)) gpr_reg
  else if mode =? GPIO_MUX_OUTPUT1 then
    _gpio_set_ocr port index GPIO_OUTPUT_A;; finish (setb gius_reg (bit index)) gpr_reg
  else if mode =? GPIO_MUX_OUTPUT2 then
    _gpio_set_ocr port index GPIO_OUTPUT_B;; finish (setb gius_reg (bit index)) gpr_reg
  else if mode =? GPIO_MUX_OUTPUT3 then
    _gpio_set_ocr port index GPIO_OUTPUT_C;; finish (setb gius_reg (bit index)) gpr_reg
  else mret (-1).

Definition gpio_set_puen (pin : Z) (en : bool) : M irqst Z :=
  let gpio := IOMUX_TO_GPIO pin in
  port ← mxc_port_at (GPIO_TO_PORT gpio);
  _gpio_set_puen port (GPIO_TO_INDEX gpio) en;;
  mret 0.

Definition gpio_request_mux (pin mode : Z) : M irqst Z :=
  ret ← mxc_request_gpio pin;
  if ret =? 0 then
    ret ← gpio_config_mux pin mode;
    if negb (ret =? 0) then mxc_free_gpio pin;; mret ret else mret ret
  else mret ret.

Definition gpio_free_mux (pin : Z) : M irqst unit := mxc_free_gpio pin.
