(* ===== verification/GpioPins.v ===== *)
(** * GPIO pins as independent objects

    [plat-mxc/gpio.c] and [mach-mx27/gpio_mux.c] keep the state of a pin in bits
    of some fifteen registers of its port, in two maps of the port and in an
    interrupt descriptor.  The abstract machine here has one record per pin; the
    refinement theorem says that every operation acts on the record of its pin as
    specified and leaves every other pin alone. *)

From stdpp Require Import base gmap list.
From Stdlib Require Import ZArith Lia.
From S2P Require Import Prelude CrmRegs IrqGpio.

(** ** Addresses *)

Definition pbase (p : Z) : Z := IO_ADDRESS GPIO_BASE_ADDR + 0x100 * p.

Lemma pbase_inj p q o o' :
  0 <= o < 0x100 -> 0 <= o' < 0x100 -> pbase p + o = pbase q + o' -> p = q /\ o = o'.
Proof. unfold pbase. lia. Qed.

(** The table of the board. *)
Lemma mxc_ports_lookup p :
  0 <= p < 6 -> mxc_gpio_ports !! Z.to_nat p = Some (mkMxcPort p (pbase p) INT_GPIO (MXC_GPIO_BASE + GPIO_NUM_PIN * p)).
Proof.
  intros Hp. assert (p = 0 \/ p = 1 \/ p = 2 \/ p = 3 \/ p = 4 \/ p = 5) as [->|[->|[->|[->|[->| ->]]]]] by lia; reflexivity.
Qed.

Lemma isr_regs_elem a : a ∈ isr_regs <-> exists p, 0 <= p < 6 /\ a = pbase p + GPIO_ISR.
Proof.
  unfold isr_regs. change (map _ mxc_gpio_ports) with
    [pbase 0 + GPIO_ISR; pbase 1 + GPIO_ISR; pbase 2 + GPIO_ISR; pbase 3 + GPIO_ISR; pbase 4 + GPIO_ISR; pbase 5 + GPIO_ISR].
  rewrite !elem_of_cons, elem_of_nil. split.
  - intros H. repeat (destruct H as [H|H]; [eexists; split; [|exact H]; lia|]). done.
  - intros (p & Hp & ->).
    assert (p = 0 \/ p = 1 \/ p = 2 \/ p = 3 \/ p = 4 \/ p = 5) as [->|[->|[->|[->|[->| ->]]]]] by lia; tauto.
Qed.

(** A GPIO register other than a status register holds what is written. *)
Lemma io_write_plain v p o r :
  0 <= p < 6 -> 0 <= o < 0x100 -> o <> GPIO_ISR -> io_write v (pbase p + o) r = writel v (pbase p + o) r.
Proof.
  intros Hp Ho Hne. unfold io_write. rewrite decide_False.
  - assert (pbase p + o <> AVIC_INTENNUM /\ pbase p + o <> AVIC_INTDISNUM) as [H1 H2].
    { unfold pbase, AVIC_INTENNUM, AVIC_INTDISNUM, AVIC_BASE.
      change (IO_ADDRESS GPIO_BASE_ADDR) with 0xD4015000. change (IO_ADDRESS 0x10040000) with 0xD4040000. lia. }
    by rewrite (proj2 (Z.eqb_neq _ _) H1), (proj2 (Z.eqb_neq _ _) H2).
  - rewrite isr_regs_elem. intros (q & Hq & E). apply pbase_inj in E; [by destruct E|lia|done].
Qed.

Lemma io_write_isr v p r :
  0 <= p < 6 -> io_write v (pbase p + GPIO_ISR) r =
  writel (clear (readl r (pbase p + GPIO_ISR)) v) (pbase p + GPIO_ISR) r.
Proof. intros Hp. unfold io_write. rewrite decide_True; [done|]. apply isr_regs_elem. eauto. Qed.

(** ** Elementary accesses of a pin *)

(** One-bit registers. *)
Definition get1 (s : irqst) (o p i : Z) : bool := Z.testbit (readl (iregs s) (pbase p + o)) i.

Definition set1 (o p i : Z) (b : bool) : irqst -> irqst :=
  with_iregs (fun r => let a := pbase p + o in
    writel (if b then setb (readl r a) (bit i) else clear (readl r a) (bit i)) a r).

(** Two-bit fields, sixteen pins to a register. *)
Definition off2 (o i : Z) : Z := if i <? 16 then o else o + 4.
Definition get2 (s : irqst) (o p i : Z) : Z := field (readl (iregs s) (pbase p + off2 o i)) (2 * (i mod 16)) 2.

Definition set2 (o p i v : Z) : irqst -> irqst :=
  with_iregs (fun r => let a := pbase p + off2 o i in writel (set_field (readl r a) (2 * (i mod 16)) 2 v) a r).

(** The maps of a port. *)
Definition getm (f : gpio_port -> Z) (s : irqst) (p i : Z) : bool :=
  match gports s !! Z.to_nat p with
  | Some port => Z.testbit (f port) i
  | None => false
  end.

Definition setm (p : Z) (port : gpio_port) : irqst -> irqst := with_gports <[Z.to_nat p := port]>.

Definition flow_of (s : irqst) (g : Z) : option irq_flow := descs s !! (MXC_GPIO_BASE + g) ≫= handle_irq.

Definition set_flow (g : Z) (h : irq_flow) : irqst -> irqst :=
  with_descs (alter (upd_handle (Some h)) (MXC_GPIO_BASE + g)).

Definition reg_off (o : Z) : Prop := 0 <= o /\ o + 4 < 0x100.

Lemma set1_range r a i (b : bool) :
  0 <= i < 32 -> 0 <= (if b then setb (readl r a) (bit i) else clear (readl r a) (bit i)) < 2 ^ 32.
Proof.
  intros Hi. pose proof (readl_range r a). destruct b; [apply setb_range|apply clear_range]; try lia.
  by apply bit_range.
Qed.

Lemma get1_set1 s o p i b o' q j :
  reg_off o -> reg_off o' -> 0 <= i < 32 -> 0 <= j ->
  get1 (set1 o p i b s) o' q j = if decide (o' = o /\ q = p /\ j = i) then b else get1 s o' q j.
Proof.
  unfold reg_off. intros Ho Ho' Hi Hj. unfold get1, set1. cbn [iregs with_iregs]. rewrite readl_writel.
  case_decide as E.
  - apply pbase_inj in E as [-> ->]; [|lia..]. rewrite u32_small by by apply set1_range.
    destruct b; rewrite ?testbit_setb, ?testbit_clear, testbit_bit by lia.
    + case_decide as D; [destruct D as (_ & _ & ->); rewrite Z.eqb_refl; apply orb_true_r|].
      destruct (Z.eqb_spec j i); [exfalso; by apply D|apply orb_false_r].
    + case_decide as D; [destruct D as (_ & _ & ->); rewrite Z.eqb_refl; apply andb_false_r|].
      destruct (Z.eqb_spec j i); [exfalso; by apply D|apply andb_true_r].
  - rewrite decide_False; [done|]. intros (-> & -> & ->). by apply E.
Qed.

Lemma off2_range o i : reg_off o -> 0 <= off2 o i < 0x100.
Proof. unfold reg_off, off2. case_match; lia. Qed.

Lemma get2_set1 s o p i b o' q j :
  reg_off o -> reg_off o' -> o <> o' -> o <> o' + 4 -> get2 (set1 o p i b s) o' q j = get2 s o' q j.
Proof.
  intros Ho Ho' H1 H2. unfold get2, set1. cbn [iregs with_iregs]. pose proof (off2_range o' j Ho').
  unfold reg_off in *. rewrite readl_writel_ne; [done|]. intros E. apply pbase_inj in E as [_ E]; [|lia..].
  unfold off2 in E. case_match; lia.
Qed.

Lemma get1_set2 s o p i v o' q j :
  reg_off o -> reg_off o' -> o' <> o -> o' <> o + 4 -> get1 (set2 o p i v s) o' q j = get1 s o' q j.
Proof.
  intros Ho Ho' H1 H2. unfold get1, set2. cbn [iregs with_iregs]. pose proof (off2_range o i Ho).
  unfold reg_off in *. rewrite readl_writel_ne; [done|]. intros E. apply pbase_inj in E as [_ E]; [|lia..].
  unfold off2 in E. case_match; lia.
Qed.

Lemma get2_set2 s o p i v o' q j :
  reg_off o -> reg_off o' -> 0 <= i < 32 -> 0 <= j < 32 -> 0 <= v < 4 -> o' <> o + 4 -> o <> o' + 4 ->
  get2 (set2 o p i v s) o' q j = if decide (o' = o /\ q = p /\ j = i) then v else get2 s o' q j.
Proof.
  intros Ho Ho' Hi Hj Hv H1 H2. unfold get2, set2. cbn [iregs with_iregs].
  pose proof (off2_range o i Ho). pose proof (off2_range o' j Ho').
  pose proof (readl_range (iregs s) (pbase p + off2 o i)) as HR.
  pose proof (Z.mod_pos_bound i 16). pose proof (Z.mod_pos_bound j 16). rewrite readl_writel. case_decide as E.
  - apply pbase_inj in E as [-> E]; [|lia..].
    rewrite u32_small by (apply set_field_range; lia).
    assert (o' = o /\ (i <? 16) = (j <? 16)) as [-> E16] by (unfold off2 in E; repeat case_match; lia).
    case_decide as D.
    + destruct D as (_ & _ & ->). apply field_set_field; lia.
    + rewrite E. apply field_set_field_ne; try lia.
      assert (i mod 16 <> j mod 16); [|lia]. intros Em. apply D. split_and!; try done.
      pose proof (Z.div_mod i 16). pose proof (Z.div_mod j 16).
      destruct (Z.ltb_spec i 16), (Z.ltb_spec j 16); try done.
      * rewrite !Z.mod_small in Em by lia. lia.
      * assert (i / 16 = 1) by (symmetry; apply (Z.div_unique _ _ _ (i - 16)); lia).
        assert (j / 16 = 1) by (symmetry; apply (Z.div_unique _ _ _ (j - 16)); lia). lia.
  - rewrite decide_False; [done|]. intros (-> & -> & ->). by apply E.
Qed.

(** ** The operations in terms of the elementary accesses *)

(** Ports and descriptors as [mxc_gpio_init] sets them up. *)
Definition port_ok (p : Z) (port : gpio_port) : Prop :=
  base port = pbase p /\ virtual_irq_start port = MXC_GPIO_BASE + GPIO_NUM_PIN * p /\
  0 <= reserved_map port < 2 ^ 32 /\ 0 <= irq_is_level_map port < 2 ^ 32.

Definition gpio_wf (s : irqst) : Prop :=
  (forall p, 0 <= p < 6 -> exists port, gports s !! Z.to_nat p = Some port /\ port_ok p port) /\
  (forall g, 0 <= g < 192 -> exists d, descs s !! (MXC_GPIO_BASE + g) = Some d /\ chip d = gpio_irq_chip /\
     is_Some (handle_irq d)).

Section Pin.
Context (p i : Z) (port : gpio_port) (Hp : 0 <= p < 6) (Hi : 0 <= i < 32) (Hport : base port = pbase p).

Lemma shiftl_bit0 x : setb (clear x (bit i)) (Z.shiftl 0 i) = clear x (bit i).
Proof. unfold setb. by rewrite Z.shiftl_0_l, Z.lor_0_r. Qed.

Lemma shiftl_bit1 x : setb (clear x (bit i)) (Z.shiftl 1 i) = setb x (bit i).
Proof.
  apply Z.bits_inj'. intros n Hn. fold (bit i). rewrite !testbit_setb, testbit_clear by done.
  destruct (Z.testbit x n), (Z.testbit (bit i) n); done.
Qed.

Lemma direction_run b s : _set_gpio_direction port i b s = Ret (tt, set1 GPIO_GDIR p i (negb b) s).
Proof.
  unfold _set_gpio_direction, ird, iwr, gets, modify, set1, mbind, M_bind, with_iregs. rewrite Hport.
  rewrite io_write_plain by done. by destruct b.
Qed.

Lemma dataout_run (b : bool) s :
  _set_gpio_dataout port i (if b then 1 else 0) s = Ret (tt, set1 GPIO_DR p i b s).
Proof.
  unfold _set_gpio_dataout, ird, iwr, gets, modify, set1, mbind, M_bind, with_iregs. rewrite Hport.
  rewrite io_write_plain by done. destruct b; [by rewrite shiftl_bit1|by rewrite shiftl_bit0].
Qed.

Lemma irqenable_run (b : bool) s : _set_gpio_irqenable port i b s = Ret (tt, set1 GPIO_IMR p i b s).
Proof.
  unfold _set_gpio_irqenable, ird, iwr, gets, modify, set1, mbind, M_bind, with_iregs. rewrite Hport.
  rewrite io_write_plain by done. destruct b; [by rewrite shiftl_bit1|by rewrite shiftl_bit0].
Qed.

Lemma irqstatus_run s : _clear_gpio_irqstatus port i s = Ret (tt, set1 GPIO_ISR p i false s).
Proof.
  unfold _clear_gpio_irqstatus, iwr, modify, set1, with_iregs. rewrite Hport. by rewrite io_write_isr by done.
Qed.

Lemma puen_run b s : _gpio_set_puen (mkMxcPort p (pbase p) INT_GPIO (MXC_GPIO_BASE + GPIO_NUM_PIN * p)) i b s =
  Ret (tt, set1 GPIO_PUEN p i b s).
Proof.
  unfold _gpio_set_puen, ird, iwr, gets, modify, set1, mbind, M_bind, with_iregs. cbn [mp_base].
  by rewrite io_write_plain by done.
Qed.

Lemma half_index : (if i <=? 15 then i else i - 16) = i mod 16.
Proof.
  destruct (Z.leb_spec i 15); [by rewrite Z.mod_small by lia|].
  apply Z.mod_unique_pos with 1; lia.
Qed.

Lemma half_off o : (if i <=? 15 then o else o + 4) = off2 o i.
Proof. unfold off2. destruct (Z.leb_spec i 15), (Z.ltb_spec i 16); lia. Qed.

Lemma half_off' o : (if 16 <=? i then o + 4 else o) = off2 o i.
Proof. unfold off2. destruct (Z.leb_spec 16 i), (Z.ltb_spec i 16); lia. Qed.

Lemma edge_ctrl_run e s :
  _set_gpio_edge_ctrl port i e s = Ret (tt, set1 GPIO_ISR p i false (set2 GPIO_ICR1 p i e s)).
Proof.
  unfold _set_gpio_edge_ctrl. rewrite half_index. change GPIO_ICR2 with (GPIO_ICR1 + 4).
  rewrite half_off, Hport. rewrite (run_bind (ird _) _ _ _ _ eq_refl).
  rewrite (run_bind _ _ _ tt (set2 GPIO_ICR1 p i e s)); [apply irqstatus_run|].
  unfold iwr, modify, set2, with_iregs. rewrite io_write_plain; [|done|apply off2_range; done|].
  - unfold set_field. by rewrite (Z.mul_comm 2).
  - unfold off2. case_match; done.
Qed.

Let mport := mkMxcPort p (pbase p) INT_GPIO (MXC_GPIO_BASE + GPIO_NUM_PIN * p).

(** The three configuration routines of [gpio_mux.c] are the same but for the
    register. *)
Lemma mux_field_run o v s :
  reg_off o -> o <> GPIO_ISR -> o + 4 <> GPIO_ISR ->
  (let mask := Z.shiftl 3 (Z.shiftl (i mod 16) 1) in
   let reg := pbase p + (if 16 <=? i then o + 4 else o) in
   let val := if 16 <=? i then Z.shiftl v ((i - 16) * 2) else Z.shiftl v (i * 2) in
   l ← ird reg; iwr (setb val (clear l mask)) reg) s = Ret (tt, set2 o p i v s).
Proof.
  intros Ho H1 H2. cbv zeta. rewrite half_off'. unfold ird, gets, iwr, modify, set2, mbind, M_bind, with_iregs.
  rewrite io_write_plain; [|done|by apply off2_range|unfold off2; case_match; done].
  unfold set_field. rewrite (Z.shiftl_mul_pow2 (i mod 16) 1) by lia. change (2 ^ 1) with 2.
  rewrite (Z.mul_comm (i mod 16) 2). unfold setb at 1 2. rewrite Z.lor_comm. repeat f_equal.
  pose proof half_index. destruct (Z.leb_spec 16 i), (Z.leb_spec i 15); f_equal; lia.
Qed.

Lemma ocr_run v s : _gpio_set_ocr mport i v s = Ret (tt, set2 GPIO_OCR1 p i v s).
Proof. apply (mux_field_run GPIO_OCR1); done. Qed.
Lemma iconfa_run v s : _gpio_set_iconfa mport i v s = Ret (tt, set2 GPIO_ICONFA1 p i v s).
Proof. apply (mux_field_run GPIO_ICONFA1); done. Qed.
Lemma iconfb_run v s : _gpio_set_iconfb mport i v s = Ret (tt, set2 GPIO_ICONFB1 p i v s).
Proof. apply (mux_field_run GPIO_ICONFB1); done. Qed.

End Pin.

(** ** The abstract machine: one record per pin *)

Record pin_state : Type := mkPin {
  v_dir : bool;             (* output *)
  v_out : bool;             (* data register *)
  v_psr : bool;             (* sampled level *)
  v_imr : bool;             (* interrupt enabled *)
  v_isr : bool;             (* interrupt pending *)
  v_gius : bool;            (* GPIO in use *)
  v_gpr : bool;             (* alternate function *)
  v_puen : bool;            (* pull-up *)
  v_icr : Z;                (* interrupt sense *)
  v_ocr : Z;                (* output source *)
  v_iconfa : Z;             (* input configuration A *)
  v_iconfb : Z;             (* input configuration B *)
  v_reserved : bool;        (* owned by a client *)
  v_level : bool;           (* level sensitive *)
  v_flow : option irq_flow; (* flow handler of its interrupt *)
}.

Definition view (s : irqst) (g : Z) : pin_state :=
  let p := GPIO_TO_PORT g in
  let i := GPIO_TO_INDEX g in
  mkPin (get1 s GPIO_GDIR p i) (get1 s GPIO_DR p i) (get1 s GPIO_PSR p i) (get1 s GPIO_IMR p i)
    (get1 s GPIO_ISR p i) (get1 s GPIO_GIUS p i) (get1 s GPIO_GPR p i) (get1 s GPIO_PUEN p i)
    (get2 s GPIO_ICR1 p i) (get2 s GPIO_OCR1 p i) (get2 s GPIO_ICONFA1 p i) (get2 s GPIO_ICONFB1 p i)
    (getm reserved_map s p i) (getm irq_is_level_map s p i) (flow_of s g).

Definition upd1 (o : Z) (b : bool) (v : pin_state) : pin_state :=
  let pick o' old := if o =? o' then b else old in
  mkPin (pick GPIO_GDIR (v_dir v)) (pick GPIO_DR (v_out v)) (v_psr v) (pick GPIO_IMR (v_imr v))
    (pick GPIO_ISR (v_isr v)) (pick GPIO_GIUS (v_gius v)) (pick GPIO_GPR (v_gpr v)) (pick GPIO_PUEN (v_puen v))
    (v_icr v) (v_ocr v) (v_iconfa v) (v_iconfb v) (v_reserved v) (v_level v) (v_flow v).

Definition upd2 (o x : Z) (v : pin_state) : pin_state :=
  let pick o' old := if o =? o' then x else old in
  mkPin (v_dir v) (v_out v) (v_psr v) (v_imr v) (v_isr v) (v_gius v) (v_gpr v) (v_puen v)
    (pick GPIO_ICR1 (v_icr v)) (pick GPIO_OCR1 (v_ocr v)) (pick GPIO_ICONFA1 (v_iconfa v))
    (pick GPIO_ICONFB1 (v_iconfb v)) (v_reserved v) (v_level v) (v_flow v).

Definition updm (r l : bool) (v : pin_state) : pin_state :=
  mkPin (v_dir v) (v_out v) (v_psr v) (v_imr v) (v_isr v) (v_gius v) (v_gpr v) (v_puen v)
    (v_icr v) (v_ocr v) (v_iconfa v) (v_iconfb v) r l (v_flow v).

Definition updf (h : irq_flow) (v : pin_state) : pin_state :=
  mkPin (v_dir v) (v_out v) (v_psr v) (v_imr v) (v_isr v) (v_gius v) (v_gpr v) (v_puen v)
    (v_icr v) (v_ocr v) (v_iconfa v) (v_iconfb v) (v_reserved v) (v_level v) (Some h).

Definition bit_regs : list Z := [GPIO_GDIR; GPIO_DR; GPIO_IMR; GPIO_ISR; GPIO_GIUS; GPIO_GPR; GPIO_PUEN].
Definition field_regs : list Z := [GPIO_ICR1; GPIO_OCR1; GPIO_ICONFA1; GPIO_ICONFB1].

(** A line number and its port and index. *)
Lemma line_split g p i :
  0 <= i < 32 -> (GPIO_TO_PORT g = p /\ GPIO_TO_INDEX g = i) <-> g = 32 * p + i.
Proof.
  intros Hi. unfold GPIO_TO_PORT, GPIO_TO_INDEX, GPIO_NUM_PIN. split.
  - intros [<- <-]. apply Z.div_mod. lia.
  - intros ->. split; symmetry; [apply (Z.div_unique_pos _ _ _ i)|apply (Z.mod_unique_pos _ _ p)]; lia.
Qed.

Lemma index_range g : 0 <= GPIO_TO_INDEX g < 32.
Proof. apply Z.mod_pos_bound. done. Qed.

Lemma port_range g : 0 <= g < 192 -> 0 <= GPIO_TO_PORT g < 6.
Proof.
  intros Hg. unfold GPIO_TO_PORT, GPIO_NUM_PIN. split; [apply Z.div_pos; lia|apply Z.div_lt_upper_bound; lia].
Qed.

Lemma line_eq g g' : (GPIO_TO_PORT g' = GPIO_TO_PORT g /\ GPIO_TO_INDEX g' = GPIO_TO_INDEX g) <-> g' = g.
Proof.
  rewrite line_split by apply index_range. unfold GPIO_TO_PORT, GPIO_TO_INDEX, GPIO_NUM_PIN.
  rewrite <- (Z.div_mod g 32) by lia. done.
Qed.

Ltac each_reg H := unfold bit_regs, field_regs in H; rewrite !elem_of_cons, elem_of_nil in H;
  repeat (destruct H as [->|H]; [|try done]).

Lemma bit_regs_off o : o ∈ bit_regs -> reg_off o.
Proof. intros H. each_reg H; by split. Qed.

Lemma field_regs_off o : o ∈ field_regs -> reg_off o.
Proof. intros H. each_reg H; by split. Qed.

Lemma regs_apart o o' : o ∈ bit_regs \/ o = GPIO_PSR -> o' ∈ field_regs -> o <> o' /\ o <> o' + 4.
Proof. intros [H| ->] H'; [each_reg H|]; each_reg H'; by split. Qed.

Lemma fields_apart o o' : o ∈ field_regs -> o' ∈ field_regs -> o' <> o + 4 /\ o <> o' + 4.
Proof. intros H H'. each_reg H; each_reg H'; by split. Qed.

Lemma view_set1 o g b s g' :
  o ∈ bit_regs ->
  view (set1 o (GPIO_TO_PORT g) (GPIO_TO_INDEX g) b s) g' =
  if decide (g' = g) then upd1 o b (view s g') else view s g'.
Proof.
  intros Ho. pose proof (index_range g) as Hi. pose proof (index_range g') as Hj.
  assert (Hk : forall o', reg_off o' ->
    get1 (set1 o (GPIO_TO_PORT g) (GPIO_TO_INDEX g) b s) o' (GPIO_TO_PORT g') (GPIO_TO_INDEX g') =
    if decide (g' = g) then (if o =? o' then b else get1 s o' (GPIO_TO_PORT g') (GPIO_TO_INDEX g'))
    else get1 s o' (GPIO_TO_PORT g') (GPIO_TO_INDEX g')).
  { intros o' Ho'. rewrite get1_set1; [|by apply bit_regs_off|done|done|lia].
    destruct (decide (g' = g)) as [->|Hne].
    - destruct (Z.eqb_spec o o') as [->|Hn]; [by rewrite decide_True|]. rewrite decide_False; [done|naive_solver].
    - rewrite decide_False; [done|]. intros (_ & H). apply Hne. by apply line_eq. }
  assert (Hk2 : forall o', o' ∈ field_regs ->
    get2 (set1 o (GPIO_TO_PORT g) (GPIO_TO_INDEX g) b s) o' (GPIO_TO_PORT g') (GPIO_TO_INDEX g') =
    get2 s o' (GPIO_TO_PORT g') (GPIO_TO_INDEX g')).
  { intros o' Ho'. destruct (regs_apart o o' (or_introl Ho) Ho').
    apply get2_set1; [by apply bit_regs_off|by apply field_regs_off|done..]. }
  unfold view. rewrite !Hk by done. rewrite !Hk2 by (unfold field_regs; set_solver).
  case_decide; [|done]. unfold upd1. cbn [v_dir v_out v_psr v_imr v_isr v_gius v_gpr v_puen v_icr v_ocr v_iconfa
    v_iconfb v_reserved v_level v_flow]. f_equal. each_reg Ho; done.
Qed.

Lemma view_set2 o g x s g' :
  o ∈ field_regs -> 0 <= x < 4 ->
  view (set2 o (GPIO_TO_PORT g) (GPIO_TO_INDEX g) x s) g' =
  if decide (g' = g) then upd2 o x (view s g') else view s g'.
Proof.
  intros Ho Hx. pose proof (index_range g) as Hi. pose proof (index_range g') as Hj.
  assert (Hk : forall o', o' ∈ bit_regs \/ o' = GPIO_PSR ->
    get1 (set2 o (GPIO_TO_PORT g) (GPIO_TO_INDEX g) x s) o' (GPIO_TO_PORT g') (GPIO_TO_INDEX g') =
    get1 s o' (GPIO_TO_PORT g') (GPIO_TO_INDEX g')).
  { intros o' Ho'. destruct (regs_apart o' o Ho' Ho).
    apply get1_set2; [by apply field_regs_off|destruct Ho' as [?| ->]; [by apply bit_regs_off|done]|done..]. }
  assert (Hk2 : forall o', o' ∈ field_regs ->
    get2 (set2 o (GPIO_TO_PORT g) (GPIO_TO_INDEX g) x s) o' (GPIO_TO_PORT g') (GPIO_TO_INDEX g') =
    if decide (g' = g) then (if o =? o' then x else get2 s o' (GPIO_TO_PORT g') (GPIO_TO_INDEX g'))
    else get2 s o' (GPIO_TO_PORT g') (GPIO_TO_INDEX g')).
  { intros o' Ho'. destruct (fields_apart o o' Ho Ho').
    rewrite get2_set2; [|by apply field_regs_off|by apply field_regs_off|done..].
    destruct (decide (g' = g)) as [->|Hne].
    - destruct (Z.eqb_spec o o') as [->|Hn]; [by rewrite decide_True|]. rewrite decide_False; [done|naive_solver].
    - rewrite decide_False; [done|]. intros (_ & H'). apply Hne. by apply line_eq. }
  unfold view. rewrite !Hk by (first [by right|left; unfold bit_regs; set_solver]).
  rewrite !Hk2 by (unfold field_regs; set_solver). by case_decide.
Qed.

Lemma view_setm g port port' r l s g' :
  0 <= g < 192 -> 0 <= g' -> gports s !! Z.to_nat (GPIO_TO_PORT g) = Some port ->
  (forall j, 0 <= j < 32 -> Z.testbit (reserved_map port') j =
     if decide (j = GPIO_TO_INDEX g) then r else Z.testbit (reserved_map port) j) ->
  (forall j, 0 <= j < 32 -> Z.testbit (irq_is_level_map port') j =
     if decide (j = GPIO_TO_INDEX g) then l else Z.testbit (irq_is_level_map port) j) ->
  view (setm (GPIO_TO_PORT g) port' s) g' =
  if decide (g' = g) then updm r l (view s g') else view s g'.
Proof.
  intros Hg Hg' Hport Hr Hl. pose proof (port_range g Hg) as Hp. pose proof (index_range g') as Hj.
  assert (0 <= GPIO_TO_PORT g') as Hp' by (unfold GPIO_TO_PORT, GPIO_NUM_PIN; apply Z.div_pos; lia).
  assert (Hk : forall f b, (forall j, 0 <= j < 32 -> Z.testbit (f port') j =
     if decide (j = GPIO_TO_INDEX g) then b else Z.testbit (f port) j) ->
     getm f (setm (GPIO_TO_PORT g) port' s) (GPIO_TO_PORT g') (GPIO_TO_INDEX g') =
     if decide (g' = g) then b else getm f s (GPIO_TO_PORT g') (GPIO_TO_INDEX g')).
  { intros f b Hf. unfold getm, setm. cbn [gports with_gports].
    destruct (decide (GPIO_TO_PORT g' = GPIO_TO_PORT g)) as [E|E].
    - rewrite E, list_lookup_insert_eq by (by apply lookup_lt_Some in Hport). rewrite Hport, Hf by done.
      destruct (decide (g' = g)) as [->|Hne]; [by rewrite decide_True|]. rewrite decide_False; [done|].
      intros E'. apply Hne. by apply line_eq.
    - rewrite list_lookup_insert_ne by lia. rewrite decide_False; [done|]. intros ->. done. }
  unfold view. rewrite (Hk _ _ Hr), (Hk _ _ Hl). by case_decide.
Qed.

Lemma view_set_flow g h s g' d :
  descs s !! (MXC_GPIO_BASE + g) = Some d ->
  view (set_flow g h s) g' = if decide (g' = g) then updf h (view s g') else view s g'.
Proof.
  intros Hd. unfold view, flow_of, set_flow. cbn [descs with_descs]. rewrite lookup_alter.
  destruct (decide (g' = g)) as [->|Hne].
  - rewrite decide_True by done. rewrite Hd. done.
  - rewrite decide_False by lia. done.
Qed.

(** ** Operations and their specification *)

Inductive gpio_op : Type :=
| Request
| Free
| SetDirection (is_input : bool)
| SetDataout (data : Z)
| GetDatain
| GetSsr
| SetIrqType (type : Z)
| MaskIrq
| UnmaskIrq
| AckIrq
| ConfigMux (mode : Z)
| SetPuen (en : bool)
| RequestMux (mode : Z)
| FreeMux.

Definition ok {S} (m : M S unit) : M S Z := m;; mret 0.

(** [IOMUX_TO_IRQ]. *)
Definition IOMUX_TO_IRQ (pin : Z) : Z := MXC_GPIO_BASE + IOMUX_TO_GPIO pin.

Definition run_op (op : gpio_op) (pin : Z) : M irqst Z :=
  match op with
  | Request => mxc_request_gpio pin
  | Free => ok (mxc_free_gpio pin)
  | SetDirection b => ok (mxc_set_gpio_direction pin b)
  | SetDataout d => ok (mxc_set_gpio_dataout pin d)
  | GetDatain => mxc_get_gpio_datain pin
  | GetSsr => mxc_get_gpio_ssr pin
  | SetIrqType t => gpio_set_irq_type (IOMUX_TO_IRQ pin) t
  | MaskIrq => ok (gpio_mask_irq (IOMUX_TO_IRQ pin))
  | UnmaskIrq => ok (gpio_unmask_irq (IOMUX_TO_IRQ pin))
  | AckIrq => ok (gpio_ack_irq (IOMUX_TO_IRQ pin))
  | ConfigMux m => gpio_config_mux pin m
  | SetPuen b => gpio_set_puen pin b
  | RequestMux m => gpio_request_mux pin m
  | FreeMux => ok (gpio_free_mux pin)
  end.

Definition with_reserved (b : bool) (v : pin_state) : pin_state := updm b (v_level v) v.
Definition with_level (b : bool) (v : pin_state) : pin_state := updm (v_reserved v) b v.

(** A pin that is given back is an input that raises no interrupt. *)
Definition free_spec (v : pin_state) : pin_state :=
  if v_reserved v then
    upd1 GPIO_ISR false (upd1 GPIO_IMR false (upd1 GPIO_GDIR false (updm false false v)))
  else v.

Definition request_spec (v : pin_state) : Z * pin_state :=
  if v_reserved v then (-1, v) else (0, with_reserved true v).

Definition sense_spec (code : Z) (level : bool) (v : pin_state) : pin_state :=
  with_level level (updf (if level then p_handle_level_irq else p_handle_edge_irq)
    (upd1 GPIO_ISR false (upd2 GPIO_ICR1 code v))).

Definition type_spec (t : Z) (v : pin_state) : Z * pin_state :=
  if t =? IRQT_RISING then (0, sense_spec GPIO_INT_RISE_EDGE false v)
  else if t =? IRQT_FALLING then (0, sense_spec GPIO_INT_FALL_EDGE false v)
  else if t =? IRQT_LOW then (0, sense_spec GPIO_INT_LOW_LEV true v)
  else if t =? IRQT_HIGH then (0, sense_spec GPIO_INT_HIGH_LEV true v)
  else (- EINVAL, v).

Definition ack_spec (v : pin_state) : pin_state :=
  let v1 := upd1 GPIO_ISR false v in if v_level v then upd1 GPIO_IMR false v1 else v1.

Definition mux_spec (mode : Z) (v : pin_state) : Z * pin_state :=
  let gpio v := (0, upd1 GPIO_GIUS true v) in
  if mode =? GPIO_MUX_PRIMARY then (0, upd1 GPIO_GPR false (upd1 GPIO_GIUS false v))
  else if mode =? GPIO_MUX_ALT then (0, upd1 GPIO_GPR true (upd1 GPIO_GIUS false v))
  else if mode =? GPIO_MUX_GPIO then gpio (upd2 GPIO_OCR1 GPIO_OUTPUT_DR v)
  else if mode =? GPIO_MUX_INPUT1 then gpio (upd2 GPIO_ICONFA1 GPIO_INPUT_GPIO v)
  else if mode =? GPIO_MUX_INPUT2 then gpio (upd2 GPIO_ICONFB1 GPIO_INPUT_GPIO v)
  else if mode =? GPIO_MUX_OUTPUT1 then gpio (upd2 GPIO_OCR1 GPIO_OUTPUT_A v)
  else if mode =? GPIO_MUX_OUTPUT2 then gpio (upd2 GPIO_OCR1 GPIO_OUTPUT_B v)
  else if mode =? GPIO_MUX_OUTPUT3 then gpio (upd2 GPIO_OCR1 GPIO_OUTPUT_C v)
  else (-1, v).

Definition request_mux_spec (mode : Z) (v : pin_state) : Z * pin_state :=
  let (ret, v1) := request_spec v in
  if ret =? 0 then
    let (ret2, v2) := mux_spec mode v1 in
    if ret2 =? 0 then (0, v2) else (ret2, free_spec v2)
  else (ret, v1).

Definition spec_op (op : gpio_op) (v : pin_state) : Z * pin_state :=
  match op with
  | Request => request_spec v
  | Free | FreeMux => (0, free_spec v)
  | SetDirection b => (0, upd1 GPIO_GDIR (negb b) v)
  | SetDataout d => (0, upd1 GPIO_DR (negb (d =? 0)) v)
  | GetDatain => (Z.b2z (v_out v), v)
  | GetSsr => (Z.b2z (v_psr v), v)
  | SetIrqType t => type_spec t v
  | MaskIrq => (0, upd1 GPIO_IMR false v)
  | UnmaskIrq => (0, upd1 GPIO_IMR true v)
  | AckIrq => (0, ack_spec v)
  | ConfigMux m => mux_spec m v
  | SetPuen b => (0, upd1 GPIO_PUEN b v)
  | RequestMux m => request_mux_spec m v
  end.

(** What an operation on line [g] is to do: return [fst (f v)] for the pin in
    state [v], leave it in state [snd (f v)], and no other pin changed. *)
Definition acts (g : Z) (m : M irqst Z) (f : pin_state -> Z * pin_state) : Prop :=
  forall s, gpio_wf s ->
    exists s', m s = Ret (fst (f (view s g)), s') /\ gpio_wf s' /\ view s' g = snd (f (view s g)) /\
      (forall g', 0 <= g' -> g' <> g -> view s' g' = view s g') /\ initialized s' = initialized s.

Lemma wf_setm g port s :
  0 <= g < 192 -> port_ok (GPIO_TO_PORT g) port -> gpio_wf s -> gpio_wf (setm (GPIO_TO_PORT g) port s).
Proof.
  intros Hg Hok [H1 H2]. split; [|exact H2]. intros q Hq. destruct (H1 q Hq) as (port0 & H0 & Hok0).
  unfold setm. cbn [gports with_gports]. destruct (decide (q = GPIO_TO_PORT g)) as [->|Hne].
  - exists port. split; [|done]. apply list_lookup_insert_eq. by apply lookup_lt_Some in H0.
  - exists port0. split; [|done]. rewrite list_lookup_insert_ne; [done|]. pose proof (port_range g Hg). lia.
Qed.

Lemma wf_flow g h s : gpio_wf s -> gpio_wf (set_flow g h s).
Proof.
  intros [H1 H2]. split; [exact H1|]. intros g' Hg'. destruct (H2 g' Hg') as (d & Hd & Hc & Hh).
  unfold set_flow. cbn [descs with_descs]. rewrite lookup_alter. case_decide as E.
  - rewrite E, Hd. exists (upd_handle (Some h) d). split_and!; [done..|by eexists].
  - eauto.
Qed.

(** One update of the state as one update of the pin. *)
Lemma acts_update g (ret : Z) (upd : irqst -> irqst) (f : pin_state -> pin_state) m :
  (forall s, gpio_wf s -> m s = Ret (ret, upd s)) ->
  (forall s, gpio_wf s -> gpio_wf (upd s)) -> (forall s, initialized (upd s) = initialized s) ->
  (forall s g', gpio_wf s -> 0 <= g' -> view (upd s) g' = if decide (g' = g) then f (view s g') else view s g') ->
  0 <= g -> acts g m (fun v => (ret, f v)).
Proof.
  intros Hrun Hwf Hini Hview Hg s Hs. exists (upd s). split_and!; [by apply Hrun|by apply Hwf| |..|done].
  - rewrite Hview by done. by rewrite decide_True.
  - intros g' Hg' Hne. rewrite Hview by done. by rewrite decide_False.
Qed.

Ltac in_regs := match goal with |- ?P => apply (bool_decide_eq_true_1 P) end; vm_compute; reflexivity.

(** Evaluates [view] after elementary updates. *)
Ltac eval_view :=
  repeat first
    [ rewrite view_set1 by in_regs
    | rewrite view_set2 by (first [in_regs | done])
    | rewrite (decide_True (P := _ = _)) by done ];
  try (case_decide; done).

Section Line.
Context (pin g : Z) (Hpin : IOMUX_TO_GPIO pin = g) (Hg : 0 <= g < 192).

Let p := GPIO_TO_PORT g.
Let i := GPIO_TO_INDEX g.

Lemma wf_port s : gpio_wf s -> exists port, gports s !! Z.to_nat p = Some port /\ port_ok p port /\
  port_at (get_gpio_port g) s = Ret (port, s).
Proof.
  intros [H _]. pose proof (port_range g Hg) as Hp. destruct (H _ Hp) as (port & Hl & Hok).
  exists port. split_and!; [done..|]. unfold port_at, get_gpio_port, get, mbind, M_bind. fold p.
  destruct (Z.ltb_spec p 0); [unfold p in *; lia|]. cbv beta iota. fold p in Hl. by rewrite Hl.
Qed.

Lemma check_line : (check_gpio (IOMUX_TO_GPIO pin) <? 0) = false.
Proof.
  rewrite Hpin. unfold check_gpio, MXC_MAX_GPIO_LINES, GPIO_NUM_PIN, GPIO_PORT_NUM.
  destruct (Z.leb_spec (32 * 6) g); [lia|done].
Qed.

Lemma irq_line : MXC_IRQ_TO_GPIO (IOMUX_TO_IRQ pin) = g.
Proof.
  unfold MXC_IRQ_TO_GPIO, IOMUX_TO_IRQ. rewrite Hpin. rewrite u32_small; [lia|].
  unfold MXC_GPIO_BASE, MXC_MAX_INT_LINES. lia.
Qed.

(** Runs [port ← port_at ..; k] in a well-formed state. *)
Lemma with_port s {A} (k : gpio_port -> M irqst A) :
  gpio_wf s -> exists port, gports s !! Z.to_nat p = Some port /\ port_ok p port /\
  (port_at (get_gpio_port g) ≫= k) s = k port s.
Proof.
  intros Hs. destruct (wf_port s Hs) as (port & A1 & A2 & A3). exists port. split_and!; [done..|].
  by rewrite (run_bind _ _ _ _ _ A3).
Qed.

Lemma acts_bit o b (X : gpio_port -> M irqst unit) :
  o ∈ bit_regs -> (forall port s, base port = pbase p -> X port s = Ret (tt, set1 o p i b s)) ->
  acts g (ok (port ← port_at (get_gpio_port g); X port)) (fun v => (0, upd1 o b v)).
Proof.
  intros Ho HX. apply (acts_update g 0 (set1 o p i b) (upd1 o b)); [|done|done|..|lia].
  - intros s Hs. unfold ok. destruct (with_port s X Hs) as (port & _ & Hok & E).
    rewrite (HX port s) in E by apply Hok. by rewrite (run_bind _ _ _ _ _ E).
  - intros s g' Hs _. apply view_set1, Ho.
Qed.

Lemma acts_direction b : acts g (run_op (SetDirection b) pin) (spec_op (SetDirection b)).
Proof.
  unfold run_op, mxc_set_gpio_direction. cbv zeta. rewrite check_line, Hpin. apply acts_bit; [in_regs|].
  intros port s Hb. apply direction_run; [apply port_range, Hg|done].
Qed.

Lemma acts_dataout d : acts g (run_op (SetDataout d) pin) (spec_op (SetDataout d)).
Proof.
  unfold run_op, mxc_set_gpio_dataout. cbv zeta. rewrite check_line, Hpin. apply acts_bit; [in_regs|].
  intros port s Hb. rewrite <- (dataout_run p i port (port_range _ Hg) Hb). by destruct (d =? 0).
Qed.

Lemma acts_irqenable b :
  acts g (ok (port ← port_at (get_gpio_port g); _set_gpio_irqenable port i b)) (fun v => (0, upd1 GPIO_IMR b v)).
Proof. apply acts_bit; [in_regs|]. intros port s Hb. apply irqenable_run; [apply port_range, Hg|done]. Qed.

Lemma acts_mask : acts g (run_op MaskIrq pin) (spec_op MaskIrq).
Proof. unfold run_op, gpio_mask_irq. rewrite irq_line. apply acts_irqenable. Qed.

Lemma acts_unmask : acts g (run_op UnmaskIrq pin) (spec_op UnmaskIrq).
Proof. unfold run_op, gpio_unmask_irq. rewrite irq_line. apply acts_irqenable. Qed.

(** Reading a one-bit register. *)
Lemma acts_read o (f : pin_state -> bool) :
  (forall s, f (view s g) = get1 s o p i) ->
  acts g (port ← port_at (get_gpio_port g);
          l ← ird (base port + o); mret (Z.land (Z.shiftr l i) 1)) (fun v => (Z.b2z (f v), v)).
Proof.
  intros Hf s Hs.
  destruct (with_port s (fun port => l ← ird (base port + o); mret (Z.land (Z.shiftr l i) 1)) Hs)
    as (port & _ & Hok & E).
  exists s. split_and!; try done. rewrite E. unfold ird, gets, mbind, M_bind. unfold mret, M_ret. cbn [fst].
  rewrite Hf. unfold get1. replace (base port) with (pbase p) by (symmetry; apply Hok).
  pose proof (index_range g). rewrite (Z.land_ones _ 1) by lia. change (2 ^ 1) with 2.
  rewrite <- Z.bit0_mod, Z.shiftr_spec by lia. done.
Qed.

Lemma acts_datain : acts g (run_op GetDatain pin) (spec_op GetDatain).
Proof. unfold run_op, mxc_get_gpio_datain. cbv zeta. rewrite check_line, Hpin. by apply acts_read. Qed.

Lemma acts_ssr : acts g (run_op GetSsr pin) (spec_op GetSsr).
Proof. unfold run_op, mxc_get_gpio_ssr. cbv zeta. rewrite check_line, Hpin. by apply (acts_read GPIO_PSR v_psr). Qed.

Ltac open_port port Hl Hok E :=
  match goal with
  | Hs : gpio_wf ?s |- context [port_at (get_gpio_port g) ≫= ?k] =>
      destruct (with_port s k Hs) as (port & Hl & Hok & E); cbv beta in E
  end.

(** The reservation bit decides. *)
Lemma reserved_bit s port :
  gports s !! Z.to_nat p = Some port ->
  v_reserved (view s g) = negb (Z.land (reserved_map port) (bit i) =? 0).
Proof.
  intros Hl. unfold view, getm. cbn [v_reserved]. fold p i. rewrite Hl.
  rewrite land_bit, negb_involutive by apply index_range. done.
Qed.

Lemma level_bit s port :
  gports s !! Z.to_nat p = Some port ->
  v_level (view s g) = negb (Z.land (irq_is_level_map port) (bit i) =? 0).
Proof.
  intros Hl. unfold view, getm. cbn [v_level]. fold p i. rewrite Hl.
  rewrite land_bit, negb_involutive by apply index_range. done.
Qed.

Lemma testbit_set_if x j (b : bool) :
  0 <= j -> Z.testbit (if b then setb x (bit i) else clear x (bit i)) j = if decide (j = i) then b else Z.testbit x j.
Proof.
  intros Hj. pose proof (index_range g). destruct b; rewrite ?testbit_setb, ?testbit_clear, testbit_bit by (unfold i; lia);
    destruct (Z.eqb_spec j i), (decide (j = i)); try done; by rewrite ?orb_true_r, ?orb_false_r, ?andb_false_r, ?andb_true_r.
Qed.

(** Updating the maps of the port at the bit of the line. *)
Definition set_maps (r l : option bool) (port : gpio_port) : gpio_port :=
  let up o x := match o with Some b => if b : bool then setb x (bit i) else clear x (bit i) | None => x end in
  upd_maps (up r (reserved_map port)) (up l (irq_is_level_map port)) port.

Lemma set_maps_ok r l port : port_ok p port -> port_ok p (set_maps r l port).
Proof.
  intros (H1 & H2 & H3 & H4). pose proof (index_range g) as Hi.
  assert (Hr : forall o x, 0 <= x < 2 ^ 32 -> 0 <= match o with
    | Some b => if b : bool then setb x (bit i) else clear x (bit i) | None => x end < 2 ^ 32).
  { intros [[]|] x Hx; [apply setb_range|apply clear_range|]; try lia. by apply bit_range. }
  split_and!; [done|done|..]; cbn [reserved_map irq_is_level_map set_maps upd_maps]; by apply Hr.
Qed.

Lemma view_set_maps r l port s g' :
  0 <= g' -> gports s !! Z.to_nat p = Some port ->
  view (setm p (set_maps r l port) s) g' =
  if decide (g' = g) then updm (default (v_reserved (view s g')) r) (default (v_level (view s g')) l) (view s g')
  else view s g'.
Proof.
  intros Hg' Hl. pose proof (index_range g) as Hi. unfold p.
  rewrite (view_setm g port _ (default (v_reserved (view s g)) r) (default (v_level (view s g)) l)); try done.
  - destruct (decide (g' = g)) as [->|]; done.
  - intros j Hj. cbn [reserved_map set_maps upd_maps]. destruct r as [b|].
    + rewrite testbit_set_if by lia. done.
    + cbn [default]. destruct (decide (j = GPIO_TO_INDEX g)) as [->|]; [|done].
      unfold view, getm. cbn [v_reserved]. fold p. by rewrite Hl.
  - intros j Hj. cbn [irq_is_level_map set_maps upd_maps]. destruct l as [b|].
    + rewrite testbit_set_if by lia. done.
    + cbn [default]. destruct (decide (j = GPIO_TO_INDEX g)) as [->|]; [|done].
      unfold view, getm. cbn [v_level]. fold p. by rewrite Hl.
Qed.

Lemma acts_request : acts g (run_op Request pin) (spec_op Request).
Proof.
  intros s Hs. unfold run_op, mxc_request_gpio, spec_op, request_spec. cbv zeta. rewrite check_line, Hpin.
  unfold _request_gpio. open_port port Hl Hok E0. rewrite E0. fold i.
  rewrite (reserved_bit s port Hl). destruct (Z.land (reserved_map port) (bit i) =? 0) eqn:E; cbn [negb].
  - exists (setm p (set_maps (Some true) None port) s). split_and!; [done| | | |done].
    + apply wf_setm; [done|by apply set_maps_ok|done].
    + rewrite view_set_maps by (lia || done). by rewrite decide_True.
    + intros g' Hg' Hne. rewrite view_set_maps by done. by rewrite decide_False.
  - exists s. by split_and!.
Qed.

Lemma acts_free : acts g (run_op Free pin) (spec_op Free).
Proof.
  intros s Hs. unfold run_op, mxc_free_gpio, spec_op, free_spec, ok. cbv zeta. rewrite check_line, Hpin.
  open_port port Hl Hok E.
  pose proof (port_range g Hg) as Hp. fold p in Hp.
  rewrite (reserved_bit s port Hl). fold i in E |- *.
  destruct (Z.land (reserved_map port) (bit i) =? 0) eqn:Er; cbn [negb].
  - exists s. split_and!; try done. rewrite (run_bind _ _ _ tt s); [done|]. exact E.
  - set (port' := set_maps (Some false) (Some false) port).
    assert (Hok' : port_ok p port') by (by apply set_maps_ok).
    exists (set1 GPIO_ISR p i false (set1 GPIO_IMR p i false (set1 GPIO_GDIR p i false (setm p port' s)))).
    assert (Hv : forall g', 0 <= g' -> view (set1 GPIO_ISR p i false (set1 GPIO_IMR p i false
        (set1 GPIO_GDIR p i false (setm p port' s)))) g' = if decide (g' = g) then
      upd1 GPIO_ISR false (upd1 GPIO_IMR false (upd1 GPIO_GDIR false (updm false false (view s g')))) else view s g').
    { intros g' Hg'. unfold p, i. rewrite !view_set1 by in_regs. fold p. unfold port'.
      rewrite view_set_maps by done. case_decide; done. }
    split_and!.
    + change (upd_maps (clear (reserved_map port) (bit i)) (clear (irq_is_level_map port) (bit i)) port)
        with port' in E.
      rewrite (run_bind (store_port _ _) _ _ tt (setm p port' s)) in E by done.
      rewrite (run_bind _ _ _ _ _ (direction_run p i port' Hp (proj1 Hok') true _)) in E.
      rewrite (run_bind _ _ _ _ _ (irqenable_run p i port' Hp (proj1 Hok') false _)) in E.
      rewrite (irqstatus_run p i port' Hp (proj1 Hok')) in E. by rewrite (run_bind _ _ _ _ _ E).
    + apply (wf_setm g); [done|done|done].
    + rewrite Hv by lia. by rewrite decide_True.
    + intros g' Hg' Hne. rewrite Hv by done. by rewrite decide_False.
    + done.
Qed.

Lemma acts_ack : acts g (run_op AckIrq pin) (spec_op AckIrq).
Proof.
  intros s Hs. unfold run_op, gpio_ack_irq, spec_op, ack_spec, ok. cbv zeta. rewrite irq_line.
  open_port port Hl Hok E. fold i in E |- *.
  pose proof (port_range g Hg) as Hp. fold p in Hp.
  rewrite (level_bit s port Hl). set (s1 := set1 GPIO_ISR p i false s).
  assert (Hv1 : forall g', view s1 g' = if decide (g' = g) then upd1 GPIO_ISR false (view s g') else view s g').
  { intros g'. unfold s1, p, i. by rewrite view_set1 by in_regs. }
  rewrite (run_bind _ _ _ _ _ (irqstatus_run p i port Hp (proj1 Hok) s)) in E. fold s1 in E.
  destruct (Z.land (irq_is_level_map port) (bit i) =? 0) eqn:Er; cbn [negb] in E |- *.
  - exists s1. split_and!; [by rewrite (run_bind _ _ _ _ _ E)|done| | |done].
    + rewrite Hv1. by rewrite decide_True.
    + intros g' _ Hne. rewrite Hv1. by rewrite decide_False.
  - destruct (acts_mask s1 Hs) as (s2 & E2 & W2 & V2 & F2 & I2).
    unfold run_op, ok in E2. apply bind_ret in E2 as ([] & s3 & E2 & [= ->]).
    exists s2. split_and!; [|done| | |done].
    + rewrite (run_bind _ _ _ tt s2); [done|]. rewrite E. exact E2.
    + rewrite V2. cbn [snd spec_op]. rewrite Hv1. by rewrite decide_True.
    + intros g' Hg' Hne. rewrite F2 by done. rewrite Hv1. by rewrite decide_False.
Qed.

Lemma set_handler_run h s :
  gpio_wf s -> h <> p_handle_bad_irq -> set_irq_handler (MXC_GPIO_BASE + g) h s = Ret (tt, set_flow g h s).
Proof.
  intros [_ H] Hh. destruct (H g Hg) as (d & Hd & Hc & _).
  unfold set_irq_handler, __set_irq_handler.
  destruct (Z.leb_spec NR_IRQS (MXC_GPIO_BASE + g)) as [Hle|_].
  { unfold NR_IRQS, MXC_GPIO_BASE, MXC_MAX_INT_LINES, MXC_MAX_GPIO_LINES, MXC_MAX_EXP_IO_LINES, MXC_MAX_VIRTUAL_INTS, GPIO_NUM_PIN, GPIO_PORT_NUM in Hle. lia. }
  cbn [default]. rewrite (decide_False (P := h = p_handle_bad_irq)) by done.
  rewrite (bool_decide_eq_false_2 (h = p_handle_bad_irq)) by done. cbn [negb andb].
  assert (Ed : desc_at (MXC_GPIO_BASE + g) s = Ret (d, s)) by (unfold desc_at, get, mbind, M_bind; cbv beta iota; by rewrite Hd).
  rewrite (run_bind _ _ _ _ _ Ed). rewrite decide_False by (by rewrite Hc).
  rewrite (run_bind _ _ _ tt s) by done. rewrite (run_bind _ _ _ tt s) by done.
  rewrite (run_bind _ _ _ _ _ Ed). unfold set_flow, store_desc, modify, mbind, M_bind, with_descs.
  unfold mret, M_ret. repeat f_equal. apply map_eq. intros x. rewrite lookup_insert, lookup_alter.
  case_decide as E; [|done]. by rewrite Hd.
Qed.

Lemma acts_sense e (level : bool) :
  0 <= e < 4 ->
  acts g (port ← port_at (get_gpio_port g);
          _set_gpio_edge_ctrl port i e;;
          set_irq_handler (MXC_GPIO_BASE + g) (if level then p_handle_level_irq else p_handle_edge_irq);;
          store_level (get_gpio_port g) i level;; mret 0)
    (fun v => (0, sense_spec e level v)).
Proof.
  intros He s Hs. open_port port Hl Hok E. pose proof (port_range g Hg) as Hp. fold p in Hp.
  set (h := if level then p_handle_level_irq else p_handle_edge_irq) in *.
  set (s1 := set1 GPIO_ISR p i false (set2 GPIO_ICR1 p i e s)).
  rewrite (run_bind _ _ _ _ _ (edge_ctrl_run p i port Hp (index_range g) (proj1 Hok) e s)) in E. fold s1 in E.
  assert (Hs1 : gpio_wf s1) by exact Hs.
  rewrite (run_bind _ _ _ _ _ (set_handler_run h s1 Hs1 ltac:(by destruct level))) in E.
  set (s2 := set_flow g h s1) in *. assert (Hs2 : gpio_wf s2) by (by apply wf_flow).
  assert (Esl : store_level (get_gpio_port g) i level s2 = Ret (tt, setm p (set_maps None (Some level) port) s2)).
  { unfold store_level. destruct (wf_port s2 Hs2) as (port2 & Hl2 & _ & E2).
    assert (port2 = port) as -> by (unfold s2, s1 in Hl2; cbn in Hl2; congruence).
    rewrite (run_bind _ _ _ _ _ E2). reflexivity. }
  rewrite (run_bind _ _ _ _ _ Esl) in E. unfold mret, M_ret in E.
  assert (Hv : forall g', 0 <= g' -> view (setm p (set_maps None (Some level) port) s2) g' =
    if decide (g' = g) then sense_spec e level (view s g') else view s g').
  { intros g' Hg'. rewrite view_set_maps by (try done; exact Hl). destruct (proj2 Hs g Hg) as (d & Hd & _).
    unfold s2. rewrite (view_set_flow g h s1 g' d) by exact Hd. unfold s1, p, i.
    rewrite view_set1 by in_regs. rewrite view_set2 by (first [in_regs|done]).
    destruct (decide (g' = g)); done. }
  eexists. split_and!; [exact E| | | |done].
  - apply wf_setm; [done|by apply set_maps_ok|done].
  - rewrite Hv by lia. by rewrite decide_True.
  - intros g' Hg' Hne. rewrite Hv by done. by rewrite decide_False.
Qed.

Lemma acts_id (ret : Z) (m : M irqst Z) : (forall s, gpio_wf s -> m s = Ret (ret, s)) -> acts g m (fun v => (ret, v)).
Proof. intros H s Hs. exists s. split_and!; try done. by apply H. Qed.

Lemma acts_type t : acts g (run_op (SetIrqType t) pin) (spec_op (SetIrqType t)).
Proof.
  unfold run_op, gpio_set_irq_type, spec_op, type_spec. cbv zeta. rewrite irq_line.
  unfold IOMUX_TO_IRQ. rewrite Hpin. fold i.
  destruct (t =? IRQT_RISING); [by apply (acts_sense GPIO_INT_RISE_EDGE false)|].
  destruct (t =? IRQT_FALLING); [by apply (acts_sense GPIO_INT_FALL_EDGE false)|].
  destruct (t =? IRQT_LOW); [by apply (acts_sense GPIO_INT_LOW_LEV true)|].
  destruct (t =? IRQT_HIGH); [by apply (acts_sense GPIO_INT_HIGH_LEV true)|].
  apply acts_id. intros s Hs. destruct (wf_port s Hs) as (port & _ & _ & E). by rewrite (run_bind _ _ _ _ _ E).
Qed.

(** *** Pin functions *)

Let mport := mkMxcPort p (pbase p) INT_GPIO (MXC_GPIO_BASE + GPIO_NUM_PIN * p).

Lemma mxc_port_run s : mxc_port_at (GPIO_TO_PORT g) s = Ret (mport, s).
Proof.
  pose proof (port_range g Hg) as Hp. unfold mxc_port_at.
  destruct (Z.ltb_spec (GPIO_TO_PORT g) 0); [lia|]. by rewrite mxc_ports_lookup by done.
Qed.

Lemma writel_readl_same r a b : readl (writel (readl r a) a r) b = readl r b.
Proof. symmetry. apply writel_same. Qed.

(** The two register writes at the end of [gpio_config_mux]: [GIUS] and [GPR]
    were read in a state [s] that agrees with the current one on them. *)
Lemma finish_run s s1 b (c : option bool) :
  let gius := readl (iregs s) (pbase p + GPIO_GIUS) in
  let gpr := readl (iregs s) (pbase p + GPIO_GPR) in
  readl (iregs s1) (pbase p + GPIO_GIUS) = gius -> readl (iregs s1) (pbase p + GPIO_GPR) = gpr ->
  exists f, (iwr (if b : bool then setb gius (bit i) else clear gius (bit i)) (pbase p + GPIO_GIUS);;
    iwr (match c with
         | Some c => if c : bool then setb gpr (bit i) else clear gpr (bit i)
         | None => gpr
         end) (pbase p + GPIO_GPR);; mret 0) s1 = Ret (0, with_iregs f s1) /\
    forall g', view (with_iregs f s1) g' =
      if decide (g' = g) then
        match c with Some c => upd1 GPIO_GPR c | None => fun v => v end (upd1 GPIO_GIUS b (view s1 g'))
      else view s1 g'.
Proof.
  intros gius gpr E1 E2. pose proof (port_range g Hg) as Hp. fold p in Hp.
  assert (Hne : pbase p + GPIO_GIUS <> pbase p + GPIO_GPR) by (unfold GPIO_GIUS, GPIO_GPR; lia).
  unfold iwr, modify, mbind, M_bind, mret, M_ret.
  assert (Es1 : with_iregs (io_write (if b then setb gius (bit i) else clear gius (bit i)) (pbase p + GPIO_GIUS)) s1 =
    set1 GPIO_GIUS p i b s1).
  { unfold set1, with_iregs. rewrite io_write_plain by done. by rewrite E1. }
  assert (E2' : readl (iregs (set1 GPIO_GIUS p i b s1)) (pbase p + GPIO_GPR) = gpr).
  { unfold set1. cbn [iregs with_iregs]. by rewrite readl_writel_ne by done. }
  rewrite Es1. eexists (fun r => _). split; [reflexivity|]. cbv beta.
  match goal with |- forall g', view ?t g' = _ => change t with
    (with_iregs (io_write (match c with Some c => if c : bool then setb gpr (bit i) else clear gpr (bit i)
      | None => gpr end) (pbase p + GPIO_GPR)) (set1 GPIO_GIUS p i b s1)) end.
  intros g'. transitivity (if decide (g' = g) then
    match c with Some c => upd1 GPIO_GPR c | None => fun v => v end (view (set1 GPIO_GIUS p i b s1) g')
    else view (set1 GPIO_GIUS p i b s1) g').
  - destruct c as [c|].
    + assert (with_iregs (io_write (if c then setb gpr (bit i) else clear gpr (bit i)) (pbase p + GPIO_GPR))
        (set1 GPIO_GIUS p i b s1) = set1 GPIO_GPR p i c (set1 GPIO_GIUS p i b s1)) as ->.
      { rewrite <- E2'. unfold set1 at 1 4. unfold with_iregs at 1 3. rewrite io_write_plain by done. reflexivity. }
      unfold p, i. by rewrite view_set1 by in_regs.
    + transitivity (view (set1 GPIO_GIUS p i b s1) g'); [|by case_decide].
      assert (Hsame : forall a, readl (iregs (with_iregs (io_write gpr (pbase p + GPIO_GPR)) (set1 GPIO_GIUS p i b s1))) a =
        readl (iregs (set1 GPIO_GIUS p i b s1)) a).
      { intros a. cbn [iregs with_iregs]. rewrite io_write_plain by done. rewrite <- E2'. apply writel_readl_same. }
      unfold view, get1, get2. by rewrite !Hsame.
  - unfold p, i. rewrite view_set1 by in_regs. by case_decide.
Qed.

Lemma set2_frame o v s a :
  reg_off o -> a <> pbase p + o -> a <> pbase p + (o + 4) -> readl (iregs (set2 o p i v s)) a = readl (iregs s) a.
Proof.
  intros Ho H1 H2. unfold set2. cbn [iregs with_iregs]. rewrite readl_writel_ne; [done|].
  unfold off2. case_match; congruence.
Qed.

(** A mode that configures a field and hands the pin to the GPIO block. *)
Lemma acts_mux_field o v (X : M irqst unit) (f : pin_state -> Z * pin_state) :
  o ∈ field_regs -> 0 <= v < 4 -> (forall s, X s = Ret (tt, set2 o p i v s)) ->
  (forall x, f x = (0, upd1 GPIO_GIUS true (upd2 o v x))) ->
  acts g (gius ← ird (pbase p + GPIO_GIUS); gpr ← ird (pbase p + GPIO_GPR);
          X;; iwr (setb gius (bit i)) (pbase p + GPIO_GIUS);; iwr gpr (pbase p + GPIO_GPR);; mret 0) f.
Proof.
  intros Ho Hv HX Hf s Hs. rewrite Hf. set (s1 := set2 o p i v s).
  assert (Hfr : forall a, a = pbase p + GPIO_GIUS \/ a = pbase p + GPIO_GPR -> readl (iregs s1) a = readl (iregs s) a).
  { intros a Ha. pose proof (field_regs_off _ Ho). unfold s1. apply set2_frame; [done|..];
      destruct (regs_apart GPIO_GIUS o ltac:(left; in_regs) Ho), (regs_apart GPIO_GPR o ltac:(left; in_regs) Ho);
      destruct Ha as [-> | ->]; lia. }
  destruct (finish_run s s1 true None ltac:(apply Hfr; by left) ltac:(apply Hfr; by right)) as (h & E & V).
  assert (Hv1 : forall g', view s1 g' = if decide (g' = g) then upd2 o v (view s g') else view s g').
  { intros g'. unfold s1, p, i. by rewrite view_set2. }
  exists (with_iregs h s1). split_and!; [|exact Hs|..|done].
  - rewrite (run_bind (ird _) _ _ _ _ eq_refl), (run_bind (ird _) _ _ _ _ eq_refl).
    rewrite (run_bind _ _ _ _ _ (HX s)). exact E.
  - rewrite V, Hv1. by rewrite !decide_True.
  - intros g' _ Hne. rewrite V, Hv1. by rewrite !decide_False.
Qed.

(** A mode that gives the pin to a peripheral. *)
Lemma acts_mux_function c (f : pin_state -> Z * pin_state) :
  (forall x, f x = (0, upd1 GPIO_GPR c (upd1 GPIO_GIUS false x))) ->
  acts g (gius ← ird (pbase p + GPIO_GIUS); gpr ← ird (pbase p + GPIO_GPR);
          iwr (clear gius (bit i)) (pbase p + GPIO_GIUS);;
          iwr (if c : bool then setb gpr (bit i) else clear gpr (bit i)) (pbase p + GPIO_GPR);; mret 0) f.
Proof.
  intros Hf s Hs. rewrite Hf.
  destruct (finish_run s s false (Some c) eq_refl eq_refl) as (h & E & V).
  exists (with_iregs h s). split_and!; [|exact Hs|..|done].
  - rewrite (run_bind (ird _) _ _ _ _ eq_refl), (run_bind (ird _) _ _ _ _ eq_refl). exact E.
  - rewrite V. by rewrite decide_True.
  - intros g' _ Hne. rewrite V. by rewrite decide_False.
Qed.

Lemma acts_ext m m' f : (forall s, m s = m' s) -> acts g m' f -> acts g m f.
Proof. intros H Hm s Hs. destruct (Hm s Hs) as (s' & E & R). exists s'. by rewrite H. Qed.

Lemma acts_mux mode : acts g (run_op (ConfigMux mode) pin) (spec_op (ConfigMux mode)).
Proof.
  unfold run_op, gpio_config_mux, spec_op, mux_spec. cbv zeta. rewrite Hpin.
  pose proof (port_range g Hg) as Hp. fold p in Hp. pose proof (index_range g) as Hi. fold i in Hi.
  eapply acts_ext; [intros s; by rewrite (run_bind _ _ _ _ _ (mxc_port_run s))|]. cbv beta. cbn [mp_base mport]. fold i.
  destruct (mode =? GPIO_MUX_PRIMARY); [by apply (acts_mux_function false)|].
  destruct (mode =? GPIO_MUX_ALT); [by apply (acts_mux_function true)|].
  destruct (mode =? GPIO_MUX_GPIO);
    [apply (acts_mux_field GPIO_OCR1 GPIO_OUTPUT_DR); [in_regs|done|intros; by apply ocr_run|done]|].
  destruct (mode =? GPIO_MUX_INPUT1);
    [apply (acts_mux_field GPIO_ICONFA1 GPIO_INPUT_GPIO); [in_regs|done|intros; by apply iconfa_run|done]|].
  destruct (mode =? GPIO_MUX_INPUT2);
    [apply (acts_mux_field GPIO_ICONFB1 GPIO_INPUT_GPIO); [in_regs|done|intros; by apply iconfb_run|done]|].
  destruct (mode =? GPIO_MUX_OUTPUT1);
    [apply (acts_mux_field GPIO_OCR1 GPIO_OUTPUT_A); [in_regs|done|intros; by apply ocr_run|done]|].
  destruct (mode =? GPIO_MUX_OUTPUT2);
    [apply (acts_mux_field GPIO_OCR1 GPIO_OUTPUT_B); [in_regs|done|intros; by apply ocr_run|done]|].
  destruct (mode =? GPIO_MUX_OUTPUT3);
    [apply (acts_mux_field GPIO_OCR1 GPIO_OUTPUT_C); [in_regs|done|intros; by apply ocr_run|done]|].
  by apply acts_id.
Qed.

Lemma acts_puen b : acts g (run_op (SetPuen b) pin) (spec_op (SetPuen b)).
Proof.
  pose proof (port_range g Hg) as Hp. fold p in Hp.
  apply (acts_update g 0 (set1 GPIO_PUEN p i b)); [|done|done|..|lia].
  - intros s Hs. unfold run_op, gpio_set_puen. cbv zeta. rewrite Hpin.
    rewrite (run_bind _ _ _ _ _ (mxc_port_run s)). fold i. by rewrite (run_bind _ _ _ _ _ (puen_run p i Hp b s)).
  - intros s g' Hs _. apply view_set1. in_regs.
Qed.

Lemma acts_request_mux mode : acts g (run_op (RequestMux mode) pin) (spec_op (RequestMux mode)).
Proof.
  intros s Hs. unfold run_op, gpio_request_mux, spec_op, request_mux_spec.
  destruct (acts_request s Hs) as (s1 & E1 & W1 & V1 & F1 & I1). cbn [run_op spec_op] in E1, V1.
  rewrite (run_bind _ _ _ _ _ E1). destruct (request_spec (view s g)) as [ret v1]. cbn [fst snd] in *.
  destruct (Z.eqb_spec ret 0) as [->|Hne]; [|by exists s1].
  destruct (acts_mux mode s1 W1) as (s2 & E2 & W2 & V2 & F2 & I2). cbn [run_op spec_op] in E2, V2.
  rewrite (run_bind _ _ _ _ _ E2). rewrite V1 in V2 |- *. destruct (mux_spec mode v1) as [ret2 v2]. cbn [fst snd] in *.
  destruct (Z.eqb_spec ret2 0) as [->|Hne2]; cbn [negb].
  - exists s2. split_and!; try done; [|congruence]. intros. by rewrite F2, F1.
  - destruct (acts_free s2 W2) as (s3 & E3 & W3 & V3 & F3 & I3). cbn [run_op spec_op fst snd] in E3, V3.
    unfold ok in E3. apply bind_ret in E3 as ([] & s4 & E3 & [= ->]). exists s3.
    rewrite (run_bind _ _ _ _ _ E3). split_and!; [done|done| | |congruence].
    + by rewrite V3, V2.
    + intros. by rewrite F3, F2, F1.
Qed.

End Line.

(** Every operation acts on its own pin as specified. *)
Lemma run_op_acts op pin g :
  IOMUX_TO_GPIO pin = g -> 0 <= g < MXC_MAX_GPIO_LINES -> acts g (run_op op pin) (spec_op op).
Proof.
  intros Hpin Hg. change MXC_MAX_GPIO_LINES with 192 in Hg.
  destruct op; [apply acts_request|apply acts_free|apply acts_direction|apply acts_dataout|apply acts_datain|
    apply acts_ssr|apply acts_type|apply acts_mask|apply acts_unmask|apply acts_ack|apply acts_mux|apply acts_puen|
    apply acts_request_mux|apply acts_free]; done.
Qed.

(** C14: Pins are independent objects.  Every exported operation of the GPIO and
    pin-multiplexing code, on any of the 192 lines of a well-formed machine,
    returns, has exactly the specified effect on the state of its own pin
    ([spec_op]), and leaves every other pin's direction, data, interrupt
    configuration, function, reservation and flow handler as they were. *)
Theorem gpio_refines op pin g :
  IOMUX_TO_GPIO pin = g -> 0 <= g < MXC_MAX_GPIO_LINES -> acts g (run_op op pin) (spec_op op).
Proof. apply run_op_acts. Qed.

(** ** Pin names *)

Lemma build_pin_add gp gi : 0 <= gi < 32 -> MX27_BUILD_PIN gp gi = gp * 2 ^ 29 + gi * 2 ^ 24.
Proof.
  intros Hi. unfold MX27_BUILD_PIN, setb, MUX_IO_P, MUX_IO_I. rewrite !Z.shiftl_mul_pow2 by lia.
  rewrite <- Z.lxor_lor, <- Z.add_nocarry_lxor; [done|..]; apply Z.bits_inj'; intros n Hn;
    rewrite Z.land_spec, Z.bits_0; destruct (Z.ltb_spec n 29).
  1, 3: by rewrite Z.mul_pow2_bits_low by lia.
  all: rewrite andb_comm, (testbit_above 29); [done|lia|lia|lia].
Qed.

(** Pin names encode lines.  The name [_MX27_BUILD_PIN(port, index)] of the
    pin list denotes line [index] of port [port] for every port number that fits
    the name (0 to 7), and port and index are recovered from it. *)
Theorem build_pin_roundtrip gp gi :
  0 <= gp < 8 -> 0 <= gi < 32 ->
  IOMUX_TO_GPIO (MX27_BUILD_PIN gp gi) = GPIO_NUM_PIN * gp + gi /\
  GPIO_TO_PORT (IOMUX_TO_GPIO (MX27_BUILD_PIN gp gi)) = gp /\
  GPIO_TO_INDEX (IOMUX_TO_GPIO (MX27_BUILD_PIN gp gi)) = gi.
Proof.
  intros Hp Hi.
  assert (E : IOMUX_TO_GPIO (MX27_BUILD_PIN gp gi) = 32 * gp + gi).
  { rewrite build_pin_add by done. unfold IOMUX_TO_GPIO, MUX_IO_P, MUX_IO_I, GPIO_NUM_PIN.
    rewrite u32_small by lia. change (bit (29 - 24) - 1) with (Z.ones 5). rewrite Z.land_ones by lia.
    rewrite !Z.shiftr_div_pow2 by lia.
    assert ((gp * 2 ^ 29 + gi * 2 ^ 24) / 2 ^ 29 = gp) as -> by (symmetry; apply (Z.div_unique_pos _ _ _ (gi * 2 ^ 24)); lia).
    assert ((gp * 2 ^ 29 + gi * 2 ^ 24) / 2 ^ 24 = gp * 32 + gi) as -> by (symmetry; apply (Z.div_unique_pos _ _ _ 0); lia).
    change (2 ^ 5) with 32. assert ((gp * 32 + gi) mod 32 = gi) as ->; [|lia].
    symmetry. apply (Z.mod_unique_pos _ _ gp); lia. }
  split; [exact E|]. rewrite E. by apply line_split.
Qed.

(** Pin names that denote no line.  For a name whose port is not one of the
    six, the operations of [gpio.c] report an error or do nothing and change no
    state, and so does [gpio_request_mux]; [gpio_config_mux] and [gpio_set_puen],
    which do not check, reach past the port table. *)
Theorem invalid_pins_rejected pin s :
  MXC_MAX_GPIO_LINES <= IOMUX_TO_GPIO pin ->
  mxc_request_gpio pin s = Ret (- EINVAL, s) /\ mxc_free_gpio pin s = Ret (tt, s) /\
  (forall b, mxc_set_gpio_direction pin b s = Ret (tt, s)) /\
  (forall d, mxc_set_gpio_dataout pin d s = Ret (tt, s)) /\
  mxc_get_gpio_datain pin s = Ret (-1, s) /\ mxc_get_gpio_ssr pin s = Ret (-1, s) /\
  (forall mode, gpio_request_mux pin mode s = Ret (- EINVAL, s)) /\
  (forall mode, gpio_config_mux pin mode s = Crash NullDeref) /\
  (forall b, gpio_set_puen pin b s = Crash NullDeref).
Proof.
  intros H. assert (Hc : (check_gpio (IOMUX_TO_GPIO pin) <? 0) = true).
  { unfold check_gpio. by rewrite (proj2 (Z.leb_le _ _) H). }
  assert (Hport : mxc_port_at (GPIO_TO_PORT (IOMUX_TO_GPIO pin)) s = Crash NullDeref).
  { change MXC_MAX_GPIO_LINES with 192 in H. unfold mxc_port_at, GPIO_TO_PORT, GPIO_NUM_PIN.
    assert (6 <= IOMUX_TO_GPIO pin / 32) as Hge by (apply Z.div_le_lower_bound; lia).
    destruct (Z.ltb_spec (IOMUX_TO_GPIO pin / 32) 0); [done|].
    rewrite lookup_ge_None_2; [done|]. cbn [length mxc_gpio_ports]. lia. }
  unfold mxc_request_gpio, mxc_free_gpio, mxc_set_gpio_direction, mxc_set_gpio_dataout, mxc_get_gpio_datain,
    mxc_get_gpio_ssr, gpio_request_mux, gpio_config_mux, gpio_set_puen, mxc_request_gpio. cbv zeta.
  rewrite !Hc. split_and!; try done; intros; unfold mbind, M_bind; by rewrite Hport.
Qed.
