(* ===== verification/GpioIrq.v ===== *)
(** * GPIO interrupts: set-up, cascade and flow

    What [mxc_init_irq] and [mxc_gpio_init] establish, that the cascade handler
    calls exactly the flow handlers of the lines that are pending and enabled,
    and that a level-sensitive line is masked while its driver runs. *)

From stdpp Require Import base gmap list.
From Stdlib Require Import ZArith Lia.
From S2P Require Import Prelude CrmRegs IrqGpio GpioPins.

(** ** The cascade *)

Section Cascade.
Context (call : irq_flow -> Z -> M irqst unit).

(** Reference: the flow handlers of a list of interrupts, in order. *)
Fixpoint run_irqs (l : list Z) : M irqst unit :=
  match l with
  | [] => mret tt
  | irq :: l' =>
      (d ← desc_at irq;
       match handle_irq d with
       | None => crash Bug
       | Some h => call h irq
       end);;
      run_irqs l'
  end.

(** Positions of the set bits of [v] below [n]. *)
Definition set_bits (n : nat) (v : Z) : list Z := List.filter (Z.testbit v) (map Z.of_nat (seq 0 n)).

Lemma filter_map {A B} (f : A -> B) (P : B -> bool) (l : list A) :
  List.filter P (map f l) = map f (List.filter (fun x => P (f x)) l).
Proof. induction l as [|x l IH]; [done|]. simpl. rewrite IH. by destruct (P (f x)). Qed.

Lemma filter_ext_in {A} (P Q : A -> bool) (l : list A) :
  (forall x, In x l -> P x = Q x) -> List.filter P l = List.filter Q l.
Proof.
  induction l as [|x l IH]; intros H; [done|]. simpl. rewrite (H x) by by left.
  rewrite IH; [done|]. intros y Hy. apply H. by right.
Qed.

Lemma set_bits_step n v :
  set_bits (S n) v = (if Z.testbit v 0 then [0] else []) ++ map Z.succ (set_bits n (Z.shiftr v 1)).
Proof.
  unfold set_bits. change (seq 0 (S n)) with (0%nat :: seq 1 n). rewrite <- seq_shift.
  rewrite map_cons, map_map. cbn [List.filter]. change (Z.of_nat 0) with 0.
  assert (E : List.filter (Z.testbit v) (map (fun x => Z.of_nat (S x)) (seq 0 n)) =
    map Z.succ (List.filter (Z.testbit (Z.shiftr v 1)) (map Z.of_nat (seq 0 n)))).
  { rewrite !filter_map, map_map. rewrite (filter_ext_in _ (fun x => Z.testbit (Z.shiftr v 1) (Z.of_nat x))).
    - apply map_ext. intros x. lia.
    - intros x _. rewrite Z.shiftr_spec by lia. f_equal. lia. }
  rewrite E. by destruct (Z.testbit v 0).
Qed.

(** The shifting loop visits the set bits in increasing order. *)
Lemma dispatch_bits_run n v irq s :
  0 <= v < 2 ^ Z.of_nat n ->
  dispatch_bits call n v irq s = run_irqs (map (fun k => irq + k) (set_bits n v)) s.
Proof.
  revert v irq s. induction n as [|n IH]; intros v irq s Hv.
  - assert (v = 0) as -> by (change (2 ^ Z.of_nat 0) with 1 in Hv; lia). done.
  - cbn [dispatch_bits]. destruct (Z.eqb_spec v 0) as [->|Hne].
    + assert (set_bits (S n) 0 = []) as ->; [|done]. unfold set_bits.
      rewrite (filter_ext_in _ (fun _ => false)) by (intros; apply Z.bits_0).
      induction (map _ _); [done|]. done.
    + assert (Hsh : 0 <= Z.shiftr v 1 < 2 ^ Z.of_nat n).
      { rewrite Z.shiftr_div_pow2 by lia. change (2 ^ 1) with 2.
        rewrite Nat2Z.inj_succ, Z.pow_succ_r in Hv by lia.
        split; [apply Z.div_pos; lia|apply Z.div_lt_upper_bound; lia]. }
      rewrite set_bits_step, map_app, map_map.
      assert (Hmap : map (fun x => irq + Z.succ x) (set_bits n (Z.shiftr v 1)) =
        map (fun k => (irq + 1) + k) (set_bits n (Z.shiftr v 1))) by (apply map_ext; intros; lia).
      rewrite Hmap. change (Z.land v 1) with (Z.land v (bit 0)). rewrite land_bit by lia.
      destruct (Z.testbit v 0); cbn [negb].
      * cbn [map app run_irqs]. rewrite Z.add_0_r. unfold mbind, M_bind.
        destruct (desc_at irq s) as [[d s0]|f]; [|done].
        destruct (match handle_irq d with Some h => call h irq | None => crash Bug end s0) as [[[] s1]|f]; [|done].
        by apply IH.
      * cbn [app map]. rewrite (run_bind _ _ _ tt s) by done. by apply IH.
Qed.

(** Lines of a port, and those of them that are pending and enabled. *)
Definition lines (p : Z) : list Z := map (fun k => 32 * p + Z.of_nat k) (seq 0 32).
Definition active (s : irqst) (g : Z) : bool := v_isr (view s g) && v_imr (view s g).
Definition pending (s : irqst) (p : Z) : list Z := List.filter (active s) (lines p).

Lemma line_of p k : 0 <= k < 32 -> GPIO_TO_PORT (32 * p + k) = p /\ GPIO_TO_INDEX (32 * p + k) = k.
Proof. intros Hk. by apply line_split. Qed.

Definition int_valid (s : irqst) (p : Z) : Z :=
  Z.land (readl (iregs s) (pbase p + GPIO_ISR)) (readl (iregs s) (pbase p + GPIO_IMR)).

Lemma active_bit s p k : 0 <= k < 32 -> active s (32 * p + k) = Z.testbit (int_valid s p) k.
Proof.
  intros Hk. unfold active, view, int_valid. cbn [v_isr v_imr].
  destruct (line_of p k Hk) as [-> ->]. by rewrite Z.land_spec.
Qed.

Lemma pending_bits s p :
  map (fun g => MXC_GPIO_BASE + g) (pending s p) =
  map (fun k => MXC_GPIO_BASE + GPIO_NUM_PIN * p + k) (set_bits 32 (int_valid s p)).
Proof.
  unfold pending, lines, set_bits. rewrite !filter_map, !map_map.
  rewrite (filter_ext_in _ (fun k => Z.testbit (int_valid s p) (Z.of_nat k))).
  - apply map_ext. intros k. unfold GPIO_NUM_PIN. lia.
  - intros k Hk%in_seq. apply active_bit. lia.
Qed.

Lemma int_valid_range s p : 0 <= int_valid s p < 2 ^ 32.
Proof.
  unfold int_valid. pose proof (readl_range (iregs s) (pbase p + GPIO_ISR)).
  split; [apply Z.land_nonneg; lia|]. apply bits_bounded; [lia|apply Z.land_nonneg; lia|].
  intros j Hj. rewrite Z.land_spec. by rewrite (testbit_above 32) by lia.
Qed.

Lemma pending_nil s p : int_valid s p = 0 <-> pending s p = [].
Proof.
  split.
  - intros E. pose proof (pending_bits s p) as H. rewrite E in H.
    assert (set_bits 32 0 = []) as E0 by reflexivity. rewrite E0 in H. by apply map_eq_nil in H.
  - intros E. pose proof (int_valid_range s p). apply Z.bits_inj'. intros k Hk. rewrite Z.bits_0.
    destruct (Z.ltb_spec k 32) as [Hlt|Hge]; [|by apply (testbit_above 32)].
    destruct (Z.testbit (int_valid s p) k) eqn:Ek; [|done]. exfalso.
    assert (In (32 * p + k) (pending s p)); [|by rewrite E in *].
    unfold pending. apply filter_In. split.
    + unfold lines. apply in_map_iff. exists (Z.to_nat k). rewrite Z2Nat.id by lia. split; [done|].
      apply in_seq. lia.
    + rewrite active_bit by lia. done.
Qed.

(** One port: the handler runs the pending lines' flow handlers. *)
Lemma port_handler_run irq p s d :
  gpio_wf s -> 0 <= p < 6 -> descs s !! irq = Some d -> handler_data d = Some p -> pending s p <> [] ->
  mxc_gpio_irq_handler call irq s = run_irqs (map (fun g => MXC_GPIO_BASE + g) (pending s p)) s.
Proof.
  intros Hs Hp Hd Hdat Hne. unfold mxc_gpio_irq_handler.
  rewrite (run_bind (desc_at irq) _ _ d s) by (unfold desc_at, get, mbind, M_bind; cbv beta iota; by rewrite Hd).
  rewrite Hdat. cbn [deref]. rewrite (run_bind _ _ _ p s) by done.
  destruct (proj1 Hs p Hp) as (port & Hl & Hok).
  rewrite (run_bind (port_at p) _ _ port s).
  2: { unfold port_at, get, mbind, M_bind. cbv beta iota. destruct (Z.ltb_spec p 0); [lia|]. by rewrite Hl. }
  destruct Hok as (Hb & Hv & _). rewrite Hb, Hv.
  rewrite (run_bind (ird _) _ _ _ _ eq_refl), (run_bind (ird _) _ _ _ _ eq_refl). cbv zeta.
  fold (int_valid s p). destruct (Z.eqb_spec (int_valid s p) 0) as [E|_]; [by apply pending_nil in E|].
  rewrite pending_bits. apply dispatch_bits_run, int_valid_range.
Qed.

(** Reference: port by port, the lines that are pending and enabled when the
    port's turn comes. *)
Fixpoint cascade (irq i : Z) (n : nat) : M irqst unit :=
  match n with
  | O => mret tt
  | S n' =>
      l ← gets (fun s => pending s i);
      (match l with
       | [] => mret tt
       | _ => set_irq_data irq (Some i);; run_irqs (map (fun g => MXC_GPIO_BASE + g) l)
       end);;
      cascade irq (i + 1) n'
  end.

(** The machine is set up for the cascade on [irq]. *)
Definition cascade_ok (irq : Z) (s : irqst) : Prop := gpio_wf s /\ is_Some (descs s !! irq).

(** A computation that keeps the set-up. *)
Definition keeps (irq : Z) {A} (m : M irqst A) : Prop :=
  forall s a s', cascade_ok irq s -> m s = Ret (a, s') -> cascade_ok irq s'.

Lemma keeps_ret irq {A} (a : A) : keeps irq (mret a).
Proof. intros s b s' Hs [= _ <-]. done. Qed.

Lemma keeps_crash irq {A} f : keeps irq (crash f : M irqst A).
Proof. by intros s b s' Hs. Qed.

Lemma keeps_bind irq {A B} (m : M irqst A) (k : A -> M irqst B) :
  keeps irq m -> (forall a, keeps irq (k a)) -> keeps irq (m ≫= k).
Proof. intros Hm Hk s b s' Hs (a & s1 & E1 & E2)%bind_ret. eapply Hk; [|exact E2]. by eapply Hm. Qed.

Lemma keeps_read irq {A} (m : M irqst A) : (forall s a s', m s = Ret (a, s') -> s' = s) -> keeps irq m.
Proof. intros H s a s' Hs E. by rewrite (H _ _ _ E). Qed.

Lemma keeps_desc_at irq n : keeps irq (desc_at n).
Proof.
  apply keeps_read. intros s a s'. unfold desc_at, get, mbind, M_bind. cbv beta iota.
  destruct (descs s !! n); [by intros [= _ <-]|done].
Qed.

Lemma keeps_run_irqs irq l : (forall h n, keeps irq (call h n)) -> keeps irq (run_irqs l).
Proof.
  intros Hc. induction l as [|n l IH]; [apply keeps_ret|]. cbn [run_irqs]. apply keeps_bind; [|intros; apply IH].
  apply keeps_bind; [apply keeps_desc_at|]. intros d. destruct (handle_irq d); [apply Hc|apply keeps_crash].
Qed.

Lemma pending_regs s s' p : iregs s' = iregs s -> pending s' p = pending s p.
Proof.
  intros E. unfold pending. apply filter_ext_in. intros g _. unfold active, view. cbn [v_isr v_imr].
  unfold get1. by rewrite E.
Qed.

Lemma set_irq_data_run irq i d s :
  0 <= irq < 64 -> descs s !! irq = Some d ->
  set_irq_data irq (Some i) s = Ret (tt, with_descs <[irq := upd_data (Some i) d]> s).
Proof.
  intros Hi Hd. unfold set_irq_data.
  destruct (Z.leb_spec NR_IRQS irq) as [Hle|_].
  { change NR_IRQS with 288 in Hle. lia. }
  unfold desc_at, get, mbind, M_bind. cbv beta iota. by rewrite Hd.
Qed.

Lemma wf_store_data irq i d s :
  0 <= irq < 64 -> descs s !! irq = Some d -> gpio_wf s -> gpio_wf (with_descs <[irq := upd_data (Some i) d]> s).
Proof.
  intros Hi Hd [H1 H2]. split; [exact H1|]. intros g Hg. cbn [descs with_descs].
  rewrite lookup_insert_ne; [by apply H2|]. unfold MXC_GPIO_BASE, MXC_MAX_INT_LINES. lia.
Qed.

Lemma mux_ports_run irq i n s :
  0 <= irq < 64 -> (forall h n, keeps irq (call h n)) -> cascade_ok irq s -> 0 <= i -> i + Z.of_nat n <= 6 ->
  mux_ports call irq i n s = cascade irq i n s.
Proof.
  intros Hirq Hc. revert i s. induction n as [|n IH]; intros i s [Hs Hd] Hi Hn; [done|].
  cbn [mux_ports cascade]. destruct (proj1 Hs i ltac:(lia)) as (port & Hl & Hok).
  rewrite (run_bind (port_at i) _ _ port s).
  2: { unfold port_at, get, mbind, M_bind. cbv beta iota. destruct (Z.ltb_spec i 0); [lia|]. by rewrite Hl. }
  destruct Hok as (Hb & _). rewrite Hb.
  rewrite (run_bind (ird _) _ _ _ _ eq_refl), (run_bind (ird _) _ _ _ _ eq_refl).
  rewrite (run_bind (gets _) _ _ _ _ eq_refl). fold (int_valid s i).
  destruct (Z.eqb_spec (int_valid s i) 0) as [E|E].
  - rewrite (proj1 (pending_nil s i) E). rewrite !(run_bind (mret tt) _ s tt s) by done. apply IH; [by split|lia|lia].
  - assert (pending s i <> []) as Hne by (by rewrite <- pending_nil).
    destruct Hd as [d Hd]. pose proof (set_irq_data_run irq i d s Hirq Hd) as Esd.
    set (s1 := with_descs <[irq := upd_data (Some i) d]> s) in *.
    assert (Hs1 : gpio_wf s1) by (by apply wf_store_data).
    assert (Hd1 : descs s1 !! irq = Some (upd_data (Some i) d)) by apply lookup_insert_eq.
    assert (Eh : (set_irq_data irq (Some i);; mxc_gpio_irq_handler call irq) s =
      run_irqs (map (fun g => MXC_GPIO_BASE + g) (pending s i)) s1).
    { assert (Ep : pending s1 i = pending s i) by (apply pending_regs; reflexivity).
      rewrite (run_bind _ _ _ _ _ Esd), <- Ep.
      apply (port_handler_run irq i s1 (upd_data (Some i) d) Hs1 ltac:(lia) Hd1 eq_refl). rewrite Ep. exact Hne. }
    assert (Er : (match pending s i with [] => mret tt
      | _ => set_irq_data irq (Some i);; run_irqs (map (fun g => MXC_GPIO_BASE + g) (pending s i)) end) s =
      run_irqs (map (fun g => MXC_GPIO_BASE + g) (pending s i)) s1).
    { destruct (pending s i); [done|]. by rewrite (run_bind _ _ _ _ _ Esd). }
    unfold mbind at 1 3. unfold M_bind at 1 3. rewrite Eh, Er.
    destruct (run_irqs _ s1) as [[[] s2]|f] eqn:E2; [|done].
    apply IH; [|lia|lia]. eapply (keeps_run_irqs irq _ Hc); [|exact E2]. split; [done|by eexists].
Qed.

(** C15: The cascade is exact.  On a machine that is set up, with flow handlers
    that leave the set-up alone, the shared GPIO interrupt handler goes through
    the six ports in order and calls, for each, the flow handlers of exactly the
    lines that are pending and enabled, lowest line first; it never reports a
    spurious interrupt. *)
Theorem gpio_cascade_exact irq s :
  0 <= irq < MXC_MAX_INT_LINES -> (forall h n, keeps irq (call h n)) -> cascade_ok irq s ->
  mxc_gpio_mux_irq_handler call irq s = cascade irq 0 6 s.
Proof. intros Hirq Hc Hs. apply (mux_ports_run irq 0 6 s Hirq Hc Hs); lia. Qed.

End Cascade.

(** ** Single lines *)

Definition put_status (irq v : Z) : irqst -> irqst := with_descs (alter (upd_status v) irq).

Lemma view_put_status irq v s g : view (put_status irq v s) g = view s g.
Proof.
  unfold view, flow_of, put_status. cbn [descs with_descs]. rewrite lookup_alter.
  case_decide as E; [|done]. rewrite <- E. unfold get1, get2, getm. cbn [iregs gports with_descs].
  by destruct (descs s !! irq).
Qed.

Lemma wf_put_status irq v s : gpio_wf s -> gpio_wf (put_status irq v s).
Proof.
  intros [H1 H2]. split; [exact H1|]. intros g Hg. destruct (H2 g Hg) as (d & Hd & Hc & Hh).
  unfold put_status. cbn [descs with_descs]. rewrite lookup_alter. case_decide as E; [|by eauto].
  rewrite E, Hd. by eexists.
Qed.

Lemma desc_at_run irq d s : descs s !! irq = Some d -> desc_at irq s = Ret (d, s).
Proof. intros H. unfold desc_at, get, mbind, M_bind. cbv beta iota. by rewrite H. Qed.

Lemma insert_alter_status (m : gmap Z irq_desc) irq d v :
  m !! irq = Some d -> <[irq := upd_status v d]> m = alter (upd_status v) irq m.
Proof.
  intros H. apply map_eq. intros x. rewrite lookup_insert, lookup_alter. case_decide as E; [|done]. by rewrite H.
Qed.

Lemma or_status_run irq m d s :
  descs s !! irq = Some d -> or_status irq m s = Ret (tt, put_status irq (setb (status d) m) s).
Proof.
  intros H. unfold or_status. rewrite (run_bind _ _ _ _ _ (desc_at_run _ _ _ H)).
  unfold store_desc, modify, put_status, with_descs. by rewrite (insert_alter_status _ _ d).
Qed.

Lemma clear_status_run irq m d s :
  descs s !! irq = Some d -> clear_status irq m s = Ret (tt, put_status irq (clear (status d) m) s).
Proof.
  intros H. unfold clear_status. rewrite (run_bind _ _ _ _ _ (desc_at_run _ _ _ H)).
  unfold store_desc, modify, put_status, with_descs. by rewrite (insert_alter_status _ _ d).
Qed.

Lemma put_status_desc irq v d s :
  descs s !! irq = Some d -> descs (put_status irq v s) !! irq = Some (upd_status v d).
Proof. intros H. unfold put_status. cbn [descs with_descs]. by rewrite lookup_alter_eq, H. Qed.

Section Level.
Context (g : Z) (Hg : 0 <= g < 192).

Let irq := MXC_GPIO_BASE + g.
Let p := GPIO_TO_PORT g.
Let i := GPIO_TO_INDEX g.

Lemma irq_to_line : MXC_IRQ_TO_GPIO irq = g.
Proof.
  unfold MXC_IRQ_TO_GPIO, irq, MXC_GPIO_BASE, MXC_MAX_INT_LINES. rewrite u32_small; lia.
Qed.

Lemma gpio_mask_run s : gpio_wf s -> gpio_mask_irq irq s = Ret (tt, set1 GPIO_IMR p i false s).
Proof.
  intros Hs. unfold gpio_mask_irq. rewrite irq_to_line. destruct (wf_port g Hg s Hs) as (port & _ & Hok & E).
  rewrite (run_bind _ _ _ _ _ E). apply irqenable_run; [by apply port_range|apply Hok].
Qed.

Lemma gpio_unmask_run s : gpio_wf s -> gpio_unmask_irq irq s = Ret (tt, set1 GPIO_IMR p i true s).
Proof.
  intros Hs. unfold gpio_unmask_irq. rewrite irq_to_line. destruct (wf_port g Hg s Hs) as (port & _ & Hok & E).
  rewrite (run_bind _ _ _ _ _ E). apply irqenable_run; [by apply port_range|apply Hok].
Qed.

Lemma gpio_ack_run s :
  gpio_wf s -> exists b : bool, gpio_ack_irq irq s =
    Ret (tt, if b then set1 GPIO_IMR p i false (set1 GPIO_ISR p i false s) else set1 GPIO_ISR p i false s) /\
    b = v_level (view s g).
Proof.
  intros Hs. unfold gpio_ack_irq. rewrite irq_to_line. destruct (wf_port g Hg s Hs) as (port & Hl & Hok & E).
  exists (v_level (view s g)). split; [|done]. rewrite (run_bind _ _ _ _ _ E). fold i.
  rewrite (run_bind _ _ _ _ _ (irqstatus_run p i port (port_range g Hg) (proj1 Hok) s)).
  pose proof (level_bit g s port Hl) as E2. fold i in E2. rewrite <- E2. clear E2.
  destruct (v_level (view s g)); [|done]. by apply gpio_mask_run.
Qed.

Lemma wf_line s : gpio_wf s -> exists d, descs s !! irq = Some d /\ chip d = gpio_irq_chip.
Proof. intros [_ H]. destruct (H g Hg) as (d & Hd & Hc & _). eauto. Qed.

(** The line after [mask_ack_irq]. *)
Definition quieted (s s' : irqst) : Prop :=
  gpio_wf s' /\ descs s' = descs s /\ gports s' = gports s /\
  (forall g', view s' g' = if decide (g' = g) then upd1 GPIO_IMR false (upd1 GPIO_ISR false (view s g')) else view s g').

Lemma mask_ack_run s : gpio_wf s -> exists s', mask_ack_irq irq s = Ret (tt, s') /\ quieted s s'.
Proof.
  intros Hs. destruct (wf_line s Hs) as (d & Hd & Hc). unfold mask_ack_irq.
  rewrite (run_bind _ _ _ _ _ (desc_at_run _ _ _ Hd)), Hc. cbn [chip_mask chip_ack].
  rewrite (run_bind _ _ _ _ _ (gpio_mask_run s Hs)).
  destruct (gpio_ack_run (set1 GPIO_IMR p i false s) Hs) as (b & E & _). eexists. split; [exact E|].
  assert (Hv : forall g', view (set1 GPIO_ISR p i false (set1 GPIO_IMR p i false s)) g' =
    if decide (g' = g) then upd1 GPIO_IMR false (upd1 GPIO_ISR false (view s g')) else view s g').
  { intros g'. unfold p, i. rewrite !view_set1 by in_regs. by case_decide. }
  destruct b; (split_and!; [exact Hs|done|done|]); [|exact Hv].
  intros g'. unfold p, i. rewrite view_set1 by in_regs. fold p i. rewrite Hv. by case_decide.
Qed.

End Level.

Lemma land_clear_zero x m k : Z.land m k = 0 -> Z.land (clear x m) k = Z.land x k.
Proof.
  intros H. apply Z.bits_inj'. intros n Hn. rewrite !Z.land_spec, testbit_clear by done.
  pose proof (f_equal (fun z => Z.testbit z n) H) as E. cbv beta in E. rewrite Z.land_spec, Z.bits_0 in E.
  destruct (Z.testbit x n), (Z.testbit m n), (Z.testbit k n); done.
Qed.

(** The status word while a line is served: in progress and not disabled. *)
Lemma served_status v :
  Z.land v (setb IRQ_INPROGRESS IRQ_DISABLED) = 0 ->
  Z.land (clear (setb (clear v (setb IRQ_REPLAY IRQ_WAITING)) IRQ_INPROGRESS) IRQ_PENDING) (setb IRQ_INPROGRESS IRQ_DISABLED) =
    IRQ_INPROGRESS.
Proof.
  intros H. rewrite (land_clear_zero _ IRQ_PENDING) by reflexivity. unfold setb at 1. rewrite Z.land_lor_distr_l.
  by rewrite (land_clear_zero _ (setb IRQ_REPLAY IRQ_WAITING)), H by reflexivity.
Qed.

Lemma put_status_thrice irq d v1 v2 v3 s :
  descs s !! irq = Some d ->
  descs (put_status irq v3 (put_status irq v2 (put_status irq v1 s))) = <[irq := upd_status v3 d]> (descs s).
Proof.
  intros Hd. unfold put_status. cbn [descs with_descs]. apply map_eq. intros x. destruct (decide (irq = x)) as [<-|Hne].
  - by rewrite !lookup_alter_eq, lookup_insert_eq, Hd.
  - by rewrite !lookup_alter_ne, lookup_insert_ne.
Qed.

(** C16: Level interrupts are masked while they are served.  For a GPIO line
    whose descriptor is idle and enabled and has an action, [handle_level_irq]
    runs the driver's action in a state in which the line is masked and its
    status bit cleared, and nothing of any other pin has changed (the set-up is
    intact, the descriptor is marked in progress); when the action
    returns with the machine set up and the line not disabled, the line is
    unmasked again and marked idle. *)
Theorem level_irq_masked_while_served act g d s :
  0 <= g < MXC_MAX_GPIO_LINES -> gpio_wf s -> descs s !! (MXC_GPIO_BASE + g) = Some d -> action d = true ->
  Z.land (status d) (setb IRQ_INPROGRESS IRQ_DISABLED) = 0 ->
  exists s1 st, gpio_wf s1 /\ view s1 g = upd1 GPIO_IMR false (upd1 GPIO_ISR false (view s g)) /\
    (forall g', g' <> g -> view s1 g' = view s g') /\
    descs s1 = <[MXC_GPIO_BASE + g := upd_status st d]> (descs s) /\
    Z.land st (setb IRQ_INPROGRESS IRQ_DISABLED) = IRQ_INPROGRESS /\
    (forall s2 d2, act (MXC_GPIO_BASE + g) s1 = Ret (tt, s2) -> gpio_wf s2 ->
       descs s2 !! (MXC_GPIO_BASE + g) = Some d2 -> Z.land (status d2) IRQ_DISABLED = 0 ->
       exists s3, handle_level_irq act (MXC_GPIO_BASE + g) s = Ret (tt, s3) /\
         view s3 g = upd1 GPIO_IMR true (view s2 g) /\
         descs s3 !! (MXC_GPIO_BASE + g) = Some (upd_status (clear (status d2) IRQ_INPROGRESS) d2)).
Proof.
  intros Hg Hs Hd Ha Hst. change MXC_MAX_GPIO_LINES with 192 in Hg. set (irq := MXC_GPIO_BASE + g) in *.
  assert (Hst1 : Z.land (status d) IRQ_INPROGRESS = 0 /\ Z.land (status d) IRQ_DISABLED = 0).
  { unfold setb in Hst. rewrite Z.land_lor_distr_r in Hst. by apply Z.lor_eq_0_iff in Hst. }
  destruct Hst1 as [Hip Hdis].
  destruct (mask_ack_run g Hg s Hs) as (s0 & E0 & (W0 & D0 & _ & V0)). fold irq in E0.
  assert (Hd0 : descs s0 !! irq = Some d) by (by rewrite D0).
  set (v1 := clear (status d) (setb IRQ_REPLAY IRQ_WAITING)).
  set (v2 := setb v1 IRQ_INPROGRESS). set (v3 := clear v2 IRQ_PENDING).
  set (s1 := put_status irq v3 (put_status irq v2 (put_status irq v1 s0))).
  assert (Hd1 := put_status_desc irq v1 d s0 Hd0). assert (Hd2 := put_status_desc irq v2 _ _ Hd1).
  exists s1, v3. split_and!.
  - unfold s1. by repeat apply wf_put_status.
  - unfold s1. rewrite !view_put_status, V0. by rewrite decide_True.
  - intros g' Hne. unfold s1. rewrite !view_put_status, V0. by rewrite decide_False.
  - unfold s1. by rewrite (put_status_thrice _ d), D0.
  - by apply served_status.
  - intros s2 d2 Eact W2 Hd2' Hdis2. unfold handle_level_irq.
    rewrite (run_bind _ _ _ _ _ E0), (run_bind _ _ _ _ _ (desc_at_run _ _ _ Hd0)), Hip. cbn [negb Z.eqb].
    rewrite (run_bind _ _ _ _ _ (clear_status_run _ _ _ _ Hd0)). fold v1.
    rewrite (run_bind _ _ _ _ _ (desc_at_run _ _ _ Hd1)). cbn [action status upd_status]. rewrite Ha.
    assert (Z.land v1 IRQ_DISABLED = 0) as E1 by (unfold v1; by rewrite land_clear_zero by reflexivity).
    rewrite E1. cbn [negb orb Z.eqb].
    rewrite (run_bind _ _ _ _ _ (or_status_run _ _ _ _ Hd1)). cbn [status upd_status]. fold v2.
    rewrite (run_bind _ _ _ _ _ (clear_status_run _ _ _ _ Hd2)). cbn [status upd_status]. fold v3. fold s1.
    rewrite (run_bind _ _ _ _ _ Eact), (run_bind _ _ _ _ _ (clear_status_run _ _ _ _ Hd2')).
    pose proof (put_status_desc irq (clear (status d2) IRQ_INPROGRESS) d2 s2 Hd2') as Hd3.
    rewrite (run_bind _ _ _ _ _ (desc_at_run _ _ _ Hd3)). cbn [status upd_status chip].
    rewrite (land_clear_zero _ IRQ_INPROGRESS) by reflexivity. rewrite Hdis2. cbn [Z.eqb].
    destruct (wf_line g Hg s2 W2) as (d2' & Hd2'' & Hc2). fold irq in Hd2''.
    assert (d2' = d2) as -> by congruence. rewrite Hc2. cbn [chip_unmask].
    pose proof (gpio_unmask_run g Hg _ (wf_put_status irq (clear (status d2) IRQ_INPROGRESS) s2 W2)) as Eu. fold irq in Eu.
    eexists. split_and!; [exact Eu| |exact Hd3].
    rewrite view_set1 by in_regs. rewrite decide_True by done. by rewrite view_put_status.
Qed.
