(* ===== verification/GpioInit.v ===== *)
(** * Bringing up interrupts and GPIO

    [mxc_init_irq] of [plat-mxc/irq.c] followed by [mxc_gpio_init] of
    [plat-mxc/gpio.c], from the static state and any register contents. *)

From stdpp Require Import base gmap list.
From Stdlib Require Import ZArith Lia.
From S2P Require Import Prelude CrmRegs IrqGpio GpioPins GpioIrq.

(** ** Initialising a range of descriptors *)

(** One descriptor after [set_irq_chip], [set_irq_handler] and
    [set_irq_flags(.., IRQF_VALID)]. *)
Definition line_init (c : irq_chip) (h : irq_flow) (d : irq_desc) : irq_desc :=
  mkDesc c (Some h)
    (clear (clear (setb (status d) (setb IRQ_NOREQUEST (setb IRQ_NOPROBE IRQ_NOAUTOEN))) IRQ_NOREQUEST) IRQ_NOAUTOEN)
    (depth d) (action d) (handler_data d).

Fixpoint set_lines (c : irq_chip) (h : irq_flow) (n : Z) (count : nat) (m : gmap Z irq_desc) : gmap Z irq_desc :=
  match count with
  | O => m
  | S count' => set_lines c h (n + 1) count' (alter (line_init c h) n m)
  end.

Lemma set_lines_lookup c h n count m x :
  set_lines c h n count m !! x =
  if decide (n <= x < n + Z.of_nat count) then line_init c h <$> m !! x else m !! x.
Proof.
  revert n m. induction count as [|k IH]; intros n m; cbn [set_lines].
  - rewrite decide_False by lia. done.
  - rewrite IH. destruct (decide (n = x)) as [->|Hne].
    + rewrite decide_False by lia. rewrite decide_True by lia. by rewrite lookup_alter_eq.
    + rewrite lookup_alter_ne by done. repeat case_decide; try done; lia.
Qed.

(** Every descriptor of the table exists. *)
Definition full (m : gmap Z irq_desc) : Prop := forall k, 0 <= k < NR_IRQS -> is_Some (m !! k).

Lemma full_alter f n m : full m -> full (alter f n m).
Proof.
  intros H k Hk. destruct (H k Hk) as [d Hd]. rewrite lookup_alter. case_decide; [subst|by eauto].
  rewrite Hd. by eexists.
Qed.

Lemma full_set_lines c h n count m : full m -> full (set_lines c h n count m).
Proof.
  intros H k Hk. destruct (H k Hk) as [d Hd]. rewrite set_lines_lookup, Hd. case_decide; by eexists.
Qed.

Lemma irqst_eq a b :
  iregs a = iregs b -> gports a = gports b -> descs a = descs b -> initialized a = initialized b -> a = b.
Proof. destruct a, b. cbn. congruence. Qed.

Lemma init_line_run c h n s d :
  0 <= n < NR_IRQS -> descs s !! n = Some d -> c <> no_irq_chip -> h <> p_handle_bad_irq ->
  forall A (K : unit -> M irqst A),
  (set_irq_chip n c;; set_irq_handler n h;; (set_irq_flags n IRQF_VALID ≫= K)) s =
  K tt (with_descs (alter (line_init c h) n) s).
Proof.
  intros Hn Hd Hc Hh A K. assert (Hle : (NR_IRQS <=? n) = false) by (apply Z.leb_gt; lia).
  unfold set_irq_chip, set_irq_handler, __set_irq_handler, set_irq_flags. rewrite Hle. cbn [default].
  rewrite (decide_False (P := h = p_handle_bad_irq)) by done.
  rewrite (bool_decide_eq_false_2 (h = p_handle_bad_irq)) by done. cbn [negb andb].
  set (s1 := with_descs <[n := upd_chip c d]> s).
  assert (E1 : (d ← desc_at n; store_desc n (upd_chip c d)) s = Ret (tt, s1)).
  { by rewrite (run_bind _ _ _ _ _ (desc_at_run _ _ _ Hd)). }
  rewrite (run_bind _ _ _ _ _ E1). assert (Hd1 : descs s1 !! n = Some (upd_chip c d)) by apply lookup_insert_eq.
  set (d2 := upd_handle (Some h) (upd_chip c d)). set (s2 := with_descs <[n := d2]> s1).
  assert (E2 : (d0 ← desc_at n;
     (if decide (chip d0 = no_irq_chip) then store_desc n (upd_chip dummy_irq_chip d0) else mret tt);;
     mret tt;; d3 ← desc_at n; store_desc n (upd_handle (Some h) d3);; mret tt) s1 = Ret (tt, s2)).
  { rewrite (run_bind _ _ _ _ _ (desc_at_run _ _ _ Hd1)). cbn [chip upd_chip]. rewrite decide_False by done.
    rewrite !(run_bind (mret tt) _ s1 tt s1) by done.
    rewrite (run_bind _ _ _ _ _ (desc_at_run _ _ _ Hd1)). done. }
  rewrite (run_bind _ _ _ _ _ E2). assert (Hd2 : descs s2 !! n = Some d2) by apply lookup_insert_eq.
  change (negb (Z.land IRQF_VALID IRQF_VALID =? 0)) with true.
  change (negb (Z.land IRQF_VALID IRQF_PROBE =? 0)) with false.
  change (Z.land IRQF_VALID IRQF_NOAUTOEN =? 0) with true. cbv iota.
  match goal with |- (?m ≫= K) s2 = _ => assert (E3 : m s2 = Ret (tt, with_descs (alter (line_init c h) n) s)) end.
  { rewrite (run_bind _ _ _ _ _ (or_status_run _ _ _ _ Hd2)).
    set (v1 := setb (status d2) _). pose proof (put_status_desc n v1 d2 s2 Hd2) as Hd3.
    rewrite (run_bind _ _ _ _ _ (clear_status_run _ _ _ _ Hd3)). cbn [status upd_status].
    set (v2 := clear v1 _). pose proof (put_status_desc n v2 _ _ Hd3) as Hd4.
    rewrite (run_bind (mret tt) _ _ tt _) by done.
    rewrite (clear_status_run _ _ _ _ Hd4). cbn [status upd_status].
    do 2 f_equal. apply irqst_eq; try done.
    unfold put_status, s2, s1. cbn [descs with_descs]. apply map_eq. intros x.
    destruct (decide (n = x)) as [<-|Hne].
    - rewrite !lookup_alter_eq, lookup_insert_eq, Hd. reflexivity.
    - by rewrite !lookup_alter_ne, !lookup_insert_ne. }
  by rewrite (run_bind _ _ _ _ _ E3).
Qed.

Lemma init_lines_run c h n count s :
  0 <= n -> n + Z.of_nat count <= NR_IRQS -> full (descs s) -> c <> no_irq_chip -> h <> p_handle_bad_irq ->
  init_lines c h n count s = Ret (tt, with_descs (set_lines c h n count) s).
Proof.
  intros H0 Hn Hf Hc Hh. revert n s H0 Hn Hf. induction count as [|k IH]; intros n s H0 Hn Hf.
  - by destruct s.
  - cbn [init_lines]. destruct (Hf n ltac:(lia)) as [d Hd].
    rewrite (init_line_run c h n s d ltac:(lia) Hd Hc Hh). rewrite IH; [done|lia|lia|]. by apply full_alter.
Qed.

Lemma set_lines_app c h n a b m :
  set_lines c h (n + Z.of_nat a) b (set_lines c h n a m) = set_lines c h n (a + b) m.
Proof.
  revert n m. induction a as [|a IH]; intros n m; cbn [set_lines plus Nat.add].
  - by rewrite Z.add_0_r.
  - rewrite <- IH. f_equal. lia.
Qed.

(** ** The ports *)

Definition port_init_regs (r : regfile) (mp : mxc_gpio_port) : regfile :=
  io_write 0xFFFFFFFF (mp_base mp + GPIO_ISR) (io_write 0 (mp_base mp + GPIO_IMR) r).

Definition port_init (mp : mxc_gpio_port) (port : gpio_port) : gpio_port :=
  mkPort (mp_num mp) (mp_base mp) (mp_irq mp) (mp_virtual_irq_start mp) 0 (irq_is_level_map port).

Lemma init_port_run i mp port s :
  0 <= i -> gports s !! Z.to_nat i = Some port -> 0 <= mp_virtual_irq_start mp ->
  mp_virtual_irq_start mp + 32 <= NR_IRQS -> full (descs s) ->
  init_port i mp s = Ret (tt, mkIrqst (port_init_regs (iregs s) mp) (<[Z.to_nat i := port_init mp port]> (gports s))
    (set_lines gpio_irq_chip p_handle_edge_irq (mp_virtual_irq_start mp) 32 (descs s)) (initialized s)).
Proof.
  intros Hi Hl Hv1 Hv2 Hf. unfold init_port.
  rewrite (run_bind (port_at i) _ _ port s).
  2: { unfold port_at, get, mbind, M_bind. cbv beta iota. destruct (Z.ltb_spec i 0); [lia|]. by rewrite Hl. }
  rewrite (run_bind (store_port _ _) _ _ _ _ eq_refl), (run_bind (iwr _ _) _ _ _ _ eq_refl),
    (run_bind (iwr _ _) _ _ _ _ eq_refl).
  by rewrite init_lines_run.
Qed.

Lemma init_ports_run i l s :
  0 <= i -> (Z.to_nat i + length l <= length (gports s))%nat -> full (descs s) ->
  (forall k mp, l !! k = Some mp -> mp_virtual_irq_start mp = MXC_GPIO_BASE + 32 * (i + Z.of_nat k)) ->
  i + Z.of_nat (length l) <= 6 ->
  exists s', init_ports i l s = Ret (tt, s') /\ iregs s' = foldl port_init_regs (iregs s) l /\
    descs s' = set_lines gpio_irq_chip p_handle_edge_irq (MXC_GPIO_BASE + 32 * i) (32 * length l) (descs s) /\
    initialized s' = initialized s /\ length (gports s') = length (gports s) /\
    (forall k, (k < Z.to_nat i)%nat -> gports s' !! k = gports s !! k) /\
    (forall k mp, l !! k = Some mp -> exists port, gports s !! (Z.to_nat i + k)%nat = Some port /\
       gports s' !! (Z.to_nat i + k)%nat = Some (port_init mp port)).
Proof.
  revert i s. induction l as [|mp l IH]; intros i s Hi Hlen Hf Hv Hn.
  - exists s. split_and!; try done.
  - cbn [length] in *. destruct (lookup_lt_is_Some_2 (gports s) (Z.to_nat i)) as [port Hport]; [lia|].
    pose proof (Hv 0%nat mp eq_refl) as Hv0. rewrite Z.add_0_r in Hv0.
    assert (Hrange : 0 <= mp_virtual_irq_start mp /\ mp_virtual_irq_start mp + 32 <= NR_IRQS).
    { change NR_IRQS with 288. change MXC_GPIO_BASE with 64 in Hv0. lia. }
    cbn [init_ports].
    rewrite (run_bind _ _ _ _ _ (init_port_run i mp port s Hi Hport (proj1 Hrange) (proj2 Hrange) Hf)).
    set (s1 := mkIrqst _ _ _ _).
    destruct (IH (i + 1) s1) as (s' & E & R & D & I & L & G1 & G2).
    + lia.
    + cbn [gports s1]. rewrite length_insert. lia.
    + by apply full_set_lines.
    + intros k mp' Hk. rewrite (Hv (S k) mp') by done. lia.
    + lia.
    + exists s'. split_and!; [exact E|exact R| |exact I| | |].
      * rewrite D. cbn [descs s1]. rewrite Hv0.
        replace (MXC_GPIO_BASE + 32 * (i + 1)) with (MXC_GPIO_BASE + 32 * i + Z.of_nat 32) by lia.
        rewrite set_lines_app. f_equal. lia.
      * rewrite L. cbn [gports s1]. apply length_insert.
      * intros k Hk. rewrite G1 by lia. cbn [gports s1]. rewrite list_lookup_insert_ne; [done|lia].
      * intros [|k] mp' Hk.
        -- injection Hk as <-. rewrite Nat.add_0_r. exists port. split; [done|].
           rewrite G1 by lia. cbn [gports s1]. apply list_lookup_insert_eq. lia.
        -- destruct (G2 k mp' Hk) as (port' & P1 & P2).
           replace (Z.to_nat (i + 1) + k)%nat with (Z.to_nat i + S k)%nat in * by lia. exists port'. split; [|done].
           cbn [gports s1] in P1. rewrite list_lookup_insert_ne in P1; [done|lia].
Qed.

(** ** Registers after the set-up *)

Lemma readl_port_init r mp q p o :
  0 <= q < 6 -> 0 <= p < 6 -> mp_base mp = pbase q -> o = GPIO_IMR \/ o = GPIO_ISR ->
  readl (port_init_regs r mp) (pbase p + o) = if decide (p = q) then 0 else readl r (pbase p + o).
Proof.
  intros Hq Hp Hb Ho. unfold port_init_regs. rewrite Hb, io_write_isr, io_write_plain by done.
  destruct (decide (p = q)) as [->|Hne].
  - destruct Ho as [-> | ->].
    + rewrite readl_writel_ne by (unfold GPIO_IMR, GPIO_ISR; lia). by rewrite readl_writel_eq.
    + rewrite readl_writel_eq. set (x := readl _ _). assert (0 <= x < 2 ^ 32) as Hx by apply readl_range.
      assert (clear x 0xFFFFFFFF = 0) as ->; [|done]. apply Z.bits_inj'. intros n Hn. rewrite testbit_clear by done.
      rewrite Z.bits_0. change 0xFFFFFFFF with (Z.ones 32). rewrite Z.testbit_ones_nonneg by lia.
      destruct (Z.ltb_spec n 32); [apply andb_false_r|]. by rewrite (testbit_above 32) by lia.
  - rewrite !readl_writel_ne; [done|..]; intros E; apply pbase_inj in E; try (by destruct E);
      destruct Ho as [-> | ->]; done.
Qed.

Lemma readl_port_init_avic r mp q a :
  0 <= q < 6 -> mp_base mp = pbase q -> AVIC_BASE <= a -> readl (port_init_regs r mp) a = readl r a.
Proof.
  intros Hq Hb Ha. unfold port_init_regs. rewrite Hb, io_write_isr, io_write_plain by done.
  change AVIC_BASE with 0xD4040000 in Ha.
  rewrite !readl_writel_ne; [done|..]; unfold pbase, GPIO_IMR, GPIO_ISR;
    change (IO_ADDRESS GPIO_BASE_ADDR) with 0xD4015000; lia.
Qed.

Lemma ports_regs r p o :
  0 <= p < 6 -> o = GPIO_IMR \/ o = GPIO_ISR -> readl (foldl port_init_regs r mxc_gpio_ports) (pbase p + o) = 0.
Proof.
  intros Hp Ho. unfold mxc_gpio_ports. cbn [foldl].
  rewrite (readl_port_init _ _ 5), (readl_port_init _ _ 4), (readl_port_init _ _ 3), (readl_port_init _ _ 2),
    (readl_port_init _ _ 1), (readl_port_init _ _ 0) by (done || lia).
  repeat case_decide; try done. lia.
Qed.

Lemma ports_regs_avic r a :
  AVIC_BASE <= a -> readl (foldl port_init_regs r mxc_gpio_ports) a = readl r a.
Proof.
  intros Ha. unfold mxc_gpio_ports. cbn [foldl].
  by rewrite (readl_port_init_avic _ _ 5), (readl_port_init_avic _ _ 4), (readl_port_init_avic _ _ 3),
    (readl_port_init_avic _ _ 2), (readl_port_init_avic _ _ 1), (readl_port_init_avic _ _ 0) by (done || lia).
Qed.

(** ** The two initialisation functions *)

Lemma irq_table_at k : 0 <= k < NR_IRQS -> irq_desc_table !! k = Some desc0.
Proof.
  intros Hk. unfold irq_desc_table. apply elem_of_list_to_map_1.
  - rewrite map_map. apply (bool_decide_eq_true_1 (NoDup (map (fun x => fst (Z.of_nat x, desc0)) (seq 0 (Z.to_nat NR_IRQS))))).
    vm_compute. reflexivity.
  - apply list_elem_of_In, in_map_iff. exists (Z.to_nat k). rewrite Z2Nat.id by lia. split; [done|].
    apply in_seq. lia.
Qed.

#[local] Opaque irq_desc_table.

Lemma irq_table_full : full irq_desc_table.
Proof. intros k Hk. exists desc0. by apply irq_table_at. Qed.

(** The interrupt controller after [mxc_init_irq]. *)
Definition avic_reset (r : regfile) : Prop := readl r AVIC_INTENABLEL = 0 /\ readl r AVIC_INTENABLEH = 0.

Lemma io_write_avic v k r :
  0 <= k -> k <> 0x08 -> k <> 0x0C -> io_write v (AVIC_BASE + k) r = writel v (AVIC_BASE + k) r.
Proof.
  intros Hk H1 H2. unfold io_write. rewrite decide_False.
  - unfold AVIC_INTENNUM, AVIC_INTDISNUM.
    by rewrite (proj2 (Z.eqb_neq (AVIC_BASE + k) (AVIC_BASE + 0x08))), (proj2 (Z.eqb_neq (AVIC_BASE + k) (AVIC_BASE + 0x0C))) by lia.
  - rewrite isr_regs_elem. intros (p & Hp & E). unfold pbase, GPIO_ISR in E.
    change (IO_ADDRESS GPIO_BASE_ADDR) with 0xD4015000 in E. change AVIC_BASE with 0xD4040000 in E. lia.
Qed.

Lemma init_irq_run r :
  exists r', mxc_init_irq (irq_boot r) = Ret (tt, mkIrqst r' (gports (irq_boot r))
    (set_lines mxc_avic_chip p_handle_level_irq 0 64 irq_desc_table) false) /\ avic_reset r'.
Proof.
  unfold mxc_init_irq.
  do 6 (rewrite (run_bind (iwr _ _) _ _ _ _ eq_refl)).
  match goal with |- context [(init_lines _ _ _ _ ≫= _) ?t] => set (s1 := t) end.
  assert (E : init_lines mxc_avic_chip p_handle_level_irq 0 (Z.to_nat MXC_MAX_INT_LINES) s1 =
    Ret (tt, with_descs (set_lines mxc_avic_chip p_handle_level_irq 0 (Z.to_nat MXC_MAX_INT_LINES)) s1)).
  { apply init_lines_run; [lia|done|apply irq_table_full|done|done]. }
  rewrite (run_bind _ _ _ _ _ E), (run_bind (ird _) _ _ _ _ eq_refl).
  eexists. split; [reflexivity|]. cbn [iregs with_iregs with_descs s1].
  unfold avic_reset, AVIC_INTCNTL, AVIC_NIMASK, AVIC_INTENABLEH, AVIC_INTENABLEL, AVIC_INTTYPEH, AVIC_INTTYPEL, AVIC_NIPRIORITY6.
  rewrite !io_write_avic by lia.
  split; rewrite ?readl_writel_ne by lia; by rewrite readl_writel_eq.
Qed.

(** A line nobody has configured yet. *)
Definition fresh_pin (v : pin_state) : Prop :=
  v_imr v = false /\ v_isr v = false /\ v_reserved v = false /\ v_level v = false /\ v_flow v = Some p_handle_edge_irq.

(** [set_irq_chained_handler] on a controller line: installed and enabled. *)
Lemma chained_run irq d s :
  0 <= irq < 32 -> descs s !! irq = Some d -> chip d = mxc_avic_chip ->
  exists d', set_irq_chained_handler irq p_mxc_gpio_mux_irq_handler s =
    Ret (tt, mkIrqst (io_write irq AVIC_INTENNUM (iregs s)) (gports s) (<[irq := d']> (descs s)) (initialized s)) /\
    handle_irq d' = Some p_mxc_gpio_mux_irq_handler.
Proof.
  intros Hi Hd Hc. unfold set_irq_chained_handler, __set_irq_handler.
  destruct (Z.leb_spec NR_IRQS irq) as [Hle|_]; [change NR_IRQS with 288 in Hle; lia|]. cbn [default].
  rewrite (run_bind _ _ _ _ _ (desc_at_run _ _ _ Hd)). rewrite (decide_False (P := chip d = no_irq_chip)) by (by rewrite Hc).
  rewrite (decide_False (P := p_mxc_gpio_mux_irq_handler = p_handle_bad_irq)) by done.
  rewrite !(run_bind (mret tt) _ s tt s) by done. rewrite (run_bind _ _ _ _ _ (desc_at_run _ _ _ Hd)).
  rewrite (bool_decide_eq_false_2 (p_mxc_gpio_mux_irq_handler = p_handle_bad_irq)) by done. cbn [negb andb].
  set (d1 := upd_handle (Some p_mxc_gpio_mux_irq_handler) d).
  rewrite (run_bind (store_desc _ _) _ _ _ _ eq_refl). set (s1 := with_descs _ s).
  assert (Hd1 : descs s1 !! irq = Some d1) by apply lookup_insert_eq.
  rewrite (run_bind _ _ _ _ _ (desc_at_run _ _ _ Hd1)), (run_bind (store_desc _ _) _ _ _ _ eq_refl).
  set (d2 := upd_depth 0 _). set (s2 := with_descs _ s1).
  assert (Hd2 : descs s2 !! irq = Some d2) by apply lookup_insert_eq.
  rewrite (run_bind _ _ _ _ _ (desc_at_run _ _ _ Hd2)).
  assert (chip d2 = mxc_avic_chip) as -> by exact Hc. cbn [chip_unmask]. exists d2. split; [|done].
  unfold mxc_unmask_irq, iwr, modify. do 2 f_equal. apply irqst_eq; try done.
  cbn [descs with_iregs s2 s1 with_descs]. by rewrite insert_insert_eq.
Qed.

Lemma avic_enable_unfold n r :
  0 <= n < 32 -> io_write n AVIC_INTENNUM r = writel (setb (readl r AVIC_INTENABLEL) (bit n)) AVIC_INTENABLEL r.
Proof.
  intros Hn. unfold io_write. rewrite decide_False.
  - rewrite Z.eqb_refl. unfold avic_mask. change 0x3f with (Z.ones 6). rewrite Z.land_ones by lia.
    rewrite Z.mod_small by lia. by rewrite (proj2 (Z.ltb_lt n 32)) by lia.
  - rewrite isr_regs_elem. intros (p & Hp & E). unfold pbase, GPIO_ISR, AVIC_INTENNUM in E.
    change (IO_ADDRESS GPIO_BASE_ADDR) with 0xD4015000 in E. change AVIC_BASE with 0xD4040000 in E. lia.
Qed.

Lemma gpio_reg_avic n p o r :
  0 <= n < 32 -> 0 <= p < 6 -> o = GPIO_IMR \/ o = GPIO_ISR ->
  readl (io_write n AVIC_INTENNUM r) (pbase p + o) = readl r (pbase p + o).
Proof.
  intros Hn Hp Ho. rewrite avic_enable_unfold, readl_writel_ne; [done| |done].
  unfold pbase, AVIC_INTENABLEL. change (IO_ADDRESS GPIO_BASE_ADDR) with 0xD4015000.
  change AVIC_BASE with 0xD4040000. destruct Ho as [-> | ->]; unfold GPIO_IMR, GPIO_ISR; lia.
Qed.

Lemma avic_enable_l n r :
  0 <= n < 32 -> readl (io_write n AVIC_INTENNUM r) AVIC_INTENABLEL = setb (readl r AVIC_INTENABLEL) (bit n).
Proof. intros Hn. rewrite avic_enable_unfold by done. apply readl_setb, bit_range. done. Qed.

Lemma avic_enable_h n r :
  0 <= n < 32 -> readl (io_write n AVIC_INTENNUM r) AVIC_INTENABLEH = readl r AVIC_INTENABLEH.
Proof. intros Hn. rewrite avic_enable_unfold by done. by rewrite readl_writel_ne. Qed.

(** The state after the set-up. *)
Definition gpio_ready (s : irqst) : Prop :=
  cascade_ok INT_GPIO s /\
  (forall g, 0 <= g < MXC_MAX_GPIO_LINES -> fresh_pin (view s g)) /\
  (descs s !! INT_GPIO ≫= handle_irq = Some p_mxc_gpio_mux_irq_handler) /\
  readl (iregs s) AVIC_INTENABLEL = bit INT_GPIO /\ readl (iregs s) AVIC_INTENABLEH = 0 /\ initialized s = true.

Lemma bring_up_spec r :
  exists s, (mxc_init_irq;; mxc_gpio_init) (irq_boot r) = Ret (0, s) /\ gpio_ready s.
Proof.
  assert (H8 : 0 <= INT_GPIO < NR_IRQS) by done. assert (H8l : 0 <= INT_GPIO < 32) by done.
  assert (H8i : 0 <= INT_GPIO < 64) by done.
  destruct (init_irq_run r) as (r0 & E0 & [HL HH]). rewrite (run_bind _ _ _ _ _ E0).
  set (m0 := set_lines mxc_avic_chip p_handle_level_irq 0 64 irq_desc_table).
  unfold mxc_gpio_init at 1. rewrite (run_bind (gets initialized) _ _ _ _ eq_refl). cbn [initialized]. cbv iota.
  unfold _mxc_gpio_init. rewrite (run_bind (modify _) _ _ _ _ eq_refl). cbn [iregs gports descs].
  set (s1 := mkIrqst r0 (gports (irq_boot r)) m0 true).
  destruct (init_ports_run 0 mxc_gpio_ports s1) as (s2 & E2 & R2 & D2 & I2 & L2 & _ & G2); [lia|done| | |done|].
  { apply full_set_lines, irq_table_full. }
  { intros k mp Hk. pose proof (lookup_lt_Some _ _ _ Hk) as Hlt. cbn in Hlt.
    pose proof (mxc_ports_lookup (Z.of_nat k) ltac:(lia)) as H. rewrite Nat2Z.id, Hk in H. injection H as ->.
    unfold GPIO_NUM_PIN. cbn [mp_virtual_irq_start]. lia. }
  rewrite (run_bind _ _ _ _ _ E2).
  assert (Hd8 : descs s2 !! INT_GPIO = Some (line_init mxc_avic_chip p_handle_level_irq desc0)).
  { rewrite D2. cbn [descs s1]. rewrite set_lines_lookup, decide_False by (change MXC_GPIO_BASE with 64; unfold INT_GPIO; lia).
    unfold m0. rewrite set_lines_lookup, decide_True by (unfold INT_GPIO; lia).
    rewrite (irq_table_at _ H8). reflexivity. }
  destruct (chained_run INT_GPIO (line_init mxc_avic_chip p_handle_level_irq desc0) s2 H8l Hd8 eq_refl)
    as (d3 & E3 & Hh3).
  rewrite (run_bind (deref (last mxc_gpio_ports)) _ _
    (mkMxcPort 5 (pbase 5) INT_GPIO (MXC_GPIO_BASE + GPIO_NUM_PIN * 5)) _ eq_refl). cbn [mp_irq].
  rewrite (run_bind _ _ _ _ _ E3).
  rewrite (run_bind (deref (head mxc_gpio_ports)) _ _
    (mkMxcPort 0 (pbase 0) INT_GPIO (MXC_GPIO_BASE + GPIO_NUM_PIN * 0)) _ eq_refl). cbn [mp_irq].
  set (s3 := mkIrqst _ _ _ _).
  assert (Hd3 : descs s3 !! INT_GPIO = Some d3) by apply lookup_insert_eq.
  rewrite (run_bind _ _ _ _ _ (set_irq_data_run INT_GPIO 0 d3 s3 H8i Hd3)).
  eexists. split; [reflexivity|].
  set (s4 := with_descs _ s3). unfold gpio_ready.
  assert (HD : forall k, 0 <= k < 192 -> descs s4 !! (MXC_GPIO_BASE + k) =
    Some (line_init gpio_irq_chip p_handle_edge_irq desc0)).
  { intros k Hk. cbn [descs s4 s3 with_descs]. change MXC_GPIO_BASE with 64 in *.
    rewrite !lookup_insert_ne by (unfold INT_GPIO; lia). rewrite D2. cbn [descs s1].
    rewrite set_lines_lookup, decide_True by (cbn; lia). unfold m0.
    rewrite set_lines_lookup, decide_False by lia. assert (Hk' : 0 <= 64 + k < NR_IRQS) by (change NR_IRQS with 288; lia). rewrite (irq_table_at _ Hk'). reflexivity. }
  assert (HP : forall p, 0 <= p < 6 -> exists port, gports s4 !! Z.to_nat p =
    Some (port_init (mkMxcPort p (pbase p) INT_GPIO (MXC_GPIO_BASE + GPIO_NUM_PIN * p)) port) /\ irq_is_level_map port = 0).
  { intros p Hp. destruct (G2 (Z.to_nat p) _ (mxc_ports_lookup p Hp)) as (port & P1 & P2). exists port. split; [exact P2|].
    cbn [gports s1 irq_boot] in P1. apply lookup_replicate in P1 as [-> _]. reflexivity. }
  assert (Hwf : gpio_wf s4).
  { split.
    - intros p Hp. destruct (HP p Hp) as (port & -> & E). eexists. split; [reflexivity|].
      unfold port_ok, port_init. cbn. rewrite E. repeat split; lia.
    - intros k Hk. rewrite (HD k Hk). eexists. split; [reflexivity|]. split; [reflexivity|]. eexists. reflexivity. }
  split_and!.
  - split; [exact Hwf|]. eexists. apply lookup_insert_eq.
  - intros g Hg. change MXC_MAX_GPIO_LINES with 192 in Hg. pose proof (port_range g Hg) as Hp.
    destruct (HP _ Hp) as (port & Hport & Elvl).
    assert (HR : forall o, o = GPIO_IMR \/ o = GPIO_ISR -> readl (iregs s4) (pbase (GPIO_TO_PORT g) + o) = 0).
    { intros o Ho. cbn [iregs s4 s3 with_descs]. rewrite (gpio_reg_avic _ _ _ _ H8l Hp Ho), R2. exact (ports_regs _ _ _ Hp Ho). }
    unfold fresh_pin, view, get1, getm, flow_of. cbn [v_imr v_isr v_reserved v_level v_flow].
    rewrite (HR _ (or_introl eq_refl)), (HR _ (or_intror eq_refl)), Hport, (HD g Hg).
    cbn [reserved_map irq_is_level_map port_init]. rewrite Elvl, !Z.bits_0. repeat split.
  - cbn [descs s4 with_descs]. rewrite lookup_insert_eq. exact Hh3.
  - cbn [iregs s4 s3 with_descs]. rewrite (avic_enable_l _ _ H8l), R2. cbn [iregs s1].
    rewrite ports_regs_avic by (vm_compute; discriminate). rewrite HL. reflexivity.
  - cbn [iregs s4 s3 with_descs]. rewrite (avic_enable_h _ _ H8l), R2. cbn [iregs s1].
    rewrite ports_regs_avic by (vm_compute; discriminate). exact HH.
  - cbn [initialized s4 s3 with_descs]. rewrite I2. reflexivity.
Qed.

(** C17: Bring-up of interrupts and GPIO.  From the static state, with any
    register contents, [mxc_init_irq] and [mxc_gpio_init] return; afterwards the
    192 lines are set up (so that the theorems about pins apply), every line is
    masked, not pending, unreserved and edge-triggered, the cascade handler sits
    on the shared GPIO interrupt, which alone is enabled at the interrupt
    controller, and calling [mxc_gpio_init] again changes nothing. *)
Theorem gpio_bring_up r :
  exists s, (mxc_init_irq;; mxc_gpio_init) (irq_boot r) = Ret (0, s) /\ gpio_ready s /\ mxc_gpio_init s = Ret (0, s).
Proof.
  destruct (bring_up_spec r) as (s & E & H). exists s. split; [exact E|]. split; [exact H|].
  unfold mxc_gpio_init. rewrite (run_bind (gets initialized) _ _ _ _ eq_refl).
  destruct H as (_ & _ & _ & _ & _ & ->). reflexivity.
Qed.
