(* ===== verification/GpioFlows.v ===== *)
(** * The kernel's flow handlers under the GPIO cascade

    The flow handlers of [kernel/irq/chip.c] leave the set-up of the GPIO machine
    alone when the drivers' actions do, so that the cascade theorem applies to
    them; and the theorems about pins and interrupts on a machine after its
    bring-up. *)

From stdpp Require Import base gmap list.
From Stdlib Require Import ZArith Lia.
From S2P Require Import Prelude CrmRegs IrqGpio GpioPins GpioIrq GpioInit.

Section Keeps.
Context (shared : Z).

Lemma keeps_ird a : keeps shared (ird a).
Proof. apply keeps_read. by intros s v s' [= _ <-]. Qed.

Lemma keeps_iwr v a : keeps shared (iwr v a).
Proof. intros s u s' Hs [= _ <-]. exact Hs. Qed.

Lemma keeps_port_at i : keeps shared (port_at i).
Proof.
  apply keeps_read. intros s a s'. unfold port_at, get, mbind, M_bind. cbv beta iota.
  destruct (i <? 0); [done|]. destruct (gports s !! Z.to_nat i); [by intros [= _ <-]|done].
Qed.

(** Changing a descriptor but for its chip and its flow handler. *)
Lemma keeps_store_desc n d d' s a s' :
  cascade_ok shared s -> descs s !! n = Some d -> chip d' = chip d -> handle_irq d' = handle_irq d ->
  store_desc n d' s = Ret (a, s') -> cascade_ok shared s'.
Proof.
  intros [[H1 H2] H3] Hd Hc Hh [= _ <-]. split; [split; [exact H1|]|].
  - intros g Hg. destruct (H2 g Hg) as (d0 & Hd0 & Hc0 & Hh0). cbn [descs with_descs].
    rewrite lookup_insert. case_decide as E; [|by eauto]. subst n. simplify_eq. exists d'. rewrite Hc, Hh. done.
  - cbn [descs with_descs]. rewrite lookup_insert. case_decide; [by eexists|done].
Qed.

Lemma keeps_upd n (f : irq_desc -> irq_desc) :
  (forall d, chip (f d) = chip d) -> (forall d, handle_irq (f d) = handle_irq d) ->
  keeps shared (d ← desc_at n; store_desc n (f d)).
Proof.
  intros Hc Hh s a s' Hs E. apply bind_ret in E as (d & s1 & E1 & E2).
  unfold desc_at, get, mbind, M_bind in E1. cbv beta iota in E1.
  destruct (descs s !! n) as [d0|] eqn:Hd; [|done]. cbn in E1. injection E1 as -> ->.
  eapply keeps_store_desc; [exact Hs|exact Hd|apply Hc|apply Hh|exact E2].
Qed.

Lemma keeps_or_status n m : keeps shared (or_status n m).
Proof. by apply keeps_upd. Qed.
Lemma keeps_clear_status n m : keeps shared (clear_status n m).
Proof. by apply keeps_upd. Qed.

Lemma keeps_set_data n v : keeps shared (set_irq_data n v).
Proof. unfold set_irq_data. destruct (_ <=? _); [apply keeps_ret|by apply keeps_upd]. Qed.

(** Proves [keeps] of a command from its parts. *)
Create HintDb keeps discriminated.
#[local] Hint Resolve keeps_ret keeps_crash keeps_ird keeps_iwr keeps_port_at keeps_desc_at keeps_or_status
  keeps_clear_status keeps_set_data : keeps.

Ltac keeps_tac := repeat first
  [ match goal with |- forall _, _ => intro end | solve [auto with keeps] | apply keeps_bind
  | match goal with |- keeps _ (if ?b then _ else _) => destruct b end
  | match goal with |- keeps _ (match ?o with Some _ => _ | None => _ end) => destruct o end ].

Lemma keeps_chip_mask c n : keeps shared (chip_mask c n).
Proof. destruct c; unfold chip_mask, mxc_mask_irq, gpio_mask_irq, _set_gpio_irqenable; keeps_tac. Qed.
Lemma keeps_chip_unmask c n : keeps shared (chip_unmask c n).
Proof. destruct c; unfold chip_unmask, mxc_unmask_irq, gpio_unmask_irq, _set_gpio_irqenable; keeps_tac. Qed.
Lemma keeps_chip_ack c n : keeps shared (chip_ack c n).
Proof.
  destruct c; unfold chip_ack, mxc_mask_irq, gpio_ack_irq, _clear_gpio_irqstatus, gpio_mask_irq, _set_gpio_irqenable; keeps_tac.
Qed.
#[local] Hint Resolve keeps_chip_mask keeps_chip_unmask keeps_chip_ack : keeps.

Section Actions.
Context (act : Z -> M irqst unit) (Hact : forall n, keeps shared (act n)).
#[local] Hint Resolve Hact : keeps.

Lemma keeps_mask_ack n : keeps shared (mask_ack_irq n).
Proof. unfold mask_ack_irq. keeps_tac. Qed.
#[local] Hint Resolve keeps_mask_ack : keeps.

Lemma keeps_level n : keeps shared (handle_level_irq act n).
Proof. unfold handle_level_irq. keeps_tac. Qed.

Lemma keeps_edge_loop fuel n : keeps shared (edge_loop act fuel n).
Proof. induction fuel as [|k IH]; cbn [edge_loop]; keeps_tac. Qed.
#[local] Hint Resolve keeps_edge_loop : keeps.

Lemma keeps_edge fuel n : keeps shared (handle_edge_irq act fuel n).
Proof. unfold handle_edge_irq. keeps_tac. Qed.

Lemma keeps_dispatch call fuel v n : (forall h k, keeps shared (call h k)) -> keeps shared (dispatch_bits call fuel v n).
Proof.
  intros Hc. revert v n. induction fuel as [|k IH]; intros v n; cbn [dispatch_bits]; keeps_tac.
Qed.

Lemma keeps_deref {A} (o : option A) : keeps shared (deref o).
Proof. destruct o; [apply keeps_ret|apply keeps_crash]. Qed.
#[local] Hint Resolve keeps_deref : keeps.

Lemma keeps_gpio_handler call n : (forall h x, keeps shared (call h x)) -> keeps shared (mxc_gpio_irq_handler call n).
Proof.
  intros Hc. unfold mxc_gpio_irq_handler. keeps_tac. cbv zeta. keeps_tac. by apply keeps_dispatch.
Qed.

Lemma keeps_mux call n i k : (forall h x, keeps shared (call h x)) -> keeps shared (mux_ports call n i k).
Proof.
  intros Hc. pose proof (fun n => keeps_gpio_handler call n Hc) as Hh.
  revert i. induction k as [|k IH]; intros i; cbn [mux_ports]; keeps_tac.
Qed.

(** The flow handlers keep the machine set up. *)
Lemma call_flow_keeps depth fuel h n : keeps shared (call_flow act depth fuel h n).
Proof.
  revert h n. induction depth as [|k IH]; intros h n; destruct h; cbn [call_flow].
  1, 5: apply keeps_ret.
  1, 4: apply keeps_edge.
  1, 3: apply keeps_level.
  - apply keeps_crash.
  - unfold mxc_gpio_mux_irq_handler. exact (keeps_mux (call_flow act k fuel) n 0 (Z.to_nat GPIO_PORT_NUM) IH).
Qed.

End Actions.
End Keeps.

(** ** Witnesses *)

(** SD2_D0: line 4 of port B. *)
Definition MX27_PIN_SD2_D0 : Z := MX27_BUILD_PIN 1 4.

Lemma gpio_refines_witness :
  exists s s', gpio_ready s /\ run_op (RequestMux GPIO_MUX_GPIO) MX27_PIN_SD2_D0 s = Ret (0, s') /\
    v_reserved (view s' 36) = true /\ v_gius (view s' 36) = true /\ v_ocr (view s' 36) = GPIO_OUTPUT_DR.
Proof.
  destruct (bring_up_spec ∅) as (s & _ & H). pose proof H as [[Hwf _] [Hf _]].
  destruct (Hf 36 ltac:(done)) as (_ & _ & Hr & _).
  destruct (gpio_refines (RequestMux GPIO_MUX_GPIO) MX27_PIN_SD2_D0 36 eq_refl ltac:(done) s Hwf) as (s' & E & _ & V & _).
  exists s, s'. split; [exact H|]. cbn [spec_op] in E, V. unfold request_mux_spec, request_spec in E, V. rewrite Hr in E, V.
  split; [exact E|]. rewrite V. split; [reflexivity|]. split; reflexivity.
Defined.

Lemma gpio_cascade_exact_witness :
  exists s, gpio_ready s /\
    mxc_gpio_mux_irq_handler (call_flow (fun _ => mret tt) 1 4) INT_GPIO s =
    cascade (call_flow (fun _ => mret tt) 1 4) INT_GPIO 0 6 s.
Proof.
  destruct (bring_up_spec ∅) as (s & _ & H). exists s. split; [exact H|].
  apply gpio_cascade_exact; [done| |apply H]. intros h n. apply call_flow_keeps. intros k. apply keeps_ret.
Defined.

Lemma build_pin_roundtrip_witness : IOMUX_TO_GPIO (MX27_BUILD_PIN 2 21) = 85.
Proof. exact (proj1 (build_pin_roundtrip 2 21 ltac:(lia) ltac:(lia))). Defined.

Lemma invalid_pins_rejected_witness : mxc_request_gpio (MX27_BUILD_PIN 7 0) (irq_boot ∅) = Ret (- EINVAL, irq_boot ∅).
Proof. apply (invalid_pins_rejected (MX27_BUILD_PIN 7 0) (irq_boot ∅)). vm_compute. discriminate. Defined.

(** The machine after bring-up, with a driver on line 36. *)
Lemma driver_ready : exists s, gpio_wf s /\
  descs s !! (MXC_GPIO_BASE + 36) = Some (mkDesc gpio_irq_chip (Some p_handle_level_irq) 0 0 true None).
Proof.
  destruct (bring_up_spec ∅) as (s & _ & [[[H1 H2] _] _]).
  exists (with_descs <[MXC_GPIO_BASE + 36 := mkDesc gpio_irq_chip (Some p_handle_level_irq) 0 0 true None]> s).
  split; [split; [exact H1|]|apply lookup_insert_eq].
  intros g Hg. cbn [descs with_descs]. rewrite lookup_insert. case_decide; [|by apply H2].
  eexists. split; [reflexivity|]. split; [reflexivity|]. by eexists.
Qed.

Lemma level_irq_masked_while_served_witness :
  exists s s3, gpio_wf s /\ handle_level_irq (fun _ => mret tt) (MXC_GPIO_BASE + 36) s = Ret (tt, s3) /\
    v_imr (view s3 36) = true /\ v_isr (view s3 36) = false.
Proof.
  assert (H36 : 0 <= 36 < MXC_MAX_GPIO_LINES) by (change MXC_MAX_GPIO_LINES with 192; lia).
  destruct driver_ready as (s & Hs & Hd).
  destruct (level_irq_masked_while_served (fun _ => mret tt : M irqst unit) 36 _ s H36 Hs Hd eq_refl eq_refl)
    as (s1 & st & Hwf & V1 & _ & D1 & Hst & H).
  destruct (H s1 (upd_status st (mkDesc gpio_irq_chip (Some p_handle_level_irq) 0 0 true None)) eq_refl Hwf)
    as (s3 & E & V & _).
  - rewrite D1. apply lookup_insert_eq.
  - cbn [status upd_status]. apply (f_equal (fun x => Z.land x IRQ_DISABLED)) in Hst.
    rewrite <- Z.land_assoc in Hst. exact Hst.
  - exists s, s3. split; [exact Hs|]. split; [exact E|]. rewrite V, V1. split; reflexivity.
Defined.
