(* ===== verification/BoardCalls.v ===== *)
(** * The pins of the board: [arch/arm/mach-mx27/mx27mdk27v0_gpio.c]

    For every device of the board a function that claims and sets up the pins it
    needs, and one that gives them back.  Each is a sequence of calls of the GPIO and
    pin-multiplexing code; it is written here as the list of its calls, which
    [run_calls] makes in order.  Delays and messages are left out. *)

From stdpp Require Import base gmap list.
From Stdlib Require Import ZArith Lia.
From S2P Require Import Prelude CrmRegs IrqGpio GpioPins.

(** ** Pins: [mx27_pins.h] *)

Inductive iomux_pins : Type :=
| MX27_PIN_USBH2_CLK | MX27_PIN_USBH2_DIR | MX27_PIN_USBH2_DATA7 | MX27_PIN_USBH2_NXT | MX27_PIN_USBH2_STP
| MX27_PIN_LSCLK | MX27_PIN_LD0 | MX27_PIN_LD1 | MX27_PIN_LD2 | MX27_PIN_LD3 | MX27_PIN_LD4 | MX27_PIN_LD5
| MX27_PIN_LD6 | MX27_PIN_LD7 | MX27_PIN_LD8 | MX27_PIN_LD9 | MX27_PIN_LD10 | MX27_PIN_LD11 | MX27_PIN_LD12
| MX27_PIN_LD13 | MX27_PIN_LD14 | MX27_PIN_LD15 | MX27_PIN_LD16 | MX27_PIN_LD17 | MX27_PIN_REV | MX27_PIN_CLS
| MX27_PIN_PS | MX27_PIN_SPL_SPR | MX27_PIN_HSYNC | MX27_PIN_VSYNC | MX27_PIN_CONTRAST | MX27_PIN_OE_ACD
| MX27_PIN_SD2_D0 | MX27_PIN_SD2_D1 | MX27_PIN_SD2_D2 | MX27_PIN_SD2_D3 | MX27_PIN_SD2_CMD | MX27_PIN_SD2_CLK
| MX27_PIN_CSI_D0 | MX27_PIN_CSI_D1 | MX27_PIN_CSI_D2 | MX27_PIN_CSI_D3 | MX27_PIN_CSI_D4 | MX27_PIN_CSI_MCLK
| MX27_PIN_CSI_PIXCLK | MX27_PIN_CSI_D5 | MX27_PIN_CSI_D6 | MX27_PIN_CSI_D7 | MX27_PIN_CSI_VSYNC
| MX27_PIN_CSI_HSYNC | MX27_PIN_USBH1_SUSP | MX27_PIN_USB_PWR | MX27_PIN_USB_OC_B | MX27_PIN_USBH1_RCV
| MX27_PIN_USBH1_FS | MX27_PIN_USBH1_OE_B | MX27_PIN_USBH1_TXDM | MX27_PIN_USBH1_TXDP | MX27_PIN_USBH1_RXDM
| MX27_PIN_USBH1_RXDP | MX27_PIN_I2C2_SDA | MX27_PIN_I2C2_SCL | MX27_PIN_USBOTG_DATA5 | MX27_PIN_USBOTG_DATA6
| MX27_PIN_USBOTG_DATA0 | MX27_PIN_USBOTG_DATA2 | MX27_PIN_USBOTG_DATA1 | MX27_PIN_USBOTG_DATA4
| MX27_PIN_USBOTG_DATA3 | MX27_PIN_TOUT | MX27_PIN_TIN | MX27_PIN_SSI4_FS | MX27_PIN_SSI4_RXDAT
| MX27_PIN_SSI4_TXDAT | MX27_PIN_SSI4_CLK | MX27_PIN_SSI1_FS | MX27_PIN_SSI1_RXDAT | MX27_PIN_SSI1_TXDAT
| MX27_PIN_SSI1_CLK | MX27_PIN_SSI2_FS | MX27_PIN_SSI2_RXDAT | MX27_PIN_SSI2_TXDAT | MX27_PIN_SSI2_CLK
| MX27_PIN_SSI3_FS | MX27_PIN_SSI3_RXDAT | MX27_PIN_SSI3_TXDAT | MX27_PIN_SSI3_CLK | MX27_PIN_SD3_CMD
| MX27_PIN_SD3_CLK | MX27_PIN_ATA_DATA0 | MX27_PIN_ATA_DATA1 | MX27_PIN_ATA_DATA2 | MX27_PIN_ATA_DATA3
| MX27_PIN_ATA_DATA4 | MX27_PIN_ATA_DATA5 | MX27_PIN_ATA_DATA6 | MX27_PIN_ATA_DATA7 | MX27_PIN_ATA_DATA8
| MX27_PIN_ATA_DATA9 | MX27_PIN_ATA_DATA10 | MX27_PIN_ATA_DATA11 | MX27_PIN_ATA_DATA12 | MX27_PIN_ATA_DATA13
| MX27_PIN_ATA_DATA14 | MX27_PIN_I2C_DATA | MX27_PIN_I2C_CLK | MX27_PIN_CSPI2_SS2 | MX27_PIN_CSPI2_SS1
| MX27_PIN_CSPI2_SS0 | MX27_PIN_CSPI2_SCLK | MX27_PIN_CSPI2_MISO | MX27_PIN_CSPI2_MOSI | MX27_PIN_CSPI1_RDY
| MX27_PIN_CSPI1_SS2 | MX27_PIN_CSPI1_SS1 | MX27_PIN_CSPI1_SS0 | MX27_PIN_CSPI1_SCLK | MX27_PIN_CSPI1_MISO
| MX27_PIN_CSPI1_MOSI | MX27_PIN_USBOTG_NXT | MX27_PIN_USBOTG_STP | MX27_PIN_USBOTG_DIR | MX27_PIN_UART2_CTS
| MX27_PIN_UART2_RTS | MX27_PIN_PWMO | MX27_PIN_UART2_TXD | MX27_PIN_UART2_RXD | MX27_PIN_UART3_TXD
| MX27_PIN_UART3_RXD | MX27_PIN_UART3_CTS | MX27_PIN_UART3_RTS | MX27_PIN_UART1_TXD | MX27_PIN_UART1_RXD
| MX27_PIN_UART1_CTS | MX27_PIN_UART1_RTS | MX27_PIN_RTCK | MX27_PIN_RESET_OUT_B | MX27_PIN_SD1_D0
| MX27_PIN_SD1_D1 | MX27_PIN_SD1_D2 | MX27_PIN_SD1_D3 | MX27_PIN_SD1_CMD | MX27_PIN_SD1_CLK
| MX27_PIN_USBOTG_CLK | MX27_PIN_USBOTG_DATA7 | MX27_PIN_NFRB | MX27_PIN_NFCLE | MX27_PIN_NFWP_B
| MX27_PIN_NFCE_B | MX27_PIN_NFALE | MX27_PIN_NFRE_B | MX27_PIN_NFWE_B | MX27_PIN_PC_POE | MX27_PIN_PC_RW_B
| MX27_PIN_IOIS16 | MX27_PIN_PC_RST | MX27_PIN_PC_BVD2 | MX27_PIN_PC_BVD1 | MX27_PIN_PC_VS2 | MX27_PIN_PC_VS1
| MX27_PIN_CLKO | MX27_PIN_PC_PWRON | MX27_PIN_PC_READY | MX27_PIN_PC_WAIT_B | MX27_PIN_PC_CD2_B
| MX27_PIN_PC_CD1_B | MX27_PIN_CS4_B | MX27_PIN_CS5_B | MX27_PIN_ATA_DATA15.

Definition pin_bits (p : iomux_pins) : Z :=
  match p with
  | MX27_PIN_USBH2_CLK => MX27_BUILD_PIN 0 0 | MX27_PIN_USBH2_DIR => MX27_BUILD_PIN 0 1
  | MX27_PIN_USBH2_DATA7 => MX27_BUILD_PIN 0 2 | MX27_PIN_USBH2_NXT => MX27_BUILD_PIN 0 3
  | MX27_PIN_USBH2_STP => MX27_BUILD_PIN 0 4 | MX27_PIN_LSCLK => MX27_BUILD_PIN 0 5
  | MX27_PIN_LD0 => MX27_BUILD_PIN 0 6 | MX27_PIN_LD1 => MX27_BUILD_PIN 0 7 | MX27_PIN_LD2 => MX27_BUILD_PIN 0 8
  | MX27_PIN_LD3 => MX27_BUILD_PIN 0 9 | MX27_PIN_LD4 => MX27_BUILD_PIN 0 10 | MX27_PIN_LD5 => MX27_BUILD_PIN 0 11
  | MX27_PIN_LD6 => MX27_BUILD_PIN 0 12 | MX27_PIN_LD7 => MX27_BUILD_PIN 0 13 | MX27_PIN_LD8 => MX27_BUILD_PIN 0 14
  | MX27_PIN_LD9 => MX27_BUILD_PIN 0 15 | MX27_PIN_LD10 => MX27_BUILD_PIN 0 16 | MX27_PIN_LD11 => MX27_BUILD_PIN 0 17
  | MX27_PIN_LD12 => MX27_BUILD_PIN 0 18 | MX27_PIN_LD13 => MX27_BUILD_PIN 0 19 | MX27_PIN_LD14 => MX27_BUILD_PIN 0 20
  | MX27_PIN_LD15 => MX27_BUILD_PIN 0 21 | MX27_PIN_LD16 => MX27_BUILD_PIN 0 22 | MX27_PIN_LD17 => MX27_BUILD_PIN 0 23
  | MX27_PIN_REV => MX27_BUILD_PIN 0 24 | MX27_PIN_CLS => MX27_BUILD_PIN 0 25 | MX27_PIN_PS => MX27_BUILD_PIN 0 26
  | MX27_PIN_SPL_SPR => MX27_BUILD_PIN 0 27 | MX27_PIN_HSYNC => MX27_BUILD_PIN 0 28
  | MX27_PIN_VSYNC => MX27_BUILD_PIN 0 29 | MX27_PIN_CONTRAST => MX27_BUILD_PIN 0 30
  | MX27_PIN_OE_ACD => MX27_BUILD_PIN 0 31 | MX27_PIN_SD2_D0 => MX27_BUILD_PIN 1 4
  | MX27_PIN_SD2_D1 => MX27_BUILD_PIN 1 5 | MX27_PIN_SD2_D2 => MX27_BUILD_PIN 1 6
  | MX27_PIN_SD2_D3 => MX27_BUILD_PIN 1 7 | MX27_PIN_SD2_CMD => MX27_BUILD_PIN 1 8
  | MX27_PIN_SD2_CLK => MX27_BUILD_PIN 1 9 | MX27_PIN_CSI_D0 => MX27_BUILD_PIN 1 10
  | MX27_PIN_CSI_D1 => MX27_BUILD_PIN 1 11 | MX27_PIN_CSI_D2 => MX27_BUILD_PIN 1 12
  | MX27_PIN_CSI_D3 => MX27_BUILD_PIN 1 13 | MX27_PIN_CSI_D4 => MX27_BUILD_PIN 1 14
  | MX27_PIN_CSI_MCLK => MX27_BUILD_PIN 1 15 | MX27_PIN_CSI_PIXCLK => MX27_BUILD_PIN 1 16
  | MX27_PIN_CSI_D5 => MX27_BUILD_PIN 1 17 | MX27_PIN_CSI_D6 => MX27_BUILD_PIN 1 18
  | MX27_PIN_CSI_D7 => MX27_BUILD_PIN 1 19 | MX27_PIN_CSI_VSYNC => MX27_BUILD_PIN 1 20
  | MX27_PIN_CSI_HSYNC => MX27_BUILD_PIN 1 21 | MX27_PIN_USBH1_SUSP => MX27_BUILD_PIN 1 22
  | MX27_PIN_USB_PWR => MX27_BUILD_PIN 1 23 | MX27_PIN_USB_OC_B => MX27_BUILD_PIN 1 24
  | MX27_PIN_USBH1_RCV => MX27_BUILD_PIN 1 25 | MX27_PIN_USBH1_FS => MX27_BUILD_PIN 1 26
  | MX27_PIN_USBH1_OE_B => MX27_BUILD_PIN 1 27 | MX27_PIN_USBH1_TXDM => MX27_BUILD_PIN 1 28
  | MX27_PIN_USBH1_TXDP => MX27_BUILD_PIN 1 29 | MX27_PIN_USBH1_RXDM => MX27_BUILD_PIN 1 30
  | MX27_PIN_USBH1_RXDP => MX27_BUILD_PIN 1 31 | MX27_PIN_I2C2_SDA => MX27_BUILD_PIN 2 5
  | MX27_PIN_I2C2_SCL => MX27_BUILD_PIN 2 6 | MX27_PIN_USBOTG_DATA5 => MX27_BUILD_PIN 2 7
  | MX27_PIN_USBOTG_DATA6 => MX27_BUILD_PIN 2 8 | MX27_PIN_USBOTG_DATA0 => MX27_BUILD_PIN 2 9
  | MX27_PIN_USBOTG_DATA2 => MX27_BUILD_PIN 2 10 | MX27_PIN_USBOTG_DATA1 => MX27_BUILD_PIN 2 11
  | MX27_PIN_USBOTG_DATA4 => MX27_BUILD_PIN 2 12 | MX27_PIN_USBOTG_DATA3 => MX27_BUILD_PIN 2 13
  | MX27_PIN_TOUT => MX27_BUILD_PIN 2 14 | MX27_PIN_TIN => MX27_BUILD_PIN 2 15
  | MX27_PIN_SSI4_FS => MX27_BUILD_PIN 2 16 | MX27_PIN_SSI4_RXDAT => MX27_BUILD_PIN 2 17
  | MX27_PIN_SSI4_TXDAT => MX27_BUILD_PIN 2 18 | MX27_PIN_SSI4_CLK => MX27_BUILD_PIN 2 19
  | MX27_PIN_SSI1_FS => MX27_BUILD_PIN 2 20 | MX27_PIN_SSI1_RXDAT => MX27_BUILD_PIN 2 21
  | MX27_PIN_SSI1_TXDAT => MX27_BUILD_PIN 2 22 | MX27_PIN_SSI1_CLK => MX27_BUILD_PIN 2 23
  | MX27_PIN_SSI2_FS => MX27_BUILD_PIN 2 24 | MX27_PIN_SSI2_RXDAT => MX27_BUILD_PIN 2 25
  | MX27_PIN_SSI2_TXDAT => MX27_BUILD_PIN 2 26 | MX27_PIN_SSI2_CLK => MX27_BUILD_PIN 2 27
  | MX27_PIN_SSI3_FS => MX27_BUILD_PIN 2 28 | MX27_PIN_SSI3_RXDAT => MX27_BUILD_PIN 2 29
  | MX27_PIN_SSI3_TXDAT => MX27_BUILD_PIN 2 30 | MX27_PIN_SSI3_CLK => MX27_BUILD_PIN 2 31
  | MX27_PIN_SD3_CMD => MX27_BUILD_PIN 3 0 | MX27_PIN_SD3_CLK => MX27_BUILD_PIN 3 1
  | MX27_PIN_ATA_DATA0 => MX27_BUILD_PIN 3 2 | MX27_PIN_ATA_DATA1 => MX27_BUILD_PIN 3 3
  | MX27_PIN_ATA_DATA2 => MX27_BUILD_PIN 3 4 | MX27_PIN_ATA_DATA3 => MX27_BUILD_PIN 3 5
  | MX27_PIN_ATA_DATA4 => MX27_BUILD_PIN 3 6 | MX27_PIN_ATA_DATA5 => MX27_BUILD_PIN 3 7
  | MX27_PIN_ATA_DATA6 => MX27_BUILD_PIN 3 8 | MX27_PIN_ATA_DATA7 => MX27_BUILD_PIN 3 9
  | MX27_PIN_ATA_DATA8 => MX27_BUILD_PIN 3 10 | MX27_PIN_ATA_DATA9 => MX27_BUILD_PIN 3 11
  | MX27_PIN_ATA_DATA10 => MX27_BUILD_PIN 3 12 | MX27_PIN_ATA_DATA11 => MX27_BUILD_PIN 3 13
  | MX27_PIN_ATA_DATA12 => MX27_BUILD_PIN 3 14 | MX27_PIN_ATA_DATA13 => MX27_BUILD_PIN 3 15
  | MX27_PIN_ATA_DATA14 => MX27_BUILD_PIN 3 16 | MX27_PIN_I2C_DATA => MX27_BUILD_PIN 3 17
  | MX27_PIN_I2C_CLK => MX27_BUILD_PIN 3 18 | MX27_PIN_CSPI2_SS2 => MX27_BUILD_PIN 3 19
  | MX27_PIN_CSPI2_SS1 => MX27_BUILD_PIN 3 20 | MX27_PIN_CSPI2_SS0 => MX27_BUILD_PIN 3 21
  | MX27_PIN_CSPI2_SCLK => MX27_BUILD_PIN 3 22 | MX27_PIN_CSPI2_MISO => MX27_BUILD_PIN 3 23
  | MX27_PIN_CSPI2_MOSI => MX27_BUILD_PIN 3 24 | MX27_PIN_CSPI1_RDY => MX27_BUILD_PIN 3 25
  | MX27_PIN_CSPI1_SS2 => MX27_BUILD_PIN 3 26 | MX27_PIN_CSPI1_SS1 => MX27_BUILD_PIN 3 27
  | MX27_PIN_CSPI1_SS0 => MX27_BUILD_PIN 3 28 | MX27_PIN_CSPI1_SCLK => MX27_BUILD_PIN 3 29
  | MX27_PIN_CSPI1_MISO => MX27_BUILD_PIN 3 30 | MX27_PIN_CSPI1_MOSI => MX27_BUILD_PIN 3 31
  | MX27_PIN_USBOTG_NXT => MX27_BUILD_PIN 4 0 | MX27_PIN_USBOTG_STP => MX27_BUILD_PIN 4 1
  | MX27_PIN_USBOTG_DIR => MX27_BUILD_PIN 4 2 | MX27_PIN_UART2_CTS => MX27_BUILD_PIN 4 3
  | MX27_PIN_UART2_RTS => MX27_BUILD_PIN 4 4 | MX27_PIN_PWMO => MX27_BUILD_PIN 4 5
  | MX27_PIN_UART2_TXD => MX27_BUILD_PIN 4 6 | MX27_PIN_UART2_RXD => MX27_BUILD_PIN 4 7
  | MX27_PIN_UART3_TXD => MX27_BUILD_PIN 4 8 | MX27_PIN_UART3_RXD => MX27_BUILD_PIN 4 9
  | MX27_PIN_UART3_CTS => MX27_BUILD_PIN 4 10 | MX27_PIN_UART3_RTS => MX27_BUILD_PIN 4 11
  | MX27_PIN_UART1_TXD => MX27_BUILD_PIN 4 12 | MX27_PIN_UART1_RXD => MX27_BUILD_PIN 4 13
  | MX27_PIN_UART1_CTS => MX27_BUILD_PIN 4 14 | MX27_PIN_UART1_RTS => MX27_BUILD_PIN 4 15
  | MX27_PIN_RTCK => MX27_BUILD_PIN 4 16 | MX27_PIN_RESET_OUT_B => MX27_BUILD_PIN 4 17
  | MX27_PIN_SD1_D0 => MX27_BUILD_PIN 4 18 | MX27_PIN_SD1_D1 => MX27_BUILD_PIN 4 19
  | MX27_PIN_SD1_D2 => MX27_BUILD_PIN 4 20 | MX27_PIN_SD1_D3 => MX27_BUILD_PIN 4 21
  | MX27_PIN_SD1_CMD => MX27_BUILD_PIN 4 22 | MX27_PIN_SD1_CLK => MX27_BUILD_PIN 4 23
  | MX27_PIN_USBOTG_CLK => MX27_BUILD_PIN 4 24 | MX27_PIN_USBOTG_DATA7 => MX27_BUILD_PIN 4 25
  | MX27_PIN_NFRB => MX27_BUILD_PIN 5 0 | MX27_PIN_NFCLE => MX27_BUILD_PIN 5 1 | MX27_PIN_NFWP_B => MX27_BUILD_PIN 5 2
  | MX27_PIN_NFCE_B => MX27_BUILD_PIN 5 3 | MX27_PIN_NFALE => MX27_BUILD_PIN 5 4
  | MX27_PIN_NFRE_B => MX27_BUILD_PIN 5 5 | MX27_PIN_NFWE_B => MX27_BUILD_PIN 5 6
  | MX27_PIN_PC_POE => MX27_BUILD_PIN 5 7 | MX27_PIN_PC_RW_B => MX27_BUILD_PIN 5 8
  | MX27_PIN_IOIS16 => MX27_BUILD_PIN 5 9 | MX27_PIN_PC_RST => MX27_BUILD_PIN 5 10
  | MX27_PIN_PC_BVD2 => MX27_BUILD_PIN 5 11 | MX27_PIN_PC_BVD1 => MX27_BUILD_PIN 5 12
  | MX27_PIN_PC_VS2 => MX27_BUILD_PIN 5 13 | MX27_PIN_PC_VS1 => MX27_BUILD_PIN 5 14
  | MX27_PIN_CLKO => MX27_BUILD_PIN 5 15 | MX27_PIN_PC_PWRON => MX27_BUILD_PIN 5 16
  | MX27_PIN_PC_READY => MX27_BUILD_PIN 5 17 | MX27_PIN_PC_WAIT_B => MX27_BUILD_PIN 5 18
  | MX27_PIN_PC_CD2_B => MX27_BUILD_PIN 5 19 | MX27_PIN_PC_CD1_B => MX27_BUILD_PIN 5 20
  | MX27_PIN_CS4_B => MX27_BUILD_PIN 5 21 | MX27_PIN_CS5_B => MX27_BUILD_PIN 5 22
  | MX27_PIN_ATA_DATA15 => MX27_BUILD_PIN 5 23
  end.

(** ** Calls *)

(** The configuration options the file looks at. *)
Record config : Type := mkConfig { MDK27V1 : bool; SYP : bool; TUOSI : bool; MPK271 : bool; MC13783_POWER : bool }.

Definition ENXIO : Z := 6.

(** [set_irq_type] of the generic interrupt code: the chip's own method, if it has one. *)
Definition set_irq_type (irq type : Z) : M irqst Z :=
  if NR_IRQS <=? irq then mret (- ENODEV)
  else
    d ← desc_at irq;
    match chip d with
    | gpio_irq_chip => gpio_set_irq_type irq type
    | _ => mret (- ENXIO)
    end.

(** A call whose result is ignored; [if (call) return;]; a register that is read,
    changed and written; a call of the power driver, which has no pins. *)
Inductive call : Type :=
| Call (op : gpio_op) (p : iomux_pins)
| OrReturn (op : gpio_op) (p : iomux_pins)
| SetType (p : iomux_pins) (type : Z)
| Poke (addr : Z) (f : Z -> Z)
| Elsewhere.

Definition request (p : iomux_pins) (mode : Z) : call := Call (RequestMux mode) p.
Definition request_or_return (p : iomux_pins) (mode : Z) : call := OrReturn (RequestMux mode) p.
Definition free (p : iomux_pins) : call := Call FreeMux p.
Definition config_mux (p : iomux_pins) (mode : Z) : call := Call (ConfigMux mode) p.
Definition direction (p : iomux_pins) (is_input : bool) : call := Call (SetDirection is_input) p.
Definition dataout (p : iomux_pins) (data : Z) : call := Call (SetDataout data) p.
Definition puen (p : iomux_pins) (en : bool) : call := Call (SetPuen en) p.

Fixpoint run_calls (l : list call) : M irqst unit :=
  match l with
  | [] => mret tt
  | Call op p :: l' => run_op op (pin_bits p);; run_calls l'
  | OrReturn op p :: l' => r ← run_op op (pin_bits p); if r =? 0 then run_calls l' else mret tt
  | SetType p t :: l' => set_irq_type (IOMUX_TO_IRQ (pin_bits p)) t;; run_calls l'
  | Poke a f :: l' => v ← ird a; iwr (f v) a;; run_calls l'
  | Elsewhere :: l' => run_calls l'
  end.

(** A 16-bit access to the low half of a register. *)
Definition low16 (f : Z -> Z) (v : Z) : Z := setb (clear v 0xFFFF) (Z.land (f (Z.land v 0xFFFF)) 0xFFFF).

Definition SYS_FMCR : Z := 0x14.
Definition nand_poke : call := Poke (IO_ADDRESS SYSCTRL_BASE_ADDR + SYS_FMCR) (fun reg => clear reg (Z.shiftl 1 4)).
Definition sd1_pull_up : call := Poke (IO_ADDRESS (SYSCTRL_BASE_ADDR + 0x54)) (low16 (fun data => setb data 0x0c)).
Definition sd2_pull_up : call :=
  Poke (IO_ADDRESS (SYSCTRL_BASE_ADDR + 0x54)) (low16 (fun data => setb (clear data 0xfff0) 0xfff0)).

(** ** The functions of the board *)

Definition uart_request (port : Z) : list call :=
  match port with
  | 0 =>
      [request MX27_PIN_UART1_TXD GPIO_MUX_PRIMARY; request MX27_PIN_UART1_RXD GPIO_MUX_PRIMARY;
       request MX27_PIN_UART1_CTS GPIO_MUX_PRIMARY; request MX27_PIN_UART1_RTS GPIO_MUX_PRIMARY]
  | 1 =>
      [request MX27_PIN_UART2_TXD GPIO_MUX_PRIMARY; request MX27_PIN_UART2_RXD GPIO_MUX_PRIMARY;
       request MX27_PIN_UART2_CTS GPIO_MUX_PRIMARY; request MX27_PIN_UART2_RTS GPIO_MUX_PRIMARY]
  | 2 =>
      [request MX27_PIN_UART3_TXD GPIO_MUX_PRIMARY; request MX27_PIN_UART3_RXD GPIO_MUX_PRIMARY;
       request MX27_PIN_UART3_CTS GPIO_MUX_PRIMARY; request MX27_PIN_UART3_RTS GPIO_MUX_PRIMARY]
  | 3 =>
      [request MX27_PIN_USBH1_TXDM GPIO_MUX_ALT; request MX27_PIN_USBH1_RXDP GPIO_MUX_ALT;
       request MX27_PIN_USBH1_TXDP GPIO_MUX_ALT; request MX27_PIN_USBH1_FS GPIO_MUX_ALT]
  | 4 =>
      [request MX27_PIN_CSI_D6 GPIO_MUX_ALT; request MX27_PIN_CSI_D7 GPIO_MUX_ALT;
       request MX27_PIN_CSI_VSYNC GPIO_MUX_ALT; request MX27_PIN_CSI_HSYNC GPIO_MUX_ALT]
  | 5 =>
      [request MX27_PIN_CSI_D0 GPIO_MUX_ALT; request MX27_PIN_CSI_D1 GPIO_MUX_ALT;
       request MX27_PIN_CSI_D2 GPIO_MUX_ALT; request MX27_PIN_CSI_D3 GPIO_MUX_ALT]
  | _ => []
  end.

Definition uart_free (port : Z) : list call :=
  match port with
  | 0 =>
      [free MX27_PIN_UART1_TXD; free MX27_PIN_UART1_RXD; free MX27_PIN_UART1_CTS; free MX27_PIN_UART1_RTS]
  | 1 =>
      [free MX27_PIN_UART2_TXD; free MX27_PIN_UART2_RXD; free MX27_PIN_UART2_CTS; free MX27_PIN_UART2_RTS]
  | 2 =>
      [free MX27_PIN_UART3_TXD; free MX27_PIN_UART3_RXD; free MX27_PIN_UART3_CTS; free MX27_PIN_UART3_RTS]
  | 3 =>
      [free MX27_PIN_USBH1_TXDM; free MX27_PIN_USBH1_RXDP; free MX27_PIN_USBH1_TXDP; free MX27_PIN_USBH1_FS]
  | 4 =>
      [free MX27_PIN_CSI_D6; free MX27_PIN_CSI_D7; free MX27_PIN_CSI_VSYNC; free MX27_PIN_CSI_HSYNC]
  | 5 =>
      [free MX27_PIN_CSI_D0; free MX27_PIN_CSI_D1; free MX27_PIN_CSI_D2; free MX27_PIN_CSI_D3]
  | _ => []
  end.

Definition gpio_usbh1_active : list call :=
  [request MX27_PIN_USBH1_FS GPIO_MUX_PRIMARY; request MX27_PIN_USBH1_OE_B GPIO_MUX_PRIMARY;
   request MX27_PIN_USBH1_TXDM GPIO_MUX_PRIMARY; request MX27_PIN_USBH1_RXDM GPIO_MUX_PRIMARY;
   request MX27_PIN_USBH1_RXDP GPIO_MUX_PRIMARY].

Definition gpio_usbh1_inactive : list call :=
  [free MX27_PIN_USBH1_FS; free MX27_PIN_USBH1_OE_B; free MX27_PIN_USBH1_TXDM; free MX27_PIN_USBH1_TXDP;
   free MX27_PIN_USBH1_RXDM; free MX27_PIN_USBH1_RXDP].

Definition gpio_usbh2_active : list call :=
  [puen MX27_PIN_USBH2_CLK false; puen MX27_PIN_USBH2_DIR false; puen MX27_PIN_USBH2_DATA7 false;
   puen MX27_PIN_USBH2_NXT false; puen MX27_PIN_USBH2_STP false; puen MX27_PIN_CSPI2_SS2 false;
   puen MX27_PIN_CSPI2_SS1 false; puen MX27_PIN_CSPI2_SS0 false; puen MX27_PIN_CSPI2_SCLK false;
   puen MX27_PIN_CSPI2_MISO false; puen MX27_PIN_CSPI2_MOSI false; puen MX27_PIN_CSPI1_SS2 false;
   request MX27_PIN_USBH2_CLK GPIO_MUX_PRIMARY; request MX27_PIN_USBH2_DIR GPIO_MUX_PRIMARY;
   request MX27_PIN_USBH2_DATA7 GPIO_MUX_PRIMARY; request MX27_PIN_USBH2_NXT GPIO_MUX_PRIMARY;
   request MX27_PIN_USBH2_STP GPIO_MUX_PRIMARY; request MX27_PIN_CSPI2_SS2 GPIO_MUX_ALT;
   request MX27_PIN_CSPI2_SS1 GPIO_MUX_ALT; request MX27_PIN_CSPI2_SS0 GPIO_MUX_ALT;
   request MX27_PIN_CSPI2_SCLK GPIO_MUX_ALT; request MX27_PIN_CSPI2_MISO GPIO_MUX_ALT;
   request MX27_PIN_CSPI2_MOSI GPIO_MUX_ALT; request MX27_PIN_CSPI1_SS2 GPIO_MUX_ALT].

Definition gpio_usbh2_inactive : list call :=
  [free MX27_PIN_USBH2_CLK; free MX27_PIN_USBH2_DIR; free MX27_PIN_USBH2_DATA7; free MX27_PIN_USBH2_NXT;
   free MX27_PIN_USBH2_STP; free MX27_PIN_CSPI2_SS0; free MX27_PIN_CSPI2_SCLK; free MX27_PIN_CSPI2_MISO;
   free MX27_PIN_CSPI2_MOSI; free MX27_PIN_CSPI1_SS2; puen MX27_PIN_USBH2_CLK true;
   puen MX27_PIN_USBH2_DIR true; puen MX27_PIN_USBH2_DATA7 true; puen MX27_PIN_USBH2_NXT true;
   puen MX27_PIN_USBH2_STP true; puen MX27_PIN_CSPI2_SS0 true; puen MX27_PIN_CSPI2_SCLK true;
   puen MX27_PIN_CSPI2_MISO true; puen MX27_PIN_CSPI2_MOSI true; puen MX27_PIN_CSPI1_SS2 true].

Definition gpio_usbotg_hs_active (c : config) : list call :=
  [request MX27_PIN_USBOTG_DATA5 GPIO_MUX_PRIMARY; request MX27_PIN_USBOTG_DATA6 GPIO_MUX_PRIMARY;
   request MX27_PIN_USBOTG_DATA0 GPIO_MUX_PRIMARY; request MX27_PIN_USBOTG_DATA2 GPIO_MUX_PRIMARY;
   request MX27_PIN_USBOTG_DATA1 GPIO_MUX_PRIMARY; request MX27_PIN_USBOTG_DATA3 GPIO_MUX_PRIMARY;
   request MX27_PIN_USBOTG_DATA4 GPIO_MUX_PRIMARY; request MX27_PIN_USBOTG_DIR GPIO_MUX_PRIMARY;
   request MX27_PIN_USBOTG_STP GPIO_MUX_PRIMARY; request MX27_PIN_USBOTG_NXT GPIO_MUX_PRIMARY;
   request MX27_PIN_USBOTG_CLK GPIO_MUX_PRIMARY; request MX27_PIN_USBOTG_DATA7 GPIO_MUX_PRIMARY;
   request MX27_PIN_USB_OC_B GPIO_MUX_PRIMARY; request MX27_PIN_USB_PWR GPIO_MUX_PRIMARY] ++
  (if MC13783_POWER c then [Elsewhere]
   else []) ++
  [request MX27_PIN_SSI3_CLK GPIO_MUX_GPIO; config_mux MX27_PIN_SSI3_CLK GPIO_MUX_GPIO;
   direction MX27_PIN_SSI3_CLK false; dataout MX27_PIN_SSI3_CLK 0; dataout MX27_PIN_SSI3_CLK 1].

Definition gpio_usbotg_hs_inactive : list call :=
  [free MX27_PIN_USBOTG_DATA5; free MX27_PIN_USBOTG_DATA6; free MX27_PIN_USBOTG_DATA0;
   free MX27_PIN_USBOTG_DATA2; free MX27_PIN_USBOTG_DATA1; free MX27_PIN_USBOTG_DATA3;
   free MX27_PIN_USBOTG_DATA4; free MX27_PIN_USBOTG_DIR; free MX27_PIN_USBOTG_STP; free MX27_PIN_USBOTG_NXT;
   free MX27_PIN_USBOTG_CLK; free MX27_PIN_USBOTG_DATA7; free MX27_PIN_USB_OC_B; free MX27_PIN_USB_PWR;
   free MX27_PIN_SSI3_CLK].

Definition gpio_i2c_active (i2c_num : Z) : list call :=
  match i2c_num with
  | 0 =>
      [request MX27_PIN_I2C_CLK GPIO_MUX_PRIMARY; request MX27_PIN_I2C_DATA GPIO_MUX_PRIMARY]
  | 1 =>
      [request MX27_PIN_I2C2_SCL GPIO_MUX_PRIMARY; request MX27_PIN_I2C2_SDA GPIO_MUX_PRIMARY]
  | _ => []
  end.

Definition gpio_i2c_inactive (i2c_num : Z) : list call :=
  match i2c_num with
  | 0 =>
      [free MX27_PIN_I2C_CLK; free MX27_PIN_I2C_DATA]
  | 1 =>
      [free MX27_PIN_I2C2_SCL; free MX27_PIN_I2C2_SDA]
  | _ => []
  end.

Definition gpio_spi_active (cspi_mod : Z) : list call :=
  match cspi_mod with
  | 0 =>
      [request MX27_PIN_CSPI1_MOSI GPIO_MUX_PRIMARY; request MX27_PIN_CSPI1_MISO GPIO_MUX_PRIMARY;
       request MX27_PIN_CSPI1_SCLK GPIO_MUX_PRIMARY; request MX27_PIN_CSPI1_RDY GPIO_MUX_PRIMARY;
       request MX27_PIN_CSPI1_SS0 GPIO_MUX_PRIMARY]
  | 1 =>
      [request MX27_PIN_CSPI2_MOSI GPIO_MUX_PRIMARY; request MX27_PIN_CSPI2_MISO GPIO_MUX_PRIMARY;
       request MX27_PIN_CSPI2_SCLK GPIO_MUX_PRIMARY; request MX27_PIN_CSPI2_SS0 GPIO_MUX_PRIMARY]
  | 2 =>
      [request MX27_PIN_SD1_D0 GPIO_MUX_ALT; request MX27_PIN_SD1_CMD GPIO_MUX_ALT;
       request MX27_PIN_SD1_CLK GPIO_MUX_ALT; request MX27_PIN_SD1_D3 GPIO_MUX_ALT]
  | _ => []
  end.

Definition gpio_spi_inactive (cspi_mod : Z) : list call :=
  match cspi_mod with
  | 0 =>
      [free MX27_PIN_CSPI1_MOSI; free MX27_PIN_CSPI1_MISO; free MX27_PIN_CSPI1_SCLK; free MX27_PIN_CSPI1_RDY;
       free MX27_PIN_CSPI1_SS0; free MX27_PIN_CSPI1_SS2]
  | 1 =>
      [free MX27_PIN_CSPI2_MOSI; free MX27_PIN_CSPI2_MISO; free MX27_PIN_CSPI2_SCLK; free MX27_PIN_CSPI2_SS0]
  | 2 =>
      [free MX27_PIN_SD1_D0; free MX27_PIN_SD1_CMD; free MX27_PIN_SD1_CLK; free MX27_PIN_SD1_D3]
  | _ => []
  end.

Definition gpio_nand_active : list call :=
  [nand_poke; request MX27_PIN_NFRB GPIO_MUX_PRIMARY; request MX27_PIN_NFCE_B GPIO_MUX_PRIMARY;
   request MX27_PIN_NFWP_B GPIO_MUX_PRIMARY; request MX27_PIN_NFCLE GPIO_MUX_PRIMARY;
   request MX27_PIN_NFALE GPIO_MUX_PRIMARY; request MX27_PIN_NFRE_B GPIO_MUX_PRIMARY;
   request MX27_PIN_NFWE_B GPIO_MUX_PRIMARY].

Definition gpio_nand_inactive : list call :=
  [free MX27_PIN_NFRB; free MX27_PIN_NFCE_B; free MX27_PIN_NFWP_B; free MX27_PIN_NFCLE; free MX27_PIN_NFALE;
   free MX27_PIN_NFRE_B; free MX27_PIN_NFWE_B].

Definition gpio_sensor_active : list call :=
  [request MX27_PIN_CSI_D0 GPIO_MUX_PRIMARY; request MX27_PIN_CSI_D1 GPIO_MUX_PRIMARY;
   request MX27_PIN_CSI_D2 GPIO_MUX_PRIMARY; request MX27_PIN_CSI_D3 GPIO_MUX_PRIMARY;
   request MX27_PIN_CSI_D4 GPIO_MUX_PRIMARY; request MX27_PIN_CSI_MCLK GPIO_MUX_PRIMARY;
   request MX27_PIN_CSI_PIXCLK GPIO_MUX_PRIMARY; request MX27_PIN_CSI_D5 GPIO_MUX_PRIMARY;
   request MX27_PIN_CSI_D6 GPIO_MUX_PRIMARY; request MX27_PIN_CSI_D7 GPIO_MUX_PRIMARY;
   request MX27_PIN_CSI_VSYNC GPIO_MUX_PRIMARY; request MX27_PIN_CSI_HSYNC GPIO_MUX_PRIMARY;
   request MX27_PIN_USBH1_SUSP GPIO_MUX_GPIO; direction MX27_PIN_USBH1_SUSP false;
   dataout MX27_PIN_USBH1_SUSP 1; request MX27_PIN_SSI3_FS GPIO_MUX_GPIO; direction MX27_PIN_SSI3_FS false;
   dataout MX27_PIN_SSI3_FS 1; request MX27_PIN_USBH1_RXDM GPIO_MUX_GPIO; direction MX27_PIN_USBH1_RXDM false;
   dataout MX27_PIN_USBH1_RXDM 0; dataout MX27_PIN_USBH1_SUSP 0; dataout MX27_PIN_USBH1_SUSP 1].

Definition gpio_sensor_inactive : list call :=
  [free MX27_PIN_CSI_D0; free MX27_PIN_CSI_D1; free MX27_PIN_CSI_D2; free MX27_PIN_CSI_D3; free MX27_PIN_CSI_D4;
   free MX27_PIN_CSI_MCLK; free MX27_PIN_CSI_PIXCLK; free MX27_PIN_CSI_D5; free MX27_PIN_CSI_D6;
   free MX27_PIN_CSI_D7; free MX27_PIN_CSI_VSYNC; free MX27_PIN_CSI_HSYNC; free MX27_PIN_SSI3_FS;
   dataout MX27_PIN_USBH1_RXDM 1; free MX27_PIN_USBH1_RXDM; free MX27_PIN_USBH1_SUSP].

Definition gpio_adv7180_active : list call :=
  [request MX27_PIN_CSI_D0 GPIO_MUX_PRIMARY; request MX27_PIN_CSI_D1 GPIO_MUX_PRIMARY;
   request MX27_PIN_CSI_D2 GPIO_MUX_PRIMARY; request MX27_PIN_CSI_D3 GPIO_MUX_PRIMARY;
   request MX27_PIN_CSI_D4 GPIO_MUX_PRIMARY; request MX27_PIN_CSI_MCLK GPIO_MUX_PRIMARY;
   request MX27_PIN_CSI_PIXCLK GPIO_MUX_PRIMARY; request MX27_PIN_CSI_D5 GPIO_MUX_PRIMARY;
   request MX27_PIN_CSI_D6 GPIO_MUX_PRIMARY; request MX27_PIN_CSI_D7 GPIO_MUX_PRIMARY;
   request MX27_PIN_CSI_VSYNC GPIO_MUX_PRIMARY; request MX27_PIN_CSI_HSYNC GPIO_MUX_PRIMARY;
   request MX27_PIN_USBH1_RXDM GPIO_MUX_GPIO; direction MX27_PIN_USBH1_RXDM false;
   dataout MX27_PIN_USBH1_RXDM 1; request MX27_PIN_CSPI1_RDY GPIO_MUX_GPIO; direction MX27_PIN_CSPI1_RDY false;
   dataout MX27_PIN_CSPI1_RDY 0; dataout MX27_PIN_CSPI1_RDY 1].

Definition gpio_adv7180_inactive : list call :=
  [free MX27_PIN_CSI_D0; free MX27_PIN_CSI_D1; free MX27_PIN_CSI_D2; free MX27_PIN_CSI_D3; free MX27_PIN_CSI_D4;
   free MX27_PIN_CSI_MCLK; free MX27_PIN_CSI_PIXCLK; free MX27_PIN_CSI_D5; free MX27_PIN_CSI_D6;
   free MX27_PIN_CSI_D7; free MX27_PIN_CSI_VSYNC; free MX27_PIN_CSI_HSYNC;
   request MX27_PIN_USBH1_RXDM GPIO_MUX_GPIO; direction MX27_PIN_USBH1_RXDM false;
   dataout MX27_PIN_USBH1_RXDM 0; request MX27_PIN_CSPI1_RDY GPIO_MUX_GPIO; direction MX27_PIN_CSPI1_RDY false;
   dataout MX27_PIN_CSPI1_RDY 0; dataout MX27_PIN_CSPI1_RDY 1].

Definition gpio_tw2835_active (c : config) : list call :=
  [request MX27_PIN_CSI_D0 GPIO_MUX_PRIMARY; request MX27_PIN_CSI_D1 GPIO_MUX_PRIMARY;
   request MX27_PIN_CSI_D2 GPIO_MUX_PRIMARY; request MX27_PIN_CSI_D3 GPIO_MUX_PRIMARY;
   request MX27_PIN_CSI_D4 GPIO_MUX_PRIMARY; request MX27_PIN_CSI_MCLK GPIO_MUX_PRIMARY;
   request MX27_PIN_CSI_PIXCLK GPIO_MUX_PRIMARY; request MX27_PIN_CSI_D5 GPIO_MUX_PRIMARY;
   request MX27_PIN_CSI_D6 GPIO_MUX_PRIMARY; request MX27_PIN_CSI_D7 GPIO_MUX_PRIMARY;
   request MX27_PIN_CSI_VSYNC GPIO_MUX_PRIMARY; request MX27_PIN_CSI_HSYNC GPIO_MUX_PRIMARY] ++
  (if MPK271 c then [request MX27_PIN_USBH1_RXDM GPIO_MUX_GPIO; direction MX27_PIN_USBH1_RXDM false;
     dataout MX27_PIN_USBH1_RXDM 1; request MX27_PIN_CSPI1_RDY GPIO_MUX_GPIO;
     direction MX27_PIN_CSPI1_RDY false; dataout MX27_PIN_CSPI1_RDY 0; dataout MX27_PIN_CSPI1_RDY 1]
   else []).

Definition gpio_tw2835_inactive (c : config) : list call :=
  [free MX27_PIN_CSI_D0; free MX27_PIN_CSI_D1; free MX27_PIN_CSI_D2; free MX27_PIN_CSI_D3; free MX27_PIN_CSI_D4;
   free MX27_PIN_CSI_MCLK; free MX27_PIN_CSI_PIXCLK; free MX27_PIN_CSI_D5; free MX27_PIN_CSI_D6;
   free MX27_PIN_CSI_D7; free MX27_PIN_CSI_VSYNC; free MX27_PIN_CSI_HSYNC] ++
  (if MPK271 c then [request MX27_PIN_USBH1_RXDM GPIO_MUX_GPIO; direction MX27_PIN_USBH1_RXDM false;
     dataout MX27_PIN_USBH1_RXDM 0; request MX27_PIN_CSPI1_RDY GPIO_MUX_GPIO;
     direction MX27_PIN_CSPI1_RDY false; dataout MX27_PIN_CSPI1_RDY 0; dataout MX27_PIN_CSPI1_RDY 1]
   else []).

Definition gpio_si4702_active (c : config) : list call :=
  [request MX27_PIN_USBH2_DIR GPIO_MUX_GPIO; direction MX27_PIN_USBH2_DIR false; dataout MX27_PIN_USBH2_DIR 1] ++
  (if SYP c || TUOSI c || MPK271 c then []
   else [request MX27_PIN_SSI2_TXDAT GPIO_MUX_GPIO; direction MX27_PIN_SSI2_TXDAT false;
     dataout MX27_PIN_SSI2_TXDAT 0]).

Definition gpio_si4702_inactive : list call :=
  [request MX27_PIN_USBH2_DIR GPIO_MUX_GPIO; direction MX27_PIN_USBH2_DIR false; dataout MX27_PIN_USBH2_DIR 0].

Definition gpio_si4702_reset : list call :=
  [request MX27_PIN_CSPI2_SS1 GPIO_MUX_GPIO; direction MX27_PIN_CSPI2_SS1 false; dataout MX27_PIN_CSPI2_SS1 0;
   dataout MX27_PIN_CSPI2_SS1 1].

Definition gpio_si4702_powerdown : list call :=
  [request MX27_PIN_USBH2_DIR GPIO_MUX_GPIO; direction MX27_PIN_USBH2_DIR false; dataout MX27_PIN_USBH2_DIR 0].

Definition gpio_lcdc_active (c : config) : list call :=
  [request MX27_PIN_LSCLK GPIO_MUX_PRIMARY; request MX27_PIN_LD0 GPIO_MUX_PRIMARY;
   request MX27_PIN_LD1 GPIO_MUX_PRIMARY; request MX27_PIN_LD2 GPIO_MUX_PRIMARY;
   request MX27_PIN_LD3 GPIO_MUX_PRIMARY; request MX27_PIN_LD4 GPIO_MUX_PRIMARY;
   request MX27_PIN_LD5 GPIO_MUX_PRIMARY; request MX27_PIN_LD6 GPIO_MUX_PRIMARY;
   request MX27_PIN_LD7 GPIO_MUX_PRIMARY; request MX27_PIN_LD8 GPIO_MUX_PRIMARY;
   request MX27_PIN_LD9 GPIO_MUX_PRIMARY; request MX27_PIN_LD10 GPIO_MUX_PRIMARY;
   request MX27_PIN_LD11 GPIO_MUX_PRIMARY; request MX27_PIN_LD12 GPIO_MUX_PRIMARY;
   request MX27_PIN_LD13 GPIO_MUX_PRIMARY; request MX27_PIN_LD14 GPIO_MUX_PRIMARY;
   request MX27_PIN_LD15 GPIO_MUX_PRIMARY; request MX27_PIN_LD16 GPIO_MUX_PRIMARY;
   request MX27_PIN_LD17 GPIO_MUX_PRIMARY; request MX27_PIN_HSYNC GPIO_MUX_PRIMARY;
   request MX27_PIN_VSYNC GPIO_MUX_PRIMARY; request MX27_PIN_CONTRAST GPIO_MUX_PRIMARY;
   request MX27_PIN_OE_ACD GPIO_MUX_PRIMARY] ++
  (if TUOSI c then [request_or_return MX27_PIN_USBH2_DIR GPIO_MUX_GPIO; direction MX27_PIN_USBH2_DIR false;
     config_mux MX27_PIN_USBH2_DIR GPIO_MUX_GPIO; dataout MX27_PIN_USBH2_DIR 0; dataout MX27_PIN_USBH2_DIR 1]
   else (if MPK271 c then []
     else (if SYP c then []
       else [request_or_return MX27_PIN_USBH2_NXT GPIO_MUX_GPIO; direction MX27_PIN_USBH2_NXT false;
         config_mux MX27_PIN_USBH2_NXT GPIO_MUX_GPIO; dataout MX27_PIN_USBH2_NXT 0; dataout MX27_PIN_USBH2_NXT 1]))) ++
  (if SYP c || TUOSI c || MPK271 c then [request MX27_PIN_REV GPIO_MUX_GPIO; direction MX27_PIN_REV false; config_mux MX27_PIN_REV GPIO_MUX_GPIO;
     dataout MX27_PIN_REV 0]
   else (if MDK27V1 c then [request MX27_PIN_REV GPIO_MUX_GPIO; direction MX27_PIN_REV true; config_mux MX27_PIN_REV GPIO_MUX_GPIO]
     else [])).

Definition gpio_lcdc_inactive : list call :=
  [dataout MX27_PIN_REV 1; free MX27_PIN_REV; free MX27_PIN_LSCLK; free MX27_PIN_LD0; free MX27_PIN_LD1;
   free MX27_PIN_LD2; free MX27_PIN_LD3; free MX27_PIN_LD4; free MX27_PIN_LD5; free MX27_PIN_LD6;
   free MX27_PIN_LD7; free MX27_PIN_LD8; free MX27_PIN_LD9; free MX27_PIN_LD10; free MX27_PIN_LD11;
   free MX27_PIN_LD12; free MX27_PIN_LD13; free MX27_PIN_LD14; free MX27_PIN_LD15; free MX27_PIN_LD16;
   free MX27_PIN_LD17; free MX27_PIN_HSYNC; free MX27_PIN_VSYNC; free MX27_PIN_CONTRAST; free MX27_PIN_OE_ACD].

Definition gpio_fs453_reset_low : list call :=
  [free MX27_PIN_CLS; request_or_return MX27_PIN_CLS GPIO_MUX_GPIO; direction MX27_PIN_CLS false;
   config_mux MX27_PIN_CLS GPIO_MUX_GPIO; dataout MX27_PIN_CLS 0].

Definition gpio_fs453_reset_high : list call :=
  [free MX27_PIN_CLS; request_or_return MX27_PIN_CLS GPIO_MUX_GPIO; direction MX27_PIN_CLS false;
   config_mux MX27_PIN_CLS GPIO_MUX_GPIO; dataout MX27_PIN_CLS 1].

Definition gpio_pmic_active : list call :=
  [config_mux MX27_PIN_TOUT GPIO_MUX_GPIO; direction MX27_PIN_TOUT true; config_mux MX27_PIN_TIN GPIO_MUX_GPIO;
   direction MX27_PIN_TIN true; config_mux MX27_PIN_USBH1_TXDP GPIO_MUX_GPIO; direction MX27_PIN_USBH1_TXDP true;
   config_mux MX27_PIN_USBH1_OE_B GPIO_MUX_GPIO; direction MX27_PIN_USBH1_OE_B false; dataout MX27_PIN_USBH1_OE_B 1;
   config_mux MX27_PIN_USBH1_RXDP GPIO_MUX_GPIO; direction MX27_PIN_USBH1_RXDP false; dataout MX27_PIN_USBH1_RXDP 1].

Definition gpio_keypad_active : list call := [].

Definition gpio_keypad_inactive : list call := [].

Definition gpio_fec_active (c : config) : list call :=
  [request MX27_PIN_ATA_DATA15 GPIO_MUX_OUTPUT1; direction MX27_PIN_ATA_DATA15 false;
   request MX27_PIN_ATA_DATA14 GPIO_MUX_OUTPUT1; direction MX27_PIN_ATA_DATA14 false;
   request MX27_PIN_ATA_DATA13 GPIO_MUX_INPUT1; direction MX27_PIN_ATA_DATA13 true;
   request MX27_PIN_ATA_DATA12 GPIO_MUX_INPUT1; direction MX27_PIN_ATA_DATA12 true;
   request MX27_PIN_ATA_DATA11 GPIO_MUX_INPUT1; direction MX27_PIN_ATA_DATA11 true;
   request MX27_PIN_ATA_DATA10 GPIO_MUX_INPUT1; direction MX27_PIN_ATA_DATA10 true;
   request MX27_PIN_ATA_DATA9 GPIO_MUX_INPUT1; direction MX27_PIN_ATA_DATA9 true;
   request MX27_PIN_ATA_DATA8 GPIO_MUX_INPUT1; direction MX27_PIN_ATA_DATA8 true;
   request MX27_PIN_ATA_DATA7 GPIO_MUX_OUTPUT1; direction MX27_PIN_ATA_DATA7 false;
   request MX27_PIN_ATA_DATA6 GPIO_MUX_ALT; request MX27_PIN_ATA_DATA5 GPIO_MUX_INPUT1;
   direction MX27_PIN_ATA_DATA5 true; request MX27_PIN_ATA_DATA4 GPIO_MUX_INPUT1;
   direction MX27_PIN_ATA_DATA4 true; request MX27_PIN_ATA_DATA3 GPIO_MUX_INPUT1;
   direction MX27_PIN_ATA_DATA3 true; request MX27_PIN_ATA_DATA2 GPIO_MUX_INPUT1;
   direction MX27_PIN_ATA_DATA2 true; request MX27_PIN_ATA_DATA1 GPIO_MUX_OUTPUT1;
   direction MX27_PIN_ATA_DATA1 false; request MX27_PIN_ATA_DATA0 GPIO_MUX_OUTPUT1;
   direction MX27_PIN_ATA_DATA0 false; request MX27_PIN_SD3_CLK GPIO_MUX_OUTPUT1;
   direction MX27_PIN_SD3_CLK false; request MX27_PIN_SD3_CMD GPIO_MUX_OUTPUT1;
   direction MX27_PIN_SD3_CMD false] ++
  (if MDK27V1 c then [request_or_return MX27_PIN_USB_OC_B GPIO_MUX_GPIO; direction MX27_PIN_USB_OC_B false;
     config_mux MX27_PIN_USB_OC_B GPIO_MUX_GPIO; dataout MX27_PIN_USB_OC_B 1;
     request_or_return MX27_PIN_PC_RST GPIO_MUX_GPIO; direction MX27_PIN_PC_RST false;
     config_mux MX27_PIN_PC_RST GPIO_MUX_GPIO; dataout MX27_PIN_PC_RST 0; dataout MX27_PIN_PC_RST 1]
   else [request MX27_PIN_IOIS16 GPIO_MUX_GPIO; direction MX27_PIN_IOIS16 true;
     request MX27_PIN_USB_OC_B GPIO_MUX_GPIO; request MX27_PIN_PWMO GPIO_MUX_GPIO;
     direction MX27_PIN_USB_OC_B false; direction MX27_PIN_PWMO false; dataout MX27_PIN_USB_OC_B 0;
     dataout MX27_PIN_PWMO 1; request MX27_PIN_PC_RST GPIO_MUX_GPIO; direction MX27_PIN_PC_RST false;
     dataout MX27_PIN_PC_RST 0]).

Definition gpio_fec_inactive : list call :=
  [direction MX27_PIN_IOIS16 false; free MX27_PIN_IOIS16; free MX27_PIN_USB_OC_B; free MX27_PIN_PWMO;
   free MX27_PIN_PC_RST; free MX27_PIN_ATA_DATA0; free MX27_PIN_ATA_DATA1; free MX27_PIN_ATA_DATA2;
   free MX27_PIN_ATA_DATA3; free MX27_PIN_ATA_DATA4; free MX27_PIN_ATA_DATA5; free MX27_PIN_ATA_DATA6;
   free MX27_PIN_ATA_DATA7; free MX27_PIN_ATA_DATA8; free MX27_PIN_ATA_DATA9; free MX27_PIN_ATA_DATA10;
   free MX27_PIN_ATA_DATA11; free MX27_PIN_ATA_DATA12; free MX27_PIN_ATA_DATA13; free MX27_PIN_ATA_DATA14;
   free MX27_PIN_ATA_DATA15; free MX27_PIN_SD3_CMD; free MX27_PIN_SD3_CLK].

Definition gpio_cs8900_init : list call :=
  [request MX27_PIN_I2C2_SDA GPIO_MUX_GPIO; direction MX27_PIN_I2C2_SDA false; dataout MX27_PIN_I2C2_SDA 1;
   dataout MX27_PIN_I2C2_SDA 0; request MX27_PIN_SSI3_FS GPIO_MUX_GPIO; direction MX27_PIN_SSI3_FS true;
   puen MX27_PIN_SSI3_FS false; SetType MX27_PIN_SSI3_FS IRQT_HIGH].

Definition gpio_ssi_active (ssi_num : Z) : list call :=
  match ssi_num with
  | 0 =>
      [request MX27_PIN_SSI1_FS GPIO_MUX_PRIMARY; request MX27_PIN_SSI1_RXDAT GPIO_MUX_PRIMARY;
       request MX27_PIN_SSI1_TXDAT GPIO_MUX_PRIMARY; request MX27_PIN_SSI1_CLK GPIO_MUX_PRIMARY;
       puen MX27_PIN_SSI1_FS false; puen MX27_PIN_SSI1_RXDAT false; puen MX27_PIN_SSI1_TXDAT false;
       puen MX27_PIN_SSI1_CLK false]
  | 1 =>
      [request MX27_PIN_SSI2_FS GPIO_MUX_PRIMARY; request MX27_PIN_SSI2_RXDAT GPIO_MUX_PRIMARY;
       request MX27_PIN_SSI2_TXDAT GPIO_MUX_PRIMARY; request MX27_PIN_SSI2_CLK GPIO_MUX_PRIMARY;
       puen MX27_PIN_SSI2_FS false; puen MX27_PIN_SSI2_RXDAT false; puen MX27_PIN_SSI2_TXDAT false;
       puen MX27_PIN_SSI2_CLK false]
  | 3 =>
      [request MX27_PIN_SSI4_FS GPIO_MUX_PRIMARY; request MX27_PIN_SSI4_RXDAT GPIO_MUX_PRIMARY;
       request MX27_PIN_SSI4_TXDAT GPIO_MUX_PRIMARY; request MX27_PIN_SSI4_CLK GPIO_MUX_PRIMARY;
       puen MX27_PIN_SSI4_FS false; puen MX27_PIN_SSI4_RXDAT false; puen MX27_PIN_SSI4_TXDAT false;
       puen MX27_PIN_SSI4_CLK false]
  | _ => []
  end.

Definition gpio_ssi_inactive (ssi_num : Z) : list call :=
  match ssi_num with
  | 0 =>
      [free MX27_PIN_SSI1_FS; free MX27_PIN_SSI1_RXDAT; free MX27_PIN_SSI1_TXDAT; free MX27_PIN_SSI1_CLK]
  | 1 =>
      [free MX27_PIN_SSI2_FS; free MX27_PIN_SSI2_RXDAT; free MX27_PIN_SSI2_TXDAT; free MX27_PIN_SSI2_CLK]
  | 3 =>
      [free MX27_PIN_SSI4_FS; free MX27_PIN_SSI4_RXDAT; free MX27_PIN_SSI4_TXDAT; free MX27_PIN_SSI4_CLK]
  | _ => []
  end.

Definition gpio_jack_active : list call :=
  [request MX27_PIN_SSI3_RXDAT GPIO_MUX_GPIO; direction MX27_PIN_SSI3_RXDAT true;
   puen MX27_PIN_SSI3_RXDAT false].

Definition gpio_jack_inactive : list call :=
  [free MX27_PIN_SSI3_RXDAT].

Definition gpio_sdhc_active (c : config) (module : Z) : list call :=
  match module with
  | 0 =>
      [request MX27_PIN_SD1_CLK GPIO_MUX_PRIMARY; request MX27_PIN_SD1_CMD GPIO_MUX_PRIMARY;
       request MX27_PIN_SD1_D0 GPIO_MUX_PRIMARY; request MX27_PIN_SD1_D1 GPIO_MUX_PRIMARY;
       request MX27_PIN_SD1_D2 GPIO_MUX_PRIMARY; request MX27_PIN_SD1_D3 GPIO_MUX_PRIMARY; sd1_pull_up] ++
      (if MDK27V1 c then [request MX27_PIN_SPL_SPR GPIO_MUX_GPIO; direction MX27_PIN_SPL_SPR true; puen MX27_PIN_SPL_SPR false]
       else []) ++
      (if TUOSI c then [request MX27_PIN_CSPI2_SS2 GPIO_MUX_GPIO; direction MX27_PIN_CSPI2_SS2 true;
         puen MX27_PIN_CSPI2_SS2 false]
       else [])
  | 1 =>
      [request MX27_PIN_SD2_CLK GPIO_MUX_PRIMARY; request MX27_PIN_SD2_CMD GPIO_MUX_PRIMARY;
       request MX27_PIN_SD2_D0 GPIO_MUX_PRIMARY; request MX27_PIN_SD2_D1 GPIO_MUX_PRIMARY;
       request MX27_PIN_SD2_D2 GPIO_MUX_PRIMARY; request MX27_PIN_SD2_D3 GPIO_MUX_PRIMARY; sd2_pull_up]
  | 2 =>
      [request MX27_PIN_SD3_CLK GPIO_MUX_PRIMARY; request MX27_PIN_SD3_CMD GPIO_MUX_PRIMARY;
       request MX27_PIN_ATA_DATA0 GPIO_MUX_ALT; request MX27_PIN_ATA_DATA1 GPIO_MUX_ALT;
       request MX27_PIN_ATA_DATA2 GPIO_MUX_ALT; request MX27_PIN_ATA_DATA3 GPIO_MUX_ALT]
  | _ => []
  end.

Definition gpio_sdhc_inactive (module : Z) : list call :=
  match module with
  | 0 =>
      [free MX27_PIN_SD1_CLK; free MX27_PIN_SD1_CMD; free MX27_PIN_SD1_D0; free MX27_PIN_SD1_D1;
       free MX27_PIN_SD1_D2; free MX27_PIN_SD1_D3]
  | 1 =>
      [free MX27_PIN_SD2_CLK; free MX27_PIN_SD2_CMD; free MX27_PIN_SD2_D0; free MX27_PIN_SD2_D1;
       free MX27_PIN_SD2_D2; free MX27_PIN_SD2_D3]
  | 2 =>
      [free MX27_PIN_SD3_CLK; free MX27_PIN_SD3_CMD; free MX27_PIN_ATA_DATA0; free MX27_PIN_ATA_DATA1;
       free MX27_PIN_ATA_DATA2; free MX27_PIN_ATA_DATA3]
  | _ => []
  end.

Definition gpio_owire_active : list call :=
  [request MX27_PIN_RTCK GPIO_MUX_ALT].

Definition gpio_owire_inactive : list call :=
  [request MX27_PIN_RTCK GPIO_MUX_PRIMARY].

Definition gpio_apmwifi_power_on : list call :=
  [request MX27_PIN_CLS GPIO_MUX_GPIO; direction MX27_PIN_CLS false; dataout MX27_PIN_CLS 1;
   request MX27_PIN_USBH1_TXDM GPIO_MUX_GPIO; direction MX27_PIN_USBH1_TXDM false;
   dataout MX27_PIN_USBH1_TXDM 0; dataout MX27_PIN_USBH1_TXDM 1].

Definition gpio_apmwifi_power_off : list call :=
  [dataout MX27_PIN_CLS 0].

Definition gpio_usbotg_fs_active (c : config) : list call := gpio_usbotg_hs_active c.
Definition gpio_usbotg_fs_inactive : list call := gpio_usbotg_hs_inactive.

(** The camera switches. *)
Definition mxc_ccd_enable (i : Z) : list call := [dataout MX27_PIN_SSI3_FS (Z.lxor (Z.land i 1) 1)].
Definition mxc_cmos_enable (i : Z) : list call := [dataout MX27_PIN_USBH1_RXDM (1 - Z.land i 1)].
Definition mxc_camera_select (i : Z) : list call :=
  if i =? 0 then [dataout MX27_PIN_SSI3_FS 1; dataout MX27_PIN_USBH1_RXDM 0]
  else [dataout MX27_PIN_USBH1_RXDM 1; dataout MX27_PIN_SSI3_FS 0].

(** ** UARTs: a pin set is claimed once *)

Definition MXC_UART_NR : Z := 6.

Record board : Type := mkBoard { pins : irqst; g_uart_activated : list bool }.

Definition on_pins {A} (m : M irqst A) : M board A :=
  fun b => match m (pins b) with Ret (a, s) => Ret (a, mkBoard s (g_uart_activated b)) | Crash f => Crash f end.

Definition set_activated (port : Z) (x : bool) (b : board) : board :=
  mkBoard (pins b) (<[Z.to_nat port := x]> (g_uart_activated b)).

Definition gpio_uart_active (port : Z) : M board unit :=
  if (port <? 0) || (MXC_UART_NR <=? port) then crash Bug
  else
    a ← gets (fun b => g_uart_activated b !! Z.to_nat port);
    a ← deref a;
    if (a : bool) then mret tt
    else modify (set_activated port true);; on_pins (run_calls (uart_request port)).

Definition gpio_uart_inactive (port : Z) : M board unit :=
  if (port <? 0) || (MXC_UART_NR <=? port) then crash Bug
  else
    a ← gets (fun b => g_uart_activated b !! Z.to_nat port);
    a ← deref a;
    if negb a then mret tt
    else modify (set_activated port false);; on_pins (run_calls (uart_free port)).

Definition gpio_irda_active : M board unit := gpio_uart_active 2.
Definition gpio_irda_inactive : M board unit := gpio_uart_inactive 2.

(** ** Card detection *)

Definition card_det_pin (c : config) (id : Z) : iomux_pins :=
  if id =? 0 then (if MPK271 c then MX27_PIN_USBH1_OE_B else MX27_PIN_USBH1_FS)
  else (if TUOSI c then MX27_PIN_SSI4_TXDAT else MX27_PIN_USBH1_FS).

Definition sdhc_get_card_det_status (c : config) (id : Z) : M irqst Z := mxc_get_gpio_ssr (pin_bits (card_det_pin c id)).

Definition sdhc_init_card_det (c : config) (id : Z) : M irqst Z :=
  let p := card_det_pin c id in
  run_calls [(if (id =? 0) && negb (MPK271 c) then request p GPIO_MUX_GPIO else config_mux p GPIO_MUX_GPIO);
             direction p true; puen p false];;
  mret (IOMUX_TO_IRQ (pin_bits p)).
