(* ===== verification/Board.v ===== *)
(** * The pins of the board: effect of the calls

    [run_calls] against a pure execution on the 192 pin states, and, for a sequence
    whose guarded requests succeed, the effect on each pin by itself. *)

From stdpp Require Import base gmap list.
From Stdlib Require Import ZArith Lia.
From S2P Require Import Prelude CrmRegs IrqGpio GpioPins BoardCalls.

(** ** Pin states *)

Definition line (p : iomux_pins) : Z := IOMUX_TO_GPIO (pin_bits p).

Lemma line_range p : 0 <= line p < MXC_MAX_GPIO_LINES.
Proof. split; destruct p; by vm_compute. Qed.

Definition pinmap : Type := Z -> pin_state.

Definition upd (g : Z) (v : pin_state) (m : pinmap) : pinmap := fun g' => if decide (g' = g) then v else m g'.

(** The operation a call performs on a pin. *)
Definition op_of (c : call) : option (Z * gpio_op) :=
  match c with
  | Call op p | OrReturn op p => Some (line p, op)
  | SetType p t => Some (line p, SetIrqType t)
  | Poke _ _ | Elsewhere => None
  end.

Definition do_call (c : call) (m : pinmap) : pinmap :=
  match op_of c with Some (g, op) => upd g (snd (spec_op op (m g))) m | None => m end.

Definition stops (c : call) (m : pinmap) : bool :=
  match c with OrReturn op p => negb (fst (spec_op op (m (line p))) =? 0) | _ => false end.

Fixpoint spec_calls (l : list call) (m : pinmap) : pinmap :=
  match l with [] => m | c :: l' => if stops c m then do_call c m else spec_calls l' (do_call c m) end.

(** ** The code does what the specification says *)

(** The pins of a machine are [m]. *)
Definition shows (s : irqst) (m : pinmap) : Prop := gpio_wf s /\ forall g, 0 <= g < MXC_MAX_GPIO_LINES -> view s g = m g.

Lemma acts_shows g mm f s m :
  acts g mm f -> 0 <= g < MXC_MAX_GPIO_LINES -> shows s m ->
  exists s', mm s = Ret (fst (f (m g)), s') /\ shows s' (upd g (snd (f (m g))) m).
Proof.
  intros Ha Hg [Hw Hv]. destruct (Ha s Hw) as (s' & E & Hw' & V & F & _). rewrite (Hv g Hg) in *. exists s'.
  split; [done|]. split; [done|]. intros g' Hg'. unfold upd. case_decide as D; [by subst|]. rewrite F by (done || lia). auto.
Qed.

Lemma run_op_shows op p s m :
  shows s m -> exists s', run_op op (pin_bits p) s = Ret (fst (spec_op op (m (line p))), s') /\
    shows s' (upd (line p) (snd (spec_op op (m (line p)))) m).
Proof. intros H. apply acts_shows; [by apply run_op_acts; [|apply line_range]|apply line_range|done]. Qed.

Lemma set_type_shows p t s m :
  shows s m -> exists r s', set_irq_type (IOMUX_TO_IRQ (pin_bits p)) t s = Ret (r, s') /\
    shows s' (upd (line p) (snd (spec_op (SetIrqType t) (m (line p)))) m).
Proof.
  intros H. pose proof (line_range p) as Hr. change MXC_MAX_GPIO_LINES with 192 in Hr.
  destruct (run_op_shows (SetIrqType t) p s m H) as (s' & E & Hs'). exists (fst (spec_op (SetIrqType t) (m (line p)))), s'.
  split; [|done]. rewrite <- E. destruct H as [[_ Hd] _]. destruct (Hd (line p) Hr) as (d & Hl & Hc & _).
  unfold set_irq_type, desc_at. change (IOMUX_TO_IRQ (pin_bits p)) with (MXC_GPIO_BASE + line p).
  destruct (Z.leb_spec NR_IRQS (MXC_GPIO_BASE + line p)) as [L|_]; [change NR_IRQS with 288 in L; change MXC_GPIO_BASE with 64 in L; lia|].
  cbn [mbind M_bind get]. unfold mbind, M_bind. cbn. unfold deref. rewrite Hl. cbn. by rewrite Hc.
Qed.

(** A register of the system control block is no GPIO register. *)
Definition in_sysctrl (a : Z) : Prop := IO_ADDRESS SYSCTRL_BASE_ADDR <= a < IO_ADDRESS SYSCTRL_BASE_ADDR + 0x100.

Definition tame (c : call) : bool :=
  match c with
  | Poke a _ => (IO_ADDRESS SYSCTRL_BASE_ADDR <=? a) && (a <? IO_ADDRESS SYSCTRL_BASE_ADDR + 0x100)
  | _ => true
  end.

Lemma sysctrl_far a p o : in_sysctrl a -> 0 <= p < 6 -> 0 <= o < 0x100 -> a <> pbase p + o.
Proof.
  unfold in_sysctrl, pbase. change (IO_ADDRESS SYSCTRL_BASE_ADDR) with 3556931584.
  change (IO_ADDRESS GPIO_BASE_ADDR) with 3556855808. lia.
Qed.

Lemma sysctrl_write v a r : in_sysctrl a -> io_write v a r = writel v a r.
Proof.
  intros Ha. unfold io_write. rewrite decide_False; [|intros (p & Hp & E)%isr_regs_elem; by apply (sysctrl_far a p GPIO_ISR) in E].
  assert (E : (a =? AVIC_INTENNUM) = false /\ (a =? AVIC_INTDISNUM) = false).
  { unfold in_sysctrl in Ha. change (IO_ADDRESS SYSCTRL_BASE_ADDR) with 3556931584 in Ha.
    split; apply Z.eqb_neq; intros ->; vm_compute in Ha; destruct Ha as [H1 H2]; done. }
  by destruct E as [-> ->].
Qed.

Lemma poke_reg v a s p o : in_sysctrl a -> 0 <= p < 6 -> 0 <= o < 0x100 ->
  readl (iregs (with_iregs (io_write v a) s)) (pbase p + o) = readl (iregs s) (pbase p + o).
Proof. intros Ha Hp Ho. cbn. rewrite sysctrl_write by done. apply readl_writel_ne. by apply sysctrl_far. Qed.

Lemma poke_shows v a s m : in_sysctrl a -> shows s m -> shows (with_iregs (io_write v a) s) m.
Proof.
  intros Ha [Hw Hv]. split; [exact Hw|]. intros g Hg. rewrite <- Hv by done. change MXC_MAX_GPIO_LINES with 192 in Hg.
  pose proof (port_range g Hg) as Hp. unfold view, get1, get2, off2.
  by rewrite !poke_reg by (done || (repeat case_match; done)).
Qed.

(** The calls of a function, on a machine that shows [m]. *)
Lemma run_calls_shows l s m :
  forallb tame l = true -> shows s m -> exists s', run_calls l s = Ret (tt, s') /\ shows s' (spec_calls l m).
Proof.
  revert s m. induction l as [|c l IH]; intros s m Hl Hs; [by exists s|]. cbn in Hl. apply andb_true_iff in Hl as [Hc Hl].
  specialize (fun s m => IH s m Hl). destruct c as [op p|op p|p t|a f|]; cbn [run_calls spec_calls stops do_call op_of].
  - destruct (run_op_shows op p s m Hs) as (s1 & E & H1). destruct (IH s1 _ H1) as (s2 & E2 & H2). exists s2.
    by rewrite (run_bind _ _ _ _ _ E).
  - destruct (run_op_shows op p s m Hs) as (s1 & E & H1). rewrite (run_bind _ _ _ _ _ E).
    destruct (fst (spec_op op (m (line p))) =? 0); cbn [negb]; [by apply IH|by exists s1].
  - destruct (set_type_shows p t s m Hs) as (r & s1 & E & H1). destruct (IH s1 _ H1) as (s2 & E2 & H2). exists s2.
    by rewrite (run_bind _ _ _ _ _ E).
  - apply (IH (with_iregs (io_write (f (readl (iregs s) a)) a) s) m). apply poke_shows; [|done].
    cbn in Hc. apply andb_true_iff in Hc as [H1%Z.leb_le H2%Z.ltb_lt]. by split.
  - by apply IH.
Qed.

(** ** One pin at a time *)

(** The operations a sequence performs on line [g]. *)
Definition ops_on (g : Z) (l : list call) : list gpio_op :=
  omap (fun c => match op_of c with Some (g', op) => if decide (g' = g) then Some op else None | None => None end) l.

Definition pin_run (ops : list gpio_op) (v : pin_state) : pin_state := foldl (fun v op => snd (spec_op op v)) v ops.

(** No guarded request stops the function. *)
Fixpoint passes (l : list call) (m : pinmap) : Prop :=
  match l with [] => True | c :: l' => stops c m = false /\ passes l' (do_call c m) end.

Lemma do_call_at c m g : do_call c m g = pin_run (ops_on g [c]) (m g).
Proof.
  unfold do_call, ops_on. cbn. destruct (op_of c) as [[g' op]|]; [|done]. unfold upd. repeat case_decide; subst; done.
Qed.

Lemma ops_on_cons g c l : ops_on g (c :: l) = ops_on g [c] ++ ops_on g l.
Proof. unfold ops_on. cbn. by repeat case_match. Qed.

Lemma pin_run_app a b v : pin_run (a ++ b) v = pin_run b (pin_run a v).
Proof. apply foldl_app. Qed.

Lemma passes_at l : forall m g, passes l m -> spec_calls l m g = pin_run (ops_on g l) (m g).
Proof.
  induction l as [|c l IH]; intros m g H; [done|]. cbn in H. destruct H as [H1 H2]. cbn [spec_calls]. rewrite H1.
  rewrite IH by done. by rewrite do_call_at, <- pin_run_app, <- ops_on_cons.
Qed.

(** ** Reservation and function of a pin *)

Definition valid_mode (m : Z) : bool := (0 <=? m) && (m <=? 7).

(** The last operation that reserves or gives back. *)
Definition flag_step (b : bool) (op : gpio_op) : bool :=
  match op with Request | RequestMux _ => true | Free | FreeMux => false | _ => b end.

Definition plain (op : gpio_op) : bool :=
  match op with RequestMux m | ConfigMux m => valid_mode m | _ => true end.

Lemma mux_ok m v : valid_mode m = true -> fst (mux_spec m v) = 0 /\ v_reserved (snd (mux_spec m v)) = v_reserved v.
Proof.
  intros [H1%Z.leb_le H2%Z.leb_le]%andb_true_iff. unfold mux_spec.
  assert (Hm : m = 0 \/ m = 1 \/ m = 2 \/ m = 3 \/ m = 4 \/ m = 5 \/ m = 6 \/ m = 7) by lia.
  by repeat destruct Hm as [->|Hm]; [..|subst].
Qed.

Lemma reserved_step op v : plain op = true -> v_reserved (snd (spec_op op v)) = flag_step (v_reserved v) op.
Proof.
  intros Hp. destruct op; cbn [spec_op flag_step snd fst]; try done.
  - unfold request_spec. by destruct (v_reserved v) eqn:E.
  - unfold free_spec. by destruct (v_reserved v) eqn:E.
  - unfold type_spec. by repeat case_match.
  - unfold ack_spec. by case_match.
  - by apply mux_ok.
  - unfold request_mux_spec, request_spec. destruct (v_reserved v) eqn:E; [done|]. cbn [Z.eqb].
    destruct (mux_ok mode (with_reserved true v) Hp) as [M1 M2]. destruct (mux_spec mode (with_reserved true v)) as [r v2]. cbn in *. by rewrite M1.
  - unfold free_spec. by destruct (v_reserved v) eqn:E.
Qed.

Lemma reserved_run ops v :
  forallb plain ops = true -> v_reserved (pin_run ops v) = foldl flag_step (v_reserved v) ops.
Proof.
  revert v. induction ops as [|op ops IH]; intros v H; [done|]. cbn in H. apply andb_true_iff in H as [H1 H2].
  change (pin_run (op :: ops) v) with (pin_run ops (snd (spec_op op v))). rewrite IH by done. cbn. by rewrite reserved_step.
Qed.

(** A pin has the function [m]. *)
Definition in_mode (m : Z) (v : pin_state) : bool :=
  if m =? GPIO_MUX_PRIMARY then negb (v_gius v) && negb (v_gpr v)
  else if m =? GPIO_MUX_ALT then negb (v_gius v) && v_gpr v
  else if m =? GPIO_MUX_GPIO then v_gius v && (v_ocr v =? GPIO_OUTPUT_DR)
  else if m =? GPIO_MUX_INPUT1 then v_gius v && (v_iconfa v =? GPIO_INPUT_GPIO)
  else if m =? GPIO_MUX_INPUT2 then v_gius v && (v_iconfb v =? GPIO_INPUT_GPIO)
  else if m =? GPIO_MUX_OUTPUT1 then v_gius v && (v_ocr v =? GPIO_OUTPUT_A)
  else if m =? GPIO_MUX_OUTPUT2 then v_gius v && (v_ocr v =? GPIO_OUTPUT_B)
  else if m =? GPIO_MUX_OUTPUT3 then v_gius v && (v_ocr v =? GPIO_OUTPUT_C)
  else false.

(** Reservation and function, followed through the operations. *)
Definition track (t : bool * option Z) (op : gpio_op) : bool * option Z :=
  (flag_step (fst t) op,
   match op with
   | RequestMux m => if fst t then snd t else Some m
   | ConfigMux m => Some m
   | _ => snd t
   end).

Definition tracked (t : bool * option Z) (v : pin_state) : Prop :=
  v_reserved v = fst t /\ forall m, snd t = Some m -> in_mode m v = true.

Lemma mux_mode m v : valid_mode m = true -> in_mode m (snd (mux_spec m v)) = true.
Proof.
  intros [H1%Z.leb_le H2%Z.leb_le]%andb_true_iff. unfold mux_spec.
  assert (Hm : m = 0 \/ m = 1 \/ m = 2 \/ m = 3 \/ m = 4 \/ m = 5 \/ m = 6 \/ m = 7) by lia.
  by repeat destruct Hm as [->|Hm]; [..|subst].
Qed.

Lemma same_mode v v' :
  v_gius v' = v_gius v -> v_gpr v' = v_gpr v -> v_ocr v' = v_ocr v -> v_iconfa v' = v_iconfa v -> v_iconfb v' = v_iconfb v ->
  forall m, in_mode m v' = in_mode m v.
Proof. intros E1 E2 E3 E4 E5 m. unfold in_mode. by rewrite E1, E2, E3, E4, E5. Qed.

Lemma track_step t op v : plain op = true -> tracked t v -> tracked (track t op) (snd (spec_op op v)).
Proof.
  intros Hp [H1 H2]. split; [rewrite reserved_step by done; cbn; by rewrite H1|]. intros m Hm.
  assert (K : snd (track t op) = snd t -> (forall m, in_mode m (snd (spec_op op v)) = in_mode m v) -> in_mode m (snd (spec_op op v)) = true).
  { intros E E'. rewrite E in Hm. rewrite E'. auto. }
  destruct op; try (apply K; [done|apply same_mode; done]).
  - apply K; [done|]. apply same_mode; unfold spec_op, request_spec; by case_match.
  - apply K; [done|]. apply same_mode; unfold spec_op, free_spec; by case_match.
  - apply K; [done|]. apply same_mode; unfold spec_op, type_spec; by repeat case_match.
  - apply K; [done|]. apply same_mode; unfold spec_op, ack_spec; by case_match.
  - injection Hm as <-. by apply mux_mode.
  - cbn [track snd] in Hm. cbn [spec_op]. unfold request_mux_spec, request_spec. rewrite H1. destruct (fst t) eqn:E; [auto|].
    injection Hm as <-. cbn [Z.eqb]. destruct (mux_ok mode (with_reserved true v) Hp) as [M1 M2].
    pose proof (mux_mode mode (with_reserved true v) Hp) as M3. destruct (mux_spec mode (with_reserved true v)) as [r v2]. cbn in *. by rewrite M1.
  - apply K; [done|]. apply same_mode; unfold spec_op, free_spec; by case_match.
Qed.

Lemma track_run ops t v : forallb plain ops = true -> tracked t v -> tracked (foldl track t ops) (pin_run ops v).
Proof.
  revert t v. induction ops as [|op ops IH]; intros t v H Ht; [done|]. cbn in H. apply andb_true_iff in H as [H1 H2].
  change (pin_run (op :: ops) v) with (pin_run ops (snd (spec_op op v))). cbn [foldl]. apply IH; [done|]. by apply track_step.
Qed.

(** ** Guarded requests *)

Definition plain_call (c : call) : bool := match op_of c with Some (_, op) => plain op | None => true end.

Lemma plain_ops g l : forallb plain_call l = true -> forallb plain (ops_on g l) = true.
Proof.
  induction l as [|c l IH]; intros H; [done|]. cbn in H. apply andb_true_iff in H as [H1 H2]. rewrite ops_on_cons, forallb_app, IH by done.
  rewrite andb_true_r. unfold plain_call in H1. unfold ops_on. cbn. destruct (op_of c) as [[g' op]|]; [|done]. case_decide; [|done]. cbn. by rewrite H1.
Qed.

(** The requests a function depends on come before any other request of the pin. *)
Fixpoint guards_ok (pre l : list call) : bool :=
  match l with
  | [] => true
  | c :: l' =>
      match c with
      | OrReturn (RequestMux _) p => negb (foldl flag_step false (ops_on (line p) pre))
      | OrReturn _ _ => false
      | _ => true
      end && guards_ok (pre ++ [c]) l'
  end.

Definition guarded (l : list call) : list Z := omap (fun c => match c with OrReturn _ p => Some (line p) | _ => None end) l.

Lemma ops_on_app g l l' : ops_on g (l ++ l') = ops_on g l ++ ops_on g l'.
Proof. unfold ops_on. apply omap_app. Qed.

Lemma guards_pass l : forall pre m0 m,
  guards_ok pre l = true -> forallb plain_call pre = true -> forallb plain_call l = true ->
  (forall g, g ∈ guarded l -> v_reserved (m0 g) = false) -> (forall g, m g = pin_run (ops_on g pre) (m0 g)) -> passes l m.
Proof.
  induction l as [|c l IH]; intros pre m0 m Hg Hp Hl Hf Hm; [done|]. cbn in Hg, Hl. apply andb_true_iff in Hg as [Hg1 Hg2], Hl as [Hl1 Hl2].
  cbn. split.
  - destruct c as [op p|op p|p t|a f|]; try done. destruct op; try done. cbn [stops]. rewrite Hm.
    assert (E : v_reserved (pin_run (ops_on (line p) pre) (m0 (line p))) = false).
    { rewrite reserved_run by (by apply plain_ops). rewrite Hf by (cbn; left). by apply negb_true_iff. }
    cbn [spec_op]. unfold request_mux_spec, request_spec. rewrite E. cbn [Z.eqb]. cbn in Hl1.
    destruct (mux_ok mode (with_reserved true (pin_run (ops_on (line p) pre) (m0 (line p)))) Hl1) as [M1 _].
    destruct (mux_spec _ _) as [r v2]. cbn in M1. by rewrite M1.
  - apply (IH (pre ++ [c]) m0); [done| |done| |].
    + rewrite forallb_app, Hp. cbn. by rewrite Hl1.
    + intros g Hin. apply Hf. destruct c; cbn; try done. by right.
    + intros g. by rewrite do_call_at, Hm, ops_on_app, pin_run_app.
Qed.

(** A sequence whose effect is that of its operations, pin by pin. *)
Definition sound (l : list call) : bool := forallb tame l && forallb plain_call l && guards_ok [] l.

Lemma run_sound l s m :
  sound l = true -> shows s m -> (forall g, g ∈ guarded l -> v_reserved (m g) = false) ->
  exists s', run_calls l s = Ret (tt, s') /\ shows s' (fun g => pin_run (ops_on g l) (m g)).
Proof.
  intros [[H1 H2]%andb_true_iff H3]%andb_true_iff Hs Hf. destruct (run_calls_shows l s m H1 Hs) as (s' & E & [Hw Hv]).
  exists s'. split; [done|]. split; [done|]. intros g Hg. rewrite Hv by done. apply passes_at. by apply (guards_pass l [] m).
Qed.
