(* ===== verification/BoardMain.v ===== *)
(** * The pins of the board: the theorems

    Devices that use different pins can be set up together in any order; and what is
    left of a device's pins when it has been set up and given back. *)

From stdpp Require Import base gmap list.
From Stdlib Require Import ZArith Lia.
From S2P Require Import Prelude CrmRegs IrqGpio GpioPins BoardCalls Board.

(** ** Devices *)

Inductive board_dev : Type :=
| Uart (port : Z) | Usbh1 | Usbh2 | Usbotg | I2c (i2c_num : Z) | Spi (cspi_mod : Z) | Nand | Sensor | Adv7180 | Tw2835
| Si4702 | Lcdc | Pmic | Keypad | Fec | Cs8900 | Ssi (ssi_num : Z) | Jack | Sdhc (module : Z) | Owire | Apmwifi.

(** The pin operations of a device that is set up.  For a UART those of [gpio_uart_active] on a
    port in range that is not yet active ([uart_active_first]); a port that is out of range is
    a [BUG], and one that is active is left alone ([uart_active_once]). *)
Definition active (c : config) (d : board_dev) : list call :=
  match d with
  | Uart port => uart_request port
  | Usbh1 => gpio_usbh1_active
  | Usbh2 => gpio_usbh2_active
  | Usbotg => gpio_usbotg_hs_active c
  | I2c n => gpio_i2c_active n
  | Spi n => gpio_spi_active n
  | Nand => gpio_nand_active
  | Sensor => gpio_sensor_active
  | Adv7180 => gpio_adv7180_active
  | Tw2835 => gpio_tw2835_active c
  | Si4702 => gpio_si4702_active c
  | Lcdc => gpio_lcdc_active c
  | Pmic => gpio_pmic_active
  | Keypad => gpio_keypad_active
  | Fec => gpio_fec_active c
  | Cs8900 => gpio_cs8900_init
  | Ssi n => gpio_ssi_active n
  | Jack => gpio_jack_active
  | Sdhc n => gpio_sdhc_active c n
  | Owire => gpio_owire_active
  | Apmwifi => gpio_apmwifi_power_on
  end.

(** The power management and the network controller have no counterpart. *)
Definition inactive (c : config) (d : board_dev) : list call :=
  match d with
  | Uart port => uart_free port
  | Usbh1 => gpio_usbh1_inactive
  | Usbh2 => gpio_usbh2_inactive
  | Usbotg => gpio_usbotg_hs_inactive
  | I2c n => gpio_i2c_inactive n
  | Spi n => gpio_spi_inactive n
  | Nand => gpio_nand_inactive
  | Sensor => gpio_sensor_inactive
  | Adv7180 => gpio_adv7180_inactive
  | Tw2835 => gpio_tw2835_inactive c
  | Si4702 => gpio_si4702_inactive
  | Lcdc => gpio_lcdc_inactive
  | Keypad => gpio_keypad_inactive
  | Fec => gpio_fec_inactive
  | Ssi n => gpio_ssi_inactive n
  | Jack => gpio_jack_inactive
  | Sdhc n => gpio_sdhc_inactive n
  | Owire => gpio_owire_inactive
  | Apmwifi => gpio_apmwifi_power_off
  | Pmic | Cs8900 => []
  end.

(** The pins a sequence claims, with their function, and the pins it touches. *)
Definition claims (l : list call) : list (Z * Z) :=
  omap (fun c => match c with Call (RequestMux m) p | OrReturn (RequestMux m) p => Some (line p, m) | _ => None end) l.

Definition footprint (l : list call) : list Z := omap (fun c => fst <$> op_of c) l.

Definition claimed (l : list call) (g : Z) : bool := existsb (fun x => fst x =? g) (claims l).

(** ** What holds of every device *)

(** Every pin claimed ends up reserved, with the function that was asked for. *)
Definition claims_ok (l : list call) : bool :=
  forallb (fun x => bool_decide (foldl track (false, None) (ops_on (fst x) l) = (true, Some (snd x)))) (claims l).

(** A device number beyond those the code knows selects nothing. *)
Ltac by_number :=
  repeat match goal with
  | |- context [match ?z with Z0 => _ | Zpos _ => _ | Zneg _ => _ end] => is_var z; destruct z as [|?p|?p]
  | |- context [match ?p with xI _ => _ | xO _ => _ | xH => _ end] => is_var p; destruct p as [?p|?p|]
  end.

(** Evaluate, deciding the options the goal depends on. *)
Ltac split_on b := try match goal with |- context [b] => destruct b end.
Ltac by_config v1 syp tuosi mpk pw :=
  try unfold gpio_usbotg_hs_active, gpio_tw2835_active, gpio_tw2835_inactive, gpio_si4702_active, gpio_lcdc_active, gpio_fec_active;
  cbn [MDK27V1 SYP TUOSI MPK271 MC13783_POWER];
  split_on v1; split_on syp; split_on tuosi; split_on mpk; split_on pw; vm_compute; reflexivity.

Lemma active_ok c d : sound (active c d) && claims_ok (active c d) = true.
Proof.
  destruct c as [v1 syp tuosi mpk pw]. destruct d as [z| | | |z|z| | | | | | | | | | |z| |z| |]; cbn [active].
  all: try unfold uart_request, gpio_i2c_active, gpio_spi_active, gpio_ssi_active, gpio_sdhc_active; by_number.
  all: by_config v1 syp tuosi mpk pw.
Qed.

Lemma inactive_ok c d : sound (inactive c d) = true /\ guarded (inactive c d) = [].
Proof.
  destruct c as [v1 syp tuosi mpk pw]. destruct d as [z| | | |z|z| | | | | | | | | | |z| |z| |]; cbn [inactive].
  all: try unfold uart_free, gpio_i2c_inactive, gpio_spi_inactive, gpio_ssi_inactive, gpio_sdhc_inactive; by_number.
  all: split; by_config v1 syp tuosi mpk pw.
Qed.

Lemma guarded_claims l : forall pre g, guards_ok pre l = true -> g ∈ guarded l -> exists m, (g, m) ∈ claims l.
Proof.
  induction l as [|c l IH]; intros pre g H Hg; [by apply elem_of_nil in Hg|]. cbn in H. apply andb_true_iff in H as [H1 H2].
  assert (K : g ∈ guarded l -> exists m, (g, m) ∈ claims (c :: l)).
  { intros Hin. destruct (IH _ _ H2 Hin) as [m Hm]. exists m. apply list_elem_of_omap in Hm as (c' & Hc' & E).
    apply list_elem_of_omap. exists c'. split; [by right|done]. }
  destruct c as [op p|op p|p t|a f|]; try (by apply K). destruct op; try done. cbn in Hg. apply elem_of_cons in Hg as [->|Hg]; [|by apply K].
  eexists. cbn. left.
Qed.

Lemma ops_none g l : g ∉ footprint l -> ops_on g l = [].
Proof.
  induction l as [|c l IH]; intros H; [done|]. rewrite ops_on_cons. unfold footprint in *. cbn in H.
  destruct (op_of c) as [[g' op]|] eqn:E; cbn in H.
  - apply not_elem_of_cons in H as [H1 H2]. rewrite IH by done. unfold ops_on. cbn. rewrite E. by rewrite decide_False.
  - rewrite IH by done. unfold ops_on. cbn. by rewrite E.
Qed.

(** One device. *)
Lemma activate_one c d s m :
  shows s m -> (forall g md, (g, md) ∈ claims (active c d) -> v_reserved (m g) = false) ->
  exists s', run_calls (active c d) s = Ret (tt, s') /\ shows s' (fun g => pin_run (ops_on g (active c d)) (m g)) /\
    (forall g md, (g, md) ∈ claims (active c d) -> tracked (true, Some md) (pin_run (ops_on g (active c d)) (m g))).
Proof.
  intros Hs Hf. pose proof (active_ok c d) as [Ha Hc]%andb_true_iff.
  pose proof Ha as [[_ Hp]%andb_true_iff Hg]%andb_true_iff.
  destruct (run_sound _ _ _ Ha Hs) as (s' & E & Hs').
  { intros g Hin. destruct (guarded_claims _ _ _ Hg Hin) as [md Hmd]. by eapply Hf. }
  exists s'. split_and!; [done|done|]. intros g md Hin.
  apply list_elem_of_In in Hin as Hin'. eapply forallb_forall in Hc as Ht; [|exact Hin'].
  apply bool_decide_eq_true in Ht. cbn in Ht. rewrite <- Ht. apply track_run; [by apply plain_ops|]. split; [by eapply Hf|done].
Qed.

Fixpoint activate (c : config) (devs : list board_dev) : M irqst unit :=
  match devs with [] => mret tt | d :: devs' => run_calls (active c d);; activate c devs' end.

(** Devices no two of which touch the same pin. *)
Fixpoint compatible (c : config) (devs : list board_dev) : bool :=
  match devs with
  | [] => true
  | d :: devs' =>
      forallb (fun d' => forallb (fun g => negb (existsb (Z.eqb g) (footprint (active c d')))) (footprint (active c d))) devs' &&
      compatible c devs'
  end.

Lemma compatible_apart c d devs d' g :
  compatible c (d :: devs) = true -> d' ∈ devs -> g ∈ footprint (active c d) -> g ∉ footprint (active c d').
Proof.
  intros [H _]%andb_true_iff Hd Hg Hg'. rewrite forallb_forall in H. apply list_elem_of_In in Hd, Hg.
  specialize (H d' Hd). rewrite forallb_forall in H. specialize (H g Hg). apply negb_true_iff in H.
  assert (E : existsb (Z.eqb g) (footprint (active c d')) = true); [|congruence].
  apply existsb_exists. exists g. split; [by apply list_elem_of_In|apply Z.eqb_refl].
Qed.

Lemma claims_footprint g md l : (g, md) ∈ claims l -> g ∈ footprint l.
Proof.
  unfold claims, footprint. rewrite !list_elem_of_omap. intros (c & Hc & E). exists c. split; [done|].
  by destruct c as [[]|[]| | |]; simplify_eq.
Qed.

Lemma claims_range g md l : (g, md) ∈ claims l -> 0 <= g < MXC_MAX_GPIO_LINES.
Proof.
  unfold claims. rewrite list_elem_of_omap. intros (c & _ & E). destruct c as [[]|[]| | |]; simplify_eq; apply line_range.
Qed.

(** C40: devices of the board that use different pins do not disturb each other.  On any
    board configuration, whatever devices are set up, in whatever order: if no two of
    them touch the same pin and the pins they claim are free, every function returns,
    each claimed pin is reserved afterwards and has the function that was asked for,
    and no pin that none of the devices mentions has changed at all. *)
Theorem board_activation (c : config) (devs : list board_dev) (s : irqst)
    (Hw : gpio_wf s) (Hc : compatible c devs = true)
    (Hf : forall d g md, d ∈ devs -> (g, md) ∈ claims (active c d) -> v_reserved (view s g) = false) :
  exists s', activate c devs s = Ret (tt, s') /\ gpio_wf s' /\
    (forall d g md, d ∈ devs -> (g, md) ∈ claims (active c d) ->
       v_reserved (view s' g) = true /\ in_mode md (view s' g) = true) /\
    (forall g, 0 <= g < MXC_MAX_GPIO_LINES -> (forall d, d ∈ devs -> g ∉ footprint (active c d)) -> view s' g = view s g).
Proof.
  revert s Hw Hf. induction devs as [|d devs IH]; intros s Hw Hf.
  { exists s. split_and!; [done|done| |done]. by intros d g md Hd%elem_of_nil. }
  destruct (activate_one c d s (view s)) as (s1 & E1 & [Hw1 Hv1] & Ht1); [by split|intros g md; apply Hf; left|].
  pose proof Hc as [_ Hc']%andb_true_iff.
  destruct (IH Hc' s1 Hw1) as (s' & E & Hw' & Hcl & Hfr).
  { intros d' g md Hd Hin. pose proof (claims_range _ _ _ Hin) as Hr. rewrite Hv1 by done. rewrite ops_none.
    - by apply (Hf d' g md); [right|].
    - intros Hg. by apply (compatible_apart c d devs d' g) in Hg; [apply Hg, (claims_footprint _ md)|..]. }
  exists s'. split_and!; [by cbn; rewrite (run_bind _ _ _ _ _ E1)|done| |].
  - intros d' g md [->|Hd]%elem_of_cons Hin; [|by apply (Hcl d')]. pose proof (claims_range _ _ _ Hin) as Hr.
    rewrite Hfr, Hv1 by (done || intros d' Hd; by apply (compatible_apart c d devs); [..|apply (claims_footprint _ md)]).
    destruct (Ht1 g md Hin) as [T1 T2]. split; [done|by apply T2].
  - intros g Hg Hno. rewrite Hfr by (done || intros d' Hd; apply Hno; by right). rewrite Hv1 by done.
    by rewrite ops_none by (apply Hno; left).
Qed.

(** ** Giving back *)

(** The last call that reserves a pin or gives it back. *)
Definition last_flag (ops : list gpio_op) : option bool :=
  foldl (fun acc op => match op with Request | RequestMux _ => Some true | Free | FreeMux => Some false | _ => acc end) None ops.

Lemma flag_last ops b : foldl flag_step b ops = default b (last_flag ops).
Proof.
  unfold last_flag. change b with (default b None) at 1. generalize (@None bool) as o. induction ops as [|op ops IH]; intros o; [done|].
  cbn [foldl]. rewrite <- IH. by destruct op.
Qed.

(** The pins still reserved when a device has been set up and given back. *)
Definition leaks (c : config) (d : board_dev) : list iomux_pins :=
  match d with
  | Usbh2 => [MX27_PIN_CSPI2_SS2; MX27_PIN_CSPI2_SS1]
  | Adv7180 => [MX27_PIN_USBH1_RXDM; MX27_PIN_CSPI1_RDY]
  | Tw2835 => if MPK271 c then [MX27_PIN_USBH1_RXDM; MX27_PIN_CSPI1_RDY] else []
  | Si4702 => MX27_PIN_USBH2_DIR :: (if SYP c || TUOSI c || MPK271 c then [] else [MX27_PIN_SSI2_TXDAT])
  | Lcdc => if TUOSI c then [MX27_PIN_USBH2_DIR] else if MPK271 c || SYP c then [] else [MX27_PIN_USBH2_NXT]
  | Cs8900 => [MX27_PIN_I2C2_SDA; MX27_PIN_SSI3_FS]
  | Sdhc 0 => (if MDK27V1 c then [MX27_PIN_SPL_SPR] else []) ++ (if TUOSI c then [MX27_PIN_CSPI2_SS2] else [])
  | Owire => [MX27_PIN_RTCK]
  | Apmwifi => [MX27_PIN_CLS; MX27_PIN_USBH1_TXDM]
  | _ => []
  end.

(** The pins given back that the device never claimed. *)
Definition steals (c : config) (d : board_dev) : list iomux_pins :=
  match d with
  | Usbh1 => [MX27_PIN_USBH1_TXDP]
  | Spi 0 => [MX27_PIN_CSPI1_SS2]
  | Lcdc => if SYP c || TUOSI c || MPK271 c || MDK27V1 c then [] else [MX27_PIN_REV]
  | Fec => if MDK27V1 c then [MX27_PIN_IOIS16; MX27_PIN_PWMO] else []
  | _ => []
  end.

Definition on_line (g : Z) (l : list iomux_pins) : bool := existsb (fun p => line p =? g) l.

(** What the calls do to the reservation of a line. *)
Definition left_flag (c : config) (d : board_dev) (g : Z) : option bool :=
  if on_line g (leaks c d) then Some true
  else if on_line g (steals c d) || claimed (active c d) g then Some false
  else None.

Definition release_ok (c : config) (d : board_dev) : bool :=
  let l := active c d ++ inactive c d in
  forallb (fun g => bool_decide (last_flag (ops_on g l) = left_flag c d g))
    (footprint l ++ map line (leaks c d ++ steals c d) ++ map fst (claims (active c d))).

Lemma release_checked c d : release_ok c d = true.
Proof.
  destruct c as [v1 syp tuosi mpk pw]. unfold release_ok, left_flag.
  destruct d as [z| | | |z|z| | | | | | | | | | |z| |z| |]; cbn [active inactive leaks steals].
  all: try unfold uart_request, uart_free, gpio_i2c_active, gpio_i2c_inactive, gpio_spi_active, gpio_spi_inactive, gpio_ssi_active,
    gpio_ssi_inactive, gpio_sdhc_active, gpio_sdhc_inactive; by_number.
  all: by_config v1 syp tuosi mpk pw.
Qed.

Lemma release_flag c d g : last_flag (ops_on g (active c d ++ inactive c d)) = left_flag c d g.
Proof.
  pose proof (release_checked c d) as H. unfold release_ok in H. rewrite forallb_forall in H.
  set (l := active c d ++ inactive c d) in *.
  destruct (decide (g ∈ footprint l ++ map line (leaks c d ++ steals c d) ++ map fst (claims (active c d)))) as [Hin|Hn].
  { apply list_elem_of_In, H, bool_decide_eq_true in Hin. exact Hin. }
  rewrite !not_elem_of_app, !list_elem_of_In, !in_map_iff in Hn. destruct Hn as (H1 & H2 & H3).
  rewrite <- list_elem_of_In in H1. rewrite ops_none by done. unfold left_flag, claimed, on_line.
  assert (E : forall A (f : A -> Z) k, ~ (exists x, f x = g /\ In x k) -> existsb (fun x => f x =? g) k = false).
  { intros A f k Hk. apply not_true_iff_false. rewrite existsb_exists. intros (x & Hx & Ex%Z.eqb_eq). eauto. }
  rewrite (E _ line (leaks c d)) by (intros (x & Hx & Hi); apply H2; exists x; rewrite in_app_iff; auto).
  rewrite (E _ line (steals c d)) by (intros (x & Hx & Hi); apply H2; exists x; rewrite in_app_iff; auto).
  by rewrite (E _ fst (claims (active c d))) by done.
Qed.

(** C13: giving a device's pins back.  When a device has been set up on free pins and then
    given back, every pin of the machine is reserved or free as it was before, but
    for the pins of two explicit lists: those of [leaks], which the second function
    does not give back, stay reserved; and those of [steals], which it gives back
    although they were never the device's, are free, whoever had reserved them. *)
Theorem board_release (c : config) (d : board_dev) (s : irqst)
    (Hw : gpio_wf s) (Hf : forall g md, (g, md) ∈ claims (active c d) -> v_reserved (view s g) = false) :
  exists s', (run_calls (active c d);; run_calls (inactive c d)) s = Ret (tt, s') /\ gpio_wf s' /\
    forall g, 0 <= g < MXC_MAX_GPIO_LINES ->
      v_reserved (view s' g) =
        if on_line g (leaks c d) then true else if on_line g (steals c d) then false else v_reserved (view s g).
Proof.
  destruct (activate_one c d s (view s)) as (s1 & E1 & H1 & _); [by split|done|].
  destruct (inactive_ok c d) as [Hi Hg]. pose proof (active_ok c d) as [[[_ Ha]%andb_true_iff _]%andb_true_iff _]%andb_true_iff.
  pose proof Hi as [[_ Hi']%andb_true_iff _]%andb_true_iff.
  destruct (run_sound _ _ _ Hi H1) as (s' & E & Hw' & Hv'); [rewrite Hg; by intros g ?%elem_of_nil|].
  exists s'. split_and!; [by rewrite (run_bind _ _ _ _ _ E1)|done|]. intros g Hr. rewrite Hv' by done.
  rewrite <- pin_run_app, <- ops_on_app, reserved_run by (apply plain_ops; by rewrite forallb_app, Ha, Hi').
  rewrite flag_last, release_flag. unfold left_flag. destruct (on_line g (leaks c d)); [done|].
  destruct (on_line g (steals c d)); [done|]. cbn [orb]. destruct (claimed (active c d) g) eqn:C; [|done].
  apply existsb_exists in C as ([g' md] & Hin & Eg%Z.eqb_eq). cbn in Eg. subst. symmetry. apply (Hf g md). by apply list_elem_of_In.
Qed.

(** The UART flags: setting up a port that is not yet active, and giving back one that is,
    perform the pin operations of the device and move its flag. *)
Lemma uart_active_first c port b :
  g_uart_activated b !! Z.to_nat port = Some false -> 0 <= port < MXC_UART_NR ->
  gpio_uart_active port b = on_pins (run_calls (active c (Uart port))) (set_activated port true b).
Proof.
  intros H [H1 H2]. unfold gpio_uart_active. rewrite (proj2 (Z.ltb_ge _ _)), (proj2 (Z.leb_gt _ _)) by done. cbn [orb].
  unfold mbind, M_bind, gets, deref. by rewrite H.
Qed.

Lemma uart_inactive_first c port b :
  g_uart_activated b !! Z.to_nat port = Some true -> 0 <= port < MXC_UART_NR ->
  gpio_uart_inactive port b = on_pins (run_calls (inactive c (Uart port))) (set_activated port false b).
Proof.
  intros H [H1 H2]. unfold gpio_uart_inactive. rewrite (proj2 (Z.ltb_ge _ _)), (proj2 (Z.leb_gt _ _)) by done. cbn [orb].
  unfold mbind, M_bind, gets, deref. by rewrite H.
Qed.

(** Setting up a port that is set up already changes nothing. *)
Lemma uart_active_once port b :
  g_uart_activated b !! Z.to_nat port = Some true -> 0 <= port < MXC_UART_NR -> gpio_uart_active port b = Ret (tt, b).
Proof.
  intros H [H1 H2]. unfold gpio_uart_active. rewrite (proj2 (Z.ltb_ge _ _)), (proj2 (Z.leb_gt _ _)) by done. cbn [orb].
  unfold mbind, M_bind, gets, deref. by rewrite H.
Qed.
