(* ===== verification/BoardWitness.v ===== *)
(** * The pins of the board: the theorems on a concrete machine

    The machine after bring-up, where no pin is reserved, in the configuration of the
    MPK272 board. *)

From stdpp Require Import base gmap list.
From Stdlib Require Import ZArith Lia.
From S2P Require Import Prelude CrmRegs IrqGpio GpioPins GpioIrq GpioInit BoardCalls Board BoardMain.

Definition mpk272 : config := mkConfig true false false true false.

Definition mpk272_devices : list board_dev :=
  [Uart 0; Uart 1; Lcdc; Fec; Nand; Sdhc 1; Ssi 0; I2c 0; Sensor; Jack].

Lemma fresh_machine :
  exists s, gpio_wf s /\ forall g, 0 <= g < MXC_MAX_GPIO_LINES -> v_reserved (view s g) = false.
Proof.
  destruct (bring_up_spec ∅) as (s & _ & [[Hw _] [Hf _]]). exists s. split; [exact Hw|]. intros g Hg. by destruct (Hf g Hg) as (_ & _ & ? & _).
Qed.

Lemma board_activation_witness :
  exists s s', gpio_wf s /\ activate mpk272 mpk272_devices s = Ret (tt, s') /\
    v_reserved (view s' (line MX27_PIN_LD0)) = true /\ in_mode GPIO_MUX_PRIMARY (view s' (line MX27_PIN_LD0)) = true.
Proof.
  destruct fresh_machine as (s & Hw & Hf).
  destruct (board_activation mpk272 mpk272_devices s Hw ltac:(vm_compute; reflexivity)
    (fun d g md _ H => Hf g (claims_range g md _ H))) as (s' & E & _ & H & _).
  exists s, s'. split; [exact Hw|]. split; [exact E|].
  apply (H Lcdc); apply list_elem_of_In; vm_compute; tauto.
Defined.

(** On the MPK272 board the camera decoder keeps two pins when it is given back. *)
Lemma board_release_witness :
  exists s s', gpio_wf s /\ (run_calls (active mpk272 Adv7180);; run_calls (inactive mpk272 Adv7180)) s = Ret (tt, s') /\
    v_reserved (view s' (line MX27_PIN_CSPI1_RDY)) = true /\ v_reserved (view s' (line MX27_PIN_CSI_D0)) = false.
Proof.
  destruct fresh_machine as (s & Hw & Hf).
  destruct (board_release mpk272 Adv7180 s Hw (fun g md H => Hf g (claims_range g md _ H))) as (s' & E & _ & H).
  exists s, s'. split; [exact Hw|]. split; [exact E|]. split.
  - rewrite H by apply line_range. vm_compute. reflexivity.
  - rewrite H by apply line_range. exact (Hf (line MX27_PIN_CSI_D0) (line_range MX27_PIN_CSI_D0)).
Defined.
