(* ===== verification/DmaTable.v ===== *)
(** * The DMA channel parameters of the board: [arch/arm/mach-mx27/dma.c]

    One parameter block per device that uses DMA, the table that associates
    device ids with them, and the lookup [mxc_dma_get_info]. *)

From stdpp Require Import base list.
From Stdlib Require Import ZArith Lia.
From S2P Require Import Prelude CrmRegs.

(** ** Constants of [asm/arch/dma.h], [asm/arch/mx2_dma.h] and [asm/arch/mx27.h] *)

Definition MXC_DMA_DYNAMIC_CHANNEL : Z := 255.

Definition DMA_MEM_SIZE_8 : Z := 1.
Definition DMA_MEM_SIZE_16 : Z := 2.
Definition DMA_MEM_SIZE_32 : Z := 0.
Definition TRANSFER_8BIT : Z := DMA_MEM_SIZE_8.
Definition TRANSFER_32BIT : Z := DMA_MEM_SIZE_32.

Definition DMA_TYPE_LINEAR : Z := 0.
Definition DMA_TYPE_2D : Z := 1.
Definition DMA_TYPE_FIFO : Z := 2.

Definition UART1_BASE_ADDR : Z := AIPI_BASE_ADDR + 0x0A000.
Definition UART2_BASE_ADDR : Z := AIPI_BASE_ADDR + 0x0B000.
Definition UART3_BASE_ADDR : Z := AIPI_BASE_ADDR + 0x0C000.
Definition UART4_BASE_ADDR : Z := AIPI_BASE_ADDR + 0x0D000.
Definition SSI1_BASE_ADDR : Z := AIPI_BASE_ADDR + 0x10000.
Definition SSI2_BASE_ADDR : Z := AIPI_BASE_ADDR + 0x11000.
Definition SDHC1_BASE_ADDR : Z := AIPI_BASE_ADDR + 0x13000.
Definition SDHC2_BASE_ADDR : Z := AIPI_BASE_ADDR + 0x14000.
Definition UART5_BASE_ADDR : Z := AIPI_BASE_ADDR + 0x1B000.
Definition UART6_BASE_ADDR : Z := AIPI_BASE_ADDR + 0x1C000.
Definition CSI_BASE_ADDR : Z := SAHB1_BASE_ADDR + 0x0000.
Definition ATA_BASE_ADDR : Z := SAHB1_BASE_ADDR + 0x1000.

Definition DMA_REQ_CSI_RX : Z := 31.
Definition DMA_REQ_SSI1_TX0 : Z := 13.
Definition DMA_REQ_SSI1_RX0 : Z := 12.
Definition DMA_REQ_SSI2_TX0 : Z := 9.
Definition DMA_REQ_SSI2_RX0 : Z := 8.
Definition DMA_REQ_SDHC1 : Z := 7.
Definition DMA_REQ_SDHC2 : Z := 6.

(** The device ids, [enum mxc_dma_device]. *)
Definition MXC_DMA_UART1_RX : Z := 0.
Definition MXC_DMA_UART1_TX : Z := 1.
Definition MXC_DMA_UART2_RX : Z := 2.
Definition MXC_DMA_UART2_TX : Z := 3.
Definition MXC_DMA_UART3_RX : Z := 4.
Definition MXC_DMA_UART3_TX : Z := 5.
Definition MXC_DMA_UART4_RX : Z := 6.
Definition MXC_DMA_UART4_TX : Z := 7.
Definition MXC_DMA_UART5_RX : Z := 8.
Definition MXC_DMA_UART5_TX : Z := 9.
Definition MXC_DMA_UART6_RX : Z := 10.
Definition MXC_DMA_UART6_TX : Z := 11.
Definition MXC_DMA_MMC1_WIDTH_1 : Z := 12.
Definition MXC_DMA_MMC1_WIDTH_4 : Z := 13.
Definition MXC_DMA_MMC2_WIDTH_1 : Z := 14.
Definition MXC_DMA_MMC2_WIDTH_4 : Z := 15.
Definition MXC_DMA_SSI1_8BIT_RX0 : Z := 16.
Definition MXC_DMA_SSI1_8BIT_TX0 : Z := 17.
Definition MXC_DMA_SSI1_16BIT_RX0 : Z := 18.
Definition MXC_DMA_SSI1_16BIT_TX0 : Z := 19.
Definition MXC_DMA_SSI1_24BIT_RX0 : Z := 20.
Definition MXC_DMA_SSI1_24BIT_TX0 : Z := 21.
Definition MXC_DMA_SSI1_8BIT_RX1 : Z := 22.
Definition MXC_DMA_SSI1_8BIT_TX1 : Z := 23.
Definition MXC_DMA_SSI1_16BIT_RX1 : Z := 24.
Definition MXC_DMA_SSI1_16BIT_TX1 : Z := 25.
Definition MXC_DMA_SSI1_24BIT_RX1 : Z := 26.
Definition MXC_DMA_SSI1_24BIT_TX1 : Z := 27.
Definition MXC_DMA_SSI2_8BIT_RX0 : Z := 28.
Definition MXC_DMA_SSI2_8BIT_TX0 : Z := 29.
Definition MXC_DMA_SSI2_16BIT_RX0 : Z := 30.
Definition MXC_DMA_SSI2_16BIT_TX0 : Z := 31.
Definition MXC_DMA_SSI2_24BIT_RX0 : Z := 32.
Definition MXC_DMA_SSI2_24BIT_TX0 : Z := 33.
Definition MXC_DMA_SSI2_8BIT_RX1 : Z := 34.
Definition MXC_DMA_SSI2_8BIT_TX1 : Z := 35.
Definition MXC_DMA_SSI2_16BIT_RX1 : Z := 36.
Definition MXC_DMA_SSI2_16BIT_TX1 : Z := 37.
Definition MXC_DMA_SSI2_24BIT_RX1 : Z := 38.
Definition MXC_DMA_SSI2_24BIT_TX1 : Z := 39.
Definition MXC_DMA_FIR_RX : Z := 40.
Definition MXC_DMA_FIR_TX : Z := 41.
Definition MXC_DMA_CSPI1_RX : Z := 42.
Definition MXC_DMA_CSPI1_TX : Z := 43.
Definition MXC_DMA_CSPI2_RX : Z := 44.
Definition MXC_DMA_CSPI2_TX : Z := 45.
Definition MXC_DMA_CSPI3_RX : Z := 46.
Definition MXC_DMA_CSPI3_TX : Z := 47.
Definition MXC_DMA_ATA_RX : Z := 48.
Definition MXC_DMA_ATA_TX : Z := 49.
Definition MXC_DMA_MEMORY : Z := 50.
Definition MXC_DMA_DSP_PACKET_DATA0_RD : Z := 51.
Definition MXC_DMA_DSP_PACKET_DATA0_WR : Z := 52.
Definition MXC_DMA_DSP_PACKET_DATA1_RD : Z := 53.
Definition MXC_DMA_DSP_PACKET_DATA1_WR : Z := 54.
Definition MXC_DMA_DSP_LOG0_CHNL : Z := 55.
Definition MXC_DMA_DSP_LOG1_CHNL : Z := 56.
Definition MXC_DMA_DSP_LOG2_CHNL : Z := 57.
Definition MXC_DMA_DSP_LOG3_CHNL : Z := 58.
Definition MXC_DMA_CSI_RX : Z := 59.
Definition MXC_DMA_TEST_RAM2D2RAM : Z := 60.
Definition MXC_DMA_TEST_RAM2RAM2D : Z := 61.
Definition MXC_DMA_TEST_RAM2D2RAM2D : Z := 62.
Definition MXC_DMA_TEST_RAM2RAM : Z := 63.
Definition MXC_DMA_TEST_HW_CHAINING : Z := 64.
Definition MXC_DMA_TEST_SW_CHAINING : Z := 65.

(** ** Channel parameters

    [mx2_dma_info_t]: the one-bit fields are booleans, except [mode], which is
    compared with the transfer modes. *)

Record mx2_dma_info_t : Type := mkInfo {
  dma_chan : Z;
  imode : Z;
  rto_en : bool;
  dir : bool;
  dma_chaining : bool;
  ren : bool;
  M2D_Valid : bool;
  msel : bool;
  burstLength : Z;
  request : Z;
  busuntils : Z;
  sourceType : Z;
  sourcePort : Z;
  destType : Z;
  destPort : Z;
  per_address : Z;
  W : Z;
  X : Z;
  Y : Z;
}.

Record dma_info_entry_t : Type := mkEntry { device_id : Z; info : mx2_dma_info_t }.

Definition ram2ram_dma_info : mx2_dma_info_t :=
  mkInfo MXC_DMA_DYNAMIC_CHANNEL 0 false false false false false false
    4 0 0
    DMA_TYPE_LINEAR TRANSFER_32BIT DMA_TYPE_LINEAR TRANSFER_32BIT
    0 0 0 0.

Definition ram2d2ram2d_dma_info : mx2_dma_info_t :=
  mkInfo MXC_DMA_DYNAMIC_CHANNEL 0 false false false false true false
    4 0 0
    DMA_TYPE_2D TRANSFER_32BIT DMA_TYPE_2D TRANSFER_32BIT
    0 0x80 0x40 0x10.

Definition ram2ram2d_dma_info : mx2_dma_info_t :=
  mkInfo MXC_DMA_DYNAMIC_CHANNEL 0 false false false false true false
    4 0 0
    DMA_TYPE_LINEAR TRANSFER_32BIT DMA_TYPE_2D TRANSFER_32BIT
    0 0x100 0x80 0x10.

Definition ram2d2ram_dma_info : mx2_dma_info_t :=
  mkInfo MXC_DMA_DYNAMIC_CHANNEL 0 false false false false true false
    4 0 0
    DMA_TYPE_2D TRANSFER_32BIT DMA_TYPE_LINEAR TRANSFER_32BIT
    0 0x100 0x100 0x10.

Definition hw_chaining_dma_info : mx2_dma_info_t :=
  mkInfo MXC_DMA_DYNAMIC_CHANNEL 0 false false true false false false
    4 0 0
    DMA_TYPE_LINEAR TRANSFER_32BIT DMA_TYPE_LINEAR TRANSFER_32BIT
    0 0 0 0.

Definition sw_chaining_dma_info : mx2_dma_info_t :=
  mkInfo MXC_DMA_DYNAMIC_CHANNEL 0 false false false false false false
    4 0 0
    DMA_TYPE_LINEAR TRANSFER_32BIT DMA_TYPE_LINEAR TRANSFER_32BIT
    0 0 0 0.

Definition ata_rx_dma_info : mx2_dma_info_t :=
  mkInfo MXC_DMA_DYNAMIC_CHANNEL 0 false false false true false false
    32 29 0
    DMA_TYPE_FIFO TRANSFER_32BIT DMA_TYPE_LINEAR TRANSFER_32BIT
    (ATA_BASE_ADDR + 0x18) 0 0 0.

Definition ata_tx_dma_info : mx2_dma_info_t :=
  mkInfo MXC_DMA_DYNAMIC_CHANNEL 1 false false false true false false
    32 28 0
    DMA_TYPE_FIFO TRANSFER_32BIT DMA_TYPE_LINEAR TRANSFER_32BIT
    (ATA_BASE_ADDR + 0x18) 0 0 0.

Definition uart1_rx_dma_info : mx2_dma_info_t :=
  mkInfo MXC_DMA_DYNAMIC_CHANNEL 0 true false false true false false
    1 26 8
    DMA_TYPE_FIFO TRANSFER_8BIT DMA_TYPE_LINEAR TRANSFER_8BIT
    UART1_BASE_ADDR 0 0 0.

Definition uart1_tx_dma_info : mx2_dma_info_t :=
  mkInfo MXC_DMA_DYNAMIC_CHANNEL 1 false false false true false false
    1 27 0
    DMA_TYPE_FIFO TRANSFER_8BIT DMA_TYPE_LINEAR TRANSFER_8BIT
    (UART1_BASE_ADDR + 0x40) 0 0 0.

Definition uart2_rx_dma_info : mx2_dma_info_t :=
  mkInfo MXC_DMA_DYNAMIC_CHANNEL 0 false false false true false false
    1 24 0
    DMA_TYPE_FIFO TRANSFER_8BIT DMA_TYPE_LINEAR TRANSFER_8BIT
    UART2_BASE_ADDR 0 0 0.

Definition uart2_tx_dma_info : mx2_dma_info_t :=
  mkInfo MXC_DMA_DYNAMIC_CHANNEL 1 false false false true false false
    1 25 0
    DMA_TYPE_FIFO TRANSFER_8BIT DMA_TYPE_LINEAR TRANSFER_8BIT
    (UART2_BASE_ADDR + 0x40) 0 0 0.

Definition uart3_rx_dma_info : mx2_dma_info_t :=
  mkInfo MXC_DMA_DYNAMIC_CHANNEL 0 false false false true false false
    1 22 0
    DMA_TYPE_FIFO TRANSFER_8BIT DMA_TYPE_LINEAR TRANSFER_8BIT
    UART3_BASE_ADDR 0 0 0.

Definition uart3_tx_dma_info : mx2_dma_info_t :=
  mkInfo MXC_DMA_DYNAMIC_CHANNEL 1 false false false true false false
    1 23 0
    DMA_TYPE_FIFO TRANSFER_8BIT DMA_TYPE_LINEAR TRANSFER_8BIT
    (UART3_BASE_ADDR + 0x40) 0 0 0.

Definition uart4_rx_dma_info : mx2_dma_info_t :=
  mkInfo MXC_DMA_DYNAMIC_CHANNEL 0 false false false true false false
    1 20 0
    DMA_TYPE_FIFO TRANSFER_8BIT DMA_TYPE_LINEAR TRANSFER_8BIT
    UART4_BASE_ADDR 0 0 0.

Definition uart4_tx_dma_info : mx2_dma_info_t :=
  mkInfo MXC_DMA_DYNAMIC_CHANNEL 1 false false false true false false
    1 21 0
    DMA_TYPE_FIFO TRANSFER_8BIT DMA_TYPE_LINEAR TRANSFER_8BIT
    (UART4_BASE_ADDR + 0x40) 0 0 0.

Definition uart5_rx_dma_info : mx2_dma_info_t :=
  mkInfo MXC_DMA_DYNAMIC_CHANNEL 0 false false false true false false
    1 32 0
    DMA_TYPE_FIFO TRANSFER_8BIT DMA_TYPE_LINEAR TRANSFER_8BIT
    UART5_BASE_ADDR 0 0 0.

Definition uart5_tx_dma_info : mx2_dma_info_t :=
  mkInfo MXC_DMA_DYNAMIC_CHANNEL 1 false false false true false false
    1 33 0
    DMA_TYPE_FIFO TRANSFER_8BIT DMA_TYPE_LINEAR TRANSFER_8BIT
    (UART5_BASE_ADDR + 0x40) 0 0 0.

Definition uart6_rx_dma_info : mx2_dma_info_t :=
  mkInfo MXC_DMA_DYNAMIC_CHANNEL 0 false false false true false false
    1 34 0
    DMA_TYPE_FIFO TRANSFER_8BIT DMA_TYPE_LINEAR TRANSFER_8BIT
    UART6_BASE_ADDR 0 0 0.

Definition uart6_tx_dma_info : mx2_dma_info_t :=
  mkInfo MXC_DMA_DYNAMIC_CHANNEL 1 false false false true false false
    1 35 0
    DMA_TYPE_FIFO TRANSFER_8BIT DMA_TYPE_LINEAR TRANSFER_8BIT
    (UART6_BASE_ADDR + 0x40) 0 0 0.

Definition ssi1_16bit_rx0_dma_info : mx2_dma_info_t :=
  mkInfo MXC_DMA_DYNAMIC_CHANNEL 0 false false true true false false
    8 DMA_REQ_SSI1_RX0 0
    DMA_TYPE_FIFO DMA_MEM_SIZE_16 DMA_TYPE_LINEAR DMA_MEM_SIZE_32
    (SSI1_BASE_ADDR + 0x08) 0 0 0.

Definition ssi1_16bit_tx0_dma_info : mx2_dma_info_t :=
  mkInfo MXC_DMA_DYNAMIC_CHANNEL 1 false false true true false false
    8 DMA_REQ_SSI1_TX0 0
    DMA_TYPE_FIFO DMA_MEM_SIZE_16 DMA_TYPE_LINEAR DMA_MEM_SIZE_32
    SSI1_BASE_ADDR 0 0 0.

Definition ssi2_16bit_rx0_dma_info : mx2_dma_info_t :=
  mkInfo MXC_DMA_DYNAMIC_CHANNEL 0 false false true true false false
    8 DMA_REQ_SSI2_RX0 0
    DMA_TYPE_FIFO DMA_MEM_SIZE_16 DMA_TYPE_LINEAR DMA_MEM_SIZE_32
    (SSI2_BASE_ADDR + 0x08) 0 0 0.

Definition ssi2_16bit_tx0_dma_info : mx2_dma_info_t :=
  mkInfo MXC_DMA_DYNAMIC_CHANNEL 1 false false true true false false
    8 DMA_REQ_SSI2_TX0 0
    DMA_TYPE_FIFO DMA_MEM_SIZE_16 DMA_TYPE_LINEAR DMA_MEM_SIZE_32
    SSI2_BASE_ADDR 0 0 0.

Definition mmc1_width1_dma_info : mx2_dma_info_t :=
  mkInfo MXC_DMA_DYNAMIC_CHANNEL 0 false false false true false false
    16 DMA_REQ_SDHC1 0
    DMA_TYPE_FIFO DMA_MEM_SIZE_32 DMA_TYPE_LINEAR DMA_MEM_SIZE_32
    (SDHC1_BASE_ADDR + 0x38) 0 0 0.

Definition mmc1_width4_dma_info : mx2_dma_info_t :=
  mkInfo MXC_DMA_DYNAMIC_CHANNEL 0 false false false true false false
    0 DMA_REQ_SDHC1 0
    DMA_TYPE_FIFO DMA_MEM_SIZE_32 DMA_TYPE_LINEAR DMA_MEM_SIZE_32
    (SDHC1_BASE_ADDR + 0x38) 0 0 0.

Definition mmc2_width1_dma_info : mx2_dma_info_t :=
  mkInfo MXC_DMA_DYNAMIC_CHANNEL 0 false false false true false false
    16 DMA_REQ_SDHC2 0
    DMA_TYPE_FIFO DMA_MEM_SIZE_32 DMA_TYPE_LINEAR DMA_MEM_SIZE_32
    (SDHC2_BASE_ADDR + 0x38) 0 0 0.

Definition mmc2_width4_dma_info : mx2_dma_info_t :=
  mkInfo MXC_DMA_DYNAMIC_CHANNEL 0 false false false true false false
    0 DMA_REQ_SDHC2 0
    DMA_TYPE_FIFO DMA_MEM_SIZE_32 DMA_TYPE_LINEAR DMA_MEM_SIZE_32
    (SDHC2_BASE_ADDR + 0x38) 0 0 0.

Definition csi_rx_dma_info : mx2_dma_info_t :=
  mkInfo MXC_DMA_DYNAMIC_CHANNEL 0 false false true true false false
    64 DMA_REQ_CSI_RX 0
    DMA_TYPE_FIFO DMA_MEM_SIZE_32 DMA_TYPE_LINEAR DMA_MEM_SIZE_32
    (CSI_BASE_ADDR + 0x10) 0 0 0.

Definition active_dma_info : list dma_info_entry_t :=
  [mkEntry MXC_DMA_TEST_RAM2RAM ram2ram_dma_info;
   mkEntry MXC_DMA_TEST_RAM2D2RAM2D ram2d2ram2d_dma_info;
   mkEntry MXC_DMA_TEST_RAM2RAM2D ram2ram2d_dma_info;
   mkEntry MXC_DMA_TEST_RAM2D2RAM ram2d2ram_dma_info;
   mkEntry MXC_DMA_TEST_HW_CHAINING hw_chaining_dma_info;
   mkEntry MXC_DMA_TEST_SW_CHAINING sw_chaining_dma_info;
   mkEntry MXC_DMA_ATA_RX ata_rx_dma_info;
   mkEntry MXC_DMA_ATA_TX ata_tx_dma_info;
   mkEntry MXC_DMA_UART1_RX uart1_rx_dma_info;
   mkEntry MXC_DMA_UART1_TX uart1_tx_dma_info;
   mkEntry MXC_DMA_UART2_RX uart2_rx_dma_info;
   mkEntry MXC_DMA_UART2_TX uart2_tx_dma_info;
   mkEntry MXC_DMA_UART3_RX uart3_rx_dma_info;
   mkEntry MXC_DMA_UART3_TX uart3_tx_dma_info;
   mkEntry MXC_DMA_UART4_RX uart4_rx_dma_info;
   mkEntry MXC_DMA_UART4_TX uart4_tx_dma_info;
   mkEntry MXC_DMA_UART5_RX uart5_rx_dma_info;
   mkEntry MXC_DMA_UART5_TX uart5_tx_dma_info;
   mkEntry MXC_DMA_UART6_RX uart6_rx_dma_info;
   mkEntry MXC_DMA_UART6_TX uart6_tx_dma_info;
   mkEntry MXC_DMA_SSI1_16BIT_RX0 ssi1_16bit_rx0_dma_info;
   mkEntry MXC_DMA_SSI1_16BIT_TX0 ssi1_16bit_tx0_dma_info;
   mkEntry MXC_DMA_SSI2_16BIT_RX0 ssi2_16bit_rx0_dma_info;
   mkEntry MXC_DMA_SSI2_16BIT_TX0 ssi2_16bit_tx0_dma_info;
   mkEntry MXC_DMA_MMC1_WIDTH_1 mmc1_width1_dma_info;
   mkEntry MXC_DMA_MMC1_WIDTH_4 mmc1_width4_dma_info;
   mkEntry MXC_DMA_MMC2_WIDTH_1 mmc2_width1_dma_info;
   mkEntry MXC_DMA_MMC2_WIDTH_4 mmc2_width4_dma_info;
   mkEntry MXC_DMA_CSI_RX csi_rx_dma_info].

(** The first entry of the table for the device. *)
Fixpoint get_info (channel_id : Z) (l : list dma_info_entry_t) : option mx2_dma_info_t :=
  match l with
  | [] => None
  | p :: l' => if device_id p =? channel_id then Some (info p) else get_info channel_id l'
  end.

Definition mxc_dma_get_info (channel_id : Z) : option mx2_dma_info_t :=
  get_info channel_id active_dma_info.

(** ** What the driver relies on in the table *)

(** The checks [setup_dma_channel] makes on a parameter block. *)
Definition info_valid (i : mx2_dma_info_t) : bool :=
  (sourceType i <=? 3) && (destType i <=? 3) && (destPort i <=? 3) && (sourcePort i <=? 3)
  && (negb (M2D_Valid i) || negb (W i <? X i)).

(** Field widths, and a channel that is either dynamic or exists. *)
Definition info_ranged (i : mx2_dma_info_t) : bool :=
  forallb (Z.leb 0) [dma_chan i; imode i; burstLength i; request i; busuntils i; sourceType i; sourcePort i;
                     destType i; destPort i; per_address i; W i; X i; Y i]
  && forallb (fun x => x <? 2 ^ 32) [burstLength i; request i; busuntils i; per_address i; W i; X i; Y i]
  && (imode i <=? 1) && ((dma_chan i <? 16) || (dma_chan i =? MXC_DMA_DYNAMIC_CHANNEL)).

Lemma get_info_in d l i : get_info d l = Some i -> exists e, In e l /\ info e = i.
Proof.
  induction l as [|e l IH]; simpl; [done|]. destruct (device_id e =? d).
  - intros [= <-]. exists e. auto.
  - intros H. destruct (IH H) as (e' & H1 & H2). exists e'. auto.
Qed.

Lemma table_forall (P : mx2_dma_info_t -> bool) d i :
  forallb (fun e => P (info e)) active_dma_info = true -> mxc_dma_get_info d = Some i -> P i = true.
Proof.
  intros H Hi. apply get_info_in in Hi as (e & He & <-).
  rewrite forallb_forall in H. by apply (H e).
Qed.

Lemma table_valid d i : mxc_dma_get_info d = Some i -> info_valid i = true.
Proof. apply table_forall. vm_compute. reflexivity. Qed.

Lemma table_ranged d i : mxc_dma_get_info d = Some i -> info_ranged i = true.
Proof. apply table_forall. vm_compute. reflexivity. Qed.

(** No device of this board claims a fixed channel. *)
Lemma table_dynamic d i : mxc_dma_get_info d = Some i -> (dma_chan i =? MXC_DMA_DYNAMIC_CHANNEL) = true.
Proof. apply (table_forall (fun i => dma_chan i =? MXC_DMA_DYNAMIC_CHANNEL)). vm_compute. reflexivity. Qed.
