(* ===== verification/Dma.v ===== *)
(** * The DMA driver: [arch/arm/plat-mxc/dma_mx2.c]

    Sixteen channels, each with a ring of 64 buffer descriptors.  A client
    requests a channel, queues buffers, enables the channel and is called back
    when the last buffer of a request has been transferred; the interrupt
    handler moves the controller from one descriptor to the next.

    The clock API the driver calls is the interface [ClkProvider]; the clock
    framework of this platform is one of its instances (file [DmaClock]).  The
    kernel's [request_irq] is a parameter: what it answers for a line when given
    handlers are installed.  A client's callback is a parameter of the interrupt
    handler. *)

From stdpp Require Import base list strings.
From Stdlib Require Import ZArith Lia.
From S2P Require Import Prelude CrmRegs DmaTable.

(** ** Constants of [asm/arch/mx2_dma.h] and [asm/arch/dma.h] *)

Definition MXC_DMA_INTR_0 : Z := 32.
Definition DMA_BASE_ADDR : Z := AIPI_BASE_ADDR + 0x01000.

Definition DMA_DCR : Z := 0x000.
Definition DMA_DISR : Z := 0x004.
Definition DMA_DIMR : Z := 0x008.
Definition DMA_DBTOSR : Z := 0x00c.
Definition DMA_DRTOSR : Z := 0x010.
Definition DMA_DSESR : Z := 0x014.
Definition DMA_DBOSR : Z := 0x018.
Definition DMA_WSRA : Z := 0x040.
Definition DMA_XSRA : Z := 0x044.
Definition DMA_YSRA : Z := 0x048.
Definition DMA_WSRB : Z := 0x04C.
Definition DMA_XSRB : Z := 0x050.
Definition DMA_YSRB : Z := 0x054.
Definition DMA_CH_BASE (x : Z) : Z := 0x080 + 0x040 * x.
Definition DMA_CCR (x : Z) : Z := DMA_CH_BASE x + 0x00C.

(** [IO_ADDRESS(DMA_BASE_ADDR) + off], and the offsets of [dma_regs_t]. *)
Definition DMA_REG (off : Z) : Z := IO_ADDRESS DMA_BASE_ADDR + off.
Definition SourceAddr : Z := 0x00.
Definition DestAddr : Z := 0x04.
Definition Count : Z := 0x08.
Definition Ctl : Z := 0x0C.
Definition RequestSource : Z := 0x10.
Definition BurstLength : Z := 0x14.
Definition BusUtilt : Z := 0x18.
Definition transferd : Z := 0x1C.

Definition MXC_DMA_CHANNELS : Z := 16.
Definition MAX_DMA_CHANNELS : Z := MXC_DMA_CHANNELS.
Definition MAX_BD_SIZE : Z := 64.

Definition DMA_DONE : Z := 0x1000.
Definition DMA_BURST_TIMEOUT : Z := 0x1.
Definition DMA_REQUEST_TIMEOUT : Z := 0x2.
Definition DMA_TRANSFER_ERROR : Z := 0x4.
Definition DMA_BUFFER_OVERFLOW : Z := 0x8.

Definition MXC_DMA_DONE : Z := 0.
Definition MXC_DMA_REQUEST_TIMEOUT : Z := 1.
Definition MXC_DMA_TRANSFER_ERROR : Z := 2.
Definition MXC_DMA_MODE_READ : Z := 0.
Definition MXC_DMA_MODE_WRITE : Z := 1.

Definition DMA_CTL_CEN : Z := 0x1.
Definition DMA_CTL_RPT : Z := 0x4.
Definition DMA_CTL_REN : Z := 0x8.
Definition DMA_CTL_MSEL : Z := 0x100.
Definition DMA_CTL_MDIR : Z := 0x200.
Definition DMA_CTL_ACRPT : Z := 0x4000.

Definition DMA_CTL_SET_SSIZ (x v : Z) : Z := set_field x 4 2 v.
Definition DMA_CTL_SET_DSIZ (x v : Z) : Z := set_field x 6 2 v.
Definition DMA_CTL_SET_SMOD (x v : Z) : Z := set_field x 10 2 v.
Definition DMA_CTL_SET_DMOD (x v : Z) : Z := set_field x 12 2 v.

Definition DMA_BD_ST_BUSY : Z := 0x20000000.
Definition DMA_BD_ST_PEND : Z := 0x10000000.
Definition DMA_BD_ST_LAST : Z := 0x08000000.

Definition EFAULT : Z := 14.

(** ** Data *)

(** [mx2_dma_bd_t] *)
Record mx2_dma_bd_t : Type := mkBd {
  state : Z;
  bd_mode : Z;
  count : Z;
  src_addr : Z;
  dst_addr : Z;
}.

(** [mx2_dma_priv_t].  [bd_ring] points to the channel's own row of
    [g_dma_bd_table], which nothing else refers to; the model keeps the row
    here.  [dma_info] points to a parameter block, which is never written. *)
Record mx2_dma_priv_t : Type := mkPriv {
  chaining : bool;
  priv_ren : bool;
  trans_bytes : Z;
  dma_info : option mx2_dma_info_t;
  bd_rd : Z;
  bd_wr : Z;
  bd_used : Z;
  bd_ring : list mx2_dma_bd_t;
  dma_base : Z;
  dma_irq : Z;
}.

(** [mxc_dma_channel_t].  [private] is an index into [g_dma_privates];
    [cb_fn] with [cb_args] identify the client's callback. *)
Record mxc_dma_channel_t : Type := mkChan {
  active : bool;
  lock : Z;
  mode : Z;
  channel : Z;
  dynamic : bool;
  dev_name : option string;
  private : option Z;
  cb_fn : option Z;
  cb_args : Z;
}.

(** [mxc_dma_requestbuf_t] and the fields of [struct scatterlist] in use. *)
Record mxc_dma_requestbuf_t : Type := mkBuf { buf_src : Z; buf_dst : Z; num_of_bytes : Z }.
Record scatterlist : Type := mkSg { dma_address : Z; length_ : Z }.

(** The clock API the driver is written against ([linux/clk.h]). *)
Class ClkProvider (C : Type) : Type := {
  handle : Type;
  null_handle : handle;
  cl_get : string -> M C handle;
  cl_enable : handle -> M C Z;
  cl_disable : handle -> M C unit;
}.

Section Driver.
Context {C : Type} {Clk : ClkProvider C}.

(** The driver's variables, the controller's registers, the state behind the
    clock API and the installed interrupt handlers (line and channel). *)
Record dmast : Type := mkDma {
  dregs : regfile;
  g_dma_channels : list mxc_dma_channel_t;
  g_dma_privates : list mx2_dma_priv_t;
  g_dma_actived : Z;
  dma_clk : handle;
  clks : C;
  actions : list (Z * Z);
}.

Definition with_dregs (f : regfile -> regfile) (s : dmast) : dmast :=
  mkDma (f (dregs s)) (g_dma_channels s) (g_dma_privates s) (g_dma_actived s) (dma_clk s) (clks s) (actions s).
Definition with_chans (l : list mxc_dma_channel_t) (s : dmast) : dmast :=
  mkDma (dregs s) l (g_dma_privates s) (g_dma_actived s) (dma_clk s) (clks s) (actions s).
Definition with_privs (l : list mx2_dma_priv_t) (s : dmast) : dmast :=
  mkDma (dregs s) (g_dma_channels s) l (g_dma_actived s) (dma_clk s) (clks s) (actions s).
Definition with_actived (n : Z) (s : dmast) : dmast :=
  mkDma (dregs s) (g_dma_channels s) (g_dma_privates s) n (dma_clk s) (clks s) (actions s).
Definition with_dma_clk (h : handle) (s : dmast) : dmast :=
  mkDma (dregs s) (g_dma_channels s) (g_dma_privates s) (g_dma_actived s) h (clks s) (actions s).
Definition with_clks (c : C) (s : dmast) : dmast :=
  mkDma (dregs s) (g_dma_channels s) (g_dma_privates s) (g_dma_actived s) (dma_clk s) c (actions s).
Definition with_actions (l : list (Z * Z)) (s : dmast) : dmast :=
  mkDma (dregs s) (g_dma_channels s) (g_dma_privates s) (g_dma_actived s) (dma_clk s) (clks s) l.

(** ** Access to the variables *)

(** [&g_dma_channels[i]], [&g_dma_privates[i]]: an index outside the array faults. *)
Definition nth_at {A} (l : list A) (i : Z) : option A :=
  if 0 <=? i then l !! Z.to_nat i else None.
Definition nth_set {A} (i : Z) (x : A) (l : list A) : list A := <[Z.to_nat i := x]> l.

Definition chan_at (i : Z) : M dmast mxc_dma_channel_t := s ← get; deref (nth_at (g_dma_channels s) i).
Definition store_chan (i : Z) (d : mxc_dma_channel_t) : M dmast unit :=
  modify (fun s => with_chans (nth_set i d (g_dma_channels s)) s).
Definition priv_at (i : Z) : M dmast mx2_dma_priv_t := s ← get; deref (nth_at (g_dma_privates s) i).
Definition store_priv (i : Z) (p : mx2_dma_priv_t) : M dmast unit :=
  modify (fun s => with_privs (nth_set i p (g_dma_privates s)) s).

Definition upd_active (b : bool) (d : mxc_dma_channel_t) : mxc_dma_channel_t :=
  mkChan b (lock d) (mode d) (channel d) (dynamic d) (dev_name d) (private d) (cb_fn d) (cb_args d).
Definition upd_lock (n : Z) (d : mxc_dma_channel_t) : mxc_dma_channel_t :=
  mkChan (active d) n (mode d) (channel d) (dynamic d) (dev_name d) (private d) (cb_fn d) (cb_args d).
Definition upd_mode (m : Z) (d : mxc_dma_channel_t) : mxc_dma_channel_t :=
  mkChan (active d) (lock d) m (channel d) (dynamic d) (dev_name d) (private d) (cb_fn d) (cb_args d).
Definition upd_dynamic (b : bool) (d : mxc_dma_channel_t) : mxc_dma_channel_t :=
  mkChan (active d) (lock d) (mode d) (channel d) b (dev_name d) (private d) (cb_fn d) (cb_args d).
Definition upd_cb (f : option Z) (a : Z) (d : mxc_dma_channel_t) : mxc_dma_channel_t :=
  mkChan (active d) (lock d) (mode d) (channel d) (dynamic d) (dev_name d) (private d) f a.
Definition upd_name (n : option string) (d : mxc_dma_channel_t) : mxc_dma_channel_t :=
  mkChan (active d) (lock d) (mode d) (channel d) (dynamic d) n (private d) (cb_fn d) (cb_args d).

Definition upd_flags (ch rn : bool) (p : mx2_dma_priv_t) : mx2_dma_priv_t :=
  mkPriv ch rn (trans_bytes p) (dma_info p) (bd_rd p) (bd_wr p) (bd_used p) (bd_ring p) (dma_base p) (dma_irq p).
Definition upd_bytes (n : Z) (p : mx2_dma_priv_t) : mx2_dma_priv_t :=
  mkPriv (chaining p) (priv_ren p) n (dma_info p) (bd_rd p) (bd_wr p) (bd_used p) (bd_ring p) (dma_base p) (dma_irq p).
Definition upd_info (i : option mx2_dma_info_t) (p : mx2_dma_priv_t) : mx2_dma_priv_t :=
  mkPriv (chaining p) (priv_ren p) (trans_bytes p) i (bd_rd p) (bd_wr p) (bd_used p) (bd_ring p) (dma_base p) (dma_irq p).
Definition upd_rd (rd used : Z) (p : mx2_dma_priv_t) : mx2_dma_priv_t :=
  mkPriv (chaining p) (priv_ren p) (trans_bytes p) (dma_info p) rd (bd_wr p) used (bd_ring p) (dma_base p) (dma_irq p).
Definition upd_wr (wr used : Z) (p : mx2_dma_priv_t) : mx2_dma_priv_t :=
  mkPriv (chaining p) (priv_ren p) (trans_bytes p) (dma_info p) (bd_rd p) wr used (bd_ring p) (dma_base p) (dma_irq p).
Definition upd_ring (l : list mx2_dma_bd_t) (p : mx2_dma_priv_t) : mx2_dma_priv_t :=
  mkPriv (chaining p) (priv_ren p) (trans_bytes p) (dma_info p) (bd_rd p) (bd_wr p) (bd_used p) l (dma_base p) (dma_irq p).
Definition upd_state (st : Z) (b : mx2_dma_bd_t) : mx2_dma_bd_t :=
  mkBd st (bd_mode b) (count b) (src_addr b) (dst_addr b).

(** [priv->bd_ring[k].state = st]. *)
Definition store_state (i k st : Z) : M dmast unit :=
  p ← priv_at i; b ← deref (nth_at (bd_ring p) k);
  store_priv i (upd_ring (nth_set k (upd_state st b) (bd_ring p)) p).

(** [dma->private], which must have been set. *)
Definition private_of (i : Z) : M dmast Z := d ← chan_at i; deref (private d).

(** ** Registers

    The status registers clear the bits that are written as one. *)
Definition status_regs : list Z :=
  map DMA_REG [DMA_DISR; DMA_DBTOSR; DMA_DRTOSR; DMA_DSESR; DMA_DBOSR].

Definition dma_write (v a : Z) (r : regfile) : regfile :=
  if bool_decide (a ∈ status_regs) then writel (clear (readl r a) (u32 v)) a r else writel v a r.

Definition drd (a : Z) : M dmast Z := gets (fun s => readl (dregs s) a).
Definition dwr (v a : Z) : M dmast unit := modify (with_dregs (dma_write v a)).

(** ** Channel allocation *)

(** The scan for a free dynamic channel, from index [i] on. *)
Fixpoint scan_channels (i : Z) (l : list mxc_dma_channel_t) : M dmast Z :=
  match l with
  | [] => mret (-1)
  | p :: l' =>
      if dynamic p && (lock p =? 0) then store_chan i (upd_lock 1 p);; mret i
      else scan_channels (i + 1) l'
  end.

Definition get_dma_channel (idx : Z) : M dmast Z :=
  if (MAX_DMA_CHANNELS <=? idx) && negb (idx =? MXC_DMA_DYNAMIC_CHANNEL) then mret (-1)
  else if negb (idx =? MXC_DMA_DYNAMIC_CHANNEL) then
    p ← chan_at idx;
    if dynamic p then crash Bug
    else
      store_chan idx (upd_lock 1 p);;
      if negb (lock p =? 0) then mret (-1) else mret idx
  else l ← gets g_dma_channels; scan_channels 0 l.

Definition put_dma_channel (idx : Z) : M dmast unit :=
  if (idx <? MAX_DMA_CHANNELS) && (0 <=? idx) then
    p ← chan_at idx; store_chan idx (upd_lock 0 p)
  else mret tt.

(** The text of [/proc/dma]: one line per channel. *)
Definition two_digits (i : Z) : string :=
  if i <? 10 then " " +:+ pretty.pretty i else pretty.pretty i.

Fixpoint dma_lines (i : Z) (l : list mxc_dma_channel_t) : list string :=
  match l with
  | [] => []
  | d :: l' =>
      ("dma channel " +:+ two_digits i +:+ ": " +:+
       (if negb (lock d =? 0) then default "unknown" (dev_name d) else "unused")) :: dma_lines (i + 1) l'
  end.

Definition mxc_get_dma_list : M dmast (list string) := l ← gets g_dma_channels; mret (dma_lines 0 l).

(** ** Interrupts of a channel *)

Definition save_dma_interrupt : M dmast Z := drd (DMA_REG DMA_DIMR).
Definition restore_dma_interrupt (flags : Z) : M dmast unit := dwr flags (DMA_REG DMA_DIMR).

Definition mask_dma_interrupt (ch : Z) : M dmast unit :=
  reg ← save_dma_interrupt; restore_dma_interrupt (setb reg (bit ch)).

Definition unmask_dma_interrupt (ch : Z) : M dmast unit :=
  reg ← save_dma_interrupt; restore_dma_interrupt (clear reg (bit ch)).

(** [if (readl(reg) & (1 << channel)) mode |= flag]. *)
Definition event (reg ch flag mode : Z) : M dmast Z :=
  v ← drd (DMA_REG reg); mret (if Z.land v (bit ch) =? 0 then mode else setb mode flag).

Definition __get_dma_interrupt (ch : Z) : M dmast Z :=
  m1 ← event DMA_DISR ch DMA_DONE 0;
  m2 ← event DMA_DBTOSR ch DMA_BURST_TIMEOUT m1;
  m3 ← event DMA_DSESR ch DMA_TRANSFER_ERROR m2;
  m4 ← event DMA_DBOSR ch DMA_BUFFER_OVERFLOW m3;
  event DMA_DRTOSR ch DMA_REQUEST_TIMEOUT m4.

Definition __clear_dma_interrupt (ch : Z) : M dmast Z :=
  mode ← __get_dma_interrupt ch;
  dwr (bit ch) (DMA_REG DMA_DISR);;
  dwr (bit ch) (DMA_REG DMA_DBTOSR);;
  dwr (bit ch) (DMA_REG DMA_DRTOSR);;
  dwr (bit ch) (DMA_REG DMA_DSESR);;
  dwr (bit ch) (DMA_REG DMA_DBOSR);;
  mret mode.

(** ** The clock of the controller *)

Definition on_clks {A} (m : M C A) : M dmast A :=
  fun s => match m (clks s) with
           | Ret (a, c) => Ret (a, with_clks c s)
           | Crash f => Crash f
           end.

Definition __enable_dma_clk : M dmast unit :=
  h ← gets dma_clk;
  on_clks (cl_enable h);;
  reg ← drd (DMA_REG DMA_DCR);
  dwr (setb reg 1) (DMA_REG DMA_DCR).

Definition __disable_dma_clk : M dmast unit :=
  reg ← drd (DMA_REG DMA_DCR);
  dwr (clear reg 1) (DMA_REG DMA_DCR);;
  h ← gets dma_clk;
  on_clks (cl_disable h).

Definition enable_dma_clk : M dmast unit :=
  n ← gets g_dma_actived; if n =? 0 then __enable_dma_clk else mret tt.

Definition disable_dma_clk : M dmast unit :=
  n ← gets g_dma_actived; if n =? 0 then __disable_dma_clk else mret tt.

(** ** The descriptor ring *)

(** [atomic_inc], [atomic_dec] of [g_dma_actived]. *)
Definition add_actived (n : Z) : M dmast unit :=
  modify (fun s => with_actived (s32 (g_dma_actived s + n)) s).

Definition flush_dma_bd (i : Z) : M dmast unit :=
  p ← priv_at i; store_priv i (upd_rd (bd_wr p) 0 p).

(** The index of the descriptor after the one being read, or NULL. *)
Definition next_dma_bd (p : mx2_dma_priv_t) : option Z :=
  let bd_next := Z.rem (bd_rd p + 1) MAX_BD_SIZE in
  if bd_next =? bd_wr p then None else Some bd_next.

Definition ctl_mask : Z := setb (setb DMA_CTL_ACRPT DMA_CTL_RPT) DMA_CTL_CEN.

(** Writes the three address registers from descriptor [k]. *)
Definition program_bd (base : Z) (b : mx2_dma_bd_t) : M dmast unit :=
  dwr (src_addr b) (base + SourceAddr);;
  dwr (dst_addr b) (base + DestAddr);;
  dwr (count b) (base + Count).

(** [state |= BUSY; state &= ~PEND]. *)
Definition mark_busy (i k : Z) (b : mx2_dma_bd_t) : M dmast unit :=
  store_state i k (clear (setb (state b) DMA_BD_ST_BUSY) DMA_BD_ST_PEND).

(** The port and addressing modes of source and destination in [ctrl_val]. *)
Definition set_ports (v smod ssiz dmod dsiz : Z) : Z :=
  DMA_CTL_SET_DSIZ (DMA_CTL_SET_DMOD (DMA_CTL_SET_SSIZ (DMA_CTL_SET_SMOD v smod) ssiz) dmod) dsiz.

Definition turn_channel (i : Z) (p : mx2_dma_priv_t) (m ctrl_val : Z) : M dmast Z :=
  d ← chan_at i;
  if negb (m =? mode d) then
    store_chan i (upd_mode m d);;
    inf ← deref (dma_info p);
    if m =? MXC_DMA_MODE_READ then
      mret (set_ports ctrl_val (sourceType inf) (sourcePort inf) (destType inf) (destPort inf))
    else
      mret (set_ports ctrl_val (destType inf) (destPort inf) (sourceType inf) (sourcePort inf))
  else mret ctrl_val.

Definition setup_dmac (i : Z) : M dmast unit :=
  d ← chan_at i;
  j ← deref (private d);
  priv ← priv_at j;
  let base := dma_base priv in
  if negb (active d) then mret tt
  else if bd_used priv <=? 0 then
    store_chan i (upd_active false d);; add_actived (-1)
  else
    p ← deref (nth_at (bd_ring priv) (bd_rd priv));
    let q := next_dma_bd priv in
    if Z.land (state p) DMA_BD_ST_BUSY =? 0 then
      c0 ← drd (base + Ctl);
      let ctrl0 := clear c0 ctl_mask in
      dwr ctrl0 (base + Ctl);;
      ctrl1 ← turn_channel i priv (bd_mode p) ctrl0;
      program_bd base p;;
      mark_busy j (bd_rd priv) p;;
      let ctrl2 := setb ctrl1 DMA_CTL_CEN in
      dwr ctrl2 (base + Ctl);;
      match q with
      | Some k =>
          if chaining priv then
            b ← deref (nth_at (bd_ring priv) k);
            program_bd base b;;
            mark_busy j k b;;
            dwr (setb ctrl2 ctl_mask) (base + Ctl)
          else mret tt
      | None => mret tt
      end
    else if negb (chaining priv) then crash Bug
    else
      match q with
      | Some k =>
          b ← deref (nth_at (bd_ring priv) k);
          program_bd base b;;
          c0 ← drd (base + Ctl);
          dwr (setb c0 ctl_mask) (base + Ctl);;
          ev ← __get_dma_interrupt (channel d);
          if ev =? 0 then mark_busy j k b else mret tt
      | None =>
          c0 ← drd (base + Ctl);
          dwr (clear c0 (setb DMA_CTL_ACRPT DMA_CTL_RPT)) (base + Ctl)
      end.

(** ** Completion of a descriptor *)

(** The loop of the error branch: [k] is the descriptor the transfer failed in. *)
Fixpoint drop_failed (fuel : nat) (j k : Z) : M dmast unit :=
  match fuel with
  | O => crash OutOfFuel
  | S n =>
      p ← priv_at j;
      if 0 <? bd_used p then
        store_priv j (upd_rd (Z.rem (bd_rd p + 1) MAX_BD_SIZE) (s32 (bd_used p - 1)) p);;
        b ← deref (nth_at (bd_ring p) k);
        store_state j k 0;;
        if negb (Z.land (state b) DMA_BD_ST_LAST =? 0) then mret tt else drop_failed n j k
      else mret tt
  end.

(** True when the client's callback is due. *)
Definition consume_dma_bd (i error : Z) : M dmast bool :=
  d ← chan_at i;
  match private d with
  | None => mret true
  | Some j =>
      priv ← priv_at j;
      notify ←
        (if negb (error =? MXC_DMA_DONE) then
           drop_failed (S (Z.to_nat (bd_used priv))) j (bd_rd priv);; mret true
         else
           p ← deref (nth_at (bd_ring priv) (bd_rd priv));
           store_priv j (upd_rd (Z.rem (bd_rd priv + 1) MAX_BD_SIZE) (s32 (bd_used priv - 1)) priv);;
           mret (Z.land (state p) DMA_BD_ST_LAST =? DMA_BD_ST_LAST));
      priv1 ← priv_at j;
      (if bd_used priv1 <=? 0 then
         d1 ← chan_at i; store_chan i (upd_active false d1);; add_actived (-1)
       else setup_dmac i);;
      mret notify
  end.

(** What the event bits of a channel are reported as. *)
Definition error_of (st : Z) : Z :=
  if st =? DMA_DONE then MXC_DMA_DONE
  else if negb (Z.land st DMA_REQUEST_TIMEOUT =? 0) then MXC_DMA_REQUEST_TIMEOUT
  else MXC_DMA_TRANSFER_ERROR.

(** [call_cb f arg error bytes] runs a client's callback. *)
Context (call_cb : Z -> Z -> Z -> Z -> M dmast unit).

Definition dma_irq_handler (i : Z) : M dmast unit :=
  d ← chan_at i;
  match private d with
  | None => crash Bug
  | Some j =>
      st ← __clear_dma_interrupt (channel d);
      priv ← priv_at j;
      moved ← drd (dma_base priv + transferd);
      store_priv j (upd_bytes (u32 (trans_bytes priv + moved)) priv);;
      let error := error_of st in
      notify ← consume_dma_bd i error;
      if notify : bool then
        disable_dma_clk;;
        d1 ← chan_at i;
        p1 ← priv_at j;
        (match cb_fn d1 with
         | Some f => call_cb f (cb_args d1) error (trans_bytes p1)
         | None => mret tt
         end);;
        p2 ← priv_at j;
        store_priv j (upd_bytes 0 p2)
      else disable_dma_clk
  end.

(** ** Setting up a channel *)

(** [cond ? x | m : x & ~m]. *)
Definition put_bit (cond : bool) (x m : Z) : Z := if cond then setb x m else clear x m.

(** The value written to the control register of a channel whose register held [c0]. *)
Definition setup_ctl (c0 : Z) (inf : mx2_dma_info_t) (rn : bool) : Z :=
  let r0 := clear c0 (setb DMA_CTL_ACRPT DMA_CTL_RPT) in
  let r1 := put_bit (dir inf) r0 DMA_CTL_MDIR in
  let r2 := put_bit rn r1 DMA_CTL_REN in
  let r3 := put_bit (M2D_Valid inf && msel inf) r2 DMA_CTL_MSEL in
  if negb (imode inf =? 0) then set_ports r3 (destType inf) (destPort inf) (sourceType inf) (sourcePort inf)
  else set_ports r3 (sourceType inf) (sourcePort inf) (destType inf) (destPort inf).

Definition setup_2d (inf : mx2_dma_info_t) : M dmast unit :=
  if M2D_Valid inf then
    if msel inf then
      dwr (W inf) (DMA_REG DMA_WSRB);; dwr (X inf) (DMA_REG DMA_XSRB);; dwr (Y inf) (DMA_REG DMA_YSRB)
    else
      dwr (W inf) (DMA_REG DMA_WSRA);; dwr (X inf) (DMA_REG DMA_XSRA);; dwr (Y inf) (DMA_REG DMA_YSRA)
  else mret tt.

Definition setup_dma_channel (i : Z) (inf : mx2_dma_info_t) : M dmast Z :=
  d ← chan_at i;
  match private d with
  | None => mret (-1)
  | Some j =>
      if (3 <? sourceType inf) || (3 <? destType inf) || (3 <? destPort inf) || (3 <? sourcePort inf)
      then mret (-1)
      else if M2D_Valid inf && (W inf <? X inf) then mret (-1)
      else
        priv ← priv_at j;
        let rn :=
          if negb (sourceType inf =? DMA_TYPE_FIFO) && negb (destType inf =? DMA_TYPE_FIFO) then
            if ren inf then false else ren inf
          else ren inf in
        store_priv j (upd_flags (dma_chaining inf) rn priv);;
        setup_2d inf;;
        let base := dma_base priv in
        dwr (burstLength inf) (base + BurstLength);;
        dwr (request inf) (base + RequestSource);;
        (if ren inf then
           let reg := Z.land (busuntils inf) 0x1FFFF in
           dwr (if rto_en inf then setb reg 0xE000 else reg) (base + BusUtilt)
         else dwr (busuntils inf) (base + BusUtilt));;
        c0 ← drd (base + Ctl);
        dwr (setup_ctl c0 inf rn) (base + Ctl);;
        __clear_dma_interrupt (channel d);;
        unmask_dma_interrupt (channel d);;
        disable_dma_clk;;
        mret 0
  end.

(** [request_irq_ret installed irq]: what [request_irq] answers. *)
Context (request_irq_ret : list (Z * Z) -> Z -> Z).

Definition request_irq (irq i : Z) : M dmast Z :=
  l ← gets actions;
  let ret := request_irq_ret l irq in
  (if ret =? 0 then modify (with_actions ((irq, i) :: l)) else mret tt);;
  mret ret.

(** Unlinks the first handler of the line that was installed for the channel. *)
Fixpoint unlink_action (x : Z * Z) (l : list (Z * Z)) : list (Z * Z) :=
  match l with
  | [] => []
  | y :: l' => if decide (x = y) then l' else y :: unlink_action x l'
  end.

Definition free_irq (irq i : Z) : M dmast unit :=
  l ← gets actions; modify (with_actions (unlink_action (irq, i) l)).

Definition __init_dma_channel (i : Z) (inf : mx2_dma_info_t) : M dmast Z :=
  d ← chan_at i;
  j ← deref (private d);
  mask_dma_interrupt (channel d);;
  priv ← priv_at j;
  ret ← request_irq (dma_irq priv) i;
  if negb (ret =? 0) then mret ret
  else
    enable_dma_clk;;
    dwr 0 (dma_base priv + Ctl);;
    ret1 ← setup_dma_channel i inf;
    (if negb (ret1 =? 0) then free_irq (dma_irq priv) i else mret tt);;
    disable_dma_clk;;
    mret 0.

Definition init_dma_bd (j : Z) : M dmast unit :=
  p ← priv_at j;
  store_priv j (upd_ring (map (upd_state 0) (bd_ring p)) (upd_rd 0 0 (upd_wr 0 0 p))).

(** ** Queueing buffers *)

(** One descriptor is complete: advance the ring, and extend a running chain. *)
Definition push_bd (i j : Z) (busy : mx2_dma_priv_t -> option Z) (b : mx2_dma_bd_t) : M dmast unit :=
  priv ← priv_at j;
  deref (nth_at (bd_ring priv) (bd_wr priv));;
  store_priv j (upd_wr (Z.rem (bd_wr priv + 1) MAX_BD_SIZE) (s32 (bd_used priv + 1))
                  (upd_ring (nth_set (bd_wr priv) b (bd_ring priv)) priv));;
  if negb (s32 (bd_used priv + 1) =? 2) then mret tt
  else
    mask ← save_dma_interrupt;
    d ← chan_at i;
    mask_dma_interrupt (channel d);;
    priv1 ← priv_at j;
    (if chaining priv1 && active d then
       match busy priv1 with
       | Some k =>
           q ← deref (nth_at (bd_ring priv1) k);
           if negb (Z.land (state q) DMA_BD_ST_BUSY =? 0) then
             if bd_used priv1 =? 2 then setup_dmac i else mret tt
           else mret tt
       | None => mret tt
       end
     else mret tt);;
    restore_dma_interrupt mask.

Definition pend_state (last : bool) : Z :=
  if last then setb DMA_BD_ST_LAST DMA_BD_ST_PEND else DMA_BD_ST_PEND.

Fixpoint fill_loop (fuel : nat) (i j : Z) (buf : list mxc_dma_requestbuf_t) (n num md : Z) : M dmast unit :=
  match fuel with
  | O => mret tt
  | S m =>
      x ← deref (nth_at buf n);
      push_bd i j (fun p => Some (bd_rd p))
        (mkBd (pend_state (n =? num - 1)) md (u32 (num_of_bytes x)) (buf_src x) (buf_dst x));;
      fill_loop m i j buf (n + 1) num md
  end.

Definition fill_dma_bd (i : Z) (buf : list mxc_dma_requestbuf_t) (num md : Z) : M dmast Z :=
  j ← private_of i;
  priv ← priv_at j;
  if MAX_BD_SIZE <? s32 (bd_used priv + num) then mret (- EBUSY)
  else fill_loop (Z.to_nat num) i j buf 0 num md;; mret 0.

Fixpoint fill_sg_loop (fuel : nat) (i j : Z) (sg : list scatterlist) (n num real_bytes total_bytes md : Z) :
    M dmast unit :=
  match fuel with
  | O => mret tt
  | S m =>
      if (real_bytes <=? 0) || (0 <? total_bytes) then
        x ← deref (nth_at sg n);
        let cnt :=
          if 0 <? real_bytes then
            if u32 total_bytes <=? length_ x then u32 total_bytes else length_ x
          else length_ x in
        let total := if 0 <? real_bytes then s32 (total_bytes - cnt) else total_bytes in
        priv ← priv_at j;
        inf ← deref (dma_info priv);
        let last := (n =? num - 1) || ((0 <? real_bytes) && (total =? 0)) in
        push_bd i j next_dma_bd
          (if md =? MXC_DMA_MODE_READ
           then mkBd (pend_state last) md cnt (per_address inf) (dma_address x)
           else mkBd (pend_state last) md cnt (dma_address x) (per_address inf));;
        fill_sg_loop m i j sg (n + 1) num real_bytes total md
      else mret tt
  end.

Definition fill_dma_bd_by_sg (i : Z) (sg : list scatterlist) (num real_bytes md : Z) : M dmast Z :=
  j ← private_of i;
  priv ← priv_at j;
  if MAX_BD_SIZE <? s32 (bd_used priv + num) then mret (- EBUSY)
  else fill_sg_loop (Z.to_nat num) i j sg 0 num real_bytes real_bytes md;; mret 0.

(** ** The client API *)

Definition mxc_dma_request (channel_id : Z) (nm : option string) : M dmast Z :=
  match mxc_dma_get_info channel_id with
  | None => mret (- EINVAL)
  | Some inf =>
      index ← get_dma_channel (dma_chan inf);
      if index <? 0 then mret (- ENODEV)
      else
        d ← chan_at index;
        match private d with
        | None => put_dma_channel index;; mret (- EFAULT)
        | Some j =>
            p ← priv_at j;
            store_priv j (upd_info None p);;
            store_chan index
              (upd_mode (if negb (imode inf =? 0) then MXC_DMA_MODE_WRITE else MXC_DMA_MODE_READ)
                 (upd_name nm (upd_cb None 0 (upd_active false d))));;
            init_dma_bd j;;
            ret ← __init_dma_channel index inf;
            if ret =? 0 then
              p1 ← priv_at j; store_priv j (upd_info (Some inf) p1);; mret index
            else put_dma_channel index;; mret ret
        end
  end.

Definition bad_channel (ch : Z) : bool := (MAX_DMA_CHANNELS <=? ch) || (ch <? 0).

Definition mxc_dma_disable (ch : Z) : M dmast Z :=
  if bad_channel ch then mret (- EINVAL)
  else
    d ← chan_at ch;
    if lock d =? 0 then mret (- EINVAL)
    else if negb (active d) then mret (- EINVAL)
    else
      match private d with
      | None => mret (- EFAULT)
      | Some j =>
          store_chan ch (upd_active false d);;
          enable_dma_clk;;
          __clear_dma_interrupt ch;;
          ctrl_val ← drd (DMA_REG (DMA_CCR ch));
          dwr (clear ctrl_val DMA_CTL_CEN) (DMA_REG (DMA_CCR ch));;
          disable_dma_clk;;
          add_actived (-1);;
          flush_dma_bd j;;
          mret 0
      end.

Definition mxc_dma_enable (ch : Z) : M dmast Z :=
  if bad_channel ch then mret (- EINVAL)
  else
    d ← chan_at ch;
    if lock d =? 0 then mret (- EINVAL)
    else
      match private d with
      | None => mret (- EFAULT)
      | Some j =>
          if active d then mret 0
          else
            store_chan ch (upd_active true d);;
            p ← priv_at j;
            store_priv j (upd_bytes 0 p);;
            enable_dma_clk;;
            add_actived 1;;
            __clear_dma_interrupt ch;;
            setup_dmac ch;;
            disable_dma_clk;;
            mret 0
      end.

Definition mxc_dma_free (ch : Z) : M dmast Z :=
  if bad_channel ch then mret (- EINVAL)
  else
    d ← chan_at ch;
    match private d with
    | None => mret (- EFAULT)
    | Some j =>
        if negb (lock d =? 0) then
          (if active d then mxc_dma_disable ch;; mret tt else mret tt);;
          enable_dma_clk;;
          mask_dma_interrupt ch;;
          disable_dma_clk;;
          p ← priv_at j;
          free_irq (dma_irq p) ch;;
          put_dma_channel ch;;
          mret 0
        else mret 0
    end.

(** The checks [mxc_dma_config] and [mxc_dma_sg_config] share, then [fill]. *)
Definition config_channel (ch md : Z) (fill : M dmast Z) : M dmast Z :=
  if bad_channel ch then mret (- EINVAL)
  else
    d ← chan_at ch;
    match private d with
    | None => mret (- EFAULT)
    | Some j =>
        if lock d =? 0 then mret (- ENODEV)
        else
          p ← priv_at j;
          if chaining p && negb (mode d =? md) then mret (- EINVAL)
          else
            ret ← fill;
            if negb (ret =? 0) then mret (- EBUSY) else mret 0
    end.

Definition mxc_dma_config (ch : Z) (buf : option (list mxc_dma_requestbuf_t)) (num md : Z) : M dmast Z :=
  match buf with
  | None => mret (- EINVAL)
  | Some l =>
      if num <? 1 then mret (- EINVAL) else config_channel ch md (fill_dma_bd ch l num md)
  end.

Definition mxc_dma_sg_config (ch : Z) (sg : option (list scatterlist)) (num bytes md : Z) : M dmast Z :=
  match sg with
  | None => mret (- EINVAL)
  | Some l =>
      if (num <? 1) || (bytes <? 0) then mret (- EINVAL)
      else config_channel ch md (fill_dma_bd_by_sg ch l num bytes md)
  end.

Definition mxc_dma_callback_set (ch : Z) (cb : option Z) (arg : Z) : M dmast Z :=
  if bad_channel ch then mret (- EINVAL)
  else
    d ← chan_at ch;
    if lock d =? 0 then mret (- ENODEV)
    else if active d then mret (- EBUSY)
    else store_chan ch (upd_cb cb arg d);; mret 0.

(** ** Initialisation *)

(** A channel after [memset] and the assignments of the loop. *)
Definition chan_init (i : Z) : mxc_dma_channel_t :=
  mkChan false 0 MXC_DMA_MODE_READ i false None (Some i) None 0.

Definition priv_init (i : Z) (p : mx2_dma_priv_t) : mx2_dma_priv_t :=
  mkPriv (chaining p) (priv_ren p) (trans_bytes p) (dma_info p) (bd_rd p) (bd_wr p) (bd_used p) (bd_ring p)
    (IO_ADDRESS (DMA_BASE_ADDR + DMA_CH_BASE i)) (i + MXC_DMA_INTR_0).

(** [mxc_dma_load_info]: all channels dynamic, then the fixed ones claimed. *)
Fixpoint claim_fixed (l : list dma_info_entry_t) : M dmast unit :=
  match l with
  | [] => mret tt
  | e :: l' =>
      let idx := dma_chan (info e) in
      if (MAX_DMA_CHANNELS <=? idx) && negb (idx =? MXC_DMA_DYNAMIC_CHANNEL) then crash Bug
      else if (idx <? 0) || (idx =? MXC_DMA_DYNAMIC_CHANNEL) then claim_fixed l'
      else d ← chan_at idx; store_chan idx (upd_dynamic false d);; claim_fixed l'
  end.

Definition mxc_dma_load_info : M dmast unit :=
  modify (fun s => with_chans (map (upd_dynamic true) (g_dma_channels s)) s);;
  claim_fixed active_dma_info.

Definition mxc_dma_init : M dmast Z :=
  modify (fun s => with_chans (map chan_init (seqZ 0 MXC_DMA_CHANNELS)) s);;
  modify (fun s => with_privs (imap (fun n => priv_init (Z.of_nat n)) (g_dma_privates s)) s);;
  mxc_dma_load_info;;
  h ← on_clks (cl_get "dma_clk");
  modify (with_dma_clk h);;
  on_clks (cl_enable h);;
  dwr 2 (DMA_REG DMA_DCR);;
  disable_dma_clk;;
  mret 0.

(** The driver's variables before [mxc_dma_init]: static storage, all zero. *)
Definition bd_zero : mx2_dma_bd_t := mkBd 0 0 0 0 0.
Definition chan_zero : mxc_dma_channel_t := mkChan false 0 0 0 false None None None 0.
Definition priv_zero : mx2_dma_priv_t :=
  mkPriv false false 0 None 0 0 0 (replicate (Z.to_nat MAX_BD_SIZE) bd_zero) 0 0.

Definition dma_boot (r : regfile) (c : C) (l : list (Z * Z)) : dmast :=
  mkDma r (replicate 16 chan_zero) (replicate 16 priv_zero) 0 null_handle c l.

End Driver.
