(* ===== verification/DmaRing.v ===== *)
(** * The descriptor ring as a queue

    A channel's ring with its read index, write index and fill count represents
    a queue of descriptors.  Each way the driver touches the ring is a queue
    operation: appending at the write index, removing at the read index, or
    changing the state word of a queued descriptor. *)

From stdpp Require Import base list.
From Stdlib Require Import ZArith Lia.
From S2P Require Import Prelude CrmRegs DmaTable Dma.

(** ** Arrays *)

Lemma nth_at_lookup {A} (l : list A) i : 0 <= i -> nth_at l i = l !! Z.to_nat i.
Proof. intros. unfold nth_at. destruct (Z.leb_spec 0 i); [done|lia]. Qed.

Lemma nth_at_in {A} (l : list A) i : 0 <= i < Z.of_nat (length l) -> is_Some (nth_at l i).
Proof. intros. rewrite nth_at_lookup by lia. apply lookup_lt_is_Some. lia. Qed.

Lemma nth_set_eq {A} (l : list A) i x : 0 <= i < Z.of_nat (length l) -> nth_at (nth_set i x l) i = Some x.
Proof. intros. rewrite nth_at_lookup by lia. unfold nth_set. rewrite list_lookup_insert_eq; [done|lia]. Qed.

Lemma nth_set_ne {A} (l : list A) i j x : 0 <= i -> i <> j -> nth_at (nth_set i x l) j = nth_at l j.
Proof.
  intros Hi Hij. unfold nth_at, nth_set. destruct (Z.leb_spec 0 j); [|done].
  rewrite list_lookup_insert_ne; [done|lia].
Qed.

Lemma nth_set_length {A} (l : list A) i x : length (nth_set i x l) = length l.
Proof. apply length_insert. Qed.

(** ** The queue *)

#[global] Instance bd_inhabited : Inhabited mx2_dma_bd_t := populate bd_zero.

(** The slot [k] places after the read index. *)
Definition slot (p : mx2_dma_priv_t) (k : Z) : Z := (bd_rd p + k) mod MAX_BD_SIZE.

Definition bd_at (p : mx2_dma_priv_t) (k : Z) : mx2_dma_bd_t := default bd_zero (nth_at (bd_ring p) (slot p k)).

Definition queue (p : mx2_dma_priv_t) : list mx2_dma_bd_t := bd_at p <$> seqZ 0 (bd_used p).

Record ring_ok (p : mx2_dma_priv_t) : Prop := mkRingOk {
  ring_length : Z.of_nat (length (bd_ring p)) = MAX_BD_SIZE;
  ring_rd : 0 <= bd_rd p < MAX_BD_SIZE;
  ring_used : 0 <= bd_used p <= MAX_BD_SIZE;
  ring_wr : bd_wr p = slot p (bd_used p);
}.

Lemma slot_range p k : 0 <= slot p k < MAX_BD_SIZE.
Proof. apply Z.mod_pos_bound. reflexivity. Qed.

Lemma slot_0 p : 0 <= bd_rd p < MAX_BD_SIZE -> slot p 0 = bd_rd p.
Proof. intros. unfold slot. rewrite Z.add_0_r. by apply Z.mod_small. Qed.

Lemma slot_inj p k l : 0 <= k < MAX_BD_SIZE -> 0 <= l < MAX_BD_SIZE -> slot p k = slot p l -> k = l.
Proof. unfold slot, MAX_BD_SIZE. intros. Z.div_mod_to_equations. lia. Qed.

Lemma rem_next p : 0 <= bd_rd p < MAX_BD_SIZE -> Z.rem (bd_rd p + 1) MAX_BD_SIZE = slot p 1.
Proof. intros. unfold slot. rewrite Z.rem_mod_nonneg; [done|lia|reflexivity]. Qed.

Lemma ring_slot p k : ring_ok p -> nth_at (bd_ring p) (slot p k) = Some (bd_at p k).
Proof.
  intros H. unfold bd_at. destruct (nth_at_in (bd_ring p) (slot p k)) as [b ->]; [|done].
  rewrite (ring_length p H). apply slot_range.
Qed.

Lemma ring_head p : ring_ok p -> nth_at (bd_ring p) (bd_rd p) = Some (bd_at p 0).
Proof. intros H. rewrite <- (ring_slot p 0 H), slot_0; [done|apply H]. Qed.

Lemma queue_length p : 0 <= bd_used p -> Z.of_nat (length (queue p)) = bd_used p.
Proof. intros. unfold queue. rewrite length_fmap, length_seqZ. lia. Qed.

Lemma queue_ext p p' :
  bd_used p = bd_used p' -> (forall k, 0 <= k < bd_used p -> bd_at p k = bd_at p' k) -> queue p = queue p'.
Proof.
  intros Hu H. unfold queue. rewrite <- Hu. apply list_fmap_ext. intros n k Hk.
  apply lookup_seqZ in Hk as [-> Hk]. apply H. lia.
Qed.

Lemma queue_nil p : bd_used p <= 0 -> queue p = [].
Proof. intros. unfold queue. rewrite seqZ_nil by lia. done. Qed.

(** [flush_dma_bd] *)
Lemma flush_ok p : ring_ok p -> ring_ok (upd_rd (bd_wr p) 0 p).
Proof.
  intros H. pose proof (slot_range p (bd_used p)) as Hw. rewrite <- (ring_wr p H) in Hw.
  split; try apply H; cbn [bd_rd bd_wr bd_used upd_rd]; [done|unfold MAX_BD_SIZE; lia|].
  unfold slot. cbn [bd_rd upd_rd]. rewrite Z.add_0_r, Z.mod_small; done.
Qed.

(** [init_dma_bd] *)
Definition reset (p : mx2_dma_priv_t) : mx2_dma_priv_t :=
  upd_ring (map (upd_state 0) (bd_ring p)) (upd_rd 0 0 (upd_wr 0 0 p)).

Lemma reset_ok p : ring_ok p -> ring_ok (reset p).
Proof.
  intros H. split; cbn [reset bd_rd bd_wr bd_used bd_ring upd_ring upd_rd upd_wr]; try done.
  rewrite length_map. apply H.
Qed.

(** Removing at the read index. *)
Definition pop (p : mx2_dma_priv_t) : mx2_dma_priv_t :=
  upd_rd (Z.rem (bd_rd p + 1) MAX_BD_SIZE) (s32 (bd_used p - 1)) p.

Lemma s32_small x : - 2 ^ 31 <= x < 2 ^ 31 -> s32 x = x.
Proof. intros. unfold s32. rewrite Z.mod_small; lia. Qed.

Lemma pop_used p : ring_ok p -> bd_used (pop p) = bd_used p - 1.
Proof. intros H. simpl. apply s32_small. pose proof (ring_used p H). unfold MAX_BD_SIZE in *. lia. Qed.

Lemma slot_pop p k : ring_ok p -> slot (pop p) k = slot p (k + 1).
Proof.
  intros H. unfold slot, pop. cbn [bd_rd upd_rd]. rewrite rem_next by apply H.
  unfold slot, MAX_BD_SIZE. rewrite Z.add_mod_idemp_l by lia. f_equal. lia.
Qed.

Lemma bd_at_pop p k : ring_ok p -> bd_at (pop p) k = bd_at p (k + 1).
Proof. intros H. unfold bd_at. rewrite slot_pop by done. done. Qed.

Lemma pop_ok p : ring_ok p -> 0 < bd_used p -> ring_ok (pop p).
Proof.
  intros H Hu. pose proof (ring_used p H). split.
  - apply H.
  - simpl. rewrite rem_next by apply H. apply slot_range.
  - rewrite pop_used by done. lia.
  - rewrite slot_pop, pop_used by done. simpl. rewrite (ring_wr p H). f_equal. lia.
Qed.

Lemma queue_pop p : ring_ok p -> 0 < bd_used p -> queue p = bd_at p 0 :: queue (pop p).
Proof.
  intros H Hu. unfold queue. rewrite pop_used, seqZ_cons by done. simpl. f_equal.
  rewrite Z.sub_1_r. rewrite <- (fmap_add_seqZ 1 0). rewrite <- list_fmap_compose.
  apply list_fmap_ext. intros n k Hk. cbn. rewrite bd_at_pop by done. f_equal. lia.
Qed.

(** Appending at the write index. *)
Definition push (b : mx2_dma_bd_t) (p : mx2_dma_priv_t) : mx2_dma_priv_t :=
  upd_wr (Z.rem (bd_wr p + 1) MAX_BD_SIZE) (s32 (bd_used p + 1))
    (upd_ring (nth_set (bd_wr p) b (bd_ring p)) p).

Lemma push_used b p : ring_ok p -> bd_used p < MAX_BD_SIZE -> bd_used (push b p) = bd_used p + 1.
Proof. intros H Hu. simpl. apply s32_small. pose proof (ring_used p H). unfold MAX_BD_SIZE in *. lia. Qed.

Lemma ring_wr_range p : ring_ok p -> 0 <= bd_wr p < MAX_BD_SIZE.
Proof. intros H. rewrite (ring_wr p H). apply slot_range. Qed.

Lemma push_ok b p : ring_ok p -> bd_used p < MAX_BD_SIZE -> ring_ok (push b p).
Proof.
  intros H Hu. pose proof (ring_used p H). pose proof (ring_wr_range p H). split.
  - simpl. rewrite nth_set_length. apply H.
  - apply H.
  - rewrite push_used by done. lia.
  - rewrite push_used by done. simpl. rewrite Z.rem_mod_nonneg by (unfold MAX_BD_SIZE in *; lia).
    rewrite (ring_wr p H). unfold slot. simpl. rewrite Z.add_mod_idemp_l by done. f_equal. lia.
Qed.

Lemma queue_push b p : ring_ok p -> bd_used p < MAX_BD_SIZE -> queue (push b p) = queue p ++ [b].
Proof.
  intros H Hu. pose proof (ring_used p H). unfold queue at 1. rewrite push_used by done.
  rewrite seqZ_app by lia. rewrite fmap_app. f_equal.
  - apply list_fmap_ext. intros n k Hk. apply lookup_seqZ in Hk as [-> Hk].
    unfold bd_at. change (slot (push b p)) with (slot p). cbn [push bd_ring upd_wr upd_ring].
    rewrite nth_set_ne; [done|pose proof (ring_wr_range p H); lia|].
    rewrite (ring_wr p H). intros E%slot_inj; [lia..|]. lia.
  - change 1 with (Z.of_nat 1) at 1. rewrite (seqZ_cons _ 1), seqZ_nil by lia. simpl. f_equal.
    unfold bd_at. change (slot (push b p)) with (slot p). cbn [push bd_ring upd_wr upd_ring].
    rewrite Z.add_0_l, <- (ring_wr p H). rewrite nth_set_eq; [done|].
    rewrite (ring_length p H). by apply ring_wr_range.
Qed.

(** Changing a queued descriptor in place. *)
Definition put (k : Z) (b : mx2_dma_bd_t) (p : mx2_dma_priv_t) : mx2_dma_priv_t :=
  upd_ring (nth_set (slot p k) b (bd_ring p)) p.

Lemma put_ok k b p : ring_ok p -> ring_ok (put k b p).
Proof. intros H. split; try apply H. simpl. rewrite nth_set_length. apply H. Qed.

Lemma bd_at_put k b p l :
  ring_ok p -> 0 <= k < MAX_BD_SIZE -> 0 <= l < MAX_BD_SIZE ->
  bd_at (put k b p) l = if decide (k = l) then b else bd_at p l.
Proof.
  intros H Hk Hl. unfold bd_at. change (slot (put k b p)) with (slot p). cbn [put bd_ring upd_ring].
  case_decide as E.
  - subst l. rewrite nth_set_eq; [done|]. rewrite (ring_length p H). apply slot_range.
  - rewrite nth_set_ne; [done|apply slot_range|]. intros E'%slot_inj; done.
Qed.

Lemma queue_lookup p n :
  0 <= bd_used p -> queue p !! n = if decide (Z.of_nat n < bd_used p) then Some (bd_at p (Z.of_nat n)) else None.
Proof.
  intros Hu. unfold queue. rewrite list_lookup_fmap. case_decide as E.
  - rewrite lookup_seqZ_lt by done. simpl. f_equal.
  - rewrite lookup_seqZ_ge by lia. done.
Qed.

Lemma queue_put k b p :
  ring_ok p -> 0 <= k < bd_used p -> queue (put k b p) = <[Z.to_nat k := b]> (queue p).
Proof.
  intros H Hk. pose proof (ring_used p H) as Hu. apply list_eq. intros n.
  rewrite queue_lookup by apply Hu. cbn [bd_used put upd_ring]. destruct (decide (Z.of_nat n < bd_used p)) as [E|E].
  - rewrite bd_at_put by (done || lia). case_decide as Ek.
    + subst k. rewrite Nat2Z.id, list_lookup_insert_eq; [done|]. apply Nat2Z.inj_lt. rewrite queue_length; lia.
    + rewrite list_lookup_insert_ne by lia. rewrite queue_lookup by lia. rewrite decide_True by done. done.
  - symmetry. apply lookup_ge_None. rewrite length_insert. apply Nat2Z.inj_le. rewrite queue_length; lia.
Qed.

(** The descriptor after the head, as [next_dma_bd] finds it. *)
Lemma next_slot p : ring_ok p -> 0 < bd_used p -> bd_used p < MAX_BD_SIZE \/ 1 < bd_used p ->
  next_dma_bd p = if decide (1 < bd_used p) then Some (slot p 1) else None.
Proof.
  intros H Hu Hm. pose proof (ring_used p H). unfold next_dma_bd. rewrite rem_next by apply H. rewrite (ring_wr p H).
  case_decide.
  - destruct (Z.eqb_spec (slot p 1) (slot p (bd_used p))) as [E|]; [|done]. exfalso.
    destruct (decide (bd_used p = MAX_BD_SIZE)) as [Ef|].
    + rewrite Ef in E. revert E. unfold slot, MAX_BD_SIZE. Z.div_mod_to_equations. lia.
    + apply slot_inj in E; unfold MAX_BD_SIZE in *; lia.
  - replace (bd_used p) with 1 by lia. by rewrite Z.eqb_refl.
Qed.

Lemma next_bd p h t : ring_ok p -> queue p = h :: t ->
  next_dma_bd p = match t with [] => None | _ => Some (slot p 1) end.
Proof.
  intros H Hq. pose proof (ring_used p H) as Hu. pose proof (queue_length p) as Hl. rewrite Hq in Hl. simpl in Hl.
  rewrite next_slot by (done || (unfold MAX_BD_SIZE in *; lia)).
  destruct t; simpl in Hl; case_decide; try done; lia.
Qed.

Lemma queue_head p h t : ring_ok p -> queue p = h :: t -> nth_at (bd_ring p) (bd_rd p) = Some h.
Proof.
  intros H Hq. rewrite ring_head by done. f_equal.
  pose proof (queue_lookup p 0 (proj1 (ring_used p H))) as E. rewrite Hq in E. case_decide; [|done]. injection E as E. exact (eq_sym E).
Qed.

Lemma queue_second p h b t : ring_ok p -> queue p = h :: b :: t -> nth_at (bd_ring p) (slot p 1) = Some b.
Proof.
  intros H Hq. rewrite ring_slot by done. f_equal.
  pose proof (queue_lookup p 1 (proj1 (ring_used p H))) as E. rewrite Hq in E. case_decide; [|done]. injection E as E. exact (eq_sym E).
Qed.
