(* ===== verification/DmaSteps.v ===== *)
(** * Reasoning about the DMA driver step by step

    Total access to a channel's variables and registers, the shape of the
    driver's arrays, weakest-precondition rules for the driver's primitive
    accesses, and [frame i]: the steps that concern channel [i] only. *)

From stdpp Require Import base list gmap.
From Stdlib Require Import ZArith Lia.
From S2P Require Import Prelude CrmRegs DmaTable Dma DmaRing.

(** ** Addresses *)

Definition base (i : Z) : Z := IO_ADDRESS (DMA_BASE_ADDR + DMA_CH_BASE i).
Definition in_chans (i : Z) : Prop := 0 <= i < 16.

(** The start of the controller's register window. *)
Definition DMA_WINDOW : Z := 0xD4001000.

Lemma DMA_REG_eq off : DMA_REG off = DMA_WINDOW + off.
Proof. reflexivity. Qed.

Lemma base_eq i : in_chans i -> base i = DMA_WINDOW + 0x80 + 0x40 * i.
Proof.
  intros [H1 H2]. unfold base, DMA_CH_BASE.
  assert (forallb (fun i => IO_ADDRESS (DMA_BASE_ADDR + (0x080 + 0x040 * i)) =? DMA_WINDOW + 0x80 + 0x40 * i)
            (seqZ 0 16) = true) as H by (vm_compute; reflexivity).
  rewrite forallb_forall in H. apply Z.eqb_eq, H, list_elem_of_In, elem_of_seqZ. lia.
Qed.

Lemma ccr_base i : in_chans i -> DMA_REG (DMA_CCR i) = base i + Ctl.
Proof. intros H. rewrite base_eq by done. rewrite DMA_REG_eq. unfold DMA_CCR, DMA_CH_BASE, Ctl. lia. Qed.

(** The registers with one bit per channel. *)
Definition bit_regs : list Z := DMA_REG DMA_DIMR :: status_regs.

Lemma bit_regs_low a : a ∈ bit_regs -> DMA_WINDOW + 4 <= a < DMA_WINDOW + 0x1c.
Proof.
  intros H.
  assert (forallb (fun a => (DMA_WINDOW + 4 <=? a) && (a <? DMA_WINDOW + 0x1c)) bit_regs = true) as Hall
    by (vm_compute; reflexivity).
  rewrite forallb_forall in Hall. apply list_elem_of_In, Hall in H. lia.
Qed.

Lemma status_low a : a ∈ status_regs -> a ∈ bit_regs.
Proof. intros H. apply elem_of_cons. by right. Qed.

Lemma dimr_not_status : DMA_REG DMA_DIMR ∉ status_regs.
Proof. apply (bool_decide_eq_false_1 _). vm_compute. reflexivity. Qed.

(** Registers outside the status registers hold what is written to them. *)
Lemma dma_write_plain v a r : a ∉ status_regs -> dma_write v a r = writel v a r.
Proof. intros H. unfold dma_write. by rewrite bool_decide_eq_false_2. Qed.

Lemma dma_write_status v a r : a ∈ status_regs -> dma_write v a r = writel (clear (readl r a) (u32 v)) a r.
Proof. intros H. unfold dma_write. by rewrite bool_decide_eq_true_2. Qed.

Lemma read_ne v a b r : a <> b -> readl (dma_write v a r) b = readl r b.
Proof. intros. unfold dma_write. case_match; by apply readl_writel_ne. Qed.

Lemma read_eq v a r : a ∉ status_regs -> readl (dma_write v a r) a = u32 v.
Proof. intros. rewrite dma_write_plain by done. apply readl_writel_eq. Qed.

(** Offsets inside a channel's block. *)
Definition chan_off (o : Z) : Prop := 0 <= o < 0x40.

Lemma block_not_bit i o : in_chans i -> chan_off o -> base i + o ∉ bit_regs.
Proof. intros Hi Ho H%bit_regs_low. rewrite base_eq in H by done. unfold in_chans, chan_off in *. lia. Qed.

Lemma block_not_status i o : in_chans i -> chan_off o -> base i + o ∉ status_regs.
Proof. intros Hi Ho H%status_low. by apply (block_not_bit i o). Qed.

Lemma block_disjoint i j o o' :
  in_chans i -> in_chans j -> chan_off o -> chan_off o' -> i <> j -> base i + o <> base j + o'.
Proof. intros. rewrite !base_eq by done. unfold in_chans, chan_off in *. lia. Qed.

Lemma low_not_block a i o : a < DMA_WINDOW + 0x80 -> in_chans i -> chan_off o -> a <> base i + o.
Proof. intros Ha Hi Ho. rewrite base_eq by done. unfold in_chans, chan_off in *. lia. Qed.

Section Steps.
Context {C : Type} {Clk : ClkProvider C}.
Implicit Types s : dmast.

(** ** Total access *)

Definition chan s (i : Z) : mxc_dma_channel_t := default chan_zero (nth_at (g_dma_channels s) i).
Definition priv s (i : Z) : mx2_dma_priv_t := default priv_zero (nth_at (g_dma_privates s) i).
Definition creg s (i o : Z) : Z := readl (dregs s) (base i + o).

(** The arrays as [mxc_dma_init] leaves them; the pointers never change. *)
Record shape s : Prop := mkShape {
  shape_chans : length (g_dma_channels s) = 16%nat;
  shape_privs : length (g_dma_privates s) = 16%nat;
  shape_channel : forall i, in_chans i -> channel (chan s i) = i;
  shape_private : forall i, in_chans i -> private (chan s i) = Some i;
  shape_base : forall i, in_chans i -> dma_base (priv s i) = base i;
  shape_irq : forall i, in_chans i -> dma_irq (priv s i) = i + MXC_DMA_INTR_0;
}.

Definition set_chan (i : Z) (d : mxc_dma_channel_t) s : dmast := with_chans (nth_set i d (g_dma_channels s)) s.
Definition set_priv (i : Z) (p : mx2_dma_priv_t) s : dmast := with_privs (nth_set i p (g_dma_privates s)) s.
Definition set_reg (v a : Z) s : dmast := with_dregs (dma_write v a) s.

Lemma nth_at_default {A} (l : list A) (x : A) i :
  length l = 16%nat -> in_chans i -> nth_at l i = Some (default x (nth_at l i)).
Proof. intros Hl Hi. destruct (nth_at_in l i) as [y ->]; [unfold in_chans in Hi; lia|done]. Qed.

Lemma chan_set s i d j :
  length (g_dma_channels s) = 16%nat -> in_chans i -> chan (set_chan i d s) j = if decide (i = j) then d else chan s j.
Proof.
  intros Hl Hi. unfold chan, set_chan. cbn [g_dma_channels with_chans]. unfold in_chans in Hi. case_decide.
  - subst j. rewrite nth_set_eq by lia. done.
  - by rewrite nth_set_ne by lia.
Qed.

Lemma priv_set s i p j :
  length (g_dma_privates s) = 16%nat -> in_chans i -> priv (set_priv i p s) j = if decide (i = j) then p else priv s j.
Proof.
  intros Hl Hi. unfold priv, set_priv. cbn [g_dma_privates with_privs]. unfold in_chans in Hi. case_decide.
  - subst j. rewrite nth_set_eq by lia. done.
  - by rewrite nth_set_ne by lia.
Qed.

(** ** Rules for the primitive accesses *)

Lemma chan_at_run s i : shape s -> in_chans i -> chan_at i s = Ret (chan s i, s).
Proof.
  intros Hs Hi. unfold chan_at, mbind, M_bind, get. by rewrite (nth_at_default _ chan_zero) by (done || apply Hs).
Qed.

Lemma priv_at_run s i : shape s -> in_chans i -> priv_at i s = Ret (priv s i, s).
Proof.
  intros Hs Hi. unfold priv_at, mbind, M_bind, get. by rewrite (nth_at_default _ priv_zero) by (done || apply Hs).
Qed.

Lemma wp_chan_at i (Q : _ -> dmast -> Prop) s : shape s -> in_chans i -> Q (chan s i) s -> wp (chan_at i) Q s.
Proof. intros Hs Hi H. unfold wp. by rewrite chan_at_run. Qed.

Lemma wp_priv_at i (Q : _ -> dmast -> Prop) s : shape s -> in_chans i -> Q (priv s i) s -> wp (priv_at i) Q s.
Proof. intros Hs Hi H. unfold wp. by rewrite priv_at_run. Qed.

Lemma wp_store_chan i d (Q : _ -> dmast -> Prop) s : Q tt (set_chan i d s) -> wp (store_chan i d) Q s.
Proof. done. Qed.

Lemma wp_store_priv i p (Q : _ -> dmast -> Prop) s : Q tt (set_priv i p s) -> wp (store_priv i p) Q s.
Proof. done. Qed.

Lemma wp_drd a (Q : _ -> dmast -> Prop) s : Q (readl (dregs s) a) s -> wp (drd a) Q s.
Proof. done. Qed.

Lemma wp_dwr v a (Q : _ -> dmast -> Prop) s : Q tt (set_reg v a s) -> wp (dwr v a) Q s.
Proof. done. Qed.

Lemma wp_on_clks {A} (m : M C A) (Q : A -> dmast -> Prop) s :
  wp m (fun a c => Q a (with_clks c s)) (clks s) -> wp (on_clks m) Q s.
Proof. unfold wp, on_clks. by destruct (m (clks s)) as [[a c]|f]. Qed.

Lemma wp_store_state i k st b (Q : _ -> dmast -> Prop) s :
  shape s -> in_chans i -> nth_at (bd_ring (priv s i)) k = Some b ->
  Q tt (set_priv i (upd_ring (nth_set k (upd_state st b) (bd_ring (priv s i))) (priv s i)) s) ->
  wp (store_state i k st) Q s.
Proof.
  intros Hs Hi Hb H. unfold store_state. apply wp_bind, wp_priv_at; [done..|].
  apply wp_bind, (wp_deref _ b); done.
Qed.

(** ** Steps that keep the shape *)

Lemma shape_reg v a s : shape s -> shape (set_reg v a s).
Proof. intros H. split; apply H. Qed.

Lemma shape_actived n s : shape s -> shape (with_actived n s).
Proof. intros H. split; apply H. Qed.

Lemma shape_actions l s : shape s -> shape (with_actions l s).
Proof. intros H. split; apply H. Qed.

Lemma shape_chan i d s :
  shape s -> in_chans i -> channel d = channel (chan s i) -> private d = private (chan s i) -> shape (set_chan i d s).
Proof.
  intros H Hi H1 H2. split; try apply H.
  - cbn. rewrite nth_set_length. apply H.
  - intros j Hj. rewrite chan_set by (done || apply H). case_decide; subst; [rewrite H1|]; by apply H.
  - intros j Hj. rewrite chan_set by (done || apply H). case_decide; subst; [rewrite H2|]; by apply H.
Qed.

Lemma shape_priv i p s :
  shape s -> in_chans i -> dma_base p = dma_base (priv s i) -> dma_irq p = dma_irq (priv s i) -> shape (set_priv i p s).
Proof.
  intros H Hi H1 H2. split; try apply H.
  - cbn. rewrite nth_set_length. apply H.
  - intros j Hj. rewrite priv_set by (done || apply H). case_decide; subst; [rewrite H1|]; by apply H.
  - intros j Hj. rewrite priv_set by (done || apply H). case_decide; subst; [rewrite H2|]; by apply H.
Qed.

(** ** Steps that concern one channel *)

(** [frame i s s']: between [s] and [s'] nothing that belongs to another channel
    has changed, neither its variables nor its registers nor its bits of the
    shared registers. *)
Record frame (i : Z) s s' : Prop := mkFrame {
  frame_shape : shape s -> shape s';
  frame_chan : forall j, in_chans j -> j <> i -> chan s' j = chan s j;
  frame_priv : forall j, in_chans j -> j <> i -> priv s' j = priv s j;
  frame_creg : forall j o, in_chans j -> chan_off o -> j <> i -> creg s' j o = creg s j o;
  frame_bits : forall a j, a ∈ bit_regs -> in_chans j -> j <> i ->
    Z.testbit (readl (dregs s') a) j = Z.testbit (readl (dregs s) a) j;
  frame_clk : dma_clk s' = dma_clk s;
}.

Lemma frame_refl i s : frame i s s.
Proof. by split. Qed.

Lemma frame_trans i s1 s2 s3 : frame i s1 s2 -> frame i s2 s3 -> frame i s1 s3.
Proof.
  intros H1 H2. split.
  - intros H. by apply (frame_shape i s2), (frame_shape i s1).
  - intros j Hj Hi. rewrite (frame_chan i s2 s3), (frame_chan i s1 s2); done.
  - intros j Hj Hi. rewrite (frame_priv i s2 s3), (frame_priv i s1 s2); done.
  - intros j o Hj Ho Hi. rewrite (frame_creg i s2 s3), (frame_creg i s1 s2); done.
  - intros a j Ha Hj Hi. rewrite (frame_bits i s2 s3), (frame_bits i s1 s2); done.
  - rewrite (frame_clk i s2 s3), (frame_clk i s1 s2); done.
Qed.

Lemma frame_set_chan i d s :
  shape s -> in_chans i -> channel d = channel (chan s i) -> private d = private (chan s i) ->
  frame i s (set_chan i d s).
Proof.
  intros Hs Hi H1 H2. split; try done.
  - intros _. by apply shape_chan.
  - intros j Hj Hij. rewrite chan_set by (done || apply Hs). by rewrite decide_False.
Qed.

Lemma frame_set_priv i p s :
  shape s -> in_chans i -> dma_base p = dma_base (priv s i) -> dma_irq p = dma_irq (priv s i) ->
  frame i s (set_priv i p s).
Proof.
  intros Hs Hi H1 H2. split; try done.
  - intros _. by apply shape_priv.
  - intros j Hj Hij. rewrite priv_set by (done || apply Hs). by rewrite decide_False.
Qed.

(** A write into the channel's own block. *)
Lemma frame_block i o v s : in_chans i -> chan_off o -> frame i s (set_reg v (base i + o) s).
Proof.
  intros Hi Ho. split; try done.
  - apply shape_reg.
  - intros j o' Hj Ho' Hij. unfold creg. cbn [dregs set_reg with_dregs]. rewrite read_ne; [done|].
    by apply block_disjoint.
  - intros a j Ha Hj Hij. cbn [dregs set_reg with_dregs]. rewrite read_ne; [done|].
    intros <-. by apply (block_not_bit i o).
Qed.

(** A write to one of the other shared registers. *)
Lemma frame_shared i a v s : a < DMA_WINDOW + 0x80 -> a ∉ bit_regs -> frame i s (set_reg v a s).
Proof.
  intros Ha Hb. split; try done.
  - apply shape_reg.
  - intros j o Hj Ho Hij. unfold creg. cbn [dregs set_reg with_dregs]. rewrite read_ne; [done|].
    by apply low_not_block.
  - intros b j Hb' Hj Hij. cbn [dregs set_reg with_dregs]. rewrite read_ne; [done|]. by intros ->.
Qed.

(** A write to a register with one bit per channel that keeps the other bits. *)
Lemma frame_bit_reg i a v s :
  a ∈ bit_regs ->
  (forall j, in_chans j -> j <> i -> Z.testbit (readl (dma_write v a (dregs s)) a) j = Z.testbit (readl (dregs s) a) j) ->
  frame i s (set_reg v a s).
Proof.
  intros Ha H. pose proof (bit_regs_low a Ha) as Hlow. split; try done.
  - apply shape_reg.
  - intros j o Hj Ho Hij. unfold creg. cbn [dregs set_reg with_dregs]. rewrite read_ne; [done|].
    apply low_not_block; [lia|done..].
  - intros b j Hb Hj Hij. cbn [dregs set_reg with_dregs]. destruct (decide (a = b)) as [<-|Hne].
    + by apply H.
    + by rewrite read_ne.
Qed.

Lemma frame_dimr i v s :
  (forall j, in_chans j -> j <> i -> Z.testbit v j = Z.testbit (readl (dregs s) (DMA_REG DMA_DIMR)) j) ->
  frame i s (set_reg v (DMA_REG DMA_DIMR) s).
Proof.
  intros H. apply frame_bit_reg; [by apply elem_of_cons; left|]. intros j Hj Hij.
  rewrite read_eq by apply dimr_not_status.
  unfold in_chans in Hj. rewrite testbit_u32 by lia. destruct (Z.ltb_spec j 32); [|lia]. by apply H.
Qed.

(** Acknowledging the channel's own event. *)
Lemma frame_status i a s : a ∈ status_regs -> in_chans i -> frame i s (set_reg (bit i) a s).
Proof.
  intros Ha Hi. apply frame_bit_reg; [by apply status_low|]. intros j Hj Hij. unfold in_chans in *.
  rewrite dma_write_status by done. rewrite readl_writel_eq, testbit_u32, testbit_clear by lia.
  rewrite testbit_u32, testbit_bit by lia.
  destruct (Z.ltb_spec j 32); [|lia]. destruct (Z.eqb_spec j i); [done|]. simpl. apply andb_true_r.
Qed.

End Steps.

#[global] Opaque base.
