(* ===== verification/DmaChannel.v ===== *)
(** * One channel of the DMA controller

    What a channel promises: its ring is a queue, the direction of the
    controller's ports follows the transfer mode, and while the channel runs the
    controller is programmed from the queue's first descriptors ([armed]).  The
    main lemma, [setup_dmac_spec], says that [setup_dmac] re-establishes this
    after the queue has moved on. *)

From stdpp Require Import base list gmap.
From Stdlib Require Import ZArith Lia.
From S2P Require Import Prelude CrmRegs DmaTable Dma DmaRing DmaSteps.

(** ** Descriptors *)

Definition busy (b : mx2_dma_bd_t) : bool := negb (Z.land (state b) DMA_BD_ST_BUSY =? 0).
Definition is_last (b : mx2_dma_bd_t) : bool := negb (Z.land (state b) DMA_BD_ST_LAST =? 0).

(** What a client queued: everything of a descriptor but its progress. *)
Record item : Type := mkItem { it_mode : Z; it_count : Z; it_src : Z; it_dst : Z; it_last : bool }.
Definition item_of (b : mx2_dma_bd_t) : item := mkItem (bd_mode b) (count b) (src_addr b) (dst_addr b) (is_last b).

(** The descriptor handed to the controller. *)
Definition busy_bd (b : mx2_dma_bd_t) : mx2_dma_bd_t :=
  upd_state (clear (setb (state b) DMA_BD_ST_BUSY) DMA_BD_ST_PEND) b.

Lemma land_bits_test x n : 0 <= n -> negb (Z.land x (2 ^ n) =? 0) = Z.testbit x n.
Proof. intros. rewrite <- Z.shiftl_1_l. change (Z.shiftl 1 n) with (bit n). rewrite land_bit by done. apply negb_involutive. Qed.

Lemma busy_testbit b : busy b = Z.testbit (state b) 29.
Proof. apply (land_bits_test (state b) 29). lia. Qed.

Lemma last_testbit b : is_last b = Z.testbit (state b) 27.
Proof. apply (land_bits_test (state b) 27). lia. Qed.

Lemma busy_busy_bd b : busy (busy_bd b) = true.
Proof.
  rewrite busy_testbit. cbn [state busy_bd upd_state]. rewrite testbit_clear, testbit_setb by lia.
  change (Z.testbit DMA_BD_ST_BUSY 29) with true. change (Z.testbit DMA_BD_ST_PEND 29) with false. by rewrite orb_true_r.
Qed.

Lemma item_busy_bd b : item_of (busy_bd b) = item_of b.
Proof.
  unfold item_of. f_equal. rewrite !last_testbit. cbn [state busy_bd upd_state].
  rewrite testbit_clear, testbit_setb by lia.
  change (Z.testbit DMA_BD_ST_BUSY 27) with false. change (Z.testbit DMA_BD_ST_PEND 27) with false.
  by rewrite orb_false_r, andb_true_r.
Qed.

(** ** The control register *)

Lemma field_setb x m off w :
  0 <= off -> 0 <= w -> Z.land m (Z.shiftl (Z.ones w) off) = 0 -> field (setb x m) off w = field x off w.
Proof.
  intros Hoff Hw H. unfold field, setb. f_equal. rewrite Z.land_lor_distr_l, H. apply Z.lor_0_r.
Qed.

Lemma field_clear x m off w :
  0 <= off -> 0 <= w -> Z.land m (Z.shiftl (Z.ones w) off) = 0 -> field (clear x m) off w = field x off w.
Proof.
  intros Hoff Hw H. apply Z.bits_inj'. intros n Hn. rewrite !testbit_field by lia.
  destruct (Z.ltb_spec n w); [|done]. simpl. rewrite testbit_clear by lia.
  apply (f_equal (fun z => Z.testbit z (n + off))) in H. rewrite Z.land_spec, Z.shiftl_spec, Z.bits_0 in H by lia.
  replace (n + off - off) with n in H by lia. rewrite Z.testbit_ones_nonneg in H by lia.
  destruct (Z.ltb_spec n w); [|lia]. rewrite andb_true_r in H. rewrite H. apply andb_true_r.
Qed.

Lemma field_u32 x off w : 0 <= off -> 0 <= w -> off + w <= 32 -> field (u32 x) off w = field x off w.
Proof.
  intros. apply Z.bits_inj'. intros n Hn. rewrite !testbit_field by lia.
  destruct (Z.ltb_spec n w); [|done]. rewrite testbit_u32 by lia. destruct (Z.ltb_spec (n + off) 32); [done|lia].
Qed.

(** Source and destination ports as the transfer mode wants them: the block
    describes reading, and writing exchanges the two sides. *)
Definition ports (inf : mx2_dma_info_t) (m ctl : Z) : Prop :=
  let rd := m =? MXC_DMA_MODE_READ in
  field ctl 10 2 = (if rd then sourceType inf else destType inf) /\
  field ctl 4 2 = (if rd then sourcePort inf else destPort inf) /\
  field ctl 12 2 = (if rd then destType inf else sourceType inf) /\
  field ctl 6 2 = (if rd then destPort inf else sourcePort inf).

(** Bits that the port fields do not share. *)
Definition off_ports (m : Z) : Prop := Z.land m 0x3CF0 = 0.

Lemma off_ports_field m off :
  off_ports m -> off ∈ [4; 6; 10; 12] -> Z.land m (Z.shiftl (Z.ones 2) off) = 0.
Proof.
  intros H Ho. unfold off_ports in H.
  assert (Z.shiftl (Z.ones 2) off = Z.land 0x3CF0 (Z.shiftl (Z.ones 2) off)) as ->.
  { repeat (apply elem_of_cons in Ho as [->|Ho]; [reflexivity|]). by apply elem_of_nil in Ho. }
  by rewrite Z.land_assoc, H.
Qed.

Lemma ports_setb inf m ctl x : off_ports x -> ports inf m ctl -> ports inf m (setb ctl x).
Proof.
  intros Hx H. unfold ports in *. rewrite !field_setb by (done || lia || (apply off_ports_field; [done|set_solver])). done.
Qed.

Lemma ports_clear inf m ctl x : off_ports x -> ports inf m ctl -> ports inf m (clear ctl x).
Proof.
  intros Hx H. unfold ports in *. rewrite !field_clear by (done || lia || (apply off_ports_field; [done|set_solver])). done.
Qed.

Lemma ports_u32 inf m ctl : ports inf m ctl -> ports inf m (u32 ctl).
Proof. intros H. unfold ports in *. rewrite !field_u32 by lia. done. Qed.

Lemma info_valid_ports inf :
  info_valid inf = true -> info_ranged inf = true ->
  0 <= sourceType inf < 2 ^ 2 /\ 0 <= destType inf < 2 ^ 2 /\ 0 <= sourcePort inf < 2 ^ 2 /\ 0 <= destPort inf < 2 ^ 2.
Proof. unfold info_valid, info_ranged. simpl. lia. Qed.

Lemma set_ports_fields v a b c d :
  0 <= a < 2 ^ 2 -> 0 <= b < 2 ^ 2 -> 0 <= c < 2 ^ 2 -> 0 <= d < 2 ^ 2 ->
  let x := set_ports v a b c d in field x 10 2 = a /\ field x 4 2 = b /\ field x 12 2 = c /\ field x 6 2 = d.
Proof.
  intros Ha Hb Hc Hd. unfold set_ports, DMA_CTL_SET_DSIZ, DMA_CTL_SET_DMOD, DMA_CTL_SET_SSIZ, DMA_CTL_SET_SMOD.
  cbv zeta. split; [|split; [|split]].
  - rewrite !field_set_field_ne by lia. by apply field_set_field.
  - rewrite !field_set_field_ne by lia. by apply field_set_field.
  - rewrite field_set_field_ne by lia. by apply field_set_field.
  - by apply field_set_field.
Qed.

Lemma set_ports_ports inf m v :
  info_valid inf = true -> info_ranged inf = true ->
  ports inf m (if m =? MXC_DMA_MODE_READ
               then set_ports v (sourceType inf) (sourcePort inf) (destType inf) (destPort inf)
               else set_ports v (destType inf) (destPort inf) (sourceType inf) (sourcePort inf)).
Proof.
  intros H1 H2. destruct (info_valid_ports inf H1 H2) as (Ha & Hb & Hc & Hd). unfold ports.
  destruct (m =? MXC_DMA_MODE_READ); by apply set_ports_fields.
Qed.

Lemma ctl_mask_off : off_ports ctl_mask.
Proof. reflexivity. Qed.
Lemma cen_off : off_ports DMA_CTL_CEN.
Proof. reflexivity. Qed.
Lemma rpt_off : off_ports (setb DMA_CTL_ACRPT DMA_CTL_RPT).
Proof. reflexivity. Qed.

Section Channel.
Context {C : Type} {Clk : ClkProvider C}.
Implicit Types s : dmast.

(** ** Reading through updates *)

Lemma creg_set_reg i o v o' s :
  in_chans i -> chan_off o -> chan_off o' ->
  creg (set_reg v (base i + o) s) i o' = if decide (o = o') then u32 v else creg s i o'.
Proof.
  intros Hi Ho Ho'. unfold creg. cbn [dregs set_reg with_dregs]. case_decide.
  - subst o'. apply read_eq. by apply block_not_status.
  - apply read_ne. lia.
Qed.

Lemma chan_set_eq s i d : shape s -> in_chans i -> chan (set_chan i d s) i = d.
Proof. intros Hs Hi. rewrite chan_set by (done || apply Hs). by rewrite decide_True. Qed.

Lemma priv_set_eq s i p : shape s -> in_chans i -> priv (set_priv i p s) i = p.
Proof. intros Hs Hi. rewrite priv_set by (done || apply Hs). by rewrite decide_True. Qed.

Lemma set_chan_same s i : shape s -> in_chans i -> set_chan i (chan s i) s = s.
Proof.
  intros Hs Hi. unfold set_chan, nth_set, with_chans. rewrite list_insert_id; [by destruct s|].
  pose proof (nth_at_default (g_dma_channels s) chan_zero i (shape_chans s Hs) Hi) as E.
  unfold in_chans in Hi. rewrite nth_at_lookup in E at 1 by lia. exact E.
Qed.

Lemma upd_mode_same d : upd_mode (mode d) d = d.
Proof. by destruct d. Qed.

(** ** What a channel promises *)

Definition regs_hold s (i : Z) (b : mx2_dma_bd_t) : Prop :=
  creg s i SourceAddr = u32 (src_addr b) /\ creg s i DestAddr = u32 (dst_addr b) /\ creg s i Count = u32 (count b).

(** The controller runs the head of the queue and, on a chaining channel, has
    the next descriptor loaded when that descriptor is marked. *)
Definition armed s (i : Z) : Prop :=
  exists h t, queue (priv s i) = h :: t /\ busy h = true /\ bd_mode h = mode (chan s i) /\
    Z.testbit (creg s i Ctl) 0 = true /\
    match t with
    | [] => regs_hold s i h
    | b :: t' =>
        Forall (fun x => busy x = false) t' /\
        (busy b = true -> chaining (priv s i) = true /\ regs_hold s i b /\
           Z.testbit (creg s i Ctl) 2 = true /\ Z.testbit (creg s i Ctl) 14 = true) /\
        (chaining (priv s i) = false -> regs_hold s i h)
    end.

(** A parameter block is installed and the ports follow the mode. *)
Definition configured s (i : Z) (inf : mx2_dma_info_t) : Prop :=
  dma_info (priv s i) = Some inf /\ info_valid inf = true /\ info_ranged inf = true /\
  ports inf (mode (chan s i)) (creg s i Ctl).

(** Chained descriptors all have the channel's mode. *)
Definition one_way s (i : Z) : Prop :=
  chaining (priv s i) = true -> Forall (fun b => bd_mode b = mode (chan s i)) (queue (priv s i)).

(** What [setup_dmac] finds: nothing behind the head is loaded, and a head that
    is already running is the chained one, loaded and enabled. *)
Definition startable s (i : Z) (h : mx2_dma_bd_t) (t : list mx2_dma_bd_t) : Prop :=
  queue (priv s i) = h :: t /\ Forall (fun x => busy x = false) t /\
  (busy h = true -> chaining (priv s i) = true /\ regs_hold s i h /\
     bd_mode h = mode (chan s i) /\ Z.testbit (creg s i Ctl) 0 = true).

(** The state outside the channels is untouched. *)
Record quiet s s' : Prop := mkQuiet {
  quiet_actived : g_dma_actived s' = g_dma_actived s;
  quiet_clks : clks s' = clks s;
  quiet_actions : actions s' = actions s;
  quiet_bits : forall a, a ∈ bit_regs -> readl (dregs s') a = readl (dregs s) a;
}.

Lemma quiet_refl s : quiet s s.
Proof. by split. Qed.

Lemma quiet_trans s1 s2 s3 : quiet s1 s2 -> quiet s2 s3 -> quiet s1 s3.
Proof.
  intros [H1 H2 H3 H4] [K1 K2 K3 K4]. split; try congruence. intros a Ha. by rewrite K4, H4.
Qed.

Lemma quiet_set_reg i o v s : in_chans i -> chan_off o -> quiet s (set_reg v (base i + o) s).
Proof.
  intros Hi Ho. split; try done. intros a Ha. cbn [dregs set_reg with_dregs]. apply read_ne.
  intros <-. by apply (block_not_bit i o).
Qed.

Lemma quiet_set_chan i d s : quiet s (set_chan i d s).
Proof. by split. Qed.

Lemma quiet_set_priv i p s : quiet s (set_priv i p s).
Proof. by split. Qed.

(** One descriptor in the address registers. *)
Definition prog (i : Z) (b : mx2_dma_bd_t) s : dmast :=
  set_reg (count b) (base i + Count) (set_reg (dst_addr b) (base i + DestAddr)
    (set_reg (src_addr b) (base i + SourceAddr) s)).

Ltac off_tac := unfold chan_off, SourceAddr, DestAddr, Count, Ctl, RequestSource, BurstLength, BusUtilt, transferd in *; lia.

Lemma prog_holds i b s : in_chans i -> regs_hold (prog i b s) i b.
Proof.
  intros Hi. unfold prog, regs_hold. rewrite !creg_set_reg by (done || off_tac). done.
Qed.

Lemma creg_prog i b s o : in_chans i -> chan_off o -> Count < o -> creg (prog i b s) i o = creg s i o.
Proof.
  intros Hi Ho Hc. unfold prog. rewrite !creg_set_reg by (done || off_tac).
  rewrite !decide_False by off_tac. done.
Qed.

Lemma priv_prog i b s j : priv (prog i b s) j = priv s j.
Proof. reflexivity. Qed.

Lemma frame_prog i b s : in_chans i -> frame i s (prog i b s).
Proof.
  intros Hi. unfold prog.
  eapply frame_trans; [|apply frame_block; [done|off_tac]].
  eapply frame_trans; [|apply frame_block; [done|off_tac]]. apply frame_block; [done|off_tac].
Qed.

Lemma quiet_prog i b s : in_chans i -> quiet s (prog i b s).
Proof.
  intros Hi. unfold prog.
  eapply quiet_trans; [|apply quiet_set_reg; [done|off_tac]].
  eapply quiet_trans; [|apply quiet_set_reg; [done|off_tac]]. apply quiet_set_reg; [done|off_tac].
Qed.

Lemma wp_program_bd i b (Q : unit -> dmast -> Prop) s : Q tt (prog i b s) -> wp (program_bd (base i) b) Q s.
Proof. done. Qed.

Lemma regs_hold_ext s s' i b b' :
  dregs s' = dregs s -> item_of b' = item_of b -> regs_hold s i b -> regs_hold s' i b'.
Proof. intros E [= Em Ec Es Ed El]. unfold regs_hold, creg. by rewrite E, Ec, Es, Ed. Qed.

Lemma regs_hold_set_priv i p s j b : regs_hold s j b -> regs_hold (set_priv i p s) j b.
Proof. by apply regs_hold_ext. Qed.

Lemma regs_hold_busy s i b : regs_hold s i b -> regs_hold s i (busy_bd b).
Proof. apply regs_hold_ext; [done|apply item_busy_bd]. Qed.

Lemma regs_hold_ctl i v b s : in_chans i -> regs_hold s i b -> regs_hold (set_reg v (base i + Ctl) s) i b.
Proof.
  intros Hi H. unfold regs_hold in *. rewrite !creg_set_reg by (done || off_tac). rewrite !decide_False by off_tac. done.
Qed.

(** Turning the ports of a channel to a descriptor's mode. *)
Lemma wp_turn_channel i inf m v (Q : Z -> dmast -> Prop) s :
  shape s -> in_chans i -> dma_info (priv s i) = Some inf -> info_valid inf = true -> info_ranged inf = true ->
  ports inf (mode (chan s i)) v ->
  (forall v', ports inf m v' -> Q v' (set_chan i (upd_mode m (chan s i)) s)) ->
  wp (turn_channel i (priv s i) m v) Q s.
Proof.
  intros Hs Hi Hinf H1 H2 Hp HQ. unfold turn_channel. apply wp_bind, wp_chan_at; [done..|].
  destruct (Z.eqb_spec m (mode (chan s i))) as [->|Hne]; simpl.
  - apply wp_ret. specialize (HQ v Hp). rewrite upd_mode_same, set_chan_same in HQ by done. exact HQ.
  - apply wp_bind, wp_store_chan. apply wp_bind, (wp_deref _ inf); [done|].
    pose proof (set_ports_ports inf m v H1 H2) as Hports. destruct (m =? MXC_DMA_MODE_READ); apply wp_ret, HQ, Hports.
Qed.

Lemma queue_nonempty p h t : ring_ok p -> queue p = h :: t -> 0 < bd_used p.
Proof. intros H Hq. pose proof (queue_length p (proj1 (ring_used p H))) as Hl. rewrite Hq in Hl. simpl in Hl. lia. Qed.

(** Marking descriptor [k] of the queue as loaded. *)
Lemma wp_mark_busy i k b (Q : unit -> dmast -> Prop) s :
  shape s -> in_chans i -> nth_at (bd_ring (priv s i)) (slot (priv s i) k) = Some b ->
  Q tt (set_priv i (put k (busy_bd b) (priv s i)) s) -> wp (mark_busy i (slot (priv s i) k) b) Q s.
Proof. intros Hs Hi Hb HQ. unfold mark_busy. by apply (wp_store_state _ _ _ b). Qed.

End Channel.

(** Discharges bounds on register offsets. *)
Ltac off_tac := unfold chan_off, SourceAddr, DestAddr, Count, Ctl, RequestSource, BurstLength, BusUtilt, transferd in *; lia.
