(* ===== verification/DmaSetup.v ===== *)
(** * Starting and chaining transfers

    [setup_dmac] on a channel with queued descriptors: it returns, touches only
    its channel, keeps what the client queued, and leaves the channel armed. *)

From stdpp Require Import base list gmap.
From Stdlib Require Import ZArith Lia.
From S2P Require Import Prelude CrmRegs DmaTable Dma DmaRing DmaSteps DmaChannel.

Section Setup.
Context {C : Type} {Clk : ClkProvider C}.
Implicit Types s : dmast.

(** The queue of [p'] is that of [p] up to the progress of its descriptors. *)
Definition same_items (p p' : mx2_dma_priv_t) : Prop := item_of <$> queue p' = item_of <$> queue p.

Record settled (i : Z) (inf : mx2_dma_info_t) (m : Z) s s' : Prop := mkSettled {
  settled_frame : frame i s s';
  settled_quiet : quiet s s';
  settled_chan : chan s' i = upd_mode m (chan s i);
  settled_priv : exists l, priv s' i = upd_ring l (priv s i);
  settled_ring : ring_ok (priv s' i);
  settled_items : same_items (priv s i) (priv s' i);
  settled_armed : armed s' i;
  settled_configured : configured s' i inf;
}.

Lemma Forall_mode_items m l l' :
  item_of <$> l' = item_of <$> l -> Forall (fun b => bd_mode b = m) l -> Forall (fun b => bd_mode b = m) l'.
Proof.
  intros H. change (fun b => bd_mode b = m) with ((fun x => it_mode x = m) ∘ item_of).
  rewrite <- !Forall_fmap, H. done.
Qed.

Lemma settled_one_way i inf m s s' :
  one_way s i -> (chaining (priv s i) = true -> m = mode (chan s i)) -> settled i inf m s s' -> one_way s' i.
Proof.
  intros H1 Hm H Hc. destruct (settled_priv _ _ _ _ _ H) as [l El]. rewrite El in Hc. cbn [chaining upd_ring] in Hc.
  rewrite (settled_chan _ _ _ _ _ H). cbn [mode upd_mode]. rewrite (Hm Hc).
  apply (Forall_mode_items _ (queue (priv s i))); [apply H|by apply H1].
Qed.

(** Marking the head, or the descriptor behind it, keeps the queue's items. *)
Lemma put_head p h t : ring_ok p -> queue p = h :: t -> queue (put 0 (busy_bd h) p) = busy_bd h :: t.
Proof. intros H Hq. rewrite queue_put; [by rewrite Hq|done|]. split; [lia|]. by apply (queue_nonempty p h t). Qed.

Lemma put_second p h b t :
  ring_ok p -> queue p = h :: b :: t -> queue (put 1 (busy_bd b) p) = h :: busy_bd b :: t.
Proof.
  intros H Hq. pose proof (queue_length p (proj1 (ring_used p H))) as Hl. rewrite Hq in Hl. simpl in Hl.
  rewrite queue_put; [by rewrite Hq|done|lia].
Qed.

Ltac side := first [done | off_tac | apply frame_refl | apply quiet_refl].

(** The head is put to work: ports turned, addresses loaded, channel enabled. *)
Definition started (i : Z) (h : mx2_dma_bd_t) (v0 v1 : Z) s : dmast :=
  set_reg v1 (base i + Ctl)
    (set_priv i (put 0 (busy_bd h) (priv s i))
       (prog i h (set_chan i (upd_mode (bd_mode h) (chan s i)) (set_reg v0 (base i + Ctl) s)))).

Lemma started_frame i h v0 v1 s : shape s -> in_chans i -> frame i s (started i h v0 v1 s).
Proof.
  intros Hs Hi. unfold started.
  pose proof (shape_reg v0 (base i + Ctl) s Hs) as Hs1.
  pose proof (shape_chan i (upd_mode (bd_mode h) (chan s i)) _ Hs1 Hi eq_refl eq_refl) as Hs2.
  pose proof (frame_shape _ _ _ (frame_prog i h _ Hi) Hs2) as Hs3.
  eapply frame_trans; [apply (frame_block i Ctl v0); side|].
  eapply frame_trans; [apply (frame_set_chan i (upd_mode (bd_mode h) (chan s i))); done|].
  eapply frame_trans; [apply (frame_prog i h); done|].
  eapply frame_trans; [apply (frame_set_priv i (put 0 (busy_bd h) (priv s i))); done|].
  apply frame_block; side.
Qed.

Lemma started_quiet i h v0 v1 s : in_chans i -> quiet s (started i h v0 v1 s).
Proof.
  intros Hi. unfold started.
  eapply quiet_trans; [apply (quiet_set_reg i Ctl v0); side|].
  eapply quiet_trans; [apply quiet_set_chan|]. eapply quiet_trans; [apply (quiet_prog i h); side|].
  eapply quiet_trans; [apply quiet_set_priv|]. apply quiet_set_reg; side.
Qed.

Lemma started_chan i h v0 v1 s :
  shape s -> in_chans i -> chan (started i h v0 v1 s) i = upd_mode (bd_mode h) (chan s i).
Proof.
  intros Hs Hi. unfold started. change (chan (set_chan i (upd_mode (bd_mode h) (chan s i)) (set_reg v0 (base i + Ctl) s)) i
    = upd_mode (bd_mode h) (chan s i)). apply chan_set_eq; [by apply shape_reg|done].
Qed.

Lemma started_priv i h v0 v1 s :
  shape s -> in_chans i -> priv (started i h v0 v1 s) i = put 0 (busy_bd h) (priv s i).
Proof.
  intros Hs Hi. unfold started.
  change (priv (set_priv i (put 0 (busy_bd h) (priv s i)) s) i = put 0 (busy_bd h) (priv s i)). by apply priv_set_eq.
Qed.

Lemma started_ctl i h v0 v1 s : in_chans i -> creg (started i h v0 v1 s) i Ctl = u32 v1.
Proof. intros Hi. unfold started. rewrite creg_set_reg by side. by rewrite decide_True. Qed.

Lemma started_holds i h v0 v1 s : in_chans i -> regs_hold (started i h v0 v1 s) i h.
Proof. intros Hi. unfold started. apply regs_hold_ctl; [done|]. by apply regs_hold_set_priv, prog_holds. Qed.

Lemma testbit_cen v : Z.testbit (u32 (setb v DMA_CTL_CEN)) 0 = true.
Proof. rewrite testbit_u32, testbit_setb by lia. change (Z.testbit DMA_CTL_CEN 0) with true. by rewrite orb_true_r. Qed.

(** The channel runs its head, and nothing is chained behind it yet. *)
Lemma started_settled i inf h t v0 v1 s :
  shape s -> in_chans i -> ring_ok (priv s i) -> startable s i h t ->
  info_valid inf = true -> info_ranged inf = true -> dma_info (priv s i) = Some inf -> ports inf (bd_mode h) v1 ->
  settled i inf (bd_mode h) s (started i h v0 (setb v1 DMA_CTL_CEN) s).
Proof.
  intros Hs Hi Hr (Hq & Ht & _) H1 H2 Hinf Hp.
  pose proof (started_priv i h v0 (setb v1 DMA_CTL_CEN) s Hs Hi) as Ep.
  pose proof (put_head _ _ _ Hr Hq) as Eq.
  split.
  - by apply started_frame.
  - by apply started_quiet.
  - by apply started_chan.
  - rewrite Ep. by eexists.
  - rewrite Ep. by apply put_ok.
  - unfold same_items. rewrite Ep, Eq, Hq. cbn [fmap list_fmap]. by rewrite item_busy_bd.
  - exists (busy_bd h), t. rewrite Ep, started_chan, started_ctl by done.
    split; [done|]. split; [apply busy_busy_bd|]. split; [done|]. split; [apply testbit_cen|].
    assert (regs_hold (started i h v0 (setb v1 DMA_CTL_CEN) s) i (busy_bd h)) as Hh by by apply regs_hold_busy, started_holds.
    destruct t as [|b t']; [done|]. apply Forall_cons in Ht as [Hb Ht'].
    split; [done|]. split; [by rewrite Hb|done].
  - split; [by rewrite Ep|]. split; [done|]. split; [done|].
    rewrite started_chan, started_ctl by done. apply ports_u32, ports_setb; [apply cen_off|done].
Qed.

(** The descriptor behind a running head is loaded and repetition enabled. *)
Definition chained (i : Z) (b : mx2_dma_bd_t) (v : Z) s : dmast :=
  set_reg v (base i + Ctl) (set_priv i (put 1 (busy_bd b) (priv s i)) (prog i b s)).

Lemma testbit_mask v n :
  n ∈ [0; 2; 14] -> Z.testbit (u32 (setb v ctl_mask)) n = true.
Proof.
  intros Hn. repeat (apply elem_of_cons in Hn as [->|Hn]; [rewrite testbit_u32, testbit_setb by lia; apply orb_true_r|]).
  by apply elem_of_nil in Hn.
Qed.

Lemma chained_settled i inf h b t v s :
  shape s -> in_chans i -> ring_ok (priv s i) -> queue (priv s i) = h :: b :: t -> busy h = true ->
  Forall (fun x => busy x = false) t -> bd_mode h = mode (chan s i) ->
  chaining (priv s i) = true -> configured s i inf -> ports inf (mode (chan s i)) v ->
  settled i inf (mode (chan s i)) s (chained i b (setb v ctl_mask) s).
Proof.
  intros Hs Hi Hr Hq Hh Ht Hm Hc (Hinf & H1 & H2 & _) Hp.
  set (s' := chained i b (setb v ctl_mask) s).
  assert (priv s' i = put 1 (busy_bd b) (priv s i)) as Ep.
  { change (priv (set_priv i (put 1 (busy_bd b) (priv s i)) s) i = put 1 (busy_bd b) (priv s i)). by apply priv_set_eq. }
  assert (chan s' i = chan s i) as Ec by done.
  assert (creg s' i Ctl = u32 (setb v ctl_mask)) as Ectl.
  { unfold s', chained. rewrite creg_set_reg by side. by rewrite decide_True. }
  pose proof (put_second _ _ _ _ Hr Hq) as Eq.
  pose proof (frame_shape _ _ _ (frame_prog i b s Hi) Hs) as Hs1.
  split.
  - eapply frame_trans; [apply (frame_prog i b); done|].
    eapply frame_trans; [apply (frame_set_priv i (put 1 (busy_bd b) (priv s i))); done|]. apply frame_block; side.
  - eapply quiet_trans; [|apply quiet_set_reg; side]. eapply quiet_trans; [apply (quiet_prog i b); done|]. apply quiet_set_priv.
  - by rewrite upd_mode_same.
  - rewrite Ep. by eexists.
  - rewrite Ep. by apply put_ok.
  - unfold same_items. rewrite Ep, Eq, Hq. cbn [fmap list_fmap]. by rewrite item_busy_bd.
  - exists h, (busy_bd b :: t). rewrite Ep, Ec, Ectl. split; [done|]. split; [done|]. split; [done|].
    split; [apply testbit_mask; set_solver|]. split; [done|]. split.
    + intros _. split; [done|]. split; [unfold s', chained; by apply regs_hold_busy, regs_hold_ctl, regs_hold_set_priv, prog_holds|].
      split; apply testbit_mask; set_solver.
    + cbn [chaining put upd_ring]. by rewrite Hc.
  - split; [by rewrite Ep|]. split; [done|]. split; [done|]. rewrite Ec, Ectl.
    apply ports_u32, ports_setb; [apply ctl_mask_off|done].
Qed.

Lemma settled_trans i inf m s1 s2 s3 :
  settled i inf m s1 s2 -> settled i inf m s2 s3 -> settled i inf m s1 s3.
Proof.
  intros H K. destruct (settled_priv _ _ _ _ _ H) as [l El], (settled_priv _ _ _ _ _ K) as [l' El'].
  split; try apply K.
  - eapply frame_trans; [apply H|apply K].
  - eapply quiet_trans; [apply H|apply K].
  - rewrite (settled_chan _ _ _ _ _ K), (settled_chan _ _ _ _ _ H). done.
  - exists l'. rewrite El', El. done.
  - unfold same_items. rewrite (settled_items _ _ _ _ _ K). apply H.
Qed.

(** Repetition is switched off when the last descriptor is running. *)
Lemma last_settled i inf h s :
  shape s -> in_chans i -> ring_ok (priv s i) -> queue (priv s i) = [h] -> busy h = true -> bd_mode h = mode (chan s i) ->
  regs_hold s i h -> Z.testbit (creg s i Ctl) 0 = true -> configured s i inf ->
  settled i inf (mode (chan s i)) s
    (set_reg (clear (creg s i Ctl) (setb DMA_CTL_ACRPT DMA_CTL_RPT)) (base i + Ctl) s).
Proof.
  intros Hs Hi Hr Hq Hh Hm Hregs Hcen (Hinf & H1 & H2 & Hp).
  set (v := clear (creg s i Ctl) (setb DMA_CTL_ACRPT DMA_CTL_RPT)).
  assert (creg (set_reg v (base i + Ctl) s) i Ctl = u32 v) as Ectl.
  { rewrite creg_set_reg by side. by rewrite decide_True. }
  split; try done.
  - apply frame_block; side.
  - apply quiet_set_reg; side.
  - by rewrite upd_mode_same.
  - exists (bd_ring (priv s i)). change (priv (set_reg v (base i + Ctl) s) i) with (priv s i). by destruct (priv s i).
  - exists h, []. rewrite Ectl. split; [done|]. split; [done|]. split; [done|]. split.
    + unfold v. rewrite testbit_u32, testbit_clear, Hcen by lia. reflexivity.
    + by apply regs_hold_ctl.
  - split; [done|]. split; [done|]. split; [done|]. rewrite Ectl. apply ports_u32, ports_clear; [apply rpt_off|done].
Qed.

(** The descriptor behind the head is loaded but not marked, because an event of
    the channel is already pending: the interrupt handler will start it. *)
Lemma raced_settled i inf h b t v s :
  shape s -> in_chans i -> ring_ok (priv s i) -> queue (priv s i) = h :: b :: t -> busy h = true -> busy b = false ->
  Forall (fun x => busy x = false) t -> bd_mode h = mode (chan s i) ->
  chaining (priv s i) = true -> configured s i inf -> ports inf (mode (chan s i)) v ->
  settled i inf (mode (chan s i)) s (set_reg (setb v ctl_mask) (base i + Ctl) (prog i b s)).
Proof.
  intros Hs Hi Hr Hq Hh Hb Ht Hm Hc (Hinf & H1 & H2 & _) Hp.
  assert (creg (set_reg (setb v ctl_mask) (base i + Ctl) (prog i b s)) i Ctl = u32 (setb v ctl_mask)) as Ectl.
  { rewrite creg_set_reg by side. by rewrite decide_True. }
  split; try done.
  - eapply frame_trans; [apply (frame_prog i b); done|]. apply frame_block; side.
  - eapply quiet_trans; [apply (quiet_prog i b); done|]. apply quiet_set_reg; side.
  - by rewrite upd_mode_same.
  - exists (bd_ring (priv s i)). change (priv s i = upd_ring (bd_ring (priv s i)) (priv s i)). by destruct (priv s i).
  - exists h, (b :: t). rewrite Ectl. split; [done|]. split; [done|]. split; [done|].
    split; [apply testbit_mask; set_solver|]. split; [done|]. split.
    + by rewrite Hb.
    + intros Hf. change (chaining (priv s i) = false) in Hf. by rewrite Hc in Hf.
  - split; [done|]. split; [done|]. split; [done|]. rewrite Ectl. apply ports_u32, ports_setb; [apply ctl_mask_off|done].
Qed.

Lemma wp_event reg ch flag m (Q : Z -> dmast -> Prop) s : (forall v, Q v s) -> wp (event reg ch flag m) Q s.
Proof. intros H. apply H. Qed.

Lemma wp_get_interrupt ch (Q : Z -> dmast -> Prop) s : (forall v, Q v s) -> wp (__get_dma_interrupt ch) Q s.
Proof.
  intros H. unfold __get_dma_interrupt. do 4 (apply wp_bind, wp_event; intros ?). apply wp_event, H.
Qed.

(** Loading the descriptor behind a running head. *)
Lemma wp_chain i inf h b t v s :
  shape s -> in_chans i -> ring_ok (priv s i) -> queue (priv s i) = h :: b :: t -> busy h = true ->
  Forall (fun x => busy x = false) t -> bd_mode h = mode (chan s i) ->
  chaining (priv s i) = true -> configured s i inf -> ports inf (mode (chan s i)) v ->
  wp (program_bd (base i) b;; mark_busy i (slot (priv s i) 1) b;; dwr (setb v ctl_mask) (base i + Ctl))
    (fun _ s' => settled i inf (mode (chan s i)) s s') s.
Proof.
  intros Hs Hi Hr Hq Hh Ht Hm Hc Hcf Hv. apply wp_bind, wp_program_bd. apply wp_bind.
  rewrite <- (priv_prog i b s i). apply (wp_mark_busy i 1 b _ (prog i b s)); [by apply (frame_shape _ _ _ (frame_prog i b s Hi))|done|..].
  { by apply (queue_second _ h b t). }
  apply wp_dwr. exact (chained_settled i inf h b t v s Hs Hi Hr Hq Hh Ht Hm Hc Hcf Hv).
Qed.

(** The second half of starting a chaining channel. *)
Lemma chain_second i inf h b t v s s1 :
  shape s1 -> in_chans i -> ring_ok (priv s i) -> startable s i h (b :: t) -> chaining (priv s i) = true ->
  priv s1 i = put 0 (busy_bd h) (priv s i) -> bd_mode h = mode (chan s1 i) ->
  settled i inf (bd_mode h) s s1 -> ports inf (bd_mode h) v ->
  wp (x ← deref (nth_at (bd_ring (priv s i)) (slot (priv s i) 1));
      program_bd (base i) x;; mark_busy i (slot (priv s i) 1) x;;
      dwr (setb (setb v DMA_CTL_CEN) ctl_mask) (base i + Ctl))
    (fun _ s' => settled i inf (bd_mode h) s s') s1.
Proof.
  intros Hs1 Hi Hr (Hq & Ht & _) Hc Ep Em Hset Hv. apply Forall_cons in Ht as [Hb Ht].
  apply wp_bind, (wp_deref _ b); [by apply (queue_second _ h b t)|].
  assert (slot (priv s i) 1 = slot (priv s1 i) 1) as -> by by rewrite Ep.
  eapply wp_mono.
  - apply (wp_chain i inf (busy_bd h) b t (setb v DMA_CTL_CEN) s1); try done.
    + apply Hset.
    + rewrite Ep. by apply put_head.
    + apply busy_busy_bd.
    + by rewrite Ep.
    + apply Hset.
    + rewrite <- Em. apply ports_setb; [apply cen_off|done].
  - intros u s' H. eapply settled_trans; [exact Hset|]. by rewrite Em.
Qed.

Lemma setup_dmac_spec i inf h t s :
  shape s -> in_chans i -> ring_ok (priv s i) -> active (chan s i) = true -> startable s i h t ->
  configured s i inf ->
  wp (setup_dmac i) (fun _ s' => settled i inf (bd_mode h) s s') s.
Proof.
  intros Hs Hi Hr Ha Hst Hcf. destruct Hst as (Hq & Ht & Hbusy) eqn:Est. clear Est.
  destruct Hcf as (Hinf & H1 & H2 & Hp) eqn:Ecf. clear Ecf.
  unfold setup_dmac. apply wp_bind, wp_chan_at; [done..|].
  apply wp_bind, (wp_deref _ i); [by apply Hs|]. apply wp_bind, wp_priv_at; [done..|]. cbv zeta.
  rewrite Ha. cbn [negb]. destruct (Z.leb_spec (bd_used (priv s i)) 0) as [Hle|_].
  { pose proof (queue_nonempty _ _ _ Hr Hq). lia. }
  apply wp_bind, (wp_deref _ h); [by apply (queue_head _ h t)|].
  rewrite (next_bd _ h t) by done. rewrite (shape_base s Hs i Hi).
  destruct (busy h) eqn:Hh; unfold busy in Hh.
  - destruct (Hbusy eq_refl) as (Hc & Hregs & Hm & Hcen).
    apply negb_true_iff in Hh as Hh'. rewrite Hh'. rewrite Hc. cbn [negb]. rewrite Hm.
    destruct t as [|b t].
    + apply wp_bind, wp_drd, wp_dwr. by apply (last_settled i inf h).
    + apply Forall_cons in Ht as [Hb Ht].
      apply wp_bind, (wp_deref _ b); [by apply (queue_second _ h b t)|].
      apply wp_bind, wp_program_bd. apply wp_bind, wp_drd. apply wp_bind, wp_dwr. apply wp_bind, wp_get_interrupt.
      intros v.
      assert (ports inf (mode (chan s i)) (creg (prog i b s) i Ctl)) as Hp' by (rewrite creg_prog by side; done).
      destruct (v =? 0).
      * apply (wp_mark_busy i 1 b (fun _ s' => _) (set_reg _ (base i + Ctl) (prog i b s)));
          [by apply shape_reg, (frame_shape _ _ _ (frame_prog i b s Hi))|done|by apply (queue_second _ h b t)|].
        exact (chained_settled i inf h b t _ s Hs Hi Hr Hq Hh Ht Hm Hc Hcf Hp').
      * apply wp_ret. by apply (raced_settled i inf h b t).
  - apply negb_false_iff in Hh as Hh'. rewrite Hh'.
    apply wp_bind, wp_drd. apply wp_bind, wp_dwr.
    apply wp_bind, (wp_turn_channel i inf (bd_mode h) _ _ (set_reg _ _ s)); try done; [by apply shape_reg|..].
    { apply ports_clear; [apply ctl_mask_off|done]. }
    intros v Hv. apply wp_bind, wp_program_bd. apply wp_bind. rewrite <- (slot_0 (priv s i)) by apply Hr.
    set (v0 := clear (readl (dregs s) (base i + Ctl)) ctl_mask).
    pose proof (started_settled i inf h t v0 v s Hs Hi Hr Hst H1 H2 Hinf Hv) as Hset.
    match goal with |- wp _ _ ?S => apply (wp_mark_busy i 0 h _ S) end;
      [|done|exact (eq_trans (f_equal _ (slot_0 _ (ring_rd _ Hr))) (queue_head _ h t Hr Hq))|].
    { apply (frame_shape _ _ _ (frame_prog i h _ Hi)), shape_chan; [by apply shape_reg|done..]. }
    apply wp_bind, wp_dwr.
    destruct t as [|b t]; [by apply wp_ret|]. destruct (chaining (priv s i)) eqn:Hc; [|by apply wp_ret].
    apply (chain_second i inf h b t v s (started i h v0 (setb v DMA_CTL_CEN) s)); try done.
    + by apply (settled_frame _ _ _ _ _ Hset).
    + by apply started_priv.
    + by rewrite started_chan.
Qed.

End Setup.
