(* ===== verification/DmaInv.v ===== *)
(** * The driver's invariant, and the steps outside the channels

    [chan_inv] is what every channel keeps; [dma_inv] adds the count of running
    channels, the installed handlers and the references to the controller's
    clock.  The clock API enters through [ClkLaws]: enabling adds a reference,
    disabling removes one, and disabling a clock nobody holds does nothing. *)

From stdpp Require Import base list gmap strings.
From Stdlib Require Import ZArith Lia.
From S2P Require Import Prelude CrmRegs DmaTable Dma DmaRing DmaSteps DmaChannel DmaSetup.

(** What the driver relies on in the clock framework.  [cl_held h n c]: this
    driver holds [n] references to the clock [h]; at most [cl_room] fit. *)
Class ClkLaws (C : Type) {Clk : ClkProvider C} : Type := {
  cl_held : handle -> Z -> C -> Prop;
  cl_room : Z;
  cl_fresh : C -> Prop;
  cl_room_pos : 1 < cl_room;
  cl_get_ok c : cl_fresh c -> wp (cl_get "dma_clk") (fun h c' => cl_held h 0 c') c;
  cl_enable_ok h n c :
    0 <= n < cl_room -> cl_held h n c -> wp (cl_enable h) (fun r c' => r = 0 /\ cl_held h (n + 1) c') c;
  cl_disable_ok h n c : 0 < n -> cl_held h n c -> wp (cl_disable h) (fun _ c' => cl_held h (n - 1) c') c;
  cl_disable_idle h c : cl_held h 0 c -> wp (cl_disable h) (fun _ c' => cl_held h 0 c') c;
}.

(** ** Sums over the channels *)

Definition total (f : Z -> Z) (l : list Z) : Z := foldr (fun j a => f j + a) 0 l.

Lemma total_ext f g l : (forall j, j ∈ l -> f j = g j) -> total f l = total g l.
Proof.
  induction l as [|x l IH]; intros H; [done|]. simpl. rewrite IH, H; [done|set_solver..].
Qed.

Lemma total_upd f g i l :
  NoDup l -> i ∈ l -> (forall j, j ∈ l -> j <> i -> g j = f j) -> total g l = total f l + g i - f i.
Proof.
  induction l as [|x l IH]; intros Hd Hi H; [by apply elem_of_nil in Hi|].
  apply NoDup_cons in Hd as [Hx Hd]. simpl. destruct (decide (x = i)) as [->|Hne].
  - rewrite (total_ext g f l); [lia|]. intros j Hj. apply H; [set_solver|]. by intros ->.
  - rewrite IH; [|done|set_solver|intros j Hj; apply H; set_solver]. rewrite (H x) by set_solver. lia.
Qed.

Lemma total_range f l : (forall j, 0 <= f j <= 1) -> 0 <= total f l <= Z.of_nat (length l).
Proof. intros H. induction l as [|x l IH]; simpl; [lia|]. specialize (H x). lia. Qed.

Lemma total_pos f l i : (forall j, 0 <= f j) -> i ∈ l -> f i <= total f l.
Proof.
  intros H. induction l as [|x l IH]; intros Hi; [by apply elem_of_nil in Hi|]. simpl.
  assert (0 <= total f l) as Hnn by (clear IH Hi; induction l as [|y l IH]; simpl; [lia|specialize (H y); lia]).
  apply elem_of_cons in Hi as [->|Hi]; [lia|]. specialize (IH Hi). specialize (H x). lia.
Qed.

Section Inv.
Context {C : Type} {Clk : ClkProvider C}.
Implicit Types s : dmast.

(** ** The invariant of a channel *)

Definition idle_queue s (i : Z) : Prop := Forall (fun b => busy b = false) (queue (priv s i)).

Record chan_inv s (i : Z) : Prop := mkChanInv {
  inv_ring : ring_ok (priv s i);
  inv_lock : lock (chan s i) = 0 \/ lock (chan s i) = 1;
  inv_free : lock (chan s i) = 0 -> active (chan s i) = false;
  inv_configured : lock (chan s i) = 1 -> exists inf, configured s i inf;
  inv_queue : if active (chan s i) then armed s i else idle_queue s i;
  inv_one_way : one_way s i;
}.

(** The variables of channel [i] are the same, and so are the registers that the
    driver programs for a transfer. *)
Record same_chan (i : Z) s s' : Prop := mkSame {
  same_c : chan s' i = chan s i;
  same_p : priv s' i = priv s i;
  same_r : forall o, 0 <= o <= Ctl -> creg s' i o = creg s i o;
}.

Lemma same_chan_trans i s1 s2 s3 : same_chan i s1 s2 -> same_chan i s2 s3 -> same_chan i s1 s3.
Proof.
  intros [H1 H2 H3] [K1 K2 K3]. split; [congruence..|]. intros o Ho. by rewrite K3, H3.
Qed.

Lemma frame_same i j s s' : frame i s s' -> in_chans j -> j <> i -> same_chan j s s'.
Proof. intros H Hj Hij. split; [by apply H|by apply H|]. intros o Ho. apply H; [done|off_tac|done]. Qed.

Lemma regs_hold_same i s s' b : same_chan i s s' -> regs_hold s i b -> regs_hold s' i b.
Proof. intros H. unfold regs_hold. by rewrite !(same_r _ _ _ H) by off_tac. Qed.

Lemma armed_same i s s' : same_chan i s s' -> armed s i -> armed s' i.
Proof.
  intros H (h & t & Hq & Hb & Hm & Hc & Ht). pose proof (same_r _ _ _ H Ctl ltac:(off_tac)) as Ec.
  exists h, t. rewrite (same_p _ _ _ H), (same_c _ _ _ H), Ec.
  repeat (split; [done|]). destruct t as [|b t]; [by apply (regs_hold_same i s)|].
  destruct Ht as (H1 & H2 & H3). split; [done|]. split.
  - intros Hb'. destruct (H2 Hb') as (? & ? & ? & ?). split; [done|]. split; [by apply (regs_hold_same i s)|]. done.
  - intros Hc'. by apply (regs_hold_same i s), H3.
Qed.

Lemma configured_same i inf s s' : same_chan i s s' -> configured s i inf -> configured s' i inf.
Proof. intros H. unfold configured. rewrite (same_p _ _ _ H), (same_c _ _ _ H), (same_r _ _ _ H) by off_tac. done. Qed.

Lemma one_way_same i s s' : same_chan i s s' -> one_way s i -> one_way s' i.
Proof. intros H. unfold one_way. by rewrite (same_p _ _ _ H), (same_c _ _ _ H). Qed.

Lemma chan_inv_same i s s' : same_chan i s s' -> chan_inv s i -> chan_inv s' i.
Proof.
  intros H [H1 H2 H3 H4 H5 H6]. split; try (by rewrite ?(same_p _ _ _ H), ?(same_c _ _ _ H)).
  - rewrite (same_c _ _ _ H). intros Hl. destruct (H4 Hl) as [inf Hi]. exists inf. by apply (configured_same i inf s).
  - rewrite (same_c _ _ _ H). destruct (active (chan s i)); [by apply (armed_same i s)|].
    unfold idle_queue. by rewrite (same_p _ _ _ H).
  - by apply (one_way_same i s).
Qed.

(** ** Steps that concern no channel: the clock of the controller *)

Record clock_only s s' : Prop := mkClockOnly {
  co_chans : g_dma_channels s' = g_dma_channels s;
  co_privs : g_dma_privates s' = g_dma_privates s;
  co_actived : g_dma_actived s' = g_dma_actived s;
  co_clk : dma_clk s' = dma_clk s;
  co_actions : actions s' = actions s;
  co_regs : forall a, a <> DMA_REG DMA_DCR -> readl (dregs s') a = readl (dregs s) a;
}.

Lemma clock_only_refl s : clock_only s s.
Proof. by split. Qed.

Lemma dcr_not_bit : DMA_REG DMA_DCR ∉ bit_regs.
Proof. intros H%bit_regs_low. change (DMA_REG DMA_DCR) with DMA_WINDOW in H. lia. Qed.

Lemma clock_only_chan s s' i : clock_only s s' -> chan s' i = chan s i.
Proof. intros H. unfold chan. by rewrite (co_chans _ _ H). Qed.

Lemma clock_only_priv s s' i : clock_only s s' -> priv s' i = priv s i.
Proof. intros H. unfold priv. by rewrite (co_privs _ _ H). Qed.

Lemma clock_only_creg s s' i o : clock_only s s' -> in_chans i -> chan_off o -> creg s' i o = creg s i o.
Proof.
  intros H Hi Ho. unfold creg. apply (co_regs _ _ H). apply not_eq_sym, low_not_block; [|done..].
  change (DMA_REG DMA_DCR) with DMA_WINDOW. lia.
Qed.

Lemma clock_only_same s s' i : clock_only s s' -> in_chans i -> same_chan i s s'.
Proof.
  intros H Hi. split; [by apply clock_only_chan|by apply clock_only_priv|]. intros o Ho. apply clock_only_creg; [done..|off_tac].
Qed.

Lemma clock_only_shape s s' : clock_only s s' -> shape s -> shape s'.
Proof.
  intros H Hs. split.
  - rewrite (co_chans _ _ H). apply Hs.
  - rewrite (co_privs _ _ H). apply Hs.
  - intros i Hi. rewrite (clock_only_chan _ _ i H). by apply Hs.
  - intros i Hi. rewrite (clock_only_chan _ _ i H). by apply Hs.
  - intros i Hi. rewrite (clock_only_priv _ _ i H). by apply Hs.
  - intros i Hi. rewrite (clock_only_priv _ _ i H). by apply Hs.
Qed.

Lemma clock_only_frame i s s' : clock_only s s' -> frame i s s'.
Proof.
  intros H. split.
  - by apply clock_only_shape.
  - intros j _ _. by apply clock_only_chan.
  - intros j _ _. by apply clock_only_priv.
  - intros j o Hj Ho _. by apply clock_only_creg.
  - intros a j Ha _ _. rewrite (co_regs _ _ H); [done|]. intros ->. by apply dcr_not_bit.
  - apply H.
Qed.

Lemma clock_only_trans s1 s2 s3 : clock_only s1 s2 -> clock_only s2 s3 -> clock_only s1 s3.
Proof.
  intros [H1 H2 H3 H4 H5 H6] [K1 K2 K3 K4 K5 K6]. split; try congruence. intros a Ha. by rewrite K6, H6.
Qed.

Lemma clock_only_dcr v s : clock_only s (set_reg v (DMA_REG DMA_DCR) s).
Proof. split; try done. intros a Ha. apply read_ne. by apply not_eq_sym. Qed.

Lemma clock_only_clks c s : clock_only s (with_clks c s).
Proof. by split. Qed.

(** ** References to the clock *)

Context {Laws : ClkLaws C}.

Definition holds (n : Z) s : Prop := cl_held (dma_clk s) n (clks s).

Lemma enable_clk_spec n s (Q : unit -> dmast -> Prop) :
  holds n s -> 0 <= n -> (g_dma_actived s = 0 -> n < cl_room) ->
  (forall s', clock_only s s' -> holds (if g_dma_actived s =? 0 then n + 1 else n) s' -> Q tt s') ->
  wp enable_dma_clk Q s.
Proof.
  intros Hh Hn Hroom HQ. unfold enable_dma_clk. apply wp_bind, wp_gets. destruct (Z.eqb_spec (g_dma_actived s) 0).
  - unfold __enable_dma_clk. apply wp_bind, wp_gets. apply wp_bind, wp_on_clks.
    eapply wp_mono; [apply (cl_enable_ok _ n); [split; [done|by apply Hroom]|done]|]. intros r c [_ Hc].
    apply wp_bind, wp_drd, wp_dwr. apply HQ; [|done].
    eapply clock_only_trans; [apply (clock_only_clks c)|apply clock_only_dcr].
  - apply wp_ret, HQ; [apply clock_only_refl|done].
Qed.

Lemma disable_clk_spec n s (Q : unit -> dmast -> Prop) :
  holds n s -> 0 <= n ->
  (forall s', clock_only s s' -> holds (if g_dma_actived s =? 0 then Z.max 0 (n - 1) else n) s' -> Q tt s') ->
  wp disable_dma_clk Q s.
Proof.
  intros Hh Hn HQ. unfold disable_dma_clk. apply wp_bind, wp_gets. destruct (g_dma_actived s =? 0).
  - unfold __disable_dma_clk. apply wp_bind, wp_drd. apply wp_bind, wp_dwr. apply wp_bind, wp_gets.
    apply wp_on_clks.
    assert (forall c', cl_held (dma_clk s) (Z.max 0 (n - 1)) c' ->
      Q tt (with_clks c' (set_reg (clear (readl (dregs s) (DMA_REG DMA_DCR)) 1) (DMA_REG DMA_DCR) s))) as HQ'.
    { intros c' Hc'. apply HQ; [|done]. eapply clock_only_trans; [apply clock_only_dcr|apply clock_only_clks]. }
    destruct (decide (n = 0)) as [->|Hne].
    + eapply wp_mono; [apply cl_disable_idle; exact Hh|]. intros [] c' Hc'. by apply HQ'.
    + eapply wp_mono; [apply (cl_disable_ok _ n); [lia|exact Hh]|]. intros [] c' Hc'. apply HQ'.
      by replace (Z.max 0 (n - 1)) with (n - 1) by lia.
  - apply wp_ret, HQ; [apply clock_only_refl|done].
Qed.

End Inv.
