(* ===== verification/DmaOps.v ===== *)
(** * What the driver's operations do to a channel

    The abstract channel [achan] forgets the ring, the progress flags and the
    registers.  Each operation of the driver is shown to return, to keep the
    invariant, to act on its own channel as specified and to leave the others
    alone. *)

From stdpp Require Import base list gmap strings.
From Stdlib Require Import ZArith Lia.
From S2P Require Import Prelude CrmRegs DmaTable Dma DmaRing DmaSteps DmaChannel DmaSetup DmaInv.

(** ** Abstract channels *)

Record achan : Type := mkAchan {
  a_owned : bool;
  a_running : bool;
  a_chain : bool;
  a_mode : Z;
  a_queue : list item;
  a_cb : option Z;
  a_arg : Z;
  a_bytes : Z;
  a_info : option mx2_dma_info_t;
  a_dynamic : bool;
}.

(** The controller is given the queue [q]: it runs the first item, or stops. *)
Definition a_load (q : list item) (a : achan) : achan :=
  match q with
  | [] => mkAchan (a_owned a) false (a_chain a) (a_mode a) [] (a_cb a) (a_arg a) (a_bytes a) (a_info a) (a_dynamic a)
  | h :: _ => mkAchan (a_owned a) true (a_chain a) (it_mode h) q (a_cb a) (a_arg a) (a_bytes a) (a_info a) (a_dynamic a)
  end.

Lemma a_load_same a :
  a_running a = true -> (exists h, head (a_queue a) = Some h /\ it_mode h = a_mode a) -> a_load (a_queue a) a = a.
Proof.
  intros Hr (h & Hh & Hm). destruct a as [o r c m q cb ar by_ inf dy]. cbn in *. destruct q as [|h' q]; [done|].
  injection Hh as ->. by rewrite <- Hm, Hr.
Qed.

Definition a_append (l : list item) (a : achan) : achan :=
  mkAchan (a_owned a) (a_running a) (a_chain a) (a_mode a) (a_queue a ++ l) (a_cb a) (a_arg a) (a_bytes a) (a_info a) (a_dynamic a).

Definition a_set_bytes (n : Z) (a : achan) : achan :=
  mkAchan (a_owned a) (a_running a) (a_chain a) (a_mode a) (a_queue a) (a_cb a) (a_arg a) n (a_info a) (a_dynamic a).

Section Ops.
Context {C : Type} {Clk : ClkProvider C}.
Implicit Types s : dmast.

Definition abs_of (d : mxc_dma_channel_t) (p : mx2_dma_priv_t) : achan :=
  mkAchan (lock d =? 1) (active d) (chaining p) (mode d) (item_of <$> queue p) (cb_fn d) (cb_args d)
    (trans_bytes p) (dma_info p) (dynamic d).

Definition abs s (i : Z) : achan := abs_of (chan s i) (priv s i).

Lemma abs_same i s s' : same_chan i s s' -> abs s' i = abs s i.
Proof. intros H. unfold abs. by rewrite (same_c _ _ _ H), (same_p _ _ _ H). Qed.

(** The parts of the state that belong to no channel and to no register. *)
Record still s s' : Prop := mkStill {
  still_actived : g_dma_actived s' = g_dma_actived s;
  still_clks : clks s' = clks s;
  still_actions : actions s' = actions s;
}.

Lemma still_refl s : still s s.
Proof. by split. Qed.

Lemma still_trans s1 s2 s3 : still s1 s2 -> still s2 s3 -> still s1 s3.
Proof. intros [] []. split; congruence. Qed.

Lemma quiet_still s s' : quiet s s' -> still s s'.
Proof. intros []. by split. Qed.

Lemma still_reg v a s : still s (set_reg v a s).
Proof. by split. Qed.

(** The step from [s] to [s'] turned channel [i] into [a]. *)
Record acts (i : Z) (a : achan) s s' : Prop := mkActs {
  acts_frame : frame i s s';
  acts_inv : chan_inv s' i;
  acts_abs : abs s' i = a;
}.

(** ** Interrupt events *)

Definition has_event s (reg ch : Z) : bool := Z.testbit (readl (dregs s) (DMA_REG reg)) ch.

Definition add_event (b : bool) (flag m : Z) : Z := if b then setb m flag else m.

(** What [__get_dma_interrupt] returns. *)
Definition events s (ch : Z) : Z :=
  add_event (has_event s DMA_DRTOSR ch) DMA_REQUEST_TIMEOUT
    (add_event (has_event s DMA_DBOSR ch) DMA_BUFFER_OVERFLOW
      (add_event (has_event s DMA_DSESR ch) DMA_TRANSFER_ERROR
        (add_event (has_event s DMA_DBTOSR ch) DMA_BURST_TIMEOUT
          (add_event (has_event s DMA_DISR ch) DMA_DONE 0)))).

Lemma event_run reg ch flag m s :
  0 <= ch -> event reg ch flag m s = Ret (add_event (has_event s reg ch) flag m, s).
Proof.
  intros Hch. unfold event, drd, gets, mbind, M_bind, mret, M_ret, has_event, add_event.
  rewrite land_bit by done. by destruct (Z.testbit _ ch).
Qed.

Lemma get_interrupt_run ch s : 0 <= ch -> __get_dma_interrupt ch s = Ret (events s ch, s).
Proof.
  intros Hch. unfold __get_dma_interrupt.
  do 4 (erewrite run_bind by (by apply event_run)). by rewrite event_run.
Qed.

Definition acked (i : Z) s : dmast :=
  set_reg (bit i) (DMA_REG DMA_DBOSR) (set_reg (bit i) (DMA_REG DMA_DSESR) (set_reg (bit i) (DMA_REG DMA_DRTOSR)
    (set_reg (bit i) (DMA_REG DMA_DBTOSR) (set_reg (bit i) (DMA_REG DMA_DISR) s)))).

Lemma wp_clear_interrupt i (Q : Z -> dmast -> Prop) s :
  in_chans i -> Q (events s i) (acked i s) -> wp (__clear_dma_interrupt i) Q s.
Proof.
  intros Hi HQ. unfold __clear_dma_interrupt. apply wp_bind. unfold wp at 1.
  rewrite get_interrupt_run by apply Hi. exact HQ.
Qed.

Lemma status_elem o : o ∈ [DMA_DISR; DMA_DBTOSR; DMA_DRTOSR; DMA_DSESR; DMA_DBOSR] -> DMA_REG o ∈ status_regs.
Proof. intros H. unfold status_regs. by apply list_elem_of_fmap_2. Qed.

Lemma acked_frame i s : in_chans i -> frame i s (acked i s).
Proof.
  intros Hi. unfold acked.
  repeat (eapply frame_trans; [|apply frame_status; [apply status_elem; set_solver|done]]). apply frame_refl.
Qed.

Lemma creg_low v o j o' s : o < 0x80 -> in_chans j -> chan_off o' -> creg (set_reg v (DMA_REG o) s) j o' = creg s j o'.
Proof.
  intros Ho Hj Ho'. unfold creg. cbn [dregs set_reg with_dregs]. apply read_ne, low_not_block; [|done..].
  rewrite DMA_REG_eq. lia.
Qed.

Lemma same_low v o j s : o < 0x80 -> in_chans j -> same_chan j s (set_reg v (DMA_REG o) s).
Proof. intros Ho Hj. split; [done..|]. intros o' Ho'. apply creg_low; [done..|off_tac]. Qed.

Lemma acked_same i j s : in_chans j -> same_chan j s (acked i s).
Proof.
  intros Hj. unfold acked. repeat (eapply same_chan_trans; [|apply same_low; [done|done]]). by split.
Qed.

Lemma acked_still i s : still s (acked i s).
Proof. by split. Qed.

(** ** Queueing one descriptor *)

Lemma Forall_snoc {A} (P : A -> Prop) l x : Forall P (l ++ [x]) <-> Forall P l /\ P x.
Proof. rewrite Forall_app, Forall_singleton. done. Qed.

Definition slots_ok (sel : mx2_dma_priv_t -> option Z) : Prop :=
  forall p k, ring_ok p -> sel p = Some k -> is_Some (nth_at (bd_ring p) k).

Lemma slots_rd : slots_ok (fun p => Some (bd_rd p)).
Proof. intros p k H [= <-]. apply nth_at_in. rewrite (ring_length p H). apply H. Qed.

Lemma slots_next : slots_ok next_dma_bd.
Proof.
  intros p k H. unfold next_dma_bd. rewrite rem_next by apply H. destruct (_ =? _); [done|]. intros [= <-].
  rewrite ring_slot by done. by eexists.
Qed.

(** The channel with one more descriptor, before a running chain is extended. *)
Lemma pushed_inv i b s :
  shape s -> in_chans i -> chan_inv s i -> bd_used (priv s i) < MAX_BD_SIZE -> busy b = false ->
  (chaining (priv s i) = true -> bd_mode b = mode (chan s i)) ->
  acts i (a_append [item_of b] (abs s i)) s (set_priv i (push b (priv s i)) s).
Proof.
  intros Hs Hi Hinv Hu Hb Hm. pose proof (inv_ring _ _ Hinv) as Hr.
  pose proof (priv_set_eq s i (push b (priv s i)) Hs Hi) as Ep.
  assert (queue (push b (priv s i)) = queue (priv s i) ++ [b]) as Eq by by apply queue_push.
  split; [by apply frame_set_priv| |].
  - split; rewrite ?Ep; try apply Hinv.
    + by apply push_ok.
    + intros Hl. destruct (inv_configured _ _ Hinv Hl) as [inf Hc]. exists inf. unfold configured. by rewrite Ep.
    + change (chan (set_priv i (push b (priv s i)) s) i) with (chan s i). pose proof (inv_queue _ _ Hinv) as Hq.
      destruct (active (chan s i)).
      * destruct Hq as (h & t & Hq & Hbh & Hmh & Hc & Ht). exists h, (t ++ [b]). rewrite Ep, Eq, Hq.
        split; [done|]. split; [done|]. split; [done|]. split; [done|].
        destruct t as [|b0 t]; cbn [app].
        -- split; [done|]. split; [by rewrite Hb|]. intros _. by apply regs_hold_set_priv.
        -- destruct Ht as (Ht & Hc2 & Hc3). split; [by apply Forall_snoc|].
           split; [|intros Hf; apply regs_hold_set_priv; by apply Hc3].
           intros Hb0. destruct (Hc2 Hb0) as (? & ? & ? & ?). split; [done|].
           split; [by apply regs_hold_set_priv|]. done.
      * unfold idle_queue. rewrite Ep, Eq. by apply Forall_snoc.
    + intros Hc. rewrite Ep, Eq. apply Forall_snoc. rewrite Ep in Hc. split; [by apply (inv_one_way _ _ Hinv)|by apply Hm].
  - unfold abs. rewrite Ep. unfold abs_of, a_append. cbn. by rewrite Eq, fmap_app.
Qed.

(** A settled channel is the abstract channel with its queue loaded. *)
Lemma settled_acts i inf h t s s' :
  in_chans i -> active (chan s i) = true -> lock (chan s i) = 1 -> queue (priv s i) = h :: t -> one_way s i ->
  settled i inf (bd_mode h) s s' -> acts i (a_load (item_of <$> queue (priv s i)) (abs s i)) s s'.
Proof.
  intros Hi Ha Hl Hq Hw H. destruct (settled_priv _ _ _ _ _ H) as [l El].
  pose proof (settled_chan _ _ _ _ _ H) as Ec. split; [apply H| |].
  - split; rewrite ?Ec; cbn [lock active upd_mode].
    + apply H.
    + by right.
    + by rewrite Hl.
    + intros _. exists inf. apply H.
    + rewrite Ha. apply H.
    + apply (settled_one_way i inf (bd_mode h) s); [done| |done].
      intros Hc. specialize (Hw Hc). rewrite Hq in Hw. by apply Forall_cons in Hw as [Hw _].
  - unfold abs, abs_of. rewrite Ec, El. cbn [chaining trans_bytes dma_info upd_ring lock active mode cb_fn cb_args upd_mode].
    rewrite <- El, (settled_items _ _ _ _ _ H). rewrite Hq, Ha. done.
Qed.

Lemma acts_same i a s s1 s2 : in_chans i -> acts i a s s1 -> frame i s1 s2 -> same_chan i s1 s2 -> acts i a s s2.
Proof.
  intros Hi [H1 H2 H3] Hf Hs. split; [by apply (frame_trans i s s1)|by apply (chan_inv_same i s1)|].
  by rewrite (abs_same i s1).
Qed.

Lemma acts_trans i a b s s1 s2 : acts i a s s1 -> acts i b s1 s2 -> acts i b s s2.
Proof. intros [H1 H2 H3] [K1 K2 K3]. split; [by apply (frame_trans i s s1)|done..]. Qed.

(** The single queued descriptor of a running channel, and one more behind it. *)
Lemma second_startable i b s :
  shape s -> in_chans i -> chan_inv s i -> active (chan s i) = true -> bd_used (priv s i) = 1 -> busy b = false ->
  chaining (priv s i) = true ->
  exists h, queue (priv s i) = [h] /\ startable (set_priv i (push b (priv s i)) s) i h [b].
Proof.
  intros Hs Hi Hinv Ha Hu Hb Hc. pose proof (inv_ring _ _ Hinv) as Hr. pose proof (inv_queue _ _ Hinv) as Hq.
  rewrite Ha in Hq. destruct Hq as (h & t & Hq & Hbh & Hmh & Hcen & Ht).
  pose proof (queue_length (priv s i)) as Hl. rewrite Hq in Hl. simpl in Hl. destruct t; [|simpl in Hl; lia].
  exists h. split; [done|]. pose proof (priv_set_eq s i (push b (priv s i)) Hs Hi) as Ep.
  split; [|split].
  - rewrite Ep, queue_push by (done || (unfold MAX_BD_SIZE; lia)). by rewrite Hq.
  - by apply Forall_singleton.
  - intros _. rewrite Ep. split; [done|]. split; [by apply regs_hold_set_priv|]. split; done.
Qed.

Lemma startable_same i h t s s' : same_chan i s s' -> startable s i h t -> startable s' i h t.
Proof.
  intros H (H1 & H2 & H3). unfold startable.
  rewrite (same_p _ _ _ H), (same_c _ _ _ H), (same_r _ _ _ H) by off_tac. split; [done|]. split; [done|].
  intros Hb. destruct (H3 Hb) as (? & ? & ? & ?). split; [done|]. split; [by apply (regs_hold_same i s)|]. done.
Qed.

Lemma frame_mask i s :
  in_chans i -> frame i s (set_reg (setb (readl (dregs s) (DMA_REG DMA_DIMR)) (bit i)) (DMA_REG DMA_DIMR) s).
Proof.
  intros Hi. apply frame_dimr. intros j Hj Hij. unfold in_chans in *. rewrite testbit_setb, testbit_bit by lia.
  destruct (Z.eqb_spec j i); [done|]. apply orb_false_r.
Qed.

Lemma same_dimr v j s : in_chans j -> same_chan j s (set_reg v (DMA_REG DMA_DIMR) s).
Proof. apply same_low. done. Qed.

(** Restoring the saved mask after steps that kept the other channels' bits. *)
Lemma frame_restore i s s' :
  frame i s s' -> frame i s (set_reg (readl (dregs s) (DMA_REG DMA_DIMR)) (DMA_REG DMA_DIMR) s').
Proof.
  intros H. eapply frame_trans; [exact H|]. apply frame_dimr. intros j Hj Hij. symmetry.
  apply (frame_bits _ _ _ H); [by apply elem_of_cons; left|done..].
Qed.

(** Loading the second descriptor of a running chain. *)
Lemma extend_chain i b s s1 s2 :
  shape s -> in_chans i -> chan_inv s i -> lock (chan s i) = 1 -> active (chan s i) = true ->
  chaining (priv s i) = true -> bd_used (priv s i) + 1 = 2 -> busy b = false ->
  s1 = set_priv i (push b (priv s i)) s -> shape s2 -> same_chan i s1 s2 ->
  acts i (a_append [item_of b] (abs s i)) s1 s2 ->
  wp (setup_dmac i) (fun _ s3 => acts i (a_append [item_of b] (abs s i)) s2 s3 /\ still s2 s3) s2.
Proof.
  intros Hs Hi Hinv Hl Ha Hc Hu Hb -> Hs2 Hsame Hacts.
  destruct (second_startable i b s) as (h & Hq & Hst); [done..|lia|done|done|].
  apply (startable_same _ _ _ _ _ Hsame) in Hst. pose proof (acts_inv _ _ _ _ Hacts) as Hinv2.
  assert (chan s2 i = chan s i) as Ec by apply (same_c _ _ _ Hsame).
  assert (lock (chan s2 i) = 1) as Hl2 by by rewrite Ec.
  destruct (inv_configured _ _ Hinv2 Hl2) as [inf Hcf]. pose proof Hst as (Hq2 & _ & _).
  eapply wp_mono; [apply (setup_dmac_spec i inf h [b]); try done; [apply Hinv2|by rewrite Ec]|].
  intros u s3 H3. split; [|by apply quiet_still, (settled_quiet _ _ _ _ _ H3)].
  rewrite <- (acts_abs _ _ _ _ Hacts).
  pose proof (settled_acts i inf h [b] s2 s3 Hi ltac:(by rewrite Ec) Hl2 Hq2 (inv_one_way _ _ Hinv2) H3) as H.
  destruct H as [H1 H2 H4]. split; [done..|]. rewrite H4.
  apply (a_load_same (abs s2 i)); [by unfold abs, abs_of; cbn; rewrite Ec|].
  exists (item_of h). unfold abs, abs_of. cbn [a_queue a_mode]. rewrite Hq2. split; [done|].
  assert (chaining (priv s2 i) = true) as Hc2 by (rewrite (same_p _ _ _ Hsame), priv_set_eq; done).
  pose proof (inv_one_way _ _ Hinv2 Hc2) as Hw. rewrite Hq2 in Hw. by apply Forall_cons in Hw as [Hw _].
Qed.

Lemma push_bd_spec i sel b s :
  slots_ok sel -> shape s -> in_chans i -> chan_inv s i -> lock (chan s i) = 1 ->
  bd_used (priv s i) < MAX_BD_SIZE -> busy b = false -> (chaining (priv s i) = true -> bd_mode b = mode (chan s i)) ->
  wp (push_bd i i sel b) (fun _ s' => acts i (a_append [item_of b] (abs s i)) s s' /\ still s s') s.
Proof.
  intros Hsel Hs Hi Hinv Hl Hu Hb Hm. pose proof (inv_ring _ _ Hinv) as Hr.
  pose proof (pushed_inv i b s Hs Hi Hinv Hu Hb Hm) as Hpush.
  unfold push_bd. apply wp_bind, wp_priv_at; [done..|].
  destruct (nth_at_in (bd_ring (priv s i)) (bd_wr (priv s i))) as [x Hx].
  { rewrite (ring_length _ Hr). by apply ring_wr_range. }
  apply wp_bind, (wp_deref _ x); [done|]. apply wp_bind, wp_store_priv.
  change (upd_wr _ _ _) with (push b (priv s i)). set (s1 := set_priv i (push b (priv s i)) s) in *.
  assert (still s s1) as Hst by done.
  replace (s32 (bd_used (priv s i) + 1)) with (bd_used (priv s i) + 1) by (symmetry; apply (push_used b); done).
  destruct (Z.eqb_spec (bd_used (priv s i) + 1) 2) as [E2|]; cbn [negb]; [|by apply wp_ret].
  assert (shape s1) as Hs1 by by apply (acts_frame _ _ _ _ Hpush).
  apply wp_bind, wp_drd. apply wp_bind, wp_chan_at; [done..|]. rewrite (shape_channel _ Hs1) by done.
  apply wp_bind. unfold mask_dma_interrupt. apply wp_bind, wp_drd, wp_dwr.
  set (s2 := set_reg _ _ s1).
  assert (frame i s1 s2) as Hf2 by by apply frame_mask. assert (same_chan i s1 s2) as Hsame2 by by apply same_dimr.
  assert (shape s2) as Hs2 by by apply Hf2.
  apply wp_bind, wp_priv_at; [done..|].
  assert (priv s2 i = push b (priv s i)) as Ep by (exact (priv_set_eq s i _ Hs Hi)).
  (* Whatever happens before the mask is restored, the channel is as specified. *)
  assert (forall s3, acts i (a_append [item_of b] (abs s i)) s1 s3 -> still s1 s3 ->
    wp (restore_dma_interrupt (readl (dregs s1) (DMA_REG DMA_DIMR)))
       (fun _ s' => acts i (a_append [item_of b] (abs s i)) s s' /\ still s s') s3) as Hend.
  { intros s3 H3 Hst3. apply wp_dwr. split; [|exact (still_trans _ _ _ Hst (still_trans _ _ _ Hst3 (still_reg _ _ _)))].
    apply (acts_trans _ _ _ _ _ _ Hpush). destruct H3 as [Hf3 Hi3 Ha3]. split.
    - by apply frame_restore.
    - apply (chan_inv_same i s3); [by apply same_dimr|done].
    - rewrite (abs_same i s3) by (by apply same_dimr). done. }
  assert (acts i (a_append [item_of b] (abs s i)) s1 s2) as Hacts2.
  { split; [exact Hf2|apply (chan_inv_same i s1); [done|apply Hpush]|]. rewrite (abs_same i s1) by done. apply Hpush. }
  apply wp_bind. rewrite Ep. change (chaining (push b (priv s i))) with (chaining (priv s i)).
  change (chan s1 i) with (chan s i).
  destruct (chaining (priv s i)) eqn:Hc, (active (chan s i)) eqn:Ha; cbn [andb];
    try (apply wp_ret; by apply (Hend s2)).
  destruct (sel (push b (priv s i))) as [k|] eqn:Ek; [|apply wp_ret; by apply (Hend s2)].
  destruct (Hsel _ k (push_ok b _ Hr Hu) Ek) as [q Hq].
  apply wp_bind, (wp_deref _ q); [done|]. destruct (Z.land (state q) DMA_BD_ST_BUSY =? 0); cbn [negb];
    [apply wp_ret; by apply (Hend s2)|].
  destruct (bd_used (push b (priv s i)) =? 2); [|apply wp_ret; by apply (Hend s2)].
  apply (wp_mono _ (fun _ s3 => acts i (a_append [item_of b] (abs s i)) s2 s3 /\ still s2 s3)).
  - by apply (extend_chain i b s s1 s2).
  - intros [] s3 [H3 Hst3]. apply (Hend s3); [|exact (still_trans _ _ _ (still_reg _ _ s1) Hst3)]. by apply (acts_trans _ _ _ _ _ _ Hacts2).
Qed.

End Ops.
