(* ===== verification/DmaQueue.v ===== *)
(** * Queueing buffers

    [mxc_dma_config] and [mxc_dma_sg_config] append to a channel's queue what
    the client asked for, all of it or nothing. *)

From stdpp Require Import base list gmap strings.
From Stdlib Require Import ZArith Lia.
From S2P Require Import Prelude CrmRegs DmaTable Dma DmaRing DmaSteps DmaChannel DmaSetup DmaInv DmaOps.

(** ** What is queued *)

Definition buf_item (md : Z) (last : bool) (x : mxc_dma_requestbuf_t) : item :=
  mkItem md (u32 (num_of_bytes x)) (buf_src x) (buf_dst x) last.

(** One item per buffer, the last one marked. *)
Fixpoint request_items (md : Z) (l : list mxc_dma_requestbuf_t) : list item :=
  match l with
  | [] => []
  | x :: l' => buf_item md (bool_decide (l' = [])) x :: request_items md l'
  end.

(** One transfer between the peripheral's address and a segment of memory. *)
Definition sg_item (per md cnt : Z) (last : bool) (x : scatterlist) : item :=
  if md =? MXC_DMA_MODE_READ then mkItem md cnt per (dma_address x) last
  else mkItem md cnt (dma_address x) per last.

(** The whole segments, when no byte count is given. *)
Fixpoint sg_whole (per md : Z) (l : list scatterlist) : list item :=
  match l with
  | [] => []
  | x :: l' => sg_item per md (length_ x) (bool_decide (l' = [])) x :: sg_whole per md l'
  end.

(** The segments as far as the first [total] bytes reach. *)
Fixpoint sg_bytes (per md total : Z) (l : list scatterlist) : list item :=
  match l with
  | [] => []
  | x :: l' =>
      if total <=? 0 then []
      else
        let cnt := Z.min total (length_ x) in
        sg_item per md cnt (bool_decide (l' = []) || (cnt =? total)) x :: sg_bytes per md (total - cnt) l'
  end.

Definition sg_items (per md bytes : Z) (l : list scatterlist) : list item :=
  if 0 <? bytes then sg_bytes per md bytes l else sg_whole per md l.

Lemma sg_bytes_length per md total l : (length (sg_bytes per md total l) <= length l)%nat.
Proof.
  revert total. induction l as [|x l IH]; intros total; simpl; [lia|]. destruct (total <=? 0); simpl; [lia|].
  specialize (IH (total - Z.min total (length_ x))). lia.
Qed.

(** Bytes moved: the requested number, or all there is. *)
Definition sum_lengths (l : list scatterlist) : Z := foldr (fun x a => length_ x + a) 0 l.
Definition sum_counts (l : list item) : Z := foldr (fun x a => it_count x + a) 0 l.

Lemma sg_item_count per md cnt last x : it_count (sg_item per md cnt last x) = cnt.
Proof. unfold sg_item. by destruct (md =? MXC_DMA_MODE_READ). Qed.

Lemma sum_lengths_nonneg l : Forall (fun x => 0 <= length_ x) l -> 0 <= sum_lengths l.
Proof. induction 1; simpl; lia. Qed.

Lemma sg_bytes_sum per md total l :
  0 <= total -> Forall (fun x => 0 <= length_ x) l ->
  sum_counts (sg_bytes per md total l) = Z.min total (sum_lengths l).
Proof.
  intros Ht Hl. revert total Ht. induction Hl as [|x l Hx Hl IH]; intros total Ht; simpl; [lia|].
  pose proof (sum_lengths_nonneg l Hl). destruct (Z.leb_spec total 0); simpl; [lia|].
  rewrite sg_item_count, IH by lia. lia.
Qed.

(** ** Descriptors waiting in the queue *)

Lemma pend_busy (last : bool) md cnt src dst : busy (mkBd (pend_state last) md cnt src dst) = false.
Proof. by destruct last. Qed.

Lemma pend_item (last : bool) md cnt src dst : item_of (mkBd (pend_state last) md cnt src dst) = mkItem md cnt src dst last.
Proof. by destruct last. Qed.

Lemma a_append_nil a : a_append [] a = a.
Proof. destruct a. unfold a_append. cbn. by rewrite app_nil_r. Qed.

Lemma a_append_length l a :
  Z.of_nat (length (a_queue (a_append l a))) = Z.of_nat (length (a_queue a)) + Z.of_nat (length l).
Proof. unfold a_append. cbn [a_queue]. rewrite length_app. lia. Qed.

Lemma a_append_app l l' a : a_append l' (a_append l a) = a_append (l ++ l') a.
Proof. unfold a_append. cbn. by rewrite app_assoc. Qed.

Section Queue.
Context {C : Type} {Clk : ClkProvider C}.
Implicit Types s : dmast.

(** The channel is owned, and chained descriptors would have its mode. *)
Definition fits_mode (md : Z) (a : achan) : Prop := a_owned a = true /\ (a_chain a = true -> md = a_mode a).

Lemma fits_mode_append md l a : fits_mode md a -> fits_mode md (a_append l a).
Proof. done. Qed.

Lemma owned_lock s i : a_owned (abs s i) = true <-> lock (chan s i) = 1.
Proof. unfold abs, abs_of. cbn. apply Z.eqb_eq. Qed.

Lemma abs_used s i : chan_inv s i -> Z.of_nat (length (a_queue (abs s i))) = bd_used (priv s i).
Proof.
  intros H. unfold abs, abs_of. cbn. rewrite length_fmap. apply queue_length. apply (ring_used _ (inv_ring _ _ H)).
Qed.

(** [push_bd] in terms of the abstract channel. *)
Lemma push_bd_abs i sel b s :
  slots_ok sel -> shape s -> in_chans i -> chan_inv s i -> fits_mode (bd_mode b) (abs s i) ->
  Z.of_nat (length (a_queue (abs s i))) < MAX_BD_SIZE -> busy b = false ->
  wp (push_bd i i sel b) (fun _ s' => acts i (a_append [item_of b] (abs s i)) s s' /\ still s s') s.
Proof.
  intros Hsel Hs Hi Hinv [Ho Hm] Hl Hb. apply push_bd_spec; try done.
  - by apply owned_lock.
  - by rewrite <- abs_used.
Qed.

Lemma fill_loop_spec i buf num md l : forall n s,
  (forall k x, l !! k = Some x -> nth_at buf (n + Z.of_nat k) = Some x) -> n + Z.of_nat (length l) = num ->
  shape s -> in_chans i -> chan_inv s i -> fits_mode md (abs s i) ->
  Z.of_nat (length (a_queue (abs s i))) + Z.of_nat (length l) <= MAX_BD_SIZE ->
  wp (fill_loop (length l) i i buf n num md)
    (fun _ s' => acts i (a_append (request_items md l) (abs s i)) s s' /\ still s s') s.
Proof.
  induction l as [|x l IH]; intros n s Hbuf Hnum Hs Hi Hinv Hf Hlen; cbn [length fill_loop request_items].
  - apply wp_ret. rewrite a_append_nil. split; [|apply still_refl]. split; [apply frame_refl|done..].
  - apply wp_bind, (wp_deref _ x); [by rewrite <- (Z.add_0_r n); exact (Hbuf 0%nat x eq_refl)|].
    apply wp_bind. cbn [length] in Hlen, Hnum; rewrite Nat2Z.inj_succ in Hlen, Hnum.
    assert ((n =? num - 1) = bool_decide (l = [])) as ->.
    { destruct l; simpl in Hnum; [rewrite bool_decide_eq_true_2 by done|rewrite bool_decide_eq_false_2 by done]; lia. }
    eapply wp_mono; [apply push_bd_abs; [apply slots_rd|done|done|done|exact Hf|lia|apply pend_busy]|].
    intros [] s1 [H1 Hst1]. rewrite pend_item in H1.
    eapply wp_mono; [apply IH|].
    + intros k y Hk. rewrite <- (Hbuf (S k) y Hk). f_equal. lia.
    + lia.
    + by apply (acts_frame _ _ _ _ H1).
    + done.
    + apply H1.
    + rewrite (acts_abs _ _ _ _ H1). by apply fits_mode_append.
    + rewrite (acts_abs _ _ _ _ H1), a_append_length. cbn [length]. lia.
    + intros [] s2 [H2 Hst2]. split; [|by apply (still_trans s s1)].
      rewrite (acts_abs _ _ _ _ H1), a_append_app in H2. by apply (acts_trans _ _ _ _ _ _ H1).
Qed.

(** The code's loop over the segments, against [sg_whole] and [sg_bytes]. *)
Definition sg_from (per md bytes total : Z) (l : list scatterlist) : list item :=
  if 0 <? bytes then sg_bytes per md total l else sg_whole per md l.

Lemma fill_sg_loop_spec i sg num md bytes inf l : forall n total s,
  (forall k x, l !! k = Some x -> nth_at sg (n + Z.of_nat k) = Some x) -> n + Z.of_nat (length l) = num ->
  Forall (fun x => 0 <= length_ x < 2 ^ 32) l -> 0 <= total < 2 ^ 31 ->
  shape s -> in_chans i -> chan_inv s i -> fits_mode md (abs s i) -> a_info (abs s i) = Some inf ->
  Z.of_nat (length (a_queue (abs s i))) + Z.of_nat (length l) <= MAX_BD_SIZE ->
  wp (fill_sg_loop (length l) i i sg n num bytes total md)
    (fun _ s' => acts i (a_append (sg_from (per_address inf) md bytes total l) (abs s i)) s s' /\ still s s') s.
Proof.
  induction l as [|x l IH]; intros n total s Hbuf Hnum Hl Ht Hs Hi Hinv Hf Hinf Hlen; cbn [length fill_sg_loop].
  - apply wp_ret. replace (sg_from _ _ _ _ []) with (@nil item) by (unfold sg_from; by destruct (0 <? bytes)).
    rewrite a_append_nil. split; [|apply still_refl]. split; [apply frame_refl|done..].
  - apply Forall_cons in Hl as [Hx Hl]. cbn [length] in Hlen, Hnum; rewrite Nat2Z.inj_succ in Hlen, Hnum.
    assert ((n =? num - 1) = bool_decide (l = [])) as Elast.
    { destruct l; simpl in Hnum; [rewrite bool_decide_eq_true_2 by done|rewrite bool_decide_eq_false_2 by done]; lia. }
    destruct ((bytes <=? 0) || (0 <? total)) eqn:Econt.
    2:{ apply wp_ret. replace (sg_from _ _ _ _ _) with (@nil item).
        - rewrite a_append_nil. split; [|apply still_refl]. split; [apply frame_refl|done..].
        - unfold sg_from. simpl. destruct (Z.ltb_spec 0 bytes), (Z.leb_spec total 0); try done; lia. }
    apply wp_bind, (wp_deref _ x); [by rewrite <- (Z.add_0_r n); exact (Hbuf 0%nat x eq_refl)|].
    apply wp_bind, wp_priv_at; [done..|]. apply wp_bind, (wp_deref _ inf); [done|]. rewrite Elast.
    (* The count of this segment, the bytes left, and whether it is the last. *)
    set (left := if 0 <? bytes then _ else total). set (cnt := if 0 <? bytes then _ else length_ x).
    set (last := (_ || _)%bool).
    assert (sg_from (per_address inf) md bytes total (x :: l) =
      sg_item (per_address inf) md cnt last x :: sg_from (per_address inf) md bytes left l /\ 0 <= left < 2 ^ 31)
      as [-> Hleft].
    { unfold last, left, cnt, sg_from. simpl. destruct (Z.ltb_spec 0 bytes); simpl.
      - rewrite !(u32_small total) by lia. destruct (Z.leb_spec total 0); [lia|].
        replace (if total <=? length_ x then total else length_ x) with (Z.min total (length_ x))
          by (destruct (Z.leb_spec total (length_ x)); lia).
        rewrite s32_small by lia. split; [|lia].
        replace (Z.min total (length_ x) =? total) with (total - Z.min total (length_ x) =? 0) by lia. done.
      - rewrite orb_false_r. split; [done|lia]. }
    apply wp_bind. set (b := if md =? MXC_DMA_MODE_READ then _ else _).
    assert (item_of b = sg_item (per_address inf) md cnt last x /\ busy b = false /\ bd_mode b = md) as (Eb & Hb & Hmd).
    { unfold b, sg_item. destruct (md =? MXC_DMA_MODE_READ); (split; [apply pend_item|]); split; (apply pend_busy || done). }
    eapply wp_mono; [apply push_bd_abs; [apply slots_next|done|done|done|by rewrite Hmd|lia|done]|].
    intros [] s1 [H1 Hst1]. rewrite Eb in H1.
    eapply wp_mono; [apply (IH (n + 1) left s1)|]; rewrite ?(acts_abs _ _ _ _ H1); try done.
    + intros k y Hk. rewrite <- (Hbuf (S k) y Hk). f_equal. lia.
    + lia.
    + by apply (acts_frame _ _ _ _ H1).
    + apply H1.
    + rewrite a_append_length. cbn [length]. lia.
    + intros [] s2 [H2 Hst2]. split; [|by apply (still_trans s s1)].
      rewrite a_append_app in H2. by apply (acts_trans _ _ _ _ _ _ H1).
Qed.

(** ** The two entry points *)

(** What the client is told, and the channel afterwards. *)
Definition spec_config (md num : Z) (l : list item) (a : achan) : Z * achan :=
  if negb (a_owned a) then (- ENODEV, a)
  else if a_chain a && negb (a_mode a =? md) then (- EINVAL, a)
  else if MAX_BD_SIZE <? Z.of_nat (length (a_queue a)) + num then (- EBUSY, a)
  else (0, a_append l a).

(** The operation returned the specified value and acted as specified. *)
Definition does (i : Z) (sp : Z * achan) s (r : Z) s' : Prop := r = fst sp /\ acts i (snd sp) s s'.

Lemma acts_refl i s : chan_inv s i -> acts i (abs s i) s s.
Proof. intros H. split; [apply frame_refl|done..]. Qed.

Lemma not_owned_lock s i : chan_inv s i -> a_owned (abs s i) = negb (lock (chan s i) =? 0).
Proof. intros H. unfold abs, abs_of. cbn. destruct (inv_lock _ _ H) as [-> | ->]; done. Qed.

Lemma config_channel_spec i md num l (fill : M dmast Z) s :
  shape s -> in_chans i -> chan_inv s i ->
  (fits_mode md (abs s i) ->
   wp fill (fun r s' => still s s' /\
     does i (if MAX_BD_SIZE <? Z.of_nat (length (a_queue (abs s i))) + num then (- EBUSY, abs s i)
             else (0, a_append l (abs s i))) s r s') s) ->
  wp (config_channel i md fill) (fun r s' => still s s' /\ does i (spec_config md num l (abs s i)) s r s') s.
Proof.
  intros Hs Hi Hinv Hfill. pose proof (acts_refl i s Hinv) as Hrefl.
  unfold config_channel, bad_channel, MAX_DMA_CHANNELS, MXC_DMA_CHANNELS.
  destruct (Z.leb_spec 16 i) as [|_]; [unfold in_chans in Hi; lia|].
  destruct (Z.ltb_spec i 0) as [|_]; [unfold in_chans in Hi; lia|]. cbn [orb].
  apply wp_bind, wp_chan_at; [done..|]. rewrite (shape_private _ Hs) by done.
  unfold spec_config. rewrite not_owned_lock, negb_involutive by done.
  destruct (lock (chan s i) =? 0) eqn:El; [by apply wp_ret|].
  apply wp_bind, wp_priv_at; [done..|].
  change (a_chain (abs s i)) with (chaining (priv s i)). change (a_mode (abs s i)) with (mode (chan s i)).
  destruct (chaining (priv s i) && negb (mode (chan s i) =? md)) eqn:Em; [by apply wp_ret|].
  apply wp_bind. eapply wp_mono; [apply Hfill|].
  - split; [by rewrite not_owned_lock, El|]. intros Hc. unfold abs, abs_of in Hc |- *. cbn in Hc |- *.
    rewrite Hc in Em. cbn in Em. apply negb_false_iff in Em. lia.
  - intros r s' [Hst [-> Ha]]. destruct (MAX_BD_SIZE <? _); apply wp_ret; done.
Qed.

Lemma take_nth_at {A} (l : list A) num k (x : A) :
  take (Z.to_nat num) l !! k = Some x -> nth_at l (0 + Z.of_nat k) = Some x.
Proof.
  intros H. rewrite Z.add_0_l, nth_at_lookup by lia. rewrite Nat2Z.id.
  apply lookup_take_Some in H as [H _]. done.
Qed.

Lemma s32_used s i num :
  chan_inv s i -> 1 <= num < 2 ^ 31 - 64 -> s32 (bd_used (priv s i) + num) = bd_used (priv s i) + num.
Proof.
  intros H Hn. pose proof (ring_used _ (inv_ring _ _ H)). unfold MAX_BD_SIZE in *. apply s32_small. lia.
Qed.

Lemma mxc_dma_config_spec i buf num md s :
  shape s -> in_chans i -> chan_inv s i -> 1 <= num <= Z.of_nat (length buf) -> num < 2 ^ 31 - 64 ->
  wp (mxc_dma_config i (Some buf) num md)
    (fun r s' => still s s' /\
       does i (spec_config md num (request_items md (take (Z.to_nat num) buf)) (abs s i)) s r s') s.
Proof.
  intros Hs Hi Hinv Hn Hmax. unfold mxc_dma_config. destruct (Z.ltb_spec num 1); [lia|].
  apply config_channel_spec; try done. intros Hf.
  unfold fill_dma_bd, private_of. apply wp_bind, wp_bind, wp_chan_at; [done..|].
  rewrite (shape_private _ Hs) by done. apply (wp_deref _ i); [done|]. apply wp_bind, wp_priv_at; [done..|].
  rewrite s32_used by (done || lia). rewrite <- (abs_used s i) by done.
  destruct (Z.ltb_spec MAX_BD_SIZE (Z.of_nat (length (a_queue (abs s i))) + num)) as [|Hfit].
  { apply wp_ret. split; [apply still_refl|]. split; [done|]. by apply acts_refl. }
  apply wp_bind. eapply wp_mono.
  - assert (length (take (Z.to_nat num) buf) = Z.to_nat num) as El by (rewrite length_take; lia).
    rewrite <- El at 1. apply (fill_loop_spec i buf num md (take (Z.to_nat num) buf) 0 s); try done; [|lia|lia].
    intros k x. apply take_nth_at.
  - intros [] s' [Ha Hst]. apply wp_ret. split; [done|]. by split.
Qed.

Lemma mxc_dma_sg_config_spec i sg num bytes md inf s :
  shape s -> in_chans i -> chan_inv s i -> 1 <= num <= Z.of_nat (length sg) -> num < 2 ^ 31 - 64 ->
  0 <= bytes < 2 ^ 31 -> Forall (fun x => 0 <= length_ x < 2 ^ 32) sg -> (a_owned (abs s i) = true -> a_info (abs s i) = Some inf) ->
  wp (mxc_dma_sg_config i (Some sg) num bytes md)
    (fun r s' => still s s' /\
       does i (spec_config md num (sg_items (per_address inf) md bytes (take (Z.to_nat num) sg)) (abs s i)) s r s') s.
Proof.
  intros Hs Hi Hinv Hn Hmax Hb Hl Hinf. unfold mxc_dma_sg_config.
  destruct (Z.ltb_spec num 1); [lia|]. destruct (Z.ltb_spec bytes 0); [lia|]. cbn [orb].
  apply config_channel_spec; try done. intros Hf.
  unfold fill_dma_bd_by_sg, private_of. apply wp_bind, wp_bind, wp_chan_at; [done..|].
  rewrite (shape_private _ Hs) by done. apply (wp_deref _ i); [done|]. apply wp_bind, wp_priv_at; [done..|].
  rewrite s32_used by (done || lia). rewrite <- (abs_used s i) by done.
  destruct (Z.ltb_spec MAX_BD_SIZE (Z.of_nat (length (a_queue (abs s i))) + num)) as [|Hfit].
  { apply wp_ret. split; [apply still_refl|]. split; [done|]. by apply acts_refl. }
  apply wp_bind. eapply wp_mono.
  - assert (length (take (Z.to_nat num) sg) = Z.to_nat num) as El by (rewrite length_take; lia).
    rewrite <- El at 1.
    apply (fill_sg_loop_spec i sg num md bytes inf (take (Z.to_nat num) sg) 0 bytes s); try done; [|lia|..].
    + intros k x. apply take_nth_at.
    + by apply Forall_take.
    + apply Hinf, Hf.
    + lia.
  - intros [] s' [Ha Hst]. apply wp_ret. split; [done|]. by split.
Qed.

End Queue.
