(* ===== verification/DmaTransfer.v ===== *)
(** * Running transfers

    Completion of a descriptor, the interrupt handler, and starting and stopping
    a channel. *)

From stdpp Require Import base list gmap strings.
From Stdlib Require Import ZArith Lia.
From S2P Require Import Prelude CrmRegs DmaTable Dma DmaRing DmaSteps DmaChannel DmaSetup DmaInv DmaOps DmaQueue.

(** ** The abstract effect of a completion *)

(** What remains of the queue: after a completed transfer its tail; after a
    failed one the tail when the failed descriptor closed its request, and
    nothing otherwise. *)
Definition a_rest (error : Z) (q : list item) : list item :=
  match q with
  | [] => []
  | h :: t => if (error =? MXC_DMA_DONE) || it_last h then t else []
  end.

(** Whether the client is told. *)
Definition a_notify (error : Z) (q : list item) : bool :=
  negb (error =? MXC_DMA_DONE) || match q with h :: _ => it_last h | [] => false end.

Section Transfer.
Context {C : Type} {Clk : ClkProvider C}.
Implicit Types s : dmast.

(** Ring positions and states apart, the two blocks agree. *)
Record same_meta (p p' : mx2_dma_priv_t) : Prop := mkSameMeta {
  meta_chaining : chaining p' = chaining p;
  meta_bytes : trans_bytes p' = trans_bytes p;
  meta_info : dma_info p' = dma_info p;
  meta_base : dma_base p' = dma_base p;
  meta_irq : dma_irq p' = dma_irq p;
}.

Lemma same_meta_refl p : same_meta p p.
Proof. by split. Qed.

Lemma same_meta_trans p1 p2 p3 : same_meta p1 p2 -> same_meta p2 p3 -> same_meta p1 p3.
Proof. intros [] []. split; congruence. Qed.

(** ** Dropping a failed request *)

(** [store_state] on the slot just read, after the read index has moved on. *)
Lemma queue_store_out p k st b :
  ring_ok p -> 0 <= k < MAX_BD_SIZE -> (forall l, 0 <= l < bd_used p -> slot p l <> k) ->
  nth_at (bd_ring p) k = Some b ->
  let p' := upd_ring (nth_set k (upd_state st b) (bd_ring p)) p in ring_ok p' /\ queue p' = queue p.
Proof.
  intros H Hk Hout Hb p'. split.
  - split; try apply H. unfold p'. cbn. rewrite nth_set_length. apply H.
  - symmetry. apply queue_ext; [done|]. intros l Hl. unfold bd_at. change (slot p' l) with (slot p l).
    unfold p'. cbn. rewrite nth_set_ne; [done|lia|]. apply not_eq_sym. by apply Hout.
Qed.

Lemma drop_unfold n j k :
  drop_failed (S n) j k =
    (p ← priv_at j;
     if 0 <? bd_used p then
       store_priv j (pop p);;
       b ← deref (nth_at (bd_ring p) k);
       store_state j k 0;;
       if is_last b then mret tt else drop_failed n j k
     else mret tt).
Proof. reflexivity. Qed.

Lemma set_priv_twice i p q s : set_priv i p (set_priv i q s) = set_priv i p s.
Proof. unfold set_priv, with_privs, nth_set. cbn. by rewrite list_insert_insert_eq. Qed.

Lemma set_priv_same s i : shape s -> in_chans i -> set_priv i (priv s i) s = s.
Proof.
  intros Hs Hi. unfold set_priv, nth_set, with_privs. rewrite list_insert_id; [by destruct s|].
  pose proof (nth_at_default (g_dma_privates s) priv_zero i (shape_privs s Hs) Hi) as E.
  unfold in_chans in Hi. rewrite nth_at_lookup in E at 1 by lia. exact E.
Qed.

Lemma drop_rest n : forall s i k b,
  shape s -> in_chans i -> ring_ok (priv s i) -> 0 <= k < MAX_BD_SIZE -> nth_at (bd_ring (priv s i)) k = Some b ->
  is_last b = false -> bd_used (priv s i) = Z.of_nat n ->
  wp (drop_failed (S n) i k)
    (fun _ s' => exists p', s' = set_priv i p' s /\ ring_ok p' /\ bd_used p' = 0 /\ same_meta (priv s i) p') s.
Proof.
  induction n as [|n IH]; intros s i k b Hs Hi Hr Hk Hb Hl Hu; rewrite drop_unfold.
  all: apply wp_bind, wp_priv_at; [done..|].
  - rewrite Hu. cbn. apply wp_ret. exists (priv s i). split; [|split; [done|]].
    + by rewrite set_priv_same.
    + split; [done|apply same_meta_refl].
  - destruct (Z.ltb_spec 0 (bd_used (priv s i))); [|lia].
    apply wp_bind, wp_store_priv.
    assert (shape (set_priv i (pop (priv s i)) s)) as Hs1 by by apply shape_priv.
    pose proof (priv_set_eq s i (pop (priv s i)) Hs Hi) as Ep.
    apply wp_bind, (wp_deref _ b); [done|]. apply wp_bind, (wp_store_state _ _ _ b); [done|done|by rewrite Ep|].
    rewrite Ep, set_priv_twice, Hl. set (p2 := upd_ring _ _).
    assert (priv (set_priv i p2 s) i = p2) as Ep2 by by apply priv_set_eq.
    assert (ring_ok p2) as Hr2.
    { pose proof (pop_ok _ Hr ltac:(lia)) as Hp. split; try apply Hp. unfold p2. cbn. rewrite nth_set_length. apply Hr. }
    assert (bd_used p2 = Z.of_nat n) as Hu2 by (change (bd_used (pop (priv s i)) = Z.of_nat n); rewrite pop_used by done; lia).
    eapply wp_mono; [apply (IH (set_priv i p2 s) i k (upd_state 0 b)); rewrite ?Ep2; try done|].
    + by apply shape_priv.
    + unfold p2. cbn. apply nth_set_eq. rewrite (ring_length _ Hr). done.
    + intros [] s' (p' & -> & Hp' & Hu' & Hm'). exists p'. rewrite Ep2 in Hm'.
      split; [|split; [done|split; [done|by apply (same_meta_trans _ p2)]]].
      by rewrite set_priv_twice.
Qed.

Lemma drop_failed_spec i h t s :
  shape s -> in_chans i -> ring_ok (priv s i) -> queue (priv s i) = h :: t ->
  wp (drop_failed (S (Z.to_nat (bd_used (priv s i)))) i (bd_rd (priv s i)))
    (fun _ s' => exists p', s' = set_priv i p' s /\ ring_ok p' /\ same_meta (priv s i) p' /\
       queue p' = if is_last h then t else []) s.
Proof.
  intros Hs Hi Hr Hq. pose proof (queue_head _ _ _ Hr Hq) as Hh. pose proof (queue_nonempty _ _ _ Hr Hq) as Hu.
  destruct (is_last h) eqn:Hl.
  - rewrite drop_unfold. apply wp_bind, wp_priv_at; [done..|]. destruct (Z.ltb_spec 0 (bd_used (priv s i))); [|lia].
    apply wp_bind, wp_store_priv.
    assert (shape (set_priv i (pop (priv s i)) s)) as Hs1 by by apply shape_priv.
    pose proof (priv_set_eq s i (pop (priv s i)) Hs Hi) as Ep.
    apply wp_bind, (wp_deref _ h); [done|]. apply wp_bind, (wp_store_state _ _ _ h); [done|done|by rewrite Ep|].
    rewrite Ep, set_priv_twice, Hl. apply wp_ret.
    destruct (queue_store_out (pop (priv s i)) (bd_rd (priv s i)) 0 h) as [H1 H2].
    + by apply pop_ok.
    + apply Hr.
    + rewrite pop_used by done. intros l Hl' E. rewrite slot_pop, <- (slot_0 (priv s i)) in E by (done || apply Hr).
      apply slot_inj in E; pose proof (ring_used _ Hr); unfold MAX_BD_SIZE in *; lia.
    + done.
    + eexists. split; [reflexivity|]. split; [exact H1|]. split; [by split|].
      rewrite H2. rewrite (queue_pop _ Hr Hu) in Hq. by injection Hq.
  - eapply wp_mono; [apply (drop_rest (Z.to_nat (bd_used (priv s i))) s i (bd_rd (priv s i)) h); try done; [apply Hr|lia]|].
    intros [] s' (p' & -> & Hp' & Hu' & Hm). exists p'. split; [done|]. split; [done|]. split; [done|].
    apply queue_nil. lia.
Qed.

(** ** Moving on to the rest of the queue *)

(** Outside the channel: one running channel less when nothing is left. *)
Record counted_down (gone : bool) s s' : Prop := mkCountedDown {
  cd_actived : g_dma_actived s' = if gone then s32 (g_dma_actived s - 1) else g_dma_actived s;
  cd_clks : clks s' = clks s;
  cd_actions : actions s' = actions s;
}.

Definition is_nil {A} (l : list A) : bool := match l with [] => true | _ => false end.

Lemma set_meta_frame i p' s :
  shape s -> in_chans i -> same_meta (priv s i) p' -> frame i s (set_priv i p' s).
Proof. intros Hs Hi H. apply frame_set_priv; [done..|apply H|apply H]. Qed.

(** The descriptor behind the one that is done can be started. *)
Lemma rest_startable i p' h b t s :
  shape s -> in_chans i -> chan_inv s i -> active (chan s i) = true -> queue (priv s i) = h :: b :: t ->
  same_meta (priv s i) p' -> queue p' = b :: t -> startable (set_priv i p' s) i b t.
Proof.
  intros Hs Hi Hinv Ha Hq Hm Hq'. pose proof (inv_queue _ _ Hinv) as H. rewrite Ha in H.
  destruct H as (h0 & t0 & Hq0 & Hbh & Hmh & Hcen & Ht). rewrite Hq in Hq0. injection Hq0 as <- <-.
  destruct Ht as (Ht & Hb & _). pose proof (priv_set_eq s i p' Hs Hi) as Ep. split; [by rewrite Ep|]. split; [done|].
  intros Hbusy. destruct (Hb Hbusy) as (Hc & Hregs & _ & _). rewrite Ep, (meta_chaining _ _ Hm).
  split; [done|]. split; [by apply regs_hold_set_priv|]. split; [|done].
  pose proof (inv_one_way _ _ Hinv Hc) as Hw. rewrite Hq in Hw.
  apply Forall_cons in Hw as [_ Hw]. by apply Forall_cons in Hw as [Hw _].
Qed.

Lemma moved_on i p' h t q s :
  shape s -> in_chans i -> chan_inv s i -> active (chan s i) = true -> queue (priv s i) = h :: t ->
  ring_ok p' -> same_meta (priv s i) p' -> queue p' = q -> q = t \/ q = [] ->
  wp (p1 ← priv_at i;
      if bd_used p1 <=? 0 then d1 ← chan_at i; store_chan i (upd_active false d1);; add_actived (-1)
      else setup_dmac i)
    (fun _ s' => acts i (a_load (item_of <$> q) (abs s i)) s s' /\ counted_down (is_nil q) s s') (set_priv i p' s).
Proof.
  intros Hs Hi Hinv Ha Hq Hr' Hm Hq' Hor. set (s1 := set_priv i p' s).
  assert (frame i s s1) as Hf1 by by apply set_meta_frame. assert (shape s1) as Hs1 by by apply Hf1.
  pose proof (priv_set_eq s i p' Hs Hi : priv s1 i = p') as Ep.
  assert (lock (chan s i) = 1) as Hl.
  { destruct (inv_lock _ _ Hinv) as [E|E]; [|done]. by rewrite (inv_free _ _ Hinv E) in Ha. }
  assert (forall inf, configured s i inf -> configured s1 i inf) as Ecf
    by (intros inf; unfold configured; rewrite Ep, (meta_info _ _ Hm); exact (fun H => H)).
  apply wp_bind, wp_priv_at; [done..|]. rewrite Ep.
  pose proof (queue_length p' (proj1 (ring_used _ Hr'))) as Hlen. rewrite Hq' in Hlen.
  destruct q as [|b q]; simpl in Hlen.
  - destruct (Z.leb_spec (bd_used p') 0); [|lia]. apply wp_bind, wp_chan_at; [done..|]. change (chan s1 i) with (chan s i).
    apply wp_bind, wp_store_chan. apply wp_modify. split; [|by split].
    set (s2 := with_actived _ _).
    assert (chan s2 i = upd_active false (chan s i)) as Ec by exact (chan_set_eq s1 i _ Hs1 Hi).
    assert (priv s2 i = p') as Ep2 by exact Ep.
    split.
    + eapply frame_trans; [exact Hf1|].
      eapply frame_trans; [by apply (frame_set_chan i (upd_active false (chan s i)))|]. split; try done. apply shape_actived.
    + split; rewrite ?Ec, ?Ep2; cbn [lock active upd_active]; try done; try apply Hinv.
      * intros _. destruct (inv_configured _ _ Hinv Hl) as [inf Hcf]. exists inf. unfold configured in *.
        rewrite Ep2, Ec, (meta_info _ _ Hm). exact Hcf.
      * unfold idle_queue. rewrite Ep2, Hq'. done.
      * intros _. rewrite Ep2, Hq'. done.
    + unfold abs, abs_of. rewrite Ec, Ep2, Hq', (meta_chaining _ _ Hm), (meta_bytes _ _ Hm), (meta_info _ _ Hm). done.
  - destruct (Z.leb_spec (bd_used p') 0); [lia|]. destruct Hor as [Et|]; [|done]; rewrite <- Et in Hq.
    destruct (inv_configured _ _ Hinv Hl) as [inf Hcf].
    eapply wp_mono.
    + apply (setup_dmac_spec i inf b q s1); try done; [by rewrite Ep|by apply (rest_startable i p' h b q s); rewrite ?Hq|by apply Ecf].
    + intros [] s' Hset. assert (one_way s1 i) as Hw.
      { intros Hc. rewrite Ep, (meta_chaining _ _ Hm) in Hc. rewrite Ep, Hq'. pose proof (inv_one_way _ _ Hinv Hc) as Hw.
        rewrite Hq in Hw. by apply Forall_cons in Hw as [_ Hw]. }
      pose proof (settled_acts i inf b q s1 s' Hi Ha Hl ltac:(by rewrite Ep) Hw Hset) as [K1 K2 K3].
      split; [split; [by apply (frame_trans i s s1)|done|]|].
      * rewrite K3, Ep, Hq'. unfold abs, abs_of. rewrite Ep, (meta_chaining _ _ Hm), (meta_bytes _ _ Hm), (meta_info _ _ Hm).
        done.
      * destruct (settled_quiet _ _ _ _ _ Hset) as [Q1 Q2 Q3 _]. by split.
Qed.

(** The tail of [consume_dma_bd] with its result set apart. *)
Lemma wp_tail i (m : mx2_dma_priv_t -> M dmast unit) (b : bool) (Q : bool -> dmast -> Prop) s :
  wp (p1 ← priv_at i; m p1) (fun _ s' => Q b s') s -> wp (p1 ← priv_at i; m p1;; mret b) Q s.
Proof.
  unfold wp, mbind, M_bind. destruct (priv_at i s) as [[p s1]|f]; [|done]. by destruct (m p s1) as [[[] s2]|f].
Qed.

Lemma land_eq_bit x n : 0 <= n -> (Z.land x (2 ^ n) =? 2 ^ n) = Z.testbit x n.
Proof.
  intros Hn. rewrite <- land_bits_test by done. rewrite <- Z.shiftl_1_l. change (Z.shiftl 1 n) with (bit n).
  destruct (Z.eqb_spec (Z.land x (bit n)) 0) as [->|Hne].
  - destruct (Z.eqb_spec 0 (bit n)) as [E|]; [|done]. apply (f_equal (fun z => Z.testbit z n)) in E.
    rewrite testbit_bit, Z.eqb_refl, Z.bits_0 in E by done. done.
  - apply Z.eqb_eq, Z.bits_inj'. intros k Hk. rewrite Z.land_spec, testbit_bit by done.
    destruct (Z.eqb_spec k n) as [->|]; [|apply andb_false_r]. rewrite andb_true_r.
    apply Z.eqb_neq in Hne. rewrite land_bit in Hne by done. by destruct (Z.testbit x n).
Qed.

Lemma consume_spec i error s :
  shape s -> in_chans i -> chan_inv s i -> active (chan s i) = true ->
  wp (consume_dma_bd i error)
    (fun b s' => let q := a_queue (abs s i) in
       b = a_notify error q /\ acts i (a_load (a_rest error q) (abs s i)) s s' /\
       counted_down (is_nil (a_rest error q)) s s') s.
Proof.
  intros Hs Hi Hinv Ha. pose proof (inv_queue _ _ Hinv) as Hq. rewrite Ha in Hq. destruct Hq as (h & t & Hq & _).
  pose proof (inv_ring _ _ Hinv) as Hr. pose proof (queue_nonempty _ _ _ Hr Hq) as Hu.
  assert (a_queue (abs s i) = item_of h :: (item_of <$> t)) as Eq by (unfold abs, abs_of; cbn [a_queue]; by rewrite Hq).
  cbv zeta. rewrite Eq.
  unfold consume_dma_bd. apply wp_bind, wp_chan_at; [done..|]. rewrite (shape_private _ Hs) by done.
  apply wp_bind, wp_priv_at; [done..|]. apply wp_bind. destruct (Z.eqb_spec error MXC_DMA_DONE) as [Ee|Ee]; cbn [negb orb].
  - apply wp_bind, (wp_deref _ h); [by apply (queue_head _ h t)|]. apply wp_bind, wp_store_priv. apply wp_ret.
    apply wp_tail.
    assert (queue (pop (priv s i)) = t) as Hqp by (pose proof Hq as E; rewrite (queue_pop _ Hr Hu) in E; by injection E).
    eapply wp_mono.
    + apply (moved_on i (pop (priv s i)) h t t s Hs Hi Hinv Ha Hq); [by apply pop_ok|by split|done|by left].
    + intros [] s' [Hacts Hcd]. split; [|rewrite Ee; cbn [a_rest]; by destruct t].
      transitivity (is_last h); [rewrite last_testbit; by apply (land_eq_bit (state h) 27)|]. by rewrite Ee.
  - apply wp_bind. eapply wp_mono; [by apply (drop_failed_spec i h t)|].
    intros [] s1 (p' & -> & Hr' & Hm & Hq'). apply wp_ret. apply wp_tail.
    eapply wp_mono; [apply (moved_on i p' h t (if is_last h then t else []) s); try done; destruct (is_last h); auto|].
    intros [] s' [Hacts Hcd]. unfold a_notify, a_rest. apply Z.eqb_neq in Ee. rewrite Ee. cbn [orb negb].
    change (it_last (item_of h)) with (is_last h). split; [done|]. by destruct (is_last h), t.
Qed.

End Transfer.
