(* ===== verification/DmaClient.v ===== *)
(** * The interrupt handler and the calls that start and stop a channel

    Each is shown to return, to turn its channel into the specified abstract
    channel, to keep the count of running channels and to hold the expected
    number of references to the controller's clock. *)

From stdpp Require Import base list gmap strings.
From Stdlib Require Import ZArith Lia.
From S2P Require Import Prelude CrmRegs DmaTable Dma DmaRing DmaSteps DmaChannel DmaSetup DmaInv DmaOps DmaQueue.
From S2P Require Import DmaTransfer.

(** ** Abstract effects *)

Definition a_set_cb (f : option Z) (x : Z) (a : achan) : achan :=
  mkAchan (a_owned a) (a_running a) (a_chain a) (a_mode a) (a_queue a) f x (a_bytes a) (a_info a) (a_dynamic a).

(** The channel is given back: the queue is discarded when it was running. *)
Definition a_release (a : achan) : achan :=
  mkAchan false false (a_chain a) (a_mode a) (if a_running a then [] else a_queue a) (a_cb a) (a_arg a) (a_bytes a)
    (a_info a) (a_dynamic a).

(** [mxc_dma_enable]: what the client is told, and the channel. *)
Definition spec_enable (a : achan) : Z * achan :=
  if negb (a_owned a) then (- EINVAL, a)
  else if a_running a then (0, a)
  else (0, a_load (a_queue a) (a_set_bytes 0 a)).

(** [mxc_dma_disable]: the queue is discarded. *)
Definition spec_disable (a : achan) : Z * achan :=
  if negb (a_owned a) || negb (a_running a) then (- EINVAL, a) else (0, a_load [] a).

Definition spec_callback_set (f : option Z) (x : Z) (a : achan) : Z * achan :=
  if negb (a_owned a) then (- ENODEV, a)
  else if a_running a then (- EBUSY, a)
  else (0, a_set_cb f x a).

(** The change of the count of running channels. *)
Definition runs (a : achan) : Z := Z.b2z (a_running a).

Section Client.
Context {C : Type} {Clk : ClkProvider C} {Laws : ClkLaws C}.
Implicit Types s : dmast.

(** The step turned channel [i] into [a]; [k] channels are counted as running
    and [n] references to the clock are held afterwards. *)
Record moved (i : Z) (a : achan) (k n : Z) s s' : Prop := mkMoved {
  mv_acts : acts i a s s';
  mv_actived : g_dma_actived s' = k;
  mv_holds : holds n s';
  mv_actions : actions s' = actions s;
}.

Lemma still_holds n s s' : still s s' -> dma_clk s' = dma_clk s -> holds n s -> holds n s'.
Proof. intros H Hc. unfold holds. by rewrite (still_clks _ _ H), Hc. Qed.

Lemma same_actived i k s : same_chan i s (with_actived k s).
Proof. by split. Qed.

Lemma frame_actived i k s : frame i s (with_actived k s).
Proof. split; try done. apply shape_actived. Qed.

(** ** Setting the byte count *)

Lemma set_bytes_acts i n s :
  shape s -> in_chans i -> chan_inv s i -> acts i (a_set_bytes n (abs s i)) s (set_priv i (upd_bytes n (priv s i)) s).
Proof.
  intros Hs Hi Hinv. pose proof (priv_set_eq s i (upd_bytes n (priv s i)) Hs Hi) as Ep. split.
  - by apply frame_set_priv.
  - destruct Hinv as [H1 H2 H3 H4 H5 H6]. split; rewrite ?Ep; try done.
    + split; apply H1.
    + intros Hl. destruct (H4 Hl) as [inf Hcf]. exists inf. unfold configured in *. by rewrite Ep.
    + change (chan (set_priv i (upd_bytes n (priv s i)) s) i) with (chan s i). destruct (active (chan s i)).
      * destruct H5 as (h & t & Hq & Hbh & Hm & Hc & Ht). exists h, t. rewrite Ep. do 4 (split; [done|]).
        destruct t as [|b t]; [by apply regs_hold_set_priv|]. destruct Ht as (Ht & Hb & Hn).
        split; [done|]. split; [|intros Hc'; by apply regs_hold_set_priv, Hn].
        intros Hbb. destruct (Hb Hbb) as (? & ? & ?). split; [done|]. split; [by apply regs_hold_set_priv|done].
      * unfold idle_queue. by rewrite Ep.
    + unfold one_way. by rewrite Ep.
  - unfold abs. by rewrite Ep.
Qed.
(** ** The interrupt handler *)

Definition irq_error s (i : Z) : Z := error_of (events s i).
Definition irq_bytes s (i : Z) : Z := u32 (a_bytes (abs s i) + creg s i transferd).
Definition irq_rest s (i : Z) : list item := a_rest (irq_error s i) (a_queue (abs s i)).
Definition irq_chan s (i : Z) : achan := a_load (irq_rest s i) (a_set_bytes (irq_bytes s i) (abs s i)).
Definition irq_actived s (i : Z) : Z :=
  if is_nil (irq_rest s i) then s32 (g_dma_actived s - 1) else g_dma_actived s.

(** References kept after [disable_dma_clk] with [k] running channels. *)
Definition dropped (k n : Z) : Z := if k =? 0 then Z.max 0 (n - 1) else n.

Lemma disable_clk_moved i a k n s s' (Q : unit -> dmast -> Prop) :
  in_chans i -> 0 <= n -> moved i a k n s s' ->
  (forall s'', moved i a k (dropped k n) s s'' -> Q tt s'') -> wp disable_dma_clk Q s'.
Proof.
  intros Hi Hn [Ha Hk Hh Hact] HQ. apply (disable_clk_spec n); [done..|]. intros s'' Hco Hh''. apply HQ.
  rewrite Hk in Hh''. split; [|by rewrite (co_actived _ _ Hco)|done|by rewrite (co_actions _ _ Hco)].
  apply (acts_same i a s s'); [done|done|by apply clock_only_frame|by apply clock_only_same].
Qed.

(** Everything the handler does before it calls the client. *)
Lemma irq_prefix i n s :
  shape s -> in_chans i -> chan_inv s i -> active (chan s i) = true -> holds n s ->
  wp (st ← __clear_dma_interrupt (channel (chan s i));
      p ← priv_at i;
      v ← drd (dma_base p + transferd);
      store_priv i (upd_bytes (u32 (trans_bytes p + v)) p);;
      b ← consume_dma_bd i (error_of st);
      mret (error_of st, b))
    (fun r s' => r = (irq_error s i, a_notify (irq_error s i) (a_queue (abs s i))) /\
       moved i (irq_chan s i) (irq_actived s i) n s s') s.
Proof.
  intros Hs Hi Hinv Ha Hh. rewrite (shape_channel _ Hs) by done. apply wp_bind, wp_clear_interrupt; [done|].
  assert (same_chan i s (acked i s)) as Hsm by by apply acked_same.
  assert (acts i (abs s i) s (acked i s)) as Hack.
  { apply (acts_same i (abs s i) s s); [done|by apply acts_refl|by apply acked_frame|done]. }
  assert (holds n (acked i s)) as Hh1 by exact Hh.
  assert (creg (acked i s) i transferd = creg s i transferd) as Er.
  { unfold acked. rewrite !creg_low by (done || off_tac). done. }
  pose proof (acked_still i s) as Hst. remember (acked i s) as s1 eqn:E1. clear E1.
  destruct Hack as [Hf1 Hi1 Ha1]. assert (shape s1) as Hs1 by by apply Hf1.
  apply wp_bind, wp_priv_at; [done..|]. rewrite (shape_base _ Hs1) by done.
  apply wp_bind, wp_drd. apply wp_bind, wp_store_priv.
  change (readl (dregs s1) (base i + transferd)) with (creg s1 i transferd). rewrite Er.
  assert (u32 (trans_bytes (priv s1 i) + creg s i transferd) = irq_bytes s i) as -> by (rewrite (same_p _ _ _ Hsm); done).
  pose proof (set_bytes_acts i (irq_bytes s i) s1 Hs1 Hi Hi1) as H2. rewrite Ha1 in H2.
  assert (active (chan (set_priv i (upd_bytes (irq_bytes s i) (priv s1 i)) s1) i) = true) as Ha2
    by (change (active (chan s1 i) = true); by rewrite (same_c _ _ _ Hsm)).
  assert (still s1 (set_priv i (upd_bytes (irq_bytes s i) (priv s1 i)) s1)) as Hst2 by by split.
  assert (holds n (set_priv i (upd_bytes (irq_bytes s i) (priv s1 i)) s1)) as Hh2 by exact Hh1.
  remember (set_priv i (upd_bytes (irq_bytes s i) (priv s1 i)) s1) as s2 eqn:E2. clear E2.
  destruct H2 as [Hf2 Hi2 Ha2']. assert (shape s2) as Hs2 by by apply Hf2.
  apply wp_bind. eapply wp_mono; [by apply consume_spec|]. cbv beta zeta. rewrite Ha2'.
  change (a_queue (a_set_bytes (irq_bytes s i) (abs s i))) with (a_queue (abs s i)).
  intros b s3 (-> & [Hf3 Hi3 Ha3] & [Hk Hc Hact]). apply wp_ret. split; [done|]. split.
  - split; [|done|done]. eapply frame_trans; [|exact Hf3]. by apply (frame_trans i s s1).
  - rewrite Hk. unfold irq_actived, irq_rest, irq_error.
    rewrite (still_actived _ _ Hst2), (still_actived _ _ Hst). done.
  - unfold holds. rewrite Hc, (frame_clk _ _ _ Hf3). exact Hh2.
  - rewrite Hact, (still_actions _ _ Hst2). apply Hst.
Qed.

Section Callback.
Context (call_cb : Z -> Z -> Z -> Z -> M dmast unit).

(** The client's callback, and the count reset. *)
Definition irq_notify (i error : Z) : M dmast unit :=
  d1 ← chan_at i;
  p1 ← priv_at i;
  (match cb_fn d1 with
   | Some f => call_cb f (cb_args d1) error (trans_bytes p1)
   | None => mret tt
   end);;
  p2 ← priv_at i;
  store_priv i (upd_bytes 0 p2).

End Callback.

(** ** Starting a channel *)

(** An idle channel as [mxc_dma_enable] hands it to [setup_dmac]. *)
Record started (i : Z) s s' : Prop := mkStarted {
  st_frame : frame i s s';
  st_chan : chan s' i = upd_active true (chan s i);
  st_priv : priv s' i = upd_bytes 0 (priv s i);
  st_regs : forall o, 0 <= o <= Ctl -> creg s' i o = creg s i o;
}.

Lemma started_configured i inf s s' : started i s s' -> configured s i inf -> configured s' i inf.
Proof.
  intros H. unfold configured. rewrite (st_chan _ _ _ H), (st_priv _ _ _ H), (st_regs _ _ _ H) by off_tac. done.
Qed.

Lemma setup_started i s s' :
  shape s' -> in_chans i -> chan_inv s i -> lock (chan s i) = 1 -> active (chan s i) = false -> started i s s' ->
  let q := a_queue (abs s i) in
  wp (setup_dmac i)
    (fun _ s2 => acts i (a_load q (a_set_bytes 0 (abs s i))) s s2 /\ counted_down (is_nil q) s' s2) s'.
Proof.
  intros Hs' Hi Hinv Hl Ha Hst q. pose proof (inv_queue _ _ Hinv) as Hidle. rewrite Ha in Hidle.
  pose proof (inv_ring _ _ Hinv) as Hr. destruct (inv_configured _ _ Hinv Hl) as [inf Hcf].
  pose proof (started_configured i inf s s' Hst Hcf) as Hcf'.
  pose proof (st_chan _ _ _ Hst) as Ec. pose proof (st_priv _ _ _ Hst) as Ep.
  assert (ring_ok (priv s' i)) as Hr' by (rewrite Ep; split; apply Hr).
  destruct (queue (priv s i)) as [|h t] eqn:Hq.
  - assert (q = []) as Eqq by (unfold q, abs, abs_of; cbn [a_queue]; by rewrite Hq). rewrite Eqq.
    pose proof (queue_length _ (proj1 (ring_used _ Hr))) as Hlen. rewrite Hq in Hlen. cbn [length] in Hlen.
    unfold setup_dmac. apply wp_bind, wp_chan_at; [done..|]. apply wp_bind, (wp_deref _ i); [by apply Hs'|].
    apply wp_bind, wp_priv_at; [done..|]. rewrite Ec, Ep. cbn [active upd_active negb bd_used upd_bytes].
    destruct (Z.leb_spec (bd_used (priv s i)) 0); [|lia]. apply wp_bind, wp_store_chan, wp_modify.
    change (upd_active false (upd_active true (chan s i))) with (upd_active false (chan s i)).
    split; [|by split]. set (s2 := with_actived _ _).
    assert (chan s2 i = upd_active false (chan s i)) as Ec2 by exact (chan_set_eq s' i _ Hs' Hi).
    assert (priv s2 i = upd_bytes 0 (priv s i)) as Ep2 by exact Ep.
    split.
    + eapply frame_trans; [exact (st_frame _ _ _ Hst)|].
      eapply frame_trans; [apply (frame_set_chan i (upd_active false (chan s i))); [done|done| |]|].
      1,2: rewrite Ec; done.
      apply frame_actived.
    + split; rewrite ?Ec2, ?Ep2; cbn [lock active upd_active]; try done; try apply Hinv.
      * split; apply Hr.
      * intros _. exists inf. unfold configured in Hcf' |- *. rewrite Ep2, Ec2. rewrite Ep, Ec in Hcf'. exact Hcf'.
      * unfold idle_queue. rewrite Ep2. exact (eq_ind_r (Forall _) (List.Forall_nil _) Hq).
      * intros _. rewrite Ep2. exact (eq_ind_r (Forall _) (List.Forall_nil _) Hq).
    + unfold abs, abs_of. rewrite Ec2, Ep2. change (queue (upd_bytes 0 (priv s i))) with (queue (priv s i)).
      rewrite Hq. done.
  - assert (queue (priv s' i) = h :: t) as Hq' by (rewrite Ep; exact Hq).
    unfold idle_queue in Hidle. rewrite Hq in Hidle. apply Forall_cons in Hidle as [Hbh Hidle].
    assert (one_way s' i) as Hw.
    { unfold one_way. rewrite Ep, Ec. exact (inv_one_way _ _ Hinv). }
    assert (startable s' i h t) as Hsta.
    { split; [done|]. split; [done|]. by rewrite Hbh. }
    assert (active (chan s' i) = true) as Ha' by by rewrite Ec.
    eapply wp_mono; [by apply (setup_dmac_spec i inf h t)|]. intros [] s2 Hset.
    pose proof (settled_acts i inf h t s' s2 Hi Ha' ltac:(by rewrite Ec) Hq' Hw Hset) as [K1 K2 K3].
    destruct (settled_quiet _ _ _ _ _ Hset) as [Q1 Q2 Q3 _].
    assert (q = item_of h :: (item_of <$> t)) as Eqq by (unfold q, abs, abs_of; cbn [a_queue]; by rewrite Hq).
    rewrite Eqq. split; [|by split]. split; [exact (frame_trans _ _ _ _ (st_frame _ _ _ Hst) K1)|done|].
    rewrite K3, Hq'. unfold abs, abs_of. rewrite Ec, Ep. done.
Qed.

Lemma in_chans_ok i : in_chans i -> bad_channel i = false.
Proof. unfold in_chans, bad_channel, MAX_DMA_CHANNELS, MXC_DMA_CHANNELS. lia. Qed.

Lemma moved_refl i n s : chan_inv s i -> holds n s -> moved i (abs s i) (g_dma_actived s) n s s.
Proof. intros Hinv Hh. split; [by apply acts_refl|done..]. Qed.

Lemma lock_cases s i : chan_inv s i -> (lock (chan s i) =? 0) = negb (a_owned (abs s i)).
Proof. intros H. by rewrite not_owned_lock, negb_involutive. Qed.

(** The running channel after a call, counted with the others. *)
Definition count_after s (i : Z) (a : achan) : Z := g_dma_actived s + runs a - runs (abs s i).

Lemma mxc_dma_enable_spec i n s :
  shape s -> in_chans i -> chan_inv s i -> holds n s -> 0 <= n -> (g_dma_actived s = 0 -> n < cl_room) ->
  0 <= g_dma_actived s < 2 ^ 30 ->
  let a := snd (spec_enable (abs s i)) in
  wp (mxc_dma_enable i)
    (fun r s' => r = fst (spec_enable (abs s i)) /\
       moved i a (count_after s i a) (if g_dma_actived s =? 0 then n + count_after s i a else n) s s') s.
Proof.
  intros Hs Hi Hinv Hh Hn Hroom Hk a. unfold mxc_dma_enable, a, spec_enable, count_after. rewrite in_chans_ok by done.
  apply wp_bind, wp_chan_at; [done..|]. rewrite lock_cases by done.
  assert (forall r : Z, r = r /\ moved i (abs s i) (g_dma_actived s + runs (abs s i) - runs (abs s i))
    (if g_dma_actived s =? 0 then n + (g_dma_actived s + runs (abs s i) - runs (abs s i)) else n) s s) as Hsame.
  { intros r. split; [done|]. replace (_ + _ - _) with (g_dma_actived s) by lia.
    replace (if g_dma_actived s =? 0 then _ else n) with n by (destruct (Z.eqb_spec (g_dma_actived s) 0); lia).
    by apply moved_refl. }
  destruct (a_owned (abs s i)) eqn:Ho; cbn [negb]; [|by apply wp_ret].
  rewrite (shape_private _ Hs) by done. change (a_running (abs s i)) with (active (chan s i)).
  destruct (active (chan s i)) eqn:Ha; [by apply wp_ret|]. clear Hsame.
  apply wp_bind, wp_store_chan.
  assert (shape (set_chan i (upd_active true (chan s i)) s)) as Hs1 by by apply shape_chan.
  apply wp_bind, wp_priv_at; [done..|]. apply wp_bind, wp_store_priv.
  change (priv (set_chan i (upd_active true (chan s i)) s) i) with (priv s i).
  set (s2 := set_priv i _ _).
  assert (started i s s2) as Hst2.
  { split; [|exact (chan_set_eq s i _ Hs Hi)|exact (priv_set_eq (set_chan i (upd_active true (chan s i)) s) i _ Hs1 Hi)|done].
    eapply frame_trans; [by apply (frame_set_chan i (upd_active true (chan s i)))|by apply frame_set_priv]. }
  assert (holds n s2) as Hh2 by exact Hh. assert (g_dma_actived s2 = g_dma_actived s) as Hk2 by done.
  assert (actions s2 = actions s) as Hact2 by done. clearbody s2.
  apply wp_bind, (enable_clk_spec n); [done|done|by rewrite Hk2|]. intros s3 Hco Hh3. rewrite Hk2 in Hh3.
  apply wp_bind, wp_modify. apply wp_bind, wp_clear_interrupt; [done|].
  set (s4 := acked i _).
  assert (started i s s4) as Hst4.
  { destruct Hst2 as [K1 K2 K3 K4]. pose proof (clock_only_same _ _ i Hco Hi) as Hsm.
    assert (same_chan i s3 s4) as Hsm4 by (eapply same_chan_trans; [apply same_actived|by apply acked_same]).
    assert (frame i s3 s4) as Hf4 by (eapply frame_trans; [apply frame_actived|by apply acked_frame]).
    split.
    - eapply frame_trans; [exact K1|]. eapply frame_trans; [by apply clock_only_frame|exact Hf4].
    - by rewrite (same_c _ _ _ Hsm4), (same_c _ _ _ Hsm).
    - by rewrite (same_p _ _ _ Hsm4), (same_p _ _ _ Hsm).
    - intros o Ho'. by rewrite (same_r _ _ _ Hsm4), (same_r _ _ _ Hsm), K4. }
  assert (g_dma_actived s4 = g_dma_actived s + 1) as Hk4.
  { change (s32 (g_dma_actived s3 + 1) = g_dma_actived s + 1). rewrite (co_actived _ _ Hco), Hk2. apply s32_small. lia. }
  assert (holds (if g_dma_actived s =? 0 then n + 1 else n) s4) as Hh4 by exact Hh3.
  assert (actions s4 = actions s) as Hact4 by (rewrite <- Hact2; exact (co_actions _ _ Hco)).
  assert (dma_clk s4 = dma_clk s) as _ by apply (st_frame _ _ _ Hst4). clearbody s4. clear s3 Hco Hh3 s2 Hst2 Hh2 Hk2 Hact2.
  assert (shape s4) as Hs4 by by apply (st_frame _ _ _ Hst4).
  assert (lock (chan s i) = 1) as Hl by by apply owned_lock.
  apply wp_bind. eapply wp_mono; [by apply (setup_started i s s4)|]. cbv zeta beta.
  set (a' := a_load (a_queue (abs s i)) (a_set_bytes 0 (abs s i))). intros [] s5 [Hacts [Q1 Q2 Q3]].
  assert (g_dma_actived s5 = g_dma_actived s + runs a' - runs (abs s i)) as Hk5.
  { rewrite Q1, Hk4. unfold a', runs. change (a_running (abs s i)) with (active (chan s i)). rewrite Ha. unfold a_load.
    destruct (a_queue (abs s i)); cbn [is_nil a_running Z.b2z]; [|lia]. rewrite s32_small by lia. lia. }
  apply wp_bind. eapply (disable_clk_moved i a' _ _ s s5).
  - done.
  - instantiate (1 := if g_dma_actived s =? 0 then n + 1 else n). destruct (_ =? _); lia.
  - split; [done|exact Hk5| |by rewrite Q3]. unfold holds. rewrite Q2, (frame_clk _ _ _ (acts_frame _ _ _ _ Hacts)).
    rewrite <- (frame_clk _ _ _ (st_frame _ _ _ Hst4)). exact Hh4.
  - intros s6 [M1 M2 M3 M4]. apply wp_ret. split; [done|]. split; try done.
    assert (0 <= runs a' <= 1) as Hra by (unfold runs; destruct (a_running a'); cbn; lia).
    assert (runs (abs s i) = 0) as Hrs by (unfold runs; change (a_running (abs s i)) with (active (chan s i)); by rewrite Ha).
    match goal with |- holds ?x _ => replace x with (dropped (g_dma_actived s + runs a' - runs (abs s i)) (if g_dma_actived s =? 0 then n + 1 else n)) end; [done|].
    unfold dropped. cbn [snd]. clearbody a'. destruct (Z.eqb_spec (g_dma_actived s) 0), (Z.eqb_spec (g_dma_actived s + runs a' - runs (abs s i)) 0); lia.
Qed.

(** ** Stopping a channel *)

Lemma flush_acts i s s' :
  shape s -> shape s' -> in_chans i -> chan_inv s i -> lock (chan s i) = 1 -> frame i s s' ->
  chan s' i = upd_active false (chan s i) -> priv s' i = priv s i ->
  creg s' i Ctl = u32 (clear (creg s i Ctl) DMA_CTL_CEN) ->
  acts i (a_load [] (abs s i)) s (set_priv i (upd_rd (bd_wr (priv s i)) 0 (priv s i)) s').
Proof.
  intros Hs Hs' Hi Hinv Hl Hf Ec Ep Er. set (p := upd_rd _ _ _). pose proof (priv_set_eq s' i p Hs' Hi) as Ep2.
  assert (chan (set_priv i p s') i = upd_active false (chan s i)) as Ec2 by exact Ec.
  assert (queue p = []) as Hq by by apply queue_nil.
  destruct (inv_configured _ _ Hinv Hl) as [inf (H1 & H2 & H3 & H4)]. split.
  - eapply frame_trans; [exact Hf|]. apply frame_set_priv; [done..| |]; by rewrite Ep.
  - split; rewrite ?Ep2, ?Ec2; cbn [lock active upd_active]; try done; try apply Hinv.
    + apply flush_ok. apply Hinv.
    + intros _. exists inf. unfold configured. rewrite Ep2, Ec2. split; [exact H1|]. split; [done|]. split; [done|].
      change (creg (set_priv i p s') i Ctl) with (creg s' i Ctl). rewrite Er. by apply ports_u32, ports_clear.
    + unfold idle_queue. by rewrite Ep2, Hq.
    + intros _. by rewrite Ep2, Hq.
  - unfold abs, abs_of. rewrite Ep2, Ec2, Hq. done.
Qed.

Lemma mxc_dma_disable_spec i n s :
  shape s -> in_chans i -> chan_inv s i -> holds n s -> 0 <= n -> 0 <= g_dma_actived s < 2 ^ 30 ->
  (active (chan s i) = true -> 0 < g_dma_actived s) ->
  let a := snd (spec_disable (abs s i)) in
  wp (mxc_dma_disable i)
    (fun r s' => r = fst (spec_disable (abs s i)) /\ moved i a (count_after s i a) n s s') s.
Proof.
  intros Hs Hi Hinv Hh Hn Hk Hpos a. unfold mxc_dma_disable, a, spec_disable, count_after. rewrite in_chans_ok by done.
  apply wp_bind, wp_chan_at; [done..|]. rewrite lock_cases by done.
  change (a_running (abs s i)) with (active (chan s i)).
  assert (moved i (abs s i) (g_dma_actived s + runs (abs s i) - runs (abs s i)) n s s) as Hsame.
  { replace (_ + _ - _) with (g_dma_actived s) by lia. by apply moved_refl. }
  destruct (a_owned (abs s i)) eqn:Ho; cbn [negb orb]; [|by apply wp_ret].
  destruct (active (chan s i)) eqn:Ha; cbn [negb]; [|by apply wp_ret]. specialize (Hpos eq_refl). clear Hsame.
  rewrite (shape_private _ Hs) by done. apply wp_bind, wp_store_chan.
  pose proof (chan_set_eq s i (upd_active false (chan s i)) Hs Hi) as Ec.
  pose proof (frame_set_chan i (upd_active false (chan s i)) s Hs Hi eq_refl eq_refl) as Hf.
  assert (same_regs : forall o, creg (set_chan i (upd_active false (chan s i)) s) i o = creg s i o) by done.
  set (s1 := set_chan i (upd_active false (chan s i)) s) in *.
  assert (priv s1 i = priv s i) as Ep by done. assert (g_dma_actived s1 = g_dma_actived s) as Hk1 by done.
  assert (holds n s1) as Hh1 by done. assert (actions s1 = actions s) as Hact1 by done. clearbody s1.
  apply wp_bind, (enable_clk_spec n); [done|done|lia|]. intros s2 Hco2. rewrite Hk1.
  destruct (Z.eqb_spec (g_dma_actived s) 0); [lia|]. intros Hh2.
  apply wp_bind, wp_clear_interrupt; [done|].
  apply wp_bind, wp_drd. apply wp_bind, wp_dwr. rewrite ccr_base by done.
  pose proof (clock_only_same _ _ i Hco2 Hi) as Hsm2.
  pose proof (acked_same i i s2 Hi) as Hsm3. pose proof (acked_frame i s2 Hi) as Hf3.
  assert (holds n (acked i s2)) as Hh3 by exact Hh2.
  assert (g_dma_actived (acked i s2) = g_dma_actived s) as Hk3 by (rewrite <- Hk1; exact (co_actived _ _ Hco2)).
  assert (actions (acked i s2) = actions s) as Hact3 by (rewrite <- Hact1; exact (co_actions _ _ Hco2)).
  pose proof (same_chan_trans _ _ _ _ Hsm2 Hsm3) as Hsm. clear Hsm2 Hsm3.
  remember (acked i s2) as s3 eqn:E3. clear E3.
  change (readl (dregs s3) (base i + Ctl)) with (creg s3 i Ctl).
  rewrite (same_r _ _ _ Hsm), same_regs by off_tac. set (s4 := set_reg _ _ s3).
  assert (frame i s s4) as Hf4.
  { eapply frame_trans; [exact Hf|]. eapply frame_trans; [by apply (clock_only_frame i)|].
    eapply frame_trans; [exact Hf3|]. apply frame_block; [done|off_tac]. }
  assert (chan s4 i = upd_active false (chan s i)) as Ec4 by (rewrite <- Ec; exact (same_c _ _ _ Hsm)).
  assert (priv s4 i = priv s i) as Ep4 by (rewrite <- Ep; exact (same_p _ _ _ Hsm)).
  assert (creg s4 i Ctl = u32 (clear (creg s i Ctl) DMA_CTL_CEN)) as Er4
    by (unfold s4; rewrite creg_set_reg by (done || off_tac); done).
  assert (holds n s4) as Hh4 by exact Hh3. assert (g_dma_actived s4 = g_dma_actived s) as Hk4 by exact Hk3.
  assert (actions s4 = actions s) as Hact4 by exact Hact3. clearbody s4. clear s2 s3 Hco2 Hh2 Hsm Hf3 Hh3 Hk3 Hact3.
  apply wp_bind, (disable_clk_spec n); [done|done|]. intros s5 Hco5. rewrite Hk4.
  destruct (Z.eqb_spec (g_dma_actived s) 0); [lia|]. intros Hh5. apply wp_bind, wp_modify.
  pose proof (clock_only_same _ _ i Hco5 Hi) as Hsm5.
  assert (frame i s (with_actived (s32 (g_dma_actived s5 + -1)) s5)) as Hf6.
  { eapply frame_trans; [exact Hf4|]. eapply frame_trans; [by apply (clock_only_frame i)|apply frame_actived]. }
  set (s6 := with_actived _ s5) in *.
  assert (g_dma_actived s6 = g_dma_actived s - 1) as Hk6.
  { change (s32 (g_dma_actived s5 + -1) = g_dma_actived s - 1). rewrite (co_actived _ _ Hco5), Hk4. apply s32_small. lia. }
  assert (chan s6 i = upd_active false (chan s i)) as Ec6 by (rewrite <- Ec4; exact (same_c _ _ _ Hsm5)).
  assert (priv s6 i = priv s i) as Ep6 by (rewrite <- Ep4; exact (same_p _ _ _ Hsm5)).
  assert (creg s6 i Ctl = u32 (clear (creg s i Ctl) DMA_CTL_CEN)) as Er6
    by (rewrite <- Er4; apply (same_r _ _ _ Hsm5); off_tac).
  assert (holds n s6) as Hh6 by exact Hh5.
  assert (actions s6 = actions s) as Hact6 by (rewrite <- Hact4; exact (co_actions _ _ Hco5)). clearbody s6.
  assert (shape s6) as Hs6 by by apply Hf6.
  unfold flush_dma_bd. apply wp_bind, wp_bind, wp_priv_at; [done..|]. rewrite Ep6. apply wp_store_priv, wp_ret.
  split; [done|]. cbn [snd]. split; [| |done|done].
  - apply flush_acts; try done. by apply owned_lock.
  - cbn [g_dma_actived set_priv with_privs]. rewrite Hk6. unfold runs. change (a_running (abs s i)) with (active (chan s i)). rewrite Ha. cbn. lia.
Qed.

(** ** The callback *)

Lemma mxc_dma_callback_set_spec i f x s :
  shape s -> in_chans i -> chan_inv s i ->
  wp (mxc_dma_callback_set i f x)
    (fun r s' => still s s' /\ does i (spec_callback_set f x (abs s i)) s r s') s.
Proof.
  intros Hs Hi Hinv. unfold mxc_dma_callback_set, spec_callback_set. rewrite in_chans_ok by done.
  apply wp_bind, wp_chan_at; [done..|]. rewrite lock_cases by done.
  change (a_running (abs s i)) with (active (chan s i)).
  assert (forall r, still s s /\ does i (r, abs s i) s r s) as Hsame
    by (intros r; split; [apply still_refl|split; [done|by apply acts_refl]]).
  destruct (a_owned (abs s i)) eqn:Ho; cbn [negb]; [|by apply wp_ret].
  destruct (active (chan s i)) eqn:Ha; [by apply wp_ret|]. apply wp_bind, wp_store_chan, wp_ret.
  split; [by split|]. split; [done|]. cbn [snd].
  pose proof (chan_set_eq s i (upd_cb f x (chan s i)) Hs Hi) as Ec. set (s1 := set_chan _ _ s) in *.
  assert (priv s1 i = priv s i) as Ep by done. split.
  - by apply frame_set_chan.
  - destruct Hinv as [H1 H2 H3 H4 H5 H6]. rewrite Ha in H5.
    split; rewrite ?Ec, ?Ep; cbn [lock active upd_cb]; try done.
    + intros Hl. destruct (H4 Hl) as [inf Hcf]. exists inf. unfold configured. by rewrite Ec.
    + rewrite Ha. exact H5.
    + unfold one_way. rewrite Ec. exact H6.
  - unfold abs, abs_of. rewrite Ec. done.
Qed.

(** ** Giving a channel back *)

Lemma release_acts i s :
  shape s -> in_chans i -> chan_inv s i -> active (chan s i) = false ->
  acts i (a_release (abs s i)) s (set_chan i (upd_lock 0 (chan s i)) s).
Proof.
  intros Hs Hi Hinv Ha. pose proof (chan_set_eq s i (upd_lock 0 (chan s i)) Hs Hi) as Ec.
  set (s1 := set_chan _ _ s) in *. assert (priv s1 i = priv s i) as Ep by done. split.
  - by apply frame_set_chan.
  - destruct Hinv as [H1 H2 H3 H4 H5 H6]. rewrite Ha in H5.
    split; rewrite ?Ec, ?Ep; cbn [lock active upd_lock]; try done.
    + by left.
    + rewrite Ha. exact H5.
    + unfold one_way. rewrite Ec. exact H6.
  - unfold abs, abs_of, a_release. rewrite Ec. cbn. by rewrite Ha.
Qed.

(** Masking the channel's interrupt with the clock enabled, then unlinking its handler. *)
Lemma mask_step i n s (Q : unit -> dmast -> Prop) :
  shape s -> in_chans i -> chan_inv s i -> holds n s -> 0 <= n -> (g_dma_actived s = 0 -> n < cl_room) ->
  (forall s', moved i (abs s i) (g_dma_actived s) n s s' -> Q tt s') ->
  wp (enable_dma_clk;; mask_dma_interrupt i;; disable_dma_clk) Q s.
Proof.
  intros Hs Hi Hinv Hh Hn Hroom HQ. apply wp_bind, (enable_clk_spec n); [done..|]. intros s1 Hco Hh1.
  apply wp_bind. unfold mask_dma_interrupt. apply wp_bind, wp_drd, wp_dwr. set (s2 := set_reg _ _ s1).
  assert (acts i (abs s i) s s2) as Ha2.
  { apply (acts_same i _ s s1 s2); [done| |by apply frame_mask|by apply same_dimr].
    apply (acts_same i _ s s); [done|by apply acts_refl|by apply clock_only_frame|by apply clock_only_same]. }
  eapply (disable_clk_moved i (abs s i) (g_dma_actived s) (if g_dma_actived s =? 0 then n + 1 else n) s).
  - done.
  - destruct (_ =? _); lia.
  - split; [done|exact (co_actived _ _ Hco)|exact Hh1|exact (co_actions _ _ Hco)].
  - intros s3 Hm. apply HQ. unfold dropped in Hm. destruct (Z.eqb_spec (g_dma_actived s) 0); [|done].
    by replace (Z.max 0 (n + 1 - 1)) with n in Hm by lia.
Qed.

Definition spec_free (a : achan) : Z * achan := (0, if a_owned a then a_release a else a).

(** What the handlers installed on the lines become. *)
Definition freed (i : Z) (a : achan) (l : list (Z * Z)) : list (Z * Z) :=
  if a_owned a then unlink_action (i + MXC_DMA_INTR_0, i) l else l.

Lemma spec_disable_release a : a_owned a = true -> a_running a = true -> a_release (snd (spec_disable a)) = a_release a.
Proof. intros Ho Hr. unfold spec_disable. rewrite Ho, Hr. destruct a. cbn in *. by rewrite Hr. Qed.

Lemma free_tail i n s :
  shape s -> in_chans i -> chan_inv s i -> active (chan s i) = false -> holds n s -> 0 <= n ->
  (g_dma_actived s = 0 -> n < cl_room) ->
  wp (enable_dma_clk;; mask_dma_interrupt i;; disable_dma_clk;;
      p ← priv_at i; free_irq (dma_irq p) i;; put_dma_channel i;; mret 0)
    (fun r s' => r = 0 /\ acts i (a_release (abs s i)) s s' /\ g_dma_actived s' = g_dma_actived s /\ holds n s' /\
       actions s' = unlink_action (i + MXC_DMA_INTR_0, i) (actions s)) s.
Proof.
  intros Hs Hi Hinv Ha Hh Hn Hroom.
  assert (forall A (m1 m2 m3 : M dmast unit) (k : M dmast A) (Q : A -> dmast -> Prop) s0,
    wp (m1;; m2;; m3) (fun _ s' => wp k Q s') s0 -> wp (m1;; m2;; m3;; k) Q s0) as Hassoc.
  { intros A m1 m2 m3 k Q s0. unfold wp, mbind, M_bind. destruct (m1 s0) as [[[] x]|]; [|done].
    destruct (m2 x) as [[[] y]|]; [|done]. by destruct (m3 y) as [[[] z]|]. }
  apply Hassoc. clear Hassoc. apply (mask_step i n); [done..|]. intros s1 [[Hf1 Hi1 Ha1] Hk1 Hh1 Hact1].
  assert (shape s1) as Hs1 by by apply Hf1. assert (active (chan s1 i) = false) as Hac1.
  { change (a_running (abs s1 i) = false). by rewrite Ha1. }
  apply wp_bind, wp_priv_at; [done..|]. rewrite (shape_irq _ Hs1) by done.
  unfold free_irq. apply wp_bind, wp_bind, wp_gets. apply wp_modify. set (s2 := with_actions _ s1).
  assert (shape s2) as Hs2 by by apply shape_actions.
  unfold put_dma_channel, MAX_DMA_CHANNELS, MXC_DMA_CHANNELS. apply wp_bind.
  replace ((i <? 16) && (0 <=? i)) with true by (unfold in_chans in Hi; lia).
  apply wp_bind, wp_chan_at; [done..|]. apply wp_store_chan, wp_ret.
  assert (acts i (abs s1 i) s1 s2) as Hacts2.
  { apply (acts_same i (abs s1 i) s1 s1 s2); [done|by apply acts_refl| |by split]. split; try done; apply shape_actions. }
  pose proof (release_acts i s2 Hs2 Hi (acts_inv _ _ _ _ Hacts2) Hac1) as Hrel.
  split; [done|]. split; [|split; [exact Hk1|split; [exact Hh1|]]].
  - rewrite <- Ha1. apply (acts_trans i (abs s1 i) _ s s1); [by split|].
    apply (acts_trans i (abs s1 i) _ s1 s2); [done|]. exact Hrel.
  - cbn. by rewrite Hact1.
Qed.

Lemma mxc_dma_free_spec i n s :
  shape s -> in_chans i -> chan_inv s i -> holds n s -> 0 <= n < cl_room -> 0 <= g_dma_actived s < 2 ^ 30 ->
  (active (chan s i) = true -> 0 < g_dma_actived s) ->
  let a := snd (spec_free (abs s i)) in
  wp (mxc_dma_free i)
    (fun r s' => r = fst (spec_free (abs s i)) /\ acts i a s s' /\ g_dma_actived s' = count_after s i a /\ holds n s' /\
       actions s' = freed i (abs s i) (actions s)) s.
Proof.
  intros Hs Hi Hinv Hh Hn Hk Hpos a. unfold mxc_dma_free, a, spec_free, freed, count_after. rewrite in_chans_ok by done.
  apply wp_bind, wp_chan_at; [done..|]. rewrite (shape_private _ Hs) by done. rewrite lock_cases by done. cbn [fst snd].
  destruct (a_owned (abs s i)) eqn:Ho; cbn [negb].
  2:{ apply wp_ret. split; [done|]. split; [by apply acts_refl|]. split; [lia|]. done. }
  destruct (active (chan s i)) eqn:Ha.
  - apply wp_bind, wp_bind. eapply wp_mono; [apply (mxc_dma_disable_spec i n); try done; lia|]. cbv zeta beta.
    assert (a_running (abs s i) = true) as Hrun by exact Ha.
    set (a1 := snd (spec_disable (abs s i))).
    assert (a_release a1 = a_release (abs s i)) as Erel by by apply spec_disable_release.
    assert (a_running a1 = false) as Hrun1 by (unfold a1, spec_disable; by rewrite Ho, Hrun).
    intros r s1 [_ [[Hf1 Hi1 Ha1] Hk1 Hh1 Hact1]]. apply wp_ret. assert (shape s1) as Hs1 by by apply Hf1.
    eapply wp_mono; [apply (free_tail i n s1); try done; [|lia|lia]|].
    + change (a_running (abs s1 i) = false). by rewrite Ha1.
    + cbv beta. rewrite Ha1. intros r' s2 (-> & H1 & H2 & H3 & H4). rewrite Erel in H1.
      split; [done|]. split; [by apply (acts_trans i a1 _ s s1)|]. split; [|by rewrite <- Hact1].
      rewrite H2, Hk1. unfold count_after, runs. by rewrite Hrun1, Hrun.
  - apply wp_bind, wp_ret. eapply wp_mono; [apply (free_tail i n s); try done; lia|].
    intros r' s2 (-> & H1 & H2 & H3 & H4). split; [done|]. split; [done|]. split; [|done].
    rewrite H2. unfold runs. change (a_running (abs s i)) with (active (chan s i)). rewrite Ha. cbn. lia.
Qed.

End Client.
