(* ===== verification/DmaRequest.v ===== *)
(** * Requesting a channel

    [mxc_dma_request] hands out the first channel nobody owns, installs the
    interrupt handler and sets the controller up for the device. *)

From stdpp Require Import base list gmap strings.
From Stdlib Require Import ZArith Lia.
From S2P Require Import Prelude CrmRegs DmaTable Dma DmaRing DmaSteps DmaChannel DmaSetup DmaInv DmaOps DmaQueue.
From S2P Require Import DmaTransfer DmaClient.

Definition info_mode (inf : mx2_dma_info_t) : Z :=
  if negb (imode inf =? 0) then MXC_DMA_MODE_WRITE else MXC_DMA_MODE_READ.

(** A channel just handed out for a device. *)
Definition a_fresh (inf : mx2_dma_info_t) (a : achan) : achan :=
  mkAchan true false (dma_chaining inf) (info_mode inf) [] None 0 (a_bytes a) (Some inf) (a_dynamic a).

(** A channel whose handler could not be installed. *)
Definition a_refused (inf : mx2_dma_info_t) (a : achan) : achan :=
  mkAchan false false (a_chain a) (info_mode inf) [] None 0 (a_bytes a) None (a_dynamic a).

Lemma setup_ctl_ports c0 inf rn :
  info_valid inf = true -> info_ranged inf = true -> ports inf (info_mode inf) (setup_ctl c0 inf rn).
Proof.
  intros H1 H2. destruct (info_valid_ports inf H1 H2) as (Ha & Hb & Hc & Hd). unfold ports, info_mode, setup_ctl.
  destruct (imode inf =? 0); cbn [negb]; by apply set_ports_fields.
Qed.

Section Request.
Context {C : Type} {Clk : ClkProvider C} {Laws : ClkLaws C}.
Implicit Types s : dmast.

(** ** The scan *)

Definition is_free s (i : Z) : bool := dynamic (chan s i) && (lock (chan s i) =? 0).

(** The first channel that can be handed out. *)
Definition first_free s : option Z := head (filter (fun i => is_free s i = true) (seqZ 0 16)).

Lemma chans_listed s : shape s -> g_dma_channels s = chan s <$> seqZ 0 16.
Proof.
  intros Hs. apply list_eq_same_length with (n := 16%nat); [rewrite length_fmap, length_seqZ; done|apply Hs|].
  intros n x y Hn Hx Hy. rewrite list_lookup_fmap, lookup_seqZ_lt in Hy by lia. injection Hy as <-. unfold chan.
  rewrite nth_at_lookup by lia. replace (Z.to_nat (0 + Z.of_nat n)) with n by lia. by rewrite Hx.
Qed.

Lemma scan_run s m : forall i,
  scan_channels i (chan s <$> seqZ i (Z.of_nat m)) s =
  match head (filter (fun i => is_free s i = true) (seqZ i (Z.of_nat m))) with
  | Some j => Ret (j, set_chan j (upd_lock 1 (chan s j)) s)
  | None => Ret (-1, s)
  end.
Proof.
  induction m as [|m IH]; intros i; [done|].
  rewrite seqZ_cons by lia. replace (Z.pred (Z.of_nat (S m))) with (Z.of_nat m) by lia.
  rewrite fmap_cons. cbn [scan_channels]. fold (is_free s i). rewrite filter_cons.
  destruct (is_free s i) eqn:Hf; [done|]. rewrite decide_False by done.
  change (i + 1) with (Z.succ i). apply IH.
Qed.

Lemma first_free_Some s i : first_free s = Some i -> in_chans i /\ is_free s i = true.
Proof.
  intros H. assert (i ∈ filter (fun i => is_free s i = true) (seqZ 0 16)) as Hi.
  { unfold first_free in H. destruct (filter _ _) as [|x l]; [done|]. injection H as ->. by apply elem_of_cons; left. }
  apply list_elem_of_filter in Hi as [Hf Hi]. apply elem_of_seqZ in Hi. unfold in_chans. split; [lia|done].
Qed.

Lemma first_free_None s : first_free s = None <-> forall i, in_chans i -> is_free s i = false.
Proof.
  unfold first_free. split.
  - intros H i Hi. destruct (is_free s i) eqn:Hf; [|done].
    assert (i ∈ filter (fun i => is_free s i = true) (seqZ 0 16)) as He.
    { apply list_elem_of_filter. split; [done|]. apply elem_of_seqZ. unfold in_chans in Hi. lia. }
    destruct (filter _ _) as [|x l]; [by apply elem_of_nil in He|done].
  - intros H. destruct (filter _ _) as [|x l] eqn:E; [done|].
    assert (x ∈ filter (fun i => is_free s i = true) (seqZ 0 16)) as He by (rewrite E; by apply elem_of_cons; left).
    apply list_elem_of_filter in He as [Hf Hx]. apply elem_of_seqZ in Hx. rewrite H in Hf; [done|]. unfold in_chans. lia.
Qed.

Lemma wp_get_dynamic (Q : Z -> dmast -> Prop) s :
  shape s ->
  (match first_free s with Some i => Q i (set_chan i (upd_lock 1 (chan s i)) s) | None => Q (-1) s end) ->
  wp (get_dma_channel MXC_DMA_DYNAMIC_CHANNEL) Q s.
Proof.
  intros Hs HQ. unfold get_dma_channel. cbn [Z.eqb Z.leb andb negb]. change (255 =? 255) with true. cbn.
  apply wp_bind, wp_gets. unfold wp. rewrite chans_listed by done. change 16 with (Z.of_nat 16). rewrite scan_run.
  change (Z.of_nat 16) with 16. fold (first_free s). by destruct (first_free s).
Qed.

(** ** Setting a channel up *)

(** Channel [i] has the variables [d] and [p]; nothing else of [s] but
    registers of its own, of the interrupt mask and of the 2D sets has changed. *)
Record cell (i : Z) (d : mxc_dma_channel_t) (p : mx2_dma_priv_t) s s' : Prop := mkCell {
  cell_frame : frame i s s';
  cell_chan : chan s' i = d;
  cell_priv : priv s' i = p;
}.

Lemma cell_refl i s : cell i (chan s i) (priv s i) s s.
Proof. split; [apply frame_refl|done..]. Qed.

Lemma cell_shape i d p s s' : cell i d p s s' -> shape s -> shape s'.
Proof. intros H. apply H. Qed.

Lemma cell_reg i d p v a s s' : cell i d p s s' -> frame i s' (set_reg v a s') -> cell i d p s (set_reg v a s').
Proof. intros [H1 H2 H3] Hf. split; [by apply (frame_trans i s s')|done..]. Qed.

Lemma cell_set_chan i d p d' s s' :
  shape s -> in_chans i -> cell i d p s s' -> channel d' = channel d -> private d' = private d ->
  cell i d' p s (set_chan i d' s').
Proof.
  intros Hs Hi [H1 H2 H3] E1 E2. assert (shape s') as Hs' by by apply H1.
  split; [|by apply chan_set_eq|done]. eapply frame_trans; [exact H1|]. apply frame_set_chan; [done..| |]; by rewrite H2.
Qed.

Lemma cell_set_priv i d p p' s s' :
  shape s -> in_chans i -> cell i d p s s' -> dma_base p' = dma_base p -> dma_irq p' = dma_irq p ->
  cell i d p' s (set_priv i p' s').
Proof.
  intros Hs Hi [H1 H2 H3] E1 E2. assert (shape s') as Hs' by by apply H1.
  split; [|done|by apply priv_set_eq]. eapply frame_trans; [exact H1|]. apply frame_set_priv; [done..| |]; by rewrite H3.
Qed.

Lemma cell_clock i d p s s' s2 : in_chans i -> cell i d p s s' -> clock_only s' s2 -> cell i d p s s2.
Proof.
  intros Hi [H1 H2 H3] Hco. split.
  - eapply frame_trans; [exact H1|by apply clock_only_frame].
  - by rewrite (clock_only_chan _ _ i Hco).
  - by rewrite (clock_only_priv _ _ i Hco).
Qed.

(** The 2D registers belong to no channel. *)
Definition sets_2d : list Z := [DMA_WSRA; DMA_XSRA; DMA_YSRA; DMA_WSRB; DMA_XSRB; DMA_YSRB].

Lemma frame_2d i o v s : o ∈ sets_2d -> frame i s (set_reg v (DMA_REG o) s).
Proof.
  intros Ho. assert (0x40 <= o < 0x80) as Hr.
  { unfold sets_2d in Ho. repeat (apply elem_of_cons in Ho as [->|Ho]; [split; [done|reflexivity]|]). by apply elem_of_nil in Ho. }
  rewrite DMA_REG_eq. apply frame_shared; [lia|]. intros H%bit_regs_low. lia.
Qed.

(** [setup_2d] and the plain register writes keep everything but registers. *)
Record regs_only (i : Z) s s' : Prop := mkRegsOnly {
  ro_frame : frame i s s';
  ro_ctl : creg s' i Ctl = creg s i Ctl;
  ro_vars : exists r, s' = with_dregs r s;
}.

Lemma regs_only_refl i s : regs_only i s s.
Proof. split; [apply frame_refl|done|]. exists (fun r => r). by destruct s. Qed.

Lemma regs_only_trans i s1 s2 s3 : regs_only i s1 s2 -> regs_only i s2 s3 -> regs_only i s1 s3.
Proof.
  intros [H1 H2 [f ->]] [K1 K2 [g ->]]. split; [by apply (frame_trans i _ (with_dregs f s1))| |].
  - by rewrite K2, H2.
  - exists (fun r => g (f r)). done.
Qed.

Lemma regs_only_2d i o v s : in_chans i -> o ∈ sets_2d -> regs_only i s (set_reg v (DMA_REG o) s).
Proof.
  intros Hi Ho. split; [by apply frame_2d| |by eexists]. apply creg_low; [|done|off_tac].
  unfold sets_2d in Ho. repeat (apply elem_of_cons in Ho as [->|Ho]; [reflexivity|]). by apply elem_of_nil in Ho.
Qed.

Lemma regs_only_block i o v s : in_chans i -> chan_off o -> o <> Ctl -> regs_only i s (set_reg v (base i + o) s).
Proof.
  intros Hi Ho Hne. split; [by apply frame_block| |by eexists].
  rewrite creg_set_reg by (done || off_tac). by rewrite decide_False.
Qed.

Lemma wp_setup_2d i inf (Q : unit -> dmast -> Prop) s :
  in_chans i -> (forall s', regs_only i s s' -> Q tt s') -> wp (setup_2d inf) Q s.
Proof.
  intros Hi HQ. unfold setup_2d.
  destruct (M2D_Valid inf); [|apply wp_ret, HQ, regs_only_refl].
  destruct (msel inf); apply wp_bind, wp_dwr; apply wp_bind, wp_dwr; apply wp_dwr, HQ.
  all: eapply regs_only_trans; [|apply regs_only_2d; [done|unfold sets_2d; set_solver]].
  all: eapply regs_only_trans; [|apply regs_only_2d; [done|unfold sets_2d; set_solver]].
  all: apply regs_only_2d; [done|unfold sets_2d; set_solver].
Qed.

Lemma frame_unmask i s :
  in_chans i -> frame i s (set_reg (clear (readl (dregs s) (DMA_REG DMA_DIMR)) (bit i)) (DMA_REG DMA_DIMR) s).
Proof.
  intros Hi. apply frame_dimr. intros j Hj Hij. unfold in_chans in *. rewrite testbit_clear, testbit_bit by lia.
  destruct (Z.eqb_spec j i); [done|]. apply andb_true_r.
Qed.

(** The request enable flag kept for the channel. *)
Definition eff_ren (inf : mx2_dma_info_t) : bool :=
  if negb (sourceType inf =? DMA_TYPE_FIFO) && negb (destType inf =? DMA_TYPE_FIFO) then
    if ren inf then false else ren inf
  else ren inf.

Lemma setup_checks_pass inf :
  info_valid inf = true ->
  (3 <? sourceType inf) || (3 <? destType inf) || (3 <? destPort inf) || (3 <? sourcePort inf) = false /\
  M2D_Valid inf && (W inf <? X inf) = false.
Proof. unfold info_valid. destruct (M2D_Valid inf); cbn [negb andb orb]; lia. Qed.

(** The register writes of [setup_dma_channel], up to the acknowledgement. *)
Lemma setup_dma_channel_spec i inf n s :
  shape s -> in_chans i -> info_valid inf = true -> holds n s -> 0 <= n ->
  wp (setup_dma_channel i inf)
    (fun r s' => r = 0 /\ cell i (chan s i) (upd_flags (dma_chaining inf) (eff_ren inf) (priv s i)) s s' /\
       creg s' i Ctl = u32 (setup_ctl (creg s i Ctl) inf (eff_ren inf)) /\
       g_dma_actived s' = g_dma_actived s /\ holds (dropped (g_dma_actived s) n) s' /\ actions s' = actions s) s.
Proof.
  intros Hs Hi Hv Hh Hn. unfold setup_dma_channel. apply wp_bind, wp_chan_at; [done..|].
  rewrite (shape_private _ Hs) by done. destruct (setup_checks_pass inf Hv) as [-> ->].
  apply wp_bind, wp_priv_at; [done..|]. fold (eff_ren inf). rewrite (shape_base _ Hs) by done.
  apply wp_bind, wp_store_priv. set (p1 := upd_flags _ _ _).
  pose proof (cell_set_priv i _ _ p1 s s Hs Hi (cell_refl i s) eq_refl eq_refl) as H1.
  assert (creg (set_priv i p1 s) i Ctl = creg s i Ctl) as R1 by done.
  assert (still s (set_priv i p1 s)) as S1 by by split. set (s1 := set_priv i p1 s) in *. clearbody s1.
  apply wp_bind, (wp_setup_2d i); [done|]. intros s2 Hro.
  apply wp_bind, wp_dwr. apply wp_bind, wp_dwr.
  assert (regs_only i s1 (set_reg (request inf) (base i + RequestSource) (set_reg (burstLength inf) (base i + BurstLength) s2)))
    as Hro2.
  { eapply regs_only_trans; [exact Hro|].
    eapply regs_only_trans; [apply regs_only_block|apply regs_only_block]; (done || off_tac). }
  remember (set_reg (request inf) _ _) as s3 eqn:E3. clear E3 Hro s2.
  assert (wp (if ren inf then
                let reg := Z.land (busuntils inf) 0x1FFFF in
                dwr (if rto_en inf then setb reg 0xE000 else reg) (base i + BusUtilt)
              else dwr (busuntils inf) (base i + BusUtilt)) (fun _ s4 => regs_only i s1 s4) s3) as Hbus.
  { destruct (ren inf); apply wp_dwr; (eapply regs_only_trans; [exact Hro2|]); apply regs_only_block; (done || off_tac). }
  apply wp_bind. eapply wp_mono; [exact Hbus|]. clear Hbus Hro2 s3. intros [] s4 [Hf4 Hc4 [f Ef]].
  apply wp_bind, wp_drd. apply wp_bind, wp_dwr.
  change (readl (dregs s4) (base i + Ctl)) with (creg s4 i Ctl). rewrite Hc4, R1. set (s5 := set_reg _ _ s4).
  assert (cell i (chan s i) p1 s s5) as H5.
  { apply cell_reg; [|apply frame_block; [done|off_tac]]. destruct H1 as [K1 K2 K3].
    split; [by apply (frame_trans i s s1)|by rewrite Ef|by rewrite Ef]. }
  assert (creg s5 i Ctl = u32 (setup_ctl (creg s i Ctl) inf (eff_ren inf))) as R5
    by (unfold s5; rewrite creg_set_reg by (done || off_tac); done).
  assert (still s s5) as S5 by (eapply still_trans; [exact S1|]; unfold s5; rewrite Ef; by split). clearbody s5. clear s4 Hf4 Hc4 Ef.
  rewrite (shape_channel _ Hs) by done. apply wp_bind, wp_clear_interrupt; [done|].
  apply wp_bind. unfold unmask_dma_interrupt. apply wp_bind, wp_drd, wp_dwr.
  assert (frame i s5 (acked i s5)) as Hf6 by by apply acked_frame. assert (same_chan i s5 (acked i s5)) as Hs6 by by apply acked_same.
  assert (still s5 (acked i s5)) as S6 by apply acked_still.
  remember (acked i s5) as s6 eqn:E6. clear E6. set (s7 := set_reg _ _ s6).
  assert (cell i (chan s i) p1 s s7) as H7.
  { apply cell_reg; [|by apply frame_unmask]. destruct H5 as [K1 K2 K3].
    split; [by apply (frame_trans i s s5)|by rewrite (same_c _ _ _ Hs6)|by rewrite (same_p _ _ _ Hs6)]. }
  assert (creg s7 i Ctl = creg s5 i Ctl) as R7.
  { rewrite (same_r i s6 s7 ltac:(by apply same_dimr)), (same_r _ _ _ Hs6) by off_tac. done. }
  assert (still s s7) as S7 by (eapply still_trans; [exact S5|]; eapply still_trans; [exact S6|apply still_reg]). clearbody s7.
  assert (holds n s7) as Hh7 by (apply (still_holds n s); [done|apply (cell_frame _ _ _ _ _ H7)|done]).
  apply wp_bind, (disable_clk_spec n); [done|done|]. intros s8 Hco Hh8. apply wp_ret.
  rewrite (still_actived _ _ S7) in Hh8.
  split; [done|]. split; [by apply (cell_clock i _ _ s s7)|].
  split; [by rewrite (clock_only_creg s7 s8) by (done || off_tac); rewrite R7, R5|].
  split; [by rewrite (co_actived _ _ Hco), (still_actived _ _ S7)|].
  split; [exact Hh8|]. by rewrite (co_actions _ _ Hco), (still_actions _ _ S7).
Qed.

Section Irq.
Context (request_irq_ret : list (Z * Z) -> Z -> Z).

(** What [request_irq] will answer for channel [i]. *)
Definition irq_answer s (i : Z) : Z := request_irq_ret (actions s) (i + MXC_DMA_INTR_0).

Lemma init_dma_channel_spec i inf n s :
  shape s -> in_chans i -> info_valid inf = true -> holds n s -> 0 <= n -> (g_dma_actived s = 0 -> n < cl_room) ->
  wp (__init_dma_channel request_irq_ret i inf)
    (fun r s' => r = irq_answer s i /\ g_dma_actived s' = g_dma_actived s /\
       if r =? 0 then
         cell i (chan s i) (upd_flags (dma_chaining inf) (eff_ren inf) (priv s i)) s s' /\
         creg s' i Ctl = u32 (setup_ctl 0 inf (eff_ren inf)) /\
         holds (dropped (g_dma_actived s) n) s' /\ actions s' = (i + MXC_DMA_INTR_0, i) :: actions s
       else cell i (chan s i) (priv s i) s s' /\ holds n s' /\ actions s' = actions s) s.
Proof.
  intros Hs Hi Hv Hh Hn Hroom. unfold __init_dma_channel. apply wp_bind, wp_chan_at; [done..|].
  apply wp_bind, (wp_deref _ i); [by apply Hs|]. rewrite (shape_channel _ Hs) by done.
  apply wp_bind. unfold mask_dma_interrupt. apply wp_bind, wp_drd, wp_dwr.
  pose proof (cell_reg i _ _ _ _ s s (cell_refl i s) (frame_mask i s Hi)) as H1.
  assert (still s (set_reg (setb (readl (dregs s) (DMA_REG DMA_DIMR)) (bit i)) (DMA_REG DMA_DIMR) s)) as S1 by by split.
  remember (set_reg _ (DMA_REG DMA_DIMR) s) as s1 eqn:E1. clear E1. assert (shape s1) as Hs1 by by apply (cell_shape _ _ _ _ _ H1).
  assert (holds n s1) as Hh1 by (apply (still_holds n s); [done|apply (cell_frame _ _ _ _ _ H1)|done]).
  apply wp_bind, wp_priv_at; [done..|]. rewrite (shape_irq _ Hs1) by done.
  unfold request_irq. apply wp_bind, wp_bind, wp_gets. rewrite (still_actions _ _ S1). cbv zeta.
  change (request_irq_ret (actions s) (i + MXC_DMA_INTR_0)) with (irq_answer s i).
  destruct (Z.eqb_spec (irq_answer s i) 0) as [E0|Hne].
  2:{ apply wp_bind, wp_ret, wp_ret. apply Z.eqb_neq in Hne. rewrite Hne. cbn [negb]. apply wp_ret.
      split; [done|]. split; [apply S1|]. rewrite Hne. split; [done|]. split; [done|apply S1]. }
  apply wp_bind, wp_modify, wp_ret. rewrite E0. cbn [Z.eqb negb].
  set (s2 := with_actions _ s1). set (l2 := (i + MXC_DMA_INTR_0, i) :: actions s) in *.
  assert (cell i (chan s i) (priv s i) s s2) as H2.
  { destruct H1 as [K1 K2 K3]. split; [|done..]. eapply frame_trans; [exact K1|]. split; try done; apply shape_actions. }
  assert (actions s2 = l2 /\ g_dma_actived s2 = g_dma_actived s /\ holds n s2) as (A2 & G2 & Hh2) by (split; [done|split; [apply S1|exact Hh1]]).
  assert (priv s2 i = priv s1 i) as E2 by done. clearbody s2.
  apply wp_bind, (enable_clk_spec n); [done|done|by rewrite G2|]. intros s3 Hco3. rewrite G2. intros Hh3.
  pose proof (cell_clock i _ _ s s2 s3 Hi H2 Hco3) as H3. rewrite (shape_base _ Hs1) by done.
  apply wp_bind, wp_dwr. set (s4 := set_reg 0 _ s3).
  assert (cell i (chan s i) (priv s i) s s4) as H4 by (apply cell_reg; [done|apply frame_block; [done|off_tac]]).
  assert (creg s4 i Ctl = 0) as R4 by (unfold s4; rewrite creg_set_reg by (done || off_tac); done).
  assert (actions s4 = l2) as A4 by (rewrite <- A2; exact (co_actions _ _ Hco3)).
  assert (g_dma_actived s4 = g_dma_actived s) as G4 by (rewrite <- G2; exact (co_actived _ _ Hco3)).
  set (n3 := if g_dma_actived s =? 0 then n + 1 else n) in *. assert (holds n3 s4) as Hh4 by exact Hh3.
  assert (0 <= n3) as Hn3 by (unfold n3; destruct (_ =? _); lia).
  assert (0 <= dropped (g_dma_actived s4) n3) as Hd3 by (unfold dropped; destruct (g_dma_actived s4 =? 0); lia). clearbody s4.
  assert (shape s4) as Hs4 by by apply (cell_shape _ _ _ _ _ H4).
  apply wp_bind. eapply wp_mono; [by apply (setup_dma_channel_spec i inf n3 s4)|].
  intros r s5 (-> & H5 & R5 & G5 & Hh5 & A5). cbn [Z.eqb negb]. apply wp_bind, wp_ret.
  rewrite (cell_chan _ _ _ _ _ H4), (cell_priv _ _ _ _ _ H4) in H5.
  apply wp_bind, (disable_clk_spec (dropped (g_dma_actived s4) n3)); [exact Hh5|exact Hd3|].
  intros s6 Hco6 Hh6. apply wp_ret. split; [done|]. split; [by rewrite (co_actived _ _ Hco6), G5|]. cbn [Z.eqb].
  assert (cell i (chan s i) (upd_flags (dma_chaining inf) (eff_ren inf) (priv s i)) s s5) as H5'.
  { destruct H5 as [K1 K2 K3]. split; [|done..]. eapply frame_trans; [exact (cell_frame _ _ _ _ _ H4)|exact K1]. }
  split; [by apply (cell_clock i _ _ s s5)|].
  split; [by rewrite (clock_only_creg s5 s6) by (done || off_tac); rewrite R5, R4|].
  split; [|by rewrite (co_actions _ _ Hco6), A5].
  rewrite G5, G4 in Hh6. unfold dropped, n3 in *. destruct (g_dma_actived s =? 0); [|done].
  by replace (Z.max 0 (Z.max 0 (n + 1 - 1) - 1)) with (Z.max 0 (n - 1)) in Hh6 by lia.
Qed.

(** ** The whole request *)

(** The channel before its handler is installed. *)
Definition prepared (inf : mx2_dma_info_t) (nm : option string) (d : mxc_dma_channel_t) : mxc_dma_channel_t :=
  upd_mode (info_mode inf) (upd_name nm (upd_cb None 0 (upd_active false (upd_lock 1 d)))).

Lemma fresh_acts i inf nm s s' :
  shape s -> shape s' -> in_chans i -> ring_ok (priv s i) -> info_valid inf = true -> info_ranged inf = true ->
  cell i (prepared inf nm (chan s i)) (upd_flags (dma_chaining inf) (eff_ren inf) (reset (upd_info None (priv s i)))) s s' ->
  creg s' i Ctl = u32 (setup_ctl 0 inf (eff_ren inf)) ->
  acts i (a_fresh inf (abs s i)) s (set_priv i (upd_info (Some inf) (priv s' i)) s').
Proof.
  intros Hs Hs' Hi Hr Hv Hrg Hcell Hctl. pose proof (reset_ok _ Hr) as Hr0.
  pose proof (cell_set_priv i _ _ (upd_info (Some inf) (priv s' i)) s s' Hs Hi Hcell) as [K1 K2 K3].
  { by rewrite (cell_priv _ _ _ _ _ Hcell). }
  { by rewrite (cell_priv _ _ _ _ _ Hcell). }
  rewrite (cell_priv _ _ _ _ _ Hcell) in K1, K2, K3 |- *. set (s2 := set_priv _ _ s') in *.
  set (p2 := upd_info (Some inf) _) in *. assert (queue p2 = []) as Hq by (apply queue_nil; exact (Z.le_refl 0)). split; [done| |].
  - split; rewrite ?K2, ?K3; try done.
    + split; apply Hr0.
    + by right.
    + intros _. exists inf. unfold configured. rewrite K2, K3. split; [done|]. split; [done|]. split; [done|].
      change (creg s2 i Ctl) with (creg s' i Ctl). rewrite Hctl. by apply ports_u32, setup_ctl_ports.
    + unfold idle_queue. rewrite K3, Hq. apply List.Forall_nil.
    + intros _. rewrite K3, Hq. apply List.Forall_nil.
  - unfold abs, abs_of. rewrite K2, K3, Hq. done.
Qed.

Lemma refused_acts i inf nm s s' :
  shape s -> in_chans i -> ring_ok (priv s i) ->
  cell i (prepared inf nm (chan s i)) (reset (upd_info None (priv s i))) s s' ->
  acts i (a_refused inf (abs s i)) s (set_chan i (upd_lock 0 (chan s' i)) s').
Proof.
  intros Hs Hi Hr Hcell. pose proof (reset_ok _ Hr) as Hr0.
  pose proof (cell_set_chan i _ _ (upd_lock 0 (chan s' i)) s s' Hs Hi Hcell) as [K1 K2 K3].
  { by rewrite (cell_chan _ _ _ _ _ Hcell). }
  { by rewrite (cell_chan _ _ _ _ _ Hcell). }
  rewrite (cell_chan _ _ _ _ _ Hcell) in K1, K2, K3 |- *. set (s2 := set_chan _ _ s') in *.
  set (p2 := reset _) in *. assert (queue p2 = []) as Hq by (apply queue_nil; exact (Z.le_refl 0)). split; [done| |].
  - split; rewrite ?K2, ?K3; try done.
    + split; apply Hr0.
    + by left.
    + unfold idle_queue. rewrite K3, Hq. apply List.Forall_nil.
    + intros _. rewrite K3, Hq. apply List.Forall_nil.
  - unfold abs, abs_of. rewrite K2, K3, Hq. done.
Qed.

(** What a request does, with [n] references to the clock before it. *)
Definition requested (id n : Z) s (r : Z) s' : Prop :=
  match mxc_dma_get_info id with
  | None => r = - EINVAL /\ s' = s
  | Some inf =>
      match first_free s with
      | None => r = - ENODEV /\ s' = s
      | Some i =>
          g_dma_actived s' = g_dma_actived s /\
          if irq_answer s i =? 0 then
            r = i /\ acts i (a_fresh inf (abs s i)) s s' /\ holds (dropped (g_dma_actived s) n) s' /\
            actions s' = (i + MXC_DMA_INTR_0, i) :: actions s
          else r = irq_answer s i /\ acts i (a_refused inf (abs s i)) s s' /\ holds n s' /\ actions s' = actions s
      end
  end.

Lemma mxc_dma_request_spec id nm n s :
  shape s -> (forall i, in_chans i -> ring_ok (priv s i)) -> holds n s -> 0 <= n ->
  (g_dma_actived s = 0 -> n < cl_room) ->
  wp (mxc_dma_request request_irq_ret id nm) (requested id n s) s.
Proof.
  intros Hs Hrings Hh Hn Hroom. unfold mxc_dma_request, requested.
  destruct (mxc_dma_get_info id) as [inf|] eqn:Einf; [|by apply wp_ret].
  pose proof (table_valid id inf Einf) as Hv. pose proof (table_ranged id inf Einf) as Hrg.
  pose proof (table_dynamic id inf Einf) as Hdyn. apply Z.eqb_eq in Hdyn as ->.
  apply wp_bind, wp_get_dynamic; [done|]. destruct (first_free s) as [i|] eqn:Ef; [|by apply wp_ret].
  destruct (first_free_Some s i Ef) as [Hi _]. clear Ef. specialize (Hrings i Hi).
  replace (i <? 0) with false by (unfold in_chans in Hi; lia).
  pose proof (cell_set_chan i _ _ (upd_lock 1 (chan s i)) s s Hs Hi (cell_refl i s) eq_refl eq_refl) as H1.
  assert (still s (set_chan i (upd_lock 1 (chan s i)) s)) as S1 by by split.
  assert (forall o, creg (set_chan i (upd_lock 1 (chan s i)) s) i o = creg s i o) as R1 by done.
  remember (set_chan i (upd_lock 1 (chan s i)) s) as s1 eqn:E1. clear E1.
  assert (shape s1) as Hs1 by by apply (cell_shape _ _ _ _ _ H1).
  apply wp_bind, wp_chan_at; [done..|]. rewrite (shape_private _ Hs1) by done.
  apply wp_bind, wp_priv_at; [done..|]. rewrite (cell_chan _ _ _ _ _ H1), (cell_priv _ _ _ _ _ H1).
  apply wp_bind, wp_store_priv. apply wp_bind, wp_store_chan.
  change (upd_mode _ _) with (prepared inf nm (chan s i)).
  pose proof (cell_set_priv i _ _ (upd_info None (priv s i)) s s1 Hs Hi H1 eq_refl eq_refl) as H2.
  pose proof (cell_set_chan i _ _ (prepared inf nm (chan s i)) s _ Hs Hi H2 eq_refl eq_refl) as H3.
  assert (still s (set_chan i (prepared inf nm (chan s i)) (set_priv i (upd_info None (priv s i)) s1))) as S3
    by (eapply still_trans; [exact S1|by split]).
  remember (set_chan i (prepared inf nm (chan s i)) (set_priv i (upd_info None (priv s i)) s1)) as s3 eqn:E3. clear E3 H2.
  assert (shape s3) as Hs3 by by apply (cell_shape _ _ _ _ _ H3).
  unfold init_dma_bd. apply wp_bind, wp_bind, wp_priv_at; [done..|]. rewrite (cell_priv _ _ _ _ _ H3). apply wp_store_priv.
  change (upd_ring _ _) with (reset (upd_info None (priv s i))).
  pose proof (cell_set_priv i _ _ (reset (upd_info None (priv s i))) s s3 Hs Hi H3 eq_refl eq_refl) as H4.
  assert (still s (set_priv i (reset (upd_info None (priv s i))) s3)) as S4 by (eapply still_trans; [exact S3|by split]).
  remember (set_priv i (reset (upd_info None (priv s i))) s3) as s4 eqn:E4. clear E4 S3 H3 Hs3 s3 R1 S1 H1 Hs1 s1.
  assert (shape s4) as Hs4 by by apply (cell_shape _ _ _ _ _ H4).
  assert (holds n s4) as Hh4 by (apply (still_holds n s); [done|apply (cell_frame _ _ _ _ _ H4)|done]).
  apply wp_bind. eapply wp_mono; [apply (init_dma_channel_spec i inf n s4); try done; by rewrite (still_actived _ _ S4)|].
  intros r s5 (-> & G5 & H5). rewrite (still_actived _ _ S4) in G5, H5.
  assert (irq_answer s4 i = irq_answer s i) as Eans by (unfold irq_answer; by rewrite (still_actions _ _ S4)).
  rewrite Eans, (still_actions _ _ S4), (cell_chan _ _ _ _ _ H4), (cell_priv _ _ _ _ _ H4) in H5. rewrite Eans.
  destruct (irq_answer s i =? 0) eqn:E0.
  - destruct H5 as ([K1 K2 K3] & R5 & Hh5 & A5).
    assert (frame i s s5) as Hf5 by (eapply frame_trans; [exact (cell_frame _ _ _ _ _ H4)|done]).
    assert (shape s5) as Hs5 by by apply Hf5.
    apply wp_bind, wp_priv_at; [done..|]. apply wp_bind, wp_store_priv, wp_ret.
    split; [done|]. split; [done|]. split; [|done]. by apply (fresh_acts i inf nm).
  - destruct H5 as ([K1 K2 K3] & Hh5 & A5).
    assert (frame i s s5) as Hf5 by (eapply frame_trans; [exact (cell_frame _ _ _ _ _ H4)|done]).
    assert (shape s5) as Hs5 by by apply Hf5.
    unfold put_dma_channel, MAX_DMA_CHANNELS, MXC_DMA_CHANNELS. apply wp_bind.
    replace ((i <? 16) && (0 <=? i)) with true by (unfold in_chans in Hi; lia).
    apply wp_bind, wp_chan_at; [done..|]. apply wp_store_chan, wp_ret.
    split; [done|]. split; [done|]. split; [|done]. by apply (refused_acts i inf nm).
Qed.

End Irq.

End Request.
