(* ===== verification/DmaSystem.v ===== *)
(** * The DMA driver as a whole

    [dma_inv leaks s] is the driver's invariant: every channel's own invariant,
    the count of running channels, the installed handlers, and the references to
    the controller's clock, which are one while a channel runs plus those that
    were leaked.  It holds after [mxc_dma_init] and is kept by every entry point
    and by the interrupt handler. *)

From stdpp Require Import base list gmap strings.
From Stdlib Require Import ZArith Lia.
From S2P Require Import Prelude CrmRegs DmaTable Dma DmaRing DmaSteps DmaChannel DmaSetup DmaInv DmaOps DmaQueue.
From S2P Require Import DmaTransfer DmaClient DmaRequest.

(** ** The client API, and what it promises *)

Inductive dma_call : Type :=
| Request (id : Z) (nm : option string)
| Free (ch : Z)
| Enable (ch : Z)
| Disable (ch : Z)
| Config (ch : Z) (buf : option (list mxc_dma_requestbuf_t)) (num md : Z)
| SgConfig (ch : Z) (sg : option (list scatterlist)) (num bytes md : Z)
| CallbackSet (ch : Z) (cb : option Z) (arg : Z).

(** Arrays as long as the client says, and sizes that fit the C types. *)
Definition call_ok (c : dma_call) : Prop :=
  match c with
  | Config _ (Some l) num _ => 1 <= num -> num <= Z.of_nat (length l) /\ num < 2 ^ 31 - 64
  | SgConfig _ (Some l) num bytes _ =>
      1 <= num -> num <= Z.of_nat (length l) /\ num < 2 ^ 31 - 64 /\ bytes < 2 ^ 31 /\
                  Forall (fun x => 0 <= length_ x < 2 ^ 32) l
  | _ => True
  end.

(** Sixteen abstract channels. *)
Definition astate : Type := Z -> achan.

Definition a_set (i : Z) (a : achan) (A : astate) : astate := fun j => if decide (j = i) then a else A j.

(** An operation on one channel; [bad] for a channel that does not exist. *)
Definition on_chan (ch bad : Z) (f : achan -> Z * achan) (A : astate) : Z * astate :=
  if bad_channel ch then (bad, A) else (fst (f (A ch)), a_set ch (snd (f (A ch))) A).

Definition a_first_free (A : astate) : option Z :=
  head (filter (fun i => a_dynamic (A i) && negb (a_owned (A i)) = true) (seqZ 0 16)).

Definition a_per (a : achan) : Z := match a_info a with Some inf => per_address inf | None => 0 end.

(** What each call returns and does; [ans i] is the kernel's answer when the
    handler of channel [i] is to be installed. *)
Definition spec_call (ans : Z -> Z) (c : dma_call) (A : astate) : Z * astate :=
  match c with
  | Request id _ =>
      match mxc_dma_get_info id with
      | None => (- EINVAL, A)
      | Some inf =>
          match a_first_free A with
          | None => (- ENODEV, A)
          | Some i =>
              if ans i =? 0 then (i, a_set i (a_fresh inf (A i)) A) else (ans i, a_set i (a_refused inf (A i)) A)
          end
      end
  | Free ch => on_chan ch (- EINVAL) spec_free A
  | Enable ch => on_chan ch (- EINVAL) spec_enable A
  | Disable ch => on_chan ch (- EINVAL) spec_disable A
  | Config ch None _ _ => (- EINVAL, A)
  | Config ch (Some l) num md =>
      if num <? 1 then (- EINVAL, A)
      else on_chan ch (- EINVAL) (spec_config md num (request_items md (take (Z.to_nat num) l))) A
  | SgConfig ch None _ _ _ => (- EINVAL, A)
  | SgConfig ch (Some l) num bytes md =>
      if (num <? 1) || (bytes <? 0) then (- EINVAL, A)
      else on_chan ch (- EINVAL)
             (fun a => spec_config md num (sg_items (a_per a) md bytes (take (Z.to_nat num) l)) a) A
  | CallbackSet ch cb arg => on_chan ch (- EINVAL) (spec_callback_set cb arg) A
  end.

(** ** Handlers on the lines *)

(** How often the handler of channel [i] is installed on the channel's line. *)
Fixpoint installed (x : Z * Z) (l : list (Z * Z)) : nat :=
  match l with
  | [] => 0
  | y :: l' => (if decide (x = y) then 1 else 0) + installed x l'
  end.

Lemma installed_unlink_eq x l : (0 < installed x l)%nat -> installed x (unlink_action x l) = (installed x l - 1)%nat.
Proof.
  induction l as [|y l IH]; simpl; [lia|]. destruct (decide (x = y)); [lia|]. intros H. simpl.
  rewrite decide_False by done. by apply IH.
Qed.

Lemma installed_unlink_ne x y l : x <> y -> installed y (unlink_action x l) = installed y l.
Proof.
  intros Hne. induction l as [|z l IH]; simpl; [done|]. destruct (decide (x = z)) as [->|].
  - by rewrite decide_False.
  - simpl. by rewrite IH.
Qed.

Definition line (i : Z) : Z * Z := (i + MXC_DMA_INTR_0, i).

Lemma line_inj i j : line i = line j -> i = j.
Proof. by intros [=]. Qed.

Section System.
Context {C : Type} {Clk : ClkProvider C} {Laws : ClkLaws C}.
Implicit Types s : dmast.

(** ** The invariant *)

Definition running s : Z := total (fun i => runs (abs s i)) (seqZ 0 16).

Record dma_inv (leaks : Z) s : Prop := mkDmaInv {
  dma_shape : shape s;
  dma_chans : forall i, in_chans i -> chan_inv s i;
  dma_dynamic : forall i, in_chans i -> a_dynamic (abs s i) = true;
  dma_running : g_dma_actived s = running s;
  dma_leaks : 0 <= leaks;
  dma_holds : holds (leaks + Z.b2z (0 <? running s)) s;
  dma_handlers : forall i, in_chans i -> installed (line i) (actions s) = if a_owned (abs s i) then 1%nat else 0%nat;
}.

Lemma runs_range a : 0 <= runs a <= 1.
Proof. unfold runs. destruct (a_running a); cbn; lia. Qed.

Lemma in_chans_seqZ i : in_chans i <-> i ∈ seqZ 0 16.
Proof. rewrite elem_of_seqZ. unfold in_chans. lia. Qed.

Lemma running_range s : 0 <= running s <= 16.
Proof. apply (total_range (fun i => runs (abs s i)) (seqZ 0 16)). intros j. apply runs_range. Qed.

Lemma running_pos s i : in_chans i -> runs (abs s i) <= running s.
Proof.
  intros Hi. apply (total_pos (fun i => runs (abs s i))); [|by apply in_chans_seqZ]. intros j. apply runs_range.
Qed.

Lemma actived_range leaks s : dma_inv leaks s -> 0 <= g_dma_actived s <= 16.
Proof. intros H. rewrite (dma_running _ _ H). apply running_range. Qed.

Lemma active_pos leaks s i : dma_inv leaks s -> in_chans i -> active (chan s i) = true -> 0 < g_dma_actived s.
Proof.
  intros H Hi Ha. rewrite (dma_running _ _ H). pose proof (running_pos s i Hi) as Hp.
  change (Z.b2z (active (chan s i)) <= running s) in Hp. rewrite Ha in Hp. cbn in Hp. lia.
Qed.

(** ** Steps of one channel keep it *)

Lemma acts_other i j a s s' : acts i a s s' -> in_chans j -> j <> i -> abs s' j = abs s j.
Proof. intros H Hj Hne. apply abs_same. by apply (frame_same i), Hne; [apply H|]. Qed.

Lemma running_step i a s s' :
  acts i a s s' -> in_chans i -> running s' = running s + runs a - runs (abs s i).
Proof.
  intros H Hi. unfold running.
  rewrite (total_upd (fun j => runs (abs s j)) (fun j => runs (abs s' j)) i).
  - by rewrite (acts_abs _ _ _ _ H).
  - apply NoDup_seqZ.
  - by apply in_chans_seqZ.
  - intros j Hj Hne. by rewrite (acts_other i j a s s') by (done || by apply in_chans_seqZ).
Qed.

Lemma inv_step i a leaks leaks' s s' :
  dma_inv leaks s -> in_chans i -> acts i a s s' -> a_dynamic a = true ->
  g_dma_actived s' = g_dma_actived s + runs a - runs (abs s i) ->
  0 <= leaks' -> holds (leaks' + Z.b2z (0 <? g_dma_actived s')) s' ->
  (forall j, in_chans j -> j <> i -> installed (line j) (actions s') = installed (line j) (actions s)) ->
  installed (line i) (actions s') = (if a_owned a then 1%nat else 0%nat) ->
  dma_inv leaks' s'.
Proof.
  intros Hinv Hi Ha Hdyn Hk Hl Hh Hothers Hown. pose proof (running_step i a s s' Ha Hi) as Hrun.
  rewrite (dma_running _ _ Hinv), <- Hrun in Hk. split; [..|done| |].
  - apply (acts_frame _ _ _ _ Ha), Hinv.
  - intros j Hj. destruct (decide (j = i)) as [->|Hne]; [apply Ha|].
    apply (chan_inv_same j s); [by apply (frame_same i), Hne; [apply Ha|]|by apply Hinv].
  - intros j Hj. destruct (decide (j = i)) as [->|Hne]; [by rewrite (acts_abs _ _ _ _ Ha)|].
    rewrite (acts_other i j a s s') by done. by apply Hinv.
  - done.
  - by rewrite <- Hk.
  - intros j Hj. destruct (decide (j = i)) as [->|Hne]; [by rewrite (acts_abs _ _ _ _ Ha)|].
    rewrite Hothers, (acts_other i j a s s') by done. by apply Hinv.
Qed.

Section Calls.
Context (request_irq_ret : list (Z * Z) -> Z -> Z).

Definition run_call (c : dma_call) : M dmast Z :=
  match c with
  | Request id nm => mxc_dma_request request_irq_ret id nm
  | Free ch => mxc_dma_free ch
  | Enable ch => mxc_dma_enable ch
  | Disable ch => mxc_dma_disable ch
  | Config ch buf num md => mxc_dma_config ch buf num md
  | SgConfig ch sg num bytes md => mxc_dma_sg_config ch sg num bytes md
  | CallbackSet ch cb arg => mxc_dma_callback_set ch cb arg
  end.

(** The call stops the only running channel without waiting for its interrupt. *)
Definition stops_last (c : dma_call) s : bool :=
  match c with
  | Free ch | Disable ch => negb (bad_channel ch) && a_running (abs s ch) && (g_dma_actived s =? 1)
  | _ => false
  end.

(** The invariant holds again, and the abstract channels are as specified. *)
Definition reaches (leaks : Z) (c : dma_call) s (r : Z) s' : Prop :=
  exists leaks', dma_inv leaks' s' /\ leaks' <= leaks + Z.b2z (stops_last c s) /\
    let sp := spec_call (irq_answer request_irq_ret s) c (abs s) in
    r = fst sp /\ forall i, in_chans i -> abs s' i = snd sp i.

Lemma reaches_same leaks c s r :
  dma_inv leaks s -> spec_call (irq_answer request_irq_ret s) c (abs s) = (r, abs s) -> reaches leaks c s r s.
Proof.
  intros Hinv Hsp. exists leaks. rewrite Hsp. split; [done|]. split; [|done].
  destruct (stops_last c s); cbn; lia.
Qed.

Lemma bad_or_in ch : bad_channel ch = true \/ in_chans ch.
Proof. unfold bad_channel, in_chans, MAX_DMA_CHANNELS, MXC_DMA_CHANNELS. lia. Qed.

(** A call on channel [i] that acted as specified. *)
Lemma reaches_chan leaks leaks' c i bad f s r s' :
  in_chans i -> spec_call (irq_answer request_irq_ret s) c (abs s) = on_chan i bad f (abs s) ->
  dma_inv leaks' s' -> leaks' <= leaks + Z.b2z (stops_last c s) -> r = fst (f (abs s i)) ->
  acts i (snd (f (abs s i))) s s' -> reaches leaks c s r s'.
Proof.
  intros Hi Hsp Hinv Hl Hr Ha. exists leaks'. rewrite Hsp. unfold on_chan. rewrite in_chans_ok by done.
  split; [done|]. split; [done|]. cbn [fst snd]. split; [done|]. intros j Hj. unfold a_set. case_decide as Hji.
  - subst j. apply Ha.
  - by apply (acts_other i j (snd (f (abs s i)))).
Qed.

(** Calls that leave the clock, the count and the handlers alone. *)
Lemma still_step i a leaks s s' :
  dma_inv leaks s -> in_chans i -> acts i a s s' -> still s s' ->
  a_dynamic a = true -> a_owned a = a_owned (abs s i) -> runs a = runs (abs s i) -> dma_inv leaks s'.
Proof.
  intros Hinv Hi Ha Hst Hd Ho Hr. apply (inv_step i a leaks leaks s s'); try done.
  - rewrite (still_actived _ _ Hst). lia.
  - apply Hinv.
  - rewrite (still_actived _ _ Hst), (dma_running _ _ Hinv).
    apply (still_holds _ s); [done|apply Ha|apply Hinv].
  - by rewrite (still_actions _ _ Hst).
  - rewrite (still_actions _ _ Hst), Ho. by apply Hinv.
Qed.

(** *** Calls that only touch the channel *)

Lemma spec_config_keeps md num l a :
  let a' := snd (spec_config md num l a) in
  a_dynamic a' = a_dynamic a /\ a_owned a' = a_owned a /\ runs a' = runs a.
Proof. unfold spec_config. repeat case_match; done. Qed.

Lemma config_reaches leaks ch buf num md s :
  dma_inv leaks s -> call_ok (Config ch buf num md) ->
  wp (mxc_dma_config ch buf num md) (reaches leaks (Config ch buf num md) s) s.
Proof.
  intros Hinv Hok. unfold mxc_dma_config. destruct buf as [l|]; [|by apply wp_ret, reaches_same].
  destruct (Z.ltb_spec num 1) as [Hn|Hn].
  { apply wp_ret, reaches_same; [done|]. cbn. by destruct (Z.ltb_spec num 1); [|lia]. }
  assert (spec_call (irq_answer request_irq_ret s) (Config ch (Some l) num md) (abs s) =
    on_chan ch (- EINVAL) (spec_config md num (request_items md (take (Z.to_nat num) l))) (abs s)) as Hsp
    by (cbn; by destruct (Z.ltb_spec num 1); [lia|]).
  destruct (bad_or_in ch) as [Hbad|Hi].
  { unfold config_channel. rewrite Hbad. apply wp_ret, reaches_same; [done|]. rewrite Hsp. unfold on_chan. by rewrite Hbad. }
  pose proof (mxc_dma_config_spec ch l num md s (dma_shape _ _ Hinv) Hi (dma_chans _ _ Hinv ch Hi)) as H.
  unfold mxc_dma_config in H. replace (num <? 1) with false in H by lia.
  eapply wp_mono; [apply H; [split; [done|by apply Hok]|by apply Hok]|]. intros r s' [Hst [-> Ha]].
  destruct (spec_config_keeps md num (request_items md (take (Z.to_nat num) l)) (abs s ch)) as (K1 & K2 & K3).
  eapply (reaches_chan leaks leaks _ ch (- EINVAL)); [done|exact Hsp| |cbn; lia|done|done].
  apply (still_step ch _ leaks s s' Hinv Hi Ha Hst); [|done..]. rewrite K1. by apply Hinv.
Qed.

Lemma owned_info s i : chan_inv s i -> a_owned (abs s i) = true -> exists inf, a_info (abs s i) = Some inf.
Proof.
  intros H Ho. destruct (inv_configured _ _ H (proj1 (owned_lock s i) Ho)) as [inf Hcf]. exists inf. apply Hcf.
Qed.

Lemma spec_config_unowned md num l l' a : a_owned a = false -> spec_config md num l a = spec_config md num l' a.
Proof. intros H. unfold spec_config. by rewrite H. Qed.

Lemma sg_reaches leaks ch sg num bytes md s :
  dma_inv leaks s -> call_ok (SgConfig ch sg num bytes md) ->
  wp (mxc_dma_sg_config ch sg num bytes md) (reaches leaks (SgConfig ch sg num bytes md) s) s.
Proof.
  intros Hinv Hok. destruct sg as [l|]; [|by apply wp_ret, reaches_same].
  destruct ((num <? 1) || (bytes <? 0)) eqn:Hn.
  { unfold mxc_dma_sg_config. rewrite Hn. apply wp_ret, reaches_same; [done|]. cbn. by rewrite Hn. }
  set (f := fun a => spec_config md num (sg_items (a_per a) md bytes (take (Z.to_nat num) l)) a).
  assert (spec_call (irq_answer request_irq_ret s) (SgConfig ch (Some l) num bytes md) (abs s) =
    on_chan ch (- EINVAL) f (abs s)) as Hsp by (cbn; by rewrite Hn).
  destruct (bad_or_in ch) as [Hbad|Hi].
  { unfold mxc_dma_sg_config, config_channel. rewrite Hn, Hbad. apply wp_ret, reaches_same; [done|].
    rewrite Hsp. unfold on_chan. by rewrite Hbad. }
  pose proof (dma_chans _ _ Hinv ch Hi) as Hc.
  assert (exists inf, (a_owned (abs s ch) = true -> a_info (abs s ch) = Some inf) /\
    spec_config md num (sg_items (per_address inf) md bytes (take (Z.to_nat num) l)) (abs s ch) = f (abs s ch)) as (inf & Hinf & Ef).
  { destruct (a_owned (abs s ch)) eqn:Ho.
    - destruct (owned_info s ch Hc Ho) as [inf Hinf]. exists inf. unfold f, a_per. by rewrite Hinf.
    - exists ram2ram_dma_info. split; [done|]. by apply spec_config_unowned. }
  assert (1 <= num) as H1 by lia. destruct (Hok H1) as (Hlen & Hmax & Hb & Hl).
  eapply wp_mono; [apply (mxc_dma_sg_config_spec ch l num bytes md inf s (dma_shape _ _ Hinv) Hi Hc); [lia|done|lia|done|done]|].
  rewrite Ef. intros r s' [Hst [-> Ha]].
  destruct (spec_config_keeps md num (sg_items (a_per (abs s ch)) md bytes (take (Z.to_nat num) l)) (abs s ch)) as (K1 & K2 & K3).
  eapply (reaches_chan leaks leaks _ ch (- EINVAL)); [done|exact Hsp| |cbn; lia|done|done].
  apply (still_step ch _ leaks s s' Hinv Hi Ha Hst); [|done..]. unfold f. rewrite K1. by apply Hinv.
Qed.

Lemma callback_reaches leaks ch cb arg s :
  dma_inv leaks s -> wp (mxc_dma_callback_set ch cb arg) (reaches leaks (CallbackSet ch cb arg) s) s.
Proof.
  intros Hinv. destruct (bad_or_in ch) as [Hbad|Hi].
  { unfold mxc_dma_callback_set. rewrite Hbad. apply wp_ret, reaches_same; [done|]. cbn. unfold on_chan. by rewrite Hbad. }
  eapply wp_mono; [apply mxc_dma_callback_set_spec; [apply Hinv|done|by apply Hinv]|]. intros r s' [Hst [-> Ha]].
  eapply (reaches_chan leaks leaks _ ch (- EINVAL)); [done|reflexivity| |cbn; lia|done|done].
  apply (still_step ch _ leaks s s' Hinv Hi Ha Hst); pose proof (dma_dynamic _ _ Hinv ch Hi) as Hd;
    unfold spec_callback_set; by repeat case_match.
Qed.

(** *** Starting, stopping and giving back *)

Lemma spec_enable_keeps a :
  let a' := snd (spec_enable a) in a_dynamic a' = a_dynamic a /\ a_owned a' = a_owned a /\ runs a <= runs a'.
Proof.
  unfold spec_enable. destruct (a_owned a) eqn:Ho; cbn [negb snd]; [|split; [done|split; [done|lia]]].
  destruct (a_running a) eqn:Hr; cbn [snd]; [split; [done|split; [done|lia]]|].
  unfold a_load, runs. destruct (a_queue _); cbn; rewrite Hr; cbn; split; (done || split; (done || lia)).
Qed.

Lemma spec_disable_keeps a :
  let a' := snd (spec_disable a) in
  a_dynamic a' = a_dynamic a /\ a_owned a' = a_owned a /\ runs a' = (if a_owned a then 0 else runs a).
Proof.
  unfold spec_disable, runs. destruct (a_owned a) eqn:Ho, (a_running a) eqn:Hr; cbn; by rewrite ?Ho, ?Hr.
Qed.

Lemma spec_free_keeps a :
  let a' := snd (spec_free a) in
  a_dynamic a' = a_dynamic a /\ a_owned a' = false /\ runs a' = (if a_owned a then 0 else runs a).
Proof. unfold spec_free, runs. cbn [snd]. by destruct (a_owned a) eqn:Ho. Qed.

Lemma running_owned leaks s i :
  dma_inv leaks s -> in_chans i -> a_running (abs s i) = true -> a_owned (abs s i) = true.
Proof.
  intros Hinv Hi Hr. apply owned_lock. destruct (inv_lock _ _ (dma_chans _ _ Hinv i Hi)) as [E|E]; [|done].
  pose proof (inv_free _ _ (dma_chans _ _ Hinv i Hi) E) as Ha. change (a_running (abs s i) = false) in Ha. congruence.
Qed.

Lemma inv_holds leaks s : dma_inv leaks s -> holds (leaks + Z.b2z (0 <? g_dma_actived s)) s.
Proof. intros H. rewrite (dma_running _ _ H). apply H. Qed.

Lemma enable_reaches leaks ch s :
  dma_inv leaks s -> leaks + 1 < cl_room -> wp (mxc_dma_enable ch) (reaches leaks (Enable ch) s) s.
Proof.
  intros Hinv Hroom. destruct (bad_or_in ch) as [Hbad|Hi].
  { unfold mxc_dma_enable. rewrite Hbad. apply wp_ret, reaches_same; [done|]. cbn. unfold on_chan. by rewrite Hbad. }
  pose proof (actived_range _ _ Hinv) as Hk. pose proof (dma_leaks _ _ Hinv) as Hl.
  set (n := leaks + Z.b2z (0 <? g_dma_actived s)).
  assert (0 <= n < cl_room) as Hn by (unfold n; destruct (0 <? _); cbn; lia).
  eapply wp_mono; [apply (mxc_dma_enable_spec ch n s);
    [apply Hinv|done|by apply Hinv|by apply inv_holds|lia|lia|lia]|].
  cbv zeta. set (a := snd (spec_enable (abs s ch))). intros r s' [-> [Ha Hk' Hh Hact]].
  destruct (spec_enable_keeps (abs s ch)) as (K1 & K2 & K3). fold a in K1, K2, K3.
  eapply (reaches_chan leaks leaks _ ch (- EINVAL)); [done|reflexivity| |cbn; lia|done|done].
  apply (inv_step ch a leaks leaks s s'); try done.
  - rewrite K1. by apply Hinv.
  - pose proof (running_pos s ch Hi) as Hp. rewrite <- (dma_running _ _ Hinv) in Hp.
    pose proof (runs_range a). pose proof (runs_range (abs s ch)). rewrite Hk'. unfold count_after in *.
    unfold n in Hh. destruct (Z.eqb_spec (g_dma_actived s) 0) as [E|E].
    + rewrite E in *. cbn [Z.ltb Z.compare Z.b2z] in Hh.
      replace (Z.b2z (0 <? 0 + runs a - runs (abs s ch))) with (runs a - runs (abs s ch)).
      * by replace (leaks + (runs a - runs (abs s ch))) with (leaks + 0 + (0 + runs a - runs (abs s ch))) by lia.
      * assert (runs (abs s ch) = 0) as -> by lia. destruct (Z.ltb_spec 0 (0 + runs a - 0)); cbn; lia.
    + replace (0 <? g_dma_actived s + runs a - runs (abs s ch)) with (0 <? g_dma_actived s) by lia. done.
  - by rewrite Hact.
  - rewrite Hact, K2. by apply Hinv.
Qed.

(** References after a channel that may be running has been stopped. *)
Lemma stopped_leaks leaks c ch a s :
  dma_inv leaks s -> in_chans ch -> stops_last c s = a_running (abs s ch) && (g_dma_actived s =? 1) ->
  runs a = (if a_owned (abs s ch) then 0 else runs (abs s ch)) ->
  leaks + Z.b2z (stops_last c s) + Z.b2z (0 <? count_after s ch a) = leaks + Z.b2z (0 <? g_dma_actived s).
Proof.
  intros Hinv Hi Hst Hr. rewrite Hst. unfold count_after. rewrite Hr.
  pose proof (running_pos s ch Hi) as Hp. rewrite <- (dma_running _ _ Hinv) in Hp.
  pose proof (actived_range _ _ Hinv) as Hk. pose proof (running_owned leaks s ch Hinv Hi) as Hro. unfold runs in *.
  destruct (a_running (abs s ch)); cbn [andb Z.b2z] in *.
  - rewrite Hro by done. destruct (Z.eqb_spec (g_dma_actived s) 1); cbn [Z.b2z];
      destruct (Z.ltb_spec 0 (g_dma_actived s + 0 - 1)), (Z.ltb_spec 0 (g_dma_actived s)); cbn [Z.b2z]; lia.
  - replace (g_dma_actived s + (if a_owned (abs s ch) then 0 else 0) - 0) with (g_dma_actived s) by (destruct (a_owned _); lia). lia.
Qed.

Lemma disable_reaches leaks ch s :
  dma_inv leaks s -> wp (mxc_dma_disable ch) (reaches leaks (Disable ch) s) s.
Proof.
  intros Hinv. destruct (bad_or_in ch) as [Hbad|Hi].
  { unfold mxc_dma_disable. rewrite Hbad. apply wp_ret, reaches_same; [done|]. cbn. unfold on_chan. by rewrite Hbad. }
  pose proof (actived_range _ _ Hinv) as Hk. pose proof (dma_leaks _ _ Hinv) as Hl.
  assert (stops_last (Disable ch) s = a_running (abs s ch) && (g_dma_actived s =? 1)) as Hst
    by (cbn; by rewrite in_chans_ok).
  eapply wp_mono; [apply (mxc_dma_disable_spec ch (leaks + Z.b2z (0 <? g_dma_actived s)) s);
    [apply Hinv|done|by apply Hinv|by apply inv_holds|destruct (0 <? _); cbn; lia|lia|by apply (active_pos leaks)]|].
  cbv zeta. set (a := snd (spec_disable (abs s ch))). intros r s' [-> [Ha Hk' Hh Hact]].
  destruct (spec_disable_keeps (abs s ch)) as (K1 & K2 & K3). fold a in K1, K2, K3.
  eapply (reaches_chan leaks (leaks + Z.b2z (stops_last (Disable ch) s)) _ ch (- EINVAL));
    [done|reflexivity| |done|done|done].
  apply (inv_step ch a leaks _ s s'); try done.
  - rewrite K1. by apply Hinv.
  - destruct (stops_last _ _); cbn; lia.
  - rewrite Hk'. rewrite (stopped_leaks leaks (Disable ch) ch a s) by done. done.
  - by rewrite Hact.
  - rewrite Hact, K2. by apply Hinv.
Qed.

Lemma free_reaches leaks ch s :
  dma_inv leaks s -> leaks + 1 < cl_room -> wp (mxc_dma_free ch) (reaches leaks (Free ch) s) s.
Proof.
  intros Hinv Hroom. destruct (bad_or_in ch) as [Hbad|Hi].
  { unfold mxc_dma_free. rewrite Hbad. apply wp_ret, reaches_same; [done|]. cbn. unfold on_chan. by rewrite Hbad. }
  pose proof (actived_range _ _ Hinv) as Hk. pose proof (dma_leaks _ _ Hinv) as Hl.
  assert (stops_last (Free ch) s = a_running (abs s ch) && (g_dma_actived s =? 1)) as Hst
    by (cbn; by rewrite in_chans_ok).
  eapply wp_mono; [apply (mxc_dma_free_spec ch (leaks + Z.b2z (0 <? g_dma_actived s)) s);
    [apply Hinv|done|by apply Hinv|by apply inv_holds|destruct (0 <? _); cbn; lia|lia|by apply (active_pos leaks)]|].
  cbv zeta. set (a := snd (spec_free (abs s ch))). intros r s' (-> & Ha & Hk' & Hh & Hact).
  destruct (spec_free_keeps (abs s ch)) as (K1 & K2 & K3). fold a in K1, K2, K3.
  pose proof (dma_handlers _ _ Hinv ch Hi) as Hown.
  eapply (reaches_chan leaks (leaks + Z.b2z (stops_last (Free ch) s)) _ ch (- EINVAL));
    [done|reflexivity| |done|done|done].
  apply (inv_step ch a leaks _ s s'); try done.
  - rewrite K1. by apply Hinv.
  - destruct (stops_last _ _); cbn; lia.
  - rewrite Hk'. rewrite (stopped_leaks leaks (Free ch) ch a s) by done. done.
  - intros j Hj Hne. rewrite Hact. unfold freed. destruct (a_owned (abs s ch)); [|done].
    apply installed_unlink_ne. intros E%line_inj. congruence.
  - rewrite Hact, K2. unfold freed. destruct (a_owned (abs s ch)); [|done].
    fold (line ch). rewrite installed_unlink_eq; rewrite Hown; lia.
Qed.

(** *** Handing a channel out *)

Lemma filter_bool_ext (f g : Z -> bool) (l : list Z) :
  (forall x, x ∈ l -> f x = g x) -> filter (fun x => f x = true) l = filter (fun x => g x = true) l.
Proof.
  induction l as [|x l IH]; intros H; [done|]. rewrite !filter_cons, IH by (intros y Hy; apply H; set_solver).
  rewrite (H x) by set_solver. done.
Qed.

Lemma first_free_abs leaks s : dma_inv leaks s -> first_free s = a_first_free (abs s).
Proof.
  intros Hinv. unfold first_free, a_first_free. f_equal. apply filter_bool_ext. intros i Hi%in_chans_seqZ.
  unfold is_free. rewrite lock_cases by (by apply Hinv). done.
Qed.

Lemma request_reaches leaks id nm s :
  dma_inv leaks s -> leaks + 1 < cl_room ->
  wp (mxc_dma_request request_irq_ret id nm) (reaches leaks (Request id nm) s) s.
Proof.
  intros Hinv Hroom. pose proof (actived_range _ _ Hinv) as Hk. pose proof (dma_leaks _ _ Hinv) as Hl.
  eapply wp_mono; [apply (mxc_dma_request_spec request_irq_ret id nm (leaks + Z.b2z (0 <? g_dma_actived s)) s);
    [apply Hinv|intros i Hi; apply (inv_ring _ _ (dma_chans _ _ Hinv i Hi))|by apply inv_holds| |]|].
  1,2: destruct (0 <? _); cbn; lia.
  intros r s'. unfold requested. pose proof (first_free_abs _ _ Hinv) as Eff.
  destruct (mxc_dma_get_info id) as [inf|] eqn:Einf.
  2:{ intros [-> ->]. apply reaches_same; [done|]. unfold spec_call. by rewrite Einf. }
  destruct (first_free s) as [i|] eqn:Ef.
  2:{ intros [-> ->]. apply reaches_same; [done|]. unfold spec_call. by rewrite Einf, <- Eff. }
  destruct (first_free_Some s i Ef) as [Hi Hfree]. intros [Hk' H].
  assert (a_owned (abs s i) = false) as Hown.
  { unfold is_free in Hfree. apply andb_prop in Hfree as [_ Hf]. rewrite lock_cases in Hf by (by apply Hinv).
    by apply negb_true_iff. }
  assert (runs (abs s i) = 0) as Hr0.
  { unfold runs. destruct (a_running (abs s i)) eqn:Hr; [|done]. by rewrite (running_owned leaks s i) in Hown. }
  assert (spec_call (irq_answer request_irq_ret s) (Request id nm) (abs s) =
    let a := (if irq_answer request_irq_ret s i =? 0 then a_fresh inf (abs s i) else a_refused inf (abs s i)) in
    (if irq_answer request_irq_ret s i =? 0 then i else irq_answer request_irq_ret s i, a_set i a (abs s))) as Hsp.
  { unfold spec_call. rewrite Einf, <- Eff. by destruct (irq_answer _ s i =? 0). }
  destruct (irq_answer request_irq_ret s i =? 0).
  - destruct H as (-> & Ha & Hh & Hact).
    exists (if g_dma_actived s =? 0 then Z.max 0 (leaks - 1) else leaks). rewrite Hsp. cbv zeta.
    split; [|split; [cbn; destruct (_ =? 0); lia|split; [done|]]].
    + apply (inv_step i (a_fresh inf (abs s i)) leaks _ s s'); try done.
      * by apply Hinv.
      * change (runs (a_fresh inf (abs s i))) with 0. lia.
      * destruct (_ =? 0); lia.
      * rewrite Hk'. unfold dropped in Hh. destruct (Z.eqb_spec (g_dma_actived s) 0) as [E|E]; [|done].
        rewrite E in *. cbn [Z.ltb Z.compare Z.b2z] in Hh |- *.
        by replace (Z.max 0 (leaks - 1) + 0) with (Z.max 0 (leaks + 0 - 1)) by lia.
      * intros j Hj Hne. rewrite Hact. simpl. rewrite decide_False; [done|]. intros E%line_inj. congruence.
      * rewrite Hact. fold (line i). simpl. rewrite decide_True by done.
        rewrite (dma_handlers _ _ Hinv i Hi), Hown. done.
    + intros j Hj. cbn [snd]. unfold a_set. case_decide as Hji; [subst j; apply Ha|].
      by apply (acts_other i j (a_fresh inf (abs s i))).
  - destruct H as (-> & Ha & Hh & Hact). exists leaks. rewrite Hsp. cbv zeta.
    split; [|split; [cbn; lia|split; [done|]]].
    + apply (inv_step i (a_refused inf (abs s i)) leaks _ s s'); try done.
      * by apply Hinv.
      * change (runs (a_refused inf (abs s i))) with 0. lia.
      * by rewrite Hk'.
      * by rewrite Hact.
      * rewrite Hact, (dma_handlers _ _ Hinv i Hi), Hown. done.
    + intros j Hj. cbn [snd]. unfold a_set. case_decide as Hji; [subst j; apply Ha|].
      by apply (acts_other i j (a_refused inf (abs s i))).
Qed.

(** Every call returns, keeps the invariant and does what it promises. *)
Lemma call_reaches leaks c s :
  dma_inv leaks s -> leaks + 1 < cl_room -> call_ok c -> wp (run_call c) (reaches leaks c s) s.
Proof.
  intros Hinv Hroom Hok.
  destruct c; cbn [run_call]; eauto using request_reaches, free_reaches, enable_reaches, disable_reaches,
    config_reaches, sg_reaches, callback_reaches.
Qed.

End Calls.

End System.
