(* ===== verification/DmaMain.v ===== *)
(** * Runs of the DMA driver

    Bring-up, the interrupt handler within the whole driver, and what holds in
    every state that calls, interrupts and the controller can lead to. *)

From stdpp Require Import base list gmap strings.
From Stdlib Require Import ZArith Lia.
From S2P Require Import Prelude CrmRegs DmaTable Dma DmaRing DmaSteps DmaChannel DmaSetup DmaInv DmaOps DmaQueue.
From S2P Require Import DmaTransfer DmaClient DmaRequest DmaSystem.

Section Main.
Context {C : Type} {Clk : ClkProvider C} {Laws : ClkLaws C}.
Implicit Types s : dmast.

(** ** Bring-up *)

(** The channels as the two loops of [mxc_dma_init] and [mxc_dma_load_info] leave them. *)
Definition chans_ready : list mxc_dma_channel_t := map (upd_dynamic true) (map chan_init (seqZ 0 MXC_DMA_CHANNELS)).
Definition privs_ready : list mx2_dma_priv_t := imap (fun n => priv_init (Z.of_nat n)) (replicate 16 priv_zero).

Lemma chan_ready i : in_chans i -> default chan_zero (nth_at chans_ready i) = upd_dynamic true (chan_init i).
Proof.
  intros Hi. unfold in_chans in Hi. unfold chans_ready. rewrite nth_at_lookup by lia.
  rewrite !list_lookup_fmap, lookup_seqZ_lt by (unfold MXC_DMA_CHANNELS; lia). cbn.
  by replace (Z.of_nat (Z.to_nat i)) with i by lia.
Qed.

Lemma priv_ready i : in_chans i -> default priv_zero (nth_at privs_ready i) = priv_init i priv_zero.
Proof.
  intros Hi. unfold in_chans in Hi. unfold privs_ready. rewrite nth_at_lookup by lia.
  rewrite list_lookup_imap, lookup_replicate_2 by lia. cbn [fmap option_fmap option_map default].
  by replace (Z.of_nat (Z.to_nat i)) with i by lia.
Qed.

Lemma claim_nothing l s :
  forallb (fun e => dma_chan (info e) =? MXC_DMA_DYNAMIC_CHANNEL) l = true -> claim_fixed l s = Ret (tt, s).
Proof.
  induction l as [|e l IH]; [done|]. cbn [forallb]. intros [He Hl]%andb_prop. cbn [claim_fixed].
  rewrite He. cbn [negb]. rewrite andb_false_r, orb_true_r. by apply IH.
Qed.

(** A state with the initial variables satisfies the invariant. *)
Lemma ready_inv s :
  g_dma_channels s = chans_ready -> g_dma_privates s = privs_ready -> g_dma_actived s = 0 -> holds 0 s ->
  (forall i, in_chans i -> installed (line i) (actions s) = 0%nat) -> dma_inv 0 s.
Proof.
  intros Hc Hp Hk Hh Hact.
  assert (forall i, in_chans i -> chan s i = upd_dynamic true (chan_init i)) as Ec
    by (intros i Hi; unfold chan; rewrite Hc; by apply chan_ready).
  assert (forall i, in_chans i -> priv s i = priv_init i priv_zero) as Ep
    by (intros i Hi; unfold priv; rewrite Hp; by apply priv_ready).
  assert (forall i, in_chans i -> queue (priv s i) = []) as Eq
    by (intros i Hi; rewrite Ep by done; by apply queue_nil).
  assert (running s = 0) as Hrun.
  { unfold running. rewrite (total_ext _ (fun _ => 0)); [done|]. intros j Hj%in_chans_seqZ.
    unfold runs, abs, abs_of. rewrite Ec by done. done. }
  split.
  - split; [by rewrite Hc|by rewrite Hp|intros i Hi; rewrite ?Ec, ?Ep by done; done..].
  - intros i Hi. split; rewrite ?Ec, ?Ep by done; try done.
    + by left.
    + unfold idle_queue. rewrite Eq by done. apply List.Forall_nil.
    + intros _. rewrite Eq by done. apply List.Forall_nil.
  - intros i Hi. unfold abs, abs_of. by rewrite Ec.
  - by rewrite Hrun.
  - done.
  - rewrite Hrun. exact Hh.
  - intros i Hi. rewrite Hact by done. unfold abs, abs_of. by rewrite Ec.
Qed.

Lemma mxc_dma_init_spec r c l :
  cl_fresh c -> (forall i, in_chans i -> installed (line i) l = 0%nat) ->
  wp mxc_dma_init
    (fun x s => x = 0 /\ dma_inv 0 s /\ running s = 0 /\ actions s = l /\
       forall i, in_chans i -> a_owned (abs s i) = false) (dma_boot r c l).
Proof.
  intros Hfresh Hl. unfold mxc_dma_init. apply wp_bind, wp_modify. apply wp_bind, wp_modify.
  unfold mxc_dma_load_info. apply wp_bind, wp_bind, wp_modify. unfold wp at 1.
  rewrite claim_nothing by (vm_compute; reflexivity). set (s1 := with_chans _ _).
  assert (g_dma_channels s1 = chans_ready /\ g_dma_privates s1 = privs_ready /\ g_dma_actived s1 = 0 /\
    actions s1 = l /\ clks s1 = c) as (E1 & E2 & E3 & E4 & E5) by done. clearbody s1.
  apply wp_bind, wp_on_clks. rewrite E5. eapply wp_mono; [by apply cl_get_ok|]. intros h c1 Hh.
  apply wp_bind, wp_modify. apply wp_bind, wp_on_clks. pose proof cl_room_pos.
  eapply wp_mono; [apply (cl_enable_ok h 0); [lia|exact Hh]|]. intros x c2 [_ Hh2].
  apply wp_bind, wp_dwr. set (s2 := set_reg 2 _ _).
  assert (holds (0 + 1) s2) as Hs2 by exact Hh2.
  apply wp_bind, (disable_clk_spec (0 + 1)); [done|done|]. intros s3 Hco. change (g_dma_actived s2) with (g_dma_actived s1).
  rewrite E3. cbn [Z.eqb]. intros Hh3. apply wp_ret.
  assert (dma_inv 0 s3) as Hinv.
  { apply ready_inv.
    - rewrite (co_chans _ _ Hco). exact E1.
    - rewrite (co_privs _ _ Hco). exact E2.
    - rewrite (co_actived _ _ Hco). exact E3.
    - exact Hh3.
    - rewrite (co_actions _ _ Hco). change (actions s2) with (actions s1). by rewrite E4. }
  split; [done|]. split; [done|]. split; [rewrite <- (dma_running _ _ Hinv), (co_actived _ _ Hco); exact E3|].
  split; [rewrite (co_actions _ _ Hco); exact E4|]. intros i Hi. unfold abs, abs_of, chan. cbn [a_owned].
  rewrite (co_chans _ _ Hco). change (g_dma_channels s2) with (g_dma_channels s1). rewrite E1, chan_ready by done. done.
Qed.

(** ** The controller *)

(** Registers the controller writes: the status registers and the byte counts. *)
Definition hw_written (a : Z) : Prop := a ∈ status_regs \/ exists i, in_chans i /\ a = base i + transferd.

(** A step of the controller: it may write these registers and no others. *)
Definition hw_step s s' : Prop :=
  exists r, s' = with_dregs (fun _ => r) s /\ forall a, ~ hw_written a -> readl r a = readl (dregs s) a.

Lemma hw_same i s s' : in_chans i -> hw_step s s' -> same_chan i s s'.
Proof.
  intros Hi (r & -> & Hr). split; [done..|]. intros o Ho. apply Hr. intros [Hst|(j & Hj & E)].
  - apply (block_not_status i o) in Hst; [done|done|off_tac].
  - destruct (decide (i = j)) as [->|Hne]; [off_tac|]. apply (block_disjoint i j o transferd) in E; (done || off_tac).
Qed.

Lemma hw_inv leaks s s' : dma_inv leaks s -> hw_step s s' -> dma_inv leaks s'.
Proof.
  intros Hinv Hhw. pose proof (fun i Hi => hw_same i s s' Hi Hhw) as Hsm. destruct Hhw as (r & -> & Hr).
  destruct Hinv as [H1 H2 H3 H4 H5 H6 H7]. split; try done.
  - split; apply H1.
  - intros i Hi. apply (chan_inv_same i s); [by apply Hsm|by apply H2].
Qed.

(** ** Interrupts *)

Section Irq.
Context (call_cb : Z -> Z -> Z -> Z -> M dmast unit).

(** The handler is its bookkeeping, then the client's callback when one is due. *)
Lemma irq_run leaks i s :
  dma_inv leaks s -> in_chans i -> active (chan s i) = true ->
  exists s1, dma_inv leaks s1 /\ acts i (irq_chan s i) s s1 /\
    dma_irq_handler call_cb i s =
      (if a_notify (irq_error s i) (a_queue (abs s i)) then irq_notify call_cb i (irq_error s i) else mret tt) s1.
Proof.
  intros Hinv Hi Ha. pose proof (active_pos leaks s i Hinv Hi Ha) as Hpos. pose proof (actived_range _ _ Hinv) as Hk.
  pose proof (dma_leaks _ _ Hinv) as Hl. pose proof (inv_holds _ _ Hinv) as Hh.
  set (n := leaks + Z.b2z (0 <? g_dma_actived s)) in *. assert (n = leaks + 1) as En by (unfold n; replace (0 <? _) with true by lia; done).
  pose proof (dma_shape _ _ Hinv) as Hs.
  assert (wp (st ← __clear_dma_interrupt (channel (chan s i));
      p ← priv_at i;
      v ← drd (dma_base p + transferd);
      store_priv i (upd_bytes (u32 (trans_bytes p + v)) p);;
      b ← consume_dma_bd i (error_of st);
      mret (error_of st, b)) (fun r s1 => r = (irq_error s i, a_notify (irq_error s i) (a_queue (abs s i))) /\
        wp disable_dma_clk (fun _ s2 => moved i (irq_chan s i) (irq_actived s i) (dropped (irq_actived s i) n) s s2) s1) s)
    as Hpre.
  { eapply wp_mono; [apply (irq_prefix i n); [done|done|by apply Hinv|done|done]|]. intros r s1 [-> Hmv]. split; [done|].
    apply (disable_clk_moved i (irq_chan s i) (irq_actived s i) n s); [done|lia|done|done]. }
  assert (exists s2, moved i (irq_chan s i) (irq_actived s i) (dropped (irq_actived s i) n) s s2 /\
    dma_irq_handler call_cb i s =
      (if a_notify (irq_error s i) (a_queue (abs s i)) then irq_notify call_cb i (irq_error s i) else mret tt) s2) as (s2 & Hmv & Erun).
  { unfold dma_irq_handler. erewrite run_bind by (by apply chan_at_run). rewrite (shape_private _ Hs) by done. revert Hpre. unfold wp, mbind, M_bind.
    destruct (__clear_dma_interrupt _ s) as [[st s1]|f]; [|done].
    destruct (priv_at i s1) as [[p s2]|f]; [|done]. destruct (drd _ s2) as [[v s3]|f]; [|done].
    destruct (store_priv _ _ s3) as [[[] s4]|f]; [|done]. destruct (consume_dma_bd _ _ s4) as [[b s5]|f]; [|done].
    intros [[= -> ->] Hd]. cbv zeta. exists match disable_dma_clk s5 with Ret (_, s6) => s6 | Crash _ => s5 end.
    destruct (disable_dma_clk s5) as [[[] s6]|f] eqn:Ed; [|done]. split; [done|].
    destruct (a_notify _ _); rewrite Ed; reflexivity. }
  exists s2. split; [|split; [apply Hmv|exact Erun]].
  assert (irq_actived s i = count_after s i (irq_chan s i)) as Ek.
  { unfold irq_actived, count_after, irq_chan, runs. change (a_running (abs s i)) with (active (chan s i)). rewrite Ha.
    unfold a_load. destruct (irq_rest s i); cbn [is_nil a_running Z.b2z]; [rewrite s32_small by lia|]; lia. }
  destruct Hmv as [Hacts Hk2 Hh2 Hact2].
  apply (inv_step i (irq_chan s i) leaks leaks s s2); try done.
  - unfold irq_chan, a_load. destruct (irq_rest s i); by apply Hinv.
  - by rewrite Hk2.
  - rewrite Hk2. unfold dropped in Hh2. pose proof (runs_range (irq_chan s i)). rewrite Ek in *. unfold count_after in *.
    assert (runs (abs s i) = 1) as E1 by (unfold runs; change (a_running (abs s i)) with (active (chan s i)); by rewrite Ha).
    destruct (Z.eqb_spec (g_dma_actived s + runs (irq_chan s i) - runs (abs s i)) 0) as [E|E].
    + rewrite E. cbn. by replace (leaks + 0) with (Z.max 0 (n - 1)) by lia.
    + replace (0 <? _) with true by lia. by replace (leaks + Z.b2z true) with n by (cbn; lia).
  - by rewrite Hact2.
  - rewrite Hact2, (dma_handlers _ _ Hinv i Hi). unfold irq_chan, a_load. by destruct (irq_rest s i).
Qed.

End Irq.

End Main.
