(* ===== verification/DmaRuns.v ===== *)
(** * What the DMA driver guarantees

    The driver's theorems, over any clock framework that obeys [ClkLaws], any
    answers of [request_irq] and any callback. *)

From stdpp Require Import base list gmap strings.
From Stdlib Require Import ZArith Lia.
From S2P Require Import Prelude CrmRegs DmaTable Dma DmaRing DmaSteps DmaChannel DmaSetup DmaInv DmaOps DmaQueue.
From S2P Require Import DmaTransfer DmaClient DmaRequest DmaSystem DmaMain.

Section Runs.
Context {C : Type} {Clk : ClkProvider C} {Laws : ClkLaws C}.
Implicit Types s : dmast.

(** ** Runs *)

Lemma running_exists s : (0 <? running s) = existsb (fun i => active (chan s i)) (seqZ 0 16).
Proof.
  unfold running. induction (seqZ 0 16) as [|i l IH]; [done|]. cbn [total foldr existsb]. fold (total (fun i => runs (abs s i)) l).
  assert (0 <= total (fun i => runs (abs s i)) l) as Hnn by (apply total_range; intros j; apply runs_range).
  rewrite <- IH. unfold runs at 1. change (a_running (abs s i)) with (active (chan s i)).
  destruct (active (chan s i)); cbn [Z.b2z orb]; [lia|done].
Qed.

Section Reach.
Context (call_cb : Z -> Z -> Z -> Z -> M dmast unit) (request_irq_ret : list (Z * Z) -> Z -> Z).

(** A callback that respects the driver: from a state of the invariant it
    returns to one, without stopping the last running channel. *)
Definition callback_ok : Prop :=
  forall f arg error bytes leaks s,
    dma_inv leaks s -> leaks + 1 < cl_room ->
    wp (call_cb f arg error bytes) (fun _ s' => exists leaks', leaks' <= leaks /\ dma_inv leaks' s') s.

(** Bring-up, then calls, interrupts of running channels and steps of the
    controller in any order; [k] counts the calls that stopped the only running
    channel. *)
Inductive dma_reach : Z -> dmast -> Prop :=
| reach_init r c s : cl_fresh c -> mxc_dma_init (dma_boot r c []) = Ret (0, s) -> dma_reach 0 s
| reach_call k c r s s' :
    dma_reach k s -> call_ok c -> run_call request_irq_ret c s = Ret (r, s') ->
    dma_reach (k + Z.b2z (stops_last c s)) s'
| reach_irq k i s s' :
    dma_reach k s -> in_chans i -> active (chan s i) = true -> dma_irq_handler call_cb i s = Ret (tt, s') ->
    dma_reach k s'
| reach_hw k s s' : dma_reach k s -> hw_step s s' -> dma_reach k s'.

(** The handler keeps the invariant when the callback does. *)
Lemma irq_keeps leaks i s :
  callback_ok -> dma_inv leaks s -> leaks + 1 < cl_room -> in_chans i -> active (chan s i) = true ->
  wp (dma_irq_handler call_cb i) (fun _ s' => exists leaks', leaks' <= leaks /\ dma_inv leaks' s') s.
Proof.
  intros Hcb Hinv Hroom Hi Ha. destruct (irq_run call_cb leaks i s Hinv Hi Ha) as (s1 & Hinv1 & Hacts & E).
  unfold wp at 1. rewrite E. fold (wp (if a_notify (irq_error s i) (a_queue (abs s i)) then irq_notify call_cb i (irq_error s i) else mret tt)
    (fun _ s' => exists leaks', leaks' <= leaks /\ dma_inv leaks' s') s1).
  destruct (a_notify _ _); [|apply wp_ret; by exists leaks]. clear E.
  assert (forall leaks' s2, leaks' <= leaks -> dma_inv leaks' s2 ->
    wp (p2 ← priv_at i; store_priv i (upd_bytes 0 p2)) (fun _ s' => exists leaks', leaks' <= leaks /\ dma_inv leaks' s') s2) as Hreset.
  { intros leaks' s2 Hle H2. apply wp_bind, wp_priv_at; [apply H2|done|]. apply wp_store_priv. exists leaks'. split; [done|].
    pose proof (set_bytes_acts i 0 s2 (dma_shape _ _ H2) Hi (dma_chans _ _ H2 i Hi)) as Ha2.
    apply (still_step i _ leaks' s2 _ H2 Hi Ha2); [by split| |done|done]. by apply H2. }
  unfold irq_notify. apply wp_bind, wp_chan_at; [apply Hinv1|done|]. apply wp_bind, wp_priv_at; [apply Hinv1|done|].
  apply wp_bind. destruct (cb_fn (chan s1 i)) as [f|]; [|apply wp_ret; by apply (Hreset leaks)].
  eapply wp_mono; [by apply Hcb|]. intros [] s2 (leaks' & Hle & H2). by apply (Hreset leaks').
Qed.

Lemma reach_inv k s : callback_ok -> dma_reach k s -> k + 1 < cl_room -> exists leaks, leaks <= k /\ dma_inv leaks s.
Proof.
  intros Hcb Hr. induction Hr as [r c s Hf Hrun|k c r s s' Hr IH Hok Hrun|k i s s' Hr IH Hi Ha Hrun|k s s' Hr IH Hhw]; intros Hk.
  - exists 0. split; [done|]. pose proof (mxc_dma_init_spec r c [] Hf ltac:(done)) as H.
    apply wp_run in H as (x & s1 & E & _ & H & _). rewrite Hrun in E. by injection E as <- <-.
  - destruct IH as (leaks & Hle & Hinv); [destruct (stops_last c s); cbn in Hk; lia|].
    assert (leaks + 1 < cl_room) as Hroom by (destruct (stops_last c s); cbn in Hk; lia).
    pose proof (call_reaches request_irq_ret leaks c s Hinv Hroom Hok) as H.
    apply wp_run in H as (x & s1 & E & leaks' & H1 & H2 & _). rewrite Hrun in E. injection E as <- <-.
    exists leaks'. split; [lia|done].
  - destruct IH as (leaks & Hle & Hinv); [done|]. pose proof (irq_keeps leaks i s Hcb Hinv ltac:(lia) Hi Ha) as H.
    apply wp_run in H as (x & s1 & E & leaks' & H1 & H2). rewrite Hrun in E. injection E as <- <-.
    exists leaks'. split; [lia|done].
  - destruct IH as (leaks & Hle & Hinv); [done|]. exists leaks. split; [done|]. by apply (hw_inv leaks s).
Qed.

(** C21: In every state that bring-up, client calls, interrupts of running
    channels and the controller can lead to, the driver's invariant holds (rings
    are queues of at most 64 descriptors, the controller of a running channel is
    programmed from the head of its queue, [g_dma_actived] is the number of
    running channels, a channel's handler is installed exactly while the channel
    is owned), and from such a state no client call and no interrupt of a
    running channel crashes or runs forever.  [k] is the number of calls so far
    that stopped the only running channel; each may have leaked a clock
    reference, and the use count of the clock must have room for them.  Callbacks of
    clients are taken to keep the invariant and not to stop the last running channel. *)
Theorem dma_runs_safe k s :
  callback_ok -> dma_reach k s -> k + 1 < cl_room ->
  (exists leaks, 0 <= leaks <= k /\ dma_inv leaks s) /\
  (forall c, call_ok c -> exists r s', run_call request_irq_ret c s = Ret (r, s')) /\
  (forall i, in_chans i -> active (chan s i) = true -> exists s', dma_irq_handler call_cb i s = Ret (tt, s')).
Proof.
  intros Hcb Hr Hk. destruct (reach_inv k s Hcb Hr Hk) as (leaks & Hle & Hinv). pose proof (dma_leaks _ _ Hinv) as Hl.
  split; [by exists leaks|]. split.
  - intros c Hok. pose proof (call_reaches request_irq_ret leaks c s Hinv ltac:(lia) Hok) as H.
    apply wp_run in H as (r & s' & E & _). by exists r, s'.
  - intros i Hi Ha. pose proof (irq_keeps leaks i s Hcb Hinv ltac:(lia) Hi Ha) as H.
    apply wp_run in H as ([] & s' & E & _). by exists s'.
Qed.

(** C22: As long as no call has stopped the only running channel, the driver
    holds exactly one reference to the controller's clock while a channel runs
    and none otherwise. *)
Theorem dma_clock_balanced s :
  callback_ok -> dma_reach 0 s -> holds (Z.b2z (existsb (fun i => active (chan s i)) (seqZ 0 16))) s.
Proof.
  intros Hcb Hr. pose proof cl_room_pos. destruct (reach_inv 0 s Hcb Hr ltac:(lia)) as (leaks & Hle & Hinv).
  pose proof (dma_leaks _ _ Hinv). assert (leaks = 0) as -> by lia. rewrite <- running_exists. apply Hinv.
Qed.

End Reach.

(** C20: Every call of the client API, on every argument, returns the value and
    changes the sixteen channels as the abstract specification says (queueing
    appends all buffers or none, enabling starts the head of the queue, disabling
    discards it, requesting hands out the first free channel), and keeps the
    driver's invariant. *)
Theorem dma_api_refines request_irq_ret leaks c s :
  dma_inv leaks s -> leaks + 1 < cl_room -> call_ok c ->
  exists r s', run_call request_irq_ret c s = Ret (r, s') /\
    r = fst (spec_call (irq_answer request_irq_ret s) c (abs s)) /\
    (forall i, in_chans i -> abs s' i = snd (spec_call (irq_answer request_irq_ret s) c (abs s)) i) /\
    exists leaks', leaks' <= leaks + Z.b2z (stops_last c s) /\ dma_inv leaks' s'.
Proof.
  intros Hinv Hroom Hok. pose proof (call_reaches request_irq_ret leaks c s Hinv Hroom Hok) as H.
  apply wp_run in H as (r & s' & E & leaks' & H1 & H2 & H3 & H4). exists r, s'. eauto 10.
Qed.

(** ** Interrupts *)

(** The controller completes a transfer of [v] bytes on channel [i]. *)
Definition hw_done (i v : Z) s : dmast :=
  let clr o r := writel (clear (readl r (DMA_REG o)) (bit i)) (DMA_REG o) r in
  with_dregs (fun r =>
    writel v (base i + transferd)
      (writel (setb (readl r (DMA_REG DMA_DISR)) (bit i)) (DMA_REG DMA_DISR)
        (clr DMA_DBTOSR (clr DMA_DRTOSR (clr DMA_DSESR (clr DMA_DBOSR r)))))) s.

Lemma hw_done_regs i v s a :
  in_chans i ->
  readl (dregs (hw_done i v s)) a =
    if decide (a = base i + transferd) then u32 v
    else if decide (a = DMA_REG DMA_DISR) then u32 (setb (readl (dregs s) a) (bit i))
    else if decide (a ∈ status_regs) then u32 (clear (readl (dregs s) a) (bit i))
    else readl (dregs s) a.
Proof.
  intros Hi. unfold hw_done. cbn [dregs with_dregs].
  destruct (decide (a = base i + transferd)) as [->|Ha]; [apply readl_writel_eq|]. rewrite readl_writel_ne by congruence.
  destruct (decide (a = DMA_REG DMA_DISR)) as [->|H1]; [by rewrite readl_writel_eq|]. rewrite readl_writel_ne by congruence.
  unfold status_regs. destruct (decide (a ∈ _)) as [Hst|Hst].
  - apply list_elem_of_fmap in Hst as (o & -> & Ho).
    repeat (apply elem_of_cons in Ho as [->|Ho]; [try done; rewrite ?readl_writel_ne by done; rewrite readl_writel_eq;
      rewrite ?readl_writel_ne by done; reflexivity|]). by apply elem_of_nil in Ho.
  - assert (forall o, o ∈ [DMA_DISR; DMA_DBTOSR; DMA_DRTOSR; DMA_DSESR; DMA_DBOSR] -> DMA_REG o <> a) as Hne
      by (intros o Ho <-; apply Hst; by apply list_elem_of_fmap_2).
    rewrite !readl_writel_ne by (apply Hne; set_solver). done.
Qed.

Lemma transferd_not_status i : in_chans i -> base i + transferd ∉ status_regs.
Proof. intros Hi. apply block_not_status; [done|off_tac]. Qed.

Lemma hw_done_step i v s : in_chans i -> hw_step s (hw_done i v s).
Proof.
  intros Hi. eexists. split; [reflexivity|]. intros a Ha. change (readl (dregs (hw_done i v s)) a = readl (dregs s) a).
  rewrite hw_done_regs by done. unfold hw_written in Ha. rewrite !decide_False; [done|..].
  - intros H. apply Ha. by left.
  - intros ->. apply Ha. left. apply status_elem. set_solver.
  - intros ->. apply Ha. right. by exists i.
Qed.

Lemma hw_done_creg i v s : in_chans i -> creg (hw_done i v s) i transferd = u32 v.
Proof. intros Hi. unfold creg. rewrite hw_done_regs by done. by rewrite decide_True. Qed.

Lemma hw_done_event i v s o :
  in_chans i -> o ∈ [DMA_DISR; DMA_DBTOSR; DMA_DRTOSR; DMA_DSESR; DMA_DBOSR] ->
  has_event (hw_done i v s) o i = bool_decide (o = DMA_DISR).
Proof.
  intros Hi Ho. unfold has_event. rewrite hw_done_regs by done.
  assert (0 <= i < 32) as Hi' by (unfold in_chans in Hi; lia).
  rewrite decide_False by (intros E; apply (transferd_not_status i Hi); rewrite <- E; by apply status_elem).
  case_bool_decide as Hd.
  - subst o. rewrite decide_True by done. rewrite testbit_u32, testbit_setb, testbit_bit by lia.
    rewrite Z.eqb_refl, orb_true_r. destruct (Z.ltb_spec i 32); [done|lia].
  - rewrite decide_False by (unfold DMA_REG; intros E%Z.add_cancel_l; done). rewrite decide_True by (by apply status_elem).
    rewrite testbit_u32, testbit_clear, testbit_bit by lia. rewrite Z.eqb_refl, andb_false_r. by destruct (i <? 32).
Qed.

Lemma hw_done_error i v s : in_chans i -> irq_error (hw_done i v s) i = MXC_DMA_DONE.
Proof.
  intros Hi. unfold irq_error, events. rewrite !hw_done_event by (done || set_solver). done.
Qed.

Lemma hw_done_abs i v j s : in_chans i -> in_chans j -> abs (hw_done i v s) j = abs s j.
Proof. intros Hi Hj. apply abs_same, hw_same; [done|by apply hw_done_step]. Qed.

Section Handler.
Context (call_cb : Z -> Z -> Z -> Z -> M dmast unit).

(** What is left to do once the bookkeeping is done: the client's callback with
    the error and the bytes moved, then the count is reset. *)
Definition tell (i : Z) (f : option Z) (arg error bytes : Z) : M dmast unit :=
  (match f with Some f => call_cb f arg error bytes | None => mret tt end);;
  p ← priv_at i; store_priv i (upd_bytes 0 p).

Lemma notify_tell i s : shape s -> in_chans i -> forall error,
  irq_notify call_cb i error s = tell i (a_cb (abs s i)) (a_arg (abs s i)) error (a_bytes (abs s i)) s.
Proof.
  intros Hs Hi error. unfold irq_notify. erewrite run_bind by (by apply chan_at_run).
  erewrite run_bind by (by apply priv_at_run). done.
Qed.

Lemma irq_chan_keeps s i :
  a_cb (irq_chan s i) = a_cb (abs s i) /\ a_arg (irq_chan s i) = a_arg (abs s i) /\ a_bytes (irq_chan s i) = irq_bytes s i.
Proof. unfold irq_chan, a_load. by destruct (irq_rest s i). Qed.

Lemma irq_tells leaks i s :
  dma_inv leaks s -> in_chans i -> active (chan s i) = true ->
  exists s1, dma_inv leaks s1 /\ acts i (irq_chan s i) s s1 /\
    dma_irq_handler call_cb i s =
      (if a_notify (irq_error s i) (a_queue (abs s i))
       then tell i (a_cb (abs s i)) (a_arg (abs s i)) (irq_error s i) (irq_bytes s i) else mret tt) s1.
Proof.
  intros Hinv Hi Ha. destruct (irq_run call_cb leaks i s Hinv Hi Ha) as (s1 & Hinv1 & Hacts & E).
  exists s1. split; [done|]. split; [done|]. rewrite E. destruct (a_notify _ _); [|done].
  rewrite (notify_tell i s1 (dma_shape _ _ Hinv1) Hi), (acts_abs _ _ _ _ Hacts).
  by destruct (irq_chan_keeps s i) as (-> & -> & ->).
Qed.

(** C23: An interrupt of a running channel adds the bytes the controller moved
    to the channel's count and moves the channel on: after a completed transfer
    to the rest of the queue, after a failed one to the rest when the descriptor
    closed its request and to an empty queue otherwise.  The client's callback runs when the last descriptor of a request
    is done or a transfer failed, with the error and the accumulated bytes, after
    which the count is zero.  The other channels are untouched, the invariant
    holds when the callback is entered. *)
Theorem dma_irq_exact leaks i s :
  dma_inv leaks s -> in_chans i -> active (chan s i) = true ->
  let e := error_of (events s i) in
  let q := a_queue (abs s i) in
  let bytes := u32 (a_bytes (abs s i) + creg s i transferd) in
  exists s1, dma_inv leaks s1 /\
    abs s1 i = a_load (a_rest e q) (a_set_bytes bytes (abs s i)) /\
    (forall j, in_chans j -> j <> i -> abs s1 j = abs s j) /\
    dma_irq_handler call_cb i s =
      (if a_notify e q then tell i (a_cb (abs s i)) (a_arg (abs s i)) e bytes else mret tt) s1.
Proof.
  intros Hinv Hi Ha. destruct (irq_tells leaks i s Hinv Hi Ha) as (s1 & Hinv1 & Hacts & E). exists s1.
  split; [done|]. split; [apply Hacts|]. split; [|done]. intros j Hj Hne. by apply (acts_other i j (irq_chan s i)).
Qed.

(** ** Completed transfers *)

(** [v] bytes are moved and the interrupt is served, for each [v] in turn. *)
Fixpoint serve (i : Z) (vs : list Z) : M dmast unit :=
  match vs with
  | [] => mret tt
  | v :: vs' => modify (hw_done i v);; dma_irq_handler call_cb i;; serve i vs'
  end.

(** The count after transfers of [vs] bytes. *)
Definition moved_bytes (n : Z) (vs : list Z) : Z := fold_left (fun a v => u32 (a + u32 v)) vs n.

(** One completed transfer: [q] is the queue, [l] its head. *)
Lemma served_once leaks i v h t s :
  dma_inv leaks s -> in_chans i -> active (chan s i) = true -> a_queue (abs s i) = h :: t ->
  let bytes := u32 (a_bytes (abs s i) + u32 v) in
  exists s1, dma_inv leaks s1 /\ abs s1 i = a_load t (a_set_bytes bytes (abs s i)) /\
    dma_irq_handler call_cb i (hw_done i v s) =
      (if it_last h then tell i (a_cb (abs s i)) (a_arg (abs s i)) MXC_DMA_DONE bytes else mret tt) s1.
Proof.
  intros Hinv Hi Ha Hq bytes. pose proof (hw_inv leaks s _ Hinv (hw_done_step i v s Hi)) as Hinv'.
  destruct (irq_tells leaks i (hw_done i v s) Hinv' Hi Ha) as (s1 & H1 & Hacts & E). exists s1. split; [done|].
  assert (irq_bytes (hw_done i v s) i = bytes) as Eb by (unfold irq_bytes; by rewrite hw_done_abs, hw_done_creg).
  rewrite hw_done_error, hw_done_abs, Hq, Eb in E by done. split; [|exact E].
  rewrite (acts_abs _ _ _ _ Hacts). unfold irq_chan, irq_rest. by rewrite hw_done_error, hw_done_abs, Hq, Eb.
Qed.

Lemma a_load_facts q a :
  a_queue (a_load q a) = q /\ a_running (a_load q a) = negb (is_nil q) /\ a_cb (a_load q a) = a_cb a /\
  a_arg (a_load q a) = a_arg a /\ a_bytes (a_load q a) = a_bytes a.
Proof. by destruct q. Qed.

(** C25: A queued request completes: when the controller completes one transfer
    after the other, the descriptors are processed in the order they were queued,
    the client is not called before the last descriptor of the request, and with
    that descriptor it is called, with no error and with the sum of the bytes
    moved for the request; the channel then continues with the next request, or
    stops when there is none. *)
Theorem dma_request_completes leaks i pre l rest vs v s :
  dma_inv leaks s -> in_chans i -> active (chan s i) = true -> a_queue (abs s i) = pre ++ l :: rest ->
  Forall (fun x => it_last x = false) pre -> it_last l = true -> length vs = length pre ->
  let bytes := moved_bytes (a_bytes (abs s i)) (vs ++ [v]) in
  exists s1, dma_inv leaks s1 /\ a_queue (abs s1 i) = rest /\ active (chan s1 i) = negb (is_nil rest) /\
    serve i (vs ++ [v]) s = tell i (a_cb (abs s i)) (a_arg (abs s i)) MXC_DMA_DONE bytes s1.
Proof.
  intros Hinv Hi Ha Hq Hpre Hl. revert vs s Hinv Ha Hq.
  induction Hpre as [|h pre Hh Hpre IH]; intros vs s Hinv Ha Hq Hlen; (destruct vs as [|v0 vs]; [|cbn [length] in Hlen; try lia]).
  - destruct (served_once leaks i v l rest s Hinv Hi Ha Hq) as (s1 & H1 & E1 & Erun). rewrite Hl in Erun.
    destruct (a_load_facts rest (a_set_bytes (u32 (a_bytes (abs s i) + u32 v)) (abs s i))) as (Q1 & Q2 & _).
    exists s1. split; [done|]. split; [by rewrite E1|]. split; [change (active (chan s1 i)) with (a_running (abs s1 i)); by rewrite E1|].
    cbn [app serve]. erewrite run_bind by reflexivity. unfold mbind, M_bind. rewrite Erun.
    change (moved_bytes _ [v]) with (u32 (a_bytes (abs s i) + u32 v)).
    by destruct (tell _ _ _ _ _ s1) as [[[] ?]|].
  - cbn [length] in Hlen. lia.
  - destruct (served_once leaks i v0 h (pre ++ l :: rest) s Hinv Hi Ha Hq) as (s1 & H1 & E1 & Erun). rewrite Hh in Erun.
    destruct (a_load_facts (pre ++ l :: rest) (a_set_bytes (u32 (a_bytes (abs s i) + u32 v0)) (abs s i))) as (Q1 & Q2 & Q3 & Q4 & Q5).
    rewrite <- E1 in Q1, Q2, Q3, Q4, Q5. cbn [a_cb a_arg a_bytes a_set_bytes] in Q3, Q4, Q5.
    destruct (IH vs s1) as (s2 & H2 & F1 & F2 & F3); [done| |done|lia|].
    { change (active (chan s1 i)) with (a_running (abs s1 i)). rewrite Q2. by destruct pre. }
    exists s2. split; [done|]. split; [done|]. split; [done|]. cbn [app serve]. erewrite run_bind by reflexivity.
    erewrite run_bind by exact Erun. rewrite F3, Q3, Q4, Q5. done.
Qed.

End Handler.

(** ** Allocation *)

Section Allocation.
Context (request_irq_ret : list (Z * Z) -> Z -> Z).

Lemma lowest_free leaks i s :
  dma_inv leaks s -> in_chans i -> a_owned (abs s i) = false -> (forall j, 0 <= j < i -> a_owned (abs s j) = true) ->
  a_first_free (abs s) = Some i.
Proof.
  intros Hinv Hi Ho Hbelow. unfold a_first_free. unfold in_chans in Hi.
  replace 16 with (i + (16 - i)) by lia. rewrite seqZ_app by lia. rewrite filter_app.
  rewrite (filter_bool_ext _ (fun _ => false) (seqZ 0 i)).
  2:{ intros j Hj%elem_of_seqZ. rewrite Hbelow by lia. apply andb_false_r. }
  replace (filter (fun _ => false = true) (seqZ 0 i)) with (@nil Z)
    by (induction (seqZ 0 i) as [|x l IH]; [done|by rewrite filter_cons, decide_False]).
  cbn [app]. rewrite Z.add_0_l, seqZ_cons by lia. rewrite filter_cons, decide_True; [done|].
  by rewrite Ho, (dma_dynamic _ _ Hinv i Hi).
Qed.

(** C24: A request for a known device is refused with [-ENODEV], and changes
    nothing, when all channels are owned; otherwise, when the kernel installs the
    handler, it hands out the lowest channel nobody owns, with an empty queue, no
    callback and the device's parameters, with its handler installed once, and
    leaves every other channel as it is. *)
Theorem dma_request_exclusive leaks id nm inf s :
  dma_inv leaks s -> leaks + 1 < cl_room -> mxc_dma_get_info id = Some inf ->
  ((forall i, in_chans i -> a_owned (abs s i) = true) -> mxc_dma_request request_irq_ret id nm s = Ret (- ENODEV, s)) /\
  (forall i, in_chans i -> a_owned (abs s i) = false -> (forall j, 0 <= j < i -> a_owned (abs s j) = true) ->
     irq_answer request_irq_ret s i = 0 ->
     exists s', mxc_dma_request request_irq_ret id nm s = Ret (i, s') /\ abs s' i = a_fresh inf (abs s i) /\
       installed (line i) (actions s') = 1%nat /\ forall j, in_chans j -> j <> i -> abs s' j = abs s j).
Proof.
  intros Hinv Hroom Einf. split.
  - intros Hall. unfold mxc_dma_request. rewrite Einf. pose proof (table_dynamic id inf Einf) as Hd. apply Z.eqb_eq in Hd as ->.
    assert (first_free s = None) as Hf.
    { apply first_free_None. intros i Hi. unfold is_free. rewrite lock_cases by (by apply Hinv). rewrite Hall by done. apply andb_false_r. }
    pose proof (wp_get_dynamic (fun r s' => (r, s') = (-1, s)) s (dma_shape _ _ Hinv)) as H. rewrite Hf in H.
    specialize (H eq_refl). apply wp_run in H as (r & s' & E & [= -> ->]). by erewrite run_bind by exact E.
  - intros i Hi Ho Hbelow Hans. pose proof (request_reaches request_irq_ret leaks id nm s Hinv Hroom) as H.
    apply wp_run in H as (r & s' & E & leaks' & H1 & _ & H2 & H3). exists s'.
    assert (a_first_free (abs s) = Some i) as Hf by by apply (lowest_free leaks).
    assert (spec_call (irq_answer request_irq_ret s) (Request id nm) (abs s) = (i, a_set i (a_fresh inf (abs s i)) (abs s))) as Hsp
      by (unfold spec_call; rewrite Einf, Hf, Hans; done).
    rewrite Hsp in H2, H3. cbn [fst snd] in H2, H3. subst r.
    assert (abs s' i = a_fresh inf (abs s i)) as Ei by (rewrite H3 by done; unfold a_set; by rewrite decide_True).
    split; [done|]. split; [done|]. split; [by rewrite (dma_handlers _ _ H1 i Hi), Ei|].
    intros j Hj Hne. rewrite H3 by done. unfold a_set. by rewrite decide_False.
Qed.

End Allocation.

(** ** Stopping *)

(** [mxc_dma_disable] of the only running channel keeps the reference to
    the controller's clock: enabling an idle channel with a non-empty queue and
    disabling it again leaves nothing running and one more reference held. *)
Theorem dma_disable_leaks_clock leaks i s :
  dma_inv leaks s -> leaks + 1 < cl_room -> in_chans i -> a_owned (abs s i) = true -> running s = 0 ->
  a_queue (abs s i) <> [] ->
  holds leaks s /\
  exists s1 s2, mxc_dma_enable i s = Ret (0, s1) /\ mxc_dma_disable i s1 = Ret (0, s2) /\
    g_dma_actived s2 = 0 /\ a_queue (abs s2 i) = [] /\ holds (leaks + 1) s2.
Proof.
  intros Hinv Hroom Hi Ho Hrun Hq. pose proof (dma_leaks _ _ Hinv) as Hl. pose proof (dma_running _ _ Hinv) as Hk. rewrite Hrun in Hk.
  assert (a_running (abs s i) = false) as Hr.
  { pose proof (running_pos s i Hi) as Hp. unfold runs in Hp. destruct (a_running (abs s i)); [cbn in Hp; lia|done]. }
  assert (holds leaks s) as Hh by (pose proof (inv_holds _ _ Hinv) as H; rewrite Hk in H; cbn in H; by rewrite Z.add_0_r in H).
  split; [done|].
  pose proof (mxc_dma_enable_spec i leaks s (dma_shape _ _ Hinv) Hi (dma_chans _ _ Hinv i Hi) Hh Hl ltac:(lia) ltac:(lia)) as H1.
  cbv zeta in H1. apply wp_run in H1 as (r & s1 & E1 & -> & [[Hf1 Hi1 Ha1] Hk1 Hh1 _]).
  unfold spec_enable, count_after in *. rewrite Ho, Hr in *. cbn [negb fst snd] in *. rewrite Hk in *. cbn [Z.eqb] in Hh1.
  destruct (a_load_facts (a_queue (abs s i)) (a_set_bytes 0 (abs s i))) as (Q1 & Q2 & _).
  assert (runs (a_load (a_queue (abs s i)) (a_set_bytes 0 (abs s i))) = 1) as Er1
    by (unfold runs; rewrite Q2; by destruct (a_queue (abs s i))).
  assert (runs (abs s i) = 0) as Er0 by (unfold runs; by rewrite Hr). rewrite Er1, Er0 in *.
  assert (a_running (abs s1 i) = true) as Hr1 by (rewrite Ha1, Q2; by destruct (a_queue (abs s i))).
  assert (a_owned (abs s1 i) = true) as Ho1 by (rewrite Ha1; unfold a_load; by destruct (a_queue (abs s i))).
  assert (shape s1) as Hs1 by (apply Hf1, Hinv).
  pose proof (mxc_dma_disable_spec i (leaks + (0 + 1 - 0)) s1 Hs1 Hi Hi1 Hh1 ltac:(lia) ltac:(lia) ltac:(lia)) as H2.
  cbv zeta in H2. apply wp_run in H2 as (r & s2 & E2 & -> & [[_ _ Ha2] Hk2 Hh2 _]).
  unfold spec_disable, count_after in *. rewrite Ho1, Hr1 in *. cbn [negb orb fst snd] in *.
  exists s1, s2. split; [done|]. split; [done|]. split; [|split; [by rewrite Ha2|exact Hh2]].
  rewrite Hk2, Hk1. unfold runs. rewrite Hr1. done.
Qed.

(** ** Errors *)

(** A transfer that fails in a descriptor which does not close its request
    discards the whole queue of the channel, the buffers of later requests
    included, and stops it: the loop that should skip the failed request never
    moves on from its first descriptor. *)
Theorem dma_error_drops_queue call_cb leaks i h t s :
  dma_inv leaks s -> in_chans i -> active (chan s i) = true -> a_queue (abs s i) = h :: t -> it_last h = false ->
  error_of (events s i) <> MXC_DMA_DONE ->
  exists s1, dma_inv leaks s1 /\ a_queue (abs s1 i) = [] /\ active (chan s1 i) = false /\
    dma_irq_handler call_cb i s =
      tell call_cb i (a_cb (abs s i)) (a_arg (abs s i)) (error_of (events s i))
        (u32 (a_bytes (abs s i) + creg s i transferd)) s1.
Proof.
  intros Hinv Hi Ha Hq Hl He. destruct (irq_tells call_cb leaks i s Hinv Hi Ha) as (s1 & H1 & Hacts & E). exists s1.
  apply Z.eqb_neq in He. fold (irq_error s i) in He |- *.
  assert (irq_rest s i = []) as Er by (unfold irq_rest; rewrite Hq; cbn [a_rest]; by rewrite He, Hl).
  pose proof (acts_abs _ _ _ _ Hacts) as Eabs. unfold irq_chan in Eabs. rewrite Er in Eabs.
  split; [done|]. split; [by rewrite Eabs|]. split; [change (active (chan s1 i)) with (a_running (abs s1 i)); by rewrite Eabs|].
  rewrite E. unfold a_notify. by rewrite He.
Qed.

(** ** Scatter lists *)

(** C28: A scatter list queued with a byte count is queued as at most one
    descriptor per segment, and the descriptors' counts add up to the requested
    bytes, or to the bytes of the segments when these are fewer. *)
Theorem dma_sg_bytes request_irq_ret leaks ch sg num bytes md s r s' :
  dma_inv leaks s -> leaks + 1 < cl_room -> call_ok (SgConfig ch (Some sg) num bytes md) -> 0 < bytes ->
  Forall (fun x => 0 <= length_ x) sg -> in_chans ch ->
  run_call request_irq_ret (SgConfig ch (Some sg) num bytes md) s = Ret (r, s') -> r = 0 ->
  exists l, a_queue (abs s' ch) = a_queue (abs s ch) ++ l /\ (length l <= Z.to_nat num)%nat /\
    sum_counts l = Z.min bytes (sum_lengths (take (Z.to_nat num) sg)).
Proof.
  intros Hinv Hroom Hok Hb Hl Hi Hrun ->. pose proof (sg_reaches request_irq_ret leaks ch (Some sg) num bytes md s Hinv Hok) as H.
  apply wp_run in H as (x & s1 & E & leaks' & _ & _ & H2 & H3). cbn [run_call] in Hrun. rewrite Hrun in E. injection E as <- <-.
  specialize (H3 ch Hi). unfold spec_call in H2, H3. destruct ((num <? 1) || (bytes <? 0)); [done|].
  unfold on_chan in H2, H3. rewrite in_chans_ok in H2, H3 by done. cbn [fst snd] in H2, H3.
  unfold a_set in H3. rewrite decide_True in H3 by done. unfold spec_config in H2, H3.
  destruct (a_owned (abs s ch)); cbn [negb] in H2, H3; [|done].
  destruct (a_chain _ && _); [done|]. destruct (MAX_BD_SIZE <? _); [done|]. cbn [snd] in H3.
  eexists. split; [rewrite H3; reflexivity|]. unfold sg_items. replace (0 <? bytes) with true by lia. split.
  - etransitivity; [apply sg_bytes_length|]. rewrite length_take. lia.
  - apply sg_bytes_sum; [lia|]. by apply Forall_take.
Qed.

(** ** Bring-up *)

(** [mxc_dma_init] succeeds on a fresh clock framework and leaves the
    sixteen channels free and idle, no clock reference held, no handler
    installed, and the driver's invariant established. *)
Theorem dma_bring_up r c :
  cl_fresh c ->
  exists s, mxc_dma_init (dma_boot r c []) = Ret (0, s) /\ dma_inv 0 s /\ running s = 0 /\ holds 0 s /\ actions s = [] /\
    forall i, in_chans i -> a_owned (abs s i) = false.
Proof.
  intros Hf. pose proof (mxc_dma_init_spec r c [] Hf ltac:(done)) as H. apply wp_run in H as (x & s & E & -> & H1 & H2 & H3 & H4).
  exists s. pose proof (dma_holds _ _ H1) as Hh. rewrite H2 in Hh. done.
Qed.

End Runs.
