(* ===== verification/DmaClock.v ===== *)
(** * The DMA driver on the i.MX27 clock framework

    The clock API of [plat-mxc/clock.c] over the i.MX27 clock table is an
    implementation of the interface the DMA driver is written against, and it
    satisfies the laws the driver's theorems need: [clk_get] finds the
    controller's clock, enabling and disabling it adds and removes a reference,
    and disabling it when nobody holds it does nothing. *)

From stdpp Require Import base gmap list strings.
From Stdlib Require Import ZArith Lia.
From S2P Require Import Prelude ClkFramework ClkCounts ClkEnable ClkClients ClkRates CrmRegs.
From S2P Require Import Mx27ClockTable Mx27Clock Mx27ClockLaws Mx27Tree Mx27Boot Mx27Init Dma DmaInv.

Notation dma_clock := (Mx27ClockTable.dma_clk : @clkp mx27_sig).

(** ** [clk_get] on the booted machine *)

(** A scan over clocks whose objects have no owner. *)
Lemma scan_find (test : clk -> bool) (test0 : clkid -> bool) (l : list clkid) (s : clkst) :
  (forall p : clkid, p ∈ l -> exists k, clk_mem s !! (p : @clkp mx27_sig) = Some k /\ owner k = None /\ test k = test0 p) ->
  scan_clocks test (l : list (@clkp mx27_sig)) s = Ret (List.find test0 l, s).
Proof.
  induction l as [|p l IH]; intros H; [done|]. cbn [scan_clocks List.find].
  destruct (H p ltac:(set_solver)) as (k & Hk & Ho & Ht).
  rewrite (run_bind _ _ _ _ _ (clk_at_run p k s Hk)), Ht. destruct (test0 p).
  - by rewrite Ho.
  - apply IH. intros q Hq. apply H. set_solver.
Qed.

(** The same test on the objects as the table defines them. *)
Definition static_test (test : clk -> bool) (p : clkid) : bool :=
  match look (clk_mem0 : gmap (@clkp mx27_sig) clk) p with Some k => test k | None => false end.

Lemma mem0_unowned :
  forallb (fun p => match look (clk_mem0 : gmap (@clkp mx27_sig) clk) p with
                    | Some k => bool_decide (owner k = None)
                    | None => false
                    end) mxc_clks = true.
Proof. vm_compute. reflexivity. Qed.

Lemma registered_in rev c : c ∈ registered rev -> In c mxc_clks.
Proof.
  unfold registered. rewrite rev_append_rev, app_nil_r. intros H%list_elem_of_In%in_rev.
  by apply filter_In in H as [? _].
Qed.

Lemma static_lookup (test : clk -> bool) rev (s : clkst) :
  tree_inv (clk_mem s) ->
  (forall k k0, static_of k = static_of k0 -> test k = test k0) ->
  forall p : clkid, p ∈ registered rev ->
    exists k, clk_mem s !! (p : @clkp mx27_sig) = Some k /\ owner k = None /\ test k = static_test test p.
Proof.
  intros Ht Htest p Hp. pose proof (registered_object rev p Hp) as Hobj.
  destruct (tree_dom _ _ Ht Hobj) as [k Hk]. destruct (tree_lookup _ _ _ Ht Hk) as (k0 & H0 & Es).
  pose proof (proj1 (forallb_forall _ _) mem0_unowned p (registered_in _ _ Hp)) as Hun.
  assert (look (clk_mem0 : gmap (@clkp mx27_sig) clk) p = Some k0) as Hl by exact H0. cbv beta in Hun. rewrite Hl in Hun.
  exists k. split; [done|]. unfold static_test. rewrite Hl. split; [|by apply Htest].
  apply bool_decide_eq_true in Hun. rewrite <- Hun. by injection Es.
Qed.

Definition test_id (k : @clk mx27_sig) : bool := (id k =? -1) && bool_decide ("dma_clk" = name k).
Definition test_name (k : @clk mx27_sig) : bool := bool_decide ("dma_clk" = name k).

Lemma find_dma rev :
  rev = CHIP_REV_1_0 \/ rev = CHIP_REV_2_0 ->
  List.find (static_test test_id) (registered rev) = None /\
  List.find (static_test test_name) (registered rev) = Some Mx27ClockTable.dma_clk.
Proof. intros [-> | ->]; split; vm_compute; reflexivity. Qed.

Lemma clk_get_dma strtol (s : clkst) :
  booted s -> clk_get strtol None (Some "dma_clk") s = Ret ((CPtr dma_clock, Some "dma_clk"), s).
Proof.
  intros (Hcl & _ & _ & _ & Ht & Hrev & _). unfold clk_get. unfold gets, mbind at 1, M_bind at 1. rewrite Hcl.
  destruct (find_dma (system_rev (hw s)) Hrev) as [F1 F2].
  assert (scan_clocks test_id (registered (system_rev (hw s)) : list (@clkp mx27_sig)) s = Ret (None, s)) as E1.
  { rewrite (scan_find _ (static_test test_id)); [by rewrite F1|]. apply static_lookup; [done|].
    intros k k0 E. injection E as E1 E2 E3 _ _ _ _ _ _. unfold test_id. by rewrite E2, E3. }
  assert (scan_clocks test_name (registered (system_rev (hw s)) : list (@clkp mx27_sig)) s =
    Ret (Some dma_clock, s)) as E2.
  { rewrite (scan_find _ (static_test test_name)); [by rewrite F2|]. apply static_lookup; [done|].
    intros k k0 E. injection E as _ E2 _ _ _ _ _ _ _. unfold test_name. by rewrite E2. }
  fold test_id. erewrite run_bind by exact E1. change (strrchr_dot "dma_clk") with (@None (string * string)). cbv iota.
  fold test_name. erewrite run_bind by exact E2. reflexivity.
Qed.

(** ** The interface *)

Section Provider.
(** [simple_strtol], which [clk_get] calls on names with a dot only. *)
Context (strtol : string -> Z).

#[global] Instance mx27_clk_provider : ClkProvider (@clkst mx27_sig) := {|
  handle := @cptr mx27_sig;
  null_handle := CNull;
  cl_get := fun nm => r ← clk_get strtol None (Some nm); mret (fst r);
  cl_enable := ClkFramework.clk_enable;
  cl_disable := ClkFramework.clk_disable;
|}.

(** The driver holds [n] references to the controller's clock, among those that
    all clients hold; no clock is held more than 27 times. *)
Definition dma_held (h : @cptr mx27_sig) (n : Z) (s : clkst) : Prop :=
  h = CPtr dma_clock /\
  exists u x, holding mx27_rank u s /\ u dma_clock = n /\ (forall c, u c <= 27) /\ same_links (boot_mem x) (clk_mem s).

(** No clock has the DMA controller's clock as parent or secondary clock. *)
Lemma dma_leaf x : degree ∅ (boot_mem x) dma_clock = 0.
Proof. destruct x as [[] [] [] [] [] [] []]; vm_compute; reflexivity. Qed.

Lemma dma_object (s : clkst) x : same_links (boot_mem x) (clk_mem s) -> is_Some (clk_mem s !! dma_clock).
Proof.
  intros H. assert (is_Some (boot_mem x !! dma_clock)) as Hx
    by (apply tree_dom; [apply tree_boot|apply (registered_object CHIP_REV_1_0), (bool_decide_eq_true_1 _); vm_compute; reflexivity]).
  eapply (fmap_is_Some links_of). eapply eq_ind with (P := is_Some); [|exact (H dma_clock)]. by apply fmap_is_Some.
Qed.

Lemma links_counts (s s' : clkst) x :
  same_links (boot_mem x) (clk_mem s) -> only_counts (clk_mem s) (clk_mem s') -> same_links (boot_mem x) (clk_mem s').
Proof. intros H Ho. etrans; [exact H|by apply only_counts_links]. Qed.

Lemma dma_enable_ok h n (s : clkst) :
  0 <= n < 27 -> dma_held h n s ->
  wp (ClkFramework.clk_enable h) (fun r s' => r = 0 /\ dma_held h (n + 1) s') s.
Proof.
  intros Hn (-> & u & x & Hs & Hu & Hle & Hl). pose proof (dma_object s x Hl) as Hobj.
  assert (forall c, plus u dma_clock 1 c <= 27) as Hle'
    by (intros c; unfold plus; specialize (Hle c); case_decide; subst; lia).
  assert (fits (plus u dma_clock 1) ∅ (clk_mem s)) as Hf by by apply (links_fits x).
  pose proof (clk_enable_spec mx27_rank dma_clock u s Hs Hobj Hf) as W. apply wp_run in W as (ret & s1 & E & W & C).
  pose proof (clk_enable_zero _ _ _ _ E) as ->. apply wp_run. exists 0, s1. split; [exact E|]. split; [done|].
  split; [done|]. exists (plus u dma_clock 1), x. split.
  - eapply ready_walk; [exact Hs|exact W|exact C|]. intros c. apply plus_nonneg. apply Hs.
  - split; [unfold plus; rewrite decide_True by done; lia|]. split; [done|]. apply (links_counts s s1); [done|apply W].
Qed.

Lemma dma_disable_ok h n (s : clkst) :
  0 < n -> dma_held h n s -> wp (ClkFramework.clk_disable h) (fun _ s' => dma_held h (n - 1) s') s.
Proof.
  intros Hn (-> & u & x & Hs & Hu & Hle & Hl). pose proof (dma_object s x Hl) as Hobj.
  pose proof (clk_disable_spec mx27_rank dma_clock u s Hs Hobj ltac:(lia)) as W.
  eapply wp_mono; [exact W|]. intros r s1 [W1 C]. split; [done|]. exists (plus u dma_clock (-1)), x. split.
  - eapply ready_walk; [exact Hs|exact W1|exact C|]. intros c. apply minus_nonneg; [apply Hs|lia].
  - split; [unfold plus; rewrite decide_True by done; lia|]. split.
    + intros c. unfold plus. specialize (Hle c). case_decide; lia.
    + apply (links_counts s s1); [done|apply W1].
Qed.

Lemma dma_disable_idle h (s : clkst) :
  dma_held h 0 s -> wp (ClkFramework.clk_disable h) (fun _ s' => dma_held h 0 s') s.
Proof.
  intros H. pose proof H as (-> & u & x & Hs & Hu & Hle & Hl). destruct (dma_object s x Hl) as [k Hk].
  assert (usecount k = 0) as Huse.
  { pose proof Hs as (_ & Hc & Hr & _). pose proof (Hc _ _ Hk) as E. specialize (Hr _ _ Hk).
    pose proof (pulled_le_degree ∅ (clk_mem s) dma_clock) as Hp.
    rewrite <- (degree_same_links ∅ _ _ dma_clock Hl), dma_leaf in Hp. rewrite Hu in E. lia. }
  unfold wp. cbn [ClkFramework.clk_disable]. erewrite run_bind by reflexivity. unfold tree_fuel. cbn [__clk_disable].
  rewrite (run_bind _ _ _ _ _ (clk_at_run dma_clock k s Hk)), Huse. exact H.
Qed.

Lemma dma_get_ok (s : clkst) :
  booted s -> wp (r ← clk_get strtol None (Some "dma_clk"); mret (fst r)) (fun h s' => dma_held h 0 s') s.
Proof.
  intros Hb. unfold wp. erewrite run_bind by (by apply clk_get_dma). cbn. split; [done|].
  destruct Hb as (_ & Hl & _ & Hh & _). exists kernel_holds, (muxes_of (hw s)). split; [done|]. split; [done|].
  split; [|done]. intros c. unfold kernel_holds. case_decide; lia.
Qed.

#[global] Instance mx27_clk_laws : ClkLaws (@clkst mx27_sig) := {|
  cl_held := dma_held;
  cl_room := 27;
  cl_fresh := booted;
  cl_room_pos := eq_refl;
  cl_get_ok := dma_get_ok;
  cl_enable_ok := dma_enable_ok;
  cl_disable_ok := dma_disable_ok;
  cl_disable_idle := dma_disable_idle;
|}.

End Provider.
