(* ===== verification/DmaWitness.v ===== *)
(** * The DMA driver on a board

    The driver's theorems at concrete states: the board of [Mx27Witness] with
    the clock tree up, a channel requested for the chaining test device, three
    buffers queued in two requests and the channel enabled. *)

From stdpp Require Import base list gmap strings.
From Stdlib Require Import ZArith Lia.
From S2P Require Import Prelude ClkFramework CrmRegs Mx27ClockTable Mx27Clock Mx27Boot Mx27Init Mx27Witness.
From S2P Require Import DmaTable Dma DmaRing DmaSteps DmaChannel DmaSetup DmaInv DmaOps DmaQueue.
From S2P Require Import DmaTransfer DmaClient DmaRequest DmaSystem DmaMain DmaRuns DmaClock.

(** The kernel's [simple_strtol] is not reached; its [request_irq] accepts. *)
Definition no_strtol : string -> Z := fun _ => 0.
#[local] Instance board_clks : ClkProvider (@clkst mx27_sig) := mx27_clk_provider no_strtol.
#[local] Instance board_clk_laws : ClkLaws (@clkst mx27_sig) := mx27_clk_laws no_strtol.

Definition irq_free : list (Z * Z) -> Z -> Z := fun _ _ => 0.

(** A callback that queues one more buffer on the channel it is given. *)
Definition refill (f arg error bytes : Z) : M (@dmast _ board_clks) unit :=
  run_call irq_free (Config arg (Some [mkBuf 0xA0000000 0xA0001000 64]) 1 0);; mret tt.

Definition dma_up : dmast := run_state mxc_dma_init (dma_boot ∅ board_up []).
Definition calls (l : list dma_call) (s : dmast) : dmast :=
  fold_left (fun s c => run_state (run_call irq_free c) s) l s.

Definition bufs : list mxc_dma_requestbuf_t := [mkBuf 0xA0010000 0xA0020000 256; mkBuf 0xA0011000 0xA0021000 128].
Definition dma_chan0 : dmast := calls [Request MXC_DMA_TEST_HW_CHAINING None; CallbackSet 0 (Some 7) 0] dma_up.
Definition dma_filled : dmast := calls [Config 0 (Some bufs) 2 0; Config 0 (Some bufs) 1 0] dma_chan0.
Definition dma_on : dmast := calls [Enable 0] dma_filled.

Lemma init_run (c : @clkst mx27_sig) :
  booted c -> mxc_dma_init (dma_boot ∅ c []) = Ret (0, run_state mxc_dma_init (dma_boot ∅ c [])) /\
    dma_inv 0 (run_state mxc_dma_init (dma_boot ∅ c [])).
Proof.
  intros Hc. pose proof (mxc_dma_init_spec ∅ c [] Hc (fun _ _ => eq_refl)) as H. apply wp_run in H as (x & s & E & -> & H & _).
  unfold run_state. rewrite E. done.
Qed.

Lemma up_run : mxc_dma_init (dma_boot ∅ board_up []) = Ret (0, dma_up).
Proof. exact (proj1 (init_run board_up board_booted)). Qed.

Lemma up_inv : dma_inv 0 dma_up.
Proof. exact (proj2 (init_run board_up board_booted)). Qed.

(** Calls that stop nothing keep the board balanced. *)
Lemma call_inv c s :
  dma_inv 0 s -> call_ok c -> stops_last c s = false ->
  dma_inv 0 (run_state (run_call irq_free c) s) /\ exists r, run_call irq_free c s = Ret (r, run_state (run_call irq_free c) s).
Proof.
  intros Hinv Hok Hst. pose proof (call_reaches irq_free 0 c s Hinv ltac:(done) Hok) as H.
  apply wp_run in H as (r & s' & E & leaks & H1 & H2 & _). rewrite Hst in H2. cbn in H2.
  unfold run_state. rewrite E. pose proof (dma_leaks _ _ H1). replace 0 with leaks by lia. eauto.
Qed.

Lemma calls_inv l : forall s,
  dma_inv 0 s -> Forall call_ok l -> forallb (fun c => match c with Free _ | Disable _ => false | _ => true end) l = true ->
  dma_inv 0 (calls l s).
Proof.
  induction l as [|c l IH]; intros s Hinv Hok Hst; [done|]. apply Forall_cons in Hok as [Hc Hok].
  cbn [forallb] in Hst. apply andb_prop in Hst as [Hs Hst]. apply IH; [|done|done].
  apply call_inv; [done|done|by destruct c].
Qed.

Ltac calls_ok := repeat (apply List.Forall_cons; [cbn; try lia; exact I|]); apply List.Forall_nil.

Lemma chan0_inv : dma_inv 0 dma_chan0.
Proof. apply calls_inv; [exact up_inv|calls_ok|reflexivity]. Qed.

Lemma filled_inv : dma_inv 0 dma_filled.
Proof. apply calls_inv; [exact chan0_inv|calls_ok|reflexivity]. Qed.

Lemma on_inv : dma_inv 0 dma_on.
Proof. apply calls_inv; [exact filled_inv|calls_ok|reflexivity]. Qed.

(** What the evaluated states look like. *)
Definition item0 : item := mkItem 0 256 0xA0010000 0xA0020000 false.
Definition item1 : item := mkItem 0 128 0xA0011000 0xA0021000 true.
Definition item2 : item := mkItem 0 256 0xA0010000 0xA0020000 true.

Lemma on_running : active (chan dma_on 0) = true.
Proof. vm_compute. reflexivity. Qed.

Lemma on_queue : a_queue (abs dma_on 0) = [item0; item1] ++ item2 :: [].
Proof. vm_compute. reflexivity. Qed.

(** ** The callback *)

Lemma refill_ok : callback_ok refill.
Proof.
  intros f arg error bytes leaks s Hinv Hroom. unfold refill. apply wp_bind.
  eapply wp_mono; [apply (call_reaches irq_free leaks); [exact Hinv|exact Hroom|cbn; lia]|].
  intros r s' (leaks' & H1 & H2 & _). apply wp_ret. exists leaks'. cbn in H2. split; [lia|exact H1].
Qed.

(** ** Runs *)

Lemma calls_reach l : forall s,
  dma_inv 0 s -> dma_reach refill irq_free 0 s -> Forall call_ok l ->
  forallb (fun c => match c with Free _ | Disable _ => false | _ => true end) l = true ->
  dma_reach refill irq_free 0 (calls l s).
Proof.
  induction l as [|c l IH]; intros s Hinv Hr Hok Hst; [done|]. apply Forall_cons in Hok as [Hc Hok].
  cbn [forallb] in Hst. apply andb_prop in Hst as [Hs Hst].
  assert (stops_last c s = false) as E by by destruct c. destruct (call_inv c s Hinv Hc E) as [H1 (r & Hrun)].
  apply IH; [done| |done|done]. pose proof (reach_call refill irq_free 0 c r s _ Hr Hc Hrun) as H. by rewrite E in H.
Qed.

Lemma up_reach : dma_reach refill irq_free 0 dma_up.
Proof. exact (reach_init refill irq_free ∅ board_up dma_up board_booted up_run). Qed.

Lemma on_reach : dma_reach refill irq_free 0 dma_on.
Proof.
  apply calls_reach; [exact filled_inv| |calls_ok|reflexivity].
  apply calls_reach; [exact chan0_inv| |calls_ok|reflexivity].
  apply calls_reach; [exact up_inv|exact up_reach|calls_ok|reflexivity].
Qed.

(** ** Witnesses *)

Lemma dma_api_refines_witness :
  exists s', run_call irq_free (Enable 0) dma_filled = Ret (0, s') /\ a_running (abs s' 0) = true /\
    a_queue (abs s' 0) = [item0; item1; item2].
Proof.
  destruct (dma_api_refines irq_free 0 (Enable 0) dma_filled filled_inv ltac:(reflexivity) I) as (r & s' & E & Hr & Ha & _).
  exists s'. specialize (Ha 0 ltac:(split; [apply Z.le_refl|reflexivity])).
  assert (r = 0) as -> by (rewrite Hr; vm_compute; reflexivity).
  split; [exact E|]. rewrite Ha. split; vm_compute; reflexivity.
Defined.

Lemma dma_runs_safe_witness :
  (exists leaks, 0 <= leaks <= 0 /\ dma_inv leaks dma_on) /\
  (exists r s', run_call irq_free (Free 0) dma_on = Ret (r, s')) /\
  (exists s', dma_irq_handler refill 0 dma_on = Ret (tt, s')).
Proof.
  destruct (dma_runs_safe refill irq_free 0 dma_on refill_ok on_reach ltac:(reflexivity)) as (H1 & H2 & H3).
  split; [exact H1|]. split; [exact (H2 (Free 0) I)|]. apply H3; [split; [apply Z.le_refl|reflexivity]|exact on_running].
Defined.

Lemma dma_clock_balanced_witness : holds 1 dma_on /\ holds 0 dma_up.
Proof.
  split.
  - exact (dma_clock_balanced refill irq_free dma_on refill_ok on_reach).
  - exact (dma_clock_balanced refill irq_free dma_up refill_ok up_reach).
Defined.

(** Channel 0 exists. *)
Lemma chan_0 : in_chans 0.
Proof. split; [apply Z.le_refl|reflexivity]. Qed.

(** A completed transfer of 256 bytes, and a failed one. *)
Definition dma_done : dmast := hw_done 0 256 dma_on.
Definition dma_failed : dmast :=
  with_dregs (writel (bit 0) (DMA_REG DMA_DSESR)) dma_on.

Lemma done_inv : dma_inv 0 dma_done.
Proof. exact (hw_inv 0 dma_on dma_done on_inv (hw_done_step 0 256 dma_on chan_0)). Qed.

Lemma status_step v (s : dmast) : hw_step s (with_dregs (writel v (DMA_REG DMA_DSESR)) s).
Proof.
  eexists. split; [reflexivity|]. intros a Ha. apply readl_writel_ne. intros <-. apply Ha. left. apply status_elem. set_solver.
Qed.

Lemma failed_inv : dma_inv 0 dma_failed.
Proof. exact (hw_inv 0 dma_on dma_failed on_inv (status_step (bit 0) dma_on)). Qed.

Lemma done_running : active (chan dma_done 0) = true.
Proof. vm_compute. reflexivity. Qed.

Lemma failed_running : active (chan dma_failed 0) = true.
Proof. vm_compute. reflexivity. Qed.

Lemma failed_queue : a_queue (abs dma_failed 0) = item0 :: [item1; item2].
Proof. vm_compute. reflexivity. Qed.

Lemma dma_irq_exact_witness :
  exists s1, dma_inv 0 s1 /\ a_queue (abs s1 0) = [item1; item2] /\ a_bytes (abs s1 0) = 256 /\
    dma_irq_handler refill 0 dma_done = Ret (tt, s1).
Proof.
  destruct (dma_irq_exact refill 0 0 dma_done done_inv chan_0 done_running) as (s1 & H1 & H2 & _ & H3).
  exists s1. split; [exact H1|]. rewrite H2. split; [vm_compute; reflexivity|]. split; [vm_compute; reflexivity|].
  rewrite H3. replace (a_notify _ _) with false by (vm_compute; reflexivity). reflexivity.
Defined.

Lemma dma_request_exclusive_witness :
  exists s', mxc_dma_request irq_free MXC_DMA_TEST_RAM2RAM None dma_on = Ret (1, s') /\
    abs s' 1 = a_fresh ram2ram_dma_info (abs dma_on 1) /\ installed (line 1) (actions s') = 1%nat.
Proof.
  destruct (dma_request_exclusive irq_free 0 MXC_DMA_TEST_RAM2RAM None ram2ram_dma_info dma_on on_inv) as [_ H].
  - reflexivity.
  - vm_compute. reflexivity.
  - destruct (H 1) as (s' & H1 & H2 & H3 & _).
    + split; [discriminate|reflexivity].
    + vm_compute. reflexivity.
    + intros j Hj. replace j with 0 by lia. vm_compute. reflexivity.
    + reflexivity.
    + exists s'. split; [exact H1|]. split; [exact H2|exact H3].
Defined.

(** The first request of two buffers: the client hears of it once, with 384 bytes. *)
Lemma dma_request_completes_witness :
  exists s1, a_queue (abs s1 0) = [item2] /\ active (chan s1 0) = true /\
    serve refill 0 ([256] ++ [128]) dma_on = tell refill 0 (Some 7) 0 MXC_DMA_DONE 384 s1.
Proof.
  destruct (dma_request_completes refill 0 0 [item0] item1 [item2] [256] 128 dma_on) as (s1 & _ & H1 & H2 & H3).
  - exact on_inv.
  - exact chan_0.
  - exact on_running.
  - exact on_queue.
  - apply List.Forall_cons; [reflexivity|apply List.Forall_nil].
  - reflexivity.
  - reflexivity.
  - exists s1. split; [exact H1|]. split; [exact H2|]. rewrite H3.
    replace (a_cb (abs dma_on 0)) with (Some 7) by (vm_compute; reflexivity).
    replace (a_arg (abs dma_on 0)) with 0 by (vm_compute; reflexivity).
    replace (moved_bytes _ _) with 384 by (vm_compute; reflexivity). reflexivity.
Defined.

Lemma dma_disable_leaks_clock_witness :
  exists s1 s2, mxc_dma_enable 0 dma_filled = Ret (0, s1) /\ mxc_dma_disable 0 s1 = Ret (0, s2) /\
    g_dma_actived s2 = 0 /\ holds 0 dma_filled /\ holds 1 s2.
Proof.
  destruct (dma_disable_leaks_clock 0 0 dma_filled filled_inv) as (H0 & s1 & s2 & H1 & H2 & H3 & _ & H4).
  - reflexivity.
  - exact chan_0.
  - vm_compute. reflexivity.
  - vm_compute. reflexivity.
  - vm_compute. discriminate.
  - exists s1, s2. split; [exact H1|]. split; [exact H2|]. split; [exact H3|]. split; [exact H0|exact H4].
Defined.

Lemma dma_error_drops_queue_witness :
  exists s1, a_queue (abs s1 0) = [] /\ active (chan s1 0) = false /\
    dma_irq_handler refill 0 dma_failed = tell refill 0 (Some 7) 0 MXC_DMA_TRANSFER_ERROR 0 s1.
Proof.
  destruct (dma_error_drops_queue refill 0 0 item0 [item1; item2] dma_failed) as (s1 & _ & H1 & H2 & H3).
  - exact failed_inv.
  - exact chan_0.
  - exact failed_running.
  - exact failed_queue.
  - reflexivity.
  - vm_compute. discriminate.
  - exists s1. split; [exact H1|]. split; [exact H2|]. rewrite H3.
    replace (a_cb (abs dma_failed 0)) with (Some 7) by (vm_compute; reflexivity).
    replace (a_arg (abs dma_failed 0)) with 0 by (vm_compute; reflexivity).
    replace (error_of _) with MXC_DMA_TRANSFER_ERROR by (vm_compute; reflexivity).
    replace (u32 _) with 0 by (vm_compute; reflexivity). reflexivity.
Defined.

(** Two segments of 512 bytes, of which 700 are wanted. *)
Definition segments : list scatterlist := [mkSg 0xA0030000 512; mkSg 0xA0040000 512].
Definition dma_sg : dmast := run_state (run_call irq_free (SgConfig 0 (Some segments) 2 700 0)) dma_chan0.

Lemma sg_run : run_call irq_free (SgConfig 0 (Some segments) 2 700 0) dma_chan0 = Ret (0, dma_sg).
Proof.
  exact (run_state_ret (run_call irq_free (SgConfig 0 (Some segments) 2 700 0)) dma_chan0 0 ltac:(vm_compute; reflexivity)).
Qed.

Lemma dma_sg_bytes_witness :
  exists l, a_queue (abs dma_sg 0) = l /\ (length l <= 2)%nat /\ sum_counts l = 700.
Proof.
  destruct (dma_sg_bytes irq_free 0 0 segments 2 700 0 dma_chan0 0 dma_sg) as (l & H1 & H2 & H3).
  - exact chan0_inv.
  - reflexivity.
  - intros _. split; [discriminate|]. split; [reflexivity|]. split; [reflexivity|].
    repeat (apply List.Forall_cons; [split; [discriminate|reflexivity]|]). apply List.Forall_nil.
  - reflexivity.
  - repeat (apply List.Forall_cons; [discriminate|]). apply List.Forall_nil.
  - exact chan_0.
  - exact sg_run.
  - reflexivity.
  - exists l. split; [|split; [exact H2|exact H3]]. rewrite H1.
    replace (a_queue (abs dma_chan0 0)) with (@nil item) by (vm_compute; reflexivity). reflexivity.
Defined.

Lemma dma_bring_up_witness :
  exists s, mxc_dma_init (dma_boot ∅ board_up []) = Ret (0, s) /\ dma_inv 0 s /\ running s = 0.
Proof.
  destruct (@dma_bring_up _ board_clks board_clk_laws ∅ board_up board_booted) as (s & H1 & H2 & H3 & _).
  exists s. split; [exact H1|]. split; [exact H2|exact H3].
Defined.
