(* ===== verification/Opl.v ===== *)
(** * The image rotation library: [drivers/media/video/mxc/opl]

    Rotation and mirroring of 16-bit images between two buffers.  The routines
    walk the source in strips and move several pixels per step, some of them in
    inline assembly; they are modelled access by access, on a memory of bytes
    addressed by 32-bit pointers.  An access to an address that is not mapped, or
    that is not aligned for its width, faults.

    Every integer the code computes from strides and sizes is added to a pointer,
    so its 32-bit wrap-around disappears in that of the pointer ([padd]). *)

From stdpp Require Import base gmap list.
From Stdlib Require Import ZArith Lia.
From S2P Require Import Prelude.

(** ** Constants of [opl.h] *)

Definition BYTES_PER_PIXEL : Z := 2.
Definition CACHE_LINE_WORDS : Z := 8.
Definition BYTES_PER_WORD : Z := 4.
Definition BYTES_PER_2PIXEL : Z := BYTES_PER_PIXEL * 2.
Definition BYTES_PER_4PIXEL : Z := BYTES_PER_PIXEL * 4.
Definition QCIF_Y_WIDTH : Z := 176.
Definition QCIF_Y_HEIGHT : Z := 144.

Definition OPLERR_SUCCESS : Z := 0.
Definition OPLERR_NULL_PTR : Z := 1.
Definition OPLERR_BAD_ARG : Z := 2.

Definition BLOCK_SIZE_PIXELS : Z := CACHE_LINE_WORDS * BYTES_PER_WORD / BYTES_PER_PIXEL.
Definition BLOCK_SIZE_PIXELS_BY4 : Z := CACHE_LINE_WORDS * BYTES_PER_WORD / BYTES_PER_PIXEL / 4.

(** ** Memory *)

(** The mapped bytes. *)
Notation mem := (gmap Z Z).

Definition byte (m : mem) (a : Z) : Z := default 0 (m !! a) mod 256.
Definition mapped (m : mem) (a : Z) : bool := bool_decide (is_Some (m !! a)).
Definition put8 (a v : Z) (m : mem) : mem := <[a := v mod 256]> m.

(** Little-endian values of two and of four bytes. *)
Definition half (m : mem) (a : Z) : Z := byte m a + 256 * byte m (a + 1).
Definition word (m : mem) (a : Z) : Z := half m a + 65536 * half m (a + 2).
Definition put16 (a v : Z) (m : mem) : mem := put8 (a + 1) (Z.shiftr v 8) (put8 a v m).
Definition put32 (a v : Z) (m : mem) : mem := put16 (a + 2) (Z.shiftr v 16) (put16 a v m).

(** An access of [n] bytes, aligned to [al]. *)
Definition access (n al a : Z) : M mem unit :=
  m ← get;
  if (a mod al =? 0) && forallb (fun k => mapped m (a + k)) (seqZ 0 n) then mret tt else crash BadAccess.

Definition ld8 (a : Z) : M mem Z := access 1 1 a;; gets (fun m => byte m a).
Definition st8 (a v : Z) : M mem unit := access 1 1 a;; modify (put8 a v).
Definition ldrh (a : Z) : M mem Z := access 2 2 a;; gets (fun m => half m a).
Definition strh (a v : Z) : M mem unit := access 2 2 a;; modify (put16 a v).
Definition ldr (a : Z) : M mem Z := access 4 4 a;; gets (fun m => word m a).
Definition str (a v : Z) : M mem unit := access 4 4 a;; modify (put32 a v).

(** Pointer arithmetic. *)
Definition padd (p off : Z) : Z := u32 (p + off).

(** [memcpy(dst, src, n)], a byte at a time. *)
Fixpoint memcpy (n : nat) (dst src : Z) : M mem unit :=
  match n with
  | O => mret tt
  | S n' => v ← ld8 src; st8 dst v;; memcpy n' (padd dst 1) (padd src 1)
  end.

(** ** 90 and 270 degrees *)

(** [ldrh] four times with the step [d] after each, two [orr], two [str]:
    returns the advanced pointers. *)
Definition column4 (p q d : Z) : M mem (Z * Z) :=
  r2 ← ldrh p;
  r3 ← ldrh (padd p d);
  r4 ← ldrh (padd (padd p d) d);
  r5 ← ldrh (padd (padd (padd p d) d) d);
  str q (Z.lor r2 (Z.shiftl r3 16));;
  str (padd q 4) (Z.lor r4 (Z.shiftl r5 16));;
  mret (padd (padd (padd (padd p d) d) d) d, padd (padd q 4) 4).

(** The assembly of one line of a strip: [column4] [n] times. *)
Fixpoint column (n : nat) (p q d : Z) : M mem (Z * Z) :=
  match n with
  | O => mret (p, q)
  | S n' => pq ← column4 p q d; column n' (fst pq) (snd pq) d
  end.

(** [for (i = width; i > 0; i--)]: one line of the strip after the other. *)
Fixpoint lines (n : nat) (quads : nat) (p q d IN_INDEX OUT_INDEX : Z) : M mem unit :=
  match n with
  | O => mret tt
  | S n' =>
      pq ← column quads p q d;
      lines n' quads (padd (fst pq) IN_INDEX) (padd (snd pq) OUT_INDEX) d IN_INDEX OUT_INDEX
  end.

(** [for (k = height / block; k > 0; k--)]: [strip k] is the body. *)
Fixpoint strips (k : nat) (strip : Z -> M mem unit) : M mem unit :=
  match k with
  | O => mret tt
  | S k' => strip (Z.of_nat k);; strips k' strip
  end.

(** The two block sizes share one body; [block] is [BLOCK_SIZE_PIXELS]. *)
Definition opl_rotate90_u16_by (block : Z) (src ss width height dst ds : Z) (vmirror : bool) : M mem Z :=
  let BLOCK_SIZE_BYTES := BYTES_PER_PIXEL * block in
  let IN_INDEX := ss * block + BYTES_PER_PIXEL in
  let OUT_INDEX := if vmirror then - ds - BLOCK_SIZE_BYTES else ds - BLOCK_SIZE_BYTES in
  strips (Z.to_nat (Z.quot height block)) (fun k =>
    let in_block_ptr := padd src (ss * (height - 1) - ss * block * (Z.quot height block - k)) in
    let out_block_ptr := padd dst (BYTES_PER_PIXEL * block * (Z.quot height block - k)) in
    let out_block_ptr := if vmirror then padd out_block_ptr (ds * (width - 1)) else out_block_ptr in
    lines (Z.to_nat width) (Z.to_nat (block / 4)) in_block_ptr out_block_ptr (- ss) IN_INDEX OUT_INDEX);;
  mret OPLERR_SUCCESS.

Definition opl_rotate90_u16_by16 := opl_rotate90_u16_by BLOCK_SIZE_PIXELS.
Definition opl_rotate90_u16_by4 := opl_rotate90_u16_by BLOCK_SIZE_PIXELS_BY4.

Definition opl_rotate270_u16_by (block : Z) (src ss width height dst ds : Z) (vmirror : bool) : M mem Z :=
  let IN_INDEX := ss * block - BYTES_PER_PIXEL in
  let OUT_INDEX := if vmirror then - ds + BYTES_PER_PIXEL * block else ds + BYTES_PER_PIXEL * block in
  strips (Z.to_nat (Z.quot height block)) (fun k =>
    let in_block_ptr := padd src ((Z.quot height block - k) * block * ss) in
    let out_block_ptr :=
      padd dst ((Z.quot height block - k) * block * BYTES_PER_PIXEL + (width - 1) * ds) in
    let out_block_ptr := if vmirror then padd out_block_ptr (- (ds * (width - 1))) else out_block_ptr in
    lines (Z.to_nat width) (Z.to_nat (block / 4)) in_block_ptr out_block_ptr ss (- IN_INDEX) (- OUT_INDEX));;
  mret OPLERR_SUCCESS.

Definition opl_rotate270_u16_by16 := opl_rotate270_u16_by BLOCK_SIZE_PIXELS.
Definition opl_rotate270_u16_by4 := opl_rotate270_u16_by BLOCK_SIZE_PIXELS_BY4.

(** The argument checks all routines start with. *)
Definition checked (src ss width height dst ds : Z) (body : M mem Z) : M mem Z :=
  if (src =? 0) || (dst =? 0) then mret OPLERR_NULL_PTR
  else if (width =? 0) || (height =? 0) || (ss =? 0) || (ds =? 0) then mret OPLERR_BAD_ARG
  else body.

(** [width % n == 0]. *)
Definition divides (n x : Z) : bool := Z.rem x n =? 0.

Section Rotate.
(** The routines for QCIF images are assembly files that are not part of the
    sources: [qcif src dst]. *)
Context (opl_rotate90_u16_qcif opl_rotate270_u16_qcif : Z -> Z -> M mem Z).

Definition opl_rotate90_vmirror_u16_both (src ss width height dst ds : Z) (vmirror : bool) : M mem Z :=
  checked src ss width height dst ds
    (if negb vmirror && (width =? QCIF_Y_WIDTH) && (height =? QCIF_Y_HEIGHT) && (ss =? QCIF_Y_WIDTH * 2)
        && (ss =? QCIF_Y_HEIGHT * 2)
     then opl_rotate90_u16_qcif src dst
     else if divides BLOCK_SIZE_PIXELS width && divides BLOCK_SIZE_PIXELS height then
       opl_rotate90_u16_by16 src ss width height dst ds vmirror
     else if divides BLOCK_SIZE_PIXELS_BY4 width && divides BLOCK_SIZE_PIXELS_BY4 height then
       opl_rotate90_u16_by4 src ss width height dst ds vmirror
     else mret OPLERR_BAD_ARG).

Definition opl_rotate270_vmirror_u16_both (src ss width height dst ds : Z) (vmirror : bool) : M mem Z :=
  checked src ss width height dst ds
    (if negb vmirror && (width =? QCIF_Y_WIDTH) && (height =? QCIF_Y_HEIGHT) && (ss =? QCIF_Y_WIDTH * 2)
        && (ss =? QCIF_Y_HEIGHT * 2)
     then opl_rotate270_u16_qcif src dst
     else if divides BLOCK_SIZE_PIXELS width && divides BLOCK_SIZE_PIXELS height then
       opl_rotate270_u16_by16 src ss width height dst ds vmirror
     else if divides BLOCK_SIZE_PIXELS_BY4 width && divides BLOCK_SIZE_PIXELS_BY4 height then
       opl_rotate270_u16_by4 src ss width height dst ds vmirror
     else mret OPLERR_BAD_ARG).

Definition opl_rotate90_u16 (src ss width height dst ds : Z) : M mem Z :=
  opl_rotate90_vmirror_u16_both src ss width height dst ds false.
Definition opl_rotate90_vmirror_u16 (src ss width height dst ds : Z) : M mem Z :=
  opl_rotate90_vmirror_u16_both src ss width height dst ds true.
Definition opl_rotate270_u16 (src ss width height dst ds : Z) : M mem Z :=
  opl_rotate270_vmirror_u16_both src ss width height dst ds false.
Definition opl_rotate270_vmirror_u16 (src ss width height dst ds : Z) : M mem Z :=
  opl_rotate270_vmirror_u16_both src ss width height dst ds true.

End Rotate.

(** ** Mirroring and 180 degrees *)

Definition rot_left_u32 (x n : Z) : Z := u32 (Z.lor (Z.shiftl x n) (Z.shiftr x (32 - n))).

(** The loop over a row: [step] moves one group and [sn], [dn] are the distances
    to the next group in the source and in the destination. *)
Fixpoint groups (n : nat) (step : Z -> Z -> M mem unit) (psrc pdst sn dn : Z) : M mem unit :=
  match n with
  | O => mret tt
  | S n' => step psrc pdst;; groups n' step (padd psrc sn) (padd pdst dn) sn dn
  end.

(** The loop over the rows. *)
Fixpoint rows (n : nat) (row : Z -> Z -> M mem unit) (src_row dst_row ss ds : Z) : M mem unit :=
  match n with
  | O => mret tt
  | S n' => row src_row dst_row;; rows n' row (padd src_row ss) (padd dst_row ds) ss ds
  end.

(** The first destination row and the step between rows. *)
Definition mirror_rows (height : Z) (row : Z -> Z -> M mem unit) (src ss dst ds : Z) (vmirror : bool) : M mem Z :=
  rows (Z.to_nat height) row src (if vmirror then padd dst (ds * (height - 1)) else dst) ss
    (if vmirror then - ds else ds);;
  mret OPLERR_SUCCESS.

Definition by1 (psrc pdst : Z) : M mem unit := pixel ← ldrh psrc; strh pdst pixel.

Definition by2 (psrc pdst : Z) : M mem unit := pixelsin ← ldr psrc; str pdst (rot_left_u32 pixelsin 16).

(** The [u64] accesses are two word accesses each, and need the alignment of words: the
    configurations of the boards do not set [CONFIG_AEABI], and in the older ABI they select a
    [u64] is aligned like a word. *)
Definition by4 (psrc pdst : Z) : M mem unit :=
  in0 ← ldr psrc;
  in1 ← ldr (padd psrc 4);
  str pdst (rot_left_u32 in1 16);;
  str (padd pdst 4) (rot_left_u32 in0 16).

(** [ldmia], the four [ROR #16], [stmda]. *)
Definition by8 (psrc pdst : Z) : M mem unit :=
  r2 ← ldr psrc;
  r3 ← ldr (padd psrc 4);
  r4 ← ldr (padd psrc 8);
  r5 ← ldr (padd psrc 12);
  str (padd pdst (-12)) (rot_left_u32 r5 16);;
  str (padd pdst (-8)) (rot_left_u32 r4 16);;
  str (padd pdst (-4)) (rot_left_u32 r3 16);;
  str pdst (rot_left_u32 r2 16).

Definition opl_hmirror_u16_by1 (src ss width height dst ds : Z) (vmirror : bool) : M mem Z :=
  mirror_rows height (fun srow drow =>
    groups (Z.to_nat width) by1 srow
      (padd drow ((width - 1) * BYTES_PER_PIXEL - (BYTES_PER_PIXEL - BYTES_PER_PIXEL)))
      BYTES_PER_PIXEL (- BYTES_PER_PIXEL)) src ss dst ds vmirror.

Definition opl_hmirror_u16_by2 (src ss width height dst ds : Z) (vmirror : bool) : M mem Z :=
  mirror_rows height (fun srow drow =>
    groups (Z.to_nat (Z.shiftr width 1)) by2 srow (padd drow ((width - 2) * BYTES_PER_PIXEL))
      BYTES_PER_2PIXEL (- BYTES_PER_2PIXEL)) src ss dst ds vmirror.

Definition opl_hmirror_u16_by4 (src ss width height dst ds : Z) (vmirror : bool) : M mem Z :=
  mirror_rows height (fun srow drow =>
    groups (Z.to_nat (Z.shiftr width 2)) by4 srow (padd drow ((width - 4) * BYTES_PER_PIXEL))
      BYTES_PER_4PIXEL (- BYTES_PER_4PIXEL)) src ss dst ds vmirror.

Definition opl_hmirror_u16_by8 (src ss width height dst ds : Z) (vmirror : bool) : M mem Z :=
  mirror_rows height (fun srow drow =>
    groups (Z.to_nat (Z.shiftr width 3)) by8 srow (padd drow ((width - 1) * BYTES_PER_PIXEL - 2))
      16 (- 16)) src ss dst ds vmirror.

Definition hmirror_by (src ss width height dst ds : Z) (vmirror : bool) : M mem Z :=
  if divides 8 width then opl_hmirror_u16_by8 src ss width height dst ds vmirror
  else if divides 4 width then opl_hmirror_u16_by4 src ss width height dst ds vmirror
  else if divides 2 width then opl_hmirror_u16_by2 src ss width height dst ds vmirror
  else opl_hmirror_u16_by1 src ss width height dst ds vmirror.

Definition opl_hmirror_u16 (src ss width height dst ds : Z) : M mem Z :=
  checked src ss width height dst ds (hmirror_by src ss width height dst ds false).

Definition opl_rotate180_u16 (src ss width height dst ds : Z) : M mem Z :=
  checked src ss width height dst ds (hmirror_by src ss width height dst ds true).

Definition opl_vmirror_u16 (src ss width height dst ds : Z) : M mem Z :=
  checked src ss width height dst ds
    (rows (Z.to_nat height) (fun srow drow => memcpy (Z.to_nat (u32 (BYTES_PER_PIXEL * width))) drow srow)
       src (padd dst ((height - 1) * ds)) ss (- ds);;
     mret OPLERR_SUCCESS).
