(* ===== verification/OplCopy.v ===== *)
(** * Moving pixels

    The common part of the proofs about the rotation library: bytes and pixels of
    a memory through stores, the accesses, and [copied]: a copy of an image, pixel
    by pixel from one place to another, that has reached a given set of pixels. *)

From stdpp Require Import base gmap list.
From Stdlib Require Import ZArith Lia.
From S2P Require Import Prelude Opl.

(** ** Bytes and pixels *)

Lemma byte_put8 a v m b : byte (put8 a v m) b = if decide (a = b) then v mod 256 else byte m b.
Proof.
  unfold byte, put8. case_decide as E.
  - subst b. rewrite lookup_insert_eq. simpl. by rewrite Z.mod_mod.
  - by rewrite lookup_insert_ne.
Qed.

Lemma mapped_put8 a v m b : mapped m a = true -> mapped (put8 a v m) b = mapped m b.
Proof.
  unfold mapped, put8. intros Ha. destruct (decide (a = b)) as [<-|Hne].
  - rewrite Ha. apply bool_decide_eq_true. rewrite lookup_insert_eq. eauto.
  - by rewrite lookup_insert_ne.
Qed.

Definition mapped2 (m : mem) (a : Z) : Prop := mapped m a = true /\ mapped m (a + 1) = true.

Lemma mapped_put16 a v m b : mapped2 m a -> mapped (put16 a v m) b = mapped m b.
Proof. intros [H1 H2]. unfold put16. rewrite mapped_put8; [by apply mapped_put8|]. by rewrite mapped_put8. Qed.

Lemma byte_put16_ne a v m b : ~ a <= b < a + 2 -> byte (put16 a v m) b = byte m b.
Proof. intros H. unfold put16. rewrite !byte_put8. rewrite !decide_False by lia. done. Qed.

Lemma half_put16_eq a v m : half (put16 a v m) a = v mod 65536.
Proof.
  unfold half, put16. rewrite !byte_put8. rewrite decide_False by lia. rewrite !decide_True by done.
  rewrite Z.shiftr_div_pow2 by lia. change (2 ^ 8) with 256. Z.div_mod_to_equations. lia.
Qed.

Lemma half_ext m m' a : byte m' a = byte m a -> byte m' (a + 1) = byte m (a + 1) -> half m' a = half m a.
Proof. intros H1 H2. unfold half. by rewrite H1, H2. Qed.

Lemma half_put16_ne a v m b : a + 2 <= b \/ b + 2 <= a -> half (put16 a v m) b = half m b.
Proof. intros H. apply half_ext; apply byte_put16_ne; lia. Qed.

Lemma byte_range m a : 0 <= byte m a < 256.
Proof. unfold byte. apply Z.mod_pos_bound. lia. Qed.

Lemma half_range m a : 0 <= half m a < 65536.
Proof. unfold half. pose proof (byte_range m a). pose proof (byte_range m (a + 1)). lia. Qed.

(** A word of two pixels. *)
Lemma lor_pixels x y : 0 <= x < 65536 -> Z.lor x (Z.shiftl y 16) = x + 65536 * y.
Proof.
  intros Hx. pose proof (Z.add_lor_land x (Z.shiftl y 16)) as H.
  assert (Z.land x (Z.shiftl y 16) = 0) as E.
  { apply Z.bits_inj'. intros i Hi. rewrite Z.land_spec, Z.bits_0, Z.shiftl_spec by done.
    destruct (Z.ltb_spec i 16); [by rewrite (Z.testbit_neg_r y), andb_false_r by lia|].
    by rewrite (testbit_above 16 x i) by (done || lia). }
  rewrite E, Z.shiftl_mul_pow2 in * by lia. change (2 ^ 16) with 65536 in *. lia.
Qed.

Lemma word_low x y : 0 <= x < 65536 -> (x + 65536 * y) mod 65536 = x.
Proof. intros. Z.div_mod_to_equations. lia. Qed.

Lemma word_high x y : 0 <= x < 65536 -> Z.shiftr (x + 65536 * y) 16 = y.
Proof. intros. rewrite Z.shiftr_div_pow2 by lia. change (2 ^ 16) with 65536. Z.div_mod_to_equations. lia. Qed.

(** [ROR #16] exchanges the two pixels of a word. *)
Lemma rot_word x y : 0 <= x < 65536 -> 0 <= y < 65536 -> rot_left_u32 (x + 65536 * y) 16 = y + 65536 * x.
Proof.
  intros Hx Hy. unfold rot_left_u32. change (32 - 16) with 16. rewrite word_high by done.
  rewrite Z.lor_comm, lor_pixels by done. unfold u32. change (2 ^ 32) with (65536 * 65536).
  Z.div_mod_to_equations. lia.
Qed.

(** ** Accesses *)

Lemma padd_u32 a o : padd (u32 a) o = u32 (a + o).
Proof. unfold padd, u32. by rewrite Z.add_mod_idemp_l. Qed.

Lemma access_run n al a m :
  a mod al = 0 -> (forall k, 0 <= k < n -> mapped m (a + k) = true) -> access n al a m = Ret (tt, m).
Proof.
  intros Ha Hm. unfold access, mbind, M_bind, get. rewrite Ha. cbn [Z.eqb andb].
  replace (forallb _ _) with true; [done|]. symmetry. apply forallb_forall. intros k Hk%list_elem_of_In%elem_of_seqZ.
  apply Hm. lia.
Qed.

Lemma mapped2_access m a : mapped2 m a -> forall k, 0 <= k < 2 -> mapped m (a + k) = true.
Proof. intros [H1 H2] k Hk. assert (k = 0 \/ k = 1) as [-> | ->] by lia; [by rewrite Z.add_0_r|done]. Qed.

Lemma mapped4_access m a : mapped2 m a -> mapped2 m (a + 2) -> forall k, 0 <= k < 4 -> mapped m (a + k) = true.
Proof.
  intros H1 [H2 H3] k Hk. destruct (decide (k < 2)); [apply mapped2_access; [done|lia]|].
  assert (k = 2 \/ k = 3) as [-> | ->] by lia; [done|]. by replace (a + 3) with (a + 2 + 1) by lia.
Qed.

Lemma wp_ldrh a m (Q : Z -> mem -> Prop) : a mod 2 = 0 -> mapped2 m a -> Q (half m a) m -> wp (ldrh a) Q m.
Proof.
  intros Ha Hm HQ. unfold ldrh, wp. erewrite run_bind by (apply access_run; [done|by apply mapped2_access]). exact HQ.
Qed.

Lemma wp_strh a v m (Q : unit -> mem -> Prop) : a mod 2 = 0 -> mapped2 m a -> Q tt (put16 a v m) -> wp (strh a v) Q m.
Proof.
  intros Ha Hm HQ. unfold strh, wp. erewrite run_bind by (apply access_run; [done|by apply mapped2_access]). exact HQ.
Qed.

Lemma wp_ldr a m (Q : Z -> mem -> Prop) :
  a mod 4 = 0 -> mapped2 m a -> mapped2 m (a + 2) -> Q (half m a + 65536 * half m (a + 2)) m -> wp (ldr a) Q m.
Proof.
  intros Ha Hm Hm2 HQ. unfold ldr, wp. erewrite run_bind by (apply access_run; [done|by apply mapped4_access]). exact HQ.
Qed.

Lemma wp_str a x y m (Q : unit -> mem -> Prop) :
  a mod 4 = 0 -> mapped2 m a -> mapped2 m (a + 2) -> 0 <= x < 65536 ->
  Q tt (put16 (a + 2) y (put16 a (x + 65536 * y) m)) -> wp (str a (x + 65536 * y)) Q m.
Proof.
  intros Ha Hm Hm2 Hx HQ. unfold str, wp. erewrite run_bind by (apply access_run; [done|by apply mapped4_access]).
  unfold modify, put32. by rewrite word_high.
Qed.

(** ** Copies *)

Section Copy.
Context (m0 : mem) (w h : Z) (src dst : Z -> Z -> Z).

Definition in_img (x y : Z) : Prop := 0 <= x < w /\ 0 <= y < h.

(** Where the pixels lie: mapped, in the address space, destinations apart from
    each other and from all sources. *)
Record places : Prop := mkPlaces {
  src_mapped : forall x y, in_img x y -> mapped2 m0 (src x y);
  dst_mapped : forall x y, in_img x y -> mapped2 m0 (dst x y);
  src_range : forall x y, in_img x y -> 0 <= src x y < 2 ^ 32;
  dst_range : forall x y, in_img x y -> 0 <= dst x y < 2 ^ 32;
  dst_apart : forall x y x' y', in_img x y -> in_img x' y' -> (x, y) <> (x', y') ->
    dst x y + 2 <= dst x' y' \/ dst x' y' + 2 <= dst x y;
  src_apart : forall x y x' y', in_img x y -> in_img x' y' ->
    dst x y + 2 <= src x' y' \/ src x' y' + 2 <= dst x y;
}.

(** The pixels of [done] are copied, and no other byte differs from [m0]. *)
Record copied (done : Z -> Z -> Prop) (m : mem) : Prop := mkCopied {
  cp_done : forall x y, in_img x y -> done x y -> half m (dst x y) = half m0 (src x y);
  cp_rest : forall b, (forall x y, in_img x y -> done x y -> ~ dst x y <= b < dst x y + 2) -> byte m b = byte m0 b;
  cp_mapped : forall b, mapped m b = mapped m0 b;
}.

Context (HP : places).

Lemma copied_start m : m = m0 -> copied (fun _ _ => False) m.
Proof. intros ->. by split. Qed.

Lemma copied_iff (d d' : Z -> Z -> Prop) m :
  (forall x y, in_img x y -> (d x y <-> d' x y)) -> copied d m -> copied d' m.
Proof.
  intros H [H1 H2 H3]. split; [| |done].
  - intros x y Hi Hd. apply H1; [done|]. by apply H.
  - intros b Hb. apply H2. intros x y Hi Hd. apply Hb; [done|]. by apply H.
Qed.

Lemma copied_mapped2 d m a : copied d m -> mapped2 m0 a -> mapped2 m a.
Proof. intros H [H1 H2]. split; by rewrite (cp_mapped _ _ H). Qed.

Lemma copied_src d m x y : copied d m -> in_img x y -> half m (src x y) = half m0 (src x y).
Proof.
  intros H Hi. apply half_ext; apply (cp_rest _ _ H); intros x' y' Hi' _;
    pose proof (src_apart HP x' y' x y Hi' Hi); lia.
Qed.

(** One more pixel. *)
Lemma copied_put d m x y v :
  copied d m -> in_img x y -> v mod 65536 = half m0 (src x y) ->
  copied (fun x' y' => d x' y' \/ (x' = x /\ y' = y)) (put16 (dst x y) v m).
Proof.
  intros H Hi Hv. split.
  - intros x' y' Hi' Hd. destruct (decide ((x, y) = (x', y'))) as [[= <- <-]|Hne]; [by rewrite half_put16_eq|].
    rewrite half_put16_ne by (by apply dst_apart). apply H; [done|]. destruct Hd as [|[-> ->]]; [done|congruence].
  - intros b Hb. rewrite byte_put16_ne by (apply Hb; [done|by right]). apply H. intros x' y' Hi' Hd. apply Hb; [done|by left].
  - intros b. rewrite mapped_put16; [apply H|]. by apply (copied_mapped2 d), dst_mapped.
Qed.

End Copy.
