(* ===== verification/OplRotate.v ===== *)
(** * Rotation by 90 and 270 degrees

    One proof for both directions, both block sizes and both mirrorings: the
    strips read columns of the source and write rows of the destination. *)

From stdpp Require Import base gmap list.
From Stdlib Require Import ZArith Lia.
From S2P Require Import Prelude Opl OplCopy.

Section Rotate.
Context (m0 : mem) (w h s0 d q0 e : Z).

(** Pixel [c] of column [x], counted in the order the strips read it. *)
Definition col_src (x c : Z) : Z := s0 + d * c + 2 * x.
Definition col_dst (x c : Z) : Z := q0 + e * x + 2 * c.

Notation src := col_src.
Notation dst := col_dst.
Notation copied := (copied m0 w h src dst).

Context (HP : places m0 w h src dst).
Context (As : s0 mod 2 = 0) (Ad : d mod 2 = 0) (Aq : q0 mod 4 = 0) (Ae : e mod 4 = 0).

Lemma src_even x c : src x c mod 2 = 0.
Proof using As Ad. unfold col_src. apply Z.mod_divide in As as [a ->], Ad as [b ->]; [|lia..]. apply Z.mod_divide; [lia|]. exists (a + b * c + x). lia. Qed.

Lemma dst_word x c : c mod 2 = 0 -> dst x c mod 4 = 0.
Proof using Aq Ae.
  intros Hc. unfold col_dst. apply Z.mod_divide in Aq as [a ->], Ae as [b ->], Hc as [k ->]; [|lia..].
  apply Z.mod_divide; [lia|]. exists (a + b * x + k). lia.
Qed.

Lemma src_next x c : padd (u32 (src x c)) d = u32 (src x (c + 1)).
Proof. rewrite padd_u32. f_equal. unfold col_src. lia. Qed.

Lemma dst_next x c : padd (u32 (dst x c)) 4 = u32 (dst x (c + 2)).
Proof. rewrite padd_u32. f_equal. unfold col_dst. lia. Qed.

Lemma src_ptr x c : in_img w h x c -> u32 (src x c) = src x c.
Proof using HP. intros Hi. apply u32_small, (src_range _ _ _ _ _ HP x c Hi). Qed.

Lemma dst_ptr x c : in_img w h x c -> u32 (dst x c) = dst x c.
Proof using HP. intros Hi. apply u32_small, (dst_range _ _ _ _ _ HP x c Hi). Qed.

(** Two pixels of a row in one store. *)
Lemma store_pair dn m x c (Q : unit -> mem -> Prop) :
  copied dn m -> in_img w h x c -> in_img w h x (c + 1) -> c mod 2 = 0 ->
  (forall m', copied (fun x' c' => dn x' c' \/ (x' = x /\ c <= c' < c + 2)) m' -> Q tt m') ->
  wp (str (u32 (dst x c)) (Z.lor (half m0 (src x c)) (Z.shiftl (half m0 (src x (c + 1))) 16))) Q m.
Proof using HP Aq Ae.
  intros Hcp Hi Hi1 Hc HQ. rewrite lor_pixels by apply half_range. rewrite dst_ptr by done.
  assert (dst x c + 2 = dst x (c + 1)) as E by (unfold col_dst; lia).
  apply wp_str; [by apply dst_word| | |apply half_range|].
  - by apply (copied_mapped2 m0 w h src dst dn), (dst_mapped _ _ _ _ _ HP).
  - rewrite E. by apply (copied_mapped2 m0 w h src dst dn), (dst_mapped _ _ _ _ _ HP).
  - rewrite E. apply HQ. eapply copied_iff; [|apply copied_put; [exact HP|apply copied_put; [exact HP|exact Hcp|done|]|done|]].
    + intros x' c' _. cbv beta. assert (c <= c' < c + 2 <-> c' = c \/ c' = c + 1) by lia. naive_solver.
    + apply word_low, half_range.
    + apply Z.mod_small, half_range.
Qed.

Lemma load_pixel dn m x c (Q : Z -> mem -> Prop) :
  copied dn m -> in_img w h x c -> Q (half m0 (src x c)) m -> wp (ldrh (u32 (src x c))) Q m.
Proof using HP As Ad.
  intros Hcp Hi HQ. rewrite src_ptr by done. apply wp_ldrh; [apply src_even|by apply (copied_mapped2 m0 w h src dst dn), (src_mapped _ _ _ _ _ HP)|].
  by rewrite (copied_src m0 w h src dst HP dn).
Qed.

Lemma column4_spec dn m x c :
  copied dn m -> 0 <= x < w -> 0 <= c -> c + 4 <= h -> c mod 4 = 0 ->
  wp (column4 (u32 (src x c)) (u32 (dst x c)) d)
    (fun pq m' => pq = (u32 (src x (c + 4)), u32 (dst x (c + 4))) /\
       copied (fun x' c' => dn x' c' \/ (x' = x /\ c <= c' < c + 4)) m') m.
Proof using HP As Ad Aq Ae.
  intros Hcp Hx Hc Hc4 Hm. assert (c mod 2 = 0 /\ (c + 2) mod 2 = 0) as [E1 E2] by (Z.div_mod_to_equations; lia).
  assert (forall k, 0 <= k < 4 -> in_img w h x (c + k)) as Hi by (intros k Hk; split; lia).
  pose proof (Hi 0 ltac:(lia)) as Hi0. rewrite Z.add_0_r in Hi0.
  unfold column4. rewrite !src_next, !dst_next.
  replace (c + 1 + 1) with (c + 2) by lia. replace (c + 2 + 1) with (c + 3) by lia. replace (c + 3 + 1) with (c + 4) by lia.
  replace (c + 2 + 2) with (c + 4) by lia.
  apply wp_bind, (load_pixel dn); [done|done|]. apply wp_bind, (load_pixel dn); [done|apply Hi; lia|].
  apply wp_bind, (load_pixel dn); [done|apply Hi; lia|]. apply wp_bind, (load_pixel dn); [done|apply Hi; lia|].
  apply wp_bind, (store_pair dn); [done|done|apply Hi; lia|done|]. intros m1 H1.
  apply wp_bind. replace (c + 3) with (c + 2 + 1) by lia.
  eapply (store_pair _ m1 x (c + 2)); [exact H1|apply Hi; lia|replace (c + 2 + 1) with (c + 3) by lia; apply Hi; lia|done|].
  intros m2 H2. apply wp_ret. split; [done|]. eapply copied_iff; [|exact H2]. intros x' c' _. cbv beta.
  assert (c <= c' < c + 4 <-> c <= c' < c + 2 \/ c + 2 <= c' < c + 2 + 2) by lia. naive_solver.
Qed.

Lemma column_spec n : forall dn m x c,
  copied dn m -> 0 <= x < w -> 0 <= c -> c + 4 * Z.of_nat n <= h -> c mod 4 = 0 ->
  wp (column n (u32 (src x c)) (u32 (dst x c)) d)
    (fun pq m' => pq = (u32 (src x (c + 4 * Z.of_nat n)), u32 (dst x (c + 4 * Z.of_nat n))) /\
       copied (fun x' c' => dn x' c' \/ (x' = x /\ c <= c' < c + 4 * Z.of_nat n)) m') m.
Proof using HP As Ad Aq Ae.
  induction n as [|n IH]; intros dn m x c Hcp Hx Hc Hle Hm; cbn [column].
  - apply wp_ret. rewrite Z.mul_0_r, Z.add_0_r. split; [done|]. eapply copied_iff; [|exact Hcp]. intros. cbv beta. split; [by left|]. intros [?|?]; [done|lia].
  - apply wp_bind. eapply wp_mono; [apply (column4_spec dn); [done|done|done|lia|done]|].
    intros pq m1 [-> H1]. cbn [fst snd]. replace (4 * Z.of_nat (S n)) with (4 + 4 * Z.of_nat n) in * by lia.
    eapply wp_mono; [eapply (IH _ m1 x (c + 4)); [exact H1|done|lia|lia|Z.div_mod_to_equations; lia]|].
    intros pq m2 [-> H2]. rewrite <- Z.add_assoc in H2 |- *. split; [done|].
    eapply copied_iff; [|exact H2]. intros x' c' _. cbv beta.
    assert (c <= c' < c + (4 + 4 * Z.of_nat n) <-> c <= c' < c + 4 \/ c + 4 <= c' < c + (4 + 4 * Z.of_nat n)) by lia. naive_solver.
Qed.

Lemma lines_spec n : forall dn m quads x c,
  let b := 4 * Z.of_nat quads in
  copied dn m -> 0 <= x -> x + Z.of_nat n = w -> 0 <= c -> c + b <= h -> c mod 4 = 0 ->
  wp (lines n quads (u32 (src x c)) (u32 (dst x c)) d (2 - d * b) (e - 2 * b))
    (fun _ m' => copied (fun x' c' => dn x' c' \/ (x <= x' /\ c <= c' < c + b)) m') m.
Proof using HP As Ad Aq Ae.
  induction n as [|n IH]; intros dn m quads x c b Hcp Hx Hn Hc Hle Hm; cbn [lines].
  - apply wp_ret. eapply copied_iff; [|exact Hcp]. intros x' c' [Hi _]. cbv beta. split; [by left|]. intros [?|?]; [done|lia].
  - apply wp_bind. eapply wp_mono; [apply (column_spec quads dn); [done|lia|done|done|done]|].
    intros pq m1 [-> H1]. cbn [fst snd]. fold b.
    assert (padd (u32 (src x (c + b))) (2 - d * b) = u32 (src (x + 1) c)) as -> by (rewrite padd_u32; f_equal; unfold col_src; lia).
    assert (padd (u32 (dst x (c + b))) (e - 2 * b) = u32 (dst (x + 1) c)) as -> by (rewrite padd_u32; f_equal; unfold col_dst; lia).
    eapply wp_mono; [eapply (IH _ m1 quads (x + 1) c); [exact H1|lia|lia|done|done|done]|].
    intros u m2 H2. eapply copied_iff; [|exact H2]. intros x' c' _. cbv beta. fold b.
    assert (x <= x' <-> x' = x \/ x + 1 <= x') by lia. naive_solver.
Qed.

(** All strips; [j] are done. *)
Lemma strips_spec quads (strip : Z -> M mem unit) n : forall dn m j,
  let b := 4 * Z.of_nat quads in
  copied dn m -> 0 <= j -> b * (j + Z.of_nat n) <= h -> 0 <= w ->
  (forall k, strip k = let j := j + Z.of_nat n - k in
     lines (Z.to_nat w) quads (u32 (src 0 (b * j))) (u32 (dst 0 (b * j))) d (2 - d * b) (e - 2 * b)) ->
  wp (strips n strip) (fun _ m' => copied (fun x' c' => dn x' c' \/ b * j <= c' < b * (j + Z.of_nat n)) m') m.
Proof using HP As Ad Aq Ae.
  induction n as [|n IH]; intros dn m j b Hcp Hj Hle Hw Hstrip; cbn [strips].
  - apply wp_ret. eapply copied_iff; [|exact Hcp]. intros x' c' _. cbv beta. split; [by left|]. intros [?|?]; [done|lia].
  - apply wp_bind. rewrite Hstrip. cbv zeta. replace (j + Z.of_nat (S n) - Z.of_nat (S n)) with j by lia.
    eapply wp_mono.
    + apply (lines_spec (Z.to_nat w) dn m quads 0 (b * j)); [done|lia|lia|nia|fold b; nia|].
      apply Z.mod_divide; [lia|]. exists (Z.of_nat quads * j). unfold b. lia.
    + fold b. intros u m1 H1. eapply wp_mono.
      * eapply (IH _ m1 (j + 1)); [exact H1|lia|fold b; nia|done|]. intros k. rewrite Hstrip. cbv zeta. fold b.
        by replace (j + 1 + Z.of_nat n - k) with (j + Z.of_nat (S n) - k) by lia.
      * fold b. intros u' m2 H2. eapply copied_iff; [|exact H2]. intros x' c' [Hx _]. cbv beta.
        replace (b * (j + Z.of_nat (S n))) with (b * (j + 1 + Z.of_nat n)) by lia.
        assert (b * j <= c' < b * (j + 1 + Z.of_nat n) <->
          b * j <= c' < b * j + b \/ b * (j + 1) <= c' < b * (j + 1 + Z.of_nat n)) by nia. naive_solver lia.
Qed.

End Rotate.
