(* ===== verification/OplMirror.v ===== *)
(** * Mirroring and rotation by 180 degrees

    The row loop, the groups of one, two, four and eight pixels of
    [hmirror_rotate180_u16.c], and the rows of [vmirror_u16.c]. *)

From stdpp Require Import base gmap list.
From Stdlib Require Import ZArith Lia.
From S2P Require Import Prelude Opl OplCopy.

(** ** Rows *)

Section Rows.
Context (m0 : mem) (w h : Z) (src dst : Z -> Z -> Z) (s0 d q0 e : Z) (row : Z -> Z -> M mem unit).
Notation copied := (copied m0 w h src dst).

Definition row_ok : Prop := forall dn m y, copied dn m -> 0 <= y < h ->
  wp (row (u32 (s0 + d * y)) (u32 (q0 + e * y))) (fun _ m' => copied (fun x' y' => dn x' y' \/ y' = y) m') m.

Lemma rows_spec n : row_ok -> forall dn m y,
  copied dn m -> 0 <= y -> y + Z.of_nat n = h ->
  wp (rows n row (u32 (s0 + d * y)) (u32 (q0 + e * y)) d e) (fun _ m' => copied (fun x' y' => dn x' y' \/ y <= y') m') m.
Proof.
  intros Hrow. induction n as [|n IH]; intros dn m y Hcp Hy Hn; cbn [rows].
  - apply wp_ret. eapply copied_iff; [|exact Hcp]. intros x' y' [_ Hi]. cbv beta. split; [by left|].
    intros [?|?]; [done|lia].
  - apply wp_bind. eapply wp_mono; [apply (Hrow dn); [done|lia]|]. intros u m1 H1. cbv beta in H1.
    rewrite !padd_u32.
    replace (s0 + d * y + d) with (s0 + d * (y + 1)) by lia. replace (q0 + e * y + e) with (q0 + e * (y + 1)) by lia.
    eapply wp_mono; [eapply (IH _ m1 (y + 1)); [exact H1|lia|lia]|]. intros u' m2 H2.
    eapply copied_iff; [|exact H2]. intros x' y' _. cbv beta.
    assert (y <= y' <-> y' = y \/ y + 1 <= y') by lia. naive_solver.
Qed.

Lemma all_rows m :
  row_ok -> m = m0 -> 0 <= h -> 0 <= s0 < 2 ^ 32 -> 0 <= q0 < 2 ^ 32 ->
  wp (rows (Z.to_nat h) row s0 q0 d e) (fun _ m' => copied (fun _ _ => True) m') m.
Proof.
  intros Hrow Hm Hh Hs Hq. pose proof (rows_spec (Z.to_nat h) Hrow _ m 0 (copied_start m0 w h src dst m Hm)) as H.
  rewrite !Z.mul_0_r, !Z.add_0_r, (u32_small s0), (u32_small q0) in H by done.
  eapply wp_mono; [apply H; lia|]. intros u m' H'. eapply copied_iff; [|exact H'].
  intros x y [_ Hi]. cbv beta. split; [done|]. right. lia.
Qed.

End Rows.

(** ** Groups of pixels *)

Section Mirror.
Context (m0 : mem) (w h s0 d q0 e : Z).

Definition mir_src (x y : Z) : Z := s0 + d * y + 2 * x.
Definition mir_dst (x y : Z) : Z := q0 + e * y + 2 * (w - 1 - x).

Notation src := mir_src.
Notation dst := mir_dst.
Notation copied := (copied m0 w h src dst).

Context (HP : places m0 w h src dst).

(** The pixels [x .. x + g - 1] of row [y]. *)
Definition group_ok (g off : Z) (step : Z -> Z -> M mem unit) : Prop := forall dn m x y,
  copied dn m -> 0 <= x -> x mod g = 0 -> x + g <= w -> 0 <= y < h ->
  wp (step (u32 (src x y)) (u32 (dst (x + off) y)))
    (fun _ m' => copied (fun x' y' => dn x' y' \/ (x <= x' < x + g /\ y' = y)) m') m.

Lemma groups_spec g off step : 0 < g -> group_ok g off step -> forall n dn m x y,
  copied dn m -> 0 <= x -> x mod g = 0 -> x + g * Z.of_nat n = w -> 0 <= y < h ->
  wp (groups n step (u32 (src x y)) (u32 (dst (x + off) y)) (2 * g) (- (2 * g)))
    (fun _ m' => copied (fun x' y' => dn x' y' \/ (x <= x' /\ y' = y)) m') m.
Proof.
  intros Hg Hstep. induction n as [|n IH]; intros dn m x y Hcp Hx Hd Hn Hy; cbn [groups].
  - apply wp_ret. eapply copied_iff; [|exact Hcp]. intros x' y' [Hi _]. cbv beta. split; [by left|].
    intros [?|[? _]]; [done|lia].
  - apply wp_bind. eapply wp_mono; [apply (Hstep dn); [done|done|done|lia|done]|]. intros u m1 H1. cbv beta in H1.
    assert (padd (u32 (src x y)) (2 * g) = u32 (src (x + g) y)) as -> by (rewrite padd_u32; f_equal; unfold mir_src; lia).
    assert (padd (u32 (dst (x + off) y)) (- (2 * g)) = u32 (dst (x + g + off) y)) as ->
      by (rewrite padd_u32; f_equal; unfold mir_dst; lia).
    eapply wp_mono; [eapply (IH _ m1 (x + g) y); [exact H1|lia| |lia|done]|].
    + by rewrite <- (Z.mul_1_l g) at 1; rewrite Z.mod_add by lia.
    + intros u' m2 H2. eapply copied_iff; [|exact H2]. intros x' y' _. cbv beta.
      assert (x <= x' <-> x <= x' < x + g \/ x + g <= x') by lia. naive_solver.
Qed.

(** A row of groups is a row of the row loop. *)
Lemma group_rows g off step pd n :
  0 < g -> group_ok g off step -> Z.of_nat n = w / g -> w mod g = 0 -> 0 < w -> pd = 2 * (w - 1 - off) ->
  row_ok m0 w h src dst s0 d q0 e (fun srow drow => groups n step srow (padd drow pd) (2 * g) (- (2 * g))).
Proof.
  intros Hg Hstep Hn Hd Hw -> dn m y Hcp Hy. cbv beta. rewrite padd_u32.
  pose proof (groups_spec g off step Hg Hstep n dn m 0 y Hcp) as H.
  assert (src 0 y = s0 + d * y) as Es by (unfold mir_src; lia).
  assert (dst (0 + off) y = q0 + e * y + 2 * (w - 1 - off)) as Eq by (unfold mir_dst; lia).
  rewrite Es, Eq in H. eapply wp_mono; [apply H; [lia|by rewrite Z.mod_0_l by lia| |done]|].
  - rewrite Hn. pose proof (Z_div_mod_eq_full w g). lia.
  - intros u m' H'. eapply copied_iff; [|exact H']. intros x' y' [Hx _]. cbv beta.
    assert (0 <= x' <-> True) by lia. naive_solver.
Qed.

Lemma mir_src_ptr x y : in_img w h x y -> u32 (src x y) = src x y.
Proof using HP. intros Hi. apply u32_small, (src_range _ _ _ _ _ HP x y Hi). Qed.

Lemma mir_dst_ptr x y : in_img w h x y -> u32 (dst x y) = dst x y.
Proof using HP. intros Hi. apply u32_small, (dst_range _ _ _ _ _ HP x y Hi). Qed.

Lemma by1_ok : s0 mod 2 = 0 -> d mod 2 = 0 -> q0 mod 2 = 0 -> e mod 2 = 0 -> group_ok 1 0 by1.
Proof using HP.
  intros As Ad Aq Ae dn m x y Hcp Hx _ Hw Hy. rewrite Z.add_0_r. assert (in_img w h x y) as Hi by (split; lia).
  rewrite mir_src_ptr, mir_dst_ptr by done. unfold by1. apply wp_bind, wp_ldrh.
  - unfold mir_src. apply Z.mod_divide in As as [a ->], Ad as [b ->]; [|lia..]. apply Z.mod_divide; [lia|]. exists (a + b * y + x). lia.
  - by apply (copied_mapped2 m0 w h src dst dn), (src_mapped _ _ _ _ _ HP).
  - rewrite (copied_src m0 w h src dst HP dn) by done. apply wp_strh.
    + unfold mir_dst. apply Z.mod_divide in Aq as [a ->], Ae as [b ->]; [|lia..]. apply Z.mod_divide; [lia|].
      exists (a + b * y + (w - 1 - x)). lia.
    + by apply (copied_mapped2 m0 w h src dst dn), (dst_mapped _ _ _ _ _ HP).
    + eapply copied_iff; [|apply copied_put; [exact HP|exact Hcp|exact Hi|apply Z.mod_small, half_range]].
      intros x' y' _. cbv beta. assert (x <= x' < x + 1 <-> x' = x) by lia. naive_solver.
Qed.

(** Words: two pixels, exchanged. *)
Context (As : s0 mod 4 = 0) (Ad : d mod 4 = 0) (Aq : q0 mod 4 = 0) (Ae : e mod 4 = 0) (Aw : w mod 2 = 0).

(** The word of source pixels [x] and [x + 1]. *)
Definition two (x y : Z) : Z := half m0 (src x y) + 65536 * half m0 (src (x + 1) y).

Lemma load_word dn m x y (Q : Z -> mem -> Prop) :
  copied dn m -> 0 <= x -> x mod 2 = 0 -> x + 2 <= w -> 0 <= y < h -> Q (two x y) m -> wp (ldr (u32 (src x y))) Q m.
Proof using HP As Ad.
  intros Hcp Hx Hx2 Hw Hy HQ. assert (in_img w h x y) as Hi by (split; lia). assert (in_img w h (x + 1) y) as Hi1 by (split; lia).
  assert (src x y + 2 = src (x + 1) y) as E by (unfold mir_src; lia).
  rewrite mir_src_ptr by done. apply wp_ldr; rewrite ?E.
  - unfold mir_src. apply Z.mod_divide in As as [a ->], Ad as [b ->], Hx2 as [k ->]; [|lia..].
    apply Z.mod_divide; [lia|]. exists (a + b * y + k). lia.
  - by apply (copied_mapped2 m0 w h src dst dn), (src_mapped _ _ _ _ _ HP).
  - by apply (copied_mapped2 m0 w h src dst dn), (src_mapped _ _ _ _ _ HP).
  - by rewrite (copied_src m0 w h src dst HP dn m x y), (copied_src m0 w h src dst HP dn m (x + 1) y).
Qed.

Lemma store_word dn m x y (Q : unit -> mem -> Prop) :
  copied dn m -> 0 <= x -> x mod 2 = 0 -> x + 2 <= w -> 0 <= y < h ->
  (forall m', copied (fun x' y' => dn x' y' \/ (x <= x' < x + 2 /\ y' = y)) m' -> Q tt m') ->
  wp (str (u32 (dst (x + 1) y)) (rot_left_u32 (two x y) 16)) Q m.
Proof using HP Aq Ae Aw.
  intros Hcp Hx Hx2 Hw Hy HQ. assert (in_img w h x y) as Hi by (split; lia). assert (in_img w h (x + 1) y) as Hi1 by (split; lia).
  assert (dst (x + 1) y + 2 = dst x y) as E by (unfold mir_dst; lia).
  unfold two. rewrite rot_word, mir_dst_ptr by (done || apply half_range). apply wp_str; rewrite ?E.
  - unfold mir_dst. apply Z.mod_divide in Aq as [a ->], Ae as [b ->], Hx2 as [k ->], Aw as [l ->]; [|lia..].
    apply Z.mod_divide; [lia|]. exists (a + b * y + l - k - 1). lia.
  - by apply (copied_mapped2 m0 w h src dst dn), (dst_mapped _ _ _ _ _ HP).
  - by apply (copied_mapped2 m0 w h src dst dn), (dst_mapped _ _ _ _ _ HP).
  - apply half_range.
  - apply HQ. eapply copied_iff; [|apply copied_put; [exact HP|apply copied_put; [exact HP|exact Hcp|exact Hi1|]|exact Hi|]].
    + intros x' y' _. cbv beta. assert (x <= x' < x + 2 <-> x' = x \/ x' = x + 1) by lia. naive_solver.
    + apply word_low, half_range.
    + apply Z.mod_small, half_range.
Qed.

(** Pointers within a group. *)
Lemma src_step x y k o : o = 2 * k -> padd (u32 (src x y)) o = u32 (src (x + k) y).
Proof. intros ->. rewrite padd_u32. f_equal. unfold mir_src. lia. Qed.

Lemma dst_step x y k o : o = 2 * k -> padd (u32 (dst x y)) o = u32 (dst (x - k) y).
Proof. intros ->. rewrite padd_u32. f_equal. unfold mir_dst. lia. Qed.

Ltac even := Z.div_mod_to_equations; lia.

Lemma by2_ok : group_ok 2 1 by2.
Proof using HP As Ad Aq Ae Aw.
  intros dn m x y Hcp Hx Hd Hw Hy. unfold by2. apply wp_bind, (load_word dn); [done..|].
  by apply (store_word dn).
Qed.

Lemma by4_ok : group_ok 4 3 by4.
Proof using HP As Ad Aq Ae Aw.
  intros dn m x y Hcp Hx Hd Hw Hy. unfold by4. rewrite (src_step x y 2 4), (dst_step (x + 3) y 2 4) by done.
  apply wp_bind, (load_word dn); [done|lia|even|lia|done|].
  apply wp_bind, (load_word dn); [done|lia|even|lia|done|].
  replace (x + 3) with (x + 2 + 1) by lia. replace (x + 2 + 1 - 2) with (x + 1) by lia.
  apply wp_bind, (store_word dn); [done|lia|even|lia|done|]. intros m1 H1.
  eapply (store_word _ m1); [exact H1|lia|even|lia|done|]. intros m2 H2. eapply copied_iff; [|exact H2].
  intros x' y' _. cbv beta. assert (x <= x' < x + 4 <-> x + 2 <= x' < x + 2 + 2 \/ x <= x' < x + 2) by lia. naive_solver.
Qed.

Lemma by8_ok : group_ok 8 1 by8.
Proof using HP As Ad Aq Ae Aw.
  intros dn m x y Hcp Hx Hd Hw Hy. unfold by8.
  rewrite (src_step x y 2 4), (src_step x y 4 8), (src_step x y 6 12) by done.
  rewrite (dst_step (x + 1) y (-6) (-12)), (dst_step (x + 1) y (-4) (-8)), (dst_step (x + 1) y (-2) (-4)) by done.
  do 4 (apply wp_bind, (load_word dn); [done|lia|even|lia|done|]).
  replace (x + 1 - -6) with (x + 6 + 1) by lia. replace (x + 1 - -4) with (x + 4 + 1) by lia.
  replace (x + 1 - -2) with (x + 2 + 1) by lia.
  apply wp_bind, (store_word dn); [done|lia|even|lia|done|]. intros m1 H1.
  apply wp_bind. eapply (store_word _ m1); [exact H1|lia|even|lia|done|]. intros m2 H2.
  apply wp_bind. eapply (store_word _ m2); [exact H2|lia|even|lia|done|]. intros m3 H3.
  eapply (store_word _ m3); [exact H3|lia|even|lia|done|]. intros m4 H4. eapply copied_iff; [|exact H4].
  intros x' y' _. cbv beta.
  assert (x <= x' < x + 8 <-> x + 6 <= x' < x + 6 + 2 \/ x + 4 <= x' < x + 4 + 2 \/ x + 2 <= x' < x + 2 + 2 \/ x <= x' < x + 2) by lia.
  naive_solver.
Qed.

End Mirror.

(** ** Rows copied by [memcpy] *)

Lemma wp_ld8 a m (Q : Z -> mem -> Prop) : mapped m a = true -> Q (byte m a) m -> wp (ld8 a) Q m.
Proof.
  intros Hm HQ. unfold ld8, wp. erewrite run_bind; [exact HQ|]. apply access_run; [by rewrite Z.mod_1_r|].
  intros k Hk. by replace (a + k) with a by lia.
Qed.

Lemma wp_st8 a v m (Q : unit -> mem -> Prop) : mapped m a = true -> Q tt (put8 a v m) -> wp (st8 a v) Q m.
Proof.
  intros Hm HQ. unfold st8, wp. erewrite run_bind; [exact HQ|]. apply access_run; [by rewrite Z.mod_1_r|].
  intros k Hk. by replace (a + k) with a by lia.
Qed.

Lemma put16_bytes q x m : put16 q (half m x) m = put8 (q + 1) (byte m (x + 1)) (put8 q (byte m x) m).
Proof.
  assert (half m x mod 256 = byte m x mod 256 /\ Z.shiftr (half m x) 8 = byte m (x + 1)) as [E1 E2].
  { pose proof (byte_range m x). pose proof (byte_range m (x + 1)). unfold half. rewrite Z.shiftr_div_pow2 by lia.
    change (2 ^ 8) with 256. Z.div_mod_to_equations. lia. }
  unfold put16. rewrite E2. unfold put8. by rewrite E1.
Qed.

Section Vmirror.
Context (m0 : mem) (w h s0 d q0 e : Z).

Definition row_src (x y : Z) : Z := s0 + d * y + 2 * x.
Definition row_dst (x y : Z) : Z := q0 + e * y + 2 * x.

Notation src := row_src.
Notation dst := row_dst.
Notation copied := (copied m0 w h src dst).

Context (HP : places m0 w h src dst) (Htop : forall a, mapped m0 a = true -> 0 <= a < 2 ^ 32).

(** Two bytes of [memcpy] move one pixel. *)
Lemma memcpy_pixel dn m n x y (Q : unit -> mem -> Prop) :
  copied dn m -> in_img w h x y ->
  (forall m', copied (fun x' y' => dn x' y' \/ (x' = x /\ y' = y)) m' ->
     wp (memcpy n (u32 (dst (x + 1) y)) (u32 (src (x + 1) y))) Q m') ->
  wp (memcpy (S (S n)) (u32 (dst x y)) (u32 (src x y))) Q m.
Proof using HP Htop.
  intros Hcp Hi HQ. cbn [memcpy].
  pose proof (src_mapped _ _ _ _ _ HP x y Hi) as Ms. pose proof (dst_mapped _ _ _ _ _ HP x y Hi) as Md.
  pose proof (Htop _ (proj1 Ms)). pose proof (Htop _ (proj2 Ms)). pose proof (Htop _ (proj1 Md)). pose proof (Htop _ (proj2 Md)).
  apply (copied_mapped2 m0 w h src dst dn m) in Ms as [Ms1 Ms2], Md as [Md1 Md2]; [|done..].
  pose proof (src_apart _ _ _ _ _ HP x y x y Hi Hi) as Hap.
  rewrite !padd_u32, (u32_small (src x y)), (u32_small (dst x y)), (u32_small (src x y + 1)), (u32_small (dst x y + 1)) by done.
  replace (src x y + 1 + 1) with (src (x + 1) y) by (unfold row_src; lia).
  replace (dst x y + 1 + 1) with (dst (x + 1) y) by (unfold row_dst; lia).
  apply wp_bind, wp_ld8; [done|]. apply wp_bind, wp_st8; [done|].
  apply wp_bind, wp_ld8; [by rewrite mapped_put8|]. apply wp_bind, wp_st8; [by rewrite mapped_put8|].
  rewrite byte_put8, decide_False by lia. rewrite <- put16_bytes. apply HQ. apply copied_put; [done..|].
  rewrite Z.mod_small by apply half_range. by apply (copied_src m0 w h src dst HP dn).
Qed.

Lemma memcpy_row n : forall dn m x y,
  copied dn m -> 0 <= x -> x + Z.of_nat n = w -> 0 <= y < h ->
  wp (memcpy (2 * n) (u32 (dst x y)) (u32 (src x y)))
    (fun _ m' => copied (fun x' y' => dn x' y' \/ (x <= x' /\ y' = y)) m') m.
Proof using HP Htop.
  induction n as [|n IH]; intros dn m x y Hcp Hx Hn Hy.
  - apply wp_ret. eapply copied_iff; [|exact Hcp]. intros x' y' [Hi _]. cbv beta. split; [by left|].
    intros [?|[? _]]; [done|lia].
  - replace (2 * S n)%nat with (S (S (2 * n))) by lia. apply (memcpy_pixel dn); [done|split; lia|]. intros m1 H1.
    eapply wp_mono; [eapply (IH _ m1 (x + 1) y); [exact H1|lia|lia|done]|]. intros u m2 H2.
    eapply copied_iff; [|exact H2]. intros x' y' _. cbv beta. assert (x <= x' <-> x' = x \/ x + 1 <= x') by lia. naive_solver.
Qed.

Lemma memcpy_rows : 0 < w < 2 ^ 31 ->
  row_ok m0 w h src dst s0 d q0 e
    (fun srow drow => memcpy (Z.to_nat (u32 (BYTES_PER_PIXEL * w))) drow srow).
Proof using HP Htop.
  intros Hw dn m y Hcp Hy. cbv beta. unfold BYTES_PER_PIXEL. rewrite u32_small by lia.
  replace (Z.to_nat (2 * w)) with (2 * Z.to_nat w)%nat by lia.
  pose proof (memcpy_row (Z.to_nat w) dn m 0 y Hcp) as H.
  assert (src 0 y = s0 + d * y) as Es by (unfold row_src; lia).
  assert (dst 0 y = q0 + e * y) as Eq by (unfold row_dst; lia).
  rewrite Es, Eq in H. eapply wp_mono; [apply H; lia|]. intros u m' H'.
  eapply copied_iff; [|exact H']. intros x' y' [Hx _]. cbv beta. assert (0 <= x' <-> True) by lia. naive_solver.
Qed.

End Vmirror.
