(* ===== verification/OplImage.v ===== *)
(** * What the rotation library does to an image

    The seven entry points as one family, the reference placement of every pixel,
    and the proof that each entry point implements it. *)

From stdpp Require Import base gmap list.
From Stdlib Require Import ZArith Lia.
From S2P Require Import Prelude Opl OplCopy OplRotate OplMirror.

(** ** The reference *)

Inductive op : Type :=
| Rotate90
| Rotate90Vmirror
| Rotate270
| Rotate270Vmirror
| Hmirror
| Rotate180
| Vmirror.

(** Does the operation exchange rows and columns? *)
Definition turns (o : op) : bool :=
  match o with
  | Rotate90 | Rotate90Vmirror | Rotate270 | Rotate270Vmirror => true
  | Hmirror | Rotate180 | Vmirror => false
  end.

Definition out_width (o : op) (w h : Z) : Z := if turns o then h else w.
Definition out_height (o : op) (w h : Z) : Z := if turns o then w else h.

(** Column and row of the output where pixel [(x, y)] of a [w] by [h] image goes. *)
Definition place (o : op) (w h x y : Z) : Z * Z :=
  match o with
  | Rotate90 => (h - 1 - y, x)
  | Rotate90Vmirror => (h - 1 - y, w - 1 - x)
  | Rotate270 => (y, w - 1 - x)
  | Rotate270Vmirror => (y, x)
  | Hmirror => (w - 1 - x, y)
  | Rotate180 => (w - 1 - x, h - 1 - y)
  | Vmirror => (x, h - 1 - y)
  end.

(** The address of pixel [(x, y)] in a buffer with the line stride [s]. *)
Definition pixel (p s : Z) (xy : Z * Z) : Z := p + s * snd xy + 2 * fst xy.

(** The alignment the accesses of an operation need. *)
Definition aligned (o : op) (src ss w dst ds : Z) : Prop :=
  match o with
  | Vmirror => True
  | Hmirror | Rotate180 =>
      let a := if divides 2 w then 4 else 2 in
      src mod a = 0 /\ ss mod a = 0 /\ dst mod a = 0 /\ ds mod a = 0
  | _ => src mod 2 = 0 /\ ss mod 2 = 0 /\ dst mod 4 = 0 /\ ds mod 4 = 0
  end.

(** The buffers of a call: two mapped images that do not overlap. *)
Record layout (m : mem) (o : op) (src ss w h dst ds : Z) : Prop := mkLayout {
  lay_size : 0 < w < 2 ^ 31 /\ 0 < h;
  lay_turn : turns o = true -> w mod 4 = 0 /\ h mod 4 = 0;
  lay_nonzero : src <> 0 /\ dst <> 0 /\ ss <> 0;
  lay_stride : 2 * out_width o w h <= Z.abs ds;
  lay_aligned : aligned o src ss w dst ds;
  lay_top : forall a, mapped m a = true -> 0 <= a < 2 ^ 32;
  lay_src : forall x y, in_img w h x y -> mapped2 m (pixel src ss (x, y));
  lay_dst : forall x y, in_img (out_width o w h) (out_height o w h) x y -> mapped2 m (pixel dst ds (x, y));
  lay_apart : forall x y x' y', in_img w h x y -> in_img (out_width o w h) (out_height o w h) x' y' ->
    pixel dst ds (x', y') + 2 <= pixel src ss (x, y) \/ pixel src ss (x, y) + 2 <= pixel dst ds (x', y');
}.

(** The pixels of the source at their places, and no other byte changed. *)
Record placed (m : mem) (o : op) (src ss w h dst ds : Z) (m' : mem) : Prop := mkPlaced {
  pl_pixels : forall x y, in_img w h x y ->
    half m' (pixel dst ds (place o w h x y)) = half m (pixel src ss (x, y));
  pl_rest : forall b,
    (forall x y, in_img (out_width o w h) (out_height o w h) x y ->
       ~ pixel dst ds (x, y) <= b < pixel dst ds (x, y) + 2) -> byte m' b = byte m b;
  pl_mapped : forall b, mapped m' b = mapped m b;
}.

(** ** From copies to placements *)

Lemma place_in o w h x y :
  in_img w h x y -> in_img (out_width o w h) (out_height o w h) (fst (place o w h x y)) (snd (place o w h x y)).
Proof. unfold in_img. intros [Hx Hy]. destruct o; cbn; lia. Qed.

Lemma place_inj o w h x y x' y' : place o w h x y = place o w h x' y' -> (x, y) = (x', y').
Proof. destruct o; cbn; intros [= ? ?]; f_equal; lia. Qed.

Lemma pixel_apart p s c a b : 2 * c <= Z.abs s -> 0 <= fst a < c -> 0 <= fst b < c -> a <> b ->
  pixel p s a + 2 <= pixel p s b \/ pixel p s b + 2 <= pixel p s a.
Proof.
  destruct a as [x y], b as [x' y']. unfold pixel. cbn [fst snd]. intros Hs Hx Hx' Hne.
  destruct (decide (y = y')) as [<-|Hy]; [assert (x <> x') by congruence; lia|].
  assert (y < y' \/ y' < y) as [H|H] by lia; assert (0 < s \/ s < 0) as [H'|H'] by lia; nia.
Qed.

Section Layout.
Context {m : mem} {o : op} {src ss w h dst ds : Z} (L : layout m o src ss w h dst ds).

(** [c] numbers the rows of the source in the order the loops take them. *)
Context (s q : Z -> Z -> Z) (row : Z -> Z).
Context (Hrow : forall c, 0 <= c < h -> 0 <= row c < h /\ row (row c) = c).
Context (Hs : forall x c, s x c = pixel src ss (x, row c)).
Context (Hq : forall x c, q x c = pixel dst ds (place o w h x (row c))).

Lemma layout_places : places m w h s q.
Proof using L Hrow Hs Hq.
  assert (forall x c, in_img w h x c -> in_img w h x (row c)) as Hi by (intros x c [Hx Hc]; split; [done|by apply Hrow]).
  assert (forall x c, in_img w h x c -> mapped2 m (s x c)) as Ms by (intros x c Hx; rewrite Hs; by apply L, Hi).
  assert (forall x c, in_img w h x c -> mapped2 m (q x c)) as Mq.
  { intros x c Hx. rewrite Hq. destruct (place o w h x (row c)) as [a b] eqn:E. apply L.
    pose proof (place_in o w h x (row c) (Hi x c Hx)) as H. by rewrite E in H. }
  split; [done|done| | | |].
  - intros x c Hx. apply L, (Ms x c Hx).
  - intros x c Hx. apply L, (Mq x c Hx).
  - intros x c x' c' Hx Hx' Hne. rewrite !Hq. apply (pixel_apart _ _ (out_width o w h)); [apply L|by apply place_in, Hi..|].
    intros [= E1 E2]%place_inj. apply Hne. destruct Hx as [_ Hc], Hx' as [_ Hc'].
    rewrite <- (proj2 (Hrow c Hc)), E2, (proj2 (Hrow c' Hc')). by rewrite E1.
  - intros x c x' c' Hx Hx'. rewrite Hs, Hq. pose proof (place_in o w h x (row c) (Hi x c Hx)) as H.
    destruct (place o w h x (row c)) as [a b]. apply L; [by apply Hi|done].
Qed.

Lemma copied_placed m' : copied m w h s q (fun _ _ => True) m' -> placed m o src ss w h dst ds m'.
Proof using L Hrow Hs Hq.
  intros [H1 H2 H3]. split; [| |done].
  - intros x y [Hx Hy]. destruct (Hrow y Hy) as [Hr Hrr]. pose proof (H1 x (row y)) as H.
    rewrite Hq, Hs, Hrr in H. by apply H.
  - intros b Hb. apply H2. intros x c [Hx Hc] _. rewrite Hq. destruct (Hrow c Hc) as [Hr _].
    pose proof (place_in o w h x (row c) (conj Hx Hr)) as H. destruct (place o w h x (row c)) as [a r]. by apply Hb.
Qed.

End Layout.

(** The rows taken from the top, and from the bottom. *)
Lemma rows_down h c : 0 <= c < h -> 0 <= c < h /\ c = c.
Proof. done. Qed.

Lemma rows_up h c : 0 <= c < h -> 0 <= h - 1 - c < h /\ h - 1 - (h - 1 - c) = c.
Proof. lia. Qed.

Create HintDb opl.

Lemma mod_add_mul a b c n : a <> 0 -> b mod a = 0 -> c mod a = 0 -> (b + c * n) mod a = 0.
Proof. intros Ha Hb Hc. rewrite Z.add_mod, Hb, Z.mul_mod, Hc by done. by rewrite Z.mul_0_l, Z.mod_0_l. Qed.

Lemma mod_opp a b : a <> 0 -> b mod a = 0 -> (- b) mod a = 0.
Proof. intros. by apply Z.mod_opp_l_z. Qed.

#[export] Hint Resolve mod_add_mul mod_opp : opl.
#[export] Hint Extern 1 (_ <> 0) => lia : opl.

(** ** The entry points *)

Notation does m o src ss w h dst ds c :=
  (wp c (fun r m' => r = OPLERR_SUCCESS /\ placed m o src ss w h dst ds m') m).

Lemma strips_placed {m o src ss w h dst ds} (L : layout m o src ss w h dst ds) s0 d q0 e row quads n strip :
  (forall c, 0 <= c < h -> 0 <= row c < h /\ row (row c) = c) ->
  (forall x c, col_src s0 d x c = pixel src ss (x, row c)) ->
  (forall x c, col_dst q0 e x c = pixel dst ds (place o w h x (row c))) ->
  s0 mod 2 = 0 -> d mod 2 = 0 -> q0 mod 4 = 0 -> e mod 4 = 0 ->
  let b := 4 * Z.of_nat quads in
  h = b * Z.of_nat n ->
  (forall k, strip k = lines (Z.to_nat w) quads (u32 (col_src s0 d 0 (b * (Z.of_nat n - k))))
                         (u32 (col_dst q0 e 0 (b * (Z.of_nat n - k)))) d (2 - d * b) (e - 2 * b)) ->
  does m o src ss w h dst ds (strips n strip;; mret OPLERR_SUCCESS).
Proof.
  intros Hrow Hs Hq As Ad Aq Ae b Hh Hstrip. apply wp_bind. eapply wp_mono.
  - eapply (strips_spec m w h s0 d q0 e (layout_places L _ _ row Hrow Hs Hq) As Ad Aq Ae quads strip n _ m 0);
      [by apply copied_start|lia|fold b; lia|destruct (lay_size _ _ _ _ _ _ _ _ L); lia|].
    intros k. rewrite Hstrip. cbv zeta. fold b. by rewrite Z.add_0_l.
  - intros u m' H. apply wp_ret. split; [done|]. eapply (copied_placed L _ _ row Hrow Hs Hq), copied_iff; [|exact H].
    intros x c [_ Hc]. cbv beta. fold b. rewrite Z.mul_0_r, Z.add_0_l, <- Hh. split; [done|]. by right.
Qed.

Lemma padd_padd p a b : padd (padd p a) b = u32 (p + (a + b)).
Proof. unfold padd at 2. rewrite padd_u32. f_equal. lia. Qed.

(** A strip's parameters are those of [strips_placed]. *)
Ltac same_strip :=
  intros ?; cbv zeta; rewrite ?padd_padd; unfold padd, BYTES_PER_PIXEL, col_src, col_dst; f_equal; first [lia|f_equal; lia].

Lemma quot_block h quads : 0 < h -> quads <> O -> h mod (4 * Z.of_nat quads) = 0 ->
  exists n, Z.quot h (4 * Z.of_nat quads) = Z.of_nat n /\ h = 4 * Z.of_nat quads * Z.of_nat n.
Proof.
  intros Hh Hq Hm. exists (Z.to_nat (Z.quot h (4 * Z.of_nat quads))).
  pose proof (Z.quot_pos h (4 * Z.of_nat quads)). rewrite Z2Nat.id by lia.
  split; [done|]. rewrite Z.quot_div_nonneg by lia. pose proof (Z_div_mod_eq_full h (4 * Z.of_nat quads)). lia.
Qed.

Lemma quads_block quads : Z.to_nat (4 * Z.of_nat quads / 4) = quads.
Proof. rewrite Z.mul_comm, Z.div_mul by lia. apply Nat2Z.id. Qed.

Lemma turn_aligned {m o src ss w h dst ds} (L : layout m o src ss w h dst ds) : turns o = true ->
  src mod 2 = 0 /\ ss mod 2 = 0 /\ dst mod 4 = 0 /\ ds mod 4 = 0.
Proof. pose proof (lay_aligned _ _ _ _ _ _ _ _ L) as H. destruct o; intros E; first [discriminate E|exact H]. Qed.

Definition turn90 (vmirror : bool) : op := if vmirror then Rotate90Vmirror else Rotate90.
Definition turn270 (vmirror : bool) : op := if vmirror then Rotate270Vmirror else Rotate270.

Lemma rotate90_by_spec {m src ss w h dst ds} quads vm (L : layout m (turn90 vm) src ss w h dst ds) :
  quads <> O -> h mod (4 * Z.of_nat quads) = 0 ->
  does m (turn90 vm) src ss w h dst ds (opl_rotate90_u16_by (4 * Z.of_nat quads) src ss w h dst ds vm).
Proof.
  intros Hq Hm. destruct (quot_block h quads) as (n & En & Eh); [exact (proj2 (lay_size _ _ _ _ _ _ _ _ L))|done|done|].
  assert (src mod 2 = 0 /\ ss mod 2 = 0 /\ dst mod 4 = 0 /\ ds mod 4 = 0) as (A1 & A2 & A3 & A4)
    by exact (turn_aligned L ltac:(destruct vm; reflexivity)).
  unfold opl_rotate90_u16_by. cbv zeta. rewrite En, quads_block, Nat2Z.id.
  eapply (strips_placed L (src + ss * (h - 1)) (- ss) (if vm then dst + ds * (w - 1) else dst) (if vm then - ds else ds)
            (fun c => h - 1 - c)).
  - apply rows_up.
  - intros x c. unfold col_src, pixel. cbn [fst snd]. lia.
  - intros x c. unfold col_dst, pixel, turn90. destruct vm; cbn; lia.
  - auto with opl.
  - auto with opl.
  - destruct vm; auto with opl.
  - destruct vm; auto with opl.
  - exact Eh.
  - destruct vm; same_strip.
Qed.

Lemma rotate270_by_spec {m src ss w h dst ds} quads vm (L : layout m (turn270 vm) src ss w h dst ds) :
  quads <> O -> h mod (4 * Z.of_nat quads) = 0 ->
  does m (turn270 vm) src ss w h dst ds (opl_rotate270_u16_by (4 * Z.of_nat quads) src ss w h dst ds vm).
Proof.
  intros Hq Hm. destruct (quot_block h quads) as (n & En & Eh); [exact (proj2 (lay_size _ _ _ _ _ _ _ _ L))|done|done|].
  assert (src mod 2 = 0 /\ ss mod 2 = 0 /\ dst mod 4 = 0 /\ ds mod 4 = 0) as (A1 & A2 & A3 & A4)
    by exact (turn_aligned L ltac:(destruct vm; reflexivity)).
  unfold opl_rotate270_u16_by. cbv zeta. rewrite En, quads_block, Nat2Z.id.
  eapply (strips_placed L src ss (if vm then dst else dst + ds * (w - 1)) (if vm then ds else - ds) (fun c => c)).
  - apply rows_down.
  - intros x c. unfold col_src, pixel. cbn [fst snd]. lia.
  - intros x c. unfold col_dst, pixel, turn270. destruct vm; cbn; lia.
  - done.
  - done.
  - destruct vm; auto with opl.
  - destruct vm; auto with opl.
  - exact Eh.
  - destruct vm; same_strip.
Qed.

(** *** Rows *)

Definition flip (vmirror : bool) : op := if vmirror then Rotate180 else Hmirror.

(** Where the row loop of a mirroring starts in the destination. *)
Definition first_row (dst h ds : Z) (vmirror : bool) : Z := if vmirror then dst + ds * (h - 1) else dst.

Lemma flip_ptrs {m src ss w h dst ds} vm (L : layout m (flip vm) src ss w h dst ds) :
  0 <= src < 2 ^ 32 /\ 0 <= first_row dst h ds vm < 2 ^ 32.
Proof.
  pose proof (lay_size _ _ _ _ _ _ _ _ L) as [Hw Hh]. split.
  - pose proof (lay_top _ _ _ _ _ _ _ _ L _ (proj1 (lay_src _ _ _ _ _ _ _ _ L 0 0 ltac:(split; lia)))) as H.
    unfold pixel in H. cbn [fst snd] in H. lia.
  - assert (in_img (out_width (flip vm) w h) (out_height (flip vm) w h) 0 (if vm then h - 1 else 0)) as Hi
      by (destruct vm; split; cbn; lia).
    pose proof (lay_top _ _ _ _ _ _ _ _ L _ (proj1 (lay_dst _ _ _ _ _ _ _ _ L _ _ Hi))) as H.
    unfold pixel in H. cbn [fst snd] in H. unfold first_row. destruct vm; lia.
Qed.

Lemma mirror_src_eq src ss x y : mir_src src ss x y = pixel src ss (x, y).
Proof. unfold mir_src, pixel. cbn [fst snd]. lia. Qed.

Lemma mirror_dst_eq dst h ds w vm x y :
  mir_dst w (first_row dst h ds vm) (if vm then - ds else ds) x y = pixel dst ds (place (flip vm) w h x y).
Proof. unfold mir_dst, first_row, pixel, flip. destruct vm; cbn; lia. Qed.

Lemma mirror_rows_spec {m src ss w h dst ds} vm (L : layout m (flip vm) src ss w h dst ds) row :
  row_ok m w h (mir_src src ss) (mir_dst w (first_row dst h ds vm) (if vm then - ds else ds))
    src ss (first_row dst h ds vm) (if vm then - ds else ds) row ->
  does m (flip vm) src ss w h dst ds (mirror_rows h row src ss dst ds vm).
Proof.
  intros Hrow. destruct (flip_ptrs vm L) as [Hs Hd]. pose proof (lay_size _ _ _ _ _ _ _ _ L) as [Hw Hh].
  unfold mirror_rows. apply wp_bind. eapply wp_mono.
  - assert ((if vm then padd dst (ds * (h - 1)) else dst) = first_row dst h ds vm) as ->
      by (unfold first_row in *; destruct vm; [by apply u32_small|done]).
    eapply all_rows; [exact Hrow|done|lia|done|done].
  - intros u m' H. apply wp_ret. split; [done|].
    eapply (copied_placed L _ _ (fun c => c) (rows_down h)); [apply mirror_src_eq|intros; apply mirror_dst_eq|exact H].
Qed.

Lemma mirror_places {m src ss w h dst ds} vm (L : layout m (flip vm) src ss w h dst ds) :
  places m w h (mir_src src ss) (mir_dst w (first_row dst h ds vm) (if vm then - ds else ds)).
Proof. eapply (layout_places L _ _ (fun c => c) (rows_down h)); [apply mirror_src_eq|intros; apply mirror_dst_eq]. Qed.

Lemma flip_aligned {m src ss w h dst ds} vm (L : layout m (flip vm) src ss w h dst ds) :
  let a := if divides 2 w then 4 else 2 in
  src mod a = 0 /\ ss mod a = 0 /\ first_row dst h ds vm mod a = 0 /\ (if vm then - ds else ds) mod a = 0.
Proof.
  intros a. assert (a <> 0) as Ha by (unfold a; destruct (divides 2 w); lia).
  assert (src mod a = 0 /\ ss mod a = 0 /\ dst mod a = 0 /\ ds mod a = 0) as (H1 & H2 & H3 & H4)
    by (pose proof (lay_aligned _ _ _ _ _ _ _ _ L) as H; destruct vm; exact H).
  unfold first_row. destruct vm; auto with opl.
Qed.

Lemma divides_mod n x : 0 < n -> 0 <= x -> divides n x = true <-> x mod n = 0.
Proof. intros Hn Hx. unfold divides. rewrite Z.rem_mod_nonneg by done. apply Z.eqb_eq. Qed.

Lemma group_count w k : 0 <= w -> 0 <= k -> Z.of_nat (Z.to_nat (Z.shiftr w k)) = w / 2 ^ k.
Proof. intros. rewrite Z.shiftr_div_pow2 by done. apply Z2Nat.id, Z.div_pos; [done|]. by apply Z.pow_pos_nonneg. Qed.

Lemma hmirror_spec {m src ss w h dst ds} vm (L : layout m (flip vm) src ss w h dst ds) :
  does m (flip vm) src ss w h dst ds (hmirror_by src ss w h dst ds vm).
Proof.
  pose proof (lay_size _ _ _ _ _ _ _ _ L) as [Hw Hh]. pose proof (mirror_places vm L) as HP.
  pose proof (flip_aligned vm L) as HA. cbv zeta in HA.
  assert (w mod 2 = 0 -> divides 2 w = true) as H2 by (intros; by apply divides_mod; [lia|lia|]).
  unfold hmirror_by. destruct (divides 8 w) eqn:E8; [|destruct (divides 4 w) eqn:E4; [|destruct (divides 2 w) eqn:E2]].
  - apply divides_mod in E8; [|lia..]. assert (w mod 2 = 0) as W2 by (Z.div_mod_to_equations; lia).
    rewrite (H2 W2) in HA. destruct HA as (A1 & A2 & A3 & A4).
    apply mirror_rows_spec; [exact L|]. apply (group_rows m w h src ss _ _ 8 1); [lia|by apply by8_ok| |done|lia|].
    + apply (group_count w 3); lia.
    + unfold BYTES_PER_PIXEL. lia.
  - apply divides_mod in E4; [|lia..]. assert (w mod 2 = 0) as W2 by (Z.div_mod_to_equations; lia).
    rewrite (H2 W2) in HA. destruct HA as (A1 & A2 & A3 & A4).
    apply mirror_rows_spec; [exact L|]. apply (group_rows m w h src ss _ _ 4 3); [lia|by apply by4_ok| |done|lia|].
    + apply (group_count w 2); lia.
    + unfold BYTES_PER_PIXEL. lia.
  - apply divides_mod in E2 as W2; [|lia..]. destruct HA as (A1 & A2 & A3 & A4).
    apply mirror_rows_spec; [exact L|]. apply (group_rows m w h src ss _ _ 2 1); [lia|by apply by2_ok| |done|lia|].
    + apply (group_count w 1); lia.
    + unfold BYTES_PER_PIXEL. lia.
  - destruct HA as (A1 & A2 & A3 & A4).
    apply mirror_rows_spec; [exact L|]. apply (group_rows m w h src ss _ _ 1 0); [lia|by apply by1_ok| |apply Z.mod_1_r|lia|].
    + rewrite Z.div_1_r. lia.
    + unfold BYTES_PER_PIXEL. lia.
Qed.

Lemma vmirror_spec {m src ss w h dst ds} (L : layout m Vmirror src ss w h dst ds) :
  does m Vmirror src ss w h dst ds
    (rows (Z.to_nat h) (fun srow drow => memcpy (Z.to_nat (u32 (BYTES_PER_PIXEL * w))) drow srow)
       src (padd dst ((h - 1) * ds)) ss (- ds);; mret OPLERR_SUCCESS).
Proof.
  pose proof (lay_size _ _ _ _ _ _ _ _ L) as [Hw Hh].
  assert (forall x y, row_src src ss x y = pixel src ss (x, y)) as Es by (intros; unfold row_src, pixel; cbn [fst snd]; lia).
  assert (forall x y, row_dst (dst + (h - 1) * ds) (- ds) x y = pixel dst ds (place Vmirror w h x y)) as Eq
    by (intros; unfold row_dst, pixel; cbn [fst snd place]; lia).
  pose proof (layout_places L _ _ (fun c => c) (rows_down h) Es Eq) as HP.
  pose proof (src_range _ _ _ _ _ HP 0 0 ltac:(split; lia)) as Rs. pose proof (dst_range _ _ _ _ _ HP 0 0 ltac:(split; lia)) as Rd.
  unfold row_src in Rs. unfold row_dst in Rd. rewrite !Z.mul_0_r, !Z.add_0_r in Rs, Rd.
  apply wp_bind. eapply wp_mono.
  - unfold padd. rewrite (u32_small (dst + (h - 1) * ds)) by done.
    eapply all_rows; [apply (memcpy_rows m w h src ss (dst + (h - 1) * ds) (- ds) HP (lay_top _ _ _ _ _ _ _ _ L) Hw)|done|lia|done|done].
  - intros u m' H. apply wp_ret. split; [done|]. exact (copied_placed L _ _ (fun c => c) (rows_down h) Es Eq m' H).
Qed.

(** *** The family *)

Section Entry.
Context (opl_rotate90_u16_qcif opl_rotate270_u16_qcif : Z -> Z -> M mem Z).

Definition opl (o : op) : Z -> Z -> Z -> Z -> Z -> Z -> M mem Z :=
  match o with
  | Rotate90 => opl_rotate90_u16 opl_rotate90_u16_qcif
  | Rotate90Vmirror => opl_rotate90_vmirror_u16 opl_rotate90_u16_qcif
  | Rotate270 => opl_rotate270_u16 opl_rotate270_u16_qcif
  | Rotate270Vmirror => opl_rotate270_vmirror_u16 opl_rotate270_u16_qcif
  | Hmirror => opl_hmirror_u16
  | Rotate180 => opl_rotate180_u16
  | Vmirror => opl_vmirror_u16
  end.

(** The arguments an entry point refuses, with the code it returns. *)
Definition refuses (o : op) (src ss w h dst ds : Z) : option Z :=
  if (src =? 0) || (dst =? 0) then Some OPLERR_NULL_PTR
  else if (w =? 0) || (h =? 0) || (ss =? 0) || (ds =? 0) then Some OPLERR_BAD_ARG
  else if turns o && negb (divides 4 w && divides 4 h) then Some OPLERR_BAD_ARG
  else None.

Lemma checked_ok src ss w h dst ds body :
  src <> 0 -> dst <> 0 -> w <> 0 -> h <> 0 -> ss <> 0 -> ds <> 0 -> checked src ss w h dst ds body = body.
Proof.
  intros. unfold checked.
  repeat match goal with H : ?a <> 0 |- _ => rewrite (proj2 (Z.eqb_neq a 0) H); clear H end. done.
Qed.

Lemma layout_args {m o src ss w h dst ds} (L : layout m o src ss w h dst ds) body : checked src ss w h dst ds body = body.
Proof.
  pose proof (lay_size _ _ _ _ _ _ _ _ L). pose proof (lay_nonzero _ _ _ _ _ _ _ _ L) as (? & ? & ?).
  pose proof (lay_stride _ _ _ _ _ _ _ _ L). assert (0 < out_width o w h) by (unfold out_width; destruct (turns o); lia).
  apply checked_ok; lia.
Qed.

(** The QCIF case asks for two different source strides at once. *)
Lemma qcif_never (b : bool) w h ss :
  b && (w =? QCIF_Y_WIDTH) && (h =? QCIF_Y_HEIGHT) && (ss =? QCIF_Y_WIDTH * 2) && (ss =? QCIF_Y_HEIGHT * 2) = false.
Proof.
  unfold QCIF_Y_WIDTH, QCIF_Y_HEIGHT. destruct (Z.eqb_spec ss (176 * 2)) as [->|]; [by rewrite andb_false_r|].
  by rewrite andb_false_r.
Qed.

Lemma divides_16_4 x : divides 16 x = true -> divides 4 x = true.
Proof.
  unfold divides. rewrite !Z.eqb_eq.
  intros H. apply Z.rem_divide in H as [k ->]; [|lia]. apply Z.rem_divide; [lia|]. exists (4 * k). lia.
Qed.

(** The choice of the block size. *)
Lemma blocks_cases (a b : M mem Z) w h :
  (if divides BLOCK_SIZE_PIXELS w && divides BLOCK_SIZE_PIXELS h then a
   else if divides BLOCK_SIZE_PIXELS_BY4 w && divides BLOCK_SIZE_PIXELS_BY4 h then b else mret OPLERR_BAD_ARG) =
  if divides 4 w && divides 4 h then (if divides 16 w && divides 16 h then a else b) else mret OPLERR_BAD_ARG.
Proof.
  change BLOCK_SIZE_PIXELS_BY4 with 4. change BLOCK_SIZE_PIXELS with 16.
  destruct (divides 16 w) eqn:E1, (divides 16 h) eqn:E2; cbn [andb]; try done.
  by rewrite (divides_16_4 _ E1), (divides_16_4 _ E2).
Qed.

Lemma turn_spec {m o src ss w h dst ds} (L : layout m o src ss w h dst ds) (by_ : Z -> M mem Z) :
  turns o = true ->
  (forall quads, quads <> O -> h mod (4 * Z.of_nat quads) = 0 -> does m o src ss w h dst ds (by_ (4 * Z.of_nat quads))) ->
  does m o src ss w h dst ds
    (if divides 4 w && divides 4 h then (if divides 16 w && divides 16 h then by_ 16 else by_ 4) else mret OPLERR_BAD_ARG).
Proof.
  intros Ho Hby. pose proof (lay_size _ _ _ _ _ _ _ _ L) as [Hw Hh]. destruct (lay_turn _ _ _ _ _ _ _ _ L Ho) as [Ew Eh].
  rewrite (proj2 (divides_mod 4 w ltac:(lia) ltac:(lia)) Ew), (proj2 (divides_mod 4 h ltac:(lia) ltac:(lia)) Eh). cbn [andb].
  destruct (divides 16 w && divides 16 h) eqn:E.
  - apply andb_prop in E as [_ E]. apply divides_mod in E; [|lia..]. exact (Hby 4%nat ltac:(done) E).
  - exact (Hby 1%nat ltac:(done) Eh).
Qed.

Lemma opl_does {m} o {src ss w h dst ds} : layout m o src ss w h dst ds ->
  does m o src ss w h dst ds (opl o src ss w h dst ds).
Proof.
  intros L. destruct o; cbn [opl];
    unfold opl_rotate90_u16, opl_rotate90_vmirror_u16, opl_rotate270_u16, opl_rotate270_vmirror_u16,
      opl_rotate90_vmirror_u16_both, opl_rotate270_vmirror_u16_both, opl_hmirror_u16, opl_rotate180_u16, opl_vmirror_u16;
    rewrite (layout_args L), ?qcif_never, ?blocks_cases.
  - apply (turn_spec L (fun b => opl_rotate90_u16_by b src ss w h dst ds false)); [done|]. intros q. apply (rotate90_by_spec q false L).
  - apply (turn_spec L (fun b => opl_rotate90_u16_by b src ss w h dst ds true)); [done|]. intros q. apply (rotate90_by_spec q true L).
  - apply (turn_spec L (fun b => opl_rotate270_u16_by b src ss w h dst ds false)); [done|]. intros q. apply (rotate270_by_spec q false L).
  - apply (turn_spec L (fun b => opl_rotate270_u16_by b src ss w h dst ds true)); [done|]. intros q. apply (rotate270_by_spec q true L).
  - exact (hmirror_spec false L).
  - exact (hmirror_spec true L).
  - exact (vmirror_spec L).
Qed.

End Entry.
