(* ===== verification/OplMain.v ===== *)
(** * Theorems about the rotation library

    Every entry point puts every pixel where the reference puts it (C30), refuses
    bad arguments without touching memory (C31); two operations in a row are
    undone or replaced as the symmetries of the rectangle say (C32, C33). *)

From stdpp Require Import base gmap list.
From Stdlib Require Import ZArith Lia.
From S2P Require Import Prelude Opl OplCopy OplImage.

(** ** Composition of operations *)

(** An operation as an optional exchange of the axes followed by optional
    reversals of the columns and of the rows. *)
Definition axes (o : op) : bool * bool * bool :=
  match o with
  | Rotate90 => (true, true, false)
  | Rotate90Vmirror => (true, true, true)
  | Rotate270 => (true, false, true)
  | Rotate270Vmirror => (true, false, false)
  | Hmirror => (false, true, false)
  | Rotate180 => (false, true, true)
  | Vmirror => (false, false, true)
  end.

(** The operation that does what [o1] and then [o2] do; [None] when [o2] undoes [o1]. *)
Definition compose (o1 o2 : op) : option op :=
  let '(t1, c1, r1) := axes o1 in
  let '(t2, c2, r2) := axes o2 in
  match xorb t1 t2, xorb c2 (if t2 then r1 else c1), xorb r2 (if t2 then c1 else r1) with
  | true, true, false => Some Rotate90
  | true, true, true => Some Rotate90Vmirror
  | true, false, true => Some Rotate270
  | true, false, false => Some Rotate270Vmirror
  | false, true, false => Some Hmirror
  | false, true, true => Some Rotate180
  | false, false, true => Some Vmirror
  | false, false, false => None
  end.

(** The place of a pixel after an operation, or after none. *)
Definition place_opt (o : option op) (w h x y : Z) : Z * Z :=
  match o with
  | Some o => place o w h x y
  | None => (x, y)
  end.

Lemma place_compose o1 o2 w h x y :
  place o2 (out_width o1 w h) (out_height o1 w h) (fst (place o1 w h x y)) (snd (place o1 w h x y)) =
  place_opt (compose o1 o2) w h x y.
Proof. destruct o1, o2; cbn; f_equal; lia. Qed.

Lemma place_surj o w h c r : in_img (out_width o w h) (out_height o w h) c r ->
  exists x y, in_img w h x y /\ place o w h x y = (c, r).
Proof.
  unfold in_img. intros H. destruct o; cbn in *.
  - exists r, (h - 1 - c). split; [lia|f_equal; lia].
  - exists (w - 1 - r), (h - 1 - c). split; [lia|f_equal; lia].
  - exists (w - 1 - r), c. split; [lia|f_equal; lia].
  - exists r, c. split; [lia|f_equal; lia].
  - exists (w - 1 - c), r. split; [lia|f_equal; lia].
  - exists (w - 1 - c), (h - 1 - r). split; [lia|f_equal; lia].
  - exists c, (h - 1 - r). split; [lia|f_equal; lia].
Qed.

(** A layout is a matter of which bytes are mapped. *)
Lemma layout_ext m m' o src ss w h dst ds :
  (forall b, mapped m' b = mapped m b) -> layout m o src ss w h dst ds -> layout m' o src ss w h dst ds.
Proof.
  intros E [H1 H2 H3 H4 H5 H6 H7 H8 H9].
  assert (forall a, mapped2 m a -> mapped2 m' a) as E2 by (intros a [??]; split; by rewrite E).
  split; [done..| | | |done].
  - intros a. rewrite E. apply H6.
  - intros x y Hi. by apply E2, H7.
  - intros x y Hi. by apply E2, H8.
Qed.

Section Main.
Context (q90 q270 : Z -> Z -> M mem Z).
Notation opl := (opl q90 q270).

Lemma opl_run m o src ss w h dst ds : layout m o src ss w h dst ds ->
  exists m', opl o src ss w h dst ds m = Ret (OPLERR_SUCCESS, m') /\ placed m o src ss w h dst ds m'.
Proof.
  intros L. pose proof (opl_does q90 q270 o L) as H. unfold wp in H.
  destruct (opl o src ss w h dst ds m) as [[r m']|f]; [|done]. destruct H as [-> H]. eauto.
Qed.

(** Two operations, through an intermediate image. *)
Lemma opl_twice m o1 o2 src ss w h tmp ts dst ds :
  layout m o1 src ss w h tmp ts ->
  layout m o2 tmp ts (out_width o1 w h) (out_height o1 w h) dst ds ->
  exists m',
    (opl o1 src ss w h tmp ts;; opl o2 tmp ts (out_width o1 w h) (out_height o1 w h) dst ds) m = Ret (OPLERR_SUCCESS, m') /\
    forall x y, in_img w h x y ->
      half m' (pixel dst ds (place_opt (compose o1 o2) w h x y)) = half m (pixel src ss (x, y)).
Proof.
  intros L1 L2. destruct (opl_run m o1 src ss w h tmp ts L1) as (m1 & R1 & P1).
  apply (layout_ext m m1) in L2; [|apply P1]. destruct (opl_run m1 o2 _ _ _ _ _ _ L2) as (m2 & R2 & P2).
  exists m2. split; [by erewrite run_bind|]. intros x y Hi.
  rewrite <- place_compose, (pl_pixels _ _ _ _ _ _ _ _ _ P2) by (by apply place_in).
  rewrite <- surjective_pairing. by apply P1.
Qed.

(** C30: Equivalence with the reference: on a mapped, sufficiently aligned source
    and a disjoint destination, each of the seven entry points (whatever loop and
    inline assembly it selects for the size: strips of sixteen or of four rows,
    groups of eight, four, two or one pixels, or [memcpy]) returns
    [OPLERR_SUCCESS], puts every source pixel exactly where the rotation or
    mirroring puts it, changes no other byte, and never makes an unmapped or
    misaligned access. *)
Theorem opl_places_pixels m o src ss w h dst ds : layout m o src ss w h dst ds ->
  exists m', opl o src ss w h dst ds m = Ret (OPLERR_SUCCESS, m') /\ placed m o src ss w h dst ds m'.
Proof. apply opl_run. Qed.

(** Loops that do not run. *)
Lemma no_iterations n : n <= 0 -> Z.to_nat n = O.
Proof. lia. Qed.

Lemma strips_idle (strip : Z -> M mem unit) n m : (forall k, strip k m = Ret (tt, m)) -> strips n strip m = Ret (tt, m).
Proof. intros H. induction n as [|n IH]; cbn [strips]; [done|]. by erewrite run_bind by apply H. Qed.

Lemma rows_idle (row : Z -> Z -> M mem unit) n m : (forall p q, row p q m = Ret (tt, m)) ->
  forall p q ss ds, rows n row p q ss ds m = Ret (tt, m).
Proof. intros H. induction n as [|n IH]; intros; cbn [rows]; [done|]. by erewrite run_bind by apply H. Qed.

Lemma lines_idle w quads p q d i o m : w < 0 -> lines (Z.to_nat w) quads p q d i o m = Ret (tt, m).
Proof. intros H. by rewrite no_iterations by lia. Qed.

Lemma blocks_none h b : h < 0 -> 0 < b -> Z.to_nat (Z.quot h b) = O.
Proof. intros. apply no_iterations. rewrite <- (Z.opp_involutive h), Z.quot_opp_l by lia. pose proof (Z.quot_pos (- h) b). lia. Qed.

Lemma rotate90_idle b src ss w h dst ds vm m : w < 0 \/ h < 0 -> 0 < b ->
  opl_rotate90_u16_by b src ss w h dst ds vm m = Ret (OPLERR_SUCCESS, m).
Proof.
  intros H Hb. unfold opl_rotate90_u16_by. cbv zeta. destruct (decide (h < 0)); [by rewrite blocks_none|].
  erewrite run_bind; [done|]. apply strips_idle. intros k. apply lines_idle. lia.
Qed.

Lemma rotate270_idle b src ss w h dst ds vm m : w < 0 \/ h < 0 -> 0 < b ->
  opl_rotate270_u16_by b src ss w h dst ds vm m = Ret (OPLERR_SUCCESS, m).
Proof.
  intros H Hb. unfold opl_rotate270_u16_by. cbv zeta. destruct (decide (h < 0)); [by rewrite blocks_none|].
  erewrite run_bind; [done|]. apply strips_idle. intros k. apply lines_idle. lia.
Qed.

Lemma mirror_idle w k step sn dn off src ss h dst ds vm m : w < 0 \/ h < 0 -> 0 <= k ->
  mirror_rows h (fun srow drow => groups (Z.to_nat (Z.shiftr w k)) step srow (padd drow off) sn dn) src ss dst ds vm m =
  Ret (OPLERR_SUCCESS, m).
Proof.
  intros H Hk. unfold mirror_rows. destruct (decide (h < 0)); [by rewrite (no_iterations h) by lia|].
  assert (Z.shiftr w k < 0) by (apply Z.shiftr_neg; lia).
  erewrite run_bind; [done|]. apply rows_idle. intros p q. by rewrite no_iterations by lia.
Qed.

Lemma hmirror_idle src ss w h dst ds vm m : w < 0 \/ h < 0 ->
  hmirror_by src ss w h dst ds vm m = Ret (OPLERR_SUCCESS, m).
Proof.
  intros H. unfold hmirror_by. repeat case_match; try (apply mirror_idle; lia).
  pose proof (mirror_idle w 0) as M. rewrite Z.shiftr_0_r in M. apply M; lia.
Qed.

(** The body of an operation on arguments it does not refuse. *)
Definition body (o : op) (src ss w h dst ds : Z) : M mem Z :=
  let turn (by_ : Z -> M mem Z) := if divides 16 w && divides 16 h then by_ 16 else by_ 4 in
  match o with
  | Rotate90 => turn (fun b => opl_rotate90_u16_by b src ss w h dst ds false)
  | Rotate90Vmirror => turn (fun b => opl_rotate90_u16_by b src ss w h dst ds true)
  | Rotate270 => turn (fun b => opl_rotate270_u16_by b src ss w h dst ds false)
  | Rotate270Vmirror => turn (fun b => opl_rotate270_u16_by b src ss w h dst ds true)
  | Hmirror => hmirror_by src ss w h dst ds false
  | Rotate180 => hmirror_by src ss w h dst ds true
  | Vmirror =>
      rows (Z.to_nat h) (fun srow drow => memcpy (Z.to_nat (u32 (BYTES_PER_PIXEL * w))) drow srow)
        src (padd dst ((h - 1) * ds)) ss (- ds);; mret OPLERR_SUCCESS
  end.

Lemma opl_body o src ss w h dst ds :
  opl o src ss w h dst ds = match refuses o src ss w h dst ds with Some c => mret c | None => body o src ss w h dst ds end.
Proof.
  unfold refuses. destruct o; cbn [OplImage.opl turns body andb];
    unfold opl_rotate90_u16, opl_rotate90_vmirror_u16, opl_rotate270_u16, opl_rotate270_vmirror_u16,
      opl_rotate90_vmirror_u16_both, opl_rotate270_vmirror_u16_both, opl_hmirror_u16, opl_rotate180_u16, opl_vmirror_u16, checked;
    rewrite ?qcif_never, ?blocks_cases;
    destruct ((src =? 0) || (dst =? 0)), ((w =? 0) || (h =? 0) || (ss =? 0) || (ds =? 0)); try reflexivity;
    by destruct (divides 4 w && divides 4 h).
Qed.

Lemma body_idle o src ss w h dst ds m : h < 0 \/ (w < 0 /\ o <> Vmirror) ->
  body o src ss w h dst ds m = Ret (OPLERR_SUCCESS, m).
Proof.
  intros H. assert (w < 0 \/ h < 0) as H' by (destruct H as [?|[? _]]; auto).
  destruct o; unfold body; cbv zeta; try destruct (divides 16 w && divides 16 h);
    first [apply rotate90_idle; [exact H'|lia]|apply rotate270_idle; [exact H'|lia]|apply hmirror_idle; exact H'|idtac].
  all: destruct H as [H|[_ H]]; [|done]; by rewrite (no_iterations h) by lia.
Qed.

(** C31: Error behaviour, on all arguments: a null pointer is answered with
    [OPLERR_NULL_PTR]; otherwise a zero size or stride, and for the quarter turns
    a width or height that is not a multiple of four, with [OPLERR_BAD_ARG]; in
    each case memory is untouched.  A negative size is not among the refused
    arguments: such a call reports success and does nothing (a negative width for
    [opl_vmirror_u16] apart, where it becomes the length of a [memcpy]). *)
Theorem opl_refuses_bad_args m o src ss w h dst ds :
  (forall c, refuses o src ss w h dst ds = Some c -> opl o src ss w h dst ds m = Ret (c, m)) /\
  (refuses o src ss w h dst ds = None -> h < 0 \/ (w < 0 /\ o <> Vmirror) ->
   opl o src ss w h dst ds m = Ret (OPLERR_SUCCESS, m)).
Proof. rewrite opl_body. split; [by intros c ->|]. intros -> H. by apply body_idle. Qed.

(** C32: Round trip: when the second operation undoes the first (a quarter turn
    and the opposite quarter turn, any mirroring twice, the half turn twice),
    running one and then the other through an intermediate image of the turned
    size restores every pixel of the original. *)
Theorem opl_round_trip m o1 o2 src ss w h tmp ts dst ds :
  compose o1 o2 = None ->
  layout m o1 src ss w h tmp ts ->
  layout m o2 tmp ts (out_width o1 w h) (out_height o1 w h) dst ds ->
  exists m',
    (opl o1 src ss w h tmp ts;; opl o2 tmp ts (out_width o1 w h) (out_height o1 w h) dst ds) m = Ret (OPLERR_SUCCESS, m') /\
    forall x y, in_img w h x y -> half m' (pixel dst ds (x, y)) = half m (pixel src ss (x, y)).
Proof. intros Hc L1 L2. pose proof (opl_twice m o1 o2 src ss w h tmp ts dst ds L1 L2) as H. by rewrite Hc in H. Qed.

(** C33: Equivalence of one operation with a sequence of two: running [o1] into an
    intermediate image and [o2] from there leaves the same pixels in the
    destination as the single operation their composition names.  In particular
    the two equivalences the header documents: rotating by 90 degrees with a
    vertical mirroring is rotating by 270 degrees and mirroring horizontally, and
    the other way round. *)
Theorem opl_composition m o1 o2 o src ss w h tmp ts dst ds :
  compose o1 o2 = Some o ->
  layout m o1 src ss w h tmp ts ->
  layout m o2 tmp ts (out_width o1 w h) (out_height o1 w h) dst ds ->
  layout m o src ss w h dst ds ->
  exists m1 m2,
    opl o src ss w h dst ds m = Ret (OPLERR_SUCCESS, m1) /\
    (opl o1 src ss w h tmp ts;; opl o2 tmp ts (out_width o1 w h) (out_height o1 w h) dst ds) m = Ret (OPLERR_SUCCESS, m2) /\
    forall c r, in_img (out_width o w h) (out_height o w h) c r ->
      half m1 (pixel dst ds (c, r)) = half m2 (pixel dst ds (c, r)).
Proof.
  intros Hc L1 L2 L. destruct (opl_run m o src ss w h dst ds L) as (m1 & R1 & P1).
  destruct (opl_twice m o1 o2 src ss w h tmp ts dst ds L1 L2) as (m2 & R2 & P2). rewrite Hc in P2.
  exists m1, m2. split; [done|]. split; [done|]. intros c r Hcr.
  destruct (place_surj o w h c r Hcr) as (x & y & Hi & <-).
  rewrite (pl_pixels _ _ _ _ _ _ _ _ _ P1) by done. symmetry. by apply P2.
Qed.

End Main.
