(* ===== verification/OplWitness.v ===== *)
(** * The rotation library on concrete images

    A decision procedure for [layout], and the theorems at small images in a memory
    of three buffers. *)

From stdpp Require Import base gmap list.
From Stdlib Require Import ZArith Lia.
From S2P Require Import Prelude Opl OplCopy OplImage OplMain.

(** ** Deciding [layout] *)

Definition for_img (w h : Z) (p : Z -> Z -> bool) : bool :=
  forallb (fun y => forallb (fun x => p x y) (seqZ 0 w)) (seqZ 0 h).

Lemma for_img_ok w h p : for_img w h p = true -> forall x y, in_img w h x y -> p x y = true.
Proof.
  intros H x y [Hx Hy]. unfold for_img in H. rewrite forallb_forall in H.
  assert (In y (seqZ 0 h)) as Iy by (apply list_elem_of_In, elem_of_seqZ; lia).
  specialize (H y Iy). cbv beta in H. rewrite forallb_forall in H. apply H, list_elem_of_In, elem_of_seqZ. lia.
Qed.

Definition apart (a b : Z) : bool := (a + 2 <=? b) || (b + 2 <=? a).

Definition layoutb (m : mem) (o : op) (src ss w h dst ds : Z) : bool :=
  let ow := out_width o w h in
  let oh := out_height o w h in
  let both a := mapped m a && mapped m (a + 1) in
  let al := match o with Vmirror => (1, 1) | Hmirror | Rotate180 => if divides 2 w then (4, 4) else (2, 2) | _ => (2, 4) end in
  (0 <? w) && (w <? 2 ^ 31) && (0 <? h)
  && (negb (turns o) || ((w mod 4 =? 0) && (h mod 4 =? 0)))
  && negb (src =? 0) && negb (dst =? 0) && negb (ss =? 0)
  && (2 * ow <=? Z.abs ds)
  && (src mod fst al =? 0) && (ss mod fst al =? 0) && (dst mod snd al =? 0) && (ds mod snd al =? 0)
  && bool_decide (map_Forall (fun a _ => 0 <= a < 2 ^ 32) m)
  && for_img w h (fun x y => both (pixel src ss (x, y)))
  && for_img ow oh (fun x y => both (pixel dst ds (x, y)))
  && for_img w h (fun x y => for_img ow oh (fun x' y' => apart (pixel dst ds (x', y')) (pixel src ss (x, y)))).

Lemma layoutb_ok m o src ss w h dst ds : layoutb m o src ss w h dst ds = true -> layout m o src ss w h dst ds.
Proof.
  unfold layoutb. cbv zeta. intros H. repeat apply andb_prop in H as [H ?].
  repeat match goal with E : (_ =? _) = true |- _ => apply Z.eqb_eq in E end. split.
  - lia.
  - intros Ho. rewrite Ho in *. cbn [negb orb] in *. lia.
  - repeat match goal with E : negb (_ =? 0) = true |- _ => apply negb_true_iff, Z.eqb_neq in E end. done.
  - lia.
  - destruct o; cbn [aligned fst snd] in *; try done; by destruct (divides 2 w).
  - intros a Ha. unfold mapped in Ha. apply bool_decide_eq_true in Ha as [v Hv].
    match goal with E : bool_decide (map_Forall _ _) = true |- _ => apply bool_decide_eq_true in E; exact (E a v Hv) end.
  - intros x y Hi. match goal with E : for_img w h (fun x y => mapped _ _ && _) = true |- _ =>
      pose proof (for_img_ok _ _ _ E x y Hi) as H' end. apply andb_prop in H' as [??]. by split.
  - intros x y Hi. match goal with E : for_img (out_width _ _ _) _ _ = true |- _ =>
      pose proof (for_img_ok _ _ _ E x y Hi) as H' end. apply andb_prop in H' as [??]. by split.
  - intros x y x' y' Hi Hi'. match goal with E : for_img w h (fun x y => for_img _ _ _) = true |- _ =>
      pose proof (for_img_ok _ _ _ (for_img_ok _ _ _ E x y Hi) x' y' Hi') as H' end. unfold apart in H'. lia.
Qed.

(** ** A memory of three buffers *)

(** [n] bytes from [base], all different from their neighbours. *)
Definition buffer (base n : Z) : mem := list_to_map (map (fun k => (base + k, (base + 7 * k) mod 251)) (seqZ 0 n)).

Definition store3 : mem := buffer 4096 128 ∪ buffer 8192 128 ∪ buffer 12288 128.

Definition qcif0 (src dst : Z) : M mem Z := mret OPLERR_SUCCESS.

(** A turn of an 8 by 4 image with padded lines, and a mirroring of a 5 by 3 one. *)
Lemma opl_places_pixels_witness :
  (exists m', opl qcif0 qcif0 Rotate90 4096 16 8 4 8192 12 store3 = Ret (OPLERR_SUCCESS, m') /\
     placed store3 Rotate90 4096 16 8 4 8192 12 m') /\
  (exists m', opl qcif0 qcif0 Hmirror 4096 10 5 3 8192 14 store3 = Ret (OPLERR_SUCCESS, m') /\
     placed store3 Hmirror 4096 10 5 3 8192 14 m').
Proof.
  split; apply opl_places_pixels; apply layoutb_ok; vm_compute; reflexivity.
Defined.

Lemma opl_round_trip_witness :
  exists m',
    (opl qcif0 qcif0 Rotate90 4096 16 8 4 8192 8;; opl qcif0 qcif0 Rotate270 8192 8 4 8 12288 16) store3 =
      Ret (OPLERR_SUCCESS, m') /\
    forall x y, in_img 8 4 x y -> half m' (pixel 12288 16 (x, y)) = half store3 (pixel 4096 16 (x, y)).
Proof.
  apply (opl_round_trip qcif0 qcif0 store3 Rotate90 Rotate270 4096 16 8 4 8192 8 12288 16);
    [reflexivity|apply layoutb_ok; vm_compute; reflexivity..].
Defined.

(** The equivalence documented for [opl_rotate90_vmirror_u16]. *)
Lemma opl_composition_witness :
  exists m1 m2,
    opl qcif0 qcif0 Rotate90Vmirror 4096 16 8 4 12288 8 store3 = Ret (OPLERR_SUCCESS, m1) /\
    (opl qcif0 qcif0 Rotate270 4096 16 8 4 8192 8;; opl qcif0 qcif0 Hmirror 8192 8 4 8 12288 8) store3 =
      Ret (OPLERR_SUCCESS, m2) /\
    forall c r, in_img 4 8 c r -> half m1 (pixel 12288 8 (c, r)) = half m2 (pixel 12288 8 (c, r)).
Proof.
  apply (opl_composition qcif0 qcif0 store3 Rotate270 Hmirror Rotate90Vmirror 4096 16 8 4 8192 8 12288 8);
    [reflexivity|apply layoutb_ok; vm_compute; reflexivity..].
Defined.

(** The routine itself, on the pixels of the first line. *)
Example rotate90_line :
  match opl_rotate90_u16 qcif0 4096 16 8 4 8192 8 store3 with
  | Ret (r, m') => r = OPLERR_SUCCESS /\
      map (fun y => half m' (8192 + 8 * y + 6)) (seqZ 0 8) = map (fun x => half store3 (4096 + 2 * x)) (seqZ 0 8)
  | Crash _ => False
  end.
Proof. vm_compute. split; reflexivity. Qed.
