(* ===== verification/Otg.v ===== *)
(** * USB On-The-Go: [drivers/usb/otg/otg_fsm.c] and [fsl_otg.c]

    The role state machine of the OTG specification, and the transceiver driver
    that gives it its operations: the registers of the controller, the software
    timers, starting and stopping the host and gadget drivers, and the interrupt
    of the ID pin.

    The host and gadget drivers are code the OTG driver reaches through function
    pointers: [ext] says what such a call answers and what it does to the
    controller's registers. *)

From stdpp Require Import base gmap list.
From Stdlib Require Import ZArith Lia.
From S2P Require Import Prelude.

(** ** Data *)

(** [enum usb_otg_state]. *)
Inductive usb_otg_state : Type :=
| OTG_STATE_UNDEFINED
| OTG_STATE_B_IDLE
| OTG_STATE_B_SRP_INIT
| OTG_STATE_B_PERIPHERAL
| OTG_STATE_B_WAIT_ACON
| OTG_STATE_B_HOST
| OTG_STATE_A_IDLE
| OTG_STATE_A_WAIT_VRISE
| OTG_STATE_A_WAIT_BCON
| OTG_STATE_A_HOST
| OTG_STATE_A_SUSPEND
| OTG_STATE_A_PERIPHERAL
| OTG_STATE_A_WAIT_VFALL
| OTG_STATE_A_VBUS_ERR.

#[global] Instance usb_otg_state_eq : EqDecision usb_otg_state.
Proof. solve_decision. Defined.

(** The [int] members of [struct otg_fsm]: a member is named where the code takes
    its address. *)
Inductive var : Type :=
| a_bus_resume | a_bus_suspend | a_conn | a_sess_vld | a_srp_det | a_vbus_vld
| b_bus_resume | b_bus_suspend | b_conn | b_se0_srp | b_sess_end | b_sess_vld | id
| a_set_b_hnp_en | b_srp_done | fsm_b_hnp_enable
| a_wait_vrise_tmout | a_wait_bcon_tmout | a_aidl_bdis_tmout | b_ase0_brst_tmout
| a_bus_drop | a_bus_req | a_clr_err | a_suspend_req | b_bus_req
| drv_vbus | loc_conn | loc_sof
| protocol.

#[global] Instance var_eq : EqDecision var.
Proof. solve_decision. Defined.

Definition otg_fsm : Type := var -> Z.

Definition set_var (v : var) (x : Z) (f : otg_fsm) : otg_fsm := fun w => if decide (w = v) then x else f w.

Definition PROTO_UNDEF : Z := 0.
Definition PROTO_HOST : Z := 1.
Definition PROTO_GADGET : Z := 2.

(** The timers [fsl_otg_init_timers] creates. *)
Inductive timer : Type :=
| a_wait_vrise_tmr | a_wait_bcon_tmr | a_aidl_bdis_tmr | b_ase0_brst_tmr | b_se0_srp_tmr
| b_srp_fail_tmr | a_wait_enum_tmr | b_srp_wait_tmr | b_data_pulse_tmr | b_vbus_pulse_tmr.

#[global] Instance timer_eq : EqDecision timer.
Proof. solve_decision. Defined.

(** What a timer calls when it expires: [set_tmout] with the address of a member,
    or one of the driver's own functions. *)
Inductive timer_fn : Type :=
| set_tmout_fn (indicator : var)
| a_wait_enum_fn
| b_srp_end_fn
| b_data_pulse_end_fn
| b_vbus_pulse_end_fn.

Definition TA_WAIT_VRISE : Z := 100.
Definition TA_WAIT_BCON : Z := 10000.
Definition TA_AIDL_BDIS : Z := 5000.
Definition TB_DATA_PLS : Z := 10.
Definition TB_SRP_FAIL : Z := 7000.
Definition TB_SRP_WAIT : Z := 60.
Definition TB_VBUS_PLS : Z := 30.
Definition TB_ASE0_BRST : Z := 20.
Definition TB_SE0_SRP : Z := 2.

Definition fsl_otg_init_timers (t : timer) : timer_fn * Z :=
  match t with
  | a_wait_vrise_tmr => (set_tmout_fn a_wait_vrise_tmout, TA_WAIT_VRISE)
  | a_wait_bcon_tmr => (set_tmout_fn a_wait_bcon_tmout, TA_WAIT_BCON)
  | a_aidl_bdis_tmr => (set_tmout_fn a_aidl_bdis_tmout, TA_AIDL_BDIS)
  | b_ase0_brst_tmr => (set_tmout_fn b_ase0_brst_tmout, TB_ASE0_BRST)
  | b_se0_srp_tmr => (set_tmout_fn b_se0_srp, TB_SE0_SRP)
  | b_srp_fail_tmr => (set_tmout_fn b_srp_done, TB_SRP_FAIL)
  | a_wait_enum_tmr => (a_wait_enum_fn, 10)
  | b_srp_wait_tmr => (b_srp_end_fn, TB_SRP_WAIT)
  | b_data_pulse_tmr => (b_data_pulse_end_fn, TB_DATA_PLS)
  | b_vbus_pulse_tmr => (b_vbus_pulse_end_fn, TB_VBUS_PLS)
  end.

(** [struct usb_bus] of the host, as far as this code uses it: the device has a
    driver with or without the two methods. *)
Record dev_driver : Type := mkDevDriver { drv_has_resume : bool; drv_has_suspend : bool }.
Record usb_bus : Type := mkBus {
  host_b_hnp_enable : Z;
  is_b_host : Z;
  otg_port : Z;
  controller : option (option dev_driver);
  has_port_reset : bool;
}.
Record usb_gadget : Type := mkGadget { gadget_b_hnp_enable : Z; is_a_peripheral : Z }.

(** The registers of [struct usb_dr_mmap] the driver touches. *)
Record usb_dr_mmap : Type := mkDr { usbcmd : Z; ulpiview : Z; portsc : Z; otgsc : Z }.

(** Calls into other drivers. *)
Inductive drv_call : Type :=
| HostResume | HostSuspend | GadgetResume | GadgetSuspend
| StartPortReset (port : Z) | RhTimer | VbusDraw | VbusDisconnect.

(** The driver: [fsl_otg_dev] with its transceiver and state machine, and the
    static variables. *)
Record otgst : Type := mkOtg {
  fsm : otg_fsm;
  state : usb_otg_state;
  default_a : Z;
  host : option usb_bus;
  gadget : option usb_gadget;
  host_working : Z;
  otg_event : bool;           (* the delayed work is pending *)
  dr : usb_dr_mmap;
  counts : timer -> Z;
  active_timers : list timer;
  srp_wait_done : Z;
  state_changed : Z;
}.

Definition with_fsm (f : otg_fsm -> otg_fsm) (s : otgst) : otgst :=
  mkOtg (f (fsm s)) (state s) (default_a s) (host s) (gadget s) (host_working s) (otg_event s) (dr s) (counts s)
    (active_timers s) (srp_wait_done s) (state_changed s).
Definition with_state (x : usb_otg_state) (s : otgst) : otgst :=
  mkOtg (fsm s) x (default_a s) (host s) (gadget s) (host_working s) (otg_event s) (dr s) (counts s)
    (active_timers s) (srp_wait_done s) (state_changed s).
Definition with_default_a (x : Z) (s : otgst) : otgst :=
  mkOtg (fsm s) (state s) x (host s) (gadget s) (host_working s) (otg_event s) (dr s) (counts s)
    (active_timers s) (srp_wait_done s) (state_changed s).
Definition with_host (x : option usb_bus) (s : otgst) : otgst :=
  mkOtg (fsm s) (state s) (default_a s) x (gadget s) (host_working s) (otg_event s) (dr s) (counts s)
    (active_timers s) (srp_wait_done s) (state_changed s).
Definition with_gadget (x : option usb_gadget) (s : otgst) : otgst :=
  mkOtg (fsm s) (state s) (default_a s) (host s) x (host_working s) (otg_event s) (dr s) (counts s)
    (active_timers s) (srp_wait_done s) (state_changed s).
Definition with_host_working (x : Z) (s : otgst) : otgst :=
  mkOtg (fsm s) (state s) (default_a s) (host s) (gadget s) x (otg_event s) (dr s) (counts s)
    (active_timers s) (srp_wait_done s) (state_changed s).
Definition with_event (x : bool) (s : otgst) : otgst :=
  mkOtg (fsm s) (state s) (default_a s) (host s) (gadget s) (host_working s) x (dr s) (counts s)
    (active_timers s) (srp_wait_done s) (state_changed s).
Definition with_dr (x : usb_dr_mmap) (s : otgst) : otgst :=
  mkOtg (fsm s) (state s) (default_a s) (host s) (gadget s) (host_working s) (otg_event s) x (counts s)
    (active_timers s) (srp_wait_done s) (state_changed s).
Definition with_timers (c : timer -> Z) (l : list timer) (s : otgst) : otgst :=
  mkOtg (fsm s) (state s) (default_a s) (host s) (gadget s) (host_working s) (otg_event s) (dr s) c l
    (srp_wait_done s) (state_changed s).
Definition with_srp (x : Z) (s : otgst) : otgst :=
  mkOtg (fsm s) (state s) (default_a s) (host s) (gadget s) (host_working s) (otg_event s) (dr s) (counts s)
    (active_timers s) x (state_changed s).
Definition with_changed (x : Z) (s : otgst) : otgst :=
  mkOtg (fsm s) (state s) (default_a s) (host s) (gadget s) (host_working s) (otg_event s) (dr s) (counts s)
    (active_timers s) (srp_wait_done s) x.

(** Reading and writing a member; [if (x)]. *)
Definition rdv (v : var) : M otgst Z := gets (fun s => fsm s v).
Definition wrv (v : var) (x : Z) : M otgst unit := modify (with_fsm (set_var v x)).
Definition nz (x : Z) : bool := negb (x =? 0).

(** ** Registers *)

Definition OTGSC_CTRL_VBUS_DISCHARGE : Z := Z.shiftl 1 0.
Definition OTGSC_CTRL_VBUS_CHARGE : Z := Z.shiftl 1 1.
Definition OTGSC_CTRL_DATA_PULSING : Z := Z.shiftl 1 4.
Definition OTGSC_STS_USB_ID : Z := Z.shiftl 1 8.
Definition OTGSC_STS_A_VBUS_VALID : Z := Z.shiftl 1 9.
Definition OTGSC_IS_MASK : Z := Z.shiftl 0x7f 16.
Definition OTGSC_IS_USB_ID : Z := Z.shiftl 1 16.
Definition OTGSC_IE_MASK : Z := Z.shiftl 0x7f 24.
Definition OTGSC_IE_USB_ID : Z := Z.shiftl 1 24.
Definition OTGSC_INTERRUPT_ENABLE_BITS_MASK : Z := OTGSC_IE_MASK.
Definition OTGSC_INTSTS_MASK : Z := OTGSC_IS_MASK.
Definition PORTSC_PORT_POWER : Z := Z.shiftl 1 12.
Definition PORTSC_W1C_BITS : Z := Z.lor (Z.lor (Z.shiftl 1 1) (Z.shiftl 1 3)) (Z.shiftl 1 5).
Definition UCMD_RESET : Z := Z.shiftl 1 1.
Definition EOPNOTSUPP : Z := 95.

(** A register some of whose bits are cleared by writing 1. *)
Definition w1c (mask new old : Z) : Z := Z.lor (clear new mask) (clear (Z.land old mask) new).

Definition rd_otgsc : M otgst Z := gets (fun s => otgsc (dr s)).
Definition wr_otgsc (x : Z) : M otgst unit :=
  modify (fun s => with_dr (mkDr (usbcmd (dr s)) (ulpiview (dr s)) (portsc (dr s)) (w1c OTGSC_IS_MASK x (otgsc (dr s)))) s).
Definition rd_portsc : M otgst Z := gets (fun s => portsc (dr s)).
Definition wr_portsc (x : Z) : M otgst unit :=
  modify (fun s => with_dr (mkDr (usbcmd (dr s)) (ulpiview (dr s)) (w1c PORTSC_W1C_BITS x (portsc (dr s))) (otgsc (dr s))) s).

Definition write_ulpi (addr data : Z) : M otgst unit :=
  modify (fun s => with_dr (mkDr (usbcmd (dr s)) (Z.lor (Z.lor 0x60000000 (Z.shiftl addr 16)) data) (portsc (dr s)) (otgsc (dr s))) s).

Section Otg.
Context (ext : drv_call -> usb_dr_mmap -> Z * usb_dr_mmap).
(** Does the controller come out of the reset it is told to do? *)
Context (resets : bool).

Definition call_driver (c : drv_call) : M otgst Z :=
  r ← gets (fun s => ext c (dr s)); modify (with_dr (snd r));; mret (fst r).

(** A method of a driver that may be NULL. *)
Definition call_method (present : bool) (c : drv_call) : M otgst Z :=
  if present then call_driver c else crash NullDeref.

(** ** Operations of the transceiver driver *)

Definition fsl_otg_chrg_vbus (on : Z) : M otgst unit :=
  v ← rd_otgsc;
  if nz on then wr_otgsc (setb (clear (clear v OTGSC_INTSTS_MASK) OTGSC_CTRL_VBUS_DISCHARGE) OTGSC_CTRL_VBUS_CHARGE)
  else wr_otgsc (clear (clear v OTGSC_INTSTS_MASK) OTGSC_CTRL_VBUS_CHARGE).

Definition fsl_otg_dischrg_vbus (on : Z) : M otgst unit :=
  v ← rd_otgsc;
  if nz on then wr_otgsc (setb (clear v OTGSC_INTSTS_MASK) OTGSC_CTRL_VBUS_DISCHARGE)
  else wr_otgsc (clear (clear v OTGSC_INTSTS_MASK) OTGSC_CTRL_VBUS_DISCHARGE).

Definition fsl_otg_drv_vbus (on : Z) : M otgst unit :=
  v ← rd_portsc;
  if nz on then wr_portsc (setb (clear v PORTSC_W1C_BITS) PORTSC_PORT_POWER)
  else wr_portsc (clear (clear v PORTSC_W1C_BITS) PORTSC_PORT_POWER).

Definition fsl_otg_loc_conn (on : Z) : M otgst unit :=
  v ← rd_otgsc;
  if nz on then wr_otgsc (setb (clear v OTGSC_INTSTS_MASK) OTGSC_CTRL_DATA_PULSING)
  else wr_otgsc (clear (clear v OTGSC_INTSTS_MASK) OTGSC_CTRL_DATA_PULSING).

Definition fsl_otg_loc_sof (on : Z) : M otgst unit := mret tt.

Definition set_count (t : timer) (n : Z) (c : timer -> Z) : timer -> Z := fun u => if decide (u = t) then n else c u.

Definition fsl_otg_add_timer (t : timer) : M otgst unit :=
  modify (fun s => with_timers (set_count t (snd (fsl_otg_init_timers t)) (counts s))
    (if decide (t ∈ active_timers s) then active_timers s else active_timers s ++ [t]) s).

Definition fsl_otg_del_timer (t : timer) : M otgst unit :=
  modify (fun s => with_timers (counts s) (filter (fun u => u <> t) (active_timers s)) s).

Definition fsl_otg_start_pulse : M otgst unit :=
  modify (with_srp 0);; fsl_otg_loc_conn 1;; fsl_otg_add_timer b_data_pulse_tmr.

Definition otg_reset_controller : M otgst unit :=
  modify (fun s => with_dr (mkDr (setb (usbcmd (dr s)) UCMD_RESET) (ulpiview (dr s)) (portsc (dr s)) (otgsc (dr s))) s);;
  if resets then
    modify (fun s => with_dr (mkDr (clear (usbcmd (dr s)) UCMD_RESET) (ulpiview (dr s)) (portsc (dr s)) (otgsc (dr s))) s)
  else crash Hang.

Definition fsl_otg_start_host (on : Z) : M otgst Z :=
  h ← gets host;
  match h with
  | None => mret (- ENODEV)
  | Some b =>
      v ← rd_otgsc;
      wrv a_vbus_vld (if nz (Z.land v OTGSC_STS_A_VBUS_VALID) then 1 else 0);;
      working ← gets host_working;
      if nz on then
        if nz working then mret 0
        else
          otg_reset_controller;;
          dev ← deref (controller b);
          drv ← deref dev;
          retval ← (if drv_has_resume drv then
                      r ← call_driver HostResume;
                      i ← rdv id;
                      (if nz i then fsl_otg_drv_vbus 1;; write_ulpi 0x0c 0x20 else mret tt);;
                      mret r
                    else mret 0);
          modify (with_host_working 1);;
          mret retval
      else
        if negb (nz working) then mret 0
        else
          retval ← (match controller b with
                    | Some (Some drv) =>
                        r ← call_method (drv_has_suspend drv) HostSuspend;
                        i ← rdv id;
                        (if nz i then fsl_otg_drv_vbus 0 else mret tt);;
                        mret r
                    | _ => mret 0
                    end);
          modify (with_host_working 0);;
          mret retval
  end.

Definition fsl_otg_start_gadget (on : Z) : M otgst Z :=
  g ← gets gadget;
  match g with
  | None => mret (- ENODEV)
  | Some _ => (if nz on then call_driver GadgetResume else call_driver GadgetSuspend);; mret 0
  end.

Definition usb_bus_start_enum (bus : usb_bus) (port_num : Z) : M otgst Z :=
  status ← (if nz port_num && has_port_reset bus then call_driver (StartPortReset port_num) else mret (- EOPNOTSUPP));
  (if status =? 0 then call_driver RhTimer;; mret tt else mret tt);;
  mret status.

(** ** The state machine *)

Definition otg_chrg_vbus (on : Z) : M otgst unit := fsl_otg_chrg_vbus on.

(** The outputs are cached: the operation is called on a change only. *)
Definition otg_drv_vbus (on : Z) : M otgst unit :=
  x ← rdv drv_vbus; if x =? on then mret tt else wrv drv_vbus on;; fsl_otg_drv_vbus on.
Definition otg_loc_conn (on : Z) : M otgst unit :=
  x ← rdv loc_conn; if x =? on then mret tt else wrv loc_conn on;; fsl_otg_loc_conn on.
Definition otg_loc_sof (on : Z) : M otgst unit :=
  x ← rdv loc_sof; if x =? on then mret tt else wrv loc_sof on;; fsl_otg_loc_sof on.

Definition otg_set_protocol (proto : Z) : M otgst Z :=
  p ← rdv protocol;
  if p =? proto then mret 0
  else
    ret ← (if p =? PROTO_HOST then fsl_otg_start_host 0
           else if p =? PROTO_GADGET then fsl_otg_start_gadget 0 else mret 0);
    if nz ret then mret ret
    else
      ret ← (if proto =? PROTO_HOST then fsl_otg_start_host 1
             else if proto =? PROTO_GADGET then fsl_otg_start_gadget 1 else mret 0);
      if nz ret then mret ret else wrv protocol proto;; mret 0.

Definition otg_leave_state (old_state : usb_otg_state) : M otgst unit :=
  match old_state with
  | OTG_STATE_B_IDLE => fsl_otg_del_timer b_se0_srp_tmr;; wrv b_se0_srp 0
  | OTG_STATE_B_SRP_INIT => wrv b_srp_done 0
  | OTG_STATE_B_WAIT_ACON => fsl_otg_del_timer b_ase0_brst_tmr;; wrv b_ase0_brst_tmout 0
  | OTG_STATE_A_WAIT_VRISE => fsl_otg_del_timer a_wait_vrise_tmr;; wrv a_wait_vrise_tmout 0
  | OTG_STATE_A_WAIT_BCON => fsl_otg_del_timer a_wait_bcon_tmr;; wrv a_wait_bcon_tmout 0
  | OTG_STATE_A_HOST => fsl_otg_del_timer a_wait_enum_tmr
  | OTG_STATE_A_SUSPEND => fsl_otg_del_timer a_aidl_bdis_tmr;; wrv a_aidl_bdis_tmout 0;; wrv a_suspend_req 0
  | OTG_STATE_A_WAIT_VFALL => fsl_otg_del_timer a_wait_vrise_tmr
  | _ => mret tt
  end.

(** The actions of [otg_set_state] for the new state. *)
Definition enter_state (new_state : usb_otg_state) : M otgst unit :=
  match new_state with
  | OTG_STATE_B_IDLE =>
      otg_drv_vbus 0;; otg_chrg_vbus 0;; otg_loc_conn 0;; otg_loc_sof 0;;
      otg_set_protocol PROTO_UNDEF;; fsl_otg_add_timer b_se0_srp_tmr
  | OTG_STATE_B_SRP_INIT =>
      fsl_otg_start_pulse;; otg_loc_sof 0;; otg_set_protocol PROTO_UNDEF;; fsl_otg_add_timer b_srp_fail_tmr
  | OTG_STATE_B_PERIPHERAL =>
      otg_chrg_vbus 0;; otg_loc_conn 1;; otg_loc_sof 0;; otg_set_protocol PROTO_GADGET;; mret tt
  | OTG_STATE_B_WAIT_ACON =>
      otg_chrg_vbus 0;; otg_loc_conn 0;; otg_loc_sof 0;; otg_set_protocol PROTO_HOST;;
      fsl_otg_add_timer b_ase0_brst_tmr;; wrv a_bus_suspend 0
  | OTG_STATE_B_HOST =>
      otg_chrg_vbus 0;; otg_loc_conn 0;; otg_loc_sof 1;; otg_set_protocol PROTO_HOST;;
      h ← gets host; b ← deref h; usb_bus_start_enum b (otg_port b);; mret tt
  | OTG_STATE_A_IDLE =>
      otg_drv_vbus 0;; otg_chrg_vbus 0;; otg_loc_conn 0;; otg_loc_sof 0;; otg_set_protocol PROTO_HOST;; mret tt
  | OTG_STATE_A_WAIT_VRISE =>
      otg_drv_vbus 1;; otg_loc_conn 0;; otg_loc_sof 0;; otg_set_protocol PROTO_HOST;; fsl_otg_add_timer a_wait_vrise_tmr
  | OTG_STATE_A_WAIT_BCON =>
      otg_drv_vbus 1;; otg_loc_conn 0;; otg_loc_sof 0;; otg_set_protocol PROTO_HOST;; fsl_otg_add_timer a_wait_bcon_tmr
  | OTG_STATE_A_HOST =>
      otg_drv_vbus 1;; otg_loc_conn 0;; otg_loc_sof 1;; otg_set_protocol PROTO_HOST;;
      req ← rdv a_bus_req; sus ← rdv a_suspend_req;
      if negb (nz req) || nz sus then fsl_otg_add_timer a_wait_enum_tmr else mret tt
  | OTG_STATE_A_SUSPEND =>
      otg_drv_vbus 1;; otg_loc_conn 0;; otg_loc_sof 0;; otg_set_protocol PROTO_HOST;; fsl_otg_add_timer a_aidl_bdis_tmr
  | OTG_STATE_A_PERIPHERAL =>
      otg_loc_conn 1;; otg_loc_sof 0;; otg_set_protocol PROTO_GADGET;; otg_drv_vbus 1
  | OTG_STATE_A_WAIT_VFALL =>
      otg_drv_vbus 0;; otg_loc_conn 0;; otg_loc_sof 0;; otg_set_protocol PROTO_HOST;; mret tt
  | OTG_STATE_A_VBUS_ERR =>
      otg_drv_vbus 0;; otg_loc_conn 0;; otg_loc_sof 0;; otg_set_protocol PROTO_UNDEF;; mret tt
  | OTG_STATE_UNDEFINED => mret tt
  end.

Definition otg_set_state (new_state : usb_otg_state) : M otgst unit :=
  modify (with_changed 1);;
  st ← gets state;
  if decide (st = new_state) then mret tt
  else
    otg_leave_state st;;
    enter_state new_state;;
    modify (with_state new_state).

(** [b_hnp_enable] of the host, which must be there. *)
Definition host_hnp : M otgst bool := h ← gets host; b ← deref h; mret (nz (host_b_hnp_enable b)).

Definition otg_statemachine : M otgst Z :=
  st ← gets state;
  modify (with_changed 0);;
  f ← gets fsm;
  let on v := nz (f v) in
  (match st with
   | OTG_STATE_UNDEFINED => if on id then otg_set_state OTG_STATE_B_IDLE else otg_set_state OTG_STATE_A_IDLE
   | OTG_STATE_B_IDLE =>
       g ← gets gadget;
       if negb (on id) then otg_set_state OTG_STATE_A_IDLE
       else if on b_sess_vld && bool_decide (is_Some g) then otg_set_state OTG_STATE_B_PERIPHERAL
       else if on b_bus_req && on b_sess_end && on b_se0_srp then otg_set_state OTG_STATE_B_SRP_INIT
       else mret tt
   | OTG_STATE_B_SRP_INIT => if negb (on id) || on b_srp_done then otg_set_state OTG_STATE_B_IDLE else mret tt
   | OTG_STATE_B_PERIPHERAL =>
       if negb (on id) || negb (on b_sess_vld) then otg_set_state OTG_STATE_B_IDLE
       else if on b_bus_req then
         g ← gets gadget; b ← deref g;
         if nz (gadget_b_hnp_enable b) && on a_bus_suspend then otg_set_state OTG_STATE_B_WAIT_ACON else mret tt
       else mret tt
   | OTG_STATE_B_WAIT_ACON =>
       if on a_conn then otg_set_state OTG_STATE_B_HOST
       else if negb (on id) || negb (on b_sess_vld) then otg_set_state OTG_STATE_B_IDLE
       else if on a_bus_resume || on b_ase0_brst_tmout then
         wrv b_ase0_brst_tmout 0;; otg_set_state OTG_STATE_B_PERIPHERAL
       else mret tt
   | OTG_STATE_B_HOST =>
       if negb (on id) || negb (on b_sess_vld) then otg_set_state OTG_STATE_B_IDLE
       else if negb (on b_bus_req) || negb (on a_conn) then otg_set_state OTG_STATE_B_PERIPHERAL
       else mret tt
   | OTG_STATE_A_IDLE =>
       if on id then otg_set_state OTG_STATE_B_IDLE
       else if negb (on a_bus_drop) && (on a_bus_req || on a_srp_det) then otg_set_state OTG_STATE_A_WAIT_VRISE
       else mret tt
   | OTG_STATE_A_WAIT_VRISE =>
       if on id || on a_bus_drop || on a_vbus_vld || on a_wait_vrise_tmout then otg_set_state OTG_STATE_A_WAIT_BCON
       else mret tt
   | OTG_STATE_A_WAIT_BCON =>
       if negb (on a_vbus_vld) then otg_set_state OTG_STATE_A_VBUS_ERR
       else if on b_conn then otg_set_state OTG_STATE_A_HOST
       else if nz (Z.lor (Z.lor (f id) (f a_bus_drop)) (f a_wait_bcon_tmout)) then otg_set_state OTG_STATE_A_WAIT_VFALL
       else mret tt
   | OTG_STATE_A_HOST =>
       suspend ← (if negb (on a_bus_req) || on a_suspend_req then host_hnp else mret false);
       if (suspend : bool) then otg_set_state OTG_STATE_A_SUSPEND
       else if on id || negb (on b_conn) || on a_bus_drop then otg_set_state OTG_STATE_A_WAIT_BCON
       else if negb (on a_vbus_vld) then otg_set_state OTG_STATE_A_VBUS_ERR
       else mret tt
   | OTG_STATE_A_SUSPEND =>
       if negb (on b_conn) then
         hnp ← host_hnp;
         if (hnp : bool) then otg_set_state OTG_STATE_A_PERIPHERAL else otg_set_state OTG_STATE_A_WAIT_BCON
       else if on a_bus_req || on b_bus_resume then otg_set_state OTG_STATE_A_HOST
       else if on id || on a_bus_drop || on a_aidl_bdis_tmout then otg_set_state OTG_STATE_A_WAIT_VFALL
       else if negb (on a_vbus_vld) then otg_set_state OTG_STATE_A_VBUS_ERR
       else mret tt
   | OTG_STATE_A_PERIPHERAL =>
       if on id || on a_bus_drop then otg_set_state OTG_STATE_A_WAIT_VFALL
       else if on b_bus_suspend then otg_set_state OTG_STATE_A_WAIT_BCON
       else if negb (on a_vbus_vld) then otg_set_state OTG_STATE_A_VBUS_ERR
       else mret tt
   | OTG_STATE_A_WAIT_VFALL =>
       if on id || on a_bus_req || (negb (on a_sess_vld) && negb (on b_conn)) then otg_set_state OTG_STATE_A_IDLE
       else mret tt
   | OTG_STATE_A_VBUS_ERR =>
       if on id || on a_bus_drop || on a_clr_err then otg_set_state OTG_STATE_A_WAIT_VFALL else mret tt
   end);;
  gets state_changed.

(** ** Timers *)

Definition fsl_otg_pulse_vbus : M otgst unit :=
  modify (with_srp 0);; fsl_otg_chrg_vbus 1;; fsl_otg_add_timer b_vbus_pulse_tmr.

Definition b_data_pulse_end : M otgst unit := fsl_otg_loc_conn 0;; fsl_otg_pulse_vbus.

Definition b_vbus_pulse_end : M otgst unit :=
  fsl_otg_chrg_vbus 0;; fsl_otg_dischrg_vbus 1;; fsl_otg_add_timer b_srp_wait_tmr.

Definition b_srp_end : M otgst unit :=
  fsl_otg_dischrg_vbus 0;;
  modify (with_srp 1);;
  st ← gets state;
  vld ← rdv b_sess_vld;
  if bool_decide (st = OTG_STATE_B_SRP_INIT) && nz vld then wrv b_srp_done 1 else mret tt.

Definition a_wait_enum : M otgst unit :=
  hnp ← host_hnp;
  if (hnp : bool) then otg_statemachine;; mret tt else fsl_otg_add_timer a_wait_enum_tmr.

Definition set_tmout (indicator : var) : M otgst unit := wrv indicator 1.

Definition call_timer (f : timer_fn) : M otgst unit :=
  match f with
  | set_tmout_fn v => set_tmout v
  | a_wait_enum_fn => a_wait_enum
  | b_srp_end_fn => b_srp_end
  | b_data_pulse_end_fn => b_data_pulse_end
  | b_vbus_pulse_end_fn => b_vbus_pulse_end
  end.

(** The element after [t] of a list; [Some None] at the end, [None] when [t] is
    not in the list (its links are poisoned). *)
Fixpoint next_of (t : timer) (l : list timer) : option (option timer) :=
  match l with
  | [] => None
  | u :: l' => if decide (u = t) then Some (head l') else next_of t l'
  end.

(** [list_for_each_entry_safe]: the element after the current one is read before
    the body runs.  When the body removed that element, the walk goes on along
    poisoned links, which faults. *)
Fixpoint tick_loop (fuel : nat) (cur : option timer) (expired : Z) : M otgst Z :=
  match cur with
  | None => mret expired
  | Some t =>
      match fuel with
      | O => crash OutOfFuel
      | S n =>
          l ← gets active_timers;
          match next_of t l with
          | None => crash BadAccess
          | Some nxt =>
              c ← gets (fun s => counts s t);
              modify (fun s => with_timers (set_count t (u32 (c - 1)) (counts s)) (active_timers s) s);;
              if u32 (c - 1) =? 0 then
                fsl_otg_del_timer t;;
                call_timer (fst (fsl_otg_init_timers t));;
                tick_loop n nxt 1
              else tick_loop n nxt expired
          end
      end
  end.

(** Ten timers, each of which is put back at most once by what expires. *)
Definition fsl_otg_tick_timer : M otgst Z := l ← gets active_timers; tick_loop 32 (head l) 0.

(** ** Registration of the two drivers *)

Definition fsl_otg_initdata_port : Z := 1.

(** [ours]: the transceiver passed in is that of [fsl_otg_dev]. *)
Definition fsl_otg_set_host (ours : bool) (h : option usb_bus) : M otgst Z :=
  if negb ours then mret (- ENODEV) else
  modify (with_host h);;
  wrv a_bus_drop 0;;
  wrv a_bus_req 1;;
  (match h with
   | Some b =>
       i ← rdv id;
       modify (with_host (Some (mkBus (host_b_hnp_enable b) i fsl_otg_initdata_port (controller b) (has_port_reset b))));;
       match controller b with
       | Some (Some drv) => call_method (drv_has_suspend drv) HostSuspend;; mret tt
       | _ => mret tt
       end
   | None =>
       v ← rd_otgsc;
       if nz (Z.land v OTGSC_STS_USB_ID) then mret tt
       else modify (with_state OTG_STATE_UNDEFINED);; wrv protocol PROTO_UNDEF
   end);;
  modify (with_host_working 0);;
  otg_statemachine;;
  mret 0.

(** [fsl_otg_event] and the start of the gadget in [fsl_otg_set_peripheral]. *)
Definition switch_to_gadget : M otgst unit :=
  fsl_otg_start_host 0;; otg_drv_vbus 0;; fsl_otg_start_gadget 1;; mret tt.

Definition fsl_otg_set_peripheral (ours : bool) (g : option usb_gadget) : M otgst Z :=
  if negb ours then mret (- ENODEV) else
  match g with
  | None =>
      a ← gets default_a;
      old ← gets gadget;
      (if negb (nz a) then deref old;; call_driver VbusDraw;; mret tt else mret tt);;
      deref old;;
      call_driver VbusDisconnect;;
      modify (with_gadget None);;
      wrv b_bus_req 0;;
      otg_statemachine;;
      mret 0
  | Some g0 =>
      i ← rdv id;
      modify (with_gadget (Some (mkGadget (gadget_b_hnp_enable g0) (if nz i then 0 else 1))));;
      wrv b_bus_req 1;;
      (if i =? 1 then switch_to_gadget else mret tt);;
      mret 0
  end.

(** ** The ID pin *)

Definition fsl_otg_event : M otgst unit := i ← rdv id; if nz i then switch_to_gadget else mret tt.

Definition IRQ_NONE : Z := 0.

(** [fsm->id] and [default_a] from the register value. *)
Definition read_id (otg_sc : Z) : M otgst unit :=
  let i := if nz (Z.land otg_sc OTGSC_STS_USB_ID) then 1 else 0 in
  wrv id i;; modify (with_default_a (if i =? 0 then 1 else 0)).

Definition upd_is_b_host (i : Z) (b : usb_bus) : usb_bus :=
  mkBus (host_b_hnp_enable b) i (otg_port b) (controller b) (has_port_reset b).
Definition upd_is_a_peripheral (i : Z) (g : usb_gadget) : usb_gadget := mkGadget (gadget_b_hnp_enable g) i.

Definition fsl_otg_isr : M otgst Z :=
  otg_sc ← rd_otgsc;
  let otg_int_src := Z.land (Z.land otg_sc OTGSC_INTSTS_MASK) (Z.shiftr otg_sc 8) in
  v ← rd_otgsc;
  wr_otgsc (setb v (Z.land otg_sc OTGSC_INTSTS_MASK));;
  read_id otg_sc;;
  if nz otg_int_src && nz (Z.land otg_int_src OTGSC_IS_USB_ID) then
    read_id otg_sc;;
    i ← rdv id;
    modify (fun s => with_host (upd_is_b_host i <$> host s) s);;
    modify (fun s => with_gadget (upd_is_a_peripheral (if nz i then 0 else 1) <$> gadget s) s);;
    (if nz i then modify (with_event true)
     else
       modify (with_event false);;
       fsl_otg_start_gadget 0;;
       otg_drv_vbus 1;;
       fsl_otg_start_host 1;;
       mret tt);;
    mret IRQ_HANDLED
  else mret IRQ_NONE.

(** ** Start *)

(** [fsl_otg_config]: everything zero but the ID pin. *)
Definition otg_config (d : usb_dr_mmap) : otgst :=
  mkOtg (set_var id (if nz (Z.land (otgsc d) OTGSC_STS_USB_ID) then 1 else 0) (fun _ => 0))
    OTG_STATE_UNDEFINED 0 None None 0 false d (fun _ => 0) [] 0 0.

(** [res]: the platform device names an interrupt; [status] is what [request_irq]
    answers.  (When it fails the code frees the driver's state.) *)
Definition usb_otg_start (res : bool) (status : Z) : M otgst Z :=
  modify (with_state OTG_STATE_UNDEFINED);;
  if negb res then mret (- ENODEV)
  else if nz status then mret status
  else
    v ← rd_otgsc;
    (if nz (Z.land v OTGSC_STS_USB_ID) then modify (with_state OTG_STATE_UNDEFINED)
     else modify (with_state OTG_STATE_A_IDLE));;
    temp ← rd_otgsc;
    wr_otgsc (setb (clear temp OTGSC_INTERRUPT_ENABLE_BITS_MASK) OTGSC_IE_USB_ID);;
    mret 0.

End Otg.
