(* ===== verification/OtgFsm.v ===== *)
(** * The role state machine

    [otg_statemachine] against a pure transition function, the outputs of every
    state, and the question whether repeated calls come to rest. *)

From stdpp Require Import base gmap list.
From Stdlib Require Import ZArith Lia.
From S2P Require Import Prelude Otg.

(** ** States up to what the machine decides *)

(** Equality but for the registers and for [a_vbus_vld], which
    [fsl_otg_start_host] reads from them. *)
Record same_otg (s s' : otgst) : Prop := mkSame {
  so_fsm : forall v, v <> a_vbus_vld -> fsm s v = fsm s' v;
  so_state : state s = state s';
  so_host : host s = host s';
  so_gadget : gadget s = gadget s';
  so_working : host_working s = host_working s';
  so_counts : counts s = counts s';
  so_timers : active_timers s = active_timers s';
  so_changed : state_changed s = state_changed s';
  so_event : otg_event s = otg_event s';
  so_default : default_a s = default_a s';
}.

#[global] Instance otg_equiv : Equiv otgst := same_otg.

#[global] Instance otg_equivalence : Equivalence (≡@{otgst}).
Proof.
  split.
  - intros s. by split.
  - intros s s' [A B C D E F G H K L]. split; try done. intros v Hv. symmetry. auto.
  - intros s1 s2 s3 [A B C D E F G H K L] [A' B' C' D' E' F' G' H' K' L']. split; try congruence. intros v Hv. rewrite A; auto.
Qed.

Section Machine.
Context (ext : drv_call -> usb_dr_mmap -> Z * usb_dr_mmap).
Context (ext_ok : forall c d, fst (ext c d) = 0).

(** Both drivers are registered and complete. *)
Definition connected (s : otgst) : Prop :=
  (exists b drv, host s = Some b /\ controller b = Some (Some drv) /\ drv_has_suspend drv = true) /\ is_Some (gadget s).

(** [m] does what [F] says, up to [≡]. *)
Definition acts (m : M otgst unit) (F : otgst -> otgst) : Prop :=
  forall s s0, connected s0 -> s ≡ s0 -> wp m (fun _ s' => s' ≡ F s0) s.

(** An effect that keeps the registered drivers. *)
Definition keeps (F : otgst -> otgst) : Prop := forall s, host (F s) = host s /\ gadget (F s) = gadget s.

Lemma keeps_connected F s : keeps F -> connected s -> connected (F s).
Proof. intros H. unfold connected. by destruct (H s) as [-> ->]. Qed.

Lemma acts_seq {A} m (k : M otgst A) F (Q : A -> otgst -> Prop) s s0 :
  acts m F -> keeps F -> connected s0 -> s ≡ s0 ->
  (forall s1, connected (F s0) -> s1 ≡ F s0 -> wp k Q s1) -> wp (m;; k) Q s.
Proof.
  intros Hm HF Hc Hs Hk. apply wp_bind. eapply wp_mono; [by apply (Hm s s0)|]. intros [] s1 H1.
  apply Hk; [by apply keeps_connected|done].
Qed.

Lemma acts_comp m1 m2 F G : acts m1 F -> keeps F -> acts m2 G -> acts (m1;; m2) (fun s => G (F s)).
Proof. intros H1 HF H2 s s0 Hc Hs. eapply acts_seq; [exact H1|exact HF|exact Hc|exact Hs|]. intros s1 Hc1 Hs1. by apply H2. Qed.

Lemma acts_ret : acts (mret tt) (fun s => s).
Proof. intros s s0 _ Hs. by apply wp_ret. Qed.

(** ** Operations *)

(** The effect of a write to a member. *)
Definition setv (v : var) (x : Z) : otgst -> otgst := with_fsm (set_var v x).

Lemma acts_wrv v x : acts (wrv v x) (setv v x).
Proof.
  intros s s0 _ [A B C D E F G H K L]. apply wp_modify. split; try done. intros w Hw. cbn. unfold set_var. case_decide; [done|auto].
Qed.

Lemma acts_dr (f : otgst -> otgst) : (forall s, exists d, f s = with_dr d s) -> acts (modify f) (fun s => s).
Proof.
  intros H s s0 _ [A B C D E F G]. apply wp_modify. destruct (H s) as [d ->]. by split.
Qed.

Lemma acts_rd {A} (m : M otgst A) (k : A -> M otgst unit) F :
  (forall s, exists a, m s = Ret (a, s)) -> (forall a, acts (k a) F) -> acts (m ≫= k) F.
Proof.
  intros Hm Hk s s0 Hc Hs. apply wp_bind. unfold wp. destruct (Hm s) as [a ->]. by apply (Hk a).
Qed.

Lemma acts_wr_otgsc x : acts (wr_otgsc x) (fun s => s).
Proof. apply acts_dr. intros s. eexists. reflexivity. Qed.

Lemma acts_wr_portsc x : acts (wr_portsc x) (fun s => s).
Proof. apply acts_dr. intros s. eexists. reflexivity. Qed.

Lemma acts_if (b : bool) m1 m2 F : acts m1 F -> acts m2 F -> acts (if b then m1 else m2) F.
Proof. by destruct b. Qed.

Lemma acts_chrg on : acts (fsl_otg_chrg_vbus on) (fun s => s).
Proof. apply acts_rd; [by eexists|]. intros v. apply acts_if; apply acts_wr_otgsc. Qed.

Lemma acts_drv_reg on : acts (fsl_otg_drv_vbus on) (fun s => s).
Proof. apply acts_rd; [by eexists|]. intros v. apply acts_if; apply acts_wr_portsc. Qed.

Lemma acts_conn_reg on : acts (fsl_otg_loc_conn on) (fun s => s).
Proof. apply acts_rd; [by eexists|]. intros v. apply acts_if; apply acts_wr_otgsc. Qed.

(** A cached output. *)
Lemma acts_cached v on (op : M otgst unit) :
  v <> a_vbus_vld -> acts op (fun s => s) ->
  acts (x ← rdv v; if x =? on then mret tt else wrv v on;; op) (setv v on).
Proof.
  intros Hv Hop s s0 Hc Hs. apply wp_bind, wp_gets. destruct (Z.eqb_spec (fsm s v) on) as [E|E].
  - apply wp_ret. destruct Hs as [A B C D F G H I K L]. split; try done. intros w Hw. cbn. unfold set_var.
    case_decide; [by subst|auto].
  - eapply acts_seq; [apply acts_wrv|by intros|exact Hc|exact Hs|]. intros s1 Hc1 Hs1. by apply Hop.
Qed.

Lemma acts_drv_vbus on : acts (otg_drv_vbus on) (setv drv_vbus on).
Proof. apply acts_cached; [done|apply acts_drv_reg]. Qed.

Lemma acts_loc_conn on : acts (otg_loc_conn on) (setv loc_conn on).
Proof. apply acts_cached; [done|apply acts_conn_reg]. Qed.

Lemma acts_loc_sof on : acts (otg_loc_sof on) (setv loc_sof on).
Proof. apply acts_cached; [done|]. intros s s0 _ Hs. by apply wp_ret. Qed.

Definition add_timer (t : timer) (s : otgst) : otgst :=
  with_timers (set_count t (snd (fsl_otg_init_timers t)) (counts s))
    (if decide (t ∈ active_timers s) then active_timers s else active_timers s ++ [t]) s.
Definition del_timer (t : timer) (s : otgst) : otgst :=
  with_timers (counts s) (filter (fun u => u <> t) (active_timers s)) s.

Lemma acts_add t : acts (fsl_otg_add_timer t) (add_timer t).
Proof. intros s s0 _ [A B C D E F G H K L]. apply wp_modify. split; try done; cbn; by rewrite ?F, ?G. Qed.

Lemma acts_del t : acts (fsl_otg_del_timer t) (del_timer t).
Proof. intros s s0 _ [A B C D E F G H K L]. apply wp_modify. split; try done; cbn; by rewrite ?F, ?G. Qed.

(** ** Starting and stopping the drivers *)

Definition acts0 (m : M otgst Z) (F : otgst -> otgst) : Prop :=
  forall s s0, connected s0 -> s ≡ s0 -> wp m (fun r s' => r = 0 /\ s' ≡ F s0) s.

Lemma acts0_call c : acts0 (call_driver ext c) (fun s => s).
Proof.
  intros s s0 _ [A B C D E F G H K L]. apply wp_bind, wp_gets. cbn [fst snd]. apply wp_bind, wp_modify, wp_ret.
  split; [apply ext_ok|by split].
Qed.

Lemma acts0_seq {A} m (k : Z -> M otgst A) F (Q : A -> otgst -> Prop) s s0 :
  acts0 m F -> keeps F -> connected s0 -> s ≡ s0 ->
  (forall s1, connected (F s0) -> s1 ≡ F s0 -> wp (k 0) Q s1) -> wp (m ≫= k) Q s.
Proof.
  intros Hm HF Hc Hs Hk. apply wp_bind. eapply wp_mono; [by apply (Hm s s0)|]. intros r s1 [-> H1].
  apply Hk; [by apply keeps_connected|done].
Qed.

Lemma acts_reset : acts (otg_reset_controller true) (fun s => s).
Proof. unfold otg_reset_controller. apply (acts_comp _ _ (fun s => s) (fun s => s)); [|by intros|]; apply acts_dr; by eexists. Qed.

Lemma acts_vbus_vld x : acts (wrv a_vbus_vld x) (fun s => s).
Proof.
  intros s s0 _ [A B C D E F G H K L]. apply wp_modify. split; try done. intros w Hw. cbn. unfold set_var. case_decide; [done|auto].
Qed.

Lemma acts_ulpi a x : acts (write_ulpi a x) (fun s => s).
Proof. apply acts_dr. by eexists. Qed.

Lemma acts0_ret0 (m : M otgst unit) F : acts m F -> acts0 (m;; mret 0) F.
Proof. intros H s s0 Hc Hs. apply wp_bind. eapply wp_mono; [by apply (H s s0)|]. intros [] s' H'. by apply wp_ret. Qed.

(** A driver's method, and a register write when the ID pin is 1. *)
Lemma acts0_method c (m : M otgst unit) :
  acts m (fun s => s) -> acts0 (r ← call_driver ext c; i ← rdv id; (if nz i then m else mret tt);; mret r) (fun s => s).
Proof.
  intros Hm s s0 Hc Hs. eapply acts0_seq; [apply acts0_call|by intros|exact Hc|exact Hs|]. intros s1 _ H1.
  apply wp_bind, wp_gets. by apply (acts0_ret0 (if nz (fsm s1 id) then m else mret tt) (fun s => s)); [apply acts_if, acts_ret|..].
Qed.

Definition started (on : Z) (s : otgst) : otgst :=
  with_host_working (if nz on then (if nz (host_working s) then host_working s else 1) else 0) s.

Lemma with_working_same s : with_host_working (host_working s) s = s.
Proof. by destruct s. Qed.

Lemma acts_working x : acts (modify (with_host_working x)) (with_host_working x).
Proof. intros s s0 _ [A B C D E F G H K L]. apply wp_modify. by split. Qed.

Lemma acts0_start_host on : acts0 (fsl_otg_start_host ext true on) (started on).
Proof.
  intros s s0 Hc Hs. unfold fsl_otg_start_host, started. apply wp_bind, wp_gets.
  pose proof Hc as [(b & drv & Hb & Hd & Hsus) _]. rewrite (so_host _ _ Hs), Hb.
  apply wp_bind, wp_gets. eapply acts_seq; [apply acts_vbus_vld|by intros|exact Hc|exact Hs|]. intros s1 _ H1.
  apply wp_bind, wp_gets. rewrite (so_working _ _ H1). destruct (nz on) eqn:Hon.
  - destruct (nz (host_working s0)); [apply wp_ret; by rewrite with_working_same|].
    eapply acts_seq; [apply acts_reset|by intros|exact Hc|exact H1|]. intros s2 _ H2.
    apply wp_bind. eapply wp_deref; [exact Hd|]. apply wp_bind. eapply wp_deref; [reflexivity|].
    apply (acts0_seq _ _ (fun s => s) _ _ s0); [|by intros|exact Hc|exact H2|].
    + destruct (drv_has_resume drv); [|intros s3 s4 _ H3; by apply wp_ret].
      apply acts0_method, (acts_comp _ _ (fun s => s) (fun s => s)); [apply acts_drv_reg|by intros|apply acts_ulpi].
    + intros s3 _ H3. by apply (acts0_ret0 (modify (with_host_working 1)) _ (acts_working 1)).
  - destruct (nz (host_working s0)) eqn:Hw; cbn [negb].
    + rewrite Hd. apply (acts0_seq _ _ (fun s => s) _ _ s0); [|by intros|exact Hc|exact H1|].
      * rewrite Hsus. apply acts0_method, acts_drv_reg.
      * intros s3 _ H3. by apply (acts0_ret0 (modify (with_host_working 0)) _ (acts_working 0)).
    + apply wp_ret. split; [done|]. unfold nz in Hw. apply negb_false_iff, Z.eqb_eq in Hw.
      rewrite <- Hw, with_working_same. exact H1.
Qed.

Lemma acts0_start_gadget on : acts0 (fsl_otg_start_gadget ext on) (fun s => s).
Proof.
  intros s s0 Hc Hs. unfold fsl_otg_start_gadget. apply wp_bind, wp_gets.
  pose proof Hc as [_ [g Hg]]. rewrite (so_gadget _ _ Hs), Hg.
  apply (acts0_seq _ _ (fun s => s) _ _ s0); [|by intros|exact Hc|exact Hs|intros s1 _ H1; by apply wp_ret].
  destruct (nz on); apply acts0_call.
Qed.

(** A protocol's driver is started or stopped; [PROTO_UNDEF] has none. *)
Definition proto_start (p on : Z) (s : otgst) : otgst := if p =? PROTO_HOST then started on s else s.

Lemma acts0_proto p on :
  acts0 (if p =? PROTO_HOST then fsl_otg_start_host ext true on
         else if p =? PROTO_GADGET then fsl_otg_start_gadget ext on else mret 0) (proto_start p on).
Proof.
  unfold proto_start. destruct (p =? PROTO_HOST); [apply acts0_start_host|].
  destruct (p =? PROTO_GADGET); [apply acts0_start_gadget|]. intros s s0 _ Hs. by apply wp_ret.
Qed.

Lemma keeps_proto p on : keeps (proto_start p on).
Proof. intros s. unfold proto_start. by case_match. Qed.

Definition switched (p : Z) (s : otgst) : otgst :=
  if fsm s protocol =? p then s
  else setv protocol p (proto_start p 1 (proto_start (fsm s protocol) 0 s)).

Lemma acts0_set_protocol p : acts0 (otg_set_protocol ext true p) (switched p).
Proof.
  intros s s0 Hc Hs. unfold otg_set_protocol, switched. apply wp_bind, wp_gets. rewrite (so_fsm _ _ Hs) by done.
  destruct (fsm s0 protocol =? p); [by apply wp_ret|].
  eapply acts0_seq; [apply acts0_proto|apply keeps_proto|exact Hc|exact Hs|]. intros s1 Hc1 H1.
  cbn [nz Z.eqb negb]. eapply acts0_seq; [apply acts0_proto|apply keeps_proto|exact Hc1|exact H1|]. intros s2 Hc2 H2.
  cbn [nz Z.eqb negb]. by apply (acts0_ret0 (wrv protocol p) _ (acts_wrv _ _)).
Qed.

(** ** Leaving and entering a state *)

Definition left_state (st : usb_otg_state) (s : otgst) : otgst :=
  match st with
  | OTG_STATE_B_IDLE => setv b_se0_srp 0 (del_timer b_se0_srp_tmr s)
  | OTG_STATE_B_SRP_INIT => setv b_srp_done 0 s
  | OTG_STATE_B_WAIT_ACON => setv b_ase0_brst_tmout 0 (del_timer b_ase0_brst_tmr s)
  | OTG_STATE_A_WAIT_VRISE => setv a_wait_vrise_tmout 0 (del_timer a_wait_vrise_tmr s)
  | OTG_STATE_A_WAIT_BCON => setv a_wait_bcon_tmout 0 (del_timer a_wait_bcon_tmr s)
  | OTG_STATE_A_HOST => del_timer a_wait_enum_tmr s
  | OTG_STATE_A_SUSPEND => setv a_suspend_req 0 (setv a_aidl_bdis_tmout 0 (del_timer a_aidl_bdis_tmr s))
  | OTG_STATE_A_WAIT_VFALL => del_timer a_wait_vrise_tmr s
  | _ => s
  end.

(** The outputs of a state: [drv_vbus] where it sets it, [loc_conn], [loc_sof], the
    protocol. *)
Definition sets_vbus (st : usb_otg_state) : option Z :=
  match st with
  | OTG_STATE_B_IDLE | OTG_STATE_A_IDLE | OTG_STATE_A_WAIT_VFALL | OTG_STATE_A_VBUS_ERR => Some 0
  | OTG_STATE_A_WAIT_VRISE | OTG_STATE_A_WAIT_BCON | OTG_STATE_A_HOST | OTG_STATE_A_SUSPEND
  | OTG_STATE_A_PERIPHERAL => Some 1
  | _ => None
  end.
Definition sets_conn (st : usb_otg_state) : option Z :=
  match st with
  | OTG_STATE_B_SRP_INIT => None
  | OTG_STATE_B_PERIPHERAL | OTG_STATE_A_PERIPHERAL => Some 1
  | _ => Some 0
  end.
Definition sets_sof (st : usb_otg_state) : Z :=
  match st with OTG_STATE_B_HOST | OTG_STATE_A_HOST => 1 | _ => 0 end.
Definition sets_proto (st : usb_otg_state) : Z :=
  match st with
  | OTG_STATE_UNDEFINED | OTG_STATE_B_IDLE | OTG_STATE_B_SRP_INIT | OTG_STATE_A_VBUS_ERR => PROTO_UNDEF
  | OTG_STATE_B_PERIPHERAL | OTG_STATE_A_PERIPHERAL => PROTO_GADGET
  | _ => PROTO_HOST
  end.

Definition opt_setv (v : var) (x : option Z) (s : otgst) : otgst := from_option (fun x => setv v x s) s x.

Definition outputs (st : usb_otg_state) (s : otgst) : otgst :=
  switched (sets_proto st) (setv loc_sof (sets_sof st) (opt_setv loc_conn (sets_conn st) (opt_setv drv_vbus (sets_vbus st) s))).

(** The timer a state starts. *)
Definition starts (st : usb_otg_state) (s : otgst) : otgst :=
  match st with
  | OTG_STATE_B_IDLE => add_timer b_se0_srp_tmr s
  | OTG_STATE_B_SRP_INIT => add_timer b_srp_fail_tmr s
  | OTG_STATE_B_WAIT_ACON => setv a_bus_suspend 0 (add_timer b_ase0_brst_tmr s)
  | OTG_STATE_A_WAIT_VRISE => add_timer a_wait_vrise_tmr s
  | OTG_STATE_A_WAIT_BCON => add_timer a_wait_bcon_tmr s
  | OTG_STATE_A_HOST => if negb (nz (fsm s a_bus_req)) || nz (fsm s a_suspend_req) then add_timer a_wait_enum_tmr s else s
  | OTG_STATE_A_SUSPEND => add_timer a_aidl_bdis_tmr s
  | _ => s
  end.

Definition entered (st : usb_otg_state) (s : otgst) : otgst :=
  starts st (outputs st (if decide (st = OTG_STATE_B_SRP_INIT) then add_timer b_data_pulse_tmr s else s)).

Lemma keeps_switched p : keeps (switched p).
Proof. intros s. unfold switched. case_match; [done|]. cbn. unfold proto_start. by repeat case_match. Qed.

(** A sequence of operations: the effect is built from those of its parts. *)
Lemma acts_comp0 m1 m2 F G : acts0 m1 F -> keeps F -> acts m2 G -> acts (m1;; m2) (fun s => G (F s)).
Proof. intros H1 HF H2 s s0 Hc Hs. eapply acts0_seq; [exact H1|exact HF|exact Hc|exact Hs|]. intros s1 Hc1 Hs1. by apply H2. Qed.

Lemma acts_effect m F G : acts m F -> (forall s, F s ≡ G s) -> acts m G.
Proof. intros H E s s0 Hc Hs. eapply wp_mono; [by apply (H s s0)|]. intros [] s' H'. by rewrite <- E. Qed.

Lemma acts_srp x : acts (modify (with_srp x)) (fun s => s).
Proof. intros s s0 _ [A B C D E F G H K L]. apply wp_modify. by split. Qed.

Lemma acts_enum : acts (h ← gets host; b ← deref h; usb_bus_start_enum ext b (otg_port b);; mret tt) (fun s => s).
Proof.
  intros s s0 Hc Hs. apply wp_bind, wp_gets. pose proof Hc as [(b & drv & Hb & _) _].
  apply wp_bind. eapply wp_deref; [by rewrite (so_host _ _ Hs)|]. unfold usb_bus_start_enum.
  apply wp_bind, wp_bind. destruct (nz (otg_port b) && has_port_reset b).
  - eapply wp_mono; [by apply (acts0_call (StartPortReset (otg_port b)) s s0)|]. intros r s1 [-> H1]. cbn [Z.eqb].
    apply wp_bind. eapply wp_mono; [by apply (acts_comp0 _ _ _ _ (acts0_call RhTimer) (fun s => conj eq_refl eq_refl) acts_ret s1 s0)|]. intros [] s2 H2. apply wp_ret, wp_ret. exact H2.
  - apply wp_ret. cbn. apply wp_bind, wp_ret, wp_ret, wp_ret. exact Hs.
Qed.

Create HintDb otg.
Hint Resolve acts_chrg acts_drv_vbus acts_loc_conn acts_loc_sof acts_conn_reg acts_add acts_del acts_wrv acts_srp acts_enum
  acts_ret : otg.
Hint Resolve acts0_set_protocol : otg.
Hint Resolve keeps_switched : otg.

Ltac acts_compose :=
  eapply acts_effect;
  [repeat first [solve [eauto with otg]
                |eapply acts_comp; [solve [eauto with otg]|first [apply keeps_switched|by intros]|]
                |eapply acts_comp0; [solve [eauto with otg]|first [apply keeps_switched|by intros]|]]|].

Lemma acts_leave st : acts (otg_leave_state st) (left_state st).
Proof. destruct st; cbn [otg_leave_state left_state]; acts_compose; reflexivity. Qed.

Lemma acts_pulse : acts (fsl_otg_start_pulse) (add_timer b_data_pulse_tmr).
Proof. unfold fsl_otg_start_pulse. acts_compose. reflexivity. Qed.

Lemma acts_wait_enum :
  acts (req ← rdv a_bus_req; sus ← rdv a_suspend_req;
        if negb (nz req) || nz sus then fsl_otg_add_timer a_wait_enum_tmr else mret tt) (starts OTG_STATE_A_HOST).
Proof.
  intros s s0 Hc Hs. apply wp_bind, wp_gets, wp_bind, wp_gets. rewrite !(so_fsm _ _ Hs) by done. cbn [starts].
  destruct (negb (nz (fsm s0 a_bus_req)) || nz (fsm s0 a_suspend_req)); [by apply acts_add|by apply acts_ret].
Qed.
Hint Resolve acts_pulse acts_wait_enum : otg.

Lemma setv_ne v w x s : w <> v -> fsm (setv v x s) w = fsm s w.
Proof. intros H. cbn. unfold set_var. by case_decide. Qed.

Lemma setv_eq v x s : fsm (setv v x s) v = x.
Proof. cbn. unfold set_var. by case_decide. Qed.

Lemma setv_comm v w x y s : v <> w -> setv v x (setv w y s) ≡ setv w y (setv v x s).
Proof. intros H. split; try done. intros u _. cbn. unfold set_var. repeat case_decide; congruence. Qed.

#[local] Instance setv_proper v x : Proper ((≡) ==> (≡)) (setv v x).
Proof. intros s s' [A B C D E F G H K L]. split; try done. intros u Hu. cbn. unfold set_var. case_decide; auto. Qed.

Lemma switched_setv p v x s : v <> protocol -> switched p (setv v x s) ≡ setv v x (switched p s).
Proof.
  intros H. unfold switched. rewrite setv_ne by done. destruct (fsm s protocol =? p); [done|].
  rewrite <- (setv_comm protocol v) by done. unfold proto_start. by repeat case_match.
Qed.

(** [A_PERIPHERAL] drives VBUS last. *)
Lemma vbus_last s :
  setv drv_vbus 1 (switched PROTO_GADGET (setv loc_sof 0 (setv loc_conn 1 s)))
  ≡ switched PROTO_GADGET (setv loc_sof 0 (setv loc_conn 1 (setv drv_vbus 1 s))).
Proof.
  rewrite !switched_setv by done. rewrite (setv_comm drv_vbus loc_sof) by done. by rewrite (setv_comm drv_vbus loc_conn).
Qed.

Lemma acts_enter st : st <> OTG_STATE_UNDEFINED -> acts (enter_state ext true st) (entered st).
Proof.
  intros Hst. destruct st; try done; cbn [enter_state]; unfold otg_chrg_vbus; acts_compose; intros s; try reflexivity. apply vbus_last.
Qed.

(** ** The transition *)

Definition goto (new : usb_otg_state) (s : otgst) : otgst :=
  with_state new (entered new (left_state (state s) (with_changed 1 s))).

Lemma keeps_left st : keeps (left_state st).
Proof. intros s. by destruct st. Qed.

Lemma keeps_entered st : keeps (entered st).
Proof.
  intros s. assert (H : keeps (starts st)) by (intros s'; destruct st; try done; cbn; by case_match).
  split; unfold entered, outputs.
  - rewrite (proj1 (H _)), (proj1 (keeps_switched _ _)). by destruct st.
  - rewrite (proj2 (H _)), (proj2 (keeps_switched _ _)). by destruct st.
Qed.

Lemma wp_set_state new s s0 :
  new <> OTG_STATE_UNDEFINED -> state s0 <> new -> connected s0 -> s ≡ s0 ->
  wp (otg_set_state ext true new) (fun _ s' => s' ≡ goto new s0) s.
Proof.
  intros Hn Hne Hc Hs. unfold otg_set_state. apply wp_bind, wp_modify, wp_bind, wp_gets. cbn [state with_changed].
  rewrite (so_state _ _ Hs). rewrite decide_False by done.
  assert (H1 : with_changed 1 s ≡ with_changed 1 s0) by (destruct Hs; by split).
  apply (acts_seq _ _ (left_state (state s0)) _ _ (with_changed 1 s0)); [apply acts_leave|apply keeps_left|exact Hc|exact H1|].
  intros s1 Hc1 H2.
  eapply acts_seq; [by apply acts_enter|apply keeps_entered|exact Hc1|exact H2|]. intros s2 _ H3.
  apply wp_modify. destruct H3. by split.
Qed.
End Machine.
