(* ===== verification/OtgStep.v ===== *)
(** * One call of the role state machine

    The decision [otg_statemachine] takes as a pure function of the inputs, for the
    B side and for the A side, and the theorem that the call does exactly that
    transition. *)

From stdpp Require Import base gmap list.
From Stdlib Require Import ZArith Lia.
From S2P Require Import Prelude Otg OtgFsm.

(** ** Inputs *)

Record b_in : Type := mkBIn {
  bi_id : bool; bi_sess_vld : bool; bi_bus_req : bool; bi_sess_end : bool; bi_se0_srp : bool; bi_srp_done : bool;
  bi_a_suspend : bool; bi_a_conn : bool; bi_a_resume : bool; bi_ase0_brst : bool; bi_hnp : bool }.

Record a_in : Type := mkAIn {
  ai_id : bool; ai_drop : bool; ai_req : bool; ai_srp_det : bool; ai_vbus_vld : bool; ai_vrise_tmout : bool; ai_b_conn : bool;
  ai_bcon_tmout : bool; ai_suspend_req : bool; ai_b_resume : bool; ai_aidl_bdis : bool; ai_b_suspend : bool;
  ai_sess_vld : bool; ai_clr_err : bool; ai_hnp : bool }.

Definition b_inputs (s : otgst) : b_in :=
  let on v := nz (fsm s v) in
  mkBIn (on id) (on b_sess_vld) (on b_bus_req) (on b_sess_end) (on b_se0_srp) (on b_srp_done) (on a_bus_suspend) (on a_conn)
    (on a_bus_resume) (on b_ase0_brst_tmout) (from_option (fun g => nz (gadget_b_hnp_enable g)) false (gadget s)).

Definition a_inputs (s : otgst) : a_in :=
  let on v := nz (fsm s v) in
  mkAIn (on id) (on a_bus_drop) (on a_bus_req) (on a_srp_det) (on a_vbus_vld) (on a_wait_vrise_tmout) (on b_conn)
    (on a_wait_bcon_tmout) (on a_suspend_req) (on b_bus_resume) (on a_aidl_bdis_tmout) (on b_bus_suspend) (on a_sess_vld)
    (on a_clr_err) (from_option (fun b => nz (host_b_hnp_enable b)) false (host s)).

Definition a_side (st : usb_otg_state) : bool :=
  match st with
  | OTG_STATE_A_IDLE | OTG_STATE_A_WAIT_VRISE | OTG_STATE_A_WAIT_BCON | OTG_STATE_A_HOST | OTG_STATE_A_SUSPEND
  | OTG_STATE_A_PERIPHERAL | OTG_STATE_A_WAIT_VFALL | OTG_STATE_A_VBUS_ERR => true
  | _ => false
  end.

(** ** Decisions *)

(** The first transition of a list whose condition holds. *)
Fixpoint first_of (l : list (bool * usb_otg_state)) : option usb_otg_state :=
  match l with [] => None | (c, st) :: l' => if c then Some st else first_of l' end.

Definition b_next (i : b_in) (st : usb_otg_state) : option usb_otg_state :=
  let lost := negb (bi_id i) || negb (bi_sess_vld i) in
  match st with
  | OTG_STATE_UNDEFINED => Some (if bi_id i then OTG_STATE_B_IDLE else OTG_STATE_A_IDLE)
  | OTG_STATE_B_IDLE =>
      first_of [(negb (bi_id i), OTG_STATE_A_IDLE); (bi_sess_vld i, OTG_STATE_B_PERIPHERAL);
                (bi_bus_req i && bi_sess_end i && bi_se0_srp i, OTG_STATE_B_SRP_INIT)]
  | OTG_STATE_B_SRP_INIT => first_of [(negb (bi_id i) || bi_srp_done i, OTG_STATE_B_IDLE)]
  | OTG_STATE_B_PERIPHERAL =>
      first_of [(lost, OTG_STATE_B_IDLE); (bi_bus_req i && bi_hnp i && bi_a_suspend i, OTG_STATE_B_WAIT_ACON)]
  | OTG_STATE_B_WAIT_ACON =>
      first_of [(bi_a_conn i, OTG_STATE_B_HOST); (lost, OTG_STATE_B_IDLE);
                (bi_a_resume i || bi_ase0_brst i, OTG_STATE_B_PERIPHERAL)]
  | OTG_STATE_B_HOST => first_of [(lost, OTG_STATE_B_IDLE); (negb (bi_bus_req i) || negb (bi_a_conn i), OTG_STATE_B_PERIPHERAL)]
  | _ => None
  end.

Definition a_next (i : a_in) (st : usb_otg_state) : option usb_otg_state :=
  let away := ai_id i || ai_drop i in
  match st with
  | OTG_STATE_A_IDLE =>
      first_of [(ai_id i, OTG_STATE_B_IDLE); (negb (ai_drop i) && (ai_req i || ai_srp_det i), OTG_STATE_A_WAIT_VRISE)]
  | OTG_STATE_A_WAIT_VRISE => first_of [(away || ai_vbus_vld i || ai_vrise_tmout i, OTG_STATE_A_WAIT_BCON)]
  | OTG_STATE_A_WAIT_BCON =>
      first_of [(negb (ai_vbus_vld i), OTG_STATE_A_VBUS_ERR); (ai_b_conn i, OTG_STATE_A_HOST);
                (away || ai_bcon_tmout i, OTG_STATE_A_WAIT_VFALL)]
  | OTG_STATE_A_HOST =>
      first_of [((negb (ai_req i) || ai_suspend_req i) && ai_hnp i, OTG_STATE_A_SUSPEND);
                (ai_id i || negb (ai_b_conn i) || ai_drop i, OTG_STATE_A_WAIT_BCON);
                (negb (ai_vbus_vld i), OTG_STATE_A_VBUS_ERR)]
  | OTG_STATE_A_SUSPEND =>
      first_of [(negb (ai_b_conn i) && ai_hnp i, OTG_STATE_A_PERIPHERAL); (negb (ai_b_conn i), OTG_STATE_A_WAIT_BCON);
                (ai_req i || ai_b_resume i, OTG_STATE_A_HOST); (away || ai_aidl_bdis i, OTG_STATE_A_WAIT_VFALL);
                (negb (ai_vbus_vld i), OTG_STATE_A_VBUS_ERR)]
  | OTG_STATE_A_PERIPHERAL =>
      first_of [(away, OTG_STATE_A_WAIT_VFALL); (ai_b_suspend i, OTG_STATE_A_WAIT_BCON);
                (negb (ai_vbus_vld i), OTG_STATE_A_VBUS_ERR)]
  | OTG_STATE_A_WAIT_VFALL =>
      first_of [(ai_id i || ai_req i || (negb (ai_sess_vld i) && negb (ai_b_conn i)), OTG_STATE_A_IDLE)]
  | OTG_STATE_A_VBUS_ERR => first_of [(away || ai_clr_err i, OTG_STATE_A_WAIT_VFALL)]
  | _ => None
  end.

Definition next_state (s : otgst) : option usb_otg_state :=
  if a_side (state s) then a_next (a_inputs s) (state s) else b_next (b_inputs s) (state s).

(** What a call of the machine does. *)
Definition step (s : otgst) : otgst :=
  match next_state s with Some n => goto n (with_changed 0 s) | None => with_changed 0 s end.

Lemma nz_lor a b : nz (Z.lor a b) = nz a || nz b.
Proof.
  unfold nz. destruct (Z.eqb_spec (Z.lor a b) 0) as [E|E], (Z.eqb_spec a 0) as [->|Ha], (Z.eqb_spec b 0) as [->|Hb]; try done;
    apply Z.lor_eq_0_iff in E; tauto.
Qed.

(** ** Effects respect [≡] *)

#[export] Instance setv_proper v x : Proper ((≡) ==> (≡)) (setv v x).
Proof. intros s s' [A B C D E F G H K L]. split; try done. intros u Hu. cbn. unfold set_var. case_decide; auto. Qed.

#[export] Instance add_timer_proper t : Proper ((≡) ==> (≡)) (add_timer t).
Proof. intros s s' [A B C D E F G H K L]. split; try done; cbn; by rewrite ?F, ?G. Qed.

#[export] Instance switched_proper p : Proper ((≡) ==> (≡)) (switched p).
Proof.
  intros s s' H. unfold switched. rewrite (so_fsm _ _ H) by done. destruct (fsm s' protocol =? p); [done|].
  apply setv_proper. pose proof (so_working _ _ H) as E. destruct H. unfold proto_start, started.
  repeat case_match; split; cbn in *; congruence || auto.
Qed.

#[export] Instance opt_setv_proper v x : Proper ((≡) ==> (≡)) (opt_setv v x).
Proof. intros s s' H. destruct x; cbn; [by apply setv_proper|done]. Qed.

#[export] Instance entered_proper st : Proper ((≡) ==> (≡)) (entered st).
Proof.
  assert (Hs : Proper ((≡) ==> (≡)) (starts st)).
  { intros s s' H. destruct st; cbn [starts]; rewrite ?(so_fsm _ _ H) by done; try case_match; by rewrite H. }
  assert (Ho : Proper ((≡) ==> (≡)) (outputs st)) by (intros s s' H; unfold outputs; by rewrite H).
  intros s s' H. unfold entered. case_decide; by rewrite H.
Qed.

#[export] Instance with_state_proper st : Proper ((≡) ==> (≡)) (with_state st).
Proof. intros s s' []. by split. Qed.

(** ** A call of the machine *)

Section Call.
Context (ext : drv_call -> usb_dr_mmap -> Z * usb_dr_mmap).
Context (ext_ok : forall c d, fst (ext c d) = 0).

(** [B_WAIT_ACON] clears its time-out twice. *)
Lemma clear_twice s :
  state s = OTG_STATE_B_WAIT_ACON -> goto OTG_STATE_B_PERIPHERAL (setv b_ase0_brst_tmout 0 s) ≡ goto OTG_STATE_B_PERIPHERAL s.
Proof.
  intros H. unfold goto. cbn [state setv with_fsm]. rewrite H. cbn [left_state]. apply with_state_proper, entered_proper.
  split; try done. intros v _. cbn. unfold set_var. by case_decide.
Qed.

Lemma switched_changed p s : state_changed (switched p s) = state_changed s.
Proof. unfold switched, proto_start. by repeat case_match. Qed.

Lemma goto_changed n s : state_changed (goto n s) = 1.
Proof.
  unfold goto, entered, outputs. cbn [state_changed with_state]. transitivity (state_changed (left_state (state s) (with_changed 1 s))).
  - trans (state_changed (outputs n (if decide (n = OTG_STATE_B_SRP_INIT) then add_timer b_data_pulse_tmr
      (left_state (state s) (with_changed 1 s)) else left_state (state s) (with_changed 1 s)))).
    + unfold outputs. destruct n; try reflexivity. cbn [starts]. by case_match.
    + unfold outputs. rewrite switched_changed. by destruct n.
  - by destruct (state s).
Qed.

Lemma wp_host_hnp {A} (k : bool -> M otgst A) Q s b :
  host s = Some b -> wp (k (nz (host_b_hnp_enable b))) Q s -> wp (host_hnp ≫= k) Q s.
Proof.
  intros Hb Hk. apply wp_bind. unfold host_hnp. apply wp_bind, wp_gets, wp_bind. eapply wp_deref; [exact Hb|]. by apply wp_ret.
Qed.

(** Decide the next input the goal asks for. *)
Ltac by_input :=
  match goal with
  | |- context [nz (fsm ?s ?v)] => destruct (nz (fsm s v)) eqn:?
  | |- context [nz (host_b_hnp_enable ?b)] => destruct (nz (host_b_hnp_enable b)) eqn:?
  | |- context [nz (gadget_b_hnp_enable ?g)] => destruct (nz (gadget_b_hnp_enable g)) eqn:?
  end.

Lemma step_changed s : state_changed (step s) = if next_state s is Some _ then 1 else 0.
Proof. unfold step. destruct (next_state s); [apply goto_changed|done]. Qed.

Lemma wait_acon_back s :
  state s = OTG_STATE_B_WAIT_ACON -> connected s ->
  wp (otg_set_state ext true OTG_STATE_B_PERIPHERAL)
    (fun _ s' => s' ≡ goto OTG_STATE_B_PERIPHERAL (with_changed 0 s))
    (with_fsm (set_var b_ase0_brst_tmout 0) (with_changed 0 s)).
Proof.
  intros Hst Hc. eapply wp_mono.
  - apply (wp_set_state ext ext_ok _ _ (setv b_ase0_brst_tmout 0 (with_changed 0 s))); [done| |exact Hc|reflexivity].
    cbn. by rewrite Hst.
  - intros [] s' H. by rewrite H, clear_twice.
Qed.

(** Take the branch the inputs decide: read the drivers' flags, then move or stay. *)
Ltac branch Hc Hb Hg Hst :=
  cbn [negb orb andb first_of];
  repeat match goal with
  | |- wp (gets gadget ≫= _) _ _ => apply wp_bind, wp_gets; cbn [gadget with_changed]; apply wp_bind; eapply wp_deref; [exact Hg|]
  | |- wp (host_hnp ≫= _) _ _ => eapply wp_host_hnp; [exact Hb|]
  | |- wp (mret _ ≫= _) _ _ => apply wp_bind, wp_ret
  | H : nz _ = _ |- _ => rewrite H; clear H
  end;
  cbn [negb orb andb];
  first [apply wp_ret; reflexivity
        |apply wp_set_state; [exact ext_ok|discriminate|cbn; rewrite Hst; discriminate|exact Hc|reflexivity]
        |apply wp_bind, wp_modify, wait_acon_back; [exact Hst|exact Hc]].

Lemma machine_step s :
  connected s ->
  wp (otg_statemachine ext true) (fun r s' => r = (if next_state s is Some _ then 1 else 0) /\ s' ≡ step s) s.
Proof.
  intros Hc. pose proof Hc as [(b & drv & Hb & _) [g Hg]]. unfold otg_statemachine.
  apply wp_bind, wp_gets, wp_bind, wp_modify, wp_bind, wp_gets, wp_bind.
  apply (wp_mono _ (fun _ s' => s' ≡ step s)).
  2: { intros [] s' H. apply wp_gets. split; [|exact H]. rewrite (so_changed _ _ H). apply step_changed. }
  cbn [fsm with_changed]. unfold step, next_state.
  destruct (state s) eqn:Hst; cbn [a_side a_next b_next a_inputs b_inputs bi_id bi_sess_vld bi_bus_req bi_sess_end bi_se0_srp
    bi_srp_done bi_a_suspend bi_a_conn bi_a_resume bi_ase0_brst bi_hnp ai_id ai_drop ai_req ai_srp_det ai_vbus_vld
    ai_vrise_tmout ai_b_conn ai_bcon_tmout ai_suspend_req ai_b_resume ai_aidl_bdis ai_b_suspend ai_sess_vld ai_clr_err ai_hnp];
    rewrite ?Hb, ?Hg; cbn [from_option]; rewrite ?nz_lor;
    try (apply wp_bind, wp_gets; cbn [gadget with_changed]; rewrite ?Hg).
  all: repeat by_input; branch Hc Hb Hg Hst.
Qed.
End Call.
