(* ===== verification/OtgInv.v ===== *)
(** * The outputs of the role state machine

    Every state of the OTG machine has its outputs: whether VBUS is driven, whether
    the pull-up is connected, whether frames are sent, which protocol runs, and
    which timers may be pending.  [moore] says that they agree with the state. *)

From stdpp Require Import base gmap list.
From Stdlib Require Import ZArith Lia.
From S2P Require Import Prelude Otg OtgFsm OtgStep.

(** ** The outputs of a state *)

Definition out_vbus (st : usb_otg_state) : Z := default 0 (sets_vbus st).
Definition out_conn (st : usb_otg_state) : Z := default 0 (sets_conn st).

(** The state a timer belongs to. *)
Definition owner (t : timer) : option usb_otg_state :=
  match t with
  | b_se0_srp_tmr => Some OTG_STATE_B_IDLE
  | b_ase0_brst_tmr => Some OTG_STATE_B_WAIT_ACON
  | a_wait_vrise_tmr => Some OTG_STATE_A_WAIT_VRISE
  | a_wait_bcon_tmr => Some OTG_STATE_A_WAIT_BCON
  | a_aidl_bdis_tmr => Some OTG_STATE_A_SUSPEND
  | a_wait_enum_tmr => Some OTG_STATE_A_HOST
  | _ => None
  end.

Record moore (s : otgst) : Prop := mkMoore {
  mo_vbus : fsm s drv_vbus = out_vbus (state s);
  mo_conn : fsm s loc_conn = out_conn (state s);
  mo_sof : fsm s loc_sof = sets_sof (state s);
  mo_proto : fsm s protocol = sets_proto (state s);
  mo_host : nz (host_working s) = (fsm s protocol =? PROTO_HOST);
  mo_owner : forall t, t ∈ active_timers s -> owner t = None \/ owner t = Some (state s);
  mo_nodup : NoDup (active_timers s);
}.

#[export] Instance moore_proper : Proper ((≡) ==> impl) moore.
Proof.
  intros s s' [A B C D E F G H K L] [M1 M2 M3 M4 M5 M6 M7].
  rewrite !A, B in * by done. rewrite E, G in *. by split.
Qed.

#[export] Instance connected_proper : Proper ((≡) ==> impl) connected.
Proof. intros s s' [A B C D E F G H K L]. unfold connected, impl. by rewrite C, D. Qed.

(** ** Members after a transition *)

Definition is_output (v : var) : bool :=
  match v with drv_vbus | loc_conn | loc_sof | protocol => true | _ => false end.

(** The members cleared on leaving a state, and on entering one. *)
Definition left_vars (st : usb_otg_state) : list var :=
  match st with
  | OTG_STATE_B_IDLE => [b_se0_srp]
  | OTG_STATE_B_SRP_INIT => [b_srp_done]
  | OTG_STATE_B_WAIT_ACON => [b_ase0_brst_tmout]
  | OTG_STATE_A_WAIT_VRISE => [a_wait_vrise_tmout]
  | OTG_STATE_A_WAIT_BCON => [a_wait_bcon_tmout]
  | OTG_STATE_A_SUSPEND => [a_suspend_req; a_aidl_bdis_tmout]
  | _ => []
  end.
Definition cleared (st new : usb_otg_state) (v : var) : Prop :=
  v ∈ left_vars st \/ new = OTG_STATE_B_WAIT_ACON /\ v = a_bus_suspend.

Lemma fsm_switched p s v : fsm (switched p s) v = if decide (v = protocol) then p else fsm s v.
Proof.
  unfold switched. destruct (Z.eqb_spec (fsm s protocol) p) as [E|E].
  - case_decide; by subst.
  - case_decide as H; [subst; by rewrite setv_eq|rewrite setv_ne by done]. unfold proto_start. by repeat case_match.
Qed.

Lemma fsm_starts st s v :
  fsm (starts st s) v = if decide (st = OTG_STATE_B_WAIT_ACON /\ v = a_bus_suspend) then 0 else fsm s v.
Proof.
  case_decide as H; [destruct H as [-> ->]; cbn [starts]; by rewrite setv_eq|].
  destruct st; try done; cbn [starts]; [|by case_match]. rewrite setv_ne; [done|]. by intros ->; apply H.
Qed.

Lemma fsm_left st s v : fsm (left_state st s) v = if decide (v ∈ left_vars st) then 0 else fsm s v.
Proof.
  destruct st; cbn [left_state left_vars]; case_decide as H; rewrite ?elem_of_cons, ?elem_of_nil in H; try tauto; try done.
  all: try (rewrite ?setv_ne by tauto; done).
  all: repeat (destruct H as [->|H]); try done; by rewrite ?setv_eq, ?setv_ne, ?setv_eq.
Qed.

#[export] Instance cleared_dec st new v : Decision (cleared st new v).
Proof. unfold cleared. apply _. Defined.

Lemma fsm_opt_setv w x s v : fsm (opt_setv w x s) v = if decide (v = w) then default (fsm s v) x else fsm s v.
Proof. destruct x; cbn [opt_setv from_option]; case_decide as H; [subst; by rewrite setv_eq|by rewrite setv_ne|done|done]. Qed.

(** The value of an output in a state. *)
Definition out (st : usb_otg_state) (old : Z) (v : var) : Z :=
  match v with
  | drv_vbus => default old (sets_vbus st)
  | loc_conn => default old (sets_conn st)
  | loc_sof => sets_sof st
  | protocol => sets_proto st
  | _ => old
  end.

Lemma fsm_outputs st s v : fsm (outputs st s) v = out st (fsm s v) v.
Proof.
  unfold outputs. rewrite fsm_switched. case_decide as H; [by subst|].
  destruct (decide (v = loc_sof)) as [->|H']; [by rewrite setv_eq|]. rewrite setv_ne by done. rewrite !fsm_opt_setv.
  repeat case_decide; subst; try done. by destruct v.
Qed.

Lemma fsm_goto n s v :
  fsm (goto n s) v = if decide (cleared (state s) n v) then 0 else out n (fsm s v) v.
Proof.
  unfold goto, entered. cbn [fsm with_state]. rewrite fsm_starts, fsm_outputs.
  set (s1 := if decide (n = OTG_STATE_B_SRP_INIT) then _ else _).
  assert (E : fsm s1 v = if decide (v ∈ left_vars (state s)) then 0 else fsm s v).
  { transitivity (fsm (left_state (state s) (with_changed 1 s)) v); [unfold s1; by case_decide|by rewrite fsm_left]. }
  rewrite E. clear E s1. unfold cleared. repeat case_decide; try tauto.
  assert (is_output v = false) by (destruct (state s); set_solver). by destruct v.
Qed.

(** ** The host driver *)

Lemma working_switched p s :
  nz (host_working s) = (fsm s protocol =? PROTO_HOST) -> nz (host_working (switched p s)) = (p =? PROTO_HOST).
Proof.
  intros H. unfold switched. destruct (Z.eqb_spec (fsm s protocol) p) as [<-|E]; [done|].
  unfold proto_start, started. destruct (Z.eqb_spec (fsm s protocol) PROTO_HOST) as [E1|E1], (Z.eqb_spec p PROTO_HOST) as [->|E2];
    cbn in *; try done. by rewrite H.
Qed.

Lemma working_goto n s :
  nz (host_working s) = (fsm s protocol =? PROTO_HOST) -> nz (host_working (goto n s)) = (sets_proto n =? PROTO_HOST).
Proof.
  intros H. unfold goto, entered, outputs. cbn [host_working with_state]. set (s1 := if decide _ then _ else _).
  assert (H1 : nz (host_working s1) = (fsm s1 protocol =? PROTO_HOST)).
  { subst s1. case_decide; by destruct (state s). }
  set (s2 := setv loc_sof _ _). transitivity (nz (host_working (switched (sets_proto n) s2))).
  - generalize (switched (sets_proto n) s2). intros s3. destruct n; try done. cbn [starts]. by case_match.
  - apply working_switched. unfold s2. rewrite setv_ne by done. rewrite !fsm_opt_setv. rewrite !decide_False by done.
    etransitivity; [|exact H1]. by destruct n.
Qed.

(** ** Timers *)

Lemma del_active t u s : u ∈ active_timers (del_timer t s) <-> u ∈ active_timers s /\ u <> t.
Proof. cbn. rewrite list_elem_of_filter. tauto. Qed.

Lemma add_active t u s : u ∈ active_timers (add_timer t s) <-> u ∈ active_timers s \/ u = t.
Proof. cbn. case_decide; [split; [tauto|intros [?| ->]; done]|]. rewrite elem_of_app, list_elem_of_singleton. tauto. Qed.

Lemma add_nodup t s : NoDup (active_timers s) -> NoDup (active_timers (add_timer t s)).
Proof.
  intros H. cbn. case_decide; [done|]. apply NoDup_app. split_and!; [done| |apply NoDup_singleton].
  intros u Hu ->%list_elem_of_singleton. done.
Qed.

Lemma del_nodup t s : NoDup (active_timers s) -> NoDup (active_timers (del_timer t s)).
Proof. intros H. cbn. by apply NoDup_filter. Qed.

Lemma left_active st t s : t ∈ active_timers (left_state st s) -> t ∈ active_timers s /\ owner t <> Some st.
Proof.
  destruct st; cbn [left_state setv active_timers with_fsm]; rewrite ?del_active; destruct t; naive_solver.
Qed.

Lemma left_nodup st s : NoDup (active_timers s) -> NoDup (active_timers (left_state st s)).
Proof. intros H. destruct st; try done; by apply (del_nodup _ s). Qed.

Lemma outputs_active st s : active_timers (outputs st s) = active_timers s /\ counts (outputs st s) = counts s.
Proof.
  assert (H : forall p s', active_timers (switched p s') = active_timers s' /\ counts (switched p s') = counts s').
  { intros p s'. unfold switched, proto_start. by repeat case_match. }
  unfold outputs. destruct (H (sets_proto st) (setv loc_sof (sets_sof st) (opt_setv loc_conn (sets_conn st)
    (opt_setv drv_vbus (sets_vbus st) s)))) as [-> ->]. by destruct st.
Qed.

Lemma starts_active st t s :
  t ∈ active_timers (starts st s) -> t ∈ active_timers s \/ owner t = None \/ owner t = Some st.
Proof.
  destruct st; cbn [starts]; try case_match; cbn [setv active_timers with_fsm]; rewrite ?add_active; try tauto;
    intros [?| ->]; auto.
Qed.

Lemma starts_nodup st s : NoDup (active_timers s) -> NoDup (active_timers (starts st s)).
Proof. intros H. destruct st; cbn [starts]; try case_match; try done; by apply (add_nodup _ s). Qed.

Lemma goto_timers n s :
  (forall t, t ∈ active_timers s -> owner t = None \/ owner t = Some (state s)) -> NoDup (active_timers s) ->
  (forall t, t ∈ active_timers (goto n s) -> owner t = None \/ owner t = Some n) /\ NoDup (active_timers (goto n s)).
Proof.
  intros Ho Hn. unfold goto, entered. cbn [active_timers with_state]. set (s0 := left_state _ _).
  assert (H0 : forall t, t ∈ active_timers s0 -> owner t = None).
  { intros t [Ht Hne]%left_active. by destruct (Ho t Ht). }
  assert (N0 : NoDup (active_timers s0)) by by apply left_nodup.
  set (s1 := if decide _ then _ else _).
  assert (H1 : forall t, t ∈ active_timers s1 -> owner t = None).
  { intros t. unfold s1. case_decide; [|apply H0]. rewrite add_active. intros [?| ->]; auto. }
  assert (N1 : NoDup (active_timers s1)) by (unfold s1; case_decide; [by apply add_nodup|done]).
  destruct (outputs_active n s1) as [E _]. split.
  - intros t [Ht|Ht]%starts_active; [|done]. rewrite E in Ht. auto.
  - apply starts_nodup. by rewrite E.
Qed.

(** ** Preservation *)

(** Where a state does not set an output, the machine comes from one that had it at 0. *)
Record edge (st n : usb_otg_state) : Prop := mkEdge {
  ed_def : n <> OTG_STATE_UNDEFINED;
  ed_ne : n <> st;
  ed_vbus : sets_vbus n = None -> out_vbus st = 0;
  ed_conn : sets_conn n = None -> out_conn st = 0;
}.

Lemma first_of_edge st l n : Forall (fun p => edge st (snd p)) l -> first_of l = Some n -> edge st n.
Proof. induction 1 as [|[c m] l Hm _ IH]; [done|]. cbn. destruct c; [intros [= <-]; exact Hm|exact IH]. Qed.

Lemma next_edge s n : next_state s = Some n -> edge (state s) n.
Proof.
  unfold next_state. destruct (state s); cbn [a_side a_next b_next]; try done; try (apply first_of_edge; by repeat constructor).
  destruct (bi_id (b_inputs s)); intros [= <-]; by split.
Qed.

Lemma next_ne s n : next_state s = Some n -> n <> state s.
Proof. intros H. exact (ed_ne _ _ (next_edge s n H)). Qed.

Lemma cleared_output st n v : is_output v = true -> ~ cleared st n v.
Proof. intros H. unfold cleared. destruct st, v; set_solver. Qed.

Lemma out_goto n s v : is_output v = true -> fsm (goto n s) v = out n (fsm s v) v.
Proof. intros H. rewrite fsm_goto. rewrite decide_False; [done|by apply cleared_output]. Qed.

Lemma moore_goto n s : edge (state s) n -> moore s -> moore (goto n s).
Proof.
  intros [_ _ E2 E3] [M1 M2 M3 M4 M5 M6 M7]. destruct (goto_timers n s M6 M7) as [T1 T2].
  split; rewrite ?out_goto by done; try done; cbn [out state goto with_state].
  - unfold out_vbus. destruct (sets_vbus n) eqn:E; [done|]. cbn. rewrite M1. auto.
  - unfold out_conn. destruct (sets_conn n) eqn:E; [done|]. cbn. rewrite M2. auto.
  - by apply working_goto.
Qed.

Lemma moore_step s : moore s -> moore (step s).
Proof.
  intros H. unfold step. assert (H0 : moore (with_changed 0 s)) by (destruct H; by split).
  destruct (next_state s) as [n|] eqn:E; [|done]. apply moore_goto; [by apply next_edge|done].
Qed.

Lemma moore_input v x s : is_output v = false -> moore s -> moore (setv v x s).
Proof.
  intros Hv [M1 M2 M3 M4 M5 M6 M7].
  split; rewrite ?setv_ne by (by intros <-); done.
Qed.

Lemma connected_step s : connected s -> connected (step s).
Proof.
  unfold step. destruct (next_state s) as [n|]; [|done]. unfold connected, goto. cbn [host gadget with_state].
  destruct (keeps_entered n (left_state (state (with_changed 0 s)) (with_changed 1 (with_changed 0 s)))) as [-> ->].
  by destruct (keeps_left (state (with_changed 0 s)) (with_changed 1 (with_changed 0 s))) as [-> ->].
Qed.
