(* ===== verification/OtgTimers.v ===== *)
(** * The timer tick of the role state machine

    [fsl_otg_tick_timer] walks the list of pending timers while the functions it
    calls put timers back on the list, take them off and run the state machine.
    The walk never follows a removed element, and ends. *)

From stdpp Require Import base gmap list.
From Stdlib Require Import ZArith Lia.
From S2P Require Import Prelude Otg OtgFsm OtgStep OtgInv.

(** ** What an expired timer may do to the list *)

(** The next tick expires the timer. *)
Definition due (s : otgst) (t : timer) : Prop := u32 (counts s t - 1) = 0.

(** At most one timer is appended, it is not due, and no other becomes due. *)
Definition grows (s s' : otgst) : Prop :=
  exists added, active_timers s' = active_timers s ++ added /\ (length added <= 1)%nat /\
    (forall t, t ∈ added -> ~ due s' t) /\ (forall t, due s' t -> due s t).

Lemma grows_same s s' : active_timers s' = active_timers s -> counts s' = counts s -> grows s s'.
Proof. intros E1 E2. exists []. rewrite app_nil_r. unfold due. rewrite E2. repeat split; auto with lia. by intros t ?%elem_of_nil. Qed.

Lemma expires_not_due t c : u32 (set_count t (snd (fsl_otg_init_timers t)) c t - 1) <> 0.
Proof. unfold set_count. rewrite decide_True by done. by destruct t. Qed.

Lemma grows_add t s : grows s (add_timer t s).
Proof.
  assert (D : forall u, due (add_timer t s) u -> u <> t /\ due s u).
  { intros u H. assert (u <> t) by (intros ->; by apply (expires_not_due t (counts s))). split; [done|].
    revert H. unfold due. cbn. unfold set_count. by rewrite decide_False. }
  exists (if decide (t ∈ active_timers s) then [] else [t]). split_and!.
  - cbn. case_decide; by rewrite ?app_nil_r.
  - case_decide; cbn; lia.
  - intros u Hu Hd. destruct (D u Hd) as [Hne _]. case_decide; set_solver.
  - intros u Hd. by apply D.
Qed.

#[export] Instance grows_proper : Proper ((≡) ==> (≡) ==> impl) grows.
Proof.
  intros s1 s2 H1 s3 s4 H2. unfold grows, due, impl.
  by rewrite (so_timers _ _ H1), (so_timers _ _ H2), (so_counts _ _ H1), (so_counts _ _ H2).
Qed.

Lemma filter_ne (t : timer) (l : list timer) : t ∉ l -> filter (fun u => u <> t) l = l.
Proof. induction l as [|u l IH]; intros H; [done|]. rewrite filter_cons_True by set_solver. f_equal. apply IH. set_solver. Qed.

(** ** The functions of the timers *)

Definition ok (s : otgst) : Prop := connected s /\ moore s.

#[export] Instance ok_proper : Proper ((≡) ==> impl) ok.
Proof. intros s s' H [Hc Hm]. split; [by rewrite <- H|by rewrite <- H]. Qed.

Section Tick.
Context (ext : drv_call -> usb_dr_mmap -> Z * usb_dr_mmap).
Context (ext_ok : forall c d, fst (ext c d) = 0).

(** What running the function of an expired timer guarantees. *)
Definition fires (s s' : otgst) : Prop := ok s' /\ grows s s'.

Lemma ok_add t s : owner t = None \/ owner t = Some (state s) -> ok s -> ok (add_timer t s).
Proof.
  intros Ho [Hc [M1 M2 M3 M4 M5 M6 M7]]. split; [done|]. split; try done; [|by apply add_nodup].
  intros u [Hu| ->]%add_active; auto.
Qed.

Lemma ok_input v x s : is_output v = false -> ok s -> ok (setv v x s).
Proof. intros Hv [Hc Hm]. split; [done|by apply moore_input]. Qed.

(** An operation with a known effect. *)
Lemma acts_fires m F s : acts m F -> ok s -> (ok (F s)) -> grows s (F s) -> wp m (fun _ s' => fires s s') s.
Proof.
  intros Hm [Hc _] Ho Hg. eapply wp_mono; [by apply (Hm s s)|]. intros [] s' H. split; by rewrite H.
Qed.

Lemma acts_dischrg on : acts (fsl_otg_dischrg_vbus on) (fun s => s).
Proof. apply acts_rd; [by eexists|]. intros v. apply acts_if; apply acts_wr_otgsc. Qed.

Lemma acts_pulse_vbus : acts fsl_otg_pulse_vbus (add_timer b_vbus_pulse_tmr).
Proof.
  apply (acts_comp _ _ (fun s => s) (add_timer b_vbus_pulse_tmr)); [apply acts_srp|by intros|].
  apply (acts_comp _ _ (fun s => s) (add_timer b_vbus_pulse_tmr)); [apply acts_chrg|by intros|apply acts_add].
Qed.

Lemma acts_data_pulse_end : acts b_data_pulse_end (add_timer b_vbus_pulse_tmr).
Proof. apply (acts_comp _ _ (fun s => s) (add_timer b_vbus_pulse_tmr)); [apply acts_conn_reg|by intros|apply acts_pulse_vbus]. Qed.

Lemma acts_vbus_pulse_end : acts b_vbus_pulse_end (add_timer b_srp_wait_tmr).
Proof.
  apply (acts_comp _ _ (fun s => s) (add_timer b_srp_wait_tmr)); [apply acts_chrg|by intros|].
  apply (acts_comp _ _ (fun s => s) (add_timer b_srp_wait_tmr)); [apply acts_dischrg|by intros|apply acts_add].
Qed.

Definition srp_end (s : otgst) : otgst :=
  if bool_decide (state s = OTG_STATE_B_SRP_INIT) && nz (fsm s b_sess_vld) then setv b_srp_done 1 s else s.

Lemma acts_srp_end : acts b_srp_end srp_end.
Proof.
  intros s s0 Hc Hs. unfold b_srp_end.
  eapply acts_seq; [apply acts_dischrg|by intros|exact Hc|exact Hs|]. intros s1 _ H1.
  eapply acts_seq; [apply acts_srp|by intros|exact Hc|exact H1|]. intros s2 _ H2.
  apply wp_bind, wp_gets, wp_bind, wp_gets. rewrite (so_state _ _ H2), (so_fsm _ _ H2) by done. unfold srp_end.
  destruct (_ && _); [by apply (acts_wrv b_srp_done 1 _ s0)|by apply wp_ret].
Qed.

(** Leaving [A_HOST] takes no other timer off the list. *)
Lemma grows_goto n s :
  state s = OTG_STATE_A_HOST -> a_wait_enum_tmr ∉ active_timers s -> n <> OTG_STATE_B_SRP_INIT -> grows s (goto n s).
Proof.
  intros Hst Ht Hn. unfold goto, entered. rewrite decide_False by done. rewrite Hst. cbn [left_state].
  set (s1 := del_timer a_wait_enum_tmr (with_changed 1 s)).
  assert (E1 : active_timers s1 = active_timers s).
  { by apply filter_ne. }
  destruct (outputs_active n s1) as [E2 E3].
  assert (G : grows (outputs n s1) (starts n (outputs n s1))).
  { destruct n; cbn [starts]; try case_match; try apply grows_add; by apply grows_same. }
  unfold grows, due in *. cbn [active_timers counts with_state]. rewrite E2, E1, E3 in G. exact G.
Qed.

Lemma ok_step s : ok s -> ok (step s).
Proof. intros [Hc Hm]. split; [by apply connected_step|by apply moore_step]. Qed.

Lemma host_not_srp s n : state s = OTG_STATE_A_HOST -> next_state s = Some n -> n <> OTG_STATE_B_SRP_INIT.
Proof. intros Hst. unfold next_state. rewrite Hst. cbn. repeat case_match; congruence. Qed.

Lemma fires_wait_enum s :
  ok s -> state s = OTG_STATE_A_HOST -> a_wait_enum_tmr ∉ active_timers s -> wp (a_wait_enum ext true) (fun _ s' => fires s s') s.
Proof.
  intros Ho Hst Ht. pose proof Ho as [Hc _]. pose proof Hc as [(b & drv & Hb & _) _].
  eapply wp_host_hnp; [exact Hb|]. destruct (nz (host_b_hnp_enable b)).
  - apply wp_bind. eapply wp_mono; [by apply machine_step|]. intros r s' [_ H]. apply wp_ret.
    split; rewrite H; [by apply ok_step|]. unfold step. destruct (next_state s) as [n|] eqn:E; [|by apply grows_same].
    apply (grows_goto n (with_changed 0 s)); [exact Hst|exact Ht|by apply (host_not_srp s)].
  - eapply acts_fires; [apply acts_add|done| |apply grows_add]. apply ok_add; [|done]. right. cbn. by rewrite Hst.
Qed.

Lemma fires_call t s :
  ok s -> owner t = None \/ owner t = Some (state s) -> t ∉ active_timers s ->
  wp (call_timer ext true (fst (fsl_otg_init_timers t))) (fun _ s' => fires s s') s.
Proof.
  intros Ho Hw Ht. assert (Hin : forall v x, is_output v = false -> wp (wrv v x) (fun _ s' => fires s s') s).
  { intros v x Hv. eapply acts_fires; [apply acts_wrv|done|by apply ok_input|by apply grows_same]. }
  destruct t; cbn [fsl_otg_init_timers fst call_timer]; try (by apply Hin).
  - destruct Hw as [[=]|[= Hw]]. by apply fires_wait_enum.
  - eapply acts_fires; [apply acts_srp_end|done|unfold srp_end; case_match; [by apply ok_input|done]|].
    unfold srp_end. case_match; by apply grows_same.
  - eapply acts_fires; [apply acts_data_pulse_end|done|apply ok_add; auto|apply grows_add].
  - eapply acts_fires; [apply acts_vbus_pulse_end|done|apply ok_add; auto|apply grows_add].
Qed.

(** ** The walk *)

Lemma next_of_app t pre suf : t ∉ pre -> next_of t (pre ++ t :: suf) = Some (head suf).
Proof.
  induction pre as [|u pre IH]; cbn; intros H; [by rewrite decide_True|].
  rewrite decide_False by set_solver. apply IH. set_solver.
Qed.

#[global] Instance due_dec s t : Decision (due s t).
Proof. unfold due. apply _. Defined.

Definition ndue (s : otgst) (l : list timer) : nat := length (filter (due s) l).

Lemma ndue_le s s' l : (forall t, t ∈ l -> due s' t -> due s t) -> (ndue s' l <= ndue s l)%nat.
Proof.
  unfold ndue. induction l as [|t l IH]; intros H; [done|].
  assert (IH' : (length (filter (due s') l) <= length (filter (due s) l))%nat) by (apply IH; set_solver).
  rewrite !filter_cons. repeat case_decide; cbn; try lia. exfalso. set_solver.
Qed.

Lemma ndue_none s l : (forall t, t ∈ l -> ~ due s t) -> ndue s l = 0%nat.
Proof. intros H. unfold ndue. induction l as [|t l IH]; [done|]. rewrite filter_cons_False by set_solver. apply IH. set_solver. Qed.

Lemma ndue_app s l l' : ndue s (l ++ l') = (ndue s l + ndue s l')%nat.
Proof. unfold ndue. by rewrite filter_app, length_app. Qed.

(** One more tick on [t]. *)
Definition count_down (t : timer) (s : otgst) : otgst :=
  with_timers (set_count t (u32 (counts s t - 1)) (counts s)) (active_timers s) s.

Lemma count_down_due t u s : u <> t -> due (count_down t s) u <-> due s u.
Proof. intros H. unfold due. cbn. unfold set_count. by rewrite decide_False. Qed.

Lemma ok_timers c l s : NoDup l -> (forall t, t ∈ l -> t ∈ active_timers s) -> ok s -> ok (with_timers c l s).
Proof. intros Hn Hl [Hc [M1 M2 M3 M4 M5 M6 M7]]. split; [done|]. split; try done. intros t Ht. by apply M6, Hl. Qed.

Lemma del_middle (t : timer) pre suf :
  NoDup (pre ++ t :: suf) -> filter (fun u => u <> t) (pre ++ t :: suf) = pre ++ suf /\ t ∉ pre /\ t ∉ suf.
Proof.
  intros (H1 & H2 & H3)%NoDup_app. apply NoDup_cons in H3 as [H3 H4].
  assert (t ∉ pre) by (intros H; by apply (H2 t H), list_elem_of_here).
  rewrite filter_app, filter_cons_False by tauto. by rewrite !filter_ne.
Qed.

Lemma wp_bind_assoc {A B C} (m : M otgst A) (k : A -> M otgst B) (l : B -> M otgst C) Q s :
  wp ((m ≫= k) ≫= l) Q s -> wp (m ≫= fun a => k a ≫= l) Q s.
Proof. unfold wp, mbind, M_bind. by destruct (m s) as [[a s1]|f]. Qed.

(** The timer expires: it is off the list, its function has run, and the walk has
    less to do. *)
Lemma expire_step t pre suf s :
  ok s -> active_timers s = pre ++ t :: suf -> due s t ->
  wp (fsl_otg_del_timer t;; call_timer ext true (fst (fsl_otg_init_timers t)))
    (fun _ s' => ok s' /\ exists added, active_timers s' = pre ++ suf ++ added /\
       (S (length (suf ++ added) + ndue s' (suf ++ added)) <= length (t :: suf) + ndue s (t :: suf))%nat) (count_down t s).
Proof.
  intros Ho Hl Hd. pose proof Ho as [Hc Hm]. pose proof (mo_nodup _ Hm) as Hn. rewrite Hl in Hn.
  destruct (del_middle _ _ _ Hn) as (Hf & Hp & Hs). apply wp_bind, wp_modify.
  set (s2 := with_timers _ _ _). assert (E2 : active_timers s2 = pre ++ suf) by (cbn; by rewrite Hl).
  assert (Ho2 : ok s2).
  { apply ok_timers; [by apply NoDup_filter; cbn; rewrite Hl|intros u Hu; by apply list_elem_of_filter in Hu as [_ Hu]|].
    apply ok_timers; [by rewrite Hl|done|done]. }
  eapply wp_mono; [apply fires_call; [exact Ho2| |rewrite E2; set_solver]|].
  - apply (mo_owner _ Hm). rewrite Hl. set_solver.
  - intros [] s' (Ho' & added & E & La & Na & Nd). split; [done|]. exists added. rewrite E, E2, app_assoc. split; [done|].
    rewrite ndue_app, (ndue_none s' added), length_app by done.
    assert (Hle : (ndue s' suf <= ndue s suf)%nat).
    { apply ndue_le. intros u Hu H%Nd. apply (count_down_due t u s); [by intros ->|exact H]. }
    unfold ndue in *. rewrite filter_cons_True by done. cbn. lia.
Qed.

Lemma tick_loop_ok fuel : forall s pre suf e,
  ok s -> active_timers s = pre ++ suf -> (length suf + ndue s suf <= fuel)%nat ->
  wp (tick_loop ext true fuel (head suf) e) (fun _ s' => ok s') s.
Proof.
  induction fuel as [|fuel IH]; intros s pre [|t suf] e Ho Hl Hf; cbn [head tick_loop]; try (by apply wp_ret).
  { cbn in Hf. lia. }
  pose proof (mo_nodup _ (proj2 Ho)) as Hn. rewrite Hl in Hn. destruct (del_middle _ _ _ Hn) as (_ & Hp & Hs).
  apply wp_bind, wp_gets. rewrite Hl, next_of_app by done. apply wp_bind, wp_gets, wp_bind, wp_modify.
  change (with_timers _ _ _) with (count_down t s). destruct (Z.eqb_spec (u32 (counts s t - 1)) 0) as [E|E].
  - eapply wp_bind_assoc, wp_bind, wp_mono; [by apply (expire_step t pre suf)|].
    intros [] s' (Ho' & added & E' & Hle). destruct suf as [|u suf]; [destruct fuel; by apply wp_ret|].
    apply (IH s' pre ((u :: suf) ++ added) 1); [done|done|lia].
  - apply (IH (count_down t s) (pre ++ [t]) suf e).
    + apply ok_timers; [by rewrite Hl|done|done].
    + cbn. by rewrite Hl, <- app_assoc.
    + assert (H : (ndue (count_down t s) suf <= ndue s suf)%nat).
      { apply ndue_le. intros u Hu H. apply (count_down_due t u s); [by intros ->|exact H]. }
      unfold ndue in *. rewrite filter_cons_False in Hf by done. cbn in Hf. lia.
Qed.

Definition all_timers : list timer :=
  [a_wait_vrise_tmr; a_wait_bcon_tmr; a_aidl_bdis_tmr; b_ase0_brst_tmr; b_se0_srp_tmr; b_srp_fail_tmr; a_wait_enum_tmr;
   b_srp_wait_tmr; b_data_pulse_tmr; b_vbus_pulse_tmr].

Lemma timers_bound (l : list timer) : NoDup l -> (length l <= 10)%nat.
Proof.
  intros H. change 10%nat with (length all_timers). apply submseteq_length, NoDup_submseteq; [done|].
  intros t _. destruct t; unfold all_timers; set_solver.
Qed.

(** A tick of the timers returns. *)
Lemma tick_ok s : ok s -> wp (fsl_otg_tick_timer ext true) (fun _ s' => ok s') s.
Proof.
  intros Ho. apply wp_bind, wp_gets. apply (tick_loop_ok 32 s [] (active_timers s)); [done|done|].
  pose proof (timers_bound _ (mo_nodup _ (proj2 Ho))). unfold ndue.
  pose proof (length_filter (due s) (active_timers s)). lia.
Qed.
End Tick.
