(* ===== verification/OtgSettle.v ===== *)
(** * Does the role state machine come to rest?

    [otg_statemachine] takes one transition per call.  With the inputs held, repeated
    calls reach a state the machine stays in, within eighteen calls, unless the inputs
    are among those that make it go round [A_WAIT_BCON] and [A_HOST], or [A_HOST] and
    [A_SUSPEND], for ever. *)

From stdpp Require Import base gmap list.
From Stdlib Require Import ZArith Lia.
From S2P Require Import Prelude Otg OtgFsm OtgStep OtgInv OtgTimers.

(** ** The VBUS comparator

    The machine reads [a_vbus_vld] again from the controller whenever it starts or
    stops the host driver.  While the hardware holds the comparator's bit, nothing in
    the machine changes it. *)

Definition vbus_bit (d : usb_dr_mmap) : bool := nz (Z.land (otgsc d) OTGSC_STS_A_VBUS_VALID).

Lemma vbus_bit_testbit d : vbus_bit d = Z.testbit (otgsc d) 9.
Proof.
  unfold vbus_bit, nz. destruct (Z.eqb_spec (Z.land (otgsc d) OTGSC_STS_A_VBUS_VALID) 0) as [E|E].
  - apply (f_equal (fun x => Z.testbit x 9)) in E. rewrite Z.land_spec in E. change (Z.testbit OTGSC_STS_A_VBUS_VALID 9) with true in E.
    rewrite Z.bits_0, andb_true_r in E. by rewrite E.
  - destruct (Z.testbit (otgsc d) 9) eqn:T; [done|]. destruct E. apply Z.bits_inj'. intros i Hi.
    rewrite Z.land_spec, Z.bits_0. destruct (Z.eq_dec i 9) as [->|Hne]; [by rewrite T|].
    unfold OTGSC_STS_A_VBUS_VALID. rewrite Z.shiftl_spec by done.
    destruct (Z.testbit 1 (i - 9)) eqn:T1; [|by rewrite andb_false_r].
    destruct (Z.lt_ge_cases (i - 9) 0); [by rewrite Z.testbit_neg_r in T1|]. rewrite Z.bits_above_log2 in T1; [done|done|].
    change (Z.log2 1) with 0. lia.
Qed.

Section Steady.
Context (ext : drv_call -> usb_dr_mmap -> Z * usb_dr_mmap).
Context (ext_vbus : forall c d, vbus_bit (snd (ext c d)) = vbus_bit d).
Context (b : bool).

Definition steady (s : otgst) : Prop := nz (fsm s a_vbus_vld) = b /\ vbus_bit (dr s) = b.

Definition pres {A} (m : M otgst A) : Prop := forall s, steady s -> wlp m (fun _ s' => steady s') s.

Lemma pres_bind {A B} (m : M otgst A) (k : A -> M otgst B) : pres m -> (forall a, pres (k a)) -> pres (m ≫= k).
Proof. intros Hm Hk s Hs. apply wlp_bind. eapply wlp_mono; [by apply Hm|]. intros a s' Hs'. by apply Hk. Qed.

Lemma pres_ret {A} (a : A) : pres (mret a).
Proof. by intros s Hs. Qed.

Lemma pres_gets {A} (f : otgst -> A) : pres (gets f).
Proof. by intros s Hs. Qed.

Lemma pres_deref {A} (o : option A) : pres (deref o).
Proof. intros s Hs. by destruct o. Qed.

Lemma pres_crash {A} f : pres (crash f : M otgst A).
Proof. by intros s Hs. Qed.

Lemma pres_modify f :
  (forall s, fsm (f s) a_vbus_vld = fsm s a_vbus_vld /\ vbus_bit (dr (f s)) = vbus_bit (dr s)) -> pres (modify f).
Proof. intros H s [H1 H2]. destruct (H s) as [E1 E2]. unfold wlp. cbn. split; congruence. Qed.

Lemma pres_wrv v x : v <> a_vbus_vld -> pres (wrv v x).
Proof. intros Hv. apply pres_modify. intros s. split; [|done]. cbn. unfold set_var. by rewrite decide_False. Qed.

(** A register write of a value read from it, with some bits of the control part
    changed. *)
Lemma pres_otgsc (f : Z -> Z) :
  (forall v, Z.testbit (f v) 9 = Z.testbit v 9) -> pres (v ← rd_otgsc; wr_otgsc (f v)).
Proof.
  intros Hf s [H1 H2]. apply wlp_bind. unfold wlp.
  change (steady (with_dr (mkDr (usbcmd (dr s)) (ulpiview (dr s)) (portsc (dr s)) (w1c OTGSC_IS_MASK (f (otgsc (dr s))) (otgsc (dr s)))) s)).
  split; [exact H1|]. rewrite vbus_bit_testbit in *. cbn [dr with_dr otgsc]. unfold w1c.
  rewrite Z.lor_spec, !testbit_clear, Z.land_spec by done. change (Z.testbit OTGSC_IS_MASK 9) with false.
  by rewrite andb_false_r, orb_false_r, andb_true_r, Hf.
Qed.

Create HintDb steady.
Hint Resolve pres_ret pres_gets pres_deref pres_crash : steady.
Hint Extern 1 (pres (wrv _ _)) => apply pres_wrv; discriminate : steady.
Hint Extern 1 (pres (modify _)) => apply pres_modify; intros s; split; reflexivity : steady.

(** Goes through a program. *)
Ltac steady_tac :=
  repeat first
    [solve [eauto with steady]
    |match goal with |- pres (_ ≫= _) => apply pres_bind; [|intros ?] end
    |match goal with |- pres (match ?x with _ => _ end) => destruct x end].

Lemma pres_rdv v : pres (rdv v).
Proof. apply pres_gets. Qed.
Hint Resolve pres_rdv : steady.

Lemma if_otgsc on (f g : Z -> Z) :
  (forall v, Z.testbit (f v) 9 = Z.testbit v 9) -> (forall v, Z.testbit (g v) 9 = Z.testbit v 9) ->
  pres (v ← rd_otgsc; if nz on then wr_otgsc (f v) else wr_otgsc (g v)).
Proof. intros Hf Hg. destruct (nz on); by apply pres_otgsc. Qed.

Lemma pres_chrg on : pres (fsl_otg_chrg_vbus on).
Proof.
  apply if_otgsc; intros v; rewrite ?testbit_setb, !testbit_clear by done.
  - change (Z.testbit OTGSC_CTRL_VBUS_CHARGE 9) with false. by rewrite orb_false_r, !andb_true_r.
  - by rewrite !andb_true_r.
Qed.

Lemma pres_conn on : pres (fsl_otg_loc_conn on).
Proof.
  apply if_otgsc; intros v; rewrite ?testbit_setb, !testbit_clear by done.
  - change (Z.testbit OTGSC_CTRL_DATA_PULSING 9) with false. by rewrite orb_false_r, !andb_true_r.
  - by rewrite !andb_true_r.
Qed.

Lemma pres_drv on : pres (fsl_otg_drv_vbus on).
Proof. unfold fsl_otg_drv_vbus, rd_portsc, wr_portsc. steady_tac. Qed.

Lemma pres_call c : pres (call_driver ext c).
Proof.
  intros s [H1 H2]. change (steady (with_dr (snd (ext c (dr s))) s)). split; [exact H1|]. cbn [dr with_dr]. by rewrite ext_vbus.
Qed.
Hint Resolve pres_chrg pres_conn pres_drv pres_call : steady.

Lemma pres_reset : pres (otg_reset_controller true).
Proof. unfold otg_reset_controller. steady_tac. Qed.
Hint Resolve pres_reset : steady.

(** The host driver's start reads the comparator into [a_vbus_vld]. *)
Lemma pres_read_vbus {A} (k : M otgst A) :
  pres k -> pres (v ← rd_otgsc; wrv a_vbus_vld (if nz (Z.land v OTGSC_STS_A_VBUS_VALID) then 1 else 0);; k).
Proof.
  intros Hk s [H1 H2]. apply wlp_bind. unfold wlp at 1. apply wlp_bind. unfold wlp at 1. apply Hk.
  split; [|exact H2]. cbn [fsm with_fsm]. unfold set_var. rewrite decide_True by done.
  change (nz (Z.land (otgsc (dr s)) OTGSC_STS_A_VBUS_VALID)) with (vbus_bit (dr s)). rewrite H2. by destruct b.
Qed.

Lemma pres_start_host on : pres (fsl_otg_start_host ext true on).
Proof.
  unfold fsl_otg_start_host. apply pres_bind; [apply pres_gets|]. intros [h|]; [|apply pres_ret]. apply pres_read_vbus.
  unfold call_method, write_ulpi. steady_tac.
Qed.
Hint Resolve pres_start_host : steady.

Lemma pres_leave st : pres (otg_leave_state st).
Proof. unfold otg_leave_state, fsl_otg_del_timer. steady_tac. Qed.

Lemma pres_protocol p : pres (otg_set_protocol ext true p).
Proof. unfold otg_set_protocol, fsl_otg_start_gadget. steady_tac. Qed.
Hint Resolve pres_leave pres_protocol : steady.

Lemma pres_enter st : pres (enter_state ext true st).
Proof.
  unfold enter_state, otg_drv_vbus, otg_chrg_vbus, otg_loc_conn, otg_loc_sof, fsl_otg_loc_sof, fsl_otg_start_pulse, fsl_otg_add_timer,
    usb_bus_start_enum. steady_tac.
Qed.
Hint Resolve pres_enter : steady.

Lemma pres_set_state st : pres (otg_set_state ext true st).
Proof. unfold otg_set_state. steady_tac. Qed.
Hint Resolve pres_set_state : steady.

Lemma pres_machine : pres (otg_statemachine ext true).
Proof. unfold otg_statemachine, host_hnp. steady_tac. Qed.
End Steady.

(** ** The two sides as machines over their inputs *)

(** The inputs after the transition from [st] to [n]. *)
Definition a_clear (st : usb_otg_state) (i : a_in) : a_in :=
  let '(mkAIn a b c d e f g h j k l m o p q) := i in
  match st with
  | OTG_STATE_A_WAIT_VRISE => mkAIn a b c d e false g h j k l m o p q
  | OTG_STATE_A_WAIT_BCON => mkAIn a b c d e f g false j k l m o p q
  | OTG_STATE_A_SUSPEND => mkAIn a b c d e f g h false k false m o p q
  | _ => i
  end.

Definition b_clear (st n : usb_otg_state) (i : b_in) : b_in :=
  let '(mkBIn a b c d e f g h j k l) := i in
  let g' := if n is OTG_STATE_B_WAIT_ACON then false else g in
  match st with
  | OTG_STATE_B_IDLE => mkBIn a b c d false f g' h j k l
  | OTG_STATE_B_SRP_INIT => mkBIn a b c d e false g' h j k l
  | OTG_STATE_B_WAIT_ACON => mkBIn a b c d e f g' h j false l
  | _ => mkBIn a b c d e f g' h j k l
  end.

(** Within [n] transitions the side is at rest, or has been left. *)
Fixpoint a_rests (n : nat) (i : a_in) (st : usb_otg_state) : bool :=
  match n with
  | O => false
  | S m => match a_next i st with
           | None => true
           | Some st' => negb (a_side st') || a_rests m (a_clear st i) st'
           end
  end.

Fixpoint b_rests (n : nat) (i : b_in) (st : usb_otg_state) : bool :=
  match n with
  | O => false
  | S m => match b_next i st with
           | None => true
           | Some st' => a_side st' || b_rests m (b_clear st st' i) st'
           end
  end.

(** Both sides together. *)
Definition any_next (i : a_in) (j : b_in) (st : usb_otg_state) : option usb_otg_state :=
  if a_side st then a_next i st else b_next j st.

Fixpoint rests (n : nat) (i : a_in) (j : b_in) (st : usb_otg_state) : bool :=
  match n with
  | O => false
  | S m => match any_next i j st with
           | None => true
           | Some st' => rests m (a_clear st i) (b_clear st st' j) st'
           end
  end.

(** ** All inputs *)

Definition both (f : bool -> bool) : bool := f true && f false.

Lemma both_elim f : both f = true -> forall b, f b = true.
Proof. intros [H1 H2]%andb_true_iff [|]; done. Qed.

Definition all_b (P : b_in -> bool) : bool :=
  both (fun a => both (fun b => both (fun c => both (fun d => both (fun e => both (fun f => both (fun g => both (fun h =>
  both (fun j => both (fun k => both (fun l => P (mkBIn a b c d e f g h j k l)))))))))))).

Definition all_a (P : a_in -> bool) : bool :=
  both (fun a => both (fun b => both (fun c => both (fun d => both (fun e => both (fun f => both (fun g => both (fun h =>
  both (fun j => both (fun k => both (fun l => both (fun m => both (fun o => both (fun p => both (fun q =>
    P (mkAIn a b c d e f g h j k l m o p q)))))))))))))))).

(** The inputs for which the A side goes round: a B device is there, and the machine is
    told to leave the bus while it insists on using it, or is told to suspend
    while the B device resumes. *)
Definition contended (i : a_in) : bool :=
  ai_b_conn i && (ai_vbus_vld i && (ai_id i || ai_drop i) && negb (negb (ai_req i) && ai_hnp i)
                  || negb (ai_req i) && ai_b_resume i && ai_hnp i).


Ltac over x :=
  match goal with |- ?e = true => match eval pattern x in e with ?f _ => apply (both_elim f); cbv beta end end.

Lemma all_b_elim P i : all_b P = true -> P i = true.
Proof.
  intros H. destruct i as [a b c d e f g h j k l].
  over l. over k. over j. over h. over g. over f. over e. over d. over c. over b. over a. exact H.
Qed.

Lemma all_a_elim P i : all_a P = true -> P i = true.
Proof.
  intros H. destruct i as [a b c d e f g h j k l m o p q].
  over q. over p. over o. over m. over l. over k. over j. over h. over g. over f. over e. over d. over c. over b. over a.
  exact H.
Qed.

Lemma b_rests_all i st : a_side st = false -> b_rests 5 i st = true.
Proof. intros H. apply (all_b_elim (fun i => b_rests 5 i st)). destruct st; try discriminate H; vm_compute; reflexivity. Qed.

Lemma a_rests_all i st : a_side st = true -> contended i = false -> a_rests 13 i st = true.
Proof.
  intros H Hc. assert (E : contended i || a_rests 13 i st = true); [|by rewrite Hc in E].
  apply (all_a_elim (fun i => contended i || a_rests 13 i st)). destruct st; try discriminate H; vm_compute; reflexivity.
Qed.

(** ** From one side to the other *)

Lemma a_clear_keeps st i : ai_id (a_clear st i) = ai_id i /\ contended (a_clear st i) = contended i.
Proof. destruct i, st; done. Qed.

Lemma a_clear_b st i : a_side st = false -> a_clear st i = i.
Proof. destruct i, st; done. Qed.

Lemma b_clear_keeps st n i : bi_id (b_clear st n i) = bi_id i.
Proof. destruct i, st; done. Qed.

(** The ID pin decides which side may be left. *)
Lemma b_next_leaves j st st' : a_side st = false -> b_next j st = Some st' -> a_side st' = true -> bi_id j = false.
Proof. destruct j as [[] ? ? ? ? ? ? ? ? ? ?], st; try done; cbn; intros _; repeat case_match; intros [= <-]; done. Qed.

Lemma a_next_leaves i st st' : a_side st = true -> a_next i st = Some st' -> a_side st' = false -> ai_id i = true.
Proof. destruct i as [[] ? ? ? ? ? ? ? ? ? ? ? ? ? ?], st; try done; cbn; intros _; repeat case_match; intros [= <-]; done. Qed.

Lemma rests_more n m i j st : (n <= m)%nat -> rests n i j st = true -> rests m i j st = true.
Proof.
  revert m i j st. induction n as [|n IH]; intros [|m] i j st Hle; try done; [lia|]. cbn.
  case_match; [|done]. apply IH. lia.
Qed.

(** On the B side; if it is left, the A side comes to rest. *)
Lemma rests_b n i j st k :
  a_side st = false -> b_rests n j st = true ->
  (forall j' st', bi_id j = false -> a_side st' = true -> rests k i j' st' = true) -> rests (n + k) i j st = true.
Proof.
  revert j st. induction n as [|n IH]; intros j st Hs Hr Hk; [done|]. cbn in *. unfold any_next. rewrite Hs.
  destruct (b_next j st) as [st'|] eqn:E; [|done]. rewrite a_clear_b by done. destruct (a_side st') eqn:Hs'; cbn in Hr.
  - apply (rests_more k); [lia|]. apply Hk; [by eapply b_next_leaves|done].
  - apply IH; [done|done|]. by rewrite b_clear_keeps.
Qed.

Lemma rests_a n i j st k :
  a_side st = true -> a_rests n i st = true ->
  (forall i' j' st', ai_id i = true -> bi_id j' = bi_id j -> a_side st' = false -> rests k i' j' st' = true) ->
  rests (n + k) i j st = true.
Proof.
  revert i j st. induction n as [|n IH]; intros i j st Hs Hr Hk; [done|]. cbn in *. unfold any_next. rewrite Hs.
  destruct (a_next i st) as [st'|] eqn:E; [|done]. destruct (a_side st') eqn:Hs'; cbn in Hr.
  - apply IH; [done|done|]. intros i' j' st'' Hi Hj. apply Hk; [by rewrite (proj1 (a_clear_keeps st i)) in Hi|by rewrite Hj, b_clear_keeps].
  - apply (rests_more k); [lia|]. apply Hk; [by eapply a_next_leaves|apply b_clear_keeps|done].
Qed.

Lemma rests_all i j st : ai_id i = bi_id j -> contended i = false -> rests 18 i j st = true.
Proof.
  intros Hid Hc. destruct (a_side st) eqn:Hs.
  - apply (rests_a 13 i j st 5); [done|by apply a_rests_all|]. intros i' j' st' Hi Hj Hs'.
    apply (rests_b 5 i' j' st' 0); [done|by apply b_rests_all|]. intros j'' st'' Hb. congruence.
  - apply (rests_b 5 i j st 13); [done|by apply b_rests_all|]. intros j' st' Hb Hs'.
    apply (rests_a 13 i j' st' 0); [done|by apply a_rests_all|]. congruence.
Qed.

(** ** The inputs along a run of the code *)

Lemma goto_drivers n s : host (goto n s) = host s /\ gadget (goto n s) = gadget s.
Proof.
  unfold goto. cbn [host gadget with_state]. destruct (keeps_entered n (left_state (state s) (with_changed 1 s))) as [-> ->].
  by destruct (keeps_left (state s) (with_changed 1 s)) as [-> ->].
Qed.

(** An input after a transition: cleared or as it was. *)
Lemma input_after n s s' v :
  s' ≡ goto n s -> is_output v = false -> v <> a_vbus_vld -> v <> a_bus_suspend ->
  nz (fsm s' v) = if bool_decide (v ∈ left_vars (state s)) then false else nz (fsm s v).
Proof.
  intros H Ho Hv Hn. rewrite (so_fsm _ _ H) by done. rewrite fsm_goto. unfold cleared.
  case_bool_decide; case_decide; try tauto. by destruct v.
Qed.

Lemma suspend_after n s s' :
  s' ≡ goto n s -> nz (fsm s' a_bus_suspend) = if n is OTG_STATE_B_WAIT_ACON then false else nz (fsm s a_bus_suspend).
Proof.
  intros H. rewrite (so_fsm _ _ H) by done. rewrite fsm_goto. unfold cleared. assert (a_bus_suspend ∉ left_vars (state s)) by (destruct (state s); set_solver).
  case_decide as E; [destruct E as [?|[-> _]]; [done|done]|]. destruct n; try done. tauto.
Qed.

Lemma a_inputs_after n s s' :
  s' ≡ goto n s -> nz (fsm s' a_vbus_vld) = nz (fsm s a_vbus_vld) -> a_inputs s' = a_clear (state s) (a_inputs s).
Proof.
  intros H Hv. unfold a_inputs. rewrite Hv, (so_host _ _ H), (proj1 (goto_drivers n s)). rewrite !(input_after n s s') by done.
  by destruct (state s).
Qed.

Lemma b_inputs_after n s s' : s' ≡ goto n s -> b_inputs s' = b_clear (state s) n (b_inputs s).
Proof.
  intros H. unfold b_inputs. rewrite (suspend_after n s s' H), (so_gadget _ _ H), (proj2 (goto_drivers n s)).
  rewrite !(input_after n s s') by done. by destruct (state s).
Qed.

Lemma next_any s : next_state s = any_next (a_inputs s) (b_inputs s) (state s).
Proof. done. Qed.

Section Calls.
Context (ext : drv_call -> usb_dr_mmap -> Z * usb_dr_mmap).
Context (ext_ok : forall c d, fst (ext c d) = 0).
Context (ext_vbus : forall c d, vbus_bit (snd (ext c d)) = vbus_bit d).

Fixpoint calls (n : nat) : M otgst unit :=
  match n with O => mret tt | S m => otg_statemachine ext true;; calls m end.

(** A call, with the comparator's bit held. *)
Lemma machine_steady b s :
  connected s -> steady b s ->
  wp (otg_statemachine ext true) (fun _ s' => s' ≡ step s /\ connected s' /\ steady b s') s.
Proof.
  intros Hc Hs. pose proof (machine_step ext ext_ok s Hc) as H. pose proof (pres_machine ext ext_vbus b s Hs) as P.
  unfold wp, wlp in *. destruct (otg_statemachine ext true s) as [[r s']|]; [|done]. destruct H as [_ H].
  split_and!; [done| |done]. rewrite H. by apply connected_step.
Qed.

(** A state the machine stays in. *)
Definition settled (s : otgst) : Prop := next_state s = None.

Lemma same_inputs b s s' : s' ≡ with_changed 0 s -> steady b s -> steady b s' -> next_state s' = next_state s.
Proof.
  intros H [E1 _] [E2 _]. assert (A : a_inputs s' = a_inputs s).
  { unfold a_inputs. rewrite E2, E1, (so_host _ _ H). by rewrite !(so_fsm _ _ H). }
  assert (B : b_inputs s' = b_inputs s) by (unfold b_inputs; rewrite (so_gadget _ _ H); by rewrite !(so_fsm _ _ H)).
  unfold next_state. by rewrite A, B, (so_state _ _ H).
Qed.

Lemma calls_settled b n s : connected s -> steady b s -> settled s -> wp (calls n) (fun _ s' => connected s' /\ settled s') s.
Proof.
  revert s. induction n as [|n IH]; intros s Hc Hs Hn; [by apply wp_ret|]. apply wp_bind.
  eapply wp_mono; [by apply (machine_steady b)|]. intros r s' (H & Hc' & Hs'). apply IH; [done|done|].
  unfold settled, step in *. rewrite Hn in H. by rewrite (same_inputs b s s').
Qed.

Lemma calls_rest b n s :
  connected s -> steady b s -> rests n (a_inputs s) (b_inputs s) (state s) = true ->
  wp (calls n) (fun _ s' => connected s' /\ settled s') s.
Proof.
  revert s. induction n as [|n IH]; intros s Hc Hs Hr; [done|].
  destruct (next_state s) as [st|] eqn:E; [|by apply (calls_settled b (S n))].
  cbn [rests] in Hr. rewrite <- next_any, E in Hr. apply wp_bind. eapply wp_mono; [by apply (machine_steady b)|].
  intros r s' (H & Hc' & Hs'). unfold step in H. rewrite E in H. apply IH; [done|done|].
  rewrite (a_inputs_after st (with_changed 0 s)), (b_inputs_after st (with_changed 0 s)), (so_state _ _ H); [done|done|done|].
  destruct Hs as [E1 _], Hs' as [E2 _]. rewrite E2. symmetry. exact E1.
Qed.

(** ** Inputs that keep the machine moving *)

Definition goes_round (i : a_in) (st : usb_otg_state) : bool :=
  contended i && a_side st &&
  (bool_decide (st = OTG_STATE_A_HOST) || bool_decide (a_next i st = Some OTG_STATE_A_HOST)).

Lemma goes_round_host i :
  negb (contended i) ||
  (if a_next i OTG_STATE_A_HOST is Some st then goes_round (a_clear OTG_STATE_A_HOST i) st else false) = true.
Proof.
  apply (all_a_elim (fun i => negb (contended i) ||
    (if a_next i OTG_STATE_A_HOST is Some st then goes_round (a_clear OTG_STATE_A_HOST i) st else false))).
  vm_compute. reflexivity.
Qed.

Lemma goes_round_next i st :
  goes_round i st = true -> exists st', a_next i st = Some st' /\ goes_round (a_clear st i) st' = true.
Proof.
  intros [[Hc Hs]%andb_true_iff [E%bool_decide_eq_true|E%bool_decide_eq_true]%orb_true_iff]%andb_true_iff.
  - subst. pose proof (goes_round_host i) as H. rewrite Hc in H. cbn [negb orb] in H.
    destruct (a_next i OTG_STATE_A_HOST) as [st'|] eqn:E; [|done]. by exists st'.
  - exists OTG_STATE_A_HOST. split; [done|]. unfold goes_round. by rewrite (proj2 (a_clear_keeps st i)), Hc.
Qed.

Lemma calls_round b n s :
  connected s -> steady b s -> goes_round (a_inputs s) (state s) = true ->
  wp (calls n) (fun _ s' => ~ settled s') s.
Proof.
  revert s. induction n as [|n IH]; intros s Hc Hs Hr; destruct (goes_round_next _ _ Hr) as (st & E & Hr');
    assert (E' : next_state s = Some st) by (unfold next_state; by apply andb_true_iff in Hr as [[_ ->]%andb_true_iff _]).
  - apply wp_ret. unfold settled. by rewrite E'.
  - apply wp_bind. eapply wp_mono; [by apply (machine_steady b)|].
    intros r s' (H & Hc' & Hs'). unfold step in H. rewrite E' in H. apply IH; [done|done|].
    rewrite (a_inputs_after st (with_changed 0 s)), (so_state _ _ H); [done|done|].
    destruct Hs as [E1 _], Hs' as [E2 _]. rewrite E2. symmetry. exact E1.
Qed.
End Calls.
