(* ===== verification/OtgRegs.v ===== *)
(** * The registers behind the outputs

    The state machine keeps its outputs in members of [struct otg_fsm] and calls an
    operation of the transceiver when one changes.  Here the two register bits these
    operations write are followed: the port power bit of [PORTSC], which drives VBUS, and the
    bit of [OTGSC] that connects the pull-up.  [wired] says what they are while the ID pin
    is held; every operation keeps it ([inv]).  The methods of the host and gadget drivers
    are taken to leave the two bits alone ([leaves_bits]). *)

From stdpp Require Import base gmap list.
From Stdlib Require Import ZArith Lia.
From S2P Require Import Prelude Otg OtgFsm OtgStep OtgInv OtgTimers.

(** ** The bits *)

Definition power (d : usb_dr_mmap) : bool := Z.testbit (portsc d) 12.
Definition pull_up (d : usb_dr_mmap) : bool := Z.testbit (otgsc d) 4.
Definition unacked (d : usb_dr_mmap) : Z := Z.land (otgsc d) OTGSC_IS_MASK.

Definition id_pin (d : usb_dr_mmap) : bool := nz (Z.land (otgsc d) OTGSC_STS_USB_ID).

(** An ID interrupt is pending and enabled. *)
Definition id_pending (d : usb_dr_mmap) : bool :=
  let src := Z.land (Z.land (otgsc d) OTGSC_INTSTS_MASK) (Z.shiftr (otgsc d) 8) in
  nz src && nz (Z.land src OTGSC_IS_USB_ID).

Definition leaves_bits (ext : drv_call -> usb_dr_mmap -> Z * usb_dr_mmap) : Prop :=
  forall c d, power (snd (ext c d)) = power d /\ pull_up (snd (ext c d)) = pull_up d /\ unacked (snd (ext c d)) = unacked d.

Lemma testbit_w1c mask new old i : 0 <= i ->
  Z.testbit (w1c mask new old) i =
    if Z.testbit mask i then Z.testbit old i && negb (Z.testbit new i) else Z.testbit new i.
Proof.
  intros Hi. unfold w1c. rewrite Z.lor_spec, !testbit_clear, Z.land_spec by done.
  by destruct (Z.testbit mask i), (Z.testbit old i), (Z.testbit new i).
Qed.

(** ** The operations of the transceiver *)

Lemma drv_vbus_writes on (Q : unit -> otgst -> Prop) s :
  (forall d, power d = nz on -> otgsc d = otgsc (dr s) -> Q tt (with_dr d s)) -> wp (fsl_otg_drv_vbus on) Q s.
Proof.
  intros H. unfold fsl_otg_drv_vbus. apply wp_bind, wp_gets. destruct (nz on) eqn:E; apply wp_modify, H; try done.
  all: unfold power; cbn [portsc]; rewrite testbit_w1c by done; change (Z.testbit PORTSC_W1C_BITS 12) with false; cbv iota.
  - by rewrite testbit_setb, orb_true_r.
  - by rewrite !testbit_clear, andb_false_r by done.
Qed.

(** A write to [OTGSC] of the value read with some bits changed but those of the status. *)
Lemma otgsc_writes (f : Z -> Z) (Q : unit -> otgst -> Prop) s :
  (forall v i, 16 <= i < 23 -> Z.testbit (f v) i = false) ->
  (forall d, pull_up d = Z.testbit (f (otgsc (dr s))) 4 -> power d = power (dr s) -> unacked d = unacked (dr s) -> Q tt (with_dr d s)) ->
  wp (v ← rd_otgsc; wr_otgsc (f v)) Q s.
Proof.
  intros Hf H. apply wp_bind, wp_gets, wp_modify, H; [|done|].
  - unfold pull_up. cbn [otgsc]. rewrite testbit_w1c by done. by change (Z.testbit OTGSC_IS_MASK 4) with false.
  - unfold unacked. cbn [otgsc]. apply Z.bits_inj'. intros i Hi. rewrite !Z.land_spec, testbit_w1c by done.
    destruct (Z.testbit OTGSC_IS_MASK i) eqn:E; [|by rewrite !andb_false_r]. rewrite Hf; [by rewrite andb_true_r|].
    unfold OTGSC_IS_MASK in E. rewrite Z.shiftl_spec in E by done. change 0x7f with (Z.ones 7) in E.
    destruct (Z.lt_ge_cases (i - 16) 0); [by rewrite Z.testbit_neg_r in E|].
    rewrite Z.testbit_ones_nonneg in E by lia. apply Z.ltb_lt in E. lia.
Qed.

Lemma status_mask i : 16 <= i < 23 -> Z.testbit OTGSC_INTSTS_MASK i = true.
Proof.
  intros Hi. unfold OTGSC_INTSTS_MASK, OTGSC_IS_MASK. rewrite Z.shiftl_spec by lia.
  change 0x7f with (Z.ones 7). rewrite Z.testbit_ones_nonneg by lia. apply Z.ltb_lt. lia.
Qed.

Lemma low_bits m i : 0 <= m < 2 ^ 16 -> 16 <= i -> Z.testbit m i = false.
Proof.
  intros Hm Hi. destruct (Z.eq_dec m 0) as [->|]; [apply Z.bits_0|]. apply Z.bits_above_log2; [lia|].
  enough (Z.log2 m < 16) by lia. apply Z.log2_lt_pow2; lia.
Qed.

Lemma loc_conn_writes on (Q : unit -> otgst -> Prop) s :
  (forall d, pull_up d = nz on -> power d = power (dr s) -> unacked d = unacked (dr s) -> Q tt (with_dr d s)) ->
  wp (fsl_otg_loc_conn on) Q s.
Proof.
  intros H. unfold fsl_otg_loc_conn. destruct (nz on) eqn:E.
  - apply (otgsc_writes (fun v => setb (clear v OTGSC_INTSTS_MASK) OTGSC_CTRL_DATA_PULSING)).
    + intros v i Hi. rewrite testbit_setb, testbit_clear, status_mask, andb_false_r by lia. apply low_bits; [done|lia].
    + intros d H1 H2 H3. apply H; [|done|done]. by rewrite H1, testbit_setb, orb_true_r.
  - apply (otgsc_writes (fun v => clear (clear v OTGSC_INTSTS_MASK) OTGSC_CTRL_DATA_PULSING)).
    + intros v i Hi. rewrite !testbit_clear, status_mask by lia. by rewrite andb_false_r.
    + intros d H1 H2 H3. apply H; [|done|done]. by rewrite H1, !testbit_clear, andb_false_r by done.
Qed.

(** Charging and discharging VBUS leave the bits alone. *)
Lemma pulse_writes (f : Z -> Z) (Q : unit -> otgst -> Prop) s :
  (forall v i, 16 <= i < 23 -> Z.testbit (f v) i = false) -> (forall v, Z.testbit (f v) 4 = Z.testbit v 4) ->
  (forall d, pull_up d = pull_up (dr s) -> power d = power (dr s) -> unacked d = unacked (dr s) -> Q tt (with_dr d s)) ->
  wp (v ← rd_otgsc; wr_otgsc (f v)) Q s.
Proof. intros H1 H2 H. apply otgsc_writes; [done|]. intros d E. apply H. by rewrite E, H2. Qed.

Ltac control_bits :=
  intros; rewrite ?testbit_setb, ?testbit_clear, ?status_mask, ?andb_false_r by lia;
  first [by rewrite ?andb_false_r|apply low_bits; [done|lia]|
         repeat match goal with |- context [Z.testbit ?m 4] => first [change (Z.testbit m 4) with false|change (Z.testbit m 4) with true] end;
         by rewrite ?orb_false_r, ?andb_true_r].

Lemma chrg_writes on (Q : unit -> otgst -> Prop) s :
  (forall d, pull_up d = pull_up (dr s) -> power d = power (dr s) -> unacked d = unacked (dr s) -> Q tt (with_dr d s)) ->
  wp (fsl_otg_chrg_vbus on) Q s.
Proof.
  intros H. unfold fsl_otg_chrg_vbus. destruct (nz on).
  - apply (pulse_writes (fun v => setb (clear (clear v OTGSC_INTSTS_MASK) OTGSC_CTRL_VBUS_DISCHARGE) OTGSC_CTRL_VBUS_CHARGE)); control_bits || done.
  - apply (pulse_writes (fun v => clear (clear v OTGSC_INTSTS_MASK) OTGSC_CTRL_VBUS_CHARGE)); control_bits || done.
Qed.

Lemma dischrg_writes on (Q : unit -> otgst -> Prop) s :
  (forall d, pull_up d = pull_up (dr s) -> power d = power (dr s) -> unacked d = unacked (dr s) -> Q tt (with_dr d s)) ->
  wp (fsl_otg_dischrg_vbus on) Q s.
Proof.
  intros H. unfold fsl_otg_dischrg_vbus. destruct (nz on).
  - apply (pulse_writes (fun v => setb (clear v OTGSC_INTSTS_MASK) OTGSC_CTRL_VBUS_DISCHARGE)); control_bits || done.
  - apply (pulse_writes (fun v => clear (clear v OTGSC_INTSTS_MASK) OTGSC_CTRL_VBUS_DISCHARGE)); control_bits || done.
Qed.

(** ** An interrupt of the shared line that is not of the ID pin *)

(** The status bits that are set are written back, which clears them. *)
Definition acked (d : usb_dr_mmap) : usb_dr_mmap :=
  mkDr (usbcmd d) (ulpiview d) (portsc d) (w1c OTGSC_IS_MASK (setb (otgsc d) (Z.land (otgsc d) OTGSC_INTSTS_MASK)) (otgsc d)).

Lemma isr_other ext s :
  id_pending (dr s) = false ->
  fsl_otg_isr ext true s =
    Ret (IRQ_NONE, with_default_a (if id_pin (dr s) then 0 else 1) (setv id (Z.b2z (id_pin (dr s))) (with_dr (acked (dr s)) s))).
Proof.
  intros Hp. unfold fsl_otg_isr, read_id, mbind, M_bind. cbn.
  change (nz (Z.land (Z.land (otgsc (dr s)) OTGSC_INTSTS_MASK) (Z.shiftr (otgsc (dr s)) 8)) && _) with (id_pending (dr s)). rewrite Hp.
  change (nz (Z.land (otgsc (dr s)) OTGSC_STS_USB_ID)) with (id_pin (dr s)). by destruct (id_pin (dr s)).
Qed.

(** ** Invariants, construct by construct *)

Definition inv (P : otgst -> Prop) {A} (m : M otgst A) : Prop := forall s, P s -> wlp m (fun _ s' => P s') s.

Lemma wp_wlp {A} (m : M otgst A) Q s : wp m Q s -> wlp m Q s.
Proof. unfold wp, wlp. by destruct (m s) as [[]|]. Qed.

Section Constructs.
Context (P : otgst -> Prop).

Lemma inv_bind {A B} (m : M otgst A) (k : A -> M otgst B) : inv P m -> (forall a, inv P (k a)) -> inv P (m ≫= k).
Proof. intros Hm Hk s Hs. apply wlp_bind. eapply wlp_mono; [by apply Hm|]. intros a s' Hs'. by apply Hk. Qed.

Lemma inv_ret {A} (a : A) : inv P (mret a).
Proof. by intros s Hs. Qed.

Lemma inv_gets {A} (f : otgst -> A) : inv P (gets f).
Proof. by intros s Hs. Qed.

Lemma inv_deref {A} (o : option A) : inv P (deref o).
Proof. intros s Hs. by destruct o. Qed.

Lemma inv_crash {A} f : inv P (crash f : M otgst A).
Proof. by intros s Hs. Qed.

Lemma inv_modify f : (forall s, P s -> P (f s)) -> inv P (modify f).
Proof. intros H s Hs. by apply H. Qed.

(** Using the value that is read. *)
Lemma inv_gets_bind {A B} (f : otgst -> A) (k : A -> M otgst B) :
  (forall s, P s -> wlp (k (f s)) (fun _ s' => P s') s) -> inv P (gets f ≫= k).
Proof. intros H s Hs. apply wlp_bind. by apply H. Qed.
End Constructs.

Create HintDb otg_inv.
#[export] Hint Resolve inv_ret inv_gets inv_deref inv_crash : otg_inv.

Ltac inv_tac :=
  repeat first
    [solve [eauto with otg_inv]
    |match goal with |- inv _ (_ ≫= _) => apply inv_bind; [|intros ?] end
    |match goal with |- inv _ (match ?x with _ => _ end) => destruct x end].

(** ** While the ID pin is held *)

(** The states of one side. *)
Definition side (pin : bool) (st : usb_otg_state) : bool :=
  if pin then negb (a_side st) else (match st with OTG_STATE_UNDEFINED => true | _ => a_side st end).

(** The host driver can be resumed. *)
Definition resumable (h : option usb_bus) : Prop :=
  forall b, h = Some b -> exists drv, controller b = Some (Some drv) /\ drv_has_resume drv = true.

Record bare (pin : bool) (s : otgst) : Prop := mkBare {
  ba_id : fsm s id = Z.b2z pin;
  ba_pull : pull_up (dr s) = nz (fsm s loc_conn);
  ba_pulse : b_data_pulse_tmr ∉ active_timers s;
  ba_b : pin = true -> fsm s drv_vbus = 0 /\ (a_wait_enum_tmr ∉ active_timers s) /\ resumable (host s);
  ba_side : side pin (state s);
}.

(** As A device the power bit is the machine's output; as B device the controller needs it
    while it is host. *)
Definition expected (pin : bool) (s : otgst) : bool := if pin then nz (host_working s) else nz (fsm s drv_vbus).
Definition wired (pin : bool) (s : otgst) : Prop := bare pin s /\ power (dr s) = expected pin s.
Definition powered_as (pin p : bool) (v : Z) (s : otgst) : Prop := bare pin s /\ power (dr s) = p /\ fsm s drv_vbus = v.

(** What [bare] speaks of. *)
Lemma bare_same pin s s' :
  fsm s' id = fsm s id -> fsm s' loc_conn = fsm s loc_conn -> fsm s' drv_vbus = fsm s drv_vbus -> pull_up (dr s') = pull_up (dr s) ->
  active_timers s' ⊆ active_timers s -> host s' = host s -> state s' = state s -> bare pin s -> bare pin s'.
Proof.
  intros E1 E2 E3 E4 E5 E6 E7 [B1 B2 B3 B4 B5]. split; rewrite ?E1, ?E2, ?E3, ?E4, ?E6, ?E7; try done.
  - intros H. by apply B3, E5.
  - intros H. destruct (B4 H) as (H1 & H2 & H3). split_and!; try done. intros H4. by apply H2, E5.
Qed.

Section Held.
Context (ext : drv_call -> usb_dr_mmap -> Z * usb_dr_mmap) (ext_bits : leaves_bits ext) (pin : bool).

Lemma bare_dr d s : pull_up d = pull_up (dr s) -> bare pin s -> bare pin (with_dr d s).
Proof. intros E. by apply bare_same. Qed.

Lemma wired_dr d s : pull_up d = pull_up (dr s) -> power d = power (dr s) -> wired pin s -> wired pin (with_dr d s).
Proof. intros E1 E2 [B E]. split; [by apply bare_dr|]. cbn [dr with_dr]. by rewrite E2, E. Qed.

Lemma powered_dr p v d s :
  pull_up d = pull_up (dr s) -> power d = power (dr s) -> powered_as pin p v s -> powered_as pin p v (with_dr d s).
Proof. intros E1 E2 (B & E & Ev). split_and!; [by apply bare_dr| |done]. cbn [dr with_dr]. by rewrite E2. Qed.

(** A member that is not an output and not the pin. *)
Definition free_var (v : var) : bool := negb (is_output v) && negb (bool_decide (v = id)).

Lemma set_free v w x f : free_var v = true -> free_var w = false -> set_var v x f w = f w.
Proof. intros Hv Hw. unfold set_var. case_decide; [congruence|done]. Qed.

Lemma bare_var v x s : free_var v = true \/ v = protocol \/ v = loc_sof -> bare pin s -> bare pin (setv v x s).
Proof.
  intros Hv. apply bare_same; try done; cbn; unfold set_var; case_decide; subst; try done; by destruct Hv as [?|[?|?]].
Qed.

Lemma wired_var v x s : free_var v = true \/ v = protocol \/ v = loc_sof -> wired pin s -> wired pin (setv v x s).
Proof.
  intros Hv [B E]. split; [by apply bare_var|]. cbn [dr setv with_fsm]. rewrite E. unfold expected. destruct pin; [done|]. cbn.
  unfold set_var. case_decide; [|done]. subst. by destruct Hv as [?|[?|?]].
Qed.
Abbreviation held := (wired pin).

Lemma inv_var v x : free_var v = true \/ v = protocol \/ v = loc_sof -> inv held (wrv v x).
Proof. intros Hv. apply inv_modify. intros s. by apply wired_var. Qed.

(** Members, timers and static variables the invariant does not speak of. *)
Lemma inv_plain f :
  (forall s, fsm (f s) = fsm s /\ dr (f s) = dr s /\ active_timers (f s) ⊆ active_timers s /\ host (f s) = host s /\
     state (f s) = state s /\ host_working (f s) = host_working s) -> inv held (modify f).
Proof.
  intros H. apply inv_modify. intros s [B E]. destruct (H s) as (E1 & E2 & E3 & E4 & E5 & E6). split.
  - apply (bare_same _ s); rewrite ?E1, ?E2, ?E4, ?E5; done.
  - rewrite E2, E. unfold expected. by rewrite E1, E6.
Qed.

Lemma inv_del t : inv held (fsl_otg_del_timer t).
Proof. apply inv_plain. intros s. split_and!; try done. cbn. intros u Hu. by apply list_elem_of_filter in Hu as [_ Hu]. Qed.

Lemma inv_add t : t <> b_data_pulse_tmr -> (pin = true -> t <> a_wait_enum_tmr) -> inv held (fsl_otg_add_timer t).
Proof.
  intros H1 H2. apply inv_modify. intros s [[B1 B2 B3 B4 B5] E]. split; [|done]. split; try done.
  - change (b_data_pulse_tmr ∉ active_timers (add_timer t s)). rewrite add_active. intros [?|?]; [done|congruence].
  - intros Hp. destruct (B4 Hp) as (C1 & C2 & C3). split_and!; try done.
    change (a_wait_enum_tmr ∉ active_timers (add_timer t s)). rewrite add_active. intros [?|?]; [done|]. by apply (H2 Hp).
Qed.

Lemma inv_call c : inv held (call_driver ext c).
Proof.
  intros s Hs. destruct (ext_bits c (dr s)) as (E1 & E2 & _).
  change (wired pin (with_dr (snd (ext c (dr s))) s)). by apply wired_dr.
Qed.

Lemma inv_chrg on : inv held (fsl_otg_chrg_vbus on).
Proof. intros s Hs. apply wp_wlp, chrg_writes. intros d E1 E2 _. by apply wired_dr. Qed.

Lemma inv_dischrg on : inv held (fsl_otg_dischrg_vbus on).
Proof. intros s Hs. apply wp_wlp, dischrg_writes. intros d E1 E2 _. by apply wired_dr. Qed.

(** The cached outputs: a change is written through. *)
Lemma inv_drv_vbus on : (pin = true -> on = 0) -> inv held (otg_drv_vbus on).
Proof.
  intros Hon. apply inv_gets_bind. intros s Hs. destruct (Z.eqb_spec (fsm s drv_vbus) on) as [E|E]; [done|].
  assert (Hp : pin = false).
  { destruct pin; [|done]. destruct Hs as [B _]. destruct (ba_b _ _ B eq_refl) as [E0 _]. exfalso. apply E. rewrite E0. by rewrite Hon. }
  apply wlp_bind. unfold wlp at 1. cbn. apply wp_wlp, drv_vbus_writes. intros d E1 E2.
  destruct Hs as [[B1 B2 B3 B4 B5] _]. split.
  - split; try done. + cbn. unfold pull_up in *. rewrite E2. exact B2. + intros Hp'. congruence.
  - cbn [dr with_dr]. rewrite E1. unfold expected. rewrite Hp. cbn. unfold set_var. by rewrite decide_True.
Qed.

Lemma inv_loc_conn on : inv held (otg_loc_conn on).
Proof.
  apply inv_gets_bind. intros s Hs. destruct (Z.eqb_spec (fsm s loc_conn) on) as [E|E]; [done|].
  apply wlp_bind. unfold wlp at 1. cbn. apply wp_wlp, loc_conn_writes. intros d E1 E2 _. destruct Hs as [[B1 B2 B3 B4 B5] Ep]. split.
  - by split.
  - cbn [dr with_dr with_fsm] in *. rewrite E2, Ep. unfold expected. by destruct pin.
Qed.

Lemma inv_loc_sof on : inv held (otg_loc_sof on).
Proof. unfold otg_loc_sof, rdv, fsl_otg_loc_sof. inv_tac. apply inv_var. auto. Qed.

(** ** Starting and stopping the host driver *)

Section Power.
Context (p : bool) (u : Z).

Lemma as_var v x : free_var v = true -> inv (powered_as pin p u) (wrv v x).
Proof.
  intros Hv. apply inv_modify. intros s (B & E & Ev). split_and!; [apply bare_var; auto|done|].
  cbn. by rewrite set_free.
Qed.

Lemma as_regs f : (forall d, portsc (f d) = portsc d /\ otgsc (f d) = otgsc d) -> inv (powered_as pin p u) (modify (fun s => with_dr (f (dr s)) s)).
Proof.
  intros H. apply inv_modify. intros s. destruct (H (dr s)) as [E1 E2]. apply powered_dr; unfold pull_up, power; by rewrite ?E1, ?E2.
Qed.

Lemma as_call c : inv (powered_as pin p u) (call_driver ext c).
Proof.
  intros s Hs. destruct (ext_bits c (dr s)) as (E1 & E2 & _).
  change (powered_as pin p u (with_dr (snd (ext c (dr s))) s)). by apply powered_dr.
Qed.

Lemma as_reset : inv (powered_as pin p u) (otg_reset_controller true).
Proof.
  unfold otg_reset_controller. apply inv_bind; [|intros _].
  - by apply (as_regs (fun d => mkDr (setb (usbcmd d) UCMD_RESET) (ulpiview d) (portsc d) (otgsc d))).
  - by apply (as_regs (fun d => mkDr (clear (usbcmd d) UCMD_RESET) (ulpiview d) (portsc d) (otgsc d))).
Qed.

Lemma as_ulpi x y : inv (powered_as pin p u) (write_ulpi x y).
Proof. by apply (as_regs (fun d => mkDr (usbcmd d) (Z.lor (Z.lor 0x60000000 (Z.shiftl x 16)) y) (portsc d) (otgsc d))). Qed.
End Power.

Lemma as_drv_vbus on p u s : powered_as pin p u s -> wlp (fsl_otg_drv_vbus on) (fun _ s' => powered_as pin (nz on) u s') s.
Proof.
  intros (B & _ & Ev). apply wp_wlp, drv_vbus_writes. intros d E1 E2. split_and!; [|done|done]. apply bare_dr; [|done]. unfold pull_up. by rewrite E2.
Qed.

(** The power bit follows a method of the host driver when the pin is high. *)
Lemma as_method c p q u (m : M otgst unit) s :
  (forall s1, powered_as pin p u s1 -> wlp m (fun _ s' => powered_as pin q u s') s1) -> powered_as pin p u s ->
  wlp (r ← call_driver ext c; i ← rdv id; (if nz i then m else mret tt);; mret r)
    (fun _ s' => powered_as pin (if pin then q else p) u s') s.
Proof.
  intros Hm Hs. apply wlp_bind. eapply wlp_mono; [by apply as_call|]. intros r s1 H1.
  apply wlp_bind. unfold wlp at 1. cbn. rewrite (ba_id _ _ (proj1 H1)). apply wlp_bind. destruct pin; cbn; [|done].
  eapply wlp_mono; [by apply Hm|]. by intros.
Qed.

Lemma wired_as s : wired pin s -> powered_as pin (expected pin s) (fsm s drv_vbus) s.
Proof. by intros [B E]. Qed.

(** The end of both branches. *)
Lemma then_working x u (m : M otgst Z) s :
  wlp m (fun _ s' => powered_as pin (if pin then nz x else nz u) u s') s ->
  wlp (r ← m; modify (with_host_working x);; mret r) (fun _ s' => wired pin s') s.
Proof.
  intros Hm. apply wlp_bind. eapply wlp_mono; [exact Hm|]. intros r s' (B & E & Ev). unfold wlp. cbn.
  split; [by apply (bare_same _ s')|]. unfold expected. cbn [dr with_host_working host_working fsm]. rewrite E. by destruct pin; rewrite ?Ev.
Qed.

Lemma inv_start_host on : inv held (fsl_otg_start_host ext true on).
Proof.
  intros s Hs. unfold fsl_otg_start_host. apply wlp_bind. unfold wlp at 1. cbn [gets]. destruct (host s) as [b|] eqn:Hb; [|done].
  apply wlp_bind. unfold wlp at 1. cbn [rd_otgsc gets]. set (x := if nz _ then 1 else 0). apply wlp_bind. unfold wlp at 1. cbn [wrv modify].
  set (s1 := with_fsm _ s). assert (H1 : wired pin s1) by (apply wired_var; auto).
  assert (Hr : pin = true -> resumable (Some b)) by (intros Hp; rewrite <- Hb; by apply (ba_b _ _ (proj1 Hs))).
  clearbody s1. clear Hs Hb x. apply wlp_bind. unfold wlp at 1. cbn [gets].
  apply wired_as in H1 as H2. destruct (nz on).
  - destruct (nz (host_working s1)) eqn:Hw; [done|]. apply wlp_bind. eapply wlp_mono; [by apply as_reset|]. intros [] s2 H3.
    destruct (controller b) as [[drv|]|] eqn:Hd; [|done..]. unfold deref. cbn [mbind M_bind mret M_ret].
    apply (then_working 1 (fsm s1 drv_vbus)). destruct (drv_has_resume drv) eqn:Er.
    + eapply wlp_mono; [eapply as_method; [|exact H3]|].
      * intros s3 H4. apply wlp_bind. eapply wlp_mono; [by eapply as_drv_vbus|]. intros [] s4 H5. by apply as_ulpi.
      * intros r s3. unfold expected. by case pin.
    + unfold wlp. cbn. unfold expected in H3. revert H3 Hr. destruct pin; [|done]. intros _ Hr.
      destruct (Hr eq_refl b eq_refl) as (drv' & ? & ?). congruence.
  - destruct (nz (host_working s1)) eqn:Hw; cbn [negb]; [|done]. apply (then_working 0 (fsm s1 drv_vbus)).
    assert (powered_as pin (if pin then nz 0 else nz (fsm s1 drv_vbus)) (fsm s1 drv_vbus) s1 \/ pin = true) as [H3|Hp].
    { revert H2. unfold expected. destruct pin; auto. }
    + destruct (controller b) as [[drv|]|]; [|done..]. unfold call_method. destruct (drv_has_suspend drv); [|done].
      eapply wlp_mono; [eapply as_method; [|exact H3]; intros s2; eapply as_drv_vbus|]. intros r s2. by destruct pin.
    + destruct (Hr Hp b eq_refl) as (drv & -> & _). unfold call_method. destruct (drv_has_suspend drv); [|done].
      eapply wlp_mono; [eapply as_method; [|exact H2]; intros s2; eapply as_drv_vbus|]. intros r s2. by rewrite Hp.
Qed.

(** ** The state machine *)

Hint Resolve inv_start_host inv_call inv_chrg inv_dischrg inv_loc_conn inv_loc_sof inv_del : otg_inv.
Hint Extern 1 (inv _ (wrv _ _)) => apply inv_var; by auto : otg_inv.
Hint Extern 1 (inv _ (rdv _)) => apply inv_gets : otg_inv.
Hint Extern 1 (inv _ (modify _)) => apply inv_plain; intros ?; split_and!; done : otg_inv.
Hint Extern 1 (inv _ (fsl_otg_add_timer _)) => apply inv_add; [discriminate|intros ?; done] : otg_inv.

Lemma inv_gadget on : inv held (fsl_otg_start_gadget ext on).
Proof. unfold fsl_otg_start_gadget. inv_tac. Qed.
Hint Resolve inv_gadget : otg_inv.

Lemma inv_protocol q : inv held (otg_set_protocol ext true q).
Proof. unfold otg_set_protocol. inv_tac. Qed.
Hint Resolve inv_protocol : otg_inv.

Lemma inv_leave st : inv held (otg_leave_state st).
Proof. unfold otg_leave_state. inv_tac. Qed.

Lemma inv_enter st : st <> OTG_STATE_B_SRP_INIT -> side pin st -> inv held (enter_state ext true st).
Proof.
  intros Hst Hs. assert (Hd : forall on, (pin = true -> on = 0) -> inv held (otg_drv_vbus on)) by apply inv_drv_vbus.
  assert (Hp : a_side st = true -> pin = true -> False).
  { unfold side in Hs. destruct pin; [|done]. intros E _. by rewrite E in Hs. }
  destruct st; cbn [enter_state]; try done; unfold otg_chrg_vbus, usb_bus_start_enum.
  all: repeat first
    [solve [eauto with otg_inv]|solve [apply Hd; intros ?; first [reflexivity|by exfalso; apply Hp]]
    |solve [apply inv_add; [discriminate|intros ?; first [discriminate|by exfalso; apply Hp]]]
    |match goal with |- inv _ (_ ≫= _) => apply inv_bind; [|intros ?] end
    |match goal with |- inv _ (match ?x with _ => _ end) => destruct x end].
Qed.

(** A change of state; a session request is not followed further. *)
Definition held_or_srp (s : otgst) : Prop := wired pin s \/ pin = true /\ state s = OTG_STATE_B_SRP_INIT.

Lemma set_state_held st s :
  wired pin s -> side pin st -> wlp (otg_set_state ext true st) (fun _ s' => held_or_srp s') s.
Proof.
  intros Hs Hst. unfold otg_set_state. apply wlp_bind. eapply wlp_mono; [apply (inv_plain (with_changed 1)); [by intros|done]|].
  intros [] s1 H1. apply wlp_bind. unfold wlp at 1. cbn [gets]. case_decide as Hd; [by left|].
  destruct (decide (st = OTG_STATE_B_SRP_INIT)) as [->|Hn].
  { do 2 (apply wlp_bind; unfold wlp at 1; match goal with |- match ?m with _ => _ end => destruct m as [[[] ?]|]; [|done] end).
    right. revert Hst. by case pin. }
  apply wlp_bind. eapply wlp_mono; [by apply inv_leave|]. intros [] s2 H2.
  apply wlp_bind. eapply wlp_mono; [by apply inv_enter|]. intros [] s3 [[B1 B2 B3 B4 B5] E]. left. split; [by split|exact E].
Qed.

Lemma wlp_host_hnp {A} (k : bool -> M otgst A) Q s : (forall b, wlp (k b) Q s) -> wlp (host_hnp ≫= k) Q s.
Proof. intros Hk. apply wlp_bind. unfold wlp at 1, host_hnp, mbind, M_bind, gets. destruct (host s); [apply Hk|done]. Qed.

Ltac by_cases :=
  repeat match goal with
  | |- wlp (if ?c then _ else _) _ _ => destruct c
  | |- wlp (gets gadget ≫= _) _ _ => apply wlp_bind; unfold wlp at 1; cbn [gets]
  | |- wlp (deref ?o ≫= _) _ _ => destruct o; [|done]; apply wlp_bind; unfold wlp at 1; cbn [deref mret M_ret]
  | |- wlp (host_hnp ≫= _) _ _ => apply wlp_host_hnp; intros ?
  | |- wlp ((if ?c then _ else _) ≫= _) _ _ => destruct c
  | |- wlp (mret _ ≫= _) _ _ => apply wlp_bind; unfold wlp at 1; cbn [mret M_ret]
  end.

Lemma machine_held s : wired pin s -> wlp (otg_statemachine ext true) (fun _ s' => held_or_srp s') s.
Proof.
  intros Hs. unfold otg_statemachine. apply wlp_bind. unfold wlp at 1. cbn [gets].
  apply wlp_bind. eapply wlp_mono; [apply (inv_plain (with_changed 0)); [by intros|done]|]. intros [] s1 H1.
  pose proof (ba_side _ _ (proj1 Hs)) as Hsd. clear Hs. apply wlp_bind. unfold wlp at 1. cbn [gets]. cbv zeta.
  apply wlp_bind. apply (wlp_mono _ (fun _ s' => held_or_srp s')); [|by intros].
  assert (Hi : nz (fsm s1 id) = pin) by (rewrite (ba_id _ _ (proj1 H1)); by case pin). rewrite !Hi.
  assert (Hret : held_or_srp s1) by (by left).
  assert (Hset : forall st, side pin st -> wlp (otg_set_state ext true st) (fun _ s' => held_or_srp s') s1)
    by (intros st; by apply set_state_held).
  assert (Hacon : forall st, side pin st ->
    wlp (wrv b_ase0_brst_tmout 0;; otg_set_state ext true st) (fun _ s' => held_or_srp s') s1).
  { intros st Hst. apply wlp_bind. eapply wlp_mono; [by apply inv_var; auto|]. intros [] s2 H2. by apply set_state_held. }
  clear H1 Hi. unfold side in *. destruct pin, (state s); try done; cbn [negb orb andb]; by_cases;
    first [exact Hret|apply Hset; done|apply Hacon; done].
Qed.

(** ** Timers *)

Lemma inv_timer t : t <> b_data_pulse_tmr -> (pin = true -> t <> a_wait_enum_tmr) ->
  inv held (call_timer ext true (fst (fsl_otg_init_timers t))).
Proof.
  intros H1 H2. destruct t; cbn [fsl_otg_init_timers fst call_timer]; try done.
  all: try (unfold set_tmout, b_srp_end, b_vbus_pulse_end; by inv_tac).
  intros s Hs. apply wlp_host_hnp. intros [].
  - apply wlp_bind. eapply wlp_mono; [by apply machine_held|]. intros r s' [Hw|[Hp _]]; [done|]. by destruct (H2 Hp).
  - by apply inv_add.
Qed.

Lemma next_of_in t l o : next_of t l = Some o -> t ∈ l.
Proof. induction l as [|u l IH]; cbn; [done|]. case_decide; [intros _; subst; left|]. intros E. right. by apply IH. Qed.

Lemma inv_loop fuel cur e : inv held (tick_loop ext true fuel cur e).
Proof.
  revert cur e. induction fuel as [|n IH]; intros [t|] e; cbn [tick_loop]; try (by inv_tac).
  intros s Hs. apply wlp_bind. unfold wlp at 1. cbn [gets]. destruct (next_of t (active_timers s)) as [nxt|] eqn:En; [|done].
  apply next_of_in in En.
  assert (H1 : t <> b_data_pulse_tmr) by (intros ->; by apply (ba_pulse _ _ (proj1 Hs))).
  assert (H2 : pin = true -> t <> a_wait_enum_tmr) by (intros Hp ->; by destruct (ba_b _ _ (proj1 Hs) Hp) as (_ & ? & _)).
  pose proof (inv_timer t H1 H2). match goal with |- wlp ?m _ _ => assert (I : inv held m) end; [|by apply I]. inv_tac.
Qed.

Lemma inv_tick : inv held (fsl_otg_tick_timer ext true).
Proof. unfold fsl_otg_tick_timer. apply inv_bind; [apply inv_gets|]. intros l. apply inv_loop. Qed.

(** ** Registration *)

Lemma wired_host h s : (pin = true -> resumable h) -> wired pin s -> wired pin (with_host h s).
Proof. intros Hr [[B1 B2 B3 B4 B5] E]. split; [|done]. split; try done. intros Hp. destruct (B4 Hp) as (? & ? & _). auto. Qed.

Lemma inv_host h : (pin = true -> resumable h) -> inv held (modify (with_host h)).
Proof. intros Hr. apply inv_modify. intros s. by apply wired_host. Qed.

(** Registering a host driver while none runs. *)
Lemma set_host_held b s :
  (pin = true -> resumable (Some b)) -> host_working s = 0 -> wired pin s ->
  wlp (fsl_otg_set_host ext true true (Some b)) (fun _ s' => held_or_srp s') s.
Proof.
  intros Hr Hw Hs. cbn [fsl_otg_set_host negb].
  set (quiet := fun s => wired pin s /\ host_working s = 0).
  assert (Qvar : forall v x, free_var v = true -> inv quiet (wrv v x)).
  { intros v x Hv. apply inv_modify. intros s1 [H1 H2]. split; [apply wired_var; auto|done]. }
  assert (Qhost : forall b', controller b' = controller b -> inv quiet (modify (with_host (Some b')))).
  { intros b' E. apply inv_modify. intros s1 [H1 H2]. split; [|done]. apply wired_host; [|done].
    intros Hp b0 [= <-]. rewrite E. by apply Hr. }
  assert (Qcall : forall c, inv quiet (call_driver ext c)).
  { intros c s1 [H1 H2]. split; [by apply (inv_call c s1)|done]. }
  apply wlp_bind. eapply wlp_mono; [by apply Qhost|]. intros [] s1 H1.
  apply wlp_bind. eapply wlp_mono; [by apply Qvar|]. intros [] s2 H2.
  apply wlp_bind. eapply wlp_mono; [by apply Qvar|]. intros [] s3 H3.
  apply wlp_bind. match goal with |- wlp ?m _ _ => assert (I : inv quiet m) end.
  { apply inv_bind; [apply inv_gets|]. intros i. apply inv_bind; [by apply Qhost|]. intros [].
    unfold call_method. repeat case_match; inv_tac. }
  eapply wlp_mono; [by apply I|]. intros [] s4 [H4 Hw4].
  apply wlp_bind. unfold wlp at 1. cbn [modify]. rewrite <- Hw4, with_working_same.
  apply wlp_bind. eapply wlp_mono; [by apply machine_held|]. by intros.
Qed.

Lemma inv_to_gadget : inv held (switch_to_gadget ext true).
Proof. unfold switch_to_gadget. pose proof (inv_drv_vbus 0 (fun _ => eq_refl)). inv_tac. Qed.
Hint Resolve inv_to_gadget : otg_inv.

Lemma inv_set_peripheral g : inv held (fsl_otg_set_peripheral ext true true (Some g)).
Proof. cbn [fsl_otg_set_peripheral negb]. inv_tac. Qed.

(** Registering a gadget driver changes neither the state nor, without a host, that none runs. *)
Ltac plain_tac :=
  repeat first
    [solve [eauto with otg_inv]
    |match goal with |- inv _ (modify _) => apply inv_modify; intros ? ?; assumption end
    |match goal with |- inv _ (_ ≫= _) => apply inv_bind; [|intros ?] end
    |match goal with |- inv _ (match ?x with _ => _ end) => destruct x end].

Lemma set_peripheral_state g st : inv (fun s => state s = st) (fsl_otg_set_peripheral ext true true (Some g)).
Proof.
  cbn [fsl_otg_set_peripheral negb]. unfold switch_to_gadget, fsl_otg_start_host, fsl_otg_start_gadget, otg_drv_vbus, fsl_otg_drv_vbus,
    otg_reset_controller, call_method, call_driver, write_ulpi, rd_portsc, wr_portsc, rd_otgsc, wrv, rdv. plain_tac.
Qed.

Lemma set_peripheral_idle g : inv (fun s => host s = None /\ host_working s = 0) (fsl_otg_set_peripheral ext true true (Some g)).
Proof.
  assert (Hh : forall on, inv (fun s => host s = None /\ host_working s = 0) (fsl_otg_start_host ext true on)).
  { intros on. apply inv_gets_bind. intros s Hs. by rewrite (proj1 Hs). }
  cbn [fsl_otg_set_peripheral negb]. unfold switch_to_gadget, fsl_otg_start_gadget, otg_drv_vbus, fsl_otg_drv_vbus, call_driver,
    rd_portsc, wr_portsc, wrv, rdv. plain_tac.
Qed.

(** ** Start *)

Lemma wr_otgsc_pull x s : pull_up (mkDr (usbcmd (dr s)) (ulpiview (dr s)) (portsc (dr s)) (w1c OTGSC_IS_MASK x (otgsc (dr s)))) = Z.testbit x 4.
Proof. unfold pull_up. cbn [otgsc]. rewrite testbit_w1c by done. by change (Z.testbit OTGSC_IS_MASK 4) with false. Qed.

Lemma start_held d :
  id_pin d = pin -> power d = false -> pull_up d = false ->
  wlp (usb_otg_start true 0) (fun _ s => wired pin s /\ host s = None /\ host_working s = 0) (otg_config d).
Proof.
  intros Hi Hp Hu. set (sc := setb (clear (otgsc d) OTGSC_INTERRUPT_ENABLE_BITS_MASK) OTGSC_IE_USB_ID).
  set (d' := mkDr (usbcmd d) (ulpiview d) (portsc d) (w1c OTGSC_IS_MASK sc (otgsc d))).
  assert (E : usb_otg_start true 0 (otg_config d) =
    Ret (0, with_dr d' (with_state (if pin then OTG_STATE_UNDEFINED else OTG_STATE_A_IDLE) (otg_config d)))).
  { rewrite <- Hi. unfold id_pin, usb_otg_start, mbind, M_bind. cbn. by destruct (nz _). }
  unfold wlp. rewrite E. split_and!; [|done|done]. split; [split|].
  - cbn. rewrite <- Hi. unfold id_pin. by destruct (nz _).
  - etrans; [apply (wr_otgsc_pull sc (otg_config d))|]. unfold sc. rewrite testbit_setb, testbit_clear by done.
    change (Z.testbit OTGSC_IE_USB_ID 4) with false. unfold pull_up in Hu. by rewrite orb_false_r, Hu.
  - apply not_elem_of_nil.
  - intros _. split_and!; [done|apply not_elem_of_nil|]. intros b [=].
  - by destruct pin.
  - unfold expected. etrans; [exact Hp|]. by destruct pin.
Qed.

(** Other interrupts of the shared line. *)
Lemma isr_other_held s :
  wired pin s -> id_pin (dr s) = pin -> id_pending (dr s) = false -> wlp (fsl_otg_isr ext true) (fun _ s' => wired pin s') s.
Proof.
  intros Hs Hi Hp. unfold wlp. rewrite (isr_other ext s Hp), Hi.
  assert (Hd : wired pin (with_dr (acked (dr s)) s)).
  { apply wired_dr; [|done|done]. etrans; [apply (wr_otgsc_pull _ s)|]. rewrite testbit_setb, Z.land_spec.
    change (Z.testbit OTGSC_INTSTS_MASK 4) with false. by rewrite andb_false_r, orb_false_r. }
  destruct Hd as [[B1 B2 B3 B4 B5] Ep]. split; [|exact Ep]. by split.
Qed.

End Held.

(** ** The switches of the ID interrupt *)

Section Switch.
Context (ext : drv_call -> usb_dr_mmap -> Z * usb_dr_mmap) (ext_bits : leaves_bits ext).

Lemma inv_call_bits (P : otgst -> Prop) c :
  (forall s d, P s -> power d = power (dr s) -> unacked d = unacked (dr s) -> P (with_dr d s)) -> inv P (call_driver ext c).
Proof. intros HP s Hs. destruct (ext_bits c (dr s)) as (E1 & _ & E3). by apply HP. Qed.

(** Goes through a program with a property of the bits. *)
Ltac bits_tac :=
  repeat first
    [solve [eauto with otg_inv]
    |match goal with
     | |- inv _ (call_driver _ _) =>
         apply inv_call_bits; intros ? ? ? E1 E3; cbn [dr with_dr fsm]; rewrite ?E1, ?E3; assumption
     | |- inv _ (modify _) => apply inv_modify; intros ? ?; cbn; assumption
     | |- inv _ (_ ≫= _) => apply inv_bind; [|intros ?]
     | |- inv _ (match ?x with _ => _ end) => destruct x
     end].

Lemma inv_acked_vbus on : inv (fun s => unacked (dr s) = 0) (fsl_otg_drv_vbus on).
Proof. intros s Hs. apply wp_wlp, drv_vbus_writes. intros d _ E. unfold unacked in *. cbn [dr with_dr]. by rewrite E. Qed.

(** An interrupt that is acknowledged stays so. *)
Lemma acked_to_host :
  inv (fun s => unacked (dr s) = 0) (fsl_otg_start_gadget ext 0;; otg_drv_vbus 1;; fsl_otg_start_host ext true 1;; mret tt).
Proof.
  pose proof inv_acked_vbus. unfold fsl_otg_start_gadget, otg_drv_vbus, fsl_otg_start_host, otg_reset_controller, call_method, write_ulpi,
    rdv, wrv, rd_otgsc. bits_tac.
Qed.

(** With the pin low VBUS is driven, if the machine's record of it was right. *)
Lemma power_to_host s :
  fsm s id = 0 -> fsm s drv_vbus = Z.b2z (power (dr s)) ->
  wlp (fsl_otg_start_gadget ext 0;; otg_drv_vbus 1;; fsl_otg_start_host ext true 1;; mret tt) (fun _ s' => power (dr s') = true) s.
Proof.
  intros Hi Hc. set (before := fun s => fsm s id = 0 /\ (fsm s drv_vbus = 1 -> power (dr s) = true)).
  set (after := fun s => fsm s id = 0 /\ power (dr s) = true).
  assert (Hg : inv before (fsl_otg_start_gadget ext 0)) by (unfold fsl_otg_start_gadget, before; bits_tac).
  assert (Hh : inv after (fsl_otg_start_host ext true 1)).
  { assert (Hm : forall c (m : M otgst unit), inv after (r ← call_driver ext c; i ← rdv id; (if nz i then m else mret tt);; mret r)).
    { intros c m. apply inv_bind; [unfold after; bits_tac|]. intros r. apply inv_gets_bind. intros s1 H1. by rewrite (proj1 H1). }
    assert (Hr : inv after (otg_reset_controller true)) by (unfold otg_reset_controller, after; bits_tac).
    assert (Hv : forall x, inv after (wrv a_vbus_vld x)) by (intros x; unfold wrv, after; bits_tac).
    assert (Hw : forall x, inv after (modify (with_host_working x))) by (intros x; unfold after; bits_tac).
    unfold fsl_otg_start_host, rd_otgsc. change (nz 1) with true. cbv iota. inv_tac. }
  apply wlp_bind. eapply wlp_mono; [apply Hg; split; [done|intros E]|].
  { rewrite E in Hc. by destruct (power (dr s)). }
  intros r s1 [H1 H2]. apply wlp_bind. apply (wlp_mono _ (fun _ => after)).
  - apply wlp_bind. unfold wlp at 1. cbn [rdv gets]. destruct (Z.eqb_spec (fsm s1 drv_vbus) 1) as [E|E]; [by split; auto|].
    apply wlp_bind. unfold wlp at 1. cbn [wrv modify]. apply wp_wlp, drv_vbus_writes. intros d Ed _. by split.
  - intros [] s2 H3. apply wlp_bind. eapply wlp_mono; [by apply Hh|]. by intros ? s3 [_ ?].
Qed.

(** With the pin high VBUS is off. *)
Lemma power_to_gadget s :
  fsm s drv_vbus = Z.b2z (power (dr s)) -> wlp (switch_to_gadget ext true) (fun _ s' => power (dr s') = false) s.
Proof.
  intros Hc. set (before := fun s => fsm s drv_vbus = 0 -> power (dr s) = false).
  assert (Hd : inv before (fsl_otg_drv_vbus 0)).
  { intros s1 H1. apply wp_wlp, drv_vbus_writes. by intros d Ed _ _. }
  assert (Hh : inv before (fsl_otg_start_host ext true 0)).
  { unfold fsl_otg_start_host, call_method, rd_otgsc, rdv, wrv. cbn [nz Z.eqb negb]. unfold before in *. bits_tac. }
  assert (Hg : inv (fun s => power (dr s) = false) (fsl_otg_start_gadget ext 1)) by (unfold fsl_otg_start_gadget; bits_tac).
  unfold switch_to_gadget. apply wlp_bind. eapply wlp_mono; [apply Hh; intros E|].
  { rewrite E in Hc. by destruct (power (dr s)). }
  intros r s1 H1. apply wlp_bind. apply (wlp_mono _ (fun _ s => power (dr s) = false)).
  - apply wlp_bind. unfold wlp at 1. cbn [rdv gets]. destruct (Z.eqb_spec (fsm s1 drv_vbus) 0) as [E|E]; [by apply H1|].
    apply wlp_bind. unfold wlp at 1. cbn [wrv modify]. apply wp_wlp, drv_vbus_writes. by intros d Ed _.
  - intros [] s2 H2. apply wlp_bind. eapply wlp_mono; [by apply Hg|]. by intros.
Qed.
End Switch.
