(* ===== verification/OtgMain.v ===== *)
(** * USB On-The-Go: the theorems

    The state machine from the start of the driver on, under every change of its
    inputs; when it comes to rest; and the interrupt of the ID pin. *)

From stdpp Require Import base gmap list.
From Stdlib Require Import ZArith Lia.
From S2P Require Import Prelude Otg OtgFsm OtgStep OtgInv OtgTimers OtgSettle OtgRegs.

Lemma wp_elim {A} (m : M otgst A) Q s a s' : wp m Q s -> m s = Ret (a, s') -> Q a s'.
Proof. intros W H. unfold wp in W. by rewrite H in W. Qed.

Lemma wlp_elim {A} (m : M otgst A) Q s a s' : wlp m Q s -> m s = Ret (a, s') -> Q a s'.
Proof. intros W H. unfold wlp in W. by rewrite H in W. Qed.

Lemma inv_elim {A} P (m : M otgst A) s a s' : inv P m -> P s -> m s = Ret (a, s') -> P s'.
Proof. intros I Hs. exact (wlp_elim _ _ _ _ _ (I s Hs)). Qed.

(** ** Runs of the state machine *)

Section Reach.
Context (ext : drv_call -> usb_dr_mmap -> Z * usb_dr_mmap).

(** The driver configured and started, and its two drivers registered, in either order. *)
Definition bring_up (host_first : bool) (b : usb_bus) (g : usb_gadget) : M otgst unit :=
  usb_otg_start true 0;;
  (if host_first then fsl_otg_set_host ext true true (Some b);; fsl_otg_set_peripheral ext true true (Some g)
   else fsl_otg_set_peripheral ext true true (Some g);; fsl_otg_set_host ext true true (Some b));;
  mret tt.

(** The states from then on, as long as both drivers stay registered and no ID interrupt is
    taken: any input, any register and the flags of the two drivers may change; the machine is
    called, the timers tick and other interrupts of the line are taken in any order. *)
Inductive otg_reach (d : usb_dr_mmap) (b : usb_bus) (g : usb_gadget) : otgst -> Prop :=
| reach_start first s : bring_up first b g (otg_config d) = Ret (tt, s) -> otg_reach d b g s
| reach_input s v x : otg_reach d b g s -> is_output v = false -> otg_reach d b g (setv v x s)
| reach_regs s d' : otg_reach d b g s -> otg_reach d b g (with_dr d' s)
| reach_drivers s b' g' :
    otg_reach d b g s -> controller b' = controller b -> otg_reach d b g (with_gadget (Some g') (with_host (Some b') s))
| reach_machine s r s' : otg_reach d b g s -> otg_statemachine ext true s = Ret (r, s') -> otg_reach d b g s'
| reach_tick s r s' : otg_reach d b g s -> fsl_otg_tick_timer ext true s = Ret (r, s') -> otg_reach d b g s'
| reach_isr s r s' :
    otg_reach d b g s -> id_pending (dr s) = false -> fsl_otg_isr ext true s = Ret (r, s') -> otg_reach d b g s'.

(** The same with the ID pin held and without a session request (a B device that asks for the
    bus pulses the pull-up and VBUS): inputs other than the pin, registers whose control bits
    the hardware leaves alone. *)
Inductive otg_held (pin : bool) (d : usb_dr_mmap) (b : usb_bus) (g : usb_gadget) : otgst -> Prop :=
| held_start first s : bring_up first b g (otg_config d) = Ret (tt, s) -> otg_held pin d b g s
| held_input s v x : otg_held pin d b g s -> free_var v = true -> otg_held pin d b g (setv v x s)
| held_regs s d' :
    otg_held pin d b g s -> power d' = power (dr s) -> pull_up d' = pull_up (dr s) -> otg_held pin d b g (with_dr d' s)
| held_drivers s b' g' :
    otg_held pin d b g s -> controller b' = controller b -> otg_held pin d b g (with_gadget (Some g') (with_host (Some b') s))
| held_machine s r s' :
    otg_held pin d b g s -> otg_statemachine ext true s = Ret (r, s') -> state s' <> OTG_STATE_B_SRP_INIT -> otg_held pin d b g s'
| held_tick s r s' : otg_held pin d b g s -> fsl_otg_tick_timer ext true s = Ret (r, s') -> otg_held pin d b g s'
| held_isr s r s' :
    otg_held pin d b g s -> id_pin (dr s) = pin -> id_pending (dr s) = false -> fsl_otg_isr ext true s = Ret (r, s') ->
    otg_held pin d b g s'.

Lemma held_reach pin d b g s : otg_held pin d b g s -> otg_reach d b g s.
Proof.
  induction 1 as [first s H|s v x _ IH Hv|s d' _ IH _ _|s b' g' _ IH Hc|s r s' _ IH H _|s r s' _ IH H|s r s' _ IH _ Hp H].
  - by eapply reach_start.
  - apply reach_input; [done|]. unfold free_var in Hv. by destruct v.
  - by apply reach_regs.
  - by apply reach_drivers.
  - by eapply reach_machine.
  - by eapply reach_tick.
  - by eapply reach_isr.
Qed.

Context (ext_ok : forall c d, fst (ext c d) = 0).

(** The bus has a driver with a suspend method. *)
Definition complete (b : usb_bus) : Prop := exists drv, controller b = Some (Some drv) /\ drv_has_suspend drv = true.

Lemma moore_plain s s' :
  fsm s' = fsm s -> state s' = state s -> host_working s' = host_working s -> active_timers s' = active_timers s ->
  moore s -> moore s'.
Proof. intros E1 E2 E3 E4 [M1 M2 M3 M4 M5 M6 M7]. split; by rewrite ?E1, ?E2, ?E3, ?E4. Qed.

(** Executes code on a state whose members are known. *)
Lemma wp_call c (Q : Z -> otgst -> Prop) s : (forall d, Q 0 (with_dr d s)) -> wp (call_driver ext c) Q s.
Proof. intros H. apply wp_bind, wp_gets, wp_bind, wp_modify, wp_ret. rewrite ext_ok. apply H. Qed.

Ltac head_of m := lazymatch m with ?f _ => head_of f | _ => m end.
Ltac known c := let c' := eval cbv in c in let h := head_of c' in is_constructor h; change c with c' in *; cbv iota beta.
Ltac tidy :=
  cbv delta [with_fsm with_state with_default_a with_host with_gadget with_host_working with_event with_dr with_timers with_srp
             with_changed] beta;
  cbn [fsm state default_a host gadget host_working otg_event dr counts active_timers srp_wait_done state_changed];
  match goal with
  | |- context [mkOtg _ _ _ _ _ _ _ ?d _ _ _ _] => first [is_var d|generalize d; intros ?]
  end.
Ltac exec :=
  match goal with
  | |- wp (_ ≫= _) _ _ => apply wp_bind
  | |- wp (mret _) _ _ => apply wp_ret
  | |- wp (gets _) _ _ => apply wp_gets
  | |- wp (modify _) _ _ => apply wp_modify; tidy
  | |- wp (deref _) _ _ => eapply wp_deref; [reflexivity|]
  | |- wp (call_driver _ _) _ _ => apply wp_call; intros ?; tidy
  | |- wp (if ?c then _ else _) _ _ => known c
  | |- wp (match ?o with _ => _ end) _ _ => known o
  | |- wp ?m _ _ => let f := head_of m in unfold f
  end.

Lemma bring_up_ok first d b g :
  complete b -> wp (bring_up first b g) (fun _ s => ok s /\ state s <> OTG_STATE_B_SRP_INIT) (otg_config d).
Proof.
  intros (drv & Hd & Hs). destruct b as [hnp bh port ctl pr], drv as [res sus]. cbn in Hd, Hs. subst ctl sus.
  unfold otg_config. repeat exec. cbn [dr].
  destruct (nz (Z.land (otgsc d) OTGSC_STS_USB_ID)), first, res; repeat exec.
  all: split; [|done]; split; [split; [by eexists _, _|by eexists]|].
  all: split; try reflexivity; try apply NoDup_singleton.
  all: intros t Ht; right; match type of Ht with _ ∈ ?l => known l end; apply list_elem_of_singleton in Ht as ->; reflexivity.
Qed.

Lemma reach_ok d b g s : complete b -> otg_reach d b g s -> ok s.
Proof.
  intros Hb H. induction H as [first s H|s v x _ IH Hv|s d' _ IH|s b' g' _ IH Hc|s r s' _ IH H|s r s' _ IH H|s r s' _ IH Hp H].
  - exact (proj1 (wp_elim _ _ _ _ _ (bring_up_ok first d b g Hb) H)).
  - by apply ok_input.
  - destruct IH as [Hc Hm]. split; [done|by apply (moore_plain s)].
  - destruct IH as [_ Hm]. split; [|by apply (moore_plain s)]. destruct Hb as (drv & Hd & Hs).
    split; [|by exists g']. exists b', drv. by rewrite Hc.
  - destruct (wp_elim _ _ _ _ _ (machine_step ext ext_ok s (proj1 IH)) H) as [_ W].
    rewrite W. by apply ok_step.
  - exact (wp_elim _ _ _ _ _ (tick_ok ext ext_ok s IH) H).
  - rewrite (isr_other ext s Hp) in H. injection H as <- <-. destruct IH as [Hc Hm].
    split; [done|]. apply (moore_plain (setv id (Z.b2z (id_pin (dr s))) s)); try done. by apply moore_input.
Qed.

(** ** The registers *)

Section Bits.
Context (ext_bits : leaves_bits ext).

Lemma bring_up_held pin first d b g s :
  complete b -> (pin = true -> resumable (Some b)) -> id_pin d = pin -> power d = false -> pull_up d = false ->
  bring_up first b g (otg_config d) = Ret (tt, s) -> wired pin s.
Proof.
  intros Hb Hr Hi Hp Hu H. destruct (wp_elim _ _ _ _ _ (bring_up_ok first d b g Hb) H) as [_ Hn].
  enough (W : wlp (bring_up first b g) (fun _ s' => held_or_srp pin s') (otg_config d)).
  { by destruct (wlp_elim _ _ _ _ _ W H) as [?|[_ ?]]. }
  unfold bring_up. apply wlp_bind. eapply wlp_mono; [by apply start_held|]. intros r s1 (H1 & Hh & Hw).
  apply wlp_bind. apply (wlp_mono _ (fun _ s' => held_or_srp pin s')); [|by intros]. destruct first.
  - apply wlp_bind. eapply wlp_mono; [by apply set_host_held|]. intros r2 s2 [H2|[Hpin H2]].
    + eapply wlp_mono; [by apply inv_set_peripheral|]. intros r3 s3 H3. by left.
    + eapply wlp_mono; [by apply set_peripheral_state|]. intros r3 s3 H3. by right.
  - apply wlp_bind. unfold wlp at 1. pose proof (set_peripheral_idle ext g s1 (conj Hh Hw)) as I.
    pose proof (inv_set_peripheral ext ext_bits pin g s1 H1) as J. unfold wlp in I, J.
    destruct (fsl_otg_set_peripheral ext true true (Some g) s1) as [[r2 s2]|]; [|done]. apply set_host_held; [done|done|apply I|exact J].
Qed.

Lemma held_wired pin d b g s :
  complete b -> (pin = true -> resumable (Some b)) -> id_pin d = pin -> power d = false -> pull_up d = false ->
  otg_held pin d b g s -> wired pin s.
Proof.
  intros Hb Hr Hi Hp Hu. induction 1 as [first s H|s v x _ IH Hv|s d' _ IH E1 E2|s b' g' _ IH Hc|s r s' _ IH H Hn|s r s' _ IH H|s r s' _ IH H1 H2 H].
  - by eapply bring_up_held.
  - apply wired_var; auto.
  - by apply wired_dr.
  - apply (wired_host pin (Some b')) in IH; [destruct IH as [[] ?]; by split|].
    intros Hpin b0 [= <-]. rewrite Hc. by apply Hr.
  - by destruct (wlp_elim _ _ _ _ _ (machine_held ext ext_bits pin s IH) H) as [?|[_ ?]].
  - exact (inv_elim _ _ _ _ _ (inv_tick ext ext_bits pin) IH H).
  - exact (wlp_elim _ _ _ _ _ (isr_other_held ext pin s IH H1 H2) H).
Qed.
End Bits.
End Reach.

(** The power bit by state: the powered A states; as B device, the host states. *)
Definition vbus_in (pin : bool) (st : usb_otg_state) : bool :=
  if pin then match st with OTG_STATE_B_WAIT_ACON | OTG_STATE_B_HOST => true | _ => false end
  else match st with
       | OTG_STATE_A_WAIT_VRISE | OTG_STATE_A_WAIT_BCON | OTG_STATE_A_HOST | OTG_STATE_A_SUSPEND | OTG_STATE_A_PERIPHERAL => true
       | _ => false
       end.
Definition connected_in (st : usb_otg_state) : bool :=
  match st with OTG_STATE_B_PERIPHERAL | OTG_STATE_A_PERIPHERAL => true | _ => false end.

Lemma wired_moore pin s :
  wired pin s -> moore s -> power (dr s) = vbus_in pin (state s) /\ pull_up (dr s) = connected_in (state s).
Proof.
  intros [B E] M. rewrite E, (ba_pull _ _ B), (mo_conn _ M). unfold expected. rewrite (mo_host _ M), (mo_proto _ M), (mo_vbus _ M).
  pose proof (ba_side _ _ B) as Hs. unfold side in Hs. by destruct pin, (state s).
Qed.


(** C38: called again and again with its inputs held, the machine comes to rest within
    eighteen calls, unless a B device is connected and either the machine is told to
    leave the bus (ID pin high or [a_bus_drop]) with VBUS valid and no hand-over
    requested, or it is told to hand over while the B device resumes.  In those
    cases, started in [A_HOST], it never rests. *)
Theorem otg_settles (ext : drv_call -> usb_dr_mmap -> Z * usb_dr_mmap) (s : otgst)
    (ext_ok : forall c r, fst (ext c r) = 0) (ext_vbus : forall c r, vbus_bit (snd (ext c r)) = vbus_bit r)
    (Hc : connected s) (Hv : nz (fsm s a_vbus_vld) = vbus_bit (dr s)) :
  (contended (a_inputs s) = false ->
     exists s', calls ext 18 s = Ret (tt, s') /\ settled s' /\
       exists s'', otg_statemachine ext true s' = Ret (0, s'') /\ s'' ≡ with_changed 0 s') /\
  (contended (a_inputs s) = true -> state s = OTG_STATE_A_HOST ->
     forall n, exists s', calls ext n s = Ret (tt, s') /\ ~ settled s').
Proof.
  split.
  - intros Hn. destruct (wp_run (calls ext 18) (fun _ s' => connected s' /\ settled s') s) as [W _].
    destruct W as ([] & s' & E & Hc' & Hs'); [apply (calls_rest ext ext_ok ext_vbus (vbus_bit (dr s))); [done|done|by apply rests_all]|].
    exists s'. split_and!; [done|done|]. 
    destruct (proj1 (wp_run _ _ _) (machine_step ext ext_ok s' Hc')) as (r & s'' & E' & Hr & H). exists s''. unfold step, settled in *.
    rewrite Hs' in *. by subst.
  - intros Hn Hst n. destruct (wp_run (calls ext n) (fun _ s' => ~ settled s') s) as [W _].
    destruct W as ([] & s' & E & Hs'); [|by exists s'].
    apply (calls_round ext ext_ok ext_vbus (vbus_bit (dr s))); [done|done|]. unfold goes_round. by rewrite Hn, Hst.
Qed.

(** ** The ID pin *)

(** What the interrupt handler records of the pin. *)
Definition role_of (pin : bool) (s : otgst) : otgst :=
  with_event pin (with_gadget (upd_is_a_peripheral (Z.b2z (negb pin)) <$> gadget s)
    (with_host (upd_is_b_host (Z.b2z pin) <$> host s) (with_default_a (Z.b2z (negb pin)) (setv id (Z.b2z pin) s)))).

Section Isr.
Context (ext : drv_call -> usb_dr_mmap -> Z * usb_dr_mmap).
Context (ext_ok : forall c d, fst (ext c d) = 0).

Lemma acts_to_gadget : acts (switch_to_gadget ext true) (fun s => setv drv_vbus 0 (started 0 s)).
Proof.
  apply (acts_comp0 _ _ (started 0) (setv drv_vbus 0)); [by apply acts0_start_host|by intros|].
  apply (acts_comp _ _ (setv drv_vbus 0) (fun s => s)); [apply acts_drv_vbus|by intros|].
  apply (acts_comp0 _ _ (fun s => s) (fun s => s)); [by apply acts0_start_gadget|by intros|apply acts_ret].
Qed.

Lemma acts_to_host :
  acts (fsl_otg_start_gadget ext 0;; otg_drv_vbus 1;; fsl_otg_start_host ext true 1;; mret tt)
    (fun s => started 1 (setv drv_vbus 1 s)).
Proof.
  apply (acts_comp0 _ _ (fun s => s) (fun s => started 1 (setv drv_vbus 1 s))); [by apply acts0_start_gadget|by intros|].
  apply (acts_comp _ _ (setv drv_vbus 1) (started 1)); [apply acts_drv_vbus|by intros|].
  apply (acts_comp0 _ _ (started 1) (fun s => s)); [by apply acts0_start_host|by intros|apply acts_ret].
Qed.

Lemma connected_role pin s : connected s -> connected (role_of pin s).
Proof.
  intros [(b & drv & Hb & Hd & Hs) [g Hg]]. split; [|cbn; by rewrite Hg; eexists].
  exists (upd_is_b_host (Z.b2z pin) b), drv. cbn. by rewrite Hb.
Qed.

(** What [read_id] leaves, and that reading twice is reading once. *)
Definition read (pin : bool) (s : otgst) : otgst := with_default_a (Z.b2z (negb pin)) (setv id (Z.b2z pin) s).

Lemma wp_read_id sc s :
  wp (read_id sc) (fun _ s' => s' = read (nz (Z.land sc OTGSC_STS_USB_ID)) s) s.
Proof. unfold read_id. apply wp_bind, wp_modify, wp_modify. by destruct (nz (Z.land sc OTGSC_STS_USB_ID)). Qed.

#[global] Instance read_proper pin : Proper ((≡) ==> (≡)) (read pin).
Proof. intros s s' [A B C D E F G H K L]. split; try done. intros v Hv. cbn. unfold set_var. case_decide; auto. Qed.

Lemma read_twice pin s : read pin (read pin s) ≡ read pin s.
Proof. split; try done. intros v _. cbn. unfold set_var. by case_decide. Qed.

Lemma fsm_read pin s : fsm (read pin s) id = Z.b2z pin.
Proof. apply setv_eq. Qed.

Lemma role_read pin s s' :
  s' ≡ read pin s ->
  with_event pin (with_gadget (upd_is_a_peripheral (Z.b2z (negb pin)) <$> gadget s')
    (with_host (upd_is_b_host (Z.b2z pin) <$> host s') s')) ≡ role_of pin s.
Proof. intros [A B C D E F G H K L]. cbn in *. unfold role_of. split; cbn; try done; by rewrite ?C, ?D. Qed.

Lemma w1c_seen mask v : w1c mask (setb v (Z.land v mask)) v = clear v mask.
Proof.
  apply Z.bits_inj'. intros i Hi. unfold w1c. rewrite Z.lor_spec, !testbit_clear, testbit_setb, Z.land_spec by done.
  by destruct (Z.testbit v i), (Z.testbit mask i).
Qed.
Lemma wp_wlp_and {A} (m : M otgst A) (P Q : A -> otgst -> Prop) s : wp m P s -> wlp m Q s -> wp m (fun a s' => P a s' /\ Q a s') s.
Proof. unfold wp, wlp. by destruct (m s) as [[]|]. Qed.

Lemma role_vbus pin s s' : s' ≡ role_of pin s -> fsm s' drv_vbus = fsm s drv_vbus.
Proof. intros H. by rewrite (so_fsm _ _ H). Qed.

Lemma acked_none d d' : otgsc d' = clear (otgsc d) OTGSC_IS_MASK -> unacked d' = 0.
Proof.
  intros E. unfold unacked. rewrite E. apply Z.bits_inj'. intros i Hi. rewrite Z.land_spec, testbit_clear, Z.bits_0 by done.
  by destruct (Z.testbit OTGSC_IS_MASK i); rewrite ?andb_false_r.
Qed.

(** The two switches, with the registers. *)
Lemma host_switch s s4 :
  connected s -> s4 ≡ role_of false s -> fsm s4 id = 0 -> otgsc (dr s4) = clear (otgsc (dr s)) OTGSC_IS_MASK -> power (dr s4) = power (dr s) ->
  wp (fsl_otg_start_gadget ext 0;; otg_drv_vbus 1;; fsl_otg_start_host ext true 1;; mret tt) (fun _ s' =>
    s' ≡ started 1 (setv drv_vbus 1 (role_of false s)) /\ host_working s' <> 0 /\
    (leaves_bits ext -> unacked (dr s') = 0) /\
    (leaves_bits ext -> fsm s drv_vbus = Z.b2z (power (dr s)) -> power (dr s') = true)) s4.
Proof.
  intros Hc H4 F4 E4 P4. pose proof (acts_to_host s4 _ (connected_role false s Hc) H4) as W.
  eapply wp_mono; [apply (wp_wlp_and _ _ (fun _ s' => (leaves_bits ext -> unacked (dr s') = 0) /\
    (leaves_bits ext -> fsm s drv_vbus = Z.b2z (power (dr s)) -> power (dr s') = true)) _ W)|].
  - unfold wlp. match goal with |- match ?x with _ => _ end => destruct x as [[r s']|] eqn:E; [|done] end. split.
    + intros Hb. pose proof (acked_to_host ext Hb s4 (acked_none _ _ E4)) as I. unfold wlp in I. by rewrite E in I.
    + intros Hb Hv. pose proof (power_to_host ext Hb s4 F4) as I. rewrite (role_vbus _ _ _ H4), P4 in I. specialize (I Hv).
      unfold wlp in I. by rewrite E in I.
  - intros [] s' [H5 [HA HB]]. split_and!; [done| |done|done]. rewrite (so_working _ _ H5). unfold started. cbn.
    destruct (nz (host_working s)) eqn:E; [|done]. intros E'. by rewrite E' in E.
Qed.

Lemma event_switch s s4 :
  connected s -> s4 ≡ role_of true s -> fsm s4 id = 1 -> power (dr s4) = power (dr s) ->
  exists s2, fsl_otg_event ext true s4 = Ret (tt, s2) /\ s2 ≡ setv drv_vbus 0 (started 0 (role_of true s)) /\ host_working s2 = 0 /\
    (leaves_bits ext -> fsm s drv_vbus = Z.b2z (power (dr s)) -> power (dr s2) = false).
Proof.
  intros Hc H4 F4 P4. pose proof (acts_to_gadget s4 _ (connected_role true s Hc) H4) as W.
  apply wp_run in W as ([] & s2 & E & H). exists s2. split_and!; [|done|by rewrite (so_working _ _ H)|].
  - unfold fsl_otg_event, mbind, M_bind, rdv, gets. by rewrite F4.
  - intros Hb Hv. pose proof (power_to_gadget ext Hb s4) as I. rewrite (role_vbus _ _ _ H4), P4 in I. specialize (I Hv).
    unfold wlp in I. by rewrite E in I.
Qed.

End Isr.

