(* ===== verification/OtgWitness.v ===== *)
(** * USB On-The-Go: the theorems on concrete states

    A controller with a Mini-A plug inserted, drivers whose methods succeed and leave
    the registers alone. *)

From stdpp Require Import base gmap list.
From Stdlib Require Import ZArith Lia.
From S2P Require Import Prelude Otg OtgFsm OtgStep OtgInv OtgTimers OtgSettle OtgRegs OtgMain.

Definition quiet (c : drv_call) (d : usb_dr_mmap) : Z * usb_dr_mmap := (0, d).
Definition mini_a : usb_dr_mmap := mkDr 0 0 0 0.
Definition host_bus : usb_bus := mkBus 0 0 1 (Some (Some (mkDevDriver true true))) true.
Definition a_gadget : usb_gadget := mkGadget 0 0.

Lemma host_bus_complete : complete host_bus.
Proof. by exists (mkDevDriver true true). Qed.

(** The driver started and its drivers registered: VBUS is driven at once. *)
Definition run_of {A} (m : M otgst A) (s : otgst) : otgst := if m s is Ret (_, s') then s' else s.
Definition rising : otgst := run_of (bring_up quiet true host_bus a_gadget) (otg_config mini_a).

(** VBUS is valid and the machine is called. *)
Definition waiting : otgst := run_of (otg_statemachine quiet true) (setv a_vbus_vld 1 rising).

Lemma waiting_reached : otg_reach quiet mini_a host_bus a_gadget waiting.
Proof.
  apply (reach_machine _ _ _ _ (setv a_vbus_vld 1 rising) 1); [|vm_compute; reflexivity].
  apply reach_input; [|reflexivity]. apply (reach_start _ _ _ _ true). vm_compute. reflexivity.
Qed.

Lemma waiting_held : otg_held quiet false mini_a host_bus a_gadget waiting.
Proof.
  apply (held_machine _ _ _ _ _ (setv a_vbus_vld 1 rising) 1); [|vm_compute; reflexivity|vm_compute; discriminate].
  apply held_input; [|reflexivity]. apply (held_start _ _ _ _ _ true). vm_compute. reflexivity.
Qed.

Lemma quiet_leaves_bits : leaves_bits quiet.
Proof. by intros c d. Qed.

Lemma host_bus_resumable : resumable (Some host_bus).
Proof. intros b [= <-]. by exists (mkDevDriver true true). Qed.


(** ** Where the registers do not follow *)

(** A B device that is host, with its registers and drivers. *)
Definition b_dev : usb_dr_mmap := mkDr 0 0 0 OTGSC_STS_USB_ID.
Definition hnp_gadget : usb_gadget := mkGadget 1 0.
Definition b_peripheral : otgst :=
  run_of (otg_statemachine quiet true) (setv b_sess_vld 1 (run_of (bring_up quiet true host_bus hnp_gadget) (otg_config b_dev))).
Definition b_waiting : otgst := run_of (otg_statemachine quiet true) (setv a_bus_suspend 1 (setv b_bus_req 1 b_peripheral)).

(** When the ID pin goes low on it, the power bit stays set in [B_IDLE] and [A_IDLE], where the
    machine has recorded that VBUS is off. *)
Example power_left_on :
  let s := run_of (otg_statemachine quiet true) (setv id 0 b_waiting) in
  let s' := run_of (otg_statemachine quiet true) s in
  state b_waiting = OTG_STATE_B_WAIT_ACON /\ state s = OTG_STATE_B_IDLE /\ state s' = OTG_STATE_A_IDLE /\
  fsm s' drv_vbus = 0 /\ power (dr s') = true.
Proof. vm_compute. done. Qed.

(** The drivers registered, nothing asked for. *)
Definition registered (d : usb_dr_mmap) (b : usb_bus) (g : usb_gadget) : otgst :=
  with_gadget (Some g) (with_host (Some b) (otg_config d)).

(** Just registered, nothing asked for: at rest in [A_IDLE] after at most eighteen calls. *)
Lemma otg_settles_witness :
  exists s', calls quiet 18 (registered mini_a host_bus a_gadget) = Ret (tt, s') /\ settled s' /\
    exists s'', otg_statemachine quiet true s' = Ret (0, s'') /\ s'' ≡ with_changed 0 s'.
Proof.
  apply (otg_settles quiet (registered mini_a host_bus a_gadget)).
  - intros c r. reflexivity.
  - intros c r. reflexivity.
  - split; [exists host_bus, (mkDevDriver true true); repeat split|exists a_gadget; reflexivity].
  - reflexivity.
  - reflexivity.
Defined.

(** The pin goes low: an enabled ID interrupt is pending. *)
Definition plugged : usb_dr_mmap := mkDr 0 0 0 (Z.lor OTGSC_IE_USB_ID OTGSC_IS_USB_ID).

