(* ===== verification/Rtc.v ===== *)
(** * The real time clock: [drivers/char/mxc_rtc.c]

    The driver of the clock registers with its alarm and interrupts, the interface of
    [arch/arm/common/rtctime.c] it is registered with, and the calendar functions of
    [drivers/rtc/rtc-lib.c] and [kernel/time.c] they use.

    The clock runs while the driver works: before each access to a register some
    seconds may pass, as many as the schedule [sched] of the state says (and none
    once it is used up). *)

From stdpp Require Import base gmap list.
From Stdlib Require Import ZArith Lia.
From S2P Require Import Prelude.

(** ** The calendar *)

Record rtc_time : Type := mkTm {
  tm_sec : Z; tm_min : Z; tm_hour : Z; tm_mday : Z; tm_mon : Z; tm_year : Z; tm_wday : Z; tm_yday : Z; tm_isdst : Z }.

Definition rtc_days_in_month : list Z := [31; 28; 31; 30; 31; 30; 31; 31; 30; 31; 30; 31].

Definition rtc_ydays : list (list Z) :=
  [[0; 31; 59; 90; 120; 151; 181; 212; 243; 273; 304; 334; 365];
   [0; 31; 60; 91; 121; 152; 182; 213; 244; 274; 305; 335; 366]].

Definition LEAPS_THRU_END_OF (y : Z) : Z := y / 4 - y / 100 + y / 400.
Definition LEAP_YEAR (year : Z) : bool := ((year mod 4 =? 0) && negb (year mod 100 =? 0)) || (year mod 400 =? 0).

(** The callers keep [month] below 12. *)
Definition rtc_month_days (month year : Z) : Z :=
  nth (Z.to_nat month) rtc_days_in_month 0 + Z.b2z (LEAP_YEAR year && (month =? 1)).

Definition rtc_year_days (day month year : Z) : Z :=
  nth (Z.to_nat month) (nth (Z.to_nat (Z.b2z (LEAP_YEAR year))) rtc_ydays []) 0 + day - 1.

(** The loop over the months: [n] rounds are left. *)
Fixpoint month_loop (n : nat) (month days year : Z) : Z * Z :=
  match n with
  | O => (month, days)
  | S n' =>
      let newdays := days - rtc_month_days month year in
      if newdays <? 0 then (month, days) else month_loop n' (month + 1) newdays year
  end.

Definition rtc_time_to_tm (time : Z) (tm : rtc_time) : rtc_time :=
  let days0 := time / 86400 in
  let time1 := u32 (time - s32 (days0 * 86400)) in
  let year0 := 1970 + days0 / 365 in
  let days1 := days0 - ((year0 - 1970) * 365 + LEAPS_THRU_END_OF (year0 - 1) - LEAPS_THRU_END_OF (1970 - 1)) in
  let year := if days1 <? 0 then year0 - 1 else year0 in
  let days2 := if days1 <? 0 then days1 + (365 + Z.b2z (LEAP_YEAR year)) else days1 in
  let '(month, days3) := month_loop 11 0 days2 year in
  let hour := time1 / 3600 in
  let time2 := u32 (time1 - hour * 3600) in
  let min := time2 / 60 in
  mkTm (u32 (time2 - min * 60)) min hour (days3 + 1) month (year - 1900) ((days0 + 4) mod 7) (days2 + 1) (tm_isdst tm).

Definition rtc_valid_tm (tm : rtc_time) : Z :=
  if (tm_year tm <? 70) || (12 <=? u32 (tm_mon tm)) || (tm_mday tm <? 1)
     || (rtc_month_days (tm_mon tm) (tm_year tm + 1900) <? tm_mday tm)
     || (24 <=? u32 (tm_hour tm)) || (60 <=? u32 (tm_min tm)) || (60 <=? u32 (tm_sec tm))
  then - EINVAL else 0.

(** [mktime] of [kernel/time.c]; its arguments are unsigned. *)
Definition mktime (year0 mon0 day hour min sec : Z) : Z :=
  let mon1 := u32 (mon0 - 2) in
  let back := s32 mon1 <=? 0 in
  let mon := if back then u32 (mon1 + 12) else mon1 in
  let year := if back then u32 (year0 - 1) else year0 in
  let days := u32 (u32 (year / 4 - year / 100 + year / 400 + u32 (367 * mon) / 12 + day) + u32 (year * 365) - 719499) in
  u32 (u32 (u32 (days * 24 + hour) * 60 + min) * 60 + sec).

(** [rtc_tm_to_time] always answers 0. *)
Definition rtc_tm_to_time (tm : rtc_time) : Z :=
  mktime (u32 (tm_year tm + 1900)) (u32 (tm_mon tm + 1)) (u32 (tm_mday tm)) (u32 (tm_hour tm)) (u32 (tm_min tm)) (u32 (tm_sec tm)).

Definition rtc_periodic_alarm (tm : rtc_time) : bool :=
  (tm_year tm =? -1) || (12 <=? u32 (tm_mon tm)) || (31 <=? u32 (tm_mday tm - 1)) || (23 <? u32 (tm_hour tm))
  || (59 <? u32 (tm_min tm)) || (59 <? u32 (tm_sec tm)).

(** [next] holds what was in the structure before. *)
Definition rtc_next_alarm_time (next now alrm : rtc_time) : rtc_time :=
  let next1 := mkTm (tm_sec alrm) (tm_min alrm) (tm_hour alrm) (tm_mday now) (tm_mon now) (tm_year now)
                 (tm_wday next) (tm_yday next) (tm_isdst next) in
  let now_time := rtc_tm_to_time now in
  let next_time := rtc_tm_to_time next1 in
  if next_time <? now_time then rtc_time_to_tm (u32 (next_time + 60 * 60 * 24)) next1 else next1.

(** ** The device *)

Definition RTC_ALM_BIT : Z := Z.shiftl 1 2.
Definition RTC_1HZ_BIT : Z := Z.shiftl 1 4.
Definition RTC_2HZ_BIT : Z := Z.shiftl 1 7.
Definition RTC_SAM0_BIT : Z := Z.shiftl 1 8.
Definition RTC_SAM1_BIT : Z := Z.shiftl 1 9.
Definition RTC_SAM2_BIT : Z := Z.shiftl 1 10.
Definition RTC_SAM3_BIT : Z := Z.shiftl 1 11.
Definition RTC_SAM4_BIT : Z := Z.shiftl 1 12.
Definition RTC_SAM5_BIT : Z := Z.shiftl 1 13.
Definition RTC_SAM6_BIT : Z := Z.shiftl 1 14.
Definition RTC_SAM7_BIT : Z := Z.shiftl 1 15.
Definition PIT_ALL_ON : Z :=
  setb (setb (setb (setb (setb (setb (setb (setb RTC_2HZ_BIT RTC_SAM0_BIT) RTC_SAM1_BIT) RTC_SAM2_BIT) RTC_SAM3_BIT)
    RTC_SAM4_BIT) RTC_SAM5_BIT) RTC_SAM6_BIT) RTC_SAM7_BIT.
Definition RTC_INPUT_CLK : Z := Z.shiftl 0x00 5.
Definition RTC_ENABLE_BIT : Z := Z.shiftl 1 7.
Definition MAX_PIE_FREQ : Z := 512.
Definition PIE_BIT_DEF : list (Z * Z) :=
  [(2, RTC_2HZ_BIT); (4, RTC_SAM0_BIT); (8, RTC_SAM1_BIT); (16, RTC_SAM2_BIT); (32, RTC_SAM3_BIT); (64, RTC_SAM4_BIT);
   (128, RTC_SAM5_BIT); (256, RTC_SAM6_BIT); (MAX_PIE_FREQ, RTC_SAM7_BIT)].
Definition RTC_IRQF : Z := 0x80.
Definition RTC_PF : Z := 0x40.
Definition RTC_AF : Z := 0x20.
Definition RTC_UF : Z := 0x10.

Definition MXC_RTC_TIME : Z := 0.
Definition MXC_RTC_ALARM : Z := 1.
Definition MXC_EXTERNAL_RTC_OK : Z := 0.
Definition MXC_EXTERNAL_RTC_ERR : Z := -1.
Definition MXC_EXTERNAL_RTC_NONE : Z := -2.
Definition EACCES : Z := 13.
Definition EFAULT : Z := 14.
Definition ERESTARTSYS : Z := 512.

(** The registers of the block: the running clock, the alarm, status, enable, control. *)
Record rtc_regs : Type := mkRegs {
  DAYR : Z; HOURMIN : Z; SECOND : Z;
  DAYALARM : Z; ALRM_HM : Z; ALRM_SEC : Z;
  RTCISR : Z; RTCIENR : Z; RTCCTL : Z;
}.

(** The block, the schedule of the seconds that pass, and the driver's variables. *)
Record rtcst : Type := mkRtc {
  regs : rtc_regs;
  sched : list nat;
  rtc_freq : Z;
  rtc_status : Z;
  g_rtc_alarm : rtc_time;
  rtc_irq_data : Z;
  rtc_inuse : bool;
  xtime : Z;                  (* the seconds of the system time *)
}.

Definition with_regs (r : rtc_regs) (s : rtcst) : rtcst :=
  mkRtc r (sched s) (rtc_freq s) (rtc_status s) (g_rtc_alarm s) (rtc_irq_data s) (rtc_inuse s) (xtime s).
Definition with_sched (l : list nat) (s : rtcst) : rtcst :=
  mkRtc (regs s) l (rtc_freq s) (rtc_status s) (g_rtc_alarm s) (rtc_irq_data s) (rtc_inuse s) (xtime s).
Definition with_freq (x : Z) (s : rtcst) : rtcst :=
  mkRtc (regs s) (sched s) x (rtc_status s) (g_rtc_alarm s) (rtc_irq_data s) (rtc_inuse s) (xtime s).
Definition with_rtc_status (x : Z) (s : rtcst) : rtcst :=
  mkRtc (regs s) (sched s) (rtc_freq s) x (g_rtc_alarm s) (rtc_irq_data s) (rtc_inuse s) (xtime s).
Definition with_alarm (x : rtc_time) (s : rtcst) : rtcst :=
  mkRtc (regs s) (sched s) (rtc_freq s) (rtc_status s) x (rtc_irq_data s) (rtc_inuse s) (xtime s).
Definition with_irq_data (x : Z) (s : rtcst) : rtcst :=
  mkRtc (regs s) (sched s) (rtc_freq s) (rtc_status s) (g_rtc_alarm s) x (rtc_inuse s) (xtime s).
Definition with_inuse (x : bool) (s : rtcst) : rtcst :=
  mkRtc (regs s) (sched s) (rtc_freq s) (rtc_status s) (g_rtc_alarm s) (rtc_irq_data s) x (xtime s).
Definition with_xtime (x : Z) (s : rtcst) : rtcst :=
  mkRtc (regs s) (sched s) (rtc_freq s) (rtc_status s) (g_rtc_alarm s) (rtc_irq_data s) (rtc_inuse s) x.

Definition set_clock (d hm sec : Z) (r : rtc_regs) : rtc_regs :=
  mkRegs d hm sec (DAYALARM r) (ALRM_HM r) (ALRM_SEC r) (RTCISR r) (RTCIENR r) (RTCCTL r).
Definition set_alarm_regs (d hm sec : Z) (r : rtc_regs) : rtc_regs :=
  mkRegs (DAYR r) (HOURMIN r) (SECOND r) d hm sec (RTCISR r) (RTCIENR r) (RTCCTL r).
Definition set_isr (x : Z) (r : rtc_regs) : rtc_regs :=
  mkRegs (DAYR r) (HOURMIN r) (SECOND r) (DAYALARM r) (ALRM_HM r) (ALRM_SEC r) x (RTCIENR r) (RTCCTL r).
Definition set_ienr (x : Z) (r : rtc_regs) : rtc_regs :=
  mkRegs (DAYR r) (HOURMIN r) (SECOND r) (DAYALARM r) (ALRM_HM r) (ALRM_SEC r) (RTCISR r) x (RTCCTL r).
Definition set_ctl (x : Z) (r : rtc_regs) : rtc_regs :=
  mkRegs (DAYR r) (HOURMIN r) (SECOND r) (DAYALARM r) (ALRM_HM r) (ALRM_SEC r) (RTCISR r) (RTCIENR r) x.

(** A second passes: the counters carry, and the status bits of the second and of the
    alarm are raised. *)
Definition tick_clock (r : rtc_regs) : rtc_regs :=
  let hr := HOURMIN r / 256 in
  let min := HOURMIN r mod 256 in
  if SECOND r <? 59 then set_clock (DAYR r) (HOURMIN r) (SECOND r + 1) r
  else if min <? 59 then set_clock (DAYR r) (HOURMIN r + 1) 0 r
  else if hr <? 23 then set_clock (DAYR r) ((hr + 1) * 256) 0 r
  else set_clock (DAYR r + 1) 0 0 r.

Definition at_alarm (r : rtc_regs) : bool :=
  (DAYR r =? DAYALARM r) && (HOURMIN r =? ALRM_HM r) && (SECOND r =? ALRM_SEC r).

Definition tick (r : rtc_regs) : rtc_regs :=
  let r1 := tick_clock r in
  set_isr (setb (setb (RTCISR r1) RTC_1HZ_BIT) (if at_alarm r1 then RTC_ALM_BIT else 0)) r1.

(** Time passes before an access. *)
Definition pass_time (s : rtcst) : rtcst :=
  match sched s with
  | [] => s
  | n :: l => with_sched l (with_regs (Nat.iter n tick (regs s)) s)
  end.

Definition rd_reg (f : rtc_regs -> Z) : M rtcst Z := modify pass_time;; gets (fun s => f (regs s)).
Definition wr_reg (f : rtc_regs -> rtc_regs) : M rtcst unit := modify pass_time;; modify (fun s => with_regs (f (regs s)) s).

(** ** The driver *)

Section Rtc.
(** The external clock chip, when there is one: is it there, what reading it answers
    (status and seconds), what setting it answers. *)
Context (ext_rtc_loaded : bool) (ext_rtc_get : Z * Z) (ext_rtc_set : Z -> Z).
(** The capabilities of the caller, and whether its pointer can be accessed. *)
Context (cap_sys_resource cap_sys_time user_ok : bool).

Definition get_ext_rtc_time : Z * option Z :=
  if negb ext_rtc_loaded then (MXC_EXTERNAL_RTC_NONE, None)
  else if fst ext_rtc_get =? 0 then (0, Some (u32 (snd ext_rtc_get))) else (MXC_EXTERNAL_RTC_ERR, None).

Definition set_ext_rtc_time (second : Z) : Z :=
  if negb ext_rtc_loaded then MXC_EXTERNAL_RTC_NONE
  else if ext_rtc_set second =? 0 then 0 else MXC_EXTERNAL_RTC_ERR.

Definition get_alarm_or_time (time_alarm : Z) : M rtcst Z :=
  v ← (if time_alarm =? MXC_RTC_TIME then
         day ← rd_reg DAYR; hr_min ← rd_reg HOURMIN; sec ← rd_reg SECOND; mret (day, hr_min, sec)
       else if time_alarm =? MXC_RTC_ALARM then
         day ← rd_reg DAYALARM; hr_min ← rd_reg ALRM_HM; sec ← rd_reg ALRM_SEC;
         mret (day, Z.land 0x0000FFFF hr_min, sec)
       else crash Panic);
  let '(day, hr_min, sec) := v in
  let hr := Z.shiftr hr_min 8 in
  let min := Z.land hr_min 0x00FF in
  mret (u32 (((day * 24 + hr) * 60 + min) * 60 + sec)).

Definition set_alarm_or_time (time_alarm time : Z) : M rtcst unit :=
  let day := time / 86400 in
  let time1 := u32 (time - day * 86400) in
  let hr := time1 / 3600 in
  let time2 := u32 (time1 - hr * 3600) in
  let min := time2 / 60 in
  let sec := u32 (time2 - min * 60) in
  let temp := u32 (Z.shiftl hr 8 + min) in
  if time_alarm =? MXC_RTC_TIME then
    wr_reg (fun r => set_clock day (HOURMIN r) (SECOND r) r);;
    wr_reg (fun r => set_clock (DAYR r) (HOURMIN r) sec r);;
    wr_reg (fun r => set_clock (DAYR r) temp (SECOND r) r)
  else if time_alarm =? MXC_RTC_ALARM then
    wr_reg (fun r => set_alarm_regs day (ALRM_HM r) (ALRM_SEC r) r);;
    wr_reg (fun r => set_alarm_regs (DAYALARM r) (ALRM_HM r) sec r);;
    wr_reg (fun r => set_alarm_regs (DAYALARM r) temp (ALRM_SEC r) r)
  else crash Panic.

(** The status bits are cleared by writing 1. *)
Definition wr_isr (x : Z) : M rtcst unit := wr_reg (fun r => set_isr (clear (RTCISR r) x) r).

(** What a structure on the stack holds before it is filled is never used. *)
Definition tm_junk : rtc_time := mkTm 0 0 0 0 0 0 0 0 0.

Definition rtc_update_alarm (alrm : rtc_time) : M rtcst Z :=
  now ← get_alarm_or_time MXC_RTC_TIME;
  let now_tm := rtc_time_to_tm now tm_junk in
  let alarm_tm := rtc_next_alarm_time tm_junk now_tm alrm in
  let time := rtc_tm_to_time alarm_tm in
  isr ← rd_reg RTCISR;
  wr_isr isr;;
  set_alarm_or_time MXC_RTC_ALARM time;;
  mret 0.

Definition rtc_update (num events : Z) : M rtcst unit :=
  modify (fun s => with_irq_data (Z.lor (u32 (rtc_irq_data s + Z.shiftl num 8)) events) s).

Definition mxc_rtc_interrupt : M rtcst Z :=
  isr ← rd_reg RTCISR;
  ienr ← rd_reg RTCIENR;
  let status := Z.land isr ienr in
  wr_isr status;;
  let status := if negb (Z.land status RTC_ALM_BIT =? 0) then clear status RTC_ALM_BIT else status in
  let events := if negb (Z.land status RTC_ALM_BIT =? 0) then setb 0 (setb RTC_AF RTC_IRQF) else 0 in
  let events := if negb (Z.land status RTC_1HZ_BIT =? 0) then setb events (setb RTC_UF RTC_IRQF) else events in
  let events := if negb (Z.land status PIT_ALL_ON =? 0) then setb events (setb RTC_PF RTC_IRQF) else events in
  alarm ← gets g_rtc_alarm;
  (if negb (Z.land status RTC_ALM_BIT =? 0) && rtc_periodic_alarm alarm then rtc_update_alarm alarm;; mret tt else mret tt);;
  rtc_update 1 events;;
  mret 1.

Definition mxc_rtc_open : M rtcst Z :=
  st ← gets rtc_status;
  modify (with_rtc_status (setb st (bit 1)));;
  mret (if Z.testbit st 1 then - EBUSY else 0).

Definition mxc_rtc_release : M rtcst unit :=
  wr_reg (set_ienr 0);;
  wr_isr 0xFFFFFFFF;;
  modify (with_rtc_status 0).

(** ** Requests *)

Record rtc_wkalrm : Type := mkWkalrm { enabled : Z; pending : Z; time : rtc_time }.

Inductive rtc_cmd : Type :=
| RTC_PIE_OFF | RTC_IRQP_SET (arg : Z) | RTC_IRQP_READ | RTC_PIE_ON | RTC_AIE_OFF | RTC_AIE_ON | RTC_UIE_OFF | RTC_UIE_ON
| RTC_ALM_READ | RTC_ALM_SET (tm : rtc_time) | RTC_RD_TIME | RTC_SET_TIME (tm : rtc_time) | RTC_EPOCH_SET (arg : Z)
| RTC_EPOCH_READ | RTC_WKALM_SET (alrm : rtc_wkalrm) | RTC_WKALM_RD | RTC_OTHER.

(** What a request writes to the caller's memory. *)
Inductive reply : Type :=
| NoReply | Value (x : Z) | ATime (tm : rtc_time) | AnAlarm (alrm : rtc_wkalrm).

Definition pie_bit (freq : Z) : option Z := snd <$> List.find (fun d => fst d =? freq) PIE_BIT_DEF.

Definition upd_ienr (f : Z -> Z) : M rtcst unit := v ← rd_reg RTCIENR; wr_reg (set_ienr (f v)).

Definition mxc_rtc_ioctl (cmd : rtc_cmd) : M rtcst (Z * reply) :=
  match cmd with
  | RTC_PIE_OFF => upd_ienr (fun v => clear v PIT_ALL_ON);; mret (0, NoReply)
  | RTC_IRQP_SET arg =>
      if (arg <? 2) || (MAX_PIE_FREQ <? arg) || negb (arg mod 2 =? 0) then mret (- EINVAL, NoReply)
      else if (64 <? arg) && negb cap_sys_resource then mret (- EACCES, NoReply)
      else modify (with_freq arg);; mret (0, NoReply)
  | RTC_IRQP_READ =>
      f ← gets rtc_freq; mret (if user_ok then (0, Value f) else (- EFAULT, NoReply))
  | RTC_PIE_ON =>
      f ← gets rtc_freq;
      match pie_bit f with
      | None => mret (- EACCES, NoReply)
      | Some b => upd_ienr (fun v => setb v b);; mret (0, NoReply)
      end
  | RTC_AIE_OFF => upd_ienr (fun v => clear v RTC_ALM_BIT);; mret (0, NoReply)
  | RTC_AIE_ON => upd_ienr (fun v => setb v RTC_ALM_BIT);; mret (0, NoReply)
  | RTC_UIE_OFF => upd_ienr (fun v => clear v RTC_1HZ_BIT);; mret (0, NoReply)
  | RTC_UIE_ON => upd_ienr (fun v => setb v RTC_1HZ_BIT);; mret (0, NoReply)
  | _ => mret (- EINVAL, NoReply)
  end.

(** The loops against roll-over; [fuel] rounds. *)
Fixpoint read_loop (fuel : nat) : M rtcst Z :=
  match fuel with
  | O => crash OutOfFuel
  | S n =>
      val ← get_alarm_or_time MXC_RTC_TIME;
      again ← get_alarm_or_time MXC_RTC_TIME;
      if val =? again then mret val else read_loop n
  end.

Fixpoint set_loop (fuel : nat) (time : Z) : M rtcst unit :=
  match fuel with
  | O => crash OutOfFuel
  | S n =>
      set_alarm_or_time MXC_RTC_TIME time;;
      now ← get_alarm_or_time MXC_RTC_TIME;
      if time =? now then mret tt else set_loop n time
  end.

(** One round per access at which the clock moves, and one more. *)
Definition rounds (s : rtcst) : nat := S (length (sched s)).

Definition mxc_rtc_read_time (tm : rtc_time) : M rtcst (Z * rtc_time) :=
  fuel ← gets rounds;
  val ← read_loop fuel;
  mret (0, rtc_time_to_tm val tm).

Definition mxc_rtc_set_time (tm : rtc_time) : M rtcst Z :=
  let time := rtc_tm_to_time tm in
  fuel ← gets rounds;
  set_loop fuel time;;
  let ret := set_ext_rtc_time time in
  mret (if ret =? MXC_EXTERNAL_RTC_NONE then 0 else ret).

Definition mxc_set_rtc : M rtcst Z :=
  current_time ← gets xtime;
  ienr ← rd_reg RTCIENR;
  busy ← (if negb (Z.land ienr RTC_ALM_BIT =? 0) then
            alarm ← get_alarm_or_time MXC_RTC_ALARM;
            if alarm <=? current_time then
              now ← get_alarm_or_time MXC_RTC_TIME; mret (now <=? alarm)
            else mret false
          else mret false);
  if (busy : bool) then mret (- ERESTARTSYS)
  else set_alarm_or_time MXC_RTC_TIME current_time;; mret 0.

Definition mxc_rtc_read_alarm (alrm : rtc_wkalrm) : M rtcst (Z * rtc_wkalrm) :=
  t ← get_alarm_or_time MXC_RTC_ALARM;
  isr ← rd_reg RTCISR;
  mret (0, mkWkalrm (enabled alrm) (if negb (Z.land isr RTC_ALM_BIT =? 0) then 1 else 0) (rtc_time_to_tm t (time alrm))).

Definition mxc_rtc_set_alarm (alrm : rtc_wkalrm) : M rtcst Z :=
  let tm := time alrm in
  ret ← (if rtc_periodic_alarm tm then
           if (59 <? tm_sec tm) || (23 <? tm_hour tm) || (59 <? tm_min tm) then mret (- EINVAL)
           else
             ctm ← mxc_rtc_read_time tm_junk;
             rtc_update_alarm (rtc_next_alarm_time tm_junk (snd ctm) tm)
         else if negb (rtc_valid_tm tm =? 0) then mret (rtc_valid_tm tm)
         else rtc_update_alarm tm);
  (if ret =? 0 then
     modify (with_alarm tm);;
     if negb (enabled alrm =? 0) then upd_ienr (fun v => setb v RTC_ALM_BIT) else upd_ienr (fun v => clear v RTC_ALM_BIT)
   else mret tt);;
  mret ret.

(** ** [arch/arm/common/rtctime.c] *)

Definition tm_zero : rtc_time := mkTm 0 0 0 0 0 0 0 0 0.

Definition rtc_arm_read_time : M rtcst (Z * rtc_time) := mxc_rtc_read_time tm_zero.

Definition rtc_arm_set_time (tm : rtc_time) : M rtcst Z :=
  let ret := rtc_valid_tm tm in
  if ret =? 0 then mxc_rtc_set_time tm else mret ret.

Definition rtc_arm_read_alarm : M rtcst (Z * rtc_wkalrm) := mxc_rtc_read_alarm (mkWkalrm 0 0 tm_zero).

Definition rtc_arm_set_alarm (alrm : rtc_wkalrm) : M rtcst Z := mxc_rtc_set_alarm alrm.

Definition rtc_epoch : Z := 1900.

(** The answer of a request that writes to the caller's memory. *)
Definition to_user (ret : Z) (r : reply) : Z * reply :=
  if negb (ret =? 0) then (ret, NoReply) else if user_ok then (0, r) else (- EFAULT, NoReply).

Definition rtc_ioctl (cmd : rtc_cmd) : M rtcst (Z * reply) :=
  match cmd with
  | RTC_ALM_READ => a ← rtc_arm_read_alarm; mret (to_user (fst a) (ATime (time (snd a))))
  | RTC_ALM_SET tm =>
      if negb user_ok then mret (- EFAULT, NoReply)
      else
        ret ← rtc_arm_set_alarm (mkWkalrm 0 0 (mkTm (tm_sec tm) (tm_min tm) (tm_hour tm) (-1) (-1) (-1) (-1) (-1) (-1)));
        mret (ret, NoReply)
  | RTC_RD_TIME => a ← rtc_arm_read_time; mret (to_user (fst a) (ATime (snd a)))
  | RTC_SET_TIME tm =>
      if negb cap_sys_time then mret (- EACCES, NoReply)
      else if negb user_ok then mret (- EFAULT, NoReply)
      else ret ← rtc_arm_set_time tm; mret (ret, NoReply)
  | RTC_EPOCH_SET _ => mret (- EINVAL, NoReply)
  | RTC_EPOCH_READ => mret (to_user 0 (Value rtc_epoch))
  | RTC_WKALM_SET alrm =>
      if negb user_ok then mret (- EFAULT, NoReply)
      else ret ← rtc_arm_set_alarm alrm; mret (ret, NoReply)
  | RTC_WKALM_RD => a ← rtc_arm_read_alarm; mret (to_user (fst a) (AnAlarm (snd a)))
  | _ => mxc_rtc_ioctl cmd
  end.

(** The module of the driver can be used. *)
Definition rtc_open : M rtcst Z :=
  busy ← gets rtc_inuse;
  if (busy : bool) then mret (- EBUSY)
  else
    ret ← mxc_rtc_open;
    (if ret =? 0 then modify (with_irq_data 0);; modify (with_inuse true) else mret tt);;
    mret ret.

Definition rtc_release : M rtcst Z :=
  mxc_rtc_release;;
  modify (with_irq_data 0);;
  modify (with_inuse false);;
  mret 0.

(** ** Start *)

(** [irq] and [reg] are what [request_irq] and [register_rtc] answer.  (The clock of the
    block, which is enabled first, belongs to the clock framework.) *)
Definition mxc_rtc_probe (irq reg : Z) : M rtcst Z :=
  if negb (irq =? 0) then mret irq
  else if reg <? 0 then mret reg
  else
    let '(ret, sec) := get_ext_rtc_time in
    (match sec with Some t => mxc_rtc_set_time (rtc_time_to_tm t tm_junk);; mret tt | None => mret tt end);;
    t ← get_alarm_or_time MXC_RTC_TIME;
    modify (with_xtime t);;
    wr_reg (set_ctl (setb RTC_INPUT_CLK RTC_ENABLE_BIT));;
    ctl ← rd_reg RTCCTL;
    mret (if Z.land ctl RTC_ENABLE_BIT =? 0 then -1 else ret).
End Rtc.
