(* ===== verification/RtcCalendar.v ===== *)
(** * The calendar

    The conversions between seconds and dates against the definition of the Gregorian
    calendar: the days of the years and months that went before. *)

From stdpp Require Import base gmap list.
From Stdlib Require Import ZArith Lia.
From S2P Require Import Prelude Rtc.

Ltac div_lia := Z.to_euclidean_division_equations; lia.

(** ** The definition *)

Definition year_len (y : Z) : Z := 365 + Z.b2z (LEAP_YEAR y).

(** The days of the [n] years from [y] on, of the [n] months from [m] on. *)
Fixpoint years_days (n : nat) (y : Z) : Z :=
  match n with O => 0 | S n' => year_len y + years_days n' (y + 1) end.
Fixpoint months_days (n : nat) (m y : Z) : Z :=
  match n with O => 0 | S n' => rtc_month_days m y + months_days n' (m + 1) y end.

Definition days_before_year (y : Z) : Z := years_days (Z.to_nat (y - 1970)) 1970.
Definition days_before_month (m y : Z) : Z := months_days (Z.to_nat m) 0 y.

(** The seconds from the start of 1970 to a date and time. *)
Definition seconds_of (tm : rtc_time) : Z :=
  let y := tm_year tm + 1900 in
  (((days_before_year y + days_before_month (tm_mon tm) y + (tm_mday tm - 1)) * 24 + tm_hour tm) * 60 + tm_min tm) * 60 + tm_sec tm.

(** A date of the calendar, from 1970 on. *)
Record date_ok (tm : rtc_time) : Prop := mkDateOk {
  dt_year : 70 <= tm_year tm;
  dt_mon : 0 <= tm_mon tm < 12;
  dt_mday : 1 <= tm_mday tm <= rtc_month_days (tm_mon tm) (tm_year tm + 1900);
  dt_hour : 0 <= tm_hour tm < 24;
  dt_min : 0 <= tm_min tm < 60;
  dt_sec : 0 <= tm_sec tm < 60;
}.

(** ** Years *)

Lemma leaps_step y : LEAPS_THRU_END_OF y = LEAPS_THRU_END_OF (y - 1) + Z.b2z (LEAP_YEAR y).
Proof.
  unfold LEAPS_THRU_END_OF, LEAP_YEAR.
  destruct (Z.eqb_spec (y mod 4) 0), (Z.eqb_spec (y mod 100) 0), (Z.eqb_spec (y mod 400) 0); cbn [negb andb orb Z.b2z]; div_lia.
Qed.

Lemma years_days_eq n y :
  years_days n y = 365 * Z.of_nat n + LEAPS_THRU_END_OF (y + Z.of_nat n - 1) - LEAPS_THRU_END_OF (y - 1).
Proof.
  revert y. induction n as [|n IH]; intros y; cbn [years_days].
  - replace (y + Z.of_nat 0 - 1) with (y - 1) by lia. lia.
  - rewrite IH. unfold year_len. pose proof (leaps_step y). replace (y + 1 - 1) with y by lia.
    replace (y + 1 + Z.of_nat n - 1) with (y + Z.of_nat (S n) - 1) by lia. lia.
Qed.

Lemma days_before_year_eq y :
  1970 <= y -> days_before_year y = (y - 1970) * 365 + LEAPS_THRU_END_OF (y - 1) - LEAPS_THRU_END_OF (1970 - 1).
Proof.
  intros H. unfold days_before_year. rewrite years_days_eq, Z2Nat.id by lia. replace (1970 + (y - 1970) - 1) with (y - 1) by lia. lia.
Qed.

Lemma days_before_next y : 1970 <= y -> days_before_year (y + 1) = days_before_year y + year_len y.
Proof.
  intros H. rewrite !days_before_year_eq by lia. unfold year_len. pose proof (leaps_step y).
  replace (y + 1 - 1) with y by lia. lia.
Qed.

Lemma year_len_range y : 365 <= year_len y <= 366.
Proof. unfold year_len. destruct (LEAP_YEAR y); cbn; lia. Qed.

Lemma days_before_later y y' : 1970 <= y -> y < y' -> days_before_year y + year_len y <= days_before_year y'.
Proof.
  intros H Hlt. replace y' with (y + 1 + Z.of_nat (Z.to_nat (y' - y - 1))) by lia.
  induction (Z.to_nat (y' - y - 1)) as [|n IH]; [replace (y + 1 + Z.of_nat 0) with (y + 1) by lia; rewrite days_before_next; lia|].
  replace (y + 1 + Z.of_nat (S n)) with (y + 1 + Z.of_nat n + 1) by lia. rewrite days_before_next by lia.
  pose proof (year_len_range (y + 1 + Z.of_nat n)). lia.
Qed.

(** The year of a day, as [rtc_time_to_tm] finds it: the estimate is at most one too
    high as long as there were less than 365 leap days. *)
Lemma year_of_day days :
  0 <= days < 49711 ->
  let year0 := 1970 + days / 365 in
  let days1 := days - ((year0 - 1970) * 365 + LEAPS_THRU_END_OF (year0 - 1) - LEAPS_THRU_END_OF (1970 - 1)) in
  let year := if days1 <? 0 then year0 - 1 else year0 in
  let days2 := if days1 <? 0 then days1 + (365 + Z.b2z (LEAP_YEAR year)) else days1 in
  1970 <= year <= 2106 /\ days = days_before_year year + days2 /\ 0 <= days2 < year_len year.
Proof.
  intros H year0 days1 year days2.
  assert (Hy0 : 1970 <= year0 <= 2106) by (unfold year0; div_lia).
  assert (E : days1 = days - days_before_year year0) by (rewrite days_before_year_eq by lia; lia).
  assert (Hr : 365 * (year0 - 1970) <= days < 365 * (year0 - 1970) + 365) by (unfold year0; div_lia).
  assert (HL : 0 <= LEAPS_THRU_END_OF (year0 - 1) - LEAPS_THRU_END_OF (1970 - 1) <= 34).
  { unfold LEAPS_THRU_END_OF. div_lia. }
  pose proof (days_before_year_eq year0 ltac:(lia)) as D0.
  unfold days2, year. destruct (Z.ltb_spec days1 0) as [Hn|Hn].
  - assert (Hy1 : 1970 < year0). { destruct (decide (year0 = 1970)) as [e|]; [|lia]. rewrite e in E, Hr. change (days_before_year 1970) with 0 in E. lia. }
    pose proof (days_before_next (year0 - 1) ltac:(lia)) as N. replace (year0 - 1 + 1) with year0 in N by lia.
    unfold year_len in *. pose proof (year_len_range (year0 - 1)). unfold year_len in *. split_and!; lia.
  - pose proof (year_len_range year0). split_and!; lia.
Qed.

(** ** Months *)

Lemma month_days_range m y : 0 <= m < 12 -> 28 <= rtc_month_days m y <= 31.
Proof.
  intros H. replace m with (Z.of_nat (Z.to_nat m)) by lia. assert (Hn : (Z.to_nat m < 12)%nat) by lia. revert Hn.
  generalize (Z.to_nat m) as n. intros n Hn. unfold rtc_month_days. rewrite Nat2Z.id.
  do 12 (destruct n as [|n]; [destruct (LEAP_YEAR y); vm_compute; split; discriminate|]). lia.
Qed.

(** [month_loop] finds the month in which a number of days ends. *)
Lemma month_loop_spec n m days y m' d' :
  0 <= m -> m + Z.of_nat n <= 11 -> 0 <= days -> month_loop n m days y = (m', d') ->
  m <= m' <= m + Z.of_nat n /\ 0 <= d' /\ days = months_days (Z.to_nat (m' - m)) m y + d' /\
  (m' < m + Z.of_nat n -> d' < rtc_month_days m' y).
Proof.
  revert m days. induction n as [|n IH]; intros m days Hm Hn Hd E; cbn in E.
  - injection E as <- <-. rewrite Z.sub_diag. change (Z.to_nat 0) with 0%nat. cbn [months_days]. split_and!; lia.
  - destruct (Z.ltb_spec (days - rtc_month_days m y) 0) as [Hlt|Hge].
    + injection E as <- <-. rewrite Z.sub_diag. change (Z.to_nat 0) with 0%nat. cbn [months_days]. split_and!; lia.
    + destruct (IH (m + 1) (days - rtc_month_days m y) ltac:(lia) ltac:(lia) ltac:(lia) E) as (H1 & H2 & H3 & H4).
      replace (Z.to_nat (m' - m)) with (S (Z.to_nat (m' - (m + 1)))) by lia. cbn [months_days]. split_and!; try lia.
Qed.

Lemma months_days_split a b m y : months_days (a + b) m y = months_days a m y + months_days b (m + Z.of_nat a) y.
Proof.
  revert m. induction a as [|a IH]; intros m; cbn [months_days Nat.add].
  - by rewrite Z.add_0_r.
  - rewrite IH. replace (m + 1 + Z.of_nat a) with (m + Z.of_nat (S a)) by lia. lia.
Qed.

Lemma months_days_nonneg n m y : 0 <= m -> m + Z.of_nat n <= 12 -> 0 <= months_days n m y.
Proof.
  revert m. induction n as [|n IH]; intros m Hm Hn; cbn [months_days]; [lia|].
  pose proof (month_days_range m y ltac:(lia)). specialize (IH (m + 1) ltac:(lia) ltac:(lia)). lia.
Qed.

Lemma year_months y : months_days 12 0 y = year_len y.
Proof. unfold year_len. cbn. unfold rtc_month_days. destruct (LEAP_YEAR y); reflexivity. Qed.

Lemma days_before_month_next m y : 0 <= m -> days_before_month (m + 1) y = days_before_month m y + rtc_month_days m y.
Proof.
  intros H. unfold days_before_month. replace (Z.to_nat (m + 1)) with (Z.to_nat m + 1)%nat by lia. rewrite months_days_split.
  cbn [months_days]. rewrite Z2Nat.id by lia. change (0 + m) with m. lia.
Qed.

Lemma days_before_month_later m m' y :
  0 <= m -> m < m' <= 12 -> days_before_month m y + rtc_month_days m y <= days_before_month m' y.
Proof.
  intros H Hlt. rewrite <- days_before_month_next by lia. unfold days_before_month.
  replace (Z.to_nat m') with (Z.to_nat (m + 1) + Z.to_nat (m' - (m + 1)))%nat by lia. rewrite months_days_split.
  pose proof (months_days_nonneg (Z.to_nat (m' - (m + 1))) (0 + Z.of_nat (Z.to_nat (m + 1))) y ltac:(lia) ltac:(lia)). lia.
Qed.

Lemma day_in_year tm : date_ok tm ->
  let y := tm_year tm + 1900 in
  0 <= days_before_month (tm_mon tm) y + (tm_mday tm - 1) < year_len y.
Proof.
  intros [H1 H2 H3 H4 H5 H6] y. rewrite <- year_months. pose proof (months_days_nonneg (Z.to_nat (tm_mon tm)) 0 y ltac:(lia) ltac:(lia)) as Hn.
  fold (days_before_month (tm_mon tm) y) in Hn.
  pose proof (days_before_month_later (tm_mon tm) 12 y ltac:(lia) ltac:(lia)) as Hl. unfold days_before_month at 2 in Hl.
  change (Z.to_nat 12) with 12%nat in Hl. fold y in H3. lia.
Qed.

(** A month of the year: the day [rtc_time_to_tm] finds is in it. *)
Lemma month_of_day days y m d :
  0 <= days < year_len y -> month_loop 11 0 days y = (m, d) ->
  0 <= m < 12 /\ 0 <= d < rtc_month_days m y /\ days = days_before_month m y + d.
Proof.
  intros Hd E. destruct (month_loop_spec 11 0 days y m d ltac:(lia) ltac:(lia) ltac:(lia) E) as (H1 & H2 & H3 & H4).
  unfold days_before_month. replace (m - 0) with m in H3 by lia. split_and!; try lia.
  destruct (decide (m < 11)) as [Hlt|Hge]; [lia|]. assert (m = 11) as -> by lia.
  rewrite <- year_months in Hd. change 12%nat with (Z.to_nat 11 + 1)%nat in Hd. rewrite months_days_split in Hd.
  cbn [months_days] in Hd. change (0 + Z.of_nat (Z.to_nat 11)) with 11 in Hd. lia.
Qed.

(** ** Time to date *)

Lemma s32_mod x : s32 x mod 2 ^ 32 = x mod 2 ^ 32.
Proof. unfold s32. rewrite Zminus_mod, Zmod_mod, <- Zminus_mod. f_equal. lia. Qed.

Lemma u32_sub_s32 a b : u32 (a - s32 b) = u32 (a - b).
Proof. unfold u32. by rewrite Zminus_mod, s32_mod, <- Zminus_mod. Qed.

(** The date of a time: valid, and that many seconds after the start of 1970. *)
Theorem time_to_tm_spec t tm :
  0 <= t < 2 ^ 32 ->
  date_ok (rtc_time_to_tm t tm) /\ seconds_of (rtc_time_to_tm t tm) = t /\
  tm_wday (rtc_time_to_tm t tm) = (t / 86400 + 4) mod 7 /\
  tm_yday (rtc_time_to_tm t tm) =
    days_before_month (tm_mon (rtc_time_to_tm t tm)) (tm_year (rtc_time_to_tm t tm) + 1900) + tm_mday (rtc_time_to_tm t tm) /\
  tm_isdst (rtc_time_to_tm t tm) = tm_isdst tm.
Proof.
  intros Ht. unfold rtc_time_to_tm. cbv zeta. rewrite u32_sub_s32. pose proof (year_of_day (t / 86400) ltac:(div_lia)) as Hy. cbv zeta in Hy.
  set (days1 := t / 86400 - _) in *. set (year := if days1 <? 0 then _ else _) in *. set (days2 := if days1 <? 0 then days1 + _ else days1) in *.
  clearbody days1 year days2.
  destruct Hy as (Hy & Hd & Hr). destruct (month_loop 11 0 days2 year) as [m d] eqn:E.
  destruct (month_of_day days2 year m d Hr E) as (Hm & Hdm & Hdd).
  assert (E1 : u32 (t - t / 86400 * 86400) = t mod 86400) by (rewrite u32_small; div_lia). rewrite E1.
  assert (E2 : u32 (t mod 86400 - t mod 86400 / 3600 * 3600) = t mod 86400 mod 3600) by (rewrite u32_small; div_lia). rewrite E2.
  assert (E3 : u32 (t mod 86400 mod 3600 - t mod 86400 mod 3600 / 60 * 60) = t mod 86400 mod 3600 mod 60) by (rewrite u32_small; div_lia).
  rewrite E3. unfold seconds_of. cbn [tm_year tm_mon tm_mday tm_hour tm_min tm_sec tm_wday tm_yday tm_isdst].
  replace (year - 1900 + 1900) with year by lia. split_and!; [|clear - Hd Hdd; div_lia|done|lia|done].
  split; cbn [tm_year tm_mon tm_mday tm_hour tm_min tm_sec]; replace (year - 1900 + 1900) with year by lia; try lia; div_lia.
Qed.

(** ** Date to time *)

Lemma u32_add_l a b : u32 (u32 a + b) = u32 (a + b).
Proof. unfold u32. by rewrite Zplus_mod_idemp_l. Qed.
Lemma u32_add_r a b : u32 (a + u32 b) = u32 (a + b).
Proof. unfold u32. by rewrite Zplus_mod_idemp_r. Qed.
Lemma u32_sub_l a b : u32 (u32 a - b) = u32 (a - b).
Proof. unfold u32. by rewrite Zminus_mod_idemp_l. Qed.
Lemma u32_mul_l a b : u32 (u32 a * b) = u32 (a * b).
Proof. unfold u32. by rewrite Zmult_mod_idemp_l. Qed.

Lemma u32_mid a b c : u32 (u32 a + u32 b - c) = u32 (a + b - c).
Proof. rewrite <- (u32_sub_l (a + b)), <- (u32_add_l a), <- (u32_add_r _ b), u32_sub_l. done. Qed.
Lemma u32_mul_add a b c : u32 (u32 a * b + c) = u32 (a * b + c).
Proof. by rewrite <- u32_add_l, u32_mul_l, u32_add_l. Qed.

Ltac by_month L :=
  repeat match goal with |- context [nth ?a ?l ?d] => let v := eval vm_compute in (nth a l d) in change (nth a l d) with v end;
  repeat match goal with |- context [?a <=? ?b] => let v := eval vm_compute in (a <=? b) in change (a <=? b) with v end;
  repeat match goal with |- context [?a =? ?b] => let v := eval vm_compute in (a =? b) in change (a =? b) with v end;
  cbv iota; cbn [andb Z.b2z] in *;
  repeat match goal with |- context [?a / 12] => let v := eval vm_compute in (a / 12) in change (a / 12) with v end;
  lia.

(** Gauss' formula: with the year starting in March, the days before a month are
    linear up to rounding. *)
Lemma gauss_days m y d :
  0 <= m < 12 -> 1970 <= y ->
  let back := m <=? 1 in
  let mon := if back then m + 11 else m - 1 in
  let year := if back then y - 1 else y in
  year / 4 - year / 100 + year / 400 + 367 * mon / 12 + d + year * 365 - 719499
  = days_before_year y + days_before_month m y + (d - 1).
Proof.
  intros Hm Hy back mon year. rewrite days_before_year_eq by done.
  change (year / 4 - year / 100 + year / 400) with (LEAPS_THRU_END_OF year).
  pose proof (leaps_step y) as L. change (LEAPS_THRU_END_OF (1970 - 1)) with 477.
  unfold days_before_month. subst back mon year. assert (Hn : (Z.to_nat m < 12)%nat) by lia.
  replace m with (Z.of_nat (Z.to_nat m)) by lia. revert Hn. generalize (Z.to_nat m) as n. intros n Hn. rewrite Nat2Z.id.
  do 12 (destruct n as [|n]; [cbn [months_days]; unfold rtc_month_days; destruct (LEAP_YEAR y); by_month L|]). lia.
Qed.

Lemma mktime_spec m y d hour min sec :
  0 <= m < 12 -> 1970 <= y < 2 ^ 32 ->
  mktime y (m + 1) d hour min sec =
    u32 ((((days_before_year y + days_before_month m y + (d - 1)) * 24 + hour) * 60 + min) * 60 + sec).
Proof.
  intros Hm Hy. unfold mktime. cbv zeta.
  assert (Eb : (s32 (u32 (m + 1 - 2)) <=? 0) = (m <=? 1)).
  { unfold s32, u32. destruct (Z.leb_spec m 1), (Z.leb_spec ((((m + 1 - 2) mod 2 ^ 32) + 2 ^ 31) mod 2 ^ 32 - 2 ^ 31) 0); try done;
      div_lia. }
  rewrite Eb. rewrite <- (gauss_days m y d Hm) by lia. cbv zeta.
  assert (Em : (if m <=? 1 then u32 (u32 (m + 1 - 2) + 12) else u32 (m + 1 - 2)) = if m <=? 1 then m + 11 else m - 1).
  { rewrite u32_add_l. destruct (Z.leb_spec m 1); rewrite u32_small; lia. }
  rewrite Em. assert (Ey : (if m <=? 1 then u32 (y - 1) else y) = if m <=? 1 then y - 1 else y).
  { destruct (Z.leb_spec m 1); [rewrite u32_small; lia|done]. }
  rewrite Ey. set (mon := if m <=? 1 then m + 11 else m - 1). set (year := if m <=? 1 then y - 1 else y).
  assert (Hmon : 1 <= mon <= 12) by (unfold mon; destruct (Z.leb_spec m 1); lia).
  rewrite (u32_small (367 * mon)) by lia. by rewrite u32_mid, (u32_mul_add _ 24 hour), (u32_mul_add _ 60 min), (u32_mul_add _ 60 sec).
Qed.

Lemma tm_to_time_spec tm :
  date_ok tm -> tm_year tm + 1900 < 2 ^ 32 -> rtc_tm_to_time tm = u32 (seconds_of tm).
Proof.
  intros [H1 H2 H3 H4 H5 H6] Hy. pose proof (month_days_range (tm_mon tm) (tm_year tm + 1900) H2). unfold rtc_tm_to_time.
  rewrite (u32_small (tm_year tm + 1900)), (u32_small (tm_mon tm + 1)), (u32_small (tm_mday tm)), (u32_small (tm_hour tm)),
    (u32_small (tm_min tm)), (u32_small (tm_sec tm)) by lia.
  by apply mktime_spec; [|lia].
Qed.

(** [rtc_valid_tm] accepts exactly the dates of the calendar (members are [int]s). *)
Lemma valid_tm_spec tm :
  (forall f, f ∈ [tm_sec; tm_min; tm_hour; tm_mday; tm_mon; tm_year] -> - 2 ^ 31 <= f tm < 2 ^ 31) ->
  rtc_valid_tm tm = 0 <-> date_ok tm.
Proof.
  intros Hi. assert (Hr : forall x n, - 2 ^ 31 <= x < 2 ^ 31 -> 0 <= n <= 2 ^ 31 -> (n <=? u32 x) = false <-> 0 <= x < n).
  { intros x n Hx Hn. unfold u32. rewrite Z.leb_gt. div_lia. }
  pose proof (Hi tm_sec ltac:(set_solver)) as I1. pose proof (Hi tm_min ltac:(set_solver)) as I2.
  pose proof (Hi tm_hour ltac:(set_solver)) as I3. pose proof (Hi tm_mon ltac:(set_solver)) as I4.
  unfold rtc_valid_tm. match goal with |- (if ?c then _ else _) = 0 <-> _ => transitivity (c = false); [by destruct c|] end.
  rewrite !orb_false_iff, !Hr, !Z.ltb_ge by (done || lia). split; [intros ((((((A & B) & C) & D) & E) & F) & G); by split|].
  by intros [A B [C D] E F G].
Qed.

(** ** A date is determined by its seconds *)

Lemma date_determined tm tm' :
  date_ok tm -> date_ok tm' -> seconds_of tm = seconds_of tm' ->
  tm_year tm = tm_year tm' /\ tm_mon tm = tm_mon tm' /\ tm_mday tm = tm_mday tm' /\
  tm_hour tm = tm_hour tm' /\ tm_min tm = tm_min tm' /\ tm_sec tm = tm_sec tm'.
Proof.
  intros H H' E. pose proof (day_in_year tm H) as D. pose proof (day_in_year tm' H') as D'. cbv zeta in D, D'.
  destruct H as [H1 H2 H3 H4 H5 H6], H' as [K1 K2 K3 K4 K5 K6]. unfold seconds_of in E.
  set (y := tm_year tm + 1900) in *. set (y' := tm_year tm' + 1900) in *.
  assert (Ed : days_before_year y + days_before_month (tm_mon tm) y + (tm_mday tm - 1) =
    days_before_year y' + days_before_month (tm_mon tm') y' + (tm_mday tm' - 1)) by lia.
  assert (Ey : y = y').
  { destruct (Z.lt_trichotomy y y') as [Hlt|[->|Hlt]]; [|done|].
    - pose proof (days_before_later y y' ltac:(lia) Hlt). lia.
    - pose proof (days_before_later y' y ltac:(lia) Hlt). lia. }
  rewrite <- Ey in *. assert (Em : tm_mon tm = tm_mon tm').
  { destruct (Z.lt_trichotomy (tm_mon tm) (tm_mon tm')) as [Hlt|[->|Hlt]]; [|done|].
    - pose proof (days_before_month_later (tm_mon tm) (tm_mon tm') y ltac:(lia) ltac:(lia)). lia.
    - pose proof (days_before_month_later (tm_mon tm') (tm_mon tm) y ltac:(lia) ltac:(lia)). lia. }
  rewrite <- Em in *. split_and!; lia.
Qed.

Lemma seconds_nonneg tm : date_ok tm -> 0 <= seconds_of tm.
Proof.
  intros H. pose proof (day_in_year tm H) as D. cbv zeta in D. destruct H as [H1 H2 H3 H4 H5 H6]. unfold seconds_of.
  assert (0 <= days_before_year (tm_year tm + 1900)); [|lia].
  destruct (decide (tm_year tm = 70)) as [->|]; [done|].
  pose proof (days_before_later 1970 (tm_year tm + 1900) ltac:(lia) ltac:(lia)) as L. change (days_before_year 1970) with 0 in L.
  pose proof (year_len_range 1970). lia.
Qed.

(** Times that fit are in years that fit. *)
Lemma seconds_year tm : date_ok tm -> seconds_of tm < 2 ^ 32 -> tm_year tm + 1900 <= 2106.
Proof.
  intros H Hs. pose proof (day_in_year tm H) as D. cbv zeta in D. destruct H as [H1 H2 H3 H4 H5 H6]. unfold seconds_of in Hs.
  destruct (Z.le_gt_cases (tm_year tm + 1900) 2106) as [|Hgt]; [done|].
  pose proof (days_before_later 2106 (tm_year tm + 1900) ltac:(lia) ltac:(lia)) as L.
  rewrite (days_before_year_eq 2106) in L by lia. pose proof (year_len_range 2106).
  change (LEAPS_THRU_END_OF (2106 - 1)) with 510 in L. change (LEAPS_THRU_END_OF (1970 - 1)) with 477 in L. lia.
Qed.
