(* ===== verification/RtcClock.v ===== *)
(** * The running clock

    Reading three counters that move while they are read, and setting them: what the
    loops of the driver against roll-over achieve. *)

From stdpp Require Import base gmap list.
From Stdlib Require Import ZArith Lia.
From S2P Require Import Prelude Rtc RtcCalendar.

(** ** The time of the counters *)

Record clock_ok (r : rtc_regs) : Prop := mkClockOk {
  ck_day : 0 <= DAYR r;
  ck_hour : 0 <= HOURMIN r / 256 < 24;
  ck_min : 0 <= HOURMIN r mod 256 < 60;
  ck_sec : 0 <= SECOND r < 60;
}.

Definition now_of (r : rtc_regs) : Z :=
  ((DAYR r * 24 + HOURMIN r / 256) * 60 + HOURMIN r mod 256) * 60 + SECOND r.

(** The counters at a time. *)
Definition hm_of (t : Z) : Z := (t mod 86400) / 3600 * 256 + (t mod 3600) / 60.

Lemma counters r :
  clock_ok r -> DAYR r = now_of r / 86400 /\ HOURMIN r = hm_of (now_of r) /\ SECOND r = now_of r mod 60.
Proof. intros [H1 H2 H3 H4]. unfold now_of, hm_of. split_and!; div_lia. Qed.

Lemma clock_of_time t r : 0 <= t -> DAYR r = t / 86400 -> HOURMIN r = hm_of t -> SECOND r = t mod 60 -> clock_ok r /\ now_of r = t.
Proof. intros Ht H1 H2 H3. unfold now_of, hm_of in *. split; [split|]; rewrite ?H1, ?H2, ?H3; div_lia. Qed.

(** All registers but the counters and the status. *)
Definition rest (r : rtc_regs) : Z * Z * Z * Z * Z := (DAYALARM r, ALRM_HM r, ALRM_SEC r, RTCIENR r, RTCCTL r).

Lemma tick_spec r : clock_ok r -> clock_ok (tick r) /\ now_of (tick r) = now_of r + 1 /\ rest (tick r) = rest r.
Proof.
  intros [H1 H2 H3 H4]. unfold tick, tick_clock, now_of, rest.
  destruct (Z.ltb_spec (SECOND r) 59), (Z.ltb_spec (HOURMIN r mod 256) 59), (Z.ltb_spec (HOURMIN r / 256) 23); cbn;
    (split; [split; cbn; div_lia|split; [div_lia|done]]).
Qed.

Lemma ticks_spec n r :
  clock_ok r ->
  clock_ok (Nat.iter n tick r) /\ now_of (Nat.iter n tick r) = now_of r + Z.of_nat n /\ rest (Nat.iter n tick r) = rest r.
Proof.
  intros H. induction n as [|n (H1 & H2 & H3)]; [cbn; split_and!; [done|lia|done]|]. rewrite Nat.iter_succ.
  destruct (tick_spec _ H1) as (K1 & K2 & K3). split_and!; [done|lia|congruence].
Qed.

(** ** Accesses *)

(** Everything of the driver but the registers and the schedule. *)
Definition vars (s : rtcst) := (rtc_freq s, rtc_status s, g_rtc_alarm s, rtc_irq_data s, rtc_inuse s, xtime s).

(** Time went on from [s] to [s']; [k] accesses were made. *)
Record later (k : nat) (s s' : rtcst) : Prop := mkLater {
  lt_ok : clock_ok (regs s');
  lt_sched : sched s' = drop k (sched s);
  lt_now : now_of (regs s') = now_of (regs s) + Z.of_nat (sum_list (take k (sched s)));
  lt_rest : rest (regs s') = rest (regs s);
  lt_vars : vars s' = vars s;
}.

Lemma sum_take_drop (l : list nat) k : sum_list l = (sum_list (take k l) + sum_list (drop k l))%nat.
Proof. rewrite <- (take_drop k l) at 1. apply sum_list_with_app. Qed.

Lemma sum_take_plus (l : list nat) a b : sum_list (take (a + b) l) = (sum_list (take a l) + sum_list (take b (drop a l)))%nat.
Proof. rewrite (sum_take_drop (take (a + b) l) a). by rewrite take_take, Nat.min_l, skipn_firstn_comm, Nat.add_sub_swap, Nat.sub_diag by lia. Qed.

Lemma later_trans a b s1 s2 s3 : later a s1 s2 -> later b s2 s3 -> later (a + b) s1 s3.
Proof.
  intros [A1 A2 A3 A4 A5] [B1 B2 B3 B4 B5]. split; try congruence.
  - rewrite B2, A2. by rewrite drop_drop.
  - rewrite B3, A3, A2, sum_take_plus. lia.
Qed.

Lemma pass_later s : clock_ok (regs s) -> later 1 s (pass_time s).
Proof.
  intros H. unfold pass_time. destruct (sched s) as [|n l] eqn:E.
  - split; rewrite ?E; try done. cbn. lia.
  - destruct (ticks_spec n (regs s) H) as (H1 & H2 & H3). split; rewrite ?E; try done. cbn [regs with_sched with_regs]. rewrite H2. cbn. rewrite take_0. cbn. lia.
Qed.

Lemma wp_rd_reg f (Q : Z -> rtcst -> Prop) s :
  clock_ok (regs s) -> (forall s', later 1 s s' -> Q (f (regs s')) s') -> wp (rd_reg f) Q s.
Proof. intros H HQ. apply wp_bind, wp_modify, wp_gets, HQ. by apply pass_later. Qed.

Lemma wp_wr_reg f (Q : unit -> rtcst -> Prop) s :
  clock_ok (regs s) -> (forall s', later 1 s s' -> Q tt (with_regs (f (regs s')) s')) -> wp (wr_reg f) Q s.
Proof. intros H HQ. apply wp_bind, wp_modify, wp_modify, HQ. by apply pass_later. Qed.

(** ** Reading *)

(** What reading the day at [t1], hour and minute at [t2] and the second at [t3] gives. *)
Definition mixed (t1 t2 t3 : Z) : Z := t1 / 86400 * 86400 + (t2 mod 86400) / 60 * 60 + t3 mod 60.

(** The last day of a 32-bit number of seconds. *)
Definition clock_end : Z := 49710 * 86400.

Lemma mixed_value r1 r2 r3 :
  clock_ok r1 -> clock_ok r2 -> clock_ok r3 -> now_of r1 < clock_end ->
  u32 (((DAYR r1 * 24 + Z.shiftr (HOURMIN r2) 8) * 60 + Z.land (HOURMIN r2) 0x00FF) * 60 + SECOND r3)
  = mixed (now_of r1) (now_of r2) (now_of r3).
Proof.
  intros H1 H2 H3 He. rewrite Z.shiftr_div_pow2 by lia. change 0x00FF with (Z.ones 8). rewrite Z.land_ones by lia.
  change (2 ^ 8) with 256. destruct (counters r1 H1) as (-> & _ & _), (counters r2 H2) as (_ & Hm & _), (counters r3 H3) as (_ & _ & ->).
  pose proof (ck_hour _ H2) as K1. pose proof (ck_min _ H2) as K2. rewrite Hm in *.
  assert (0 <= now_of r1). { destruct H1. unfold now_of. lia. }
  assert (0 <= now_of r2). { destruct H2. unfold now_of. lia. }
  unfold mixed, hm_of, clock_end in *. generalize dependent (now_of r1). generalize dependent (now_of r2). generalize (now_of r3).
  intros c b Hm K1 K2 Hb a Ha Ha'. rewrite u32_small; div_lia.
Qed.

(** The seconds that are still to pass. *)
Definition ahead (s : rtcst) : Z := Z.of_nat (sum_list (sched s)).

Lemma later_ahead k s s' : later k s s' -> now_of (regs s') + ahead s' = now_of (regs s) + ahead s.
Proof. intros [_ A B _ _]. unfold ahead. rewrite B, A, (sum_take_drop (sched s) k). lia. Qed.

Lemma ahead_nonneg s : 0 <= ahead s.
Proof. unfold ahead. lia. Qed.

Lemma wp_get_time (Q : Z -> rtcst -> Prop) s :
  clock_ok (regs s) -> now_of (regs s) + ahead s < clock_end ->
  (forall t1 t2 s', later 3 s s' -> now_of (regs s) <= t1 -> t1 <= t2 -> t2 <= now_of (regs s') ->
     Q (mixed t1 t2 (now_of (regs s'))) s') ->
  wp (get_alarm_or_time MXC_RTC_TIME) Q s.
Proof.
  intros H He HQ. unfold get_alarm_or_time. cbn [Z.eqb MXC_RTC_TIME]. apply wp_bind.
  apply wp_bind, wp_rd_reg; [done|]. intros s1 L1. apply wp_bind, wp_rd_reg; [apply L1|]. intros s2 L2.
  apply wp_bind, wp_rd_reg; [apply L2|]. intros s3 L3. apply wp_ret, wp_ret.
  pose proof (later_ahead _ _ _ L1). pose proof (ahead_nonneg s1).
  rewrite mixed_value; [|apply L1|apply L2|apply L3|lia].
  pose proof (lt_now _ _ _ L1). pose proof (lt_now _ _ _ L2). pose proof (lt_now _ _ _ L3).
  apply HQ; [|lia..]. apply (later_trans 1 2 s s1 s3); [done|]. by apply (later_trans 1 1 s1 s2 s3).
Qed.

Lemma split_day t : (t mod 86400) / 60 = t / 60 - 1440 * (t / 86400).
Proof. div_lia. Qed.

(** Two readings that agree are not torn: both are the time at which the first one was
    completed. *)
Lemma untorn t1 t2 t3 t4 t5 t6 :
  t1 <= t2 -> t2 <= t3 -> t3 <= t4 -> t4 <= t5 -> t5 <= t6 -> t6 - t1 < 3600 ->
  mixed t1 t2 t3 = mixed t4 t5 t6 -> mixed t1 t2 t3 = t3.
Proof.
  intros H1 H2 H3 H4 H5 H6. unfold mixed. rewrite !split_day.
  assert (M : forall a b, a <= b -> a / 60 <= b / 60 /\ a / 86400 <= b / 86400) by (intros a b Hab; split; apply Z.div_le_mono; lia).
  destruct (M _ _ H1) as [M1 N1], (M _ _ H2) as [M2 N2], (M _ _ H3) as [M3 N3], (M _ _ H4) as [M4 N4], (M _ _ H5) as [M5 N5].
  pose proof (Z.div_mod t3 60 ltac:(lia)). pose proof (Z.mod_pos_bound t3 60 ltac:(lia)).
  pose proof (Z.div_mod t6 60 ltac:(lia)). pose proof (Z.mod_pos_bound t6 60 ltac:(lia)).
  assert (B2 : 0 <= t2 / 60 - 1440 * (t2 / 86400) < 1440) by (rewrite <- split_day; div_lia).
  assert (B5 : 0 <= t5 / 60 - 1440 * (t5 / 86400) < 1440) by (rewrite <- split_day; div_lia).
  assert (C : t5 / 60 - t2 / 60 <= 60) by div_lia.
  assert (D : t5 / 86400 - t1 / 86400 <= 1) by div_lia. intros E. lia.
Qed.

Lemma read_loop_spec fuel s :
  (length (sched s) < fuel)%nat -> clock_ok (regs s) -> now_of (regs s) + ahead s < clock_end -> ahead s < 3600 ->
  wp (read_loop fuel) (fun v s' => now_of (regs s) <= v <= now_of (regs s') /\ exists k, later k s s') s.
Proof.
  revert s. induction fuel as [|fuel IH]; intros s Hf Hc He Ha; [lia|]. cbn [read_loop].
  apply wp_bind, wp_get_time; [done|done|]. intros t1 t2 s3 L3 A1 A2 A3.
  apply wp_bind, wp_get_time; [apply L3|by rewrite (later_ahead _ _ _ L3)|]. intros t4 t5 s6 L6 A4 A5 A6.
  pose proof (later_ahead _ _ _ L3) as E3. pose proof (later_ahead _ _ _ L6) as E6. pose proof (ahead_nonneg s6).
  pose proof (later_trans _ _ _ _ _ L3 L6) as L. cbn [Nat.add] in L.
  destruct (Z.eqb_spec (mixed t1 t2 (now_of (regs s3))) (mixed t4 t5 (now_of (regs s6)))) as [E|E].
  - apply wp_ret. rewrite (untorn t1 t2 (now_of (regs s3)) t4 t5 (now_of (regs s6))) by (done || lia). split; [lia|by exists 6%nat].
  - destruct (sched s) as [|n l] eqn:Es.
    { pose proof (lt_now _ _ _ L) as N. rewrite Es in N. cbn in N. exfalso. apply E. f_equal; lia. }
    eapply wp_mono; [apply IH|].
    + rewrite (lt_sched _ _ _ L), Es, length_drop. cbn in Hf |- *. lia.
    + apply L.
    + lia.
    + pose proof (lt_now _ _ _ L). lia.
    + intros v s' [Hv [k Hk]]. pose proof (lt_now _ _ _ L). split; [lia|]. exists (6 + k)%nat. by apply (later_trans 6 k s s6 s').
Qed.

(** ** Setting *)

(** The counters [set_alarm_or_time] computes. *)
Lemma split_time time :
  0 <= time < 2 ^ 32 ->
  let time1 := u32 (time - time / 86400 * 86400) in
  let time2 := u32 (time1 - time1 / 3600 * 3600) in
  u32 (time2 - time2 / 60 * 60) = time mod 60 /\ u32 (Z.shiftl (time1 / 3600) 8 + time2 / 60) = hm_of time.
Proof.
  intros Ht time1 time2. assert (E1 : time1 = time mod 86400) by (unfold time1; rewrite u32_small; div_lia).
  assert (E2 : time2 = time mod 3600) by (unfold time2; rewrite E1, u32_small; div_lia).
  rewrite E1, E2. clear time1 time2 E1 E2. rewrite Z.shiftl_mul_pow2 by lia. unfold hm_of. split; rewrite u32_small; div_lia.
Qed.

(** The times that can be set: to three days before the end of the 32-bit seconds. *)
Definition set_end : Z := 49707 * 86400.

Lemma hm_of_ok t : 0 <= hm_of t / 256 < 24 /\ 0 <= hm_of t mod 256 < 60.
Proof. unfold hm_of. split; div_lia. Qed.

(** After a round of writes: the hour and minute are those asked for, the second has moved
    on as far as the schedule says; without a tick the clock is right. *)
Record written (time : Z) (s s' : rtcst) : Prop := mkWritten {
  wn_ok : clock_ok (regs s');
  wn_sched : sched s' = drop 3 (sched s);
  wn_sec : exists n, 0 <= n <= ahead s - ahead s' /\ now_of (regs s') mod 60 = (time + n) mod 60;
  wn_bound : now_of (regs s') < (time / 86400 + 2) * 86400;
  wn_quiet : sched s = [] -> now_of (regs s') = time;
  wn_rest : rest (regs s') = rest (regs s);
  wn_vars : vars s' = vars s;
}.

Lemma wp_set_clock time (Q : unit -> rtcst -> Prop) s :
  0 <= time < set_end -> clock_ok (regs s) -> ahead s < 60 -> (forall s', written time s s' -> Q tt s') ->
  wp (set_alarm_or_time MXC_RTC_TIME time) Q s.
Proof.
  intros Ht Hc Ha HQ. unfold set_alarm_or_time. cbn [Z.eqb MXC_RTC_TIME].
  destruct (split_time time) as [-> ->]; [unfold set_end in Ht; lia|].
  apply wp_bind, wp_wr_reg; [done|]. intros s1 L1. set (r1 := set_clock _ _ _ (regs s1)).
  destruct (hm_of_ok time) as [Hh Hm].
  assert (O1 : clock_ok r1) by (destruct (lt_ok _ _ _ L1); split; cbn; try done; div_lia).
  apply wp_bind, wp_wr_reg; [exact O1|]. intros s2 L2. set (r2 := set_clock _ _ _ (regs s2)).
  assert (O2 : clock_ok r2) by (destruct (lt_ok _ _ _ L2); split; cbn; try done; div_lia).
  apply wp_wr_reg; [exact O2|]. intros s3 L3. set (r3 := set_clock _ _ _ (regs s3)).
  assert (O3 : clock_ok r3) by (destruct (lt_ok _ _ _ L3); split; cbn; done).
  pose proof (later_ahead _ _ _ L1) as A1. pose proof (later_ahead _ _ _ L2) as A2. pose proof (later_ahead _ _ _ L3) as A3.
  change (ahead (with_regs r1 s1)) with (ahead s1) in A2. change (ahead (with_regs r2 s2)) with (ahead s2) in A3.
  cbn [regs with_regs] in A2, A3. pose proof (lt_now _ _ _ L1) as N1. pose proof (lt_now _ _ _ L2) as N2. pose proof (lt_now _ _ _ L3) as N3.
  cbn [regs with_regs sched] in N2, N3. pose proof (ahead_nonneg s3).
  destruct (counters _ O1) as (D1 & _ & _), (counters _ O2) as (D2 & _ & S2), (counters _ O3) as (D3 & M3 & S3).
  destruct (counters _ (lt_ok _ _ _ L2)) as (E2 & _ & _), (counters _ (lt_ok _ _ _ L3)) as (E3 & _ & F3).
  assert (R2 : now_of r2 < now_of (regs s2) + 60).
  { unfold now_of, r2. cbn. pose proof (ck_sec _ (lt_ok _ _ _ L2)). pose proof (Z.mod_pos_bound time 60 ltac:(lia)). lia. }
  cbn [DAYR HOURMIN SECOND set_clock r1 r2 r3] in D1, D2, S2, D3, M3, S3.
  apply HQ. split; cbn [regs with_regs sched].
  - exact O3.
  - by rewrite (lt_sched _ _ _ L3 : sched s3 = drop 1 (sched s2)), (lt_sched _ _ _ L2 : sched s2 = drop 1 (sched s1)), (lt_sched _ _ _ L1), !drop_drop.
  - change (ahead (with_regs r3 s3)) with (ahead s3). exists (ahead s2 - ahead s3). split; [lia|]. rewrite <- S3, F3. rewrite Z.add_mod, S2, <- Z.add_mod by lia.
    f_equal. lia.
  - assert (now_of (regs s3) < (time / 86400 + 2) * 86400) by div_lia. div_lia.
  - intros Hs. pose proof (lt_sched _ _ _ L1) as T1. pose proof (lt_sched _ _ _ L2) as T2. cbn [sched with_regs] in T2.
    rewrite Hs in T1, N1. rewrite T1 in T2. rewrite T1 in N2. change (drop 1 []) with (@nil nat) in *. cbn [drop] in T2. rewrite T2 in N3. cbn in N1, N2, N3.
    apply clock_of_time; [lia| |done|].
    + cbn. replace (now_of (regs s3)) with (now_of r2) in E3 by lia. rewrite E3, <- D2, E2. replace (now_of (regs s2)) with (now_of r1) by lia. done.
    + cbn. rewrite F3. replace (now_of (regs s3)) with (now_of r2) by lia. by rewrite <- S2.
  - pose proof (lt_rest _ _ _ L1). pose proof (lt_rest _ _ _ L2). pose proof (lt_rest _ _ _ L3). unfold rest in *. cbn in *. congruence.
  - pose proof (lt_vars _ _ _ L1). pose proof (lt_vars _ _ _ L2). pose proof (lt_vars _ _ _ L3). unfold vars in *. cbn in *. congruence.
Qed.

Lemma mixed_mod t1 t2 t3 : mixed t1 t2 t3 mod 60 = t3 mod 60.
Proof. unfold mixed. div_lia. Qed.

Lemma mixed_same t : mixed t t t = t.
Proof. unfold mixed. div_lia. Qed.

(** The state after the time was set: only the clock, the schedule and the status bits
    have changed. *)
Record time_set (time : Z) (s s' : rtcst) : Prop := mkTimeSet {
  ts_ok : clock_ok (regs s');
  ts_now : now_of (regs s') = time;
  ts_rest : rest (regs s') = rest (regs s);
  ts_vars : vars s' = vars s;
}.

Lemma set_loop_spec fuel time s :
  (length (sched s) < fuel)%nat -> 0 <= time < set_end -> clock_ok (regs s) -> ahead s < 60 ->
  wp (set_loop fuel time) (fun _ s' => time_set time s s') s.
Proof.
  revert s. induction fuel as [|fuel IH]; intros s Hf Ht Hc Ha; [lia|]. cbn [set_loop].
  apply wp_bind, wp_set_clock; [done..|]. intros s3 [W1 W2 (n & Wn & W3) W4 W5 W6 W7].
  pose proof (ahead_nonneg s3). assert (Hd : time / 86400 < 49707) by (unfold set_end in Ht; div_lia).
  apply wp_bind, wp_get_time; [done|unfold clock_end; lia|]. intros t1 t2 s6 L A1 A2 A3.
  pose proof (later_ahead _ _ _ L) as E6. pose proof (ahead_nonneg s6).
  assert (Hl : length (sched s6) = (length (sched s) - 6)%nat) by (rewrite (lt_sched _ _ _ L), W2, !length_drop; lia).
  destruct (Z.eqb_spec time (mixed t1 t2 (now_of (regs s6)))) as [E|E].
  - apply wp_ret. pose proof (mixed_mod t1 t2 (now_of (regs s6))) as M. rewrite <- E in M.
    assert (Z0 : n = 0 /\ now_of (regs s6) = now_of (regs s3)).
    { set (k := now_of (regs s6) - now_of (regs s3)). assert (Hk : now_of (regs s6) mod 60 = (time + n + k) mod 60).
      { replace (now_of (regs s6)) with (now_of (regs s3) + k) by lia. by rewrite Z.add_mod, W3, <- Z.add_mod by lia. }
      assert (0 <= n + k < 60) by lia. clear - M Hk H1 A1 A2 A3 Wn. subst k. div_lia. }
    destruct Z0 as [-> Z0]. assert (t1 = now_of (regs s6)) as -> by lia. assert (t2 = now_of (regs s6)) as -> by lia.
    rewrite mixed_same in E. split; [apply L|done|by rewrite (lt_rest _ _ _ L)|by rewrite (lt_vars _ _ _ L)].
  - destruct (sched s) as [|m l] eqn:Es.
    { exfalso. apply E. pose proof (lt_now _ _ _ L) as N. rewrite W2 in N. cbn in N. specialize (W5 eq_refl).
      assert (t1 = now_of (regs s6)) as -> by lia. assert (t2 = now_of (regs s6)) as -> by lia. rewrite mixed_same. lia. }
    eapply wp_mono; [apply IH|].
    + rewrite Hl. cbn in Hf |- *. lia.
    + done.
    + apply L.
    + lia.
    + intros [] s' [T1 T2 T3 T4]. split; [done|done|by rewrite T3, (lt_rest _ _ _ L)|by rewrite T4, (lt_vars _ _ _ L)].
Qed.
