(* ===== verification/RtcAlarm.v ===== *)
(** * The alarm of the real time clock

    What is programmed for a requested alarm, and when it is raised. *)

From stdpp Require Import base gmap list.
From Stdlib Require Import ZArith Lia.
From S2P Require Import Prelude Rtc RtcCalendar RtcClock.

(** ** The next time of a day *)

Definition tod (tm : rtc_time) : Z := (tm_hour tm * 60 + tm_min tm) * 60 + tm_sec tm.

(** The first time from [now] on at a time of day. *)
Definition next_at (now day_time : Z) : Z :=
  let t := now / 86400 * 86400 + day_time in if t <? now then t + 86400 else t.

Lemma next_at_spec now d : 0 <= d < 86400 -> now <= next_at now d < now + 86400 /\ next_at now d mod 86400 = d.
Proof. intros H. unfold next_at. destruct (Z.ltb_spec (now / 86400 * 86400 + d) now); split; div_lia. Qed.

Definition clock_time (tm : rtc_time) : Prop := 0 <= tm_hour tm < 24 /\ 0 <= tm_min tm < 60 /\ 0 <= tm_sec tm < 60.

Lemma date_time tm : date_ok tm -> clock_time tm /\ seconds_of tm mod 86400 = tod tm.
Proof. intros [H1 H2 H3 H4 H5 H6]. split; [done|]. unfold seconds_of, tod. div_lia. Qed.

Lemma date_back d : date_ok d -> seconds_of d < 2 ^ 32 -> rtc_tm_to_time d = seconds_of d.
Proof.
  intros Hd Hs. pose proof (seconds_year d Hd Hs). pose proof (seconds_nonneg d Hd). rewrite tm_to_time_spec, u32_small by (done || lia). done.
Qed.

(** [rtc_next_alarm_time] finds it. *)
Lemma next_alarm_on d junk alrm :
  date_ok d -> seconds_of d + 86400 < 2 ^ 32 -> clock_time alrm ->
  let n := rtc_next_alarm_time junk d alrm in
  rtc_tm_to_time n = next_at (seconds_of d) (tod alrm) /\ clock_time n /\ tod n = tod alrm.
Proof.
  intros Hd H1 (Hh & Hm & Hs). unfold rtc_next_alarm_time. cbv zeta. set (next := mkTm _ _ _ _ _ _ _ _ _).
  assert (Hn : date_ok next) by (destruct Hd; by split). pose proof (seconds_nonneg d Hd) as H0.
  assert (En : seconds_of next = seconds_of d / 86400 * 86400 + tod alrm).
  { destruct (date_time d Hd) as [_ Ed]. unfold seconds_of, tod in *. cbn [next tm_year tm_mon tm_mday tm_hour tm_min tm_sec]. div_lia. }
  assert (Ht : 0 <= tod alrm < 86400) by (unfold tod; lia). assert (Tn : clock_time next /\ tod next = tod alrm) by done.
  clearbody next. rewrite (date_back d), (date_back next) by (done || rewrite ?En; div_lia). rewrite En. unfold next_at.
  change (60 * 60 * 24) with 86400. set (t := seconds_of d / 86400 * 86400 + tod alrm) in *.
  destruct (Z.ltb_spec t (seconds_of d)) as [Hlt|Hge]; [|split; [rewrite date_back by (done || unfold t in *; div_lia); done|done]].
  assert (Hr : 0 <= t + 86400 < 2 ^ 32) by (unfold t in *; div_lia). rewrite u32_small by done.
  destruct (time_to_tm_spec (t + 86400) next Hr) as (Hd' & Es' & _). generalize dependent (rtc_time_to_tm (t + 86400) next).
  intros d' Hd' Es'. destruct (date_time d' Hd') as [Hc Ec]. split_and!; [rewrite date_back by (done || lia); done|done|].
  rewrite <- Ec, Es'. unfold t. div_lia.
Qed.

Lemma next_alarm_spec now junk junk' alrm :
  0 <= now -> now + 86400 < 2 ^ 32 -> clock_time alrm ->
  let n := rtc_next_alarm_time junk (rtc_time_to_tm now junk') alrm in
  rtc_tm_to_time n = next_at now (tod alrm) /\ clock_time n /\ tod n = tod alrm.
Proof.
  intros H0 H1 Ha. destruct (time_to_tm_spec now junk' ltac:(lia)) as (Hd & Es & _). intros n.
  destruct (next_alarm_on _ junk alrm Hd ltac:(lia) Ha) as (A & B & C). by rewrite Es in A.
Qed.

(** ** With the clock standing still *)

Lemma rd_quiet f s : sched s = [] -> rd_reg f s = Ret (f (regs s), s).
Proof. intros H. unfold rd_reg, mbind, M_bind, modify, gets, pass_time. by rewrite H. Qed.

Lemma wr_quiet f s : sched s = [] -> wr_reg f s = Ret (tt, with_regs (f (regs s)) s).
Proof. intros H. unfold wr_reg, mbind, M_bind, modify, pass_time. by rewrite H. Qed.

Lemma get_time_quiet s :
  sched s = [] -> clock_ok (regs s) -> now_of (regs s) < clock_end -> get_alarm_or_time MXC_RTC_TIME s = Ret (now_of (regs s), s).
Proof.
  intros Hq Hc He. unfold get_alarm_or_time. cbn [Z.eqb MXC_RTC_TIME].
  rewrite (run_bind _ _ s (DAYR (regs s), HOURMIN (regs s), SECOND (regs s)) s).
  - cbn [mret M_ret]. unfold mret, M_ret. by rewrite (mixed_value (regs s) (regs s) (regs s)), mixed_same.
  - by rewrite !(run_bind _ _ _ _ _ (rd_quiet _ s Hq)).
Qed.

Lemma read_loop_quiet n s :
  sched s = [] -> clock_ok (regs s) -> now_of (regs s) < clock_end -> read_loop (S n) s = Ret (now_of (regs s), s).
Proof.
  intros Hq Hc He. cbn [read_loop]. rewrite !(run_bind _ _ _ _ _ (get_time_quiet s Hq Hc He)). by rewrite Z.eqb_refl.
Qed.

(** The alarm registers of a time. *)
Definition alarm_at (t : Z) (r : rtc_regs) : rtc_regs := set_alarm_regs (t / 86400) (hm_of t) (t mod 60) r.

Lemma set_alarm_quiet t s :
  sched s = [] -> 0 <= t < 2 ^ 32 ->
  set_alarm_or_time MXC_RTC_ALARM t s = Ret (tt, with_regs (alarm_at t (regs s)) s).
Proof.
  intros Hq Ht. unfold set_alarm_or_time. cbv zeta. change (MXC_RTC_ALARM =? MXC_RTC_TIME) with false.
  change (MXC_RTC_ALARM =? MXC_RTC_ALARM) with true. cbv iota. destruct (split_time t Ht) as [-> ->].
  by rewrite (run_bind _ _ _ _ _ (wr_quiet _ s Hq)), (run_bind _ _ _ _ _ (wr_quiet _ (with_regs _ s) Hq)), (wr_quiet _ (with_regs _ (with_regs _ s)) Hq).
Qed.

(** [rtc_update_alarm] programs the next time and clears the status. *)
Lemma update_alarm_quiet alrm s :
  sched s = [] -> clock_ok (regs s) -> now_of (regs s) + 86400 < clock_end -> clock_time alrm ->
  rtc_update_alarm alrm s =
    Ret (0, with_regs (alarm_at (next_at (now_of (regs s)) (tod alrm)) (set_isr (clear (RTCISR (regs s)) (RTCISR (regs s))) (regs s))) s).
Proof.
  intros Hq Hc He Ha. assert (H0 : 0 <= now_of (regs s)) by (destruct Hc; unfold now_of; lia).
  assert (Ht : 0 <= tod alrm < 86400) by (destruct Ha as (? & ? & ?); unfold tod; lia).
  destruct (next_at_spec (now_of (regs s)) (tod alrm) Ht) as [Hn _].
  destruct (next_alarm_spec (now_of (regs s)) tm_junk tm_junk alrm H0 ltac:(unfold clock_end in He; lia) Ha) as [En _].
  unfold rtc_update_alarm. rewrite (run_bind _ _ _ _ _ (get_time_quiet s Hq Hc ltac:(lia))). cbv zeta. rewrite En.
  rewrite (run_bind _ _ _ _ _ (rd_quiet _ s Hq)). unfold wr_isr. rewrite (run_bind _ _ _ _ _ (wr_quiet _ s Hq)).
  assert (Hr : 0 <= next_at (now_of (regs s)) (tod alrm) < 2 ^ 32) by (unfold clock_end in He; lia).
  by rewrite (run_bind _ _ _ _ _ (set_alarm_quiet _ (with_regs _ s) Hq Hr)).
Qed.

Lemma clear_self x : clear x x = 0.
Proof. unfold clear. apply Z.land_lnot_diag. Qed.

(** ** Setting the alarm *)

(** The state after an alarm was set. *)
Definition alarm_set (alrm : rtc_wkalrm) (s : rtcst) : rtcst :=
  let r := regs s in
  with_alarm (time alrm) (with_regs
    (set_ienr (if enabled alrm =? 0 then clear (RTCIENR r) RTC_ALM_BIT else setb (RTCIENR r) RTC_ALM_BIT)
      (alarm_at (next_at (now_of r) (tod (time alrm))) (set_isr 0 r))) s).

Lemma set_alarm_run alrm s :
  sched s = [] -> clock_ok (regs s) -> now_of (regs s) + 86400 < clock_end -> clock_time (time alrm) ->
  rtc_periodic_alarm (time alrm) = true \/ rtc_valid_tm (time alrm) = 0 ->
  mxc_rtc_set_alarm alrm s = Ret (0, alarm_set alrm s).
Proof.
  intros Hq Hc He Ha Hp. assert (H0 : 0 <= now_of (regs s)) by (destruct Hc; unfold now_of; lia).
  assert (U : forall tm, clock_time tm -> tod tm = tod (time alrm) ->
    rtc_update_alarm tm s = Ret (0, with_regs (alarm_at (next_at (now_of (regs s)) (tod (time alrm))) (set_isr 0 (regs s))) s)).
  { intros tm Htm Ht. by rewrite update_alarm_quiet, clear_self, Ht. }
  unfold mxc_rtc_set_alarm. match goal with |- (?m ≫= ?k) s = _ =>
    rewrite (run_bind m k s 0 (with_regs (alarm_at (next_at (now_of (regs s)) (tod (time alrm))) (set_isr 0 (regs s))) s)) end.
  - unfold alarm_set, upd_ienr.
    destruct (enabled alrm =? 0); cbn; unfold mbind, M_bind, modify; rewrite !rd_quiet by done; rewrite wr_quiet by done; reflexivity.
  - pose proof Ha as (Hh & Hm & Hs). destruct (rtc_periodic_alarm (time alrm)) eqn:Ep.
    + destruct (Z.ltb_spec 59 (tm_sec (time alrm))), (Z.ltb_spec 23 (tm_hour (time alrm))), (Z.ltb_spec 59 (tm_min (time alrm))); try lia.
      cbn [orb]. unfold mxc_rtc_read_time. destruct (next_alarm_spec (now_of (regs s)) tm_junk tm_junk (time alrm) H0) as (_ & N1 & N2);
        [unfold clock_end in He; lia|done|].
      rewrite (run_bind _ _ s (0, rtc_time_to_tm (now_of (regs s)) tm_junk) s); [by apply U|].
      rewrite (run_bind _ _ s (rounds s) s eq_refl). unfold rounds. by rewrite (run_bind _ _ _ _ _ (read_loop_quiet _ s Hq Hc ltac:(lia))).
    + destruct Hp as [|Hv]; [done|]. rewrite Hv. cbn [Z.eqb negb]. by apply U.
Qed.

(** ** Raising it *)

Lemma at_alarm_time t r : clock_ok r -> 0 <= t -> rest r = rest (alarm_at t r) -> at_alarm r = (now_of r =? t).
Proof.
  intros Hc Ht Hr. unfold rest, alarm_at in Hr. cbn in Hr. injection Hr as E1 E2 E3. unfold at_alarm. rewrite E1, E2, E3.
  destruct (counters r Hc) as (C1 & C2 & C3). destruct (Z.eqb_spec (now_of r) t) as [<-|Hne].
  - by rewrite <- C1, <- C2, <- C3, !Z.eqb_refl.
  - apply andb_false_iff. destruct (Z.eqb_spec (SECOND r) (t mod 60)) as [S|]; [left|by right].
    apply andb_false_iff. destruct (Z.eqb_spec (HOURMIN r) (hm_of t)) as [M|]; [left|by right].
    apply Z.eqb_neq. intros D. apply Hne. by destruct (clock_of_time t r Ht D M S).
Qed.

Lemma rest_alarm t r r' : rest r' = rest r -> rest r = rest (alarm_at t r) -> rest r' = rest (alarm_at t r').
Proof. destruct r, r'. unfold rest, alarm_at. cbn. congruence. Qed.

(** With the status clear and the alarm set to [t], the alarm bit is raised by the tick
    that reaches [t]. *)
Lemma alarm_raised k t r :
  clock_ok r -> 0 <= t -> RTCISR r = 0 -> rest r = rest (alarm_at t r) ->
  Z.testbit (RTCISR (Nat.iter k tick r)) 2 = (now_of r <? t) && (t <=? now_of r + Z.of_nat k).
Proof.
  intros Hc Ht Hi Hr. induction k as [|k IH].
  - cbn. rewrite Hi, Z.add_0_r. destruct (Z.ltb_spec (now_of r) t), (Z.leb_spec t (now_of r)); cbn; done || lia.
  - rewrite Nat.iter_succ. destruct (ticks_spec k r Hc) as (K1 & K2 & K3). set (rk := Nat.iter k tick r) in *.
    destruct (tick_spec rk K1) as (T1 & T2 & T3). unfold tick at 1. cbn [RTCISR set_isr].
    assert (Ek : at_alarm (tick_clock rk) = (now_of (tick rk) =? t)).
    { rewrite <- (at_alarm_time t (tick rk)); [done|done|done|]. 
      apply (rest_alarm t r); congruence. }
    rewrite Ek, !testbit_setb. assert (Ei : RTCISR (tick_clock rk) = RTCISR rk) by (unfold tick_clock; by repeat case_match).
    rewrite Ei, IH, T2, K2. change (Z.testbit RTC_1HZ_BIT 2) with false. rewrite orb_false_r.
    destruct (Z.eqb_spec (now_of r + Z.of_nat k + 1) t) as [E|E].
    + change (Z.testbit RTC_ALM_BIT 2) with true. rewrite orb_true_r. symmetry. rewrite andb_true_iff, Z.ltb_lt, Z.leb_le. lia.
    + rewrite Z.bits_0, orb_false_r. f_equal. destruct (Z.leb_spec t (now_of r + Z.of_nat k)), (Z.leb_spec t (now_of r + Z.of_nat (S k))); lia || done.
Qed.

(** ** Serving it *)

(** The interrupt handler acknowledges what is pending and enabled. *)
Lemma interrupt_run s :
  sched s = [] ->
  let status := Z.land (RTCISR (regs s)) (RTCIENR (regs s)) in
  let events := setb (if Z.land status RTC_1HZ_BIT =? 0 then 0 else setb RTC_UF RTC_IRQF)
                     (if Z.land status PIT_ALL_ON =? 0 then 0 else setb RTC_PF RTC_IRQF) in
  mxc_rtc_interrupt s =
    Ret (1, with_irq_data (Z.lor (u32 (rtc_irq_data s + 256)) events)
              (with_regs (set_isr (clear (RTCISR (regs s)) status) (regs s)) s)).
Proof.
  intros Hq status events. unfold mxc_rtc_interrupt. rewrite !(run_bind _ _ _ _ _ (rd_quiet _ s Hq)). fold status. cbv zeta.
  unfold wr_isr. rewrite (run_bind _ _ _ _ _ (wr_quiet _ s Hq)).
  set (st := if negb (Z.land status RTC_ALM_BIT =? 0) then _ else _).
  assert (E0 : Z.land st RTC_ALM_BIT = 0).
  { unfold st. destruct (Z.eqb_spec (Z.land status RTC_ALM_BIT) 0) as [E|E]; [done|]. cbn [negb]. unfold clear.
    by rewrite <- Z.land_assoc, (Z.land_comm _ RTC_ALM_BIT), Z.land_lnot_diag, Z.land_0_r. }
  assert (E1 : forall m, Z.land RTC_ALM_BIT m = 0 -> Z.land st m = Z.land status m).
  { intros m Hm. unfold st. destruct (Z.land status RTC_ALM_BIT =? 0); [done|]. cbn [negb]. apply Z.bits_inj'. intros i Hi.
    rewrite !Z.land_spec, testbit_clear by done. apply (f_equal (fun x => Z.testbit x i)) in Hm. rewrite Z.land_spec, Z.bits_0 in Hm.
    destruct (Z.testbit status i), (Z.testbit RTC_ALM_BIT i), (Z.testbit m i); done. }
  rewrite E0, (E1 RTC_1HZ_BIT), (E1 PIT_ALL_ON) by reflexivity. clearbody st. unfold events. cbn [Z.eqb negb andb].
  destruct (Z.land status RTC_1HZ_BIT =? 0), (Z.land status PIT_ALL_ON =? 0); reflexivity.
Qed.

(** ** Reading it back *)

Lemma get_alarm_quiet t s :
  sched s = [] -> 0 <= t < 2 ^ 32 -> rest (regs s) = rest (alarm_at t (regs s)) -> get_alarm_or_time MXC_RTC_ALARM s = Ret (t, s).
Proof.
  intros Hq Ht Hr. unfold get_alarm_or_time. change (MXC_RTC_ALARM =? MXC_RTC_TIME) with false.
  change (MXC_RTC_ALARM =? MXC_RTC_ALARM) with true. cbv iota.
  rewrite (run_bind _ _ s (DAYALARM (regs s), Z.land 0x0000FFFF (ALRM_HM (regs s)), ALRM_SEC (regs s)) s)
    by (by rewrite !(run_bind _ _ _ _ _ (rd_quiet _ s Hq))).
  unfold rest, alarm_at in Hr. cbn in Hr. injection Hr as -> -> ->. unfold mret, M_ret. do 2 f_equal.
  destruct (hm_of_ok t) as [Hh Hm]. rewrite Z.land_comm. change 0x0000FFFF with (Z.ones 16). change 0x00FF with (Z.ones 8).
  rewrite !Z.land_ones, Z.shiftr_div_pow2 by lia. change (2 ^ 8) with 256. change (2 ^ 16) with 65536.
  rewrite (Z.mod_small (hm_of t)) by (clear - Hh Hm; div_lia). unfold hm_of in *. rewrite u32_small; div_lia.
Qed.

Lemma read_alarm_quiet t s :
  sched s = [] -> 0 <= t < 2 ^ 32 -> rest (regs s) = rest (alarm_at t (regs s)) -> RTCISR (regs s) = 0 ->
  rtc_arm_read_alarm s = Ret ((0, mkWkalrm 0 0 (rtc_time_to_tm t tm_zero)), s).
Proof.
  intros Hq Ht Hr Hi. unfold rtc_arm_read_alarm, mxc_rtc_read_alarm. rewrite (run_bind _ _ _ _ _ (get_alarm_quiet t s Hq Ht Hr)).
  rewrite (run_bind _ _ _ _ _ (rd_quiet _ s Hq)). by rewrite Hi.
Qed.
