(* ===== verification/RtcMain.v ===== *)
(** * The real time clock: the theorems

    The calendar, the clock that is read and set while it runs, and the alarm. *)

From stdpp Require Import base gmap list.
From Stdlib Require Import ZArith Lia.
From S2P Require Import Prelude Rtc RtcCalendar RtcClock RtcAlarm.

(** ** The calendar *)

(** The six members that make up a date and time. *)
Definition same_date (tm tm' : rtc_time) : Prop :=
  tm_year tm = tm_year tm' /\ tm_mon tm = tm_mon tm' /\ tm_mday tm = tm_mday tm' /\
  tm_hour tm = tm_hour tm' /\ tm_min tm = tm_min tm' /\ tm_sec tm = tm_sec tm'.

(** The members are [int]s. *)
Definition tm_ints (tm : rtc_time) : Prop :=
  forall f, f ∈ [tm_sec; tm_min; tm_hour; tm_mday; tm_mon; tm_year] -> - 2 ^ 31 <= f tm < 2 ^ 31.

(** The table of [rtc_year_days] agrees with the lengths of the months. *)
Lemma year_days_spec d m y : 0 <= m < 12 -> rtc_year_days d m y = days_before_month m y + d - 1.
Proof.
  intros H. unfold rtc_year_days, days_before_month. assert (Hn : (Z.to_nat m < 12)%nat) by lia. revert Hn.
  generalize (Z.to_nat m) as n. intros n Hn. f_equal. f_equal.
  assert (E : forall b, LEAP_YEAR y = b -> months_days n 0 y = nth n (nth (Z.to_nat (Z.b2z b)) rtc_ydays []) 0).
  { intros b Hb. do 12 (destruct n as [|n]; [cbn [months_days]; unfold rtc_month_days; rewrite ?Hb;
      destruct b; reflexivity|]). lia. }
  symmetry. by apply E.
Qed.

(** C11: dates and seconds since 1970 are converted into each other exactly.  For every
    32-bit number of seconds the date computed is a date of the Gregorian calendar,
    as far from the start of 1970 as its years, months and days say, with the day of the
    year counted from 1, and converting it back gives the same seconds.  And every date
    that [rtc_valid_tm] accepts and whose seconds fit into 32 bits is converted to them
    and back to the same date; a later one is converted modulo 2^32. *)
Theorem rtc_calendar :
  (forall t tm, 0 <= t < 2 ^ 32 ->
     let d := rtc_time_to_tm t tm in
     date_ok d /\ seconds_of d = t /\ tm_yday d = rtc_year_days (tm_mday d) (tm_mon d) (tm_year d + 1900) + 1 /\
     rtc_tm_to_time d = t) /\
  (forall tm, tm_ints tm -> rtc_valid_tm tm = 0 ->
     date_ok tm /\ rtc_tm_to_time tm = u32 (seconds_of tm) /\
     (seconds_of tm < 2 ^ 32 -> forall tm', same_date (rtc_time_to_tm (rtc_tm_to_time tm) tm') tm)).
Proof.
  split.
  - intros t tm Ht d. destruct (time_to_tm_spec t tm Ht) as (Hd & Hs & _ & Hy & _). fold d in Hd, Hs, Hy. split_and!; [done|done| |].
    + rewrite Hy, year_days_spec by apply Hd. lia.
    + rewrite tm_to_time_spec, Hs, u32_small; [done|done|done|]. pose proof (seconds_year d Hd ltac:(lia)). lia.
  - intros tm Hi Hv. apply valid_tm_spec in Hv as Hd; [|done].
    assert (Hy : tm_year tm + 1900 < 2 ^ 32) by (pose proof (Hi tm_year ltac:(set_solver)); lia).
    split_and!; [done|by apply tm_to_time_spec|]. intros Hs tm'. pose proof (seconds_nonneg tm Hd).
    rewrite tm_to_time_spec, u32_small by (done || lia).
    destruct (time_to_tm_spec (seconds_of tm) tm' ltac:(lia)) as (Hd' & Hs' & _). by apply date_determined.
Qed.

(** ** Reading and setting *)

(** C12: the clock is read and set while it runs, without torn values.  Reading returns,
    and the date it gives is the time of the clock at some instant between the call and
    the return, although the three counters are read one after the other and may carry in
    between (provided less than an hour passes during the call, and the clock stays before
    the last day of 32-bit seconds, 7 February 2106).  Setting a valid date returns, and the
    clock then stands at exactly that date's seconds modulo 2^32 although it ran on while its
    counters were written (provided less than a minute passes, and those seconds are before 4
    February 2106): at exactly that time for a date before then, and at a time before 2106 for a
    later date, which is accepted all the same.  An invalid date is refused.  Neither call
    changes the alarm or anything else. *)
Theorem rtc_time_exact (ext_rtc_loaded : bool) (ext_rtc_set : Z -> Z) (s : rtcst) :
  clock_ok (regs s) ->
  (now_of (regs s) + ahead s < clock_end -> ahead s < 3600 ->
     exists tm s', rtc_arm_read_time s = Ret ((0, tm), s') /\ date_ok tm /\
       now_of (regs s) <= seconds_of tm <= now_of (regs s') /\ rest (regs s') = rest (regs s) /\ vars s' = vars s) /\
  (forall tm, tm_ints tm -> rtc_valid_tm tm = 0 -> u32 (seconds_of tm) < set_end -> ahead s < 60 ->
     exists r s', rtc_arm_set_time ext_rtc_loaded ext_rtc_set tm s = Ret (r, s') /\ time_set (u32 (seconds_of tm)) s s' /\
       (r = 0 <-> ext_rtc_loaded = false \/ ext_rtc_set (u32 (seconds_of tm)) = 0)) /\
  (forall tm, date_ok tm -> seconds_of tm < set_end -> u32 (seconds_of tm) = seconds_of tm) /\
  (forall tm, rtc_valid_tm tm <> 0 -> rtc_arm_set_time ext_rtc_loaded ext_rtc_set tm s = Ret (- EINVAL, s)).
Proof.
  intros Hc. split_and!.
  - intros He Ha. destruct (proj1 (wp_run _ _ _) (read_loop_spec (rounds s) s ltac:(unfold rounds; lia) Hc He Ha))
      as (v & s' & E & Hv & k & L).
    exists (rtc_time_to_tm v tm_zero), s'.
    pose proof (later_ahead _ _ _ L). pose proof (ahead_nonneg s').
    assert (0 <= v < 2 ^ 32) by (destruct Hc; unfold now_of in Hv at 1; unfold clock_end in He; lia).
    destruct (time_to_tm_spec v tm_zero ltac:(done)) as (Hd & Hs & _).
    split_and!; [|done|lia|lia|apply L|apply L].
    unfold rtc_arm_read_time, mxc_rtc_read_time. rewrite (run_bind _ _ s (rounds s) s eq_refl). by rewrite (run_bind _ _ _ _ _ E).
  - intros tm Hi Hv Ht Ha. apply valid_tm_spec in Hv as Hd; [|done]. pose proof (seconds_nonneg tm Hd) as H0.
    assert (Hy : tm_year tm + 1900 < 2 ^ 32) by (pose proof (Hi tm_year ltac:(set_solver)); lia).
    pose proof (Z.mod_pos_bound (seconds_of tm) (2 ^ 32) ltac:(lia)) as H1. fold (u32 (seconds_of tm)) in H1.
    destruct (proj1 (wp_run _ _ _) (set_loop_spec (rounds s) (u32 (seconds_of tm)) s ltac:(unfold rounds; lia) ltac:(lia) Hc Ha))
      as ([] & s' & E & T).
    unfold rtc_arm_set_time. rewrite Hv. cbn [Z.eqb]. unfold mxc_rtc_set_time.
    rewrite tm_to_time_spec by done.
    rewrite (run_bind _ _ s (rounds s) s eq_refl), (run_bind _ _ _ _ _ E). unfold set_ext_rtc_time.
    eexists _, s'. split; [reflexivity|]. split; [exact T|].
    destruct ext_rtc_loaded; cbn [negb]; [|split; auto].
    destruct (Z.eqb_spec (ext_rtc_set (u32 (seconds_of tm))) 0) as [Er|Er]; cbn; split; auto; intros; [done|naive_solver].
  - intros tm Hd Ht. pose proof (seconds_nonneg tm Hd). unfold set_end in Ht. apply u32_small. lia.
  - intros tm Hv. unfold rtc_arm_set_time. destruct (Z.eqb_spec (rtc_valid_tm tm) 0) as [E|E]; [done|].
    unfold rtc_valid_tm in *. by case_match.
Qed.

(** ** The alarm *)

(** C18: an alarm is set for the next time at the hour, minute and second asked for.
    While the clock stands, setting a periodic alarm or one with a valid date programs the
    first time from now on at that time of day, whatever the date asked for; what was
    pending is cleared, the interrupt is enabled or disabled as asked, and reading
    the alarm back gives that time.  When the clock runs on, the alarm is raised by
    the tick that reaches the time (and not at all if that is the current second).  The
    interrupt handler then acknowledges what is pending and enabled, but reports no
    alarm and leaves the alarm registers as they are. *)
Theorem rtc_alarm_next (alrm : rtc_wkalrm) (s : rtcst) :
  sched s = [] -> clock_ok (regs s) -> now_of (regs s) + 86400 < clock_end -> clock_time (time alrm) ->
  rtc_periodic_alarm (time alrm) = true \/ rtc_valid_tm (time alrm) = 0 ->
  exists s' a,
    rtc_arm_set_alarm alrm s = Ret (0, s') /\
    now_of (regs s) <= a < now_of (regs s) + 86400 /\ a mod 86400 = tod (time alrm) /\
    (exists al, rtc_arm_read_alarm s' = Ret ((0, al), s') /\ date_ok (time al) /\ seconds_of (time al) = a /\ pending al = 0) /\
    now_of (regs s') = now_of (regs s) /\
    Z.testbit (RTCIENR (regs s')) 2 = negb (enabled alrm =? 0) /\
    forall k,
      Z.testbit (RTCISR (Nat.iter k tick (regs s'))) 2 = (now_of (regs s) <? a) && (a <=? now_of (regs s) + Z.of_nat k) /\
      exists s2 events,
        mxc_rtc_interrupt (with_regs (Nat.iter k tick (regs s')) s') = Ret (1, s2) /\
        Z.land (RTCISR (regs s2)) (RTCIENR (regs s2)) = 0 /\ rest (regs s2) = rest (regs s') /\
        rtc_irq_data s2 = Z.lor (u32 (rtc_irq_data s + 256)) events /\ Z.land events RTC_AF = 0.
Proof.
  intros Hq Hc He Ha Hp. assert (H0 : 0 <= now_of (regs s)) by (destruct Hc; unfold now_of; lia).
  assert (Ht : 0 <= tod (time alrm) < 86400) by (destruct Ha as (? & ? & ?); unfold tod; lia).
  destruct (next_at_spec (now_of (regs s)) _ Ht) as [Hn1 Hn2]. set (a := next_at (now_of (regs s)) (tod (time alrm))) in *.
  assert (Hr : 0 <= a < 2 ^ 32) by (unfold clock_end in He; lia).
  exists (alarm_set alrm s), a. split_and!; [by apply set_alarm_run|lia|lia|done| |done| |].
  - eexists. split; [by apply (read_alarm_quiet a)|]. destruct (time_to_tm_spec a tm_zero Hr) as (Hd & Es & _). done.
  - unfold alarm_set. cbn [regs with_alarm with_regs set_ienr RTCIENR].
    destruct (enabled alrm =? 0); [by rewrite testbit_clear, andb_false_r|by rewrite testbit_setb, orb_true_r].
  - intros k. assert (Hc' : clock_ok (regs (alarm_set alrm s))) by (by destruct Hc; split).
    split; [by rewrite (alarm_raised k a) by (lia || done)|]. destruct (ticks_spec k _ Hc') as (_ & _ & K3).
    eexists _, _. split; [by apply interrupt_run|]. cbn [regs with_irq_data with_regs RTCISR RTCIENR set_isr rtc_irq_data].
    split_and!; [|exact K3|reflexivity|by repeat case_match].
    apply Z.bits_inj'. intros i Hi. rewrite Z.land_spec, testbit_clear, Z.land_spec, Z.bits_0 by done.
    by destruct (Z.testbit _ i), (Z.testbit _ i).
Qed.
