(* ===== verification/RtcWitness.v ===== *)
(** * The real time clock: the theorems on concrete times

    A clock just before midnight of a leap day, which moves while it is read. *)

From stdpp Require Import base gmap list.
From Stdlib Require Import ZArith Lia.
From S2P Require Import Prelude Rtc RtcCalendar RtcClock RtcAlarm RtcMain.

(** 2000-02-29 23:59:59. *)
Definition leap_eve : Z := 951868799.
Definition leap_tm : rtc_time := rtc_time_to_tm leap_eve tm_zero.

Lemma rtc_calendar_witness :
  (tm_year leap_tm, tm_mon leap_tm, tm_mday leap_tm, tm_hour leap_tm, tm_min leap_tm, tm_sec leap_tm) = (100, 1, 29, 23, 59, 59) /\
  rtc_tm_to_time leap_tm = leap_eve.
Proof.
  split; [vm_compute; reflexivity|].
  apply (proj1 rtc_calendar leap_eve tm_zero). unfold leap_eve. lia.
Defined.

Definition regs_at (t : Z) : rtc_regs := mkRegs (t / 86400) (hm_of t) (t mod 60) 0 0 0 0 0 0.

(** A second passes before the second and the fifth access. *)
Definition rolling : rtcst := mkRtc (regs_at leap_eve) [0; 1; 0; 0; 1]%nat 2 0 tm_zero 0 false 0.

Lemma rolling_ok : clock_ok (regs rolling) /\ now_of (regs rolling) = leap_eve.
Proof. apply clock_of_time; [unfold leap_eve; lia|reflexivity..]. Qed.

Lemma leap_ints : tm_ints leap_tm.
Proof.
  unfold tm_ints. rewrite <- Forall_forall.
  repeat (apply Forall_cons_2; [split; [apply Z.leb_le|apply Z.ltb_lt]; vm_compute; reflexivity|]). apply Forall_nil_2.
Qed.

(** The day is read before midnight and the hour after it; the loop reads again. *)
Lemma rtc_time_exact_witness :
  (exists v s', get_alarm_or_time MXC_RTC_TIME rolling = Ret (v, s') /\ v < leap_eve) /\
  (exists tm s', rtc_arm_read_time rolling = Ret ((0, tm), s') /\ date_ok tm /\
     leap_eve <= seconds_of tm <= now_of (regs s')) /\
  (exists r s', rtc_arm_set_time false (fun _ => 0) leap_tm rolling = Ret (r, s') /\ time_set leap_eve rolling s').
Proof.
  split; [eexists _, _; split; [vm_compute; reflexivity|vm_compute; reflexivity]|].
  destruct rolling_ok as [Hc Hn].
  destruct (rtc_time_exact false (fun _ => 0) rolling Hc) as (Hr & Hs & _). split.
  - destruct Hr as (tm & s' & E & Hd & Hv & _); [rewrite Hn; vm_compute; reflexivity|vm_compute; reflexivity|].
    exists tm, s'. rewrite Hn in Hv. split; [exact E|]. split; [exact Hd|exact Hv].
  - destruct (time_to_tm_spec leap_eve tm_zero ltac:(unfold leap_eve; lia)) as (_ & Es & _). fold leap_tm in Es.
    destruct (Hs leap_tm) as (r & s' & E & T & _).
    + exact leap_ints.
    + vm_compute. reflexivity.
    + rewrite Es. vm_compute. reflexivity.
    + vm_compute. reflexivity.
    + rewrite Es in T. exists r, s'. split; [exact E|exact T].
Defined.

(** A daily alarm at 06:30, set just before midnight, is due six and a half hours later. *)
Definition still : rtcst := mkRtc (regs_at leap_eve) [] 2 0 tm_zero 0 false 0.
Definition morning : rtc_wkalrm := mkWkalrm 1 0 (mkTm 0 30 6 (-1) (-1) (-1) (-1) (-1) (-1)).

Lemma rtc_alarm_next_witness :
  exists s' a, rtc_arm_set_alarm morning still = Ret (0, s') /\ a mod 86400 = 23400 /\ leap_eve <= a < leap_eve + 86400.
Proof.
  destruct (rtc_alarm_next morning still) as (s' & a & E & Ha & Hm & _).
  - reflexivity.
  - apply rolling_ok.
  - vm_compute. reflexivity.
  - repeat split; vm_compute; discriminate || reflexivity.
  - left. vm_compute. reflexivity.
  - exists s', a. split; [exact E|]. split; [exact Hm|].
    assert (Hn : now_of (regs still) = leap_eve) by apply rolling_ok. rewrite Hn in Ha. exact Ha.
Defined.
