(* ===== verification/I2c.v ===== *)
(** * The I2C bus driver: [drivers/i2c/busses/mxc_i2c.c]

    The transfer routine with everything it calls, the interrupt handler, power
    management and probing, and the two client calls of [drivers/i2c/i2c-core.c] that
    go through the adapter.

    The controller is not code of the repository: it is the class [I2cHw], an arbitrary
    state machine that answers reads, takes writes, moves on while time passes and
    raises interrupts.  An interrupt is served at the next access to a register or at the
    next wait of the driver, whichever controller it comes from.  Each access and each
    call of another part of the system is recorded in the log of the state. *)

From stdpp Require Import base list.
From Stdlib Require Import ZArith Lia.
From S2P Require Import Prelude.

(** ** Registers *)

Definition MXC_IFDR : Z := 0x04.
Definition MXC_I2CR : Z := 0x08.
Definition MXC_I2SR : Z := 0x0C.
Definition MXC_I2DR : Z := 0x10.

Definition MXC_I2CR_IEN : Z := 0x0080.
Definition MXC_I2CR_IIEN : Z := 0x0040.
Definition MXC_I2CR_MSTA : Z := 0x0020.
Definition MXC_I2CR_MTX : Z := 0x0010.
Definition MXC_I2CR_TXAK : Z := 0x0008.
Definition MXC_I2CR_RSTA : Z := 0x0004.

Definition MXC_I2SR_IBB : Z := 0x0020.
Definition MXC_I2SR_IAL : Z := 0x0010.
Definition MXC_I2SR_RXAK : Z := 0x0001.

Definition I2C_M_TEN : Z := 0x10.
Definition I2C_M_RD : Z := 0x01.
Definition I2C_FUNC_I2C : Z := 0x00000001.
Definition I2C_FUNC_SMBUS_EMUL : Z := 0x0eff0000.

Definition EREMOTEIO : Z := 121.
Definition ENOMEM : Z := 12.
Definition ENOSYS : Z := 38.

(** Reduction to 16 bits ([readw], [writew], the fields of a message) and to 8 bits
    (a store through [char *]; [char] is unsigned on this platform). *)
Definition u16 (x : Z) : Z := x mod 2 ^ 16.
Definition u8 (x : Z) : Z := x mod 2 ^ 8.

(** [x & m] as a condition. *)
Definition has (x m : Z) : bool := negb (Z.land x m =? 0).

(** ** Data *)

(** [mxc_i2c_device]; [adap_id] and [adap_timeout] are the fields of the embedded
    adapter that are in use, [clk] names the clock, [low_power] is a C boolean. *)
Record mxc_i2c_device : Type := mkI2c {
  membase : Z;
  irq : Z;
  clkdiv : Z;
  clk : Z;
  low_power : bool;
  adap_id : Z;
  adap_timeout : Z;
}.

Definition set_low_power (b : bool) (d : mxc_i2c_device) : mxc_i2c_device :=
  mkI2c (membase d) (irq d) (clkdiv d) (clk d) b (adap_id d) (adap_timeout d).

(** [struct i2c_msg]; the buffer is the memory [buf] points to, which belongs to this
    message alone, of [len] bytes or more. *)
Record i2c_msg : Type := mkMsg { addr : Z; flags : Z; len : Z; buf : list Z }.

Definition set_buf (l : list Z) (m : i2c_msg) : i2c_msg := mkMsg (addr m) (flags m) (len m) l.

(** [i2c_clk_table] without its terminator: pairs of register value and divider. *)
Definition i2c_clk_table : list (Z * Z) :=
  [(0x20, 22); (0x21, 24); (0x22, 26); (0x23, 28);
   (0, 30); (1, 32); (0x24, 32); (2, 36);
   (0x25, 36); (0x26, 40); (3, 42); (0x27, 44);
   (4, 48); (0x28, 48); (5, 52); (0x29, 56);
   (6, 60); (0x2A, 64); (7, 72); (0x2B, 72);
   (8, 80); (0x2C, 80); (9, 88); (0x2D, 96);
   (0xA, 104); (0x2E, 112); (0xB, 128); (0x2F, 128);
   (0xC, 144); (0xD, 160); (0x30, 160); (0xE, 192);
   (0x31, 192); (0x32, 224); (0xF, 240); (0x33, 256);
   (0x10, 288); (0x11, 320); (0x34, 320); (0x12, 384);
   (0x35, 384); (0x36, 448); (0x13, 480); (0x37, 512);
   (0x14, 576); (0x15, 640); (0x38, 640); (0x16, 768);
   (0x39, 768); (0x3A, 896); (0x17, 960); (0x3B, 1024);
   (0x18, 1152); (0x19, 1280); (0x3C, 1280); (0x1A, 1536);
   (0x3D, 1536); (0x3E, 1792); (0x1B, 1920); (0x3F, 2048);
   (0x1C, 2304); (0x1D, 2560); (0x1E, 3072); (0x1F, 3840)].

(** Time that passes while the driver waits. *)
Inductive span : Type :=
| Usec (n : Z)
| Msec (n : Z)
| Jiffies (n : Z).

(** What the log records: accesses to registers and calls of other parts. *)
Inductive ev : Type :=
| Rd (a v : Z)
| Wr (a v : Z)
| ClkOn (c : Z)
| ClkOff (c : Z)
| ClkGet (c : Z)
| ClkPut (c : Z)
| PinsOn (id : Z)
| PinsOff (id : Z)
| IrqOn (n : Z)
| IrqOff (n : Z)
| AdapterOn (id : Z)
| AdapterOff (id : Z)
| Alloc
| Free.

(** A controller, or several: reads and writes at an address, the passing of time, and
    the devices whose handler is to be called now. *)
Class I2cHw (H : Type) : Type := {
  hw_read : Z -> H -> Z * H;
  hw_write : Z -> Z -> H -> H;
  hw_elapse : span -> H -> H;
  hw_irqs : H -> list mxc_i2c_device;
}.

Section Driver.
Context {H : Type} {Hw : I2cHw H}.

(** The controllers, the two variables all devices share, and the log. *)
Record world : Type := mkWorld {
  hw : H;
  transfer_done : bool;
  tx_success : bool;
  log : list ev;
}.

Definition with_ctrl (h : H) (w : world) : world := mkWorld h (transfer_done w) (tx_success w) (log w).
Definition note_done (b : bool) : M world unit := modify (fun w => mkWorld (hw w) b (tx_success w) (log w)).
Definition note_success (b : bool) : M world unit := modify (fun w => mkWorld (hw w) (transfer_done w) b (log w)).
Definition emit (e : ev) : M world unit :=
  modify (fun w => mkWorld (hw w) (transfer_done w) (tx_success w) (log w ++ [e])).

(** ** The interrupt handler *)

(** One access, as the handler makes it. *)
Definition io_readw (a : Z) : M world Z :=
  w ← get;
  let '(v, h) := hw_read a (hw w) in
  modify (with_ctrl h);; emit (Rd a (u16 v));; mret (u16 v).

Definition io_writew (v a : Z) : M world unit :=
  modify (fun w => with_ctrl (hw_write a (u16 v) (hw w)) w);; emit (Wr a (u16 v)).

Definition mxc_i2c_handler (dev : mxc_i2c_device) : M world Z :=
  sr ← io_readw (membase dev + MXC_I2SR);
  cr ← io_readw (membase dev + MXC_I2CR);
  io_writew 0x0 (membase dev + MXC_I2SR);;
  (if has sr MXC_I2SR_IAL then mret tt
   else
     note_success false;;
     (if has cr MXC_I2CR_MTX && negb (has sr MXC_I2SR_RXAK) then note_success true else mret tt);;
     note_done true);;
  mret IRQ_HANDLED.

Fixpoint serve_irqs (l : list mxc_i2c_device) : M world unit :=
  match l with
  | [] => mret tt
  | d :: l' => mxc_i2c_handler d;; serve_irqs l'
  end.

(** The interrupts that are pending are served. *)
Definition deliver : M world unit := w ← get; serve_irqs (hw_irqs (hw w)).

(** Accesses and waits of the driver's own code, during which interrupts come in. *)
Definition readw (a : Z) : M world Z := v ← io_readw a; deliver;; mret v.
Definition writew (v a : Z) : M world unit := io_writew v a;; deliver.
Definition elapse (t : span) : M world unit := modify (fun w => with_ctrl (hw_elapse t (hw w)) w);; deliver.
Definition udelay (n : Z) : M world unit := elapse (Usec n).

(** [wait_event_interruptible_timeout] on [transfer_done]. *)
Definition wait_done (timeout : Z) : M world unit :=
  d ← gets transfer_done; if d : bool then mret tt else elapse (Jiffies timeout).

(** ** One message *)

(** [for (;;)] of [mxc_i2c_stop] with [retry] at [n]. *)
Fixpoint stop_loop (n : nat) (dev : mxc_i2c_device) : M world unit :=
  sr ← readw (membase dev + MXC_I2SR);
  if negb (has sr MXC_I2SR_IBB) then mret tt
  else
    match n with
    | O => mret tt
    | S n' => udelay 3;; stop_loop n' dev
    end.

Definition mxc_i2c_stop (dev : mxc_i2c_device) : M world unit :=
  cr ← readw (membase dev + MXC_I2CR);
  writew (clear cr (setb MXC_I2CR_MSTA MXC_I2CR_MTX)) (membase dev + MXC_I2CR);;
  stop_loop 16 dev.

(** [while (retry-- && !transfer_done)]: the value of [retry] after the loop. *)
Fixpoint wait_loop (retry : nat) (dev : mxc_i2c_device) : M world Z :=
  match retry with
  | O => mret (-1)
  | S n =>
      d ← gets transfer_done;
      if d : bool then mret (Z.of_nat n) else wait_done (adap_timeout dev);; wait_loop n dev
  end.

Definition mxc_i2c_wait_for_tc (dev : mxc_i2c_device) (trans_flag : Z) : M world Z :=
  retry ← wait_loop 16 dev;
  note_done false;;
  if retry <=? 0 then mret (-1)
  else if negb (has trans_flag I2C_M_RD) then
    ok ← gets tx_success; if negb ok then mret (-1) else mret 0
  else mret 0.

Definition addr_trans (msg : i2c_msg) : Z :=
  let a := u32 (Z.shiftl (addr msg) 1) in
  if has (flags msg) I2C_M_RD then setb a 0x01 else a.

(** [while (retry-- && !(sr & MXC_I2SR_IBB))]. *)
Fixpoint start_loop (retry : nat) (sr : Z) (dev : mxc_i2c_device) : M world unit :=
  match retry with
  | O => mret tt
  | S n =>
      if negb (has sr MXC_I2SR_IBB) then
        udelay 3;; sr' ← readw (membase dev + MXC_I2SR); start_loop n sr' dev
      else mret tt
  end.

Definition mxc_i2c_start (dev : mxc_i2c_device) (msg : i2c_msg) : M world unit :=
  cr ← readw (membase dev + MXC_I2CR);
  writew (setb cr MXC_I2CR_MSTA) (membase dev + MXC_I2CR);;
  sr ← readw (membase dev + MXC_I2SR);
  start_loop 16 sr dev;;
  cr' ← readw (membase dev + MXC_I2CR);
  writew (setb cr' MXC_I2CR_MTX) (membase dev + MXC_I2CR);;
  writew (addr_trans msg) (membase dev + MXC_I2DR).

Definition mxc_i2c_repstart (dev : mxc_i2c_device) (msg : i2c_msg) : M world unit :=
  cr ← readw (membase dev + MXC_I2CR);
  writew (setb cr MXC_I2CR_RSTA) (membase dev + MXC_I2CR);;
  udelay 3;;
  writew (addr_trans msg) (membase dev + MXC_I2DR).

(** The loop of [mxc_i2c_readbytes] with [n] bytes to go, [i] read and in [got]. *)
Fixpoint readbytes_loop (n : nat) (i : Z) (dev : mxc_i2c_device) (msg : i2c_msg) (last : bool) (got : list Z) :
    M world (Z * list Z) :=
  match n with
  | O => mret (i, got)
  | S n' =>
      r ← mxc_i2c_wait_for_tc dev (flags msg);
      if negb (r =? 0) then mxc_i2c_stop dev;; mret (-1, got)
      else
        (if i =? len msg - 2 then
           cr ← readw (membase dev + MXC_I2CR);
           writew (setb cr MXC_I2CR_TXAK) (membase dev + MXC_I2CR)
         else if i =? len msg - 1 then
           if last : bool then mxc_i2c_stop dev else mret tt
         else mret tt);;
        v ← readw (membase dev + MXC_I2DR);
        readbytes_loop n' (i + 1) dev msg last (got ++ [u8 v])
  end.

Definition mxc_i2c_readbytes (dev : mxc_i2c_device) (msg : i2c_msg) (last addr_comp : bool) :
    M world (Z * i2c_msg) :=
  cr ← readw (membase dev + MXC_I2CR);
  let cr1 := clear cr MXC_I2CR_MTX in
  let cr2 := if len msg =? 1 then setb cr1 MXC_I2CR_TXAK else clear cr1 MXC_I2CR_TXAK in
  writew cr2 (membase dev + MXC_I2CR);;
  (if addr_comp : bool then readw (membase dev + MXC_I2DR);; mret tt else mret tt);;
  r ← readbytes_loop (Z.to_nat (len msg)) 0 dev msg last [];
  mret (fst r, set_buf (snd r ++ drop (length (snd r)) (buf msg)) msg).

(** The loop of [mxc_i2c_writebytes] with [n] bytes to go and [i] sent; reading past
    the buffer faults. *)
Fixpoint writebytes_loop (n : nat) (i : Z) (dev : mxc_i2c_device) (msg : i2c_msg) : M world Z :=
  match n with
  | O => mret i
  | S n' =>
      b ← match buf msg !! Z.to_nat i with Some b => mret b | None => crash BadAccess end;
      writew b (membase dev + MXC_I2DR);;
      r ← mxc_i2c_wait_for_tc dev (flags msg);
      if negb (r =? 0) then mxc_i2c_stop dev;; mret (-1) else writebytes_loop n' (i + 1) dev msg
  end.

Definition mxc_i2c_writebytes (dev : mxc_i2c_device) (msg : i2c_msg) (last : bool) : M world Z :=
  cr ← readw (membase dev + MXC_I2CR);
  writew (setb cr MXC_I2CR_MTX) (membase dev + MXC_I2CR);;
  r ← writebytes_loop (Z.to_nat (len msg)) 0 dev msg;
  if r <? 0 then mret r
  else (if last : bool then mxc_i2c_stop dev else mret tt);; mret r.

(** ** A transfer *)

Definition mxc_i2c_module_en (dev : mxc_i2c_device) : M world unit :=
  emit (ClkOn (clk dev));;
  writew (clkdiv dev) (membase dev + MXC_IFDR);;
  writew 0x0 (membase dev + MXC_I2SR);;
  writew MXC_I2CR_IEN (membase dev + MXC_I2CR);;
  writew (setb MXC_I2CR_IEN MXC_I2CR_IIEN) (membase dev + MXC_I2CR).

Definition mxc_i2c_module_dis (dev : mxc_i2c_device) : M world unit :=
  writew 0x0 (membase dev + MXC_I2CR);;
  emit (ClkOff (clk dev)).

(** Whether a repeated start is needed between two messages. *)
Definition needs_restart (prev msg : i2c_msg) : bool :=
  negb (addr msg =? addr prev) || negb (Z.land (flags msg) I2C_M_RD =? Z.land (flags prev) I2C_M_RD).

(** The wait after an address, with its early return: [None] when the transfer is given up. *)
Definition addr_wait (dev : mxc_i2c_device) (msg : i2c_msg) : M world (option bool) :=
  r ← mxc_i2c_wait_for_tc dev (flags msg);
  if negb (r =? 0) then mxc_i2c_stop dev;; mxc_i2c_module_dis dev;; mret None else mret (Some true).

(** The address cycle of a message after [prev]; the result is [addr_comp]. *)
Definition addr_cycle (dev : mxc_i2c_device) (prev : option i2c_msg) (msg : i2c_msg) : M world (option bool) :=
  match prev with
  | None => mxc_i2c_start dev msg;; addr_wait dev msg
  | Some p => if needs_restart p msg then mxc_i2c_repstart dev msg;; addr_wait dev msg else mret (Some false)
  end.

(** The data of a message: the result of the call and the message with its buffer. *)
Definition data_cycle (dev : mxc_i2c_device) (msg : i2c_msg) (last addr_comp : bool) : M world (Z * i2c_msg) :=
  if has (flags msg) I2C_M_RD then mxc_i2c_readbytes dev msg last addr_comp
  else r ← mxc_i2c_writebytes dev msg last; mret (r, msg).

(** The loop over the messages: [i] are done, [prev] is the last of them.  [None] is the
    early return, otherwise the result is [i] after the loop; with it come the messages
    from [i] on with their buffers. *)
Fixpoint xfer_loop (dev : mxc_i2c_device) (i : Z) (prev : option i2c_msg) (msgs : list i2c_msg) :
    M world (option Z * list i2c_msg) :=
  match msgs with
  | [] => mret (Some i, [])
  | msg :: rest =>
      a ← addr_cycle dev prev msg;
      match a with
      | None => mret (None, msgs)
      | Some addr_comp =>
          r ← data_cycle dev msg (bool_decide (rest = [])) addr_comp;
          if fst r <? 0 then mret (Some i, snd r :: rest)
          else
            q ← xfer_loop dev (i + 1) (Some msg) rest;
            mret (fst q, snd r :: snd q)
      end
  end.

(** [mxc_i2c_xfer] on an array of [num] messages. *)
Definition mxc_i2c_xfer (dev : mxc_i2c_device) (msgs : list i2c_msg) : M world (Z * list i2c_msg) :=
  if low_power dev then mret (- EREMOTEIO, msgs)
  else if Z.of_nat (length msgs) <? 1 then mret (0, msgs)
  else
    mxc_i2c_module_en dev;;
    sr ← readw (membase dev + MXC_I2SR);
    if has sr MXC_I2SR_IBB then mxc_i2c_module_dis dev;; mret (- EREMOTEIO, msgs)
    else
      note_done false;;
      note_success false;;
      r ← xfer_loop dev 0 None msgs;
      match fst r with
      | None => mret (- EREMOTEIO, snd r)
      | Some i => mxc_i2c_module_dis dev;; mret (i - 1, snd r)
      end.

Definition mxc_i2c_func : Z := Z.lor I2C_FUNC_I2C I2C_FUNC_SMBUS_EMUL.

(** ** Power management *)

(** The wait for the end of the current transfer: [Hang] after [fuel] polls. *)
Fixpoint suspend_loop (fuel : nat) (sr : Z) (dev : mxc_i2c_device) : M world unit :=
  if has sr MXC_I2SR_IBB then
    match fuel with
    | O => crash Hang
    | S n => elapse (Msec 10);; sr' ← readw (membase dev + MXC_I2SR); suspend_loop n sr' dev
    end
  else mret tt.

Definition mxci2c_suspend (fuel : nat) (mxcdev : option mxc_i2c_device) : M world (Z * option mxc_i2c_device) :=
  match mxcdev with
  | None => mret (-1, None)
  | Some d =>
      let d' := set_low_power true d in
      sr ← readw (membase d' + MXC_I2SR);
      suspend_loop fuel sr d';;
      emit (PinsOff (adap_id d'));;
      mret (0, Some d')
  end.

Definition mxci2c_resume (mxcdev : option mxc_i2c_device) : M world (Z * option mxc_i2c_device) :=
  match mxcdev with
  | None => mret (-1, None)
  | Some d => emit (PinsOn (adap_id d));; mret (0, Some (set_low_power false d))
  end.

(** ** Probing *)

(** The search in the table: the first entry whose divider is at least [div]. *)
Fixpoint find_div (l : list (Z * Z)) (div : Z) : option Z :=
  match l with
  | [] => None
  | (v, d) :: l' => if div <=? d then Some v else find_div l' div
  end.

(** The register value for a bus clock of [i2c_clk] from a module clock of [clk_freq]. *)
Definition choose_clkdiv (clk_freq i2c_clk : Z) : Z :=
  let none := u32 (-1) in
  let v :=
    if negb (i2c_clk =? 0) then
      default none (find_div i2c_clk_table (s32 (u32 (clk_freq + i2c_clk - 1) / i2c_clk)))
    else none in
  if v =? none then 0x1F else v.

(** What the platform device and the kernel services answer: the memory, the resource,
    the interrupt line, the handler's registration, the clock's rate, the platform
    data, and the registration of the adapter. *)
Record probe_env : Type := mkEnv {
  kzalloc_ok : bool;
  mem_start : option Z;
  plat_irq : Z;
  request_irq_ret : Z;
  clk_freq : Z;
  i2c_clk_hz : Z;
  add_adapter_ret : Z;
}.

Definition mxci2c_probe (e : probe_env) (id : Z) : M world (Z * option mxc_i2c_device) :=
  if negb (kzalloc_ok e) then mret (- ENOMEM, None)
  else
    emit Alloc;;
    match mem_start e with
    | None => emit Free;; mret (- ENODEV, None)
    | Some base =>
        if plat_irq e <? 0 then emit Free;; mret (plat_irq e, None)
        else if request_irq_ret e <? 0 then emit Free;; mret (request_irq_ret e, None)
        else
          emit (IrqOn (plat_irq e));;
          emit (PinsOn id);;
          emit (ClkGet id);;
          let d := mkI2c base (plat_irq e) (choose_clkdiv (clk_freq e) (i2c_clk_hz e)) id false id 1 in
          if add_adapter_ret e <? 0 then
            emit (IrqOff (plat_irq e));; emit (PinsOff id);; emit Free;; mret (add_adapter_ret e, None)
          else emit (AdapterOn id);; mret (0, Some d)
    end.

Definition mxci2c_remove (d : mxc_i2c_device) (id : Z) : M world Z :=
  emit (IrqOff (irq d));; emit (AdapterOff (adap_id d));; emit (PinsOff id);; emit (ClkPut (clk d));; mret 0.

(** ** The client calls of the I2C core *)

(** [i2c_transfer]: [supported] when the adapter has the method. *)
Definition i2c_transfer (supported : bool) (dev : mxc_i2c_device) (msgs : list i2c_msg) :
    M world (Z * list i2c_msg) :=
  if supported then mxc_i2c_xfer dev msgs else mret (- ENOSYS, msgs).

(** A client has an address and flags; the buffer holds at least [count] bytes. *)
Definition i2c_master_send (dev : mxc_i2c_device) (c_addr c_flags : Z) (bytes : list Z) (count : Z) : M world Z :=
  r ← i2c_transfer true dev [mkMsg (u16 c_addr) (Z.land c_flags I2C_M_TEN) (u16 count) bytes];
  mret (if fst r =? 1 then count else fst r).

Definition i2c_master_recv (dev : mxc_i2c_device) (c_addr c_flags : Z) (bytes : list Z) (count : Z) :
    M world (Z * list Z) :=
  r ← i2c_transfer true dev
    [mkMsg (u16 c_addr) (setb (Z.land c_flags I2C_M_TEN) I2C_M_RD) (u16 count) bytes];
  mret (if fst r =? 1 then count else fst r, from_option buf bytes (head (snd r))).

End Driver.

Arguments world H : clear implicits.
