(* ===== verification/I2cTrace.v ===== *)
(** * What a transfer does on any hardware

    No assumption on the controller, on the slaves or on when interrupts come: the
    driver returns, it accesses registers only between enabling and disabling its
    clock, it leaves the control register at zero, and it keeps the shape of the
    messages.  [acc m R]: from every state [m] returns a result in [R] and adds only
    accesses to registers to the log. *)

From stdpp Require Import base list.
From Stdlib Require Import ZArith Lia.
From S2P Require Import Prelude I2c.

(** An access to a register; one that the interrupt handler makes, of which the writes
    have the value zero. *)
Definition reg_access (e : ev) : Prop := match e with Rd _ _ | Wr _ _ => True | _ => False end.
Definition mild (e : ev) : Prop := match e with Rd _ _ => True | Wr _ v => v = 0 | _ => False end.

Lemma mild_access l : Forall mild l -> Forall reg_access l.
Proof. intros Hl. eapply Forall_impl; [exact Hl|]. by intros []. Qed.

(** Whether there is a value. *)
Definition is_Some_b {A} (o : option A) : bool := match o with Some _ => true | None => false end.

(** A byte, a buffer of the size the message says, and messages of the same shape:
    only the buffer of a read may have changed. *)
Definition is_byte (x : Z) : Prop := 0 <= x < 2 ^ 8.
Definition is_read (m : i2c_msg) : bool := has (flags m) I2C_M_RD.
Definition wf_msg (m : i2c_msg) : Prop :=
  0 <= addr m < 2 ^ 16 /\ 0 <= len m < 2 ^ 16 /\ Z.of_nat (length (buf m)) = len m /\ Forall is_byte (buf m).
Definition same_shape (m m' : i2c_msg) : Prop :=
  addr m' = addr m /\ flags m' = flags m /\ len m' = len m /\ (is_read m = false -> buf m' = buf m).

#[global] Instance same_shape_preorder : PreOrder same_shape.
Proof.
  split; [by intros m|]. intros m1 m2 m3 (A1 & B1 & C1 & D1) (A2 & B2 & C2 & D2).
  repeat split; [congruence..|]. intros E. rewrite D2, D1; [done..|]. unfold is_read in *. by rewrite B1.
Qed.

Lemma u16_range x : 0 <= u16 x < 2 ^ 16.
Proof. apply Z.mod_pos_bound. lia. Qed.

Lemma u8_byte x : is_byte (u8 x).
Proof. unfold is_byte, u8. apply Z.mod_pos_bound. lia. Qed.

Section Trace.
Context {H : Type} {Hw : I2cHw H}.
Implicit Types (w : world H) (dev : mxc_i2c_device) (m : i2c_msg).

(** ** Results of code that only accesses registers *)

Definition adds (P : ev -> Prop) {A} (m : M (world H) A) (R : A -> Prop) : Prop :=
  forall w, wp m (fun a w' => (exists l, log w' = log w ++ l /\ Forall P l) /\ R a) w.

Abbreviation acc := (adds reg_access).

Lemma adds_bind P {A B} (m : M (world H) A) (k : A -> M (world H) B) R Q :
  adds P m R -> (forall a, R a -> adds P (k a) Q) -> adds P (m ≫= k) Q.
Proof.
  intros Hm Hk w. apply wp_bind. eapply wp_mono; [apply Hm|]. intros a w1 [(l1 & E1 & F1) Ha].
  eapply wp_mono; [by apply Hk|]. intros b w2 [(l2 & E2 & F2) Hb]. split; [|done].
  exists (l1 ++ l2). split; [by rewrite E2, E1, app_assoc|by apply Forall_app].
Qed.

Lemma adds_silent P {A} (m : M (world H) A) (R : A -> Prop) :
  (forall w, wp m (fun a w' => log w' = log w /\ R a) w) -> adds P m R.
Proof.
  intros Hm w. eapply wp_mono; [apply Hm|]. intros a w' [E Ha]. split; [|done]. exists [].
  by rewrite E, app_nil_r.
Qed.

Lemma adds_ret P {A} (a : A) (R : A -> Prop) : R a -> adds P (mret a) R.
Proof. intros Ha. by apply adds_silent. Qed.

Lemma adds_emit (P : ev -> Prop) e : P e -> adds P (emit e) (fun _ => True).
Proof. intros He w. unfold wp, emit, modify. simpl. split; [|done]. exists [e]. by repeat constructor. Qed.

Lemma adds_mono (P P' : ev -> Prop) {A} (m : M (world H) A) (R R' : A -> Prop) :
  (forall e, P e -> P' e) -> (forall a, R a -> R' a) -> adds P m R -> adds P' m R'.
Proof.
  intros HP HR Hm w. eapply wp_mono; [apply Hm|]. intros a w' [(l & E & F) Ha]. split; [|by apply HR].
  exists l. split; [done|]. by eapply Forall_impl; [exact F|].
Qed.

Lemma acc_mild {A} (m : M (world H) A) R : adds mild m R -> acc m R.
Proof. apply adds_mono; [by intros []|done]. Qed.

Lemma adds_note_done P b : adds P (note_done b) (fun _ => True).
Proof. by apply adds_silent. Qed.
Lemma adds_note_success P b : adds P (note_success b) (fun _ => True).
Proof. by apply adds_silent. Qed.
Lemma adds_gets P {A} (f : world H -> A) : adds P (gets f) (fun _ => True).
Proof. by apply adds_silent. Qed.

Lemma adds_io_readw (P : ev -> Prop) a : (forall v, P (Rd a v)) -> adds P (io_readw a) (fun _ => True).
Proof.
  intros Hv w. unfold io_readw. apply wp_bind. unfold wp at 1, get. destruct (hw_read a (hw w)) as [v h] eqn:E.
  apply wp_bind. unfold wp at 1, modify. apply wp_bind. unfold wp at 1, emit, modify. simpl. split; [|done].
  exists [Rd a (u16 v)]. by repeat constructor.
Qed.

Lemma adds_io_writew (P : ev -> Prop) v a : P (Wr a (u16 v)) -> adds P (io_writew v a) (fun _ => True).
Proof. intros Hv. eapply adds_bind; [by apply (adds_silent _ _ (fun _ => True))|]. intros _ _. by apply adds_emit. Qed.

(** Steps through a bind whose first result does not matter. *)
Ltac go := eapply (adds_bind _ _ _ (fun _ => True)); [|intros ? _].

Lemma handler_mild dev : adds mild (mxc_i2c_handler dev) (fun _ => True).
Proof.
  unfold mxc_i2c_handler. go; [by apply adds_io_readw|]. go; [by apply adds_io_readw|].
  go; [by apply adds_io_writew|]. go; [|by apply adds_ret].
  destruct (has _ _); [by apply adds_ret|]. go; [apply adds_note_success|].
  go; [|apply adds_note_done]. destruct (_ && _); [apply adds_note_success|by apply adds_ret].
Qed.

Lemma serve_mild l : adds mild (serve_irqs l) (fun _ => True).
Proof.
  induction l as [|d l IH]; [by apply adds_ret|]. cbn [serve_irqs]. by go; [apply handler_mild|].
Qed.

Lemma deliver_mild : adds mild deliver (fun _ => True).
Proof. intros w. unfold deliver. apply wp_bind. apply (serve_mild (hw_irqs (hw w))). Qed.

Lemma acc_readw a : acc (readw a) (fun _ => True).
Proof.
  unfold readw. go; [by apply adds_io_readw|]. go; [apply acc_mild, deliver_mild|by apply adds_ret].
Qed.

Lemma acc_writew v a : acc (writew v a) (fun _ => True).
Proof. unfold writew. go; [by apply adds_io_writew|apply acc_mild, deliver_mild]. Qed.

Lemma elapse_mild t : adds mild (elapse t) (fun _ => True).
Proof. unfold elapse. go; [by apply (adds_silent _ _ (fun _ => True))|apply deliver_mild]. Qed.

Lemma acc_elapse t : acc (elapse t) (fun _ => True).
Proof. apply acc_mild, elapse_mild. Qed.

Create HintDb i2c discriminated.
#[local] Hint Resolve acc_readw acc_writew acc_elapse adds_note_done adds_note_success adds_gets : i2c.

(** ** The routines *)

Lemma stop_loop_acc n dev : acc (stop_loop n dev) (fun _ => True).
Proof.
  induction n as [|n IH]; cbn [stop_loop]; (go; [auto with i2c|]); destruct (negb _); try by apply adds_ret.
  by go; [apply acc_elapse|].
Qed.

Lemma stop_acc dev : acc (mxc_i2c_stop dev) (fun _ => True).
Proof. unfold mxc_i2c_stop. go; [auto with i2c|]. go; [auto with i2c|]. apply stop_loop_acc. Qed.

Lemma wait_loop_acc n dev : acc (wait_loop n dev) (fun _ => True).
Proof.
  induction n as [|n IH]; cbn [wait_loop]; [by apply adds_ret|]. eapply adds_bind; [apply adds_gets|].
  intros d _. destruct d; [by apply adds_ret|]. go; [|exact IH].
  unfold wait_done. eapply adds_bind; [apply adds_gets|]. intros d _. destruct d; [by apply adds_ret|apply acc_elapse].
Qed.

Lemma wait_acc dev fl : acc (mxc_i2c_wait_for_tc dev fl) (fun r => r = 0 \/ r = -1).
Proof.
  unfold mxc_i2c_wait_for_tc. go; [apply wait_loop_acc|]. go; [auto with i2c|].
  case_match; [by apply adds_ret; right|]. case_match; [|by apply adds_ret; left].
  eapply adds_bind; [apply adds_gets|]. intros ok _. destruct (negb ok); apply adds_ret; tauto.
Qed.

Lemma start_loop_acc n sr dev : acc (start_loop n sr dev) (fun _ => True).
Proof.
  revert sr. induction n as [|n IH]; intros sr; cbn [start_loop]; [by apply adds_ret|].
  destruct (negb _); [|by apply adds_ret]. go; [apply acc_elapse|]. go; [auto with i2c|]. apply IH.
Qed.

Lemma start_acc dev m : acc (mxc_i2c_start dev m) (fun _ => True).
Proof.
  unfold mxc_i2c_start. do 3 (go; [auto with i2c|]). go; [apply start_loop_acc|]. do 2 (go; [auto with i2c|]).
  auto with i2c.
Qed.

Lemma repstart_acc dev m : acc (mxc_i2c_repstart dev m) (fun _ => True).
Proof. unfold mxc_i2c_repstart. do 2 (go; [auto with i2c|]). go; [apply acc_elapse|]. auto with i2c. Qed.

(** A read adds to the buffer at most the bytes to go, and all of them unless it fails. *)
Lemma readbytes_loop_acc n i dev m last got :
  0 <= i ->
  acc (readbytes_loop n i dev m last got) (fun r => exists new, snd r = got ++ new /\ Forall is_byte new /\
    ((fst r = i + Z.of_nat n /\ length new = n) \/ (fst r = -1 /\ (length new < n)%nat))).
Proof.
  revert i got. induction n as [|n IH]; intros i got Hi; cbn [readbytes_loop].
  { apply adds_ret. exists []. rewrite app_nil_r. split; [done|]. split; [done|]. left. simpl. lia. }
  eapply adds_bind; [apply wait_acc|]. intros r _. destruct (negb _).
  { go; [apply stop_acc|]. apply adds_ret. exists []. rewrite app_nil_r. simpl.
    repeat split; [done..|]. right. lia. }
  go.
  { case_match; [go; [auto with i2c|]; apply acc_writew|]. case_match; [|by apply adds_ret].
    destruct last; [apply stop_acc|by apply adds_ret]. }
  eapply adds_bind; [apply acc_readw|]. intros v _.
  eapply adds_mono; [done| |apply (IH (i + 1)); lia].
  intros x (new & -> & Fb & C). exists (u8 v :: new). rewrite <- app_assoc. split; [done|].
  split; [by constructor; [apply u8_byte|]|]. simpl. destruct C as [[-> ->]|[-> C]]; [left|right]; lia.
Qed.

Lemma readbytes_acc dev m last ac :
  wf_msg m -> is_read m = true ->
  acc (mxc_i2c_readbytes dev m last ac)
    (fun r => (fst r = -1 \/ fst r = len m) /\ wf_msg (snd r) /\ same_shape m (snd r)).
Proof.
  intros (Ha & Hl & Hb & Hf) Hrd. unfold mxc_i2c_readbytes. go; [auto with i2c|]. cbv zeta. go; [auto with i2c|].
  go. { destruct ac; [go; [auto with i2c|]|]; by apply adds_ret. }
  eapply adds_bind; [by apply readbytes_loop_acc|]. intros [r got] (new & E & Fb & C). cbn [fst snd app] in *. subst got.
  apply adds_ret. cbn [fst snd]. split; [destruct C as [[C _]|[C _]]; lia|]. split; [|].
  - split; [done|]. split; [done|]. cbn [buf len set_buf]. split.
    + rewrite length_app, length_drop. lia.
    + apply Forall_app. split; [done|]. by apply Forall_drop.
  - repeat split; [done..|]. congruence.
Qed.

Lemma writebytes_loop_acc n i dev m :
  0 <= i -> i + Z.of_nat n = Z.of_nat (length (buf m)) ->
  acc (writebytes_loop n i dev m) (fun r => r = -1 \/ r = i + Z.of_nat n).
Proof.
  revert i. induction n as [|n IH]; intros i Hi Hn; cbn [writebytes_loop]; [apply adds_ret; lia|].
  destruct (lookup_lt_is_Some_2 (buf m) (Z.to_nat i)) as [b ->]; [lia|].
  go; [by apply (adds_ret _ _ (fun _ => True))|]. go; [auto with i2c|].
  eapply adds_bind; [apply wait_acc|]. intros r _. destruct (negb _).
  { go; [apply stop_acc|]. apply adds_ret. by left. }
  eapply adds_mono; [done| |apply (IH (i + 1)); lia]. intros x. cbv beta. lia.
Qed.

Lemma writebytes_acc dev m last :
  wf_msg m -> acc (mxc_i2c_writebytes dev m last) (fun r => r = -1 \/ r = len m).
Proof.
  intros (Ha & Hl & Hb & Hf). unfold mxc_i2c_writebytes. go; [auto with i2c|]. go; [auto with i2c|].
  eapply adds_bind; [apply writebytes_loop_acc; lia|]. intros r Hr. cbv beta in Hr.
  destruct (Z.ltb_spec r 0); [apply adds_ret; cbv beta; lia|].
  go; [destruct last; [apply stop_acc|by apply adds_ret]|]. apply adds_ret. cbv beta. lia.
Qed.

Lemma data_cycle_acc dev m last ac :
  wf_msg m ->
  acc (data_cycle dev m last ac)
    (fun r => (fst r = -1 \/ fst r = len m) /\ wf_msg (snd r) /\ same_shape m (snd r)).
Proof.
  intros Hm. unfold data_cycle. destruct (has _ _) eqn:E; [by apply readbytes_acc|].
  eapply adds_bind; [by apply writebytes_acc|]. intros r Hr. apply adds_ret. split; [done|]. split; [done|reflexivity].
Qed.

(** ** A transfer *)

(** What the driver does at the end: it clears the control register, and its clock is
    disabled after the interrupts that came in with that. *)
Definition closing dev (l : list ev) : Prop :=
  exists tail, l = Wr (membase dev + MXC_I2CR) 0 :: tail ++ [ClkOff (clk dev)] /\ Forall mild tail.

(** Accesses, and then [closing]. *)
Definition closed dev (l : list ev) : Prop := exists l1 l2, l = l1 ++ l2 /\ Forall reg_access l1 /\ closing dev l2.

Lemma closed_app dev l l' : Forall reg_access l -> closed dev l' -> closed dev (l ++ l').
Proof.
  intros F (l1 & l2 & -> & F1 & C). exists (l ++ l1), l2. rewrite app_assoc. split; [done|].
  split; [by apply Forall_app|done].
Qed.

Lemma module_dis_closes dev w :
  wp (mxc_i2c_module_dis dev) (fun _ w' => exists l, log w' = log w ++ l /\ closing dev l) w.
Proof.
  unfold mxc_i2c_module_dis, writew. apply wp_bind, wp_bind, wp_bind, wp_modify. unfold wp at 1, emit, modify.
  eapply wp_mono; [apply deliver_mild|]. intros _ w1 [(t & E & F) _]. unfold wp. simpl in *.
  exists (Wr (membase dev + MXC_I2CR) (u16 0) :: t ++ [ClkOff (clk dev)]). rewrite E, <- !app_assoc.
  split; [done|]. by exists t.
Qed.

(** A run that only accesses registers, or gives up after [closing]: [stay] tells which. *)
Definition ends {A} dev (m : M (world H) A) (stay : A -> bool) (R : A -> Prop) : Prop :=
  forall w, wp m (fun a w' => (exists l, log w' = log w ++ l /\
    if stay a then Forall reg_access l else closed dev l) /\ R a) w.

Lemma ends_ret {A} dev (a : A) stay (R : A -> Prop) : stay a = true -> R a -> ends dev (mret a) stay R.
Proof. intros E Ha w. apply wp_ret. split; [|done]. exists []. by rewrite app_nil_r, E. Qed.

Lemma ends_bind {A B} dev (m : M (world H) A) (k : A -> M (world H) B) R stay Q :
  acc m R -> (forall a, R a -> ends dev (k a) stay Q) -> ends dev (m ≫= k) stay Q.
Proof.
  intros Hm Hk w. apply wp_bind. eapply wp_mono; [apply Hm|]. intros a w1 [(l1 & E1 & F1) Ha].
  eapply wp_mono; [by apply Hk|]. intros b w2 [(l2 & E2 & F2) Hb]. split; [|done].
  exists (l1 ++ l2). split; [by rewrite E2, E1, app_assoc|].
  destruct (stay b); [by apply Forall_app|by apply closed_app].
Qed.

Lemma ends_bind_stay {A B} dev (m : M (world H) A) (k : A -> M (world H) B) stay (R : A -> Prop) stay' Q :
  ends dev m stay R ->
  (forall a, R a -> stay a = true -> ends dev (k a) stay' Q) ->
  (forall a w, R a -> stay a = false -> wp (k a) (fun b w' => w' = w /\ stay' b = false /\ Q b) w) ->
  ends dev (m ≫= k) stay' Q.
Proof.
  intros Hm Hk Hf w. apply wp_bind. eapply wp_mono; [apply Hm|]. intros a w1 [(l1 & E1 & F1) Ha].
  destruct (stay a) eqn:Es.
  - eapply wp_mono; [by apply Hk|]. intros b w2 [(l2 & E2 & F2) Hb]. split; [|done].
    exists (l1 ++ l2). split; [by rewrite E2, E1, app_assoc|].
    destruct (stay' b); [by apply Forall_app|by apply closed_app].
  - eapply wp_mono; [by apply Hf|]. intros b w2 (-> & Eb & Hb). split; [|done]. exists l1. by rewrite Eb.
Qed.

Lemma addr_wait_ends dev m : ends dev (addr_wait dev m) is_Some_b (fun _ => True).
Proof.
  unfold addr_wait. eapply ends_bind; [apply wait_acc|]. intros r _. destruct (negb _).
  - eapply ends_bind; [apply stop_acc|]. intros _ _ w. apply wp_bind.
    eapply wp_mono; [apply module_dis_closes|]. intros _ w' (l & E & C). apply wp_ret. split; [|done].
    exists l. split; [done|]. by exists [], l.
  - by apply ends_ret.
Qed.

Lemma addr_cycle_ends dev prev m : ends dev (addr_cycle dev prev m) is_Some_b (fun _ => True).
Proof.
  unfold addr_cycle. destruct prev as [p|].
  - destruct (needs_restart p m).
    + eapply ends_bind; [apply repstart_acc|]. intros _ _. apply addr_wait_ends.
    + by apply ends_ret.
  - eapply ends_bind; [apply start_acc|]. intros _ _. apply addr_wait_ends.
Qed.

(** The messages a transfer returns, and its count: all of them, or the number of the
    message that failed. *)
Definition kept (msgs msgs' : list i2c_msg) : Prop := Forall wf_msg msgs' /\ Forall2 same_shape msgs msgs'.

Lemma kept_refl msgs : Forall wf_msg msgs -> kept msgs msgs.
Proof. intros F. split; [done|]. by apply Forall_Forall2_diag, Forall_true. Qed.

Lemma kept_cons m m' msgs msgs' : wf_msg m' -> same_shape m m' -> kept msgs msgs' -> kept (m :: msgs) (m' :: msgs').
Proof. intros Hm Hs [F S]. split; by constructor. Qed.

Lemma xfer_loop_ends dev i prev msgs :
  Forall wf_msg msgs ->
  ends dev (xfer_loop dev i prev msgs) (fun r => is_Some_b (fst r))
    (fun r => kept msgs (snd r) /\ forall n, fst r = Some n -> i <= n <= i + Z.of_nat (length msgs)).
Proof.
  revert i prev. induction msgs as [|m msgs IH]; intros i prev F; cbn [xfer_loop].
  { apply ends_ret; [done|]. split; [by apply kept_refl|].
    intros n [= <-]. simpl. lia. }
  apply Forall_cons in F as F'. destruct F' as [Hm Hms].
  eapply ends_bind_stay; [apply addr_cycle_ends| |].
  - intros [ac|] _ E; [|done]. eapply ends_bind; [by apply data_cycle_acc|].
    intros [r m'] (Hr & Hm1 & Hs). cbn [fst snd]. destruct (Z.ltb_spec r 0).
    + apply ends_ret; [done|]. split; [by apply kept_cons; [..|apply kept_refl]|]. intros n [= <-]. simpl. lia.
    + eapply ends_bind_stay; [by apply IH| |].
      * intros [q ms] [K C] E1. cbn [fst snd] in *. apply ends_ret; [done|].
        split; [by apply kept_cons|]. cbn [fst]. intros n En. specialize (C n En). cbn [length]. lia.
      * intros [q ms] w [K C] E1. apply wp_ret. cbn [fst snd] in *. split; [done|]. split; [done|].
        split; [by apply kept_cons|]. cbn [fst]. intros n ->. done.
  - intros [ac|] w _ E; [done|]. apply wp_ret. split; [done|]. split; [done|]. by split; [apply kept_refl|].
Qed.

Lemma module_en_acc dev w :
  wp (mxc_i2c_module_en dev) (fun _ w' => exists l, log w' = log w ++ ClkOn (clk dev) :: l /\ Forall reg_access l) w.
Proof.
  unfold mxc_i2c_module_en. apply wp_bind. unfold wp at 1, emit, modify.
  assert (forall v1 a1 v2 a2 v3 a3 v4 a4,
    acc (writew v1 a1;; writew v2 a2;; writew v3 a3;; writew v4 a4) (fun _ => True)) as Hacc.
  { intros. do 3 (go; [auto with i2c|]). auto with i2c. }
  eapply wp_mono; [apply Hacc|]. intros _ w' [(l & E & F) _]. exists l. split; [|done].
  rewrite E. simpl. by rewrite <- app_assoc.
Qed.

(** A transfer on a device that is not suspended: the log, the messages and the count. *)
Lemma xfer_run dev msgs w :
  low_power dev = false -> msgs <> [] -> Forall wf_msg msgs ->
  wp (mxc_i2c_xfer dev msgs) (fun r w' =>
    (exists l, log w' = log w ++ ClkOn (clk dev) :: l /\ closed dev l) /\
    kept msgs (snd r) /\ (fst r = - EREMOTEIO \/ -1 <= fst r < Z.of_nat (length msgs))) w.
Proof.
  intros Hlp Hne F. unfold mxc_i2c_xfer. rewrite Hlp. destruct (Z.ltb_spec (Z.of_nat (length msgs)) 1) as [Hl|Hl].
  { destruct msgs; [done|simpl in Hl; lia]. }
  apply wp_bind. eapply wp_mono; [apply module_en_acc|]. intros _ w1 (l1 & E1 & F1).
  apply wp_bind. eapply wp_mono; [apply acc_readw|]. intros sr w2 [(l2 & E2 & F2) _]. destruct (has _ _).
  - apply wp_bind. eapply wp_mono; [apply module_dis_closes|]. intros _ w3 (l3 & E3 & C). apply wp_ret.
    split; [|split; [by apply kept_refl|by left]]. exists (l1 ++ l2 ++ l3).
    split; [by rewrite E3, E2, E1, <- !app_assoc|]. do 2 (apply closed_app; [done|]). by exists [], l3.
  - apply wp_bind, wp_modify, wp_bind, wp_modify, wp_bind.
    eapply wp_mono; [by apply xfer_loop_ends|]. intros [[n|] ms] w3 [(l3 & E3 & C) [K N]]; cbn [fst snd is_Some_b] in *.
    + apply wp_bind. eapply wp_mono; [apply module_dis_closes|]. intros _ w4 (l4 & E4 & C4). apply wp_ret.
      specialize (N n eq_refl). split; [|split; [done|right; simpl; lia]]. exists (l1 ++ l2 ++ l3 ++ l4).
      split; [rewrite E4, E3; simpl; by rewrite E2, E1, <- !app_assoc|]. do 3 (apply closed_app; [done|]). by exists [], l4.
    + apply wp_ret. split; [|split; [done|by left]]. exists (l1 ++ l2 ++ l3).
      split; [rewrite E3; simpl; by rewrite E2, E1, <- !app_assoc|]. do 2 (apply closed_app; [done|]). done.
Qed.

End Trace.
