(* ===== verification/I2cBus.v ===== *)
(** * What the accesses of a transfer do on the bus

    [decode] reads the driver's accesses as the controller does: setting [MSTA] makes a
    start, clearing it a stop, [RSTA] a repeated start; a byte written to the data register
    in transmit mode is sent, a read of it in receive mode fetches the byte received and
    starts the next one, which is acknowledged unless [TXAK] is set.  [spec_bus] is the
    transaction the messages ask for.  The lemmas follow [decode] through the driver's
    routines, on any controller that keeps its control register ([ControlKept]). *)

From stdpp Require Import base list sets.
From Stdlib Require Import ZArith Lia.
From S2P Require Import Prelude I2c I2cTrace.

(** ** The bus *)

Inductive bus_ev : Type :=
| Start
| Restart
| Tx (b : Z)
| Rx (nack : bool)
| Stop.

(** The control register as last written, what happened on the bus, and the bytes read
    from the data register. *)
Record ctl : Type := mkCtl { c_cr : Z; c_bus : list bus_ev; c_data : list Z }.

Definition cr_effect (old new : Z) : list bus_ev :=
  if has new MXC_I2CR_MSTA then
    if has old MXC_I2CR_MSTA then (if has new MXC_I2CR_RSTA then [Restart] else []) else [Start]
  else if has old MXC_I2CR_MSTA then [Stop] else [].

Definition tx_effect (cr v : Z) : list bus_ev :=
  if has cr MXC_I2CR_MSTA && has cr MXC_I2CR_MTX then [Tx (u8 v)] else [].

Definition rx_effect (cr : Z) : list bus_ev :=
  if has cr MXC_I2CR_MSTA && negb (has cr MXC_I2CR_MTX) then [Rx (has cr MXC_I2CR_TXAK)] else [].

Definition ctl_step (b : Z) (c : ctl) (e : ev) : ctl :=
  match e with
  | Wr a v =>
      if a =? b + MXC_I2CR then mkCtl v (c_bus c ++ cr_effect (c_cr c) v) (c_data c)
      else if a =? b + MXC_I2DR then mkCtl (c_cr c) (c_bus c ++ tx_effect (c_cr c) v) (c_data c)
      else c
  | Rd a v =>
      if a =? b + MXC_I2DR then mkCtl (c_cr c) (c_bus c ++ rx_effect (c_cr c)) (c_data c ++ [u8 v]) else c
  | _ => c
  end.

(** The controller at [b], disabled at first. *)
Definition decode (b : Z) (l : list ev) : ctl := foldl (ctl_step b) (mkCtl 0 [] []) l.

Lemma decode_snoc b l e : decode b (l ++ [e]) = ctl_step b (decode b l) e.
Proof. unfold decode. by rewrite foldl_app. Qed.

(** ** The transaction that messages ask for *)

Definition address_byte (m : i2c_msg) : Z := 2 * addr m + (if is_read m then 1 else 0).

(** [n] bytes are received, all but the last acknowledged. *)
Fixpoint rxs (n : nat) : list bus_ev :=
  match n with
  | O => []
  | S k => Rx (k =? 0)%nat :: rxs k
  end.

Definition payload (m : i2c_msg) : list bus_ev :=
  if is_read m then rxs (Z.to_nat (len m)) else Tx <$> buf m.

Definition heading (prev : option i2c_msg) (m : i2c_msg) : list bus_ev :=
  match prev with
  | None => [Start; Tx (address_byte m)]
  | Some p => if needs_restart p m then [Restart; Tx (address_byte m)] else []
  end.

Fixpoint spec_bus (prev : option i2c_msg) (msgs : list i2c_msg) : list bus_ev :=
  match msgs with
  | [] => [Stop]
  | m :: rest => heading prev m ++ payload m ++ spec_bus (Some m) rest
  end.

(** Writes, and then at most one read of one byte or more. *)
Fixpoint supported (msgs : list i2c_msg) : bool :=
  match msgs with
  | [] => true
  | m :: rest => if is_read m then (1 <=? len m) && bool_decide (rest = []) else supported rest
  end.

(** The bytes the messages received. *)
Definition received (msgs : list i2c_msg) : list Z := concat (buf <$> filter (fun m => is_read m = true) msgs).

Lemma received_read m msgs : is_read m = true -> received (m :: msgs) = buf m ++ received msgs.
Proof. intros E. unfold received. by rewrite filter_cons_True. Qed.

Lemma received_write m msgs : is_read m = false -> received (m :: msgs) = received msgs.
Proof. intros E. unfold received. rewrite filter_cons_False; [done|congruence]. Qed.

(** ** A controller that keeps its control register *)

(** Every bit of the register at [b] reads as it was last written, but for the repeat
    start, which reads as zero; the interrupts come from this controller or from one
    whose registers are elsewhere. *)
Class ControlKept {H : Type} (Hw : I2cHw H) (b : Z) : Type := {
  cr_is : Z -> H -> Prop;
  read_cr c h : cr_is c h -> u16 (fst (hw_read (b + MXC_I2CR) h)) = clear c MXC_I2CR_RSTA;
  read_keeps a c h : cr_is c h -> cr_is c (snd (hw_read a h));
  write_cr v h : 0 <= v < 2 ^ 16 -> cr_is v (hw_write (b + MXC_I2CR) v h);
  write_keeps a v c h : a <> b + MXC_I2CR -> cr_is c h -> cr_is c (hw_write a v h);
  elapse_keeps t c h : cr_is c h -> cr_is c (hw_elapse t h);
  irqs_apart d h : d ∈ hw_irqs h -> membase d = b \/ 4096 <= Z.abs (membase d - b);
}.

Section Bus.
Context {H : Type} {Hw : I2cHw H} (dev : mxc_i2c_device) {Kept : ControlKept Hw (membase dev)}.
Context (l0 : list ev).
Implicit Types (w : world H) (m : i2c_msg) (B : list bus_ev) (D : list Z).

Abbreviation b := (membase dev).

(** Since the log was [l0]: the control register holds [c], the bus saw [B], the data
    register gave [D]. *)
Definition at_ (c : Z) (B : list bus_ev) (D : list Z) (w : world H) : Prop :=
  cr_is c (hw w) /\ exists l, log w = l0 ++ l /\ decode b l = mkCtl c B D.

Lemma at_log c B D w w' e :
  at_ c B D w -> cr_is (c_cr (ctl_step b (mkCtl c B D) e)) (hw w') -> log w' = log w ++ [e] ->
  let c' := ctl_step b (mkCtl c B D) e in at_ (c_cr c') (c_bus c') (c_data c') w'.
Proof.
  intros (_ & l & E & Ed) Hc E' c'. split; [done|]. exists (l ++ [e]). rewrite E', E, <- app_assoc. split; [done|].
  rewrite decode_snoc, Ed. fold c'. by destruct c'.
Qed.

Lemma at_io_readw a c B D w :
  at_ c B D w ->
  wp (io_readw a) (fun v w' => v = u16 (fst (hw_read a (hw w))) /\
    if a =? b + MXC_I2DR then at_ c (B ++ rx_effect c) (D ++ [u8 v]) w' else at_ c B D w') w.
Proof.
  intros Hat. unfold io_readw. apply wp_bind. unfold wp at 1, get. destruct (hw_read a (hw w)) as [v h] eqn:E.
  apply wp_bind, wp_modify, wp_bind, wp_modify, wp_ret. split; [done|].
  pose proof (at_log c B D w (mkWorld h (transfer_done w) (tx_success w) (log w ++ [Rd a (u16 v)])) (Rd a (u16 v)) Hat)
    as L. cbn [ctl_step c_cr c_bus c_data hw log] in L.
  assert (cr_is c h) as Hc by (pose proof (read_keeps a c (hw w) (proj1 Hat)) as R; by rewrite E in R).
  destruct (a =? b + MXC_I2DR); by apply L.
Qed.

Lemma at_io_writew v a c B D w :
  at_ c B D w ->
  wp (io_writew v a) (fun _ w' =>
    if a =? b + MXC_I2CR then at_ (u16 v) (B ++ cr_effect c (u16 v)) D w'
    else if a =? b + MXC_I2DR then at_ c (B ++ tx_effect c (u16 v)) D w' else at_ c B D w') w.
Proof.
  intros Hat. unfold io_writew. apply wp_bind, wp_modify, wp_modify.
  pose proof (at_log c B D w (mkWorld (hw_write a (u16 v) (hw w)) (transfer_done w) (tx_success w)
    (log w ++ [Wr a (u16 v)])) (Wr a (u16 v)) Hat) as L. cbn [ctl_step c_cr c_bus c_data hw log] in L.
  destruct (Z.eqb_spec a (b + MXC_I2CR)) as [->|Hne]; [apply L; [apply write_cr, u16_range|done]|].
  pose proof (write_keeps a (u16 v) c (hw w) Hne (proj1 Hat)). destruct (a =? b + MXC_I2DR); by apply L.
Qed.

(** Neither variable of the driver matters. *)
Lemma at_flags c B D w w' : hw w' = hw w -> log w' = log w -> at_ c B D w -> at_ c B D w'.
Proof. intros Eh El. unfold at_. by rewrite Eh, El. Qed.

Lemma at_handler d c B D w :
  membase d = b \/ 4096 <= Z.abs (membase d - b) ->
  at_ c B D w -> wp (mxc_i2c_handler d) (fun _ w' => at_ c B D w') w.
Proof.
  intros Hd Hat. unfold mxc_i2c_handler.
  assert (forall o1 o2, (o1 = MXC_I2SR \/ o1 = MXC_I2CR) -> (o2 = MXC_I2CR \/ o2 = MXC_I2DR) ->
    (o1 = MXC_I2CR -> o2 = MXC_I2DR) -> (membase d + o1 =? b + o2) = false) as Hne.
  { intros o1 o2 H1 H2 H3. apply Z.eqb_neq. unfold MXC_I2SR, MXC_I2CR, MXC_I2DR in *. lia. }
  apply wp_bind. eapply wp_mono; [by apply at_io_readw|]. intros sr w1 [_ H1].
  rewrite Hne in H1 by (unfold MXC_I2SR, MXC_I2CR, MXC_I2DR; lia).
  apply wp_bind. eapply wp_mono; [by apply at_io_readw|]. intros cr w2 [_ H2].
  rewrite Hne in H2 by (unfold MXC_I2SR, MXC_I2CR, MXC_I2DR; lia).
  apply wp_bind. eapply wp_mono; [by apply at_io_writew|]. intros ? w3 H3.
  rewrite !Hne in H3 by (unfold MXC_I2SR, MXC_I2CR, MXC_I2DR; lia).
  apply wp_bind. destruct (has sr _); [by apply wp_ret, wp_ret|]. apply wp_bind, wp_modify, wp_bind.
  destruct (_ && _); [apply wp_modify|apply wp_ret]; apply wp_modify, wp_ret; by eapply at_flags; [..|exact H3].
Qed.

Lemma at_serve l c B D w :
  (forall d, d ∈ l -> membase d = b \/ 4096 <= Z.abs (membase d - b)) ->
  at_ c B D w -> wp (serve_irqs l) (fun _ w' => at_ c B D w') w.
Proof.
  revert w. induction l as [|d l IH]; intros w Hl Hat; [done|]. cbn [serve_irqs]. apply wp_bind.
  eapply wp_mono; [apply at_handler; [apply Hl; set_solver|done]|]. intros ? w' H'. apply IH; [set_solver|done].
Qed.

Lemma at_deliver c B D w : at_ c B D w -> wp deliver (fun _ w' => at_ c B D w') w.
Proof. intros Hat. unfold deliver. apply wp_bind. apply at_serve; [|done]. intros d. apply irqs_apart. Qed.

(** ** Accesses *)

Lemma at_readw_cr c B D w :
  at_ c B D w -> wp (readw (b + MXC_I2CR)) (fun v w' => v = clear c MXC_I2CR_RSTA /\ at_ c B D w') w.
Proof.
  intros Hat. unfold readw. apply wp_bind. eapply wp_mono; [by apply at_io_readw|]. intros v w1 [-> H1].
  rewrite (proj2 (Z.eqb_neq _ _)) in H1 by (unfold MXC_I2CR, MXC_I2DR; lia).
  apply wp_bind. eapply wp_mono; [by apply at_deliver|]. intros ? w2 H2. apply wp_ret. split; [|done].
  apply read_cr, Hat.
Qed.

Lemma at_readw_sr c B D w : at_ c B D w -> wp (readw (b + MXC_I2SR)) (fun _ w' => at_ c B D w') w.
Proof.
  intros Hat. unfold readw. apply wp_bind. eapply wp_mono; [by apply at_io_readw|]. intros v w1 [-> H1].
  rewrite (proj2 (Z.eqb_neq _ _)) in H1 by (unfold MXC_I2SR, MXC_I2DR; lia).
  apply wp_bind. by eapply wp_mono; [apply at_deliver|].
Qed.

Lemma at_readw_dr c B D w :
  at_ c B D w -> wp (readw (b + MXC_I2DR)) (fun v w' => at_ c (B ++ rx_effect c) (D ++ [u8 v]) w') w.
Proof.
  intros Hat. unfold readw. apply wp_bind. eapply wp_mono; [by apply at_io_readw|]. intros v w1 [_ H1].
  rewrite Z.eqb_refl in H1. apply wp_bind. by eapply wp_mono; [apply at_deliver|].
Qed.

Lemma at_writew_cr v c B D w :
  0 <= v < 2 ^ 16 -> at_ c B D w -> wp (writew v (b + MXC_I2CR)) (fun _ w' => at_ v (B ++ cr_effect c v) D w') w.
Proof.
  intros Hv Hat. unfold writew. apply wp_bind. eapply wp_mono; [by apply at_io_writew|]. intros ? w1 H1.
  rewrite Z.eqb_refl in H1. unfold u16 in H1. rewrite Z.mod_small in H1 by done. by apply at_deliver.
Qed.

Lemma at_writew_dr v c B D w :
  at_ c B D w -> wp (writew v (b + MXC_I2DR)) (fun _ w' => at_ c (B ++ tx_effect c (u16 v)) D w') w.
Proof.
  intros Hat. unfold writew. apply wp_bind. eapply wp_mono; [by apply at_io_writew|]. intros ? w1 H1.
  rewrite (proj2 (Z.eqb_neq _ _)), Z.eqb_refl in H1 by (unfold MXC_I2CR, MXC_I2DR; lia). by apply at_deliver.
Qed.

Lemma at_writew_other v o c B D w :
  o = MXC_IFDR \/ o = MXC_I2SR -> at_ c B D w -> wp (writew v (b + o)) (fun _ w' => at_ c B D w') w.
Proof.
  intros Ho Hat. unfold writew. apply wp_bind. eapply wp_mono; [by apply at_io_writew|]. intros ? w1 H1.
  rewrite !(proj2 (Z.eqb_neq _ _)) in H1 by (unfold MXC_I2CR, MXC_I2DR, MXC_IFDR, MXC_I2SR in *; lia).
  by apply at_deliver.
Qed.

Lemma at_elapse t c B D w : at_ c B D w -> wp (elapse t) (fun _ w' => at_ c B D w') w.
Proof.
  intros [Hc Hl]. unfold elapse. apply wp_bind, wp_modify. apply at_deliver. split; [by apply elapse_keeps|done].
Qed.

(** ** The routines *)

(** Goes through one call, by a lemma that keeps [at_]. *)
Ltac via L := apply wp_bind; eapply wp_mono; [eapply L; eassumption|cbv beta].

(** A write to the control register, of a value whose range [tac] shows. *)
Ltac via_cr tac := apply wp_bind; eapply wp_mono; [eapply at_writew_cr; [tac|eassumption]|cbv beta].

Lemma at_wait_loop n c B D w : at_ c B D w -> wp (wait_loop n dev) (fun _ w' => at_ c B D w') w.
Proof.
  revert w. induction n as [|n IH]; intros w Hat; cbn [wait_loop]; [done|].
  apply wp_bind, wp_gets. destruct (transfer_done w) eqn:E; [done|]. apply wp_bind. unfold wait_done.
  apply wp_bind, wp_gets. rewrite E. eapply wp_mono; [by apply at_elapse|]. intros ? w'. apply IH.
Qed.

Lemma at_wait fl c B D w : at_ c B D w -> wp (mxc_i2c_wait_for_tc dev fl) (fun _ w' => at_ c B D w') w.
Proof.
  intros Hat. unfold mxc_i2c_wait_for_tc. via at_wait_loop. intros r w1 H1. apply wp_bind, wp_modify.
  assert (at_ c B D (mkWorld (hw w1) false (tx_success w1) (log w1))) as H2 by (by eapply at_flags; [..|exact H1]).
  destruct (r <=? 0); [done|]. destruct (negb _); [|done]. apply wp_bind, wp_gets. by destruct (negb _).
Qed.

Lemma at_stop_loop n c B D w : at_ c B D w -> wp (stop_loop n dev) (fun _ w' => at_ c B D w') w.
Proof.
  revert w. induction n as [|n IH]; intros w Hat; cbn [stop_loop]; via at_readw_sr; intros sr w1 H1;
    destruct (negb _); try done. via at_elapse. intros ? w2 H2. by apply IH.
Qed.

Lemma at_stop c B D w :
  0 <= c < 2 ^ 16 -> at_ c B D w ->
  wp (mxc_i2c_stop dev) (fun _ w' =>
    let c' := clear (clear c MXC_I2CR_RSTA) (setb MXC_I2CR_MSTA MXC_I2CR_MTX) in at_ c' (B ++ cr_effect c c') D w') w.
Proof.
  intros Hc Hat. unfold mxc_i2c_stop. via at_readw_cr. intros cr w1 [-> H1]. via_cr ltac:(by do 2 (apply clear_range; [lia|])).
  intros ? w2 H2. by apply at_stop_loop.
Qed.

Lemma at_start_loop n sr c B D w : at_ c B D w -> wp (start_loop n sr dev) (fun _ w' => at_ c B D w') w.
Proof.
  revert sr w. induction n as [|n IH]; intros sr w Hat; cbn [start_loop]; [done|]. destruct (negb _); [|done].
  via at_elapse. intros ? w1 H1. via at_readw_sr. intros sr' w2 H2. by apply IH.
Qed.

(** The control register of the enabled module, idle and in a transfer. *)
Definition CR_IDLE : Z := 0xC0.
Definition CR_TX : Z := 0xF0.

Lemma addr_trans_byte m : 0 <= addr m < 128 -> u8 (u16 (addr_trans m)) = address_byte m.
Proof.
  intros Ha. unfold addr_trans, address_byte, is_read. rewrite Z.shiftl_mul_pow2 by lia.
  change (2 ^ 1) with 2. rewrite u32_small by lia.
  assert (setb (addr m * 2) 1 = 2 * addr m + 1) as Es.
  { rewrite (Z.mul_comm (addr m)). apply Z.bits_inj'. intros i Hi. unfold setb. rewrite Z.lor_spec.
    destruct (Z.eq_dec i 0) as [->|Hne]; [by rewrite Z.testbit_odd_0, orb_true_r|].
    rewrite (testbit_above 1 1 i), orb_false_r by lia.
    destruct (Z.succ_pred i). rewrite Z.testbit_even_succ by lia. by rewrite Z.testbit_odd_succ by lia. }
  destruct (has _ _); [rewrite Es|]; unfold u8, u16; rewrite (Z.mod_small _ (2 ^ 16)) by lia; rewrite Z.mod_small; lia.
Qed.

Lemma at_write_addr m c B D w :
  0 <= addr m < 128 -> has c MXC_I2CR_MSTA = true -> has c MXC_I2CR_MTX = true -> at_ c B D w ->
  wp (writew (addr_trans m) (b + MXC_I2DR)) (fun _ w' => at_ c (B ++ [Tx (address_byte m)]) D w') w.
Proof.
  intros Ha Hs Ht Hat. eapply wp_mono; [by apply at_writew_dr|]. intros ? w'. unfold tx_effect.
  by rewrite Hs, Ht, addr_trans_byte.
Qed.

Lemma at_start m B D w :
  0 <= addr m < 128 -> at_ CR_IDLE B D w ->
  wp (mxc_i2c_start dev m) (fun _ w' => at_ CR_TX (B ++ [Start; Tx (address_byte m)]) D w') w.
Proof.
  intros Ha Hat. unfold mxc_i2c_start. via at_readw_cr. intros cr w1 [-> H1].
  via_cr ltac:(done). intros ? w2 H2.
  via at_readw_sr. intros sr w3 H3. via at_start_loop. intros ? w4 H4. via at_readw_cr. intros cr' w5 [-> H5].
  via_cr ltac:(done). intros ? w6 H6.
  eapply wp_mono; [by apply (at_write_addr m CR_TX)|]. intros ? w7 H7.
  change (cr_effect _ (setb (clear CR_IDLE _) _)) with [Start] in H7.
  change (cr_effect _ CR_TX) with (@nil bus_ev) in H7. by rewrite app_nil_r, <- app_assoc in H7.
Qed.

(** Between messages the repeat start may still be in the register as written. *)
Definition CR_RST : Z := 0xF4.

Lemma at_repstart m c B D w :
  c = CR_TX \/ c = CR_RST -> 0 <= addr m < 128 -> at_ c B D w ->
  wp (mxc_i2c_repstart dev m) (fun _ w' => at_ CR_RST (B ++ [Restart; Tx (address_byte m)]) D w') w.
Proof.
  intros Hc Ha Hat. unfold mxc_i2c_repstart. via at_readw_cr. intros cr w1 [-> H1]. via_cr ltac:(by destruct Hc as [-> | ->]). intros ? w2 H2.
  via at_elapse. intros ? w3 H3.
  assert (at_ CR_RST (B ++ [Restart]) D w3) as H4 by (destruct Hc as [-> | ->]; exact H3).
  eapply wp_mono; [by apply (at_write_addr m CR_RST)|]. intros ? w7 H7. by rewrite <- app_assoc in H7.
Qed.

(** All bytes of a write are sent when none fails. *)
Lemma at_writebytes_loop n i m B D w :
  0 <= i -> (Z.to_nat i + n)%nat = length (buf m) -> Forall is_byte (buf m) -> at_ CR_TX B D w ->
  wp (writebytes_loop n i dev m) (fun r w' => 0 <= r -> at_ CR_TX (B ++ (Tx <$> drop (Z.to_nat i) (buf m))) D w') w.
Proof.
  revert i B w. induction n as [|n IH]; intros i B w Hi Hn Fb Hat; cbn [writebytes_loop].
  { apply wp_ret. intros _. rewrite drop_ge by lia. by rewrite app_nil_r. }
  destruct (lookup_lt_is_Some_2 (buf m) (Z.to_nat i)) as [x Ex]; [lia|]. rewrite Ex.
  apply wp_bind, wp_ret. via at_writew_dr. intros ? w1 H1. via at_wait. intros r w2 H2.
  destruct (negb _).
  { apply wp_bind. eapply wp_mono; [by eapply at_stop; [|exact H2]|]. intros ? w3 _. apply wp_ret. lia. }
  eapply wp_mono; [eapply (IH (i + 1)); [lia|lia|done|exact H2]|]. intros r' w3 H3 Hr. specialize (H3 Hr).
  rewrite <- app_assoc in H3. replace (Z.to_nat (i + 1)) with (S (Z.to_nat i)) in H3 by lia.
  rewrite (drop_S _ _ _ Ex). cbn [fmap list_fmap]. cbn [tx_effect has] in H3.
  assert (is_byte x) as Hx by (rewrite Forall_forall in Fb; apply Fb; by eapply list_elem_of_lookup_2).
  assert (u8 (u16 x) = x) as Eu by (unfold is_byte in Hx; unfold u8, u16; rewrite (Z.mod_small _ (2 ^ 16)) by lia; by apply Z.mod_small).
  unfold tx_effect in H3. by rewrite Eu in H3.
Qed.

Lemma at_writebytes m last c B D w :
  c = CR_TX \/ c = CR_RST -> wf_msg m -> at_ c B D w ->
  wp (mxc_i2c_writebytes dev m last) (fun r w' => 0 <= r ->
    at_ (if last then CR_IDLE else CR_TX) (B ++ (Tx <$> buf m) ++ if last then [Stop] else []) D w') w.
Proof.
  intros Hc (_ & Hl & Hb & Fb) Hat. unfold mxc_i2c_writebytes. via at_readw_cr. intros cr w1 [-> H1]. via_cr ltac:(by destruct Hc as [-> | ->]). intros ? w2 H2.
  assert (at_ CR_TX B D w2) as H3.
  { destruct Hc as [-> | ->]; cbv -[at_ app] in H2 |- *; by rewrite app_nil_r in H2. }
  apply wp_bind. eapply wp_mono; [apply at_writebytes_loop; [lia|lia|done|exact H3]|]. intros r w4 H4.
  destruct (Z.ltb_spec r 0); [apply wp_ret; lia|]. specialize (H4 ltac:(done)). rewrite drop_0 in H4. apply wp_bind.
  destruct last.
  - eapply wp_mono; [by eapply at_stop; [|exact H4]|]. intros ? w5 H5. apply wp_ret. intros _. by rewrite app_assoc.
  - apply wp_ret, wp_ret. intros _. by rewrite app_nil_r.
Qed.

(** Receive mode: acknowledging, and not. *)
Definition CR_RX : Z := 0xE0.
Definition CR_RXL : Z := 0xE8.
Definition cr_rx (n : nat) : Z := if (n =? 1)%nat then CR_RXL else CR_RX.

Lemma rx_effect_rx n : rx_effect (cr_rx n) = [Rx (n =? 1)%nat].
Proof. unfold cr_rx. by destruct (n =? 1)%nat. Qed.

(** The last message is read to its end and the bus released, when no wait fails. *)
Lemma at_readbytes_loop n i m got B D w :
  (0 < n)%nat -> i + Z.of_nat n = len m -> at_ (cr_rx n) B D w ->
  wp (readbytes_loop n i dev m true got) (fun r w' => 0 <= fst r -> exists new, snd r = got ++ new /\ length new = n /\
    at_ 0xC8 (B ++ rxs (n - 1) ++ [Stop]) (D ++ new) w') w.
Proof.
  revert i got B D w. induction n as [|n IH]; intros i got B D w Hn Hi Hat; [lia|]. cbn [readbytes_loop].
  via at_wait. intros r w1 H1. destruct (negb _).
  { apply wp_bind. eapply wp_mono; [eapply at_stop; [|exact H1]; unfold cr_rx; by destruct n as [|[]]|].
    intros ? w2 _. apply wp_ret. cbn [fst]. lia. }
  destruct n as [|n].
  - rewrite (proj2 (Z.eqb_neq i (len m - 2))), (proj2 (Z.eqb_eq i (len m - 1))) by lia.
    apply wp_bind. eapply wp_mono; [by eapply at_stop; [|exact H1]|]. cbv beta zeta. intros ? w2 H2.
    via at_readw_dr. intros v w3 H3. cbn [readbytes_loop]. apply wp_ret. intros _. exists [u8 v]. split; [done|].
    split; [done|]. cbn [fst snd rxs Nat.sub]. by rewrite app_nil_r in H3.
  - assert (forall v w', at_ (cr_rx (S n)) (B ++ [Rx (n =? 0)%nat]) (D ++ [u8 v]) w' ->
      wp (readbytes_loop (S n) (i + 1) dev m true (got ++ [u8 v])) (fun r w' => 0 <= fst r -> exists new,
        snd r = got ++ new /\ length new = S (S n) /\
        at_ 0xC8 (B ++ rxs (S (S n) - 1) ++ [Stop]) (D ++ new) w') w') as Hrest.
    { intros v w' H'. eapply wp_mono; [apply IH; [lia|lia|exact H']|]. intros r' w3 H3 Hr.
      destruct (H3 Hr) as (new & E & L & H4). exists (u8 v :: new). split; [by rewrite E, <- app_assoc|].
      split; [by rewrite <- L|]. rewrite <- !app_assoc in H4. cbn [Nat.sub rxs app] in *. by rewrite Nat.sub_0_r in H4. }
    rewrite (proj2 (Z.eqb_neq i (len m - 1))) by lia. apply wp_bind.
    assert (wp (if i =? len m - 2 then
        cr ← readw (b + MXC_I2CR); writew (setb cr MXC_I2CR_TXAK) (b + MXC_I2CR) else mret tt)
      (fun _ w' => at_ (cr_rx (S n)) B D w') w1) as Hak.
    { destruct (Z.eqb_spec i (len m - 2)).
      - assert (n = 0%nat) as -> by lia. via at_readw_cr. intros cr w2 [-> H2].
        eapply wp_mono; [eapply at_writew_cr; [|exact H2]; done|]. intros ? w3 H3. by rewrite app_nil_r in H3.
      - apply wp_ret. destruct n; [lia|]. exact H1. }
    eapply wp_mono; [exact Hak|]. cbv beta. intros ? w2 H2. via at_readw_dr. intros v w3 H3. apply Hrest.
    by rewrite rx_effect_rx in H3.
Qed.

Lemma at_readbytes m c B D w :
  c = CR_TX \/ c = CR_RST -> wf_msg m -> 1 <= len m -> at_ c B D w ->
  wp (mxc_i2c_readbytes dev m true true) (fun r w' => 0 <= fst r -> is_read (snd r) = is_read m /\ exists x,
    at_ 0xC8 (B ++ rxs (Z.to_nat (len m)) ++ [Stop]) (D ++ x :: buf (snd r)) w') w.
Proof.
  intros Hc (_ & Hl & Hb & _) H1 Hat. unfold mxc_i2c_readbytes. via at_readw_cr. intros cr w1 [-> H2].
  set (n := Z.to_nat (len m)). cbv zeta.
  assert (forall d, clear c MXC_I2CR_RSTA = d -> d = CR_TX) as Hd by (intros d <-; by destruct Hc as [-> | ->]).
  rewrite (Hd _ eq_refl).
  assert ((if len m =? 1 then setb (clear CR_TX MXC_I2CR_MTX) MXC_I2CR_TXAK
           else clear (clear CR_TX MXC_I2CR_MTX) MXC_I2CR_TXAK) = cr_rx n) as ->.
  { unfold cr_rx, n. destruct (Z.eqb_spec (len m) 1), (Nat.eqb_spec (Z.to_nat (len m)) 1); try lia; done. }
  via_cr ltac:(unfold cr_rx; by destruct (n =? 1)%nat). intros ? w3 H3.
  assert (at_ (cr_rx n) B D w3) as H4.
  { replace (cr_effect c (cr_rx n)) with (@nil bus_ev) in H3; [by rewrite app_nil_r in H3|].
    unfold cr_rx. destruct Hc as [-> | ->]; by destruct (n =? 1)%nat. }
  apply wp_bind. via at_readw_dr. intros x w5 H5. apply wp_ret. rewrite rx_effect_rx in H5.
  apply wp_bind. eapply wp_mono; [eapply at_readbytes_loop; [| |exact H5]; lia|]. intros [r got] w6 H6. apply wp_ret.
  cbn [fst snd buf set_buf] in *. intros Hr. destruct (H6 Hr) as (new & -> & L & H7). split; [done|]. exists (u8 x).
  rewrite drop_ge, app_nil_r by (simpl; lia). rewrite <- !app_assoc in H7. simpl in H7.
  destruct n as [|k] eqn:En; [lia|]. cbn [rxs]. cbn [Nat.sub] in H7. rewrite Nat.sub_0_r in H7. exact H7.
Qed.

(** ** A transfer *)

Definition cr_of (prev : option i2c_msg) : list Z := if prev then [CR_TX; CR_RST] else [CR_IDLE].

Lemma at_addr_cycle prev m c B D w :
  c ∈ cr_of prev -> 0 <= addr m < 128 -> at_ c B D w ->
  wp (addr_cycle dev prev m) (fun a w' => forall ac, a = Some ac ->
    (exists c', c' ∈ cr_of (Some m) /\ at_ c' (B ++ heading prev m) D w') /\
    (ac = match prev with Some p => needs_restart p m | None => true end)) w.
Proof.
  intros Hc Ha Hat.
  assert (forall c' B' w', c' ∈ cr_of (Some m) -> at_ c' B' D w' ->
    wp (addr_wait dev m) (fun a w' => forall ac, a = Some ac ->
      (exists c', c' ∈ cr_of (Some m) /\ at_ c' B' D w') /\ ac = true) w') as Hwait.
  { intros c' B' w' Hc' H'. unfold addr_wait. via at_wait. intros r w1 H1. destruct (negb _).
    - apply wp_bind. eapply wp_mono; [eapply at_stop; [|exact H1]|].
      + cbn in Hc'. set_unfold in Hc'. by destruct Hc' as [-> | [-> |[]]].
      + intros ? w2 _. apply wp_bind. eapply wp_mono; [apply module_dis_closes|]. intros ? w3 _. by apply wp_ret.
    - apply wp_ret. intros ac [= <-]. eauto. }
  unfold addr_cycle, heading. destruct prev as [p|]; cbn in Hc; set_unfold in Hc.
  - destruct (needs_restart p m); [|apply wp_ret; intros ac [= <-]; split; [|done]; exists c; rewrite app_nil_r; split; [|done]].
    + apply wp_bind. eapply wp_mono; [eapply at_repstart; [|done|exact Hat]; tauto|]. intros ? w1 H1.
      apply (Hwait CR_RST); [cbn; set_solver|done].
    + cbn. set_solver.
  - destruct Hc as [-> |[]]. apply wp_bind. eapply wp_mono; [by apply at_start|]. intros ? w1 H1.
    apply (Hwait CR_TX); [cbn; set_solver|done].
Qed.

(** A read after a write is announced by a repeated start. *)
Lemma restart_read p m : is_read p = false -> is_read m = true -> needs_restart p m = true.
Proof.
  unfold is_read, has, needs_restart. intros Hp%negb_false_iff%Z.eqb_eq Hm%negb_true_iff. rewrite Hp, Hm.
  by rewrite orb_true_r.
Qed.

Definition wrote (prev : option i2c_msg) : Prop := from_option (fun p => is_read p = false) True prev.

Lemma at_xfer_loop i prev msgs c B D w :
  msgs <> [] -> supported msgs = true -> Forall wf_msg msgs -> Forall (fun m => addr m < 128) msgs ->
  wrote prev -> c ∈ cr_of prev -> at_ c B D w ->
  wp (xfer_loop dev i prev msgs) (fun r w' => fst r = Some (i + Z.of_nat (length msgs)) -> exists c' x,
    c' ∈ [0xC0; 0xC8] /\ (length x <= 1)%nat /\
    at_ c' (B ++ spec_bus prev msgs) (D ++ x ++ received (snd r)) w') w.
Proof.
  revert i prev c B w. induction msgs as [|m msgs IH]; intros i prev c B w Hne Hsup Fw Fa Hprev Hc Hat; [done|].
  apply Forall_cons in Fw as [Hm Fw]. apply Forall_cons in Fa as [Ha Fa]. cbn [xfer_loop supported] in *.
  assert (0 <= addr m < 128) as Ha' by (destruct Hm as (? & _); lia).
  apply wp_bind. eapply wp_mono; [by eapply at_addr_cycle|]. intros [ac|] w1 H1; [|by apply wp_ret].
  destruct (H1 ac eq_refl) as [(c1 & Hc1 & H2) Eac]. clear H1. cbn in Hc1. set_unfold in Hc1.
  assert (c1 = CR_TX \/ c1 = CR_RST) as Hc1' by tauto. clear Hc1. unfold data_cycle. fold (is_read m).
  apply wp_bind. destruct (is_read m) eqn:Er.
  - apply andb_true_iff in Hsup as [Hlen%Z.leb_le Hlast]. apply bool_decide_eq_true in Hlast as Hnil. subst msgs.
    assert (ac = true) as ->.
    { rewrite Eac. destruct prev as [p|]; [by apply restart_read|done]. }
    rewrite Hlast. eapply wp_mono; [by eapply at_readbytes|]. intros [r m'] w2 H3. cbn [fst snd] in *.
    destruct (Z.ltb_spec r 0); [apply wp_ret; cbn [fst length]; intros [=]; lia|].
    cbn [xfer_loop]. apply wp_bind, wp_ret, wp_ret. cbn [fst snd]. intros _. destruct (H3 ltac:(done)) as (Er' & x & H4).
    exists 0xC8, [x]. split; [set_solver|]. split; [done|]. cbn [spec_bus]. unfold payload. rewrite Er.
    rewrite received_read, app_nil_r by congruence. by rewrite <- app_assoc in H4.
  - apply wp_bind. eapply wp_mono; [by eapply at_writebytes|]. intros r w2 H3. apply wp_ret. cbn [fst snd].
    destruct (Z.ltb_spec r 0); [apply wp_ret; cbn [fst length]; intros [=]; lia|]. specialize (H3 ltac:(done)).
    cbn [spec_bus length]. unfold payload. rewrite Er. case_bool_decide as En.
    + subst msgs. cbn [xfer_loop]. apply wp_bind, wp_ret, wp_ret. cbn [fst snd]. intros _. exists 0xC0, [].
      split; [set_solver|]. split; [simpl; lia|]. rewrite received_write by done.
      rewrite !app_nil_r. by rewrite <- app_assoc in H3.
    + rewrite app_nil_r in H3. apply wp_bind. eapply wp_mono; [eapply (IH _ (Some m) CR_TX); [done..|cbn; set_solver|exact H3]|].
      intros [q ms] w3 H4. apply wp_ret. cbn [fst snd] in *. intros Eq.
      destruct H4 as (c' & x & Hc' & Lx & H4); [rewrite Eq; f_equal; lia|]. exists c', x. split; [done|]. split; [done|].
      rewrite received_write by done. by rewrite <- !app_assoc in H4.
Qed.

End Bus.

(** ** The module is disabled afterwards *)

Section Disabled.
Context {H : Type} {Hw : I2cHw H} (dev : mxc_i2c_device) {Kept : ControlKept Hw (membase dev)}.
Implicit Types (w : world H) (m : i2c_msg).

Lemma at_init w c : cr_is c (hw w) -> c = 0 -> at_ dev (log w) 0 [] [] w.
Proof. intros Hc ->. split; [done|]. exists []. by rewrite app_nil_r. Qed.

Lemma module_dis_at l0 c B D w :
  at_ dev l0 c B D w ->
  wp (mxc_i2c_module_dis dev) (fun _ w' => at_ dev l0 0 (B ++ cr_effect c 0) D w') w.
Proof.
  intros Hat. unfold mxc_i2c_module_dis. apply wp_bind. eapply wp_mono; [by eapply at_writew_cr; [|exact Hat]|].
  intros ? w1 [Hc (l & E & Ed)]. apply wp_modify. split; [done|]. exists (l ++ [ClkOff (clk dev)]).
  cbn [log]. rewrite E, <- app_assoc. split; [done|]. by rewrite decode_snoc, Ed.
Qed.

(** From any state, since the register is written. *)
Lemma module_dis_cr w : wp (mxc_i2c_module_dis dev) (fun _ w' => cr_is 0 (hw w')) w.
Proof.
  unfold mxc_i2c_module_dis, writew. apply wp_bind, wp_bind. unfold io_writew at 1. apply wp_bind, wp_modify, wp_modify.
  set (w1 := mkWorld _ _ _ _).
  assert (at_ dev (log w1) 0 [] [] w1) as H1.
  { split; [by apply write_cr|]. exists []. by rewrite app_nil_r. }
  eapply wp_mono; [by eapply at_deliver|]. intros ? w2 [Hc _]. by apply wp_modify.
Qed.

Lemma addr_wait_cr m w : wp (addr_wait dev m) (fun a w' => a = None -> cr_is 0 (hw w')) w.
Proof.
  unfold addr_wait. apply wp_bind. eapply wp_mono; [apply wait_acc|]. intros r w1 _. destruct (negb _); [|by apply wp_ret].
  apply wp_bind. eapply wp_mono; [apply stop_acc|]. intros ? w2 _. apply wp_bind.
  eapply wp_mono; [apply module_dis_cr|]. intros ? w3 Hc. by apply wp_ret.
Qed.

Lemma addr_cycle_cr prev m w : wp (addr_cycle dev prev m) (fun a w' => a = None -> cr_is 0 (hw w')) w.
Proof.
  unfold addr_cycle. destruct prev as [p|]; [destruct (needs_restart p m); [|by apply wp_ret]|].
  - apply wp_bind. eapply wp_mono; [apply repstart_acc|]. intros ? w1 _. apply addr_wait_cr.
  - apply wp_bind. eapply wp_mono; [apply start_acc|]. intros ? w1 _. apply addr_wait_cr.
Qed.

Lemma xfer_loop_cr i prev msgs w :
  Forall wf_msg msgs -> wp (xfer_loop dev i prev msgs) (fun r w' => fst r = None -> cr_is 0 (hw w')) w.
Proof.
  revert i prev w. induction msgs as [|m msgs IH]; intros i prev w F; cbn [xfer_loop]; [by apply wp_ret|].
  apply Forall_cons in F as [Hm F]. apply wp_bind. eapply wp_mono; [apply addr_cycle_cr|].
  intros [ac|] w1 H1; [|apply wp_ret; by intros _; apply H1].
  apply wp_bind. eapply wp_mono; [by apply data_cycle_acc|]. intros r w2 _. destruct (_ <? _); [by apply wp_ret|].
  apply wp_bind. eapply wp_mono; [by apply IH|]. intros q w3 H3. by apply wp_ret.
Qed.

Lemma xfer_cr msgs w :
  Forall wf_msg msgs -> cr_is 0 (hw w) -> wp (mxc_i2c_xfer dev msgs) (fun _ w' => cr_is 0 (hw w')) w.
Proof.
  intros F Hc. unfold mxc_i2c_xfer. destruct (low_power dev); [by apply wp_ret|].
  destruct (_ <? 1); [by apply wp_ret|]. apply wp_bind. eapply wp_mono; [apply module_en_acc|]. intros ? w1 _.
  apply wp_bind. eapply wp_mono; [apply acc_readw|]. intros sr w2 _. destruct (has _ _).
  - apply wp_bind. eapply wp_mono; [apply module_dis_cr|]. intros ? w3 H3. by apply wp_ret.
  - apply wp_bind, wp_modify, wp_bind, wp_modify, wp_bind. eapply wp_mono; [by apply xfer_loop_cr|].
    intros [[n|] ms] w3 H3; cbn [fst snd] in *; [|apply wp_ret; by apply H3].
    apply wp_bind. eapply wp_mono; [apply module_dis_cr|]. intros ? w4 H4. by apply wp_ret.
Qed.

(** ** The bus during a transfer that succeeds *)

Lemma module_en_at l0 w :
  at_ dev l0 0 [] [] w -> wp (mxc_i2c_module_en dev) (fun _ w' => at_ dev l0 CR_IDLE [] [] w') w.
Proof.
  intros [Hc (l & E & Ed)]. unfold mxc_i2c_module_en. apply wp_bind, wp_modify.
  assert (at_ dev l0 0 [] [] (mkWorld (hw w) (transfer_done w) (tx_success w) (log w ++ [ClkOn (clk dev)]))) as H0.
  { split; [done|]. exists (l ++ [ClkOn (clk dev)]). cbn [log]. rewrite E, <- app_assoc. split; [done|].
    by rewrite decode_snoc, Ed. }
  apply wp_bind. eapply wp_mono; [apply at_writew_other; [by left|exact H0]|]. intros ? w1 H1.
  apply wp_bind. eapply wp_mono; [apply at_writew_other; [by right|exact H1]|]. intros ? w2 H2.
  apply wp_bind. eapply wp_mono; [by eapply at_writew_cr; [|exact H2]|]. intros ? w3 H3.
  eapply wp_mono; [by eapply at_writew_cr; [|exact H3]|]. by intros ? w4 H4.
Qed.

Lemma xfer_on_bus msgs w :
  low_power dev = false -> msgs <> [] -> supported msgs = true ->
  Forall wf_msg msgs -> Forall (fun m => addr m < 128) msgs -> cr_is 0 (hw w) ->
  wp (mxc_i2c_xfer dev msgs) (fun r w' => fst r = Z.of_nat (length msgs) - 1 -> exists l x,
    log w' = log w ++ l /\ (length x <= 1)%nat /\
    decode (membase dev) l = mkCtl 0 (spec_bus None msgs) (x ++ received (snd r))) w.
Proof.
  intros Hlp Hne Hsup Fw Fa Hc. unfold mxc_i2c_xfer. rewrite Hlp.
  assert (0 < Z.of_nat (length msgs)) as Hlen by (destruct msgs; [done|simpl; lia]).
  rewrite (proj2 (Z.ltb_ge _ _)) by lia.
  apply wp_bind. eapply wp_mono; [by eapply module_en_at, at_init|]. intros ? w1 H1.
  apply wp_bind. eapply wp_mono; [eapply at_readw_sr, H1|]. intros sr w2 H2. destruct (has _ _).
  { apply wp_bind. eapply wp_mono; [eapply module_dis_at, H2|]. intros ? w3 _. apply wp_ret. cbn [fst]. unfold EREMOTEIO. lia. }
  apply wp_bind, wp_modify, wp_bind, wp_modify, wp_bind.
  eapply wp_mono; [eapply (at_xfer_loop dev (log w) 0 None msgs CR_IDLE); try done; [cbn; set_solver|exact H2]|].
  intros [[n|] ms] w3 H3; cbn [fst snd] in *; [|apply wp_ret; cbn [fst]; unfold EREMOTEIO; lia].
  destruct (decide (n = Z.of_nat (length msgs))) as [->|Hn].
  - destruct (H3 ltac:(done)) as (c' & x & Hc' & Lx & H4).
    apply wp_bind. eapply wp_mono; [eapply module_dis_at, H4|]. intros ? w4 [_ (l & E & Ed)]. apply wp_ret. intros _.
    exists l, x. split; [done|]. split; [done|]. rewrite Ed. cbn [snd]. f_equal.
    set_unfold in Hc'. destruct Hc' as [-> |[-> |[]]]; by rewrite app_nil_r.
  - apply wp_bind. eapply wp_mono; [apply module_dis_closes|]. intros ? w4 _. apply wp_ret. cbn [fst]. lia.
Qed.

End Disabled.
