(* ===== verification/I2cTurn.v ===== *)
(** * A write after a read

    [mxc_i2c_readbytes] switches the controller to receive mode, [mxc_i2c_repstart] does not
    switch it back, and the interrupt handler counts a byte as acknowledged only in transmit
    mode: the address of a write that follows a read cannot succeed.  The lemmas carry the
    mode through the routines, on a controller that keeps its control register and is the
    only one that interrupts. *)

From stdpp Require Import base list sets.
From Stdlib Require Import ZArith Lia.
From S2P Require Import Prelude I2c I2cTrace I2cBus.

Section Turn.
Context {H : Type} {Hw : I2cHw H} (dev : mxc_i2c_device) {Kept : ControlKept Hw (membase dev)}.
Context (mine : forall h d, d ∈ hw_irqs h -> membase d = membase dev).
Implicit Types (w : world H) (m : i2c_msg).

Abbreviation b := (membase dev).

(** Receive mode. *)
Definition rx_cr (c : Z) : Prop := has c MXC_I2CR_MTX = false.

Lemma has_bit x n : 0 <= n -> has x (bit n) = Z.testbit x n.
Proof. intros Hn. unfold has. rewrite land_bit by done. apply negb_involutive. Qed.

Lemma rx_cr_bit c : rx_cr c <-> Z.testbit c 4 = false.
Proof. unfold rx_cr. change MXC_I2CR_MTX with (bit 4). by rewrite has_bit by lia. Qed.

Lemma rx_cr_u16 c : rx_cr c -> rx_cr (u16 c).
Proof. rewrite !rx_cr_bit. unfold u16. by rewrite Z.mod_pow2_bits_low by lia. Qed.

Lemma rx_cr_clear c x : rx_cr c -> rx_cr (clear c x).
Proof. rewrite !rx_cr_bit. rewrite testbit_clear by lia. by intros ->. Qed.

Lemma rx_cr_setb c x : rx_cr c -> Z.testbit x 4 = false -> rx_cr (setb c x).
Proof. rewrite !rx_cr_bit. rewrite testbit_setb. by intros -> ->. Qed.

Lemma rx_cr_stop c : rx_cr (clear c (setb MXC_I2CR_MSTA MXC_I2CR_MTX)).
Proof. rewrite rx_cr_bit, testbit_clear by lia. apply andb_false_r. Qed.

(** In receive mode, and a transfer noted as done is not noted as acknowledged, if [quiet]. *)
Definition rx (quiet : bool) w : Prop :=
  (exists c, cr_is c (hw w) /\ rx_cr c) /\ (quiet = true -> transfer_done w = true -> tx_success w = false).

Lemma rx_handler q d w : membase d = b -> rx q w -> wp (mxc_i2c_handler d) (fun _ w' => rx q w') w.
Proof.
  intros Hd [(c & Hc & Hm) Hq]. unfold mxc_i2c_handler, io_readw. rewrite Hd.
  apply wp_bind, wp_bind. unfold wp at 1, get. destruct (hw_read (b + MXC_I2SR) (hw w)) as [sr h1] eqn:E1.
  do 2 apply wp_bind, wp_modify. apply wp_ret. cbn [hw transfer_done tx_success log with_ctrl].
  assert (cr_is c h1) as Hc1 by (pose proof (read_keeps (b + MXC_I2SR) c _ Hc) as R; by rewrite E1 in R).
  apply wp_bind, wp_bind. unfold wp at 1, get. cbn [hw]. pose proof (read_cr _ _ Hc1) as Er.
  pose proof (read_keeps (b + MXC_I2CR) c _ Hc1) as Hc2. destruct (hw_read (b + MXC_I2CR) h1) as [cr h2]. cbn [fst snd] in *.
  do 2 apply wp_bind, wp_modify. apply wp_ret. rewrite Er.
  apply wp_bind. unfold io_writew. apply wp_bind, wp_modify, wp_modify.
  assert (cr_is c (hw_write (b + MXC_I2SR) (u16 0) h2)) as Hc3
    by (apply write_keeps; [unfold MXC_I2SR, MXC_I2CR; lia|done]).
  rewrite (rx_cr_clear c _ Hm). apply wp_bind. destruct (has (u16 sr) _); cbn [andb].
  - apply wp_ret, wp_ret. split; [by exists c|done].
  - apply wp_bind, wp_modify, wp_bind, wp_ret, wp_modify, wp_ret. split; [by exists c|done].
Qed.

Lemma rx_deliver q w : rx q w -> wp deliver (fun _ w' => rx q w') w.
Proof.
  intros Hw0. unfold deliver. apply wp_bind. cbn. pose proof (mine (hw w)) as Hl. revert Hl. generalize (hw_irqs (hw w)).
  intros l. revert w Hw0. induction l as [|d l IH]; intros w Hw0 Hl; [done|]. cbn [serve_irqs]. apply wp_bind.
  eapply wp_mono; [apply rx_handler; [apply Hl; set_solver|exact Hw0]|]. intros ? w' H'. apply IH; [exact H'|set_solver].
Qed.

Lemma rx_readw q a w : rx q w -> wp (readw a) (fun _ w' => rx q w') w.
Proof.
  intros [(c & Hc & Hm) Hq]. unfold readw, io_readw. apply wp_bind, wp_bind. unfold wp at 1, get.
  pose proof (read_keeps a c _ Hc) as Hc1. destruct (hw_read a (hw w)) as [v h]. do 2 apply wp_bind, wp_modify.
  apply wp_ret, wp_bind. eapply wp_mono; [apply rx_deliver; split; [by exists c|exact Hq]|]. done.
Qed.

Lemma rx_readw_cr q w : rx q w -> wp (readw (b + MXC_I2CR)) (fun v w' => rx_cr v /\ rx q w') w.
Proof.
  intros [(c & Hc & Hm) Hq]. unfold readw, io_readw. apply wp_bind, wp_bind. unfold wp at 1, get.
  pose proof (read_keeps (b + MXC_I2CR) c _ Hc) as Hc1. pose proof (read_cr _ _ Hc) as Er.
  destruct (hw_read (b + MXC_I2CR) (hw w)) as [v h]. cbn [fst snd] in *. do 2 apply wp_bind, wp_modify.
  apply wp_ret, wp_bind. eapply wp_mono; [apply rx_deliver; split; [by exists c|exact Hq]|].
  intros ? w' H'. apply wp_ret. split; [|done]. rewrite Er. by apply rx_cr_clear.
Qed.

Lemma rx_writew_cr q v w :
  rx_cr v -> (q = true -> transfer_done w = true -> tx_success w = false) ->
  wp (writew v (b + MXC_I2CR)) (fun _ w' => rx q w') w.
Proof.
  intros Hv Hq. unfold writew, io_writew. apply wp_bind, wp_bind, wp_modify, wp_modify. apply rx_deliver.
  split; [|done]. exists (u16 v). split; [apply write_cr, u16_range|by apply rx_cr_u16].
Qed.

Lemma rx_writew q v a w : a <> b + MXC_I2CR -> rx q w -> wp (writew v a) (fun _ w' => rx q w') w.
Proof.
  intros Ha [(c & Hc & Hm) Hq]. unfold writew, io_writew. apply wp_bind, wp_bind, wp_modify, wp_modify.
  apply rx_deliver. split; [|done]. exists c. split; [by apply write_keeps|done].
Qed.

Lemma rx_elapse q t w : rx q w -> wp (elapse t) (fun _ w' => rx q w') w.
Proof.
  intros [(c & Hc & Hm) Hq]. unfold elapse. apply wp_bind, wp_modify, rx_deliver. split; [|done].
  exists c. split; [by apply elapse_keeps|done].
Qed.

(** A wait notes nothing as done, and a wait for an acknowledgement fails. *)
Lemma rx_wait_loop q n w :
  rx q w -> wp (wait_loop n dev) (fun r w' => rx q w' /\ (0 < r -> transfer_done w' = true)) w.
Proof.
  revert w. induction n as [|n IH]; intros w Hw0; cbn [wait_loop]; [apply wp_ret; split; [done|lia]|].
  apply wp_bind, wp_gets. destruct (transfer_done w) eqn:E; [by apply wp_ret|]. apply wp_bind. unfold wait_done.
  apply wp_bind, wp_gets. rewrite E. eapply wp_mono; [by apply rx_elapse|]. intros ? w1 H1. by apply IH.
Qed.

Lemma rx_wait q fl w :
  rx q w -> wp (mxc_i2c_wait_for_tc dev fl) (fun r w' => rx true w' /\
    (q = true -> has fl I2C_M_RD = false -> r = -1)) w.
Proof.
  intros Hw0. unfold mxc_i2c_wait_for_tc. apply wp_bind. eapply wp_mono; [by apply rx_wait_loop|].
  intros r w1 [[Hc Hq] Hr]. apply wp_bind, wp_modify.
  assert (rx true (mkWorld (hw w1) false (tx_success w1) (log w1))) as H1 by (split; [exact Hc|done]).
  destruct (Z.leb_spec r 0); [by apply wp_ret|]. destruct (has fl I2C_M_RD) eqn:E; [by apply wp_ret|].
  apply wp_bind, wp_gets. cbn [tx_success]. destruct (tx_success w1) eqn:Es; [|by apply wp_ret].
  apply wp_ret. split; [done|]. intros Eq. specialize (Hq Eq (Hr ltac:(lia))). congruence.
Qed.

Lemma rx_stop q w : rx q w -> wp (mxc_i2c_stop dev) (fun _ w' => rx q w') w.
Proof.
  intros Hw0. unfold mxc_i2c_stop. apply wp_bind. eapply wp_mono; [by apply rx_readw_cr|]. intros cr w1 [Hcr H1].
  apply wp_bind. eapply wp_mono; [apply (rx_writew_cr q); [apply rx_cr_stop|apply H1]|]. intros ? w2 H2.
  clear - H2 mine. revert w2 H2. generalize 16%nat as n. induction n as [|n IH]; intros w H2; cbn [stop_loop];
    (apply wp_bind; eapply wp_mono; [by apply rx_readw|]; intros sr w1 H1); destruct (negb _); try done.
  apply wp_bind. eapply wp_mono; [apply rx_elapse, H1|]. intros ? w3 H3. by apply IH.
Qed.

(** After a read of at least one byte. *)
Lemma rx_read_loop n i m last got w :
  rx (n =? 0)%nat w ->
  wp (readbytes_loop n i dev m last got) (fun _ w' => rx true w') w.
Proof.
  revert i got w. induction n as [|n IH]; intros i got w Hw0; cbn [readbytes_loop]; [by apply wp_ret|].
  apply wp_bind. eapply wp_mono; [by eapply rx_wait|]. intros r w1 [H1 _]. destruct (negb _).
  { apply wp_bind. eapply wp_mono; [by apply rx_stop|]. intros ? w2 H2. by apply wp_ret. }
  apply wp_bind. eapply wp_mono with (P := fun _ w' => rx true w').
  - destruct (_ =? _); [|destruct (_ =? _); [destruct last; [by apply rx_stop|]|]; by apply wp_ret].
    apply wp_bind. eapply wp_mono; [by apply rx_readw_cr|]. intros cr w2 [Hcr H2].
    apply rx_writew_cr; [by apply rx_cr_setb|apply H2].
  - intros ? w2 H2. apply wp_bind. eapply wp_mono; [by apply rx_readw|]. intros v w3 H3. apply IH.
    destruct H3 as [Hc Hq]. split; [done|]. intros _. by apply Hq.
Qed.

Lemma rx_readbytes m last ac w : 1 <= len m -> wp (mxc_i2c_readbytes dev m last ac) (fun _ w' => rx true w') w.
Proof.
  intros Hl. unfold mxc_i2c_readbytes. apply wp_bind. eapply wp_mono; [apply acc_readw|]. intros cr w1 _. cbv zeta.
  assert (rx_cr (clear cr MXC_I2CR_MTX)) as Hcr by (rewrite rx_cr_bit, testbit_clear by lia; apply andb_false_r).
  apply wp_bind. eapply wp_mono; [apply (rx_writew_cr false)|].
  { destruct (len m =? 1); [by apply rx_cr_setb|by apply rx_cr_clear]. } { done. }
  intros ? w2 H2. apply wp_bind. eapply wp_mono with (P := fun _ w' => rx false w').
  { destruct ac; [|by apply wp_ret]. apply wp_bind. eapply wp_mono; [apply rx_readw, H2|]. done. }
  intros ? w3 H3. apply wp_bind. eapply wp_mono; [apply rx_read_loop|].
  { rewrite (proj2 (Nat.eqb_neq _ _)) by lia. exact H3. }
  intros r w4 H4. by apply wp_ret.
Qed.

(** The write is given up. *)
Lemma turn_fails p m w : is_read p = true -> is_read m = false -> rx true w ->
  wp (addr_cycle dev (Some p) m) (fun a _ => a = None) w.
Proof.
  intros Hp Hm Hw0. unfold addr_cycle.
  assert (needs_restart p m = true) as ->.
  { unfold is_read, has, needs_restart in *. apply negb_false_iff, Z.eqb_eq in Hm. apply negb_true_iff in Hp.
    rewrite Hm, (Z.eqb_sym 0), Hp. by rewrite orb_true_r. }
  apply wp_bind. eapply wp_mono with (P := fun _ w' => rx true w').
  - unfold mxc_i2c_repstart. apply wp_bind. eapply wp_mono; [by apply rx_readw_cr|]. intros cr w1 [Hcr H1].
    apply wp_bind. eapply wp_mono; [apply (rx_writew_cr true); [by apply rx_cr_setb|apply H1]|]. intros ? w2 H2.
    apply wp_bind. eapply wp_mono; [apply rx_elapse, H2|]. intros ? w3 H3.
    apply rx_writew; [unfold MXC_I2DR, MXC_I2CR; lia|exact H3].
  - intros ? w1 H1. unfold addr_wait. apply wp_bind. eapply wp_mono; [by eapply rx_wait|]. intros r w2 [_ Hr].
    rewrite (Hr eq_refl Hm). cbn. apply wp_bind. eapply wp_mono; [apply stop_acc|]. intros ? w3 _.
    apply wp_bind. eapply wp_mono; [apply module_dis_closes|]. intros ? w4 _. by apply wp_ret.
Qed.

Lemma turn_loop i prev pre r m post w :
  is_read r = true -> 1 <= len r -> is_read m = false -> Forall wf_msg (pre ++ r :: m :: post) ->
  wp (xfer_loop dev i prev (pre ++ r :: m :: post))
    (fun q _ => forall n, fst q = Some n -> n <= i + Z.of_nat (length pre)) w.
Proof.
  intros Hr Hl Hm. revert i prev w. induction pre as [|x pre IH]; intros i prev w F; cbn [xfer_loop app] in *.
  - apply Forall_cons in F as [Fr F]. apply wp_bind. eapply wp_mono; [apply addr_cycle_ends|].
    intros [ac|] w1 _; [|by apply wp_ret]. apply wp_bind. unfold data_cycle. fold (is_read r). rewrite Hr.
    eapply wp_mono; [by apply rx_readbytes|]. intros q w2 H2. destruct (_ <? _).
    { apply wp_ret. intros n [= <-]. simpl. lia. }
    apply wp_bind. cbn [xfer_loop]. apply wp_bind. eapply wp_mono; [apply turn_fails; [exact Hr|exact Hm|exact H2]|].
    intros a w3 ->. by apply wp_ret, wp_ret.
  - apply Forall_cons in F as [Fx F]. apply wp_bind. eapply wp_mono; [apply addr_cycle_ends|].
    intros [ac|] w1 _; [|by apply wp_ret]. apply wp_bind. eapply wp_mono; [by apply data_cycle_acc|].
    intros q w2 _. destruct (_ <? _). { apply wp_ret. intros n [= <-]. simpl. lia. }
    apply wp_bind. eapply wp_mono; [by apply IH|]. intros q' w3 Hq. apply wp_ret. intros n En.
    specialize (Hq n En). simpl. lia.
Qed.

Lemma turn_xfer pre r m post w :
  low_power dev = false -> is_read r = true -> 1 <= len r -> is_read m = false ->
  Forall wf_msg (pre ++ r :: m :: post) ->
  wp (mxc_i2c_xfer dev (pre ++ r :: m :: post))
    (fun q _ => fst q = - EREMOTEIO \/ fst q < Z.of_nat (length pre)) w.
Proof.
  intros Hlp Hr Hl Hm F. unfold mxc_i2c_xfer. rewrite Hlp. rewrite (proj2 (Z.ltb_ge _ _)) by (rewrite length_app; simpl; lia).
  apply wp_bind. eapply wp_mono; [apply module_en_acc|]. intros ? w1 _.
  apply wp_bind. eapply wp_mono; [apply acc_readw|]. intros sr w2 _. destruct (has _ _).
  - apply wp_bind. eapply wp_mono; [apply module_dis_closes|]. intros ? w3 _. apply wp_ret. by left.
  - apply wp_bind, wp_modify, wp_bind, wp_modify, wp_bind. eapply wp_mono; [by apply turn_loop|].
    intros [[n|] ms] w3 Hn; cbn [fst snd] in *; [|apply wp_ret; by left]. specialize (Hn n eq_refl).
    apply wp_bind. eapply wp_mono; [apply module_dis_closes|]. intros ? w4 _. apply wp_ret. right. cbn [fst]. lia.
Qed.

End Turn.
