(* ===== verification/I2cLive.v ===== *)
(** * Transfers succeed on a bus that answers

    [Answers] is what a controller does whose bus is free and whose slaves acknowledge: a
    byte that is sent or received is reported by one interrupt, after at most fourteen of
    the driver's waits, without loss of arbitration and, when sent, acknowledged.  (The
    driver waits up to sixteen times, but takes a byte that is only done after the
    fifteenth for a failure.)  Then every wait of a transfer ends well. *)

From stdpp Require Import base list sets.
From Stdlib Require Import ZArith Lia.
From S2P Require Import Prelude I2c I2cTrace I2cBus.

(** [quiet c]: the control register holds [c], no byte is on its way and no interrupt is
    pending.  [flying n c]: a byte is on its way, for at most [n] more waits. *)
Class Answers {H : Type} (Hw : I2cHw H) (b : Z) : Type := {
  quiet : Z -> H -> Prop;
  flying : nat -> Z -> H -> Prop;
  quiet_irqs c h : quiet c h -> hw_irqs h = [];
  quiet_cr c h : quiet c h -> u16 (fst (hw_read (b + MXC_I2CR) h)) = clear c MXC_I2CR_RSTA;
  quiet_free c h : quiet c h -> has c MXC_I2CR_MSTA = false -> has (u16 (fst (hw_read (b + MXC_I2SR) h))) MXC_I2SR_IBB = false;
  quiet_read a c h : quiet c h -> (a = b + MXC_I2DR -> rx_effect c = []) -> quiet c (snd (hw_read a h));
  quiet_write a v c h : quiet c h -> a <> b + MXC_I2CR -> a <> b + MXC_I2DR -> quiet c (hw_write a v h);
  quiet_write_cr v c h : 0 <= v < 2 ^ 16 -> quiet c h -> quiet v (hw_write (b + MXC_I2CR) v h);
  quiet_elapse t c h : quiet c h -> quiet c (hw_elapse t h);
  send v c h : quiet c h -> tx_effect c v <> [] -> flying 14 c (hw_write (b + MXC_I2DR) v h);
  receive c h : quiet c h -> rx_effect c <> [] -> flying 14 c (snd (hw_read (b + MXC_I2DR) h));
  flying_on n c h : flying n c h -> hw_irqs h = [] -> exists k, n = S k /\ forall t, flying k c (hw_elapse (Jiffies t) h);
  flying_done n c h : flying n c h -> hw_irqs h <> [] ->
    exists d, hw_irqs h = [d] /\ membase d = b /\
    let '(sr, h1) := hw_read (b + MXC_I2SR) h in
    let '(cr, h2) := hw_read (b + MXC_I2CR) h1 in
    has (u16 sr) MXC_I2SR_IAL = false /\ (has c MXC_I2CR_MTX = true -> has (u16 sr) MXC_I2SR_RXAK = false) /\
    u16 cr = clear c MXC_I2CR_RSTA /\ quiet c (hw_write (b + MXC_I2SR) 0 h2);
}.

Section Live.
Context {H : Type} {Hw : I2cHw H} (dev : mxc_i2c_device) {Ans : Answers Hw (membase dev)}.
Implicit Types (w : world H) (m : i2c_msg).

Abbreviation b := (membase dev).

(** Nothing on its way, and noted what [d] says; a byte done and noted, or still on its way. *)
Definition still_ (d : bool) c w : Prop := quiet c (hw w) /\ transfer_done w = d.
Abbreviation still := (still_ false).
Definition done_ c w : Prop :=
  quiet c (hw w) /\ transfer_done w = true /\ (has c MXC_I2CR_MTX = true -> tx_success w = true).
Definition under_way n c w : Prop :=
  done_ c w \/ (flying n c (hw w) /\ hw_irqs (hw w) = [] /\ transfer_done w = false).

Lemma still_deliver d c w : still_ d c w -> wp deliver (fun _ w' => still_ d c w') w.
Proof. intros [Hq Hd]. unfold deliver. apply wp_bind. cbn. by rewrite (quiet_irqs c). Qed.

(** The repeat start does not change the mode. *)
Lemma clear_rsta_mtx c : has (clear c MXC_I2CR_RSTA) MXC_I2CR_MTX = has c MXC_I2CR_MTX.
Proof. unfold has, clear. rewrite <- Z.land_assoc. by change (Z.land (Z.lnot MXC_I2CR_RSTA) MXC_I2CR_MTX) with MXC_I2CR_MTX. Qed.

Lemma flying_deliver n c w :
  flying n c (hw w) -> transfer_done w = false -> wp deliver (fun _ w' => under_way n c w') w.
Proof.
  intros Hf Hd. unfold deliver. apply wp_bind. cbn. destruct (hw_irqs (hw w)) as [|d0 l] eqn:E.
  { apply wp_ret. by right. }
  destruct (flying_done n c (hw w) Hf) as (d & E' & Hm & Hdone); [congruence|]. rewrite E in E'. injection E' as -> ->.
  cbn [serve_irqs]. apply wp_bind. unfold mxc_i2c_handler, io_readw. rewrite Hm.
  apply wp_bind, wp_bind. unfold wp at 1, get. destruct (hw_read (b + MXC_I2SR) (hw w)) as [sr h1].
  do 2 apply wp_bind, wp_modify. apply wp_ret, wp_bind, wp_bind. unfold wp at 1, get. cbn [hw with_ctrl].
  destruct (hw_read (b + MXC_I2CR) h1) as [cr h2]. destruct Hdone as (Hial & Hak & Hcr & Hq).
  do 2 apply wp_bind, wp_modify. apply wp_ret. rewrite Hcr, Hial, clear_rsta_mtx.
  apply wp_bind. unfold io_writew. apply wp_bind, wp_modify, wp_modify, wp_bind, wp_bind, wp_modify, wp_bind.
  destruct (has c MXC_I2CR_MTX) eqn:Em; cbn [andb].
  - rewrite Hak by done. apply wp_modify, wp_modify, wp_ret, wp_ret. by left.
  - apply wp_ret, wp_modify, wp_ret, wp_ret. left. split; [done|]. split; [done|congruence].
Qed.

(** ** Accesses *)

Lemma still_readw d a c w :
  (a = b + MXC_I2DR -> rx_effect c = []) -> still_ d c w ->
  wp (readw a) (fun v w' => v = u16 (fst (hw_read a (hw w))) /\ still_ d c w') w.
Proof.
  intros Ha [Hq Hd]. unfold readw, io_readw. apply wp_bind, wp_bind. unfold wp at 1, get.
  pose proof (quiet_read a c _ Hq Ha) as Hq1. destruct (hw_read a (hw w)) as [v h]. do 2 apply wp_bind, wp_modify.
  apply wp_ret, wp_bind. eapply wp_mono; [by apply (still_deliver d c)|]. done.
Qed.

Lemma still_readw_cr d c w :
  still_ d c w -> wp (readw (b + MXC_I2CR)) (fun v w' => v = clear c MXC_I2CR_RSTA /\ still_ d c w') w.
Proof.
  intros Hs. eapply wp_mono; [apply still_readw; [unfold MXC_I2CR, MXC_I2DR; lia|done]|].
  intros v w' [-> H']. split; [apply quiet_cr, Hs|done].
Qed.

Lemma still_readw_sr d c w :
  still_ d c w -> wp (readw (b + MXC_I2SR)) (fun v w' =>
    (has c MXC_I2CR_MSTA = false -> has v MXC_I2SR_IBB = false) /\ still_ d c w') w.
Proof.
  intros Hs. eapply wp_mono; [apply still_readw; [unfold MXC_I2SR, MXC_I2DR; lia|done]|].
  intros v w' [-> H']. split; [apply quiet_free, Hs|done].
Qed.

Lemma still_writew_cr d v c w :
  0 <= v < 2 ^ 16 -> still_ d c w -> wp (writew v (b + MXC_I2CR)) (fun _ w' => still_ d v w') w.
Proof.
  intros Hv [Hq Hd]. unfold writew, io_writew. apply wp_bind, wp_bind, wp_modify, wp_modify. apply still_deliver.
  split; [|done]. unfold u16. rewrite Z.mod_small by done. by eapply quiet_write_cr.
Qed.

Lemma still_writew d v a c w :
  a <> b + MXC_I2CR -> a <> b + MXC_I2DR -> still_ d c w -> wp (writew v a) (fun _ w' => still_ d c w') w.
Proof.
  intros H1 H2 [Hq Hd]. unfold writew, io_writew. apply wp_bind, wp_bind, wp_modify, wp_modify. apply still_deliver.
  split; [by apply quiet_write|done].
Qed.

Lemma still_elapse d t c w : still_ d c w -> wp (elapse t) (fun _ w' => still_ d c w') w.
Proof. intros [Hq Hd]. unfold elapse. apply wp_bind, wp_modify, still_deliver. split; [by apply quiet_elapse|done]. Qed.

Lemma sends v c w :
  (forall x, tx_effect c x <> []) -> still c w -> wp (writew v (b + MXC_I2DR)) (fun _ w' => under_way 14 c w') w.
Proof.
  intros Ht [Hq Hd]. unfold writew, io_writew. apply wp_bind, wp_bind, wp_modify, wp_modify.
  apply flying_deliver; [by apply send|done].
Qed.

Lemma receives c w :
  rx_effect c <> [] -> still c w -> wp (readw (b + MXC_I2DR)) (fun _ w' => under_way 14 c w') w.
Proof.
  intros Hr [Hq Hd]. unfold readw, io_readw. apply wp_bind, wp_bind. unfold wp at 1, get.
  pose proof (receive c _ Hq Hr) as Hf. destruct (hw_read (b + MXC_I2DR) (hw w)) as [v h]. do 2 apply wp_bind, wp_modify.
  apply wp_ret, wp_bind. eapply wp_mono; [by apply (flying_deliver 14 c)|]. done.
Qed.

(** ** Waits *)

Lemma wait_loop_ends n r c w :
  (n < r)%nat -> under_way n c w -> wp (wait_loop (S r) dev) (fun x w' => 0 < x /\ done_ c w') w.
Proof.
  revert n w. induction r as [|r IH]; intros n w Hn Hu; [lia|]. cbn [wait_loop]. apply wp_bind, wp_gets.
  destruct Hu as [Hd|(Hf & Hi & Hd)].
  { rewrite (proj1 (proj2 Hd)). apply wp_ret. split; [lia|done]. }
  rewrite Hd. apply wp_bind. unfold wait_done. apply wp_bind, wp_gets. rewrite Hd.
  destruct (flying_on n c _ Hf Hi) as (k & -> & Hk). unfold elapse. apply wp_bind, wp_modify.
  eapply wp_mono; [apply (flying_deliver k c); [apply Hk|done]|]. intros ? w1 H1. apply (IH k); [lia|exact H1].
Qed.

Lemma wait_ends fl c w :
  (has fl I2C_M_RD = false -> has c MXC_I2CR_MTX = true) -> under_way 14 c w ->
  wp (mxc_i2c_wait_for_tc dev fl) (fun r w' => r = 0 /\ still c w') w.
Proof.
  intros Hfl Hu. unfold mxc_i2c_wait_for_tc. apply wp_bind. eapply wp_mono; [apply (wait_loop_ends 14 15); [lia|done]|].
  intros r w1 [Hr (Hq & Hd & Hs)]. apply wp_bind, wp_modify. rewrite (proj2 (Z.leb_gt _ _)) by done.
  destruct (has fl I2C_M_RD); [by apply wp_ret|]. apply wp_bind, wp_gets. cbn [negb tx_success].
  rewrite Hs by by apply Hfl. by apply wp_ret.
Qed.

(** ** The routines *)

Ltac via L := apply wp_bind; eapply wp_mono; [eapply L; eassumption|cbv beta].
Ltac via_cr tac := apply wp_bind; eapply wp_mono; [eapply still_writew_cr; [tac|eassumption]|cbv beta].

Lemma still_stop c w :
  0 <= c < 2 ^ 16 -> still c w ->
  wp (mxc_i2c_stop dev) (fun _ w' => still (clear (clear c MXC_I2CR_RSTA) (setb MXC_I2CR_MSTA MXC_I2CR_MTX)) w') w.
Proof.
  intros Hc Hs. unfold mxc_i2c_stop. via still_readw_cr. intros cr w1 [-> H1].
  via_cr ltac:(by do 2 (apply clear_range; [lia|])). intros ? w2 H2. revert w2 H2. generalize 16%nat as n.
  induction n as [|n IH]; intros w2 H2; cbn [stop_loop]; via still_readw_sr; intros sr w3 [_ H3];
    destruct (negb _); try done. via still_elapse. intros ? w4 H4. by apply IH.
Qed.

Lemma start_ends m w : still CR_IDLE w -> wp (mxc_i2c_start dev m) (fun _ w' => under_way 14 CR_TX w') w.
Proof.
  intros Hs. unfold mxc_i2c_start. via still_readw_cr. intros cr w1 [-> H1]. via_cr ltac:(done). intros ? w2 H2.
  via still_readw_sr. intros sr w3 [_ H3]. apply wp_bind.
  eapply wp_mono with (P := fun _ w' => still 0xE0 w').
  - revert sr w3 H3. generalize 16%nat as n. induction n as [|n IH]; intros sr w3 H3; cbn [start_loop]; [done|].
    destruct (negb _); [|done]. via still_elapse. intros ? w4 H4. via still_readw_sr. intros sr' w5 [_ H5]. by apply IH.
  - intros ? w4 H4. cbv beta in H4. via still_readw_cr. intros cr w5 [-> H5]. via_cr ltac:(done). intros ? w6 H6. by apply (sends _ CR_TX).
Qed.

Lemma repstart_ends m c w :
  c = CR_TX \/ c = CR_RST -> still c w -> wp (mxc_i2c_repstart dev m) (fun _ w' => under_way 14 CR_RST w') w.
Proof.
  intros Hc Hs. unfold mxc_i2c_repstart. via still_readw_cr. intros cr w1 [-> H1].
  via_cr ltac:(by destruct Hc as [-> | ->]). intros ? w2 H2. via still_elapse. intros ? w3 H3.
  apply (sends _ CR_RST); [done|]. destruct Hc as [-> | ->]; exact H3.
Qed.

Lemma write_loop_ends n i m w :
  0 <= i -> (Z.to_nat i + n <= length (buf m))%nat -> is_read m = false -> still CR_TX w ->
  wp (writebytes_loop n i dev m) (fun r w' => r = i + Z.of_nat n /\ still CR_TX w') w.
Proof.
  intros Hi Hn Hm. revert i w Hi Hn. induction n as [|n IH]; intros i w Hi Hn Hs; cbn [writebytes_loop].
  { apply wp_ret. split; [lia|done]. }
  destruct (lookup_lt_is_Some_2 (buf m) (Z.to_nat i)) as [x Ex]; [lia|]. rewrite Ex. apply wp_bind, wp_ret.
  apply wp_bind. eapply wp_mono; [by apply (sends _ CR_TX)|]. intros ? w1 H1. apply wp_bind.
  eapply wp_mono; [apply (wait_ends _ CR_TX); [done|exact H1]|]. intros r w2 [-> H2]. cbn [Z.eqb negb].
  eapply wp_mono; [apply (IH (i + 1)); [lia|lia|exact H2]|]. intros r w3 [-> H3]. split; [lia|done].
Qed.

Lemma writebytes_ends m last c w :
  c = CR_TX \/ c = CR_RST -> wf_msg m -> is_read m = false -> still c w ->
  wp (mxc_i2c_writebytes dev m last) (fun r w' => r = len m /\ still (if last then CR_IDLE else CR_TX) w') w.
Proof.
  intros Hc (_ & Hl & Hb & _) Hm Hs. unfold mxc_i2c_writebytes. via still_readw_cr. intros cr w1 [-> H1].
  via_cr ltac:(by destruct Hc as [-> | ->]). intros ? w2 H2.
  assert (still CR_TX w2) as H3 by (destruct Hc as [-> | ->]; exact H2).
  apply wp_bind. eapply wp_mono; [apply write_loop_ends; [lia|lia|done|exact H3]|]. intros r w4 [-> H4].
  rewrite (proj2 (Z.ltb_ge _ _)) by lia. apply wp_bind. destruct last.
  - eapply wp_mono; [by eapply still_stop; [|exact H4]|]. intros ? w5 H5. apply wp_ret. split; [lia|exact H5].
  - apply wp_ret, wp_ret. split; [lia|exact H4].
Qed.

Lemma read_loop_ends n i m got w :
  (0 < n)%nat -> i + Z.of_nat n = len m -> is_read m = true -> under_way 14 (cr_rx n) w ->
  wp (readbytes_loop n i dev m true got) (fun r w' => 0 <= i -> fst r = len m /\ still 0xC8 w') w.
Proof.
  intros Hn Hi Hm. revert i got w Hn Hi. induction n as [|n IH]; intros i got w Hn Hi Hu; [lia|]. cbn [readbytes_loop].
  apply wp_bind. eapply wp_mono; [apply (wait_ends _ (cr_rx (S n))); [|exact Hu]|].
  { unfold is_read in Hm. congruence. }
  intros r w1 [-> H1]. cbn [Z.eqb negb]. destruct n as [|n].
  - rewrite (proj2 (Z.eqb_neq i (len m - 2))), (proj2 (Z.eqb_eq i (len m - 1))) by lia.
    apply wp_bind. eapply wp_mono; [by eapply still_stop; [|exact H1]|]. intros ? w2 H2.
    apply wp_bind. eapply wp_mono; [by apply (still_readw false _ 0xC8)|]. intros v w3 [_ H3]. apply wp_ret. cbn [fst].
    intros _. split; [lia|exact H3].
  - rewrite (proj2 (Z.eqb_neq i (len m - 1))) by lia. apply wp_bind.
    eapply wp_mono with (P := fun _ w' => still (cr_rx (S n)) w').
    + destruct (Z.eqb_spec i (len m - 2)).
      * assert (n = 0%nat) as -> by lia. via still_readw_cr. intros cr w2 [-> H2].
        by eapply wp_mono; [eapply still_writew_cr; [|exact H2]|].
      * apply wp_ret. destruct n; [lia|]. exact H1.
    + intros ? w2 H2. apply wp_bind. eapply wp_mono; [apply (receives (cr_rx (S n))); [by rewrite rx_effect_rx|exact H2]|].
      intros v w3 H3. eapply wp_mono; [apply IH; [lia|lia|exact H3]|]. intros r w4 H4 Hi0. apply H4. lia.
Qed.

Lemma readbytes_ends m c w :
  c = CR_TX \/ c = CR_RST -> 1 <= len m -> is_read m = true -> still c w ->
  wp (mxc_i2c_readbytes dev m true true) (fun r w' => fst r = len m /\ still 0xC8 w') w.
Proof.
  intros Hc Hl Hm Hs. unfold mxc_i2c_readbytes. via still_readw_cr. intros cr w1 [-> H2].
  set (n := Z.to_nat (len m)). cbv zeta.
  assert (clear c MXC_I2CR_RSTA = CR_TX) as -> by (by destruct Hc as [-> | ->]).
  assert ((if len m =? 1 then setb (clear CR_TX MXC_I2CR_MTX) MXC_I2CR_TXAK
           else clear (clear CR_TX MXC_I2CR_MTX) MXC_I2CR_TXAK) = cr_rx n) as ->.
  { unfold cr_rx, n. destruct (Z.eqb_spec (len m) 1), (Nat.eqb_spec (Z.to_nat (len m)) 1); try lia; done. }
  via_cr ltac:(unfold cr_rx; by destruct (n =? 1)%nat). intros ? w3 H3.
  apply wp_bind, wp_bind. eapply wp_mono; [apply (receives (cr_rx n)); [by rewrite rx_effect_rx|exact H3]|].
  intros v w4 H4. apply wp_ret, wp_bind. eapply wp_mono; [apply read_loop_ends; [lia|lia|done|exact H4]|].
  intros r w5 H5. apply wp_ret. by apply H5.
Qed.

(** ** A transfer *)

Lemma addr_cycle_lives prev m c w :
  c ∈ cr_of prev -> still c w ->
  wp (addr_cycle dev prev m) (fun a w' => a = Some match prev with Some p => needs_restart p m | None => true end /\
    exists c', c' ∈ cr_of (Some m) /\ still c' w') w.
Proof.
  intros Hc Hs.
  assert (forall c' w', c' ∈ cr_of (Some m) -> under_way 14 c' w' ->
    wp (addr_wait dev m) (fun a w' => a = Some true /\ exists c', c' ∈ cr_of (Some m) /\ still c' w') w') as Hwait.
  { intros c' w' Hc' Hu. unfold addr_wait. apply wp_bind. eapply wp_mono; [apply (wait_ends _ c'); [|exact Hu]|].
    - intros _. cbn in Hc'. set_unfold in Hc'. by destruct Hc' as [-> |[-> |[]]].
    - intros r w1 [-> H1]. apply wp_ret. eauto. }
  unfold addr_cycle. destruct prev as [p|]; cbn in Hc; set_unfold in Hc.
  - destruct (needs_restart p m).
    + apply wp_bind. eapply wp_mono; [apply (repstart_ends _ c); [tauto|done]|]. intros ? w1 H1.
      apply (Hwait CR_RST); [cbn; set_solver|exact H1].
    + apply wp_ret. split; [done|]. exists c. split; [cbn; set_solver|done].
  - destruct Hc as [-> |[]]. apply wp_bind. eapply wp_mono; [by apply start_ends|]. intros ? w1 H1.
    apply (Hwait CR_TX); [cbn; set_solver|exact H1].
Qed.

Lemma xfer_loop_lives i prev msgs c w :
  supported msgs = true -> Forall wf_msg msgs -> wrote prev -> c ∈ cr_of prev -> still c w ->
  wp (xfer_loop dev i prev msgs) (fun r _ => fst r = Some (i + Z.of_nat (length msgs))) w.
Proof.
  revert i prev c w. induction msgs as [|m msgs IH]; intros i prev c w Hsup Fw Hprev Hc Hs; cbn [xfer_loop supported] in *.
  { apply wp_ret. cbn [fst length]. f_equal. lia. }
  apply Forall_cons in Fw as [Hm Fw]. apply wp_bind. eapply wp_mono; [by eapply addr_cycle_lives|].
  intros a w1 [-> (c1 & Hc1 & H1)]. cbn in Hc1. set_unfold in Hc1. assert (c1 = CR_TX \/ c1 = CR_RST) as Hc1' by tauto.
  unfold data_cycle. fold (is_read m). apply wp_bind. destruct (is_read m) eqn:Er.
  - apply andb_true_iff in Hsup as [Hlen%Z.leb_le Hlast]. apply bool_decide_eq_true in Hlast as Hnil. subst msgs.
    assert (match prev with Some p => needs_restart p m | None => true end = true) as ->
      by (destruct prev as [p|]; [by apply restart_read|done]).
    rewrite Hlast. eapply wp_mono; [by eapply readbytes_ends|]. intros r w2 [-> H2].
    rewrite (proj2 (Z.ltb_ge _ _)) by lia. cbn [xfer_loop]. by apply wp_bind, wp_ret, wp_ret.
  - apply wp_bind. eapply wp_mono; [by eapply writebytes_ends|]. intros r w2 [-> H2]. apply wp_ret. cbn [fst].
    rewrite (proj2 (Z.ltb_ge _ _)) by (destruct Hm as (_ & ? & _); lia). apply wp_bind.
    eapply wp_mono with (P := fun q _ => fst q = Some (i + 1 + Z.of_nat (length msgs))).
    + case_bool_decide as En; [subst msgs; by apply wp_ret; cbn [fst length]; f_equal; lia|].
      apply (IH _ _ CR_TX); [done..|cbn; set_solver|exact H2].
    + intros q w3 Eq. apply wp_ret. cbn [fst length] in *. rewrite Eq. f_equal. lia.
Qed.

Lemma xfer_lives msgs w :
  low_power dev = false -> msgs <> [] -> supported msgs = true -> Forall wf_msg msgs -> quiet 0 (hw w) ->
  wp (mxc_i2c_xfer dev msgs) (fun r _ => fst r = Z.of_nat (length msgs) - 1) w.
Proof.
  intros Hlp Hne Hsup Fw Hq. unfold mxc_i2c_xfer. rewrite Hlp.
  rewrite (proj2 (Z.ltb_ge _ _)) by (destruct msgs; [done|simpl; lia]).
  apply wp_bind. eapply wp_mono with (P := fun _ w' => still_ (transfer_done w) CR_IDLE w').
  { unfold mxc_i2c_module_en. apply wp_bind, wp_modify.
    apply wp_bind. eapply wp_mono; [apply (still_writew (transfer_done w) _ _ 0); [unfold MXC_IFDR, MXC_I2CR, MXC_I2DR; lia..|done]|].
    intros ? w1 H1. apply wp_bind.
    eapply wp_mono; [apply (still_writew (transfer_done w) _ _ 0); [unfold MXC_I2SR, MXC_I2CR, MXC_I2DR; lia..|exact H1]|].
    intros ? w2 H2. apply wp_bind. eapply wp_mono; [by eapply still_writew_cr; [|exact H2]|]. intros ? w3 H3.
    by eapply still_writew_cr; [|exact H3]. }
  intros ? w1 H1. apply wp_bind. eapply wp_mono; [by eapply still_readw_sr|]. intros sr w2 [Hsr [Hq2 _]].
  rewrite Hsr by done. apply wp_bind, wp_modify, wp_bind, wp_modify, wp_bind.
  eapply wp_mono; [apply (xfer_loop_lives 0 None msgs CR_IDLE); [done..|cbn; set_solver|done]|].
  intros [q ms] w3 Eq. cbn [fst snd] in *. rewrite Eq. apply wp_bind. eapply wp_mono; [apply module_dis_closes|].
  intros ? w4 _. apply wp_ret. cbn [fst]. lia.
Qed.

End Live.
