(* ===== verification/I2cClock.v ===== *)
(** * The I2C driver on the i.MX27 clock framework

    The calls a transfer makes of the clock API, run on the clock framework of
    [plat-mxc/clock.c] with the i.MX27 clock tree: enabled for exactly the accesses, and
    every clock object as before when the transfer is over. *)

From stdpp Require Import base gmap list strings.
From Stdlib Require Import ZArith Lia.
From S2P Require Import Prelude I2c I2cTrace ClkFramework ClkCounts ClkEnable ClkClients ClkRates CrmRegs.
From S2P Require Import Mx27ClockTable Mx27Clock Mx27ClockLaws Mx27Tree Mx27Boot Mx27Init.

(** Registers are accessed only while the device's clock is enabled, [n] times so far, and
    in the end it is not. *)
Fixpoint clocked (n : Z) (l : list ev) : bool :=
  match l with
  | [] => n =? 0
  | ClkOn _ :: l' => clocked (n + 1) l'
  | ClkOff _ :: l' => (0 <? n) && clocked (n - 1) l'
  | Rd _ _ :: l' | Wr _ _ :: l' => (0 <? n) && clocked n l'
  | _ :: l' => clocked n l'
  end.

Lemma clocked_access n l l' : 0 < n -> Forall reg_access l -> clocked n (l ++ l') = clocked n l'.
Proof.
  intros Hn. induction l as [|e l IH]; intros F; [done|]. apply Forall_cons in F as [He F].
  destruct e; try done; cbn [app clocked]; rewrite (proj2 (Z.ltb_lt _ _)) by done; by apply IH.
Qed.

Lemma closed_clocked dev l : closed dev l -> clocked 1 l = true.
Proof.
  intros (l1 & l2 & -> & F1 & tail & -> & F2). rewrite clocked_access by done. cbn [clocked].
  by rewrite clocked_access by (done || by apply mild_access).
Qed.

(** The clocks of the two controllers, and the calls of a log. *)
Definition i2c_clock (c : Z) : @clkp mx27_sig := i2c_clk (Z.to_nat c).

Fixpoint clock_calls (l : list ev) : M (@clkst mx27_sig) unit :=
  match l with
  | [] => mret tt
  | ClkOn c :: l' => ClkFramework.clk_enable (CPtr (i2c_clock c));; clock_calls l'
  | ClkOff c :: l' => ClkFramework.clk_disable (CPtr (i2c_clock c));; clock_calls l'
  | _ :: l' => clock_calls l'
  end.

Lemma clock_calls_access l l' : Forall reg_access l -> clock_calls (l ++ l') = clock_calls l'.
Proof.
  induction l as [|e l IH]; intros F; [done|]. apply Forall_cons in F as [He F]. destruct e; try done; by apply IH.
Qed.

(** A transfer's calls: its clock is enabled and then disabled. *)
Lemma closed_calls dev l :
  closed dev l -> clock_calls l = (ClkFramework.clk_disable (CPtr (i2c_clock (I2c.clk dev)));; mret tt).
Proof.
  intros (l1 & l2 & -> & F1 & tail & -> & F2). rewrite clock_calls_access by done. cbn [clock_calls].
  by rewrite clock_calls_access by by apply mild_access.
Qed.

(** The clocks exist on a machine in operation. *)
Lemma i2c_object (s : clkst) u c :
  operational u s -> c = 0 \/ c = 1 -> is_Some (clk_mem s !! i2c_clock c).
Proof.
  intros (_ & _ & _ & _ & Ht & Hrev & _) Hc. apply tree_dom; [done|].
  apply (registered_object (system_rev (hw s))), (bool_decide_eq_true_1 _).
  destruct Hrev as [-> | ->], Hc as [-> | ->]; vm_compute; reflexivity.
Qed.

Lemma calls_restore dev l u (s : clkst) :
  operational u s -> (forall c, u c <= 26) -> I2c.clk dev = 0 \/ I2c.clk dev = 1 -> closed dev l ->
  wp (clock_calls (ClkOn (I2c.clk dev) :: l)) (fun _ s' => clk_mem s' = clk_mem s) s.
Proof.
  intros Hop Hu Hc Hl. pose proof Hop as (_ & Hlk & _ & Hs & _).
  pose proof (i2c_object s u _ Hop Hc) as Hobj. cbn [clock_calls]. rewrite (closed_calls dev) by done.
  set (c := i2c_clock (I2c.clk dev)) in *.
  assert (fits (plus u c 1) ∅ (clk_mem s)) as Hf.
  { apply (links_fits (muxes_of (hw s))); [done|]. intros x. unfold plus. specialize (Hu x). case_decide; lia. }
  destruct (enable_disable_run (Sig := mx27_sig) mx27_rank u s c Hs Hobj Hf) as (ret & s1 & E1 & Hdis).
  pose proof (clk_enable_zero _ _ _ _ E1) as ->. destruct (Hdis eq_refl) as (s2 & E2 & Em).
  apply wp_run. exists tt, s2. split; [|done]. rewrite (run_bind _ _ _ _ _ E1), (run_bind _ _ _ _ _ E2). done.
Qed.
