(* ===== verification/I2cMain.v ===== *)
(** * The theorems about the I2C driver

    On any hardware: registers are accessed only while the clock is enabled, and messages
    keep their shape.  On a controller that keeps its control register: what is on the
    bus when a transfer is reported complete, and that a write after a read never is.  On
    a bus that answers: the transfer is complete.  And the choice of the divider. *)

From stdpp Require Import base list sets.
From Stdlib Require Import ZArith Lia.
From S2P Require Import Prelude I2c I2cTrace I2cBus I2cTurn I2cLive ClkFramework Mx27ClockTable Mx27Init I2cClock.

(** ** The divider *)

(** The dividers of a table in ascending order. *)
Fixpoint ascending (l : list (Z * Z)) : bool :=
  match l with
  | [] => true
  | (_, d) :: l' => forallb (fun e => d <=? snd e) l' && ascending l'
  end.

Lemma find_div_spec l x :
  ascending l = true ->
  match find_div l x with
  | Some v => exists d, (v, d) ∈ l /\ x <= d /\ forall v' d', (v', d') ∈ l -> x <= d' -> d <= d'
  | None => forall v d, (v, d) ∈ l -> d < x
  end.
Proof.
  induction l as [|[v d] l IH]; cbn [ascending find_div]; intros Ha; [set_solver|].
  apply andb_true_iff in Ha as [Hd Ha]. rewrite forallb_forall in Hd. destruct (Z.leb_spec x d).
  - exists d. split; [set_solver|]. split; [done|]. intros v' d' [[= -> ->]|Hin]%elem_of_cons _; [done|].
    by apply list_elem_of_In, Hd, Z.leb_le in Hin.
  - specialize (IH Ha). destruct (find_div l x) as [v0|].
    + destruct IH as (d0 & H1 & H2 & H3). exists d0. split; [set_solver|]. split; [done|].
      intros v' d' [[= -> ->]|Hin]%elem_of_cons Hx; [lia|]. by apply (H3 v').
    + intros v' d' [[= -> ->]|Hin]%elem_of_cons; [done|]. by apply (IH v').
Qed.

Lemma table_ascending : ascending i2c_clk_table = true.
Proof. vm_compute. reflexivity. Qed.

Lemma table_ranges v d : (v, d) ∈ i2c_clk_table -> 0 <= v <= 0x3F /\ 22 <= d <= 3840.
Proof.
  intros Hin%list_elem_of_In.
  assert (forallb (fun e => (0 <=? fst e) && (fst e <=? 0x3F) && (22 <=? snd e) && (snd e <=? 3840)) i2c_clk_table = true)
    as F by (vm_compute; reflexivity).
  rewrite forallb_forall in F. specialize (F _ Hin). cbn [fst snd] in F. lia.
Qed.

(** The rounded quotient is at most [d] exactly when dividing by [d] is slow enough. *)
Lemma ceil_le f k d : 0 < k -> (f + k - 1) / k <= d <-> f <= d * k.
Proof.
  intros Hk. split; intros Hd.
  - pose proof (Z.mul_succ_div_gt (f + k - 1) k Hk). nia.
  - assert ((f + k - 1) / k < d + 1) by (apply Z.div_lt_upper_bound; nia). lia.
Qed.

(** Values from the table are taken as they are. *)
Lemma choose_clkdiv_eq f k :
  0 < k -> 0 <= f < 2 ^ 31 -> f + k <= 2 ^ 32 ->
  choose_clkdiv f k = default 0x1F (find_div i2c_clk_table ((f + k - 1) / k)).
Proof.
  intros Hk Hf Hfk. unfold choose_clkdiv. rewrite (proj2 (Z.eqb_neq k 0)) by lia. cbn [negb].
  rewrite (u32_small (f + k - 1)) by lia. change (u32 (-1)) with 4294967295.
  assert (s32 ((f + k - 1) / k) = (f + k - 1) / k) as ->.
  { assert (0 <= (f + k - 1) / k) by (apply Z.div_pos; lia).
    assert ((f + k - 1) / k <= f + 1) by (apply Z.div_le_upper_bound; nia).
    assert ((f + k - 1) / k < 2 ^ 31).
    { destruct (decide (k = 1)) as [->|]; [rewrite Z.div_1_r; lia|]. apply Z.div_lt_upper_bound; nia. }
    unfold s32. rewrite Z.mod_small; lia. }
  pose proof (find_div_spec i2c_clk_table ((f + k - 1) / k) table_ascending) as S.
  destruct (find_div _ _) as [v|]; simpl; [|done].
  destruct S as (d & Hin & _). apply table_ranges in Hin. destruct (Z.eqb_spec v 4294967295); [lia|done].
Qed.

(** C36: the bus clock.  From a module clock of [f] and for a requested bus clock of [k],
    the register value that probing chooses belongs to the smallest divider of the table
    with which the bus does not run faster than requested; when even the largest divider is
    too small, it is that of the largest divider (and the bus runs faster than
    requested). *)
Theorem i2c_clkdiv_best f k :
  0 < k -> 0 <= f < 2 ^ 31 -> f + k <= 2 ^ 32 ->
  (f <= 3840 * k -> exists d, (choose_clkdiv f k, d) ∈ i2c_clk_table /\ f <= d * k /\
     forall v' d', (v', d') ∈ i2c_clk_table -> f <= d' * k -> d <= d') /\
  (3840 * k < f -> choose_clkdiv f k = 0x1F /\ forall v d, (v, d) ∈ i2c_clk_table -> d * k < f).
Proof.
  intros Hk Hf Hfk. rewrite choose_clkdiv_eq by done.
  pose proof (find_div_spec i2c_clk_table ((f + k - 1) / k) table_ascending) as S.
  assert ((0x1F, 3840) ∈ i2c_clk_table) as Hmax by (apply (bool_decide_eq_true_1 _); vm_compute; reflexivity).
  split; intros Hm.
  - destruct (find_div _ _) as [v|]; [|by apply S in Hmax; apply (ceil_le f k 3840) in Hm; lia].
    destruct S as (d & Hin & Hd & Hmin). exists d. split; [done|]. split; [by apply ceil_le|].
    intros v' d' Hin' Hd'. by apply (Hmin v'); [|apply ceil_le].
  - assert (forall v d, (v, d) ∈ i2c_clk_table -> d * k < f) as Hall
      by (intros v d [_ Hd]%table_ranges; nia).
    split; [|done]. destruct (find_div _ _) as [v|]; [|done]. destruct S as (d & Hin & Hd & _).
    apply Hall in Hin. apply ceil_le in Hd; lia.
Qed.

Section AnyHardware.
Context {H : Type} {Hw : I2cHw H}.
Implicit Types (w : world H) (dev : mxc_i2c_device).

(** C19: types are kept.  On any hardware, with any interrupts, [mxc_i2c_xfer] returns on
    well-formed messages: the messages it leaves are as many and well-formed (buffers of
    their length, of bytes), with the addresses, flags and lengths they had; only buffers of
    reads may have changed.  The result is an error, or a number from -1 to one less than
    the number of messages. *)
Theorem i2c_xfer_typed dev msgs w :
  Forall wf_msg msgs ->
  exists ret msgs' w', mxc_i2c_xfer dev msgs w = Ret ((ret, msgs'), w') /\
    Forall wf_msg msgs' /\ Forall2 same_shape msgs msgs' /\
    (ret = - EREMOTEIO \/ -1 <= ret < Z.of_nat (length msgs) \/ (msgs = [] /\ ret = 0)).
Proof.
  intros F. destruct (low_power dev) eqn:Hlp.
  { exists (- EREMOTEIO), msgs, w. unfold mxc_i2c_xfer. rewrite Hlp. split; [done|].
    destruct (kept_refl msgs F). by auto. }
  destruct (decide (msgs = [])) as [->|Hne].
  { exists 0, [], w. unfold mxc_i2c_xfer. rewrite Hlp. split; [done|]. destruct (kept_refl [] F). split; [done|]. split; [done|]. auto. }
  destruct (proj1 (wp_run _ _ _) (xfer_run dev msgs w Hlp Hne F)) as ([ret msgs'] & w' & E & _ & [K1 K2] & R).
  exists ret, msgs', w'. cbn [fst snd] in *. tauto.
Qed.

(** A transfer of one message never reports the one message that its caller looks for: on
    success it reports zero. *)
Lemma one_message dev m w :
  wf_msg m -> wp (i2c_transfer true dev [m]) (fun r _ => fst r = - EREMOTEIO \/ fst r = -1 \/ fst r = 0) w.
Proof.
  intros Hm. unfold i2c_transfer. destruct (low_power dev) eqn:Hlp.
  { unfold mxc_i2c_xfer. rewrite Hlp. apply wp_ret. by left. }
  eapply wp_mono; [apply xfer_run; [done|done|by apply Forall_singleton]|].
  intros r w' (_ & _ & [E|E]); [by left|]. cbn [length] in E. lia.
Qed.

Lemma master_send_result dev a fl bytes count w :
  Z.of_nat (length bytes) = count -> count < 2 ^ 16 -> Forall is_byte bytes ->
  wp (i2c_master_send dev a fl bytes count) (fun r _ => r = - EREMOTEIO \/ r = -1 \/ r = 0) w.
Proof.
  intros Hc Hl F. unfold i2c_master_send. apply wp_bind. eapply wp_mono; [apply one_message|].
  { unfold wf_msg. cbn [addr len buf]. unfold u16. rewrite (Z.mod_small count) by lia.
    split; [apply Z.mod_pos_bound; lia|]. split; [lia|]. done. }
  intros r w' Hr. apply wp_ret. rewrite (proj2 (Z.eqb_neq _ _)) by (unfold EREMOTEIO in Hr; lia). done.
Qed.

(** ** Power management and probing *)

(** A suspended device refuses every transfer without an access. *)
Lemma suspended_refuses fuel d w :
  wlp (mxci2c_suspend fuel (Some d)) (fun r _ => forall d', snd r = Some d' -> forall msgs (w2 : world H),
    mxc_i2c_xfer d' msgs w2 = Ret ((- EREMOTEIO, msgs), w2)) w.
Proof.
  unfold mxci2c_suspend. apply wlp_bind. unfold wlp. destruct (readw _ w) as [[sr w1]|]; [|done].
  apply wlp_bind. unfold wlp. destruct (suspend_loop _ _ _ w1) as [[[] w2]|]; [|done]. by intros d' [= <-] msgs w3.
Qed.

(** How often the log has taken a resource more than it has given it back: memory, the
    interrupt, the pins, the adapter, the clock. *)
Inductive resource : Type := RMem | RIrq | RPins | RAdapter | RClk.

Definition takes (x : resource) (e : ev) : Z :=
  match x, e with
  | RMem, Alloc | RIrq, IrqOn _ | RPins, PinsOn _ | RAdapter, AdapterOn _ | RClk, ClkGet _ => 1
  | RMem, Free | RIrq, IrqOff _ | RPins, PinsOff _ | RAdapter, AdapterOff _ | RClk, ClkPut _ => -1
  | _, _ => 0
  end.

Definition taken (x : resource) (l : list ev) : Z := foldr (fun e n => takes x e + n) 0 l.

(** A probe that fails gives back what it took, but for the clock; one that succeeds and the
    removal together give back everything but the memory. *)
Lemma probe_resources e id w :
  wp (mxci2c_probe e id) (fun r w' => exists l, log w' = log w ++ l /\
    match snd r with
    | None => fst r < 0 /\ forall x, x <> RClk -> taken x l = 0
    | Some d => fst r = 0 /\ d = mkI2c (membase d) (plat_irq e) (choose_clkdiv (clk_freq e) (i2c_clk_hz e)) id false id 1 /\
        forall id' w2, wp (mxci2c_remove d id') (fun r2 w3 => r2 = 0 /\ exists l', log w3 = log w2 ++ l' /\
          forall x, taken x (l ++ l') = match x with RMem => 1 | _ => 0 end) w2
    end) w.
Proof.
  unfold mxci2c_probe. destruct (kzalloc_ok e); cbn [negb]; [|apply wp_ret; exists []; rewrite app_nil_r; done].
  apply wp_bind, wp_modify. destruct (mem_start e) as [base|].
  2: { apply wp_bind, wp_modify, wp_ret. exists [Alloc; Free]. cbn. rewrite <- app_assoc. split; [done|]. split; [done|]. by intros []. }
  destruct (Z.ltb_spec (plat_irq e) 0).
  { apply wp_bind, wp_modify, wp_ret. exists [Alloc; Free]. cbn. rewrite <- app_assoc. split; [done|]. split; [done|]. by intros []. }
  destruct (Z.ltb_spec (request_irq_ret e) 0).
  { apply wp_bind, wp_modify, wp_ret. exists [Alloc; Free]. cbn. rewrite <- app_assoc. split; [done|]. split; [done|]. by intros []. }
  do 3 apply wp_bind, wp_modify. cbv zeta. destruct (Z.ltb_spec (add_adapter_ret e) 0).
  - do 3 apply wp_bind, wp_modify. apply wp_ret. cbn. rewrite <- !app_assoc. eexists. split; [reflexivity|]. split; [done|].
    by intros [].
  - apply wp_bind, wp_modify, wp_ret. cbn [fst snd log]. rewrite <- !app_assoc. eexists. split; [reflexivity|].
    split; [done|]. split; [done|]. intros id' w2. unfold mxci2c_remove. do 4 apply wp_bind, wp_modify. apply wp_ret.
    split; [done|]. cbn [log]. rewrite <- !app_assoc. eexists. split; [reflexivity|]. by intros [].
Qed.

(** C8: clocks and accesses.  On any hardware, with any interrupts, all accesses of
    [mxc_i2c_xfer] to registers, those of the interrupts included, are made while the device's
    clock is enabled.  A transfer that is started ends with zero in the control register and
    the clock disabled.  Run on the i.MX27 clock framework, with at most 26 holds on
    each clock, the calls it makes return and leave every clock object, use counts
    included, as it was. *)
Theorem i2c_xfer_clocked dev msgs w u (s : @clkst mx27_sig) :
  Forall wf_msg msgs -> I2c.clk dev = 0 \/ I2c.clk dev = 1 -> operational u s -> (forall c, u c <= 26) ->
  exists r w' l, mxc_i2c_xfer dev msgs w = Ret (r, w') /\ log w' = log w ++ l /\
    clocked 0 l = true /\
    (low_power dev = false -> msgs <> [] -> exists l1, l = ClkOn (I2c.clk dev) :: l1 /\ closed dev l1) /\
    wp (clock_calls l) (fun _ s' => clk_mem s' = clk_mem s) s.
Proof.
  intros F Hc Hop Hu.
  assert (low_power dev = true \/ msgs = [] -> exists r, mxc_i2c_xfer dev msgs w = Ret (r, w)) as Hidle.
  { unfold mxc_i2c_xfer. destruct (low_power dev); [by exists (- EREMOTEIO, msgs)|]. intros [?| ->]; [done|].
    by exists (0, []). }
  destruct (decide (low_power dev = true \/ msgs = [])) as [Hi|Hi].
  { destruct (Hidle Hi) as [r E]. exists r, w, []. rewrite app_nil_r. split; [done|]. split; [done|]. split; [done|].
    split; [intros E1 E2; destruct Hi; congruence|done]. }
  assert (low_power dev = false /\ msgs <> []) as [Hlp Hne] by (destruct (low_power dev); tauto).
  destruct (proj1 (wp_run _ _ _) (xfer_run dev msgs w Hlp Hne F)) as (r & w' & E & (l & El & Hl) & _).
  exists r, w', (ClkOn (I2c.clk dev) :: l). split; [done|]. split; [done|]. split; [by eapply closed_clocked|].
  split; [eauto|]. by apply (calls_restore dev l u s).
Qed.

End AnyHardware.

Section Controller.
Context {H : Type} {Hw : I2cHw H} (dev : mxc_i2c_device) {Kept : ControlKept Hw (membase dev)}.
Implicit Types w : world H.

(** C2: a transfer that is reported complete was on the bus.  On a controller that keeps its
    control register, from the disabled module: [mxc_i2c_xfer] leaves the module disabled;
    and if for writes followed by at most one read of one byte or more, to seven bit addresses,
    it reports all messages (one less than their number), then its accesses made on the bus exactly the transaction of the messages
    (start, address, bytes, repeated start where address or direction change, an
    acknowledgement of every byte received but the last, stop), and the buffer of the read
    holds the bytes read from the data register, after the dummy read. *)
Theorem i2c_xfer_refines_bus msgs w :
  low_power dev = false -> msgs <> [] -> supported msgs = true ->
  Forall wf_msg msgs -> Forall (fun m => addr m < 128) msgs -> cr_is 0 (I2c.hw w) ->
  exists ret msgs' w', mxc_i2c_xfer dev msgs w = Ret ((ret, msgs'), w') /\ cr_is 0 (I2c.hw w') /\
    (ret = Z.of_nat (length msgs) - 1 -> exists l x, log w' = log w ++ l /\ (length x <= 1)%nat /\
       decode (membase dev) l = mkCtl 0 (spec_bus None msgs) (x ++ received msgs')).
Proof.
  intros Hlp Hne Hsup F Fa Hc.
  destruct (proj1 (wp_run _ _ _) (xfer_on_bus dev msgs w Hlp Hne Hsup F Fa Hc)) as ([ret msgs'] & w' & E & Hbus).
  exists ret, msgs', w'. split; [done|]. split; [|done].
  pose proof (xfer_cr dev msgs w F Hc) as W. unfold wp in W. by rewrite E in W.
Qed.

(** C26: a write after a read is never complete.  On a controller that keeps its control
    register and is the only one that interrupts, whatever the slaves do: a transfer in which a
    read of one byte or more is followed by a write fails with an error, or reports fewer
    messages than there are before the read: after a read the controller is left in receive
    mode, where the address of the write is neither sent nor can count as acknowledged. *)
Theorem i2c_write_after_read_fails pre r m post w :
  (forall h d, d ∈ hw_irqs h -> membase d = membase dev) ->
  low_power dev = false -> is_read r = true -> 1 <= len r -> is_read m = false ->
  Forall wf_msg (pre ++ r :: m :: post) ->
  exists ret msgs' w', mxc_i2c_xfer dev (pre ++ r :: m :: post) w = Ret ((ret, msgs'), w') /\
    (ret = - EREMOTEIO \/ ret < Z.of_nat (length pre)).
Proof.
  intros Hmine Hlp Hr Hl Hm F.
  destruct (proj1 (wp_run _ _ _) (turn_xfer dev Hmine pre r m post w Hlp Hr Hl Hm F)) as ([ret msgs'] & w' & E & C).
  by exists ret, msgs', w'.
Qed.

(** C9: transfers complete.  On a controller that keeps its control register, on a bus that
    answers (every byte is reported within fourteen waits, and acknowledged when sent), writes
    followed by at most one read of one byte or more, to seven bit addresses, are all reported,
    and the bus saw their transaction. *)
Theorem i2c_xfer_completes {Ans : Answers Hw (membase dev)} msgs w :
  low_power dev = false -> msgs <> [] -> supported msgs = true ->
  Forall wf_msg msgs -> Forall (fun m => addr m < 128) msgs -> cr_is 0 (I2c.hw w) -> quiet 0 (I2c.hw w) ->
  exists msgs' w' l x, mxc_i2c_xfer dev msgs w = Ret ((Z.of_nat (length msgs) - 1, msgs'), w') /\
    log w' = log w ++ l /\ (length x <= 1)%nat /\
    decode (membase dev) l = mkCtl 0 (spec_bus None msgs) (x ++ received msgs').
Proof.
  intros Hlp Hne Hsup F Fa Hc Hq. pose proof (xfer_lives dev msgs w Hlp Hne Hsup F Hq) as W.
  destruct (proj1 (wp_run _ _ _) (xfer_on_bus dev msgs w Hlp Hne Hsup F Fa Hc)) as ([ret msgs'] & w' & E & Hbus).
  unfold wp in W. rewrite E in W. cbn [fst snd] in *. destruct (Hbus W) as (l & x & ?).
  exists msgs', w', l, x. by rewrite <- W.
Qed.

End Controller.
