(* ===== verification/I2cWitness.v ===== *)
(** * A controller, and instances of the theorems about the I2C driver

    [sim] is a controller on a bus with one slave: a byte takes [s_lat] waits and one more,
    the slave sends the bytes of [s_slave] and acknowledges unless [s_nak].  It keeps its
    control register and, when the slave acknowledges in time, answers. *)

From stdpp Require Import base list sets.
From Stdlib Require Import ZArith Lia.
From S2P Require Import Prelude I2c I2cTrace I2cBus I2cTurn I2cLive ClkFramework Mx27ClockTable Mx27Init I2cClock I2cMain.
From S2P Require Mx27Witness.

(** The first controller of the i.MX27. *)
Definition i2c0 : mxc_i2c_device := mkI2c 0x10012000 12 0x16 0 false 0 1.

Record sim : Type := mkSim {
  s_cr : Z; s_fly : option nat; s_pend : bool; s_lat : nat; s_slave : list Z; s_dr : Z; s_nak : bool }.

Definition sim_sr (h : sim) : Z :=
  Z.lor (if has (s_cr h) MXC_I2CR_MSTA then MXC_I2SR_IBB else 0) (if s_nak h then MXC_I2SR_RXAK else 0).

Definition sim_read (a : Z) (h : sim) : Z * sim :=
  if a =? membase i2c0 + MXC_I2CR then (clear (s_cr h) MXC_I2CR_RSTA, h)
  else if a =? membase i2c0 + MXC_I2SR then
    (sim_sr h, h)
  else if a =? membase i2c0 + MXC_I2DR then
    match rx_effect (s_cr h) with
    | [] => (s_dr h, h)
    | _ => (s_dr h, mkSim (s_cr h) (Some (s_lat h)) (s_pend h) (s_lat h) (tail (s_slave h)) (default 0xFF (head (s_slave h))) (s_nak h))
    end
  else (0, h).

Definition sim_write (a v : Z) (h : sim) : sim :=
  if a =? membase i2c0 + MXC_I2CR then mkSim v (s_fly h) (s_pend h) (s_lat h) (s_slave h) (s_dr h) (s_nak h)
  else if a =? membase i2c0 + MXC_I2SR then mkSim (s_cr h) (s_fly h) false (s_lat h) (s_slave h) (s_dr h) (s_nak h)
  else if a =? membase i2c0 + MXC_I2DR then
    match tx_effect (s_cr h) v with
    | [] => h
    | _ => mkSim (s_cr h) (Some (s_lat h)) (s_pend h) (s_lat h) (s_slave h) (s_dr h) (s_nak h)
    end
  else h.

Definition sim_elapse (t : span) (h : sim) : sim :=
  match t, s_fly h with
  | Jiffies _, Some (S k) => mkSim (s_cr h) (Some k) (s_pend h) (s_lat h) (s_slave h) (s_dr h) (s_nak h)
  | Jiffies _, Some O => mkSim (s_cr h) None true (s_lat h) (s_slave h) (s_dr h) (s_nak h)
  | _, _ => h
  end.

#[local] Instance sim_hw : I2cHw sim := {|
  hw_read := sim_read;
  hw_write := sim_write;
  hw_elapse := sim_elapse;
  hw_irqs := fun h => if s_pend h then [i2c0] else [];
|}.

Lemma sim_read_cr a h : s_cr (snd (sim_read a h)) = s_cr h.
Proof. unfold sim_read. repeat case_match; done. Qed.

Lemma sim_write_cr a v h : a <> membase i2c0 + MXC_I2CR -> s_cr (sim_write a v h) = s_cr h.
Proof. intros Ha. unfold sim_write. rewrite (proj2 (Z.eqb_neq _ _)) by done. repeat case_match; done. Qed.

Lemma sim_elapse_cr t h : s_cr (sim_elapse t h) = s_cr h.
Proof. unfold sim_elapse. repeat case_match; done. Qed.

(** The register holds 16 bits. *)
Definition sim_cr (c : Z) (h : sim) : Prop := s_cr h = c /\ 0 <= c < 2 ^ 16.

Lemma sim_reads_cr c h : sim_cr c h -> u16 (fst (sim_read (membase i2c0 + MXC_I2CR) h)) = clear c MXC_I2CR_RSTA.
Proof. intros [<- Hc]. apply Z.mod_small. cbn [fst]. apply clear_range; [lia|done]. Qed.

#[local] Instance sim_kept : ControlKept sim_hw (membase i2c0).
Proof.
  refine {| cr_is := sim_cr |}.
  - apply sim_reads_cr.
  - intros a c h [E Hc]. split; [|done]. cbn [hw_read sim_hw]. by rewrite sim_read_cr.
  - intros v h Hv. by split.
  - intros a v c h Ha [E Hc]. split; [|done]. cbn [hw_write sim_hw]. by rewrite sim_write_cr.
  - intros t c h [E Hc]. split; [|done]. cbn [hw_elapse sim_hw]. by rewrite sim_elapse_cr.
  - intros d h. cbn [hw_irqs sim_hw]. destruct (s_pend h); [|set_solver]. intros ->%list_elem_of_singleton. by left.
Defined.

(** The slave acknowledges within the time the driver waits. *)
Definition sim_good (c : Z) (h : sim) : Prop := sim_cr c h /\ (s_lat h <= 13)%nat /\ s_nak h = false.
Definition sim_quiet (c : Z) (h : sim) : Prop := sim_good c h /\ s_fly h = None /\ s_pend h = false.
Definition sim_flying (n : nat) (c : Z) (h : sim) : Prop :=
  sim_good c h /\ ((exists k, s_fly h = Some k /\ (k < n)%nat /\ s_pend h = false) \/ (s_fly h = None /\ s_pend h = true)).

#[local] Instance sim_answers : Answers sim_hw (membase i2c0).
Proof.
  refine {| quiet := sim_quiet; flying := sim_flying |}.
  - intros c h (_ & _ & E). cbn. by rewrite E.
  - intros c h (((E & Hc) & _) & _). by apply sim_reads_cr.
  - intros c h (((<- & Hc) & _ & Hn) & _) Hm. change (fst _) with (sim_sr h). unfold sim_sr. by rewrite Hn, Hm.
  - intros a c h Hq Ha. cbn [hw_read sim_hw]. unfold sim_read.
    destruct (Z.eqb_spec a (membase i2c0 + MXC_I2CR)); [done|]. destruct (Z.eqb_spec a (membase i2c0 + MXC_I2SR)); [done|].
    destruct (Z.eqb_spec a (membase i2c0 + MXC_I2DR)); [|done]. pose proof Hq as (((E & _) & _) & _).
    by rewrite E, Ha.
  - intros a v c h Hq H1 H2. cbn [hw_write sim_hw]. unfold sim_write. rewrite (proj2 (Z.eqb_neq a _)) by done.
    rewrite (proj2 (Z.eqb_neq a (membase i2c0 + MXC_I2DR))) by done. destruct (_ =? _); [|done].
    destruct Hq as (Hg & Hf & _). done.
  - intros v c h Hv (((_ & _) & Hl & Hn) & Hf & Hp). done.
  - intros t c h Hq. pose proof Hq as (_ & Hf & _). cbn [hw_elapse sim_hw]. unfold sim_elapse. rewrite Hf. by destruct t.
  - intros v c h (((E & Hc) & Hl & Hn) & Hf & Hp) Ht. cbn [hw_write sim_hw]. unfold sim_write.
    change (_ =? _) with false at 1. change (_ =? _) with false at 1. cbn iota. rewrite Z.eqb_refl, E.
    destruct (tx_effect c v); [done|]. split; [done|]. left. exists (s_lat h). cbn. split; [done|]. split; [lia|done].
  - intros c h (((E & Hc) & Hl & Hn) & Hf & Hp) Hr. cbn [hw_read sim_hw]. unfold sim_read.
    change (_ =? _) with false at 1. change (_ =? _) with false at 1. cbn iota. rewrite Z.eqb_refl, E.
    destruct (rx_effect c); [done|]. split; [done|]. left. exists (s_lat h). cbn. split; [done|]. split; [lia|done].
  - intros n c h (Hg & C) Hi. cbn in Hi. destruct C as [(k & Hf & Hk & Hp)|[_ Hp]]; [|by rewrite Hp in Hi].
    destruct n as [|n]; [lia|]. exists n. split; [done|]. intros t. cbn. unfold sim_elapse. rewrite Hf.
    destruct k as [|k]; (split; [exact Hg|]); [by right|]. left. exists k. cbn. split; [done|]. split; [lia|done].
  - intros n c h (Hg & C) Hi. cbn in Hi. destruct C as [(k & Hf & Hk & Hp)|[Hf Hp]]; [by rewrite Hp in Hi|].
    exists i2c0. cbn [hw_irqs sim_hw]. rewrite Hp. split; [done|]. split; [done|].
    pose proof Hg as ((E & Hc) & Hl & Hn). cbn [hw_read hw_write sim_hw].
    change (sim_read (membase i2c0 + MXC_I2SR) h) with (sim_sr h, h). cbv iota beta.
    pose proof (sim_reads_cr c h (conj E Hc)) as Er.
    change (sim_read (membase i2c0 + MXC_I2CR) h) with (clear (s_cr h) MXC_I2CR_RSTA, h) in *. cbv iota beta.
    unfold sim_sr. rewrite Hn. destruct (has (s_cr h) MXC_I2CR_MSTA); done.
Defined.

(** ** Instances *)

(** A register of the slave at 0x50 is selected and two bytes are read from it. *)
Definition select : i2c_msg := mkMsg 0x50 0 1 [0x10].
Definition fetch : i2c_msg := mkMsg 0x50 I2C_M_RD 2 [0; 0].
Definition reg_read : list i2c_msg := [select; fetch].

(** The slave sends 0xAB and 0xCD; a byte takes [lat] waits and one more. *)
Definition bus_of (lat : nat) (nak : bool) : world sim :=
  mkWorld (mkSim 0 None false lat [0xAB; 0xCD] 0 nak) false false [].

Lemma select_wf : wf_msg select.
Proof. split; [done|]. split; [done|]. split; [done|]. by repeat constructor. Qed.
Lemma fetch_wf : wf_msg fetch.
Proof. split; [done|]. split; [done|]. split; [done|]. by repeat constructor. Qed.
Lemma reg_read_wf : Forall wf_msg reg_read.
Proof. constructor; [apply select_wf|]. constructor; [apply fetch_wf|constructor]. Qed.

Lemma i2c_xfer_completes_witness :
  exists msgs' w' l x, mxc_i2c_xfer i2c0 reg_read (bus_of 3 false) = Ret ((1, msgs'), w') /\
    log w' = l /\ (length x <= 1)%nat /\
    decode (membase i2c0) l =
      mkCtl 0 [Start; Tx 0xA0; Tx 0x10; Restart; Tx 0xA1; Rx false; Rx true; Stop] (x ++ received msgs').
Proof.
  apply (i2c_xfer_completes i2c0 (Kept := sim_kept) (Ans := sim_answers) reg_read (bus_of 3 false)).
  - reflexivity.
  - discriminate.
  - reflexivity.
  - apply reg_read_wf.
  - by repeat constructor.
  - split; [reflexivity|lia].
  - split; [|by split]. split; [split; [reflexivity|lia]|]. split; [cbn; lia|reflexivity].
Defined.

(** The same run, computed: the buffer has the bytes of the slave. *)
Example reg_read_run :
  match mxc_i2c_xfer i2c0 reg_read (bus_of 3 false) with
  | Ret (r, w') => r = (1, [select; mkMsg 0x50 I2C_M_RD 2 [0xAB; 0xCD]])
  | Crash _ => False
  end.
Proof. vm_compute. reflexivity. Qed.

(** A slave that is too slow: the transfer fails, and the module is disabled again. *)
Lemma i2c_xfer_refines_bus_witness :
  exists ret msgs' w', mxc_i2c_xfer i2c0 reg_read (bus_of 20 false) = Ret ((ret, msgs'), w') /\ sim_cr 0 (I2c.hw w') /\
    (ret = 1 -> exists l x, log w' = l /\ (length x <= 1)%nat /\
       decode (membase i2c0) l =
         mkCtl 0 [Start; Tx 0xA0; Tx 0x10; Restart; Tx 0xA1; Rx false; Rx true; Stop] (x ++ received msgs')).
Proof.
  apply (i2c_xfer_refines_bus i2c0 (Kept := sim_kept) reg_read (bus_of 20 false)).
  - reflexivity.
  - discriminate.
  - reflexivity.
  - apply reg_read_wf.
  - by repeat constructor.
  - split; [reflexivity|lia].
Defined.

(** Reading and then writing the same slave. *)
Lemma i2c_write_after_read_fails_witness :
  exists ret msgs' w', mxc_i2c_xfer i2c0 [fetch; select] (bus_of 3 false) = Ret ((ret, msgs'), w') /\
    (ret = - EREMOTEIO \/ ret < 0).
Proof.
  apply (i2c_write_after_read_fails i2c0 (Kept := sim_kept) [] fetch select [] (bus_of 3 false)).
  - intros h d. cbn. destruct (s_pend h); [|set_solver]. by intros ->%list_elem_of_singleton.
  - reflexivity.
  - reflexivity.
  - cbn. lia.
  - reflexivity.
  - constructor; [apply fetch_wf|]. constructor; [apply select_wf|constructor].
Defined.

Lemma i2c_xfer_typed_witness :
  exists ret msgs' w', mxc_i2c_xfer i2c0 reg_read (bus_of 3 true) = Ret ((ret, msgs'), w') /\
    Forall wf_msg msgs' /\ Forall2 same_shape reg_read msgs' /\
    (ret = - EREMOTEIO \/ -1 <= ret < 2 \/ (reg_read = [] /\ ret = 0)).
Proof. apply (i2c_xfer_typed i2c0 reg_read (bus_of 3 true)). apply reg_read_wf. Defined.

(** On the booted board. *)
Lemma i2c_xfer_clocked_witness :
  exists r w' l, mxc_i2c_xfer i2c0 reg_read (bus_of 3 false) = Ret (r, w') /\ log w' = [] ++ l /\
    clocked 0 l = true /\
    (low_power i2c0 = false -> reg_read <> [] -> exists l1, l = ClkOn 0 :: l1 /\ closed i2c0 l1) /\
    wp (clock_calls l) (fun _ s' => clk_mem s' = clk_mem Mx27Witness.board_up) Mx27Witness.board_up.
Proof.
  apply (i2c_xfer_clocked i2c0 reg_read (bus_of 3 false) kernel_holds Mx27Witness.board_up).
  - apply reg_read_wf.
  - by left.
  - apply Mx27Witness.board_booted.
  - intros c. pose proof (Mx27Witness.kernel_holds_le c). lia.
Defined.

(** 100 kHz from 66.5 MHz: the divider is 768, the register value 0x16. *)
Lemma i2c_clkdiv_best_witness :
  choose_clkdiv 66500000 100000 = 0x16 /\
  exists d, (choose_clkdiv 66500000 100000, d) ∈ i2c_clk_table /\ 66500000 <= d * 100000 /\
    forall v' d', (v', d') ∈ i2c_clk_table -> 66500000 <= d' * 100000 -> d <= d'.
Proof.
  split; [vm_compute; reflexivity|]. apply (i2c_clkdiv_best 66500000 100000); lia.
Defined.

(** ** What the driver does not notice *)

(** A read of no bytes is reported complete, and yet a byte is clocked in. *)
Example empty_read :
  match mxc_i2c_xfer i2c0 [mkMsg 0x50 I2C_M_RD 0 []] (bus_of 3 false) with
  | Ret (r, w') => fst r = 0 /\ c_bus (decode (membase i2c0) (log w')) = [Start; Tx 0xA1; Rx false; Stop]
  | Crash _ => False
  end.
Proof. vm_compute. done. Qed.

(** A ten bit address is cut to its low seven bits, which may be another slave's. *)
Example ten_bit_address :
  match mxc_i2c_xfer i2c0 [mkMsg 0x150 I2C_M_TEN 1 [0x10]] (bus_of 3 false) with
  | Ret (r, w') => fst r = 0 /\ c_bus (decode (membase i2c0) (log w')) = [Start; Tx 0xA0; Tx 0x10; Stop]
  | Crash _ => False
  end.
Proof. vm_compute. done. Qed.

(** A slave that is not there: no byte is acknowledged, and the read is reported complete. *)
Example absent_read :
  match mxc_i2c_xfer i2c0 [fetch] (bus_of 3 true) with
  | Ret (r, _) => fst r = 0
  | Crash _ => False
  end.
Proof. vm_compute. reflexivity. Qed.

(** A byte that is done with the fifteenth wait is taken for a failure. *)
Example fifteenth_wait :
  match mxc_i2c_xfer i2c0 [select] (bus_of 13 false), mxc_i2c_xfer i2c0 [select] (bus_of 14 false) with
  | Ret (r, _), Ret (r', _) => fst r = 0 /\ fst r' = - EREMOTEIO
  | _, _ => False
  end.
Proof. vm_compute. done. Qed.

(** Two reads of one slave in a row: the last byte of the first read is not acknowledged, and
    still two more are clocked in, without a start between them. *)
Example two_reads :
  match mxc_i2c_xfer i2c0 [fetch; fetch] (bus_of 3 false) with
  | Ret (r, w') => fst r = 1 /\ c_bus (decode (membase i2c0) (log w')) =
      [Start; Tx 0xA1; Rx false; Rx true; Rx true; Rx true; Stop]
  | Crash _ => False
  end.
Proof. vm_compute. done. Qed.
