(* ===== verification/I2cSmbus.v ===== *)
(** * SMBus requests over I2C: [drivers/i2c/i2c-core.c]

    The packet error code, the translation of SMBus requests into I2C messages
    ([i2c_smbus_xfer_emulated]) and the client calls, over the I2C bus driver of [I2c].
    A buffer on the stack holds anything before it is written: [stack] is an argument. *)

From stdpp Require Import base list.
From Stdlib Require Import ZArith Lia.
From S2P Require Import Prelude I2c.

(** ** Requests *)

Definition I2C_SMBUS_READ : Z := 1.
Definition I2C_SMBUS_WRITE : Z := 0.
Definition I2C_SMBUS_QUICK : Z := 0.
Definition I2C_SMBUS_BYTE : Z := 1.
Definition I2C_SMBUS_BYTE_DATA : Z := 2.
Definition I2C_SMBUS_WORD_DATA : Z := 3.
Definition I2C_SMBUS_PROC_CALL : Z := 4.
Definition I2C_SMBUS_BLOCK_DATA : Z := 5.
Definition I2C_SMBUS_I2C_BLOCK_DATA : Z := 6.
Definition I2C_SMBUS_BLOCK_PROC_CALL : Z := 7.
Definition I2C_SMBUS_BLOCK_MAX : Z := 32.
Definition I2C_CLIENT_PEC : Z := 0x04.

(** [union i2c_smbus_data]: its memory, [block]; [byte] and [word] lie at its start. *)
Definition i2c_smbus_data : Type := list Z.

Definition blk (d : i2c_smbus_data) (i : nat) : Z := nth i d 0.
Definition data_byte (d : i2c_smbus_data) : Z := blk d 0.
Definition data_word (d : i2c_smbus_data) : Z := blk d 0 + Z.shiftl (blk d 1) 8.
Definition set_data_byte (v : Z) (d : i2c_smbus_data) : i2c_smbus_data := <[0%nat := u8 v]> d.
Definition set_data_word (v : Z) (d : i2c_smbus_data) : i2c_smbus_data :=
  <[0%nat := u8 v]> (<[1%nat := u8 (Z.shiftr v 8)]> d).

(** ** The packet error code *)

Definition POLY : Z := Z.shiftl 0x1070 3.

(** One turn of the loop, and eight of them. *)
Definition crc8_bit (data : Z) : Z :=
  u16 (Z.shiftl (if has data 0x8000 then Z.lxor data POLY else data) 1).

Definition crc8 (data : Z) : Z := u8 (Z.shiftr (Nat.iter 8 crc8_bit data) 8).

Fixpoint i2c_smbus_pec (crc : Z) (p : list Z) {struct p} : Z :=
  match p with
  | [] => crc
  | x :: p' => i2c_smbus_pec (crc8 (u16 (Z.shiftl (Z.lxor crc x) 8))) p'
  end.

(** The bytes of a message; its buffer may be longer. *)
Definition msg_bytes (m : i2c_msg) : list Z := take (Z.to_nat (len m)) (buf m).

Definition i2c_smbus_msg_pec (pec : Z) (m : i2c_msg) : Z :=
  let a := u8 (Z.lor (Z.shiftl (addr m) 1) (if has (flags m) I2C_M_RD then 1 else 0)) in
  i2c_smbus_pec (i2c_smbus_pec pec [a]) (msg_bytes m).

Definition set_len (n : Z) (m : i2c_msg) : i2c_msg := mkMsg (addr m) (flags m) (u16 n) (buf m).

Definition i2c_smbus_add_pec (m : i2c_msg) : i2c_msg :=
  set_len (len m + 1) (set_buf (<[Z.to_nat (len m) := i2c_smbus_msg_pec 0 m]> (buf m)) m).

Definition i2c_smbus_check_pec (cpec : Z) (m : i2c_msg) : Z * i2c_msg :=
  let m' := set_len (len m - 1) m in
  let rpec := nth (Z.to_nat (len m')) (buf m) 0 in
  (if negb (rpec =? i2c_smbus_msg_pec cpec m') then -1 else 0, m').

(** ** Translation into messages *)

(** [msgbuf0] (35 bytes), [msgbuf1] (34 bytes) and a [union i2c_smbus_data] before they are
    written. *)
Record stack : Type := mkStack { junk0 : list Z; junk1 : list Z; junk_data : i2c_smbus_data }.

(** The variables of [i2c_smbus_xfer_emulated] after its [switch]: [num], [read_write], the
    flags and length of [msg[0]], [msgbuf0] and the length of [msg[1]]. *)
Record plan : Type := mkPlan {
  p_num : Z; p_rw : Z; p_flags0 : Z; p_len0 : Z; p_buf0 : list Z; p_len1 : Z }.

(** [for (; n > 0; i++) buf[i] = src(i)]. *)
Fixpoint fill (n i : nat) (src : nat -> Z) (b : list Z) : list Z :=
  match n with
  | O => b
  | S n' => fill n' (S i) src (<[i := src i]> b)
  end.

Section Smbus.
Context {H : Type} {Hw : I2cHw H}.

(** The [switch]: [None] is its [return -1]. *)
Definition smbus_plan (fl read_write command size : Z) (data : option i2c_smbus_data) (msgbuf0 : list Z) :
    M (world H) (option plan) :=
  let b0 := <[0%nat := command]> msgbuf0 in
  let rd := read_write =? I2C_SMBUS_READ in
  let num := if rd then 2 else 1 in
  if size =? I2C_SMBUS_QUICK then
    mret (Some (mkPlan 1 read_write (if negb (Z.lor fl (if rd then 1 else 0) =? 0) then I2C_M_RD else 0) 0 b0 0))
  else if size =? I2C_SMBUS_BYTE then
    mret (Some (if rd then mkPlan 1 read_write (Z.lor I2C_M_RD fl) 1 b0 0 else mkPlan num read_write fl 1 b0 0))
  else if size =? I2C_SMBUS_BYTE_DATA then
    if rd then mret (Some (mkPlan num read_write fl 1 b0 1))
    else d ← deref data; mret (Some (mkPlan num read_write fl 2 (<[1%nat := data_byte d]> b0) 0))
  else if size =? I2C_SMBUS_WORD_DATA then
    if rd then mret (Some (mkPlan num read_write fl 1 b0 2))
    else
      d ← deref data;
      mret (Some (mkPlan num read_write fl 3
        (<[2%nat := u8 (Z.shiftr (data_word d) 8)]> (<[1%nat := Z.land (data_word d) 0xff]> b0)) 0))
  else if size =? I2C_SMBUS_PROC_CALL then
    d ← deref data;
    mret (Some (mkPlan 2 I2C_SMBUS_READ fl 3
      (<[2%nat := u8 (Z.shiftr (data_word d) 8)]> (<[1%nat := Z.land (data_word d) 0xff]> b0)) 2))
  else if size =? I2C_SMBUS_BLOCK_DATA then
    if rd then mret None
    else
      d ← deref data;
      let len0 := u16 (blk d 0 + 2) in
      if I2C_SMBUS_BLOCK_MAX + 2 <? len0 then mret None
      else mret (Some (mkPlan num read_write fl len0 (fill (Z.to_nat len0 - 1) 1 (fun i => blk d (i - 1)) b0) 0))
  else if size =? I2C_SMBUS_BLOCK_PROC_CALL then mret None
  else if size =? I2C_SMBUS_I2C_BLOCK_DATA then
    if rd then mret (Some (mkPlan num read_write fl 1 b0 I2C_SMBUS_BLOCK_MAX))
    else
      d ← deref data;
      let len0 := u16 (blk d 0 + 1) in
      if I2C_SMBUS_BLOCK_MAX + 1 <? len0 then mret None
      else mret (Some (mkPlan num read_write fl len0 (fill (Z.to_nat (blk d 0)) 1 (fun i => blk d i) b0) 0))
  else mret None.

(** The messages of a plan, [msg[0]] and [msg[1]]. *)
Definition msg0 (a : Z) (p : plan) : i2c_msg := mkMsg a (p_flags0 p) (p_len0 p) (p_buf0 p).
Definition msg1 (a fl : Z) (p : plan) (b1 : list Z) : i2c_msg := mkMsg a (setb fl I2C_M_RD) (p_len1 p) b1.

(** The last message of the array. *)
Definition last_msg (ms : list i2c_msg) : i2c_msg := List.last ms (mkMsg 0 0 0 []).

(** The code for the packet error code before the transfer: the partial code and the messages. *)
Definition pec_before (ms : list i2c_msg) : Z * list i2c_msg :=
  match ms with
  | [m0] =>
      if has (flags m0) I2C_M_RD then (0, [set_len (len m0 + 1) m0]) else (0, [i2c_smbus_add_pec m0])
  | [m0; m1] =>
      (if has (flags m0) I2C_M_RD then 0 else i2c_smbus_msg_pec 0 m0,
       [m0; if has (flags m1) I2C_M_RD then set_len (len m1 + 1) m1 else m1])
  | _ => (0, ms)
  end.

(** The call of [i2c_transfer]: the driver gets the bytes of each message and the rest of its
    buffer stays as it is. *)
Definition transfer_bytes (dev : mxc_i2c_device) (ms : list i2c_msg) : M (world H) (Z * list i2c_msg) :=
  r ← i2c_transfer true dev ((fun m => set_buf (msg_bytes m) m) <$> ms);
  mret (fst r, zip_with (fun m m' => set_buf (buf m' ++ drop (Z.to_nat (len m)) (buf m)) m) ms (snd r)).

(** What a read stores through [data], from the first and the last message. *)
Definition store_data (size : Z) (m0 ml : i2c_msg) (d : i2c_smbus_data) : i2c_smbus_data :=
  if size =? I2C_SMBUS_BYTE then set_data_byte (nth 0 (buf m0) 0) d
  else if size =? I2C_SMBUS_BYTE_DATA then set_data_byte (nth 0 (buf ml) 0) d
  else if (size =? I2C_SMBUS_WORD_DATA) || (size =? I2C_SMBUS_PROC_CALL) then
    set_data_word (Z.lor (nth 0 (buf ml) 0) (Z.shiftl (nth 1 (buf ml) 0) 8)) d
  else if size =? I2C_SMBUS_I2C_BLOCK_DATA then
    fill 32 1 (fun i => nth (i - 1) (buf ml) 0) (<[0%nat := I2C_SMBUS_BLOCK_MAX]> d)
  else d.

Definition stores (size : Z) : bool :=
  (size =? I2C_SMBUS_BYTE) || (size =? I2C_SMBUS_BYTE_DATA) || (size =? I2C_SMBUS_WORD_DATA) ||
  (size =? I2C_SMBUS_PROC_CALL) || (size =? I2C_SMBUS_I2C_BLOCK_DATA).

Definition i2c_smbus_xfer_emulated (st : stack) (dev : mxc_i2c_device) (a fl read_write command size : Z)
    (data : option i2c_smbus_data) : M (world H) (Z * option i2c_smbus_data) :=
  pl ← smbus_plan fl read_write command size data (junk0 st);
  match pl with
  | None => mret (-1, data)
  | Some p =>
      let ms := if p_num p =? 1 then [msg0 a p] else [msg0 a p; msg1 a fl p (junk1 st)] in
      let pec := has fl I2C_CLIENT_PEC && negb (size =? I2C_SMBUS_QUICK) && negb (size =? I2C_SMBUS_I2C_BLOCK_DATA) in
      let '(partial_pec, ms1) := if pec then pec_before ms else (0, ms) in
      r ← transfer_bytes dev ms1;
      if fst r <? 0 then mret (-1, data)
      else
        let ml := last_msg (snd r) in
        if pec && has (flags ml) I2C_M_RD && (fst (i2c_smbus_check_pec partial_pec ml) <? 0) then mret (-1, data)
        else if (p_rw p =? I2C_SMBUS_READ) && stores size then
          d ← deref data;
          mret (0, Some (store_data size (hd ml (snd r)) ml d))
        else mret (0, data)
  end.

(** The adapter of this driver has no [smbus_xfer] of its own. *)
Definition i2c_smbus_xfer (st : stack) (dev : mxc_i2c_device) (a fl read_write command size : Z)
    (data : option i2c_smbus_data) : M (world H) (Z * option i2c_smbus_data) :=
  i2c_smbus_xfer_emulated st dev a (Z.land fl (Z.lor I2C_M_TEN I2C_CLIENT_PEC)) read_write command size data.

(** ** Client calls *)

(** The client's address and flags. *)
Context (st : stack) (dev : mxc_i2c_device) (c_addr c_flags : Z).

Definition i2c_smbus_write_quick (value : Z) : M (world H) Z :=
  r ← i2c_smbus_xfer st dev c_addr c_flags value 0 I2C_SMBUS_QUICK None; mret (fst r).

(** A read into a [union i2c_smbus_data] on the stack. *)
Definition read_into (command size : Z) (result : i2c_smbus_data -> Z) : M (world H) Z :=
  r ← i2c_smbus_xfer st dev c_addr c_flags I2C_SMBUS_READ command size (Some (junk_data st));
  mret (if negb (fst r =? 0) then -1 else from_option result 0 (snd r)).

Definition i2c_smbus_read_byte : M (world H) Z := read_into 0 I2C_SMBUS_BYTE data_byte.

Definition i2c_smbus_write_byte (value : Z) : M (world H) Z :=
  r ← i2c_smbus_xfer st dev c_addr c_flags I2C_SMBUS_WRITE value I2C_SMBUS_BYTE None; mret (fst r).

Definition i2c_smbus_read_byte_data (command : Z) : M (world H) Z := read_into command I2C_SMBUS_BYTE_DATA data_byte.

Definition i2c_smbus_write_byte_data (command value : Z) : M (world H) Z :=
  r ← i2c_smbus_xfer st dev c_addr c_flags I2C_SMBUS_WRITE command I2C_SMBUS_BYTE_DATA
        (Some (set_data_byte value (junk_data st)));
  mret (fst r).

Definition i2c_smbus_read_word_data (command : Z) : M (world H) Z := read_into command I2C_SMBUS_WORD_DATA data_word.

Definition i2c_smbus_write_word_data (command value : Z) : M (world H) Z :=
  r ← i2c_smbus_xfer st dev c_addr c_flags I2C_SMBUS_WRITE command I2C_SMBUS_WORD_DATA
        (Some (set_data_word value (junk_data st)));
  mret (fst r).

(** [data.block[0] = length; memcpy(&data.block[1], values, length)] with the length cut. *)
Definition block_of (length : Z) (values : list Z) : i2c_smbus_data :=
  let n := if I2C_SMBUS_BLOCK_MAX <? length then I2C_SMBUS_BLOCK_MAX else length in
  fill (Z.to_nat n) 1 (fun i => nth (i - 1) values 0) (<[0%nat := n]> (junk_data st)).

Definition i2c_smbus_write_block_data (command length : Z) (values : list Z) : M (world H) Z :=
  r ← i2c_smbus_xfer st dev c_addr c_flags I2C_SMBUS_WRITE command I2C_SMBUS_BLOCK_DATA (Some (block_of length values));
  mret (fst r).

(** The number of bytes and the bytes. *)
Definition i2c_smbus_read_i2c_block_data (command : Z) : M (world H) (Z * list Z) :=
  r ← i2c_smbus_xfer st dev c_addr c_flags I2C_SMBUS_READ command I2C_SMBUS_I2C_BLOCK_DATA (Some (junk_data st));
  match snd r with
  | Some d => mret (if negb (fst r =? 0) then (-1, []) else (blk d 0, take (Z.to_nat (blk d 0)) (drop 1 d)))
  | None => crash NullDeref
  end.

Definition i2c_smbus_write_i2c_block_data (command length : Z) (values : list Z) : M (world H) Z :=
  r ← i2c_smbus_xfer st dev c_addr c_flags I2C_SMBUS_WRITE command I2C_SMBUS_I2C_BLOCK_DATA
        (Some (block_of length values));
  mret (fst r).

End Smbus.
