(* ===== verification/I2cPec.v ===== *)
(** * The packet error code

    [crc_ref] is the division by x^8 + x^2 + x + 1, one bit of the byte at a time.  The
    driver core computes it in the upper byte of a word ([crc8]); the two agree, and a
    change of one byte of a packet changes the code. *)

From stdpp Require Import base list.
From Stdlib Require Import ZArith Lia.
From S2P Require Import Prelude I2c I2cTrace I2cSmbus.

(** ** The reference *)

Definition crc_shift (c : Z) : Z := if Z.testbit c 7 then Z.lxor (2 * c) 0x107 else 2 * c.
Definition crc_byte (c x : Z) : Z := Nat.iter 8 crc_shift (Z.lxor c x).
Definition crc_ref (c : Z) (p : list Z) : Z := foldl crc_byte c p.

Lemma crc_ref_app c p q : crc_ref c (p ++ q) = crc_ref (crc_ref c p) q.
Proof. apply foldl_app. Qed.

(** ** All bytes *)

Definition all_bytes : list Z := Z.of_nat <$> seq 0 256.

Lemma in_all_bytes x : is_byte x -> x ∈ all_bytes.
Proof. unfold is_byte. intros Hx. apply list_elem_of_fmap. exists (Z.to_nat x). split; [lia|]. apply elem_of_seq. lia. Qed.

(** A property of a byte is checked on all of them. *)
Lemma byte_cases (P : Z -> bool) x : forallb P all_bytes = true -> is_byte x -> P x = true.
Proof. rewrite forallb_forall. intros HP Hx. by apply HP, list_elem_of_In, in_all_bytes. Qed.

Lemma lxor_byte x y : is_byte x -> is_byte y -> is_byte (Z.lxor x y).
Proof.
  unfold is_byte. intros Hx Hy. assert (0 <= Z.lxor x y) by (apply Z.lxor_nonneg; lia). split; [done|].
  destruct (Z.eq_dec (Z.lxor x y) 0) as [->|]; [done|]. apply Z.log2_lt_pow2; [lia|].
  pose proof (Z.log2_lxor x y ltac:(lia) ltac:(lia)).
  enough (Z.log2 x < 8 /\ Z.log2 y < 8) by lia.
  split; [destruct (Z.eq_dec x 0) as [->|]|destruct (Z.eq_dec y 0) as [->|]]; cbn; [lia| |lia|]; apply Z.log2_lt_pow2; lia.
Qed.

(** ** Agreement *)

Lemma crc8_byte x : is_byte x -> crc8 (u16 (Z.shiftl x 8)) = crc_byte x 0 /\ is_byte (crc_byte x 0).
Proof.
  intros Hx. assert ((crc8 (u16 (Z.shiftl x 8)) =? crc_byte x 0) = true) as E.
  { apply (byte_cases (fun x => crc8 (u16 (Z.shiftl x 8)) =? crc_byte x 0)); [vm_compute; reflexivity|done]. }
  apply Z.eqb_eq in E. split; [done|]. rewrite <- E. apply u8_byte.
Qed.

Lemma crc_byte_xor c x : crc_byte c x = crc_byte (Z.lxor c x) 0.
Proof. unfold crc_byte. by rewrite Z.lxor_0_r. Qed.

Lemma crc_byte_byte c x : is_byte c -> is_byte x -> is_byte (crc_byte c x).
Proof. intros. rewrite crc_byte_xor. by apply crc8_byte, lxor_byte. Qed.

Lemma crc_ref_byte p c : is_byte c -> Forall is_byte p -> is_byte (crc_ref c p).
Proof.
  revert c. induction p as [|x p IH]; intros c Hc F; [done|]. apply Forall_cons in F as [Hx F].
  cbn. by apply IH; [apply crc_byte_byte|].
Qed.

Lemma pec_is_crc p c : is_byte c -> Forall is_byte p -> i2c_smbus_pec c p = crc_ref c p.
Proof.
  revert c. induction p as [|x p IH]; intros c Hc F; [done|]. apply Forall_cons in F as [Hx F].
  cbn [i2c_smbus_pec crc_ref foldl]. rewrite (proj1 (crc8_byte _ (lxor_byte c x Hc Hx))), <- crc_byte_xor.
  by rewrite IH by (first [done|by apply crc_byte_byte]).
Qed.

(** ** Detection *)

(** The code of each byte: a permutation. *)
Definition crc_table : list Z := (fun x => crc_byte x 0) <$> all_bytes.

Lemma crc_table_nodup : NoDup crc_table.
Proof. apply (bool_decide_eq_true_1 _). vm_compute. reflexivity. Qed.

Lemma crc_table_lookup x : is_byte x -> crc_table !! Z.to_nat x = Some (crc_byte x 0).
Proof.
  unfold is_byte. intros Hx. unfold crc_table, all_bytes.
  rewrite !list_lookup_fmap, lookup_seq_lt by lia. cbn [fmap option_fmap option_map Nat.add]. by rewrite Z2Nat.id by lia.
Qed.

Lemma crc_byte_inj x y : is_byte x -> is_byte y -> crc_byte x 0 = crc_byte y 0 -> x = y.
Proof.
  intros Hx Hy E. pose proof (crc_table_lookup x Hx) as Lx. pose proof (crc_table_lookup y Hy) as Ly. rewrite E in Lx.
  pose proof (NoDup_lookup _ _ _ _ crc_table_nodup Lx Ly). unfold is_byte in *. lia.
Qed.

Lemma crc_byte_inj_l c c' x : is_byte c -> is_byte c' -> is_byte x -> crc_byte c x = crc_byte c' x -> c = c'.
Proof.
  intros. assert (Z.lxor c x = Z.lxor c' x) as E.
  { apply crc_byte_inj; [by apply lxor_byte..|]. by rewrite <- !crc_byte_xor. }
  apply (f_equal (fun z => Z.lxor z x)) in E. by rewrite !Z.lxor_assoc, Z.lxor_nilpotent, !Z.lxor_0_r in E.
Qed.

Lemma crc_ref_inj p c c' :
  is_byte c -> is_byte c' -> Forall is_byte p -> crc_ref c p = crc_ref c' p -> c = c'.
Proof.
  revert c c'. induction p as [|x p IH]; intros c c' Hc Hc' F E; [done|]. apply Forall_cons in F as [Hx F].
  apply (crc_byte_inj_l c c' x); [done..|]. apply IH; [by apply crc_byte_byte..|done|done].
Qed.

(** Packets that differ in one byte have different codes. *)
Lemma pec_detects p x y q :
  Forall is_byte p -> is_byte x -> is_byte y -> Forall is_byte q -> x <> y ->
  i2c_smbus_pec 0 (p ++ x :: q) <> i2c_smbus_pec 0 (p ++ y :: q).
Proof.
  intros Hp Hx Hy Hq Hne E. assert (is_byte 0) as H0 by done.
  rewrite !pec_is_crc, !crc_ref_app in E by (try done; by apply Forall_app; split; [|constructor]).
  set (c := crc_ref 0 p) in E. assert (is_byte c) as Hc by by apply crc_ref_byte.
  change (crc_ref (crc_byte c x) q = crc_ref (crc_byte c y) q) in E.
  apply crc_ref_inj in E; [|by apply crc_byte_byte..|done]. apply Hne.
  rewrite (crc_byte_xor c x), (crc_byte_xor c y) in E. apply crc_byte_inj in E; [|by apply lxor_byte..].
  apply (f_equal (Z.lxor c)) in E. by rewrite <- !Z.lxor_assoc, Z.lxor_nilpotent, !Z.lxor_0_l in E.
Qed.
