(* ===== verification/I2cRequest.v ===== *)
(** * SMBus requests and their messages

    [smbus_request] is what the SMBus protocol asks of the bus for a request: the bytes to
    send and the number of bytes to receive.  [smbus_frame] is the transaction.  The lemmas show
    that the messages which [i2c_smbus_xfer_emulated] prepares carry just this, packet error
    code included, and that they fit in its buffers. *)

From stdpp Require Import base list.
From Stdlib Require Import ZArith Lia.
From S2P Require Import Prelude I2c I2cTrace I2cBus I2cSmbus I2cPec.

(** ** Requests *)

(** The bytes sent (none: the request only reads), and how many are received. *)
Record smbus_req : Type := mkReq { r_out : option (list Z); r_in : nat }.

Definition smbus_request (rd : bool) (command size : Z) (d : i2c_smbus_data) : option smbus_req :=
  if size =? I2C_SMBUS_QUICK then Some (mkReq (if rd then None else Some []) 0)
  else if size =? I2C_SMBUS_BYTE then Some (if rd then mkReq None 1 else mkReq (Some [command]) 0)
  else if size =? I2C_SMBUS_BYTE_DATA then
    Some (if rd then mkReq (Some [command]) 1 else mkReq (Some [command; blk d 0]) 0)
  else if size =? I2C_SMBUS_WORD_DATA then
    Some (if rd then mkReq (Some [command]) 2 else mkReq (Some [command; blk d 0; blk d 1]) 0)
  else if size =? I2C_SMBUS_PROC_CALL then Some (mkReq (Some [command; blk d 0; blk d 1]) 2)
  else if size =? I2C_SMBUS_BLOCK_DATA then
    if rd || (32 <? blk d 0) then None else Some (mkReq (Some (command :: take (S (Z.to_nat (blk d 0))) d)) 0)
  else if size =? I2C_SMBUS_I2C_BLOCK_DATA then
    if rd then Some (mkReq (Some [command]) 32)
    else if 32 <? blk d 0 then None
    else Some (mkReq (Some (command :: take (Z.to_nat (blk d 0)) (drop 1 d))) 0)
  else None.

(** Whether the packet error code is in use. *)
Definition with_pec (fl size : Z) : bool :=
  has fl I2C_CLIENT_PEC && negb (size =? I2C_SMBUS_QUICK) && negb (size =? I2C_SMBUS_I2C_BLOCK_DATA).

(** What is on the wire: the code follows the last byte. *)
Definition wire_out (pec : bool) (a : Z) (rq : smbus_req) : option (list Z) :=
  (fun out => if pec && (r_in rq =? 0)%nat then out ++ [crc_ref 0 (2 * a :: out)] else out) <$> r_out rq.
Definition wire_in (pec : bool) (rq : smbus_req) : nat :=
  if (r_in rq =? 0)%nat then 0 else if pec then S (r_in rq) else r_in rq.

Definition smbus_frame (a : Z) (out : option (list Z)) (n : nat) : list bus_ev :=
  match out with
  | Some o => [Start; Tx (2 * a)] ++ (Tx <$> o) ++ (if (n =? 0)%nat then [] else Restart :: Tx (2 * a + 1) :: rxs n) ++ [Stop]
  | None => Start :: Tx (2 * a + 1) :: rxs n ++ [Stop]
  end.

(** The code of what was sent and received. *)
Definition sent_crc (a : Z) (rq : smbus_req) : Z := from_option (fun out => crc_ref 0 (2 * a :: out)) 0 (r_out rq).
Definition pec_good (a : Z) (rq : smbus_req) (got : list Z) : bool :=
  nth (r_in rq) got 0 =? crc_ref (sent_crc a rq) (2 * a + 1 :: take (r_in rq) got).

(** ** Memory *)

Definition data_wf (d : i2c_smbus_data) : Prop := length d = 34%nat /\ Forall is_byte d.
Definition stack_wf (st : stack) : Prop :=
  length (junk0 st) = 35%nat /\ Forall is_byte (junk0 st) /\ length (junk1 st) = 34%nat /\ Forall is_byte (junk1 st) /\
  data_wf (junk_data st).

(** No data is needed for a quick request and to send one byte. *)
Definition data_ok (rd : bool) (size : Z) (data : option i2c_smbus_data) : Prop :=
  match data with
  | Some d => data_wf d
  | None => rd = false /\ (size = I2C_SMBUS_QUICK \/ size = I2C_SMBUS_BYTE)
  end.

Lemma u16_small x : 0 <= x < 2 ^ 16 -> u16 x = x.
Proof. apply Z.mod_small. Qed.

Lemma fill_spec n i src b :
  (i + n <= length b)%nat -> fill n i src b = take i b ++ (src <$> seq i n) ++ drop (i + n) b.
Proof.
  revert i b. induction n as [|n IH]; intros i b Hl; cbn [fill seq fmap list_fmap app].
  { by rewrite Nat.add_0_r, take_drop. }
  rewrite IH by (rewrite length_insert; lia). rewrite (take_S_r _ _ (src i)) by (by rewrite list_lookup_insert_eq by lia).
  rewrite take_insert_ge, drop_insert_lt by lia. rewrite <- app_assoc. cbn. by rewrite Nat.add_succ_r.
Qed.

Lemma fill_length n i src b : length (fill n i src b) = length b.
Proof. revert i b. induction n as [|n IH]; intros; [done|]. cbn. by rewrite IH, length_insert. Qed.

Lemma fill_bytes n i src b : (forall k, is_byte (src k)) -> Forall is_byte b -> Forall is_byte (fill n i src b).
Proof. intros Hs. revert i b. induction n as [|n IH]; intros i b F; [done|]. cbn. by apply IH, Forall_insert. Qed.

Lemma blk_byte d i : Forall is_byte d -> is_byte (blk d i).
Proof.
  intros F. unfold blk. destruct (nth_in_or_default i d 0) as [Hin| ->]; [|done].
  by apply list_elem_of_In in Hin; apply (proj1 (Forall_forall _ _) F).
Qed.

(** ** The plan *)

(** The variables of [i2c_smbus_xfer_emulated] hold the request. *)
Definition plan_for (fl size : Z) (rq : smbus_req) (p : plan) : Prop :=
  (length (p_buf0 p) = 35%nat /\ Forall is_byte (p_buf0 p)) /\
  match r_out rq with
  | Some out => p_flags0 p = fl /\ p_len0 p = Z.of_nat (length out) /\ (length out <= 34)%nat /\
      take (length out) (p_buf0 p) = out /\ p_num p = (if (r_in rq =? 0)%nat then 1 else 2) /\
      p_len1 p = Z.of_nat (r_in rq)
  | None => p_flags0 p = Z.lor I2C_M_RD fl /\ p_num p = 1 /\ p_len0 p = 1 /\ r_in rq = 1%nat
  end /\
  (r_in rq <= 32)%nat /\ (p_rw p =? I2C_SMBUS_READ) && stores size = negb (r_in rq =? 0)%nat.

Lemma data_word_bytes d : Forall is_byte d ->
  Z.land (data_word d) 0xff = blk d 0 /\ u8 (Z.shiftr (data_word d) 8) = blk d 1.
Proof.
  intros F. pose proof (blk_byte d 0 F) as H0. pose proof (blk_byte d 1 F) as H1. unfold is_byte, data_word, u8 in *.
  rewrite (Z.land_ones _ 8), Z.shiftl_mul_pow2, Z.shiftr_div_pow2 by lia. split.
  - rewrite Z.mod_add, Z.mod_small; lia.
  - rewrite Z.div_add, Z.div_small, Z.mod_small; lia.
Qed.


(** A request that sends some bytes, prepared in the first buffer. *)
Lemma plan_sends fl size out n rw b :
  length b = 35%nat -> Forall is_byte b -> take (length out) b = out -> (length out <= 34)%nat -> (n <= 32)%nat ->
  (rw =? I2C_SMBUS_READ) && stores size = negb (n =? 0)%nat ->
  plan_for fl size (mkReq (Some out) n)
    (mkPlan (if (n =? 0)%nat then 1 else 2) rw fl (Z.of_nat (length out)) b (Z.of_nat n)).
Proof. intros. by repeat split. Qed.

(** The first bytes of a buffer that was filled after the command. *)
Lemma take_fill n src command b :
  (S n <= length b)%nat -> take (S n) (fill n 1 src (<[0%nat := command]> b)) = command :: (src <$> seq 1 n).
Proof.
  intros Hl. rewrite fill_spec by (rewrite length_insert; lia). destruct b as [|y b]; [simpl in Hl; lia|].
  change (<[0%nat := command]> (y :: b)) with (command :: b). cbn [take app]. f_equal.
  rewrite take_0, app_nil_l, take_app_le by (rewrite length_fmap, length_seq; lia).
  apply take_ge. rewrite length_fmap, length_seq. lia.
Qed.

Lemma blks_seq d i n : (i + n <= length d)%nat -> blk d <$> seq i n = take n (drop i d).
Proof.
  revert i. induction n as [|n IH]; intros i Hl; [done|]. cbn [seq fmap list_fmap]. rewrite IH by lia.
  destruct (lookup_lt_is_Some_2 d i) as [x Hx]; [lia|]. rewrite (drop_S d x i) by done. cbn.
  f_equal. unfold blk. by apply nth_lookup_Some.
Qed.

Lemma take_two (b : list Z) c x : (2 <= length b)%nat -> take 2 (<[1%nat := x]> (<[0%nat := c]> b)) = [c; x].
Proof. destruct b as [|? [|? b]]; cbn; [lia..|done]. Qed.
Lemma take_three (b : list Z) c x y :
  (3 <= length b)%nat -> take 3 (<[2%nat := y]> (<[1%nat := x]> (<[0%nat := c]> b))) = [c; x; y].
Proof. destruct b as [|? [|? [|? b]]]; cbn; [lia..|done]. Qed.

Lemma fmap_seq_pred {A} (f : nat -> A) i n : f <$> seq i n = (fun k => f (k - 1)%nat) <$> seq (S i) n.
Proof.
  revert i. induction n as [|n IH]; intros i; [done|]. cbn [seq fmap list_fmap]. rewrite IH. f_equal. f_equal. lia.
Qed.

Section Plan.
Context {H : Type} (fl read_write command : Z) (data : option i2c_smbus_data) (b0 : list Z).
Hypotheses (Hcmd : is_byte command) (Hl0 : length b0 = 35%nat) (Hb0 : Forall is_byte b0).

(** The first byte, or the first three, are in place. *)
Lemma command_buf : length (<[0%nat := command]> b0) = 35%nat /\ Forall is_byte (<[0%nat := command]> b0) /\
  take 1 (<[0%nat := command]> b0) = [command].
Proof. split; [by rewrite length_insert|]. split; [by apply Forall_insert|]. by destruct b0. Qed.

Lemma command_word_buf x y : is_byte x -> is_byte y ->
  let b := <[2%nat := y]> (<[1%nat := x]> (<[0%nat := command]> b0)) in
  length b = 35%nat /\ Forall is_byte b /\ take 3 b = [command; x; y].
Proof.
  intros Hx Hy b. subst b. split; [by rewrite !length_insert|]. split; [by repeat apply Forall_insert|].
  apply (take_three b0). lia.
Qed.

Lemma plan_fills size n src out :
  src <$> seq 1 n = out -> (forall i, is_byte (src i)) -> length out = n -> (n <= 33)%nat ->
  (read_write =? I2C_SMBUS_READ) = false ->
  plan_for fl size (mkReq (Some (command :: out)) 0)
    (mkPlan 1 read_write fl (Z.of_nat (S n)) (fill n 1 src (<[0%nat := command]> b0)) 0).
Proof.
  intros E Hs L Hn Erw. rewrite <- L at 1. change (S (length out)) with (length (command :: out)).
  apply (plan_sends fl size (command :: out) 0).
  - by rewrite fill_length, length_insert.
  - by apply fill_bytes, Forall_insert.
  - cbn [length]. rewrite L, take_fill by lia. by rewrite E.
  - cbn [length]. lia.
  - lia.
  - by rewrite Erw.
Qed.

Lemma plan_reads size (w : world H) d :
  data_wf d -> size <> I2C_SMBUS_QUICK -> (read_write =? I2C_SMBUS_READ) = true -> data = Some d ->
  match smbus_request true command size d with
  | None => smbus_plan fl read_write command size data b0 w = Ret (None, w)
  | Some rq => exists p, smbus_plan fl read_write command size data b0 w = Ret (Some p, w) /\ plan_for fl size rq p
  end.
Proof.
  intros [Hl Hd] Hq Erw ->. unfold smbus_request, smbus_plan. rewrite Erw, (proj2 (Z.eqb_neq _ _) Hq).
  destruct command_buf as (L & F & T). destruct (data_word_bytes d Hd) as [W0 W1].
  destruct (Z.eqb_spec size I2C_SMBUS_BYTE) as [->|].
  { eexists. split; [reflexivity|]. split; [done|]. split; [done|]. split; [cbn; lia|]. cbn. by rewrite Erw. }
  destruct (Z.eqb_spec size I2C_SMBUS_BYTE_DATA) as [->|].
  { eexists. split; [reflexivity|]. apply (plan_sends fl _ [command] 1); [done..|cbn; lia|lia|by rewrite Erw]. }
  destruct (Z.eqb_spec size I2C_SMBUS_WORD_DATA) as [->|].
  { eexists. split; [reflexivity|]. apply (plan_sends fl _ [command] 2); [done..|cbn; lia|lia|by rewrite Erw]. }
  destruct (Z.eqb_spec size I2C_SMBUS_PROC_CALL) as [->|].
  { cbn [deref mbind]. eexists. split; [reflexivity|]. rewrite W0, W1.
    destruct (command_word_buf _ _ (blk_byte d 0 Hd) (blk_byte d 1 Hd)) as (L3 & F3 & T3).
    apply (plan_sends fl _ [command; blk d 0; blk d 1] 2); [done..|cbn; lia|lia|done]. }
  destruct (Z.eqb_spec size I2C_SMBUS_BLOCK_DATA) as [->|]; [done|].
  destruct (Z.eqb_spec size I2C_SMBUS_BLOCK_PROC_CALL) as [->|]; [done|].
  destruct (Z.eqb_spec size I2C_SMBUS_I2C_BLOCK_DATA) as [->|]; [|done].
  eexists. split; [reflexivity|]. apply (plan_sends fl _ [command] 32); [done..|cbn; lia|lia|by rewrite Erw].
Qed.

Lemma plan_writes size (w : world H) :
  data_ok false size data -> (size = I2C_SMBUS_QUICK -> fl = 0) -> (read_write =? I2C_SMBUS_READ) = false ->
  match smbus_request false command size (default [] data) with
  | None => smbus_plan fl read_write command size data b0 w = Ret (None, w)
  | Some rq => exists p, smbus_plan fl read_write command size data b0 w = Ret (Some p, w) /\ plan_for fl size rq p
  end.
Proof.
  intros Hok Hq Erw. unfold smbus_request, smbus_plan. rewrite Erw. destruct command_buf as (L & F & T).
  destruct (Z.eqb_spec size I2C_SMBUS_QUICK) as [Es|].
  { eexists. split; [reflexivity|]. rewrite (Hq Es). apply (plan_sends 0 _ [] 0); [done..|cbn; lia|lia|by rewrite Erw]. }
  destruct (Z.eqb_spec size I2C_SMBUS_BYTE) as [->|].
  { eexists. split; [reflexivity|]. apply (plan_sends fl _ [command] 0); [done..|cbn; lia|lia|by rewrite Erw]. }
  destruct data as [d|]; [|by destruct Hok as [_ [?|?]]]. destruct Hok as [Hl Hd].
  pose proof (blk_byte d 0 Hd) as B0. pose proof (blk_byte d 1 Hd) as B1. destruct (data_word_bytes d Hd) as [W0 W1].
  change (default [] (Some d)) with d. assert (0 <= blk d 0 < 256) as R0 by exact B0.
  destruct (Z.eqb_spec size I2C_SMBUS_BYTE_DATA) as [->|].
  { eexists. split; [reflexivity|].
    apply (plan_sends fl _ [command; blk d 0] 0); [by rewrite length_insert|by apply Forall_insert| |cbn; lia|lia|by rewrite Erw].
    apply (take_two b0). lia. }
  destruct (Z.eqb_spec size I2C_SMBUS_WORD_DATA) as [->|].
  { eexists. split; [reflexivity|]. rewrite W0, W1. destruct (command_word_buf _ _ B0 B1) as (L3 & F3 & T3).
    apply (plan_sends fl _ [command; blk d 0; blk d 1] 0); [done..|cbn; lia|lia|by rewrite Erw]. }
  destruct (Z.eqb_spec size I2C_SMBUS_PROC_CALL) as [->|].
  { eexists. split; [reflexivity|]. rewrite W0, W1. destruct (command_word_buf _ _ B0 B1) as (L3 & F3 & T3).
    apply (plan_sends fl _ [command; blk d 0; blk d 1] 2); [done..|cbn; lia|lia|done]. }
  destruct (Z.eqb_spec size I2C_SMBUS_BLOCK_DATA) as [->|].
  { rewrite orb_false_l. cbv beta iota delta [mbind M_bind mret M_ret deref I2C_SMBUS_BLOCK_MAX].
    rewrite u16_small by lia.
    destruct (Z.ltb_spec 32 (blk d 0)), (Z.ltb_spec (32 + 2) (blk d 0 + 2)); [done|lia..|].
    eexists. split; [reflexivity|]. set (k := Z.to_nat (blk d 0)).
    assert (Z.to_nat (blk d 0 + 2) - 1 = S k)%nat as -> by lia.
    assert (blk d 0 + 2 = Z.of_nat (S (S k))) as -> by lia.
    apply plan_fills; [|by intros; apply blk_byte|rewrite length_take; lia|lia|by rewrite Erw].
    rewrite <- (fmap_seq_pred (blk d)). by apply blks_seq; lia. }
  destruct (Z.eqb_spec size I2C_SMBUS_BLOCK_PROC_CALL) as [->|]; [done|].
  destruct (Z.eqb_spec size I2C_SMBUS_I2C_BLOCK_DATA) as [->|]; [|done].
  cbv beta iota delta [mbind M_bind mret M_ret deref I2C_SMBUS_BLOCK_MAX]. rewrite u16_small by lia.
  destruct (Z.ltb_spec 32 (blk d 0)), (Z.ltb_spec (32 + 1) (blk d 0 + 1)); [done|lia..|].
  eexists. split; [reflexivity|]. set (k := Z.to_nat (blk d 0)).
  assert (blk d 0 + 1 = Z.of_nat (S k)) as -> by lia.
  apply plan_fills; [|by intros; apply blk_byte|rewrite length_take, length_drop; lia|lia|by rewrite Erw].
  by apply blks_seq; lia.
Qed.
Lemma plan_runs size (w : world H) :
  data_ok (read_write =? I2C_SMBUS_READ) size data ->
  (size = I2C_SMBUS_QUICK -> (read_write =? I2C_SMBUS_READ) = false /\ fl = 0) ->
  match smbus_request (read_write =? I2C_SMBUS_READ) command size (default [] data) with
  | None => smbus_plan fl read_write command size data b0 w = Ret (None, w)
  | Some rq => exists p, smbus_plan fl read_write command size data b0 w = Ret (Some p, w) /\ plan_for fl size rq p
  end.
Proof.
  intros Hd Hq. destruct (read_write =? I2C_SMBUS_READ) eqn:Erw.
  - destruct data as [d|] eqn:Ed; [|by destruct Hd]. change (default [] (Some d)) with d. rewrite <- Ed.
    apply plan_reads; [done| |done|done]. by intros [??]%Hq.
  - apply plan_writes; [done| |done]. intros E. by apply Hq.
Qed.

End Plan.

(** ** The messages *)

(** What the bytes of a message hold on the wire. *)
Definition carries (a fl : Z) (bytes : list Z) (m : i2c_msg) : Prop :=
  addr m = a /\ flags m = fl /\ len m = Z.of_nat (length bytes) /\ (length bytes <= 35)%nat /\ msg_bytes m = bytes.

(** The first byte on the wire. *)
Lemma address_first a (r : bool) : 0 <= a < 128 ->
  u8 (Z.lor (Z.shiftl a 1) (if r then 1 else 0)) = 2 * a + (if r then 1 else 0) /\ is_byte (2 * a + (if r then 1 else 0)).
Proof.
  intros Ha. split; [|unfold is_byte; destruct r; lia]. apply Z.eqb_eq.
  pose proof (byte_cases (fun a => (128 <=? a) || (u8 (Z.lor (Z.shiftl a 1) (if r then 1 else 0)) =? 2 * a + (if r then 1 else 0))) a) as C.
  cbv beta in C. rewrite (proj2 (Z.leb_gt 128 a)) in C by lia. apply C; [|unfold is_byte; lia]. destruct r; vm_compute; reflexivity.
Qed.

Lemma msg_pec_eq c m bytes a fl :
  is_byte c -> 0 <= a < 128 -> carries a fl bytes m -> Forall is_byte bytes ->
  i2c_smbus_msg_pec c m = crc_ref c (2 * a + (if has fl I2C_M_RD then 1 else 0) :: bytes).
Proof.
  intros Hc Ha (Ea & Ef & _ & _ & Eb) Hb. unfold i2c_smbus_msg_pec. rewrite Ea, Ef, Eb.
  destruct (address_first a (has fl I2C_M_RD) Ha) as [-> B]. set (x := 2 * a + _) in *.
  rewrite (pec_is_crc [x]) by (first [done|by constructor]). rewrite pec_is_crc; [by rewrite <- crc_ref_app| |done].
  apply crc_ref_byte; [done|by constructor].
Qed.

(** Flags of a client: only those for ten bit addresses and for the code. *)
Definition client_flags (fl : Z) : Prop := has fl I2C_M_RD = false.

Lemma client_flags_mask f : client_flags (Z.land f (Z.lor I2C_M_TEN I2C_CLIENT_PEC)).
Proof. unfold client_flags, has. by rewrite <- Z.land_assoc, Z.land_0_r. Qed.

Lemma read_flags fl : has (Z.lor fl I2C_M_RD) I2C_M_RD = true.
Proof.
  unfold has. rewrite Z.land_lor_distr_l, Z.land_diag. apply negb_true_iff, Z.eqb_neq.
  intros [_ ?]%Z.lor_eq_0_iff. done.
Qed.

(** The code is appended. *)
Lemma add_pec_carries a fl out m :
  0 <= a < 128 -> client_flags fl -> carries a fl out m -> Forall is_byte out -> (length out < length (buf m))%nat -> (length out <= 34)%nat ->
  carries a fl (out ++ [crc_ref 0 (2 * a :: out)]) (i2c_smbus_add_pec m).
Proof.
  intros Ha Hfl C F Hl Hl'. pose proof C as (Ea & Ef & El & _ & Eb).
  unfold i2c_smbus_add_pec. rewrite (msg_pec_eq 0 m out a fl), Hfl, Z.add_0_r, El, Nat2Z.id by done.
  set (v := crc_ref _ _). unfold carries. rewrite length_app. cbn [length addr flags len set_len set_buf].
  split; [done|]. split; [done|]. rewrite u16_small by lia. split; [lia|]. split; [lia|].
  unfold msg_bytes in *. cbn [len buf set_len set_buf]. rewrite u16_small by lia.
  rewrite El, Nat2Z.id in Eb. replace (Z.to_nat _) with (S (length out)) by lia.
  rewrite (take_S_r _ _ v) by (by rewrite list_lookup_insert_eq). by rewrite take_insert_ge, Eb by lia.
Qed.

(** The messages before the transfer: they carry what goes on the wire, and the partial
    code is that of what is sent before a read. *)
Definition msgs_prepared (pec : bool) (a fl : Z) (rq : smbus_req) (p : plan) (j1 : list Z) (ms : list i2c_msg) : Prop :=
  match wire_out pec a rq with
  | Some out => Forall is_byte out /\ exists m0, carries a fl out m0 /\
      ms = m0 :: (if (r_in rq =? 0)%nat then [] else [mkMsg a (Z.lor fl I2C_M_RD) (Z.of_nat (wire_in pec rq)) j1])
  | None => ms = [mkMsg a (Z.lor I2C_M_RD fl) (Z.of_nat (wire_in pec rq)) (p_buf0 p)]
  end.

Lemma messages_prepared (pec : bool) fl size a rq p j1 :
  0 <= a < 128 -> client_flags fl -> plan_for fl size rq p ->
  exists pp ms,
    (let ms := if p_num p =? 1 then [msg0 a p] else [msg0 a p; msg1 a fl p j1] in if pec then pec_before ms else (0, ms)) = (pp, ms) /\
    msgs_prepared pec a fl rq p j1 ms /\ (pec = true -> r_in rq <> 0%nat -> pp = sent_crc a rq).
Proof.
  intros Ha Hfl [[Hl Fb] [Hp [Hn _]]]. unfold msgs_prepared, wire_out, wire_in, sent_crc. destruct (r_out rq) as [out|].
  - destruct Hp as (Ef & El & Hlen & Hout & En & El1). cbn [fmap option_fmap option_map from_option].
    assert (carries a fl out (msg0 a p)) as C.
    { unfold carries, msg0, msg_bytes. cbn [addr flags len buf]. rewrite El, Nat2Z.id. repeat split; [done|lia|done]. }
    assert (Forall is_byte out) as Fo by (rewrite <- Hout; by apply Forall_take).
    assert (has (flags (msg0 a p)) I2C_M_RD = false) as Hw by (cbn; by rewrite Ef).
    destruct (r_in rq =? 0)%nat eqn:E0; rewrite En; cbn [Z.eqb Pos.eqb andb].
    + apply Nat.eqb_eq in E0. rewrite andb_true_r. destruct pec; cbn [pec_before].
      * rewrite Hw. do 2 eexists. split; [reflexivity|]. split; [|done].
        split; [apply Forall_app; split; [done|]; constructor; [|done]|].
        { apply crc_ref_byte; [done|]. constructor; [|done]. pose proof (proj2 (address_first a false Ha)). by rewrite Z.add_0_r in *. }
        eexists. split; [|done]. apply add_pec_carries; [done..|cbn; lia|done].
      * do 2 eexists. split; [reflexivity|]. split; [|done]. eauto.
    + rewrite andb_false_r. apply Nat.eqb_neq in E0. unfold msg1. rewrite El1. destruct pec; cbn [pec_before].
      * rewrite Hw. do 2 eexists. split; [reflexivity|]. split.
        -- split; [done|]. eexists. split; [done|]. do 2 f_equal. cbn [flags]. unfold setb. rewrite read_flags.
           unfold set_len. cbn [addr flags len buf]. rewrite u16_small by lia. f_equal. lia.
        -- intros _ _. by rewrite (msg_pec_eq 0 _ out a fl), Hfl, Z.add_0_r.
      * do 2 eexists. split; [reflexivity|]. split; [|done]. eauto.
  - destruct Hp as (Ef & En & El & E1). rewrite En, E1. cbn [Z.eqb Pos.eqb Nat.eqb]. unfold msg0. rewrite Ef, El.
    destruct pec; cbn [pec_before flags].
    + rewrite Z.lor_comm, read_flags. do 2 eexists. split; [reflexivity|]. done.
    + do 2 eexists. split; [reflexivity|]. done.
Qed.
