(* ===== verification/I2cSmbusMain.v ===== *)
(** * SMBus requests on the bus

    On a controller that keeps its control register, on a bus that answers, a request of
    the SMBus protocol is the transaction the protocol asks for, and its result is what was
    received; the packet error code is sent and checked. *)

From stdpp Require Import base list.
From Stdlib Require Import ZArith Lia.
From S2P Require Import Prelude I2c I2cTrace I2cBus I2cLive I2cSmbus I2cPec I2cRequest.

(** ** The answer *)

(** What the caller finds in its data after a read. *)
Definition answer (size : Z) (got : list Z) (d : i2c_smbus_data) : i2c_smbus_data :=
  if (size =? I2C_SMBUS_BYTE) || (size =? I2C_SMBUS_BYTE_DATA) then <[0%nat := nth 0 got 0]> d
  else if (size =? I2C_SMBUS_WORD_DATA) || (size =? I2C_SMBUS_PROC_CALL) then
    <[0%nat := nth 0 got 0]> (<[1%nat := nth 1 got 0]> d)
  else 32 :: take 32 got ++ drop 33 d.

Lemma set_data_word_bytes x y d : is_byte x -> is_byte y ->
  set_data_word (Z.lor x (Z.shiftl y 8)) d = <[0%nat := x]> (<[1%nat := y]> d).
Proof.
  unfold is_byte, set_data_word, u8. intros Hx Hy.
  assert (Z.lor x (Z.shiftl y 8) mod 2 ^ 8 = x) as ->.
  { rewrite <- Z.land_ones, Z.land_lor_distr_l, !Z.land_ones, Z.shiftl_mul_pow2, Z.mod_mul, Z.lor_0_r by lia.
    by apply Z.mod_small. }
  rewrite Z.shiftr_lor, Z.shiftr_shiftl_l, Z.shiftr_div_pow2, Z.div_small, Z.lor_0_l by lia.
  change (8 - 8) with 0. rewrite Z.shiftl_0_r. by rewrite Z.mod_small.
Qed.

Lemma nth_byte i got : Forall is_byte got -> is_byte (nth i got 0).
Proof. apply blk_byte. Qed.

Lemma nth_front i (got rest : list Z) : (i < length got)%nat -> nth i (got ++ rest) 0 = nth i got 0.
Proof. intros. by apply app_nth1. Qed.

Lemma store_answer rd command size d rq got rest m0 ml :
  smbus_request rd command size d = Some rq -> r_in rq <> 0%nat -> (r_in rq <= length got)%nat -> Forall is_byte got ->
  length d = 34%nat -> buf ml = got ++ rest -> (r_out rq = None -> m0 = ml) ->
  store_data size m0 ml d = answer size got d.
Proof.
  intros Hrq Hn Hl F Hd Hb Hm0. unfold smbus_request, store_data, answer in *.
  destruct (Z.eqb_spec size I2C_SMBUS_QUICK) as [->|]; [by destruct rd; injection Hrq as <-|].
  destruct (Z.eqb_spec size I2C_SMBUS_BYTE) as [->|].
  { destruct rd; injection Hrq as <-; [|done]. cbn [r_in r_out] in *. rewrite Hm0, Hb, nth_front by (done || lia).
    cbn [orb]. unfold set_data_byte. f_equal. apply Z.mod_small, nth_byte, F. }
  destruct (Z.eqb_spec size I2C_SMBUS_BYTE_DATA) as [->|].
  { destruct rd; injection Hrq as <-; [|done]. cbn [r_in r_out] in *. rewrite Hb, nth_front by lia.
    cbn [orb]. unfold set_data_byte. f_equal. apply Z.mod_small, nth_byte, F. }
  cbn [orb]. destruct ((size =? I2C_SMBUS_WORD_DATA) || (size =? I2C_SMBUS_PROC_CALL)) eqn:Ew.
  { assert (r_in rq = 2%nat) as E2.
    { destruct (size =? I2C_SMBUS_WORD_DATA), (size =? I2C_SMBUS_PROC_CALL), rd; try done; by injection Hrq as <-. }
    rewrite Hb, !nth_front by lia. apply set_data_word_bytes; apply nth_byte, F. }
  apply orb_false_iff in Ew as [Ew1 Ew2]. rewrite Ew1, Ew2 in Hrq.
  destruct (Z.eqb_spec size I2C_SMBUS_BLOCK_DATA) as [->|].
  { destruct (rd || _); [done|]. by injection Hrq as <-. }
  destruct (Z.eqb_spec size I2C_SMBUS_I2C_BLOCK_DATA) as [->|]; [|done].
  assert (r_in rq = 32%nat) as E32.
  { destruct rd; [by injection Hrq as <-|]. destruct (32 <? blk d 0); [done|]. by injection Hrq as <-. }
  destruct d as [|y d]; [done|]. change (<[0%nat := I2C_SMBUS_BLOCK_MAX]> (y :: d)) with (32 :: d).
  rewrite fill_spec by (cbn [length] in *; lia). cbn [take app drop Nat.add]. f_equal. rewrite take_0.
  cbn [app]. f_equal. rewrite Hb, <- (fmap_seq_pred (fun i => nth i (got ++ rest) 0)).
  change (fun i => nth i (got ++ rest) 0) with (blk (got ++ rest)).
  rewrite blks_seq by (rewrite length_app; lia). by rewrite drop_0, take_app_le by lia.
Qed.

(** ** The transfer *)

Section Controller.
Context {H : Type} {Hw : I2cHw H} (dev : mxc_i2c_device)
  {Kept : ControlKept Hw (membase dev)} {Ans : Answers Hw (membase dev)}.
Implicit Types w : world H.

(** The messages as the driver gets them. *)
Definition wired (m : i2c_msg) : i2c_msg := set_buf (msg_bytes m) m.

Lemma transfer_runs ms w :
  low_power dev = false -> ms <> [] -> supported (wired <$> ms) = true ->
  Forall wf_msg (wired <$> ms) -> Forall (fun m => addr m < 128) (wired <$> ms) -> cr_is 0 (hw w) -> quiet 0 (hw w) ->
  wp (transfer_bytes dev ms) (fun r w' => exists ms' l x,
    r = (Z.of_nat (length ms) - 1, zip_with (fun m m' => set_buf (buf m' ++ drop (Z.to_nat (len m)) (buf m)) m) ms ms') /\
    kept (wired <$> ms) ms' /\ log w' = log w ++ l /\ (length x <= 1)%nat /\
    decode (membase dev) l = mkCtl 0 (spec_bus None (wired <$> ms)) (x ++ received ms')) w.
Proof.
  intros Hlp Hne Hsup F Fa Hc Hq. unfold transfer_bytes. apply wp_bind. change (fun m => set_buf (msg_bytes m) m) with wired.
  assert (wired <$> ms <> []) as Hne' by (by destruct ms).
  pose proof (xfer_lives dev _ w Hlp Hne' Hsup F Hq) as W1. pose proof (xfer_run dev _ w Hlp Hne' F) as W2.
  destruct (proj1 (wp_run _ _ _) (xfer_on_bus dev _ w Hlp Hne' Hsup F Fa Hc)) as ([ret ms'] & w' & E & Hbus).
  unfold i2c_transfer, wp in *. rewrite E in *. cbn [fst snd] in *. destruct W2 as (_ & K & _).
  destruct (Hbus W1) as (l & x & El & Hx & Ed). exists ms', l, x. by rewrite W1, length_fmap.
Qed.

(** A message that carries bytes is well-formed. *)
Lemma wired_write a fl bytes m : 0 <= a < 128 -> carries a fl bytes m -> Forall is_byte bytes ->
  wired m = mkMsg a fl (Z.of_nat (length bytes)) bytes /\ wf_msg (wired m).
Proof.
  intros Ha (Ea & Ef & El & Hl & Eb) F. assert (wired m = mkMsg a fl (Z.of_nat (length bytes)) bytes) as ->.
  { unfold wired, set_buf. by rewrite Ea, Ef, El, Eb. }
  split; [done|]. unfold wf_msg. cbn [addr len buf]. split; [lia|]. split; [lia|done].
Qed.

Lemma wired_read a fl n b : 0 <= a < 128 -> (n <= length b)%nat -> (length b <= 35)%nat -> Forall is_byte b ->
  wired (mkMsg a fl (Z.of_nat n) b) = mkMsg a fl (Z.of_nat n) (take n b) /\ wf_msg (wired (mkMsg a fl (Z.of_nat n) b)).
Proof.
  intros Ha Hn Hl F. assert (wired (mkMsg a fl (Z.of_nat n) b) = mkMsg a fl (Z.of_nat n) (take n b)) as ->.
  { unfold wired, set_buf, msg_bytes. cbn [addr flags len buf]. by rewrite Nat2Z.id. }
  split; [done|]. unfold wf_msg. cbn [addr len buf]. rewrite length_take. repeat split; try lia. by apply Forall_take.
Qed.

(** What is on the bus, and what was received. *)
Definition on_bus (a : Z) (out : option (list Z)) (got : list Z) (w w' : world H) : Prop :=
  exists l x, log w' = log w ++ l /\ (length x <= 1)%nat /\
    decode (membase dev) l = mkCtl 0 (smbus_frame a out (length got)) (x ++ got).

(** One message after the driver: a write is as it was, a read has its bytes. *)
Lemma kept_write a fl out n m' :
  client_flags fl -> same_shape (mkMsg a fl n out) m' -> m' = mkMsg a fl n out.
Proof. intros Hfl (E1 & E2 & E3 & E4). destruct m'. cbn in *. by rewrite E1, E2, E3, E4. Qed.

Lemma kept_read a flr n b m' :
  wf_msg m' -> same_shape (mkMsg a flr (Z.of_nat n) b) m' ->
  exists got, m' = mkMsg a flr (Z.of_nat n) got /\ length got = n /\ Forall is_byte got.
Proof.
  intros (_ & _ & L & F) (E1 & E2 & E3 & _). exists (buf m'). destruct m'. cbn in *. rewrite E1, E2, E3. rewrite E3 in L.
  split; [done|]. split; [lia|done].
Qed.

Context (Hlp : low_power dev = false) (a : Z) (Ha : 0 <= a < 128).

Lemma transfer_write fl out m0 w :
  client_flags fl -> carries a fl out m0 -> Forall is_byte out -> cr_is 0 (hw w) -> quiet 0 (hw w) ->
  wp (transfer_bytes dev [m0]) (fun r w' =>
    fst r = 0 /\ has (flags (last_msg (snd r))) I2C_M_RD = false /\ on_bus a (Some out) [] w w') w.
Proof.
  intros Hfl C Fo Hc Hq. destruct (wired_write a fl out m0 Ha C Fo) as [E0 W0]. pose proof C as (Ea & Ef & _).
  eapply wp_mono; [apply transfer_runs; [done|done| | | |done|done]|].
  - cbn. unfold is_read. cbn. by rewrite Ef, Hfl.
  - by constructor.
  - constructor; [|done]. rewrite E0. cbn. lia.
  - intros r w' (ms' & l & x & -> & [K1 K2] & El & Hx & Ed). cbn [fmap list_fmap] in *. rewrite E0 in *.
    apply Forall2_cons_inv_l in K2 as (m' & ? & S & ->%Forall2_nil_inv_l & ->).
    apply kept_write in S as ->; [|done]. split; [done|]. split; [cbn; by rewrite Ef|]. exists l, x.
    split; [done|]. split; [done|]. rewrite Ed. cbn [spec_bus]. unfold heading, payload, address_byte, is_read.
    cbn [flags addr buf]. rewrite Hfl, received_write by done. unfold smbus_frame. by rewrite Z.add_0_r.
Qed.

Lemma transfer_read flr n b w :
  has flr I2C_M_RD = true -> (1 <= n <= length b)%nat -> (length b <= 35)%nat -> Forall is_byte b ->
  cr_is 0 (hw w) -> quiet 0 (hw w) ->
  wp (transfer_bytes dev [mkMsg a flr (Z.of_nat n) b]) (fun r w' => exists got rest,
    r = (0, [mkMsg a flr (Z.of_nat n) (got ++ rest)]) /\ length got = n /\ Forall is_byte got /\ on_bus a None got w w') w.
Proof.
  intros Hfl Hn Hl Fb Hc Hq. destruct (wired_read a flr n b Ha ltac:(lia) Hl Fb) as [E0 W0].
  eapply wp_mono; [apply transfer_runs; [done|done| | | |done|done]|].
  - cbn [fmap list_fmap]. rewrite E0. cbn. unfold is_read. cbn. rewrite Hfl. apply andb_true_iff. split; [apply Z.leb_le; lia|done].
  - by constructor.
  - constructor; [|done]. rewrite E0. cbn. lia.
  - intros r w' (ms' & l & x & -> & [K1 K2] & El & Hx & Ed). cbn [fmap list_fmap] in *. rewrite E0 in *.
    apply Forall2_cons_inv_l in K2 as (m' & ? & S & ->%Forall2_nil_inv_l & ->). apply Forall_cons in K1 as [K1 _].
    destruct (kept_read _ _ _ _ _ K1 S) as (got & -> & Lg & Fg). exists got, (drop n b). cbn [zip_with length buf len].
    rewrite Nat2Z.id. split; [done|]. split; [done|]. split; [done|]. exists l, x.
    split; [done|]. split; [done|]. rewrite Ed. cbn [spec_bus]. unfold heading, payload, address_byte, is_read.
    cbn [flags addr buf len]. rewrite Hfl, received_read, app_nil_r by done. rewrite Nat2Z.id, Lg. done.
Qed.

Lemma transfer_both fl flr out n m0 b w :
  client_flags fl -> has flr I2C_M_RD = true -> carries a fl out m0 -> Forall is_byte out ->
  (1 <= n <= length b)%nat -> (length b <= 35)%nat -> Forall is_byte b -> cr_is 0 (hw w) -> quiet 0 (hw w) ->
  wp (transfer_bytes dev [m0; mkMsg a flr (Z.of_nat n) b]) (fun r w' => exists m0' got rest,
    r = (1, [m0'; mkMsg a flr (Z.of_nat n) (got ++ rest)]) /\ length got = n /\ Forall is_byte got /\
    on_bus a (Some out) got w w') w.
Proof.
  intros Hf Hfl C Fo Hn Hl Fb Hc Hq. destruct (wired_read a flr n b Ha ltac:(lia) Hl Fb) as [E1 W1].
  destruct (wired_write a fl out m0 Ha C Fo) as [E0 W0].
  eapply wp_mono; [apply transfer_runs; [done|done| | | |done|done]|].
  - cbn [fmap list_fmap]. rewrite E0, E1. cbn. unfold is_read. cbn. rewrite Hf, Hfl. apply andb_true_iff. split; [apply Z.leb_le; lia|done].
  - constructor; [done|]. by constructor.
  - constructor; [rewrite E0; cbn; lia|]. constructor; [rewrite E1; cbn; lia|done].
  - intros r w' (ms' & l & x & -> & [K1 K2] & El & Hx & Ed). cbn [fmap list_fmap] in *. rewrite E0, E1 in *.
    apply Forall2_cons_inv_l in K2 as (m' & ? & S0 & K2 & ->).
    apply Forall2_cons_inv_l in K2 as (m'' & ? & S1 & ->%Forall2_nil_inv_l & ->).
    apply Forall_cons in K1 as [_ K1]. apply Forall_cons in K1 as [K1 _]. apply kept_write in S0 as ->; [|done].
    destruct (kept_read _ _ _ _ _ K1 S1) as (got & -> & Lg & Fg). eexists _, got, (drop n b). cbn [zip_with length buf len].
    rewrite Nat2Z.id. split; [reflexivity|]. split; [done|]. split; [done|]. exists l, x.
    split; [done|]. split; [done|]. rewrite Ed. cbn [spec_bus]. unfold heading, needs_restart, payload, address_byte, is_read.
    cbn [flags addr buf len]. rewrite Hf, Hfl, received_write, received_read, app_nil_r, Z.eqb_refl by done.
    rewrite Nat2Z.id. unfold smbus_frame. rewrite Lg. destruct n; [lia|].
    assert ((Z.land flr I2C_M_RD =? Z.land fl I2C_M_RD) = false) as ->.
    { unfold client_flags, has in *. apply negb_false_iff, Z.eqb_eq in Hf. rewrite Hf. by apply negb_true_iff in Hfl. }
    by rewrite Z.add_0_r.
Qed.

(** After the transfer of a request: where the bytes received are. *)
Definition fetched (rq : smbus_req) (got : list Z) (ms : list i2c_msg) : Prop :=
  if (r_in rq =? 0)%nat then has (flags (last_msg ms)) I2C_M_RD = false
  else exists flr rest, last_msg ms = mkMsg a flr (Z.of_nat (length got)) (got ++ rest) /\
     has flr I2C_M_RD = true /\ (r_out rq = None -> hd (last_msg ms) ms = last_msg ms).

Lemma transfer_prepared pec fl size rq p j1 ms w :
  cr_is 0 (hw w) -> quiet 0 (hw w) -> client_flags fl ->
  length j1 = 34%nat -> Forall is_byte j1 -> plan_for fl size rq p -> msgs_prepared pec a fl rq p j1 ms ->
  wp (transfer_bytes dev ms) (fun r w' => exists got, 0 <= fst r /\ length got = wire_in pec rq /\ Forall is_byte got /\
    on_bus a (wire_out pec a rq) got w w' /\ fetched rq got (snd r)) w.
Proof.
  intros Hc Hq Hfl Hj Fj ([Hl0 F0] & Hp & Hin & _). unfold msgs_prepared, fetched, wire_in.
  destruct (wire_out pec a rq) as [out|] eqn:Ewo.
  - intros (Fo & m0 & C & ->). destruct (r_in rq =? 0)%nat eqn:E.
    + eapply wp_mono; [by eapply transfer_write|]. intros r w' (E1 & E2 & E3). exists []. rewrite E1. done.
    + apply Nat.eqb_neq in E. eapply wp_mono; [eapply transfer_both; try done; [apply read_flags|destruct pec; lia|lia]|].
      intros r w' (m0' & got & rest & -> & L & Fg & B). exists got. cbn [fst snd]. split; [lia|]. split; [done|]. split; [done|].
      split; [done|]. eexists _, rest. rewrite L. split; [done|]. split; [apply read_flags|].
      intros En. unfold wire_out in Ewo. by rewrite En in Ewo.
  - intros ->. assert (r_in rq = 1%nat) as E1.
    { unfold wire_out in Ewo. destruct (r_out rq); [done|]. by destruct Hp as (_ & _ & _ & ?). }
    rewrite E1. cbn [Nat.eqb]. eapply wp_mono; [apply transfer_read; try done; [rewrite Z.lor_comm; apply read_flags|destruct pec; lia|lia]|].
    intros r w' (got & rest & -> & L & Fg & B). exists got. cbn [fst snd]. split; [lia|]. split; [done|]. split; [done|].
    split; [done|]. eexists _, rest. rewrite L. split; [done|]. split; [rewrite Z.lor_comm; apply read_flags|done].
Qed.

(** The check of the code. *)
Lemma check_pec_good rq got rest flr m :
  Forall is_byte got -> length got = S (r_in rq) -> (r_in rq <= 32)%nat -> is_byte (sent_crc a rq) -> has flr I2C_M_RD = true ->
  m = mkMsg a flr (Z.of_nat (length got)) (got ++ rest) ->
  (fst (i2c_smbus_check_pec (sent_crc a rq) m) <? 0) = negb (pec_good a rq got).
Proof.
  intros F L Hn Hs Hf ->. unfold i2c_smbus_check_pec, set_len. cbn [addr flags len buf fst]. rewrite u16_small by lia.
  replace (Z.of_nat (length got) - 1) with (Z.of_nat (r_in rq)) by lia. rewrite Nat2Z.id, nth_front by lia.
  rewrite (msg_pec_eq _ _ (take (r_in rq) got) a flr); [|done|done| |by apply Forall_take].
  - rewrite Hf. fold (pec_good a rq got). by destruct (pec_good a rq got).
  - unfold carries, msg_bytes. cbn [addr flags len buf]. rewrite length_take, Nat2Z.id, take_app_le by lia.
    repeat split; lia.
Qed.

Lemma sent_crc_byte fl size rq p : plan_for fl size rq p -> is_byte (sent_crc a rq).
Proof.
  intros ([_ F] & Hp & _). unfold sent_crc. destruct (r_out rq) as [out|]; [|done]. destruct Hp as (_ & _ & _ & E & _).
  apply crc_ref_byte; [done|]. constructor; [unfold is_byte; lia|]. rewrite <- E. by apply Forall_take.
Qed.

(** What a request returns, from the bytes received. *)
Definition smbus_result (pec : bool) (rq : smbus_req) (size : Z) (got : list Z) (data : option i2c_smbus_data) :
    Z * option i2c_smbus_data :=
  if (r_in rq =? 0)%nat then (0, data)
  else if pec && negb (pec_good a rq got) then (-1, data)
  else (0, answer size got <$> data).

Lemma emulated_runs st fl read_write command size data w :
  is_byte command -> stack_wf st -> client_flags fl -> data_ok (read_write =? I2C_SMBUS_READ) size data ->
  (size = I2C_SMBUS_QUICK -> (read_write =? I2C_SMBUS_READ) = false /\ fl = 0) ->
  cr_is 0 (hw w) -> quiet 0 (hw w) ->
  match smbus_request (read_write =? I2C_SMBUS_READ) command size (default [] data) with
  | None => i2c_smbus_xfer_emulated st dev a fl read_write command size data w = Ret ((-1, data), w)
  | Some rq => let pec := with_pec fl size in
      wp (i2c_smbus_xfer_emulated st dev a fl read_write command size data) (fun r w' => exists got,
        r = smbus_result pec rq size got data /\ length got = wire_in pec rq /\ on_bus a (wire_out pec a rq) got w w') w
  end.
Proof.
  intros Hcmd (Hl0 & F0 & Hl1 & F1 & _) Hfl Hd Hqk Hc Hq.
  pose proof (plan_runs fl read_write command data (junk0 st) Hcmd Hl0 F0 size w Hd Hqk) as R.
  destruct (smbus_request _ _ _ _) as [rq|] eqn:Erq.
  2: { unfold i2c_smbus_xfer_emulated, mbind, M_bind. by rewrite R. }
  destruct R as (p & Ep & Hp). intros pec. unfold i2c_smbus_xfer_emulated. apply wp_bind. unfold wp at 1. rewrite Ep.
  destruct (messages_prepared pec fl size a rq p (junk1 st) Ha Hfl Hp) as (pp & ms & Ems & Hms & Hpp).
  cbv zeta in Ems. cbv zeta. fold (with_pec fl size). fold pec. rewrite Ems.
  apply wp_bind. eapply wp_mono; [by eapply transfer_prepared|]. intros r w' (got & Hr & L & Fg & B & Hf).
  rewrite (proj2 (Z.ltb_ge _ _)) by lia. pose proof Hp as (_ & _ & Hn & Erw). unfold smbus_result, fetched, wire_in in *.
  destruct (r_in rq =? 0)%nat eqn:E0; cbn [negb] in Erw.
  - rewrite Hf, andb_false_r, Erw. apply wp_ret. exists got. done.
  - apply Nat.eqb_neq in E0. destruct Hf as (flr & rest & El & Hrd & Hhd).
    rewrite El in Hhd. rewrite El, Erw. cbn [flags]. rewrite Hrd, andb_true_r.
    assert (pec && (fst (i2c_smbus_check_pec pp (mkMsg a flr (Z.of_nat (length got)) (got ++ rest))) <? 0) =
      pec && negb (pec_good a rq got)) as ->.
    { destruct pec; [|done]. cbn [andb]. rewrite (Hpp eq_refl E0). eapply check_pec_good; try done. by eapply sent_crc_byte. }
    destruct (pec && negb (pec_good a rq got)) eqn:Eg; [apply wp_ret; exists got; by rewrite Eg|].
    destruct data as [d|].
    2: { exfalso. destruct Hd as [Hw' [->| ->]]; rewrite Hw' in Erq; by injection Erq as <-. }
    apply wp_bind, (wp_deref _ d); [done|]. apply wp_ret. exists got. rewrite Eg. split; [|done]. cbn [fmap option_fmap option_map]. do 2 f_equal.
    eapply store_answer; [exact Erq|done|destruct pec; lia|done|by destruct Hd|done|done].
Qed.

Lemma with_pec_mask fl size : with_pec (Z.land fl (Z.lor I2C_M_TEN I2C_CLIENT_PEC)) size = with_pec fl size.
Proof. unfold with_pec, has. by rewrite <- Z.land_assoc. Qed.

(** C29: SMBus requests.  On a controller that keeps its control register, on a bus that
    answers, for a seven bit address, whatever the buffers on the stack held: a request that
    the emulation does not support, or with a block of more than 32 bytes, is refused without
    an access.  Any other (but a quick read, and a quick write with flags) makes on the bus
    exactly the transaction of the protocol, with the packet error code after the last byte
    sent when only bytes are sent.  It returns zero, and after a read the data holds the bytes
    received; with a code, only if the code received is that of the address and data
    bytes of the transaction, otherwise it returns -1 and leaves the data alone. *)
Theorem smbus_xfer_correct st fl read_write command size data w :
  is_byte command -> stack_wf st -> data_ok (read_write =? I2C_SMBUS_READ) size data ->
  (size = I2C_SMBUS_QUICK ->
    (read_write =? I2C_SMBUS_READ) = false /\ Z.land fl (Z.lor I2C_M_TEN I2C_CLIENT_PEC) = 0) ->
  cr_is 0 (hw w) -> quiet 0 (hw w) ->
  match smbus_request (read_write =? I2C_SMBUS_READ) command size (default [] data) with
  | None => i2c_smbus_xfer st dev a fl read_write command size data w = Ret ((-1, data), w)
  | Some rq => let pec := with_pec fl size in exists got w' l x,
      i2c_smbus_xfer st dev a fl read_write command size data w = Ret (smbus_result pec rq size got data, w') /\
      length got = wire_in pec rq /\ log w' = log w ++ l /\ (length x <= 1)%nat /\
      decode (membase dev) l = mkCtl 0 (smbus_frame a (wire_out pec a rq) (wire_in pec rq)) (x ++ got)
  end.
Proof.
  intros Hcmd Hst Hd Hqk Hc Hq.
  pose proof (emulated_runs st _ read_write command size data w Hcmd Hst (client_flags_mask fl) Hd Hqk Hc Hq) as R.
  unfold i2c_smbus_xfer. rewrite with_pec_mask in R. destruct (smbus_request _ _ _ _) as [rq|]; [|done].
  cbv zeta in *. destruct (proj1 (wp_run _ _ _) R) as (r & w' & E & got & -> & L & l & x & El & Hx & Ed).
  exists got, w', l, x. rewrite L in Ed. done.
Qed.

(** ** Client calls *)

(** A word is read: the register is named, two bytes are received, the low one first. *)
Lemma read_word_result st fl command w :
  is_byte command -> stack_wf st -> has fl I2C_CLIENT_PEC = false -> cr_is 0 (hw w) -> quiet 0 (hw w) ->
  wp (i2c_smbus_read_word_data st dev a fl command) (fun r w' => exists lo hi,
    r = lo + 256 * hi /\ on_bus a (Some [command]) [lo; hi] w w') w.
Proof.
  intros Hcmd Hst Hp Hc Hq. unfold i2c_smbus_read_word_data, read_into, i2c_smbus_xfer. apply wp_bind.
  pose proof Hst as (_ & _ & _ & _ & Hdl & Hdf).
  pose proof (emulated_runs st _ I2C_SMBUS_READ command I2C_SMBUS_WORD_DATA (Some (junk_data st)) w Hcmd Hst
    (client_flags_mask fl) (conj Hdl Hdf) ltac:(done) Hc Hq) as R.
  rewrite with_pec_mask in R. unfold with_pec in R. rewrite Hp in R. cbn in R.
  eapply wp_mono; [exact R|]. intros r w' (got & -> & L & B). apply wp_ret.
  destruct got as [|lo [|hi [|]]]; try done. exists lo, hi. split; [|done].
  destruct (junk_data st) as [|? [|? d]]; [done..|]. change (lo + Z.shiftl hi 8 = lo + 256 * hi). rewrite Z.shiftl_mul_pow2 by lia. lia.
Qed.

End Controller.
