(* ===== verification/I2cSmbusWitness.v ===== *)
(** * Instances of the theorem about SMBus requests, and what the emulation gets wrong

    The controller is that of [I2cWitness], with a slave that sends given bytes. *)

From stdpp Require Import base list.
From Stdlib Require Import ZArith Lia.
From S2P Require Import Prelude I2c I2cTrace I2cBus I2cLive I2cWitness I2cSmbus I2cPec I2cRequest I2cSmbusMain.

#[local] Existing Instance sim_hw.

(** A stack full of 0x5A. *)
Definition junk : stack := mkStack (replicate 35 0x5A) (replicate 34 0x5A) (replicate 34 0x5A).

Definition slave_sends (bytes : list Z) : world sim := mkWorld (mkSim 0 None false 3 bytes 0 false) false false [].

Lemma junk_wf : stack_wf junk.
Proof. unfold stack_wf, data_wf. repeat split; apply Forall_replicate; done. Qed.

(** Two bytes are read from register 0x10, with the code 0x55 after them. *)
Definition word_request : smbus_req := mkReq (Some [0x10]) 2.

Lemma smbus_xfer_correct_witness :
  exists got w' l x,
    i2c_smbus_xfer junk i2c0 0x50 I2C_CLIENT_PEC I2C_SMBUS_READ 0x10 I2C_SMBUS_WORD_DATA (Some (junk_data junk))
      (slave_sends [0xAB; 0xCD; 0x55]) =
      Ret (smbus_result 0x50 true word_request I2C_SMBUS_WORD_DATA got (Some (junk_data junk)), w') /\
    length got = 3%nat /\ log w' = [] ++ l /\ (length x <= 1)%nat /\
    decode (membase i2c0) l =
      mkCtl 0 [Start; Tx 0xA0; Tx 0x10; Restart; Tx 0xA1; Rx false; Rx false; Rx true; Stop] (x ++ got).
Proof.
  apply (smbus_xfer_correct i2c0 (Kept := sim_kept) (Ans := sim_answers) eq_refl 0x50 ltac:(lia) junk I2C_CLIENT_PEC
    I2C_SMBUS_READ 0x10 I2C_SMBUS_WORD_DATA (Some (junk_data junk)) (slave_sends [0xAB; 0xCD; 0x55])).
  - done.
  - apply junk_wf.
  - apply junk_wf.
  - done.
  - split; [reflexivity|lia].
  - split; [|by split]. split; [split; [reflexivity|lia]|]. split; [cbn; lia|reflexivity].
Defined.

(** The value a run of a client call returns. *)
Definition value {A} (r : outcome (A * world sim)) : option A := match r with Ret (v, _) => Some v | Crash _ => None end.
Definition bus_of_run {A} (r : outcome (A * world sim)) : list bus_ev :=
  match r with Ret (_, w) => c_bus (decode (membase i2c0) (log w)) | Crash _ => [] end.

(** The same run, computed; and with one bit of the data wrong. *)
Example word_with_code : value (i2c_smbus_read_word_data junk i2c0 0x50 I2C_CLIENT_PEC 0x10 (slave_sends [0xAB; 0xCD; 0x55])) = Some 0xCDAB.
Proof. vm_compute. reflexivity. Qed.
Example word_with_bad_code : value (i2c_smbus_read_word_data junk i2c0 0x50 I2C_CLIENT_PEC 0x10 (slave_sends [0xAB; 0xCC; 0x55])) = Some (-1).
Proof. vm_compute. reflexivity. Qed.

(** A block of three bytes with the code. *)
Example block_with_code :
  let r := i2c_smbus_write_block_data junk i2c0 0x50 I2C_CLIENT_PEC 0x20 3 [1; 2; 3] (slave_sends []) in
  value r = Some 0 /\ bus_of_run r = smbus_frame 0x50 (Some [0x20; 3; 1; 2; 3; crc_ref 0 [0xA0; 0x20; 3; 1; 2; 3]]) 0.
Proof. vm_compute. done. Qed.

(** ** What the emulation gets wrong *)

(** A quick write to a client that uses the code is made as a read: the bit of the direction is
    chosen by [flags | (read_write == I2C_SMBUS_READ)]. *)
Example quick_write_reads :
  bus_of_run (i2c_smbus_write_quick junk i2c0 0x50 0 I2C_SMBUS_WRITE (slave_sends [])) = [Start; Tx 0xA0; Stop] /\
  take 2 (bus_of_run (i2c_smbus_write_quick junk i2c0 0x50 I2C_CLIENT_PEC I2C_SMBUS_WRITE (slave_sends []))) = [Start; Tx 0xA1].
Proof. vm_compute. done. Qed.

(** A slave that is not there: reading a byte from it yields 0xFF and not an error. *)
Example absent_byte :
  value (i2c_smbus_read_byte junk i2c0 0x50 0 (mkWorld (mkSim 0 None false 3 [] 0 true) false false [])) = Some 0xFF.
Proof. vm_compute. reflexivity. Qed.
