(* ===== verification/HwEvent.v ===== *)
(** * The hardware event queue: [drivers/mxc/hw_event/mxc_hw_event.c]

    Events are sent to user space by netlink, at once or through a queue that a kernel
    thread empties.  The queue is a pool of ten nodes on intrusive doubly linked lists,
    modelled here pointer by pointer with the operations of [include/linux/list.h].

    The code between two places where the thread does not hold the lock (or waits) is one
    step; sends may come between any two steps, from interrupts or other processes.
    Memory allocation and netlink are not code of the driver: their answers are arguments. *)

From stdpp Require Import base list.
From Stdlib Require Import ZArith Lia.
From S2P Require Import Prelude.

(** ** Linked lists *)

(** The list heads, the [list] fields of the pool's nodes, and the two poison values. *)
Inductive loc : Type :=
| EventHead
| FreeHead
| TmpHead
| Node (i : nat)
| Poison1
| Poison2.

#[global] Instance loc_eq : EqDecision loc.
Proof. solve_decision. Defined.

(** [struct list_head] at each location. *)
Record heap : Type := mkHeap { next : loc -> loc; prev : loc -> loc }.

Definition upd_loc (f : loc -> loc) (a v : loc) : loc -> loc := fun x => if decide (x = a) then v else f x.
Definition set_next (a v : loc) (h : heap) : heap := mkHeap (upd_loc (next h) a v) (prev h).
Definition set_prev (a v : loc) (h : heap) : heap := mkHeap (next h) (upd_loc (prev h) a v).

Definition INIT_LIST_HEAD (l : loc) (h : heap) : heap := set_prev l l (set_next l l h).

Definition __list_add (new prev next : loc) (h : heap) : heap :=
  set_next prev new (set_prev new prev (set_next new next (set_prev next new h))).
Definition list_add (new head : loc) (h : heap) : heap := __list_add new head (next h head) h.
Definition list_add_tail (new head : loc) (h : heap) : heap := __list_add new (prev h head) head h.

Definition __list_del (prev next : loc) (h : heap) : heap := set_next prev next (set_prev next prev h).
Definition list_del (entry : loc) (h : heap) : heap :=
  set_prev entry Poison2 (set_next entry Poison1 (__list_del (prev h entry) (next h entry) h)).
Definition list_move (list head : loc) (h : heap) : heap :=
  list_add list head (__list_del (prev h list) (next h list) h).

Definition list_empty (head : loc) (h : heap) : bool := bool_decide (next h head = head).

(** ** The driver *)

Definition EVENT_POOL_SIZE : nat := 10.
Definition HWE_DEF_PRIORITY : Z := 1.
Definition HWE_HIGH_PRIORITY : Z := 0.

Record mxc_hw_event : Type := mkEvent { event : Z; args : Z }.

(** A netlink message: its sequence number and the event. *)
Definition msg : Type := Z * mxc_hw_event.

(** Where the thread is: before [wait_event_interruptible]; at the head of the loop with
    [event] and [n]; before [netlink_broadcast] of a message, with the same. *)
Inductive pc : Type :=
| Waiting
| Walking (pos n : loc)
| Casting (m : msg) (pos n : loc).

(** The lists, the contents of the nodes, [seq], the messages broadcast so far, the events
    dropped by the thread, and the thread. *)
Record hwst : Type := mkHw {
  links : heap;
  pool : nat -> mxc_hw_event;
  seqno : Z;
  out : list msg;
  lost : list mxc_hw_event;
  thread : pc;
}.

Definition with_links (f : heap -> heap) (s : hwst) : hwst :=
  mkHw (f (links s)) (pool s) (seqno s) (out s) (lost s) (thread s).
Definition with_pool (f : nat -> mxc_hw_event) (s : hwst) : hwst :=
  mkHw (links s) f (seqno s) (out s) (lost s) (thread s).
Definition with_thread (p : pc) (s : hwst) : hwst :=
  mkHw (links s) (pool s) (seqno s) (out s) (lost s) p.
Definition broadcast (m : msg) (s : hwst) : hwst :=
  mkHw (links s) (pool s) (seqno s) (out s ++ [m]) (lost s) (thread s).
Definition lose (e : mxc_hw_event) (s : hwst) : hwst :=
  mkHw (links s) (pool s) (seqno s) (out s) (lost s ++ [e]) (thread s).

(** [seq++]. *)
Definition next_seq : M hwst Z :=
  s ← get; modify (fun s => mkHw (links s) (pool s) (u32 (seqno s + 1)) (out s) (lost s) (thread s));; mret (seqno s).

(** [list_entry]: the node a [list] field belongs to; there is none for a list head. *)
Definition list_entry (l : loc) : M hwst nat :=
  match l with Node i => mret i | _ => crash BadAccess end.

(** What memory allocation and netlink answer to a send or to the thread: whether there is
    a buffer, whether it has room for the message, and the result of the broadcast, which
    frees the buffer. *)
Record answers : Type := mkAns { alloc_ok : bool; room_ok : bool; cast_ret : Z }.

(** The event goes into the queue ([send_later]). *)
Definition send_later (e : mxc_hw_event) : M hwst Z :=
  s ← get;
  if list_empty FreeHead (links s) then mret (-1)
  else
    let list_node := next (links s) FreeHead in
    i ← list_entry list_node;
    modify (with_pool (fun j => if decide (j = i) then e else pool s j));;
    modify (with_links (list_move list_node EventHead));;
    mret 1.

(** [hw_event_send].  After a broadcast that fails, [kfree_skb] is called on the buffer that
    the broadcast has freed. *)
Definition hw_event_send (priority : Z) (new_event : mxc_hw_event) (a : answers) : M hwst Z :=
  if priority =? HWE_HIGH_PRIORITY then
    if negb (alloc_ok a) then send_later new_event
    else if negb (room_ok a) then send_later new_event
    else
      q ← next_seq;
      modify (broadcast (q, new_event));;
      if negb (cast_ret a =? 0) then crash BadAccess else mret 0
  else send_later new_event.

(** The thread takes the queue over: [tmp_head = event_head] with the neighbours redirected. *)
Definition splice (h : heap) : heap :=
  let h1 := set_prev TmpHead (prev h EventHead) (set_next TmpHead (next h EventHead) h) in
  let h2 := set_next (prev h1 TmpHead) TmpHead h1 in
  let h3 := set_prev (next h2 TmpHead) TmpHead h2 in
  INIT_LIST_HEAD EventHead h3.

(** [pos = list_entry(head->next), n = list_entry(pos->next)]. *)
Definition first_entry (h : heap) : pc := let p := next h TmpHead in Walking p (next h p).

(** The thread wakes up, or sleeps on when the queue is empty. *)
Definition thread_wake : M hwst unit :=
  s ← get;
  if list_empty EventHead (links s) then mret tt
  else modify (with_links splice);; modify (fun s => with_thread (first_entry (links s)) s).

(** One turn of the loop up to the broadcast: the event is copied and its node freed, or
    the event is dropped. *)
Definition thread_turn (pos n : loc) (a : answers) : M hwst unit :=
  if decide (pos = TmpHead) then modify (with_thread Waiting)
  else
    i ← list_entry pos;
    s ← get;
    if alloc_ok a && room_ok a then
      q ← next_seq;
      modify (with_links (list_move pos FreeHead));;
      modify (with_thread (Casting (q, pool s i) pos n))
    else
      modify (lose (pool s i));;
      modify (with_links (fun h => list_add_tail pos FreeHead (list_del pos h)));;
      modify (fun s => with_thread (Walking n (next (links s) n)) s).

(** The broadcast, whose result the thread ignores, and the step to the next node. *)
Definition thread_cast (m : msg) (n : loc) : M hwst unit :=
  modify (broadcast m);; modify (fun s => with_thread (Walking n (next (links s) n)) s).

(** One step of [hw_event_thread]. *)
Definition hw_event_thread (a : answers) : M hwst unit :=
  s ← get;
  match thread s with
  | Waiting => thread_wake
  | Walking pos n => thread_turn pos n a
  | Casting m _ n => thread_cast m n
  end.

(** The loop of [mxc_hw_event_init] over the nodes. *)
Fixpoint init_free (n : nat) (i : nat) (h : heap) : heap :=
  match n with
  | O => h
  | S n' => init_free n' (S i) (list_add_tail (Node i) FreeHead h)
  end.

(** [mxc_hw_event_init] when the socket is created, with anything in memory; the thread's
    own list head is empty. *)
Definition mxc_hw_event_init (h : heap) : hwst :=
  let h1 := INIT_LIST_HEAD EventHead (INIT_LIST_HEAD FreeHead (INIT_LIST_HEAD TmpHead h)) in
  mkHw (init_free EVENT_POOL_SIZE 0 h1) (fun _ => mkEvent 0 0) 0 [] [] Waiting.
