(* ===== verification/HwEventList.v ===== *)
(** * The linked lists of the event queue

    [dll h hd l]: from the head [hd], the heap [h] links the nodes [l] in this order, in both
    directions.  The operations of [list.h] change the list they work on as expected and
    leave every list that shares no node with it alone. *)

From stdpp Require Import base list sets.
From Stdlib Require Import ZArith Lia.
From S2P Require Import Prelude HwEvent.

Implicit Types (h : heap) (l : list loc) (x y hd : loc).

(** Neighbours in [l] point to each other. *)
Fixpoint chain h l : Prop :=
  match l with
  | a :: (c :: _) as r => next h a = c /\ prev h c = a /\ chain h r
  | _ => True
  end.

Definition dll h hd l : Prop := chain h (hd :: l ++ [hd]) /\ NoDup (hd :: l).

(** Heaps that agree on some locations. *)
Definition agree h h' (ls : list loc) : Prop := forall y, y ∈ ls -> next h' y = next h y /\ prev h' y = prev h y.

Lemma upd_eq f a v : upd_loc f a v a = v.
Proof. unfold upd_loc. by rewrite decide_True. Qed.
Lemma upd_ne f a v x : x <> a -> upd_loc f a v x = f x.
Proof. intros Hne. unfold upd_loc. by rewrite decide_False. Qed.

(** Of the last location only the back link matters, of the first only the forward link. *)
Lemma chain_frame h h' l :
  (forall y, y ∈ removelast l -> next h' y = next h y) -> (forall y, y ∈ tail l -> prev h' y = prev h y) ->
  chain h l -> chain h' l.
Proof.
  induction l as [|a [|c r] IH]; intros Hn Hp Hc; [done..|]. destruct Hc as (H1 & H2 & H3).
  change (removelast (a :: c :: r)) with (a :: removelast (c :: r)) in Hn. cbn [tail] in Hp.
  split; [rewrite Hn; [done|set_solver]|]. split; [rewrite Hp; [done|set_solver]|].
  apply IH; [set_solver| |done]. intros y Hy. apply Hp. cbn [tail] in Hy. set_solver.
Qed.

Lemma dll_frame h h' hd l : agree h h' (hd :: l) -> dll h hd l -> dll h' hd l.
Proof.
  intros Ha [Hc Hd]. split; [|done]. eapply chain_frame; [| |exact Hc].
  - intros y. change (hd :: l ++ [hd]) with ((hd :: l) ++ [hd]). rewrite removelast_last. intros Hy. by apply Ha.
  - intros y. cbn [tail]. intros [?| ->%list_elem_of_singleton]%elem_of_app; apply Ha; apply elem_of_cons; tauto.
Qed.

(** The neighbours of the head. *)
Lemma dll_next h hd l : dll h hd l -> next h hd = default hd (head l).
Proof. intros [Hc _]. destruct l; by destruct Hc. Qed.

Lemma chain_split h l1 a c l2 :
  chain h (l1 ++ a :: c :: l2) <-> chain h (l1 ++ [a]) /\ next h a = c /\ prev h c = a /\ chain h (c :: l2).
Proof.
  induction l1 as [|b [|b' l1] IH]; [cbn; tauto|cbn; tauto|]. cbn [app chain] in *. tauto.
Qed.

Lemma dll_prev h hd l : dll h hd l -> prev h hd = default hd (last l).
Proof.
  intros [Hc _]. destruct l as [|x l _] using rev_ind; [by destruct Hc as (_ & ? & _)|].
  rewrite last_snoc. cbn [default]. rewrite <- app_assoc in Hc. change (chain h ((hd :: l) ++ [x; hd])) in Hc.
  apply (chain_split h (hd :: l) x hd []) in Hc. apply Hc.
Qed.

Lemma dll_next_in h hd l : dll h hd l -> next h hd ∈ hd :: l.
Proof. intros Hd. rewrite (dll_next h hd l Hd). destruct l; set_solver. Qed.

Lemma dll_prev_in h hd l : dll h hd l -> prev h hd ∈ hd :: l.
Proof.
  intros Hd. rewrite (dll_prev h hd l Hd). destruct l as [|y l _] using rev_ind; [set_solver|]. rewrite last_snoc. set_solver.
Qed.

Lemma dll_empty h hd l : dll h hd l -> list_empty hd h = bool_decide (l = []).
Proof.
  intros Hd. unfold list_empty. rewrite (dll_next h hd l Hd). destruct Hd as [_ Hn].
  apply bool_decide_ext. destruct l as [|x l]; [done|]. cbn. split; [|done]. intros ->. inversion Hn; set_solver.
Qed.

(** ** Initialisation *)

Lemma dll_init h hd : dll (INIT_LIST_HEAD hd h) hd [].
Proof. split; [|by apply NoDup_singleton]. cbn. by rewrite !upd_eq. Qed.

Lemma agree_init h hd ls : hd ∉ ls -> agree h (INIT_LIST_HEAD hd h) ls.
Proof. intros Hh y Hy. cbn. by rewrite !upd_ne by set_solver. Qed.

(** ** Insertion and removal *)

(** A circular list cut before [l2]: the location before the cut and the one behind it. *)
Lemma cut hd l1 l2 :
  exists A p q B, hd :: l1 = A ++ [p] /\ l2 ++ [hd] = q :: B /\
    p = default hd (last l1) /\ q = default hd (head l2).
Proof.
  destruct l1 as [|p A _] using rev_ind.
  - destruct l2 as [|q B]; [by exists [], hd, hd, []|by exists [], hd, q, (B ++ [hd])].
  - rewrite last_snoc. destruct l2 as [|q B]; [by exists (hd :: A), p, hd, []|by exists (hd :: A), p, q, (B ++ [hd])].
Qed.

(** Both parts of a cut survive a change at the cut. *)
Lemma cut_frame h h' hd l1 l2 A p q B (P : loc -> Prop) :
  NoDup (hd :: l1 ++ l2) -> hd :: l1 = A ++ [p] -> l2 ++ [hd] = q :: B ->
  (forall y, P y -> y <> p -> next h' y = next h y) -> (forall y, P y -> y <> q -> prev h' y = prev h y) ->
  (forall y, y ∈ hd :: l1 ++ l2 -> P y) ->
  (chain h (A ++ [p]) -> chain h' (A ++ [p])) /\ (chain h (q :: B) -> chain h' (q :: B)).
Proof.
  intros Hd E1 E2 Hn Hp HP.
  pose proof Hd as [Hh (N1 & Hs12 & N2)%NoDup_app]%NoDup_cons.
  assert (NoDup (hd :: l1)) as Hd1 by (apply NoDup_cons; split; [set_solver|done]).
  assert (NoDup (l2 ++ [hd])) as Hd2.
  { rewrite Permutation_app_comm. cbn. apply NoDup_cons. split; [set_solver|done]. }
  assert (forall y, y ∈ l1 -> y ∉ l2 ++ [hd]) as Hsep.
  { intros y Hy [Hy'|Hy'%list_elem_of_singleton]%elem_of_app; [by apply (Hs12 y)|]. set_solver. }
  split; (eapply chain_frame; [intros y Hy; apply Hn|intros y Hy; apply Hp]).
  - apply HP. rewrite removelast_last in Hy. assert (y ∈ hd :: l1) by (rewrite E1; set_solver). set_solver.
  - rewrite removelast_last in Hy. rewrite E1 in Hd1. intros ->. apply NoDup_app in Hd1 as (_ & Hs & _). apply (Hs p); set_solver.
  - apply HP. rewrite <- E1 in Hy. cbn [tail] in Hy. set_solver.
  - rewrite <- E1 in Hy. cbn [tail] in Hy. intros ->. apply (Hsep q Hy). rewrite E2. set_solver.
  - apply HP. rewrite <- E2, removelast_last in Hy. set_solver.
  - rewrite <- E2, removelast_last in Hy. intros ->. assert (p ∈ hd :: l1) as [->|Hp1]%elem_of_cons by (rewrite E1; set_solver).
    + set_solver.
    + apply (Hsep p Hp1). set_solver.
  - apply HP. cbn [tail] in Hy. assert (y ∈ l2 ++ [hd]) by (rewrite E2; set_solver). set_solver.
  - cbn [tail] in Hy. intros ->. rewrite E2 in Hd2. apply NoDup_cons in Hd2 as [? _]. done.
Qed.

Lemma dll_insert h hd l1 l2 x :
  dll h hd (l1 ++ l2) -> x ∉ hd :: l1 ++ l2 ->
  dll (__list_add x (default hd (last l1)) (default hd (head l2)) h) hd (l1 ++ x :: l2).
Proof.
  intros [Hc Hd] Hx. destruct (cut hd l1 l2) as (A & p & q & B & E1 & E2 & <- & <-).
  assert (NoDup (hd :: l1 ++ x :: l2)) as Hd'.
  { apply NoDup_cons in Hd as [? Hd]. apply NoDup_cons. split; [set_solver|].
    rewrite <- Permutation_middle. apply NoDup_cons. split; [set_solver|done]. }
  split; [|done]. set (h' := __list_add x p q h).
  assert (p ∈ hd :: l1) as Hp by (rewrite E1; set_solver).
  assert (q ∈ l2 ++ [hd]) as Hq by (rewrite E2; set_solver).
  assert (forall y, y <> x -> y <> p -> next h' y = next h y) as En.
  { intros y H1 H2. unfold h'. cbn. by rewrite !upd_ne by done. }
  assert (forall y, y <> x -> y <> q -> prev h' y = prev h y) as Ep.
  { intros y H1 H2. unfold h'. cbn. by rewrite !upd_ne by done. }
  destruct (cut_frame h h' hd l1 l2 A p q B (fun y => y <> x) Hd E1 E2 En Ep) as [F1 F2]; [set_solver|].
  change (hd :: (l1 ++ l2) ++ [hd]) with ((hd :: l1 ++ l2) ++ [hd]) in Hc.
  change (hd :: (l1 ++ x :: l2) ++ [hd]) with ((hd :: l1 ++ x :: l2) ++ [hd]).
  rewrite app_comm_cons, <- app_assoc, E1, E2, <- app_assoc in Hc. cbn [app] in Hc. apply chain_split in Hc as (C1 & _ & _ & C2).
  rewrite app_comm_cons, <- app_assoc, E1. cbn [app]. rewrite E2, <- app_assoc. cbn [app].
  apply chain_split. split; [by apply F1|]. split; [unfold h'; cbn; by rewrite upd_eq|].
  split; [unfold h'; cbn; by rewrite upd_eq|].
  apply (chain_split h' [] x q B). split; [done|]. split; [unfold h'; cbn; rewrite upd_ne by set_solver; by rewrite upd_eq|].
  split; [unfold h'; cbn; rewrite upd_ne by set_solver; by rewrite upd_eq|]. by apply F2.
Qed.

Lemma dll_remove h hd l1 x l2 :
  dll h hd (l1 ++ x :: l2) ->
  prev h x = default hd (last l1) /\ next h x = default hd (head l2) /\
  dll (__list_del (prev h x) (next h x) h) hd (l1 ++ l2).
Proof.
  intros [Hc Hd]. destruct (cut hd l1 l2) as (A & p & q & B & E1 & E2 & <- & <-).
  assert (x ∉ hd :: l1 ++ l2 /\ NoDup (hd :: l1 ++ l2)) as [Hx Hd'].
  { apply NoDup_cons in Hd as [? Hd]. rewrite <- Permutation_middle in Hd. apply NoDup_cons in Hd as [? Hd].
    split; [set_solver|]. apply NoDup_cons. split; [set_solver|done]. }
  change (hd :: (l1 ++ x :: l2) ++ [hd]) with ((hd :: l1 ++ x :: l2) ++ [hd]) in Hc.
  rewrite app_comm_cons, <- app_assoc, E1 in Hc. cbn [app] in Hc. rewrite E2, <- app_assoc in Hc. cbn [app] in Hc.
  apply chain_split in Hc as (C1 & _ & -> & C2). apply (chain_split h [] x q B) in C2 as (_ & -> & _ & C2).
  split; [done|]. split; [done|]. split; [|done]. set (h' := __list_del p q h).
  destruct (cut_frame h h' hd l1 l2 A p q B (fun _ => True) Hd' E1 E2) as [F1 F2].
  { intros y _ Hy. unfold h'. cbn. by rewrite !upd_ne by done. }
  { intros y _ Hy. unfold h'. cbn. by rewrite !upd_ne by done. }
  { done. }
  change (hd :: (l1 ++ l2) ++ [hd]) with ((hd :: l1 ++ l2) ++ [hd]).
  rewrite app_comm_cons, <- app_assoc, E1, E2, <- app_assoc. cbn [app]. apply chain_split.
  split; [by apply F1|]. split; [unfold h'; cbn; by rewrite upd_eq|]. split; [unfold h'; cbn; by rewrite upd_eq|]. by apply F2.
Qed.

(** ** The operations of the driver *)

Lemma agree_add x p q h ls : x ∉ ls -> p ∉ ls -> q ∉ ls -> agree h (__list_add x p q h) ls.
Proof. intros Hx Hp Hq y Hy. cbn. by rewrite !upd_ne by set_solver. Qed.

Lemma agree_del p q h ls : p ∉ ls -> q ∉ ls -> agree h (__list_del p q h) ls.
Proof. intros Hp Hq y Hy. cbn. by rewrite !upd_ne by set_solver. Qed.

Lemma agree_trans h1 h2 h3 ls : agree h1 h2 ls -> agree h2 h3 ls -> agree h1 h3 ls.
Proof. intros H1 H2 y Hy. destruct (H1 y Hy), (H2 y Hy). split; congruence. Qed.

(** [list_add] at the front of a list, [list_add_tail] at its end. *)
Lemma list_add_dll h hd l x : dll h hd l -> x ∉ hd :: l -> dll (list_add x hd h) hd (x :: l).
Proof.
  intros Hd Hx. unfold list_add. rewrite (dll_next h hd l Hd). by apply (dll_insert h hd [] l x).
Qed.

Lemma list_add_tail_dll h hd l x : dll h hd l -> x ∉ hd :: l -> dll (list_add_tail x hd h) hd (l ++ [x]).
Proof.
  intros Hd Hx. unfold list_add_tail. rewrite (dll_prev h hd l Hd).
  apply (dll_insert h hd l [] x); by rewrite app_nil_r.
Qed.

(** [list_move] of the first node of one list to the front of another. *)
Lemma list_move_dll h hd1 x l1 hd2 l2 :
  dll h hd1 (x :: l1) -> dll h hd2 l2 -> (hd1 :: x :: l1) ## (hd2 :: l2) ->
  dll (list_move x hd2 h) hd1 l1 /\ dll (list_move x hd2 h) hd2 (x :: l2) /\
  (forall ls, ls ## (hd1 :: x :: l1) -> ls ## (hd2 :: l2) -> agree h (list_move x hd2 h) ls).
Proof.
  intros H1 H2 Hs. destruct (dll_remove h hd1 [] x l1 H1) as (Ep & En & Hr). cbn in Ep.
  pose proof (proj2 H1) as Hnd.
  assert (next h x ∈ hd1 :: l1) as Hn by (rewrite En; destruct l1; set_solver).
  set (h1 := __list_del (prev h x) (next h x) h) in *.
  assert (dll h1 hd2 l2) as H2'.
  { apply (dll_frame h); [|done]. apply agree_del; [rewrite Ep; set_solver|]. set_solver. }
  pose proof (dll_next_in h1 hd2 l2 H2') as Hn2.
  split; [|split].
  - apply (dll_frame h1); [|exact Hr]. unfold list_move. fold h1. apply agree_add; [|set_solver|set_solver].
    apply NoDup_cons in Hnd as [? [? ?]%NoDup_cons]. set_solver.
  - apply (list_add_dll h1); [done|set_solver].
  - intros ls Hl1 Hl2. apply (agree_trans h h1).
    + apply agree_del; [rewrite Ep|]; set_solver.
    + apply agree_add; set_solver.
Qed.

(** [list_del] of the first node of one list and [list_add_tail] to another. *)
Lemma list_del_tail_dll h hd1 x l1 hd2 l2 :
  dll h hd1 (x :: l1) -> dll h hd2 l2 -> (hd1 :: x :: l1) ## (hd2 :: l2) ->
  let h' := list_add_tail x hd2 (list_del x h) in
  dll h' hd1 l1 /\ dll h' hd2 (l2 ++ [x]) /\
  (forall ls, ls ## (hd1 :: x :: l1) -> ls ## (hd2 :: l2) -> agree h h' ls).
Proof.
  intros H1 H2 Hs. destruct (dll_remove h hd1 [] x l1 H1) as (Ep & En & Hr). cbn in Ep.
  pose proof (proj2 H1) as [Hnd1 [Hnd2 _]%NoDup_cons]%NoDup_cons.
  assert (next h x ∈ hd1 :: l1) as Hn by (rewrite En; destruct l1; set_solver).
  set (h1 := list_del x h).
  assert (forall ls, ls ## [hd1; next h x; x] -> agree h h1 ls) as Hag.
  { intros ls Hl. apply (agree_trans h (__list_del (prev h x) (next h x) h)); [apply agree_del; [rewrite Ep|]; set_solver|].
    intros y Hy. unfold h1, list_del. cbn. by rewrite !(upd_ne _ x) by set_solver. }
  assert (dll h1 hd1 l1) as H1'.
  { apply (dll_frame (__list_del (prev h x) (next h x) h)); [|exact Hr]. intros y Hy. unfold h1, list_del. cbn.
    by rewrite !(upd_ne _ x) by set_solver. }
  assert (dll h1 hd2 l2) as H2' by (apply (dll_frame h); [apply Hag; set_solver|done]).
  pose proof (dll_prev_in h1 hd2 l2 H2') as Hp2.
  split; [|split].
  - apply (dll_frame h1); [|exact H1']. apply agree_add; set_solver.
  - apply (list_add_tail_dll h1); [done|set_solver].
  - intros ls Hl1 Hl2. apply (agree_trans h h1); [apply Hag; set_solver|]. apply agree_add; set_solver.
Qed.

(** The thread takes the whole queue over. *)
Lemma splice_dll h q :
  dll h EventHead q -> q <> [] -> TmpHead ∉ q ->
  dll (splice h) TmpHead q /\ dll (splice h) EventHead [] /\
  (forall ls, ls ## (EventHead :: TmpHead :: q) -> agree h (splice h) ls).
Proof.
  intros Hd Hne Ht. pose proof (dll_next _ _ _ Hd) as En. pose proof (dll_prev _ _ _ Hd) as Ep.
  destruct Hd as [Hc [He Hnd]%NoDup_cons].
  destruct q as [|p A _] using rev_ind; [done|]. clear Hne. rewrite last_snoc in Ep. cbn in Ep.
  rewrite <- app_assoc in Hc. change (chain h ((EventHead :: A) ++ [p; EventHead])) in Hc.
  apply (chain_split h (EventHead :: A) p EventHead []) in Hc as (Hc & _).
  set (q := A ++ [p]) in *. change (chain h (EventHead :: q)) in Hc.
  assert (exists c r, q = c :: r) as (c & r & Eq) by (unfold q; destruct A; eauto).
  rewrite Eq in En, Hc. cbn in En. destruct Hc as (_ & _ & Hc). rewrite <- Eq in Hc.
  assert (p ∈ q /\ c ∈ q) as [Hp Hcq] by (split; [unfold q|rewrite Eq]; set_solver).
  assert (TmpHead <> p /\ TmpHead <> c /\ p <> EventHead /\ c <> EventHead) as (D1 & D2 & D3 & D4)
    by (repeat split; congruence).
  set (h' := splice h).
  assert (forall y, y <> EventHead -> y <> TmpHead -> y <> p -> next h' y = next h y) as Fn.
  { intros y H1 H2 H3. unfold h', splice. cbn. rewrite !upd_eq, Ep. by rewrite !upd_ne by done. }
  assert (forall y, y <> EventHead -> y <> TmpHead -> y <> c -> prev h' y = prev h y) as Fp.
  { intros y H1 H2 H3. unfold h', splice. cbn. rewrite !upd_eq, Ep.
    rewrite (upd_ne _ p _ TmpHead), upd_eq, En by done. by rewrite !upd_ne by done. }
  split; [|split].
  - split; [|apply NoDup_cons; split; done]. unfold q. rewrite <- app_assoc.
    change (chain h' ((TmpHead :: A) ++ [p; TmpHead])). apply chain_split.
    assert (chain h' q) as Hq.
    { eapply chain_frame; [| |exact Hc].
      - intros y Hy. unfold q in Hy. rewrite removelast_last in Hy. apply NoDup_app in Hnd as (_ & Hs & _).
        apply Fn; intros ->; [apply He|apply Ht|apply (Hs p)]; unfold q; set_solver.
      - intros y Hy. rewrite Eq in Hy, Hnd. cbn [tail] in Hy. apply NoDup_cons in Hnd as [Hcr _].
        apply Fp; intros ->; [apply He|apply Ht|done]; rewrite Eq; set_solver. }
    change ((TmpHead :: A) ++ [p]) with (TmpHead :: q). rewrite Eq in Hq |- *. split; [|].
    + split; [unfold h', splice; cbn|split; [unfold h', splice; cbn|exact Hq]].
      * rewrite !upd_eq, Ep, !upd_ne by done. by rewrite upd_eq.
      * rewrite !upd_eq, Ep, (upd_ne _ p _ TmpHead), upd_eq, En by done. rewrite upd_ne by done. by rewrite upd_eq.
    + split; [|split; [|done]]; unfold h', splice; cbn.
      * rewrite !upd_eq, Ep, upd_ne by done. by rewrite upd_eq.
      * rewrite !upd_eq, Ep, (upd_ne _ p _ TmpHead), upd_eq, En by done. rewrite !upd_ne by done. by rewrite upd_eq.
  - apply dll_init.
  - intros ls Hl y Hy. split; [apply Fn|apply Fp]; set_solver.
Qed.
