(* ===== verification/HwEventMain.v ===== *)
(** * The hardware event queue: no node and no event gets lost

    The invariant of every interleaving of sends with the steps of the thread: the three
    lists are intact and share the ten nodes among them, and the events that were sent are
    those broadcast, dropped, in flight or still in the queue. *)

From stdpp Require Import base list sets.
From Stdlib Require Import ZArith Lia.
From S2P Require Import Prelude HwEvent HwEventList.

Implicit Types (s : hwst) (e : mxc_hw_event) (F Q T : list nat).

Abbreviation nodes := (fmap (M := list) Node).

(** The message the thread is about to broadcast. *)
Definition in_flight s : list mxc_hw_event := match thread s with Casting m _ _ => [snd m] | _ => [] end.

(** The thread's pointers into its own list. *)
Definition pc_ok (h : heap) (p : pc) T : Prop :=
  match p with
  | Waiting => T = []
  | Walking pos n => pos = next h TmpHead /\ n = next h pos
  | Casting _ _ n => n = next h TmpHead
  end.

(** The free nodes [F], the queue [Q] and the nodes [T] the thread has taken over. *)
Record queue_inv F Q T s : Prop := {
  free_list : dll (links s) FreeHead (nodes F);
  event_list : dll (links s) EventHead (nodes Q);
  tmp_list : dll (links s) TmpHead (nodes T);
  all_nodes : F ++ Q ++ T ≡ₚ seq 0 EVENT_POOL_SIZE;
  pointers : pc_ok (links s) (thread s) T;
}.

(** The events that are accounted for. *)
Definition account Q T s : list mxc_hw_event :=
  (snd <$> out s) ++ lost s ++ in_flight s ++ (pool s <$> Q ++ T).

(** Sends and steps of the thread, in any order, with any answers of the kernel; [es] are
    the events of the sends that did not report a failure. *)
Inductive run : list mxc_hw_event -> hwst -> Prop :=
| run_init h : run [] (mxc_hw_event_init h)
| run_send es s priority e a r s' :
    run es s -> hw_event_send priority e a s = Ret (r, s') -> run (if r =? -1 then es else es ++ [e]) s'
| run_thread es s a s' : run es s -> hw_event_thread a s = Ret (tt, s') -> run es s'.

(** ** Nodes *)

Lemma nodup_nodes F Q T : F ++ Q ++ T ≡ₚ seq 0 EVENT_POOL_SIZE -> NoDup (F ++ Q ++ T).
Proof. intros ->. apply NoDup_seq. Qed.

Lemma elem_nodes i l : Node i ∈ nodes l <-> i ∈ l.
Proof. rewrite list_elem_of_fmap. split; [by intros (j & [= ->] & Hj)|eauto]. Qed.

Lemma heads_apart l hd : (forall i, hd <> Node i) -> hd ∉ nodes l.
Proof. intros Hh (i & -> & _)%list_elem_of_fmap. by eapply Hh. Qed.

(** Lists of different heads on different nodes share nothing. *)
Lemma lists_apart hd1 hd2 l1 l2 :
  (forall i, hd1 <> Node i) -> (forall i, hd2 <> Node i) -> hd1 <> hd2 -> (forall i, i ∈ l1 -> i ∉ l2) ->
  (hd1 :: nodes l1) ## (hd2 :: nodes l2).
Proof.
  intros H1 H2 Hne Hl y [->|(i & -> & Hi)%list_elem_of_fmap]%elem_of_cons Hy;
    apply elem_of_cons in Hy as [E|(j & E & Hj)%list_elem_of_fmap].
  - done.
  - by apply (H1 j).
  - by apply (H2 i).
  - injection E as ->. by apply (Hl j).
Qed.

(** ** Initialisation *)

Lemma init_free_dll n i h F :
  dll h FreeHead (nodes F) -> (forall j, j ∈ F -> (j < i)%nat) ->
  dll (init_free n i h) FreeHead (nodes (F ++ seq i n)) /\
  (forall hd, hd = EventHead \/ hd = TmpHead -> agree h (init_free n i h) [hd]).
Proof.
  revert i h F. induction n as [|n IH]; intros i h F Hd Hlt; cbn [init_free seq].
  { rewrite app_nil_r. split; [done|]. by intros hd _ y. }
  assert (Node i ∉ FreeHead :: nodes F) as Hi.
  { intros [E|Hi%elem_nodes]%elem_of_cons; [done|]. specialize (Hlt i Hi). lia. }
  pose proof (list_add_tail_dll h FreeHead (nodes F) (Node i) Hd Hi) as Hd1.
  change [Node i] with (nodes [i]) in Hd1. rewrite <- fmap_app in Hd1.
  destruct (IH (S i) _ (F ++ [i]) Hd1) as [H1 H2].
  { intros j [Hj|Hj%list_elem_of_singleton]%elem_of_app; [specialize (Hlt j Hj)|]; lia. }
  split; [by rewrite <- app_assoc in H1|]. intros hd Hh. eapply agree_trans; [|by apply H2].
  pose proof (dll_prev_in h FreeHead _ Hd) as Hp.
  apply agree_add; rewrite list_elem_of_singleton; destruct Hh as [-> | ->]; try done;
    intros E; rewrite E in Hp; apply elem_of_cons in Hp as [?|(j & ? & _)%list_elem_of_fmap]; done.
Qed.

Lemma init_inv h : queue_inv (seq 0 EVENT_POOL_SIZE) [] [] (mxc_hw_event_init h).
Proof.
  set (h1 := INIT_LIST_HEAD TmpHead h). set (h2 := INIT_LIST_HEAD FreeHead h1). set (h3 := INIT_LIST_HEAD EventHead h2).
  assert (dll h3 EventHead [] /\ dll h3 FreeHead [] /\ dll h3 TmpHead []) as (D1 & D2 & D3).
  { split; [apply dll_init|]. split.
    - apply (dll_frame h2); [apply agree_init; set_solver|apply dll_init].
    - apply (dll_frame h2); [apply agree_init; set_solver|].
      apply (dll_frame h1); [apply agree_init; set_solver|apply dll_init]. }
  destruct (init_free_dll EVENT_POOL_SIZE 0 h3 [] D2) as [H1 H2]; [set_solver|].
  constructor.
  - exact H1.
  - apply (dll_frame h3); [apply H2; by left|exact D1].
  - apply (dll_frame h3); [apply H2; by right|exact D3].
  - by rewrite app_nil_r.
  - done.
Qed.

(** ** Sends *)

(** The thread's list is what its pointers depend on. *)
Lemma pc_ok_agree h h' p T :
  dll h TmpHead (nodes T) -> agree h h' (TmpHead :: nodes T) -> pc_ok h p T -> pc_ok h' p T.
Proof.
  intros Hd Ha. pose proof (Ha TmpHead ltac:(set_solver)) as [E _].
  pose proof (dll_next_in h TmpHead _ Hd) as Hn.
  destruct p; cbn; [done| |by rewrite E]. intros [-> ->]. rewrite E. split; [done|]. by destruct (Ha _ Hn).
Qed.

Lemma send_later_spec e F Q T s :
  queue_inv F Q T s ->
  match F with
  | [] => send_later e s = Ret (-1, s)
  | i :: F' => exists s', send_later e s = Ret (1, s') /\ queue_inv F' (i :: Q) T s' /\
      (forall j, pool s' j = if decide (j = i) then e else pool s j) /\
      out s' = out s /\ lost s' = lost s /\ thread s' = thread s
  end.
Proof.
  intros [HF HQ HT Hall Hpc]. pose proof (nodup_nodes _ _ _ Hall) as Hnd.
  unfold send_later, get, mbind, M_bind. cbn beta iota. rewrite (dll_empty _ _ _ HF).
  destruct F as [|i F']; [done|]. cbn [fmap list_fmap]. rewrite bool_decide_false by done.
  rewrite (dll_next _ _ _ HF). cbn [default head list_entry fmap list_fmap from_option id].
  cbn in Hnd. apply NoDup_cons in Hnd as [Hi (N1 & N2 & N3)%NoDup_app].
  assert (forall j, j ∈ i :: F' -> j ∉ Q) as S1 by set_solver.
  assert (forall j, j ∈ T -> j ∉ i :: F') as S2 by set_solver.
  assert (forall j, j ∈ T -> j ∉ Q) as S3 by (apply NoDup_app in N3 as (_ & N3 & _); intros j H1 H2; by apply (N3 j)).
  destruct (list_move_dll (links s) FreeHead (Node i) (nodes F') EventHead (nodes Q) HF HQ) as (M1 & M2 & M3).
  { by apply (lists_apart _ _ (i :: F') Q). }
  eexists. split; [reflexivity|]. split; [|done]. constructor; cbn [links with_links with_pool].
  - exact M1.
  - exact M2.
  - apply (dll_frame (links s)); [|done]. apply M3; [by apply (lists_apart _ _ T (i :: F'))|by apply lists_apart].
  - rewrite <- Hall. cbn. by rewrite (Permutation_middle (F')).
  - eapply (pc_ok_agree (links s)); [exact HT| |exact Hpc].
    apply M3; [by apply (lists_apart _ _ T (i :: F'))|by apply lists_apart].
Qed.

(** A node that is not among the queued ones may be overwritten. *)
Lemma pool_fresh f g i (e : mxc_hw_event) (l : list nat) :
  i ∉ l -> (forall j, g j = if decide (j = i) then e else f j) -> g <$> l = f <$> l.
Proof.
  intros Hi Hg. apply list_fmap_ext. intros k j Hj. rewrite Hg, decide_False; [done|]. intros ->.
  by apply Hi, (list_elem_of_lookup_2 _ k).
Qed.

Lemma send_later_account e F Q T s es r s' :
  queue_inv F Q T s -> es ≡ₚ account Q T s -> send_later e s = Ret (r, s') ->
  exists F' Q', queue_inv F' Q' T s' /\ (if r =? -1 then es else es ++ [e]) ≡ₚ account Q' T s' /\
    (r = -1 <-> F = []) /\ (r = -1 \/ r = 1).
Proof.
  intros Hi Ha E. pose proof (send_later_spec e F Q T s Hi) as Hs. destruct F as [|i F'].
  - rewrite Hs in E. injection E as <- <-. exists [], Q. split; [done|]. split; [done|]. tauto.
  - destruct Hs as (s1 & E1 & H1 & Hp & Ho & Hl & Ht). rewrite E1 in E. injection E as <- <-.
    exists F', (i :: Q). split; [done|]. split; [|split; [done|by right]]. cbn [Z.eqb]. rewrite Ha. unfold account, in_flight.
    rewrite Ho, Hl, Ht. cbn [app fmap list_fmap]. rewrite Hp, decide_True by done.
    assert (i ∉ Q ++ T) as Hfresh.
    { pose proof (nodup_nodes _ _ _ (all_nodes _ _ _ _ Hi)) as [N _]%NoDup_cons. set_solver. }
    rewrite (pool_fresh (pool s) (pool s1) i e (Q ++ T) Hfresh Hp). rewrite <- Permutation_cons_append.
    rewrite !app_assoc. by rewrite Permutation_middle.
Qed.

(** ** The thread *)

(** The lists of a state share no node. *)
Lemma inv_apart F Q T s :
  queue_inv F Q T s ->
  (FreeHead :: nodes F) ## (EventHead :: nodes Q) /\ (FreeHead :: nodes F) ## (TmpHead :: nodes T) /\
  (EventHead :: nodes Q) ## (TmpHead :: nodes T).
Proof.
  intros [_ _ _ Hall _]. apply nodup_nodes, NoDup_app in Hall as (_ & N1 & (_ & N2 & _)%NoDup_app).
  split; [|split]; apply lists_apart; try done; set_solver.
Qed.

(** What a step of the thread leaves: intact lists, and the same events accounted for. *)
Definition thread_moved Q T s s' : Prop :=
  exists F' Q' T', queue_inv F' Q' T' s' /\ account Q' T' s' ≡ₚ account Q T s.

Lemma wake_takes F Q T s :
  queue_inv F Q T s -> thread s = Waiting -> Q <> [] ->
  wp thread_wake (fun _ s' => queue_inv F [] Q s' /\ (exists p n, thread s' = Walking p n) /\
    pool s' = pool s /\ out s' = out s /\ lost s' = lost s) s.
Proof.
  intros Hi Ht HQ0. pose proof (inv_apart _ _ _ _ Hi) as (A1 & A2 & A3). pose proof Hi as [HF HQ HT Hall Hpc].
  rewrite Ht in Hpc. cbn in Hpc. subst T. unfold thread_wake. apply wp_bind. unfold wp at 1, get.
  assert (nodes Q <> []) as EQ by (by destruct Q). rewrite (dll_empty _ _ _ HQ), bool_decide_false by done.
  apply wp_bind, wp_modify, wp_modify.
  destruct (splice_dll (links s) (nodes Q) HQ EQ) as (S1 & S2 & S3); [set_solver|].
  split; [constructor; cbn [links with_links with_thread thread]|split; [by do 2 eexists|done]].
  - apply (dll_frame (links s)); [|done]. apply S3. set_solver.
  - exact S2.
  - exact S1.
  - by rewrite app_nil_r in Hall.
  - done.
Qed.

Lemma wake_moves F Q T s :
  queue_inv F Q T s -> thread s = Waiting -> wp thread_wake (fun _ s' => thread_moved Q T s s') s.
Proof.
  intros Hi Ht. pose proof Hi as [_ HQ _ _ Hpc]. rewrite Ht in Hpc. cbn in Hpc. subst T.
  destruct (decide (Q = [])) as [->|EQ].
  - unfold thread_wake. apply wp_bind. unfold wp at 1, get. rewrite (dll_empty _ _ _ HQ). cbn.
    apply wp_ret. by exists F, [], [].
  - eapply wp_mono; [by eapply wake_takes|]. intros ? s' (H' & (p' & n' & Ht') & Ep & Eo & El). exists F, [], Q.
    split; [done|]. unfold account, in_flight. by rewrite Ht, Ht', Ep, Eo, El, app_nil_r.
Qed.

(** The thread's first node, and the pointer to the next. *)
Lemma first_node h i T :
  dll h TmpHead (nodes (i :: T)) -> next h TmpHead = Node i /\ next h (Node i) = default TmpHead (head (nodes T)).
Proof.
  intros Hd. split; [by rewrite (dll_next _ _ _ Hd)|]. by destruct (dll_remove h TmpHead [] (Node i) (nodes T) Hd) as (_ & E & _).
Qed.

(** One turn: the end of the list, an event copied for the broadcast, an event dropped. *)
Lemma turn_end a pos n F Q s :
  queue_inv F Q [] s -> thread s = Walking pos n ->
  thread_turn pos n a s = Ret (tt, with_thread Waiting s) /\ queue_inv F Q [] (with_thread Waiting s).
Proof.
  intros Hi Ht. pose proof Hi as [HF HQ HT Hall Hpc]. rewrite Ht in Hpc. destruct Hpc as [-> ->].
  unfold thread_turn. rewrite (dll_next _ _ _ HT). split; [done|]. by constructor.
Qed.

Lemma turn_takes a pos n F Q i T s :
  queue_inv F Q (i :: T) s -> thread s = Walking pos n -> alloc_ok a && room_ok a = true ->
  wp (thread_turn pos n a) (fun _ s' => queue_inv (i :: F) Q T s' /\ thread s' = Casting (seqno s, pool s i) pos n /\
    pool s' = pool s /\ out s' = out s /\ lost s' = lost s) s.
Proof.
  intros Hi Ht Ha. pose proof (inv_apart _ _ _ _ Hi) as (A1 & A2 & A3). pose proof Hi as [HF HQ HT Hall Hpc].
  rewrite Ht in Hpc. destruct Hpc as [-> ->]. unfold thread_turn. destruct (first_node _ _ _ HT) as [-> En].
  rewrite decide_False by done. apply wp_bind, wp_ret, wp_bind. unfold wp at 1, get. rewrite Ha.
  assert ((TmpHead :: Node i :: nodes T) ## (FreeHead :: nodes F)) as A4 by set_solver.
  destruct (list_move_dll (links s) TmpHead (Node i) (nodes T) FreeHead (nodes F) HT HF A4) as (M1 & M2 & M3).
  apply wp_bind, wp_bind. unfold wp at 1, get. apply wp_bind, wp_modify, wp_ret, wp_bind, wp_modify, wp_modify.
  split; [constructor; cbn [links with_links with_thread thread]|done].
  - exact M2.
  - apply (dll_frame (links s)); [|done]. apply M3; set_solver.
  - exact M1.
  - rewrite <- Hall. cbn. rewrite !app_assoc. by rewrite Permutation_middle.
  - cbn [pc_ok]. by rewrite En, (dll_next _ _ _ M1).
Qed.

Lemma turn_drops a pos n F Q i T s :
  queue_inv F Q (i :: T) s -> thread s = Walking pos n -> alloc_ok a && room_ok a = false ->
  wp (thread_turn pos n a) (fun _ s' => queue_inv (F ++ [i]) Q T s' /\ in_flight s' = [] /\
    pool s' = pool s /\ out s' = out s /\ lost s' = lost s ++ [pool s i]) s.
Proof.
  intros Hi Ht Ha. pose proof (inv_apart _ _ _ _ Hi) as (A1 & A2 & A3). pose proof Hi as [HF HQ HT Hall Hpc].
  rewrite Ht in Hpc. destruct Hpc as [-> ->]. unfold thread_turn. destruct (first_node _ _ _ HT) as [-> En].
  rewrite decide_False by done. apply wp_bind, wp_ret, wp_bind. unfold wp at 1, get. rewrite Ha.
  assert ((TmpHead :: Node i :: nodes T) ## (FreeHead :: nodes F)) as A4 by set_solver.
  destruct (list_del_tail_dll (links s) TmpHead (Node i) (nodes T) FreeHead (nodes F) HT HF A4) as (M1 & M2 & M3).
  apply wp_bind, wp_modify, wp_bind, wp_modify, wp_modify.
  split; [constructor; cbn [links with_links with_thread thread lose]|done].
  - rewrite fmap_app. exact M2.
  - apply (dll_frame (links s)); [|done]. apply M3; set_solver.
  - exact M1.
  - rewrite <- Hall. rewrite <- app_assoc. cbn. f_equiv. by rewrite <- Permutation_middle.
  - cbn [pc_ok]. split; [by rewrite En, (dll_next _ _ _ M1)|done].
Qed.

(** A broadcast. *)
Lemma cast_next m pos n F Q T s :
  queue_inv F Q T s -> thread s = Casting m pos n ->
  wp (thread_cast m n) (fun _ s' => queue_inv F Q T s' /\ (exists p' n', thread s' = Walking p' n') /\
    pool s' = pool s /\ out s' = out s ++ [m] /\ lost s' = lost s) s.
Proof.
  intros [HF HQ HT Hall Hpc] Ht. rewrite Ht in Hpc. cbn in Hpc. subst n. unfold thread_cast.
  apply wp_bind, wp_modify, wp_modify. split; [by constructor|]. split; [by do 2 eexists|done].
Qed.

Lemma turn_moves a pos n F Q T s :
  queue_inv F Q T s -> thread s = Walking pos n -> wp (thread_turn pos n a) (fun _ s' => thread_moved Q T s s') s.
Proof.
  intros Hi Ht. destruct T as [|i T].
  - destruct (turn_end a pos n F Q s Hi Ht) as [E H']. unfold wp. rewrite E. exists F, Q, []. split; [done|].
    unfold account, in_flight. cbn. by rewrite Ht.
  - destruct (alloc_ok a && room_ok a) eqn:Ea.
    + eapply wp_mono; [by eapply turn_takes|]. intros ? s' (H' & Ht' & Ep & Eo & El). exists (i :: F), Q, T. split; [done|].
      unfold account, in_flight. rewrite Ht, Ht', Ep, Eo, El. cbn. rewrite !fmap_app. cbn. do 2 f_equiv. by rewrite Permutation_middle.
    + eapply wp_mono; [by eapply turn_drops|]. intros ? s' (H' & Hf & Ep & Eo & El). exists (F ++ [i]), Q, T. split; [done|].
      unfold account. rewrite Hf, Ep, Eo, El. unfold in_flight. rewrite Ht. cbn. rewrite <- !app_assoc, !fmap_app. cbn.
      do 2 f_equiv. by rewrite Permutation_middle.
Qed.

Lemma thread_moves a F Q T s :
  queue_inv F Q T s -> wp (hw_event_thread a) (fun _ s' => thread_moved Q T s s') s.
Proof.
  intros Hi. unfold hw_event_thread. apply wp_bind. unfold wp at 1, get. destruct (thread s) as [|pos n|m pos n] eqn:Ht.
  - by eapply wake_moves.
  - by eapply turn_moves.
  - eapply wp_mono; [by eapply cast_next|]. intros ? s' (H' & (p' & n' & Ht') & Ep & Eo & El). exists F, Q, T. split; [done|].
    unfold account, in_flight. rewrite Ht, Ht', Ep, Eo, El, (fmap_app snd (out s)), <- app_assoc. cbn. f_equiv.
    by rewrite Permutation_middle.
Qed.

(** ** The thread left alone *)

Fixpoint thread_steps (n : nat) (a : answers) : M hwst unit :=
  match n with
  | O => mret tt
  | S n' => hw_event_thread a;; thread_steps n' a
  end.

Lemma walk_drains a F Q T pos n s :
  alloc_ok a && room_ok a = true -> queue_inv F Q T s -> thread s = Walking pos n ->
  wp (thread_steps (2 * length T + 1) a) (fun _ s' => thread s' = Waiting /\ queue_inv (rev T ++ F) Q [] s' /\
    snd <$> out s' = (snd <$> out s) ++ (pool s <$> T) /\ lost s' = lost s) s.
Proof.
  intros Ha. revert F pos n s. induction T as [|i T IH]; intros F pos n s Hi Ht.
  - change (wp (hw_event_thread a;; mret tt) (fun _ s' => thread s' = Waiting /\ queue_inv F Q [] s' /\
      snd <$> out s' = (snd <$> out s) ++ [] /\ lost s' = lost s) s).
    destruct (turn_end a pos n F Q s Hi Ht) as [E H']. apply wp_bind. unfold hw_event_thread. apply wp_bind. unfold wp at 1, get.
    rewrite Ht. unfold wp at 1. rewrite E. apply wp_ret. rewrite app_nil_r. done.
  - replace (2 * length (i :: T) + 1)%nat with (S (S (2 * length T + 1))) by (cbn; lia). cbn [thread_steps].
    apply wp_bind. unfold hw_event_thread at 1. apply wp_bind. unfold wp at 1, get. rewrite Ht.
    eapply wp_mono; [by eapply turn_takes|]. intros ? s1 (H1 & Ht1 & Ep1 & Eo1 & El1).
    apply wp_bind. unfold hw_event_thread at 1. apply wp_bind. unfold wp at 1, get. rewrite Ht1.
    eapply wp_mono; [by eapply cast_next|]. intros ? s2 (H2 & (p' & n' & Ht2) & Ep2 & Eo2 & El2).
    eapply wp_mono; [by eapply IH|]. intros ? s3 (Ht3 & H3 & Eo3 & El3). split; [done|].
    cbn [rev]. rewrite <- app_assoc. split; [done|]. rewrite Eo3, Eo2, Ep2, Ep1, Eo1, fmap_app, <- app_assoc. split; [done|]. congruence.
Qed.

Lemma queue_drains a F Q T s :
  alloc_ok a && room_ok a = true -> queue_inv F Q T s -> thread s = Waiting -> Q <> [] ->
  wp (thread_steps (2 * length Q + 2) a) (fun _ s' => thread s' = Waiting /\ queue_inv (rev Q ++ F) [] [] s' /\
    snd <$> out s' = (snd <$> out s) ++ (pool s <$> Q) /\ lost s' = lost s) s.
Proof.
  intros Ha Hi Ht HQ. replace (2 * length Q + 2)%nat with (S (2 * length Q + 1)) by lia. cbn [thread_steps].
  apply wp_bind. unfold hw_event_thread. apply wp_bind. unfold wp at 1, get. rewrite Ht.
  eapply wp_mono; [by eapply wake_takes|]. intros ? s1 (H1 & (p' & n' & Ht1) & Ep & Eo & El).
  eapply wp_mono; [by eapply walk_drains|]. intros ? s2 (Ht2 & H2 & Eo2 & El2).
  split; [done|]. split; [done|]. split; congruence.
Qed.

(** ** Properties *)

Lemma send_cases priority e a s r s' :
  hw_event_send priority e a s = Ret (r, s') ->
  send_later e s = Ret (r, s') \/
  (r = 0 /\ links s' = links s /\ pool s' = pool s /\ out s' = out s ++ [(seqno s, e)] /\ lost s' = lost s /\ thread s' = thread s).
Proof.
  unfold hw_event_send. destruct (priority =? _); [|by left]. destruct (negb (alloc_ok a)); [by left|].
  destruct (negb (room_ok a)); [by left|]. destruct (negb (cast_ret a =? 0)) eqn:E; unfold next_seq; intros Hr; run_inv.
  by right.
Qed.

Lemma run_inv_holds es s : run es s -> exists F Q T, queue_inv F Q T s /\ es ≡ₚ account Q T s.
Proof.
  induction 1 as [h|es s pr e a r s' _ IH E|es s a s' _ IH E].
  - exists (seq 0 EVENT_POOL_SIZE), [], []. split; [apply init_inv|done].
  - destruct IH as (F & Q & T & Hi & Ha). apply send_cases in E as [E|(-> & El & Ep & Eo & Els & Et)].
    + destruct (send_later_account e F Q T s es r s' Hi Ha E) as (F' & Q' & H1 & H2 & _). by exists F', Q', T.
    + exists F, Q, T. split; [destruct Hi; constructor; by rewrite ?El, ?Et|]. cbn [Z.eqb]. rewrite Ha.
      unfold account, in_flight. rewrite Ep, Eo, Els, Et, (fmap_app snd (out s)). generalize (lost s ++ match thread s with Casting m _ _ => [snd m] | _ => [] end ++
        (pool s <$> Q ++ T)). intros R. rewrite <- !app_assoc. f_equiv. apply Permutation_app_comm.
  - destruct IH as (F & Q & T & Hi & Ha). pose proof (thread_moves a F Q T s Hi) as W. unfold wp in W. rewrite E in W.
    destruct W as (F' & Q' & T' & H1 & H2). exists F', Q', T'. split; [done|]. by rewrite Ha, H2.
Qed.

(** Whether a send goes out at once. *)
Definition immediate (priority : Z) (a : answers) : bool :=
  (priority =? HWE_HIGH_PRIORITY) && alloc_ok a && room_ok a.

(** C27: no node and no event gets lost.  Whatever sends come in, between whatever steps of the
    thread, and whatever the kernel answers: the three linked lists are intact and share the
    ten nodes, and the events that sends accepted are exactly those broadcast, those
    dropped because there was no memory, the one in flight and those in the queue.  The
    thread's next step returns.  A send that is queued is refused exactly when no node is
    free; one that goes out at once returns 0, or faults when the broadcast reports an
    error (the buffer is freed twice).  A sleeping thread, left alone with memory available,
    broadcasts the queued events in the order of the queue, the newest first, and frees
    their nodes. *)
Theorem hw_events_conserved es s :
  run es s ->
  exists F Q T, queue_inv F Q T s /\ es ≡ₚ account Q T s /\
    (forall a, exists s', hw_event_thread a s = Ret (tt, s')) /\
    (forall priority e a,
       if immediate priority a then
         if cast_ret a =? 0 then exists s', hw_event_send priority e a s = Ret (0, s')
         else hw_event_send priority e a s = Crash BadAccess
       else
         match F with
         | [] => hw_event_send priority e a s = Ret (-1, s)
         | i :: F' => exists s', hw_event_send priority e a s = Ret (1, s') /\ queue_inv F' (i :: Q) T s' /\ pool s' i = e
         end) /\
    (forall a, alloc_ok a && room_ok a = true -> thread s = Waiting -> Q <> [] ->
       exists s', thread_steps (2 * length Q + 2) a s = Ret (tt, s') /\ thread s' = Waiting /\
         queue_inv (rev Q ++ F) [] [] s' /\ snd <$> out s' = (snd <$> out s) ++ (pool s <$> Q)).
Proof.
  intros Hr. destruct (run_inv_holds es s Hr) as (F & Q & T & Hi & Ha). exists F, Q, T.
  split; [done|]. split; [done|]. split; [|split].
  - intros a. destruct (proj1 (wp_run _ _ _) (thread_moves a F Q T s Hi)) as ([] & s' & E & _). eauto.
  - intros priority e a. pose proof (send_later_spec e F Q T s Hi) as Hs. unfold immediate, hw_event_send.
    destruct (priority =? HWE_HIGH_PRIORITY), (alloc_ok a), (room_ok a); cbn [andb negb];
      try by (destruct F; [done|]; destruct Hs as (s' & E & H' & Hp & _); exists s'; rewrite Hp, decide_True by done).
    destruct (cast_ret a =? 0); [by eexists|done].
  - intros a Hok Ht HQ. destruct (proj1 (wp_run _ _ _) (queue_drains a F Q T s Hok Hi Ht HQ)) as ([] & s' & E & H1 & H2 & H3 & _).
    by exists s'.
Qed.

(** ** Instances *)

Definition kernel_ok : answers := mkAns true true 0.
Definition silent : answers := mkAns true true (-3).
Definition empty_heap : heap := mkHeap (fun x => x) (fun x => x).

(** The state a computation leaves. *)
Definition after {A} (m : M hwst A) s : hwst := match m s with Ret (_, s') => s' | Crash _ => s end.

(** Two events are queued while the thread sleeps. *)
Definition send_default (e : mxc_hw_event) s : hwst := after (hw_event_send HWE_DEF_PRIORITY e kernel_ok) s.
Definition one_queued : hwst := send_default (mkEvent 7 1) (mxc_hw_event_init empty_heap).
Definition two_queued : hwst := send_default (mkEvent 7 2) one_queued.

Lemma two_queued_run : run [mkEvent 7 1; mkEvent 7 2] two_queued.
Proof.
  apply (run_send [mkEvent 7 1] one_queued HWE_DEF_PRIORITY (mkEvent 7 2) kernel_ok 1 two_queued); [|reflexivity].
  apply (run_send [] (mxc_hw_event_init empty_heap) HWE_DEF_PRIORITY (mkEvent 7 1) kernel_ok 1 one_queued); [|reflexivity].
  apply (run_init empty_heap).
Qed.

Lemma hw_events_conserved_witness :
  exists F Q T, queue_inv F Q T two_queued /\ [mkEvent 7 1; mkEvent 7 2] ≡ₚ account Q T two_queued.
Proof.
  destruct (hw_events_conserved [mkEvent 7 1; mkEvent 7 2] two_queued two_queued_run) as (F & Q & T & H1 & H2 & _).
  exists F, Q, T. split; [exact H1|exact H2].
Defined.

(** The thread broadcasts the second first; an event of high priority that nobody listens
    for is a fault. *)
Example newest_first : out (after (thread_steps 6 kernel_ok) two_queued) = [(0, mkEvent 7 2); (1, mkEvent 7 1)].
Proof. vm_compute. reflexivity. Qed.

Example nobody_listens : hw_event_send HWE_HIGH_PRIORITY (mkEvent 7 1) silent two_queued = Crash BadAccess.
Proof. vm_compute. reflexivity. Qed.
